(* ===== verification/_CoqProject ===== *)
-Q . S2P
Prelude.v
Monad.v
EventLoop.v
EventLoopRules.v
EventLoopSpec.v
Text.v
Message.v
MessageRules.v
Crc.v
TiOnewire.v
SocketConnection.v
Config.v
Sockets.v
Log.v
Router.v
RouterRules.v
RouterProps.v
RouterQueue.v
Application.v
CanProto.v
Machine.v
Gpio.v
Tim4.v
Flash.v
Eestream.v
Wwdg.v
Adc2.v
Clk.v
CanDrv.v
CanRules.v
Sim.v
Drivers.v
State.v
Led.v
Clock.v
Can.v
CanFilter.v
Channel.v
Switch.v
Button.v
Analog.v
Tim1.v
Tim1Channels.v
Onewire.v
Ds18b20.v
Sysinfo.v
Module.v
Handlers.v
Receive.v
Commands.v
Client.v
ClientRules.v
Results.v
Controller.v
Heater.v
CanServer.v
CanServerRules.v
System.v
Main.v
