(* ===== verification/Prelude.v ===== *)
(** Home automation: a verification library of the nodes, the bridge and the router.

    The repository is a home automation system: small nodes with an STM8S208
    micro-controller ([src/firmware/stm8]) drive switches, read buttons, analog
    sensors and thermometers over a CAN bus.  A TI board ([src/firmware/ti/can_master])
    bridges the bus to TCP, a router ([src/deephome/router]) connects several such
    networks with its clients, and a C++ library ([src/deephome/common]) gives both the
    text protocol of the TCP connections and the clients their devices and channels.
    This library models

    - the firmware of the node, [src/firmware/stm8/can_node], as a whole: every C file
      of it, the headers it shares with the client ([src/firmware/shared/include/ha]),
      and the functions of ST's driver library ([src/firmware/stm8/libstm8s]) it
      calls, down to the volatile loads and stores;
    - the 1-wire library, the CAN bridge and the heater of the TI boards, [src/firmware/ti];
    - the event loop, the log, the text protocol, the connections, the reader of
      configurations and the client of [src/deephome/common];
    - the router and its program, [src/deephome/router], and the controller
      [src/deephome/controller].

    ** How the program is modelled

    A C or C++ function is a [prog St A] (file Monad): a function from a state to either
    a value and the next state or a [fault].  The faults are the ways these programs go
    wrong: a loop that never ends ([Hang]), an access outside an object
    ([OutOfBounds]), an access or a call through a null pointer ([NullCall]), another
    operation without meaning ([Undefined]), a failed [DH_VERIFY] or an uncaught
    exception ([Abort]), and an exception on its way to a handler ([Throw]).  A fault
    keeps the state it happened in: an exception leaves an object as far changed as
    it came, and [catch] goes on from there.  [DH_VERIFY] is taken as in a debug build.
    [wp E m Q s] says that [m], run in [s], either returns with [Q] or faults with
    [E]; [total] is the [E] that allows nothing, so [wp total m Q s] says that [m]
    returns.

    A value of an unsigned type of [w] bits is a [Z], and every conversion of the code
    that can lose bits is written out ([u8], [u16], [u32] below).  Strings and streams
    are in Text.  Code that is not in the repository is a member of a class, and what the
    program relies on there is a class of laws:

    - [Hardware] (Machine) answers the volatile loads and stores of the STM8; any access
      may change any volatile register.  The laws are taken from the reference manual
      RM0016, next to the driver they belong to: [GpioLaws], [Tim4Laws], [Tim1Laws],
      [FlashLaws], [CanLaws], and [FilterLaws] (CanFilter), which adds to the last that
      the cell enters the initialization mode while the driver waits for it and that its
      filters then keep what is stored.  File Sim gives one hardware that satisfies those
      of the drivers the node runs; the witnesses run the firmware on it.  The machine also
      records, in [requested], what a transmit mailbox held when its [TXRQ] bit was stored,
      one entry for each such store: that a frame is sent, once or not at all, is said of
      this list.
    - [Rtos] (TiOnewire) names the functions of TI-RTOS the 1-wire library calls, over a
      state of their own, without laws.
    - [Board] (CanServer) names the CAN driver, the sockets and the pins under the bridge;
      [BoardLaws] (CanServerRules) says that each of them returns and that a received
      frame is put into the eight bytes there are for it.  [CanControl] names the
      calls that set the CAN controller up.
    - [Net] (Heater) names the sockets of the TI network stack; [NetLaws] says what they
      do to the open descriptors.
    - [Posix] (Sockets) names the calls that open and close sockets and the resolver;
      [PosixLaws] is what POSIX says of descriptors and addresses.
    - libev is its documented behaviour (EventLoop).  Its manual does not say whether a
      signal sent to a watcher that is not yet active is kept: that is [keeps_sent].  The
      theorems hold for either value; where such a signal is forgotten, the one that
      says that the queue is empty at rest says instead that one was ([forgotten]), and
      [early_event_waits] shows the event that waits.  [exception_handler_] is whether
      the loop was made with an exception handler; what a callback throws is handed
      to it, but for the callback of a timer, which nothing catches ([user_throw]).
    - What the kernel and the network do to a connection or to the router is an argument
      of the operation that meets it; the file system, the variables of the process and
      the sockets an [Application] meets are its [environment].

    ** The files

    For all parts:
    - Monad: programs, weakest preconditions, loops with a bound, array accesses.
    - CanProto: [can_proto.h] and [can_node.h], packet identifiers and addresses.

    The node:
    - Machine: the hardware class, latches, the variables of [stm8s_can.c].
    - Gpio, Tim4, Flash, Wwdg, Adc2, Clk, Tim1: the drivers [stm8s_gpio.c],
      [stm8s_tim4.c], [stm8s_flash.c], [stm8s_wwdg.c], [stm8s_adc2.c],
      [stm8s_clk.c], [stm8s_tim1.c]; Tim1Channels has the half of the last that
      configures channels, clocks and triggers, which the node does not call.
    - CanDrv, CanRules: [stm8s_can.c] and what holds of it.
    - Eestream: [eestream.c], the byte stream over the data EEPROM.
    - Sim: the concrete hardware.  Drivers: what the drivers promise their clients.
    - State: the static variables of every C file, one record per file, collected in
      [node].
    - Led, Clock: [led.c] and its refinement to abstract lamps; [clock.c].
    - Can, Receive: [can.c]; the receiving half needs the modules and comes last.
      CanFilter: what [CAN_Node_CAN_init] leaves in the filter banks, and which frames the
      cell passes with them.
    - Channel: the interface between [module.c] and the channel modules, as the
      classes [ChannelModule] and [ChannelHandlers].
    - Switch, Button, Analog, Ds18b20: [mod_switch.c], [mod_button.c],
      [mod_analog.c], [mod_ds18b20.c], each with its instance of the interface.
      Onewire: [onewire.c], the 1-wire bus under the thermometer.
    - Sysinfo, Module, Handlers: [sysinfo.c], [mod_proto.c] and [module.c].  The C
      files call each other in a circle (a write to [sysinfo.c] saves through
      [module.c], which calls the save of [sysinfo.c]); the operations are in the
      order in which they can be defined.
    - Commands: theorems about whole commands.  Main: [main.c] and the theorems about
      the running node.

    The TI boards:
    - Crc, TiOnewire: [firmware/ti/onewire], its headers and the wrappers of
      [firmware/ti/include/util] it uses.
    - CanServer, CanServerRules: [can.cpp] and [can_server.cpp] of the bridge.
    - Heater: [heater/tcp_server.cpp], a server that tells its identifier.

    The C++ side:
    - EventLoop, EventLoopRules: [util/EventLoop.cpp], its threads one instruction at a
      time, its scopes, and the watchers of descriptors, signals and timers.
    - EventLoopSpec: the queue the loop promises its clients, and that every
      interleaving of its threads is a run of it.
    - Text: [std::string], and the formatted input and output of the streams.
    - Message, MessageRules: [proto/Message.cpp], the text protocol.
    - SocketConnection: [proto/Connection.cpp] and [proto/SocketConnection.cpp].
    - Config: [util/Config.cpp] and the [Config.cpp] of the router.
    - Sockets: [proto/SocketServer.cpp], and how connections are opened.
    - Log: [util/Log.cpp] and [util/Runtime.cpp].
    - Router, RouterRules, RouterProps: [Router.cpp] with the queue of [util/EventLoop],
      its timeouts and [proto/SocketServer.cpp] as the router uses them; its invariant;
      its properties.
    - RouterQueue: the router keeps to the queue of EventLoopSpec, from start to stop.
    - Application: the program of the router, [Application.cpp].
    - Client, ClientRules: [common/source/client].
    - Results: the results of queries ([client/Result.h]), the serial numbers of
      [Device.cpp] and the channel objects of [CanNode.cpp].
    - Controller: [deephome/controller], requests over HTTP answered by a handler that may
      keep them for later.
    - System: the parts together, from the router over the bridge to a node and back.

    The names are those of the code; a static variable or a member is a field of the
    record of its file or class.  A function pointer of a module object is a member of
    [module_ptr], the identity of the object, and the dispatch is a [match] on it; the
    handlers the router gives to its connections are the constructors of a type, and the
    event loop calls the function of each ([handle_event]).  A [shared_ptr<Connection>] of
    the router is an index into the list of all connections it ever made, so that
    two names of one object are the same index.  An array is a list of the length it is
    declared with; an index outside it is [OutOfBounds].  The EEPROM stream, a local
    object passed by address, is taken and returned.

    ** What is proved

    - The whole node (Main): start-up returns and establishes the invariant, every
      round of the main loop keeps it, and the only faults left are those the C
      code has, named in [receive_fault]: a wait for an analog channel or for the
      1-wire bus, and the reply to the programming query.  The configuration saved
      in the EEPROM is the one a restart loads.
    - Commands (Commands, Receive, Handlers): a command frame drives the pin, a query
      is answered with a frame, a foreign frame or an unrouted packet changes
      nothing, the programming frame changes the device number and nothing else, a
      label is stored.
    - The link (CanProto, CanRules, CanFilter, Drivers): identifiers and frames
      round-trip between two nodes, as far as the bus carries them; the acceptance
      filter that the initialization stores is exact.
    - The channels (Channel, Module, Switch, Button): assigning a function keeps the
      invariant and the settings of all channels; switches obey writes and their
      delay; buttons sample, lock and announce.
    - Time and light (Clock, Led): the clock divides exactly and runs at 50 Hz; the
      LEDs refine abstract lamps.
    - The drivers (Drivers, Gpio, Eestream, Tim1Channels): pin configuration, the EEPROM
      stream, what the configuration of a timer channel changes and what it keeps.
    - The text protocol (MessageRules): what is printed reads back, and any line either
      is a well-formed packet or throws the one exception its callers catch.
    - The event loop (EventLoopRules), for every interleaving of its threads: events are
      handled in the order they were enqueued, those of an invalidated scope never; when
      the other threads are quiet, every call returns and the queue empties; [stop]
      comes after the events enqueued before it.  EventLoopSpec says the first of these
      as a refinement: each interleaving is a run of an abstract queue.
    - Connections (Sockets, SocketConnection): no call loses a descriptor; the packets read do not depend on how the stream
      was cut, the lines written arrive whole and in order.
    - The configuration (Config): what loads is well formed, the names of devices and
      networks apart, of which nothing is required.
    - The router (RouterRules, RouterProps): an invariant over its connections, filters,
      queue, timers and pending events that every input keeps, with the list of the
      inputs that are not handled to their end; a query and its reply from client to
      device and back; the send queue drains; what stopping needs.  For any inputs, the
      events it takes and those it posts are a run of the queue the loop promises, with
      the actions in the order of the inputs (RouterQueue).
    - The program of the router (Application, Log): its command line, what each signal does
      in each case of the new configuration, and which lines its log gets.
    - The client (ClientRules, Results): its serializers agree with the firmware, each
      query of its dispatcher is closed once, a synchronous call gets the value it waits
      for, and a serial number is reported once and whole.
    - The composition (System): a reply of the router closes the query of a client; a
      query of the router reaches a node and is answered, but the answer is lost.
    - The bridge (CanServerRules): lines and frames round-trip, the message objects are
      used as intended, its receive queue hears exactly the packets of the system, and its
      loop is safe for any client and any bus.
    - The 1-wire library (Crc, TiOnewire): the checksum is the Dallas polynomial, ROM codes
      travel low bit first, temperatures convert to floats and back.
    - The heater (Heater): every client is told the identifier, every descriptor is closed.
    - The controller (Controller): every request is answered or waits, never both; what
      becomes of the requests when the server is stopped, and started again.
    - Behaviour of the code that its authors may not want, proved as it is: the
      analog sensors (Analog), the programming query (Receive), four driver
      functions (Drivers, Tim1Channels), the filters of the router (RouterProps), the addresses
      and negative temperatures of the client (ClientRules), the language of the
      bridge against that of the router (CanServerRules), the ROM search (TiOnewire), a
      late [stop] (EventLoopRules), the bindings after a restart (Sockets), dangling
      results (Results).

    ** Bounds

    Loops that count have the bound of the C code.  Loops that wait for the hardware
    have fuel and end in [Hang] when it is used up: [ow_fuel] is 65536 polls of the
    one-pulse timer of the 1-wire bus, which counts 16 bits, and more polls never
    change a wait that ends ([wait_idle_more]); [select_fuel] is 8, twice the number of
    channels, and [select_next_sensor_or_hang] shows that the outcome is the same
    for every positive fuel; [conversion_reads] is the bound the C code itself has.
    [CAN_Node_CAN_handle_packets] and [main_loop] take as fuel the number of frames
    handled in one round, which the bus decides; their theorems hold for every fuel.
    In the C++ parts the loops over a text ([read_loop], [parse_arguments]) have as fuel
    one more than its length, since each turn moves on by at least one character, and the
    theorems show that they never use it up.  The loop over the filters of the router
    ([route_loop]) has one more than their number: a turn that moves on takes one filter,
    and one that does not comes back to the same filter in the same state, so that the
    [Hang] is that of the code ([unroutable_filter_hangs]).  The loop of the bridge
    that empties the receive objects has fuel, and ends in [Hang] only when that many
    packets were received and handled without a pause ([busy]); its rounds take their
    number as an argument, for every value of which the theorems hold, and tell whether
    [run] has returned.

    ** What is not modelled

    In the node: interrupts (the program disables them for good); the duration of the
    busy-wait delays.  A reset by the watchdog lets the caller go on (file Wwdg).  The
    drivers the node never calls (UART, SPI, I2C, TIM2, TIM3, TIM5, TIM6, AWU, BEEP,
    EXTI, ITC, IWDG, RST, ADC1).

    On the TI boards: the board files and start-up calls taken from the vendor, and the
    end of the heater's function, which follows a [return].

    On the C++ side: the controller is not part of the build and its sources do not
    compile as they are (file Controller); they are read for what they mean.  What a handler of the client does to the dispatcher that calls it;
    the text of the usage message; how long anything takes.  The program of the router
    meets its inputs as a list ([run_loop]); that the event loop hands them on in order is
    the subject of EventLoopSpec and RouterQueue.  The tests, the bench programs
    ([firmware/stm8/test], [deephome/test/netstub]) and the copy of gtest beside them are
    not part of the program.

    This file holds the shared arithmetic: machine integers, their bits, and the
    tactics [bits], [cmp] and [bitwise]. *)

From stdpp Require Export base tactics option list numbers.
From Stdlib Require Export ZArith Lia.
From Stdlib Require Export Btauto.

#[global] Open Scope Z_scope.

(** ** Machine integers

    The C code computes with [uint8_t], [uint16_t] and [uint32_t].  A value is
    a [Z]; the conversions below are the C conversions to the unsigned types. *)

Definition u8 (z : Z) : Z := z mod 2 ^ 8.
Definition u16 (z : Z) : Z := z mod 2 ^ 16.
Definition u32 (z : Z) : Z := z mod 2 ^ 32.

Definition is_u8 (z : Z) : Prop := 0 <= z < 256.
Definition is_u16 (z : Z) : Prop := 0 <= z < 65536.
Definition is_u32 (z : Z) : Prop := 0 <= z < 4294967296.

(** A C truth value: any non-zero integer. *)
Definition truth (z : Z) : bool := negb (z =? 0).

Lemma u8_range z : is_u8 (u8 z).
Proof. unfold is_u8, u8. apply Z.mod_pos_bound. lia. Qed.

Lemma u16_range z : is_u16 (u16 z).
Proof. unfold is_u16, u16. apply Z.mod_pos_bound. lia. Qed.

Lemma u32_range z : is_u32 (u32 z).
Proof. unfold is_u32, u32. apply Z.mod_pos_bound. lia. Qed.

Lemma u8_small z : is_u8 z -> u8 z = z.
Proof. unfold is_u8, u8. intros. apply Z.mod_small. lia. Qed.

Lemma u16_small z : is_u16 z -> u16 z = z.
Proof. unfold is_u16, u16. intros. apply Z.mod_small. lia. Qed.

Lemma u32_small z : is_u32 z -> u32 z = z.
Proof. unfold is_u32, u32. intros. apply Z.mod_small. lia. Qed.

Lemma u8_u8 z : u8 (u8 z) = u8 z.
Proof. apply u8_small, u8_range. Qed.

Lemma u16_u16 z : u16 (u16 z) = u16 z.
Proof. apply u16_small, u16_range. Qed.

(** ** Bits *)

Lemma testbit_mod_pow2 z n i :
  0 <= n -> 0 <= i -> Z.testbit (z mod 2 ^ n) i = (i <? n) && Z.testbit z i.
Proof.
  intros Hn Hi. destruct (Z.ltb_spec i n).
  - rewrite Z.mod_pow2_bits_low by lia. reflexivity.
  - rewrite Z.mod_pow2_bits_high by lia. reflexivity.
Qed.

Lemma testbit_u8 z i : 0 <= i -> Z.testbit (u8 z) i = (i <? 8) && Z.testbit z i.
Proof. apply testbit_mod_pow2. lia. Qed.

Lemma testbit_u16 z i : 0 <= i -> Z.testbit (u16 z) i = (i <? 16) && Z.testbit z i.
Proof. apply testbit_mod_pow2. lia. Qed.

Lemma testbit_u32 z i : 0 <= i -> Z.testbit (u32 z) i = (i <? 32) && Z.testbit z i.
Proof. apply testbit_mod_pow2. lia. Qed.

(** A value below [2 ^ n] has no bit at [n] or above. *)
Lemma testbit_bounded z n i :
  0 <= z < 2 ^ n -> 0 <= n -> n <= i -> Z.testbit z i = false.
Proof.
  intros Hz Hn Hi. rewrite <- (Z.mod_small z (2 ^ n)) by lia.
  apply Z.mod_pow2_bits_high. lia.
Qed.

Lemma testbit_is_u8 z i : is_u8 z -> 8 <= i -> Z.testbit z i = false.
Proof. intros Hz Hi. apply (testbit_bounded z 8); unfold is_u8 in Hz; lia. Qed.

Lemma shiftr_testbit a n i :
  0 <= n -> 0 <= i -> Z.testbit (Z.shiftr a n) i = Z.testbit a (i + n).
Proof. intros. apply Z.shiftr_spec. lia. Qed.

Lemma shiftl_testbit a n i :
  0 <= n -> 0 <= i -> Z.testbit (Z.shiftl a n) i = (n <=? i) && Z.testbit a (i - n).
Proof.
  intros. rewrite Z.shiftl_spec by lia. destruct (Z.leb_spec n i); [done|].
  rewrite Z.testbit_neg_r by lia. done.
Qed.

Lemma ones_testbit n i : 0 <= n -> 0 <= i -> Z.testbit (Z.ones n) i = (i <? n).
Proof.
  intros. destruct (Z.ltb_spec i n).
  - apply Z.ones_spec_low; lia.
  - apply Z.ones_spec_high; lia.
Qed.

(** Two values below [2 ^ n] are equal when their [n] low bits are. *)
Lemma bits_eq_bounded n a b :
  0 <= n -> 0 <= a < 2 ^ n -> 0 <= b < 2 ^ n ->
  (forall i, 0 <= i < n -> Z.testbit a i = Z.testbit b i) -> a = b.
Proof.
  intros Hn Ha Hb H. apply Z.bits_inj'. intros i Hi.
  destruct (Z.ltb_spec i n).
  - apply H. lia.
  - rewrite !(testbit_bounded _ n) by lia. done.
Qed.

(** [bits] pushes [Z.testbit] through the bit operations, at each position whose
    side conditions hold (a rewrite database tries only the first position). *)
Ltac bits_step :=
  match goal with
  | |- context [Z.testbit (Z.land ?a ?b) ?i] => rewrite (Z.land_spec a b i)
  | |- context [Z.testbit (Z.lor ?a ?b) ?i] => rewrite (Z.lor_spec a b i)
  | |- context [Z.testbit (Z.lxor ?a ?b) ?i] => rewrite (Z.lxor_spec a b i)
  | |- context [Z.testbit (Z.lnot ?a) ?i] => rewrite (Z.lnot_spec a i) by lia
  | |- context [Z.testbit (u8 ?a) ?i] => rewrite (testbit_u8 a i) by lia
  | |- context [Z.testbit (u16 ?a) ?i] => rewrite (testbit_u16 a i) by lia
  | |- context [Z.testbit (u32 ?a) ?i] => rewrite (testbit_u32 a i) by lia
  | |- context [Z.testbit (Z.shiftr ?a ?n) ?i] => rewrite (shiftr_testbit a n i) by lia
  | |- context [Z.testbit (Z.shiftl ?a ?n) ?i] => rewrite (shiftl_testbit a n i) by lia
  | |- context [Z.testbit (Z.ones ?n) ?i] => rewrite (ones_testbit n i) by lia
  end.
Ltac bits := repeat bits_step.

(** [cmp] decides the integer comparisons of the goal by case analysis, dropping
    the impossible cases. *)
Ltac cmp :=
  repeat match goal with
  | |- context [Z.ltb ?a ?b] => destruct (Z.ltb_spec a b); try lia
  | |- context [Z.leb ?a ?b] => destruct (Z.leb_spec a b); try lia
  | |- context [Z.eqb ?a ?b] => destruct (Z.eqb_spec a b); try lia
  end.

(** The value of bits, least significant first. *)
Fixpoint lsb_first (l : list bool) : Z :=
  match l with [] => 0 | b :: l' => Z.b2z b + 2 * lsb_first l' end.

Lemma testbit_lsb_first l i : Z.testbit (lsb_first l) (Z.of_nat i) = default false (l !! i).
Proof.
  revert i. induction l as [|b l IH]; intros i; [apply Z.bits_0|]. cbn [lsb_first]. destruct i as [|i].
  - rewrite Z.add_comm. cbn. apply Z.testbit_0_r.
  - rewrite Nat2Z.inj_succ, Z.add_comm, Z.testbit_succ_r by lia. apply IH.
Qed.

Lemma lsb_first_range l : 0 <= lsb_first l < 2 ^ Z.of_nat (length l).
Proof.
  induction l as [|b l IH]; [done|]. cbn [lsb_first length]. rewrite Nat2Z.inj_succ, Z.pow_succ_r by lia.
  destruct b; cbn; lia.
Qed.

Lemma lsb_first_snoc l (b : bool) : Z.lor (lsb_first l) (if b then Z.shiftl 1 (Z.of_nat (length l)) else 0) = lsb_first (l ++ [b]).
Proof.
  apply Z.bits_inj'. intros i Hi. rewrite Z.lor_spec. rewrite <- (Z2Nat.id i) by done. rewrite !testbit_lsb_first.
  destruct (decide (Z.to_nat i < length l)%nat) as [Hl|Hl].
  - rewrite lookup_app_l by done. destruct b; [|by rewrite Z.bits_0, orb_false_r].
    rewrite Z.shiftl_1_l, Z.pow2_bits_false by lia. apply orb_false_r.
  - rewrite lookup_app_r, (lookup_ge_None_2 l) by lia. cbn [default from_option orb].
    destruct (decide (Z.to_nat i = length l)) as [->|Hne].
    + rewrite Nat.sub_diag. destruct b; [|by rewrite Z.bits_0]. by rewrite Z.shiftl_1_l, Z.pow2_bits_true by lia.
    + rewrite (lookup_ge_None_2 [b]) by (cbn; lia). destruct b; [|by rewrite Z.bits_0].
      by rewrite Z.shiftl_1_l, Z.pow2_bits_false by lia.
Qed.

(** ** Case analysis on a byte by computation *)

Definition bytes : list Z := Z.of_nat <$> seq 0 256.

Lemma bytes_spec b : is_u8 b <-> b ∈ bytes.
Proof.
  unfold is_u8, bytes. rewrite list_elem_of_fmap. split.
  - intros Hb. exists (Z.to_nat b). rewrite elem_of_seq. lia.
  - intros (n & -> & Hn). rewrite elem_of_seq in Hn. lia.
Qed.

(** A decidable fact about every number below [n] holds when it computes to
    [true] on all of them. *)
Lemma below_ind (P : Z -> bool) n :
  forallb P (Z.of_nat <$> seq 0 n) = true -> forall b, 0 <= b < Z.of_nat n -> P b = true.
Proof.
  rewrite forallb_forall. intros H b Hb. apply H, list_elem_of_In, list_elem_of_fmap.
  exists (Z.to_nat b). rewrite elem_of_seq. lia.
Qed.

(** A decidable fact about every byte holds when it computes to [true] on the
    256 of them. *)
Lemma byte_ind (P : Z -> bool) :
  forallb P bytes = true -> forall b, is_u8 b -> P b = true.
Proof. apply (below_ind P 256). Qed.

(** Masking a byte gives a byte. *)
Lemma land_is_u8 a b : is_u8 a -> is_u8 (Z.land a b).
Proof.
  intros Ha. assert (Z.land a b = u8 (Z.land a b)) as ->; [|apply u8_range].
  apply Z.bits_inj'. intros i Hi. bits. destruct (Z.ltb_spec i 8); [done|].
  by rewrite (testbit_is_u8 a) by (done || lia).
Qed.

Lemma u8_land a b : is_u8 a -> u8 (Z.land a b) = Z.land a b.
Proof. intros Ha. by apply u8_small, land_is_u8. Qed.

(** The eight bit positions of a byte. *)
Lemma bit_index_cases i :
  0 <= i < 8 -> i = 0 \/ i = 1 \/ i = 2 \/ i = 3 \/ i = 4 \/ i = 5 \/ i = 6 \/ i = 7.
Proof. lia. Qed.

(** [bitwise] proves an equality of integers bit by bit. *)
Ltac bitwise := apply Z.bits_inj'; intros ?i ?Hi; bits; try btauto.

(** Two bytes of a 16-bit value. *)
Lemma hi_lo_word hi lo : is_u8 hi -> is_u8 lo -> Z.lor (u16 (Z.shiftl hi 8)) lo = 256 * hi + lo.
Proof.
  intros Hh Hl. unfold is_u8 in *. rewrite u16_small.
  2: { unfold is_u16. rewrite Z.shiftl_mul_pow2 by lia. lia. }
  assert (Z.land (Z.shiftl hi 8) lo = 0) as Hland.
  { apply Z.bits_inj'. intros i Hi. bits. rewrite Z.bits_0.
    destruct (Z.leb_spec 8 i); [rewrite (testbit_bounded lo 8) by lia; btauto|done]. }
  rewrite <- Z.lxor_lor, <- Z.add_nocarry_lxor by done. rewrite Z.shiftl_mul_pow2 by lia. lia.
Qed.

Lemma word_hi_lo v : is_u16 v ->
  is_u8 (u8 (Z.shiftr v 8)) /\ is_u8 (Z.land v 0xff) /\ 256 * u8 (Z.shiftr v 8) + Z.land v 0xff = v.
Proof.
  intros Hv. unfold is_u16 in Hv. split; [apply u8_range|].
  change 0xff with (Z.ones 8). rewrite Z.land_ones, Z.shiftr_div_pow2 by lia. change (2 ^ 8) with 256.
  pose proof (Z.mod_pos_bound v 256 ltac:(lia)). pose proof (Z.div_mod v 256 ltac:(lia)).
  assert (0 <= v / 256 < 256) by (split; [apply Z.div_pos; lia|apply Z.div_lt_upper_bound; lia]).
  rewrite u8_small by (unfold is_u8; lia). unfold is_u8. lia.
Qed.

Lemma hi_lo_range hi lo : is_u8 hi -> is_u8 lo -> is_u16 (256 * hi + lo).
Proof. unfold is_u8, is_u16. lia. Qed.
