(* ===== verification/Monad.v ===== *)
(** The effects of the program: a state monad with faults.

    A C or C++ function becomes a value of [prog St A]: it reads and writes a state
    [St] and either returns a value of type [A] or stops with a [fault].  The
    weakest precondition [wp] of a program is the predicate the other files
    reason with. *)

From S2P Require Import Prelude.

Declare Scope prog_scope.
Delimit Scope prog_scope with prog.

(** The exceptions the C++ code throws. *)
Inductive exn : Type := invalid_argument | runtime_error | range_error | out_of_range.

#[export] Instance exn_eq_dec : EqDecision exn.
Proof. solve_decision. Defined.

(** How a C or C++ computation can fail to return. *)
Inductive fault : Type :=
| Hang              (** a loop whose exit condition never becomes true *)
| OutOfBounds       (** an access outside the object a pointer points into *)
| NullCall          (** a call or an access through a null pointer *)
| Undefined         (** another operation the language gives no meaning *)
| Abort             (** [DH_VERIFY] or [std::terminate] *)
| Throw (e : exn).  (** an exception *)

#[export] Instance fault_eq_dec : EqDecision fault.
Proof. solve_decision. Defined.

Inductive res (St A : Type) : Type :=
| Ok (a : A) (s : St)
| Fault (f : fault) (s : St).
Arguments Ok {St A} a s.
Arguments Fault {St A} f s.

Definition prog (St A : Type) : Type := St -> res St A.

Definition ret {St A} (a : A) : prog St A := fun s => Ok a s.

Definition bind {St A B} (m : prog St A) (k : A -> prog St B) : prog St B :=
  fun s => match m s with Ok a s' => k a s' | Fault f s' => Fault f s' end.

Definition raise {St A} (f : fault) : prog St A := fun s => Fault f s.

Notation "'let!' x := m 'in' k" := (bind m (fun x => k))
  (at level 10, x pattern, m at level 100, k at level 200) : prog_scope.
Notation "m ;; k" := (bind m (fun _ => k))
  (at level 100, k at level 200, right associativity) : prog_scope.
#[global] Open Scope prog_scope.

(** [DH_VERIFY(b)] of a debug build; a release build only writes the log. *)
Definition verify {St} (b : bool) : prog St unit := if b then ret tt else raise Abort.

(** [try { m } catch (e) { h }]. *)
Definition catch {St A} (e : exn) (m h : prog St A) : prog St A := fun s =>
  match m s with
  | Fault (Throw e') s' => if bool_decide (e' = e) then h s' else Fault (Throw e') s'
  | r => r
  end.

(** [if (b) m] without an else branch. *)
Definition when {St} (b : bool) (m : prog St unit) : prog St unit :=
  if b then m else ret tt.

(** [for (x in l) body]; a C loop [for (i = 0; i < n; ++i)] ranges over [range n]. *)
Fixpoint for_each {St A} (l : list A) (body : A -> prog St unit) : prog St unit :=
  match l with
  | [] => ret tt
  | x :: l' => body x ;; for_each l' body
  end.

(** A loop that carries local variables. *)
Fixpoint for_acc {St A B} (l : list A) (acc : B) (body : A -> B -> prog St B) : prog St B :=
  match l with
  | [] => ret acc
  | x :: l' => bind (body x acc) (fun acc => for_acc l' acc body)
  end.

Definition range (n : Z) : list Z := Z.of_nat <$> seq 0 (Z.to_nat n).

(** [while (cond) body], at most [fuel] evaluations of the condition; a loop
    that needs more than that hangs. *)
Fixpoint while {St} (fuel : nat) (cond : prog St bool) (body : prog St unit) : prog St unit :=
  match fuel with
  | O => raise Hang
  | S n => let! b := cond in if b then body ;; while n cond body else ret tt
  end.

(** The same call [n] times. *)
Fixpoint times {St} (n : nat) (m : prog St unit) : prog St unit :=
  match n with
  | O => ret tt
  | S n' => m ;; times n' m
  end.

(** ** State components

    A static variable of the program is a [field] of the state; a static array
    is a field holding a list, read and written with a bounds check. *)

Record field (St T : Type) : Type := Field { fget : St -> T; fset : T -> St -> St }.
Arguments Field {St T} fget fset.
Arguments fget {St T} f s.
Arguments fset {St T} f v s.

Section Access.
Context {St T : Type}.
Implicit Types f : field St T.

Definition rd f : prog St T := fun s => Ok (fget f s) s.
Definition wr f (v : T) : prog St unit := fun s => Ok tt (fset f v s).

(** A program on a part of the state. *)
Definition on_part {A} f (m : prog T A) : prog St A := fun s =>
  match m (fget f s) with Ok a v => Ok a (fset f v s) | Fault e v => Fault e (fset f v s) end.

(** Position [i] of an array of length [n], when it is inside. *)
Definition in_range (i : Z) (n : nat) : bool := (0 <=? i) && (i <? Z.of_nat n).

(** [a[i]] on an array in a local variable. *)
Definition at_index {A} (l : list A) (i : Z) : prog St A :=
  match l !! Z.to_nat i with
  | Some x => if in_range i (length l) then ret x else raise OutOfBounds
  | None => raise OutOfBounds
  end.

(** [a[i] = v] on an array in a local variable: the array after the write. *)
Definition set_index {A} (l : list A) (i : Z) (v : A) : prog St (list A) :=
  if in_range i (length l) then ret (<[Z.to_nat i := v]> l) else raise OutOfBounds.
End Access.

Section ArrayAccess.
Context {St A : Type}.
Implicit Types f : field St (list A).

Definition idx f (i : Z) : prog St A := let! l := rd f in at_index l i.

Definition idx_set f (i : Z) (v : A) : prog St unit :=
  let! l := rd f in let! l' := set_index l i v in wr f l'.
(** [f[i].member op= ...]: replace the element by its image. *)
Definition idx_upd f (i : Z) (g : A -> A) : prog St unit :=
  let! x := idx f i in idx_set f i (g x).
End ArrayAccess.

(** ** Weakest preconditions

    [wp E m Q s]: started in [s], [m] returns with a result and a state in [Q],
    or stops with a fault that [E] allows, in a state that [E] allows.  [total] allows no fault. *)

Definition wp {St A} (E : fault -> St -> Prop) (m : prog St A) (Q : A -> St -> Prop) (s : St) : Prop :=
  match m s with Ok a s' => Q a s' | Fault f s' => E f s' end.

Definition total {St} : fault -> St -> Prop := fun _ _ => False.
(** Only non-termination is allowed. *)
Definition may_hang {St} : fault -> St -> Prop := fun f _ => f = Hang.

Section Wp.
Context {St : Type} {E : fault -> St -> Prop}.

Lemma wp_ret {A} (a : A) (Q : A -> St -> Prop) s : Q a s -> wp E (ret a) Q s.
Proof. done. Qed.

Lemma wp_bind {A B} (m : prog St A) (k : A -> prog St B) Q s :
  wp E m (fun a => wp E (k a) Q) s -> wp E (bind m k) Q s.
Proof. unfold wp, bind. by destruct (m s). Qed.

Lemma wp_bind_inv {A B} (m : prog St A) (k : A -> prog St B) Q s :
  wp E (bind m k) Q s -> wp E m (fun a => wp E (k a) Q) s.
Proof. unfold wp, bind. by destruct (m s). Qed.

Lemma wp_raise {A} f (Q : A -> St -> Prop) s : E f s -> wp E (raise f) Q s.
Proof. done. Qed.

Lemma wp_mono {A} (m : prog St A) (Q1 Q2 : A -> St -> Prop) s :
  wp E m Q1 s -> (forall a s', Q1 a s' -> Q2 a s') -> wp E m Q2 s.
Proof. unfold wp. destruct (m s); eauto. Qed.

Lemma wp_eq {A} (m : prog St A) (Q : A -> St -> Prop) s a s' :
  m s = Ok a s' -> Q a s' -> wp E m Q s.
Proof. unfold wp. by intros ->. Qed.

Lemma wp_rd {T} (f : field St T) Q s : Q (fget f s) s -> wp E (rd f) Q s.
Proof. done. Qed.

Lemma wp_wr {T} (f : field St T) v (Q : unit -> St -> Prop) s :
  Q tt (fset f v s) -> wp E (wr f v) Q s.
Proof. done. Qed.

Lemma wp_when b (m : prog St unit) Q s :
  (b = true -> wp E m Q s) -> (b = false -> Q tt s) -> wp E (when b m) Q s.
Proof. destruct b; intros H1 H2; [by apply H1 | by apply H2]. Qed.

Lemma wp_if {A} (b : bool) (m1 m2 : prog St A) Q s :
  (b = true -> wp E m1 Q s) -> (b = false -> wp E m2 Q s) ->
  wp E (if b then m1 else m2) Q s.
Proof. destruct b; auto. Qed.

(** A loop over a list keeps an invariant of the elements done so far. *)
Lemma wp_for_each {A} (l : list A) (body : A -> prog St unit) (I : list A -> St -> Prop)
    (Q : unit -> St -> Prop) s :
  I [] s ->
  (forall done x rest s', l = done ++ x :: rest -> I done s' ->
     wp E (body x) (fun _ s'' => I (done ++ [x]) s'') s') ->
  (forall s', I l s' -> Q tt s') ->
  wp E (for_each l body) Q s.
Proof.
  intros H0 Hstep HQ.
  enough (forall rest done, l = done ++ rest -> forall s', I done s' ->
            wp E (for_each rest body) Q s') as H by (apply (H l []); done).
  clear H0 s. induction rest as [|x rest IH]; intros done Hl s' HI; simpl.
  - apply wp_ret, HQ. by rewrite Hl, app_nil_r.
  - apply wp_bind. eapply wp_mono; [by apply (Hstep done x rest)|].
    intros [] s'' HI'. apply (IH (done ++ [x])); [|done].
    by rewrite <- app_assoc.
Qed.

Lemma wp_for_acc {A B} (l : list A) (acc : B) (body : A -> B -> prog St B) (I : list A -> B -> St -> Prop)
    (Q : B -> St -> Prop) s :
  I [] acc s ->
  (forall done x rest acc s', l = done ++ x :: rest -> I done acc s' ->
     wp E (body x acc) (fun acc' s'' => I (done ++ [x]) acc' s'') s') ->
  (forall acc s', I l acc s' -> Q acc s') ->
  wp E (for_acc l acc body) Q s.
Proof.
  intros H0 Hstep HQ.
  enough (forall rest done acc, l = done ++ rest -> forall s', I done acc s' ->
            wp E (for_acc rest acc body) Q s') as H by (apply (H l [] acc); done).
  clear H0 s. induction rest as [|x rest IH]; intros done acc' Hl s' HI; simpl.
  - apply wp_ret, HQ. by rewrite Hl, app_nil_r.
  - apply wp_bind. eapply wp_mono; [by apply (Hstep done x rest)|].
    intros acc'' s'' HI'. apply (IH (done ++ [x])); [|done].
    by rewrite <- app_assoc.
Qed.

(** Every loop body keeps [I]. *)
Lemma wp_for_each_inv {A} (l : list A) (body : A -> prog St unit) (I : St -> Prop) s :
  I s -> (forall x s', x ∈ l -> I s' -> wp E (body x) (fun _ => I) s') ->
  wp E (for_each l body) (fun _ => I) s.
Proof.
  intros H0 Hstep. apply (wp_for_each _ _ (fun _ => I)); [done| |done].
  intros done x rest s' -> HI. apply Hstep; [|done]. rewrite elem_of_app, elem_of_cons. by right; left.
Qed.

(** A loop that may run out of fuel keeps an invariant. *)
Lemma wp_while n (cond : prog St bool) (body : prog St unit) (I : St -> Prop) s :
  (forall s', I s' -> E Hang s') -> I s ->
  (forall s', I s' -> wp E cond (fun b s'' => I s'' /\ (b = true -> wp E body (fun _ => I) s'')) s') ->
  wp E (while n cond body) (fun _ => I) s.
Proof.
  intros HE. revert s. induction n as [|n IH]; intros s Hs Hstep; [by apply wp_raise, HE|]. cbn [while].
  apply wp_bind. eapply wp_mono; [by apply Hstep|]. intros b s' [Hs' Hb]. destruct b; [|by apply wp_ret].
  apply wp_bind. eapply wp_mono; [by apply Hb|]. intros [] s'' Hs''. by apply IH.
Qed.

(** A call repeated keeps an invariant. *)
Lemma wp_times n (m : prog St unit) (I : St -> Prop) s :
  I s -> (forall s', I s' -> wp E m (fun _ => I) s') -> wp E (times n m) (fun _ => I) s.
Proof.
  intros Hs Hm. revert s Hs. induction n as [|n IH]; intros s Hs; [done|]. cbn [times].
  apply wp_bind. eapply wp_mono; [by apply Hm|]. intros [] s' Hs'. by apply IH.
Qed.
End Wp.

Lemma wp_weaken {St A} (E1 E2 : fault -> St -> Prop) (m : prog St A) Q s :
  (forall f s', E1 f s' -> E2 f s') -> wp E1 m Q s -> wp E2 m Q s.
Proof. unfold wp. destruct (m s); eauto. Qed.

(** A total program returns. *)
Lemma wp_total_inv {St A} (m : prog St A) Q s :
  wp total m Q s -> exists a s', m s = Ok a s' /\ Q a s'.
Proof. unfold wp. destruct (m s); [eauto|intros []]. Qed.

(** ** Arrays *)

Section ArrayLemmas.
Context {St A : Type} {E : fault -> St -> Prop}.

Lemma in_range_spec i n : in_range i n = true <-> 0 <= i < Z.of_nat n.
Proof. unfold in_range. rewrite andb_true_iff, Z.leb_le, Z.ltb_lt. done. Qed.

Lemma at_index_ok (l : list A) i x :
  0 <= i -> l !! Z.to_nat i = Some x -> at_index (St:=St) l i = ret x.
Proof.
  intros Hi Hx. unfold at_index. rewrite Hx.
  destruct (in_range i (length l)) eqn:Hr; [done|].
  exfalso. apply lookup_lt_Some in Hx.
  assert (in_range i (length l) = true) by (apply in_range_spec; lia). congruence.
Qed.

Lemma set_index_ok (l : list A) i v :
  0 <= i < Z.of_nat (length l) -> set_index (St:=St) l i v = ret (<[Z.to_nat i := v]> l).
Proof. intros Hi. unfold set_index. by rewrite (proj2 (in_range_spec _ _) Hi). Qed.

Lemma wp_at_index (l : list A) i x (Q : A -> St -> Prop) s :
  0 <= i -> l !! Z.to_nat i = Some x -> Q x s -> wp E (at_index l i) Q s.
Proof. intros Hi Hx HQ. by rewrite (at_index_ok l i x). Qed.

Lemma wp_set_index (l : list A) i v (Q : list A -> St -> Prop) s :
  0 <= i < Z.of_nat (length l) -> Q (<[Z.to_nat i := v]> l) s -> wp E (set_index l i v) Q s.
Proof. intros Hi HQ. by rewrite set_index_ok. Qed.

Lemma idx_ok (f : field St (list A)) i x s :
  0 <= i -> fget f s !! Z.to_nat i = Some x -> idx f i s = Ok x s.
Proof. intros Hi Hx. unfold idx, bind, rd. by rewrite (at_index_ok _ _ _ Hi Hx). Qed.

Lemma idx_set_ok (f : field St (list A)) i v s :
  0 <= i < Z.of_nat (length (fget f s)) ->
  idx_set f i v s = Ok tt (fset f (<[Z.to_nat i := v]> (fget f s)) s).
Proof. intros Hi. unfold idx_set, bind, rd. by rewrite set_index_ok. Qed.

Lemma idx_upd_ok (f : field St (list A)) i g x s :
  0 <= i -> fget f s !! Z.to_nat i = Some x ->
  idx_upd f i g s = Ok tt (fset f (<[Z.to_nat i := g x]> (fget f s)) s).
Proof.
  intros Hi Hx. unfold idx_upd, bind at 1. rewrite (idx_ok _ _ _ _ Hi Hx).
  apply idx_set_ok. apply lookup_lt_Some in Hx. lia.
Qed.
End ArrayLemmas.

Lemma range_elem n i : i ∈ range n <-> 0 <= i < n.
Proof.
  unfold range. rewrite list_elem_of_fmap. split.
  - intros (k & -> & Hk). rewrite elem_of_seq in Hk. lia.
  - intros Hi. exists (Z.to_nat i). rewrite elem_of_seq. lia.
Qed.

(** The elements of a range are the positions. *)
Lemma range_split n done x rest : range n = done ++ x :: rest -> x = Z.of_nat (length done) /\ 0 <= x < n.
Proof.
  intros H. assert (range n !! length done = Some x) as Hx by (rewrite H; by apply list_lookup_middle).
  unfold range in Hx. rewrite list_lookup_fmap in Hx. destruct (seq 0 (Z.to_nat n) !! length done) as [k|] eqn:Hk; [|done].
  apply lookup_seq in Hk as [-> Hlt]. simpl in Hx. injection Hx as <-. lia.
Qed.

(** ** Running programs

    [bind] steps through a program whose first part is known to return. *)
Lemma bind_ok {St A B} (m : prog St A) (k : A -> prog St B) s a s' :
  m s = Ok a s' -> bind m k s = k a s'.
Proof. unfold bind. by intros ->. Qed.

Create HintDb prog.
#[export] Hint Resolve wp_ret wp_rd wp_wr : prog.
