(* ===== verification/EventLoop.v ===== *)
(** The event loop, [deephome/common/source/util/EventLoop.cpp] and
    [include/util/EventLoop.h]: the queue under its mutex, the threads that use it, and
    [start], [stop] and [run].

    The state is the loop object with the position of every thread in the code; [exec]
    takes one thread one instruction further, so that a list of labels is an
    interleaving.  Lock, change and unlock of a critical section are instructions of
    their own.  One thread, the owner, calls [start], [stop] and [run]; any number of
    producers call [enqueue]; the loop's own thread runs [main_loop], and what the
    program's handlers do there is in the labels.

    libev is not part of the repository.  What the loop relies on is written into the
    instructions that call it, as its manual has it: [ev_async_send] makes the loop call
    the handler of the watcher at least once more, several sends may be one call, and
    [ev_unloop] lets [ev_loop] return, which clears the request when it is called again.
    The manual does not say whether a send before [ev_async_start] counts: that is the
    parameter [keeps_sent]. *)

From S2P Require Import Prelude Monad.

Section EventLoop.
Context {H : Type}.

(** ** Data *)

(** [std::bind(&EventLoop::unloop, this)], or what the program enqueued. *)
Inductive EventHandler : Type := Unloop | User (h : H).

(** A [shared_ptr<int>] is an index into the scopes of the state. *)
Record EventScope : Type := MkScope { scope_value : option nat; valid_value : Z }.

Record event : Type := MkEvent { ev_handler : EventHandler; ev_scope : EventScope }.

(** Where a call of [enqueue] is. *)
Inductive enqueuing : Type := EnqLock (e : event) | EnqPush (e : event) | EnqUnlock | EnqSend.

(** Where [handle_events] is: before [lock.lock()], before the test of the loop (the
    mutex held), before the test of the scope, in the handler. *)
Inductive handling : Type := H_Lock | H_Test | H_Valid (e : event) | H_Run (e : event) (q : option enqueuing).

(** Where the thread of the loop is in [main_loop]. *)
Inductive loop_at : Type :=
| L_None
| L_AsyncStart | L_Lock | L_SetStarted | L_Unlock | L_Notify
| L_Ev                                      (* inside [ev_loop], between callbacks *)
| L_Callback (timer : bool) (q : option enqueuing)  (* in the callback of another watcher, a timer or not *)
| L_Handle (final : bool) (h : handling)    (* [handle_events], from [ev_loop] or after it *)
| L_AsyncStop
| L_Done.

(** Where the owner is. *)
Inductive owner_at : Type :=
| O_Idle
| O_Enqueue (q : enqueuing)
| O_StartLock | O_StartTest | O_StartWait | O_StartWoken | O_StartUnlock
| O_Stop (q : enqueuing) | O_Join
| O_Run.

Inductive tid : Type := Owner | Producer (i : nat) | LoopThread.

#[export] Instance tid_eq_dec : EqDecision tid.
Proof. solve_decision. Defined.

(** [pushed], [popped] and [ran] record what happened; [forgotten]: a send came before
    [ev_async_start], which forgot it, and there was none since. *)
Record loop : Type := MkLoop {
  guard_ : option tid;
  event_queue_ : list event;
  is_started_ : bool;
  thread_ : bool;
  async_active : bool;
  async_sent : bool;
  forgotten : bool;
  loop_done : bool;
  scopes : list Z;
  loop_pc : loop_at;
  owner : owner_at;
  producers : list (option enqueuing);
  crash : option fault;
  pushed : list event;
  popped : list event;
  ran : list event
}.

Definition set_guard v s := MkLoop v (event_queue_ s) (is_started_ s) (thread_ s) (async_active s) (async_sent s) (forgotten s) (loop_done s) (scopes s) (loop_pc s) (owner s) (producers s) (crash s) (pushed s) (popped s) (ran s).
Definition set_started v s := MkLoop (guard_ s) (event_queue_ s) v (thread_ s) (async_active s) (async_sent s) (forgotten s) (loop_done s) (scopes s) (loop_pc s) (owner s) (producers s) (crash s) (pushed s) (popped s) (ran s).
Definition set_thread v s := MkLoop (guard_ s) (event_queue_ s) (is_started_ s) v (async_active s) (async_sent s) (forgotten s) (loop_done s) (scopes s) (loop_pc s) (owner s) (producers s) (crash s) (pushed s) (popped s) (ran s).
Definition set_async a v s := MkLoop (guard_ s) (event_queue_ s) (is_started_ s) (thread_ s) a v (forgotten s) (loop_done s) (scopes s) (loop_pc s) (owner s) (producers s) (crash s) (pushed s) (popped s) (ran s).
Definition set_forgotten v s := MkLoop (guard_ s) (event_queue_ s) (is_started_ s) (thread_ s) (async_active s) (async_sent s) v (loop_done s) (scopes s) (loop_pc s) (owner s) (producers s) (crash s) (pushed s) (popped s) (ran s).
Definition set_done v s := MkLoop (guard_ s) (event_queue_ s) (is_started_ s) (thread_ s) (async_active s) (async_sent s) (forgotten s) v (scopes s) (loop_pc s) (owner s) (producers s) (crash s) (pushed s) (popped s) (ran s).
Definition set_scopes v s := MkLoop (guard_ s) (event_queue_ s) (is_started_ s) (thread_ s) (async_active s) (async_sent s) (forgotten s) (loop_done s) v (loop_pc s) (owner s) (producers s) (crash s) (pushed s) (popped s) (ran s).
Definition set_pc v s := MkLoop (guard_ s) (event_queue_ s) (is_started_ s) (thread_ s) (async_active s) (async_sent s) (forgotten s) (loop_done s) (scopes s) v (owner s) (producers s) (crash s) (pushed s) (popped s) (ran s).
Definition set_owner v s := MkLoop (guard_ s) (event_queue_ s) (is_started_ s) (thread_ s) (async_active s) (async_sent s) (forgotten s) (loop_done s) (scopes s) (loop_pc s) v (producers s) (crash s) (pushed s) (popped s) (ran s).
Definition set_producers v s := MkLoop (guard_ s) (event_queue_ s) (is_started_ s) (thread_ s) (async_active s) (async_sent s) (forgotten s) (loop_done s) (scopes s) (loop_pc s) (owner s) v (crash s) (pushed s) (popped s) (ran s).
Definition set_crash v s := MkLoop (guard_ s) (event_queue_ s) (is_started_ s) (thread_ s) (async_active s) (async_sent s) (forgotten s) (loop_done s) (scopes s) (loop_pc s) (owner s) (producers s) v (pushed s) (popped s) (ran s).
Definition set_ran v s := MkLoop (guard_ s) (event_queue_ s) (is_started_ s) (thread_ s) (async_active s) (async_sent s) (forgotten s) (loop_done s) (scopes s) (loop_pc s) (owner s) (producers s) (crash s) (pushed s) (popped s) v.

(** [event_queue_.push_back(e)], [event_queue_.pop_front()] *)
Definition push_back (e : event) s := MkLoop (guard_ s) (event_queue_ s ++ [e]) (is_started_ s) (thread_ s) (async_active s) (async_sent s) (forgotten s) (loop_done s) (scopes s) (loop_pc s) (owner s) (producers s) (crash s) (pushed s ++ [e]) (popped s) (ran s).
Definition pop_front (e : event) (q : list event) s := MkLoop (guard_ s) q (is_started_ s) (thread_ s) (async_active s) (async_sent s) (forgotten s) (loop_done s) (scopes s) (loop_pc s) (owner s) (producers s) (crash s) (pushed s) (popped s ++ [e]) (ran s).

(** [EventLoop::EventLoop], with [n] threads that will call [enqueue]. *)
Definition EventLoop_new (n : nat) : loop :=
  MkLoop None [] false false false false false false [] L_None O_Idle (replicate n None) None [] [] [].

(** ** [EventScope], [ScopedEventLoop] *)

Definition no_scope : EventScope := MkScope None 0.

(** The value a scope has now. *)
Definition current (p : nat) (s : loop) : Z := nth p (scopes s) 0.

(** [EventScope(value)] *)
Definition EventScope_new (p : nat) (s : loop) : EventScope := MkScope (Some p) (current p s).

Definition EventScope_valid (sc : EventScope) (s : loop) : bool :=
  match scope_value sc with None => true | Some p => current p s =? valid_value sc end.

(** [ScopedEventLoop::ScopedEventLoop], [ScopedEventLoop::invalidate] *)
Definition ScopedEventLoop_new (s : loop) : loop := set_scopes (scopes s ++ [0]) s.
Definition ScopedEventLoop_invalidate (p : nat) (s : loop) : loop :=
  set_scopes (alter (fun v => v + 1) p (scopes s)) s.

(** ** Instructions *)

Variable keeps_sent : bool.
(** Whether the loop was made with an exception handler. *)
Variable exception_handler_ : bool.

(** [std::unique_lock<std::mutex> lock(guard_)]: blocks while another thread has it. *)
Definition lock (t : tid) (s : loop) : option loop :=
  match guard_ s with None => Some (set_guard (Some t) s) | Some _ => None end.
Definition unlock (s : loop) : loop := set_guard None s.

Definition ev_async_start (s : loop) : loop :=
  set_forgotten (forgotten s || async_sent s && negb keeps_sent) (set_async true (async_sent s && keeps_sent) s).
Definition ev_async_stop (s : loop) : loop := set_async false (async_sent s) s.
Definition ev_async_send (s : loop) : loop := set_forgotten false (set_async (async_active s) true s).
Definition unloop (s : loop) : loop := set_done true s.

(** The next instruction of [enqueue], called by [t]; [None] for where it is: it has returned. *)
Definition enqueue_step (t : tid) (q : enqueuing) (s : loop) : option (option enqueuing * loop) :=
  match q with
  | EnqLock e => s ← lock t s; Some (Some (EnqPush e), s)
  | EnqPush e => Some (Some EnqUnlock, push_back e s)
  | EnqUnlock => Some (Some EnqSend, unlock s)
  | EnqSend => Some (None, ev_async_send s)
  end.

(** [handle_exception] *)
Definition handle_exception (s : loop) : loop := if exception_handler_ then s else set_crash (Some Abort) s.

(** The next instruction of [handle_events]; [None] for where it is: it has returned. *)
Definition handle_step (h : handling) (s : loop) : option (option handling * loop) :=
  match h with
  | H_Lock => s ← lock LoopThread s; Some (Some H_Test, s)
  | H_Test =>
      match event_queue_ s with
      | [] => Some (None, unlock s)
      | e :: q => Some (Some (H_Valid e), unlock (pop_front e q s))
      end
  | H_Valid e =>
      if EventScope_valid (ev_scope e) s then Some (Some (H_Run e None), set_ran (ran s ++ [e]) s)
      else Some (Some H_Lock, s)
  | H_Run e (Some q) => '(q, s) ← enqueue_step LoopThread q s; Some (Some (H_Run e q), s)
  | H_Run e None => Some (Some H_Lock, match ev_handler e with Unloop => unloop s | User _ => s end)
  end.

(** The next instruction of the loop's thread.  Inside [ev_loop] it sleeps until there is
    something to do. *)
Definition loop_step (s : loop) : option loop :=
  match loop_pc s with
  | L_None | L_Done => None
  | L_AsyncStart => Some (set_pc L_Lock (ev_async_start s))
  | L_Lock => s ← lock LoopThread s; Some (set_pc L_SetStarted s)
  | L_SetStarted => Some (set_pc L_Unlock (set_started true s))
  | L_Unlock => Some (set_pc L_Notify (unlock s))
  | L_Notify =>
      (* [started_.notify_all()], and [ev_loop] begins *)
      let o := match owner s with O_StartWait => O_StartWoken | o => o end in
      Some (set_pc L_Ev (set_done false (set_owner o s)))
  | L_Ev =>
      if loop_done s then Some (set_pc (L_Handle true H_Lock) s)
      else if async_sent s then Some (set_pc (L_Handle false H_Lock) (set_async (async_active s) false s))
      else None
  | L_Callback timer (Some q) => '(q, s) ← enqueue_step LoopThread q s; Some (set_pc (L_Callback timer q) s)
  | L_Callback _ None => Some (set_pc L_Ev s)
  | L_Handle final h =>
      '(h, s) ← handle_step h s;
      Some (set_pc match h with
                   | Some h => L_Handle final h
                   | None => if final then L_AsyncStop else L_Ev
                   end s)
  | L_AsyncStop => Some (set_pc L_Done (ev_async_stop s))
  end.

(** The next instruction of the owner in [start], [stop], [run] or [enqueue]. *)
Definition owner_step (s : loop) : option loop :=
  match owner s with
  | O_Idle | O_StartWait => None
  | O_Enqueue q => '(q, s) ← enqueue_step Owner q s; Some (set_owner (from_option O_Enqueue O_Idle q) s)
  | O_StartLock | O_StartWoken => s ← lock Owner s; Some (set_owner O_StartTest s)
  | O_StartTest => Some (if is_started_ s then set_owner O_StartUnlock s else set_owner O_StartWait (unlock s))
  | O_StartUnlock => Some (set_owner O_Idle (unlock s))
  | O_Stop q => '(q, s) ← enqueue_step Owner q s; Some (set_owner (from_option O_Stop O_Join q) s)
  | O_Join =>
      (* [thread_->join()], [thread_.reset()] *)
      match loop_pc s with L_Done => Some (set_owner O_Idle (set_thread false s)) | _ => None end
  | O_Run => match loop_pc s with L_Done => Some (set_owner O_Idle s) | _ => None end
  end.

Definition producer_step (i : nat) (s : loop) : option loop :=
  match producers s !! i with
  | Some (Some q) => '(q, s) ← enqueue_step (Producer i) q s; Some (set_producers (<[i := q]> (producers s)) s)
  | _ => None
  end.

(** ** Calls *)

Definition verify_or_crash (b : bool) (s s' : loop) : loop := if b then s' else set_crash (Some Abort) s.

(** [start] up to its lock: the thread is there, its first instruction is the one of [main_loop]. *)
Definition call_start (s : loop) : loop :=
  verify_or_crash (negb (thread_ s)) s (set_owner O_StartLock (set_pc L_AsyncStart (set_thread true (set_started false s)))).
Definition call_stop (s : loop) : loop :=
  verify_or_crash (thread_ s) s (set_owner (O_Stop (EnqLock (MkEvent Unloop no_scope))) s).
Definition call_run (s : loop) : loop :=
  verify_or_crash (negb (thread_ s)) s (set_owner O_Run (set_pc L_AsyncStart s)).

(** The loop's thread is in a handler or a callback of the program, and not in [enqueue]. *)
Definition in_user_code (s : loop) : bool :=
  match loop_pc s with
  | L_Callback _ None => true
  | L_Handle _ (H_Run e None) => match ev_handler e with Unloop => false | User _ => true end
  | _ => false
  end.

(** The program's code in the loop's thread calls [enqueue]. *)
Definition user_enqueue (e : event) (s : loop) : loop :=
  match loop_pc s with
  | L_Callback timer _ => set_pc (L_Callback timer (Some (EnqLock e))) s
  | L_Handle final (H_Run e' _) => set_pc (L_Handle final (H_Run e' (Some (EnqLock e)))) s
  | _ => s
  end.

(** The program's code throws: [handle_events], [on_io] and [on_signal] catch it,
    [on_timeout] does not, and nothing above it in [main_loop] does. *)
Definition user_throw (s : loop) : loop :=
  match loop_pc s with
  | L_Callback true _ => set_crash (Some Abort) s
  | _ => handle_exception s
  end.

(** What may happen next: a call, or one instruction of a thread.  A call of [enqueue] has a
    handler and a scope; no call of the program has the [unloop] that [stop] binds. *)
Inductive label : Type :=
| Start | Stop | Run
| OwnerEnqueue (h : H) (sc : option nat)
| ProducerEnqueue (i : nat) (h : H) (sc : option nat)
| UserEnqueue (h : H) (sc : option nat)
| UserUnloop
| UserThrow
| UserInvalidate (p : nat)
| NewScope
| Callback (timer : bool)      (* the callback of a timer, or of an I/O or signal watcher, begins *)
| SpuriousWakeup
| OwnerStep | ProducerStep (i : nat) | LoopStep.

Definition made (h : H) (sc : option nat) (s : loop) : event :=
  MkEvent (User h) (match sc with None => no_scope | Some p => EventScope_new p s end).

(** The scope exists. *)
Definition scope_made (sc : option nat) (s : loop) : bool :=
  match sc with None => true | Some p => (p <? length (scopes s))%nat end.

Definition when_some (b : bool) (s : loop) : option loop := if b then Some s else None.

Definition is_idle (s : loop) : bool := match owner s with O_Idle => true | _ => false end.
Definition is_waiting (s : loop) : bool := match owner s with O_StartWait => true | _ => false end.
Definition in_ev (s : loop) : bool := match loop_pc s with L_Ev => true | _ => false end.

Definition exec (l : label) (s : loop) : option loop :=
  match crash s with
  | Some _ => None
  | None =>
      match l with
      | Start => when_some (is_idle s) (call_start s)
      | Stop => when_some (is_idle s) (call_stop s)
      | Run => when_some (is_idle s) (call_run s)
      | OwnerEnqueue h sc => when_some (is_idle s && scope_made sc s) (set_owner (O_Enqueue (EnqLock (made h sc s))) s)
      | ProducerEnqueue i h sc =>
          match producers s !! i with
          | Some None => when_some (scope_made sc s) (set_producers (<[i := Some (EnqLock (made h sc s))]> (producers s)) s)
          | _ => None
          end
      | UserEnqueue h sc => when_some (in_user_code s && scope_made sc s) (user_enqueue (made h sc s) s)
      | UserUnloop => when_some (in_user_code s) (unloop s)
      | UserThrow => when_some (in_user_code s) (user_throw s)
      | UserInvalidate p => when_some (in_user_code s) (ScopedEventLoop_invalidate p s)
      | NewScope => Some (ScopedEventLoop_new s)
      | Callback timer => when_some (in_ev s) (set_pc (L_Callback timer None) s)
      | SpuriousWakeup => when_some (is_waiting s) (set_owner O_StartWoken s)
      | OwnerStep => owner_step s
      | ProducerStep i => producer_step i s
      | LoopStep => loop_step s
      end
  end.

(** An interleaving. *)
Fixpoint execs (ls : list label) (s : loop) : option loop :=
  match ls with
  | [] => Some s
  | l :: ls => s ← exec l s; execs ls s
  end.
End EventLoop.

Arguments EventHandler H : clear implicits.
Arguments event H : clear implicits.
Arguments enqueuing H : clear implicits.
Arguments handling H : clear implicits.
Arguments loop_at H : clear implicits.
Arguments owner_at H : clear implicits.
Arguments loop H : clear implicits.
Arguments label H : clear implicits.

(** ** Watchers

    [IoListener], [SignalListener] and [Timeout] each own a watcher of libev.  What libev
    requires is a fault where it is not met: a watcher that is active must not be set
    or initialised. *)

(** [EventLoop::handle_exception] around a callback; without a handler the program ends. *)
Definition guarded {St} (exception_handler : option (exn -> prog St unit)) (callback : prog St unit) : prog St unit :=
  fun s => match callback s with
           | Fault (Throw e) s' => match exception_handler with Some h => h e s' | None => Fault Abort s' end
           | r => r
           end.

Definition Event_Read : Z := 1.
Definition Event_Write : Z := 2.

(** The watcher: whether it waits for the descriptor to be readable and writable. *)
Record IoListener : Type := MkIo {
  io_fd : Z; io_read : bool; io_write : bool; io_active : bool; io_started : bool; io_events : Z
}.

Definition IoListener_new (fd events : Z) : IoListener :=
  MkIo fd (truth (Z.land events Event_Read)) (truth (Z.land events Event_Write)) false false events.

Definition ev_io_start : prog IoListener unit := fun w => Ok tt (MkIo (io_fd w) (io_read w) (io_write w) true (io_started w) (io_events w)).
Definition ev_io_stop : prog IoListener unit := fun w => Ok tt (MkIo (io_fd w) (io_read w) (io_write w) false (io_started w) (io_events w)).
Definition ev_io_set (fd : Z) (r t : bool) : prog IoListener unit := fun w =>
  if io_active w then Fault Undefined w else Ok tt (MkIo fd r t false (io_started w) (io_events w)).
Definition f_io_started : field IoListener bool :=
  Field io_started (fun v w => MkIo (io_fd w) (io_read w) (io_write w) (io_active w) v (io_events w)).

Definition IoListener_set_events (events : Z) : prog IoListener unit :=
  let! started := rd f_io_started in
  when started ev_io_stop ;;
  (fun w => ev_io_set (io_fd w) (truth (Z.land events Event_Read)) (truth (Z.land events Event_Write)) w) ;;
  let! started := rd f_io_started in
  when started ev_io_start.

Definition IoListener_start : prog IoListener unit :=
  let! started := rd f_io_started in
  if (started : bool) then ret tt else ev_io_start ;; wr f_io_started true.

Definition IoListener_stop : prog IoListener unit :=
  let! started := rd f_io_started in
  if negb started then ret tt else ev_io_stop ;; wr f_io_started false.

Definition IoListener_delete : prog IoListener unit :=
  let! started := rd f_io_started in verify (negb started).

(** [io_handler] and [on_io]: what libev saw, as the events of the listener. *)
Definition on_io {St} (handler : option (exn -> prog St unit)) (callback : Z -> Z -> prog St unit)
    (w : IoListener) (readable writable : bool) : prog St unit :=
  guarded handler (callback (io_fd w) (Z.lor (if readable then Event_Read else 0) (if writable then Event_Write else 0))).

Record SignalListener : Type := MkSignal { signum : Z; signal_active : bool; signal_started : bool }.

Definition SignalListener_new (signal : Z) : SignalListener := MkSignal signal false false.
Definition SignalListener_start : prog SignalListener unit := fun w =>
  if signal_started w then Ok tt w else Ok tt (MkSignal (signum w) true true).
Definition SignalListener_stop : prog SignalListener unit := fun w =>
  if negb (signal_started w) then Ok tt w else Ok tt (MkSignal (signum w) false false).
Definition on_signal {St} (handler : option (exn -> prog St unit)) (callback : prog St unit) : prog St unit :=
  guarded handler callback.

(** [remaining]: what the watcher waits for, in milliseconds. *)
Record Timeout : Type := MkTimeout { timeout_ms_ : Z; timer_active : bool; timer_remaining : Z; timer_started : bool }.

Definition Timeout_new (timeout_ms : Z) : Timeout := MkTimeout timeout_ms false 0 false.

Definition ev_timer_init (ms : Z) : prog Timeout unit := fun w =>
  if timer_active w then Fault Undefined w else Ok tt (MkTimeout (timeout_ms_ w) false ms (timer_started w)).
Definition ev_timer_start : prog Timeout unit := fun w => Ok tt (MkTimeout (timeout_ms_ w) true (timer_remaining w) (timer_started w)).
Definition ev_timer_stop : prog Timeout unit := fun w => Ok tt (MkTimeout (timeout_ms_ w) false (timer_remaining w) (timer_started w)).
Definition f_timer_started : field Timeout bool :=
  Field timer_started (fun v w => MkTimeout (timeout_ms_ w) (timer_active w) (timer_remaining w) v).

Definition Timeout_stop : prog Timeout unit :=
  let! started := rd f_timer_started in
  if negb started then ret tt else ev_timer_stop ;; wr f_timer_started false.

Definition Timeout_start : prog Timeout unit :=
  let! started := rd f_timer_started in
  when started Timeout_stop ;;
  (fun w => ev_timer_init (timeout_ms_ w) w) ;;
  ev_timer_start ;;
  wr f_timer_started true.

(** A watcher without a repetition is inactive when its time has come. *)
Definition timer_fires (w : Timeout) : Timeout := MkTimeout (timeout_ms_ w) false 0 (timer_started w).

(** [on_timeout]: whether the callback is called.  It is called without a handler for
    exceptions. *)
Definition on_timeout : prog Timeout bool :=
  let! started := rd f_timer_started in
  if negb started then ret false else Timeout_stop ;; ret true.
