(* ===== verification/EventLoopRules.v ===== *)
(** What holds of the event loop, for every interleaving: the mutex, the queue, the
    wake-up of the sleeping loop, and the calls of [start], [stop] and [enqueue]. *)

From S2P Require Import Prelude Monad EventLoop.

(** ** Tactics *)

(** One case for each instruction and each branch of it. *)
Ltac cases Hx :=
  repeat match type of Hx with
  | context [match ?x with _ => _ end] =>
      match x with context [match _ with _ => _ end] => fail 1 | _ => idtac end;
      destruct x eqn:?; cbn in Hx; try discriminate Hx
  end; simplify_eq/=.

Ltac exec_cases Hx :=
  unfold EventLoop.exec in Hx;
  match type of Hx with context [crash ?s] => destruct (crash s) eqn:?; [done|] end;
  match goal with l : label _ |- _ => destruct l end;
  unfold when_some, loop_step, owner_step, producer_step, handle_step, enqueue_step, lock, call_start, call_stop,
    call_run, verify_or_crash, user_enqueue, in_user_code, is_idle, is_waiting, in_ev, user_throw, handle_exception in Hx;
  cases Hx.

Ltac positions :=
  repeat match goal with
  | E : owner _ = _ |- _ => rewrite ?E in *; clear E
  | E : loop_pc _ = _ |- _ => rewrite ?E in *; clear E
  end; cbn in *.

(** The other threads are where they were; where the acting one is. *)
Ltac other_threads f :=
  let t := fresh "t" in let j := fresh "j" in let Hn := fresh "Hn" in
  intros t Hn; destruct t as [|j|]; try done; unfold f; cbn;
  try (repeat match goal with E : owner _ = _ |- _ => rewrite E | E : loop_pc _ = _ |- _ => rewrite E end; done);
  rewrite list_lookup_insert_ne by congruence; done.

Ltac moved f :=
  unfold f; cbn;
  repeat match goal with E : owner _ = _ |- _ => rewrite E | E : loop_pc _ = _ |- _ => rewrite E | E : guard_ _ = _ |- _ => rewrite E
    | E : ?l !! _ = Some _ |- context [<[_:=_]> ?l] => rewrite (list_lookup_insert_eq _ _ _ (lookup_lt_Some _ _ _ E))
    | E : producers _ !! _ = _ |- _ => rewrite E end; cbn; tauto.

(** ** Invariants *)

Section Rules.
Context {H : Type} (keeps_sent exception_handler_ : bool).
Implicit Types s : loop H.
Abbreviation exec := (exec keeps_sent exception_handler_).
Abbreviation execs := (execs keeps_sent exception_handler_).

Inductive reachable (n : nat) : loop H -> Prop :=
| reachable_new : reachable n (EventLoop_new n)
| reachable_step l s s' : reachable n s -> exec l s = Some s' -> reachable n s'.

(** The thread has the mutex. *)
Definition enq_holds (q : option (enqueuing H)) : bool :=
  match q with Some (EnqPush _) | Some EnqUnlock => true | _ => false end.
Definition owner_holds (o : owner_at H) : bool :=
  match o with
  | O_Enqueue q | O_Stop q => enq_holds (Some q)
  | O_StartTest | O_StartUnlock => true
  | _ => false
  end.
Definition loop_holds (pc : loop_at H) : bool :=
  match pc with
  | L_SetStarted | L_Unlock | L_Handle _ H_Test => true
  | L_Callback _ q | L_Handle _ (H_Run _ q) => enq_holds q
  | _ => false
  end.
Definition holds (t : tid) s : bool :=
  match t with
  | Owner => owner_holds (owner s)
  | Producer i => enq_holds (default None (producers s !! i))
  | LoopThread => loop_holds (loop_pc s)
  end.

Definition mutex_inv s : Prop := forall t, holds t s = true <-> guard_ s = Some t.

(** The thread of the loop runs [main_loop] when the owner thinks it does. *)
Definition running_ok (o : owner_at H) (t : bool) (pc : loop_at H) : bool :=
  match o with
  | O_Idle | O_Enqueue _ => t || match pc with L_None | L_Done => true | _ => false end
  | O_Run => negb t && match pc with L_None => false | _ => true end
  | _ => t
  end && (negb t || match pc with L_None => false | _ => true end).
Definition running_inv s : Prop := running_ok (owner s) (thread_ s) (loop_pc s) = true.

Lemma running_inv_step l s s' : running_inv s -> exec l s = Some s' -> running_inv s'.
Proof.
  unfold running_inv. intros M Hx. exec_cases Hx; try exact M.
  all: positions; try rewrite negb_true_iff in *.
  all: try (destruct (owner s)); try (destruct (thread_ s)); first [done|by destruct (loop_pc s)].
Qed.

Lemma idle_pc s : running_inv s -> owner s = O_Idle -> negb (thread_ s) = true -> loop_pc s = L_None \/ loop_pc s = L_Done.
Proof.
  unfold running_inv. intros R Ho Ht%negb_true_iff. rewrite Ho, Ht in R. destruct (loop_pc s); auto; done.
Qed.

(** What an instruction of [t] may do to the mutex. *)
Lemma mutex_act t0 s s' :
  (forall t, t <> t0 -> holds t s' = holds t s) ->
  (guard_ s' = guard_ s /\ holds t0 s' = holds t0 s) \/
  (guard_ s = None /\ guard_ s' = Some t0 /\ holds t0 s' = true) \/
  (holds t0 s = true /\ guard_ s' = None /\ holds t0 s' = false) ->
  mutex_inv s -> mutex_inv s'.
Proof.
  intros Hf Hg M t. pose proof (M t0) as M0. pose proof (M t) as Mt.
  destruct (decide (t = t0)) as [->|Hne].
  - destruct Hg as [(-> & ->)|[(_ & -> & ->)|(_ & -> & ->)]]; [done|done|by split].
  - rewrite (Hf t Hne), Mt. destruct Hg as [(-> & _)|[(-> & -> & _)|(Ht & -> & _)]]; [done| |].
    + split; congruence.
    + apply M0 in Ht. split; congruence.
Qed.

Definition unl : event H := MkEvent Unloop no_scope.

Definition enq_sends (q : option (enqueuing H)) : bool :=
  match q with Some EnqUnlock | Some EnqSend => true | _ => false end.
(** The thread has pushed an event and will call [ev_async_send]. *)
Definition sends (t : tid) s : bool :=
  match t with
  | Owner => match owner s with O_Enqueue q | O_Stop q => enq_sends (Some q) | _ => false end
  | Producer i => enq_sends (default None (producers s !! i))
  | LoopThread => match loop_pc s with L_Callback _ q | L_Handle _ (H_Run _ q) => enq_sends q | _ => false end
  end.

Lemma mutex_inv_step l s s' : running_inv s -> mutex_inv s -> exec l s = Some s' -> mutex_inv s'.
Proof.
  intros R M Hx. exec_cases Hx; try exact M.
  all: try first
    [ apply (mutex_act Owner s); [other_threads holds|moved holds|exact M]
    | apply (mutex_act LoopThread s); [other_threads holds|moved holds|exact M]
    | apply (mutex_act (Producer i) s); [other_threads holds|moved holds|exact M] ].
  all: destruct (idle_pc s R ltac:(assumption) ltac:(assumption)) as [E|E]; (apply (mutex_act Owner s); [other_threads holds|moved holds|exact M]).
Qed.

(** *** The queue *)

Definition unscoped (e : event H) : bool := match scope_value (ev_scope e) with None => true | Some _ => false end.

(** The event [handle_events] has taken and not yet decided on. *)
Definition taken s : list (event H) := match loop_pc s with L_Handle _ (H_Valid e) => [e] | _ => [] end.

Definition fifo_inv s : Prop :=
  pushed s = popped s ++ event_queue_ s /\ ran s ++ taken s `sublist_of` popped s /\
  List.filter unscoped (ran s ++ taken s) = List.filter unscoped (popped s).

Lemma invalid_scoped e s : EventScope_valid (ev_scope e) s = false -> unscoped e = false.
Proof. unfold EventScope_valid, unscoped. by destruct (scope_value (ev_scope e)). Qed.

Lemma sublist_snoc_drop {A} (l k : list A) x : l ++ [x] `sublist_of` k -> l `sublist_of` k.
Proof. intros Hl. transitivity (l ++ [x]); [|done]. apply sublist_inserts_r. reflexivity. Qed.

Lemma fifo_inv_step l s s' : running_inv s -> fifo_inv s -> exec l s = Some s' -> fifo_inv s'.
Proof.
  unfold fifo_inv, taken. intros R (F1 & F2 & F3) Hx. exec_cases Hx; try done; rewrite ?app_nil_r in *.
  all: try (destruct (idle_pc s R ltac:(assumption) ltac:(assumption)) as [E|E]; rewrite E in *; cbn in *; rewrite ?app_nil_r in *; done).
  all: positions; try done.
  all: try match goal with E : event_queue_ _ = _ |- _ => rewrite E in *; clear E end.
  all: rewrite ?app_nil_r in *; try done.
  all: try (split; [by rewrite F1, <- app_assoc|done]).
  all: repeat match goal with E : loop_pc _ = _ |- _ => rewrite E in *; clear E end; cbn in *.
  1, 3: split; [by rewrite F1, <- app_assoc|]; split; [by apply sublist_app|by rewrite !List.filter_app, F3].
  all: split; [done|]; split; [by eapply sublist_snoc_drop|]; rewrite <- F3, List.filter_app; cbn;
    match goal with E : EventScope_valid _ _ = false |- _ => rewrite (invalid_scoped _ _ E) end; by rewrite app_nil_r.
Qed.

Definition in_handle s : bool := match loop_pc s with L_Handle _ _ => true | _ => false end.

Definition wake_inv s : Prop :=
  event_queue_ s = [] \/ (async_sent s = true \/ forgotten s = true) \/ (exists t, sends t s = true) \/ in_handle s = true.

Lemma wake_act t0 s s' :
  (forall t, t <> t0 -> sends t s' = sends t s) ->
  (sends t0 s = true -> sends t0 s' = true \/ async_sent s' = true) ->
  (async_sent s = true \/ forgotten s = true -> async_sent s' = true \/ forgotten s' = true) ->
  (event_queue_ s' = [] \/ event_queue_ s' = event_queue_ s \/ sends t0 s' = true \/ in_handle s' = true) ->
  (in_handle s = true -> in_handle s' = true \/ event_queue_ s' = []) ->
  wake_inv s -> wake_inv s'.
Proof using.
  intros Hf Hs Ha Hq Hh W. unfold wake_inv in *.
  destruct Hq as [Hq|[Hq|[Hq|Hq]]]; [by left| |right; right; left; by exists t0|by right; right; right].
  destruct W as [W|[W|[[t W]|W]]]; [left; congruence|right; left; auto| |].
  - destruct (decide (t = t0)) as [->|Hn].
    + destruct (Hs W); [right; right; left; by exists t0|by right; left; left].
    + right; right; left. exists t. by rewrite Hf.
  - destruct (Hh W); [by right; right; right|by left].
Qed.

Lemma wake_inv_step l s s' : running_inv s -> wake_inv s -> exec l s = Some s' -> wake_inv s'.
Proof.
  intros R W Hx. exec_cases Hx; try exact W.
  all: try first
    [ apply (wake_act Owner s); [other_threads sends|moved sends|cbn; tauto|moved sends|moved in_handle|exact W]
    | apply (wake_act LoopThread s); [other_threads sends|moved sends|cbn; first [tauto|destruct (async_sent s), keeps_sent; cbn; rewrite ?orb_true_r, ?orb_false_r; tauto]|unfold sends, in_handle; cbn; tauto|moved in_handle|exact W]
    | apply (wake_act (Producer i) s); [other_threads sends|moved sends|cbn; tauto|moved sends|moved in_handle|exact W] ].
  1, 2: destruct (idle_pc s R ltac:(assumption) ltac:(assumption)) as [E|E]; (apply (wake_act Owner s); [other_threads sends|moved sends|cbn; tauto|moved sends|moved in_handle|exact W]).
  by right; right; right.
Qed.

(** *** [start] *)

(** The owner in [start] waits for a thread that has still to tell it. *)
Definition start_inv s : Prop :=
  match owner s with
  | O_StartLock | O_StartWoken | O_StartTest =>
      is_started_ s || match loop_pc s with L_AsyncStart | L_Lock | L_SetStarted => true | _ => false end
  | O_StartWait =>
      match loop_pc s with
      | L_AsyncStart | L_Lock | L_SetStarted => true
      | L_Unlock | L_Notify => is_started_ s
      | _ => false
      end
  | O_StartUnlock => is_started_ s
  | _ => true
  end = true.

Lemma start_inv_step l s s' : running_inv s -> start_inv s -> exec l s = Some s' -> start_inv s'.
Proof.
  unfold start_inv, running_inv. intros R M Hx. exec_cases Hx; try exact M; positions;
    try (destruct (is_started_ s)); try done; try (destruct (owner s)); try done; try (by destruct (loop_pc s)); try congruence.
Qed.

(** *** What the owner knows in [stop] *)

Definition starting (pc : loop_at H) : bool := match pc with L_AsyncStart | L_Lock | L_SetStarted => true | _ => false end.

(** The thread [stop] ends is past its [ev_async_start], so the send of [stop] is kept. *)
Definition join_inv s : Prop :=
  match owner s with
  | O_Run => True
  | O_Idle | O_Enqueue _ => (thread_ s = true -> is_started_ s = true) /\ (is_started_ s = true -> starting (loop_pc s) = false)
  | O_Stop _ => is_started_ s = true /\ starting (loop_pc s) = false
  | O_Join => is_started_ s = true /\ starting (loop_pc s) = false /\ forgotten s = false
  | _ => is_started_ s = true -> starting (loop_pc s) = false
  end.

Lemma join_inv_step l s s' : running_inv s -> start_inv s -> join_inv s -> exec l s = Some s' -> join_inv s'.
Proof.
  unfold join_inv, running_inv, start_inv. intros R A M Hx. exec_cases Hx; try exact M; positions; try tauto.
  all: destruct (owner s), (is_started_ s), (thread_ s); cbn in *; rewrite ?orb_false_r in *; first [done|tauto|naive_solver].
Qed.

(** *** [stop] *)

(** The owner in [stop] has pushed [unloop]; while it has not, [unloop] is what it will push. *)
Definition stop_waits (o : owner_at H) : bool :=
  match o with O_Join | O_Stop EnqUnlock | O_Stop EnqSend => true | _ => false end.

(** The loop's thread will end its [ev_loop]. *)
Definition will_stop (pc : loop_at H) (done : bool) (q : list (event H)) : Prop :=
  match pc with
  | L_None => False
  | L_AsyncStart | L_Lock | L_SetStarted | L_Unlock | L_Notify => unl ∈ q
  | L_Ev | L_Callback _ _ => done = true \/ unl ∈ q
  | L_Handle false (H_Valid e) | L_Handle false (H_Run e None) => done = true \/ unl ∈ q \/ e = unl
  | L_Handle false _ => done = true \/ unl ∈ q
  | _ => True
  end.

Definition stop_inv s : Prop :=
  match owner s with O_Stop (EnqLock e) | O_Stop (EnqPush e) => e = unl | _ => True end /\
  (stop_waits (owner s) = true -> will_stop (loop_pc s) (loop_done s) (event_queue_ s)).

Lemma will_stop_push pc d q e : will_stop pc d q -> will_stop pc d (q ++ [e]).
Proof.
  unfold will_stop. assert (unl ∈ q -> unl ∈ q ++ [e]) by (intros; apply elem_of_app; by left).
  destruct pc as [| | | | | | | |[] []| |]; try done; repeat case_match; tauto.
Qed.

Lemma will_stop_pushed pc d q : pc <> L_None -> will_stop pc d (q ++ [unl]).
Proof.
  unfold will_stop. assert (unl ∈ q ++ [unl]) by (apply elem_of_app; right; by apply list_elem_of_singleton).
  destruct pc as [| | | | | | | |[] []| |]; try done; repeat case_match; tauto.
Qed.

Lemma stop_inv_step l s s' : running_inv s -> stop_inv s -> exec l s = Some s' -> stop_inv s'.
Proof.
  unfold stop_inv, running_inv. intros R [M1 M2] Hx. exec_cases Hx; try by split.
  all: positions; split; try done.
  all: try (intros Hs; specialize (M2 Hs); first [by apply will_stop_push|cbn in *; repeat case_match; simplify_eq; tauto]).
  all: try (intros _; apply will_stop_pushed; intros E; rewrite E in R; by destruct (thread_ s)).
  all: intros Hs; specialize (M2 Hs); cbn in M2; try (destruct final; [done|]);
    rewrite ?elem_of_app, ?elem_of_nil, ?elem_of_cons in *;
    repeat match goal with E : event_queue_ _ = _ |- _ => rewrite E in *; clear E end; rewrite ?elem_of_cons in *;
    repeat match goal with E : _ \/ _ |- _ => destruct E as [E|E] end; simplify_eq; try tauto; try done.
Qed.

Lemma producers_lookup_insert (l : list (option (enqueuing H))) i j q q' :
  l !! i = Some q -> default None (<[i:=q']> l !! j) = if decide (i = j) then q' else default None (l !! j).
Proof.
  intros Hi. destruct (decide (i = j)) as [<-|Hn].
  - by rewrite list_lookup_insert_eq by (by apply lookup_lt_Some in Hi).
  - by rewrite list_lookup_insert_ne.
Qed.

(** *** Scopes *)

(** A scope of an event that is on its way has had its value at some time. *)
Definition not_ahead s (e : event H) : Prop :=
  match scope_value (ev_scope e) with None => True | Some p => valid_value (ev_scope e) <= current p s end.

Definition enq_event (q : option (enqueuing H)) : list (event H) :=
  match q with Some (EnqLock e) | Some (EnqPush e) => [e] | _ => [] end.
Definition carried (t : tid) s : list (event H) :=
  match t with
  | Owner => match owner s with O_Enqueue q | O_Stop q => enq_event (Some q) | _ => [] end
  | Producer i => enq_event (default None (producers s !! i))
  | LoopThread => match loop_pc s with L_Callback _ q | L_Handle _ (H_Run _ q) => enq_event q | _ => [] end
  end.

Definition scope_inv s : Prop :=
  Forall (not_ahead s) (event_queue_ s) /\ forall t, Forall (not_ahead s) (carried t s).

(** Scopes only grow. *)
Lemma current_grows l s s' p : exec l s = Some s' -> current p s <= current p s'.
Proof.
  intros Hx. exec_cases Hx; try reflexivity; unfold current; cbn.
  all: rewrite !nth_lookup.
  all: try (destruct (decide (p0 = p)) as [->|Hn]; [rewrite list_lookup_alter_eq; destruct (scopes s !! p); cbn; lia|
    by rewrite list_lookup_alter_ne]).
  destruct (scopes s !! p) as [v|] eqn:E.
  - by rewrite lookup_app_l, E by (by eapply lookup_lt_Some).
  - apply lookup_ge_None in E. rewrite lookup_app_r by done. cbn. by destruct (p - length (scopes s))%nat.
Qed.

Lemma not_ahead_step l s s' e : exec l s = Some s' -> not_ahead s e -> not_ahead s' e.
Proof.
  unfold not_ahead. intros Hx He. destruct (scope_value (ev_scope e)) as [p|]; [|done].
  pose proof (current_grows _ _ _ p Hx). lia.
Qed.

Lemma made_not_ahead h sc s : not_ahead s (made h sc s).
Proof. unfold not_ahead, made. destruct sc; cbn; [lia|done]. Qed.

Lemma scope_inv_step l s s' : scope_inv s -> exec l s = Some s' -> scope_inv s'.
Proof.
  intros [Q C] Hx. assert (forall k, Forall (not_ahead s) k -> Forall (not_ahead s') k) as Hk.
  { intros k. apply Forall_impl. intros e. by apply (not_ahead_step l). }
  assert (forall t0, (forall t, t <> t0 -> carried t s' = carried t s) -> Forall (not_ahead s') (carried t0 s') ->
    Forall (not_ahead s') (event_queue_ s') -> scope_inv s') as Hact.
  { intros t0 Hf H0 Hq. split; [done|]. intros t. destruct (decide (t = t0)) as [->|Hn]; [done|]. rewrite Hf by done. auto. }
  assert (forall h sc, not_ahead s' (made h sc s)) as Hm by (intros; eapply not_ahead_step, made_not_ahead; done).
  assert (forall t, Forall (not_ahead s') (carried t s)) as C' by auto. apply Hk in Q. clear C Hk.
  exec_cases Hx; try by split.
  all: first [ apply (Hact Owner); [other_threads carried|..] | apply (Hact LoopThread); [other_threads carried|..]
             | apply (Hact (Producer i)); [other_threads carried|..] ].
  all: clear Hact; pose proof (C' Owner) as CO; pose proof (C' LoopThread) as CL; try pose proof (C' (Producer i)) as CP; clear C';
    unfold carried in *; cbn;
    repeat match goal with E : ?l !! _ = Some _ |- context [<[_:=_]> ?l] => rewrite (list_lookup_insert_eq _ _ _ (lookup_lt_Some _ _ _ E)) end;
    repeat match goal with E : _ !! _ = Some _ |- _ => rewrite E in *; clear E | E : event_queue_ _ = _ |- _ => rewrite E in *; clear E end;
    positions; rewrite ?Forall_app in *; rewrite ?Forall_cons in *; try tauto; auto.
  1: by repeat constructor.
  all: by inversion Q.
Qed.

(** *** Work *)

Definition enq_work (q : option (enqueuing H)) : nat :=
  match q with Some (EnqLock _) => 12 | Some (EnqPush _) => 11 | Some EnqUnlock => 6 | Some EnqSend => 5 | None => 0 end.
Definition owner_work (o : owner_at H) : nat :=
  match o with
  | O_Idle | O_StartWait => 0
  | O_Enqueue q => enq_work (Some q)
  | O_StartLock | O_StartWoken => 3 | O_StartTest => 2 | O_StartUnlock => 1
  | O_Stop q => S (enq_work (Some q)) | O_Join | O_Run => 1
  end.
Definition handle_work (h : handling H) : nat :=
  match h with H_Test => 2 | H_Lock => 3 | H_Run _ q => 4 + enq_work q | H_Valid _ => 5 end.
Definition loop_work (pc : loop_at H) : nat :=
  match pc with
  | L_None | L_Done => 0 | L_AsyncStop => 1
  | L_Handle true h => handle_work h
  | L_Ev => 4
  | L_Callback _ q => 5 + enq_work q
  | L_Handle false h => 4 + handle_work h
  | L_Notify => 8 | L_Unlock => 9 | L_SetStarted => 10 | L_Lock => 11 | L_AsyncStart => 12
  end.

(** A bound on the instructions the threads have before them without a new call. *)
Definition work s : nat :=
  4 * length (event_queue_ s) + (if async_sent s then 4 else 0) + loop_work (loop_pc s) + owner_work (owner s) +
  sum_list_with enq_work (producers s).

Definition internal (l : label H) : bool :=
  match l with OwnerStep | ProducerStep _ | LoopStep => true | _ => false end.

Lemma sum_insert {A} (f : A -> nat) l i x y : l !! i = Some x ->
  (sum_list_with f (<[i := y]> l) + f x = sum_list_with f l + f y)%nat.
Proof.
  revert i. induction l as [|z l IH]; intros [|i] Hi; simplify_eq/=; [lia|]. specialize (IH i Hi). lia.
Qed.

Lemma work_decreases l s s' : internal l = true -> exec l s = Some s' -> (work s' < work s)%nat.
Proof.
  intros Hl Hx. unfold work. exec_cases Hx; try done; positions; rewrite ?length_app; cbn;
    try match goal with E : event_queue_ _ = _ |- _ => rewrite E end; cbn; try (destruct (async_sent s); lia).
  all: try match goal with E : producers _ !! _ = Some ?x |- context [<[_ := ?y]> _] => pose proof (sum_insert enq_work _ _ _ y E); cbn in *; destruct (async_sent s); lia end.
  destruct (async_sent s), keeps_sent; cbn; lia.
Qed.

(** ** The invariant of a reachable loop *)

Record loop_inv s : Prop := {
  inv_running : running_inv s;
  inv_mutex : mutex_inv s;
  inv_fifo : fifo_inv s;
  inv_start : start_inv s;
  inv_join : join_inv s;
  inv_wake : wake_inv s;
  inv_stop : stop_inv s;
  inv_scope : scope_inv s
}.

Lemma enq_none n i : default None (replicate n (@None (enqueuing H)) !! i) = None.
Proof. destruct (replicate n None !! i) as [q|] eqn:E; [|done]. by apply lookup_replicate in E as [-> _]. Qed.

Lemma loop_inv_new n : loop_inv (EventLoop_new n).
Proof.
  split; try done.
  - intros [|i|]; cbn; rewrite ?enq_none; done.
  - by left.
  - split; [constructor|]. intros [|i|]; cbn; rewrite ?enq_none; constructor.
Qed.

Lemma loop_inv_step l s s' : loop_inv s -> exec l s = Some s' -> loop_inv s'.
Proof.
  intros [R M F A J W B C] Hx. split; eauto using running_inv_step, mutex_inv_step, fifo_inv_step, start_inv_step,
    join_inv_step, wake_inv_step, stop_inv_step, scope_inv_step.
Qed.

Lemma reachable_inv n s : reachable n s -> loop_inv s.
Proof. induction 1; eauto using loop_inv_new, loop_inv_step. Qed.

(** A libev that keeps a send before [ev_async_start] forgets none. *)
Lemma none_forgotten n s : keeps_sent = true -> reachable n s -> forgotten s = false.
Proof.
  intros Hk. induction 1 as [|l s s' Hs IH Hx]; [done|]. exec_cases Hx; try done. by rewrite IH, Hk, andb_false_r.
Qed.

Lemma reachable_execs n ls s s' : reachable n s -> execs ls s = Some s' -> reachable n s'.
Proof.
  revert s. induction ls as [|l ls IH]; intros s Hs Hx; simplify_eq/=; [done|].
  destruct (exec l s) as [s1|] eqn:E; [|done]. eauto using reachable_step.
Qed.

(** ** Rest *)

(** No thread has an instruction it can take without a new call. *)
Definition at_rest s : Prop := forall l, internal l = true -> exec l s = None.

Lemma enqueue_enabled t q s : enq_holds (Some q) = true \/ guard_ s = None -> is_Some (enqueue_step t q s).
Proof. intros Hg. destruct q as [e| | |]; cbn; eauto. destruct Hg as [?| Hg]; [done|]. unfold lock. rewrite Hg. eauto. Qed.

Ltac enabled Hr l :=
  specialize (Hr l eq_refl); unfold EventLoop.exec, loop_step, owner_step, producer_step, handle_step in Hr.

(** The thread that has the mutex goes on, so at rest it is free. *)
Lemma rest_mutex_free s : mutex_inv s -> crash s = None -> at_rest s -> guard_ s = None.
Proof.
  intros M Hc Hr. destruct (guard_ s) as [t|] eqn:Hg; [|done]. exfalso. apply M in Hg.
  destruct t as [|i|]; cbn in Hg.
  - enabled Hr (@OwnerStep H). rewrite Hc in Hr. destruct (owner s) as [|q| | | | | |q| |]; try done.
    + destruct (enqueue_enabled Owner q s (or_introl Hg)) as [[q' s'] E]. by rewrite E in Hr.
    + destruct (enqueue_enabled Owner q s (or_introl Hg)) as [[q' s'] E]. by rewrite E in Hr.
  - enabled Hr (ProducerStep (H:=H) i). rewrite Hc in Hr. destruct (producers s !! i) as [[q|]|]; try done.
    destruct (enqueue_enabled (Producer i) q s (or_introl Hg)) as [[q' s'] E]. by rewrite E in Hr.
  - enabled Hr (@LoopStep H). rewrite Hc in Hr. destruct (loop_pc s) as [| | | | | | |w [q|]|f [| | |e [q|]]| |]; try done.
    + destruct (enqueue_enabled LoopThread q s (or_introl Hg)) as [[q' s'] E]. by rewrite E in Hr.
    + by destruct (event_queue_ s).
    + destruct (enqueue_enabled LoopThread q s (or_introl Hg)) as [[q' s'] E]. by rewrite E in Hr.
Qed.

Definition loop_rests s : Prop :=
  match loop_pc s with L_None | L_Done => True | L_Ev => loop_done s = false /\ async_sent s = false | _ => False end.

Lemma rest_loop s : guard_ s = None -> crash s = None -> at_rest s -> loop_rests s.
Proof.
  intros Hg Hc Hr. enabled Hr (@LoopStep H). unfold loop_rests. rewrite Hc in Hr.
  destruct (loop_pc s) as [| | | | | | |w [q|]|f [| |e|e [q|]]| |]; try done; unfold lock in Hr; rewrite ?Hg in Hr; try done.
  - by destruct (loop_done s), (async_sent s).
  - destruct (enqueue_enabled LoopThread q s (or_intror Hg)) as [[q' s'] E]. by rewrite E in Hr.
  - by destruct (event_queue_ s).
  - by destruct (EventScope_valid _ _).
  - destruct (enqueue_enabled LoopThread q s (or_intror Hg)) as [[q' s'] E]. by rewrite E in Hr.
Qed.

Lemma rest_producers s i : guard_ s = None -> crash s = None -> at_rest s -> default None (producers s !! i) = None.
Proof.
  intros Hg Hc Hr. enabled Hr (ProducerStep (H:=H) i). rewrite Hc in Hr. destruct (producers s !! i) as [[q|]|]; try done.
  destruct (enqueue_enabled (Producer i) q s (or_intror Hg)) as [[q' s'] E]. by rewrite E in Hr.
Qed.

(** What the sleeping loop may have left, when every thread rests. *)
Lemma rest_queue s : loop_inv s -> guard_ s = None -> crash s = None -> at_rest s -> loop_pc s = L_Ev ->
  event_queue_ s = [] \/ forgotten s = true.
Proof.
  intros I Hg Hc Hr Hp. pose proof (rest_loop s Hg Hc Hr) as Hl. unfold loop_rests in Hl. rewrite Hp in Hl.
  destruct Hl as [_ Hs]. destruct (inv_wake _ I) as [W|[[W|W]|[[t W]|W]]];
    [by left|congruence|by right| |unfold in_handle in W; by rewrite Hp in W].
  exfalso. destruct t as [|i|]; cbn in W; [|by rewrite rest_producers in W|by rewrite Hp in W].
  enabled Hr (@OwnerStep H). rewrite Hc in Hr.
  destruct (owner s) as [|q| | | | | |q| |]; try done;
  destruct (enqueue_enabled Owner q s (or_intror Hg)) as [[q' s'] E]; by rewrite E in Hr.
Qed.

(** [start] and [stop] are over. *)
Lemma rest_owner s : loop_inv s -> guard_ s = None -> crash s = None -> at_rest s ->
  owner s = O_Idle \/ (owner s = O_Run /\ loop_pc s = L_Ev).
Proof.
  intros I Hg Hc Hr. pose proof (rest_queue s I Hg Hc Hr) as Hq. destruct I as [R _ _ A J _ B _].
  pose proof (rest_loop s Hg Hc Hr) as Hl. enabled Hr (@OwnerStep H). rewrite Hc in Hr.
  unfold running_inv, start_inv, stop_inv, join_inv, loop_rests in *.
  destruct (owner s) as [|q| | | | | |q| |]; try by left; unfold lock in Hr; rewrite ?Hg in Hr; try done.
  - destruct (enqueue_enabled Owner q s (or_intror Hg)) as [[q' s'] E]. by rewrite E in Hr.
  - by destruct (loop_pc s).
  - destruct (enqueue_enabled Owner q s (or_intror Hg)) as [[q' s'] E]. by rewrite E in Hr.
  - destruct B as [_ B]. specialize (B eq_refl). destruct (loop_pc s); try done. destruct Hl as [Hd _], J as (_ & _ & J).
    destruct (Hq eq_refl) as [Hq'|]; [|congruence]. cbn in B. rewrite Hd, Hq' in B. by destruct B as [|B%elem_of_nil].
  - right. split; [done|]. unfold running_ok in R. destruct (loop_pc s); try done. by destruct (thread_ s).
Qed.

(** Instructions without a new call. *)
Lemma work_bounds ls s s' : forallb internal ls = true -> execs ls s = Some s' -> (length ls + work s' <= work s)%nat.
Proof.
  revert s. induction ls as [|l ls IH]; intros s Hi Hx; simplify_eq/=; [lia|].
  apply andb_prop in Hi as [Hl Hi]. destruct (exec l s) as [s1|] eqn:E; [|done].
  specialize (IH s1 Hi Hx). pose proof (work_decreases l s s1 Hl E). lia.
Qed.

Lemma internal_keeps_running l s s' : internal l = true -> exec l s = Some s' -> crash s' = None.
Proof. intros Hl Hx. exec_cases Hx; done. Qed.

Lemma internals_keep_running ls s s' : forallb internal ls = true -> crash s = None -> execs ls s = Some s' -> crash s' = None.
Proof.
  revert s. induction ls as [|l ls IH]; intros s Hi Hc Hx; simplify_eq/=; [done|].
  apply andb_prop in Hi as [Hl Hi]. destruct (exec l s) as [s1|] eqn:E; [|done]. eauto using internal_keeps_running.
Qed.

(** A scope that has moved on stays ahead of the event. *)
Lemma stays_invalid ls s s' e : not_ahead s e -> EventScope_valid (ev_scope e) s = false -> execs ls s = Some s' ->
  exists k, ran s' = ran s ++ k /\ e ∉ k.
Proof.
  intros Ha Hv. assert (exists p, scope_value (ev_scope e) = Some p /\ valid_value (ev_scope e) < current p s) as (p & Hp & Hlt).
  { unfold not_ahead, EventScope_valid in *. destruct (scope_value (ev_scope e)) as [p|]; [|done].
    exists p. split; [done|]. apply Z.eqb_neq in Hv. lia. }
  clear Ha Hv. revert s Hlt. induction ls as [|l ls IH]; intros s Hlt Hx; simplify_eq/=.
  { exists []. split; [by rewrite app_nil_r|apply not_elem_of_nil]. }
  destruct (exec l s) as [s1|] eqn:E; [|done]. pose proof (current_grows _ _ _ p E) as Hg.
  destruct (IH s1 ltac:(lia) Hx) as (k & -> & Hk).
  assert (ran s1 = ran s \/ exists e', EventScope_valid (ev_scope e') s = true /\ ran s1 = ran s ++ [e']) as [->|(e' & Hv & ->)].
  { clear - E. exec_cases E; try (by left); right; eauto. }
  - by exists k.
  - exists (e' :: k). rewrite <- app_assoc. split; [done|]. rewrite elem_of_cons. intros [->|]; [|done].
    unfold EventScope_valid in Hv. rewrite Hp in Hv. apply Z.eqb_eq in Hv. lia.
Qed.
End Rules.

(** ** [stop] *)

Section Stop.
Context {H : Type} (keeps_sent exception_handler_ : bool).
Implicit Types s : loop H.
Abbreviation exec := (exec keeps_sent exception_handler_).

(** Nobody but [stop] ends the loop. *)
Inductive stop_reachable (n : nat) : loop H -> Prop :=
| stop_reachable_new : stop_reachable n (EventLoop_new n)
| stop_reachable_step l s s' :
    stop_reachable n s -> l <> UserUnloop -> l <> Run -> exec l s = Some s' -> stop_reachable n s'.

Lemma stop_reachable_reachable n s : stop_reachable n s -> reachable keeps_sent exception_handler_ n s.
Proof. induction 1; eauto using reachable_new, reachable_step. Qed.

Definition is_user (e : event H) : Prop := match ev_handler e with User _ => True | Unloop => False end.

(** Only [stop] enqueues [unloop]. *)
Definition user_inv s : Prop :=
  match owner s with O_Enqueue q => Forall is_user (enq_event (Some q)) | O_Run => False | _ => True end /\
  Forall is_user (carried LoopThread s) /\ forall i, Forall is_user (carried (Producer i) s).

(** The loop has met the [unloop] of this [start]. *)
Definition ending s : bool :=
  match loop_pc s with
  | L_Handle false (H_Valid e) | L_Handle false (H_Run e _) =>
      loop_done s || match ev_handler e with Unloop => true | User _ => false end
  | L_Ev | L_Callback _ _ | L_Handle false _ => loop_done s
  | L_Handle true _ | L_AsyncStop => true
  | L_Done => thread_ s
  | _ => false
  end.

(** [waits]: the owner is in [stop] and has pushed; then one [unloop] is in the queue and
    the loop goes on, or none is. *)
Definition flush_ok (waits : bool) (q : list (event H)) (ends : bool) : Prop :=
  if waits then Forall is_user q \/ (exists q1 u q2, q = q1 ++ u :: q2 /\ Forall is_user q1 /\ Forall is_user q2 /\ ends = false)
  else Forall is_user q /\ ends = false.

Definition flush_inv s : Prop := flush_ok (stop_waits (owner s)) (event_queue_ s) (ending s).

Lemma flush_less w q e e' : flush_ok w q e -> (e' = true -> e = true) -> flush_ok w q e'.
Proof.
  intros F He. assert (e = false -> e' = false) as He' by (destruct e, e'; auto; intros _; symmetry; auto).
  destruct w; cbn in *; [|naive_solver]. destruct F as [F|(q1 & u & q2 & -> & F1 & F2 & F3)]; [by left|].
  right. exists q1, u, q2. auto.
Qed.

Lemma flush_push w q e x : flush_ok w q e -> is_user x -> flush_ok w (q ++ [x]) e.
Proof.
  intros F Hx. assert (Forall is_user [x]) as H1 by by repeat constructor. destruct w; cbn in *.
  - destruct F as [F|(q1 & u & q2 & -> & F1 & F2 & F3)]; [left; by apply Forall_app|].
    right. exists q1, u, (q2 ++ [x]). rewrite <- app_assoc. rewrite Forall_app. auto.
  - destruct F as [F1 F2]. by rewrite Forall_app.
Qed.

Lemma flush_stop q e : flush_ok false q e -> flush_ok true (q ++ [unl]) e.
Proof. intros [F1 F2]. right. exists q, unl, []. auto. Qed.

Lemma flush_pop w x q d : flush_ok w (x :: q) d ->
  flush_ok w q (d || match ev_handler x with Unloop => true | User _ => false end).
Proof.
  assert (is_user x -> match ev_handler x with Unloop => true | User _ => false end = false) as Hu
    by (unfold is_user; by destruct (ev_handler x)).
  destruct w; cbn.
  - intros [F|(q1 & u & q2 & E & F1 & F2 & ->)]; [left; by inversion F|].
    destruct q1 as [|y q1]; simplify_eq/=; [by left|]. inversion_clear F1. right. exists q1, u, q2. auto.
  - intros [F ->]. inversion_clear F. rewrite Hu by done. done.
Qed.

Lemma user_inv_new n : user_inv (EventLoop_new n).
Proof. split; [done|]. split; [constructor|]. intros i. cbn. rewrite enq_none. constructor. Qed.

Lemma made_user h sc s : Forall is_user [made h sc s].
Proof. by repeat constructor. Qed.

Lemma user_inv_step l s s' : l <> Run -> user_inv s -> exec l s = Some s' -> user_inv s'.
Proof.
  intros Hl (U1 & U2 & U3) Hx. unfold user_inv, carried in *. exec_cases Hx; try done; positions.
  all: split; [try done; try apply made_user|split; [try done; try apply made_user|try done]].
  all: intros j; erewrite producers_lookup_insert by eassumption; destruct (decide (i = j)) as [<-|]; [|apply U3];
    cbn; try apply made_user; try constructor; specialize (U3 i); positions;
    match goal with E : producers _ !! _ = _ |- _ => rewrite E in U3 end; cbn in U3; by inversion U3.
Qed.

Lemma flush_inv_step l s s' :
  running_inv s -> stop_inv s -> user_inv s -> l <> UserUnloop -> l <> Run -> flush_inv s -> exec l s = Some s' -> flush_inv s'.
Proof.
  intros R [B1 B2] (U1 & U2 & U3) Hl1 Hl2 F Hx. unfold flush_inv in *.
  exec_cases Hx; try done; unfold ending, running_inv, carried in *; cbn in *; positions; try done.
  all: try match goal with E : event_queue_ _ = _ |- _ => rewrite E in *; clear E end.
  all: try (eapply flush_less; [first [eassumption|eapply flush_push; [eassumption|by inversion U1 || by inversion U2]|by eapply flush_pop]|
     cbn; rewrite ?orb_true_r; by destruct (thread_ s), (loop_done s)]).
  - apply (flush_less false _ _ _ F); cbn; by destruct (thread_ s), (loop_done s).
  - apply (flush_push false _ _ _ F). by inversion U1.
  - exact (flush_stop _ _ F).
  - split; [|done]. destruct F as [F|(q1 & u & q2 & _ & _ & _ & Ht)]; [done|]. by rewrite Ht in R.
  - apply flush_push; [exact F|]. specialize (U3 i).
    match goal with E : producers _ !! _ = _ |- _ => rewrite E in U3 end. by inversion U3.
  - match goal with E : ev_handler _ = Unloop |- _ => by rewrite E, orb_true_r in F end.
Qed.

Lemma stop_reachable_inv n s : stop_reachable n s -> user_inv s /\ flush_inv s.
Proof.
  induction 1 as [|l s s' Hs [U F] Hl1 Hl2 Hx]; [split; [apply user_inv_new|by repeat constructor]|].
  apply stop_reachable_reachable, reachable_inv in Hs as [].
  split; [by eapply user_inv_step|by eapply flush_inv_step].
Qed.
End Stop.

(** ** Properties *)

Section Properties.
Context {H : Type} (keeps_sent exception_handler_ : bool).
Implicit Types s : loop H.
Abbreviation reachable := (reachable keeps_sent exception_handler_).
Abbreviation exec := (exec keeps_sent exception_handler_).
Abbreviation execs := (execs keeps_sent exception_handler_).

(** The loop takes the events in the order of the calls of [enqueue], whichever threads
    made them, and loses none: what was pushed is what was taken followed by what waits.
    Those it runs are some of those, in the same order; and every event without a scope is
    among them, once. *)
Theorem events_in_order n s : reachable n s ->
  pushed s = popped s ++ event_queue_ s /\ ran s ++ taken s `sublist_of` popped s /\
  List.filter unscoped (ran s ++ taken s) = List.filter unscoped (popped s).
Proof. intros Hs. apply (inv_fifo s (reachable_inv _ _ n s Hs)). Qed.

(** An event whose scope was invalidated while it waited never runs, whatever happens. *)
Theorem invalidated_events_never_run n s s' ls e : reachable n s -> e ∈ event_queue_ s ->
  EventScope_valid (ev_scope e) s = false -> execs ls s = Some s' -> exists k, ran s' = ran s ++ k /\ e ∉ k.
Proof.
  intros Hs He Hv Hx. apply reachable_inv, inv_scope in Hs as [Q _].
  rewrite Forall_forall in Q. by apply (stays_invalid _ _ ls s s' e (Q e (proj1 (list_elem_of_In _ _) He)) Hv Hx).
Qed.

(** C5. Every call returns and every event is taken.  From any state the program reaches without
    a crash, if no new call is made,
    the threads take at most [work] more instructions; when none can take another,
    [enqueue], [start] and [stop] have returned in every thread (only [run] goes on,
    with the loop asleep), the mutex is free, and while the loop runs its queue is
    empty.  No wake-up is lost: neither that of [start]'s condition variable nor that
    of the sleeping loop.  All of this holds whether libev keeps a send that came before
    [ev_async_start] or forgets it, but for the queue: where libev forgot one, and nothing
    was sent since, what was enqueued before the loop started still waits. *)
Theorem calls_return_and_queue_drains n s ls s' : reachable n s -> crash s = None ->
  forallb internal ls = true -> execs ls s = Some s' ->
  (length ls <= work s)%nat /\
  (at_rest keeps_sent exception_handler_ s' ->
    guard_ s' = None /\ (forall i, default None (producers s' !! i) = None) /\
    (owner s' = O_Idle \/ owner s' = O_Run /\ loop_pc s' = L_Ev) /\
    (loop_pc s' = L_Ev ->
      event_queue_ s' = [] /\ popped s' = pushed s' \/ keeps_sent = false /\ forgotten s' = true)).
Proof.
  intros Hs Hc Hi Hx. split; [pose proof (work_bounds _ _ ls s s' Hi Hx); lia|]. intros Hr.
  pose proof (internals_keep_running _ _ _ _ _ Hi Hc Hx) as Hc'.
  pose proof (reachable_execs _ _ _ _ _ _ Hs Hx) as Hs'. pose proof (reachable_inv _ _ _ _ Hs') as I.
  pose proof (rest_mutex_free _ _ _ (inv_mutex _ I) Hc' Hr) as Hg.
  split; [done|]. split; [intros i; by eapply rest_producers|]. split; [by eapply rest_owner|].
  intros Hp. destruct (rest_queue _ _ _ I Hg Hc' Hr Hp) as [Hq|Hf].
  - left. split; [done|]. destruct (inv_fifo _ I) as (F & _). by rewrite F, Hq, app_nil_r.
  - right. split; [|done]. apply not_true_is_false. intros Hk. by rewrite (none_forgotten _ _ _ _ Hk Hs') in Hf.
Qed.

(** [stop] waits for what was enqueued before it: when nothing else ends the loop, and
    [stop] returns, the loop has taken every event that was pushed before the [unloop]
    of [stop], and this one; what is left was pushed after it. *)
Theorem stop_handles_earlier_events n s s' before after :
  stop_reachable keeps_sent exception_handler_ n s -> owner s = O_Join -> exec OwnerStep s = Some s' ->
  pushed s' = before ++ unl :: after ->
  loop_pc s' = L_Done /\ exists rest, popped s' = before ++ unl :: rest.
Proof.
  intros Hs Ho Hx Hp.
  assert (loop_pc s' = L_Done) as Hd.
  { clear - Ho Hx. unfold EventLoop.exec, owner_step in Hx. rewrite Ho in Hx. destruct (crash s); [done|].
    by destruct (loop_pc s) eqn:E; simplify_eq/=. }
  split; [done|].
  assert (stop_reachable keeps_sent exception_handler_ n s') as Hs' by (apply (stop_reachable_step _ _ _ OwnerStep s); done).
  destruct (stop_reachable_inv _ _ _ _ Hs') as [_ F]. apply stop_reachable_reachable, reachable_inv, inv_fifo in Hs' as (Hq & _).
  assert (Forall is_user (event_queue_ s')) as Hu.
  { unfold flush_inv in F. assert (owner s' = O_Idle) as Ho'.
    { clear - Ho Hx. unfold EventLoop.exec, owner_step in Hx. rewrite Ho in Hx. destruct (crash s); [done|].
      by destruct (loop_pc s); simplify_eq/=. }
    rewrite Ho' in F. apply F. }
  rewrite Hp in Hq. clear - Hq Hu. destruct (app_eq_inv _ _ _ _ Hq) as [(k & _ & E)|(k & -> & E)].
  - exfalso. rewrite E, Forall_app in Hu. destruct Hu as [_ Hu]. by inversion Hu.
  - destruct k as [|x k]; simplify_eq/=; [|by exists k]. rewrite <- E in Hu. by inversion Hu.
Qed.
End Properties.

(** ** Runs of three events *)

Definition enqueue_all : list (label nat) := [OwnerEnqueue 7%nat None; OwnerStep; OwnerStep; OwnerStep; OwnerStep].
Definition started_up : list (label nat) := Start :: replicate 5 LoopStep ++ replicate 3 OwnerStep.

(** Two producers, one scope that is invalidated by the first event. *)
Definition sample_run : list (label nat) :=
  started_up ++ [NewScope; ProducerEnqueue 0 1%nat None; ProducerEnqueue 1 2%nat (Some 0%nat);
    ProducerStep 0; ProducerStep 0; ProducerStep 0; ProducerStep 1; ProducerStep 0; ProducerStep 1; ProducerStep 1; ProducerStep 1;
    LoopStep; LoopStep; LoopStep; LoopStep; UserInvalidate 0].

Definition sample_loop : loop nat :=
  match execs true true sample_run (EventLoop_new 2) with Some s => s | None => EventLoop_new 2 end.

Lemma sample_reachable : reachable true true 2 sample_loop.
Proof. apply (reachable_execs _ _ _ sample_run (EventLoop_new 2)); [constructor|vm_compute; reflexivity]. Qed.

Definition second_event : event nat := MkEvent (User 2%nat) (MkScope (Some 0%nat) 0).

Lemma invalidated_events_never_run_witness :
  second_event ∈ event_queue_ sample_loop /\
  exists k, ran (match execs true true (replicate 6 LoopStep) sample_loop with Some s => s | None => sample_loop end) = ran sample_loop ++ k /\ second_event ∉ k.
Proof.
  assert (second_event ∈ event_queue_ sample_loop) as He by (vm_compute; left).
  split; [exact He|].
  apply (invalidated_events_never_run true true 2 sample_loop _ (replicate 6 LoopStep) second_event sample_reachable He);
    vm_compute; reflexivity.
Defined.

Lemma events_in_order_witness : pushed sample_loop = popped sample_loop ++ event_queue_ sample_loop.
Proof. exact (proj1 (events_in_order true true 2 sample_loop sample_reachable)). Defined.

Lemma calls_return_and_queue_drains_witness : (length (replicate 6 (@LoopStep nat)) <= work sample_loop)%nat.
Proof.
  refine (proj1 (calls_return_and_queue_drains true true 2 sample_loop (replicate 6 LoopStep)
    (match execs true true (replicate 6 LoopStep) sample_loop with Some s => s | None => sample_loop end) sample_reachable _ _ _));
    vm_compute; reflexivity.
Defined.

(** [stop] while an event waits. *)
Definition stopping_run : list (label nat) :=
  started_up ++ [OwnerEnqueue 7%nat None; OwnerStep; OwnerStep; OwnerStep; OwnerStep; Stop; OwnerStep; OwnerStep; OwnerStep; OwnerStep] ++
  replicate 15 LoopStep.

Definition stopping_loop : loop nat :=
  match execs true true stopping_run (EventLoop_new 0) with Some s => s | None => EventLoop_new 0 end.
Definition stopped_loop : loop nat := match exec true true OwnerStep stopping_loop with Some s => s | None => stopping_loop end.

Lemma stop_reachable_execs n ls (s s' : loop nat) :
  stop_reachable true true n s -> Forall (fun l => l <> UserUnloop /\ l <> Run) ls -> execs true true ls s = Some s' ->
  stop_reachable true true n s'.
Proof.
  revert s. induction ls as [|l ls IH]; intros s Hs Hl Hx; simplify_eq/=; [done|].
  destruct (exec true true l s) as [s1|] eqn:E; [|done]. inversion_clear Hl as [|? ? [H1 H2] Hl'].
  eapply IH; [|done..]. by eapply stop_reachable_step.
Qed.

Lemma stopping_reachable : stop_reachable true true 0 stopping_loop.
Proof.
  apply (stop_reachable_execs 0 stopping_run (EventLoop_new 0)); [constructor| |vm_compute; reflexivity].
  repeat constructor; done.
Qed.

Lemma stop_handles_earlier_events_witness :
  loop_pc stopped_loop = L_Done /\
  exists rest, popped stopped_loop = [MkEvent (User 7%nat) no_scope] ++ unl :: rest.
Proof.
  apply (stop_handles_earlier_events true true 0 stopping_loop stopped_loop [MkEvent (User 7%nat) no_scope] [] stopping_reachable);
    vm_compute; reflexivity.
Defined.

(** ** Two surprises *)

Section Surprises.
Context {H : Type} (keeps_sent exception_handler_ : bool).
Implicit Types s : loop H.

(** [stop] after the loop has ended of itself, because a handler called [unloop]: nobody
    takes the [unloop] that [stop] enqueues, so it is still in the queue when [stop]
    returns, and the next [start] will meet it. *)
Theorem late_stop_leaves_unloop n s :
  reachable keeps_sent exception_handler_ n s -> crash s = None -> guard_ s = None -> owner s = O_Idle -> thread_ s = true ->
  loop_pc s = L_Done ->
  exists s', execs keeps_sent exception_handler_ (Stop :: replicate 5 OwnerStep) s = Some s' /\
    owner s' = O_Idle /\ thread_ s' = false /\ event_queue_ s' = event_queue_ s ++ [unl].
Proof.
  intros _ Hc Hg Ho Ht Hp. destruct s; cbn in *; subst.
  match goal with |- exists s', ?e = _ /\ _ => let r := eval vm_compute in e in match r with Some ?x => exists x end end.
  split; [vm_compute; reflexivity|done].
Qed.
End Surprises.

(** A handler ends the loop; the owner stops it and starts it again, and enqueues: the loop
    ends again, with no call of [stop] or [unloop] in this run. *)
Definition stale_run : list (label nat) :=
  started_up ++ [Callback false; UserUnloop] ++ replicate 5 LoopStep ++ Stop :: replicate 5 OwnerStep.
Definition stale_loop : loop nat :=
  match execs false true stale_run (EventLoop_new 0) with Some s => s | None => EventLoop_new 0 end.

Lemma late_stop_leaves_unloop_witness :
  exists s', execs false true (Stop :: replicate 5 OwnerStep)
      (match execs false true (started_up ++ [Callback false; UserUnloop] ++ replicate 5 LoopStep) (EventLoop_new 0) with
       | Some s => s | None => EventLoop_new 0 end) = Some s' /\
    owner s' = O_Idle /\ thread_ s' = false /\ event_queue_ s' = [] ++ [unl].
Proof.
  apply (late_stop_leaves_unloop false true 0); try (vm_compute; reflexivity).
  apply (reachable_execs _ _ _ (started_up ++ [Callback false; UserUnloop] ++ replicate 5 LoopStep) (EventLoop_new 0)); [constructor|vm_compute; reflexivity].
Defined.

Example stale_unloop_ends_next_run :
  option_map loop_pc (execs false true (started_up ++ enqueue_all ++ replicate 15 LoopStep) stale_loop) = Some L_Done.
Proof. vm_compute. reflexivity. Qed.

(** With a libev that forgets a send before [ev_async_start], an event enqueued before [start]
    waits although every thread rests, until there is another. *)
Definition early_loop : loop nat :=
  match execs false true (enqueue_all ++ started_up) (EventLoop_new 0) with Some s => s | None => EventLoop_new 0 end.

Lemma early_event_waits :
  at_rest false true early_loop /\ loop_pc early_loop = L_Ev /\ event_queue_ early_loop <> [] /\
  option_map event_queue_ (execs false true (enqueue_all ++ replicate 9 LoopStep) early_loop) = Some [].
Proof.
  split; [|by vm_compute]. intros l Hl. destruct l as [| | | | | | | | | | | | |i|]; try done; vm_compute; try reflexivity.
Qed.
