(* ===== verification/EventLoopSpec.v ===== *)
(** What the event loop promises a program: a queue of handlers, of which one turn takes
    the first and runs it if its scope is still valid.  Every interleaving of the threads
    of EventLoop is a run of this queue. *)

From S2P Require Import Prelude Monad EventLoop EventLoopRules.

(** ** The queue *)

Section Queue.
Context {H : Type}.

Record queue : Type := MkQueue { waiting : list (event H); scope_values : list Z; handled : list (event H) }.

Definition queue_new : queue := MkQueue [] [] [].

Definition valid (e : event H) (q : queue) : bool :=
  match scope_value (ev_scope e) with
  | None => true
  | Some p => nth p (scope_values q) 0 =? valid_value (ev_scope e)
  end.

Inductive action : Type := Post (e : event H) | Turn | Invalidate (p : nat) | AddScope.

Definition queue_exec (a : action) (q : queue) : option queue :=
  match a with
  | Post e => Some (MkQueue (waiting q ++ [e]) (scope_values q) (handled q))
  | Turn =>
      match waiting q with
      | [] => None
      | e :: w => Some (MkQueue w (scope_values q) (if valid e q then handled q ++ [e] else handled q))
      end
  | Invalidate p => Some (MkQueue (waiting q) (alter (fun v => v + 1) p (scope_values q)) (handled q))
  | AddScope => Some (MkQueue (waiting q) (scope_values q ++ [0]) (handled q))
  end.

Fixpoint queue_execs (l : list action) (q : queue) : option queue :=
  match l with
  | [] => Some q
  | a :: l => q ← queue_exec a q; queue_execs l q
  end.

Lemma queue_execs_app l1 l2 q q1 : queue_execs l1 q = Some q1 -> queue_execs (l1 ++ l2) q = queue_execs l2 q1.
Proof.
  revert q. induction l1 as [|a l1 IH]; intros q Hx; [by injection Hx as ->|]. cbn in Hx |- *.
  destruct (queue_exec a q); [by apply IH|discriminate Hx].
Qed.

Definition posted (a : action) : option (event H) := match a with Post e => Some e | _ => None end.
End Queue.
Arguments queue H : clear implicits.
Arguments action H : clear implicits.

(** ** The refinement *)

Section Refinement.
Context {H : Type} (keeps_sent exception_handler_ : bool).
Implicit Types s : loop H.
Abbreviation exec := (exec keeps_sent exception_handler_).
Abbreviation execs := (execs keeps_sent exception_handler_).

(** The queue a state of the loop stands for: an event that was taken and not tested yet
    still waits. *)
Definition abstraction s : queue H := MkQueue (taken s ++ event_queue_ s) (scopes s) (ran s).

Definition push_of (q : option (enqueuing H)) : option (action H) :=
  match q with Some (EnqPush e) => Some (Post e) | _ => None end.

(** What an instruction does to the queue: the push under the mutex, and the test of the
    scope; the other instructions of the threads do nothing. *)
Definition action_of (l : label H) s : option (action H) :=
  match l with
  | OwnerStep => match owner s with O_Enqueue q | O_Stop q => push_of (Some q) | _ => None end
  | ProducerStep i => push_of (default None (producers s !! i))
  | LoopStep =>
      match loop_pc s with
      | L_Callback _ q | L_Handle _ (H_Run _ q) => push_of q
      | L_Handle _ (H_Valid _) => Some Turn
      | _ => None
      end
  | UserInvalidate p => Some (Invalidate p)
  | NewScope => Some AddScope
  | _ => None
  end.

Fixpoint actions (ls : list (label H)) s : list (action H) :=
  match ls with
  | [] => []
  | l :: ls => option_list (action_of l s) ++ match exec l s with Some s' => actions ls s' | None => [] end
  end.

Lemma exec_simulated l s s' : running_inv s -> exec l s = Some s' ->
  queue_execs (option_list (action_of l s)) (abstraction s) = Some (abstraction s') /\
  pushed s' = pushed s ++ omap posted (option_list (action_of l s)).
Proof.
  intros R Hx. exec_cases Hx; try (destruct (idle_pc s R) as [Epc|Epc]; [done..| |]).
  all: unfold action_of, abstraction, taken, queue_exec, EventScope_valid, current in *; cbn;
    repeat match goal with E : owner _ = _ |- _ => rewrite ?E; clear E | E : loop_pc _ = _ |- _ => rewrite ?E; clear E
      | E : producers _ !! _ = _ |- _ => rewrite ?E; clear E end; cbn;
    rewrite ?app_nil_r, <- ?app_assoc; try done.
  all: unfold valid; cbn; repeat match goal with E : _ = _ |- _ => rewrite E; clear E end; done.
Qed.

(** The event a label makes a call of [enqueue] with; [stop] enqueues [unloop]. *)
Definition called (l : label H) s : list (event H) :=
  match l with
  | OwnerEnqueue h sc | ProducerEnqueue _ h sc | UserEnqueue h sc => [made h sc s]
  | Stop => if thread_ s then [unl] else []
  | _ => []
  end.

Fixpoint calls (ls : list (label H)) s : list (event H) :=
  match ls with
  | [] => []
  | l :: ls => match exec l s with Some s' => called l s ++ calls ls s' | None => [] end
  end.

(** The events of the calls that have not pushed yet. *)
Definition in_flight s : list (event H) :=
  carried Owner s ++ carried LoopThread s ++ concat (enq_event <$> producers s).

Lemma concat_insert {A B} (f : A -> list B) (l : list A) i x y : l !! i = Some x ->
  f x ++ concat (f <$> <[i := y]> l) ≡ₚ f y ++ concat (f <$> l).
Proof.
  intros Hx. rewrite <- (take_drop_middle l i x Hx) at 2. rewrite insert_take_drop by (by eapply lookup_lt_Some).
  rewrite !fmap_app, !concat_app. cbn. solve_Permutation.
Qed.

Lemma called_step l s s' : running_inv s -> exec l s = Some s' ->
  called l s ++ in_flight s ++ pushed s ≡ₚ in_flight s' ++ pushed s'.
Proof.
  intros R Hx. exec_cases Hx; try (destruct (idle_pc s R) as [Epc|Epc]; [done..| |]).
  all: try match goal with E : producers ?s0 !! ?i = Some ?x |- context [set_producers (<[?i := ?y]> _)] =>
      pose proof (concat_insert enq_event (producers s0) i x y E); clear E end.
  all: unfold called, in_flight, carried in *; cbn in *;
    repeat match goal with E : owner _ = _ |- _ => rewrite ?E; clear E | E : loop_pc _ = _ |- _ => rewrite ?E; clear E
      | E : negb (thread_ _) = _ |- _ => first [apply negb_true_iff in E|apply negb_false_iff in E]
      | E : thread_ _ = _ |- _ => rewrite ?E; clear E end; cbn in *; try done.
  all: try solve [solve_Permutation].
  all: match goal with C : _ ≡ₚ _ |- _ => first [rewrite C|apply Permutation_cons_inv in C; rewrite C|rewrite <- C] end.
  all: try solve [solve_Permutation].
Qed.

(** C12. The event loop refines a queue.  Whatever the threads do, in any interleaving, what
    has run, what waits and the scopes are what a queue gives whose actions are the pushes of
    the calls of [enqueue], one turn for each event the loop has tested, and the changes of
    the scopes, in the order they were made: a turn takes the first event and runs it if the
    scope it was enqueued under is unchanged.  No call is lost or doubled: the events the
    calls were made with are those posted, and those of the calls that have not pushed yet. *)
Theorem loop_refines_queue n ls s : execs ls (EventLoop_new n) = Some s ->
  queue_execs (actions ls (EventLoop_new n)) queue_new = Some (abstraction s) /\
  calls ls (EventLoop_new n) ≡ₚ omap posted (actions ls (EventLoop_new n)) ++ in_flight s.
Proof.
  assert (forall ls s0, running_inv s0 -> execs ls s0 = Some s ->
    queue_execs (actions ls s0) (abstraction s0) = Some (abstraction s) /\
    pushed s = pushed s0 ++ omap posted (actions ls s0) /\
    calls ls s0 ++ in_flight s0 ++ pushed s0 ≡ₚ in_flight s ++ pushed s) as Hrun.
  { clear. induction ls as [|l ls IH]; intros s0 R Hx; [cbn in *; simplify_eq; by rewrite app_nil_r|].
    cbn in Hx. destruct (exec l s0) as [s1|] eqn:E; [|done]. cbn in Hx.
    destruct (exec_simulated l s0 s1 R E) as [Hq Hp], (IH s1) as (Hq1 & Hp1 & Hc1); [by eapply running_inv_step|done|].
    cbn [actions calls]. rewrite E, omap_app, app_assoc, <- Hp. split; [|split; [done|]].
    - by rewrite (queue_execs_app _ _ _ _ Hq).
    - rewrite <- Hc1, <- (called_step l s0 s1 R E). solve_Permutation. }
  intros Hx. destruct (Hrun ls (EventLoop_new n) eq_refl Hx) as (Hq & Hp & Hc). split; [done|].
  cbn in Hp. rewrite <- Hp, (Permutation_app_comm (pushed s)), <- Hc. unfold in_flight. cbn.
  assert (concat (enq_event <$> replicate n (@None (enqueuing H))) = []) as -> by (clear; induction n as [|n IH]; [done|exact IH]).
  by rewrite !app_nil_r.
Qed.
End Refinement.

(** The run of EventLoopRules: two threads enqueue, the second under a scope that the first
    event's handler invalidates; then the loop turns once more. *)
Definition scoped_run : list (label nat) := sample_run ++ replicate 4 LoopStep.

Definition scoped_loop : loop nat :=
  match execs true true scoped_run (EventLoop_new 2) with Some s => s | None => EventLoop_new 2 end.

(** The second event waited, and does not run. *)
Example scoped_actions :
  actions true true scoped_run (EventLoop_new 2) =
    [AddScope; Post (MkEvent (User 1%nat) no_scope); Post second_event; Turn; Invalidate 0; Turn] /\
  handled (abstraction scoped_loop) = [MkEvent (User 1%nat) no_scope] /\ waiting (abstraction scoped_loop) = [].
Proof. vm_compute. auto. Qed.

Lemma loop_refines_queue_witness :
  queue_execs (actions true true scoped_run (EventLoop_new 2)) queue_new = Some (abstraction scoped_loop).
Proof.
  refine (proj1 (loop_refines_queue true true 2 scoped_run scoped_loop _)). vm_compute. reflexivity.
Defined.
