(* ===== verification/Text.v ===== *)
(** Strings and streams of the C++ standard library, as far as the client library,
    the router and the CAN bridge use them.

    A [std::string] is a list of characters.  [hex_extract] is
    [std::istringstream(s) >> std::hex >> x] and [hex_out] is
    [ss << std::hex << std::setw(w) << x] with the fill character 0. *)

From Stdlib Require Export Ascii.
From Stdlib Require Import String.
From S2P Require Import Prelude Monad.

Definition text : Type := list ascii.

(** A string literal. *)
Definition txt (s : string) : text := list_ascii_of_string s.
Coercion txt : string >-> text.
#[export] Instance char_eq_dec : EqDecision ascii := ascii_dec.
#[export] Instance text_eq_dec : EqDecision text.
Proof. unfold text. apply _. Defined.


(** ** [std::string] *)

Definition char_in (cs : text) (c : ascii) : bool := existsb (Ascii.eqb c) cs.

Fixpoint prefixb (p s : text) : bool :=
  match p, s with
  | [], _ => true
  | a :: p', b :: s' => Ascii.eqb a b && prefixb p' s'
  | _ :: _, [] => false
  end.

(** The first position at which [p] holds of a character, [q] of a suffix. *)
Fixpoint index_if (p : ascii -> bool) (s : text) : option nat :=
  match s with
  | [] => None
  | c :: s' => if p c then Some 0%nat else S <$> index_if p s'
  end.

Fixpoint index (pat s : text) : option nat :=
  if prefixb pat s then Some 0%nat
  else match s with [] => None | _ :: s' => S <$> index pat s' end.

Definition find (s pat : text) (pos : nat) : option nat := Nat.add pos <$> index pat (drop pos s).
Definition find_char (s : text) (c : ascii) (pos : nat) : option nat :=
  Nat.add pos <$> index_if (Ascii.eqb c) (drop pos s).
Definition find_first_of (s cs : text) (pos : nat) : option nat :=
  Nat.add pos <$> index_if (char_in cs) (drop pos s).
Definition find_first_not_of (s cs : text) (pos : nat) : option nat :=
  Nat.add pos <$> index_if (fun c => negb (char_in cs c)) (drop pos s).

(** [s.substr(pos, n)] throws when [pos] is past the end. *)
Definition substr {St} (s : text) (pos n : nat) : prog St text :=
  if (pos <=? length s)%nat then ret (take n (drop pos s)) else raise (Throw out_of_range).

(** [std::string] compares characters as unsigned bytes. *)
Fixpoint text_compare (a b : text) : comparison :=
  match a, b with
  | [], [] => Eq
  | [], _ :: _ => Lt
  | _ :: _, [] => Gt
  | x :: a', y :: b' =>
      match N.compare (N_of_ascii x) (N_of_ascii y) with Eq => text_compare a' b' | c => c end
  end.

(** ** [std::map] with string keys: its pairs in the order of the keys *)

Section Map.
Context {V : Type}.

Definition tmap : Type := list (text * V).

Fixpoint map_find (k : text) (m : tmap) : option V :=
  match m with
  | [] => None
  | (k', v) :: m' => if bool_decide (k' = k) then Some v else map_find k m'
  end.

(** [m[k] = v] *)
Fixpoint map_set (k : text) (v : V) (m : tmap) : tmap :=
  match m with
  | [] => [(k, v)]
  | (k', v') :: m' =>
      match text_compare k k' with
      | Lt => (k, v) :: m
      | Eq => (k, v) :: m'
      | Gt => (k', v') :: map_set k v m'
      end
  end.

(** [m.insert(std::make_pair(k, v))] keeps a value that is there. *)
Definition map_insert (k : text) (v : V) (m : tmap) : tmap :=
  match map_find k m with Some _ => m | None => map_set k v m end.
End Map.
Arguments tmap V : clear implicits.

(** ** Numbers *)

Definition code (c : ascii) : Z := Z.of_N (N_of_ascii c).

Definition is_space (c : ascii) : bool := (code c =? 32) || (9 <=? code c) && (code c <=? 13).

Definition hex_value (c : ascii) : option Z :=
  let z := code c in
  if (48 <=? z) && (z <=? 57) then Some (z - 48)
  else if (97 <=? z) && (z <=? 102) then Some (z - 87)
  else if (65 <=? z) && (z <=? 70) then Some (z - 55)
  else None.

Definition dec_value (c : ascii) : option Z :=
  if (48 <=? code c) && (code c <=? 57) then Some (code c - 48) else None.

Definition hex_chars : text := "0123456789abcdefABCDEF"%string.

Definition hex_char (d : Z) : ascii := nth (Z.to_nat d) ("0123456789abcdef"%string : text) "0"%char.

(** The digits at the front of [s], accumulated in [acc]. *)
Fixpoint digits (base : Z) (value : ascii -> option Z) (acc : Z) (s : text) : Z :=
  match s with
  | [] => acc
  | c :: s' => match value c with Some d => digits base value (base * acc + d) s' | None => acc end
  end.

Fixpoint skip_space (s : text) : text :=
  match s with
  | c :: s' => if is_space c then skip_space s' else s
  | [] => []
  end.

(** The sign, and what follows it. *)
Definition sign (s : text) : bool * text :=
  match s with
  | c :: s' => if Ascii.eqb c "-"%char then (true, s') else if Ascii.eqb c "+"%char then (false, s') else (false, s)
  | [] => (false, [])
  end.

(** The base designator [0x] of a hexadecimal number. *)
Definition base_16 (s : text) : text :=
  match s with
  | z :: x :: s' => if Ascii.eqb z "0"%char && (Ascii.eqb x "x"%char || Ascii.eqb x "X"%char) then s' else s
  | _ => s
  end.

Definition starts_number (value : ascii -> option Z) (s : text) : bool :=
  match s with c :: _ => bool_decide (is_Some (value c)) | [] => false end.

(** Extraction into an unsigned variable of value [old] and greatest value [max]: its
    value afterwards, and whether the stream is still good.  Nothing is stored when
    only space is left; 0 is stored when there is no number, [max] when it is too
    large; a minus sign negates modulo [max + 1]. *)
Definition hex_extract (max old : Z) (s : text) : Z * bool :=
  match skip_space s with
  | [] => (old, false)
  | s =>
      let '(neg, s) := sign s in
      let s := base_16 s in
      if starts_number hex_value s then
        let v := digits 16 hex_value 0 s in
        if max <? v then (max, false) else (if neg then (- v) mod (max + 1) else v, true)
      else (0, false)
  end.

(** Extraction of an [int]. *)
Definition dec_extract (old : Z) (s : text) : Z :=
  match skip_space s with
  | [] => old
  | s =>
      let '(neg, s) := sign s in
      if starts_number dec_value s then
        let v := digits 10 dec_value 0 s in
        if neg then Z.max (- 2 ^ 31) (- v) else Z.min (2 ^ 31 - 1) v
      else 0
  end.

Definition uint_max : Z := 2 ^ 32 - 1.
Definition ushort_max : Z := 2 ^ 16 - 1.

(** The [k] lowest hexadecimal digits of [z], the most significant first. *)
Fixpoint hex_digits (k : nat) (z : Z) : text :=
  match k with O => [] | S k' => hex_digits k' (z / 16) ++ [hex_char (z mod 16)] end.

(** The number of digits of [z], at least one. *)
Definition hex_length (z : Z) : nat := Z.to_nat (Z.log2 z / 4 + 1).

Definition hex_out (w : nat) (z : Z) : text :=
  let d := hex_digits (hex_length z) z in replicate (w - length d) "0"%char ++ d.

(** ** Lemmas *)

Section Lemmas.

Lemma index_if_app p a b : forallb (fun c => negb (p c)) a = true -> index_if p (a ++ b) = Nat.add (length a) <$> index_if p b.
Proof.
  induction a as [|c a IH]; cbn [app index_if length forallb]; [by destruct (index_if p b)|].
  intros [Hc Ha]%andb_prop. apply negb_true_iff in Hc. rewrite Hc, IH by done. by destruct (index_if p b).
Qed.

Lemma index_if_none p a : forallb (fun c => negb (p c)) a = true -> index_if p a = None.
Proof. intros Ha. rewrite <- (app_nil_r a), index_if_app by done. done. Qed.

Lemma hex_digits_length k z : length (hex_digits k z) = k.
Proof. revert z. induction k as [|k IH]; intros z; [done|]. cbn [hex_digits]. rewrite length_app, IH. simpl. lia. Qed.

Lemma digit_ind (P : Z -> bool) : forallb P (Z.of_nat <$> seq 0 16) = true -> forall d, 0 <= d < 16 -> P d = true.
Proof. intros H d Hd. by apply (below_ind P 16). Qed.

Lemma hex_value_char d : 0 <= d < 16 -> hex_value (hex_char d) = Some d.
Proof.
  intros Hd. apply (bool_decide_eq_true (hex_value (hex_char d) = Some d)). revert d Hd.
  apply digit_ind. vm_compute. reflexivity.
Qed.

(** A hexadecimal digit as printed: in the alphabet of numbers, not a space, a
    sign or a base designator. *)
Definition plain_digit (c : ascii) : bool :=
  char_in hex_chars c && negb (is_space c) && negb (Ascii.eqb c "-"%char) && negb (Ascii.eqb c "+"%char) &&
  negb (Ascii.eqb c "x"%char) && negb (Ascii.eqb c "X"%char) && bool_decide (is_Some (hex_value c)) &&
  negb (Ascii.eqb c ":"%char) && negb (Ascii.eqb c "?"%char) && negb (Ascii.eqb c "="%char).

Lemma hex_char_plain d : 0 <= d < 16 -> plain_digit (hex_char d) = true.
Proof. revert d. apply digit_ind. vm_compute. reflexivity. Qed.

Lemma hex_digits_plain k z : forallb plain_digit (hex_digits k z) = true.
Proof.
  revert z. induction k as [|k IH]; intros z; [done|]. cbn [hex_digits]. rewrite forallb_app, IH. cbn [forallb].
  rewrite hex_char_plain by (apply Z.mod_pos_bound; lia). done.
Qed.

(** Reading printed digits gives the number back. *)
Lemma digits_hex k : forall z acc rest,
  digits 16 hex_value acc (hex_digits k z ++ rest) = digits 16 hex_value (16 ^ Z.of_nat k * acc + z mod 16 ^ Z.of_nat k) rest.
Proof.
  induction k as [|k IH]; intros z acc rest; cbn [hex_digits].
  - rewrite Z.mod_1_r. cbn [app]. f_equal. lia.
  - rewrite <- app_assoc, IH. cbn [app digits]. rewrite hex_value_char by (apply Z.mod_pos_bound; lia). f_equal.
    rewrite Nat2Z.inj_succ, Z.pow_succ_r by lia. rewrite Z.rem_mul_r by lia. lia.
Qed.

Lemma hex_digits_cons k z : exists c l, hex_digits (S k) z = c :: l /\ plain_digit c = true.
Proof.
  pose proof (hex_digits_plain (S k) z) as H. pose proof (hex_digits_length (S k) z) as Hl.
  destruct (hex_digits (S k) z) as [|c l]; [done|]. exists c, l. split; [done|]. by apply andb_prop in H as [H _].
Qed.

Lemma plain_digit_spec c : plain_digit c = true ->
  is_space c = false /\ Ascii.eqb c "-" = false /\ Ascii.eqb c "+" = false /\ Ascii.eqb c "x" = false /\
  Ascii.eqb c "X" = false /\ is_Some (hex_value c) /\ char_in hex_chars c = true /\ Ascii.eqb c ":" = false /\
  Ascii.eqb c "?" = false /\ Ascii.eqb c "=" = false.
Proof.
  unfold plain_digit. rewrite !andb_true_iff, !negb_true_iff, bool_decide_eq_true. tauto.
Qed.

Lemma hex_extract_plain max old s :
  forallb plain_digit s = true -> s <> [] -> digits 16 hex_value 0 s <= max ->
  hex_extract max old s = (digits 16 hex_value 0 s, true).
Proof.
  intros Hp Hne Hmax. destruct s as [|c s]; [done|]. cbn [forallb] in Hp. apply andb_prop in Hp as [Hc Hs].
  destruct (plain_digit_spec c Hc) as (H1 & H2 & H3 & _ & _ & H6 & _).
  unfold hex_extract. cbn [skip_space]. rewrite H1. cbn [sign]. rewrite H2, H3.
  assert (base_16 (c :: s) = c :: s) as ->.
  { destruct s as [|x s]; [done|]. cbn [forallb] in Hs. apply andb_prop in Hs as [Hx _].
    destruct (plain_digit_spec x Hx) as (_ & _ & _ & H4 & H5 & _). cbn [base_16]. by rewrite H4, H5, andb_false_r. }
  cbn [starts_number]. rewrite bool_decide_eq_true_2 by done.
  apply Z.ltb_ge in Hmax. by rewrite Hmax.
Qed.

Lemma hex_extract_digits max old k z :
  0 <= z < 16 ^ Z.of_nat (S k) -> z <= max -> hex_extract max old (hex_digits (S k) z) = (z, true).
Proof.
  intros Hz Hmax.
  assert (digits 16 hex_value 0 (hex_digits (S k) z) = z) as Hd.
  { rewrite <- (app_nil_r (hex_digits _ _)), digits_hex. cbn [digits]. rewrite Z.mod_small by done. lia. }
  rewrite hex_extract_plain; [by rewrite Hd|apply hex_digits_plain| |by rewrite Hd].
  destruct (hex_digits_cons k z) as (c & l & -> & _). done.
Qed.

(** Leading zeros. *)
Lemma hex_digits_pad k : forall n z, 0 <= z < 16 ^ Z.of_nat k -> (k <= n)%nat ->
  replicate (n - k) "0"%char ++ hex_digits k z = hex_digits n z.
Proof.
  assert (forall n, hex_digits n 0 = replicate n "0"%char) as H0.
  { induction n as [|n IH]; [done|]. cbn [hex_digits]. rewrite Z.div_0_l, IH by done.
    change (hex_char (0 mod 16)) with "0"%char. by rewrite <- replicate_cons_app. }
  induction k as [|k IH]; intros n z Hz Hk.
  - assert (z = 0) as -> by (simpl in Hz; lia). rewrite H0. cbn [hex_digits]. by rewrite app_nil_r, Nat.sub_0_r.
  - destruct n as [|n]; [lia|]. cbn [hex_digits]. rewrite app_assoc. f_equal. apply IH; [|lia].
    rewrite Nat2Z.inj_succ, Z.pow_succ_r in Hz by lia. split; [apply Z.div_pos; lia|apply Z.div_lt_upper_bound; lia].
Qed.

Lemma hex_length_bound z : 0 <= z -> z < 16 ^ Z.of_nat (hex_length z).
Proof.
  intros Hz. unfold hex_length. assert (0 <= Z.log2 z / 4) by (apply Z.div_pos; [apply Z.log2_nonneg|lia]).
  rewrite Z2Nat.id by lia. change 16 with (2 ^ 4). rewrite <- Z.pow_mul_r by lia.
  destruct (Z.eq_dec z 0) as [->|]; [apply Z.pow_pos_nonneg; lia|].
  apply Z.log2_lt_pow2; [lia|]. pose proof (Z.mod_pos_bound (Z.log2 z) 4 ltac:(lia)). pose proof (Z.div_mod (Z.log2 z) 4 ltac:(lia)). lia.
Qed.

Lemma hex_length_le z k : 0 <= z < 16 ^ Z.of_nat (S k) -> (hex_length z <= S k)%nat.
Proof.
  intros Hz. unfold hex_length. destruct (Z.eq_dec z 0) as [->|]; [change (1 <= S k)%nat; lia|].
  assert (Z.log2 z < 4 * Z.of_nat (S k)) as H.
  { apply Z.log2_lt_pow2; [lia|]. rewrite Z.pow_mul_r by lia. apply Hz. }
  assert (Z.log2 z / 4 < Z.of_nat (S k)) by (apply Z.div_lt_upper_bound; lia). lia.
Qed.

(** Printing in the width of a number prints all its digits and no more. *)
Lemma hex_out_digits w z : 0 <= z < 16 ^ Z.of_nat (S w) -> hex_out (S w) z = hex_digits (S w) z.
Proof.
  intros Hz. unfold hex_out. rewrite hex_digits_length. apply hex_digits_pad; [|by apply hex_length_le].
  split; [lia|apply hex_length_bound; lia].
Qed.
End Lemmas.
