(* ===== verification/Message.v ===== *)
(** The text protocol of the client library, [deephome/common/source/proto/Message.cpp].

    An object is the state of a [prog]: the operations that parse change the object
    field by field, and an exception leaves it as far as they came. *)

From Stdlib Require Import String.
From S2P Require Import Prelude Monad Text.

Inductive PacketType : Type := PacketType_Message | PacketType_DeviceInit | PacketType_ServiceCommand.

#[export] Instance PacketType_eq_dec : EqDecision PacketType.
Proof. solve_decision. Defined.

(** ** Bytes in hexadecimal *)

(** [for (byte : value) ss << std::setw(2) << (unsigned)byte] *)
Fixpoint put_hex (l : list Z) : text :=
  match l with [] => [] | b :: l' => hex_out 2 b ++ put_hex l' end.

(** The loop over [data.substr(pos + i*2, 2)]. *)
Definition get_hex {St} (data : text) (pos : nat) (size : nat) : prog St (list Z) :=
  for_acc (range (Z.of_nat size)) [] (fun i body =>
    let! s := substr data (pos + Z.to_nat i * 2) 2 in
    ret (body ++ [u8 (hex_extract uint_max 0 s).1])).

(** ** [Message] *)

Inductive Message_Type : Type := Type_Request | Type_Data.

#[export] Instance Message_Type_eq_dec : EqDecision Message_Type.
Proof. solve_decision. Defined.

Record Message : Type := MkMessage { type_ : Message_Type; device_id_ : Z; address_ : Z; body_ : list Z }.

#[export] Instance Message_eq_dec : EqDecision Message.
Proof. solve_decision. Defined.

(** [Message message;] *)
Definition Message_default : Message := MkMessage Type_Data 0 0 [].

(** [Message message(type, device_id, address, body)] *)
Definition Message_new {St} (type : Message_Type) (device_id address : Z) (body : list Z) : prog St Message :=
  verify (length body <=? 8)%nat ;; ret (MkMessage type device_id address body).

Definition f_type : field Message Message_Type := Field type_ (fun v m => MkMessage v (device_id_ m) (address_ m) (body_ m)).
Definition f_device : field Message Z := Field device_id_ (fun v m => MkMessage (type_ m) v (address_ m) (body_ m)).
Definition f_address : field Message Z := Field address_ (fun v m => MkMessage (type_ m) (device_id_ m) v (body_ m)).
Definition f_body : field Message (list Z) := Field body_ (fun v m => MkMessage (type_ m) (device_id_ m) (address_ m) v).

Definition Message_set_body (value : list Z) : prog Message unit :=
  verify (length value <=? 8)%nat ;; wr f_body value.

Definition Message_serialize (m : Message) : text :=
  txt "dev:" ++ hex_out 2 (device_id_ m) ++ txt "  " ++
  txt "addr:" ++ hex_out 4 (address_ m) ++ txt "  " ++
  (if decide (type_ m = Type_Data) then txt ":" ++ put_hex (body_ m) else txt "?").

(** The part of [deserialize] after the address. *)
Definition Message_deserialize_body (data : text) (pos : nat) : prog Message unit :=
  match find_first_of data (txt "?:") (pos + 5 + 4) with
  | None => raise (Throw invalid_argument)
  | Some pos =>
      wr f_body [] ;;
      if bool_decide (data !! pos = Some "?"%char) then wr f_type Type_Request
      else
        wr f_type Type_Data ;;
        let pos := S pos in
        let e := default (length data) (find_first_not_of data hex_chars pos) in
        let bodylen := (e - pos)%nat in
        if negb (bodylen mod 2 =? 0)%nat || (8 <? bodylen / 2)%nat then raise (Throw invalid_argument)
        else
          let! b := get_hex data pos (bodylen / 2) in
          wr f_body b
  end.

Definition Message_deserialize (data : text) : prog Message unit :=
  match find data (txt "dev:") 0 with
  | None => raise (Throw invalid_argument)
  | Some pos =>
      let! s := substr data (pos + 4) 2 in
      wr f_device (u8 (hex_extract uint_max 0 s).1) ;;
      match find data (txt "addr:") (pos + 4) with
      | None => raise (Throw invalid_argument)
      | Some pos =>
          let! s := substr data (pos + 5) 4 in
          let! old := rd f_address in
          wr f_address (hex_extract ushort_max old s).1 ;;
          Message_deserialize_body data pos
      end
  end.

(** ** [DeviceInit] *)

Record DeviceInit : Type := MkDeviceInit { new_id_ : Z; old_id_ : Z }.

#[export] Instance DeviceInit_eq_dec : EqDecision DeviceInit.
Proof. solve_decision. Defined.

Definition DeviceInit_default : DeviceInit := MkDeviceInit 0xff 0xff.

(** [std::setw] holds for the next number only. *)
Definition DeviceInit_serialize (d : DeviceInit) : text :=
  txt "dev-q:" ++ hex_out 2 (old_id_ d) ++ hex_out 0 (new_id_ d).

Definition DeviceInit_deserialize (data : text) : prog DeviceInit unit :=
  if negb (bool_decide (find data (txt "dev-q:") 0 = Some 0%nat)) then raise (Throw invalid_argument)
  else
    let! msg := substr data 6 (6 + 4) in
    if negb (length msg =? 4)%nat || bool_decide (is_Some (find_first_not_of msg hex_chars 0))
    then raise (Throw invalid_argument)
    else
      let! o := substr msg 0 2 in
      let! n := substr msg 2 2 in
      fun _ => Ok tt (MkDeviceInit (u8 (hex_extract uint_max 0 n).1) (u8 (hex_extract uint_max 0 o).1)).

(** ** [ServiceCommand] *)

Definition name_chars : text := "0123456789_-abcdefghijklmnopqrstuvwxyzABCDEFGHIJKLMNOPQRSTUVWXYZ"%string.

Definition check_string (s : text) : bool := bool_decide (find_first_not_of s name_chars 0 = None).

Record ServiceCommand : Type := MkServiceCommand { action_ : text; arguments_ : tmap text }.

#[export] Instance ServiceCommand_eq_dec : EqDecision ServiceCommand.
Proof. solve_decision. Defined.

Definition f_action : field ServiceCommand text := Field action_ (fun v c => MkServiceCommand v (arguments_ c)).
Definition f_arguments : field ServiceCommand (tmap text) := Field arguments_ (fun v c => MkServiceCommand (action_ c) v).

(** [ServiceCommand command(action)], as a program that makes the object. *)
Definition ServiceCommand_new {St} (action : text) : prog St ServiceCommand :=
  verify (check_string action) ;; ret (MkServiceCommand action []).

Definition set_action (value : text) : prog ServiceCommand unit :=
  verify (check_string value) ;; wr f_action value.

Definition add_argument (key value : text) : prog ServiceCommand unit :=
  verify (check_string key) ;;
  verify (negb (bool_decide (key = txt "cmd"))) ;;
  verify (check_string value) ;;
  let! a := rd f_arguments in
  wr f_arguments (map_set key value a).

Definition add_uint_argument (key : text) (value : Z) : prog ServiceCommand unit :=
  let value_width := if value <? 256 then 2%nat else if value <? 256 * 256 then 4%nat else 8%nat in
  add_argument key (hex_out value_width value).

Definition add_raw_argument (key : text) (value : list Z) : prog ServiceCommand unit :=
  add_argument key (put_hex value).

Definition get_argument (c : ServiceCommand) (key default_value : text) : text :=
  default default_value (map_find key (arguments_ c)).

(** [ss.bad()] is never set by an extraction. *)
Definition get_uint_argument (c : ServiceCommand) (key : text) (default_value : Z) : Z :=
  let s := get_argument c key [] in
  if bool_decide (s = []) then default_value else (hex_extract uint_max 0 s).1.

(** The bytes, or nothing when the function returns false. *)
Definition get_raw_argument {St} (c : ServiceCommand) (key : text) : prog St (option (list Z)) :=
  let s := get_argument c key [] in
  if bool_decide (s = []) || negb (length s mod 2 =? 0)%nat || bool_decide (is_Some (find_first_not_of s hex_chars 0))
  then ret None
  else let! l := get_hex s 0 (length s / 2) in ret (Some l).

Fixpoint put_arguments (l : tmap text) : text :=
  match l with [] => [] | (k, v) :: l' => txt " " ++ k ++ txt ":" ++ v ++ put_arguments l' end.

Definition ServiceCommand_serialize {St} (c : ServiceCommand) : prog St text :=
  verify (negb (bool_decide (action_ c = []))) ;;
  ret (txt "cmd:" ++ action_ c ++ put_arguments (arguments_ c)).

Definition space : text := [" "%char; "009"%char].

(** [while (arg_end < data_len)], at most [fuel] rounds. *)
Fixpoint parse_arguments {St} (fuel : nat) (data : text) (arg_end : nat) (acc : tmap text) : prog St (tmap text) :=
  match fuel with
  | O => raise Hang
  | S n =>
      if (length data <=? arg_end)%nat then ret acc
      else
        match find_first_not_of data space arg_end with
        | None => ret acc
        | Some arg_begin =>
            let arg_end := default (length data) (find_first_of data space arg_begin) in
            match find_char data ":"%char arg_begin with
            | None => raise (Throw invalid_argument)
            | Some sep =>
                if (arg_end <? sep)%nat then raise (Throw invalid_argument)
                else
                  let! key := substr data arg_begin (sep - arg_begin) in
                  (* [arg_end - sep - 1] is computed in [size_t] *)
                  let! value := substr data (S sep) (if (arg_end =? sep)%nat then length data else arg_end - sep - 1) in
                  if bool_decide (key = []) || negb (check_string key) || negb (check_string value)
                  then raise (Throw invalid_argument)
                  else parse_arguments n data arg_end (map_set key value acc)
            end
        end
  end.

Definition ServiceCommand_deserialize (data : text) : prog ServiceCommand unit :=
  if negb (prefixb (txt "cmd:") data) then raise (Throw invalid_argument)
  else
    let arg_end := default (length data) (find_first_of data space 4) in
    let! new_action := substr data 4 (arg_end - 4) in
    if bool_decide (new_action = []) || negb (check_string new_action) then raise (Throw invalid_argument)
    else
      let! new_arguments := parse_arguments (S (length data)) data arg_end [] in
      fun _ => Ok tt (MkServiceCommand new_action new_arguments).

(** ** [Packet] *)

Inductive Packet : Type :=
| PMessage (m : Message)
| PDeviceInit (d : DeviceInit)
| PServiceCommand (c : ServiceCommand).

#[export] Instance Packet_eq_dec : EqDecision Packet.
Proof. solve_decision. Defined.

Definition packet_type (p : Packet) : PacketType :=
  match p with
  | PMessage _ => PacketType_Message
  | PDeviceInit _ => PacketType_DeviceInit
  | PServiceCommand _ => PacketType_ServiceCommand
  end.

Definition convert_to_string {St} (p : Packet) : prog St text :=
  match p with
  | PMessage m => ret (Message_serialize m)
  | PDeviceInit d => ret (DeviceInit_serialize d)
  | PServiceCommand c => ServiceCommand_serialize c
  end.

(** Run a program on a local object. *)
Definition on_object {St Ob} (o : Ob) (m : prog Ob unit) : prog St Ob := fun s =>
  match m o with Ok _ o' => Ok o' s | Fault f _ => Fault f s end.

Definition Packet_create {St} (line : text) : prog St Packet :=
  if bool_decide (find line (txt "dev-q:") 0 = Some 0%nat) then
    let! d := on_object DeviceInit_default (DeviceInit_deserialize line) in ret (PDeviceInit d)
  else if bool_decide (find line (txt "cmd:") 0 = Some 0%nat) then
    let! c := on_object (MkServiceCommand [] []) (ServiceCommand_deserialize line) in ret (PServiceCommand c)
  else
    let! m := on_object Message_default (Message_deserialize line) in ret (PMessage m).

(** The test of the repository, [test_proto.cpp]. *)
Example MessageSerializeFormat :
  Message_deserialize (txt "dev:1f addr:De5E :33f3ECc3") Message_default =
    Ok tt (MkMessage Type_Data 0x1f 0xde5e [0x33; 0xf3; 0xec; 0xc3]).
Proof. vm_compute. reflexivity. Qed.

Example DeviceInitSerializeFormat :
  DeviceInit_deserialize (txt "dev-q:3ee5") DeviceInit_default = Ok tt (MkDeviceInit 0xe5 0x3e).
Proof. vm_compute. reflexivity. Qed.

Example ServiceCommandSerializeFormat :
  ServiceCommand_deserialize (txt "cmd:qwerty key:value empty: int:663d") (MkServiceCommand [] []) =
    Ok tt (MkServiceCommand (txt "qwerty") [(txt "empty", []); (txt "int", txt "663d"); (txt "key", txt "value")]).
Proof. vm_compute. reflexivity. Qed.

(** ** Rules *)

Lemma put_hex_length l : Forall is_u8 l -> length (put_hex l) = (length l * 2)%nat.
Proof.
  induction 1 as [|b l Hb _ IH]; [done|]. cbn [put_hex]. rewrite length_app, IH, hex_out_digits by (exact Hb).
  rewrite hex_digits_length. simpl. lia.
Qed.

Lemma put_hex_drop l k r : Forall is_u8 l -> (k <= length l)%nat ->
  drop (k * 2) (put_hex l ++ r) = put_hex (drop k l) ++ r.
Proof.
  intros Hl. revert k. induction Hl as [|b l Hb Hl IH]; intros [|k] Hk; try done; [cbn [length] in Hk; lia|].
  cbn [put_hex]. rewrite hex_out_digits, <- app_assoc by (exact Hb).
  change (S k * 2)%nat with (2 + k * 2)%nat. rewrite <- drop_drop.
  rewrite (drop_app_length' (hex_digits 2 b)) by done. cbn [drop length] in *. apply IH. lia.
Qed.

Lemma put_hex_chars l : Forall is_u8 l -> forallb plain_digit (put_hex l) = true.
Proof.
  induction 1 as [|b l Hb _ IH]; [done|]. cbn [put_hex]. by rewrite forallb_app, IH, hex_out_digits, hex_digits_plain by (exact Hb).
Qed.

(** Printed bytes read back. *)
Lemma get_hex_put {St} p l r (s : St) : Forall is_u8 l ->
  get_hex (p ++ put_hex l ++ r) (length p) (length l) s = Ok l s.
Proof.
  intros Hl. assert (wp total (get_hex (p ++ put_hex l ++ r) (length p) (length l)) (fun b s' => b = l /\ s' = s) s) as H.
  { unfold get_hex. apply (wp_for_acc _ _ _ (fun done b s' => s' = s /\ b = take (length done) l)); [done| |].
    - intros done x rest b s' Heq [-> ->]. apply range_split in Heq as [-> Hx].
      destruct (lookup_lt_is_Some_2 l (length done)) as [v Hv]; [lia|]. rewrite Nat2Z.id.
      assert (is_u8 v) as Hv8 by (eapply Forall_lookup_1; [exact Hl|exact Hv]).
      assert (take 2 (drop (length p + length done * 2) (p ++ put_hex l ++ r)) = hex_digits 2 v) as Hs.
      { rewrite <- drop_drop, drop_app_length, put_hex_drop by (done || lia). rewrite (drop_S _ v) by done.
        cbn [put_hex]. rewrite hex_out_digits, <- app_assoc by (exact Hv8). by rewrite (take_app_length' (hex_digits 2 v)). }
      unfold substr. rewrite (proj2 (Nat.leb_le _ _)).
      2: { rewrite !length_app, put_hex_length by done. lia. }
      unfold wp, bind, ret. rewrite Hs, hex_extract_digits by (unfold uint_max, is_u8 in *; simpl; lia). cbn [fst].
      split; [done|]. rewrite u8_small by done. rewrite length_app. cbn [length]. rewrite Nat.add_1_r. by erewrite take_S_r.
    - intros b s' [-> ->]. split; [|done]. apply take_ge. unfold range. rewrite length_fmap, length_seq. lia. }
  unfold wp in H. destruct (get_hex _ _ _ s) as [b s'|]; [by destruct H as [-> ->]|done].
Qed.
