(* ===== verification/MessageRules.v ===== *)
(** The text protocol of [deephome/common/source/proto/Message.cpp]: what is printed
    reads back, and every line that reads is a well-formed packet. *)

From Stdlib Require Import String Sorted.
From S2P Require Import Prelude Monad Text Message.

(** ** Order of keys *)

Lemma text_compare_antisym a : forall b, text_compare b a = CompOpp (text_compare a b).
Proof.
  induction a as [|x a IH]; intros [|y b]; try done. cbn [text_compare]. rewrite IH, (N.compare_antisym (N_of_ascii x)).
  by destruct (N_of_ascii x ?= N_of_ascii y)%N.
Qed.

Lemma text_compare_eq a : forall b, text_compare a b = Eq -> a = b.
Proof.
  induction a as [|x a IH]; intros [|y b]; try done. cbn [text_compare].
  destruct (N_of_ascii x ?= N_of_ascii y)%N eqn:Hc; try done. intros H. apply N.compare_eq in Hc.
  rewrite (IH b H), <- (ascii_N_embedding x), Hc. by rewrite ascii_N_embedding.
Qed.

Lemma text_compare_refl a : text_compare a a = Eq.
Proof. induction a as [|x a IH]; [done|]. cbn [text_compare]. by rewrite N.compare_refl. Qed.

Lemma text_compare_trans a : forall b c, text_compare a b = Lt -> text_compare b c = Lt -> text_compare a c = Lt.
Proof.
  induction a as [|x a IH]; intros [|y b] [|z c]; try done. cbn [text_compare].
  destruct (N.compare_spec (N_of_ascii x) (N_of_ascii y)) as [Hxy|Hxy|]; try done;
  destruct (N.compare_spec (N_of_ascii y) (N_of_ascii z)) as [Hyz|Hyz|]; try done; intros H1 H2.
  - rewrite Hxy, Hyz, N.compare_refl. by apply (IH b).
  - by rewrite Hxy, (proj2 (N.compare_lt_iff _ _)).
  - by rewrite <- Hyz, (proj2 (N.compare_lt_iff _ _)).
  - rewrite (proj2 (N.compare_lt_iff _ _)); [done|]. by apply (N.lt_trans _ (N_of_ascii y)).
Qed.

Definition key_lt {V} (p q : text * V) : Prop := text_compare p.1 q.1 = Lt.
Definition sorted {V} (m : tmap V) : Prop := StronglySorted key_lt m.

Section Map.
Context {V : Type}.
Implicit Types m : tmap V.

Lemma map_set_forall (P : text * V -> Prop) k v m : P (k, v) -> Forall P m -> Forall P (map_set k v m).
Proof.
  intros Hk. induction 1 as [|[k' v'] m Hp Hm IH]; [by repeat constructor|]. cbn [map_set].
  destruct (text_compare k k'); repeat constructor; try done.
Qed.

Lemma map_set_sorted k v m : sorted m -> sorted (map_set k v m).
Proof.
  induction 1 as [|[k' v'] m Hm IH Hlt]; [by repeat constructor|]. cbn [map_set].
  destruct (text_compare k k') eqn:Hc.
  - apply text_compare_eq in Hc as ->. by constructor.
  - constructor; [by constructor|]. constructor; [done|]. eapply Forall_impl; [|exact Hlt].
    intros [k2 v2] H. unfold key_lt in *. cbn [fst] in *. by apply (text_compare_trans _ k').
  - constructor; [done|]. apply map_set_forall; [|done]. unfold key_lt. cbn [fst]. by rewrite text_compare_antisym, Hc.
Qed.

(** A key above all others goes to the end. *)
Lemma map_set_last k v m : Forall (fun q => key_lt q (k, v)) m -> map_set k v m = m ++ [(k, v)].
Proof.
  induction 1 as [|[k' v'] m Hlt Hm IH]; [done|]. cbn [map_set app].
  unfold key_lt in Hlt. cbn [fst] in Hlt. by rewrite text_compare_antisym, Hlt, IH.
Qed.
End Map.

(** ** Well-formed packets *)

Definition message_wf (m : Message) : Prop :=
  is_u8 (device_id_ m) /\ is_u16 (address_ m) /\ (length (body_ m) <= 8)%nat /\ Forall is_u8 (body_ m) /\
  (type_ m = Type_Request -> body_ m = []).

Definition device_init_wf (d : DeviceInit) : Prop := is_u8 (new_id_ d) /\ is_u8 (old_id_ d).

Definition argument_wf (p : text * text) : Prop := p.1 <> [] /\ check_string p.1 = true /\ check_string p.2 = true.

Definition command_wf (c : ServiceCommand) : Prop :=
  action_ c <> [] /\ check_string (action_ c) = true /\ Forall argument_wf (arguments_ c) /\ sorted (arguments_ c).

Definition packet_wf (p : Packet) : Prop :=
  match p with PMessage m => message_wf m | PDeviceInit d => device_init_wf d | PServiceCommand c => command_wf c end.

(** ** Numbers read from any text *)

Lemma hex_value_range c d : hex_value c = Some d -> 0 <= d < 16.
Proof.
  unfold hex_value, code. pose proof (N_ascii_bounded c). repeat case_match; intros [= <-];
  repeat match goal with H : (_ && _)%bool = true |- _ => apply andb_prop in H as [? ?] end; lia.
Qed.

Lemma digits_nonneg s : forall acc, 0 <= acc -> 0 <= digits 16 hex_value acc s.
Proof.
  induction s as [|c s IH]; intros acc Hacc; cbn [digits]; [done|].
  destruct (hex_value c) as [d|] eqn:Hd; [|done]. apply hex_value_range in Hd. apply IH. lia.
Qed.

Lemma hex_extract_range max old s : 0 <= old <= max -> 0 <= (hex_extract max old s).1 <= max.
Proof.
  intros Hold. unfold hex_extract. destruct (skip_space s) as [|c s']; [done|].
  destruct (sign (c :: s')) as [neg r]. destruct (starts_number _ _); [|simpl; lia].
  pose proof (digits_nonneg (base_16 r) 0 ltac:(lia)).
  destruct (max <? _) eqn:Hmax; [simpl; lia|]. apply Z.ltb_ge in Hmax. destruct neg; cbn [fst]; [|lia].
  pose proof (Z.mod_pos_bound (- digits 16 hex_value 0 (base_16 r)) (max + 1)). lia.
Qed.

(** ** Names *)

Lemma index_if_none_iff p s : index_if p s = None <-> forallb (fun c => negb (p c)) s = true.
Proof.
  split; [|apply index_if_none]. induction s as [|c s IH]; [done|]. cbn [index_if forallb].
  destruct (p c); [done|]. intros H. apply IH. by destruct (index_if p s).
Qed.

Lemma check_string_forallb s : check_string s = forallb (char_in name_chars) s.
Proof.
  unfold check_string, find_first_not_of. rewrite drop_0.
  assert (forall o : option nat, Nat.add 0 <$> o = o) as -> by (by intros []).
  apply eq_true_iff_eq. rewrite bool_decide_eq_true, index_if_none_iff.
  induction s as [|c s IH]; [done|]. cbn [forallb]. by rewrite negb_involutive, !andb_true_iff, IH.
Qed.

Definition not_space_colon (c : ascii) : bool := negb (char_in space c) && negb (Ascii.eqb ":"%char c).

Lemma name_char_plain c : char_in name_chars c = true -> not_space_colon c = true.
Proof. destruct c as [[] [] [] [] [] [] [] []]; vm_compute; done. Qed.

Lemma forallb_weaken {A} (p q : A -> bool) s : (forall c, p c = true -> q c = true) -> forallb p s = true -> forallb q s = true.
Proof. intros H. induction s as [|c s IH]; [done|]. cbn [forallb]. intros [Hc Hs]%andb_prop. by rewrite H, IH. Qed.

Lemma name_no_space s : check_string s = true -> forallb (fun c => negb (char_in space c)) s = true.
Proof.
  rewrite check_string_forallb. apply forallb_weaken. intros c [H _]%name_char_plain%andb_prop. exact H.
Qed.

Lemma name_no_colon s : check_string s = true -> forallb (fun c => negb (Ascii.eqb ":"%char c)) s = true.
Proof.
  rewrite check_string_forallb. apply forallb_weaken. intros c [_ H]%name_char_plain%andb_prop. exact H.
Qed.

(** ** Searching *)

(** The first character with [p] after [a]. *)
Lemma index_from p r a x b :
  forallb (fun c => negb (p c)) a = true -> p x = true ->
  Nat.add (length r) <$> index_if p (drop (length r) (r ++ a ++ x :: b)) = Some (length r + length a)%nat.
Proof.
  intros Ha Hx. rewrite drop_app_length, index_if_app by done. cbn [index_if]. rewrite Hx. simpl. f_equal. lia.
Qed.

Lemma index_from_none p r a :
  forallb (fun c => negb (p c)) a = true -> Nat.add (length r) <$> index_if p (drop (length r) (r ++ a)) = None.
Proof. intros Ha. by rewrite drop_app_length, index_if_none. Qed.

Lemma substr_app {St} (r a b : text) n (s : St) : n = length a -> substr (r ++ a ++ b) (length r) n s = Ok a s.
Proof.
  intros ->. unfold substr. rewrite drop_app_length, take_app_length, (proj2 (Nat.leb_le _ _)); [done|].
  rewrite length_app. lia.
Qed.

(** ** Round trips *)

Lemma plain_hex s : forallb plain_digit s = true -> forallb (fun c => negb (negb (char_in hex_chars c))) s = true.
Proof. apply forallb_weaken. intros c Hc. apply plain_digit_spec in Hc. rewrite negb_involutive. tauto. Qed.

(** What a printed body reads as, after the [20] characters before it. *)
Lemma deserialize_body_data {St} (p : text) (l : list Z) (s : St) :
  Forall is_u8 l -> find_first_not_of (p ++ put_hex l) hex_chars (length p) = None /\
  get_hex (p ++ put_hex l) (length p) (length l) s = Ok l s.
Proof.
  intros Hl. split.
  - apply (index_from_none (fun c => negb (char_in hex_chars c))), plain_hex, put_hex_chars, Hl.
  - pose proof (get_hex_put p l [] s Hl) as H. by rewrite app_nil_r in H.
Qed.

Lemma message_roundtrip_at m m0 : message_wf m -> Message_deserialize (Message_serialize m) m0 = Ok tt m.
Proof.
  destruct m as [ty d a body], m0 as [ty0 d0 a0 body0]. intros (Hd & Ha & Hlen & Hbody & Hreq). cbn [type_ device_id_ address_ body_] in *.
  unfold Message_serialize. cbn [type_ device_id_ address_ body_].
  assert (0 <= d < 16 ^ Z.of_nat 2) as Hd' by exact Hd. assert (0 <= a < 16 ^ Z.of_nat 4) as Ha' by exact Ha.
  rewrite (hex_out_digits 1), (hex_out_digits 3) by done.
  pose proof (hex_extract_digits uint_max 0 1 d Hd' ltac:(unfold is_u8, uint_max in *; lia)) as Hxd.
  pose proof (hex_extract_digits ushort_max a0 3 a Ha' ltac:(unfold is_u16, ushort_max in *; lia)) as Hxa.
  pose proof (hex_digits_length 2 d) as Hld. pose proof (hex_digits_length 4 a) as Hla.
  destruct (hex_digits 2 d) as [|c1 [|c2 [|]]]; try done. destruct (hex_digits 4 a) as [|a1 [|a2 [|a3 [|a4 [|]]]]]; try done.
  set (b := if decide (ty = Type_Data) then _ else _).
  set (data := txt "dev:" ++ _).
  assert (find data (txt "dev:") 0 = Some 0%nat) as H1 by done.
  assert (find data (txt "addr:") 4 = Some 8%nat) as H2.
  { unfold find, data. cbn. by rewrite !andb_false_r. }
  assert (exists x r, b = x :: r /\ char_in (txt "?:") x = true) as (x & r & Hb & Hx).
  { unfold b. destruct (decide _); eauto. }
  assert (find_first_of data (txt "?:") 17 = Some 19%nat) as H3.
  { unfold find_first_of, data. rewrite Hb. cbn. unfold char_in in Hx. cbn in Hx. by rewrite Hx. }
  unfold Message_deserialize. rewrite H1. unfold bind at 1.
  replace (substr _ (0 + 4) 2 _) with (Ok (St:=Message) [c1; c2] (MkMessage ty0 d0 a0 body0)) by done.
  rewrite Hxd. cbn [fst]. rewrite u8_small by done. unfold bind at 1, wr. cbn [fset f_device type_ device_id_ address_ body_].
  change (0 + 4)%nat with 4%nat. rewrite H2. unfold bind at 1.
  replace (substr _ (8 + 5) 4 _) with (Ok (St:=Message) [a1; a2; a3; a4] (MkMessage ty0 d a0 body0)) by done.
  unfold bind at 1, rd. cbn [fget f_address address_]. rewrite Hxa. cbn [fst]. unfold bind, wr. cbn [fset f_address type_ device_id_ address_ body_].
  unfold Message_deserialize_body. change (8 + 5 + 4)%nat with 17%nat. rewrite H3.
  unfold bind, wr. cbn [fset f_body f_type type_ device_id_ address_ body_].
  assert ((data : text) !! 19%nat = Some x) as -> by (unfold data; by rewrite Hb).
  unfold b in Hb. destruct (decide (ty = Type_Data)) as [->|Hty].
  - injection Hb as <- <-. change (bool_decide (Some ":"%char = Some "?"%char)) with false. cbn [negb].
    set (p := txt "dev:" ++ [c1; c2] ++ txt "  addr:" ++ [a1; a2; a3; a4] ++ txt "  :").
    assert (data = p ++ put_hex body) as Hdata by done.
    destruct (deserialize_body_data p body (MkMessage Type_Data d a []) Hbody) as [H4 H5].
    change 20%nat with (length p). rewrite Hdata, H4. cbn [default]. rewrite length_app, put_hex_length by done.
    replace (length p + length body * 2 - length p)%nat with (length body * 2)%nat by lia.
    rewrite Nat.Div0.mod_mul, Nat.div_mul by done. rewrite (proj2 (Nat.ltb_ge 8 (length body))) by done.
    change (negb (0 =? 0)%nat || false) with false. cbv beta iota. cbn [type_ device_id_ address_ body_]. by rewrite H5.
  - destruct ty; [|done]. injection Hb as <- <-. by rewrite Hreq.
Qed.

Lemma device_init_deserialize_at d d0 : device_init_wf d ->
  DeviceInit_deserialize (DeviceInit_serialize d) d0 =
  (if 0x10 <=? new_id_ d then Ok tt d else Fault (Throw invalid_argument) d0).
Proof.
  destruct d as [n o]. intros [Hn Ho]. unfold DeviceInit_serialize. cbn [new_id_ old_id_] in *.
  assert (0 <= o < 16 ^ Z.of_nat 2) as Ho' by exact Ho. rewrite (hex_out_digits 1) by done.
  pose proof (hex_extract_digits uint_max 0 1 o Ho' ltac:(unfold is_u8, uint_max in *; lia)) as Hxo.
  pose proof (hex_digits_length 2 o) as Hlo. pose proof (hex_digits_plain 2 o) as Hpo.
  assert (hex_out 0 n = if 0x10 <=? n then hex_digits 2 n else hex_digits 1 n) as Hout.
  { unfold is_u8 in Hn. apply (bool_decide_eq_true (hex_out 0 n = if 0x10 <=? n then hex_digits 2 n else hex_digits 1 n)).
    revert n Hn. apply (below_ind (fun n => bool_decide (hex_out 0 n = if 0x10 <=? n then hex_digits 2 n else hex_digits 1 n)) 256).
    vm_compute. reflexivity. }
  rewrite Hout. destruct (hex_digits 2 o) as [|c1 [|c2 [|]]]; try done.
  unfold DeviceInit_deserialize.
  assert (forall r, find (txt "dev-q:" ++ [c1; c2] ++ r) (txt "dev-q:") 0 = Some 0%nat) as Hf by done.
  rewrite Hf. rewrite bool_decide_eq_true_2 by done. cbn [negb]. unfold bind at 1.
  destruct (0x10 <=? n) eqn:H10.
  - assert (0 <= n < 16 ^ Z.of_nat 2) as Hn' by exact Hn.
    pose proof (hex_extract_digits uint_max 0 1 n Hn' ltac:(unfold is_u8, uint_max in *; lia)) as Hxn.
    pose proof (hex_digits_length 2 n) as Hln. pose proof (hex_digits_plain 2 n) as Hpn.
    destruct (hex_digits 2 n) as [|n1 [|n2 [|]]]; try done.
    replace (substr _ 6 (6 + 4) d0) with (Ok (St:=DeviceInit) [c1; c2; n1; n2] d0) by done.
    assert (find_first_not_of [c1; c2; n1; n2] hex_chars 0 = None) as ->.
    { change [c1; c2; n1; n2] with ([c1; c2] ++ [n1; n2]). unfold find_first_not_of.
      rewrite index_if_none; [done|]. apply plain_hex. by rewrite drop_0, forallb_app, Hpo. }
    change (negb _ || _) with false. unfold bind.
    replace (substr _ 0 2 d0) with (Ok (St:=DeviceInit) [c1; c2] d0) by done.
    replace (substr _ 2 2 d0) with (Ok (St:=DeviceInit) [n1; n2] d0) by done.
    rewrite Hxo, Hxn. cbn [fst]. by rewrite !u8_small.
  - pose proof (hex_digits_length 1 n) as Hln. destruct (hex_digits 1 n) as [|n1 [|]]; try done.
Qed.

Lemma put_arguments_stop l :
  find_first_of (put_arguments l) space 0 = match l with [] => None | _ => Some 0%nat end.
Proof. by destruct l as [|[k v] l]. Qed.

Lemma name_end r v l : check_string v = true ->
  default (length (r ++ v ++ put_arguments l)) (find_first_of (r ++ v ++ put_arguments l) space (length r)) =
  (length r + length v)%nat.
Proof.
  intros Hv. apply name_no_space in Hv. unfold find_first_of. destruct l as [|[k' v'] l].
  - cbn [put_arguments]. rewrite app_nil_r, index_from_none by done. cbn [default]. by rewrite length_app.
  - cbn [put_arguments]. change (txt " " ++ ?x) with (" "%char :: x). by rewrite index_from by done.
Qed.

(** One round of the loop over the arguments. *)
Lemma parse_argument {St} n r k v l acc (s : St) : argument_wf (k, v) ->
  parse_arguments (S n) (r ++ put_arguments ((k, v) :: l)) (length r) acc s =
  parse_arguments n (r ++ put_arguments ((k, v) :: l)) (length (r ++ txt " " ++ k ++ txt ":" ++ v)) (map_set k v acc) s.
Proof.
  intros (Hk0 & Hk & Hv). cbn [fst snd] in *. cbn [parse_arguments]. cbn [put_arguments].
  set (data := r ++ _).
  assert (data = (r ++ txt " ") ++ k ++ ":"%char :: v ++ put_arguments l) as Hd1 by (unfold data; by rewrite <- !app_assoc).
  assert (data = (r ++ txt " " ++ k ++ txt ":") ++ v ++ put_arguments l) as Hd2 by (unfold data; by rewrite <- !app_assoc).
  assert ((length data <=? length r)%nat = false) as ->.
  { apply Nat.leb_gt. unfold data. rewrite length_app. cbn. lia. }
  assert (find_first_not_of data space (length r) = Some (length (r ++ txt " "))) as ->.
  { destruct k as [|c k]; [done|]. unfold find_first_not_of, data.
    apply name_no_space in Hk. cbn [forallb] in Hk. apply andb_prop in Hk as [Hc _].
    change (txt " " ++ (c :: k) ++ txt ":" ++ v ++ put_arguments l) with ([" "%char] ++ c :: k ++ txt ":" ++ v ++ put_arguments l).
    rewrite index_from by (done || by rewrite Hc). by rewrite length_app. }
  assert (find_char data ":" (length (r ++ txt " ")) = Some (length (r ++ txt " ") + length k)%nat) as ->.
  { unfold find_char. rewrite Hd1. apply index_from; [by apply name_no_colon|done]. }
  assert (default (length data) (find_first_of data space (length (r ++ txt " "))) = length (r ++ txt " " ++ k ++ txt ":" ++ v)) as ->.
  { rewrite Hd1. replace (k ++ ":"%char :: v ++ put_arguments l) with ((k ++ txt ":" ++ v) ++ put_arguments l) by (by rewrite <- !app_assoc).
    apply name_no_space in Hk. apply name_no_space in Hv. unfold find_first_of. destruct l as [|[k' v'] l].
    - cbn [put_arguments]. rewrite app_nil_r, index_from_none.
      + cbn [default]. by rewrite !length_app, !Nat.add_assoc.
      + by rewrite !forallb_app, Hk, Hv.
    - cbn [put_arguments]. change (txt " " ++ ?x) with (" "%char :: x) at 2. rewrite index_from; [|by rewrite !forallb_app, Hk, Hv|done].
      cbn [default]. by rewrite !length_app, !Nat.add_assoc. }
  rewrite (proj2 (Nat.ltb_ge _ _)) by (rewrite !length_app; cbn; lia).
  unfold bind at 1. rewrite Hd1. replace (length (r ++ txt " ") + length k - length (r ++ txt " "))%nat with (length k) by lia.
  rewrite (substr_app (r ++ txt " ") k _ (length k)) by done. unfold bind at 1.
  rewrite (proj2 (Nat.eqb_neq _ _)) by (rewrite !length_app; cbn; lia).
  rewrite <- Hd1, Hd2. replace (S (length (r ++ txt " ") + length k)) with (length (r ++ txt " " ++ k ++ txt ":")) by (rewrite !length_app; cbn; lia).
  rewrite (substr_app _ v) by (rewrite !length_app; cbn; lia).
  rewrite bool_decide_eq_false_2, Hk, Hv by done. reflexivity.
Qed.

Lemma parse_arguments_put {St} l : forall n r acc (s : St),
  Forall argument_wf l -> StronglySorted key_lt (acc ++ l) -> (length l < n)%nat ->
  parse_arguments n (r ++ put_arguments l) (length r) acc s = Ok (acc ++ l) s.
Proof.
  induction l as [|[k v] l IH]; intros n r acc s Hwf Hsort Hn; (destruct n as [|n]; [lia|]).
  - cbn [parse_arguments put_arguments]. rewrite (proj2 (Nat.leb_le _ _)) by (rewrite length_app; cbn; lia).
    by rewrite app_nil_r.
  - apply Forall_cons_1 in Hwf as [Hkv Hwf]. rewrite parse_argument by done.
    rewrite map_set_last.
    + replace (r ++ put_arguments ((k, v) :: l)) with ((r ++ txt " " ++ k ++ txt ":" ++ v) ++ put_arguments l)
        by (cbn [put_arguments]; by rewrite <- !app_assoc).
      rewrite IH; [by rewrite <- app_assoc|done| |cbn [length] in Hn; lia]. by rewrite <- app_assoc.
    + clear - Hsort. induction acc as [|q acc IHa]; [done|]. cbn [app] in Hsort. apply StronglySorted_inv in Hsort as [Hs Hq].
      constructor; [|by apply IHa]. apply Forall_app in Hq as [_ Hq]. by apply Forall_cons_1 in Hq as [Hq _].
Qed.

Lemma command_roundtrip_at {St} c c0 (s : St) : command_wf c ->
  exists t, ServiceCommand_serialize c s = Ok t s /\ prefixb (txt "cmd:") t = true /\ ServiceCommand_deserialize t c0 = Ok tt c.
Proof.
  destruct c as [a l]. intros (Ha0 & Ha & Hl & Hs). cbn [action_ arguments_] in *. eexists. split; [|split].
  - unfold ServiceCommand_serialize. cbn [action_]. rewrite bool_decide_eq_false_2 by done. reflexivity.
  - reflexivity.
  - cbn [action_ arguments_]. unfold ServiceCommand_deserialize.
    change (prefixb (txt "cmd:") (txt "cmd:" ++ a ++ put_arguments l)) with true. cbn [negb].
    change 4%nat with (length (txt "cmd:")). rewrite name_end by done. unfold bind at 1.
    rewrite (substr_app (txt "cmd:") a) by lia. rewrite bool_decide_eq_false_2, Ha by done. cbn [negb orb].
    unfold bind. rewrite <- length_app. rewrite (app_assoc (txt "cmd:") a).
    rewrite (parse_arguments_put l _ _ []); [done|done|done|]. enough (length l <= length (put_arguments l))%nat by (rewrite length_app; lia).
    clear. induction l as [|[k v] l IH]; [done|]. cbn [put_arguments length]. rewrite !length_app. cbn. lia.
Qed.

(** ** Every line *)

Definition invalid_line {St} (f : fault) (_ : St) : Prop := f = Throw invalid_argument.

Lemma wp_substr {St} E s pos n (Q : text -> St -> Prop) st :
  (pos <= length s)%nat -> Q (take n (drop pos s)) st -> wp E (substr s pos n) Q st.
Proof. intros H HQ. unfold substr. by rewrite (proj2 (Nat.leb_le _ _)). Qed.

Lemma index_if_lt p s n : index_if p s = Some n -> (n < length s)%nat.
Proof.
  revert n. induction s as [|c s IH]; intros n; [done|]. cbn [index_if length]. destruct (p c); [intros [= <-]; lia|].
  destruct (index_if p s) as [k|]; [|done]. intros [= <-]. specialize (IH k eq_refl). lia.
Qed.

Lemma index_from_lt p s pos n : Nat.add pos <$> index_if p (drop pos s) = Some n -> (pos <= n < length s)%nat.
Proof.
  destruct (index_if p (drop pos s)) as [k|] eqn:Hk; [|done]. apply index_if_lt in Hk. rewrite length_drop in Hk.
  intros [= <-]. lia.
Qed.

Lemma prefixb_length p s : prefixb p s = true -> (length p <= length s)%nat.
Proof.
  revert s. induction p as [|c p IH]; intros [|d s]; cbn [prefixb length]; try done; try lia.
  intros [_ H]%andb_prop. apply IH in H. lia.
Qed.

Lemma index_le pat s n : index pat s = Some n -> (n + length pat <= length s)%nat.
Proof.
  revert n. induction s as [|c s IH]; intros n; cbn [index].
  - destruct (prefixb pat []) eqn:H; [|done]. intros [= <-]. by apply prefixb_length in H.
  - destruct (prefixb pat (c :: s)) eqn:H; [intros [= <-]; by apply prefixb_length in H|].
    destruct (index pat s) as [k|]; [|done]. intros [= <-]. specialize (IH k eq_refl). cbn [length]. lia.
Qed.

Lemma find_le s pat pos n : (pos <= length s)%nat -> find s pat pos = Some n -> (pos <= n /\ n + length pat <= length s)%nat.
Proof.
  unfold find. intros Hpos. destruct (index pat (drop pos s)) as [k|] eqn:Hk; [|done]. apply index_le in Hk.
  rewrite length_drop in Hk. intros [= <-]. lia.
Qed.

Lemma get_hex_wp {St} E data pos size (s : St) : (pos + size * 2 <= length data)%nat ->
  wp E (get_hex data pos size) (fun l s' => length l = size /\ Forall is_u8 l /\ s' = s) s.
Proof.
  intros Hlen. unfold get_hex.
  apply (wp_for_acc _ _ _ (fun done b s' => length b = length done /\ Forall is_u8 b /\ s' = s)); [done| |].
  - intros done x rest b s' Heq (Hb & Hu & ->). apply range_split in Heq as [-> Hx]. apply wp_bind, wp_substr; [lia|].
    apply wp_ret. rewrite !length_app, Hb. split; [done|]. split; [|done].
    apply Forall_app. split; [done|]. constructor; [apply u8_range|done].
  - intros b s' (Hb & Hu & ->). rewrite Hb. unfold range. by rewrite length_fmap, length_seq, Nat2Z.id.
Qed.

Lemma deserialize_body_wp data pos m : is_u8 (device_id_ m) -> is_u16 (address_ m) ->
  wp invalid_line (Message_deserialize_body data pos) (fun _ => message_wf) m.
Proof.
  intros Hd Ha. unfold Message_deserialize_body.
  destruct (find_first_of data (txt "?:") (pos + 5 + 4)) as [p|] eqn:Hp; [|done].
  apply index_from_lt in Hp. apply wp_bind, wp_wr. cbn [fset f_body type_ device_id_ address_].
  case_bool_decide; [apply wp_wr; split; [exact Hd|]; split; [exact Ha|]; split; [cbn; lia|done]|].
  apply wp_bind, wp_wr. cbn [fset f_type device_id_ address_ body_].
  set (e := default _ _). assert (e <= length data)%nat as He.
  { unfold e. destruct (find_first_not_of data hex_chars (S p)) as [k|] eqn:Hk; simpl; [|lia].
    apply index_from_lt in Hk. lia. }
  destruct (negb _ || _) eqn:Hb; [done|]. apply orb_false_iff in Hb as [_ Hb]. apply Nat.ltb_ge in Hb.
  apply wp_bind. eapply wp_mono.
  { apply get_hex_wp. pose proof (Nat.div_mod_eq (e - S p) 2). lia. }
  intros l s' (Hl & Hu & ->). apply wp_wr. split; [exact Hd|]. split; [exact Ha|].
  split; [cbn; lia|]. by split.
Qed.

Lemma message_deserialize_wp data m : is_u16 (address_ m) ->
  wp invalid_line (Message_deserialize data) (fun _ => message_wf) m.
Proof.
  intros Ha. unfold Message_deserialize. destruct (find data (txt "dev:") 0) as [p|] eqn:Hp; [|done].
  apply find_le in Hp; [|lia]. cbn in Hp. apply wp_bind, wp_substr; [lia|]. apply wp_bind, wp_wr. cbn [fset f_device type_ address_ body_].
  destruct (find data (txt "addr:") (p + 4)) as [q|] eqn:Hq; [|done].
  apply find_le in Hq; [|lia]. cbn in Hq. apply wp_bind, wp_substr; [lia|]. apply wp_bind, wp_rd. apply wp_bind, wp_wr.
  cbn [fget fset f_address type_ device_id_ address_ body_].
  apply deserialize_body_wp; cbn [device_id_ address_]; [apply u8_range|].
  pose proof (hex_extract_range ushort_max (address_ m) (take 4 (drop (q + 5) data))) as H.
  unfold is_u16, ushort_max in *. lia.
Qed.

Lemma device_init_deserialize_wp data d :
  wp invalid_line (DeviceInit_deserialize data) (fun _ => device_init_wf) d.
Proof.
  unfold DeviceInit_deserialize. case_bool_decide as Hf; [|done]. cbn [negb]. apply find_le in Hf; [|lia]. cbn in Hf.
  apply wp_bind, wp_substr; [lia|]. destruct (negb _ || _) eqn:Hb; [done|]. apply orb_false_iff in Hb as [Hb _].
  apply negb_false_iff, Nat.eqb_eq in Hb. apply wp_bind, wp_substr; [lia|]. apply wp_bind, wp_substr; [lia|].
  split; apply u8_range.
Qed.

Lemma index_if_at p (s : list ascii) n : index_if p s = Some n -> exists c, s !! n = Some c /\ p c = true.
Proof.
  revert n. induction s as [|c s IH]; intros n; [done|]. cbn [index_if]. destruct (p c) eqn:Hc; [intros [= <-]; by exists c|].
  destruct (index_if p s) as [k|]; [|done]. intros [= <-]. apply (IH k eq_refl).
Qed.

Lemma index_from_at p (s : list ascii) pos n : Nat.add pos <$> index_if p (drop pos s) = Some n -> exists c, s !! n = Some c /\ p c = true.
Proof.
  destruct (index_if p (drop pos s)) as [k|] eqn:Hk; [|done]. intros [= <-]. apply index_if_at in Hk. by rewrite lookup_drop in Hk.
Qed.

Lemma parse_arguments_wp {St} data : forall n pos acc (s : St),
  (pos <= length data)%nat -> (length data - pos < n)%nat -> Forall argument_wf acc -> sorted acc ->
  wp invalid_line (parse_arguments n data pos acc) (fun l s' => Forall argument_wf l /\ sorted l /\ s' = s) s.
Proof.
  induction n as [|n IH]; intros pos acc s Hpos Hn Hwf Hs; [lia|]. cbn [parse_arguments].
  destruct (length data <=? pos)%nat; [by apply wp_ret|].
  destruct (find_first_not_of data space pos) as [b|] eqn:Hb; [|by apply wp_ret]. 
  pose proof Hb as Hb'. apply index_from_lt in Hb.
  set (e := default _ _). assert (b < e <= length data)%nat as He.
  { unfold e. destruct (find_first_of data space b) as [k|] eqn:Hk; simpl; [|lia].
    pose proof Hk as Hk'. apply index_from_lt in Hk. enough (k <> b) by lia. intros ->.
    apply index_from_at in Hb' as (x & Hx & Hn1), Hk' as (y & Hy & Hn2).
    rewrite Hx in Hy. injection Hy as ->. by rewrite Hn2 in Hn1. }
  destruct (find_char data ":" b) as [c|] eqn:Hc; [|done]. apply index_from_lt in Hc.
  destruct (e <? c)%nat eqn:Hec; [done|]. apply Nat.ltb_ge in Hec.
  apply wp_bind, wp_substr; [lia|]. apply wp_bind, wp_substr; [lia|].
  destruct (bool_decide _ || _ || _) eqn:Hg; [done|]. rewrite !orb_false_iff, bool_decide_eq_false, !negb_false_iff in Hg.
  apply IH; [lia|lia| |by apply map_set_sorted]. apply map_set_forall; [|done]. red. tauto.
Qed.

Lemma command_deserialize_wp data c : wp invalid_line (ServiceCommand_deserialize data) (fun _ => command_wf) c.
Proof.
  unfold ServiceCommand_deserialize. destruct (prefixb (txt "cmd:") data) eqn:Hp; [|done]. cbn [negb].
  apply prefixb_length in Hp. cbn in Hp. set (e := default _ _). assert (e <= length data)%nat as He.
  { unfold e. destruct (find_first_of data space 4) as [k|] eqn:Hk; simpl; [|lia]. apply index_from_lt in Hk. lia. }
  apply wp_bind, wp_substr; [lia|]. destruct (bool_decide _ || _) eqn:Hg; [done|].
  rewrite !orb_false_iff, bool_decide_eq_false, !negb_false_iff in Hg.
  apply wp_bind. eapply wp_mono; [apply parse_arguments_wp; [exact He|lia|constructor|constructor]|].
  intros l s' (Hl & Hs & _). destruct Hg as [Ha0 Ha]. split; [exact Ha0|]. split; [exact Ha|]. split; assumption.
Qed.

Lemma on_object_wp {St Ob} (o : Ob) (m : prog Ob unit) (Q : Ob -> Prop) (s : St) :
  wp invalid_line m (fun _ => Q) o -> wp invalid_line (on_object o m) (fun o' s' => Q o' /\ s' = s) s.
Proof. unfold wp, on_object. destruct (m o); [done|]. intros ->. done. Qed.

Lemma find_head s pat : bool_decide (find s pat 0 = Some 0%nat) = prefixb pat s.
Proof.
  unfold find. rewrite drop_0. destruct s as [|c s]; cbn [index]; destruct (prefixb pat _); try done.
  by destruct (index pat s).
Qed.

(** ** Properties *)

(** Reading an argument changes nothing. *)
Lemma get_raw_argument_wp {St} E c key (s : St) :
  wp E (get_raw_argument c key) (fun _ s' => s' = s) s.
Proof.
  unfold get_raw_argument. destruct (_ || _ || _) eqn:Hg; [by apply wp_ret|]. apply wp_bind.
  eapply wp_mono; [apply get_hex_wp|]; [|by intros l s' (_ & _ & ->)].
  pose proof (Nat.div_mod_eq (length (get_argument c key [])) 2). lia.
Qed.

Lemma Packet_create_wp {St} (line : text) (s : St) :
  wp invalid_line (Packet_create line) (fun p s' => packet_wf p /\ s' = s) s.
Proof.
  unfold Packet_create. case_bool_decide; [|case_bool_decide]; apply wp_bind.
  - eapply wp_mono; [by apply on_object_wp, device_init_deserialize_wp|]. by intros d s' [Hd ->].
  - eapply wp_mono; [by apply on_object_wp, command_deserialize_wp|]. by intros c s' [Hc ->].
  - eapply wp_mono; [by apply on_object_wp, message_deserialize_wp|]. by intros m s' [Hm ->].
Qed.

(** C11. Whatever the bytes of a line are, [Packet::create] either returns a well-formed
    packet (device id a byte, address 16 bits, a body of at most 8 bytes and none in a
    request; names of a service command nonempty and made of the allowed characters,
    its keys in order and without repetition) or throws [std::invalid_argument]: no other
    exception, no loop that does not end, and nothing else changes. *)
Theorem packet_create_sound {St} (line : text) (s : St) :
  wp invalid_line (Packet_create line) (fun p s' => packet_wf p /\ s' = s) s.
Proof. apply Packet_create_wp. Qed.

(** What a packet must be for its line to read back: see [device_init_unpadded]. *)
Definition printable (p : Packet) : Prop :=
  packet_wf p /\ match p with PDeviceInit d => 0x10 <= new_id_ d | _ => True end.

Lemma packet_roundtrip_at {St} (p : Packet) (s : St) : printable p ->
  exists line, convert_to_string p s = Ok line s /\ Packet_create line s = Ok p s.
Proof.
  destruct p as [m|d|c]; intros [Hwf Hid]; cbn [packet_wf convert_to_string] in *.
  - exists (Message_serialize m). split; [done|]. unfold Packet_create. rewrite !find_head.
    change (prefixb (txt "dev-q:") (Message_serialize m)) with false. change (prefixb (txt "cmd:") (Message_serialize m)) with false. cbv iota.
    unfold bind, on_object. by rewrite message_roundtrip_at.
  - exists (DeviceInit_serialize d). split; [done|]. unfold Packet_create. rewrite find_head.
    change (prefixb (txt "dev-q:") (DeviceInit_serialize d)) with true. cbv iota.
    unfold bind, on_object. rewrite device_init_deserialize_at by done. by apply Z.leb_le in Hid as ->.
  - destruct (command_roundtrip_at c (MkServiceCommand [] []) s Hwf) as (t & Ht & Hp & Hd). exists t. split; [done|].
    unfold Packet_create. rewrite !find_head, Hp.
    assert (prefixb (txt "dev-q:") t = false) as ->.
    { destruct t as [|c0 t]; [done|]. apply andb_prop in Hp as [<-%Ascii.eqb_eq _]. done. }
    unfold bind, on_object. by rewrite Hd.
Qed.

(** C10. A well-formed packet survives the text protocol: [convert_to_string] returns a
    line, and [Packet::create] of that line is the packet, for the three kinds of packet
    (a device-init packet needs a new id of two digits). *)
Theorem packet_roundtrip {St} (p : Packet) (s : St) : printable p ->
  exists line, convert_to_string p s = Ok line s /\ Packet_create line s = Ok p s.
Proof. apply packet_roundtrip_at. Qed.

Lemma packet_roundtrip_witness :
  exists line, convert_to_string (PServiceCommand (MkServiceCommand (txt "conn") [(txt "name", txt "net-1"); (txt "type", [])])) tt = Ok line tt /\
  Packet_create line tt = Ok (PServiceCommand (MkServiceCommand (txt "conn") [(txt "name", txt "net-1"); (txt "type", [])])) tt.
Proof. apply packet_roundtrip. repeat split; try done; repeat constructor; done. Defined.

(** [std::setw] is given once in [DeviceInit::serialize] and holds for the old id
    only, so a new id below 0x10 prints as one digit and the line has three digits:
    [deserialize] throws [std::invalid_argument] on exactly these, and the round trip
    succeeds on all others. *)
Theorem device_init_unpadded (d d0 : DeviceInit) : device_init_wf d ->
  DeviceInit_deserialize (DeviceInit_serialize d) d0 =
  (if 0x10 <=? new_id_ d then Ok tt d else Fault (Throw invalid_argument) d0).
Proof. apply device_init_deserialize_at. Qed.

Lemma device_init_unpadded_witness :
  DeviceInit_deserialize (DeviceInit_serialize (MkDeviceInit 0x0f 0xff)) DeviceInit_default = Fault (Throw invalid_argument) DeviceInit_default.
Proof. apply (device_init_unpadded (MkDeviceInit 0x0f 0xff)). by split; red; simpl. Defined.
