(* ===== verification/Crc.v ===== *)
(** The checksum of the 1-wire bus, [firmware/ti/onewire/crc.cpp]: the table against the
    polynomial it stands for, and what the checksum detects. *)

From S2P Require Import Prelude.

Definition crc88540_table : list Z :=
  [
   		0; 94;188;226; 97; 63;221;131;194;156;126; 32;163;253; 31; 65;
   		157;195; 33;127;252;162; 64; 30; 95;  1;227;189; 62; 96;130;220;
   		35;125;159;193; 66; 28;254;160;225;191; 93;  3;128;222; 60; 98;
   		190;224;  2; 92;223;129; 99; 61;124; 34;192;158; 29; 67;161;255;
   		70; 24;250;164; 39;121;155;197;132;218; 56;102;229;187; 89;  7;
   		219;133;103; 57;186;228;  6; 88; 25; 71;165;251;120; 38;196;154;
   		101; 59;217;135;  4; 90;184;230;167;249; 27; 69;198;152;122; 36;
   		248;166; 68; 26;153;199; 37;123; 58;100;134;216; 91;  5;231;185;
   		140;210; 48;110;237;179; 81; 15; 78; 16;242;172; 47;113;147;205;
   		17; 79;173;243;112; 46;204;146;211;141;111; 49;178;236; 14; 80;
   		175;241; 19; 77;206;144;114; 44;109; 51;209;143; 12; 82;176;238;
   		50;108;142;208; 83; 13;239;177;240;174; 76; 18;145;207; 45;115;
   		202;148;118; 40;171;245; 23; 73;  8; 86;180;234;105; 55;213;139;
   		87;  9;235;181; 54;104;138;212;149;203; 41;119;244;170; 72; 22;
   		233;183; 85; 11;136;214; 52;106; 43;117;151;201; 74; 20;246;168;
   		116; 42;200;150; 21; 75;169;247;182;232; 10; 84;215;137;107; 53
  ].

(** [crc88540_table[i]]: the index is a byte, so it is inside the table. *)
Definition table_at (i : Z) : Z := nth (Z.to_nat i) crc88540_table 0.

Fixpoint crc_from (result : Z) (data : list Z) : Z :=
  match data with [] => result | b :: data' => crc_from (table_at (Z.lxor result b)) data' end.

Definition crc (data : list Z) : Z := crc_from 0 data.

(** ** The reference: x^8 + x^5 + x^4 + 1 shifted out low bit first *)

(** One bit. *)
Definition dallas_bit (r : Z) : Z :=
  if Z.testbit r 0 then Z.lxor (Z.shiftr r 1) 0x8C else Z.shiftr r 1.

(** The bits of a byte. *)
Definition dallas_byte (r b : Z) : Z := Nat.iter 8 dallas_bit (Z.lxor r b).

Definition dallas (data : list Z) : Z := fold_left dallas_byte data 0.

(** ** Lemmas *)

Lemma lxor_u8 a b : is_u8 a -> is_u8 b -> is_u8 (Z.lxor a b).
Proof.
  intros Ha Hb. split; [apply Z.lxor_nonneg; unfold is_u8 in *; lia|].
  apply Z.log2_lt_cancel. change (Z.log2 256) with 8.
  destruct Ha as [Ha1 Ha2], Hb as [Hb1 Hb2].
  assert (forall x, 0 <= x < 256 -> Z.log2 x < 8) as Hlog.
  { intros x Hx. destruct (Z.eq_dec x 0) as [->|]; [done|]. apply Z.log2_lt_pow2; [lia|]. by apply Hx. }
  pose proof (Z.log2_lxor a b Ha1 Hb1). pose proof (Hlog a). pose proof (Hlog b). lia.
Qed.

Lemma table_u8 x : is_u8 x -> is_u8 (table_at x).
Proof.
  intros Hx. enough ((0 <=? table_at x) && (table_at x <? 256) = true) as H.
  { apply andb_prop in H as [H1%Z.leb_le H2%Z.ltb_lt]. by split. }
  revert x Hx. apply byte_ind. vm_compute. reflexivity.
Qed.

Lemma table_dallas x : is_u8 x -> table_at x = Nat.iter 8 dallas_bit x.
Proof.
  intros Hx. apply Z.eqb_eq. revert x Hx. apply byte_ind. vm_compute. reflexivity.
Qed.

(** The table is a permutation: this is its inverse. *)
Definition untable (y : Z) : Z := default 0 (Z.of_nat <$> (list_find (fun x => x = y) crc88540_table ≫= fun p => Some p.1)).

Lemma untable_table x : is_u8 x -> untable (table_at x) = x.
Proof. intros Hx. apply Z.eqb_eq. revert x Hx. apply byte_ind. vm_compute. reflexivity. Qed.

Lemma table_inj x y : is_u8 x -> is_u8 y -> table_at x = table_at y -> x = y.
Proof. intros Hx Hy H. by rewrite <- (untable_table x), H, untable_table. Qed.

Lemma lxor_inj_l a b c : Z.lxor a b = Z.lxor a c -> b = c.
Proof.
  intros H. apply (f_equal (Z.lxor a)) in H. by rewrite <- !Z.lxor_assoc, Z.lxor_nilpotent, !Z.lxor_0_l in H.
Qed.

Lemma lxor_inj_r a b c : Z.lxor b a = Z.lxor c a -> b = c.
Proof. rewrite !(Z.lxor_comm _ a). apply lxor_inj_l. Qed.

Lemma crc_from_u8 l : forall r, is_u8 r -> Forall is_u8 l -> is_u8 (crc_from r l).
Proof.
  induction l as [|b l IH]; intros r Hr Hl; [done|]. apply Forall_cons_1 in Hl as [Hb Hl].
  cbn [crc_from]. apply IH; [|done]. by apply table_u8, lxor_u8.
Qed.

Lemma crc_from_app a b r : crc_from r (a ++ b) = crc_from (crc_from r a) b.
Proof. revert r. induction a as [|x a IH]; intros r; [done|]. apply IH. Qed.

(** Two registers that differ stay different over the same bytes. *)
Lemma crc_from_inj l : forall r r', is_u8 r -> is_u8 r' -> Forall is_u8 l -> crc_from r l = crc_from r' l -> r = r'.
Proof.
  induction l as [|b l IH]; intros r r' Hr Hr' Hl H; [done|]. apply Forall_cons_1 in Hl as [Hb Hl]. cbn [crc_from] in H.
  apply IH in H; [|by apply table_u8, lxor_u8|by apply table_u8, lxor_u8|done].
  apply table_inj in H; [|by apply lxor_u8|by apply lxor_u8]. by apply lxor_inj_r in H.
Qed.

(** ** Properties *)

(** C38. The table-driven [crc] is the Dallas CRC-8 of the bytes: the register shifted
    right eight times per byte and the polynomial 0x8C added whenever a one falls out.
    So none of the 256 entries of the table is wrong. *)
Theorem crc_is_dallas (data : list Z) : Forall is_u8 data -> crc data = dallas data.
Proof.
  intros Hd. unfold crc, dallas. assert (is_u8 0) as H0 by done. revert H0. generalize 0.
  induction Hd as [|b l Hb Hl IH]; intros r Hr; [done|]. cbn [crc_from fold_left]. unfold dallas_byte at 2.
  rewrite <- table_dallas by by apply lxor_u8. apply IH. by apply table_u8, lxor_u8.
Qed.

Lemma crc_is_dallas_witness : crc [0x02; 0x1C; 0xB8; 0x01; 0; 0; 0; 0xA2] = dallas [0x02; 0x1C; 0xB8; 0x01; 0; 0; 0; 0xA2].
Proof. apply crc_is_dallas. by repeat constructor. Defined.

(** A message that carries its checksum as the last byte checks to zero, and if any
    one byte of it, the checksum included, arrives as another byte, it does not: the
    test [crc(...) == 0] never accepts a single damaged byte. *)
Theorem crc_detects_damaged_byte (data : list Z) (i : nat) (x : Z) :
  Forall is_u8 data -> is_u8 x ->
  let message := data ++ [crc data] in
  crc message = 0 /\ (crc (<[i := x]> message) = 0 <-> <[i := x]> message = message).
Proof.
  intros Hd Hx message. assert (is_u8 0) as H0 by done.
  assert (crc message = 0) as Hm.
  { unfold crc, message. rewrite crc_from_app. cbn [crc_from]. unfold crc. by rewrite Z.lxor_nilpotent. }
  split; [done|]. split; [|by intros ->]. intros Hc.
  destruct (decide (i < length message)%nat) as [Hi|Hi]; [|by apply list_insert_ge; lia].
  assert (Forall is_u8 message) as Hmu.
  { apply Forall_app. split; [done|]. constructor; [by apply crc_from_u8|done]. }
  destruct (lookup_lt_is_Some_2 _ _ Hi) as [y Hy]. pose proof (Forall_lookup_1 _ _ _ _ Hmu Hy) as Hyu.
  assert (message = take i message ++ y :: drop (S i) message) as Hsplit by (symmetry; by apply take_drop_middle).
  assert (<[i := x]> message = take i message ++ x :: drop (S i) message) as Hins by by apply insert_take_drop.
  assert (Forall is_u8 (take i message)) as Ht by by apply Forall_take.
  assert (Forall is_u8 (drop (S i) message)) as Hdr by by apply Forall_drop.
  rewrite Hins in Hc |- *. rewrite Hsplit in Hm at 1. unfold crc in *. rewrite crc_from_app in Hc, Hm. cbn [crc_from] in Hc, Hm.
  pose proof (crc_from_u8 _ 0 H0 Ht) as Hr. apply (fun H => eq_trans H (eq_sym Hm)) in Hc.
  apply crc_from_inj in Hc; [|by apply table_u8, lxor_u8|by apply table_u8, lxor_u8|done].
  apply table_inj in Hc; [|by apply lxor_u8|by apply lxor_u8]. apply lxor_inj_l in Hc as ->. by rewrite <- Hsplit.
Qed.

Lemma crc_detects_damaged_byte_witness :
  let message := [0x28; 0x01; 0xff] ++ [crc [0x28; 0x01; 0xff]] in
  crc message = 0 /\ (crc (<[1%nat := 0x02]> message) = 0 <-> <[1%nat := 0x02]> message = message).
Proof. apply crc_detects_damaged_byte; [by repeat constructor|done]. Defined.
