(* ===== verification/TiOnewire.v ===== *)
(** The 1-wire library of the TI boards: [firmware/ti/include/onewire/onewire.h],
    [firmware/ti/onewire/] and the wrappers of [firmware/ti/include/util/] it uses.

    TI-RTOS is not part of the repository: the class [Rtos] names its functions, over
    a state of their own.  The properties are proved for every such state, or for
    the bus of [Wire], which records what is driven and plays back what a device
    answers. *)

From S2P Require Import Prelude Monad Crc.

(** [TimerParams]: the three modes of [Master]'s timer are the only ones the library uses. *)
Inductive RunMode : Type := RunMode_OneShot.
Inductive StartMode : Type := StartMode_User.
Inductive PeriodType : Type := PeriodType_Microseconds.

Record TimerParams : Type := MkTimerParams { runMode : RunMode; startMode : StartMode; periodType : PeriodType; timer_period : Z; timer_arg : Z }.

(** The calls of TI-RTOS, with the argument of each, and its constants.  To construct an
    object gives its handle. *)
Class Rtos (St : Type) : Type := {
  GPIO_CFG_IN_NOPULL : Z;
  GPIO_CFG_OUT_STD : Z;
  GPIO_CFG_OUT_LOW : Z;
  GPIO_CFG_OUT_STR_HIGH : Z;
  Timer_ANY : Z;
  GPIO_setConfig : Z -> Z -> prog St unit;
  Semaphore_construct : Z -> prog St Z;
  Semaphore_destruct : Z -> prog St unit;
  Semaphore_post : Z -> prog St unit;
  Timer_construct : Z -> (Z -> prog St unit) -> TimerParams -> prog St Z;
  Timer_destruct : Z -> prog St unit;
  GPIO_read : Z -> prog St Z;
  GPIO_write : Z -> Z -> prog St unit;
  Hwi_disable : prog St Z;
  Hwi_restore : Z -> prog St unit;
  Timer_setPeriodMicroSecs : Z -> Z -> prog St unit;
  Timer_start : Z -> prog St unit;
  Timer_stop : Z -> prog St unit;
  Semaphore_reset : Z -> Z -> prog St unit;
  Semaphore_pend : Z -> prog St unit
}.

(** [Master]: the indices of its pins, the handles of its semaphore and timer. *)
Record Master : Type := MkMaster { input_pin_ : Z; output_pin_ : Z; semaphore_ : Z; timer_ : Z }.

Inductive SearchContext_Type : Type := Type_Normal | Type_Alarm.

Record SearchContext : Type := MkSearchContext { search_type_ : SearchContext_Type; last_id_ : Z; done_ : bool; last_fork_ : Z }.

Definition u64 (z : Z) : Z := z mod 2 ^ 64.
Definition i16 (z : Z) : Z := (z + 2 ^ 15) mod 2 ^ 16 - 2 ^ 15.
Definition i8 (z : Z) : Z := (z + 2 ^ 7) mod 2 ^ 8 - 2 ^ 7.

Inductive WaitMode : Type := Wait | NoWait.

Definition READ_ROM : Z := 0x33.
Definition MATCH_ROM : Z := 0x55.
Definition SKIP_ROM : Z := 0xCC.
Definition SEARCH_ROM : Z := 0xF0.
Definition ALARM_SEARCH : Z := 0xEC.
Definition CONVERT_T : Z := 0x44.
Definition WRITE_SCRATCHPAD : Z := 0x4E.
Definition READ_SCRATCHPAD : Z := 0xBE.

Section Session.
Context {St : Type} `{!Rtos St}.

(** The callback of the timer. *)
Definition post_semaphore (semaphore : Z) : prog St unit := Semaphore_post semaphore.

(** [Master::Master]; the destructors of its members, the last first. *)
Definition Master_new (input_pin output_pin timer_index : Z) : prog St Master :=
  let! semaphore := Semaphore_construct 0 in
  let! timer := Timer_construct timer_index post_semaphore (MkTimerParams RunMode_OneShot StartMode_User PeriodType_Microseconds 1 semaphore) in
  GPIO_setConfig input_pin GPIO_CFG_IN_NOPULL ;;
  GPIO_setConfig output_pin (Z.lor (Z.lor GPIO_CFG_OUT_STD GPIO_CFG_OUT_LOW) GPIO_CFG_OUT_STR_HIGH) ;;
  ret (MkMaster input_pin output_pin semaphore timer).
Definition Master_delete (m : Master) : prog St unit := Timer_destruct (timer_ m) ;; Semaphore_destruct (semaphore_ m).

Variable master_ : Master.

(** [1 << n] in 32 bits; a shift by the width or more has no meaning. *)
Definition bit32 (n : Z) : prog St Z := if n <? 32 then ret (Z.shiftl 1 n) else raise Undefined.

(** The scope of a [HwiLock]. *)
Definition HwiLock {A} (m : prog St A) : prog St A :=
  let! key := Hwi_disable in let! r := m in Hwi_restore key ;; ret r.

Definition Pin_read (index : Z) : prog St bool := let! v := GPIO_read index in ret (negb (v =? 0)).
Definition Pin_write (index : Z) (value : bool) : prog St unit := GPIO_write index (if value then 1 else 0).

Definition Master_sleep (mks : Z) : prog St unit :=
  Semaphore_reset (semaphore_ master_) 0 ;;
  HwiLock (Timer_setPeriodMicroSecs (timer_ master_) mks ;; Timer_start (timer_ master_)) ;;
  Semaphore_pend (semaphore_ master_) ;;
  Timer_stop (timer_ master_).

Definition Session_wait (mks : Z) : prog St unit := Master_sleep mks.

Definition Session_low (mks : Z) : prog St unit :=
  Pin_write (output_pin_ master_) true ;;
  Session_wait mks ;;
  Pin_write (output_pin_ master_) false.

Definition Session_reset : prog St bool :=
  HwiLock (
    Session_low 500 ;;
    Session_wait 70 ;;
    let! p := Pin_read (input_pin_ master_) in
    Session_wait 500 ;;
    ret (negb p)).

Definition Session_read (bits : Z) : prog St Z :=
  HwiLock (for_acc (range bits) 0 (fun bit result =>
    Session_low 5 ;;
    Session_wait 10 ;;
    let! p := Pin_read (input_pin_ master_) in
    let! result := (if p then let! b := bit32 bit in ret (Z.lor result b) else ret result) in
    Session_wait (45 + 2) ;;
    ret result)).

Definition Session_write (value bits : Z) : prog St unit :=
  HwiLock (for_each (range bits) (fun bit =>
    let! b := bit32 bit in
    (if negb (Z.land value b =? 0) then Session_low 5 ;; Session_wait 55 else Session_low 60) ;;
    Session_wait 2)).

Definition Session_read_rom : prog St Z :=
  Session_write READ_ROM 8 ;;
  let! lo := Session_read 32 in
  let! hi := Session_read 32 in
  ret (Z.lor (u64 (Z.shiftl hi 32)) lo).

Definition Session_match_rom (rom : Z) : prog St unit :=
  Session_write MATCH_ROM 8 ;;
  Session_write (Z.land rom (2 ^ 32 - 1)) 32 ;;
  Session_write (Z.shiftr rom 32) 32.

Definition Session_skip_rom : prog St unit := Session_write SKIP_ROM 8.

Definition get_bit (c : SearchContext) (index : Z) : prog St bool :=
  let! b := bit32 index in ret (negb (Z.land (last_id_ c) b =? 0)).

(** [~(1u << index)] is a value of 32 bits: clearing a bit clears the upper half too. *)
Definition set_bit (c : SearchContext) (index : Z) (value : bool) : prog St SearchContext :=
  let! b := bit32 index in
  let id := if value then Z.lor (last_id_ c) b else Z.land (last_id_ c) (2 ^ 32 - 1 - b) in
  ret (MkSearchContext (search_type_ c) id (done_ c) (last_fork_ c)).

(** The loop of [search_rom] from [index] on, [n] rounds: whether it went through, the
    context as it is then, and [next_fork]. *)
Fixpoint search_bits (n : nat) (index : Z) (c : SearchContext) (next_fork : Z) : prog St (bool * SearchContext * Z) :=
  match n with
  | O => ret (true, c, next_fork)
  | S n' =>
      let! answer := Session_read 2 in
      if answer =? 3 then ret (false, c, next_fork)
      else
        let value := negb (Z.land answer 1 =? 0) in
        let complement := negb (Z.land answer 2 =? 0) in
        let! (c, next_fork) :=
          (if value || complement then let! c := set_bit c index value in ret (c, next_fork)
           else if index =? last_fork_ c then let! c := set_bit c index true in ret (c, next_fork)
           else if last_fork_ c <? index then let! c := set_bit c index false in ret (c, index)
           else let! b := get_bit c index in ret (c, if b then next_fork else index)) in
        let! b := get_bit c index in
        Session_write (if b then 1 else 0) 1 ;;
        search_bits n' (index + 1) c next_fork
  end.

Definition search_rom (c : SearchContext) : prog St (bool * SearchContext) :=
  if done_ c then ret (false, c)
  else
    Session_write (match search_type_ c with Type_Alarm => ALARM_SEARCH | Type_Normal => SEARCH_ROM end) 8 ;;
    let! (ok, c, next_fork) := search_bits 64 0 c 0 in
    if ok then ret (true, MkSearchContext (search_type_ c) (last_id_ c) (next_fork =? 0) next_fork)
    else ret (false, c).

(** [Temperature] holds sixteenths of a degree in an [int16_t]. *)
Definition from_raw16 (lo hi : Z) : Z := i16 (Z.lor (Z.shiftl hi 8) lo).
(** The shift of a negative number is the product by 16. *)
Definition from_raw8 (value : Z) : Z := i16 (Z.shiftl (i8 value) 4).
Definition raw16 (value_ : Z) : Z := u16 value_.
Definition raw8 (value_ : Z) : Z := u8 (i8 (Z.shiftr value_ 4)).
Definition from_mkgrad (mkgrad_value : Z) : Z := i16 (Z.quot (mkgrad_value * 16) 1000).
Definition mkgrad_value (value_ : Z) : Z := Z.quot (value_ * 1000) 16.

(** A finite [float], [mantissa * 2 ^ exponent]. *)
Record float : Type := MkFloat { mantissa : Z; exponent : Z }.

(** [static_cast<int16_t>(f)]: towards zero, without meaning outside the range. *)
Definition float_to_int16 {S} (f : float) : prog S Z :=
  let z := if 0 <=? exponent f then Z.shiftl (mantissa f) (exponent f) else Z.quot (mantissa f) (2 ^ (- exponent f)) in
  if (- 2 ^ 15 <=? z) && (z <? 2 ^ 15) then ret z else raise Undefined.

(** The product by 16 and the quotient by 16 are exact. *)
Definition from_fp {S} (fp_value : float) : prog S Z := float_to_int16 (MkFloat (mantissa fp_value) (exponent fp_value + 4)).
Definition fp_value (value_ : Z) : float := MkFloat value_ (-4).

Record Scratchpad : Type := MkScratchpad { temperature : Z; th : Z; tl : Z; config : Z; crc_match : bool }.

(** [while (read(1) == 0);] with [fuel] reads before the loop counts as endless. *)
Definition convert_t (fuel : nat) (wait_mode : WaitMode) : prog St unit :=
  Session_write CONVERT_T 8 ;;
  match wait_mode with
  | NoWait => ret tt
  | Wait => while fuel (let! r := Session_read 1 in ret (r =? 0)) (ret tt)
  end.

Definition write_scratchpad (th tl config : Z) : prog St unit :=
  Session_write WRITE_SCRATCHPAD 8 ;;
  Session_write (raw8 th) 8 ;;
  Session_write (raw8 tl) 8 ;;
  Session_write config 8.

(** [raw_data] after the loop that fills it. *)
Definition read_raw (n : Z) : prog St (list Z) :=
  for_acc (range n) [] (fun _ raw_data => let! b := Session_read 8 in ret (raw_data ++ [u8 b])).

Definition read_scratchpad : prog St Scratchpad :=
  Session_write READ_SCRATCHPAD 8 ;;
  let! raw_data := read_raw 8 in
  let crc_match := crc raw_data =? 0 in
  let! b0 := at_index raw_data 0 in
  let! b1 := at_index raw_data 1 in
  let! b2 := at_index raw_data 2 in
  let! b3 := at_index raw_data 3 in
  let! b4 := at_index raw_data 4 in
  ret (MkScratchpad (from_raw16 b0 b1) (from_raw8 b2) (from_raw8 b3) b4 crc_match).

Definition read_t : prog St Z :=
  Session_write READ_SCRATCHPAD 8 ;;
  let! lo := Session_read 8 in
  let! hi := Session_read 8 in
  ret (from_raw16 (u8 lo) (u8 hi)).
End Session.

(** ** A bus that records and plays back *)

Inductive event : Type := Level (v : Z) | Delay (mks : Z).

(** What was driven on the pin and slept so far, what the pin will read, the period of
    the timer.  Nothing pulls an idle bus down. *)
Record Wire : Type := MkWire { events : list event; answers : list bool; period : Z }.

#[export] Instance Wire_rtos : Rtos Wire := {
  GPIO_CFG_IN_NOPULL := 0;
  GPIO_CFG_OUT_STD := 0;
  GPIO_CFG_OUT_LOW := 0;
  GPIO_CFG_OUT_STR_HIGH := 0;
  Timer_ANY := -1;
  GPIO_setConfig _ _ := ret tt;
  Semaphore_construct _ := ret 0;
  Semaphore_destruct _ := ret tt;
  Semaphore_post _ := ret tt;
  Timer_construct _ _ _ := ret 0;
  Timer_destruct _ := ret tt;
  GPIO_read _ := fun w =>
    match answers w with
    | [] => Ok 1 w
    | b :: l => Ok (Z.b2z b) (MkWire (events w) l (period w))
    end;
  GPIO_write _ v := fun w => Ok tt (MkWire (events w ++ [Level v]) (answers w) (period w));
  Hwi_disable := ret 0;
  Hwi_restore _ := ret tt;
  Timer_setPeriodMicroSecs _ n := fun w => Ok tt (MkWire (events w) (answers w) n);
  Timer_start _ := ret tt;
  Timer_stop _ := ret tt;
  Semaphore_reset _ _ := ret tt;
  Semaphore_pend _ := fun w => Ok tt (MkWire (events w ++ [Delay (period w)]) (answers w) (period w))
}.

(** The waveform of a bit, and of a slot in which the device answers. *)
Definition write_slot (b : bool) : list event :=
  if b then [Level 1; Delay 5; Level 0; Delay 55; Delay 2] else [Level 1; Delay 60; Level 0; Delay 2].
Definition read_slot : list event := [Level 1; Delay 5; Level 0; Delay 10; Delay 47].

(** What a device hears: a pulse shorter than 15 microseconds is a one. *)
Fixpoint heard (low : bool) (es : list event) : list bool :=
  match es with
  | [] => []
  | Level v :: es => heard (v =? 1) es
  | Delay t :: es => if low then (t <? 15) :: heard low es else heard low es
  end.

(** The [n] low bits of a number. *)
Definition low_bits (n : nat) (z : Z) : list bool := (fun i => Z.testbit z (Z.of_nat i)) <$> seq 0 n.

Section WireRules.
Variable m : Master.
Implicit Types w : Wire.

Definition extends w (es : list event) (l : list bool) w' : Prop :=
  events w' = events w ++ es /\ answers w' = l.

Lemma extends_trans w1 w2 w3 es1 es2 l1 l2 :
  extends w1 es1 l1 w2 -> extends w2 es2 l2 w3 -> extends w1 (es1 ++ es2) l2 w3.
Proof. intros [H1 _] [H2 H3]. split; [|done]. by rewrite H2, H1, app_assoc. Qed.

Lemma extends_refl w : extends w [] (answers w) w.
Proof. split; [by rewrite app_nil_r|done]. Qed.

Lemma land_bit v k : 0 <= k -> negb (Z.land v (Z.shiftl 1 k) =? 0) = Z.testbit v k.
Proof.
  intros Hk. rewrite Z.shiftl_1_l. destruct (Z.testbit v k) eqn:Hb.
  - apply negb_true_iff, Z.eqb_neq. intros H. apply (f_equal (fun z => Z.testbit z k)) in H.
    by rewrite Z.land_spec, Hb, Z.pow2_bits_true, Z.bits_0 in H by done.
  - apply negb_false_iff, Z.eqb_eq, Z.bits_inj'. intros i Hi. rewrite Z.land_spec, Z.bits_0.
    destruct (Z.eq_dec i k) as [->|Hne]; [by rewrite Hb|]. by rewrite Z.pow2_bits_false, andb_false_r by lia.
Qed.

Lemma low_bits_S n z : low_bits (S n) z = low_bits n z ++ [Z.testbit z (Z.of_nat n)].
Proof. unfold low_bits. rewrite seq_S, fmap_app. done. Qed.

Lemma lsb_first_low_bits n z : lsb_first (low_bits n z) = z mod 2 ^ Z.of_nat n.
Proof.
  apply Z.bits_inj'. intros i Hi. rewrite <- (Z2Nat.id i), testbit_lsb_first by done. rewrite Z2Nat.id by done.
  unfold low_bits. rewrite list_lookup_fmap. destruct (decide (i < Z.of_nat n)) as [Hl|Hl].
  - rewrite lookup_seq_lt, Z.mod_pow2_bits_low by lia. simpl. by rewrite Z2Nat.id.
  - rewrite Z.mod_pow2_bits_high by lia. by rewrite lookup_seq_ge by lia.
Qed.

(** A write drives the slots of the bits, low bit first. *)
Lemma Session_write_wp value bits w : 0 <= bits <= 32 ->
  wp total (Session_write m value bits)
    (fun _ => extends w (low_bits (Z.to_nat bits) value ≫= write_slot) (answers w)) w.
Proof.
  intros Hbits. unfold Session_write, HwiLock. apply wp_bind, wp_ret, wp_bind.
  apply (wp_for_each _ _ (fun done => extends w (low_bits (length done) value ≫= write_slot) (answers w))).
  - apply extends_refl.
  - intros done bit rest w' Heq Hw'. apply range_split in Heq as [-> Hx]. rewrite length_app, Nat.add_1_r, low_bits_S, bind_app.
    apply wp_bind. unfold bit32. rewrite (proj2 (Z.ltb_lt _ _)) by lia. apply wp_ret. rewrite land_bit by lia.
    eapply (wp_mono _ (fun _ => extends w' ([Z.testbit value (Z.of_nat (length done))] ≫= write_slot) (answers w)));
      [|intros [] w'' H; exact (extends_trans _ _ _ _ _ _ _ Hw' H)].
    destruct Hw' as [He Ha]. destruct (Z.testbit _ _); unfold wp, extends; cbn; rewrite <- !app_assoc, Ha; done.
  - intros w'. unfold range. rewrite length_fmap, length_seq. done.
Qed.

(** A read gives the number whose bits are the answers, low bit first. *)
Lemma Session_read_wp bits a rest w : answers w = a ++ rest -> 0 <= bits <= 32 -> Z.of_nat (length a) = bits ->
  wp total (Session_read m bits)
    (fun v w' => v = lsb_first a /\ extends w (concat (replicate (length a) read_slot)) rest w') w.
Proof.
  intros Ha0 Hbits Hlen. unfold Session_read, HwiLock. apply wp_bind, wp_ret, wp_bind.
  apply (wp_for_acc _ _ _ (fun done v w' => v = lsb_first (take (length done) a) /\
    extends w (concat (replicate (length done) read_slot)) (drop (length done) a ++ rest) w')).
  - split; [done|]. rewrite drop_0, <- Ha0. apply extends_refl.
  - intros done bit l v w' Heq [-> Hw']. apply range_split in Heq as [-> Hx].
    destruct (lookup_lt_is_Some_2 a (length done)) as [b Hb]; [lia|].
    rewrite length_app, Nat.add_1_r, (take_S_r _ _ b), <- lsb_first_snoc by done.
    replace (replicate (S (length done)) read_slot) with (replicate (length done) read_slot ++ [read_slot]) by (by rewrite <- replicate_cons_app).
    rewrite length_take_le by lia. rewrite concat_app. eapply (wp_mono _ (fun v' w'' => v' = Z.lor (lsb_first (take (length done) a)) (if b then Z.shiftl 1 (Z.of_nat (length done)) else 0) /\
        extends w' (concat [read_slot]) (drop (S (length done)) a ++ rest) w'')).
    2: { intros v' w'' [-> H]. split; [done|]. exact (extends_trans _ _ _ _ _ _ _ Hw' H). }
    destruct Hw' as [He Ha]. rewrite (drop_S a b) in Ha by done. unfold wp, extends, bit32.
    cbn. rewrite Ha. cbn. destruct b; cbn; [rewrite (proj2 (Z.ltb_lt _ 32)) by lia|]; cbn; rewrite <- !app_assoc; cbn;
      [done|]. split; [by rewrite Z.lor_0_r|done].
  - intros v w' [-> Hw']. unfold range in Hw'. rewrite length_fmap, length_seq in Hw'.
    replace (Z.to_nat bits) with (length a) in Hw' by lia. unfold range. rewrite length_fmap, length_seq.
    replace (Z.to_nat bits) with (length a) by lia. rewrite firstn_all, drop_all in *. apply wp_bind, wp_ret. done.
Qed.

Lemma heard_slots l r : heard false ((l ≫= write_slot) ++ r) = l ++ heard false r.
Proof. induction l as [|[] l IH]; [done| |]; rewrite bind_cons, <- app_assoc; cbn; by rewrite IH. Qed.

Lemma low_bits_split z : low_bits 64 z = low_bits 32 z ++ low_bits 32 (Z.shiftr z 32).
Proof.
  unfold low_bits. change (seq 0 64) with (seq 0 32 ++ ((Nat.add 32) <$> seq 0 32)). rewrite fmap_app, <- list_fmap_compose.
  f_equal. apply list_fmap_ext. intros i x Hx. cbn. rewrite Z.shiftr_spec by lia. f_equal. lia.
Qed.

Lemma low_bits_mask z : low_bits 32 (Z.land z (2 ^ 32 - 1)) = low_bits 32 z.
Proof.
  apply list_fmap_ext. intros i x Hx. apply lookup_seq in Hx as [-> Hx]. change (2 ^ 32 - 1) with (Z.ones 32).
  rewrite Z.land_ones, Z.mod_pow2_bits_low by lia. done.
Qed.

(** [read_rom] on a bus where a device answers the bits of [rom]. *)
Lemma read_rom_answered rom rest w : 0 <= rom < 2 ^ 64 -> answers w = low_bits 64 rom ++ rest ->
  wp total (Session_read_rom m) (fun r w' =>
    r = rom /\ answers w' = rest /\ exists es, events w' = events w ++ (low_bits 8 READ_ROM ≫= write_slot) ++ es) w.
Proof.
  intros Hrom Ha. unfold Session_read_rom. apply wp_bind. eapply wp_mono; [apply Session_write_wp; lia|]. intros [] w1 H1.
  rewrite low_bits_split, <- app_assoc in Ha. apply wp_bind.
  eapply wp_mono; [apply (Session_read_wp 32 (low_bits 32 rom) (low_bits 32 (Z.shiftr rom 32) ++ rest)); [|lia|done]|].
  { destruct H1 as [_ ->]. exact Ha. }
  intros lo w2 [-> H2]. apply wp_bind.
  eapply wp_mono; [apply (Session_read_wp 32 (low_bits 32 (Z.shiftr rom 32)) rest); [apply H2|lia|done]|].
  intros hi w3 [-> H3]. apply wp_ret. rewrite !lsb_first_low_bits. split; [|split].
  + apply Z.bits_inj'. intros i Hi. unfold u64. rewrite Z.lor_spec. destruct (decide (i < 32)) as [Hi32|Hi32].
    * rewrite (Z.mod_pow2_bits_low rom) by lia. rewrite Z.mod_pow2_bits_low, Z.shiftl_spec_low by lia. done.
    * rewrite (Z.mod_pow2_bits_high rom) by lia. rewrite orb_false_r. destruct (decide (i < 64)) as [Hi64|Hi64].
      -- rewrite Z.mod_pow2_bits_low, Z.shiftl_spec, Z.mod_pow2_bits_low, Z.shiftr_spec by lia. f_equal. lia.
      -- rewrite Z.mod_pow2_bits_high by lia. symmetry. apply (testbit_bounded rom 64); lia.
  + apply H3.
  + pose proof (extends_trans _ _ _ _ _ _ _ H1 (extends_trans _ _ _ _ _ _ _ H2 H3)) as [He _]. eexists. exact He.
Qed.

(** The 64 bits of a ROM code travel low bit first, in both directions: what a device
    hears of [match_rom rom] is the command 0x55 and then bits 0 to 63 of [rom], and
    [read_rom] on a bus where a device answers those bits returns [rom], having sent
    the command 0x33. *)
Theorem rom_bits_in_order rom rest w : 0 <= rom < 2 ^ 64 ->
  wp total (Session_match_rom m rom) (fun _ w' =>
    exists es, events w' = events w ++ es /\ heard false es = low_bits 8 MATCH_ROM ++ low_bits 64 rom) w /\
  (answers w = low_bits 64 rom ++ rest -> wp total (Session_read_rom m) (fun r w' =>
    r = rom /\ answers w' = rest /\ exists es, events w' = events w ++ (low_bits 8 READ_ROM ≫= write_slot) ++ es) w).
Proof.
  intros Hrom. split.
  - unfold Session_match_rom. apply wp_bind. eapply wp_mono; [apply Session_write_wp; lia|]. intros [] w1 H1.
    apply wp_bind. eapply wp_mono; [apply Session_write_wp; lia|]. intros [] w2 H2.
    eapply wp_mono; [apply Session_write_wp; lia|]. intros [] w3 H3.
    pose proof (extends_trans _ _ _ _ _ _ _ (extends_trans _ _ _ _ _ _ _ H1 H2) H3) as [He _]. eexists. split; [exact He|].
    change (Z.to_nat 32) with 32%nat. rewrite low_bits_mask, <- !app_assoc, !heard_slots, low_bits_split.
    do 2 f_equal. rewrite <- (app_nil_r (_ ≫= _)), heard_slots. apply app_nil_r.
  - by apply read_rom_answered.
Qed.
End WireRules.

Lemma rom_bits_in_order_witness :
  let w := MkWire [] (low_bits 64 0xA2000801B81C02) 0 in
  wp total (Session_read_rom (MkMaster 0 1 0 0)) (fun r _ => r = 0xA2000801B81C02) w.
Proof.
  cbv zeta. assert (0 <= 0xA2000801B81C02 < 2 ^ 64) as Hr by lia.
  destruct (rom_bits_in_order (MkMaster 0 1 0 0) _ [] (MkWire [] (low_bits 64 0xA2000801B81C02) 0) Hr) as [_ H].
  eapply wp_mono; [apply H; by rewrite app_nil_r|]. by intros r w' [-> _].
Defined.

(** ** Searching *)

Section Search.
Context {St : Type} `{!Rtos St}.
Variable m : Master.

(** A program that returns has [P] of its result. *)
Definition yields {A} (p : prog St A) (P : A -> Prop) : Prop := forall s, wp (fun _ _ => True) p (fun a _ => P a) s.

Lemma yields_bind {A B} (p : prog St A) (k : A -> prog St B) P : (forall a, yields (k a) P) -> yields (bind p k) P.
Proof. intros H s. apply wp_bind. unfold wp. destruct (p s); [apply H|done]. Qed.

Lemma get_bit_32 c i s : 32 <= i -> get_bit (St:=St) c i s = Fault Undefined s.
Proof. intros Hi. unfold get_bit, bit32. by rewrite (proj2 (Z.ltb_ge _ _)). Qed.

Lemma search_bits_incomplete n : forall i c f, 32 <= i + Z.of_nat n - 1 -> 0 <= i <= 32 ->
  yields (search_bits m n i c f) (fun r => r.1.1 = false).
Proof.
  induction n as [|n IH]; intros i c f Hn Hi; [lia|]. cbn [search_bits]. apply yields_bind. intros answer.
  destruct (answer =? 3); [done|]. apply yields_bind. intros [c' f'].
  destruct (decide (i = 32)) as [->|Hne].
  - intros s. apply wp_bind. unfold wp. by rewrite get_bit_32.
  - do 2 (apply yields_bind; intros ?). apply IH; lia.
Qed.

(** [SearchContext] selects a bit of the 64-bit code with [1u << index], a shift of a
    32-bit number, so the loop of [search_rom] reaches an operation without meaning at
    index 32 at the latest.  Whatever the devices, the pins and the clock do, the function
    never returns true: no search ever finds a device. *)
Theorem search_rom_never_finds c s :
  match search_rom m c s with Ok r _ => r.1 = false | Fault _ _ => True end.
Proof.
  enough (yields (search_rom m c) (fun r => r.1 = false)) as H by exact (H s).
  unfold search_rom. destruct (done_ c); [done|]. apply yields_bind. intros _.
  intros s'. apply wp_bind. eapply wp_mono; [by apply search_bits_incomplete|].
  intros [[ok c'] f'] s'' Hok. cbn in Hok. by rewrite Hok.
Qed.
End Search.

(** With one device on the bus the search stops at bit 32. *)
Example search_one_device :
  let presence b := [b; negb b] in
  match search_rom (MkMaster 0 1 0 0) (MkSearchContext Type_Normal 0 false 0)
          (MkWire [] (low_bits 64 0xA2000801B81C02 ≫= presence) 0) with
  | Fault Undefined w => length (answers w) = 62%nat
  | _ => False
  end.
Proof. vm_compute. reflexivity. Qed.

(** ** The thermometer *)

Lemma i16_small z : - 2 ^ 15 <= z < 2 ^ 15 -> i16 z = z.
Proof. intros Hz. unfold i16. rewrite Z.mod_small by lia. lia. Qed.

Lemma join_bytes hi lo : is_u8 hi -> is_u8 lo -> Z.lor (Z.shiftl hi 8) lo = 256 * hi + lo.
Proof.
  intros Hh Hl. rewrite <- hi_lo_word by done. f_equal. symmetry. apply u16_small.
  unfold is_u16, is_u8 in *. rewrite Z.shiftl_mul_pow2 by lia. lia.
Qed.

(** The bits of bytes. *)
Definition byte_bits (l : list Z) : list bool := l ≫= low_bits 8.

Section Thermometer.
Variable m : Master.
Implicit Types w : Wire.

Lemma lsb_first_byte b : is_u8 b -> lsb_first (low_bits 8 b) = b.
Proof. intros Hb. rewrite lsb_first_low_bits. by apply Z.mod_small. Qed.

Lemma session_read_byte_wp b l w : is_u8 b -> answers w = byte_bits (b :: l) ->
  wp total (Session_read m 8) (fun v w' => v = b /\ answers w' = byte_bits l) w.
Proof.
  intros Hb Ha. unfold byte_bits in Ha. rewrite bind_cons in Ha.
  eapply wp_mono; [apply (Session_read_wp m 8 (low_bits 8 b) (byte_bits l)); [exact Ha|lia|done]|].
  intros v w' [-> [_ H]]. split; [by apply lsb_first_byte|done].
Qed.

Lemma read_raw_wp l rest w n : Forall is_u8 l -> answers w = byte_bits (l ++ rest) -> Z.of_nat (length l) = n ->
  wp total (read_raw m n) (fun r w' => r = l /\ answers w' = byte_bits rest) w.
Proof.
  intros Hl Ha Hn. unfold read_raw.
  apply (wp_for_acc _ _ _ (fun done r w' => r = take (length done) l /\ answers w' = byte_bits (drop (length done) l ++ rest))).
  - split; [done|]. by rewrite drop_0.
  - intros done x r acc w' Heq [-> Ha']. apply range_split in Heq as [-> Hx].
    destruct (lookup_lt_is_Some_2 l (length done)) as [b Hb]; [lia|].
    rewrite length_app, Nat.add_1_r, (take_S_r _ _ b) by done. rewrite (drop_S l b) in Ha' by done.
    pose proof (Forall_lookup_1 _ _ _ _ Hl Hb) as Hbu. apply wp_bind. eapply wp_mono; [by apply (session_read_byte_wp b)|].
    intros v w'' [-> H]. apply wp_ret. by rewrite u8_small.
  - intros r w' [-> H]. unfold range in *. rewrite length_fmap, length_seq in *. replace (Z.to_nat n) with (length l) in * by lia.
    by rewrite firstn_all, drop_all in *.
Qed.

(** [read_scratchpad] on a thermometer that sends its nine bytes: the fields are those
    of the first five, but the checksum is computed over eight bytes, without the one the
    thermometer sends last.  So for a correct transfer [crc_match] holds exactly when the
    checksum of the scratchpad happens to be zero, and not when the transfer is good. *)
Theorem scratchpad_checksum_not_read b0 b1 b2 b3 b4 b5 b6 b7 w :
  let bytes := [b0; b1; b2; b3; b4; b5; b6; b7] in
  Forall is_u8 bytes -> answers w = byte_bits (bytes ++ [crc bytes]) ->
  wp total (read_scratchpad m) (fun pad w' =>
    pad = MkScratchpad (i16 (256 * b1 + b0)) (16 * i8 b2) (16 * i8 b3) b4 (crc bytes =? 0) /\
    answers w' = byte_bits [crc bytes]) w.
Proof.
  intros bytes Hb Ha. unfold read_scratchpad. apply wp_bind. eapply wp_mono; [apply Session_write_wp; lia|].
  intros [] w1 [_ H1]. apply wp_bind. eapply wp_mono; [apply (read_raw_wp bytes [crc bytes]); [done|by rewrite H1|done]|].
  intros r w2 [-> H2].
  assert (forall b, is_u8 b -> from_raw8 b = 16 * i8 b) as H8.
  { intros b Hbu. apply Z.eqb_eq. revert b Hbu. apply byte_ind. vm_compute. reflexivity. }
  repeat (apply Forall_cons_1 in Hb as [? Hb]).
  do 5 (apply wp_bind; eapply wp_at_index; [lia|reflexivity|]).
  apply wp_ret. split; [|done]. unfold from_raw16. by rewrite !H8, join_bytes.
Qed.
End Thermometer.

(** 85 degrees, the power-on scratchpad of the data sheet: its checksum is 0x1c. *)
Lemma scratchpad_checksum_not_read_witness :
  let bytes : list Z := [0x50; 0x05; 0x4b; 0x46; 0x7f; 0xff; 0x0c; 0x10] in
  (crc bytes =? 0x1c) = true /\
  wp total (read_scratchpad (MkMaster 0 1 0 0)) (fun pad _ => pad = MkScratchpad (85 * 16) (75 * 16) (70 * 16) 0x7f false)
    (MkWire [] (byte_bits (bytes ++ [crc bytes])) 0).
Proof.
  cbv zeta. split; [vm_compute; reflexivity|].
  eapply wp_mono; [apply (scratchpad_checksum_not_read _ 0x50 0x05 0x4b 0x46 0x7f 0xff 0x0c 0x10); [by repeat constructor|reflexivity]|].
  intros pad w' [-> _]. vm_compute. reflexivity.
Defined.

(** Temperatures in thousandths of a degree: [from_mkgrad] of [mkgrad_value] gives an
    even number of sixteenths back and moves an odd one a sixteenth towards zero; no step
    leaves the range of [int] or [int16_t].  The raw bytes read back exactly, and the
    alarm bytes to a whole degree below. *)
Theorem temperature_conversions v : - 2 ^ 15 <= v < 2 ^ 15 ->
  - 2 ^ 31 <= v * 1000 < 2 ^ 31 /\ - 2 ^ 31 <= mkgrad_value v * 16 < 2 ^ 31 /\
  from_mkgrad (mkgrad_value v) = v - Z.sgn v * (v mod 2) /\
  from_raw16 (raw16 v mod 256) (raw16 v / 256) = v /\
  (- 2048 <= v < 2048 -> from_raw8 (raw8 v) = v - v mod 16).
Proof.
  intros Hv. split; [lia|]. unfold mkgrad_value, from_mkgrad. rewrite (i16_small (Z.quot _ _)).
  2: { Z.to_euclidean_division_equations; lia. }
  split; [Z.to_euclidean_division_equations; lia|]. split; [|split].
  - destruct (Z.sgn_spec v) as [[? ->]|[[? ->]|[? ->]]]; Z.to_euclidean_division_equations; lia.
  - unfold raw16, from_raw16, u16. rewrite join_bytes.
    + replace (256 * _ + _) with (v mod 2 ^ 16) by (Z.to_euclidean_division_equations; lia).
      unfold i16. rewrite Zplus_mod_idemp_l. Z.to_euclidean_division_equations; lia.
    + unfold is_u8. Z.to_euclidean_division_equations; lia.
    + unfold is_u8. Z.to_euclidean_division_equations; lia.
  - intros Hs. unfold raw8, from_raw8, i8, u8. rewrite Z.shiftl_mul_pow2, Z.shiftr_div_pow2 by lia.
    rewrite i16_small; Z.to_euclidean_division_equations; lia.
Qed.

(** Through [float] a temperature comes back as it was; a [float] comes back as the
    temperature of the sixteenths it holds whole, if an [int16_t] can hold them. *)
Theorem float_conversions {S} v m e (s : S) :
  (- 2 ^ 15 <= v < 2 ^ 15 -> from_fp (fp_value v) s = Ok v s) /\
  (0 <= e -> - 2 ^ 15 <= m * 2 ^ (e + 4) < 2 ^ 15 -> from_fp (MkFloat m e) s = Ok (m * 2 ^ (e + 4)) s) /\
  (e < -4 -> - 2 ^ 15 <= Z.quot m (2 ^ (- e - 4)) < 2 ^ 15 -> from_fp (MkFloat m e) s = Ok (Z.quot m (2 ^ (- e - 4))) s) /\
  (0 <= e -> 2 ^ 15 <= m * 2 ^ (e + 4) -> from_fp (MkFloat m e) s = Fault Undefined s).
Proof.
  unfold from_fp, float_to_int16, fp_value. cbn [mantissa exponent]. split; [|split; [|split]].
  - intros Hv. change (0 <=? -4 + 4) with true. cbv iota. change (Z.shiftl v (-4 + 4)) with v.
    by rewrite (proj2 (Z.leb_le _ _)), (proj2 (Z.ltb_lt _ _)) by lia.
  - intros He Hm. rewrite (proj2 (Z.leb_le 0 _)) by lia. rewrite Z.shiftl_mul_pow2 by lia.
    by rewrite (proj2 (Z.leb_le _ _)), (proj2 (Z.ltb_lt _ _)) by lia.
  - intros He Hm. rewrite (proj2 (Z.leb_gt 0 _)) by lia. replace (- (e + 4)) with (- e - 4) by lia.
    by rewrite (proj2 (Z.leb_le _ _)), (proj2 (Z.ltb_lt _ _)) by lia.
  - intros He Hm. rewrite (proj2 (Z.leb_le 0 _)) by lia. rewrite Z.shiftl_mul_pow2 by lia.
    by rewrite (proj2 (Z.ltb_ge _ (2 ^ 15))), andb_false_r by lia.
Qed.

Lemma float_conversions_witness : from_fp (fp_value (-401)) tt = Ok (-401) tt /\ from_fp (MkFloat 5 (-5)) tt = Ok 2 tt.
Proof.
  split; [apply (float_conversions (-401) 0 0 tt); lia|]. refine (proj1 (proj2 (proj2 (float_conversions 0 5 (-5) tt))) _ _); [lia|].
  vm_compute. split; congruence.
Defined.

Lemma temperature_conversions_witness :
  from_mkgrad (mkgrad_value (-401)) = -400 /\ from_raw8 (raw8 (-401)) = -416.
Proof.
  assert (- 2 ^ 15 <= -401 < 2 ^ 15) as Hv by lia.
  destruct (temperature_conversions (-401) Hv) as (_ & _ & H1 & _ & H2). split; [exact H1|exact (H2 ltac:(lia))].
Defined.
