(* ===== verification/SocketConnection.v ===== *)
(** Connections: [deephome/common/source/proto/Connection.cpp] and
    [SocketConnection.cpp], with the listeners of [util/EventLoop.h] they start and stop.

    The state is one connection object.  What the kernel answers to [recv] and [send] is
    an argument.  The handlers are values of a type [H]: a call of
    [scoped_loop_.enqueue] appends to [posted_] what the event loop will run and the
    value of the scope at that time (the queue of the loop is in Router.v). *)

From Stdlib Require Import String.
From S2P Require Import Prelude Monad Text Message MessageRules.

(** [errno] after a failed call, as the code tells the values apart: EAGAIN and
    EWOULDBLOCK; EPIPE, ETIMEDOUT and ECONNRESET; any other. *)
Inductive sock_error : Type := WouldBlock | Closed | OtherError.

(** [recv] gave bytes (none when the peer has closed) or failed. *)
Inductive recv_result : Type := Received (data : text) | RecvFailed (e : sock_error).

(** [send] took a number of bytes or failed. *)
Inductive send_result : Type := Sent (n : nat) | SendFailed (e : sock_error).

Definition write_buffer_limit : nat := Z.to_nat (1024 * 1024).

Definition crlf : text := ["013"%char; "010"%char].

Section Connection.
Context {H : Type}.

Record sock : Type := MkSock {
  packet_handler_ : option H;
  scope_ : Z;
  read_started_ : bool;
  write_started_ : bool;
  read_buffer_ : text;
  write_buffer_ : text;
  got_error_ : bool;
  posted_ : list (H * option Packet * Z);   (* handed to the event loop *)
  wire_ : text                              (* the bytes the kernel has taken *)
}.

Definition sock_init : sock := MkSock None 0 false false [] [] false [] [].

Definition f_handler : field sock (option H) :=
  Field packet_handler_ (fun v s => MkSock v (scope_ s) (read_started_ s) (write_started_ s) (read_buffer_ s) (write_buffer_ s) (got_error_ s) (posted_ s) (wire_ s)).
Definition f_scope : field sock Z :=
  Field scope_ (fun v s => MkSock (packet_handler_ s) v (read_started_ s) (write_started_ s) (read_buffer_ s) (write_buffer_ s) (got_error_ s) (posted_ s) (wire_ s)).
Definition f_read_listener : field sock bool :=
  Field read_started_ (fun v s => MkSock (packet_handler_ s) (scope_ s) v (write_started_ s) (read_buffer_ s) (write_buffer_ s) (got_error_ s) (posted_ s) (wire_ s)).
Definition f_write_listener : field sock bool :=
  Field write_started_ (fun v s => MkSock (packet_handler_ s) (scope_ s) (read_started_ s) v (read_buffer_ s) (write_buffer_ s) (got_error_ s) (posted_ s) (wire_ s)).
Definition f_read_buffer : field sock text :=
  Field read_buffer_ (fun v s => MkSock (packet_handler_ s) (scope_ s) (read_started_ s) (write_started_ s) v (write_buffer_ s) (got_error_ s) (posted_ s) (wire_ s)).
Definition f_write_buffer : field sock text :=
  Field write_buffer_ (fun v s => MkSock (packet_handler_ s) (scope_ s) (read_started_ s) (write_started_ s) (read_buffer_ s) v (got_error_ s) (posted_ s) (wire_ s)).
Definition f_got_error : field sock bool :=
  Field got_error_ (fun v s => MkSock (packet_handler_ s) (scope_ s) (read_started_ s) (write_started_ s) (read_buffer_ s) (write_buffer_ s) v (posted_ s) (wire_ s)).
Definition f_posted : field sock (list (H * option Packet * Z)) :=
  Field posted_ (fun v s => MkSock (packet_handler_ s) (scope_ s) (read_started_ s) (write_started_ s) (read_buffer_ s) (write_buffer_ s) (got_error_ s) v (wire_ s)).
Definition f_wire : field sock text :=
  Field wire_ (fun v s => MkSock (packet_handler_ s) (scope_ s) (read_started_ s) (write_started_ s) (read_buffer_ s) (write_buffer_ s) (got_error_ s) (posted_ s) v).

(** ** [ScopedEventLoop], [IoListener] *)

(** [scoped_loop_.enqueue(std::bind(handler, packet))] *)
Definition enqueue (handler : H) (packet : option Packet) : prog sock unit :=
  let! scope := rd f_scope in
  let! posted := rd f_posted in
  wr f_posted (posted ++ [(handler, packet, scope)]).

Definition invalidate : prog sock unit := let! scope := rd f_scope in wr f_scope (scope + 1).

Definition IoListener_start (f : field sock bool) : prog sock unit := wr f true.
Definition IoListener_stop (f : field sock bool) : prog sock unit := wr f false.

(** ** [SocketConnection] *)

Definition impl_subscribe : prog sock unit := IoListener_start f_read_listener.

Definition impl_unsubscribe : prog sock unit :=
  IoListener_stop f_read_listener ;;
  IoListener_stop f_write_listener ;;
  wr f_write_buffer [].

Definition unsubscribe : prog sock unit :=
  let! h := rd f_handler in
  match h with
  | None => ret tt
  | Some _ => impl_unsubscribe ;; wr f_handler None ;; invalidate
  end.

Definition subscribe (packet_handler : H) : prog sock unit :=
  let! h := rd f_handler in
  when (bool_decide (is_Some h)) unsubscribe ;;
  wr f_handler (Some packet_handler) ;;
  impl_subscribe.

(** A null [PacketPtr] is [None]. *)
Definition packet_received (packet : option Packet) : prog sock unit :=
  let! h := rd f_handler in
  match h with None => ret tt | Some handler => enqueue handler packet end.

Definition impl_send (packet : Packet) : prog sock unit :=
  let! got_error := rd f_got_error in
  if (got_error : bool) then ret tt
  else
    let! packet_string := convert_to_string packet in
    let line := packet_string ++ crlf in
    let! write_buffer := rd f_write_buffer in
    if (write_buffer_limit <? length write_buffer + length line)%nat then raise (Throw range_error)
    else
      wr f_write_buffer (write_buffer ++ line) ;;
      IoListener_start f_write_listener.

Definition handle_error : prog sock unit :=
  wr f_got_error true ;;
  IoListener_stop f_read_listener ;;
  IoListener_stop f_write_listener ;;
  packet_received None.

(** The loop of [on_write_ready] over the buffer [data], when [send] answers [results] in
    turn: how far it came.  More calls than answers is a loop that does not end. *)
Fixpoint write_loop (data : text) (results : list send_result) (pos : nat) : prog sock nat :=
  if (length data <=? pos)%nat then ret pos
  else
    match results with
    | [] => raise Hang
    | Sent n :: results =>
        let! wire := rd f_wire in
        wr f_wire (wire ++ take n (drop pos data)) ;;
        write_loop data results (pos + n)
    | SendFailed WouldBlock :: _ => ret pos
    | SendFailed Closed :: _ => handle_error ;; ret pos
    | SendFailed OtherError :: _ => raise (Throw runtime_error)
    end.

Definition on_write_ready (results : list send_result) : prog sock unit :=
  let! data := rd f_write_buffer in
  let! pos := write_loop data results 0 in
  if (pos <? length data)%nat then wr f_write_buffer (drop pos data)
  else
    wr f_write_buffer [] ;;
    IoListener_stop f_write_listener.

(** [catch (const std::exception&)] around [Packet::create]. *)
Definition handle_line (line : text) : prog sock unit :=
  let! packet := (fun s => match Packet_create line s with
                           | Ok p s' => Ok (Some p) s'
                           | Fault (Throw _) s' => Ok None s'
                           | Fault f s' => Fault f s'
                           end) in
  match packet with
  | None => ret tt
  | Some p => packet_received (Some p)
  end.

Definition blank : text := [" "%char; "009"%char].

(** The loop of [on_read_ready] from [start]; the buffer has room for fewer than [fuel] lines. *)
Fixpoint read_loop (fuel : nat) (start : nat) : prog sock unit :=
  match fuel with
  | O => raise Hang
  | S fuel =>
      let! buffer := rd f_read_buffer in
      match find_first_of buffer crlf start with
      | None => wr f_read_buffer (drop start buffer)
      | Some e =>
          let! line := substr buffer start (e - start) in
          when (bool_decide (is_Some (find_first_not_of line blank 0))) (handle_line line) ;;
          match find_first_not_of buffer crlf e with
          | None => wr f_read_buffer []
          | Some start => read_loop fuel start
          end
      end
  end.

Definition on_read_ready (received : recv_result) : prog sock unit :=
  match received with
  | RecvFailed WouldBlock => ret tt
  | RecvFailed Closed => handle_error
  | RecvFailed OtherError => raise (Throw runtime_error)
  | Received [] => ret tt
  | Received data =>
      let! buffer := rd f_read_buffer in
      wr f_read_buffer (buffer ++ data) ;;
      read_loop (S (length (buffer ++ data))) 0
  end.
End Connection.
Arguments sock H : clear implicits.

(** ** The stream as lines *)

Definition is_crlf (c : ascii) : bool := char_in crlf c.
Definition is_blank (line : text) : bool := forallb (char_in blank) line.

(** The lines that end in [s], the blank ones left out, when [cur] is the line begun
    before; and the line begun at the end of [s]. *)
Fixpoint scan (cur s : text) : list text * text :=
  match s with
  | [] => ([], cur)
  | c :: s' =>
      if is_crlf c then
        let '(ls, t) := scan [] s' in ((if is_blank cur then ls else cur :: ls), t)
      else scan (cur ++ [c]) s'
  end.

(** The packet of a line, if there is one. *)
Definition parse (line : text) : option Packet :=
  match Packet_create line tt with Ok p _ => Some p | Fault _ _ => None end.

Lemma scan_app a : forall cur b, scan cur (a ++ b) = ((scan cur a).1 ++ (scan (scan cur a).2 b).1, (scan (scan cur a).2 b).2).
Proof.
  induction a as [|c a IH]; intros cur b; cbn [app scan fst snd]; [by destruct (scan cur b)|].
  destruct (is_crlf c); [|apply IH]. rewrite IH. destruct (scan [] a) as [l t]. cbn [fst snd]. destruct (scan t b). by destruct (is_blank cur).
Qed.

Lemma scan_line l : forall cur, forallb (fun c => negb (is_crlf c)) l = true -> scan cur l = ([], cur ++ l).
Proof.
  induction l as [|c l IH]; intros cur; cbn [forallb scan]; [by rewrite app_nil_r|].
  intros [Hc%negb_true_iff Hl]%andb_prop. rewrite Hc, IH by done. by rewrite <- app_assoc.
Qed.

Lemma scan_terminators l s : forallb is_crlf l = true -> scan [] (l ++ s) = scan [] s.
Proof.
  induction l as [|c l IH]; [done|]. cbn [forallb app scan]. intros [-> Hl]%andb_prop. rewrite IH by done.
  by destruct (scan [] s).
Qed.

(** The line begun at the end has no terminator. *)
Lemma scan_rest s : forall cur, (scan [] cur) = ([], cur) -> scan [] (scan cur s).2 = ([], (scan cur s).2).
Proof.
  induction s as [|c s IH]; intros cur Hcur; cbn [scan]; [done|]. destruct (is_crlf c) eqn:Hc.
  - specialize (IH [] eq_refl). by destruct (scan [] s).
  - apply IH. rewrite scan_app, Hcur. cbn [fst snd app scan]. by rewrite Hc.
Qed.

(** A first position with [p]: what is before it, and what follows. *)
Lemma index_if_split p s n : index_if p s = Some n ->
  exists c, forallb (fun c => negb (p c)) (take n s) = true /\ drop n s = c :: drop (S n) s /\ p c = true /\ (n < length s)%nat.
Proof.
  revert n. induction s as [|c s IH]; intros n; [done|]. cbn [index_if]. destruct (p c) eqn:Hc.
  - intros [= <-]. exists c. cbn. rewrite drop_0. repeat split; [done|lia].
  - destruct (index_if p s) as [k|]; [|done]. intros [= <-]. destruct (IH k eq_refl) as (d & H1 & H2 & H3 & H4).
    exists d. cbn [take forallb drop length]. rewrite Hc, H1. split; [done|]. split; [by rewrite H2|]. split; [done|lia].
Qed.

Lemma index_from_split p s pos n : Nat.add pos <$> index_if p (drop pos s) = Some n ->
  exists c, (pos <= n < length s)%nat /\ forallb (fun c => negb (p c)) (take (n - pos) (drop pos s)) = true /\
  drop n s = c :: drop (S n) s /\ p c = true.
Proof.
  intros Hn. pose proof (index_from_lt _ _ _ _ Hn) as Hlt. destruct (index_if p (drop pos s)) as [k|] eqn:Hk; [|done].
  injection Hn as <-. apply index_if_split in Hk as (c & H1 & H2 & H3 & H4). exists c. split; [done|].
  rewrite Nat.add_comm, Nat.add_sub. split; [done|]. rewrite drop_drop in H2. rewrite drop_drop in H2. split; [|done].
  rewrite (Nat.add_comm k pos), H2. do 2 f_equal. lia.
Qed.

Lemma index_from_none_iff p s pos : Nat.add pos <$> index_if p (drop pos s) = None -> forallb (fun c => negb (p c)) (drop pos s) = true.
Proof. intros H. apply index_if_none_iff. by destruct (index_if p (drop pos s)). Qed.

Lemma Packet_create_eq {St} line (s : St) :
  match Packet_create line s with Ok p s' => parse line = Some p /\ s' = s | Fault f s' => parse line = None /\ f = Throw invalid_argument /\ s' = s end.
Proof.
  pose proof (Packet_create_wp line s) as Hs. pose proof (Packet_create_wp line tt) as Ht. unfold wp, invalid_line in *.
  unfold parse. revert Hs Ht. unfold Packet_create, bind, on_object, ret.
  repeat case_bool_decide; repeat case_match; simplify_eq; naive_solver.
Qed.

Section Reading.
Context {H : Type}.
Implicit Types s : sock H.

(** The connection after [lines] and with [rest] in the buffer. *)
Definition after_lines (lines : list text) (rest : text) s : sock H :=
  fset f_read_buffer rest
    (match packet_handler_ s with
     | None => s
     | Some h => fset f_posted (posted_ s ++ ((fun p => (h, Some p, scope_ s)) <$> omap parse lines)) s
     end).

Lemma after_lines_nil rest s : after_lines [] rest s = fset f_read_buffer rest s.
Proof. destruct s as [[h|]]; [|done]. unfold after_lines. cbn. by rewrite app_nil_r. Qed.

Lemma after_lines_app l1 l2 r1 r2 s : after_lines l2 r2 (after_lines l1 r1 s) = after_lines (l1 ++ l2) r2 s.
Proof. destruct s as [[h|]]; [|done]. unfold after_lines. cbn. by rewrite omap_app, fmap_app, app_assoc. Qed.

Lemma handle_line_eq line s : handle_line line s = Ok tt (after_lines [line] (read_buffer_ s) s).
Proof.
  unfold handle_line, bind. pose proof (Packet_create_eq line s) as Hp.
  unfold after_lines. destruct (Packet_create line s) as [p s'|f s'].
  - destruct Hp as [Hp ->]. unfold packet_received, bind, rd. cbn [fget f_handler omap list_omap]. rewrite Hp.
    by destruct s as [[h|]].
  - destruct Hp as (Hp & -> & ->). cbn [omap list_omap]. rewrite Hp. destruct s as [[h|]]; cbn; [by rewrite app_nil_r|done].
Qed.

Lemma blank_line line : bool_decide (is_Some (find_first_not_of line blank 0)) = negb (is_blank line).
Proof.
  unfold find_first_not_of. rewrite drop_0. destruct (is_blank line) eqn:Hb.
  - rewrite index_if_none; [done|]. revert Hb. unfold is_blank. apply forallb_weaken. intros c. by rewrite negb_involutive.
  - apply bool_decide_eq_true. destruct (index_if _ line) as [k|] eqn:Hk; [by eexists|].
    apply index_if_none_iff in Hk. enough (is_blank line = true) by congruence.
    revert Hk. apply forallb_weaken. intros c. by rewrite negb_involutive.
Qed.

Lemma set_buffer_after l r r' s : fset f_read_buffer r' (after_lines l r s) = after_lines l r' s.
Proof. by destruct s as [[h|]]. Qed.

Lemma read_loop_eq n : forall start s, (length (read_buffer_ s) - start < n)%nat -> (start <= length (read_buffer_ s))%nat ->
  read_loop n start s =
    Ok tt (after_lines (scan [] (drop start (read_buffer_ s))).1 (scan [] (drop start (read_buffer_ s))).2 s).
Proof.
  induction n as [|n IH]; intros start s Hn Hstart; [lia|]. cbn [read_loop]. unfold bind at 1, rd at 1. cbn [fget f_read_buffer].
  destruct (find_first_of (read_buffer_ s) crlf start) as [e|] eqn:He.
  2: { apply index_from_none_iff in He. rewrite scan_line by exact He. cbn [fst snd app]. by rewrite after_lines_nil. }
  apply index_from_split in He as (c & Hlt & Hbefore & Hat & Hc). set (buffer := read_buffer_ s) in *.
  unfold bind at 1, substr. rewrite (proj2 (Nat.leb_le _ _)) by lia. unfold ret at 1. set (line := take _ _) in *.
  assert (drop start buffer = line ++ c :: drop (S e) buffer) as Hsplit.
  { rewrite <- Hat. unfold line. rewrite <- (take_drop (e - start) (drop start buffer)) at 1. f_equal.
    rewrite drop_drop. f_equal. lia. }
  assert (scan [] (drop start buffer) =
    ((if is_blank line then [] else [line]) ++ (scan [] (drop (S e) buffer)).1, (scan [] (drop (S e) buffer)).2)) as Hscan.
  { rewrite Hsplit, scan_app, scan_line by exact Hbefore. cbn [fst snd app scan]. unfold is_crlf at 1 2. rewrite Hc.
    destruct (scan [] (drop (S e) buffer)) as [ls t]. by destruct (is_blank line). }
  rewrite blank_line. unfold bind at 1.
  assert (when (negb (is_blank line)) (handle_line line) s = Ok tt (after_lines (if is_blank line then [] else [line]) buffer s)) as ->.
  { destruct (is_blank line); cbn [negb when]; [|apply handle_line_eq]. rewrite after_lines_nil. by destruct s. }
  set (s1 := after_lines _ buffer s). assert (read_buffer_ s1 = buffer) as Hb1 by (by destruct s as [[h|]]).
  destruct (find_first_not_of buffer crlf e) as [start'|] eqn:Hnext.
  - apply index_from_split in Hnext as (d & Hlt' & Hterm & Hat' & Hd).
    assert (e < start')%nat as Hes.
    { enough (start' <> e) by lia. intros ->. rewrite Hat in Hat'. injection Hat' as <-. by rewrite Hc in Hd. }
    rewrite IH by (rewrite Hb1; lia). rewrite Hb1, Hscan. cbn [fst snd]. unfold s1. rewrite after_lines_app.
    assert (scan [] (drop (S e) buffer) = scan [] (drop start' buffer)) as ->; [|done].
    rewrite <- (take_drop (start' - S e) (drop (S e) buffer)), drop_drop. replace (S e + (start' - S e))%nat with start' by lia.
    apply scan_terminators. replace (start' - e)%nat with (S (start' - S e)) in Hterm by lia.
    rewrite Hat in Hterm. cbn [take forallb] in Hterm. apply andb_prop in Hterm as [_ Hterm].
    revert Hterm. apply forallb_weaken. intros x. by rewrite negb_involutive.
  - apply index_from_none_iff in Hnext. rewrite Hat in Hnext. cbn [forallb] in Hnext. apply andb_prop in Hnext as [_ Hterm].
    rewrite Hscan. assert (scan [] (drop (S e) buffer) = ([], [])) as ->.
    { rewrite <- (app_nil_r (drop (S e) buffer)). apply scan_terminators.
      revert Hterm. apply forallb_weaken. intros x. by rewrite negb_involutive. }
    cbn [fst snd]. rewrite app_nil_r. unfold s1, wr. by rewrite set_buffer_after.
Qed.

(** One [recv]. *)
Lemma on_read_ready_eq c s : scan [] (read_buffer_ s) = ([], read_buffer_ s) ->
  on_read_ready (Received c) s = Ok tt (after_lines (scan (read_buffer_ s) c).1 (scan (read_buffer_ s) c).2 s).
Proof.
  intros Hs. destruct c as [|x c].
  - cbn [scan fst snd on_read_ready]. rewrite after_lines_nil. by destruct s.
  - cbn [on_read_ready]. unfold bind at 1 2, rd, wr. cbn [fget f_read_buffer].
    set (s1 := fset _ _ s). assert (read_buffer_ s1 = read_buffer_ s ++ x :: c) as Hb1 by done.
    rewrite read_loop_eq by (rewrite Hb1; lia). rewrite Hb1, drop_0, scan_app, Hs. cbn [fst snd app].
    by destruct s as [[h|]].
Qed.

(** Any chunks. *)
Lemma read_chunks (chunks : list text) s : scan [] (read_buffer_ s) = ([], read_buffer_ s) ->
  for_each (Received <$> chunks) on_read_ready s =
    Ok tt (after_lines (scan (read_buffer_ s) (concat chunks)).1 (scan (read_buffer_ s) (concat chunks)).2 s).
Proof.
  revert s. induction chunks as [|c chunks IH]; intros s Hs; cbn [fmap list_fmap for_each concat].
  - rewrite (surjective_pairing (scan (read_buffer_ s) [])). cbn [scan fst snd]. rewrite after_lines_nil. by destruct s.
  - unfold bind. rewrite (on_read_ready_eq c s Hs). set (s1 := after_lines _ _ s).
    assert (read_buffer_ s1 = (scan (read_buffer_ s) c).2) as Hb1 by (by destruct s as [[h|]]).
    assert (scan [] (read_buffer_ s1) = ([], read_buffer_ s1)) as Hs1.
    { rewrite Hb1. apply scan_rest. by rewrite Hs. }
    rewrite IH by done. rewrite Hb1, scan_app. cbn [fst snd]. unfold s1. by rewrite after_lines_app.
Qed.
End Reading.

(** ** Writing *)

(** The line of a packet; [Packet::convert_to_string] stops at a command without action. *)
Definition sendable (p : Packet) : Prop := match p with PServiceCommand c => action_ c <> [] | _ => True end.

Definition line_of (p : Packet) : text :=
  match convert_to_string p tt with Ok t _ => t ++ crlf | Fault _ _ => [] end.

Lemma convert_to_string_eq {St} p (s : St) : sendable p ->
  exists t, convert_to_string p s = Ok t s /\ line_of p = t ++ crlf.
Proof.
  unfold line_of. destruct p as [m|d|c]; cbn [convert_to_string sendable]; [by eexists|by eexists|].
  intros Hc. unfold ServiceCommand_serialize. rewrite bool_decide_eq_false_2 by done. by eexists.
Qed.

(** What can happen to a connection on its way out. *)
Inductive out_event : Type := Send (p : Packet) | WriteReady (results : list send_result).

Definition out_step {H} (e : out_event) : prog (sock H) unit :=
  match e with Send p => impl_send p | WriteReady results => on_write_ready results end.

Definition out_lines (es : list out_event) : text :=
  es ≫= (fun e => match e with Send p => line_of p | WriteReady _ => [] end).

(** The answers of the kernel end before [len] bytes are taken: then the loop asks for more. *)
Fixpoint bytes_taken (results : list send_result) : option nat :=
  match results with
  | [] => Some O
  | Sent n :: results => Nat.add n <$> bytes_taken results
  | SendFailed _ :: _ => None
  end.

Definition runs_short (len : nat) (results : list send_result) : Prop :=
  exists k, bytes_taken results = Some k /\ (k < len)%nat.

Lemma runs_short_sent len pos n results :
  runs_short (len - (pos + n)) results -> runs_short (len - pos) (Sent n :: results).
Proof. intros (k & Hk & Hlt). exists (n + k)%nat. cbn. rewrite Hk. split; [done|lia]. Qed.

(** The kernel takes bytes or asks to wait, and commands have an action. *)
Definition out_ok (e : out_event) : Prop :=
  match e with
  | Send p => sendable p
  | WriteReady results => Forall (fun r => r <> SendFailed Closed /\ r <> SendFailed OtherError) results
  end.

Section Writing.
Context {H : Type}.
Implicit Types s : sock H.

(** [out] is what has been sent so far: taken by the kernel, or waiting. *)
Definition out_inv (out : text) s : Prop :=
  got_error_ s = false /\ wire_ s ++ write_buffer_ s = out /\ Z.of_nat (length (write_buffer_ s)) <= 2 ^ 20 /\
  write_started_ s = bool_decide (write_buffer_ s <> []).

(** What stops a connection at the event [e], after [out] was sent: a line for which there
    is no room, which changes nothing, or a kernel that gives no further answer. *)
Definition stops_at (out : text) (e : out_event) (f : fault) s : Prop :=
  match e with
  | Send p => f = Throw range_error /\ out_inv out s /\ 2 ^ 20 < Z.of_nat (length (write_buffer_ s) + length (line_of p))
  | WriteReady results => f = Hang /\ runs_short (length (write_buffer_ s)) results
  end.

Definition out_fault (out : text) (es : list out_event) (f : fault) s : Prop :=
  exists done e rest, es = done ++ e :: rest /\ stops_at (out ++ out_lines done) e f s.

Lemma limit_value : Z.of_nat write_buffer_limit = 2 ^ 20.
Proof. unfold write_buffer_limit. by rewrite Z2Nat.id. Qed.

Lemma write_loop_wp out data rs : forall pos s,
  Forall (fun r => r <> SendFailed Closed /\ r <> SendFailed OtherError) rs ->
  got_error_ s = false -> wire_ s ++ drop pos data = out ->
  wp (fun f s' => f = Hang /\ runs_short (length data - pos) rs /\ write_buffer_ s' = write_buffer_ s) (write_loop data rs pos)
    (fun pos' s' => got_error_ s' = false /\ wire_ s' ++ drop pos' data = out /\ write_started_ s' = write_started_ s) s.
Proof.
  induction rs as [|[n|[]] rs IH]; intros pos s Hrs He Hw; cbn [write_loop];
    (destruct (length data <=? pos)%nat eqn:Hpos; [by apply wp_ret|]).
  - apply Nat.leb_gt in Hpos. split; [done|]. split; [|done]. exists O. split; [done|lia].
  - apply Forall_cons_1 in Hrs as [_ Hrs]. apply wp_bind, wp_rd, wp_bind, wp_wr.
    eapply wp_mono; [eapply wp_weaken; [|apply IH; [done|done|]]|done].
    + intros f s' (-> & Hsh & Hb). split; [done|]. split; [by apply runs_short_sent|exact Hb].
    + cbn. by rewrite <- app_assoc, <- (drop_drop data n pos), take_drop.
  - by apply wp_ret.
  - apply Forall_cons_1 in Hrs as [[] _]. done.
  - apply Forall_cons_1 in Hrs as [[] _]. done.
Qed.

(** C15. What a connection writes, as long as its socket has no error and every command
    sent has an action: whatever the kernel takes at each call, the bytes it has
    taken so far followed by the bytes that wait in the buffer are the lines of the
    packets sent, in the order of the calls, none lost, repeated or cut.  The buffer never
    exceeds 1 MiB, and the write listener runs exactly while bytes are waiting.  A call can
    fail in two ways only: a packet is refused by [std::range_error] when its line does
    not fit into the 1 MiB with what waits there, which leaves the connection as it was; and
    the loop that writes does not end while the kernel neither takes the rest nor
    fails. *)
Theorem written_lines_in_order (es : list out_event) s :
  Forall out_ok es -> out_inv (wire_ s ++ write_buffer_ s) s ->
  wp (out_fault (wire_ s ++ write_buffer_ s) es) (for_each es out_step)
    (fun _ => out_inv ((wire_ s ++ write_buffer_ s) ++ out_lines es)) s.
Proof.
  intros Hes Hs. set (out := wire_ s ++ write_buffer_ s) in *.
  apply (wp_for_each _ _ (fun done => out_inv (out ++ out_lines done))); [by rewrite app_nil_r| |done].
  intros done e rest s' -> Hinv. pose proof Hinv as (He & Hout & Hlen & Hl).
  apply Forall_app in Hes as [_ Hes]. apply Forall_cons_1 in Hes as [Hok _].
  apply (wp_weaken (stops_at (out ++ out_lines done) e)); [by intros f s2 Hf; exists done, e, rest|].
  unfold out_lines. rewrite bind_app, bind_singleton, app_assoc. fold (out_lines done). destruct e as [p|rs]; cbn [out_step].
  - unfold impl_send. apply wp_bind, wp_rd. cbn [fget f_got_error]. rewrite He. apply wp_bind.
    destruct (convert_to_string_eq p s' Hok) as (t & Ht & Hline). eapply wp_eq; [exact Ht|]. cbn [stops_at]. rewrite Hline.
    apply wp_bind, wp_rd. cbn [fget f_write_buffer]. pose proof limit_value as Hlimit. destruct (_ <? _)%nat eqn:Hlim.
    + apply Nat.ltb_lt in Hlim. split; [done|]. split; [exact Hinv|rewrite Hline; lia].
    + apply Nat.ltb_ge in Hlim. apply wp_bind, wp_wr, wp_wr. split; [done|].
      cbn [fset f_write_buffer f_write_listener wire_ write_buffer_ write_started_]. split; [by rewrite app_assoc, Hout|].
      split; [rewrite length_app; lia|].
      symmetry. apply bool_decide_eq_true. intros Hnil. apply app_eq_nil in Hnil as [_ Hnil]. by apply app_eq_nil in Hnil as [_ ?].
  - unfold on_write_ready. rewrite app_nil_r. apply wp_bind, wp_rd, wp_bind. cbn [fget f_write_buffer].
    eapply wp_mono; [eapply wp_weaken; [|apply (write_loop_wp (out ++ out_lines done)); [exact Hok|done|by rewrite drop_0]]|].
    { intros f s2 (-> & Hsh & Hb). split; [done|]. by rewrite Hb, <- (Nat.sub_0_r (length _)). }
    intros pos s'' (He' & Hw & Hst). destruct (pos <? length (write_buffer_ s'))%nat eqn:Hpos.
    + apply Nat.ltb_lt in Hpos. apply wp_wr. split; [done|]. split; [done|]. cbn. rewrite length_drop. split; [lia|].
      rewrite Hst, Hl. rewrite !bool_decide_eq_true_2; [done| |].
      * intros Hnil. apply (f_equal length) in Hnil. rewrite length_drop in Hnil. cbn in Hnil. lia.
      * intros Hnil. rewrite Hnil in Hpos. cbn in Hpos. lia.
    + apply Nat.ltb_ge in Hpos. apply wp_bind, wp_wr, wp_wr. split; [done|]. rewrite drop_ge in Hw by lia.
      split; [exact Hw|]. split; [cbn; lia|done].
Qed.
End Writing.

Lemma written_lines_in_order_witness :
  let m := MkMessage Type_Data 0x1f 0x0104 [0xff] in
  match for_each [Send (PMessage m); WriteReady [Sent 6; SendFailed WouldBlock]; Send (PMessage m)] out_step (sock_init (H:=unit)) with
  | Ok _ s' => out_inv (line_of (PMessage m) ++ line_of (PMessage m)) s'
  | Fault _ _ => False
  end.
Proof.
  intros m. pose proof (written_lines_in_order [Send (PMessage m); WriteReady [Sent 6; SendFailed WouldBlock]; Send (PMessage m)] (sock_init (H:=unit))) as Hw.
  unfold out_lines in Hw. cbn [mbind list_bind wire_ write_buffer_ sock_init app] in Hw. rewrite app_nil_r in Hw. unfold wp in Hw.
  destruct (for_each _ _ _) as [[] s'|f s'] eqn:Hrun; [|by vm_compute in Hrun].
  apply Hw; [repeat constructor; done|]. split; [done|]. split; [done|]. split; [cbn; lia|done].
Defined.

(** C14. What a connection reads does not depend on how the stream is cut into [recv]
    results: after any chunks, the packets handed to the event loop are those of the
    nonblank lines that ended in the bytes received so far, in their order, each given
    to the subscribed handler under the scope of the subscription; lines that do not
    parse are dropped, and the line that has begun waits in the buffer.  The loop ends. *)
Theorem packets_independent_of_chunks {H : Type} (chunks : list text) (s : sock H) :
  forallb (fun c => negb (is_crlf c)) (read_buffer_ s) = true ->
  for_each (Received <$> chunks) on_read_ready s =
    Ok tt (after_lines (scan (read_buffer_ s) (concat chunks)).1 (scan (read_buffer_ s) (concat chunks)).2 s).
Proof. intros Hb. by apply read_chunks, scan_line. Qed.

Lemma packets_independent_of_chunks_witness :
  for_each (Received <$> [txt "dev:1f addr"; txt ":0104 :f"; "f"%char :: crlf ++ txt "dev:"]) on_read_ready (sock_init (H:=unit)) =
  Ok tt (after_lines [txt "dev:1f addr:0104 :ff"] (txt "dev:") (sock_init (H:=unit))).
Proof. exact (packets_independent_of_chunks [txt "dev:1f addr"; txt ":0104 :f"; "f"%char :: crlf ++ txt "dev:"] (sock_init (H:=unit)) eq_refl). Defined.
