(* ===== verification/Config.v ===== *)
(** Configuration: the file reader [deephome/common/source/util/Config.cpp] and the
    router's own configuration [deephome/router/Config.cpp].

    The router's tables are maps from names to records; a [const Network&] is the name
    under which the table holds the network, which the table never changes. *)

From Stdlib Require Import String Sorted.
From S2P Require Import Prelude Monad Text Message MessageRules.

(** ** [util::Config] *)

Definition values : Type := tmap text.

Definition space_chars : text := [" "%char; "009"%char; "013"%char].

Definition strip_comment (line : text) : text :=
  match find_char line "#"%char 0 with Some pos => take pos line | None => line end.

Definition find_last_not_of (s cs : text) : option nat :=
  (fun n => length s - 1 - n)%nat <$> index_if (fun c => negb (char_in cs c)) (reverse s).

(** The assertion of [trim] is there in a debug build only and holds. *)
Definition trim (line : text) : text :=
  match find_first_not_of line space_chars 0, find_last_not_of line space_chars with
  | Some first, Some last => take (last - first + 1) (drop first line)
  | _, _ => []
  end.

(** The lines [std::getline] gives; that the last one may be empty makes no difference. *)
Fixpoint split_lines (cur s : text) : list text :=
  match s with
  | [] => [cur]
  | c :: s' => if Ascii.eqb c "010"%char then cur :: split_lines [] s' else split_lines (cur ++ [c]) s'
  end.

(** The loop over the lines, with the section name. *)
Fixpoint read_lines (lines : list text) (section_name : text) : prog values unit :=
  match lines with
  | [] => ret tt
  | line :: lines =>
      let line := trim (strip_comment line) in
      match line with
      | [] => read_lines lines section_name
      | c :: _ =>
          if Ascii.eqb c "["%char then
            if bool_decide (List.last line "0"%char = "]"%char)
            then read_lines lines (trim (take (length line - 2) (drop 1 line)))
            else raise (Throw runtime_error)
          else
            match find_char line "="%char 0 with
            | None => raise (Throw runtime_error)
            | Some sep =>
                let local_key := trim (take sep line) in
                let key := if bool_decide (section_name = []) then local_key else section_name ++ txt "." ++ local_key in
                let value := trim (drop (S sep) line) in
                (fun m => Ok tt (map_insert key value m)) ;;
                read_lines lines section_name
            end
      end
  end.

(** [read_file], given what the file holds if it can be opened. *)
Definition read_file (file : option text) : prog values unit :=
  match file with
  | None => raise (Throw runtime_error)
  | Some contents => read_lines (split_lines [] contents) []
  end.

Definition try_get (c : values) (key : text) : option text := map_find key c.
Definition get_string (c : values) (key default_value : text) : text := default default_value (try_get c key).
Definition get_int (c : values) (key : text) (default_value : Z) : Z :=
  match try_get c key with None => default_value | Some value => dec_extract default_value value end.

(** ** [router::Config] *)

Record Network : Type := MkNetwork { network_name_ : text; network_address : text; network_service : text }.

(** [network]: the key of the network in the table. *)
Record Device : Type := MkDevice { device_name : text; network_name : text; network : text; id : Z }.

Inductive Binding_Type : Type := Type_TCP | Type_UNIX.

Record Binding : Type := MkBinding { binding_type : Binding_Type; binding_address : text; binding_service : text; backlog : Z }.

Record Config : Type := MkConfig { networks_ : tmap Network; devices_ : tmap Device; bindings_ : list Binding }.

Definition Config_empty : Config := MkConfig [] [] [].

Definition f_networks : field Config (tmap Network) := Field networks_ (fun v c => MkConfig v (devices_ c) (bindings_ c)).
Definition f_devices : field Config (tmap Device) := Field devices_ (fun v c => MkConfig (networks_ c) v (bindings_ c)).
Definition f_bindings : field Config (list Binding) := Field bindings_ (fun v c => MkConfig (networks_ c) (devices_ c) v).

(** The keys: the set as the map from its elements to nothing. *)
Definition extract_keys (config : values) (prefix : text) : list text :=
  let prefix_dot := prefix ++ txt "." in
  let prefix_len := length prefix_dot in
  map fst (fold_left (fun keys item =>
    let key := item.1 in
    if bool_decide (take prefix_len key = prefix_dot) then
      match find_char key "."%char prefix_len with
      | None => keys
      | Some e => map_set (take (e - prefix_len) (drop prefix_len key)) tt keys
      end
    else keys) config []).

Definition find_network (c : Config) (name : text) : option Network := map_find name (networks_ c).
Definition find_device (c : Config) (name : text) : option Device := map_find name (devices_ c).

Definition find_device_by_id (c : Config) (network_name' : text) (id' : Z) : option Device :=
  List.find (fun d => bool_decide (network_name d = network_name') && (id d =? id')) (map snd (devices_ c)).

Definition get_networks (c : Config) : list Network := map snd (networks_ c).
Definition get_devices (c : Config) : list Device := map snd (devices_ c).
Definition get_bindings (c : Config) : list Binding := bindings_ c.

Definition item (section_ key name : text) : text := section_ ++ txt "." ++ key ++ txt "." ++ name.

Definition add_network (config : values) (key : text) : prog Config unit :=
  let address := get_string config (item (txt "network") key (txt "address")) [] in
  let service := get_string config (item (txt "network") key (txt "port")) (txt "2121") in
  if bool_decide (address = []) then ret tt
  else let! m := rd f_networks in wr f_networks (map_insert key (MkNetwork key address service) m).

Definition parse_networks (config : values) : prog Config unit :=
  let keys := extract_keys config (txt "network") in
  when (bool_decide (keys = [])) (raise (Throw runtime_error)) ;;
  for_each keys (add_network config) ;;
  let! m := rd f_networks in
  when (bool_decide (m = [])) (raise (Throw runtime_error)).

Definition add_device (config : values) (key : text) : prog Config unit :=
  let network_name := get_string config (item (txt "device") key (txt "network")) [] in
  let id_str := get_string config (item (txt "device") key (txt "id")) [] in
  let '(id, good) := hex_extract uint_max 0 id_str in
  if negb good || (127 <? id) then raise (Throw runtime_error)
  else
    let! networks := rd f_networks in
    match map_find network_name networks with
    | None => raise (Throw runtime_error)
    | Some _ =>
        let! m := rd f_devices in
        wr f_devices (map_insert key (MkDevice key network_name network_name id) m)
    end.

Definition parse_devices (config : values) : prog Config unit :=
  let keys := extract_keys config (txt "device") in
  when (bool_decide (keys = [])) (raise (Throw runtime_error)) ;;
  for_each keys (add_device config).

Definition add_binding (config : values) (key : text) : prog Config unit :=
  let address := get_string config (item (txt "bind") key (txt "address")) [] in
  let service := get_string config (item (txt "bind") key (txt "port")) [] in
  let path := get_string config (item (txt "bind") key (txt "path")) [] in
  let backlog := get_int config (item (txt "bind") key (txt "backlog")) 5 in
  let! l := rd f_bindings in
  if negb (bool_decide (service = [])) && bool_decide (path = []) then
    wr f_bindings (l ++ [MkBinding Type_TCP address service backlog])
  else if bool_decide (address = []) && bool_decide (service = []) && negb (bool_decide (path = [])) then
    wr f_bindings (l ++ [MkBinding Type_UNIX path [] backlog])
  else ret tt.

Definition parse_bindings (config : values) : prog Config unit :=
  let keys := extract_keys config (txt "bind") in
  when (bool_decide (keys = [])) (raise (Throw runtime_error)) ;;
  for_each keys (add_binding config).

Definition parse_config (config : values) : prog Config unit :=
  parse_networks config ;;
  parse_devices config ;;
  parse_bindings config.

(** [Config::Config(config)] *)
Definition Config_new {St} (config : values) : prog St Config := on_object Config_empty (parse_config config).

(** ** What a configuration that loads is like *)

Definition network_wf (p : text * Network) : Prop := network_name_ p.2 = p.1 /\ network_address p.2 <> [].

Definition device_wf (networks : tmap Network) (p : text * Device) : Prop :=
  device_name p.2 = p.1 /\ 0 <= id p.2 <= 127 /\ network p.2 = network_name p.2 /\
  is_Some (map_find (network_name p.2) networks).

Definition binding_wf (b : Binding) : Prop :=
  match binding_type b with
  | Type_TCP => binding_service b <> []
  | Type_UNIX => binding_address b <> [] /\ binding_service b = []
  end.

Definition config_wf (c : Config) : Prop :=
  networks_ c <> [] /\ sorted (networks_ c) /\ Forall network_wf (networks_ c) /\
  devices_ c <> [] /\ sorted (devices_ c) /\ Forall (device_wf (networks_ c)) (devices_ c) /\
  Forall binding_wf (bindings_ c).

Definition config_error {St} (f : fault) (_ : St) : Prop := f = Throw runtime_error.

Lemma map_insert_sorted {V} k (v : V) m : sorted m -> sorted (map_insert k v m).
Proof. intros Hm. unfold map_insert. destruct (map_find k m); [done|]. by apply map_set_sorted. Qed.

Lemma map_insert_forall {V} (P : text * V -> Prop) k v m : P (k, v) -> Forall P m -> Forall P (map_insert k v m).
Proof. intros Hk Hm. unfold map_insert. destruct (map_find k m); [done|]. by apply map_set_forall. Qed.

Lemma map_set_not_nil {V} k (v : V) m : map_set k v m <> [].
Proof. destruct m as [|[k' v'] m]; [done|]. cbn [map_set]. by destruct (text_compare k k'). Qed.

Lemma map_insert_not_nil {V} k (v : V) m : map_insert k v m <> [].
Proof.
  unfold map_insert. destruct (map_find k m) eqn:Hk; [by destruct m|]. apply map_set_not_nil.
Qed.

Lemma hex_extract_good max old s : 0 <= old <= max -> 0 <= (hex_extract max old s).1.
Proof. intros H. pose proof (hex_extract_range max old s H). lia. Qed.

(** The networks are right. *)
Definition networks_ok (c : Config) : Prop := sorted (networks_ c) /\ Forall network_wf (networks_ c).
Definition devices_ok (c : Config) : Prop := sorted (devices_ c) /\ Forall (device_wf (networks_ c)) (devices_ c).

Lemma parse_networks_wp config c : networks_ok c -> devices_ c = [] -> bindings_ c = [] ->
  wp config_error (parse_networks config)
    (fun _ c' => networks_ok c' /\ networks_ c' <> [] /\ devices_ c' = [] /\ bindings_ c' = []) c.
Proof.
  intros Hn Hd Hb. unfold parse_networks. apply wp_bind, wp_when; [done|]. intros _. apply wp_bind.
  eapply wp_mono; [apply (wp_for_each_inv _ _ (fun c => networks_ok c /\ devices_ c = [] /\ bindings_ c = [])); [done|]|].
  - intros key c' _ ([Hs Hf] & Hd' & Hb'). unfold add_network. case_bool_decide; [by apply wp_ret|].
    apply wp_bind, wp_rd, wp_wr. split; [|done]. split; [by apply map_insert_sorted|]. by apply map_insert_forall.
  - intros [] c' (Hn' & Hd' & Hb'). apply wp_bind, wp_rd, wp_when; [done|]. cbn [fget f_networks].
    intros Hne%bool_decide_eq_false. done.
Qed.

Lemma parse_devices_wp config c : devices_ c = [] -> bindings_ c = [] ->
  wp config_error (parse_devices config)
    (fun _ c' => networks_ c' = networks_ c /\ devices_ok c' /\ devices_ c' <> [] /\ bindings_ c' = []) c.
Proof.
  intros Hd Hb. unfold parse_devices. apply wp_bind, wp_when; [done|]. intros Hne%bool_decide_eq_false.
  apply (wp_for_each _ _ (fun done c' => networks_ c' = networks_ c /\ devices_ok c' /\ (done <> [] -> devices_ c' <> []) /\ bindings_ c' = [])).
  - split; [done|]. split; [|by split]. unfold devices_ok. rewrite Hd. by split; constructor.
  - intros done key rest c' Heq (Hn & [Hs Hf] & _ & Hb'). unfold add_device.
    pose proof (hex_extract_good uint_max 0 (get_string config (item (txt "device") key (txt "id")) []) ltac:(unfold uint_max; lia)) as H0.
    destruct (hex_extract _ _ _) as [id good]. cbn [fst] in H0. destruct (_ || _) eqn:Hid; [done|].
    apply orb_false_iff in Hid as [_ Hid%Z.ltb_ge]. apply wp_bind, wp_rd. cbn [fget f_networks].
    destruct (map_find _ (networks_ c')) as [nw|] eqn:Hnw; [|done]. apply wp_bind, wp_rd, wp_wr.
    split; [done|]. split; [|split; [intros _; apply map_insert_not_nil|done]].
    split; [by apply map_insert_sorted|]. apply map_insert_forall; [|done]. repeat split; cbn; try done; try lia; by eexists.
  - intros c' (Hn & Hok & Hnil & Hb'). split; [done|]. split; [done|]. split; [|done]. by apply Hnil.
Qed.

Lemma parse_bindings_wp config c : bindings_ c = [] ->
  wp config_error (parse_bindings config)
    (fun _ c' => networks_ c' = networks_ c /\ devices_ c' = devices_ c /\ Forall binding_wf (bindings_ c')) c.
Proof.
  intros Hb. unfold parse_bindings. apply wp_bind, wp_when; [done|]. intros _.
  apply (wp_for_each_inv _ _ (fun c' => networks_ c' = networks_ c /\ devices_ c' = devices_ c /\ Forall binding_wf (bindings_ c'))).
  - rewrite Hb. by repeat split; constructor.
  - intros key c' _ (Hn & Hd & Hf). unfold add_binding. apply wp_bind, wp_rd. cbn [fget f_bindings].
    destruct (negb _ && _) eqn:Htcp; [|destruct (_ && _ && _) eqn:Hunix; [|by apply wp_ret]]; apply wp_wr; split; try done; split; try done;
      (apply Forall_app; split; [exact Hf|]; constructor; [|constructor]).
    + apply andb_prop in Htcp as [H%negb_true_iff%bool_decide_eq_false _]. exact H.
    + apply andb_prop in Hunix as [_ H%negb_true_iff%bool_decide_eq_false]. by split.
Qed.

Lemma Config_new_wp {St} (config : values) (s : St) :
  wp config_error (Config_new config) (fun c s' => config_wf c /\ s' = s) s.
Proof.
  enough (wp config_error (parse_config config) (fun _ => config_wf) Config_empty) as Hw.
  { unfold Config_new, wp, on_object in *. destruct (parse_config config Config_empty); [by split|]. exact Hw. }
  unfold parse_config. apply wp_bind. eapply wp_mono; [apply parse_networks_wp; [by split; constructor|done|done]|].
  intros [] c1 ([Hs Hf] & Hne & Hd & Hb). apply wp_bind. eapply wp_mono; [by apply parse_devices_wp|].
  intros [] c2 (Hn2 & [Hds Hdf] & Hdne & Hb2). eapply wp_mono; [by apply parse_bindings_wp|].
  intros [] c3 (Hn3 & Hd3 & Hbf). unfold config_wf. rewrite Hd3, Hn3, Hn2 in *. repeat (split; [done|]). done.
Qed.

Lemma read_lines_wp lines : forall name m, wp config_error (read_lines lines name) (fun _ _ => True) m.
Proof.
  induction lines as [|line lines IH]; intros name m; cbn [read_lines]; [by apply wp_ret|].
  destruct (trim (strip_comment line)) as [|c l]; [apply IH|].
  destruct (Ascii.eqb c "["); [case_bool_decide; [apply IH|by apply wp_raise]|].
  destruct (find_char _ _ _); [|by apply wp_raise]. apply wp_bind. apply IH.
Qed.

Lemma read_file_wp file m : wp config_error (read_file file) (fun _ _ => True) m.
Proof. destruct file; [apply read_lines_wp|by apply wp_raise]. Qed.

(** C25. A configuration either fails to load with [std::runtime_error], and nothing else, or is
    one of which this holds: there is a network and a device, every network has an
    address, every device has an id of at most 127 and refers to a network of the table
    (the one of its own [network_name]), the tables are keyed by the names of their
    records without repetition, and a binding is a TCP port or a path, never both. *)
Theorem loaded_config_is_wellformed {St} (config : values) (s : St) :
  wp config_error (Config_new config) (fun c s' => config_wf c /\ s' = s) s.
Proof. apply Config_new_wp. Qed.

(** The sample configuration shape: one network, one device, one binding. *)
Definition sample_file : text :=
  txt "# routes" ++ ["010"%char] ++ txt "[ network.main ]" ++ ["010"%char] ++ txt "address = 10.0.0.2" ++ ["010"%char] ++
  txt "[device.hall]" ++ ["010"%char] ++ txt "network = main # wired" ++ ["010"%char] ++ txt "id=1f" ++ ["010"%char] ++
  txt "[bind.tcp]" ++ ["010"%char] ++ txt "port = 2222" ++ ["010"%char].

Example sample_config_loads :
  match read_file (Some sample_file) [] with
  | Ok _ v => Config_new v tt =
      Ok (MkConfig [(txt "main", MkNetwork (txt "main") (txt "10.0.0.2") (txt "2121"))]
                   [(txt "hall", MkDevice (txt "hall") (txt "main") (txt "main") 0x1f)]
                   [MkBinding Type_TCP [] (txt "2222") 5]) tt
  | Fault _ _ => False
  end.
Proof. vm_compute. reflexivity. Qed.
