(* ===== verification/Sockets.v ===== *)
(** Sockets: how the router gets its descriptors, [SocketServer::listen_tcp], [listen_unix]
    and the server object of [deephome/common/source/proto/SocketServer.cpp], and
    [SocketConnection::connect_tcp], [connect_unix] and the destructor of
    [SocketConnection.cpp].

    The kernel and the resolver are not part of the repository: their calls are the class
    [Posix], and what POSIX says of descriptors is [PosixLaws]. *)

From Stdlib Require Import String.
From stdpp Require Import gmap.
From S2P Require Import Prelude Monad EventLoop Text Config.

(** ** What the system provides *)

Inductive sockaddr : Type := Inet (address : text) | Unix (path : text).

#[export] Instance sockaddr_eq_dec : EqDecision sockaddr.
Proof. solve_decision. Defined.

Inductive family : Type := AF_UNIX | AF_OTHER (n : Z).

(** A node of the list [getaddrinfo] gives. *)
Record addrinfo : Type := MkInfo { ai_family : family; ai_protocol : Z; ai_addr : sockaddr }.

Inductive accepted : Type := Accepted (fd : Z) | AcceptAgain | AcceptFailed.

(** [false] is a call that returns -1, as is the descriptor -1; [None] is an error of
    [getaddrinfo]. *)
Class Posix (K : Type) : Type := {
  getaddrinfo : option text -> text -> bool -> prog K (option (list addrinfo));
  freeaddrinfo : list addrinfo -> prog K unit;
  sys_socket : family -> Z -> prog K Z;
  sys_reuseaddr : Z -> prog K bool;
  sys_bind : Z -> sockaddr -> prog K bool;
  sys_listen : Z -> Z -> prog K bool;
  sys_connect : Z -> sockaddr -> prog K bool;
  sys_accept4 : Z -> prog K accepted;
  sys_close : Z -> prog K unit;
  sys_unlink : text -> prog K unit
}.

(** [sizeof(sockaddr_un::sun_path)] *)
Definition sun_path_size : Z := 108.

Section Calls.
Context {K : Type} {P : Posix K}.

(** ** [SocketServer] *)

(** The loop over the addresses: the descriptor it leaves, or -1. *)
Fixpoint bind_first (infos : list addrinfo) : prog K Z :=
  match infos with
  | [] => ret (-1)
  | rp :: infos =>
      let! fd := sys_socket (ai_family rp) (ai_protocol rp) in
      if fd =? -1 then bind_first infos
      else
        let! reuse := sys_reuseaddr fd in
        let! bound := (if reuse : bool then sys_bind fd (ai_addr rp) else ret false) in
        if bound : bool then ret fd
        else sys_close fd ;; bind_first infos
  end.

Definition listen_tcp (address service : text) (backlog : Z) : prog K Z :=
  let passive := bool_decide (address = []) in
  let! result := getaddrinfo (if passive then None else Some address) service passive in
  match result with
  | None => raise (Throw runtime_error)
  | Some infos =>
      let! fd := bind_first infos in
      freeaddrinfo infos ;;
      if fd =? -1 then raise (Throw runtime_error)
      else
        let! listening := sys_listen fd backlog in
        if listening : bool then ret fd
        else sys_close fd ;; raise (Throw runtime_error)
  end.

Definition listen_unix (path : text) (backlog : Z) : prog K Z :=
  verify (Z.of_nat (length path) <? sun_path_size - 1) ;;
  sys_unlink path ;;
  let! fd := sys_socket AF_UNIX 0 in
  if fd =? -1 then raise (Throw runtime_error)
  else
    let! bound := sys_bind fd (Unix path) in
    if negb bound then sys_close fd ;; raise (Throw runtime_error)
    else
      let! listening := sys_listen fd backlog in
      if negb listening then sys_close fd ;; raise (Throw runtime_error)
      else ret fd.

(** ** [SocketConnection] *)

Fixpoint connect_first (infos : list addrinfo) : prog K Z :=
  match infos with
  | [] => ret (-1)
  | rp :: infos =>
      let! fd := sys_socket (ai_family rp) (ai_protocol rp) in
      if fd =? -1 then connect_first infos
      else
        let! connected := sys_connect fd (ai_addr rp) in
        if connected : bool then ret fd
        else sys_close fd ;; connect_first infos
  end.

Definition connect_tcp (address service : text) : prog K Z :=
  let! result := getaddrinfo (Some address) service false in
  match result with
  | None => raise (Throw runtime_error)
  | Some infos =>
      let! fd := connect_first infos in
      freeaddrinfo infos ;;
      if fd =? -1 then raise (Throw runtime_error) else ret fd
  end.

Definition connect_unix (path : text) : prog K Z :=
  verify (Z.of_nat (length path) <? sun_path_size - 1) ;;
  let! fd := sys_socket AF_UNIX 0 in
  if fd =? -1 then raise (Throw runtime_error)
  else
    let! connected := sys_connect fd (Unix path) in
    if negb connected then sys_close fd ;; raise (Throw runtime_error) else ret fd.

(** [SocketConnection::~SocketConnection()] *)
Definition SocketConnection_delete (socket : Z) : prog K unit := sys_close socket.

(** The socket of a binding, in [Router::start_bindings]. *)
Definition binding_socket (b : Binding) : prog K Z :=
  match binding_type b with
  | Type_TCP => listen_tcp (binding_address b) (binding_service b) (backlog b)
  | Type_UNIX => listen_unix (binding_address b) (backlog b)
  end.

(** ** The server object

    [scope_]: the value of its [ScopedEventLoop]; [accepted_]: the calls of the accept
    handler handed to the loop, each with its connection's descriptor and the scope. *)

Record SocketServer : Type := MkServer {
  socket_ : Z;
  socket_listener_ : IoListener;
  started_ : bool;
  scope_ : Z;
  accepted_ : list (Z * Z);
  system : K
}.

Definition f_listener : field SocketServer IoListener := Field socket_listener_ (fun v s => MkServer (socket_ s) v (started_ s) (scope_ s) (accepted_ s) (system s)).
Definition f_started : field SocketServer bool := Field started_ (fun v s => MkServer (socket_ s) (socket_listener_ s) v (scope_ s) (accepted_ s) (system s)).
Definition f_scope : field SocketServer Z := Field scope_ (fun v s => MkServer (socket_ s) (socket_listener_ s) (started_ s) v (accepted_ s) (system s)).
Definition f_accepted : field SocketServer (list (Z * Z)) := Field accepted_ (fun v s => MkServer (socket_ s) (socket_listener_ s) (started_ s) (scope_ s) v (system s)).
Definition f_system : field SocketServer K := Field system (fun v s => MkServer (socket_ s) (socket_listener_ s) (started_ s) (scope_ s) (accepted_ s) v).

Definition SocketServer_new (socket : Z) (k : K) : SocketServer :=
  MkServer socket (IoListener_new socket Event_Read) false 0 [] k.

Definition SocketServer_start : prog SocketServer unit :=
  let! started := rd f_started in
  if started : bool then ret tt else on_part f_listener IoListener_start ;; wr f_started true.

Definition SocketServer_stop : prog SocketServer unit :=
  let! started := rd f_started in
  if negb started then ret tt
  else
    on_part f_listener IoListener_stop ;;
    wr f_started false ;;
    let! scope := rd f_scope in wr f_scope (scope + 1).

(** [~SocketServer()], and then the destructor of the listener. *)
Definition SocketServer_delete : prog SocketServer unit :=
  let! started := rd f_started in
  verify (negb started) ;;
  on_part f_listener IoListener_delete.

Definition on_accept_ready : prog SocketServer unit := fun s =>
  (let! r := on_part f_system (sys_accept4 (socket_ s)) in
   match r with
   | AcceptAgain => ret tt
   | AcceptFailed => raise (Throw runtime_error)
   | Accepted fd =>
       let! scope := rd f_scope in
       let! l := rd f_accepted in
       wr f_accepted (l ++ [(fd, scope)])
   end) s.

(** What the router does with a server from [start_bindings] to [stop_bindings]. *)
Definition server_life (socket : Z) : prog K unit := fun k =>
  match (SocketServer_start ;; SocketServer_stop ;; SocketServer_delete) (SocketServer_new socket k) with
  | Ok _ s => Ok tt (system s)
  | Fault f s => Fault f (system s)
  end.
End Calls.
Arguments SocketServer K : clear implicits.

(** ** What POSIX says *)

Record socket_state : Type := MkState { bound : option sockaddr; listening : bool }.

(** Some open socket listens at [a]. *)
Definition listens_at (fds : gmap Z socket_state) (a : sockaddr) : Prop :=
  exists fd, fds !! fd = Some (MkState (Some a) true).

(** [fds]: the open sockets; [lists]: the lists of addresses not yet freed.  A socket
    cannot be bound to an internet address at which another one listens, also with
    [SO_REUSEADDR] (ip(7), socket(7)). *)
Class PosixLaws {K} (P : Posix K) : Type := {
  fds : K -> gmap Z socket_state;
  lists : K -> nat;
  getaddrinfo_law a s p k : wp total (getaddrinfo a s p) (fun r k' =>
    fds k' = fds k /\ lists k' = (match r with Some _ => S (lists k) | None => lists k end)) k;
  freeaddrinfo_law l k : lists k <> 0%nat -> wp total (freeaddrinfo l) (fun _ k' => fds k' = fds k /\ S (lists k') = lists k) k;
  socket_law f p k : wp total (sys_socket f p) (fun fd k' => lists k' = lists k /\
    if fd =? -1 then fds k' = fds k else fds k !! fd = None /\ fds k' = <[fd := MkState None false]> (fds k)) k;
  reuseaddr_law fd k : wp total (sys_reuseaddr fd) (fun _ k' => fds k' = fds k /\ lists k' = lists k) k;
  bind_law fd a k : wp total (sys_bind fd a) (fun b k' => lists k' = lists k /\
    if b : bool then fds k' = <[fd := MkState (Some a) false]> (fds k) /\ (forall t, a = Inet t -> ~ listens_at (fds k) a)
    else fds k' = fds k) k;
  listen_law fd n k : wp total (sys_listen fd n) (fun b k' => lists k' = lists k /\
    fds k' = if b : bool then alter (fun s => MkState (bound s) true) fd (fds k) else fds k) k;
  connect_law fd a k : wp total (sys_connect fd a) (fun _ k' => fds k' = fds k /\ lists k' = lists k) k;
  accept_law fd k : wp total (sys_accept4 fd) (fun r k' => lists k' = lists k /\
    match r with
    | Accepted c => fds k !! c = None /\ exists a, fds k' = <[c := MkState a false]> (fds k)
    | _ => fds k' = fds k
    end) k;
  close_law fd k : wp total (sys_close fd) (fun _ k' => fds k' = delete fd (fds k) /\ lists k' = lists k) k;
  unlink_law t k : wp total (sys_unlink t) (fun _ k' => fds k' = fds k /\ lists k' = lists k) k
}.

(** ** Properties *)

Section Rules.
Context {K : Type} {P : Posix K} {L : PosixLaws P}.
Implicit Types k : K.

(** One new socket, [fd], and nothing else. *)
Definition opens (st : socket_state) k (fd : Z) k' : Prop :=
  fd <> -1 /\ fds k !! fd = None /\ fds k' = <[fd := st]> (fds k) /\ lists k' = lists k.

(** Nothing new, and nothing missing. *)
Definition same k k' : Prop := fds k' = fds k /\ lists k' = lists k.
Definition gives_up k (f : fault) k' : Prop := f = Throw runtime_error /\ same k k'.

Lemma total_weaken {A} E (m : prog K A) Q k : wp total m Q k -> wp E m Q k.
Proof. apply wp_weaken. by intros ? ? []. Qed.

(** The next call, by its law. *)
Local Ltac call_law H := apply wp_bind; eapply wp_mono; [apply total_weaken, H|].

Lemma close_new E fd st k k1 (m : prog K Z) Q : opens st k fd k1 -> (forall k', same k k' -> wp E m Q k') -> wp E (sys_close fd ;; m) Q k1.
Proof.
  intros (_ & Hn & Hf & Hl) Hm. call_law close_law. intros [] k' [Hf' Hl']. apply Hm. split; [|congruence].
  by rewrite Hf', Hf, delete_insert_id.
Qed.

(** A new socket, or not. *)
Lemma wp_socket E f p k0 k (m : Z -> prog K Z) Q : same k0 k ->
  (forall k', same k0 k' -> wp E (m (-1)) Q k') ->
  (forall fd k', opens (MkState None false) k0 fd k' -> wp E (m fd) Q k') -> wp E (let! fd := sys_socket f p in m fd) Q k.
Proof.
  intros [Hf Hl] H1 H2. call_law socket_law. intros fd k' [Hl' H]. destruct (fd =? -1) eqn:E1.
  - apply Z.eqb_eq in E1 as ->. apply H1. split; congruence.
  - apply Z.eqb_neq in E1. destruct H as [Hn Hf']. apply H2. split; [done|]. split; [congruence|]. split; congruence.
Qed.

Lemma same_opens st k0 k fd k' : opens st k0 fd k -> same k k' -> opens st k0 fd k'.
Proof. intros (A & B & C & D) [E F]. split; [done|]. split; [done|]. split; congruence. Qed.

Lemma bind_opens E fd a k0 k (m : bool -> prog K Z) Q : opens (MkState None false) k0 fd k ->
  (forall k', opens (MkState None false) k0 fd k' -> wp E (m false) Q k') ->
  (forall k', (forall t, a = Inet t -> ~ listens_at (fds k0) a) -> opens (MkState (Some a) false) k0 fd k' -> wp E (m true) Q k') ->
  wp E (let! b := sys_bind fd a in m b) Q k.
Proof.
  intros (Hne & Hn & Hf & Hl) H1 H2. call_law bind_law. intros [] k' [Hl' H].
  - destruct H as [Hf' Hnone]. apply H2.
    + intros t -> (c & Hc). apply (Hnone t eq_refl). exists c. rewrite Hf. rewrite lookup_insert_ne by congruence. done.
    + split; [done|]. split; [done|]. rewrite Hf', Hf, insert_insert_eq. split; [done|congruence].
  - apply H1. apply (same_opens _ _ k); [by split|split; congruence].
Qed.

Lemma listen_opens E fd a n k0 k (m : bool -> prog K Z) Q : opens (MkState (Some a) false) k0 fd k ->
  (forall k', opens (MkState (Some a) false) k0 fd k' -> wp E (m false) Q k') ->
  (forall k', opens (MkState (Some a) true) k0 fd k' -> wp E (m true) Q k') ->
  wp E (let! b := sys_listen fd n in m b) Q k.
Proof.
  intros (Hne & Hn & Hf & Hl) H1 H2. call_law listen_law. intros [] k' [Hl' Hf'].
  - apply H2. split; [done|]. split; [done|]. split; [|congruence]. rewrite Hf', Hf. by rewrite alter_insert_eq.
  - apply H1. apply (same_opens _ _ k); [by split|split; congruence].
Qed.

(** A bound socket of one of the addresses, none of which is in use; or nothing. *)
Definition bound_one (infos : list addrinfo) k0 (fd : Z) k : Prop :=
  (fd = -1 /\ same k0 k) \/
  exists i, i ∈ infos /\ (forall t, ai_addr i = Inet t -> ~ listens_at (fds k0) (ai_addr i)) /\
    opens (MkState (Some (ai_addr i)) false) k0 fd k.

Lemma bound_one_cons rp infos k0 fd k : bound_one infos k0 fd k -> bound_one (rp :: infos) k0 fd k.
Proof. intros [H|(i & Hi & H)]; [by left|]. right. exists i. split; [by apply list_elem_of_further|done]. Qed.

Lemma bind_first_wp infos k0 : forall k, same k0 k -> wp total (bind_first infos) (bound_one infos k0) k.
Proof.
  induction infos as [|rp infos IH]; intros k Hk; cbn [bind_first]; [apply wp_ret; by left|].
  assert (forall k, same k0 k -> wp total (bind_first infos) (bound_one (rp :: infos) k0) k) as Hnext.
  { intros k' Hk'. eapply wp_mono; [by apply IH|]. intros fd k1. apply bound_one_cons. }
  eapply wp_socket; [exact Hk|exact Hnext|]. intros fd k1 H1.
  assert ((fd =? -1) = false) as -> by (apply Z.eqb_neq; apply H1).
  call_law reuseaddr_law. intros reuse k2 [Hf2 Hl2]. assert (opens (MkState None false) k0 fd k2) as H2 by (eapply same_opens; [exact H1|by split]).
  destruct reuse.
  - eapply bind_opens; [exact H2| |].
    + intros k3 H3. eapply close_new; [exact H3|exact Hnext].
    + intros k3 Hfree H3. apply wp_ret. right. exists rp. split; [by apply list_elem_of_here|]. split; [exact Hfree|exact H3].
  - apply wp_bind, wp_ret. eapply close_new; [exact H2|exact Hnext].
Qed.

Lemma connect_first_wp infos k0 : forall k, same k0 k ->
  wp total (connect_first infos) (fun fd k' => (fd = -1 /\ same k0 k') \/ opens (MkState None false) k0 fd k') k.
Proof.
  induction infos as [|rp infos IH]; intros k Hk; cbn [connect_first]; [apply wp_ret; by left|].
  eapply wp_socket; [exact Hk|exact IH|]. intros fd k1 H1.
  assert ((fd =? -1) = false) as -> by (apply Z.eqb_neq; apply H1).
  call_law connect_law. intros connected k2 [Hf2 Hl2]. assert (opens (MkState None false) k0 fd k2) as H2 by (eapply same_opens; [exact H1|by split]).
  destruct connected; [apply wp_ret; by right|]. eapply close_new; [exact H2|exact IH].
Qed.

(** The descriptor is a new socket that listens at an address where none did. *)
Definition listens k (fd : Z) k' : Prop :=
  exists a, opens (MkState (Some a) true) k fd k' /\ forall t, a = Inet t -> ~ listens_at (fds k) a.

(** The characters of the path and a zero fit in [sun_path]; the code leaves one more byte. *)
Definition path_fits (path : text) : Prop := Z.of_nat (length path) + 1 < sun_path_size.

#[local] Instance path_fits_dec path : Decision (path_fits path).
Proof. unfold path_fits. apply _. Defined.

Lemma path_tested path : (Z.of_nat (length path) <? sun_path_size - 1) = bool_decide (path_fits path).
Proof. apply eq_bool_prop_intro. rewrite Is_true_true, Z.ltb_lt, bool_decide_spec. unfold path_fits. lia. Qed.

(** The list of [getaddrinfo] is freed again. *)
Definition listed k k' : Prop := fds k' = fds k /\ lists k' = S (lists k).

Lemma opens_listed st k k0 fd k' k'' : listed k k0 -> opens st k0 fd k' -> fds k'' = fds k' -> S (lists k'') = lists k' -> opens st k fd k''.
Proof. intros [A B] (C & D & E & F) G H. split; [done|]. rewrite <- A. split; [done|]. split; [congruence|lia]. Qed.

Lemma finish_listen a n k fd k1 : opens (MkState (Some a) false) k fd k1 -> (forall t, a = Inet t -> ~ listens_at (fds k) a) ->
  wp (gives_up k) (let! listening := sys_listen fd n in
     if listening : bool then ret fd else sys_close fd ;; raise (Throw runtime_error)) (listens k) k1.
Proof.
  intros H1 Hfree. eapply listen_opens; [exact H1| |].
  - intros k2 H2. eapply close_new; [|intros; by apply wp_raise]. destruct H2 as (A & B & C & D). by split.
  - intros k2 H2. apply wp_ret. exists a. by split.
Qed.

Lemma listen_tcp_wp address service n k : wp (gives_up k) (listen_tcp address service n) (listens k) k.
Proof.
  unfold listen_tcp. call_law getaddrinfo_law. intros [infos|] k0 [Hf Hl]; [|by apply wp_raise; repeat split].
  apply wp_bind. eapply wp_mono; [apply total_weaken, (bind_first_wp infos k0); by split|]. intros fd k1 H1.
  assert (lists k1 = S (lists k)) as Hl1 by (destruct H1 as [[_ [_ E]]|(i & _ & _ & _ & _ & _ & E)]; congruence).
  call_law freeaddrinfo_law; [lia|]. intros [] k2 [Hf2 Hl2]. destruct H1 as [[-> H1]|(i & _ & Hfree & H1)].
  - apply wp_raise. split; [done|]. destruct H1. split; [congruence|lia].
  - assert ((fd =? -1) = false) as -> by (apply Z.eqb_neq; apply H1).
    apply (finish_listen (ai_addr i)); [by eapply opens_listed|]. intros t Ht. rewrite <- Hf. by apply (Hfree t).
Qed.

Lemma listen_unix_wp path n k : path_fits path ->
  wp (gives_up k) (listen_unix path n) (opens (MkState (Some (Unix path)) true) k) k.
Proof.
  intros Hp. unfold listen_unix. rewrite path_tested, bool_decide_eq_true_2 by done. apply wp_bind, wp_ret.
  call_law unlink_law. intros [] k1 H1.
  eapply wp_socket; [exact H1|intros; by apply wp_raise|]. intros fd k2 H2.
  assert ((fd =? -1) = false) as -> by (apply Z.eqb_neq; apply H2).
  eapply bind_opens; [exact H2| |].
  - intros k3 H3. eapply close_new; [exact H3|]. intros; by apply wp_raise.
  - intros k3 _ H3. eapply listen_opens; [exact H3| |].
    + intros k4 H4. eapply close_new; [exact H4|]. intros; by apply wp_raise.
    + intros k4 H4. by apply wp_ret.
Qed.

Lemma connect_tcp_wp address service k : wp (gives_up k) (connect_tcp address service) (opens (MkState None false) k) k.
Proof.
  unfold connect_tcp. call_law getaddrinfo_law. intros [infos|] k0 [Hf Hl]; [|by apply wp_raise; repeat split].
  apply wp_bind. eapply wp_mono; [apply total_weaken, (connect_first_wp infos k0); by split|]. intros fd k1 H1.
  assert (lists k1 = S (lists k)) as Hl1 by (destruct H1 as [[_ [_ E]]|(_ & _ & _ & E)]; congruence).
  call_law freeaddrinfo_law; [lia|]. intros [] k2 [Hf2 Hl2]. destruct H1 as [[-> H1]|H1].
  - apply wp_raise. split; [done|]. destruct H1. split; [congruence|lia].
  - assert ((fd =? -1) = false) as -> by (apply Z.eqb_neq; apply H1). apply wp_ret. by eapply opens_listed.
Qed.

Lemma connect_unix_wp path k : path_fits path ->
  wp (gives_up k) (connect_unix path) (opens (MkState None false) k) k.
Proof.
  intros Hp. unfold connect_unix. rewrite path_tested, bool_decide_eq_true_2 by done. apply wp_bind, wp_ret.
  eapply wp_socket; [by split|intros; by apply wp_raise|]. intros fd k2 H2.
  assert ((fd =? -1) = false) as -> by (apply Z.eqb_neq; apply H2).
  call_law connect_law. intros connected k3 H3. assert (opens (MkState None false) k fd k3) as H3' by by eapply same_opens.
  destruct connected; cbn [negb]; [by apply wp_ret|]. eapply close_new; [exact H3'|]. intros; by apply wp_raise.
Qed.

Lemma long_path_stops path n k : ~ path_fits path ->
  listen_unix path n k = Fault Abort k /\ connect_unix path k = Fault Abort k.
Proof. intros Hp. unfold listen_unix, connect_unix. rewrite path_tested, bool_decide_eq_false_2 by done. done. Qed.
End Rules.

Section Properties.
Context {K : Type} {P : Posix K} {L : PosixLaws P}.
Implicit Types k : K.

(** C30. No descriptor and no list of addresses is lost on the way to a socket, whatever the
    system answers to any of the calls.  When [listen_tcp] returns, one new socket is open,
    which listens where, for an internet address, none did; when [listen_unix] returns, one
    new socket is open, which listens at the path; when [connect_tcp] or [connect_unix]
    returns, one new socket is open; when one of them throws [std::runtime_error], the open
    sockets are what they were; and every list of [getaddrinfo] is freed.  A path that does
    not fit in [sun_path] stops the program before any call of the system. *)
Theorem sockets_not_lost (address service path : text) (n : Z) k :
  wp (gives_up k) (listen_tcp address service n) (listens k) k /\
  wp (gives_up k) (connect_tcp address service) (opens (MkState None false) k) k /\
  (path_fits path ->
    wp (gives_up k) (listen_unix path n) (opens (MkState (Some (Unix path)) true) k) k /\
    wp (gives_up k) (connect_unix path) (opens (MkState None false) k) k) /\
  (~ path_fits path -> listen_unix path n k = Fault Abort k /\ connect_unix path k = Fault Abort k).
Proof.
  split; [apply listen_tcp_wp|]. split; [apply connect_tcp_wp|]. split; [|apply long_path_stops].
  split; [by apply listen_unix_wp|by apply connect_unix_wp].
Qed.

(** The life of a server object makes no call on its socket. *)
Lemma server_life_eq fd k : server_life fd k = Ok tt k.
Proof. reflexivity. Qed.

(** The router cannot open a TCP binding a second time, as it does when it restarts on
    SIGHUP.  The server object never closes the socket it was given: not when it is
    stopped, nor when it is deleted.  So the socket listens on, and while the address of
    the binding stands for one internet address, the second [listen_tcp] finds it in use
    and throws. *)
Theorem binding_cannot_be_reopened (address service : text) (n : Z) (t : text) k fd k1 :
  (forall k, wp total (getaddrinfo (if bool_decide (address = []) then None else Some address) service (bool_decide (address = [])))
     (fun r _ => match r with Some infos => Forall (fun i => ai_addr i = Inet t) infos | None => True end) k) ->
  listen_tcp address service n k = Ok fd k1 -> fds k1 !! fd = Some (MkState (Some (Inet t)) true) ->
  server_life fd k1 = Ok tt k1 /\
  wp (fun f k2 => f = Throw runtime_error /\ same k1 k2) (server_life fd ;; listen_tcp address service n) (fun _ _ => False) k1.
Proof.
  intros Hres _ Hfd. split; [done|]. apply wp_bind. eapply wp_eq; [apply server_life_eq|].
  assert (listens_at (fds k1) (Inet t)) as Hbusy by by exists fd.
  unfold listen_tcp. apply wp_bind.
  assert (wp total (getaddrinfo (if bool_decide (address = []) then None else Some address) service (bool_decide (address = [])))
     (fun r k0 => match r with Some infos => Forall (fun i => ai_addr i = Inet t) infos /\ listed k1 k0 | None => same k1 k0 end) k1) as Hget.
  { pose proof (Hres k1) as H1. match goal with |- wp _ (getaddrinfo ?a ?s ?p) _ _ => pose proof (getaddrinfo_law a s p k1) as H2 end.
    unfold wp in *. destruct (getaddrinfo _ _ _ k1) as [[infos|] k0|f k0]; [|by destruct H2|done]. by destruct H2. }
  eapply wp_mono; [apply total_weaken, Hget|]. intros [infos|] k0 H0; [|by apply wp_raise]. destruct H0 as [Hall [Hf Hl]].
  apply wp_bind. eapply wp_mono; [apply total_weaken, (bind_first_wp infos k0); by split|]. intros fd' k2 H2.
  destruct H2 as [[-> [Hf2 Hl2]]|(i & Hi & Hfree & _)].
  2: { rewrite Forall_forall in Hall. specialize (Hall i (proj1 (list_elem_of_In _ _) Hi)).
       rewrite Hall, Hf in Hfree. by destruct (Hfree t). }
  apply wp_bind. eapply wp_mono; [apply total_weaken, freeaddrinfo_law; lia|]. intros [] k3 [Hf3 Hl3]. apply wp_raise.
  split; [done|]. split; [congruence|lia].
Qed.

(** A connection is accepted: the descriptor of one new socket is handed on, once, under the
    scope of the time; after [stop] that scope is no longer the server's.  Whether its
    handler runs or its event is dropped, the connection is deleted in the end and its
    socket closed. *)
Lemma accept_hands_on (s : SocketServer K) :
  wp (fun f s' => f = Throw runtime_error /\ same (system s) (system s') /\ accepted_ s' = accepted_ s) on_accept_ready (fun _ s' =>
    (same (system s) (system s') /\ accepted_ s' = accepted_ s) \/
    exists fd, accepted_ s' = accepted_ s ++ [(fd, scope_ s)] /\ fds (system s) !! fd = None /\
      wp total (SocketConnection_delete fd) (fun _ k' => same (system s) k') (system s')) s.
Proof.
  pose proof (accept_law (socket_ s) (system s)) as H. unfold wp in *.
  unfold on_accept_ready, bind at 1, on_part. cbn [fget f_system].
  destruct (sys_accept4 (socket_ s) (system s)) as [[c| |] k'|f k']; [|left; split; [|done]; split; tauto|split; [done|]; split; [|done]; split; tauto|done].
  right. exists c. cbn. destruct H as (Hl & Hn & a & Hf). split; [done|]. split; [done|].
  pose proof (close_law c k') as Hc. unfold wp, SocketConnection_delete in *. destruct (sys_close c k') as [[] k''|]; [|done].
  destruct Hc as [Hc Hl']. split; [|congruence]. by rewrite Hc, Hf, delete_insert_id.
Qed.
End Properties.

(** ** A system *)

Record sim_system : Type := MkSystem { sim_fds : gmap Z socket_state; sim_next : Z; sim_lists : nat }.

Definition sim_busy (m : gmap Z socket_state) (a : sockaddr) : bool :=
  existsb (fun p => bool_decide (bound p.2 = Some a) && listening p.2) (map_to_list m).

(** Every name stands for one address, and every call succeeds that may. *)
#[local] Instance sim_posix : Posix sim_system := {|
  getaddrinfo a s p := fun k => Ok (Some [MkInfo (AF_OTHER 2) 6 (Inet (default [] a ++ s))]) (MkSystem (sim_fds k) (sim_next k) (S (sim_lists k)));
  freeaddrinfo _ := fun k => Ok tt (MkSystem (sim_fds k) (sim_next k) (pred (sim_lists k)));
  sys_socket _ _ := fun k =>
    match sim_fds k !! sim_next k with
    | Some _ => Ok (-1) k
    | None => if sim_next k =? -1 then Ok (-1) k
              else Ok (sim_next k) (MkSystem (<[sim_next k := MkState None false]> (sim_fds k)) (sim_next k + 1) (sim_lists k))
    end;
  sys_reuseaddr _ := ret true;
  sys_bind fd a := fun k =>
    if (match a with Inet _ => sim_busy (sim_fds k) a | Unix _ => false end) then Ok false k
    else Ok true (MkSystem (<[fd := MkState (Some a) false]> (sim_fds k)) (sim_next k) (sim_lists k));
  sys_listen fd _ := fun k => Ok true (MkSystem (alter (fun s => MkState (bound s) true) fd (sim_fds k)) (sim_next k) (sim_lists k));
  sys_connect _ _ := ret false;
  sys_accept4 _ := ret AcceptAgain;
  sys_close fd := fun k => Ok tt (MkSystem (delete fd (sim_fds k)) (sim_next k) (sim_lists k));
  sys_unlink _ := ret tt
|}.

Lemma sim_not_busy m a : sim_busy m a = false -> ~ listens_at m a.
Proof.
  intros Hb (fd & Hfd). enough (sim_busy m a = true) by congruence. apply existsb_exists. exists (fd, MkState (Some a) true).
  split; [by apply list_elem_of_In, elem_of_map_to_list|]. cbn. by rewrite bool_decide_eq_true_2.
Qed.

#[local] Instance sim_posix_laws : PosixLaws sim_posix.
Proof.
  refine {| fds := sim_fds; lists := sim_lists |}; intros; unfold wp; cbn.
  - done.
  - split; [done|]. lia.
  - destruct (sim_fds k !! sim_next k) eqn:E; [done|]. destruct (sim_next k =? -1) eqn:E1; [done|].
    split; [done|]. by rewrite E1.
  - done.
  - destruct a as [t|t]; [|split; [done|]; by split]. destruct (sim_busy (sim_fds k) (Inet t)) eqn:E; [done|].
    split; [done|]. split; [done|]. intros t' _. by apply sim_not_busy.
  - done.
  - done.
  - done.
  - done.
  - done.
Defined.

Definition first_run : res sim_system Z := listen_tcp (txt "localhost") (txt "2222") 5 (MkSystem ∅ 3 0).

Lemma sockets_not_lost_witness :
  let k := MkSystem ∅ 3 0 in
  wp (gives_up k) (listen_tcp (txt "localhost") (txt "2222") 5) (listens k) k /\
  wp (gives_up k) (connect_unix (txt "/tmp/dh")) (opens (MkState None false) k) k /\
  listen_unix (replicate 107 "a"%char) 5 k = Fault Abort k.
Proof.
  intros k. destruct (sockets_not_lost (txt "localhost") (txt "2222") (txt "/tmp/dh") 5 k) as (H1 & _ & H2 & _).
  destruct (sockets_not_lost (txt "localhost") (txt "2222") (replicate 107 "a"%char) 5 k) as (_ & _ & _ & H3).
  split; [exact H1|]. split; [apply H2|apply H3]; vm_compute; congruence.
Defined.

Lemma binding_cannot_be_reopened_witness :
  match first_run with
  | Ok fd k1 => fd = 3 /\ wp (fun f _ => f = Throw runtime_error) (listen_tcp (txt "localhost") (txt "2222") 5) (fun _ _ => False) k1
  | Fault _ _ => False
  end.
Proof.
  destruct first_run as [fd k1|f k1] eqn:E; [|by vm_compute in E]. assert (fd = 3) as -> by (vm_compute in E; congruence). split; [done|].
  destruct (binding_cannot_be_reopened (txt "localhost") (txt "2222") 5 (txt "localhost2222") (MkSystem ∅ 3 0) 3 k1) as [_ H].
  - intros k. vm_compute. repeat constructor.
  - exact E.
  - vm_compute in E. injection E as <-. vm_compute. reflexivity.
  - eapply wp_weaken; [|exact H]. by intros f k2 [-> _].
Defined.
