(* ===== verification/Log.v ===== *)
(** The log, [deephome/common/source/util/Log.cpp] and [include/util/Log.h], and the
    paths of [util/Runtime.cpp].

    The state is the globals of [Log.cpp], with what has been written to each target.
    Each operation holds the mutex from beginning to end, so an operation is one step.
    The clock, the environment and the file system are arguments. *)

From Stdlib Require Import String.
From S2P Require Import Prelude Monad Text.

(** ** Numbers *)

Definition dec_digit (d : Z) : ascii := ascii_of_N (Z.to_N (48 + d)).

(** A number in decimal, of [n] digits at most. *)
Fixpoint dec_digits (n : nat) (z : Z) : text :=
  match n with
  | O => []
  | S n => (if z <? 10 then [] else dec_digits n (z / 10)) ++ [dec_digit (z mod 10)]
  end.

(** [std::setw(3) << msec], filled with zeros, for less than a second. *)
Definition msec_out (msec : Z) : text := [dec_digit (msec / 100); dec_digit (msec / 10 mod 10); dec_digit (msec mod 10)].

(** ** [Logger] *)

Inductive Level : Type := Level_Debug | Level_Info | Level_Warning | Level_Error | Level_FatalError.

#[export] Instance Level_eq_dec : EqDecision Level.
Proof. solve_decision. Defined.

Definition level_value (l : Level) : Z :=
  match l with Level_Debug => 0 | Level_Info => 1 | Level_Warning => 2 | Level_Error => 3 | Level_FatalError => 4 end.

Definition Target_Syslog : Z := 0x01.
Definition Target_Stderr : Z := 0x02.
Definition Target_File : Z := 0x04.

Definition level_to_string (level : Level) : text :=
  match level with
  | Level_Debug => txt "DEBUG"
  | Level_Info => txt "INFO"
  | Level_Warning => txt "WARNING"
  | Level_Error => txt "ERROR"
  | Level_FatalError => txt "FATAL"
  end.

(** The priorities of syslog(3). *)
Definition level_to_syslog (level : Level) : Z :=
  match level with
  | Level_Debug => 7
  | Level_Info => 6
  | Level_Warning => 4
  | Level_Error => 3
  | Level_FatalError => 2
  end.

(** [opened]: [file_] is open.  An [open] that fails sets [failbit], and an output to the
    stream does nothing then. *)
Record LoggerImpl : Type := MkImpl { targets_ : Z; opened : bool }.

Record logger : Type := MkLogger {
  initial_targets_ : Z;
  syslog_ident_ : text;
  file_name_ : text;
  log_level_ : Level;
  instance : option LoggerImpl;      (* [static LoggerImpl logger], once it is made *)
  stderr_lines : list text;
  file_lines : list text;
  syslog_lines : list (Z * text)
}.

Definition logger_init : logger := MkLogger 0 [] [] Level_Debug None [] [] [].

Definition f_instance : field logger (option LoggerImpl) :=
  Field instance (fun v g => MkLogger (initial_targets_ g) (syslog_ident_ g) (file_name_ g) (log_level_ g) v (stderr_lines g) (file_lines g) (syslog_lines g)).
Definition f_stderr : field logger (list text) :=
  Field stderr_lines (fun v g => MkLogger (initial_targets_ g) (syslog_ident_ g) (file_name_ g) (log_level_ g) (instance g) v (file_lines g) (syslog_lines g)).
Definition f_file : field logger (list text) :=
  Field file_lines (fun v g => MkLogger (initial_targets_ g) (syslog_ident_ g) (file_name_ g) (log_level_ g) (instance g) (stderr_lines g) v (syslog_lines g)).
Definition f_syslog : field logger (list (Z * text)) :=
  Field syslog_lines (fun v g => MkLogger (initial_targets_ g) (syslog_ident_ g) (file_name_ g) (log_level_ g) (instance g) (stderr_lines g) (file_lines g) v).

Definition has_target (targets target : Z) : bool := negb (Z.land targets target =? 0).

(** [Logger::add_target], [Logger::set_level] *)
Definition add_target (target : Z) (key : text) : prog logger unit := fun g =>
  Ok tt (MkLogger (Z.lor (initial_targets_ g) target)
    (if target =? Target_Syslog then key else syslog_ident_ g)
    (if target =? Target_File then key else file_name_ g)
    (log_level_ g) (instance g) (stderr_lines g) (file_lines g) (syslog_lines g)).

Definition set_level (level : Level) : prog logger unit := fun g =>
  Ok tt (MkLogger (initial_targets_ g) (syslog_ident_ g) (file_name_ g) level (instance g) (stderr_lines g) (file_lines g) (syslog_lines g)).

(** [LoggerImpl::LoggerImpl()]; [can_open] says of what name a file can be opened.  A
    failed [open] does not set [badbit]. *)
Definition LoggerImpl_new (can_open : text -> bool) (g : logger) : LoggerImpl :=
  let targets := if initial_targets_ g =? 0 then Target_Stderr else initial_targets_ g in
  if has_target targets Target_File then
    let opened := can_open (file_name_ g) in
    let bad := false in
    MkImpl (if bad then Z.land targets (Z.lnot Target_File) else targets) opened
  else MkImpl targets false.

(** A line with its time: what [strftime] gives, and the milliseconds. *)
Definition stamped (timebuf : text) (msec : Z) (level : Level) (line : text) : text :=
  txt "[" ++ timebuf ++ txt "." ++ msec_out msec ++ txt "] (" ++ level_to_string level ++ txt "): " ++ line ++ ["010"%char].

Definition LoggerImpl_write_line (impl : LoggerImpl) (timebuf : text) (msec : Z) (level : Level) (line : text) : prog logger unit :=
  when (has_target (targets_ impl) (Z.lor Target_Stderr Target_File))
    (when (has_target (targets_ impl) Target_Stderr)
       (let! l := rd f_stderr in wr f_stderr (l ++ [stamped timebuf msec level line])) ;;
     when (has_target (targets_ impl) Target_File && opened impl)
       (let! l := rd f_file in wr f_file (l ++ [stamped timebuf msec level line]))) ;;
  when (has_target (targets_ impl) Target_Syslog)
    (let! l := rd f_syslog in wr f_syslog (l ++ [(level_to_syslog level, line)])).

(** [Logger::write_line] *)
Definition write_line (can_open : text -> bool) (timebuf : text) (msec : Z) (level : Level) (line : text) : prog logger unit := fun g =>
  (if level_value level <? level_value (log_level_ g) then ret tt
   else
     let impl := default (LoggerImpl_new can_open g) (instance g) in
     wr f_instance (Some impl) ;;
     LoggerImpl_write_line impl timebuf msec level line) g.

(** ** [LogWriter] *)

Definition find_last_of (s : text) (c : ascii) : option nat :=
  (fun n => length s - 1 - n)%nat <$> index_if (Ascii.eqb c) (reverse s).

(** [LogWriter::init_buffer]; [self] is how the stream prints the pointer, if it is not null. *)
Definition init_buffer (file : text) (line : Z) (clsname func : text) (self : option text) : text :=
  let filename := match find_last_of file "/"%char with Some fsep => drop (fsep + 1) file | None => file end in
  filename ++ txt ":" ++ dec_digits 10 line ++ txt ", " ++
  (if bool_decide (clsname = []) then [] else clsname ++ txt "::") ++ func ++
  (match self with Some p => txt "^" ++ p | None => [] end) ++ txt " ::: ".

(** ** [Runtime] *)

Definition bindir : text := txt "/bin".

(** [prefix]: the variable DEEPHOME_PATH; [exe]: what [readlink] gives, at most 512 bytes. *)
Definition install_prefix (prefix exe : option text) : text :=
  match prefix with
  | Some ((_ :: _) as result) =>
      if bool_decide (List.last result "0"%char = "/"%char) then take (length result - 1) result else result
  | _ =>
      match exe with
      | Some ((_ :: _) as path) =>
          let path := match find_last_of path "/"%char with Some pos => take pos path | None => path end in
          if (length bindir <? length path)%nat && bool_decide (drop (length path - length bindir) path = bindir)
          then take (length path - length bindir) path
          else path
      | _ => txt "/usr/local"
      end
  end.

Definition config_dir (prefix exe : option text) : text := install_prefix prefix exe ++ txt "/etc".
Definition config_file_path (prefix exe : option text) (file_name : text) : text := config_dir prefix exe ++ txt "/" ++ file_name.

(** ** What is written

    What happens to the log. *)
Inductive log_call : Type :=
| AddTarget (target : Z) (key : text)
| SetLevel (level : Level)
| WriteLine (timebuf : text) (msec : Z) (level : Level) (line : text).

Definition log_step (can_open : text -> bool) (c : log_call) : prog logger unit :=
  match c with
  | AddTarget t k => add_target t k
  | SetLevel l => set_level l
  | WriteLine t m l s => write_line can_open t m l s
  end.

(** The lines that pass, when the level is [level] at first. *)
Fixpoint shown (level : Level) (calls : list log_call) : list (text * Z * Level * text) :=
  match calls with
  | [] => []
  | AddTarget _ _ :: calls => shown level calls
  | SetLevel l :: calls => shown l calls
  | WriteLine t m l s :: calls =>
      (if level_value l <? level_value level then [] else [(t, m, l, s)]) ++ shown level calls
  end.

Definition stamp (p : text * Z * Level * text) : text := let '(t, m, l, s) := p in stamped t m l s.
Definition priority_line (p : text * Z * Level * text) : Z * text := let '(t, m, l, s) := p in (level_to_syslog l, s).

(** What [impl] has added to the targets of [g] when it has written [lines]. *)
Definition written (impl : LoggerImpl) (lines : list (text * Z * Level * text)) (g g' : logger) : Prop :=
  stderr_lines g' = stderr_lines g ++ (if has_target (targets_ impl) Target_Stderr then stamp <$> lines else []) /\
  file_lines g' = file_lines g ++ (if has_target (targets_ impl) Target_File && opened impl then stamp <$> lines else []) /\
  syslog_lines g' = syslog_lines g ++ (if has_target (targets_ impl) Target_Syslog then priority_line <$> lines else []).

Lemma written_nil impl g g' : stderr_lines g' = stderr_lines g -> file_lines g' = file_lines g -> syslog_lines g' = syslog_lines g ->
  written impl [] g g'.
Proof. intros H1 H2 H3. unfold written. rewrite H1, H2, H3. repeat case_match; by rewrite !app_nil_r. Qed.

Lemma written_app impl l1 l2 g g1 g2 : written impl l1 g g1 -> written impl l2 g1 g2 -> written impl (l1 ++ l2) g g2.
Proof.
  intros (A & B & C) (A' & B' & C'). unfold written. rewrite A', A, B', B, C', C, !fmap_app, <- !app_assoc.
  repeat case_match; by rewrite ?app_nil_r.
Qed.

Lemma has_either t : has_target t Target_Stderr || has_target t Target_File = has_target t (Z.lor Target_Stderr Target_File).
Proof.
  unfold has_target. rewrite <- negb_andb. f_equal. rewrite Z.land_lor_distr_r. apply eq_true_iff_eq.
  rewrite andb_true_iff, !Z.eqb_eq, Z.lor_eq_0_iff. done.
Qed.

Lemma impl_write impl t m l s g : exists g', LoggerImpl_write_line impl t m l s g = Ok tt g' /\
  written impl [(t, m, l, s)] g g' /\ instance g' = instance g /\ log_level_ g' = log_level_ g.
Proof.
  unfold LoggerImpl_write_line. rewrite <- has_either. unfold written.
  destruct (has_target (targets_ impl) Target_Stderr), (has_target (targets_ impl) Target_File), (opened impl),
    (has_target (targets_ impl) Target_Syslog); (eexists; split; [reflexivity|]); cbn; by rewrite ?app_nil_r.
Qed.

(** A line that passes, whoever has to write it. *)
Lemma write_shown can_open t m l s g : (level_value l <? level_value (log_level_ g)) = false ->
  exists g', write_line can_open t m l s g = Ok tt g' /\
    written (default (LoggerImpl_new can_open g) (instance g)) [(t, m, l, s)] g g' /\
    instance g' = Some (default (LoggerImpl_new can_open g) (instance g)) /\ log_level_ g' = log_level_ g.
Proof.
  intros Hl. unfold write_line. rewrite Hl. unfold bind at 1, wr.
  destruct (impl_write (default (LoggerImpl_new can_open g) (instance g)) t m l s
    (fset f_instance (Some (default (LoggerImpl_new can_open g) (instance g))) g)) as (g' & H & Hw & Hi & Hlev).
  exists g'. split; [exact H|]. split; [exact Hw|]. by split.
Qed.

Lemma log_calls_written can_open calls impl : forall g, instance g = Some impl ->
  exists g', for_each calls (log_step can_open) g = Ok tt g' /\ instance g' = Some impl /\ written impl (shown (log_level_ g) calls) g g'.
Proof.
  induction calls as [|c calls IH]; intros g Hi.
  - exists g. split; [done|]. split; [done|]. by apply written_nil.
  - destruct c as [t k|l|t m l s]; cbn [for_each log_step shown].
    + destruct (IH (MkLogger (Z.lor (initial_targets_ g) t) (if t =? Target_Syslog then k else syslog_ident_ g)
        (if t =? Target_File then k else file_name_ g) (log_level_ g) (instance g) (stderr_lines g) (file_lines g) (syslog_lines g)) Hi)
        as (g' & H & Hi' & Hw). by exists g'.
    + destruct (IH (MkLogger (initial_targets_ g) (syslog_ident_ g) (file_name_ g) l (instance g) (stderr_lines g) (file_lines g) (syslog_lines g)) Hi)
        as (g' & H & Hi' & Hw). by exists g'.
    + destruct (level_value l <? level_value (log_level_ g)) eqn:Hl.
      * destruct (IH g Hi) as (g' & H & Hi' & Hw). exists g'. unfold bind, write_line. rewrite Hl. by split.
      * destruct (write_shown can_open t m l s g Hl) as (g1 & H1 & Hw1 & Hi1 & Hl1). rewrite Hi in *. cbn in *.
        destruct (IH g1 Hi1) as (g' & H & Hi' & Hw). exists g'. unfold bind. rewrite H1. split; [exact H|]. split; [exact Hi'|].
        rewrite Hl1 in Hw. exact (written_app _ [_] _ _ _ _ Hw1 Hw).
Qed.

(** C39. What is logged.  The first line that passes the level fixes the targets, to those
    added by then, or to the standard error when there are none; targets added later change
    nothing.  From then on every line that passes the level of its time goes, in order and
    once, to each of these targets, and no other line does.  But when the log file cannot
    be opened, the lines for it are lost: the test for the failure looks at [bad()], which
    a failed [open] does not set, so the standard error does not take over. *)
Theorem log_lines_delivered can_open t m l s calls g :
  instance g = None -> level_value (log_level_ g) <= level_value l ->
  let targets := if initial_targets_ g =? 0 then Target_Stderr else initial_targets_ g in
  let lines := (t, m, l, s) :: shown (log_level_ g) calls in
  exists g', for_each (WriteLine t m l s :: calls) (log_step can_open) g = Ok tt g' /\
    stderr_lines g' = stderr_lines g ++ (if has_target targets Target_Stderr then stamp <$> lines else []) /\
    file_lines g' = file_lines g ++ (if has_target targets Target_File && can_open (file_name_ g) then stamp <$> lines else []) /\
    syslog_lines g' = syslog_lines g ++ (if has_target targets Target_Syslog then priority_line <$> lines else []).
Proof.
  intros Hi Hl targets lines. apply Z.ltb_ge in Hl. destruct (write_shown can_open t m l s g Hl) as (g1 & H1 & Hw1 & Hi1 & Hl1).
  rewrite Hi in *. cbn [default] in *. destruct (log_calls_written can_open calls _ g1 Hi1) as (g' & H & _ & Hw).
  exists g'. cbn [for_each log_step]. unfold bind at 1. rewrite H1. split; [exact H|]. rewrite Hl1 in Hw.
  pose proof (written_app _ [_] _ _ _ _ Hw1 Hw) as (A & B & C). unfold LoggerImpl_new in A, B, C. fold targets in A, B, C.
  destruct (has_target targets Target_File) eqn:Hf; cbn [targets_ opened] in A, B, C; rewrite ?Hf in B; done.
Qed.

(** A log file that cannot be opened, and a target that comes too late. *)
Lemma log_lines_delivered_witness :
  let g := MkLogger Target_File [] (txt "/nowhere/log") Level_Info None [] [] [] in
  exists g', for_each [WriteLine (txt "now") 7 Level_Info (txt "up"); AddTarget Target_Stderr []; WriteLine (txt "now") 8 Level_Error (txt "x")]
      (log_step (fun _ => false)) g = Ok tt g' /\
    stderr_lines g' = [] /\ file_lines g' = [] /\ syslog_lines g' = [].
Proof.
  intros g. destruct (log_lines_delivered (fun _ => false) (txt "now") 7 Level_Info (txt "up")
    [AddTarget Target_Stderr []; WriteLine (txt "now") 8 Level_Error (txt "x")] g) as (g' & H & A & B & C);
    [reflexivity|simpl; lia|]. exists g'. split; [exact H|]. split; [exact A|]. split; [exact B|exact C].
Defined.

Example stamped_line : stamped (txt "2017-01-08 10:00:00") 7 Level_Warning (txt "x") = txt "[2017-01-08 10:00:00.007] (WARNING): x" ++ ["010"%char].
Proof. reflexivity. Qed.

Example header : init_buffer (txt "/src/router/Router.cpp") 104 (txt "Router") (txt "connect") None = txt "Router.cpp:104, Router::connect ::: ".
Proof. reflexivity. Qed.

(** ** The installation prefix *)

Lemma index_if_first (p : ascii -> bool) a c r : forallb (fun x => negb (p x)) a = true -> p c = true -> index_if p (a ++ c :: r) = Some (length a).
Proof.
  induction a as [|x a IH]; cbn [app forallb index_if length]; intros Ha Hc; [by rewrite Hc|].
  apply andb_prop in Ha as [->%negb_true_iff Ha]. by rewrite IH.
Qed.

Lemma find_last_of_app a c b : forallb (fun x => negb (Ascii.eqb c x)) b = true -> find_last_of (a ++ c :: b) c = Some (length a).
Proof.
  intros Hb. unfold find_last_of. rewrite reverse_app, reverse_cons, <- app_assoc. cbn [app].
  rewrite (index_if_first _ (reverse b) c); [|apply forallb_forall; intros x Hx; apply (proj1 (forallb_forall _ _) Hb);
    by apply list_elem_of_In, elem_of_reverse, list_elem_of_In|apply Ascii.eqb_refl].
  cbn [fmap option_fmap option_map]. f_equal. rewrite length_reverse, length_app. cbn [length]. lia.
Qed.

(** The program of an installation finds its own prefix, and with it its configuration:
    installed as PREFIX/bin/NAME, with no variable set, it reads PREFIX/etc. *)
Theorem installed_prefix prefix name file : prefix <> [] -> forallb (fun x => negb (Ascii.eqb "/"%char x)) name = true ->
  config_file_path None (Some (prefix ++ bindir ++ txt "/" ++ name)) file = prefix ++ txt "/etc/" ++ file.
Proof.
  intros Hp Hn. unfold config_file_path, config_dir, install_prefix.
  destruct (prefix ++ bindir ++ txt "/" ++ name) as [|c path] eqn:E; [by destruct prefix|]. rewrite <- E.
  change (bindir ++ txt "/" ++ name) with (bindir ++ "/"%char :: name). rewrite (app_assoc prefix), find_last_of_app by done.
  rewrite take_app_length. rewrite length_app. replace (length prefix + length bindir - length bindir)%nat with (length prefix) by lia.
  rewrite (proj2 (Nat.ltb_lt _ _)) by (destruct prefix; [done|cbn; lia]). rewrite drop_app_length, bool_decide_eq_true_2 by done.
  cbn [andb]. rewrite take_app_length. by rewrite <- !app_assoc.
Qed.

Lemma installed_prefix_witness :
  config_file_path None (Some (txt "/opt/deephome/bin/dhrouter")) (txt "dhrouter.conf") = txt "/opt/deephome/etc/dhrouter.conf".
Proof. exact (installed_prefix (txt "/opt/deephome") (txt "dhrouter") (txt "dhrouter.conf") ltac:(discriminate) eq_refl). Defined.
