(* ===== verification/Router.v ===== *)
(** The router, [deephome/router/Router.cpp], with the queue of [util::EventLoop], its
    [Timeout]s, and [proto::SocketServer] as far as the router uses them.

    The state is the process: the router object, the connections it has made ([heap_],
    a [shared_ptr] is an index into it and an object no pointer refers to any more stays
    there), and the queue of the event loop.  What the network does is an argument of
    the operation that meets it. *)

From Stdlib Require Import String.
From S2P Require Import Prelude Monad Text Message MessageRules.
From S2P Require Import SocketConnection Config.

(** What [std::bind] bound: [on_device_packet_received(_1, i)] or
    [on_connection_packet_received(_1, id)]. *)
Inductive handler : Type := OnDevice (network_index : nat) | OnConnection (connection_id : Z).

#[export] Instance handler_eq_dec : EqDecision handler.
Proof. solve_decision. Defined.

(** A pointer. *)
Abbreviation conn := nat.

Record NetworkRecord : Type := MkNetworkRecord { record_network : Network; connection : option conn }.

(** [server]: the scope of a running server. *)
Record BindingRecord : Type := MkBindingRecord { binding : Binding; server : bool }.

Record FilterRecord : Type := MkFilter {
  filter_connection : Z; filter_device : option Device; filter_address : Z; address_mask : Z; flags_ : Z
}.

Definition Flag_OneTime : Z := 0x01.
Definition Flag_Reply : Z := 0x02.

Definition FilterRecord_new (connection_id : Z) : FilterRecord := MkFilter connection_id None 0 0 0.

Inductive SendType : Type := SendType_Request | SendType_Data.

#[export] Instance SendType_eq_dec : EqDecision SendType.
Proof. solve_decision. Defined.

(** [send_network]: the index of the [NetworkRecord&]. *)
Record SendRecord : Type := MkSend { send_type : SendType; send_network : nat; message : Message; response_filter : FilterRecord }.

(** An entry of the loop's queue, with the value of the scope it was enqueued under. *)
Record event : Type := MkEvent { ev_conn : conn; ev_handler : handler; ev_packet : option Packet; ev_scope : Z }.

Record router : Type := MkRouter {
  started_ : bool;
  send_timer_ : bool;            (* [Timeout::started_] *)
  reconnect_timeout_ : bool;     (* [Timeout::started_] *)
  networks_ : list NetworkRecord;
  connected_networks_ : Z;
  bindings_ : list BindingRecord;
  connections_ : list (Z * conn);
  next_connection_id_ : Z;
  filters_ : list FilterRecord;
  send_queue_ : list SendRecord;
  heap_ : list (sock handler);
  queue_ : list event
}.

Definition f_started : field router bool := Field started_ (fun v r => MkRouter v (send_timer_ r) (reconnect_timeout_ r) (networks_ r) (connected_networks_ r) (bindings_ r) (connections_ r) (next_connection_id_ r) (filters_ r) (send_queue_ r) (heap_ r) (queue_ r)).
Definition f_send_timer : field router bool := Field send_timer_ (fun v r => MkRouter (started_ r) v (reconnect_timeout_ r) (networks_ r) (connected_networks_ r) (bindings_ r) (connections_ r) (next_connection_id_ r) (filters_ r) (send_queue_ r) (heap_ r) (queue_ r)).
Definition f_reconnect_timeout : field router bool := Field reconnect_timeout_ (fun v r => MkRouter (started_ r) (send_timer_ r) v (networks_ r) (connected_networks_ r) (bindings_ r) (connections_ r) (next_connection_id_ r) (filters_ r) (send_queue_ r) (heap_ r) (queue_ r)).
Definition f_nets : field router (list NetworkRecord) := Field networks_ (fun v r => MkRouter (started_ r) (send_timer_ r) (reconnect_timeout_ r) v (connected_networks_ r) (bindings_ r) (connections_ r) (next_connection_id_ r) (filters_ r) (send_queue_ r) (heap_ r) (queue_ r)).
Definition f_connected_networks : field router Z := Field connected_networks_ (fun v r => MkRouter (started_ r) (send_timer_ r) (reconnect_timeout_ r) (networks_ r) v (bindings_ r) (connections_ r) (next_connection_id_ r) (filters_ r) (send_queue_ r) (heap_ r) (queue_ r)).
Definition f_binds : field router (list BindingRecord) := Field bindings_ (fun v r => MkRouter (started_ r) (send_timer_ r) (reconnect_timeout_ r) (networks_ r) (connected_networks_ r) v (connections_ r) (next_connection_id_ r) (filters_ r) (send_queue_ r) (heap_ r) (queue_ r)).
Definition f_connections : field router (list (Z * conn)) := Field connections_ (fun v r => MkRouter (started_ r) (send_timer_ r) (reconnect_timeout_ r) (networks_ r) (connected_networks_ r) (bindings_ r) v (next_connection_id_ r) (filters_ r) (send_queue_ r) (heap_ r) (queue_ r)).
Definition f_next_connection_id : field router Z := Field next_connection_id_ (fun v r => MkRouter (started_ r) (send_timer_ r) (reconnect_timeout_ r) (networks_ r) (connected_networks_ r) (bindings_ r) (connections_ r) v (filters_ r) (send_queue_ r) (heap_ r) (queue_ r)).
Definition f_filters : field router (list FilterRecord) := Field filters_ (fun v r => MkRouter (started_ r) (send_timer_ r) (reconnect_timeout_ r) (networks_ r) (connected_networks_ r) (bindings_ r) (connections_ r) (next_connection_id_ r) v (send_queue_ r) (heap_ r) (queue_ r)).
Definition f_send_queue : field router (list SendRecord) := Field send_queue_ (fun v r => MkRouter (started_ r) (send_timer_ r) (reconnect_timeout_ r) (networks_ r) (connected_networks_ r) (bindings_ r) (connections_ r) (next_connection_id_ r) (filters_ r) v (heap_ r) (queue_ r)).
Definition f_heap : field router (list (sock handler)) := Field heap_ (fun v r => MkRouter (started_ r) (send_timer_ r) (reconnect_timeout_ r) (networks_ r) (connected_networks_ r) (bindings_ r) (connections_ r) (next_connection_id_ r) (filters_ r) (send_queue_ r) v (queue_ r)).
Definition f_queue : field router (list event) := Field queue_ (fun v r => MkRouter (started_ r) (send_timer_ r) (reconnect_timeout_ r) (networks_ r) (connected_networks_ r) (bindings_ r) (connections_ r) (next_connection_id_ r) (filters_ r) (send_queue_ r) (heap_ r) v).

(** ** Calls of connections *)

(** The object after a call, what it posted moved to the queue of the loop. *)
Definition put_conn (c : conn) (o : sock handler) (r : router) : router :=
  fset f_queue (queue_ r ++ ((fun '(h, p, sc) => MkEvent c h p sc) <$> posted_ o))
    (fset f_heap (<[c := fset f_posted [] o]> (heap_ r)) r).

(** [connection->m()]: an index past the heap would be a pointer to nothing. *)
Definition call {A} (c : conn) (m : prog (sock handler) A) : prog router A := fun r =>
  match heap_ r !! c with
  | None => Fault NullCall r
  | Some o => match m o with Ok a o' => Ok a (put_conn c o' r) | Fault f o' => Fault f (put_conn c o' r) end
  end.

(** [std::make_shared<SocketConnection>(loop, socket)] *)
Definition new_conn : prog router conn :=
  let! heap := rd f_heap in
  wr f_heap (heap ++ [sock_init]) ;;
  ret (length heap).

(** A pointer that may be null. *)
Definition deref {A} (p : option A) : prog router A :=
  match p with Some c => ret c | None => raise NullCall end.

Definition set_connection (i : nat) (c : option conn) : prog router unit :=
  idx_upd f_nets (Z.of_nat i) (fun n => MkNetworkRecord (record_network n) c).

(** [std::map<uint32_t, ConnectionPtr>], in the order of the keys. *)
Definition conn_find (id : Z) (m : list (Z * conn)) : option conn := snd <$> List.find (fun p => p.1 =? id) m.
Definition conn_erase (id : Z) (m : list (Z * conn)) : list (Z * conn) := List.filter (fun p => negb (p.1 =? id)) m.
Fixpoint conn_insert (id : Z) (c : conn) (m : list (Z * conn)) : list (Z * conn) :=
  match m with
  | [] => [(id, c)]
  | (k, c') :: m' => if id <? k then (id, c) :: m else if id =? k then m else (k, c') :: conn_insert id c m'
  end.

Section Router.
Variable config_ : Config.

(** ** Networks *)

Definition update_reconnect_timer : prog router unit :=
  let! n := rd f_connected_networks in
  let! nets := rd f_nets in
  when (n <? Z.of_nat (length nets)) (wr f_reconnect_timeout true).

(** [connect_tcp] returns a socket where [reach] says so and throws
    [std::runtime_error] otherwise, which is caught. *)
Definition connect_network (reach : text -> text -> bool) (i : Z) : prog router unit :=
  let! n := idx f_nets i in
  match connection n with
  | Some _ => ret tt
  | None =>
      if reach (network_address (record_network n)) (network_service (record_network n)) then
        let! c := new_conn in
        set_connection (Z.to_nat i) (Some c) ;;
        call c (subscribe (OnDevice (Z.to_nat i))) ;;
        let! k := rd f_connected_networks in
        wr f_connected_networks (k + 1)
      else ret tt
  end.

Definition connect_networks (reach : text -> text -> bool) : prog router unit :=
  let! n := rd f_connected_networks in
  let! nets := rd f_nets in
  if Z.of_nat (length nets) <=? n then ret tt
  else
    for_each (range (Z.of_nat (length nets))) (connect_network reach) ;;
    update_reconnect_timer.

Definition disconnect_networks : prog router unit :=
  wr f_reconnect_timeout false ;;
  let! nets := rd f_nets in
  for_each (range (Z.of_nat (length nets))) (fun i =>
    let! n := idx f_nets i in
    let! c := deref (connection n) in
    call c unsubscribe ;;
    set_connection (Z.to_nat i) None) ;;
  wr f_connected_networks 0.

Definition is_reply (f : FilterRecord) : bool := negb (Z.land (flags_ f) Flag_Reply =? 0).

Definition remove_reply_filters (network_name' : text) : prog router unit :=
  let! l := rd f_filters in
  wr f_filters (List.filter (fun f =>
    negb (is_reply f && match filter_device f with Some d => bool_decide (network_name d = network_name') | None => false end)) l).

Definition disconnect_network (i : nat) : prog router unit :=
  let! n := idx f_nets (Z.of_nat i) in
  let! c := deref (connection n) in
  call c unsubscribe ;;
  set_connection i None ;;
  let! k := rd f_connected_networks in
  wr f_connected_networks (k - 1) ;;
  update_reconnect_timer ;;
  remove_reply_filters (network_name_ (record_network n)).

(** ** Filters *)

(** [address & filter.address_mask != filter.address]: the comparison binds tighter. *)
Definition passes_filter (m : Message) (n : Network) (f : FilterRecord) : bool :=
  let address := address_ m in
  if negb (Z.land address (if address_mask f =? filter_address f then 0 else 1) =? 0) then false
  else
    match filter_device f with
    | Some d => if negb (id d =? device_id_ m) || negb (bool_decide (network_name d = network_name_ n)) then false else true
    | None => true
    end.

Definition remove_filters (connection_id : Z) : prog router unit :=
  let! l := rd f_filters in
  wr f_filters (List.filter (fun f => negb (filter_connection f =? connection_id)) l).

Definition close_connection (connection_id : Z) : prog router unit :=
  remove_filters connection_id ;;
  let! m := rd f_connections in
  match conn_find connection_id m with
  | None => ret tt
  | Some c => call c unsubscribe ;; wr f_connections (conn_erase connection_id m)
  end.

(** The command of [route_to]. *)
Definition route_command {St} (m : Message) (d : Device) (reply : bool) : prog St ServiceCommand :=
  let! c := ServiceCommand_new (if reply then txt "reply" else txt "send") in
  on_object c (
    add_argument (txt "device") (device_name d) ;;
    add_argument (txt "network") (network_name d) ;;
    add_uint_argument (txt "address") (address_ m) ;;
    add_raw_argument (txt "data") (body_ m)).

Definition route_to (m : Message) (d : Device) (connection_id : Z) (reply : bool) : prog router bool :=
  let! conns := rd f_connections in
  match conn_find connection_id conns with
  | None => ret false
  | Some c =>
      let! command := route_command m d reply in
      catch range_error (call c (impl_send (PServiceCommand command)) ;; ret true) (ret false)
  end.

Fixpoint set_insert (x : Z) (l : list Z) : list Z :=
  match l with
  | [] => [x]
  | y :: l' => if x <? y then x :: l else if x =? y then l else y :: set_insert x l'
  end.

(** The loop over [filters_] from the iterator at position [pos]; the result is
    [dead_connections].  A filter that is not routed leaves the iterator where it is. *)
Fixpoint route_loop (fuel : nat) (m : Message) (n : Network) (d : Device) (pos : nat) (dead : list Z) : prog router (list Z) :=
  match fuel with
  | O => raise Hang
  | S fuel =>
      let! l := rd f_filters in
      match l !! pos with
      | None => ret dead
      | Some f =>
          if negb (passes_filter m n f) then route_loop fuel m n d (S pos) dead
          else
            let connection_id := filter_connection f in
            let reply := is_reply f in
            let! routed := route_to m d connection_id reply in
            if negb routed then route_loop fuel m n d pos (set_insert connection_id dead)
            else if reply || negb (Z.land (flags_ f) Flag_OneTime =? 0) then
              wr f_filters (delete pos l) ;;
              route_loop fuel m n d pos dead
            else route_loop fuel m n d (S pos) dead
      end
  end.

(** A round that moves on leaves fewer filters ahead, so a loop that ends takes at most
    [S (length filters_)] rounds. *)
Definition handle_device_packet (packet : Packet) (network_index : nat) : prog router unit :=
  match packet with
  | PMessage m =>
      let! nets := rd f_nets in
      verify (network_index <? length nets)%nat ;;
      let! n := idx f_nets (Z.of_nat network_index) in
      match find_device_by_id config_ (network_name_ (record_network n)) (device_id_ m) with
      | None => ret tt
      | Some d =>
          let! l := rd f_filters in
          let! dead := route_loop (S (length l)) m (record_network n) d 0 [] in
          for_each dead close_connection
      end
  | _ => ret tt
  end.

Definition on_device_packet_received (packet : option Packet) (network_index : nat) : prog router unit :=
  let! started := rd f_started in
  if negb started then ret tt
  else
    let! n := idx f_nets (Z.of_nat network_index) in
    match packet with
    | None => disconnect_network network_index
    | Some p => handle_device_packet p network_index
    end.

(** ** Commands *)

(** The function ends without a [return] after a filter is added. *)
Definition handle_filter (command : ServiceCommand) (connection_id : Z) : prog router bool :=
  let device_name := get_argument command (txt "device") [] in
  let device := if bool_decide (device_name = []) then None else find_device config_ device_name in
  if negb (bool_decide (device_name = [])) && bool_decide (device = None) then ret false
  else
    let invalid_value := uint_max in
    let address := get_uint_argument command (txt "address") invalid_value in
    let mask := get_uint_argument command (txt "mask") invalid_value in
    let given := negb (address =? invalid_value) && negb (mask =? invalid_value) in
    if given && ((0xffff <? address) || (0xffff <? mask)) then ret false
    else
      let options := get_argument command (txt "options") [] in
      let flags := if bool_decide (is_Some (find options (txt "one-time") 0)) then Flag_OneTime else 0 in
      let filter := MkFilter connection_id device (if given then Z.land address mask else 0) (if given then mask else 0) flags in
      let! l := rd f_filters in
      wr f_filters (l ++ [filter]) ;;
      raise Undefined.

(** [std::find_if] over the networks: the position, the length when there is none. *)
Definition network_position (d : Device) (l : list NetworkRecord) : nat :=
  default (length l) (fst <$> list_find (fun n => network_name_ (record_network n) = network d) l).

Definition handle_send (command : ServiceCommand) (connection_id : Z) (type : SendType) : prog router bool :=
  let device_name := get_argument command (txt "device") [] in
  match find_device config_ device_name with
  | None => ret false
  | Some device =>
      let! nets := rd f_nets in
      let network_it := network_position device nets in
      verify (negb (network_it =? length nets)%nat) ;;
      let! n := idx f_nets (Z.of_nat network_it) in
      match connection n with
      | None => ret false
      | Some _ =>
          let address := get_uint_argument command (txt "address") uint_max in
          if 0xffff <? address then ret false
          else
            let! data := (if decide (type = SendType_Data) then get_raw_argument command (txt "data") else ret (Some [])) in
            match data with
            | None => ret false
            | Some data =>
                if (8 <? length data)%nat then ret false
                else
                  let message := MkMessage (if decide (type = SendType_Data) then Type_Data else Type_Request) (id device) address data in
                  let filter := if decide (type = SendType_Request) then MkFilter connection_id (Some device) address 0xffff Flag_Reply
                                else FilterRecord_new 0 in
                  let! q := rd f_send_queue in
                  when (bool_decide (q = [])) (wr f_send_timer true) ;;
                  wr f_send_queue (q ++ [MkSend type network_it message filter]) ;;
                  ret true
            end
      end
  end.

Definition handle_command (command : ServiceCommand) (connection_id : Z) : prog router bool :=
  let action := action_ command in
  if bool_decide (action = txt "filter") then handle_filter command connection_id
  else if bool_decide (action = txt "send") then handle_send command connection_id SendType_Data
  else if bool_decide (action = txt "query") then handle_send command connection_id SendType_Request
  else ret false.

(** The packet is used before it is compared with null. *)
Definition on_connection_packet_received (packet : option Packet) (connection_id : Z) : prog router unit :=
  let! started := rd f_started in
  if negb started then ret tt
  else
    let! p := deref packet in
    match p with
    | PServiceCommand command =>
        let! conns := rd f_connections in
        match conn_find connection_id conns with
        | None => ret tt
        | Some c =>
            let! result := handle_command command connection_id in
            let! reply := ServiceCommand_new (if (result : bool) then txt "ok" else txt "fail") in
            let! reply := on_object reply (add_argument (txt "command") (action_ command)) in
            catch range_error (call c (impl_send (PServiceCommand reply))) (close_connection connection_id)
        end
    | _ => ret tt
    end.

(** [Timeout::on_timeout] of [send_timer_], and [on_send_timer]. *)
Definition on_send_timer : prog router unit :=
  let! started := rd f_started in
  let! q := rd f_send_queue in
  match q with
  | [] => ret tt
  | send_record :: q =>
      if negb started then ret tt
      else
        wr f_send_queue q ;;
        let! n := idx f_nets (Z.of_nat (send_network send_record)) in
        let! sent := (match connection n with
          | None => ret false
          | Some c => catch range_error (call c (impl_send (PMessage (message send_record))) ;; ret true)
                        (disconnect_network (send_network send_record) ;; ret false)
          end) in
        when (bool_decide (send_type send_record = SendType_Request) && sent)
          (let! l := rd f_filters in wr f_filters (l ++ [response_filter send_record])) ;;
        let! q := rd f_send_queue in
        when (negb (bool_decide (q = []))) (wr f_send_timer true)
  end.

Definition send_timeout : prog router unit :=
  let! t := rd f_send_timer in
  if (t : bool) then wr f_send_timer false ;; on_send_timer else ret tt.

Definition on_reconnect_timeout (reach : text -> text -> bool) : prog router unit :=
  let! started := rd f_started in
  if (started : bool) then connect_networks reach else ret tt.

Definition reconnect_timeout (reach : text -> text -> bool) : prog router unit :=
  let! t := rd f_reconnect_timeout in
  if (t : bool) then wr f_reconnect_timeout false ;; on_reconnect_timeout reach else ret tt.

(** ** Bindings *)

(** [SocketServer::listen_tcp] and [listen_unix] return a socket where [listens] says so. *)
Definition start_bindings (listens : Binding -> bool) : prog router unit :=
  let! l := rd f_binds in
  for_each (range (Z.of_nat (length l))) (fun i =>
    let! b := idx f_binds i in
    when (negb (listens (binding b))) (raise (Throw runtime_error)) ;;
    idx_set f_binds i (MkBindingRecord (binding b) true)).

Definition stop_bindings : prog router unit :=
  let! l := rd f_binds in
  for_each (range (Z.of_nat (length l))) (fun i =>
    let! b := idx f_binds i in
    when (negb (server b)) (raise NullCall) ;;
    idx_set f_binds i (MkBindingRecord (binding b) false)).

(** A connection accepted and handed to the loop reaches [on_accepted_connection]; a
    [uint32_t] counts the ids. *)
Definition on_accepted_connection (c : conn) : prog router unit :=
  let! started := rd f_started in
  if negb started then ret tt
  else
    let! k := rd f_next_connection_id in
    let id := u32 (k + 1) in
    wr f_next_connection_id id ;;
    let! m := rd f_connections in
    wr f_connections (conn_insert id c m) ;;
    call c (subscribe (OnConnection id)).

Definition close_connections : prog router unit :=
  let! m := rd f_connections in
  for_each m (fun p => call p.2 unsubscribe) ;;
  wr f_connections [] ;;
  wr f_filters [].

(** ** Start and stop *)

Definition Router_new {St} : prog St router :=
  verify (negb (bool_decide (get_bindings config_ = []))) ;;
  verify (negb (bool_decide (get_networks config_ = []))) ;;
  ret (MkRouter false false false ((fun n => MkNetworkRecord n None) <$> get_networks config_) 0
         ((fun b => MkBindingRecord b false) <$> get_bindings config_) [] 0 [] [] [] []).

Definition start (listens : Binding -> bool) (reach : text -> text -> bool) : prog router unit :=
  let! started := rd f_started in
  if (started : bool) then ret tt
  else
    start_bindings listens ;;
    connect_networks reach ;;
    wr f_started true.

(** [scoped_loop_.invalidate()] has no counterpart: the router only ever asks its scope for
    the loop itself, and enqueues nothing under it. *)
Definition stop : prog router unit :=
  let! started := rd f_started in
  if negb started then ret tt
  else
    disconnect_networks ;;
    stop_bindings ;;
    close_connections ;;
    wr f_send_timer false ;;
    wr f_started false.

(** ** The event loop *)

Definition run_handler (h : handler) (packet : option Packet) : prog router unit :=
  match h with
  | OnDevice i => on_device_packet_received packet i
  | OnConnection id => on_connection_packet_received packet id
  end.

(** Without an exception handler an exception ends the program. *)
Definition handle_exception (m : prog router unit) : prog router unit := fun r =>
  match m r with Fault (Throw _) r' => Fault Abort r' | o => o end.

(** One round of [handle_events]: the first event, if its scope is still valid. *)
Definition handle_event : prog router unit :=
  let! q := rd f_queue in
  match q with
  | [] => ret tt
  | e :: q =>
      wr f_queue q ;;
      let! heap := rd f_heap in
      match heap !! ev_conn e with
      | Some o => when (scope_ o =? ev_scope e) (handle_exception (run_handler (ev_handler e) (ev_packet e)))
      | None => ret tt
      end
  end.

(** What the loop meets: an event of its queue, a socket that is ready, a new client, a
    timer, a signal. *)
Inductive input : Type :=
| HandleEvent
| ReadReady (c : conn) (received : recv_result)
| WriteReadyOf (c : conn) (results : list send_result)
| Accept
| SendTimeout
| ReconnectTimeout (reach : text -> text -> bool).

(** A listener calls back while it is started. *)
Definition on_io (c : conn) (started : sock handler -> bool) (m : prog (sock handler) unit) : prog router unit :=
  let! heap := rd f_heap in
  match heap !! c with
  | Some o => when (started o) (handle_exception (call c m))
  | None => ret tt
  end.

(** The accept handler runs from the queue; nothing in between depends on the connection,
    so the two steps are one here. *)
Definition router_step (i : input) : prog router unit :=
  match i with
  | HandleEvent => handle_event
  | ReadReady c received => on_io c read_started_ (on_read_ready received)
  | WriteReadyOf c results => on_io c write_started_ (on_write_ready results)
  | Accept => let! c := new_conn in on_accepted_connection c
  | SendTimeout => send_timeout
  | ReconnectTimeout reach => reconnect_timeout reach
  end.
End Router.
