(* ===== verification/RouterRules.v ===== *)
(** The invariant of the router, and what its operations do with it. *)

From Stdlib Require Import String.
From S2P Require Import Prelude Monad Text Message MessageRules.
From S2P Require Import SocketConnection Config Router.

(** ** The invariant *)

(** The pointer [c] is to a connection subscribed with [h]. *)
Definition subscribed (heap : list (sock handler)) (c : conn) (h : handler) : Prop :=
  exists o, heap !! c = Some o /\ packet_handler_ o = Some h.

Definition up (c : option conn) : Z := match c with Some _ => 1 | None => 0 end.

(** How many networks are connected. *)
Fixpoint connected (l : list NetworkRecord) : Z :=
  match l with [] => 0 | n :: l' => up (connection n) + connected l' end.

Definition filter_wf (f : FilterRecord) : Prop := is_reply f = true -> is_Some (filter_device f).

Definition send_wf (count : nat) (s : SendRecord) : Prop :=
  (send_network s < count)%nat /\ filter_wf (response_filter s).

(** An event was posted by a connection; as long as its scope is the connection's, the
    subscription is the one it was posted under. *)
Definition event_wf (heap : list (sock handler)) (e : event) : Prop :=
  (exists o, heap !! ev_conn e = Some o /\ ev_scope e <= scope_ o /\
    (scope_ o = ev_scope e -> packet_handler_ o = Some (ev_handler e))) /\
  match ev_packet e with Some p => packet_wf p | None => True end.

(** A connection subscribed for a network is that network's. *)
Definition conn_wf (nets : list NetworkRecord) (c : conn) (o : sock handler) : Prop :=
  posted_ o = [] /\
  forall i, packet_handler_ o = Some (OnDevice i) -> exists n, nets !! i = Some n /\ connection n = Some c.

Record core_inv (config : Config) (r : router) : Prop := CoreInv {
  inv_networks : record_network <$> networks_ r = get_networks config;
  inv_count : connected_networks_ r = connected (networks_ r);
  inv_devices : forall i n c, networks_ r !! i = Some n -> connection n = Some c -> subscribed (heap_ r) c (OnDevice i);
  inv_connections : forall id c, (id, c) ∈ connections_ r -> subscribed (heap_ r) c (OnConnection id);
  inv_filters : Forall filter_wf (filters_ r);
  inv_sends : Forall (send_wf (length (networks_ r))) (send_queue_ r);
  inv_events : Forall (event_wf (heap_ r)) (queue_ r);
  inv_conns : forall c o, heap_ r !! c = Some o -> conn_wf (networks_ r) c o
}.

(** While the router runs, waiting messages have a timer, and so have networks that are
    not connected. *)
Definition timers_ok (r : router) : Prop :=
  (send_queue_ r <> [] -> send_timer_ r = true) /\
  (connected_networks_ r < Z.of_nat (length (networks_ r)) -> reconnect_timeout_ r = true).

Definition router_inv (config : Config) (r : router) : Prop :=
  core_inv config r /\ (started_ r = true -> timers_ok r).

(** ** Calls *)

Lemma wp_call {A} E (Q : A -> router -> Prop) c (m : prog (sock handler) A) o r :
  heap_ r !! c = Some o ->
  wp (fun f o' => E f (put_conn c o' r)) m (fun a o' => Q a (put_conn c o' r)) o ->
  wp E (call c m) Q r.
Proof. unfold wp, call. intros ->. by destruct (m o). Qed.

(** What every method of a connection but [subscribe] and [unsubscribe] keeps. *)
Definition same_handler (o o' : sock handler) : Prop :=
  packet_handler_ o' = packet_handler_ o /\ scope_ o' = scope_ o /\
  exists l, posted_ o' = posted_ o ++ l /\ Forall (fun e => Some e.1.1 = packet_handler_ o /\ e.2 = scope_ o /\
    match e.1.2 with Some p => packet_wf p | None => True end) l.

Lemma same_handler_refl o : same_handler o o.
Proof. split; [done|]. split; [done|]. exists []. by rewrite app_nil_r. Qed.

Lemma subscribed_insert heap c o o' c' h :
  heap !! c = Some o -> packet_handler_ o' = packet_handler_ o -> subscribed heap c' h -> subscribed (<[c := o']> heap) c' h.
Proof.
  intros Ho Hh (o1 & H1 & H2). destruct (decide (c' = c)) as [->|Hne].
  - exists o'. rewrite list_lookup_insert_eq by (by eapply lookup_lt_Some). split; [done|]. congruence.
  - exists o1. by rewrite list_lookup_insert_ne.
Qed.

(** Events stay right when a connection's scope does not go back, and its subscription
    changes with the scope only. *)
Lemma event_wf_insert heap c o o' e : heap !! c = Some o -> scope_ o <= scope_ o' ->
  (scope_ o' = scope_ o -> packet_handler_ o' = packet_handler_ o) -> event_wf heap e -> event_wf (<[c := o']> heap) e.
Proof.
  intros Ho Hs Hh [(o1 & H1 & H2 & H3) Hp]. split; [|done]. destruct (decide (ev_conn e = c)) as [Heq|Hne].
  - rewrite Heq in *. rewrite Ho in H1. injection H1 as <-. exists o'.
    rewrite list_lookup_insert_eq by (by eapply lookup_lt_Some). split; [done|]. split; [lia|].
    intros Hsc. rewrite Hh by lia. apply H3. lia.
  - exists o1. by rewrite list_lookup_insert_ne.
Qed.

Lemma lookup_insert_cases {A} (l : list A) i j (x y : A) :
  <[i := x]> l !! j = Some y -> (j = i /\ y = x) \/ (j <> i /\ l !! j = Some y).
Proof.
  destruct (decide (j = i)) as [->|Hne]; [|rewrite list_lookup_insert_ne by done; by right].
  destruct (decide (i < length l)%nat) as [Hi|Hi]; [rewrite list_lookup_insert_eq by done; intros [= <-]; by left|].
  intros H. apply lookup_lt_Some in H. rewrite length_insert in H. lia.
Qed.

Lemma put_conn_inv config c o o' r :
  heap_ r !! c = Some o -> same_handler o o' -> core_inv config r -> core_inv config (put_conn c o' r).
Proof.
  intros Ho (Hh & Hsc & l & Hl & Hlh) []. pose proof (lookup_lt_Some _ _ _ Ho) as Hc.
  destruct (inv_conns0 _ _ Ho) as [Hp Hi].
  constructor; cbn; try done.
  - intros i n c' Hn Hc'. eapply subscribed_insert; [exact Ho|exact Hh|]. by eapply inv_devices0.
  - intros id c' Hc'. eapply subscribed_insert; [exact Ho|exact Hh|]. by apply inv_connections0.
  - apply Forall_app. split.
    + eapply Forall_impl; [|exact inv_events0]. intros e. apply (event_wf_insert _ _ o); [done|cbn; lia|done].
    + rewrite Hl, Hp. cbn [app]. apply Forall_fmap. eapply Forall_impl; [|exact Hlh].
      intros [[h p] sc] (He & Hs & Hpw). cbn in *. split; [|exact Hpw]. eexists. cbn.
      rewrite list_lookup_insert_eq by done. split; [done|]. cbn. rewrite Hsc, Hh. split; [lia|done].
  - intros c' o1 [[-> ->]|[Hne H]]%lookup_insert_cases; [|by apply inv_conns0]. split; [done|]. cbn. rewrite Hh. exact Hi.
Qed.

(** The rest of the router after a call. *)
Lemma timers_put_conn c o r : timers_ok r -> timers_ok (put_conn c o r).
Proof. done. Qed.

Lemma impl_send_wp p o : sendable p ->
  wp (fun f o' => f = Throw range_error /\ o' = o) (impl_send p) (fun _ o' => same_handler o o' /\ posted_ o' = posted_ o) o.
Proof.
  intros Hp. unfold impl_send. apply wp_bind, wp_rd. cbn [fget f_got_error].
  destruct (got_error_ o); [split; [apply same_handler_refl|done]|].
  apply wp_bind. destruct (convert_to_string_eq p o Hp) as (t & Ht & _). eapply wp_eq; [exact Ht|].
  apply wp_bind, wp_rd. destruct (_ <? _)%nat; [done|]. apply wp_bind, wp_wr, wp_wr.
  split; [|done]. split; [done|]. split; [done|]. exists []. cbn. by rewrite app_nil_r.
Qed.

(** Only connections and the queue of the loop have changed. *)
Definition only_calls (r r' : router) : Prop := exists heap queue, r' = fset f_queue queue (fset f_heap heap r).

Lemma only_calls_refl r : only_calls r r.
Proof. exists (heap_ r), (queue_ r). by destruct r. Qed.

Lemma only_calls_trans r1 r2 r3 : only_calls r1 r2 -> only_calls r2 r3 -> only_calls r1 r3.
Proof. intros (h & q & ->) (h' & q' & ->). by exists h', q'. Qed.

(** A send keeps the invariant; one that does not fit raises [range_error]. *)
Lemma call_send_inv config c h p r : core_inv config r -> subscribed (heap_ r) c h -> sendable p ->
  wp (fun f r' => f = Throw range_error /\ core_inv config r' /\ only_calls r r')
     (call c (impl_send p))
     (fun _ r' => core_inv config r' /\ only_calls r r') r.
Proof.
  intros Hr (o & Ho & _) Hp. apply (wp_call _ _ _ _ o); [done|].
  pose proof (impl_send_wp p o Hp) as Hw. unfold wp in *. destruct (impl_send p o) as [a o'|f o'].
  - destruct Hw as [Hw _]. split; [by eapply put_conn_inv|by eexists _, _].
  - destruct Hw as [-> ->]. split; [done|]. split; [|by eexists _, _]. eapply put_conn_inv; [done|apply same_handler_refl|done].
Qed.

Lemma unsubscribe_eq o : unsubscribe o =
  match packet_handler_ o with
  | None => @Ok (sock handler) unit tt o
  | Some _ => Ok tt (MkSock None (scope_ o + 1) false false (read_buffer_ o) [] (got_error_ o) (posted_ o) (wire_ o))
  end.
Proof. destruct o as [[h|]]; done. Qed.

(** Without the object of [c]: what every pointer but [c] needs. *)
Lemma subscribed_ne heap c o c' h h' :
  subscribed heap c h -> h <> h' -> subscribed heap c' h' -> subscribed (<[c := o]> heap) c' h'.
Proof.
  intros (o1 & H1 & H2) Hne (o2 & H3 & H4). exists o2. split; [|done]. rewrite list_lookup_insert_ne; [done|].
  intros ->. rewrite H1 in H3. injection H3 as ->. congruence.
Qed.

Lemma posted_unsubscribed config c o r : core_inv config r -> heap_ r !! c = Some o -> posted_ o = [].
Proof. intros Hr Ho. by apply (inv_conns _ _ Hr) in Ho as [? _]. Qed.

(** ** Networks *)

Lemma connected_insert (l : list NetworkRecord) (i : nat) n c : l !! i = Some n ->
  connected (<[i := MkNetworkRecord (record_network n) c]> l) =
  connected l - up (connection n) + up c.
Proof.
  revert i. induction l as [|x l IH]; intros [|i] Hn; try done.
  - injection Hn as ->. cbn. lia.
  - specialize (IH i Hn). change (<[S i := ?y]> (x :: l)) with (x :: <[i := y]> l). cbn [connected]. lia.
Qed.

Lemma record_network_insert (l : list NetworkRecord) (i : nat) n c : l !! i = Some n ->
  record_network <$> <[i := MkNetworkRecord (record_network n) c]> l = record_network <$> l.
Proof.
  intros Hn. rewrite list_fmap_insert. cbn. apply list_insert_id. by rewrite list_lookup_fmap, Hn.
Qed.

Lemma set_connection_eq i c n r : networks_ r !! i = Some n ->
  set_connection i c r = Ok tt (fset f_nets (<[i := MkNetworkRecord (record_network n) c]> (networks_ r)) r).
Proof. intros Hn. unfold set_connection. rewrite (idx_upd_ok _ _ _ n); [|lia|by rewrite Nat2Z.id]. by rewrite Nat2Z.id. Qed.

Lemma wp_idx_net E (Q : NetworkRecord -> router -> Prop) i n r :
  networks_ r !! i = Some n -> Q n r -> wp E (idx f_nets (Z.of_nat i)) Q r.
Proof. intros Hn HQ. eapply wp_eq; [apply idx_ok; [lia|by rewrite Nat2Z.id]|done]. Qed.

Lemma nets_length config r : core_inv config r -> length (networks_ r) = length (get_networks config).
Proof. intros [H _]. apply (f_equal length) in H. by rewrite length_fmap in H. Qed.

(** A network record changes its connection, and the count follows. *)
Definition put_net (i : nat) (n : NetworkRecord) (c : option conn) (r : router) : router :=
  fset f_connected_networks (connected_networks_ r - up (connection n) + up c)
    (fset f_nets (<[i := MkNetworkRecord (record_network n) c]> (networks_ r)) r).

Lemma lookup_put_net i n c r j n' : networks_ r !! i = Some n -> networks_ (put_net i n c r) !! j = Some n' ->
  (j = i /\ n' = MkNetworkRecord (record_network n) c) \/ (j <> i /\ networks_ r !! j = Some n').
Proof. intros Hn. apply lookup_insert_cases. Qed.

(** A new connection, subscribed for network [i] or for nothing the invariant knows. *)
Lemma new_subscribed (heap : list (sock handler)) o c h : subscribed heap c h -> subscribed (heap ++ [o]) c h.
Proof. intros (o1 & H1 & H2). exists o1. split; [|done]. by apply lookup_app_l_Some. Qed.

Lemma new_event (heap : list (sock handler)) o e : event_wf heap e -> event_wf (heap ++ [o]) e.
Proof. intros [(o1 & H1 & H2) Hp]. split; [|done]. exists o1. split; [|done]. by apply lookup_app_l_Some. Qed.

Lemma lookup_snoc {A} (l : list A) x j (y : A) : (l ++ [x]) !! j = Some y -> l !! j = Some y \/ (j = length l /\ y = x).
Proof.
  intros [H|[Hj H]]%lookup_app_Some; [by left|]. right. apply list_lookup_singleton_Some in H as [H <-]. split; [lia|done].
Qed.

Lemma net_up_inv config i n o r : core_inv config r -> networks_ r !! i = Some n -> connection n = None ->
  posted_ o = [] -> packet_handler_ o = Some (OnDevice i) ->
  core_inv config (put_net i n (Some (length (heap_ r))) (fset f_heap (heap_ r ++ [o]) r)).
Proof.
  intros [] Hn Hnone Ho Hh. constructor; cbn; rewrite ?length_insert; try done.
  - by rewrite record_network_insert.
  - by rewrite (connected_insert _ _ _ _ Hn), inv_count0.
  - intros j n' c [[-> ->]|[Hne Hj]]%lookup_insert_cases Hc; [|by apply new_subscribed; eapply inv_devices0].
    injection Hc as <-. exists o. split; [|done]. by rewrite lookup_app_r, Nat.sub_diag.
  - intros id c Hc. by apply new_subscribed, inv_connections0.
  - eapply Forall_impl; [|exact inv_events0]. intros e. apply new_event.
  - intros c o' [H|[-> ->]]%lookup_snoc.
    + destruct (inv_conns0 _ _ H) as [Hp Hi]. split; [done|]. intros j Hj. destruct (Hi j Hj) as (n' & Hn' & Hc').
      exists n'. split; [|done]. rewrite list_lookup_insert_ne; [done|]. intros ->. congruence.
    + split; [done|]. intros j Hj. rewrite Hh in Hj. injection Hj as <-. eexists.
      rewrite list_lookup_insert_eq by (by eapply lookup_lt_Some). done.
Qed.

Lemma new_client_inv config o r : core_inv config r -> posted_ o = [] -> (forall i, packet_handler_ o <> Some (OnDevice i)) ->
  core_inv config (fset f_heap (heap_ r ++ [o]) r).
Proof.
  intros [] Ho Hh. constructor; cbn; try done.
  - intros i n c Hn Hc. apply new_subscribed. by eapply inv_devices0.
  - intros id c Hc. by apply new_subscribed, inv_connections0.
  - eapply Forall_impl; [|exact inv_events0]. intros e. apply new_event.
  - intros c o' [H|[-> ->]]%lookup_snoc; [by apply inv_conns0|]. split; [done|]. intros i Hi. by apply Hh in Hi.
Qed.

(** A connection nothing refers to any more is unsubscribed. *)
Definition unsubscribed (o : sock handler) : sock handler :=
  MkSock None (scope_ o + 1) false false (read_buffer_ o) [] (got_error_ o) (posted_ o) (wire_ o).

Lemma unsubscribe_events heap c o l : heap !! c = Some o -> Forall (event_wf heap) l ->
  Forall (event_wf (<[c := fset f_posted [] (unsubscribed o)]> heap)) l.
Proof.
  intros Ho Hl. eapply Forall_impl; [|exact Hl]. intros e. apply (event_wf_insert _ _ o); [done|cbn; lia|cbn; lia].
Qed.

Lemma unsubscribe_subscribed heap c o c' h : c' <> c -> subscribed heap c' h -> subscribed (<[c := o]> heap) c' h.
Proof. intros Hne (o1 & H1 & H2). exists o1. by rewrite list_lookup_insert_ne. Qed.

Lemma net_down_inv config i n c o r : core_inv config r -> networks_ r !! i = Some n -> connection n = Some c ->
  heap_ r !! c = Some o -> core_inv config (put_conn c (unsubscribed o) (put_net i n None r)).
Proof.
  intros Hr Hn Hc Ho. pose proof (posted_unsubscribed _ _ _ _ Hr Ho) as Hp.
  destruct (inv_devices _ _ Hr _ _ _ Hn Hc) as (o' & Ho' & Hh). rewrite Ho in Ho'. injection Ho' as <-.
  destruct Hr. constructor; cbn; rewrite ?length_insert; try done.
  - by rewrite record_network_insert.
  - by rewrite (connected_insert _ _ _ _ Hn), inv_count0.
  - intros j n' c' [[-> ->]|[Hne Hj]]%lookup_insert_cases Hc'; [done|]. apply unsubscribe_subscribed; [|by eapply inv_devices0].
    intros ->. destruct (inv_devices0 _ _ _ Hj Hc') as (o' & Ho' & Hh'). rewrite Ho in Ho'. injection Ho' as <-. congruence.
  - intros id c' Hc'. apply unsubscribe_subscribed; [|by apply inv_connections0].
    intros ->. destruct (inv_connections0 _ _ Hc') as (o' & Ho' & Hh'). rewrite Ho in Ho'. injection Ho' as <-. congruence.
  - rewrite Hp, app_nil_r. by apply unsubscribe_events.
  - intros c' o' [[-> ->]|[Hne H]]%lookup_insert_cases; [done|]. destruct (inv_conns0 _ _ H) as [Hp' Hi]. split; [done|].
    intros j Hj. destruct (Hi j Hj) as (n' & Hn' & Hc'). exists n'. split; [|done]. rewrite list_lookup_insert_ne; [done|].
    intros ->. rewrite Hn in Hn'. injection Hn' as <-. congruence.
Qed.

Lemma client_down_inv config c o r : core_inv config r -> heap_ r !! c = Some o ->
  (forall i, packet_handler_ o <> Some (OnDevice i)) -> (forall id, (id, c) ∉ connections_ r) ->
  core_inv config (put_conn c (unsubscribed o) r).
Proof.
  intros Hr Ho Hdev Hconns. pose proof (posted_unsubscribed _ _ _ _ Hr Ho) as Hp. destruct Hr.
  constructor; cbn; try done.
  - intros i n c' Hn Hc. apply unsubscribe_subscribed; [|by eapply inv_devices0]. intros ->.
    destruct (inv_devices0 _ _ _ Hn Hc) as (o' & Ho' & Hh'). rewrite Ho in Ho'. injection Ho' as <-. by apply Hdev in Hh'.
  - intros id c' Hc. apply unsubscribe_subscribed; [|by apply inv_connections0]. intros ->. by apply Hconns in Hc.
  - rewrite Hp, app_nil_r. by apply unsubscribe_events.
  - intros c' o' [[-> ->]|[Hne H]]%lookup_insert_cases; [done|by apply inv_conns0].
Qed.

(** A network comes up. *)
Definition net_step (r r' : router) : Prop :=
  started_ r' = started_ r /\ send_timer_ r' = send_timer_ r /\ send_queue_ r' = send_queue_ r /\
  length (networks_ r') = length (networks_ r) /\ bindings_ r' = bindings_ r.

Lemma connect_network_inv config reach i r : core_inv config r -> (i < length (networks_ r))%nat ->
  wp total (connect_network reach (Z.of_nat i)) (fun _ r' => core_inv config r' /\ net_step r r') r.
Proof.
  intros Hr Hi. destruct (lookup_lt_is_Some_2 _ _ Hi) as [n Hn]. unfold connect_network.
  apply wp_bind, wp_idx_net with n; [done|]. destruct (connection n) as [c|] eqn:Hc; [by apply wp_ret|].
  destruct (reach _ _); [|by apply wp_ret]. apply wp_bind. unfold new_conn.
  apply wp_bind, wp_rd, wp_bind, wp_wr, wp_ret, wp_bind. rewrite Nat2Z.id.
  eapply wp_eq; [by apply set_connection_eq|].
  apply wp_bind. set (new := length (fget f_heap r)). set (o := MkSock (Some (OnDevice i)) 0 true false [] [] false [] []).
  eapply (wp_call _ _ _ _ sock_init).
  { cbn. unfold new. by rewrite lookup_app_r, Nat.sub_diag. }
  eapply wp_eq; [reflexivity|]. apply wp_bind, wp_rd, wp_wr.
  set (r' := fset f_connected_networks _ _).
  assert (r' = put_net i n (Some new) (fset f_heap (heap_ r ++ [o]) r)) as ->.
  { unfold r', put_net, put_conn. cbn. rewrite Hc, app_nil_r. unfold new. cbn.
    replace (<[length (heap_ r) := o]> (heap_ r ++ [sock_init])) with (heap_ r ++ [o]); [f_equal; lia|].
    symmetry. pose proof (insert_app_r (heap_ r) [sock_init] 0 o) as Hi'. rewrite Nat.add_0_r in Hi'. exact Hi'. }
  split; [|repeat split; cbn; by rewrite length_insert]. by apply net_up_inv.
Qed.

Lemma update_reconnect_timer_wp r :
  wp total update_reconnect_timer (fun _ r' =>
    (connected_networks_ r < Z.of_nat (length (networks_ r)) -> reconnect_timeout_ r' = true) /\
    r' = fset f_reconnect_timeout (reconnect_timeout_ r') r) r.
Proof.
  unfold update_reconnect_timer. apply wp_bind, wp_rd, wp_bind, wp_rd. cbn [fget f_connected_networks f_nets].
  apply wp_when; [intros _; by apply wp_wr|]. intros H%Z.ltb_ge. split; [lia|by destruct r].
Qed.

Lemma reconnect_flag_inv config b r : core_inv config r -> core_inv config (fset f_reconnect_timeout b r).
Proof. by intros []. Qed.

Lemma connect_networks_inv config reach r : core_inv config r ->
  wp total (connect_networks reach) (fun _ r' => core_inv config r' /\ net_step r r' /\
    (connected_networks_ r' < Z.of_nat (length (networks_ r')) -> reconnect_timeout_ r' = true)) r.
Proof.
  intros Hr. unfold connect_networks. apply wp_bind, wp_rd, wp_bind, wp_rd. cbn [fget f_connected_networks f_nets].
  destruct (_ <=? _) eqn:Hle; [apply Z.leb_le in Hle; apply wp_ret; split; [done|]; split; [done|lia]|]. apply wp_bind.
  eapply wp_mono.
  { apply (wp_for_each_inv _ _ (fun r' => core_inv config r' /\ net_step r r')); [done|].
    intros i r' Hi [Hr' (H1 & H2 & H3 & H4 & Hb)]. apply range_elem in Hi. rewrite <- (Z2Nat.id i) by lia.
    eapply wp_mono; [apply (connect_network_inv config); [done|lia]|].
    intros [] r'' [Hr'' (H5 & H6 & H7 & H8 & Hb')]. split; [done|]. repeat split; congruence. }
  intros [] r' [Hr' (H1 & H2 & H3 & H4 & Hb)]. eapply wp_mono; [apply update_reconnect_timer_wp|].
  intros [] r'' [Ht ->]. split; [by apply reconnect_flag_inv|]. split; [by repeat split|]. exact Ht.
Qed.

Lemma filters_inv config l r : core_inv config r -> Forall filter_wf l -> core_inv config (fset f_filters l r).
Proof. by intros []. Qed.

Lemma Forall_List_filter {A} (P : A -> Prop) (g : A -> bool) l : Forall P l -> Forall P (List.filter g l).
Proof. induction 1 as [|x l Hx Hl IH]; [constructor|]. cbn. destruct (g x); [by constructor|done]. Qed.

(** A network goes down: its timer runs, and its connection is unsubscribed. *)
Lemma disconnect_network_inv config i n c r : core_inv config r -> networks_ r !! i = Some n -> connection n = Some c ->
  wp total (disconnect_network i) (fun _ r' => core_inv config r' /\ started_ r' = started_ r /\
    send_timer_ r' = send_timer_ r /\ send_queue_ r' = send_queue_ r /\ networks_ r' !! i = Some (MkNetworkRecord (record_network n) None) /\
    (connected_networks_ r' < Z.of_nat (length (networks_ r')) -> reconnect_timeout_ r' = true)) r.
Proof.
  intros Hr Hn Hc. destruct (inv_devices _ _ Hr _ _ _ Hn Hc) as (o & Ho & Hh).
  unfold disconnect_network. apply wp_bind, wp_idx_net with n; [done|]. rewrite Hc. apply wp_bind, wp_ret, wp_bind.
  eapply (wp_call _ _ _ _ o); [done|]. eapply wp_eq; [rewrite unsubscribe_eq, Hh; reflexivity|].
  fold (unsubscribed o). apply wp_bind. eapply wp_eq; [by apply set_connection_eq|].
  apply wp_bind, wp_rd, wp_bind, wp_wr. set (r1 := fset f_connected_networks _ _).
  assert (core_inv config r1) as Hr1.
  { assert (r1 = put_conn c (unsubscribed o) (put_net i n None r)) as ->.
    { unfold r1, put_net. cbn. by rewrite Hc, Z.add_0_r. }
    by apply net_down_inv. }
  apply wp_bind. eapply wp_mono; [apply update_reconnect_timer_wp|]. intros [] r2 [Ht ->].
  unfold remove_reply_filters. apply wp_bind, wp_rd, wp_wr. split.
  - apply filters_inv; [by apply reconnect_flag_inv|]. apply Forall_List_filter. apply (inv_filters _ _ Hr1).
  - repeat split; try done. cbn. by rewrite list_lookup_insert_eq by (by eapply lookup_lt_Some).
Qed.

Lemma conn_find_elem id m c : conn_find id m = Some c -> (id, c) ∈ m.
Proof.
  unfold conn_find. destruct (List.find _ m) as [[k c']|] eqn:Hf; [|done]. intros [= <-].
  apply List.find_some in Hf as [Hin Hk]. apply Z.eqb_eq in Hk. cbn in Hk. subst k. by apply list_elem_of_In.
Qed.

Lemma conn_erase_elem id m p : p ∈ conn_erase id m <-> p ∈ m /\ p.1 <> id.
Proof.
  unfold conn_erase. rewrite !list_elem_of_In, filter_In, negb_true_iff, Z.eqb_neq. done.
Qed.

Lemma conn_insert_elem id c m p : p ∈ conn_insert id c m -> p = (id, c) \/ p ∈ m.
Proof.
  induction m as [|[k c'] m IH]; cbn [conn_insert]; [intros ->%list_elem_of_singleton; by left|].
  destruct (id <? k); [rewrite elem_of_cons; tauto|]. destruct (id =? k); [by right|].
  rewrite !elem_of_cons. tauto.
Qed.

Definition same_timers (r r' : router) : Prop :=
  started_ r' = started_ r /\ send_timer_ r' = send_timer_ r /\ send_queue_ r' = send_queue_ r /\
  reconnect_timeout_ r' = reconnect_timeout_ r /\ networks_ r' = networks_ r /\ connected_networks_ r' = connected_networks_ r.

Lemma same_timers_ok r r' : same_timers r r' -> timers_ok r -> timers_ok r'.
Proof. intros (_ & H1 & H2 & H3 & H4 & H5) [Ha Hb]. unfold timers_ok. by rewrite H1, H2, H3, H4, H5. Qed.

(** A client is dropped with its filters. *)
Lemma close_connection_inv config id r : core_inv config r ->
  wp total (close_connection id) (fun _ r' => core_inv config r' /\ same_timers r r') r.
Proof.
  intros Hr. unfold close_connection, remove_filters. apply wp_bind, wp_bind, wp_rd, wp_wr. set (r1 := fset f_filters _ r).
  assert (core_inv config r1) as Hr1.
  { apply filters_inv; [done|]. apply Forall_List_filter. apply (inv_filters _ _ Hr). }
  apply wp_bind, wp_rd. destruct (conn_find id _) as [c|] eqn:Hc; [|by apply wp_ret].
  apply conn_find_elem in Hc. destruct (inv_connections _ _ Hr1 _ _ Hc) as (o & Ho & Hh).
  apply wp_bind. eapply (wp_call _ _ _ _ o); [done|]. eapply wp_eq; [rewrite unsubscribe_eq, Hh; reflexivity|].
  fold (unsubscribed o). apply wp_wr. split; [|by repeat split].
  set (r2 := fset f_connections (conn_erase id (connections_ r)) r1).
  change (core_inv config (put_conn c (unsubscribed o) r2)).
  assert (core_inv config r2) as Hr2.
  { destruct Hr1. constructor; try done. cbn. intros id' c' [Hin _]%conn_erase_elem. by apply inv_connections0. }
  apply client_down_inv; [done|done|intros i; congruence|].
  intros id' Hin. cbn in Hin. apply conn_erase_elem in Hin as [Hin Hne]. cbn in Hne.
  destruct (inv_connections _ _ Hr1 _ _ Hin) as (o' & Ho' & Hh'). rewrite Ho in Ho'. injection Ho' as <-. congruence.
Qed.

(** ** Routing *)

(** The names that the commands for a device carry are in the alphabet of commands. *)
Definition plain_names (d : Device) : bool := check_string (device_name d) && check_string (network_name d).

Lemma verify_true {St} b (s : St) : b = true -> verify b s = Ok tt s.
Proof. by intros ->. Qed.

Lemma hex_check_string s : forallb plain_digit s = true -> check_string s = true.
Proof.
  intros H. rewrite check_string_forallb. revert H. apply forallb_weaken. intros [[] [] [] [] [] [] [] []]; vm_compute; done.
Qed.

Lemma hex_out_plain w z : forallb plain_digit (hex_out w z) = true.
Proof.
  unfold hex_out. rewrite forallb_app, hex_digits_plain, andb_true_r.
  induction (w - length (hex_digits (hex_length z) z))%nat as [|k IH]; [done|]. cbn [replicate forallb]. by rewrite IH.
Qed.

Lemma put_hex_plain l : forallb plain_digit (put_hex l) = true.
Proof. induction l as [|b l IH]; [done|]. cbn [put_hex]. by rewrite forallb_app, hex_out_plain, IH. Qed.

Lemma add_argument_eq key value c : check_string key = true -> key <> txt "cmd" -> check_string value = true ->
  add_argument key value c = Ok tt (MkServiceCommand (action_ c) (map_set key value (arguments_ c))).
Proof.
  intros Hk Hc Hv. unfold add_argument, bind. rewrite Hk, Hv. rewrite bool_decide_eq_false_2 by done. reflexivity.
Qed.

Lemma ServiceCommand_new_eq {St} a (s : St) : check_string a = true -> ServiceCommand_new a s = Ok (MkServiceCommand a []) s.
Proof. intros Ha. unfold ServiceCommand_new, bind. by rewrite Ha. Qed.

(** The command of a routed message. *)
Definition routed_command (m : Message) (d : Device) (reply : bool) : ServiceCommand :=
  MkServiceCommand (if reply then txt "reply" else txt "send")
    [(txt "address", hex_out (if address_ m <? 256 then 2 else if address_ m <? 256 * 256 then 4 else 8) (address_ m));
     (txt "data", put_hex (body_ m)); (txt "device", device_name d); (txt "network", network_name d)].

Lemma route_command_eq {St} m d reply (s : St) :
  plain_names d = true -> route_command m d reply s = Ok (routed_command m d reply) s.
Proof.
  intros [Hd Hn]%andb_prop. unfold route_command, bind at 1. rewrite ServiceCommand_new_eq by (by destruct reply).
  unfold on_object, bind at 1. rewrite add_argument_eq by done. cbn [action_ arguments_ map_set].
  unfold bind at 1. rewrite add_argument_eq by done. unfold bind at 1, add_uint_argument. cbn [action_ arguments_].
  rewrite add_argument_eq by (done || apply hex_check_string, hex_out_plain).
  unfold add_raw_argument. cbn [action_ arguments_].
  rewrite add_argument_eq by (done || apply hex_check_string, put_hex_plain). by destruct reply.
Qed.

(** A name outside the alphabet is an assertion of the command. *)
Lemma route_command_aborts {St} m d reply (s : St) :
  plain_names d = false -> route_command m d reply s = Fault Abort s.
Proof.
  intros Hd. unfold route_command, bind at 1. rewrite ServiceCommand_new_eq by (by destruct reply).
  unfold on_object, bind at 1. unfold plain_names in Hd. destruct (check_string (device_name d)) eqn:Hdev; cbn [andb] in Hd.
  - rewrite add_argument_eq by done. unfold bind at 1, add_argument, bind at 1. by rewrite Hd.
  - unfold add_argument, bind at 1. by rewrite Hdev.
Qed.

Lemma find_device_elem c name id' d : find_device_by_id c name id' = Some d -> In d (get_devices c).
Proof. by intros [H _]%List.find_some. Qed.

(** Routing to a client delivers the command, or leaves the router as it was. *)
Lemma route_to_inv config m d cid reply r : core_inv config r ->
  plain_names d = true ->
  wp total (route_to m d cid reply) (fun _ r' => core_inv config r' /\ only_calls r r') r.
Proof.
  intros Hr Hd. unfold route_to. apply wp_bind, wp_rd. cbn [fget f_connections].
  destruct (conn_find cid (connections_ r)) as [c|] eqn:Hc; [|by split; [|apply only_calls_refl]].
  apply wp_bind. eapply wp_eq; [by apply route_command_eq|]. apply conn_find_elem, (inv_connections _ _ Hr) in Hc.
  assert (sendable (PServiceCommand (routed_command m d reply))) as Hs by by destruct reply.
  pose proof (call_send_inv _ _ _ _ _ Hr Hc Hs) as Hw. unfold wp, catch, bind in *.
  destruct (call c _ r) as [[] r'|f r']; [done|]. by destruct Hw as (-> & ? & ?).
Qed.

Lemma only_calls_timers r r' : only_calls r r' -> same_timers r r'.
Proof. by intros (h & q & ->). Qed.

Lemma same_timers_trans r1 r2 r3 : same_timers r1 r2 -> same_timers r2 r3 -> same_timers r1 r3.
Proof. unfold same_timers. intuition congruence. Qed.

Lemma delete_filters_inv config pos l r : core_inv config r -> Forall filter_wf l -> core_inv config (fset f_filters (delete pos l) r).
Proof. intros Hr Hl. apply filters_inv; [done|]. by apply Forall_delete. Qed.

(** [f] is for [m], and its client cannot be reached: it is gone, or its buffer is full. *)
Definition unroutable (m : Message) (n : Network) (d : Device) (f : FilterRecord) (r : router) : Prop :=
  passes_filter m n f = true /\ route_to m d (filter_connection f) (is_reply f) r = Ok false r.

Lemma put_conn_same c o r : heap_ r !! c = Some o -> posted_ o = [] -> put_conn c o r = r.
Proof.
  intros Ho Hp. unfold put_conn. rewrite Hp, app_nil_r. replace (fset f_posted [] o) with o by (destruct o; cbn in *; by subst).
  rewrite list_insert_id by done. by destruct r.
Qed.

Lemma route_to_false config m d cid reply r r' : core_inv config r ->
  plain_names d = true ->
  route_to m d cid reply r = Ok false r' -> r' = r.
Proof.
  intros Hr Hd. unfold route_to, bind at 1, rd. cbn [fget f_connections].
  destruct (conn_find cid (connections_ r)) as [c|] eqn:Hc; [|by intros [= <-]].
  unfold bind at 1. rewrite route_command_eq by done. apply conn_find_elem, (inv_connections _ _ Hr) in Hc as (o & Ho & _).
  assert (sendable (PServiceCommand (routed_command m d reply))) as Hs by by destruct reply.
  pose proof (impl_send_wp _ o Hs) as Hw. unfold catch, bind, call, wp in *. rewrite Ho.
  destruct (impl_send _ o) as [[] o'|f o']; [done|]. destruct Hw as [-> ->]. cbn. intros [= <-].
  eapply put_conn_same; [done|]. by eapply posted_unsubscribed.
Qed.

Lemma unroutable_loop fuel m n d f : forall pos dead r,
  filters_ r !! pos = Some f -> unroutable m n d f r -> route_loop fuel m n d pos dead r = Fault Hang r.
Proof.
  induction fuel as [|fuel IH]; intros pos dead r Hf [Hp Hu]; [done|]. cbn [route_loop]. unfold bind at 1, rd.
  cbn [fget f_filters]. rewrite Hf, Hp. cbn [negb]. unfold bind at 1. rewrite Hu. cbn [negb]. by apply IH.
Qed.

(** [f] is for [m], its client is there, and the command for it cannot be made, since the
    device has a name outside the alphabet. *)
Definition unnameable (m : Message) (n : Network) (d : Device) (f : FilterRecord) (r : router) : Prop :=
  passes_filter m n f = true /\ is_Some (conn_find (filter_connection f) (connections_ r)) /\ plain_names d = false.

Definition route_fault (m : Message) (n : Network) (d : Device) (f : fault) (r : router) : Prop :=
  f = Hang /\ (exists flt, flt ∈ filters_ r /\ unroutable m n d flt r) \/
  f = Abort /\ (exists flt, flt ∈ filters_ r /\ unnameable m n d flt r).

(** With a device whose names cannot be put into a command, the first filter that is for a
    message ends the loop, one way or the other. *)
Lemma route_loop_unnameable fuel m n d : forall pos dead r, plain_names d = false ->
  (pos <= length (filters_ r) < fuel + pos)%nat ->
  wp (route_fault m n d) (route_loop fuel m n d pos dead) (fun l r' => l = dead /\ r' = r) r.
Proof.
  induction fuel as [|fuel IH]; intros pos dead r Hd Hfuel; [lia|]. cbn [route_loop].
  apply wp_bind, wp_rd. cbn [fget f_filters]. destruct (filters_ r !! pos) as [f|] eqn:Hf; [|by apply wp_ret].
  pose proof (lookup_lt_Some _ _ _ Hf) as Hlt.
  destruct (negb (passes_filter m n f)) eqn:Hp; [apply IH; [done|lia]|]. apply negb_false_iff in Hp.
  destruct (conn_find (filter_connection f) (connections_ r)) as [c|] eqn:Hc.
  - unfold wp, bind at 1, route_to, bind at 1, rd. cbn [fget f_connections]. rewrite Hc.
    unfold bind at 1. rewrite route_command_aborts by done. right. split; [done|].
    exists f. split; [by eapply list_elem_of_lookup_2|]. split; [done|]. rewrite Hc. split; [by eexists|done].
  - assert (route_to m d (filter_connection f) (is_reply f) r = Ok false r) as Hroute.
    { unfold route_to, bind at 1, rd. cbn [fget f_connections]. by rewrite Hc. }
    unfold wp, bind at 1. rewrite Hroute. cbn [negb]. rewrite (unroutable_loop _ _ _ _ _ _ _ _ Hf) by done.
    left. split; [done|]. exists f. split; [by eapply list_elem_of_lookup_2|done].
Qed.

(** With a round for every filter ahead, the only way the loop fails to end is such a filter. *)
Lemma route_loop_inv config fuel m n d : forall pos dead r, core_inv config r ->
  plain_names d = true ->
  (pos <= length (filters_ r) < fuel + pos)%nat ->
  wp (fun fl r' => fl = Hang /\ exists f, f ∈ filters_ r' /\ unroutable m n d f r')
    (route_loop fuel m n d pos dead) (fun l r' => l = dead /\ core_inv config r' /\ same_timers r r') r.
Proof.
  induction fuel as [|fuel IH]; intros pos dead r Hr Hd Hfuel; [lia|]. cbn [route_loop].
  apply wp_bind, wp_rd. cbn [fget f_filters]. destruct (filters_ r !! pos) as [f|] eqn:Hf.
  2: { apply wp_ret. split; [done|]. split; [exact Hr|by repeat split]. }
  pose proof (lookup_lt_Some _ _ _ Hf) as Hlt.
  destruct (negb (passes_filter m n f)) eqn:Hp; [apply IH; [done..|lia]|]. apply negb_false_iff in Hp.
  pose proof (route_to_inv _ m d (filter_connection f) (is_reply f) _ Hr Hd) as Hw. unfold wp at 1 in Hw.
  unfold wp, bind at 1. destruct (route_to _ _ _ _ r) as [routed r'|] eqn:Hroute; [|done].
  destruct Hw as [Hr' Hc]. destruct routed; cbn [negb].
  - assert (filters_ r' = filters_ r) as Hfr by by destruct Hc as (? & ? & ->).
    pose proof (only_calls_timers _ _ Hc) as Ht. destruct (_ || _).
    + unfold bind at 1, wr. eapply wp_mono.
      { apply IH; [|done|cbn; rewrite length_delete by (by eexists); lia].
        apply delete_filters_inv; [done|]. apply (inv_filters _ _ Hr). }
      intros l r'' (-> & ? & ?). split; [done|]. split; [done|]. eapply same_timers_trans; [exact Ht|done].
    + eapply wp_mono; [apply IH; [done..|rewrite Hfr; lia]|].
      intros l r'' (-> & ? & ?). split; [done|]. split; [done|]. by eapply same_timers_trans.
  - pose proof (route_to_false _ _ _ _ _ _ _ Hr Hd Hroute) as ->. assert (unroutable m n d f r) as Hu by done.
    rewrite (unroutable_loop _ _ _ _ _ _ _ _ Hf Hu). split; [done|]. exists f. split; [|done]. by eapply list_elem_of_lookup_2.
Qed.

(** ** Events *)

(** Why a packet from a network may not be handled: a filter that is for it has a client
    that cannot be reached, or that cannot be told because of the names of the device. *)
Definition device_fault (config : Config) (i : nat) (p : option Packet) (f : fault) (r : router) : Prop :=
  exists m n d, p = Some (PMessage m) /\ get_networks config !! i = Some n /\
    find_device_by_id config (network_name_ n) (device_id_ m) = Some d /\ route_fault m n d f r.

Lemma device_packet_inv config i n c p r : router_inv config r ->
  networks_ r !! i = Some n -> connection n = Some c ->
  wp (device_fault config i p) (on_device_packet_received config p i) (fun _ => router_inv config) r.
Proof.
  intros [Hr Ht] Hn Hc. unfold on_device_packet_received. apply wp_bind, wp_rd. cbn [fget f_started].
  destruct (started_ r) eqn:Hs; cbn [negb]; [|by apply wp_ret; split; [|rewrite Hs]]. specialize (Ht eq_refl).
  apply wp_bind, wp_idx_net with n; [done|]. destruct p as [p|].
  - destruct p as [m| |]; try (by apply wp_ret). unfold handle_device_packet. apply wp_bind, wp_rd. cbn [fget f_nets].
    apply wp_bind. eapply wp_eq; [apply verify_true, Nat.ltb_lt; by eapply lookup_lt_Some|].
    apply wp_bind, wp_idx_net with n; [done|]. destruct (find_device_by_id _ _ _) as [d|] eqn:Hd; [|by apply wp_ret].
    apply wp_bind, wp_rd, wp_bind. cbn [fget f_filters].
    apply (wp_weaken (route_fault m (record_network n) d)).
    { intros f r' Hf. exists m, (record_network n), d. split; [done|].
      split; [by rewrite <- (inv_networks _ _ Hr), list_lookup_fmap, Hn|done]. }
    destruct (plain_names d) eqn:Hplain.
    + pose proof (route_loop_inv config (S (length (filters_ r))) m (record_network n) d 0 [] r Hr Hplain ltac:(lia)) as Hw.
      unfold wp in *. destruct (route_loop _ _ _ _ _ _ r) as [l r'|f r'].
      * destruct Hw as (-> & Hr' & Hs'). cbn. split; [done|]. intros _. by eapply same_timers_ok.
      * by left.
    + eapply wp_mono; [apply route_loop_unnameable; [done|lia]|]. intros l r' [-> ->]. cbn.
      split; [done|]. by intros _.
  - eapply wp_mono; [eapply wp_weaken; [|by eapply disconnect_network_inv]; by intros ? ? []|].
    intros [] r' (Hr' & Hs' & Ht1 & Hq & _ & Hrec). split; [done|]. intros _. destruct Ht as [Ha _]. split; [|exact Hrec].
    by rewrite Hq, Ht1.
Qed.

(** ** Commands *)

Lemma sends_inv config l r : core_inv config r -> Forall (send_wf (length (networks_ r))) l ->
  core_inv config (fset f_send_queue l r).
Proof. by intros []. Qed.

Lemma send_timer_inv config b r : core_inv config r -> core_inv config (fset f_send_timer b r).
Proof. by intros []. Qed.

Definition config_refs_ok (config : Config) : Prop :=
  forall name d, find_device config name = Some d -> exists n, n ∈ get_networks config /\ network_name_ n = network d.

Lemma network_position_lt config d r : core_inv config r ->
  (exists n, n ∈ get_networks config /\ network_name_ n = network d) ->
  exists n, networks_ r !! network_position d (networks_ r) = Some n.
Proof.
  intros Hr (n & Hn & Hname). rewrite <- (inv_networks _ _ Hr) in Hn. apply list_elem_of_fmap in Hn as (x & -> & Hx).
  unfold network_position. destruct (list_find _ (networks_ r)) as [[j y]|] eqn:Hf.
  - apply list_find_Some in Hf as (Hj & _). by exists y.
  - eapply list_find_None in Hf. rewrite Forall_forall in Hf. by apply list_elem_of_In, Hf in Hx.
Qed.

Definition command_fault (command : ServiceCommand) (f : fault) (_ : router) : Prop :=
  f = Undefined /\ action_ command = txt "filter".

(** Nothing but the queue and its timer changes when a message is accepted for sending. *)
Lemma handle_send_inv config command cid type r : router_inv config r -> config_refs_ok config ->
  wp total (handle_send config command cid type) (fun _ r' => router_inv config r' /\ connections_ r' = connections_ r) r.
Proof.
  intros [Hr Ht] Hrefs. unfold handle_send. destruct (find_device config _) as [d|] eqn:Hd; [|by apply wp_ret].
  apply wp_bind, wp_rd, wp_bind. cbn [fget f_nets]. destruct (network_position_lt _ _ _ Hr (Hrefs _ _ Hd)) as [n Hn].
  eapply wp_eq; [apply verify_true, negb_true_iff, Nat.eqb_neq; apply lookup_lt_Some in Hn; lia|].
  apply wp_bind, wp_idx_net with n; [done|]. destruct (connection n) as [c|]; [|by apply wp_ret].
  destruct (0xffff <? _); [by apply wp_ret|]. apply wp_bind.
  eapply (wp_mono _ (fun _ r' => r' = r)); [destruct (decide _); [apply get_raw_argument_wp|by apply wp_ret]|].
  intros data r' ->. destruct data as [data|]; [|by apply wp_ret]. destruct (8 <? length data)%nat; [by apply wp_ret|].
  apply wp_bind, wp_rd, wp_bind. cbn [fget f_send_queue]. set (record := MkSend _ _ _ _).
  assert (send_wf (length (networks_ r)) record) as Hrecord.
  { split; [by eapply lookup_lt_Some|]. cbn. destruct (decide (type = SendType_Request)); [intros _; by eexists|by intros Hf]. }
  assert (Forall (send_wf (length (networks_ r))) (send_queue_ r ++ [record])) as Hsends.
  { apply Forall_app. split; [apply (inv_sends _ _ Hr)|constructor; [exact Hrecord|constructor]]. }
  apply wp_when; [intros _; apply wp_wr|intros Hq%bool_decide_eq_false]; apply wp_bind, wp_wr, wp_ret; (split; [|done]); split.
  - apply sends_inv; [by apply send_timer_inv|done].
  - intros Hs. destruct (Ht Hs) as [_ Hb]. by split.
  - by apply sends_inv.
  - intros Hs. destruct (Ht Hs) as [Ha Hb]. split; [|done]. intros _. by apply Ha.
Qed.

Lemma handle_command_inv config command cid r : router_inv config r -> config_refs_ok config ->
  wp (command_fault command) (handle_command config command cid)
    (fun _ r' => router_inv config r' /\ connections_ r' = connections_ r) r.
Proof.
  intros Hr Hrefs. unfold handle_command. case_bool_decide as Hf.
  - unfold handle_filter. destruct (_ && _); [by apply wp_ret|]. destruct (_ && _); [by apply wp_ret|].
    by apply wp_bind, wp_rd, wp_bind, wp_wr, wp_raise.
  - repeat case_bool_decide; try (by apply wp_ret);
      (eapply wp_weaken; [|by apply handle_send_inv]); by intros ? ? [].
Qed.

(** Why a packet from a client may not be handled. *)
Definition client_fault (p : option Packet) (f : fault) (_ : router) : Prop :=
  (f = NullCall /\ p = None) \/
  (f = Undefined /\ exists c, p = Some (PServiceCommand c) /\ action_ c = txt "filter").

Lemma client_packet_inv config p cid r : router_inv config r -> config_refs_ok config ->
  match p with Some p => packet_wf p | None => True end ->
  wp (client_fault p) (on_connection_packet_received config p cid) (fun _ => router_inv config) r.
Proof.
  intros Hr Hrefs Hp. unfold on_connection_packet_received. apply wp_bind, wp_rd. cbn [fget f_started].
  destruct (negb _); [by apply wp_ret|]. apply wp_bind. destruct p as [p|]; [apply wp_ret|by left].
  destruct p as [| |command]; try (by apply wp_ret). destruct Hp as (Ha0 & Ha & _).
  apply wp_bind, wp_rd. cbn [fget f_connections]. destruct (conn_find cid (connections_ r)) as [c|] eqn:Hc; [|by apply wp_ret].
  apply wp_bind. eapply wp_mono; [eapply wp_weaken; [|by apply handle_command_inv]|].
  { intros f r' [-> Hact]. right. split; [done|]. by exists command. }
  intros result r' [[Hr' Ht'] Hconns]. apply wp_bind. eapply wp_eq; [apply ServiceCommand_new_eq; by destruct result|].
  apply wp_bind. eapply (wp_eq _ _ _ (MkServiceCommand (if result then txt "ok" else txt "fail") [(txt "command", action_ command)])).
  { unfold on_object. rewrite add_argument_eq by done. done. }
  assert (subscribed (heap_ r') c (OnConnection cid)) as Hsub.
  { apply (inv_connections _ _ Hr'). rewrite Hconns. by apply conn_find_elem. }
  assert (sendable (PServiceCommand (MkServiceCommand (if result then txt "ok" else txt "fail") [(txt "command", action_ command)]))) as Hsend
    by by destruct result.
  pose proof (call_send_inv _ _ _ _ _ Hr' Hsub Hsend) as Hw. unfold wp at 1 in Hw. unfold wp, catch.
  destruct (call c _ r') as [[] r2|f r2].
  - destruct Hw as [Hr2 Hcalls]. split; [done|]. intros Hs. apply only_calls_timers in Hcalls.
    eapply same_timers_ok; [exact Hcalls|]. apply Ht'. destruct Hcalls as [<- _]. exact Hs.
  - destruct Hw as (-> & Hr2 & Hcalls). rewrite bool_decide_eq_true_2 by done. pose proof (close_connection_inv config cid r2 Hr2) as Hclose. unfold wp in Hclose.
    destruct (close_connection cid r2) as [[] r3|]; [|done]. destruct Hclose as [Hr3 Hst]. split; [done|]. intros Hs.
    apply only_calls_timers in Hcalls. pose proof (same_timers_trans _ _ _ Hcalls Hst) as Hall.
    eapply same_timers_ok; [exact Hall|]. apply Ht'. destruct Hall as [<- _]. exact Hs.
Qed.

(** ** Timers *)

Lemma on_send_timer_inv config r : core_inv config r ->
  (connected_networks_ r < Z.of_nat (length (networks_ r)) -> started_ r = true -> reconnect_timeout_ r = true) ->
  wp total on_send_timer (fun _ r' => router_inv config r' /\
    (started_ r = true -> started_ r' = true /\ send_queue_ r' = tail (send_queue_ r))) r.
Proof.
  intros Hr Hrec. unfold on_send_timer. apply wp_bind, wp_rd, wp_bind, wp_rd. cbn [fget f_started f_send_queue].
  destruct (send_queue_ r) as [|sr q] eqn:Hq.
  { apply wp_ret. split; [|done]. split; [done|]. intros Hs. split; [by rewrite Hq|]. intros Hc. by apply Hrec. }
  destruct (started_ r) eqn:Hs; cbn [negb]; [|by apply wp_ret; split; [split; [|rewrite Hs]|]].
  pose proof (inv_sends _ _ Hr) as Hsends. rewrite Hq in Hsends. apply Forall_cons_1 in Hsends as [[Hnet Hfilter] Hsends].
  destruct (lookup_lt_is_Some_2 _ _ Hnet) as [n Hn]. apply wp_bind, wp_wr. set (r1 := fset f_send_queue q r).
  assert (core_inv config r1) as Hr1 by by apply sends_inv.
  apply wp_bind, wp_idx_net with n; [done|]. apply wp_bind.
  eapply (wp_mono _ (fun _ r' => core_inv config r' /\ started_ r' = true /\ send_queue_ r' = q /\
    (connected_networks_ r' < Z.of_nat (length (networks_ r')) -> reconnect_timeout_ r' = true))).
  { destruct (connection n) as [c|] eqn:Hc; [|apply wp_ret; split; [done|]; split; [done|]; split; [done|]; cbn; auto].
    pose proof (inv_devices _ _ Hr1 _ _ _ Hn Hc) as Hsub.
    pose proof (call_send_inv _ _ _ (PMessage (message sr)) _ Hr1 Hsub I) as Hw. unfold wp at 1 in Hw.
    unfold wp, catch, bind at 1. destruct (call c _ r1) as [[] r2|f r2].
    - destruct Hw as [Hr2 (h & qu & ->)]. split; [done|]. split; [done|]. split; [done|]. cbn. auto.
    - destruct Hw as (-> & Hr2 & (h & qu & ->)). rewrite bool_decide_eq_true_2 by done.
      pose proof (disconnect_network_inv config _ n c _ Hr2 Hn Hc) as Hd. unfold wp in Hd. unfold bind.
      destruct (disconnect_network _ _) as [[] r3|]; [|done]. destruct Hd as (Hr3 & Hs3 & Ht3 & Hq3 & _ & Hrec3).
      split; [done|]. split; [by rewrite Hs3|]. by split. }
  intros sent r2 (Hr2 & Hs2 & Hq2 & Hrec2). apply wp_bind.
  eapply (wp_mono _ (fun _ r' => core_inv config r' /\ started_ r' = true /\ send_queue_ r' = q /\
    (connected_networks_ r' < Z.of_nat (length (networks_ r')) -> reconnect_timeout_ r' = true))).
  { apply wp_when; [|by intros _]. intros _. apply wp_bind, wp_rd, wp_wr. split; [|done].
    apply filters_inv; [done|]. apply Forall_app. split; [apply (inv_filters _ _ Hr2)|by constructor]. }
  intros [] r3 (Hr3 & Hs3 & Hq3 & Hrec3). apply wp_bind, wp_rd. cbn [fget f_send_queue]. rewrite Hq3.
  apply wp_when.
  - intros _. apply wp_wr. split; [|done]. split; [by apply send_timer_inv|]. intros _. split; [done|exact Hrec3].
  - intros Hnil%negb_false_iff%bool_decide_eq_true. split; [|done]. split; [done|]. intros _. split; [by rewrite Hq3|done].
Qed.

(** One expiry of the timer takes one message off the queue, whatever becomes of it. *)
Lemma send_timeout_pops config r : router_inv config r ->
  wp total send_timeout (fun _ r' => router_inv config r' /\
    (started_ r = true -> started_ r' = true /\ send_queue_ r' = tail (send_queue_ r))) r.
Proof.
  intros [Hr Ht]. unfold send_timeout. apply wp_bind, wp_rd. cbn [fget f_send_timer].
  destruct (send_timer_ r) eqn:Htimer.
  - apply wp_bind, wp_wr. eapply wp_mono; [apply on_send_timer_inv; [by apply send_timer_inv|]|done].
    cbn. intros Hc Hs. by apply Ht.
  - apply wp_ret. split; [done|]. intros Hs. split; [done|]. destruct (Ht Hs) as [Ha _].
    destruct (send_queue_ r); [done|]. rewrite Ha in Htimer by done. done.
Qed.

Lemma send_timeout_inv config r : router_inv config r -> wp total send_timeout (fun _ => router_inv config) r.
Proof. intros Hr. eapply wp_mono; [by eapply send_timeout_pops|]. by intros [] r' []. Qed.

Lemma reconnect_timeout_inv config reach r : router_inv config r ->
  wp total (reconnect_timeout reach) (fun _ => router_inv config) r.
Proof.
  intros [Hr Ht]. unfold reconnect_timeout. apply wp_bind, wp_rd. cbn [fget f_reconnect_timeout].
  destruct (reconnect_timeout_ r); [|by apply wp_ret]. apply wp_bind, wp_wr. unfold on_reconnect_timeout.
  apply wp_bind, wp_rd. cbn [fget f_started]. set (r1 := fset f_reconnect_timeout false r).
  change (started_ r1) with (started_ r). destruct (started_ r) eqn:Hs.
  - eapply wp_mono; [apply connect_networks_inv; by apply reconnect_flag_inv|].
    intros [] r2 (Hr2 & (Hs2 & Ht2 & Hq2 & _) & Hrec). split; [done|]. intros _. destruct (Ht eq_refl) as [Ha _].
    split; [|exact Hrec]. rewrite Hq2, Ht2. exact Ha.
  - apply wp_ret. split; [by apply reconnect_flag_inv|]. cbn. by rewrite Hs.
Qed.

(** ** Sockets *)

Lemma parse_wf line p : parse line = Some p -> packet_wf p.
Proof.
  unfold parse. pose proof (Packet_create_wp line tt) as H. unfold wp in H.
  destruct (Packet_create line tt) as [p' s'|]; [|done]. intros [= <-]. apply H.
Qed.

Lemma after_lines_same lines rest (o : sock handler) : same_handler o (after_lines lines rest o).
Proof.
  destruct o as [[h|]]; (split; [done|]; split; [done|]); cbn; [|exists []; by rewrite app_nil_r].
  eexists. split; [done|]. apply Forall_fmap. induction lines as [|line lines IH]; [constructor|]. cbn.
  destruct (parse line) as [p|] eqn:Hp; [|done]. constructor; [|done]. cbn. repeat split; try done. by eapply parse_wf.
Qed.

Lemma handle_error_same (o : sock handler) : wp total handle_error (fun _ => same_handler o) o.
Proof.
  destruct o as [[h|]]; unfold wp; cbn; (split; [done|]; split; [done|]); [|exists []; by rewrite app_nil_r].
  eexists. split; [done|]. by repeat constructor.
Qed.

(** A socket whose failure ends the program. *)
Definition socket_fault (o : sock handler) (f : fault) (o' : sock handler) : Prop := f = Throw runtime_error /\ same_handler o o'.

Lemma on_read_ready_same received o :
  wp (fun f _ => f = Throw runtime_error /\ received = RecvFailed OtherError) (on_read_ready received)
    (fun _ => same_handler o) (o : sock handler).
Proof.
  destruct received as [[|c data]|[]]; cbn [on_read_ready].
  - apply wp_ret, same_handler_refl.
  - apply wp_bind, wp_rd, wp_bind, wp_wr. eapply wp_eq; [apply read_loop_eq; cbn; lia|].
    pose proof (after_lines_same (scan [] (drop 0 (read_buffer_ o ++ c :: data))).1 (scan [] (drop 0 (read_buffer_ o ++ c :: data))).2
      (fset f_read_buffer (read_buffer_ o ++ c :: data) o)) as H. exact H.
  - apply wp_ret, same_handler_refl.
  - eapply wp_weaken; [|apply handle_error_same]. by intros ? ? [].
  - by apply wp_raise.
Qed.

Lemma same_handler_trans o1 o2 o3 : same_handler o1 o2 -> same_handler o2 o3 -> same_handler o1 o3.
Proof.
  intros (H1 & H2 & l & H3 & H4) (H5 & H6 & l' & H7 & H8). rewrite H1, H2 in *.
  split; [congruence|]. split; [congruence|]. exists (l ++ l'). rewrite H7, H3, app_assoc. split; [done|]. by apply Forall_app.
Qed.

Lemma write_loop_same data results : forall pos (o : sock handler),
  wp (fun f _ => f = Hang /\ runs_short (length data - pos) results \/ f = Throw runtime_error /\ SendFailed OtherError ∈ results)
    (write_loop data results pos)
    (fun _ => same_handler o) o.
Proof.
  induction results as [|[n|[]] results IH]; intros pos o; cbn [write_loop];
    (destruct (_ <=? _)%nat eqn:Hpos; [apply wp_ret, same_handler_refl|]).
  - apply Nat.leb_gt in Hpos. left. split; [done|]. exists O. split; [done|lia].
  - apply wp_bind, wp_rd, wp_bind, wp_wr. eapply wp_mono; [eapply wp_weaken; [|apply IH]|].
    + intros f _ [[? ?]|[? ?]]; [left; split; [done|by apply runs_short_sent]|]. right. split; [done|]. by apply list_elem_of_further.
    + intros a o' Ho'. exact Ho'.
  - apply wp_ret, same_handler_refl.
  - apply wp_bind. eapply wp_mono; [eapply wp_weaken; [|apply handle_error_same]; by intros ? ? []|]. intros [] o' Ho'. by apply wp_ret.
  - right. split; [done|]. by apply list_elem_of_here.
Qed.

Lemma on_write_ready_same results (o : sock handler) :
  wp (fun f _ => f = Hang /\ runs_short (length (write_buffer_ o)) results \/ f = Throw runtime_error /\ SendFailed OtherError ∈ results)
    (on_write_ready results)
    (fun _ => same_handler o) o.
Proof.
  unfold on_write_ready. apply wp_bind, wp_rd, wp_bind. cbn [fget f_write_buffer].
  rewrite <- (Nat.sub_0_r (length (write_buffer_ o))). eapply wp_mono; [apply write_loop_same|].
  intros pos o' Ho'. destruct (_ <? _)%nat; [by apply wp_wr|by apply wp_bind, wp_wr, wp_wr].
Qed.
