(* ===== verification/RouterProps.v ===== *)
(** Properties of the router: its invariant over every input, and the behaviour of
    filters, queries, the send queue and shutdown. *)

From Stdlib Require Import String.
From S2P Require Import Prelude Monad Text Message MessageRules.
From S2P Require Import SocketConnection Config Router RouterRules.

(** ** Every input *)

(** What the loop meets, when the router does not come back from it. *)
Definition step_fault (config : Config) (i : input) (r0 : router) (f : fault) (r : router) : Prop :=
  match i with
  | HandleEvent =>
      exists e q, queue_ r0 = e :: q /\
        match ev_handler e with
        | OnDevice k => device_fault config k (ev_packet e) f r
        | OnConnection _ => client_fault (ev_packet e) f r
        end
  | ReadReady _ received => f = Abort /\ received = RecvFailed OtherError
  | WriteReadyOf c results =>
      f = Hang /\ (exists o, heap_ r0 !! c = Some o /\ runs_short (length (write_buffer_ o)) results) \/
      f = Abort /\ SendFailed OtherError ∈ results
  | Accept | SendTimeout | ReconnectTimeout _ => False
  end.

Lemma queue_inv config q r : core_inv config r -> Forall (event_wf (heap_ r)) q -> core_inv config (fset f_queue q r).
Proof. by intros []. Qed.

Lemma wp_handle_exception (E1 E2 : fault -> router -> Prop) m Q r :
  wp E1 m Q r -> (forall f r', E1 f r' -> match f with Throw _ => E2 Abort r' | _ => E2 f r' end) ->
  wp E2 (handle_exception m) Q r.
Proof.
  unfold wp, handle_exception. intros H HE. destruct (m r) as [a r'|f r']; [done|]. specialize (HE f r' H). by destruct f.
Qed.

Lemma handle_event_inv config r : router_inv config r -> config_refs_ok config ->
  wp (step_fault config HandleEvent r) (handle_event config) (fun _ => router_inv config) r.
Proof.
  intros [Hr Ht] Hrefs. unfold handle_event. apply wp_bind, wp_rd. cbn [fget f_queue].
  destruct (queue_ r) as [|e q] eqn:Hq; [by apply wp_ret|]. pose proof (inv_events _ _ Hr) as Hev. rewrite Hq in Hev.
  apply Forall_cons_1 in Hev as [[(o & Ho & Hsc & Hh) Hp] Hev]. apply wp_bind, wp_wr. set (r1 := fset f_queue q r).
  assert (router_inv config r1) as Hr1 by (split; [by apply queue_inv|exact Ht]).
  apply wp_bind, wp_rd. change (fget f_heap r1) with (heap_ r). rewrite Ho. apply wp_when; [|done].
  intros Hvalid%Z.eqb_eq. specialize (Hh Hvalid). destruct (inv_conns _ _ Hr _ _ Ho) as [_ Hdev].
  destruct (ev_handler e) as [i|id] eqn:Hhandler; cbn [run_handler].
  - destruct (Hdev i Hh) as (n & Hn & Hc).
    eapply wp_handle_exception; [by eapply (device_packet_inv config i n)|].
    intros f r' Hf. assert (step_fault config HandleEvent r f r') as Hs by (exists e, q; by rewrite Hhandler).
    destruct f; try exact Hs. by destruct Hf as (? & ? & ? & _ & _ & _ & [[? _]|[? _]]).
  - eapply wp_handle_exception; [by apply client_packet_inv|].
    intros f r' Hf. assert (step_fault config HandleEvent r f r') as Hs by (exists e, q; by rewrite Hhandler).
    destruct f; try exact Hs. by destruct Hf as [[Hf _]|[Hf _]].
Qed.

Lemma on_io_inv config c started m E r : router_inv config r ->
  (forall o, heap_ r !! c = Some o -> wp E m (fun _ => same_handler o) o) ->
  (forall f o, E f o -> f <> Hang -> exists e, f = Throw e) ->
  wp (fun f _ => exists o, E Hang o /\ f = Hang \/ f = Abort /\ exists e, E (Throw e) o) (on_io c started m) (fun _ => router_inv config) r.
Proof.
  intros [Hr Ht] Hm HE. unfold on_io. apply wp_bind, wp_rd. cbn [fget f_heap]. destruct (heap_ r !! c) as [o|] eqn:Ho; [|by apply wp_ret].
  apply wp_when; [|done]. intros _. specialize (Hm o eq_refl). unfold wp, handle_exception, call in *. rewrite Ho.
  destruct (m o) as [[] o'|f o'].
  - split; [by eapply put_conn_inv|]. exact Ht.
  - destruct (decide (f = Hang)) as [->|Hf]; [exists o'; by left|]. destruct (HE _ _ Hm Hf) as [e ->].
    exists o'. right. split; [done|]. by exists e.
Qed.

Lemma connections_inv config m r : core_inv config r ->
  (forall id c, (id, c) ∈ m -> subscribed (heap_ r) c (OnConnection id)) -> core_inv config (fset f_connections m r).
Proof. by intros []. Qed.

Lemma accept_inv config r : router_inv config r ->
  wp total (let! c := new_conn in on_accepted_connection c) (fun _ => router_inv config) r.
Proof.
  intros [Hr Ht]. unfold new_conn. apply wp_bind, wp_bind, wp_rd, wp_bind, wp_wr, wp_ret. unfold on_accepted_connection.
  apply wp_bind, wp_rd. cbn [fget f_started f_heap]. set (r1 := fset f_heap _ r). change (started_ r1) with (started_ r).
  destruct (started_ r) eqn:Hs; cbn [negb].
  2: { apply wp_ret. split; [by apply new_client_inv|]. cbn. by rewrite Hs. }
  apply wp_bind, wp_rd, wp_bind, wp_wr, wp_bind, wp_rd, wp_bind, wp_wr. cbn [fget f_next_connection_id].
  set (id := u32 _). set (c := length (heap_ r)). set (o := MkSock (Some (OnConnection id)) 0 true false [] [] false [] []).
  eapply (wp_call _ _ _ _ sock_init); [by apply list_lookup_middle|]. eapply wp_eq; [reflexivity|].
  set (r2 := put_conn _ _ _).
  assert (r2 = fset f_next_connection_id id (fset f_connections (conn_insert id c (connections_ r)) (fset f_heap (heap_ r ++ [o]) r))) as ->.
  { unfold r2, put_conn, c. cbn. rewrite app_nil_r. pose proof (insert_app_r (heap_ r) [sock_init] 0 o) as Hi'.
    rewrite Nat.add_0_r in Hi'. unfold r1. cbn [fset f_heap f_queue f_connections f_next_connection_id heap_ queue_]. f_equal. exact Hi'. }
  assert (core_inv config (fset f_heap (heap_ r ++ [o]) r)) as Hr1 by by apply new_client_inv.
  split; [|intros _; by apply Ht]. apply (connections_inv config (conn_insert id c (connections_ r))) in Hr1; [by destruct Hr1|].
  intros id' c' [[= -> ->]|Hin]%conn_insert_elem.
  - exists o. split; [|done]. by apply list_lookup_middle.
  - apply new_subscribed. by apply (inv_connections _ _ Hr).
Qed.

(** ** Properties *)

(** C3. The router keeps its invariant through every input of its event loop: an event
    of the queue, a readable or writable socket, a new client, either timer.  Connected
    networks are counted right and are subscribed; a client's connection is subscribed
    for that client; an event that is still valid belongs to the current subscription;
    while the router runs, a message that waits has a timer and so has a network that is
    down.  And an input that is not handled to its end is one of these: a client's
    connection that failed (the null packet is used before it is tested), a client's
    [filter] command (the function that handles it ends without a value), a message for
    a client that cannot be reached (the loop over the filters does not move on), a message
    of a device whose name, or whose network's, is not in the alphabet of commands (the
    configuration does not test for that, the command asserts it), a socket call that
    failed in a way the code does not know, or a kernel that neither takes the rest of what
    is written nor refuses it.  Of the configuration it is assumed that the network of
    every device is in it, as every configuration that loads has it. *)
Theorem router_safe config i r : router_inv config r -> config_refs_ok config ->
  wp (step_fault config i r) (router_step config i) (fun _ => router_inv config) r.
Proof.
  intros Hr Hconfig. destruct i as [|c received|c results| | |reach]; cbn [router_step].
  - by apply handle_event_inv.
  - eapply wp_weaken; [|eapply (on_io_inv config c _ _ (fun f _ => f = Throw runtime_error /\ received = RecvFailed OtherError));
      [done|intros o _; apply on_read_ready_same|intros f o [-> _] _; by eexists]].
    intros f r' (o & [[[] _]|[-> (e & [_ He])]]); [done|]. by split.
  - eapply wp_weaken; [|eapply (on_io_inv config c _ _ (fun f _ =>
      f = Hang /\ (exists o, heap_ r !! c = Some o /\ runs_short (length (write_buffer_ o)) results) \/
      f = Throw runtime_error /\ SendFailed OtherError ∈ results)); [done| |]].
    + intros f r' (o & [[[[_ Hsh]|[? _]] ->]|[-> (e & [[? _]|[_ He]])]]); [by left|done|done|by right].
    + intros o Ho. eapply wp_weaken; [|apply on_write_ready_same].
      intros f o' [[-> Hsh]|?]; [left; split; [done|by exists o]|by right].
    + intros f o [[-> _]|[-> _]] ?; [done|by eexists].
  - eapply wp_weaken; [|by apply accept_inv]. by intros ? ? [].
  - eapply wp_weaken; [|by apply send_timeout_inv]. by intros ? ? [].
  - eapply wp_weaken; [|by apply reconnect_timeout_inv]. by intros ? ? [].
Qed.

(** ** A sample router *)

Definition sample_network : Network := MkNetwork (txt "main") (txt "10.0.0.2") (txt "2121").
Definition sample_device : Device := MkDevice (txt "hall") (txt "main") (txt "main") 0x1f.
Definition sample_config : Config :=
  MkConfig [(txt "main", sample_network)] [(txt "hall", sample_device)] [MkBinding Type_TCP [] (txt "2222") 5].

(** Connected to its network (connection 0), with one client of id 1 (connection 1). *)
Definition sample_router (filters : list FilterRecord) (queue : list event) : router :=
  MkRouter true false false [MkNetworkRecord sample_network (Some 0%nat)] 1
    [MkBindingRecord (MkBinding Type_TCP [] (txt "2222") 5) true] [(1, 1%nat)] 1 filters []
    [MkSock (Some (OnDevice 0)) 0 true false [] [] false [] []; MkSock (Some (OnConnection 1)) 0 true false [] [] false [] []] queue.

Example sample_router_starts :
  (let! r := Router_new sample_config in fun _ : unit =>
   match (start (fun _ => true) (fun _ _ => true) ;; router_step sample_config Accept) r with
   | Ok _ r' => Ok r' tt | Fault f _ => Fault f tt end) tt = Ok (sample_router [] []) tt.
Proof. vm_compute. reflexivity. Qed.

Lemma sample_config_ok : config_refs_ok sample_config.
Proof.
  intros name d. unfold find_device. cbn [Config.devices_ sample_config map_find].
  case_bool_decide; [|done]. intros [= <-]. exists sample_network. split; [|done]. by apply list_elem_of_here.
Qed.

Lemma sample_router_inv filters queue :
  Forall filter_wf filters -> Forall (event_wf (heap_ (sample_router [] []))) queue -> router_inv sample_config (sample_router filters queue).
Proof.
  intros Hf Hq. split; [|by intros _; split]. constructor; cbn; try done.
  - intros [|i] n c; [|done]. intros [= <-] [= <-]. by eexists.
  - intros id c [= -> ->]%list_elem_of_singleton. by eexists.
  - intros [|[|i]] o; [| |done]; intros [= <-]; (split; [done|]); intros i; [intros [= <-]; by eexists|done].
Qed.

(** A client whose connection broke: the null packet. *)
Lemma router_safe_witness :
  let r := sample_router [] [MkEvent 1 (OnConnection 1) None 0] in
  router_inv sample_config r /\
  (match router_step sample_config HandleEvent r with Fault f r' => step_fault sample_config HandleEvent r f r' /\ f = NullCall | Ok _ _ => False end) /\
  (match router_step sample_config (ReadReady 1 (RecvFailed Closed)) r with Ok _ r' => router_inv sample_config r' | Fault _ _ => False end).
Proof.
  intros r. assert (router_inv sample_config r) as Hr.
  { apply sample_router_inv; [constructor|]. constructor; [|constructor]. split; [|done]. by eexists. }
  split; [done|]. split.
  - pose proof (router_safe sample_config HandleEvent r Hr sample_config_ok) as H. unfold wp in H.
    destruct (router_step sample_config HandleEvent r) as [[] r'|f r'] eqn:Hs; [by vm_compute in Hs|].
    split; [exact H|]. by vm_compute in Hs; injection Hs as <- _.
  - pose proof (router_safe sample_config (ReadReady 1 (RecvFailed Closed)) r Hr sample_config_ok) as H. unfold wp in H.
    destruct (router_step _ (ReadReady 1 (RecvFailed Closed)) r) as [[] r'|f r'] eqn:Hs; [exact H|by vm_compute in Hs].
Defined.

(** ** Filters *)

(** The filter is for every device or for the one that sent the message. *)
Definition device_matches (m : Message) (n : Network) (f : FilterRecord) : bool :=
  match filter_device f with
  | Some d => (id d =? device_id_ m) && bool_decide (network_name d = network_name_ n)
  | None => true
  end.

Lemma passes_filter_eq m n f :
  passes_filter m n f = ((address_mask f =? filter_address f) || Z.even (address_ m)) && device_matches m n f.
Proof.
  unfold passes_filter, device_matches.
  assert (negb (Z.land (address_ m) (if address_mask f =? filter_address f then 0 else 1) =? 0) =
    negb ((address_mask f =? filter_address f) || Z.even (address_ m))) as ->.
  { destruct (address_mask f =? filter_address f); [by rewrite Z.land_0_r|]. cbn [orb]. f_equal.
    change 1 with (Z.ones 1). rewrite Z.land_ones by lia. change (2 ^ 1) with 2. rewrite Zeven_mod. by destruct (_ mod 2 =? 0). }
  destruct (_ || _); cbn [negb andb]; [|done]. destruct (filter_device f) as [d|]; [|done].
  destruct (id d =? device_id_ m), (bool_decide _); done.
Qed.

(** What a filter lets through, of the messages of its device: in the test
    [address & filter.address_mask != filter.address] the comparison binds tighter than
    the bit operation, so the address is compared with nothing.  If the mask and the
    address of the filter are equal it passes every message, and otherwise those with an
    even address.  So the filter a query leaves for its answer (mask 0xffff, the address
    of the query) passes any answer from an even address, and none from the address that was
    asked when that is odd. *)
Theorem filter_ignores_address m n f :
  passes_filter m n f = ((address_mask f =? filter_address f) || Z.even (address_ m)) && device_matches m n f.
Proof. apply passes_filter_eq. Qed.

(** One client that does not read stops the router: when a message comes for which a
    filter passes whose client cannot be reached (its connection is gone, or its write
    buffer is full), after any filters that do not pass, the handler never returns, since
    the iterator stays at that filter and nothing changes. *)
Theorem unroutable_filter_hangs config m i n d before f after r :
  core_inv config r -> (i < length (networks_ r))%nat ->
  networks_ r !! i = Some n -> find_device_by_id config (network_name_ (record_network n)) (device_id_ m) = Some d ->
  filters_ r = before ++ f :: after -> Forall (fun f => passes_filter m (record_network n) f = false) before ->
  unroutable m (record_network n) d f r ->
  handle_device_packet config (PMessage m) i r = Fault Hang r.
Proof.
  intros Hr Hi Hn Hd Hf Hbefore Hu. unfold handle_device_packet, bind at 1, rd. cbn [fget f_nets].
  unfold bind at 1. rewrite verify_true by by apply Nat.ltb_lt. unfold bind at 1.
  assert (idx f_nets (Z.of_nat i) r = Ok n r) as -> by (apply idx_ok; [lia|by rewrite Nat2Z.id]).
  rewrite Hd. unfold bind at 1, rd. unfold bind at 1. cbn [fget f_filters].
  enough (forall fuel k, (k <= length before)%nat -> route_loop fuel m (record_network n) d k [] r = Fault Hang r) as H
    by (by rewrite H by lia).
  induction fuel as [|fuel IH]; intros k Hk; [done|].
  destruct (decide (k = length before)) as [->|Hne].
  - apply (unroutable_loop _ _ _ _ f); [|done]. rewrite Hf. by apply list_lookup_middle.
  - cbn [route_loop]. unfold bind at 1, rd. cbn [fget f_filters].
    destruct (lookup_lt_is_Some_2 before k) as [g Hg]; [lia|]. rewrite Hf, lookup_app_l, Hg by lia.
    rewrite Forall_lookup in Hbefore. rewrite (Hbefore _ _ Hg). cbn [negb]. apply IH. lia.
Qed.

(** A filter left by a client that is gone. *)
Lemma unroutable_filter_hangs_witness :
  let r := sample_router [MkFilter 7 None 0 0 0] [] in
  handle_device_packet sample_config (PMessage (MkMessage Type_Data 0x1f 0x0104 [0xff])) 0 r = Fault Hang r.
Proof.
  intros r. apply (unroutable_filter_hangs sample_config _ 0 (MkNetworkRecord sample_network (Some 0%nat)) sample_device [] (MkFilter 7 None 0 0 0) []);
    [|cbn; lia|reflexivity|reflexivity|reflexivity|constructor|split; reflexivity].
  destruct (sample_router_inv [MkFilter 7 None 0 0 0] []) as [H _]; [by repeat constructor|constructor|exact H].
Defined.

(** ** Sending *)

(** The connection takes the line of [p]. *)
Definition add_line {H} (p : Packet) (o : sock H) : sock H :=
  MkSock (packet_handler_ o) (scope_ o) (read_started_ o) true (read_buffer_ o) (write_buffer_ o ++ line_of p) (got_error_ o) (posted_ o) (wire_ o).

Definition has_room {H} (lines : text) (o : sock H) : Prop :=
  got_error_ o = false /\ (length (write_buffer_ o) + length lines <= write_buffer_limit)%nat.

Definition put_line (c : conn) (p : Packet) (r : router) : router := fset f_heap (alter (add_line p) c (heap_ r)) r.

Lemma alter_as_insert {A} (g : A -> A) (l : list A) i x : l !! i = Some x -> <[i := g x]> l = alter g i l.
Proof.
  revert i. induction l as [|y l IH]; intros [|i] Hx; try done; [by injection Hx as ->|].
  change (y :: <[i := g x]> l = y :: alter g i l). by rewrite IH.
Qed.

Lemma call_send_eq c o p r : heap_ r !! c = Some o -> posted_ o = [] -> sendable p -> has_room (line_of p) o ->
  call c (impl_send p) r = Ok tt (put_line c p r).
Proof.
  intros Ho Hp Hs [He Hl]. unfold call. rewrite Ho. unfold impl_send, bind at 1, rd. cbn [fget f_got_error]. rewrite He.
  unfold bind at 1. destruct (convert_to_string_eq p o Hs) as (t & -> & Ht). rewrite Ht in Hl. unfold bind at 1. cbn [fget f_write_buffer].
  rewrite (proj2 (Nat.ltb_ge _ _)) by exact Hl. cbn. unfold put_line, put_conn.
  rewrite <- (alter_as_insert _ _ _ _ Ho). cbn. rewrite Hp, app_nil_r. unfold add_line. by rewrite Ht, Hp.
Qed.

Lemma alter_handlers (heap : list (sock handler)) p c c' h :
  subscribed heap c' h -> subscribed (alter (add_line p) c heap) c' h.
Proof.
  intros (o & Ho & Hh). destruct (decide (c = c')) as [->|Hne].
  - exists (add_line p o). by rewrite list_lookup_alter_eq, Ho.
  - exists o. by rewrite list_lookup_alter_ne.
Qed.

(** The lines that the queue [q] holds for connection [c]. *)
Definition lines_for (r : router) (q : list SendRecord) (c : conn) : text :=
  q ≫= (fun sr => if bool_decide ((networks_ r !! send_network sr) ≫= connection = Some c) then line_of (PMessage (message sr)) else []).

(** What one expiry of the timer does with the first message of the queue. *)
Definition sent_head (sr : SendRecord) (q : list SendRecord) (r r' : router) : Prop :=
  send_queue_ r' = q /\ networks_ r' = networks_ r /\ started_ r' = started_ r /\ connections_ r' = connections_ r /\
  filters_ r' = filters_ r ++ (if decide (send_type sr = SendType_Request) then
    match (networks_ r !! send_network sr) ≫= connection with Some _ => [response_filter sr] | None => [] end else []) /\
  heap_ r' = match (networks_ r !! send_network sr) ≫= connection with
             | Some c => alter (add_line (PMessage (message sr))) c (heap_ r)
             | None => heap_ r
             end /\ queue_ r' = queue_ r.

Lemma send_timeout_head config r sr q : router_inv config r -> started_ r = true -> send_queue_ r = sr :: q ->
  (forall c o, (networks_ r !! send_network sr) ≫= connection = Some c -> heap_ r !! c = Some o ->
     has_room (line_of (PMessage (message sr))) o) ->
  exists r', send_timeout r = Ok tt r' /\ router_inv config r' /\ sent_head sr q r r'.
Proof.
  intros [Hr Ht] Hs Hq Hroom. destruct (Ht Hs) as [Htimer _].
  assert (send_timer_ r = true) as Htrue by (apply Htimer; by rewrite Hq).
  pose proof (send_timeout_inv config r (conj Hr Ht)) as Hinv. apply wp_total_inv in Hinv as ([] & r' & Hr' & Hinv).
  exists r'. split; [done|]. split; [done|]. clear Hinv. revert Hr'.
  pose proof (inv_sends _ _ Hr) as Hsends. rewrite Hq in Hsends. apply Forall_cons_1 in Hsends as [[Hnet _] _].
  destruct (lookup_lt_is_Some_2 _ _ Hnet) as [n Hn]. rewrite Hn in Hroom. cbn in Hroom. unfold sent_head. rewrite Hn. cbn [mbind option_bind].
  unfold send_timeout, bind at 1, rd. cbn [fget f_send_timer]. rewrite Htrue. unfold bind at 1, wr.
  unfold on_send_timer, bind at 1, rd. unfold bind at 1. cbn [fget f_started f_send_queue fset f_send_timer send_queue_ started_].
  rewrite Hq, Hs. cbn [negb]. unfold bind at 1, wr. set (r1 := fset f_send_queue q _).
  unfold bind at 1. assert (idx f_nets (Z.of_nat (send_network sr)) r1 = Ok n r1) as ->.
  { apply idx_ok; [lia|]. by rewrite Nat2Z.id. }
  unfold bind at 1. destruct (connection n) as [c|] eqn:Hc.
  - destruct (inv_devices _ _ Hr _ _ _ Hn Hc) as (o & Ho & _). specialize (Hroom c o eq_refl Ho).
    assert (catch range_error (call c (impl_send (PMessage (message sr))) ;; ret true)
              (disconnect_network (send_network sr) ;; ret false) r1 = Ok true (put_line c (PMessage (message sr)) r1)) as ->.
    { unfold catch, bind at 1. rewrite (call_send_eq _ o); [done|exact Ho|by eapply posted_unsubscribed|done|done]. }
    rewrite andb_true_r. unfold bind at 1, when. destruct (decide (send_type sr = SendType_Request)) as [Hty|Hty].
    + rewrite bool_decide_eq_true_2 by done. unfold bind at 1, rd, wr. unfold bind at 1. cbn [fget f_send_queue].
      case_bool_decide; cbn [negb]; unfold ret; intros [= <-]; done.
    + rewrite bool_decide_eq_false_2 by done. unfold ret at 1, bind at 1, rd. cbn [fget f_send_queue].
      rewrite app_nil_r. case_bool_decide; cbn [negb]; unfold ret; intros [= <-]; done.
  - unfold ret at 1. rewrite andb_false_r. unfold bind at 1, when, ret at 1, bind at 1, rd. cbn [fget f_send_queue].
    replace (if decide (send_type sr = SendType_Request) then [] else []) with (@nil FilterRecord) by (destruct (decide (send_type sr = SendType_Request)); reflexivity). rewrite app_nil_r.
    case_bool_decide; cbn [negb]; unfold ret; intros [= <-]; done.
Qed.

Lemma lines_for_cons r sr q c : lines_for r (sr :: q) c =
  (if bool_decide ((networks_ r !! send_network sr) ≫= connection = Some c) then line_of (PMessage (message sr)) else []) ++ lines_for r q c.
Proof. unfold lines_for. by rewrite bind_cons. Qed.

(** Where the connections have room for what waits, their buffers get the lines. *)
Lemma send_queue_delivers config r : router_inv config r -> started_ r = true ->
  (forall c o, heap_ r !! c = Some o -> has_room (lines_for r (send_queue_ r) c) o) ->
  exists r', times (length (send_queue_ r)) send_timeout r = Ok tt r' /\ router_inv config r' /\ send_queue_ r' = [] /\
    forall c o, heap_ r !! c = Some o -> exists o', heap_ r' !! c = Some o' /\
      write_buffer_ o' = write_buffer_ o ++ lines_for r (send_queue_ r) c.
Proof.
  remember (send_queue_ r) as q eqn:Hq. revert r Hq. induction q as [|sr q IH]; intros r Hq Hr Hs Hroom.
  - exists r. split; [done|]. split; [done|]. split; [done|]. intros c o Ho. exists o. by rewrite app_nil_r.
  - destruct (send_timeout_head config r sr q Hr Hs (eq_sym Hq)) as (r1 & H1 & Hr1 & Hq1 & Hn1 & Hs1 & _ & _ & Hheap & _).
    { intros c o Hc Ho. destruct (Hroom c o Ho) as [He Hl]. rewrite lines_for_cons, bool_decide_eq_true_2, length_app in Hl by done.
      split; [done|lia]. }
    assert (forall q c, lines_for r1 q c = lines_for r q c) as Hlines by (intros; unfold lines_for; by rewrite Hn1).
    assert (forall c o, heap_ r !! c = Some o -> exists o', heap_ r1 !! c = Some o' /\ got_error_ o' = got_error_ o /\
      write_buffer_ o' = write_buffer_ o ++ (if bool_decide ((networks_ r !! send_network sr) ≫= connection = Some c) then line_of (PMessage (message sr)) else [])) as Hstep.
    { intros c o Ho. rewrite Hheap. destruct ((networks_ r !! send_network sr) ≫= connection) as [c'|].
      - destruct (decide (c' = c)) as [->|Hne].
        + rewrite list_lookup_alter_eq, Ho, bool_decide_eq_true_2 by done. by eexists.
        + rewrite list_lookup_alter_ne, bool_decide_eq_false_2 by congruence. exists o. by rewrite app_nil_r.
      - rewrite bool_decide_eq_false_2 by done. exists o. by rewrite app_nil_r. }
    destruct (IH r1 (eq_sym Hq1) Hr1 ltac:(congruence)) as (r' & H' & Hr' & Hq' & Hbuf).
    { intros c o1 Ho1. assert (is_Some (heap_ r !! c)) as [o Ho].
      { apply lookup_lt_is_Some. apply lookup_lt_Some in Ho1. rewrite Hheap in Ho1. destruct (_ ≫= _); [by rewrite length_alter in Ho1|done]. }
      destruct (Hstep c o Ho) as (o1' & Ho1' & He & Hb). rewrite Ho1 in Ho1'. injection Ho1' as <-.
      destruct (Hroom c o Ho) as [He0 Hl]. rewrite lines_for_cons, length_app in Hl.
      split; [congruence|]. rewrite Hlines, Hb, length_app. lia. }
    exists r'. cbn [length times]. unfold bind. rewrite H1. split; [done|]. split; [done|]. split; [done|].
    intros c o Ho. destruct (Hstep c o Ho) as (o1 & Ho1 & _ & Hb). destruct (Hbuf c o1 Ho1) as (o' & Ho' & Hb').
    exists o'. split; [done|]. by rewrite Hb', Hb, Hlines, lines_for_cons, <- app_assoc.
Qed.

(** C24. Every message that waits is sent: while the router runs, as many expiries of the
    send timer as there are messages empty the queue (the timer is running whenever a
    message waits, so each of them comes), whatever becomes of the connections meanwhile.
    If no connection has failed and each has room for the lines the queue holds for it, the
    lines of the messages reach the write buffer of the connection of their network, in
    the order of the queue and after what was there, and nothing else is written; messages
    for a network that is down are dropped. *)
Theorem send_queue_drains config r : router_inv config r -> started_ r = true ->
  exists r', times (length (send_queue_ r)) send_timeout r = Ok tt r' /\ router_inv config r' /\ send_queue_ r' = [] /\
    ((forall c o, heap_ r !! c = Some o -> has_room (lines_for r (send_queue_ r) c) o) ->
     forall c o, heap_ r !! c = Some o -> exists o', heap_ r' !! c = Some o' /\
       write_buffer_ o' = write_buffer_ o ++ lines_for r (send_queue_ r) c).
Proof.
  intros Hr Hs.
  assert (exists r', times (length (send_queue_ r)) send_timeout r = Ok tt r' /\ router_inv config r' /\ send_queue_ r' = [])
    as (r' & H & Hr' & Hq').
  { remember (send_queue_ r) as q eqn:Hq. revert r Hr Hs Hq. induction q as [|sr q IH]; intros r Hr Hs Hq; [by exists r|].
    destruct (wp_total_inv _ _ _ (send_timeout_pops config r Hr)) as ([] & r1 & H1 & Hr1 & Hpop).
    destruct (Hpop Hs) as [Hs1 Hq1]. rewrite <- Hq in Hq1. destruct (IH r1 Hr1 Hs1 (eq_sym Hq1)) as (r' & H & ?).
    exists r'. cbn [length times]. unfold bind. by rewrite H1. }
  exists r'. split; [done|]. split; [done|]. split; [done|]. intros Hroom.
  destruct (send_queue_delivers config r Hr Hs Hroom) as (r2 & H2 & _ & _ & Hbuf). rewrite H in H2. by injection H2 as <-.
Qed.

Lemma send_queue_drains_witness :
  let m := MkMessage Type_Data 0x1f 0x0104 [0xff] in
  let r := fset f_send_queue [MkSend SendType_Data 0 m (FilterRecord_new 0); MkSend SendType_Data 0 m (FilterRecord_new 0)]
             (fset f_send_timer true (sample_router [] [])) in
  exists r', times 2 send_timeout r = Ok tt r' /\ write_buffer_ <$> heap_ r' = [line_of (PMessage m) ++ line_of (PMessage m); []].
Proof.
  intros m r. destruct (send_queue_drains sample_config r) as (r' & H & Hr' & _ & _).
  - destruct (sample_router_inv [] []) as [Hc _]; [constructor|constructor|]. split; [|by intros _; split].
    apply sends_inv; [by apply send_timer_inv|]. repeat constructor; done.
  - reflexivity.
  - exists r'. split; [exact H|]. vm_compute in H. injection H as <-. vm_compute. reflexivity.
Defined.

(** ** A query and its answer *)

Definition ok_reply (command : ServiceCommand) : Packet :=
  PServiceCommand (MkServiceCommand (txt "ok") [(txt "command", action_ command)]).

Definition query_filter (cid : Z) (d : Device) (a : Z) : FilterRecord := MkFilter cid (Some d) a 0xffff Flag_Reply.

Definition request (d : Device) (a : Z) : Message := MkMessage Type_Request (id d) a [].

(** A query taken over: the request waits, and the client has its [ok]. *)
Lemma query_accepted config command cid c o d k n nc r :
  router_inv config r -> started_ r = true -> packet_wf (PServiceCommand command) ->
  action_ command = txt "query" -> find_device config (get_argument command (txt "device") []) = Some d ->
  0 <= get_uint_argument command (txt "address") uint_max <= 0xffff ->
  conn_find cid (connections_ r) = Some c -> heap_ r !! c = Some o -> has_room (line_of (ok_reply command)) o ->
  network_position d (networks_ r) = k -> networks_ r !! k = Some n -> connection n = Some nc -> send_queue_ r = [] ->
  on_connection_packet_received config (Some (PServiceCommand command)) cid r =
    Ok tt (put_line c (ok_reply command)
      (fset f_send_queue [MkSend SendType_Request k (request d (get_uint_argument command (txt "address") uint_max))
                            (query_filter cid d (get_uint_argument command (txt "address") uint_max))]
        (fset f_send_timer true r))).
Proof.
  intros [Hr _] Hs (Ha0 & Ha & _) Hact Hd Haddr Hc Ho Hroom Hk Hn Hnc Hq. unfold on_connection_packet_received, bind at 1, rd.
  cbn [fget f_started]. rewrite Hs. cbn [negb]. unfold bind at 1, deref, ret at 1. unfold bind at 1, rd. cbn [fget f_connections].
  rewrite Hc. unfold bind at 1, handle_command. rewrite Hact. rewrite !bool_decide_eq_false_2 by done. rewrite bool_decide_eq_true_2 by done.
  set (a := get_uint_argument command (txt "address") uint_max) in *. set (r1 := fset f_send_queue _ _).
  assert (handle_send config command cid SendType_Request r = Ok true r1) as ->.
  { unfold handle_send. rewrite Hd. unfold bind at 1, rd. cbn [fget f_nets]. rewrite Hk. unfold bind at 1.
    rewrite verify_true by (apply negb_true_iff, Nat.eqb_neq; apply lookup_lt_Some in Hn; lia).
    unfold bind at 1. rewrite (idx_ok _ _ n) by (lia || by rewrite Nat2Z.id). rewrite Hnc.
    fold a. rewrite (proj2 (Z.ltb_ge _ _)) by lia. unfold bind at 1.
    assert ((if decide (SendType_Request = SendType_Data) then get_raw_argument command (txt "data") else ret (Some [])) r = Ok (Some []) r) as -> by reflexivity.
    change (8 <? length (@nil Z))%nat with false. cbv iota. unfold bind, rd. cbn [fget f_send_queue]. rewrite Hq. reflexivity. }
  unfold bind at 1. rewrite ServiceCommand_new_eq by done. unfold bind at 1, on_object. rewrite add_argument_eq by (done || by rewrite <- Hact).
  unfold catch. cbn [action_ arguments_ map_set]. unfold ok_reply in *. rewrite Hact in *.
  rewrite (call_send_eq c o); [done|exact Ho|exact (posted_unsubscribed _ _ _ _ Hr Ho)|done|exact Hroom].
Qed.

(** The loop passes over the filters that are not for the message. *)
Lemma route_loop_skip m n d rest : forall before pre fuel dead r,
  filters_ r = pre ++ before ++ rest -> Forall (fun f => passes_filter m n f = false) before ->
  route_loop (length before + fuel) m n d (length pre) dead r = route_loop fuel m n d (length (pre ++ before)) dead r.
Proof.
  intros before. induction before as [|f before IH]; intros pre fuel dead r Hf Hb; [by rewrite app_nil_r|].
  apply Forall_cons_1 in Hb as [Hp Hb]. cbn [length Nat.add route_loop]. unfold bind at 1, rd. cbn [fget f_filters].
  assert (filters_ r !! length pre = Some f) as -> by (rewrite Hf; by apply list_lookup_middle). rewrite Hp. cbn [negb].
  replace (S (length pre)) with (length (pre ++ [f])) by (rewrite length_app; cbn; lia).
  rewrite (IH (pre ++ [f])); [|by rewrite Hf, <- app_assoc|done]. by rewrite <- app_assoc.
Qed.

(** The filter of a query, behind filters that are not for it, meets a message of its device. *)
Lemma reply_routed config m k n d cid a c o before r :
  router_inv config r -> started_ r = true -> plain_names d = true ->
  networks_ r !! k = Some n -> find_device_by_id config (network_name_ (record_network n)) (device_id_ m) = Some d ->
  Forall (fun f => passes_filter m (record_network n) f = false) before ->
  filters_ r = before ++ [query_filter cid d a] -> conn_find cid (connections_ r) = Some c -> heap_ r !! c = Some o ->
  has_room (line_of (PServiceCommand (routed_command m d true))) o ->
  on_device_packet_received config (Some (PMessage m)) k r =
    Ok tt (if (a =? 0xffff) || Z.even (address_ m) then fset f_filters before (put_line c (PServiceCommand (routed_command m d true)) r) else r).
Proof.
  intros [Hr _] Hs Hplain Hn Hd Hbefore Hf Hc Ho Hroom. unfold on_device_packet_received, bind at 1, rd. cbn [fget f_started].
  rewrite Hs. cbn [negb]. unfold bind at 1. rewrite (idx_ok _ _ n) by (lia || by rewrite Nat2Z.id).
  unfold handle_device_packet, bind at 1, rd. cbn [fget f_nets]. unfold bind at 1.
  rewrite verify_true by (apply Nat.ltb_lt; by eapply lookup_lt_Some).
  unfold bind at 1. rewrite (idx_ok _ _ n) by (lia || by rewrite Nat2Z.id). rewrite Hd.
  unfold bind at 1, rd. unfold bind at 1. cbn [fget f_filters].
  assert (S (length (filters_ r)) = (length before + 2)%nat) as -> by (rewrite Hf, length_app; cbn; lia).
  rewrite (route_loop_skip m (record_network n) d [query_filter cid d a] before []) by done. cbn [app route_loop].
  unfold bind at 1, rd. cbn [fget f_filters].
  assert (filters_ r !! length before = Some (query_filter cid d a)) as -> by (rewrite Hf; by apply list_lookup_middle).
  rewrite passes_filter_eq. unfold device_matches. cbn [filter_device query_filter address_mask filter_address].
  pose proof Hd as [_ Hmatch]%List.find_some. apply andb_prop in Hmatch as [-> ->]. rewrite (Z.eqb_sym 0xffff). cbn [andb].
  rewrite andb_true_r. destruct (_ || _); cbn [negb].
  - change (filter_connection (query_filter cid d a)) with cid. change (is_reply (query_filter cid d a)) with true.
    unfold bind at 1. assert (route_to m d cid true r = Ok true (put_line c (PServiceCommand (routed_command m d true)) r)) as Hroute.
    { unfold route_to, bind at 1, rd. cbn [fget f_connections]. rewrite Hc. unfold bind at 1. rewrite route_command_eq by done.
      unfold catch, bind. rewrite (call_send_eq c o); [done|exact Ho|exact (posted_unsubscribed _ _ _ _ Hr Ho)|done|exact Hroom]. }
    rewrite Hroute. cbn [negb orb]. unfold bind at 1, wr. unfold bind at 1, rd. cbn [fget f_filters fset filters_].
    change (filters_ (put_line _ _ r)) with (filters_ r). rewrite Hf, delete_middle, app_nil_r.
    rewrite lookup_ge_None_2 by lia. reflexivity.
  - unfold bind at 1, rd. cbn [fget f_filters]. rewrite lookup_ge_None_2; [reflexivity|]. rewrite Hf, length_app. cbn. lia.
Qed.

(** C4. A query from the client to the device and back, in a router that runs, has nothing
    else to send, whose connections to the client and to the network have room for the lines,
    and where no earlier filter is for the message [m]; the query names a device of the
    configuration, whose network is connected, and an address of 16 bits, and the names of the
    device are in the alphabet of commands.  The client's command is answered by [ok]; one expiry of the
    send timer writes the request to the connection of the device's network and leaves a
    filter for the answer, after those there are; then a message [m] of that device is
    written to that client as a [reply] and the filter is gone, once, if the address of
    [m] is even or the query asked for 0xffff.  It makes no difference whether [m] comes
    from the address that was asked: a message from another, even, address is taken for the
    answer, and the answer from an odd address is not delivered and the filter stays. *)
Theorem query_and_reply config command cid c o d k n nc no m r :
  router_inv config r -> config_refs_ok config -> plain_names d = true -> started_ r = true ->
  packet_wf (PServiceCommand command) ->
  action_ command = txt "query" -> find_device config (get_argument command (txt "device") []) = Some d ->
  let a := get_uint_argument command (txt "address") uint_max in
  let taken := (a =? 0xffff) || Z.even (address_ m) in
  0 <= a <= 0xffff ->
  conn_find cid (connections_ r) = Some c -> heap_ r !! c = Some o ->
  has_room (line_of (ok_reply command) ++ line_of (PServiceCommand (routed_command m d true))) o ->
  network_position d (networks_ r) = k -> networks_ r !! k = Some n -> connection n = Some nc -> heap_ r !! nc = Some no ->
  has_room (line_of (PMessage (request d a))) no ->
  find_device_by_id config (network_name_ (record_network n)) (device_id_ m) = Some d ->
  send_queue_ r = [] -> Forall (fun f => passes_filter m (record_network n) f = false) (filters_ r) ->
  exists r', (on_connection_packet_received config (Some (PServiceCommand command)) cid ;;
              send_timeout ;;
              on_device_packet_received config (Some (PMessage m)) k) r = Ok tt r' /\
    write_buffer_ <$> (heap_ r' !! c) = Some (write_buffer_ o ++ line_of (ok_reply command) ++
      (if taken then line_of (PServiceCommand (routed_command m d true)) else [])) /\
    write_buffer_ <$> (heap_ r' !! nc) = Some (write_buffer_ no ++ line_of (PMessage (request d a))) /\
    filters_ r' = filters_ r ++ (if taken then [] else [query_filter cid d a]).
Proof.
  intros Hr Hconfig Hplain Hs Hwf Hact Hd a taken Ha Hc Ho [Hgo Hroom] Hk Hn Hnc Hno Hnroom Hdm Hq Hf.
  assert (c <> nc) as Hne.
  { intros ->. destruct (inv_connections _ _ (proj1 Hr) _ _ (conn_find_elem _ _ _ Hc)) as (o1 & Ho1 & Hh1).
    destruct (inv_devices _ _ (proj1 Hr) _ _ _ Hn Hnc) as (o2 & Ho2 & Hh2). rewrite Ho1 in Ho2. injection Ho2 as ->. congruence. }
  rewrite length_app in Hroom.
  pose proof (query_accepted config command cid c o d k n nc r Hr Hs Hwf Hact Hd Ha Hc Ho ltac:(split; [done|lia]) Hk Hn Hnc Hq) as H1.
  fold a in H1. set (r1 := put_line c (ok_reply command) _) in H1.
  assert (router_inv config r1) as Hr1.
  { pose proof (client_packet_inv config (Some (PServiceCommand command)) cid r Hr Hconfig Hwf) as H. unfold wp in H.
    by rewrite H1 in H. }
  assert (heap_ r1 = alter (add_line (ok_reply command)) c (heap_ r)) as Hh1 by done.
  destruct (send_timeout_head config r1 _ [] Hr1 Hs eq_refl) as (r2 & H2 & Hr2 & Hq2 & Hn2 & Hs2 & Hc2 & Hf2 & Hh2 & _).
  { cbn. rewrite Hn. cbn. rewrite Hnc. intros c' o' [= <-]. rewrite list_lookup_alter_ne, Hno by done. by intros [= <-]. }
  cbn [send_network send_type message response_filter] in Hf2, Hh2. change (networks_ r1) with (networks_ r) in *.
  rewrite Hn in Hf2, Hh2. cbn [mbind option_bind] in Hf2, Hh2. rewrite Hnc in Hf2, Hh2.
  change (filters_ r1) with (filters_ r) in Hf2. rewrite Hh1 in Hh2.
  assert (heap_ r2 !! c = Some (add_line (ok_reply command) o)) as Ho2.
  { by rewrite Hh2, list_lookup_alter_ne, list_lookup_alter_eq, Ho by done. }
  assert (heap_ r2 !! nc = Some (add_line (PMessage (request d a)) no)) as Hno2.
  { by rewrite Hh2, list_lookup_alter_eq, list_lookup_alter_ne, Hno by done. }
  assert (networks_ r2 !! k = Some n) as Hn2' by by rewrite Hn2.
  assert (conn_find cid (connections_ r2) = Some c) as Hc2' by by rewrite Hc2.
  assert (started_ r2 = true) as Hs2' by by rewrite Hs2.
  assert (filters_ r2 = filters_ r ++ [query_filter cid d a]) as Hf2' by by rewrite Hf2.
  pose proof (reply_routed config m k n d cid a c (add_line (ok_reply command) o) (filters_ r) r2 Hr2 Hs2' Hplain Hn2' Hdm Hf Hf2' Hc2' Ho2) as H3.
  fold taken in H3. eexists. unfold bind. rewrite H1, H2, H3; [|split; [done|cbn [add_line write_buffer_]; rewrite length_app; lia]].
  split; [done|]. destruct taken.
  - cbn [heap_ fset f_filters put_line f_heap filters_]. rewrite list_lookup_alter_eq, Ho2, list_lookup_alter_ne, Hno2 by done.
    rewrite app_nil_r. split; [|done]. cbn. by rewrite <- app_assoc.
  - rewrite Ho2, Hno2, Hf2', app_nil_r. done.
Qed.

(** A query for the state of channel 3 (address 0x0203), answered from that address. *)
Lemma query_and_reply_witness :
  let command := MkServiceCommand (txt "query") [(txt "address", txt "0203"); (txt "device", txt "hall")] in
  let r := sample_router [] [] in
  exists r', (on_connection_packet_received sample_config (Some (PServiceCommand command)) 1 ;; send_timeout ;;
              on_device_packet_received sample_config (Some (PMessage (MkMessage Type_Data 0x1f 0x0203 [0x01]))) 0) r = Ok tt r' /\
    write_buffer_ <$> heap_ r' !! 1%nat = Some (txt "cmd:ok command:query" ++ crlf) /\
    filters_ r' = [query_filter 1 sample_device 0x0203].
Proof.
  intros command r. destruct (query_and_reply sample_config command 1 1%nat
      (MkSock (Some (OnConnection 1)) 0 true false [] [] false [] []) sample_device 0 (MkNetworkRecord sample_network (Some 0%nat)) 0%nat
      (MkSock (Some (OnDevice 0)) 0 true false [] [] false [] []) (MkMessage Type_Data 0x1f 0x0203 [0x01]) r)
    as (r' & H & Hb & _ & Hf).
  - apply sample_router_inv; constructor.
  - apply sample_config_ok.
  - reflexivity.
  - reflexivity.
  - split; [discriminate|]. split; [reflexivity|]. split; [repeat constructor; discriminate|repeat constructor].
  - reflexivity.
  - reflexivity.
  - assert (get_uint_argument command (txt "address") uint_max = 0x0203) as -> by (vm_compute; reflexivity). lia.
  - reflexivity.
  - reflexivity.
  - split; [reflexivity|]. apply Nat.leb_le. vm_compute. reflexivity.
  - reflexivity.
  - reflexivity.
  - reflexivity.
  - reflexivity.
  - split; [reflexivity|]. apply Nat.leb_le. vm_compute. reflexivity.
  - reflexivity.
  - reflexivity.
  - constructor.
  - exists r'. split; [exact H|]. split; [exact Hb|exact Hf].
Defined.

(** ** Shutdown *)

(** The count brought up to date. *)
Definition recount (r : router) : router := fset f_connected_networks (connected (networks_ r)) r.

Lemma recount_inv config r : core_inv config r -> recount r = r.
Proof. intros Hr. unfold recount. rewrite <- (inv_count _ _ Hr). by destruct r. Qed.

(** Networks [0] to [k - 1] are disconnected, the others as they were. *)
Definition stopped_nets (config : Config) (r0 : router) (k : nat) (r : router) : Prop :=
  core_inv config (recount r) /\ length (networks_ r) = length (networks_ r0) /\
  (forall i n, (i < k)%nat -> networks_ r !! i = Some n -> connection n = None) /\
  (forall i, (k <= i)%nat -> networks_ r !! i = networks_ r0 !! i) /\
  bindings_ r = bindings_ r0 /\ connections_ r = connections_ r0 /\ length (heap_ r) = length (heap_ r0).

Definition net_down (r : router) (f : fault) (_ : router) : Prop :=
  f = NullCall /\ exists i n, networks_ r !! i = Some n /\ connection n = None.

(** All networks are disconnected, unless one of them was down. *)
Lemma disconnect_networks_wp config r : core_inv config r ->
  wp (net_down r) disconnect_networks (fun _ r' => stopped_nets config r (length (networks_ r)) r' /\ connected_networks_ r' = 0 /\
    reconnect_timeout_ r' = false /\ forall i n, networks_ r !! i = Some n -> is_Some (connection n)) r.
Proof.
  intros Hr. unfold disconnect_networks. apply wp_bind, wp_wr, wp_bind, wp_rd, wp_bind. cbn [fget f_nets fset f_reconnect_timeout networks_].
  apply (wp_for_each _ _ (fun done r' => stopped_nets config r (length done) r' /\ reconnect_timeout_ r' = false /\
    forall i n, (i < length done)%nat -> networks_ r !! i = Some n -> is_Some (connection n))).
  - split; [|split; [done|intros; cbn in *; lia]]. split; [|repeat split; try done; intros; cbn in *; lia].
    rewrite (recount_inv config) by by apply reconnect_flag_inv. by apply reconnect_flag_inv.
  - intros done i rest r' Heq [(Hr' & Hlen & Hdown & Hrest & Hb & Hc & Hh) [Ht Hup]]. apply range_split in Heq as [-> Hi].
    rewrite length_app, Nat.add_1_r. destruct (lookup_lt_is_Some_2 (networks_ r) (length done)) as [n Hn]; [lia|].
    pose proof (Hrest (length done) ltac:(lia)) as Hn'. rewrite Hn in Hn'. apply wp_bind, wp_idx_net with n; [done|].
    destruct (connection n) as [c|] eqn:Hconn; [|split; [done|by exists (length done), n]]. apply wp_bind, wp_ret, wp_bind.
    destruct (inv_devices _ _ Hr' _ _ _ Hn' Hconn) as (o & Ho & Hho).
    eapply (wp_call _ _ _ _ o); [exact Ho|]. eapply wp_eq; [rewrite unsubscribe_eq, Hho; reflexivity|]. fold (unsubscribed o).
    rewrite Nat2Z.id. eapply wp_eq; [by apply set_connection_eq|].
    pose proof (net_down_inv config _ n c o _ Hr' Hn' Hconn Ho) as Hdowninv.
    split; [|split; [done|]].
    2: { intros j n' Hj Hj'. destruct (decide (j = length done)) as [->|Hne]; [|apply (Hup j); [lia|done]].
         rewrite Hn in Hj'. injection Hj' as <-. by rewrite Hconn. }
    split.
    { replace (recount _) with (put_conn c (unsubscribed o) (put_net (length done) n None (recount r'))); [done|].
      unfold recount, put_net, put_conn. cbn. rewrite (connected_insert _ _ _ _ Hn'). done. }
    cbn. rewrite length_insert. split; [done|]. split; [|split; [|by rewrite length_insert]].
    + intros j n' Hj [[-> ->]|[Hne Hj']]%lookup_insert_cases; [done|]. apply (Hdown j); [lia|done].
    + intros j Hj. rewrite list_lookup_insert_ne by lia. apply Hrest. lia.
  - intros r' [(Hr' & Hlen & Hdown & Hrest & Hb) [Ht Hup]]. unfold range in *. rewrite length_fmap, length_seq, Nat2Z.id in *.
    apply wp_wr. split; [|split; [done|split; [done|]]].
    + split; [exact Hr'|]. split; [done|]. split; [done|]. split; [|done]. intros i Hi. cbn. rewrite !lookup_ge_None_2 by lia. done.
    + intros i n Hn. apply (Hup i); [|done]. by eapply lookup_lt_Some.
Qed.

Lemma stop_bindings_wp r : Forall (fun b => server b = true) (bindings_ r) ->
  wp total stop_bindings (fun _ r' => Forall (fun b => server b = false) (bindings_ r') /\ r' = fset f_binds (bindings_ r') r) r.
Proof.
  intros Hb. unfold stop_bindings. apply wp_bind, wp_rd. cbn [fget f_binds].
  apply (wp_for_each _ _ (fun done r' => r' = fset f_binds (bindings_ r') r /\ length (bindings_ r') = length (bindings_ r) /\
    (forall i b, (i < length done)%nat -> bindings_ r' !! i = Some b -> server b = false) /\
    (forall i, (length done <= i)%nat -> bindings_ r' !! i = bindings_ r !! i))).
  - split; [by destruct r|]. split; [done|]. split; [intros i b Hi; cbn in Hi; lia|done].
  - intros done i rest r' Heq (Hr' & Hlen & Hdown & Hrest). apply range_split in Heq as [-> Hi].
    destruct (lookup_lt_is_Some_2 (bindings_ r) (length done)) as [b Hbi]; [lia|].
    pose proof (Hrest (length done) ltac:(lia)) as Hb'. rewrite Hbi in Hb'.
    apply wp_bind. eapply wp_eq; [apply idx_ok; [lia|rewrite Nat2Z.id; exact Hb']|].
    rewrite (Forall_lookup_1 _ _ _ _ Hb Hbi). apply wp_bind, wp_ret.
    eapply wp_eq; [apply idx_set_ok; cbn [fget f_binds]; lia|]. cbn [fget f_binds]. rewrite Nat2Z.id, length_app, Nat.add_1_r.
    split; [by rewrite Hr'|]. cbn. rewrite length_insert. split; [done|]. split.
    + intros j b' Hj [[-> ->]|[Hne Hj']]%lookup_insert_cases; [done|]. apply (Hdown j); [lia|done].
    + intros j Hj. rewrite list_lookup_insert_ne by lia. apply Hrest. lia.
  - intros r' (Hr' & Hlen & Hdown & _). split; [|done]. apply Forall_lookup_2. intros i b Hbi.
    apply (Hdown i); [|done]. apply lookup_lt_Some in Hbi. unfold range. rewrite length_fmap, length_seq. lia.
Qed.

Lemma close_connections_wp r : Forall (fun p => p.2 < length (heap_ r))%nat (connections_ r) ->
  wp total close_connections (fun _ r' => connections_ r' = [] /\ filters_ r' = [] /\
    exists heap queue, r' = fset f_filters [] (fset f_connections [] (fset f_queue queue (fset f_heap heap r)))) r.
Proof.
  intros Hc. unfold close_connections. apply wp_bind, wp_rd, wp_bind. cbn [fget f_connections].
  apply (wp_for_each _ _ (fun _ r' => only_calls r r' /\ length (heap_ r') = length (heap_ r))).
  - split; [apply only_calls_refl|done].
  - intros done p rest r' Heq [Hr' Hlen]. rewrite Heq in Hc. apply Forall_app in Hc as [_ Hc]. apply Forall_cons_1 in Hc as [Hp _].
    destruct (lookup_lt_is_Some_2 (heap_ r') p.2) as [o Ho]; [lia|]. eapply (wp_call _ _ _ _ o); [done|].
    apply (wp_eq _ _ _ tt (match packet_handler_ o with None => o | Some _ => unsubscribed o end));
      [rewrite unsubscribe_eq; by destruct (packet_handler_ o)|].
    split; [eapply only_calls_trans; [exact Hr'|by eexists _, _]|]. cbn. by rewrite length_insert.
  - intros r' [(h & q & ->) _]. apply wp_bind, wp_wr, wp_wr. split; [done|]. split; [done|]. by exists h, q.
Qed.

(** Stopping a running router.  If every network is connected it stops: both timers are
    off, no network is connected, the servers are stopped, and no client or filter is left.
    If a network is down, as it may be at any time, its null connection is used, so the
    router does not stop but crashes. *)
Theorem stop_needs_every_network config r :
  router_inv config r -> started_ r = true -> Forall (fun b => server b = true) (bindings_ r) ->
  ((forall i n, networks_ r !! i = Some n -> is_Some (connection n)) ->
   exists r', stop r = Ok tt r' /\ started_ r' = false /\ send_timer_ r' = false /\ reconnect_timeout_ r' = false /\
     Forall (fun n => connection n = None) (networks_ r') /\ connected_networks_ r' = 0 /\
     Forall (fun b => server b = false) (bindings_ r') /\ connections_ r' = [] /\ filters_ r' = []) /\
  ((exists i n, networks_ r !! i = Some n /\ connection n = None) -> exists r', stop r = Fault NullCall r').
Proof.
  intros [Hr _] Hs Hb.
  assert (wp (net_down r) stop (fun _ r' => (forall i n, networks_ r !! i = Some n -> is_Some (connection n)) /\
      started_ r' = false /\ send_timer_ r' = false /\ reconnect_timeout_ r' = false /\
      Forall (fun n => connection n = None) (networks_ r') /\ connected_networks_ r' = 0 /\
      Forall (fun b => server b = false) (bindings_ r') /\ connections_ r' = [] /\ filters_ r' = []) r) as H.
  { unfold stop. apply wp_bind, wp_rd. cbn [fget f_started]. rewrite Hs. cbn [negb]. apply wp_bind.
    eapply wp_mono; [by apply (disconnect_networks_wp config)|]. intros [] r1 ((_ & Hlen & Hdown & _ & Hb1 & Hc1 & Hh1) & H0 & Ht & Hup).
    apply wp_bind. eapply wp_mono; [eapply wp_weaken; [|apply stop_bindings_wp; by rewrite Hb1]; by intros ? ? []|]. intros [] r2 [Hb2 ->].
    apply wp_bind. eapply wp_mono; [eapply wp_weaken; [|apply close_connections_wp; cbn; rewrite Hc1, Hh1]; [by intros ? ? []|]|].
    + apply Forall_forall. intros [id c] Hin. apply list_elem_of_In, (inv_connections _ _ Hr) in Hin as (o & Ho & _).
      by apply lookup_lt_Some in Ho.
    + intros [] r3 (_ & _ & h & q & ->). apply wp_bind, wp_wr, wp_wr. cbn. split; [exact Hup|]. repeat (split; [done|]). split; [|by split].
      apply Forall_lookup_2. intros i n Hn. apply (Hdown i); [|done]. rewrite <- Hlen. by eapply lookup_lt_Some. }
  unfold wp, net_down in H. destruct (stop r) as [[] r'|f r'].
  - destruct H as [Hup H]. split; [intros _; by exists r'|]. intros (i & n & Hn & Hc). destruct (Hup i n Hn) as [c Hc']. congruence.
  - destruct H as [-> (i & n & Hn & Hc)]. split; [|intros _; by exists r']. intros Hup. destruct (Hup i n Hn) as [c Hc']. congruence.
Qed.

Lemma stop_needs_every_network_witness :
  (exists r', stop (sample_router [] []) = Ok tt r' /\ connections_ r' = []) /\
  (exists r', stop (put_net 0 (MkNetworkRecord sample_network (Some 0%nat)) None
     (put_conn 0 (unsubscribed (MkSock (Some (OnDevice 0)) 0 true false [] [] false [] [])) (fset f_reconnect_timeout true (sample_router [] [])))) = Fault NullCall r').
Proof.
  assert (router_inv sample_config (sample_router [] [])) as Hr by (apply sample_router_inv; constructor).
  split.
  - destruct (stop_needs_every_network sample_config (sample_router [] []) Hr) as [H _]; [reflexivity|by repeat constructor|].
    destruct H as (r' & H & _ & _ & _ & _ & _ & _ & Hc & _); [|by exists r']. intros [|i] n [= <-]. by eexists.
  - set (r1 := put_net _ _ _ _). assert (router_inv sample_config r1) as Hr1.
    { split; [|by intros _; split]. apply (net_down_inv sample_config 0 (MkNetworkRecord sample_network (Some 0%nat)) 0
        (MkSock (Some (OnDevice 0)) 0 true false [] [] false [] []) (fset f_reconnect_timeout true (sample_router [] []))); try reflexivity.
      apply reconnect_flag_inv, Hr. }
    destruct (stop_needs_every_network sample_config r1 Hr1) as [_ H]; [reflexivity|by repeat constructor|].
    apply H. exists 0%nat, (MkNetworkRecord sample_network None). by split.
Defined.
