(* ===== verification/RouterQueue.v ===== *)
(** The router as a program of the event loop: each input it handles is one turn of the
    loop's queue, or posts what its sockets received, in the order it was received and under the
    scope of the connection; and what the router does itself posts nothing, and changes or
    makes scopes.  Together with EventLoopSpec, which shows that the threads of the loop
    implement this queue, this is what lets Router have its queue as a list. *)

From Stdlib Require Import String.
From S2P Require Import Prelude Monad EventLoop EventLoopSpec.
From S2P Require Import Text Message SocketConnection Config Router RouterProps.

(** ** Programs that keep to a relation *)

Definition after {St A} (m : prog St A) (s : St) : St := match m s with Ok _ s' | Fault _ s' => s' end.

(** Wherever [m] ends, by a return or a fault, [R] leads there. *)
Definition moves {St A} (R : St -> St -> Prop) (m : prog St A) : Prop := forall s, R s (after m s).

Section Moves.
Context {St : Type} (R : St -> St -> Prop) `{PO : !PreOrder R}.

Lemma moves_ret {A} (a : A) : moves R (ret a).
Proof using PO. intros s. reflexivity. Qed.

Lemma moves_raise {A} f : moves R (raise f : prog St A).
Proof using PO. intros s. reflexivity. Qed.

Lemma moves_bind {A B} (m : prog St A) (k : A -> prog St B) : moves R m -> (forall a, moves R (k a)) -> moves R (bind m k).
Proof using PO.
  intros Hm Hk s. specialize (Hm s). unfold after, bind in *. destruct (m s) as [a s1|f s1]; [|done].
  etrans; [exact Hm|apply Hk].
Qed.

Lemma moves_if {A} (b : bool) (m1 m2 : prog St A) : moves R m1 -> moves R m2 -> moves R (if b then m1 else m2).
Proof. by destruct b. Qed.

Lemma moves_when (b : bool) (m : prog St unit) : moves R m -> moves R (when b m).
Proof using PO. destruct b; [done|]. intros _. apply moves_ret. Qed.

Lemma moves_for_each {A} (l : list A) body : (forall x, moves R (body x)) -> moves R (for_each l body).
Proof using PO. intros Hb. induction l; cbn; [apply moves_ret|]. by apply moves_bind. Qed.

Lemma moves_catch {A} e (m h : prog St A) : moves R m -> moves R h -> moves R (catch e m h).
Proof using PO.
  intros Hm Hh s. specialize (Hm s). unfold after, catch in *. destruct (m s) as [a s1|[] s1]; try done.
  case_bool_decide; [|done]. etrans; [exact Hm|apply Hh].
Qed.

Lemma moves_rd {T} (f : field St T) : moves R (rd f).
Proof using PO. intros s. reflexivity. Qed.

Lemma moves_wr {T} (f : field St T) v : (forall s, R s (fset f v s)) -> moves R (wr f v).
Proof. by intros H s. Qed.

Lemma moves_verify b : moves R (verify b).
Proof using PO. by apply moves_if; [apply moves_ret|apply moves_raise]. Qed.

Lemma moves_at_index {A} (l : list A) i : moves R (at_index l i).
Proof using PO. unfold at_index. destruct (l !! _); [apply moves_if; [apply moves_ret|]|]; apply moves_raise. Qed.

Lemma moves_idx {A} (f : field St (list A)) i : moves R (idx f i).
Proof using PO. apply moves_bind; [apply moves_rd|]. intros l. apply moves_at_index. Qed.

Lemma moves_idx_set {A} (f : field St (list A)) i v : (forall l s, R s (fset f l s)) -> moves R (idx_set f i v).
Proof using PO.
  intros H. apply moves_bind; [apply moves_rd|]. intros l. apply moves_bind; [|intros l'; by apply moves_wr].
  unfold set_index. apply moves_if; [apply moves_ret|apply moves_raise].
Qed.

Lemma moves_on_object {Ob} (o : Ob) m : moves R (on_object o m).
Proof using PO. intros s. unfold after, on_object. by destruct (m o). Qed.
End Moves.

Create HintDb moves.
#[export] Hint Constants Opaque : moves.
(** [moves] splits a program into its calls. *)
Ltac moves :=
  intros; cbn beta zeta;
  repeat first
    [ solve [eauto 3 with moves]
    | solve [first [simple apply moves_ret | simple apply moves_raise | simple apply moves_rd | simple apply moves_verify
        | simple apply moves_at_index | simple apply moves_idx | simple apply moves_on_object]; apply _]
    | simple apply moves_bind; [try apply _| |intro]
    | simple apply moves_when; [try apply _|] | simple apply moves_if
    | simple apply moves_catch; [try apply _| |]
    | simple apply moves_for_each; [try apply _|intro]
    | match goal with |- moves _ (match ?x with _ => _ end) => destruct x end ].

(** ** Connections *)

Section Connection.
Context {H : Type}.
Implicit Types o : sock H.

(** A connection posts nothing, and at most invalidates its scope. *)
Inductive invalidates : sock H -> sock H -> Prop :=
| invalidates_same o o' : scope_ o' = scope_ o -> posted_ o' = posted_ o -> invalidates o o'
| invalidates_once o o1 o' : invalidates o o1 -> scope_ o' = scope_ o1 + 1 -> posted_ o' = posted_ o1 -> invalidates o o'.

#[export] Instance invalidates_preorder : PreOrder invalidates.
Proof.
  split; [intros o; by apply invalidates_same|]. intros o1 o2 o3 H12 H23. revert H12.
  induction H23 as [o2 o3 Hs Hp|o2 o3 o4 _ IH Hs Hp]; intros H12.
  - destruct H12 as [o1 o2 Hs1 Hp1|o1 o o2 H1 Hs1 Hp1].
    + apply invalidates_same; congruence.
    + apply (invalidates_once _ o); [done|congruence..].
  - apply (invalidates_once _ o3); [by apply IH|done..].
Qed.

Lemma invalidates_scope : moves invalidates invalidate.
Proof. intros o. apply (invalidates_once _ o); [reflexivity|done..]. Qed.

Lemma invalidates_field {T} (f : field (sock H) T) v :
  (forall o, scope_ (fset f v o) = scope_ o) -> (forall o, posted_ (fset f v o) = posted_ o) -> moves invalidates (wr f v).
Proof. intros Hs Hp o. apply invalidates_same; [apply Hs|apply Hp]. Qed.

Hint Resolve invalidates_scope : moves.
Hint Extern 1 (moves invalidates (wr _ _)) => apply invalidates_field; reflexivity : moves.

Lemma invalidates_unsubscribe : moves invalidates unsubscribe.
Proof. unfold unsubscribe, impl_unsubscribe, IoListener_stop. moves. Qed.

Lemma invalidates_subscribe h : moves invalidates (subscribe h).
Proof. unfold subscribe, impl_subscribe, IoListener_start. moves. apply invalidates_unsubscribe. Qed.

Lemma invalidates_impl_send p : moves invalidates (impl_send p).
Proof. unfold impl_send, convert_to_string, ServiceCommand_serialize, IoListener_start. moves. Qed.

(** *** What is received

    The packets a readable socket delivers: those of the lines that end in what was
    received, in their order; the null packet when the connection is found closed. *)
Definition read_posts o (received : recv_result) : list (option Packet) :=
  match received with
  | Received [] => []
  | Received data => Some <$> omap parse (scan [] (read_buffer_ o ++ data)).1
  | RecvFailed Closed => [None]
  | RecvFailed _ => []
  end.

(** Whether the loop over [len] bytes to write meets a closed connection. *)
Fixpoint broken (len : nat) (results : list send_result) : bool :=
  match len, results with
  | S _, Sent n :: results => broken (len - n) results
  | S _, SendFailed Closed :: _ => true
  | _, _ => false
  end.

Definition write_posts o (results : list send_result) : list (option Packet) :=
  if broken (length (write_buffer_ o)) results then [None] else [].

(** The packets go to the subscribed handler, under the scope as it is. *)
Definition socket_posts o (packets : list (option Packet)) : list (H * option Packet * Z) :=
  match packet_handler_ o with Some h => (fun p => (h, p, scope_ o)) <$> packets | None => [] end.

Definition delivers (packets : list (option Packet)) o o' : Prop :=
  scope_ o' = scope_ o /\ posted_ o' = posted_ o ++ socket_posts o packets.

Lemma delivers_none o o' : scope_ o' = scope_ o -> posted_ o' = posted_ o -> delivers [] o o'.
Proof. intros Hs Hp. split; [done|]. unfold socket_posts. destruct (packet_handler_ o); by rewrite app_nil_r. Qed.

Lemma handle_error_delivers o : delivers [None] o (after handle_error o).
Proof. destruct o as [[h|]]; split; try done; cbn; by rewrite ?app_nil_r. Qed.

Lemma on_read_ready_delivers received o : delivers (read_posts o received) o (after (on_read_ready received) o).
Proof.
  destruct received as [[|c data]|[]]; try by apply delivers_none.
  - unfold after. cbn [on_read_ready]. unfold bind at 1 2, rd, wr. cbn [fget f_read_buffer].
    set (o1 := fset _ _ o). rewrite read_loop_eq by (cbn; lia). rewrite drop_0.
    unfold delivers, socket_posts, read_posts. destruct o as [[h|]]; cbn; split; try done.
    + by rewrite <- list_fmap_compose.
    + by rewrite app_nil_r.
  - apply handle_error_delivers.
Qed.

Lemma write_loop_delivers data results : forall pos o,
  delivers (if broken (length data - pos) results then [None] else []) o (after (write_loop data results pos) o).
Proof.
  induction results as [|[n|[]] results IH]; intros pos o; cbn [write_loop];
    destruct (length data <=? pos)%nat eqn:Hpos;
    try (apply Nat.leb_le in Hpos; replace (length data - pos)%nat with 0%nat by lia; by apply delivers_none);
    apply Nat.leb_gt in Hpos; destruct (length data - pos)%nat as [|k] eqn:Hk; try lia; cbn [broken].
  - by apply delivers_none.
  - unfold after, bind, rd, wr. cbn [fget f_wire].
    replace (S k - n)%nat with (length data - (pos + n))%nat by lia. apply (IH (pos + n)%nat (fset f_wire _ o)).
  - by apply delivers_none.
  - pose proof (handle_error_delivers o) as He. unfold after, bind in *. by destruct (handle_error o).
  - by apply delivers_none.
Qed.

Lemma on_write_ready_delivers results o : delivers (write_posts o results) o (after (on_write_ready results) o).
Proof.
  pose proof (write_loop_delivers (write_buffer_ o) results 0 o) as Hl. rewrite Nat.sub_0_r in Hl. fold (write_posts o results) in Hl.
  unfold after in *. unfold on_write_ready, bind, rd. cbn [fget f_write_buffer].
  destruct (write_loop _ _ _ o) as [pos o'|f o']; [|exact Hl]. by destruct (_ <? _)%nat.
Qed.
End Connection.

#[export] Hint Resolve invalidates_unsubscribe invalidates_subscribe invalidates_impl_send : moves.

(** ** The router *)

Section Router.
Variable config_ : Config.
Implicit Types r : router.

(** What an event of the router calls. *)
Definition payload : Type := conn * handler * option Packet.

(** An event of the router as the loop has it: the scope is that of its connection. *)
Definition entry (e : event) : EventLoop.event payload :=
  EventLoop.MkEvent (User (ev_conn e, ev_handler e, ev_packet e)) (MkScope (Some (ev_conn e)) (ev_scope e)).

Definition router_queue (h : list (EventLoop.event payload)) r : queue payload :=
  MkQueue (entry <$> queue_ r) (scope_ <$> heap_ r) h.

(** What the program does to the queue by itself. *)
Definition silent (a : action payload) : Prop := match a with Invalidate _ | AddScope => True | Post _ | Turn => False end.

(** Nothing a connection posted is left with it, and the events are those of connections. *)
Definition quiet r : Prop :=
  Forall (fun o => posted_ o = []) (heap_ r) /\ Forall (fun e => (ev_conn e < length (heap_ r))%nat) (queue_ r).

Definition runs r r' : Prop := quiet r -> quiet r' /\
  exists acts, Forall silent acts /\ forall h, queue_execs acts (router_queue h r) = Some (router_queue h r').

#[export] Instance runs_preorder : PreOrder runs.
Proof.
  split; [intros r Hq; split; [done|]; by exists []|].
  intros r1 r2 r3 H12 H23 Hq. destruct (H12 Hq) as [Hq2 (l1 & S1 & H1)], (H23 Hq2) as [Hq3 (l2 & S2 & H2)]. split; [done|].
  exists (l1 ++ l2). split; [by apply Forall_app_2|]. intros h. by rewrite (queue_execs_app _ _ _ _ (H1 h)).
Qed.

Lemma runs_same r r' : queue_ r' = queue_ r -> heap_ r' = heap_ r -> runs r r'.
Proof. intros Hq Hh Hr. unfold quiet, router_queue. rewrite Hq, Hh. split; [done|]. by exists []. Qed.

Lemma quiet_put_conn c o o' r : heap_ r !! c = Some o -> quiet r -> quiet (put_conn c o' r).
Proof.
  intros Hc [Hp Hq]. split; [by apply Forall_insert|]. cbn. rewrite length_insert. apply Forall_app_2; [done|].
  apply list.Forall_forall. intros e ([[h p] sc] & -> & _)%list_elem_of_fmap. cbn. by eapply lookup_lt_Some.
Qed.

Lemma quiet_posted c o r : heap_ r !! c = Some o -> quiet r -> posted_ o = [].
Proof. intros Hc [Hq _]. rewrite list.Forall_lookup in Hq. by eapply Hq. Qed.

Lemma runs_put_conn c o o' r : heap_ r !! c = Some o -> invalidates o o' -> runs r (put_conn c o' r).
Proof.
  intros Hc He Hq. split; [by eapply quiet_put_conn|]. pose proof (quiet_posted _ _ _ Hc Hq) as Ho.
  induction He as [o o' Hs Hp|o o1 o' He IH Hs Hp].
  - exists []. split; [done|]. intros h. unfold router_queue, put_conn. cbn. rewrite Hp, Ho, app_nil_r, list_fmap_insert. cbn.
    by rewrite Hs, list_insert_id by (by rewrite list_lookup_fmap, Hc).
  - destruct (IH Hc Ho) as (acts & HA & Hx). exists (acts ++ [Invalidate c]). split; [by apply Forall_app_2; [|constructor]|].
    intros h. rewrite (queue_execs_app _ _ _ _ (Hx h)). unfold router_queue, put_conn. cbn. rewrite Hp, !list_fmap_insert, Hs. cbn.
    f_equal. f_equal. apply list_eq. intros i. destruct (decide (i = c)) as [->|Hne].
    + rewrite list_lookup_alter_eq, !list_lookup_insert_eq; [done|..]; rewrite length_fmap; by eapply lookup_lt_Some.
    + by rewrite list_lookup_alter_ne, !list_lookup_insert_ne.
Qed.

Lemma moves_call {A} c (m : prog (sock handler) A) : moves invalidates m -> moves runs (call c m).
Proof.
  intros Hm r. unfold after, call. destruct (heap_ r !! c) as [o|] eqn:Hc; [|reflexivity].
  specialize (Hm o). unfold after in Hm. destruct (m o) as [a o'|f o']; by eapply runs_put_conn.
Qed.

Lemma moves_new_conn : moves runs new_conn.
Proof.
  intros r [Hp Hq]. split.
  { split; [by apply Forall_app_2; [|constructor]|]. cbn. rewrite length_app.
    eapply list.Forall_impl; [exact Hq|]. cbn. intros e He. lia. }
  exists [AddScope]. split; [by constructor|]. intros h. unfold router_queue. cbn. by rewrite fmap_app.
Qed.

Lemma moves_router_field {T} (f : field router T) v :
  (forall r, queue_ (fset f v r) = queue_ r) -> (forall r, heap_ (fset f v r) = heap_ r) -> moves runs (wr f v).
Proof. intros Hq Hh r. apply runs_same; [apply Hq|apply Hh]. Qed.

Lemma moves_set_connection i c : moves runs (set_connection i c).
Proof. unfold set_connection, idx_upd. moves. apply moves_idx_set; [apply _|]. intros l r. by apply runs_same. Qed.

Lemma moves_raw_argument c key : moves runs (get_raw_argument (St := router) c key).
Proof.
  unfold get_raw_argument, get_hex. moves.
  assert (forall l acc, moves runs (for_acc l acc (fun i body => bind (substr (St := router) (get_argument c key []) (0 + Z.to_nat i * 2) 2)
    (fun s => ret (body ++ [u8 (hex_extract uint_max 0 s).1]))))) as Hl.
  { induction l as [|x l IH]; intros acc; cbn [for_acc]; unfold substr; moves. }
  apply Hl.
Qed.

Hint Resolve moves_call moves_new_conn moves_set_connection moves_raw_argument : moves.
Hint Extern 1 (moves runs (wr _ _)) => apply moves_router_field; reflexivity : moves.

Ltac runs := unfold update_reconnect_timer, remove_filters, remove_reply_filters, deref, route_command, ServiceCommand_new; moves.

Lemma moves_disconnect i : moves runs (disconnect_network i).
Proof. unfold disconnect_network. runs. Qed.

Lemma moves_close id : moves runs (close_connection id).
Proof. unfold close_connection. runs. Qed.

Lemma moves_route_to m d id reply : moves runs (route_to m d id reply).
Proof. unfold route_to. runs. Qed.
Hint Resolve moves_disconnect moves_close moves_route_to : moves.

Lemma moves_route_loop fuel m n d : forall pos dead, moves runs (route_loop fuel m n d pos dead).
Proof. induction fuel as [|fuel IH]; intros pos dead; cbn [route_loop]; runs. Qed.
Hint Resolve moves_route_loop : moves.

Lemma moves_device_packet p i : moves runs (on_device_packet_received config_ p i).
Proof. unfold on_device_packet_received, handle_device_packet. runs. Qed.

Lemma moves_client_packet p id : moves runs (on_connection_packet_received config_ p id).
Proof. unfold on_connection_packet_received, handle_command, handle_filter, handle_send. runs. Qed.

Lemma moves_send_timeout : moves runs send_timeout.
Proof. unfold send_timeout, on_send_timer. runs. Qed.

Lemma moves_connect_networks reach : moves runs (connect_networks reach).
Proof. unfold connect_networks, connect_network. runs. Qed.
Hint Resolve moves_connect_networks : moves.

Lemma moves_reconnect_timeout reach : moves runs (reconnect_timeout reach).
Proof. unfold reconnect_timeout, on_reconnect_timeout. runs. Qed.

Lemma moves_accepted c : moves runs (on_accepted_connection c).
Proof. unfold on_accepted_connection. runs. Qed.

Lemma moves_guarded m : moves runs m -> moves runs (handle_exception m).
Proof. intros Hm r. specialize (Hm r). unfold after, handle_exception in *. by destruct (m r) as [|[]]. Qed.

(** The inputs that are no turn and come from no socket. *)
Definition own_input (i : input) : Prop := match i with Accept | SendTimeout | ReconnectTimeout _ => True | _ => False end.

Lemma moves_input i : own_input i -> moves runs (router_step config_ i).
Proof.
  destruct i; try done; intros _; cbn [router_step].
  - apply moves_bind; [apply _|apply moves_new_conn|apply moves_accepted].
  - apply moves_send_timeout.
  - apply moves_reconnect_timeout.
Qed.

Lemma moves_handler h p : moves runs (handle_exception (run_handler config_ h p)).
Proof. apply moves_guarded. destruct h; [apply moves_device_packet|apply moves_client_packet]. Qed.

(** ** Turns *)

(** The event whose handler an input runs. *)
Definition runs_event (i : input) r : option event :=
  match i, queue_ r with
  | HandleEvent, e :: _ =>
      match heap_ r !! ev_conn e with Some o => if scope_ o =? ev_scope e then Some e else None | None => None end
  | _, _ => None
  end.

(** The events an input posts. *)
Definition posts (i : input) r : list event :=
  let sent (c : conn) (started : sock handler -> bool) (packets : sock handler -> list (option Packet)) :=
    match heap_ r !! c with
    | Some o => if started o then (fun '(h, p, sc) => MkEvent c h p sc) <$> socket_posts o (packets o) else []
    | None => []
    end in
  match i with
  | ReadReady c received => sent c read_started_ (fun o => read_posts o received)
  | WriteReadyOf c results => sent c write_started_ (fun o => write_posts o results)
  | _ => []
  end.

(** A turn runs the handler of the event it takes, with the rest of the events waiting, and
    nothing else; it runs nothing if the event is stale. *)
Definition turn_runs (i : input) r : Prop :=
  match i, queue_ r with
  | HandleEvent, _ :: q =>
      router_step config_ i r =
        match runs_event i r with
        | Some e => handle_exception (run_handler config_ (ev_handler e) (ev_packet e))
        | None => ret tt
        end (fset f_queue q r)
  | _, _ => True
  end.

(** What an input is to the queue: one turn if it handles an event, the posts of what was
    received, and then what the router does by itself. *)
Definition input_acts (i : input) r (acts : list (action payload)) : Prop :=
  turn_runs i r /\ exists own, Forall silent own /\
    acts = match i, queue_ r with HandleEvent, _ :: _ => [Turn] | _, _ => [] end ++ ((fun e => Post (entry e)) <$> posts i r) ++ own.

(** All inputs, up to a fault. *)
Fixpoint inputs_acts (inputs : list input) r (acts : list (action payload)) : Prop :=
  match inputs with
  | [] => acts = []
  | i :: inputs =>
      exists acts1 acts2, acts = acts1 ++ acts2 /\ input_acts i r acts1 /\
        match router_step config_ i r with Ok _ r' => inputs_acts inputs r' acts2 | Fault _ _ => acts2 = [] end
  end.

(** A socket that is ready posts what it delivers. *)
Lemma io_acts c started packets m r h : quiet r -> (forall o, delivers (packets o) o (after m o)) ->
  let r' := after (on_io c started m) r in
  quiet r' /\ queue_execs ((fun e => Post (entry e)) <$> match heap_ r !! c with
    | Some o => if (started o : bool) then (fun '(h, p, sc) => MkEvent c h p sc) <$> socket_posts o (packets o) else []
    | None => [] end) (router_queue h r) = Some (router_queue h r').
Proof.
  intros Hq Hm r'. subst r'. unfold after at 1 2, on_io, bind, rd. cbn [fget f_heap].
  destruct (heap_ r !! c) as [o|] eqn:Hc; [|done]. destruct (started o); [|done]. cbn [when].
  assert (match handle_exception (call c m) r with Ok _ s' | Fault _ s' => s' end = put_conn c (after m o) r) as ->.
  { unfold handle_exception, call, after. rewrite Hc. by destruct (m o) as [|[]]. }
  split; [by eapply quiet_put_conn|]. destruct (Hm o) as [Hs Hp]. rewrite (quiet_posted _ _ _ Hc Hq) in Hp. cbn in Hp.
  assert (forall (l : list (EventLoop.event payload)) q, queue_execs ((fun e => Post e) <$> l) q = Some (MkQueue (waiting q ++ l) (scope_values q) (handled q))) as Hposts.
  { clear. intros l. induction l as [|e l IH]; intros q; cbn; [rewrite app_nil_r; by destruct q|]. rewrite IH. cbn. by rewrite <- app_assoc. }
  rewrite (list_fmap_compose entry (fun e => Post e)), Hposts. f_equal. unfold router_queue, put_conn. cbn.
  rewrite Hp, fmap_app, list_fmap_insert. cbn. by rewrite Hs, list_insert_id by (by rewrite list_lookup_fmap, Hc).
Qed.

(** The first event is taken, and its handler is next if its scope is valid. *)
Lemma turn_acts r e q h : quiet r -> queue_ r = e :: q ->
  let valid := bool_decide (is_Some (runs_event HandleEvent r)) in
  handle_event config_ r = (if valid then handle_exception (run_handler config_ (ev_handler e) (ev_packet e)) else ret tt) (fset f_queue q r) /\
  runs_event HandleEvent r = (if valid then Some e else None) /\
  queue_exec Turn (router_queue h r) = Some (router_queue (h ++ (if valid then [entry e] else [])) (fset f_queue q r)) /\
  quiet (fset f_queue q r).
Proof.
  intros [Hp Hq] Eq. rewrite Eq in Hq. apply list.Forall_cons in Hq as [He Hq].
  apply lookup_lt_is_Some_2 in He as [o Ho].
  assert (valid (entry e) (router_queue h r) = (scope_ o =? ev_scope e)) as Hv.
  { unfold valid, entry. cbn. by rewrite nth_lookup, list_lookup_fmap, Ho. }
  assert (runs_event HandleEvent r = if scope_ o =? ev_scope e then Some e else None) as Hr by (unfold runs_event; by rewrite Eq, Ho).
  assert (handle_event config_ r = when (scope_ o =? ev_scope e)
    (handle_exception (run_handler config_ (ev_handler e) (ev_packet e))) (fset f_queue q r)) as ->.
  { unfold handle_event, bind at 1, rd at 1. cbn [fget f_queue]. rewrite Eq.
    unfold bind at 1, wr, bind at 1, rd. cbn [fget f_heap]. change (heap_ (fset f_queue q r)) with (heap_ r). by rewrite Ho. }
  assert (queue_exec Turn (router_queue h r) =
    Some (router_queue (if scope_ o =? ev_scope e then h ++ [entry e] else h) (fset f_queue q r))) as ->.
  { assert (waiting (router_queue h r) = entry e :: (entry <$> q)) as Hw by (unfold router_queue; cbn; by rewrite Eq).
    unfold queue_exec. rewrite Hw, Hv. by destruct (scope_ o =? ev_scope e). }
  cbn zeta. rewrite Hr. by destruct (scope_ o =? ev_scope e); cbn; rewrite ?app_nil_r.
Qed.

Lemma step_acts i r h : quiet r -> quiet (after (router_step config_ i) r) /\ exists acts, input_acts i r acts /\
  queue_execs acts (router_queue h r) =
    Some (router_queue (h ++ option_list (entry <$> runs_event i r)) (after (router_step config_ i) r)).
Proof.
  intros Hq.
  assert (i = HandleEvent \/ own_input i \/ (exists c x, i = ReadReady c x) \/ (exists c x, i = WriteReadyOf c x))
    as [->|[Hown|[(c & received & ->)|(c & results & ->)]]] by (destruct i; cbn; eauto 6).
  - cbn [router_step]. destruct (queue_ r) as [|e q] eqn:Eq.
    + unfold runs_event, after, handle_event, bind, rd. cbn. rewrite Eq, app_nil_r. split; [done|].
      exists []. split; [|done]. split; [by unfold turn_runs; rewrite Eq|]. exists []. split; [done|]. by rewrite Eq.
    + destruct (turn_acts r e q h Hq Eq) as (H1 & H2 & H3 & H4).
      set (runs_it := bool_decide (is_Some (runs_event HandleEvent r))) in *. unfold after. rewrite H1, H2.
      assert (moves runs (if runs_it then handle_exception (run_handler config_ (ev_handler e) (ev_packet e)) else ret tt)) as Hm.
      { destruct runs_it; [apply moves_handler|apply moves_ret; apply _]. }
      destruct (Hm _ H4) as [H5 (own & HS & H6)]. split; [exact H5|]. exists (Turn :: own). split.
      * split; [unfold turn_runs; rewrite Eq, H2; cbn [router_step]; rewrite H1; by destruct runs_it|].
        exists own. split; [done|]. by rewrite Eq.
      * cbn [queue_execs]. rewrite H3. cbn. rewrite H6. by destruct runs_it.
  - destruct (moves_input i Hown r Hq) as [H1 (own & HS & H2)]. split; [done|]. exists own.
    split; [|destruct i; try done; cbn [runs_event]; by rewrite app_nil_r, H2].
    split; [by destruct i|]. exists own. split; [done|]. by destruct i.
  - cbn [router_step runs_event option_list fmap option_fmap option_map]. rewrite app_nil_r.
    destruct (io_acts c read_started_ (fun o => read_posts o received) _ r h Hq (on_read_ready_delivers received)) as [H1 H2].
    split; [exact H1|]. eexists. split; [|exact H2]. split; [done|]. exists []. split; [done|]. by rewrite app_nil_r.
  - cbn [router_step runs_event option_list fmap option_fmap option_map]. rewrite app_nil_r.
    destruct (io_acts c write_started_ (fun o => write_posts o results) _ r h Hq (on_write_ready_delivers results)) as [H1 H2].
    split; [exact H1|]. eexists. split; [|exact H2]. split; [done|]. exists []. split; [done|]. by rewrite app_nil_r.
Qed.

(** The events whose handlers the inputs run, up to a fault. *)
Fixpoint handled_by (inputs : list input) r : list event :=
  match inputs with
  | [] => []
  | i :: inputs =>
      option_list (runs_event i r) ++ match router_step config_ i r with Ok _ r' => handled_by inputs r' | Fault _ _ => [] end
  end.

Lemma fmap_option_list' (o : option event) : entry <$> option_list o = option_list (entry <$> o).
Proof. by destruct o. Qed.

Lemma inputs_act inputs : forall r h, quiet r ->
  quiet (after (for_each inputs (router_step config_)) r) /\ exists acts, inputs_acts inputs r acts /\
  queue_execs acts (router_queue h r) =
    Some (router_queue (h ++ (entry <$> handled_by inputs r)) (after (for_each inputs (router_step config_)) r)).
Proof.
  induction inputs as [|i inputs IH]; intros r h Hq; cbn [for_each handled_by inputs_acts].
  { cbn. rewrite app_nil_r. split; [done|]. by exists []. }
  destruct (step_acts i r h Hq) as [H1 (acts1 & HA & H2)]. unfold after, bind in *.
  destruct (router_step config_ i r) as [[] r1|f r1].
  - destruct (IH r1 (h ++ option_list (entry <$> runs_event i r)) H1) as [H3 (acts2 & HB & H4)]. split; [done|].
    exists (acts1 ++ acts2). split; [by exists acts1, acts2|]. rewrite (queue_execs_app _ _ _ _ H2).
    rewrite fmap_app, app_assoc, fmap_option_list'. exact H4.
  - rewrite app_nil_r, fmap_option_list'. split; [done|]. exists acts1. split; [|done].
    exists acts1, []. by rewrite app_nil_r.
Qed.

Lemma moves_start listens reach : moves runs (start listens reach).
Proof.
  unfold start, start_bindings. moves. apply moves_idx_set; [apply _|]. intros l r. by apply runs_same.
Qed.

Lemma moves_stop : moves runs stop.
Proof.
  unfold stop, disconnect_networks, stop_bindings, close_connections. runs.
  apply moves_idx_set; [apply _|]. intros l r. by apply runs_same.
Qed.

(** C13. The router keeps to the queue that the event loop implements.  From its start, for any
    inputs and to its stop, with faults as without, its list of events is that of the queue
    whose actions are, input by input: one turn for each event it takes, the first that
    waits; a post, in the order of their lines, for each packet of what a socket received and for
    a connection found closed, under the scope of that connection as it is; and otherwise only
    scopes that are made or invalidated.  No event is lost, made up or taken twice.  A
    turn is the handler of the event taken, run once, if the scope of that event is still
    valid, and nothing if not; so the events whose handlers the router runs are those the
    queue handles, in its order. *)
Theorem router_refines_queue listens reach inputs r0 : Router_new config_ tt = Ok r0 tt ->
  exists acts0, Forall silent acts0 /\
  match start listens reach r0 with
  | Ok _ r1 =>
      let r2 := after (for_each inputs (router_step config_)) r1 in
      exists acts acts1, inputs_acts inputs r1 acts /\ Forall silent acts1 /\
        queue_execs (acts0 ++ acts) queue_new = Some (router_queue (entry <$> handled_by inputs r1) r2) /\
        queue_execs (acts0 ++ acts ++ acts1) queue_new = Some (router_queue (entry <$> handled_by inputs r1) (after stop r2))
  | Fault _ r1 => queue_execs acts0 queue_new = Some (router_queue [] r1)
  end.
Proof.
  intros Hn. assert (quiet r0 /\ router_queue [] r0 = queue_new) as [Hq H0].
  { unfold Router_new, verify, bind in Hn. repeat case_match; try discriminate. injection Hn as <- _. by repeat constructor. }
  destruct (moves_start listens reach r0 Hq) as [Hq1 (acts0 & HS0 & H1)]. specialize (H1 []). rewrite H0 in H1.
  exists acts0. split; [done|]. unfold after in Hq1, H1.
  destruct (start listens reach r0) as [[] r1|f r1]; [|exact H1].
  destruct (inputs_act inputs r1 [] Hq1) as [Hq2 (acts & HA & H2)]. cbn zeta. cbn [app] in H2.
  destruct (moves_stop _ Hq2) as [_ (acts1 & HS1 & H3)].
  exists acts, acts1. split; [done|]. split; [done|]. rewrite !(queue_execs_app _ _ _ _ H1), (queue_execs_app _ _ _ _ H2). by split.
Qed.
End Router.

(** A client connects, sends a command and hangs up: two events, of which the first is handled;
    the second, the null packet of the closed connection, would not return. *)
Definition client_inputs : list input :=
  [Accept; ReadReady 1 (Received (txt "cmd:status" ++ crlf)); HandleEvent; ReadReady 1 (RecvFailed Closed)].

Definition sample_new : router :=
  match Router_new sample_config tt with Ok r _ => r | Fault _ _ => sample_router [] [] end.

Definition sample_started : router := after (start (fun _ => true) (fun _ _ => true)) sample_new.

Example client_events :
  (ev_handler <$> handled_by sample_config client_inputs sample_started) = [OnConnection 1] /\
  (ev_packet <$> queue_ (after (for_each client_inputs (router_step sample_config)) sample_started)) = [None].
Proof. by vm_compute. Qed.

(** The actions of these inputs: the scopes of the network and of the client, the two posts,
    and one turn between them. *)
Example client_acts :
  queue_execs [AddScope; AddScope;
      Post (entry (MkEvent 1 (OnConnection 1) (Some (PServiceCommand (MkServiceCommand (txt "status") []))) 0)); Turn;
      Post (entry (MkEvent 1 (OnConnection 1) None 0))] queue_new =
    Some (router_queue (entry <$> handled_by sample_config client_inputs sample_started)
      (after (for_each client_inputs (router_step sample_config)) sample_started)).
Proof. vm_compute. reflexivity. Qed.

Lemma router_refines_queue_witness :
  exists acts0 acts, inputs_acts sample_config client_inputs sample_started acts /\
    queue_execs (acts0 ++ acts) queue_new = Some (router_queue (entry <$> handled_by sample_config client_inputs sample_started)
      (after (for_each client_inputs (router_step sample_config)) sample_started)).
Proof.
  destruct (router_refines_queue sample_config (fun _ => true) (fun _ _ => true) client_inputs sample_new eq_refl)
    as (acts0 & _ & acts & acts1 & HA & _ & H & _).
  exists acts0, acts. split; [exact HA|exact H].
Defined.
