(* ===== verification/Application.v ===== *)
(** The program of the router, [deephome/router/Application.cpp]: its command line, start
    and stop, and the signals.

    The state is the [Application] object with the log and the router it owns.  The event
    loop it runs is a list of what it meets: an input of the router, or a signal; the
    file system, the sockets and the networks at that time are an [environment].  What the
    program writes to its log is not recorded here. *)

From Stdlib Require Import String.
From S2P Require Import Prelude Monad EventLoop Text Message MessageRules.
From S2P Require Import SocketConnection Config Log Router RouterRules RouterProps.

(** ** The command line *)

Record arguments : Type := MkArgs {
  valid_arguments_ : bool;
  print_help_ : bool;
  daemonize_ : bool;
  log_file_ : text;
  arg_level : Level;
  config_file_ : text
}.

Definition arguments_init : arguments := MkArgs false false false [] Level_Info [].

Definition set_valid (a : arguments) : arguments := MkArgs true (print_help_ a) (daemonize_ a) (log_file_ a) (arg_level a) (config_file_ a).
Definition set_help (a : arguments) : arguments := MkArgs (valid_arguments_ a) true (daemonize_ a) (log_file_ a) (arg_level a) (config_file_ a).
Definition set_daemon (a : arguments) : arguments := MkArgs (valid_arguments_ a) (print_help_ a) true (log_file_ a) (arg_level a) (config_file_ a).
Definition set_log_file (f : text) (a : arguments) : arguments := MkArgs (valid_arguments_ a) (print_help_ a) (daemonize_ a) f (arg_level a) (config_file_ a).
Definition set_log_level (l : Level) (a : arguments) : arguments := MkArgs (valid_arguments_ a) (print_help_ a) (daemonize_ a) (log_file_ a) l (config_file_ a).
Definition set_config_file (f : text) (a : arguments) : arguments := MkArgs (valid_arguments_ a) (print_help_ a) (daemonize_ a) (log_file_ a) (arg_level a) f.

(** [std::tolower] in the C locale. *)
Definition tolower (c : ascii) : ascii :=
  if (65 <=? code c) && (code c <=? 90) then ascii_of_N (Z.to_N (code c + 32)) else c.

Fixpoint same_letters (value expected : text) : bool :=
  match value, expected with
  | v :: value, e :: expected => if negb (Ascii.eqb (tolower v) (tolower e)) then false else same_letters value expected
  | _, _ => true
  end.

Definition matches (expected value : text) : bool :=
  if (length expected <? length value)%nat then false else same_letters value expected.

Definition parse_loglevel (level : text) : option Level :=
  if bool_decide (level = []) then None
  else if matches (txt "debug") level || bool_decide (level = txt "0") then Some Level_Debug
  else if matches (txt "info") level || bool_decide (level = txt "1") then Some Level_Info
  else if matches (txt "warning") level || bool_decide (level = txt "2") then Some Level_Warning
  else if matches (txt "error") level || bool_decide (level = txt "3") then Some Level_Error
  else if matches (txt "fatal") level || bool_decide (level = txt "4") then Some Level_FatalError
  else None.

Inductive arg_state : Type := State_Keys | State_Logfile | State_Loglevel | State_ConfigFile.

#[export] Instance arg_state_eq_dec : EqDecision arg_state.
Proof. solve_decision. Defined.

(** [arg == a || ...] *)
Definition is_one_of (arg : text) (l : list text) : bool := existsb (fun a => bool_decide (arg = a)) l.

(** The loop over the arguments, from [state]; a [return] leaves [valid_arguments_] false. *)
Fixpoint parse_arguments_from (state : arg_state) (argv : list text) (a : arguments) : arguments :=
  match argv with
  | [] =>
      match state with
      | State_Keys => set_valid a
      | State_ConfigFile => if negb (bool_decide (config_file_ a = [])) then set_valid a else a
      | _ => a
      end
  | [] :: _ => a
  | (c :: _) as arg :: argv =>
      if Ascii.eqb c "-" && bool_decide (state = State_Keys) then
        if is_one_of arg [txt "-d"] then parse_arguments_from state argv (set_daemon a)
        else if is_one_of arg [txt "-h"; txt "-?"; txt "--help"] then parse_arguments_from state argv (set_help a)
        else if is_one_of arg [txt "--"] then parse_arguments_from State_ConfigFile argv a
        else if is_one_of arg [txt "-L"; txt "--log"] then parse_arguments_from State_Logfile argv a
        else if is_one_of arg [txt "-l"; txt "--level"] then parse_arguments_from State_Loglevel argv a
        else a
      else
        match state with
        | State_Logfile => parse_arguments_from State_Keys argv (set_log_file arg a)
        | State_Loglevel =>
            match parse_loglevel arg with
            | None => a
            | Some l => parse_arguments_from State_Keys argv (set_log_level l a)
            end
        | _ => if negb (bool_decide (config_file_ a = [])) then a else parse_arguments_from state argv (set_config_file arg a)
        end
  end.

(** [argv] without the name of the program. *)
Definition parse_arguments (argv : list text) : arguments := parse_arguments_from State_Keys argv arguments_init.

Definition init_log (a : arguments) : prog logger unit :=
  set_level (arg_level a) ;;
  if negb (bool_decide (log_file_ a = [])) then
    if bool_decide (log_file_ a = txt "-") then add_target Target_Stderr []
    else add_target Target_File (log_file_ a)
  else add_target Target_Syslog (txt "dhrouter").

(** ** The application *)

Record environment : Type := MkEnv {
  getenv : option text;                  (* DEEPHOME_PATH *)
  readlink : option text;                (* /proc/self/exe *)
  files : text -> option text;           (* what a file holds, if it can be opened *)
  opens : Binding -> bool;               (* [listen_tcp] and [listen_unix] *)
  reach : text -> text -> bool           (* [connect_tcp] *)
}.

Record application : Type := MkApp {
  args : arguments;
  log : logger;
  sig_hup_ : SignalListener;
  sig_term_ : SignalListener;
  sig_int_ : SignalListener;
  sigpipe_ignored : bool;
  config_ : option Config;
  router_ : option router;
  unlooped : bool
}.

Definition f_log : field application logger := Field log (fun v a => MkApp (args a) v (sig_hup_ a) (sig_term_ a) (sig_int_ a) (sigpipe_ignored a) (config_ a) (router_ a) (unlooped a)).
Definition f_sig_hup : field application SignalListener := Field sig_hup_ (fun v a => MkApp (args a) (log a) v (sig_term_ a) (sig_int_ a) (sigpipe_ignored a) (config_ a) (router_ a) (unlooped a)).
Definition f_sig_term : field application SignalListener := Field sig_term_ (fun v a => MkApp (args a) (log a) (sig_hup_ a) v (sig_int_ a) (sigpipe_ignored a) (config_ a) (router_ a) (unlooped a)).
Definition f_sig_int : field application SignalListener := Field sig_int_ (fun v a => MkApp (args a) (log a) (sig_hup_ a) (sig_term_ a) v (sigpipe_ignored a) (config_ a) (router_ a) (unlooped a)).
Definition f_sigpipe : field application bool := Field sigpipe_ignored (fun v a => MkApp (args a) (log a) (sig_hup_ a) (sig_term_ a) (sig_int_ a) v (config_ a) (router_ a) (unlooped a)).
Definition f_config : field application (option Config) := Field config_ (fun v a => MkApp (args a) (log a) (sig_hup_ a) (sig_term_ a) (sig_int_ a) (sigpipe_ignored a) v (router_ a) (unlooped a)).
Definition f_router : field application (option router) := Field router_ (fun v a => MkApp (args a) (log a) (sig_hup_ a) (sig_term_ a) (sig_int_ a) (sigpipe_ignored a) (config_ a) v (unlooped a)).
Definition f_unlooped : field application bool := Field unlooped (fun v a => MkApp (args a) (log a) (sig_hup_ a) (sig_term_ a) (sig_int_ a) (sigpipe_ignored a) (config_ a) (router_ a) v).

Definition SIGHUP : Z := 1.
Definition SIGINT : Z := 2.
Definition SIGTERM : Z := 15.

(** [Application::Application(argc, argv)] *)
Definition Application_new (argv : list text) : application :=
  MkApp (parse_arguments argv) logger_init (SignalListener_new SIGHUP) (SignalListener_new SIGTERM) (SignalListener_new SIGINT)
    false None None false.

(** [router_->m()], of the configuration the router was made with. *)
Definition on_router {A} (m : Config -> prog router A) : prog application A := fun a =>
  match router_ a, config_ a with
  | Some r, Some c =>
      match m c r with Ok x r' => Ok x (fset f_router (Some r') a) | Fault e r' => Fault e (fset f_router (Some r') a) end
  | _, _ => Fault NullCall a
  end.

(** [catch (const std::exception&)] *)
Definition catch_all {A} (m h : prog application A) : prog application A := fun a =>
  match m a with Fault (Throw _) a' => h a' | r => r end.

(** The file to read. *)
Definition config_path (env : environment) (a : arguments) : text :=
  if bool_decide (config_file_ a = []) then config_file_path (getenv env) (readlink env) (txt "dhrouter" ++ txt ".conf") else config_file_ a.

Definition read_config (env : environment) : prog application unit := fun a =>
  (let! r := rd f_router in
   verify (bool_decide (r = None)) ;;
   let! raw_config := on_object [] (read_file (files env (config_path env (args a)))) in
   let! c := Config_new raw_config in
   wr f_config (Some c)) a.

(** The destructors of the router, its timers and its servers. *)
Definition Router_delete {St} (r : router) : prog St unit :=
  verify (negb (started_ r)) ;;
  verify (negb (send_timer_ r)) ;;
  verify (negb (reconnect_timeout_ r)) ;;
  verify (forallb (fun b => negb (server b)) (bindings_ r)).

Definition app_start (env : environment) : prog application bool :=
  let! b := catch_all
    (read_config env ;;
     let! c := rd f_config in
     (match c with
      | Some c => let! r := Router_new c in wr f_router (Some r)
      | None => raise NullCall
      end) ;;
     on_router (fun _ => start (opens env) (reach env)) ;;
     ret true)
    (ret false) in
  if negb b then ret false
  else
    on_part f_sig_hup SignalListener_start ;;
    on_part f_sig_term SignalListener_start ;;
    on_part f_sig_int SignalListener_start ;;
    wr f_sigpipe true ;;
    ret true.

Definition app_stop : prog application unit :=
  on_part f_sig_hup SignalListener_stop ;;
  on_part f_sig_term SignalListener_stop ;;
  on_part f_sig_int SignalListener_stop ;;
  on_router (fun _ => stop) ;;
  let! r := rd f_router in
  (match r with Some r => Router_delete r | None => ret tt end) ;;
  wr f_router None ;;
  wr f_config None.

(** [Application::on_signal], with [event_loop_.unloop()]. *)
Definition app_on_signal (env : environment) (signum : Z) : prog application unit :=
  let! again := (if signum =? SIGHUP then app_stop ;; app_start env else ret false) in
  if again : bool then ret tt else wr f_unlooped true.

(** What the event loop meets. *)
Inductive met : Type := Meets (i : input) | Signalled (signum : Z) (env : environment).

(** The signal's watcher calls back while it is started; a signal that has none is not the
    program's to handle.  An exception in a handler ends the program. *)
Definition app_step (m : met) : prog application unit :=
  match m with
  | Meets i => on_router (fun c => router_step c i)
  | Signalled signum env => fun a =>
      if existsb (fun w => signal_started w && (EventLoop.signum w =? signum)) [sig_hup_ a; sig_term_ a; sig_int_ a]
      then on_signal None (app_on_signal env signum) a else Ok tt a
  end.

(** [event_loop_.run()]: until [unloop].  A loop that has nothing more to meet waits for ever. *)
Fixpoint run_loop (l : list met) : prog application unit :=
  match l with
  | [] => let! u := rd f_unlooped in if u : bool then ret tt else raise Hang
  | m :: l => let! u := rd f_unlooped in if u : bool then ret tt else app_step m ;; run_loop l
  end.

(** [Application::run()]: the exit code; [daemon]: whether [::daemon] succeeds. *)
Definition run (daemon : bool) (env : environment) (l : list met) : prog application Z := fun a =>
  (if negb (valid_arguments_ (args a)) || print_help_ (args a) then ret (if valid_arguments_ (args a) then 0 else 1)
   else if daemonize_ (args a) && negb daemon then ret 2
   else
     on_part f_log (init_log (args a)) ;;
     let! b := app_start env in
     if negb b then ret 2
     else run_loop l ;; app_stop ;; ret 0) a.

(** ** What the command line means *)

Inductive option_given : Type := Daemon | Help | LogFile (f : text) | LogLevel (t : text) (l : Level).

Definition option_ok (o : option_given) : Prop :=
  match o with LogFile f => f <> [] | LogLevel t l => parse_loglevel t = Some l | _ => True end.

Definition written_option (o : option_given) : list text :=
  match o with
  | Daemon => [txt "-d"]
  | Help => [txt "-h"]
  | LogFile f => [txt "-L"; f]
  | LogLevel t _ => [txt "-l"; t]
  end.

Definition meaning (a : arguments) (o : option_given) : arguments :=
  match o with
  | Daemon => set_daemon a
  | Help => set_help a
  | LogFile f => set_log_file f a
  | LogLevel _ l => set_log_level l a
  end.

(** The configuration file, behind [--] or as it is. *)
Inductive file_given : Type := NoFile | Behind (f : text) | Plain (f : text).

Definition file_ok (f : file_given) : Prop :=
  match f with NoFile => True | Behind f => f <> [] | Plain f => exists c f', f = c :: f' /\ Ascii.eqb c "-" = false end.

Definition written_file (f : file_given) : list text :=
  match f with NoFile => [] | Behind f => [txt "--"; f] | Plain f => [f] end.

Definition file_of (f : file_given) : text := match f with NoFile => [] | Behind f | Plain f => f end.

(** An argument that is not looked at for an option. *)
Lemma parse_value state c f argv a : state <> State_Keys \/ Ascii.eqb c "-" = false ->
  parse_arguments_from state ((c :: f) :: argv) a =
    match state with
    | State_Logfile => parse_arguments_from State_Keys argv (set_log_file (c :: f) a)
    | State_Loglevel =>
        match parse_loglevel (c :: f) with None => a | Some l => parse_arguments_from State_Keys argv (set_log_level l a) end
    | _ => if negb (bool_decide (config_file_ a = [])) then a else parse_arguments_from state argv (set_config_file (c :: f) a)
    end.
Proof.
  intros H. cbn [parse_arguments_from]. assert (Ascii.eqb c "-" && bool_decide (state = State_Keys) = false) as ->; [|done].
  destruct H as [H| ->]; [|done]. rewrite bool_decide_eq_false_2 by done. apply andb_false_r.
Qed.

Lemma parse_option o rest a : option_ok o ->
  parse_arguments_from State_Keys (written_option o ++ rest) a = parse_arguments_from State_Keys rest (meaning a o).
Proof.
  destruct o as [| |f|t l]; cbn [option_ok written_option app meaning]; intros Ho; [reflexivity..| |].
  - destruct f as [|c f]; [done|]. change (parse_arguments_from State_Logfile ((c :: f) :: rest) a = parse_arguments_from State_Keys rest (set_log_file (c :: f) a)).
    rewrite parse_value by (by left). reflexivity.
  - destruct t as [|c t]; [done|]. change (parse_arguments_from State_Loglevel ((c :: t) :: rest) a = parse_arguments_from State_Keys rest (set_log_level l a)).
    rewrite parse_value, Ho by (by left). reflexivity.
Qed.

(** The command line is understood as its usage says: options in any order and number
    (for each the last one counts), then at most one configuration file, which
    may begin with a minus sign behind [--].  A log file may be called anything but the empty
    string, a level is one of the five names or the beginning of one, in upper or lower
    case, or a digit.  Reading what was written gives these settings, and the
    arguments are valid. *)
Theorem command_line_understood (options : list option_given) (f : file_given) :
  Forall option_ok options -> file_ok f ->
  parse_arguments (concat (written_option <$> options) ++ written_file f) =
    set_valid (set_config_file (file_of f) (fold_left meaning options arguments_init)).
Proof.
  intros Ho Hf. unfold parse_arguments. assert (config_file_ arguments_init = []) as Hc by done. revert Hc. generalize arguments_init as a.
  induction Ho as [|o options Ho _ IH]; intros a Hc; cbn [fmap list_fmap concat fold_left].
  - destruct f as [|f|f]; cbn [written_file app file_of].
    + destruct a. cbn in Hc. by subst.
    + cbn [file_ok] in Hf. destruct f as [|c f]; [done|].
      change (parse_arguments_from State_ConfigFile [c :: f] a = set_valid (set_config_file (c :: f) a)).
      rewrite parse_value by (by left). by rewrite Hc.
    + destruct Hf as (c & f' & -> & Hd). cbn [app]. rewrite parse_value by (by right). by rewrite Hc.
  - rewrite <- app_assoc, parse_option by done. apply IH. by destruct o, a.
Qed.

Lemma command_line_understood_witness :
  parse_arguments [txt "-L"; txt "-"; txt "-d"; txt "-l"; txt "WARN"; txt "--"; txt "-d.conf"] =
    MkArgs true false true (txt "-") Level_Warning (txt "-d.conf").
Proof.
  apply (command_line_understood [LogFile (txt "-"); Daemon; LogLevel (txt "WARN") Level_Warning] (Behind (txt "-d.conf"))).
  - repeat constructor; discriminate.
  - discriminate.
Defined.

(** An empty argument, an unknown option, an option without its value and a second file are refused. *)
Example refused : forallb (fun argv => negb (valid_arguments_ (parse_arguments argv)))
  [[[]]; [txt "-x"]; [txt "-"]; [txt "-L"]; [txt "-l"; txt "loud"]; [txt "--"]; [txt "a"; txt "b"]] = true.
Proof. reflexivity. Qed.

Example level_names : parse_loglevel <$> [txt "d"; txt "Inf"; txt "warning"; txt "E"; txt "4"; txt "warnings"; []] =
  [Some Level_Debug; Some Level_Info; Some Level_Warning; Some Level_Error; Some Level_FatalError; None; None].
Proof. reflexivity. Qed.

(** ** Start and stop *)

(** What the configuration file gives. *)
Definition load (env : environment) (a : application) : option Config :=
  match (let! raw := on_object [] (read_file (files env (config_path env (args a)))) in Config_new raw) tt with
  | Ok c _ => Some c
  | Fault _ _ => None
  end.

Lemma read_config_eq env a : router_ a = None ->
  read_config env a = match load env a with Some c => Ok tt (fset f_config (Some c) a) | None => Fault (Throw runtime_error) a end.
Proof.
  intros Hr. unfold read_config, load, bind at 1, rd. cbn [fget f_router]. rewrite Hr. unfold bind at 1, verify. cbn.
  unfold on_object, bind. pose proof (read_file_wp (files env (config_path env (args a))) []) as Hf. unfold wp, config_error in Hf.
  destruct (read_file _ []) as [[] raw|f raw]; [|by subst].
  unfold Config_new, on_object. pose proof (Config_new_wp raw tt) as Hc. unfold wp, config_error, Config_new, on_object in Hc.
  destruct (parse_config raw Config_empty) as [[] c|f c]; [done|by subst].
Qed.

Lemma load_wf env a c : load env a = Some c -> config_wf c.
Proof.
  unfold load, bind, on_object. destruct (read_file _ []) as [[] raw|f raw]; [|done].
  pose proof (Config_new_wp raw tt) as Hc. unfold wp in Hc. destruct (Config_new raw tt); [|done]. intros [= <-]. by destruct Hc.
Qed.

(** A router as it is made, and once its bindings are open. *)
Definition new_router (c : Config) : router :=
  MkRouter false false false ((fun n => MkNetworkRecord n None) <$> get_networks c) 0
    ((fun b => MkBindingRecord b false) <$> get_bindings c) [] 0 [] [] [] [].

Definition open_binding (b : BindingRecord) : BindingRecord := MkBindingRecord (binding b) true.

Lemma start_bindings_wp (listens : Binding -> bool) r :
  wp (fun f r' => f = Throw runtime_error /\ exists before b after, bindings_ r = before ++ b :: after /\
        Forall (fun b => listens (binding b) = true) before /\ listens (binding b) = false /\
        r' = fset f_binds ((open_binding <$> before) ++ b :: after) r)
     (start_bindings listens)
     (fun _ r' => Forall (fun b => listens (binding b) = true) (bindings_ r) /\ r' = fset f_binds (open_binding <$> bindings_ r) r) r.
Proof.
  unfold start_bindings. apply wp_bind, wp_rd. cbn [fget f_binds].
  apply (wp_for_each _ _ (fun done r' => exists before after, length before = length done /\ bindings_ r = before ++ after /\
    Forall (fun b => listens (binding b) = true) before /\ r' = fset f_binds ((open_binding <$> before) ++ after) r)).
  - exists [], (bindings_ r). repeat (split; [done|]). by destruct r.
  - intros done i rest r' Heq (before & after & Hlen & Hb & Hall & ->). apply range_split in Heq as [-> Hi].
    destruct after as [|b after]; [rewrite Hb, app_nil_r in Hi; lia|]. rewrite <- Hlen.
    assert (((open_binding <$> before) ++ b :: after) !! length before = Some b) as Hlook
      by (rewrite <- (length_fmap open_binding before); by apply list_lookup_middle).
    apply wp_bind. eapply wp_eq; [apply idx_ok; [lia|by rewrite Nat2Z.id]|].
    apply wp_bind, wp_when; intros Hl.
    + apply wp_raise. split; [done|]. exists before, b, after. apply negb_true_iff in Hl. by repeat split.
    + apply negb_false_iff in Hl. eapply wp_eq.
      { apply idx_set_ok. cbn. rewrite length_app, length_fmap. cbn. lia. }
      cbn [fget f_binds]. rewrite Nat2Z.id. exists (before ++ [b]), after. rewrite !length_app, Hlen. split; [done|].
      split; [by rewrite <- app_assoc|]. split; [apply Forall_app; by repeat constructor|].
      rewrite fmap_app, <- app_assoc. cbn [fset f_binds bindings_].
      replace (length done) with (length (open_binding <$> before)) by by rewrite length_fmap.
      change ((open_binding <$> [b]) ++ after) with (MkBindingRecord (binding b) true :: after).
      by rewrite insert_app_r_alt, Nat.sub_diag by lia.
  - intros r' (before & after & Hlen & Hb & Hall & ->). unfold range in Hlen. rewrite length_fmap, length_seq, Nat2Z.id in Hlen.
    rewrite Hb, length_app in Hlen. destruct after; [|cbn in Hlen; lia]. rewrite Hb, app_nil_r. rewrite !app_nil_r. by split.
Qed.

(** The application runs with configuration [c] and router [r]. *)
Record running (a : application) (c : Config) (r : router) : Prop := Running {
  run_config : config_ a = Some c;
  run_router : router_ a = Some r;
  run_inv : router_inv c r;
  run_started : started_ r = true;
  run_servers : Forall (fun b => server b = true) (bindings_ r);
  run_hup : sig_hup_ a = MkSignal SIGHUP true true;
  run_term : sig_term_ a = MkSignal SIGTERM true true;
  run_int : sig_int_ a = MkSignal SIGINT true true;
  run_loops : unlooped a = false
}.

(** Stopped: nothing is left of the router. *)
Definition stopped (a : application) : application :=
  MkApp (args a) (log a) (SignalListener_new SIGHUP) (SignalListener_new SIGTERM) (SignalListener_new SIGINT) (sigpipe_ignored a) None None (unlooped a).

Definition all_up (r : router) : Prop := forall i n, networks_ r !! i = Some n -> is_Some (connection n).
Definition one_down (r : router) : Prop := exists i n, networks_ r !! i = Some n /\ connection n = None.

Lemma app_stop_up a c r : running a c r -> all_up r -> app_stop a = Ok tt (stopped a).
Proof.
  intros [Hc Hr Hi Hs Hb Hh Ht Hn Hu] Hup. destruct a; cbn in *; subst.
  destruct (stop_needs_every_network c r Hi Hs Hb) as [H _]. destruct (H Hup) as (r' & Hstop & Hs' & Ht' & Hrec & _ & _ & Hb' & _).
  unfold app_stop, bind, on_part, on_router. cbn -[stop]. rewrite Hstop. cbn. unfold Router_delete. rewrite Hs', Ht', Hrec.
  assert (forallb (fun b => negb (server b)) (bindings_ r') = true) as ->.
  { apply forallb_forall. intros b Hin. rewrite List.Forall_forall in Hb'. by rewrite (Hb' b Hin). }
  reflexivity.
Qed.

Lemma app_stop_down a c r : running a c r -> one_down r -> exists a', app_stop a = Fault NullCall a'.
Proof.
  intros [Hc Hr Hi Hs Hb Hh Ht Hn Hu] Hdown. destruct a; cbn in *; subst.
  destruct (stop_needs_every_network c r Hi Hs Hb) as [_ H]. destruct (H Hdown) as (r' & Hstop).
  unfold app_stop, bind, on_part, on_router. cbn -[stop]. rewrite Hstop. by eexists.
Qed.

(** The router could not open a binding. *)
Definition half_started (a : application) (c : Config) (before : list BindingRecord) (b : BindingRecord) (after : list BindingRecord) : application :=
  fset f_router (Some (fset f_binds ((open_binding <$> before) ++ b :: after) (new_router c))) (fset f_config (Some c) (stopped a)).

Lemma new_router_inv c : core_inv c (new_router c).
Proof.
  constructor; cbn; try done; try constructor.
  - rewrite <- list_fmap_compose. apply list_fmap_id.
  - induction (get_networks c) as [|n l IH]; [done|]. cbn. by rewrite <- IH.
  - intros i n k Hn Hk. apply list_lookup_fmap_Some in Hn as (x & -> & _). done.
  - intros id' k Hk. by apply not_elem_of_nil in Hk.
Qed.

(** [start] up to the start of the router it makes of a file that loads. *)
Lemma make_router env a c (k : prog application bool) : load env a = Some c ->
  (read_config env ;;
   let! c := rd f_config in
   (match c with Some c => let! r := Router_new c in wr f_router (Some r) | None => raise NullCall end) ;; k) (stopped a) =
  (let a1 := fset f_config (Some c) (stopped a) in
   if bool_decide (get_bindings c = []) then Fault Abort a1 else k (fset f_router (Some (new_router c)) a1)).
Proof.
  intros Hc. pose proof (read_config_eq env (stopped a) eq_refl) as Hread.
  change (load env (stopped a)) with (load env a) in Hread. rewrite Hc in Hread.
  pose proof (load_wf env a c Hc) as (Hnets & _). cbv zeta. set (a1 := fset f_config (Some c) (stopped a)) in *.
  unfold bind at 1. rewrite Hread. unfold bind at 1, rd. change (fget f_config a1) with (Some c). unfold bind at 1, Router_new.
  unfold bind at 1, bind at 1. destruct (bool_decide (get_bindings c = [])) eqn:Hb; [reflexivity|]. unfold verify, bind at 1, ret at 1. cbn [negb].
  rewrite bool_decide_eq_false_2; [reflexivity|]. unfold get_networks. by destruct (Config.networks_ c).
Qed.

Definition fresh_binding (b : Binding) : BindingRecord := MkBindingRecord b false.

(** The first binding that cannot be opened, among the bindings and among their records. *)
Lemma fresh_split (o : Binding -> bool) before b after before' b' after' :
  Forall (fun b => o b = true) before -> o b = false ->
  fresh_binding <$> (before ++ b :: after) = before' ++ b' :: after' ->
  Forall (fun r => o (binding r) = true) before' -> o (binding b') = false ->
  length before' = length before /\ Forall (fun r => server r = false) (b' :: after').
Proof.
  intros Hall Hfalse Heq Hall' Hf'. split.
  - revert before' Heq Hall'. induction before as [|x before IH]; intros [|x' before'] Heq Hall'; try done; cbn in Heq; injection Heq as <- Heq.
    + apply Forall_cons_1 in Hall' as [H _]. cbn in H. congruence.
    + apply Forall_cons_1 in Hall as [H _]. cbn in Hf'. congruence.
    + cbn. f_equal. apply Forall_cons_1 in Hall as [_ Hall]. apply Forall_cons_1 in Hall' as [_ Hall']. by apply IH.
  - assert (Forall (fun r => server r = false) (before' ++ b' :: after')) as Hoff by (rewrite <- Heq; apply Forall_fmap, Forall_forall; done).
    by apply Forall_app in Hoff as [_ Hoff].
Qed.

Lemma new_router_bindings c : bindings_ (new_router c) = fresh_binding <$> get_bindings c.
Proof. done. Qed.

(** The new router starts when all its bindings open. *)
Lemma router_starts (o : Binding -> bool) (reach : text -> text -> bool) c : Forall (fun b => o b = true) (get_bindings c) ->
  exists r, start o reach (new_router c) = Ok tt r /\ router_inv c r /\ started_ r = true /\ Forall (fun b => server b = true) (bindings_ r).
Proof.
  intros Hall. pose proof (start_bindings_wp o (new_router c)) as Hst. unfold wp in Hst.
  destruct (start_bindings o (new_router c)) as [[] r1|f r1] eqn:Hs1.
  2: { destruct Hst as (_ & before & b & after & Hb & _ & Hfalse & _). rewrite new_router_bindings in Hb.
       assert (b ∈ fresh_binding <$> get_bindings c) as Hin by (rewrite Hb; apply elem_of_app; right; apply list_elem_of_here).
       apply list_elem_of_fmap in Hin as (x & -> & Hx). rewrite List.Forall_forall in Hall. cbn in Hfalse.
       rewrite (Hall x) in Hfalse; [done|]. by apply list_elem_of_In. }
  destruct Hst as [_ Hr1]. assert (core_inv c r1) as Hinv1 by (rewrite Hr1; by destruct (new_router_inv c)).
  pose proof (connect_networks_inv c reach r1 Hinv1) as Hcn. apply wp_total_inv in Hcn as ([] & r2 & Hr2 & Hinv2 & (Hs2 & Ht2 & Hq2 & _ & Hb2) & Hrec).
  exists (fset f_started true r2). split; [|split; [|split]].
  - unfold start, bind at 1, rd. cbn [fget f_started]. change (started_ (new_router c)) with false. cbv iota. unfold bind. by rewrite Hs1, Hr2.
  - split; [by destruct Hinv2|]. intros _. split; [|exact Hrec]. cbn. rewrite Hq2, Hr1. done.
  - done.
  - cbn. rewrite Hb2, Hr1. cbn [fset f_binds bindings_]. apply Forall_fmap, Forall_forall. done.
Qed.

(** It does not when one of them does not; those before it are left open. *)
Lemma router_start_fails (o : Binding -> bool) (reach : text -> text -> bool) c before b after : get_bindings c = before ++ b :: after ->
  Forall (fun b => o b = true) before -> o b = false ->
  exists before' b' after', length before' = length before /\ Forall (fun b => server b = false) (b' :: after') /\
    start o reach (new_router c) = Fault (Throw runtime_error) (fset f_binds ((open_binding <$> before') ++ b' :: after') (new_router c)).
Proof.
  intros Hb Hall Hfalse. pose proof (start_bindings_wp o (new_router c)) as Hst. unfold wp in Hst.
  rewrite new_router_bindings, Hb in Hst. destruct (start_bindings o (new_router c)) as [[] r1|f r1] eqn:Hs1.
  { destruct Hst as [Hst _]. rewrite fmap_app, fmap_cons in Hst. apply Forall_app in Hst as [_ Hst]. apply Forall_cons_1 in Hst as [Hst _].
    cbn in Hst. congruence. }
  destruct Hst as (-> & before' & b' & after' & Hb' & Hall' & Hf' & Hr1). exists before', b', after'.
  destruct (fresh_split o before b after before' b' after' Hall Hfalse Hb' Hall' Hf') as [Hlen Hoff]. split; [done|]. split; [done|].
  unfold start, bind at 1, rd. cbn [fget f_started]. change (started_ (new_router c)) with false. cbv iota. unfold bind at 1. rewrite Hs1. by rewrite Hr1.
Qed.

Lemma app_start_cases env a : unlooped a = false ->
  match load env a with
  | None => app_start env (stopped a) = Ok false (stopped a)
  | Some c =>
      match get_bindings c with
      | [] => exists a', app_start env (stopped a) = Fault Abort a'
      | _ =>
          (Forall (fun b => opens env b = true) (get_bindings c) -> exists a' r', app_start env (stopped a) = Ok true a' /\ running a' c r') /\
          (forall before b after, get_bindings c = before ++ b :: after -> Forall (fun b => opens env b = true) before -> opens env b = false ->
            exists before' b' after', length before' = length before /\ Forall (fun b => server b = false) (b' :: after') /\ app_start env (stopped a) = Ok false (half_started a c before' b' after'))
      end
  end.
Proof.
  intros Hu. unfold app_start. destruct (load env a) as [c|] eqn:Hc.
  2: { pose proof (read_config_eq env (stopped a) eq_refl) as Hread. change (load env (stopped a)) with (load env a) in Hread. rewrite Hc in Hread.
       unfold bind at 1, catch_all, bind at 1. by rewrite Hread. }
  destruct (get_bindings c) as [|b0 bs] eqn:Hbs.
  - eexists. unfold bind at 1, catch_all. rewrite (make_router _ _ c) by done. cbv zeta. by rewrite bool_decide_eq_true_2.
  - rewrite <- Hbs. assert (get_bindings c <> []) as Hne by by rewrite Hbs.
    set (a2 := fset f_router (Some (new_router c)) (fset f_config (Some c) (stopped a))) in *.
    assert (forall m, on_router (A:=unit) (fun _ => m) a2 =
      match m (new_router c) with Ok x r' => Ok x (fset f_router (Some r') a2) | Fault e r' => Fault e (fset f_router (Some r') a2) end) as Hon by done.
    split.
    + intros Hall. destruct (router_starts _ (reach env) c Hall) as (r & Hstart & Hinv & Hst & Hb).
      eexists (MkApp (args a) (log a) _ _ _ true (Some c) (Some r) (unlooped a)), r. split.
      * unfold bind at 1, catch_all. rewrite (make_router _ _ c) by done. cbv zeta. rewrite bool_decide_eq_false_2 by done.
        fold a2. unfold bind at 1. rewrite Hon, Hstart. reflexivity.
      * by constructor.
    + intros before b after Hb Hall Hfalse.
      destruct (router_start_fails _ (reach env) c before b after Hb Hall Hfalse) as (before' & b' & after' & Hlen & Hoff & Hstart).
      exists before', b', after'. split; [done|]. split; [done|].
      unfold bind at 1, catch_all. rewrite (make_router _ _ c) by done. cbv zeta. rewrite bool_decide_eq_false_2 by done.
      fold a2. unfold bind at 1. rewrite Hon, Hstart. reflexivity.
Qed.

Lemma hangup_eq env a c r : running a c r -> all_up r ->
  app_step (Signalled SIGHUP env) a =
    match app_start env (stopped a) with
    | Ok true a' => Ok tt a'
    | Ok false a' => Ok tt (fset f_unlooped true a')
    | Fault (Throw _) a' => Fault Abort a'
    | Fault f a' => Fault f a'
    end.
Proof.
  intros Hrun Hup. cbn [app_step]. rewrite (run_hup _ _ _ Hrun). cbn [existsb signal_started EventLoop.signum andb orb Z.eqb SIGHUP Pos.eqb].
  unfold on_signal, guarded, app_on_signal. change (SIGHUP =? SIGHUP) with true. cbv iota. unfold bind at 1, bind at 1.
  rewrite (app_stop_up _ _ _ Hrun Hup). by destruct (app_start env (stopped a)) as [[] a'|[] a'].
Qed.

Lemma half_started_stop a c before b after :
  (forallb (fun b => negb (server b)) ((open_binding <$> before) ++ b :: after) = true ->
   app_stop (half_started a c before b after) = Ok tt (stopped a)) /\
  (before <> [] -> exists a', app_stop (half_started a c before b after) = Fault Abort a').
Proof.
  unfold half_started, app_stop, bind, on_part, on_router. cbn -[forallb]. split.
  - intros ->. reflexivity.
  - intros Hb. destruct before as [|b0 before]; [done|]. cbn. by eexists.
Qed.

(** C16. What the signals do to a running router.  SIGTERM and SIGINT end the loop, and [stop]
    then leaves nothing of the router; but with a network down, [stop] uses its null
    connection, whatever the signal.  SIGHUP, with every network up, stops the
    router and starts one for the present configuration file: if the file loads and all
    its bindings open, the program runs on with the new router.  Otherwise the loop ends,
    and with it: if the file does not load, the [stop] at the end of [run] uses the null
    [router_]; if a file that loads has no valid binding, the new router's own assertion
    stops the program; if the first binding cannot be opened, the program ends as if it
    had been told to; if a later one cannot, the program is stopped by the assertion of the
    servers it deletes. *)
Theorem signals_handled a c r env : running a c r ->
  (forall s, s = SIGTERM \/ s = SIGINT -> app_step (Signalled s env) a = Ok tt (fset f_unlooped true a)) /\
  (one_down r -> (exists a', app_step (Signalled SIGHUP env) a = Fault NullCall a') /\
     exists a', app_stop a = Fault NullCall a') /\
  (all_up r -> app_stop a = Ok tt (stopped a) /\
    match load env a with
    | None => app_step (Signalled SIGHUP env) a = Ok tt (fset f_unlooped true (stopped a)) /\
        exists a', app_stop (fset f_unlooped true (stopped a)) = Fault NullCall a'
    | Some c' =>
        (get_bindings c' = [] -> exists a', app_step (Signalled SIGHUP env) a = Fault Abort a') /\
        (get_bindings c' <> [] -> Forall (fun b => opens env b = true) (get_bindings c') ->
          exists a' r', app_step (Signalled SIGHUP env) a = Ok tt a' /\ running a' c' r') /\
        (forall before b after, get_bindings c' = before ++ b :: after ->
          Forall (fun b => opens env b = true) before -> opens env b = false ->
          exists a', app_step (Signalled SIGHUP env) a = Ok tt a' /\ unlooped a' = true /\
            match before with
            | [] => app_stop a' = Ok tt (stopped a')
            | _ => exists a'', app_stop a' = Fault Abort a''
            end)
    end).
Proof.
  intros Hrun. split; [|split].
  - intros s Hs. cbn [app_step]. rewrite (run_hup _ _ _ Hrun), (run_term _ _ _ Hrun), (run_int _ _ _ Hrun). by destruct Hs as [-> | ->].
  - intros Hdown. destruct (app_stop_down _ _ _ Hrun Hdown) as [a' Ha']. split; [|by exists a'].
    exists a'. cbn [app_step]. rewrite (run_hup _ _ _ Hrun). cbn [existsb signal_started EventLoop.signum andb orb Z.eqb SIGHUP Pos.eqb].
    unfold on_signal, guarded, app_on_signal. change (SIGHUP =? SIGHUP) with true. cbv iota. unfold bind at 1, bind at 1. by rewrite Ha'.
  - intros Hup. split; [by eapply app_stop_up|]. pose proof (app_start_cases env a (run_loops _ _ _ Hrun)) as Hstart.
    pose proof (hangup_eq env a c r Hrun Hup) as Hhup. destruct (load env a) as [c'|].
    2: { rewrite Hstart in Hhup. split; [exact Hhup|]. by eexists. }
    destruct (get_bindings c') as [|b0 bs] eqn:Hbs.
    { split; [|split].
      - intros _. destruct Hstart as [a' Ha']. rewrite Ha' in Hhup. by exists a'.
      - done.
      - intros before b after E. by destruct before. }
    destruct Hstart as [Hall Hfail]. split; [done|]. split.
    + intros _ H. destruct (Hall H) as (a' & r' & Ha' & Hr'). rewrite Ha' in Hhup. by exists a', r'.
    + intros before b after Hb H1 H2. destruct (Hfail before b after Hb H1 H2) as (before' & b' & after' & Hlen & Hoff & Ha').
      rewrite Ha' in Hhup. eexists. split; [exact Hhup|]. split; [done|].
      change (fset f_unlooped true (half_started a c' before' b' after')) with (half_started (fset f_unlooped true a) c' before' b' after').
      destruct (half_started_stop (fset f_unlooped true a) c' before' b' after') as [Hok Hab].
      destruct before as [|x before], before' as [|x' before']; try done; [|by apply Hab].
      apply Hok. apply forallb_forall. intros y Hy. rewrite List.Forall_forall in Hoff. by rewrite (Hoff y Hy).
Qed.

(** A running application with one network, one device and one client. *)
Definition sample_app : application :=
  MkApp (set_valid arguments_init) logger_init (MkSignal SIGHUP true true) (MkSignal SIGTERM true true) (MkSignal SIGINT true true) true
    (Some sample_config) (Some (sample_router [] [])) false.

Definition sample_env (file : option text) (opens : bool) : environment :=
  MkEnv None None (fun _ => file) (fun _ => opens) (fun _ _ => true).

Lemma sample_app_running : running sample_app sample_config (sample_router [] []).
Proof.
  constructor; try reflexivity; [|by repeat constructor]. apply sample_router_inv; constructor.
Qed.

(** The port of the old server is still in use: the restart ends the program. *)
Lemma signals_handled_witness :
  let env := sample_env (Some sample_file) false in
  load env sample_app = Some sample_config /\
  exists a', app_step (Signalled SIGHUP env) sample_app = Ok tt a' /\ unlooped a' = true /\ app_stop a' = Ok tt (stopped a').
Proof.
  intros env. assert (load env sample_app = Some sample_config) as Hload by (vm_compute; reflexivity). split; [exact Hload|].
  destruct (signals_handled sample_app sample_config (sample_router [] []) env sample_app_running) as (_ & _ & H).
  destruct H as [_ H]; [intros [|i] n [= <-]; by eexists|]. rewrite Hload in H. destruct H as (_ & _ & H).
  destruct (H [] (MkBinding Type_TCP [] (txt "2222") 5) [] eq_refl ltac:(constructor) eq_refl) as (a' & H1 & H2 & H3).
  exists a'. split; [exact H1|]. split; [exact H2|exact H3].
Defined.

(** From the command line to the exit code: a start, a client, a restart that works, the end. *)
Example a_run :
  match run true (sample_env (Some sample_file) true)
          [Meets Accept; Signalled SIGHUP (sample_env (Some sample_file) true); Meets Accept; Signalled SIGTERM (sample_env None false)]
          (Application_new [txt "-d"; txt "-l"; txt "w"]) with
  | Ok code a => code = 0 /\ router_ a = None /\ log_level_ (log a) = Level_Warning /\ syslog_ident_ (log a) = txt "dhrouter"
  | Fault _ _ => False
  end.
Proof. vm_compute. repeat split. Qed.

Example exit_codes :
  (fun argv => match run true (sample_env None true) [] (Application_new argv) with Ok code _ => Some code | Fault _ _ => None end) <$>
    [[]; [txt "-h"]; [txt "-x"]] = [Some 2; Some 0; Some 1].
Proof. vm_compute. reflexivity. Qed.
