(* ===== verification/CanProto.v ===== *)
(** The CAN protocol shared by the firmware and the client library:
    [firmware/shared/include/ha/can_proto.h] and [can_node.h].

    Packet identifiers, the address space of a node, and the constants both
    sides use. *)

From S2P Require Import Prelude.

(** ** Packet identifiers ([can_proto.h]) *)

(** [reserved] and [device_id] are the bit fields of widths 1 and 7. *)
Record HA_CAN_PacketId : Type := {
  priority : Z;
  reserved : Z;
  device_id_field : Z;
  address : Z
}.

Definition HA_CAN_packet_id_to_number (p : HA_CAN_PacketId) : Z :=
  Z.lor (Z.lor (Z.lor (Z.shiftl (u32 (Z.land (priority p) 0x0f)) 24)
                      (Z.shiftl 1 23))
               (Z.shiftl (u32 (device_id_field p)) 16))
        (address p).

Definition HA_CAN_number_to_packet_id (value : Z) : HA_CAN_PacketId := {|
  priority := u8 (Z.land (Z.shiftr value 24) 0x0f);
  reserved := 1;
  device_id_field := Z.land (Z.shiftr value 16) 0x7f;
  address := u16 (Z.land value 0xffff)
|}.

(** A store to the 7-bit field [device_id]. *)
Definition to_device_id_field (v : Z) : Z := Z.land v 0x7f.

Definition HA_CAN_SpecialId_Update : Z := 0x1fffffff.
Definition HA_CAN_ReservedBits : Z := Z.shiftl 1 23.
Definition HA_CAN_ReservedMask : Z := Z.lor (Z.shiftl 1 23) (Z.shiftl 1 28).

(** Addresses common to all devices, [HA_CAN_CommonMap]. *)
Definition HA_CAN_Common_DeviceType : Z := 0x00.
Definition HA_CAN_Common_FirmwareVersion : Z := 0x01.
Definition HA_CAN_Common_SerialHi : Z := 0x02.
Definition HA_CAN_Common_SerialLo : Z := 0x03.
Definition HA_CAN_Common_DeviceLabel : Z := 0x04.

(** ** The CAN node board ([can_node.h]) *)

(** [HA_CAN_Node_Versions]: [Initial = 0], [DS18B20], then the count. *)
Definition HA_CAN_Node_VersionCount : Z := 2.
Definition HA_CAN_Node_Version_Current : Z := HA_CAN_Node_VersionCount - 1.

Definition HA_CAN_NodeInfo_DeviceType : Z := 0x00010001.

(** [HA_CAN_NodeMap] *)
Definition HA_CAN_Node_ChannelSaveConfig : Z := 0x00.
Definition HA_CAN_Node_ChannelCount : Z := 0x01.
Definition HA_CAN_Node_ChannelFunction0 : Z := 0x80.

Definition HA_CAN_Node_function_address (channel_id : Z) : Z :=
  u16 (HA_CAN_Node_ChannelFunction0 + channel_id).

Definition HA_CAN_Node_field_address (channel_id field : Z) : Z :=
  u16 (Z.lor (Z.shiftl (u16 (channel_id + 0x80)) 8) field).

(** [HA_CAN_Node_Function] *)
Definition HA_CAN_Node_Function_None : Z := 0.
Definition HA_CAN_Node_Function_Switch : Z := 1.
Definition HA_CAN_Node_Function_Button : Z := 2.
Definition HA_CAN_Node_Function_Analog : Z := 3.
Definition HA_CAN_Node_Function_PWM : Z := 4.
Definition HA_CAN_Node_Function_DS18B20 : Z := 5.
Definition HA_CAN_Node_FunctionCount : Z := 6.

Definition HA_CAN_Node_SwitchConfig_Polarity : Z := 0x01.
Definition HA_CAN_Node_SwitchConfig_DefaultOn : Z := 0x02.
Definition HA_CAN_Node_SwitchConfig_OffDelay : Z := 0x04.
Definition HA_CAN_Node_SwitchConfigMask : Z := 0x07.

Definition HA_CAN_Node_Switch_Config : Z := 0.
Definition HA_CAN_Node_Switch_Value : Z := 1.
Definition HA_CAN_Node_Switch_OffDelay : Z := 2.

Definition HA_CAN_Node_ButtonConfig_Polarity : Z := 0x01.
Definition HA_CAN_Node_ButtonConfig_PullUp : Z := 0x02.
Definition HA_CAN_Node_ButtonConfig_Lock : Z := 0x04.
Definition HA_CAN_Node_ButtonConfig_Active : Z := 0x08.
Definition HA_CAN_Node_ButtonConfigMask : Z := 0x0f.

Definition HA_CAN_Node_Button_Config : Z := 0.
Definition HA_CAN_Node_Button_Value : Z := 1.

Definition HA_CAN_Node_AnalogConfig_RangeCheck : Z := 0x01.
Definition HA_CAN_Node_AnalogConfig_ReverseRange : Z := 0x02.
Definition HA_CAN_Node_AnalogConfigMask : Z := 0x03.

Definition HA_CAN_Node_Analog_Config : Z := 0.
Definition HA_CAN_Node_Analog_Range : Z := 1.
Definition HA_CAN_Node_Analog_Value : Z := 2.

Definition HA_CAN_Node_DS18B20_Temperature : Z := 0.

(** ** Lemmas *)

Definition packet_id_ok (p : HA_CAN_PacketId) : Prop :=
  is_u8 (priority p) /\ 0 <= device_id_field p < 128 /\ is_u16 (address p).

Lemma land_bits_low z n i : 0 <= n -> 0 <= i ->
  Z.testbit (Z.land z (Z.ones n)) i = (i <? n) && Z.testbit z i.
Proof. intros. rewrite Z.land_spec, ones_testbit by lia. btauto. Qed.

(** The bits of an identifier: address, device, reserved bit, priority. *)
Lemma packet_id_to_number_testbit p i :
  packet_id_ok p -> 0 <= i ->
  Z.testbit (HA_CAN_packet_id_to_number p) i =
    (if i <? 16 then Z.testbit (address p) i
     else if i <? 23 then Z.testbit (device_id_field p) (i - 16)
     else if i =? 23 then true
     else if i <? 28 then Z.testbit (priority p) (i - 24)
     else false).
Proof.
  intros (Hp & Hd & Ha) Hi. unfold HA_CAN_packet_id_to_number.
  change 0x0f with (Z.ones 4). change (Z.shiftl 1 23) with (2 ^ 23).
  unfold is_u8, is_u16 in *. bits. rewrite Z.pow2_bits_eqb by lia.
  destruct (Z.ltb_spec i 16); [cmp; btauto|].
  rewrite (testbit_bounded (address p) 16) by lia.
  destruct (Z.ltb_spec i 23); [cmp; bits; cmp; btauto|].
  destruct (Z.leb_spec 16 i); [|lia]. bits.
  rewrite (testbit_bounded (device_id_field p) 7) by lia.
  cmp; bits; cmp; btauto.
Qed.

Lemma packet_id_to_number_range p :
  packet_id_ok p -> 2 ^ 23 <= HA_CAN_packet_id_to_number p < 2 ^ 28.
Proof.
  intros Hp. set (n := HA_CAN_packet_id_to_number p).
  assert (Hn : 0 <= n).
  { destruct Hp as (Hp & Hd & Ha). unfold n, HA_CAN_packet_id_to_number, is_u8, is_u16 in *.
    rewrite !Z.lor_nonneg, !Z.shiftl_nonneg.
    pose proof (u32_range (Z.land (priority p) 0x0f)) as H1.
    pose proof (u32_range (device_id_field p)) as H2. unfold is_u32 in *. lia. }
  assert (Hlow : n = n mod 2 ^ 28).
  { apply Z.bits_inj'. intros i Hi. rewrite testbit_mod_pow2 by lia.
    unfold n. rewrite packet_id_to_number_testbit by done. cmp; done. }
  split; [|rewrite Hlow; apply Z.mod_pos_bound; lia].
  destruct (Z_lt_le_dec n (2 ^ 23)); [|done]. exfalso.
  assert (Z.testbit n 23 = false) as Hf by (apply (testbit_bounded n 23); lia).
  unfold n in Hf. rewrite packet_id_to_number_testbit in Hf by done. done.
Qed.

Lemma packet_id_decode p :
  packet_id_ok p ->
  HA_CAN_number_to_packet_id (HA_CAN_packet_id_to_number p) =
    {| priority := priority p mod 16; reserved := 1;
       device_id_field := device_id_field p; address := address p |}.
Proof.
  intros Hp. pose proof Hp as (Hp1 & Hd & Ha). unfold is_u8, is_u16 in *.
  unfold HA_CAN_number_to_packet_id.
  assert (forall n k, 0 <= n -> 0 <= k ->
            Z.land (Z.shiftr (HA_CAN_packet_id_to_number p) k) (Z.ones n) =
            Z.shiftr (HA_CAN_packet_id_to_number p) k mod 2 ^ n) as Hmod
    by (intros; apply Z.land_ones; lia).
  change 0x0f with (Z.ones 4). change 0x7f with (Z.ones 7). change 0xffff with (Z.ones 16).
  rewrite !Hmod by lia. rewrite Z.land_ones by lia. f_equal.
  - change 16 with (2 ^ 4). rewrite u8_small.
    2: { pose proof (Z.mod_pos_bound (Z.shiftr (HA_CAN_packet_id_to_number p) 24) (2 ^ 4)).
         unfold is_u8; lia. }
    apply Z.bits_inj'. intros i Hi. rewrite !testbit_mod_pow2 by lia. bits.
    rewrite packet_id_to_number_testbit by (done || lia).
    replace (i + 24 - 24) with i by lia. cmp; done.
  - apply (bits_eq_bounded 7); try lia; [apply Z.mod_pos_bound; lia|]. intros i Hi.
    rewrite testbit_mod_pow2 by lia. bits. rewrite packet_id_to_number_testbit by (done || lia).
    replace (i + 16 - 16) with i by lia. cmp; done.
  - apply (bits_eq_bounded 16); try lia; [apply u16_range|]. intros i Hi. bits.
    rewrite testbit_mod_pow2 by lia. rewrite packet_id_to_number_testbit by (done || lia).
    cmp; done.
Qed.

(** Identifiers round-trip: decoding the number of a packet identifier
    whose fields have their C widths gives back its device, its address and the
    four transmitted priority bits, with the reserved bit set. *)
Theorem packet_id_roundtrip p :
  packet_id_ok p ->
  HA_CAN_number_to_packet_id (HA_CAN_packet_id_to_number p) =
    {| priority := priority p mod 16; reserved := 1;
       device_id_field := device_id_field p; address := address p |}.
Proof. apply packet_id_decode. Qed.

Definition sample_packet_id : HA_CAN_PacketId :=
  {| priority := 3; reserved := 0; device_id_field := 0x55; address := 0x8201 |}.

Lemma packet_id_roundtrip_witness :
  packet_id_ok sample_packet_id /\
  HA_CAN_number_to_packet_id (HA_CAN_packet_id_to_number sample_packet_id) =
    {| priority := 3; reserved := 1; device_id_field := 0x55; address := 0x8201 |}.
Proof.
  assert (packet_id_ok sample_packet_id) as H by (unfold packet_id_ok, is_u8, is_u16; simpl; lia).
  split; [exact H|]. exact (packet_id_roundtrip sample_packet_id H).
Defined.

(** The identifier of an ordinary packet is never the programming identifier,
    which is the one with bit 28 set. *)
Lemma packet_id_not_update p :
  packet_id_ok p -> HA_CAN_packet_id_to_number p <> HA_CAN_SpecialId_Update.
Proof. intros Hp. pose proof (packet_id_to_number_range p Hp). unfold HA_CAN_SpecialId_Update. lia. Qed.

(** Decoded fields have their C widths. *)
Lemma number_to_packet_id_ok n : packet_id_ok (HA_CAN_number_to_packet_id n).
Proof.
  unfold packet_id_ok, HA_CAN_number_to_packet_id; simpl.
  split; [apply u8_range|]. split; [|apply u16_range].
  change 0x7f with (Z.ones 7). rewrite Z.land_ones by lia. apply Z.mod_pos_bound. lia.
Qed.

(** The address of a channel's field: [0x80 + channel] in the high byte. *)
Lemma field_address_high channel_id field :
  0 <= channel_id < 0x80 -> is_u8 field ->
  Z.land (Z.shiftr (HA_CAN_Node_field_address channel_id field) 8) 0xff = 0x80 + channel_id /\
  Z.land (HA_CAN_Node_field_address channel_id field) 0xff = field.
Proof.
  intros Hc Hf. unfold is_u8 in Hf. unfold HA_CAN_Node_field_address.
  rewrite (u16_small (channel_id + 0x80)) by (unfold is_u16; lia).
  change 0xff with (Z.ones 8).
  split; apply (bits_eq_bounded 8); try lia;
    try (rewrite Z.land_ones by lia; apply Z.mod_pos_bound; lia); intros i Hi; bits.
  - rewrite (testbit_bounded field 8) by lia. replace (i + 8 - 8) with i by lia.
    replace (0x80 + channel_id) with (channel_id + 0x80) by lia. cmp; btauto.
  - cmp. btauto.
Qed.
