(* ===== verification/Machine.v ===== *)
(** The memory-mapped hardware of the STM8S208.

    Every access the firmware makes to a peripheral is a volatile load or store
    of one byte.  The hardware that answers is not program text: it is the class
    [Hardware] below, and what the drivers rely on is stated as laws of that
    class: the general notion [latch] here, the classes of laws of a peripheral
    in the file of its driver.  Every other access may change every other
    volatile register, so time passes and frames arrive between any two accesses.

    [machine] is what the drivers of [firmware/stm8/libstm8s/src] work on: the
    hardware and the variables of [stm8s_can.c]. *)

From S2P Require Import Prelude Monad.

(** ** Cells

    A cell holds the byte a register shows.  Addresses [0x5428 .. 0x5437] show
    one of the CAN pages, chosen by the page selection register. *)

Definition mem : Type := Z -> Z.

Definition upd (m : mem) (a v : Z) : mem := fun x => if x =? a then v else m x.

Definition CAN_BaseAddress : Z := 0x5420.

(** The registers of [CAN_TypeDef]; [CAN_Page] is the union of the pages. *)
Definition CAN_MCR : Z := CAN_BaseAddress + 0.
Definition CAN_MSR : Z := CAN_BaseAddress + 1.
Definition CAN_TSR : Z := CAN_BaseAddress + 2.
Definition CAN_TPR : Z := CAN_BaseAddress + 3.
Definition CAN_RFR : Z := CAN_BaseAddress + 4.
Definition CAN_IER : Z := CAN_BaseAddress + 5.
Definition CAN_DGR : Z := CAN_BaseAddress + 6.
Definition CAN_PSR : Z := CAN_BaseAddress + 7.
Definition CAN_Page : Z := CAN_BaseAddress + 8.

Definition in_can_page (a : Z) : bool := (CAN_Page <=? a) && (a <? CAN_Page + 16).

(** The cell of offset [off] of CAN page [p]; the page is selected by the three
    low bits of [CAN->PSR].  Page cells lie above the 24-bit address space. *)
Definition page_cell (p off : Z) : Z := 0x1000000 + 16 * p + off.

Definition cell (m : mem) (a : Z) : Z :=
  if in_can_page a then page_cell (Z.land (m CAN_PSR) 7) (a - CAN_Page) else a.

Lemma cell_unpaged m a : in_can_page a = false -> cell m a = a.
Proof. unfold cell. by intros ->. Qed.

(** The pages that are transmit mailboxes: [CAN_Page_TxMailBox0], [1] and [2]. *)
Definition tx_page (p : Z) : Prop := p = 0 \/ p = 1 \/ p = 5.

Definition mailbox_of (c : Z) : option Z :=
  if c =? page_cell 0 0 then Some 0 else if c =? page_cell 1 0 then Some 1
  else if c =? page_cell 5 0 then Some 5 else None.

(** What a store asks the CAN cell to send: a store to the control register of a
    mailbox with its lowest bit, [CAN_MCSR_TXRQ], asks for the frame the page of
    the mailbox shows then; another store asks for nothing. *)
Definition requests (m : mem) (a v : Z) : list (Z -> Z) :=
  match mailbox_of (cell m a) with
  | Some p => if Z.testbit v 0 then [fun off => u8 (m (page_cell p off))] else []
  | None => []
  end.

Lemma mailbox_of_spec c p : mailbox_of c = Some p -> tx_page p /\ c = page_cell p 0.
Proof.
  unfold mailbox_of, tx_page. repeat case_match; intros; simplify_eq;
    match goal with H : (_ =? _) = true |- _ => apply Z.eqb_eq in H end; tauto.
Qed.

Lemma mailbox_of_page p : tx_page p -> mailbox_of (page_cell p 0) = Some p.
Proof. by intros [-> | [-> | ->]]. Qed.

(** ** Hardware

    [hw_load a] and [hw_store a v] answer a load and a store at address [a]:
    they see and change the cells and a state of the hardware of their own.
    [indet] gives the indeterminate bytes of an automatic array that has no
    initialiser. *)
Class Hardware : Type := {
  hidden : Type;
  hw_load : Z -> mem * hidden -> Z * (mem * hidden);
  hw_store : Z -> Z -> mem * hidden -> mem * hidden;
  indet : mem * hidden -> Z -> Z
}.

(** A machine: the hardware, the variables of [stm8s_can.c], and a record, which no
    program reads, of the pages it has asked the CAN cell to send ([requested]).

    The variables of [stm8s_can.c]: the last frame [CAN_Receive] fetched. *)
Record can_rx : Type := CanRx {
  _Id : Z; _IDE : Z; _RTR : Z; _DLC : Z; _Data : list Z; _FMI : Z
}.

Definition can_rx_init : can_rx := CanRx 0 0 0 0 (replicate 8 0) 0.

Section Machine.
Context {HW : Hardware}.

Record machine : Type := Machine { cells : mem; hid : hidden; rx : can_rx; requested : list (Z -> Z) }.

Definition hw (s : machine) : mem * hidden := (cells s, hid s).
Definition set_hw (p : mem * hidden) (s : machine) : machine := Machine p.1 p.2 (rx s) (requested s).
Definition f_rx : field machine can_rx := Field rx (fun v s => Machine (cells s) (hid s) v (requested s)).

(** A volatile load and a volatile store of one byte. *)
Definition load (a : Z) : prog machine Z := fun s =>
  let '(v, p) := hw_load a (hw s) in Ok (u8 v) (set_hw p s).

Definition after_store (a v : Z) (s : machine) : machine :=
  let p := hw_store a (u8 v) (hw s) in
  Machine p.1 p.2 (rx s) (requested s ++ requests (cells s) a v).

Definition store (a v : Z) : prog machine unit := fun s => Ok tt (after_store a v s).

(** What a load would show, and the machine after it. *)
Definition shown (a : Z) (s : machine) : Z := u8 (fst (hw_load a (hw s))).
Definition after_load (a : Z) (s : machine) : machine := set_hw (snd (hw_load a (hw s))) s.

(** [*a |= v], [*a &= v] and [*a ^= v]: a load, then a store. *)
Definition or_reg (a v : Z) : prog machine unit :=
  let! x := load a in store a (Z.lor x v).
Definition and_reg (a v : Z) : prog machine unit :=
  let! x := load a in store a (Z.land x v).
Definition xor_reg (a v : Z) : prog machine unit :=
  let! x := load a in store a (Z.lxor x v).

(** The first [n] bytes of an automatic array without an initialiser. *)
Definition uninit (n : nat) : prog machine (list Z) := fun s =>
  Ok ((fun k => u8 (indet (hw s) (Z.of_nat k))) <$> seq 0 n) s.

(** ** Laws

    A latch is a cell that only the program changes: a load of its address
    shows it, a store sets it, and no other access changes it. *)
Definition latch (c : Z) : Prop :=
  (forall a m h, cell m a = c -> fst (hw_load a (m, h)) = m c) /\
  (forall a v m h, cell m a = c -> fst (hw_store a v (m, h)) c = u8 v) /\
  (forall a m h, fst (snd (hw_load a (m, h))) c = m c) /\
  (forall a v m h, cell m a <> c -> fst (hw_store a v (m, h)) c = m c).

(** A stable cell: only a store at its own address may change it. *)
Definition stable (c : Z) : Prop :=
  (forall a m h, fst (snd (hw_load a (m, h))) c = m c) /\
  (forall a v m h, cell m a <> c -> fst (hw_store a v (m, h)) c = m c).

(** What the variables and the record of a machine keep when the cells of [P] may be
    stored to: the received frame, and, unless a mailbox is among them, the requests. *)
Definition vars (P : Z -> Prop) (s s' : machine) : Prop :=
  rx s' = rx s /\ ((forall p, tx_page p -> ~ P (page_cell p 0)) -> requested s' = requested s).

Lemma vars_refl P s : vars P s s.
Proof. by split. Qed.

Lemma vars_trans P s1 s2 s3 : vars P s1 s2 -> vars P s2 s3 -> vars P s1 s3.
Proof. intros [R1 T1] [R2 T2]. split; [congruence|]. intros H. by rewrite T2, T1. Qed.

Lemma vars_weaken (P P' : Z -> Prop) s s' : vars P s s' -> (forall d, P d -> P' d) -> vars P' s s'.
Proof. intros [R T] HP. split; [done|]. intros H. apply T. intros p Hp Hd. by apply (H p), HP. Qed.

Lemma vars_none P s s' : vars (fun _ => False) s s' -> vars P s s'.
Proof. intros H. by eapply vars_weaken. Qed.

Lemma vars_store a v s : vars (eq (cell (cells s) a)) s (after_store a v s).
Proof.
  split; [done|]. intros H. simpl. unfold requests. destruct (mailbox_of _) as [p|] eqn:Hm; [|by rewrite app_nil_r].
  apply mailbox_of_spec in Hm as [Hp Hc]. by destruct (H p Hp).
Qed.

Lemma latch_stable c : latch c -> stable c.
Proof. intros (_ & _ & H3 & H4). by split. Qed.

(** ** Rules *)

Context {E : fault -> machine -> Prop}.

(** Nothing is known of a load but that it returns a byte. *)
Lemma wp_load a (Q : Z -> machine -> Prop) s :
  (forall v p, hw_load a (hw s) = (v, p) -> is_u8 (u8 v) -> Q (u8 v) (set_hw p s)) -> wp E (load a) Q s.
Proof.
  intros H. unfold wp, load. destruct (hw_load a (hw s)) as [v p] eqn:Hl.
  apply H; [done|apply u8_range].
Qed.

Lemma wp_store a v (Q : unit -> machine -> Prop) s :
  Q tt (after_store a v s) -> wp E (store a v) Q s.
Proof. done. Qed.

(** A load of a latch. *)
Lemma wp_load_latch a c (Q : Z -> machine -> Prop) s :
  latch c -> cell (cells s) a = c ->
  (forall s', cells s' c = cells s c -> (forall d, stable d -> cells s' d = cells s d) ->
     vars (fun _ => False) s s' -> Q (u8 (cells s c)) s') ->
  wp E (load a) Q s.
Proof.
  intros (H1 & _ & H3 & _) Hc HQ. unfold wp, load.
  specialize (H1 a (cells s) (hid s) Hc). specialize (H3 a (cells s) (hid s)).
  unfold hw. destruct (hw_load a (cells s, hid s)) as [v p] eqn:Hl; simpl in *. subst v.
  apply HQ; [done| |done]. intros d [Hd _]. specialize (Hd a (cells s) (hid s)).
  rewrite Hl in Hd. done.
Qed.

(** A store to a latch. *)
Lemma wp_store_latch a c v (Q : unit -> machine -> Prop) s :
  latch c -> cell (cells s) a = c ->
  (forall s', cells s' c = u8 v -> (forall d, stable d -> d <> c -> cells s' d = cells s d) ->
     vars (eq c) s s' -> Q tt s') ->
  wp E (store a v) Q s.
Proof.
  intros (_ & H2 & _ & _) Hc HQ. apply wp_store, HQ; simpl.
  - unfold hw. by rewrite H2, u8_u8.
  - intros d [_ Hd] Hne. apply Hd. congruence.
  - subst c. apply vars_store.
Qed.

(** Any load: every stable cell keeps its value. *)
Lemma wp_load_any a (Q : Z -> machine -> Prop) s :
  (forall v s', is_u8 v -> (forall d, stable d -> cells s' d = cells s d) ->
     vars (fun _ => False) s s' -> Q v s') ->
  wp E (load a) Q s.
Proof.
  intros HQ. apply wp_load. intros v p Hl Hv. apply HQ; [done| |done].
  intros d [Hd _]. specialize (Hd a (cells s) (hid s)). unfold hw in Hl. by rewrite Hl in Hd.
Qed.

Lemma wp_load_shown a (Q : Z -> machine -> Prop) s : Q (shown a s) (after_load a s) -> wp E (load a) Q s.
Proof. unfold wp, load, shown, after_load. by destruct (hw_load a (hw s)). Qed.

(** Any store: every stable cell of another address keeps its value. *)
Lemma wp_store_any a v (Q : unit -> machine -> Prop) s :
  (forall s', (forall d, stable d -> d <> cell (cells s) a -> cells s' d = cells s d) ->
     vars (eq (cell (cells s) a)) s s' -> Q tt s') ->
  wp E (store a v) Q s.
Proof. intros HQ. apply wp_store, HQ; [|apply vars_store]. intros d [_ Hd] Hne. apply Hd. congruence. Qed.

(** A read-modify-write of a latch outside the CAN pages. *)
Lemma wp_rmw_latch a (g : Z -> Z) (Q : unit -> machine -> Prop) s :
  latch a -> in_can_page a = false ->
  (forall s', cells s' a = u8 (g (u8 (cells s a))) ->
     (forall d, stable d -> d <> a -> cells s' d = cells s d) -> vars (eq a) s s' -> Q tt s') ->
  wp E (let! x := load a in store a (g x)) Q s.
Proof.
  intros Hc Hp HQ. apply wp_bind.
  eapply (wp_load_latch a a); [done|by apply cell_unpaged|]. intros s1 H1 H1' Hrx1.
  eapply (wp_store_latch a a); [done|by apply cell_unpaged|]. intros s2 H2 H2' Hrx2.
  apply HQ; [done| |by eapply vars_trans; [apply vars_none|]]. intros d Hd Hne. rewrite H2' by done. by apply H1'.
Qed.
End Machine.
Arguments machine {HW}.

Lemma upd_eq m a v : upd m a v a = v.
Proof. unfold upd. by rewrite Z.eqb_refl. Qed.

Lemma upd_ne m a b v : b <> a -> upd m a v b = m b.
Proof. unfold upd. intros H. destruct (Z.eqb_spec b a); [done|done]. Qed.

Lemma cell_paged m off :
  0 <= off < 16 -> cell m (CAN_Page + off) = page_cell (Z.land (m CAN_PSR) 7) off.
Proof.
  intros H. unfold cell, in_can_page. cmp. simpl. f_equal. lia.
Qed.

Lemma psr_low (m : mem) : 0 <= Z.land (m CAN_PSR) 7 < 8.
Proof. change 7 with (Z.ones 3). rewrite Z.land_ones by lia. apply Z.mod_pos_bound. lia. Qed.

(** Distinct 24-bit addresses have distinct cells. *)
Lemma cell_inj m a b :
  0 <= a < 0x1000000 -> 0 <= b < 0x1000000 -> a <> b -> cell m a <> cell m b.
Proof.
  intros Ha Hb Hab. unfold cell, page_cell, in_can_page, CAN_Page, CAN_BaseAddress.
  pose proof (psr_low m). cmp; simpl; lia.
Qed.

(** Only its own address reaches a register outside the pages. *)
Lemma cell_eq m a c : c < 0x1000000 -> cell m a = c -> a = c.
Proof.
  intros Hc. unfold cell, page_cell, in_can_page, CAN_Page, CAN_BaseAddress. pose proof (psr_low m).
  cmp; simpl; lia.
Qed.

Lemma cell_upd m a b v : a <> CAN_PSR -> cell (upd m a v) b = cell m b.
Proof. intros H. unfold cell. by rewrite upd_ne by done. Qed.

(** ** Harmless programs

    [touches P m]: whatever the hardware does, [m] returns, leaves the received
    frame alone, and keeps every stable cell outside [P]. *)
Section Touches.
Context {HW : Hardware}.

Definition keeps (P : Z -> Prop) (s s' : machine) : Prop :=
  (forall d, stable d -> ~ P d -> cells s' d = cells s d) /\ vars P s s'.

Definition touches {A} (P : Z -> Prop) (m : prog machine A) : Prop :=
  forall s, wp total m (fun _ s' => keeps P s s') s.

Lemma keeps_refl P s : keeps P s s.
Proof. by split. Qed.

Lemma keeps_trans P s1 s2 s3 : keeps P s1 s2 -> keeps P s2 s3 -> keeps P s1 s3.
Proof. intros [H1 R1] [H2 R2]. split; [|by eapply vars_trans]. intros d Hd Hn. rewrite H2, H1; done. Qed.

Lemma keeps_weaken (P P' : Z -> Prop) s s' :
  keeps P s s' -> (forall d, P d -> P' d) -> keeps P' s s'.
Proof. intros [H R] HP. split; [|by eapply vars_weaken]. intros d Hd Hn. apply H; auto. Qed.

(** What a store and a load keep. *)
Lemma keeps_store a v s : keeps (eq (cell (cells s) a)) s (after_store a v s).
Proof. split; [|apply vars_store]. intros d [_ Hd] Hn. by apply Hd. Qed.

Lemma keeps_load P a v p s : hw_load a (hw s) = (v, p) -> keeps P s (set_hw p s).
Proof.
  intros Hl. split; [|by split]. intros d [Hd _] _. specialize (Hd a (cells s) (hid s)).
  unfold hw in Hl. by rewrite Hl in Hd.
Qed.

Lemma keeps_after_load P a s : keeps P s (after_load a s).
Proof. unfold after_load. apply (keeps_load P a (hw_load a (hw s)).1). apply surjective_pairing. Qed.

Lemma touches_ret {A} P (a : A) : touches P (ret a).
Proof. intros s. apply wp_ret, keeps_refl. Qed.

Lemma touches_load P a : touches P (load a).
Proof. intros s. apply wp_load_any. intros v s' _ H R. split; [intros; by apply H|by apply vars_none]. Qed.

Lemma touches_store (P : Z -> Prop) a v : in_can_page a = false -> P a -> touches P (store a v).
Proof.
  intros Ha HP s. apply wp_store_any. intros s' H R. split.
  2: { eapply vars_weaken; [done|]. intros d <-. by rewrite cell_unpaged. }
  intros d Hd Hn. apply H; [done|]. rewrite cell_unpaged by done. by intros ->.
Qed.

(** A store into the CAN page may hit any page. *)
Lemma touches_store_page (P : Z -> Prop) a v :
  (forall m, P (cell m a)) -> touches P (store a v).
Proof.
  intros HP s. apply wp_store_any. intros s' H R. split; [|eapply vars_weaken; [done|]; by intros d <-].
  intros d Hd Hn. apply H; [done|]. intros ->. by apply Hn.
Qed.

Lemma touches_bind {A B} P (m : prog machine A) (k : A -> prog machine B) :
  touches P m -> (forall a, touches P (k a)) -> touches P (bind m k).
Proof.
  intros Hm Hk s. apply wp_bind. eapply wp_mono; [apply Hm|]. intros a s1 H1.
  eapply wp_mono; [apply Hk|]. intros b s2 H2. by apply (keeps_trans _ _ s1).
Qed.

Lemma touches_if {A} P (b : bool) (m1 m2 : prog machine A) :
  touches P m1 -> touches P m2 -> touches P (if b then m1 else m2).
Proof. by destruct b. Qed.

Lemma touches_when P b m : touches P m -> touches P (when b m).
Proof. destruct b; [done|]. intros _. apply touches_ret. Qed.

Lemma touches_mono {A} (P P' : Z -> Prop) (m : prog machine A) :
  touches P m -> (forall d, P d -> P' d) -> touches P' m.
Proof. intros H HP s. eapply wp_mono; [apply H|]. intros a s' K. by apply (keeps_weaken P). Qed.

Lemma touches_for_each {A} P (l : list A) body :
  (forall x, touches P (body x)) -> touches P (for_each l body).
Proof.
  intros H. induction l as [|x l IH]; simpl; [apply touches_ret|].
  apply touches_bind; [apply H|]. intros _. apply IH.
Qed.

Lemma touches_uninit P n : touches P (uninit n).
Proof. intros s. apply keeps_refl. Qed.
End Touches.

Create HintDb touches.
#[export] Hint Constants Opaque : touches.
#[export] Hint Resolve touches_ret touches_load touches_uninit : touches.

(** [touch] walks through a driver and leaves the goals about stored addresses. *)
Ltac touch :=
  repeat first
    [ solve [eauto 3 with touches]
    | simple apply touches_bind; [|intro] | simple apply touches_when | simple apply touches_if
    | simple apply touches_for_each; intro
    | match goal with |- touches _ (match ?x with _ => _ end) => destruct x end ].
