(* ===== verification/Gpio.v ===== *)
(** The GPIO driver, [firmware/stm8/libstm8s/src/stm8s_gpio.c]. *)

From S2P Require Import Prelude Monad Machine.

(** ** Common types of [stm8s.h] *)

Inductive FunctionalState : Type := DISABLE | ENABLE.
Inductive FlagStatus : Type := RESET | SET.

#[export] Instance FunctionalState_eq_dec : EqDecision FunctionalState.
Proof. solve_decision. Defined.
#[export] Instance FlagStatus_eq_dec : EqDecision FlagStatus.
Proof. solve_decision. Defined.

(** ** Registers: a port is its base address *)

Definition GPIO_TypeDef : Type := Z.
Definition GPIO_ODR (GPIOx : GPIO_TypeDef) : Z := GPIOx + 0.
Definition GPIO_IDR (GPIOx : GPIO_TypeDef) : Z := GPIOx + 1.
Definition GPIO_DDR (GPIOx : GPIO_TypeDef) : Z := GPIOx + 2.
Definition GPIO_CR1 (GPIOx : GPIO_TypeDef) : Z := GPIOx + 3.
Definition GPIO_CR2 (GPIOx : GPIO_TypeDef) : Z := GPIOx + 4.

Definition GPIOA : GPIO_TypeDef := 0x5000.
Definition GPIOB : GPIO_TypeDef := 0x5005.
Definition GPIOC : GPIO_TypeDef := 0x500A.
Definition GPIOD : GPIO_TypeDef := 0x500F.
Definition GPIOE : GPIO_TypeDef := 0x5014.
Definition GPIOF : GPIO_TypeDef := 0x5019.
Definition GPIOG : GPIO_TypeDef := 0x501E.
Definition GPIOH : GPIO_TypeDef := 0x5023.
Definition GPIOI : GPIO_TypeDef := 0x5028.

Definition gpio_ports : list GPIO_TypeDef :=
  [GPIOA; GPIOB; GPIOC; GPIOD; GPIOE; GPIOF; GPIOG; GPIOH; GPIOI].

Definition GPIO_ODR_RESET_VALUE : Z := 0x00.
Definition GPIO_DDR_RESET_VALUE : Z := 0x00.
Definition GPIO_CR1_RESET_VALUE : Z := 0x00.
Definition GPIO_CR2_RESET_VALUE : Z := 0x00.

(** [GPIO_Mode_TypeDef]: bit 7 output, bit 6 pull-up or push-pull, bit 5
    interrupt or slope, bit 4 high level. *)
Definition GPIO_MODE_IN_FL_NO_IT : Z := 0x00.
Definition GPIO_MODE_IN_PU_NO_IT : Z := 0x40.
Definition GPIO_MODE_OUT_PP_LOW_FAST : Z := 0xE0.

(** [GPIO_Pin_TypeDef] *)
Definition GPIO_PIN_0 : Z := 0x01.
Definition GPIO_PIN_1 : Z := 0x02.
Definition GPIO_PIN_2 : Z := 0x04.
Definition GPIO_PIN_3 : Z := 0x08.
Definition GPIO_PIN_4 : Z := 0x10.
Definition GPIO_PIN_5 : Z := 0x20.
Definition GPIO_PIN_6 : Z := 0x40.
Definition GPIO_PIN_7 : Z := 0x80.

(** ** The driver *)

Section Driver.
Context {HW : Hardware}.

Definition GPIO_DeInit (GPIOx : GPIO_TypeDef) : prog machine unit :=
  store (GPIO_ODR GPIOx) GPIO_ODR_RESET_VALUE ;;
  store (GPIO_DDR GPIOx) GPIO_DDR_RESET_VALUE ;;
  store (GPIO_CR1 GPIOx) GPIO_CR1_RESET_VALUE ;;
  store (GPIO_CR2 GPIOx) GPIO_CR2_RESET_VALUE.

Definition GPIO_Init (GPIOx : GPIO_TypeDef) (GPIO_Pin GPIO_Mode : Z) : prog machine unit :=
  and_reg (GPIO_CR2 GPIOx) (u8 (Z.lnot GPIO_Pin)) ;;
  (if truth (Z.land (u8 GPIO_Mode) 0x80) then
     (if truth (Z.land (u8 GPIO_Mode) 0x10)
      then or_reg (GPIO_ODR GPIOx) (u8 GPIO_Pin)
      else and_reg (GPIO_ODR GPIOx) (u8 (Z.lnot GPIO_Pin))) ;;
     or_reg (GPIO_DDR GPIOx) (u8 GPIO_Pin)
   else and_reg (GPIO_DDR GPIOx) (u8 (Z.lnot GPIO_Pin))) ;;
  (if truth (Z.land (u8 GPIO_Mode) 0x40)
   then or_reg (GPIO_CR1 GPIOx) (u8 GPIO_Pin)
   else and_reg (GPIO_CR1 GPIOx) (u8 (Z.lnot GPIO_Pin))) ;;
  (if truth (Z.land (u8 GPIO_Mode) 0x20)
   then or_reg (GPIO_CR2 GPIOx) (u8 GPIO_Pin)
   else and_reg (GPIO_CR2 GPIOx) (u8 (Z.lnot GPIO_Pin))).

Definition GPIO_Write (GPIOx : GPIO_TypeDef) (PortVal : Z) : prog machine unit :=
  store (GPIO_ODR GPIOx) PortVal.

Definition GPIO_WriteHigh (GPIOx : GPIO_TypeDef) (PortPins : Z) : prog machine unit :=
  or_reg (GPIO_ODR GPIOx) (u8 PortPins).

Definition GPIO_WriteLow (GPIOx : GPIO_TypeDef) (PortPins : Z) : prog machine unit :=
  and_reg (GPIO_ODR GPIOx) (u8 (Z.lnot PortPins)).

Definition GPIO_WriteReverse (GPIOx : GPIO_TypeDef) (PortPins : Z) : prog machine unit :=
  xor_reg (GPIO_ODR GPIOx) (u8 PortPins).

Definition GPIO_ReadOutputData (GPIOx : GPIO_TypeDef) : prog machine Z :=
  load (GPIO_ODR GPIOx).

Definition GPIO_ReadInputData (GPIOx : GPIO_TypeDef) : prog machine Z :=
  load (GPIO_IDR GPIOx).

(** [BitStatus] is the masked byte, not 0 or 1. *)
Definition GPIO_ReadInputPin (GPIOx : GPIO_TypeDef) (GPIO_Pin : Z) : prog machine Z :=
  let! v := load (GPIO_IDR GPIOx) in ret (Z.land v (u8 GPIO_Pin)).

Definition GPIO_ExternalPullUpConfig (GPIOx : GPIO_TypeDef) (GPIO_Pin : Z)
    (NewState : FunctionalState) : prog machine unit :=
  match NewState with
  | ENABLE => or_reg (GPIO_CR1 GPIOx) (u8 GPIO_Pin)
  | DISABLE => and_reg (GPIO_CR1 GPIOx) (u8 (Z.lnot GPIO_Pin))
  end.
End Driver.

(** ** Laws

    The output, direction and control registers of the ports are latches
    (RM0016, "GPIO registers"); the input registers are not. *)
Class GpioLaws (HW : Hardware) : Prop := {
  gpio_latch p : p ∈ gpio_ports ->
    latch (GPIO_ODR p) /\ latch (GPIO_DDR p) /\ latch (GPIO_CR1 p) /\ latch (GPIO_CR2 p)
}.

(** ** Lemmas *)

Lemma gpio_port_range p : p ∈ gpio_ports -> 0x5000 <= p <= 0x5028.
Proof.
  unfold gpio_ports. rewrite !elem_of_cons, elem_of_nil.
  unfold GPIOA, GPIOB, GPIOC, GPIOD, GPIOE, GPIOF, GPIOG, GPIOH, GPIOI. lia.
Qed.

Lemma gpio_unpaged p k : p ∈ gpio_ports -> 0 <= k <= 4 -> in_can_page (p + k) = false.
Proof.
  intros Hp Hk. pose proof (gpio_port_range p Hp).
  unfold in_can_page, CAN_Page, CAN_BaseAddress. cmp; done.
Qed.

(** The registers of port [p]. *)
Definition gpio_reg (p a : Z) : Prop := p <= a <= p + 4.

Section Lemmas.
Context {HW : Hardware} {GL : GpioLaws HW} {E : fault -> machine -> Prop}.

(** The pins selected by [mask] of an 8-bit register set or cleared. *)
Definition set_pins (b : bool) (mask v : Z) : Z :=
  u8 (if b then Z.lor (u8 v) (u8 mask) else Z.land (u8 v) (u8 (Z.lnot mask))).

Lemma set_pins_testbit b mask v i :
  0 <= i < 8 ->
  Z.testbit (set_pins b mask v) i = if Z.testbit mask i then b else Z.testbit v i.
Proof.
  intros Hi. unfold set_pins. rewrite testbit_u8 by lia.
  destruct b; bits; cmp; destruct (Z.testbit mask i); simpl; btauto.
Qed.

(** Whether a bit of a mode is set. *)
Definition mode_bit (mode k : Z) : bool := truth (Z.land (u8 mode) k).

(** Setting or clearing pins of a latch register. *)
Lemma wp_set_pins (b : bool) a mask (Q : unit -> machine -> Prop) s :
  latch a -> in_can_page a = false ->
  (forall s', cells s' a = set_pins b mask (cells s a) ->
     (forall d, stable d -> d <> a -> cells s' d = cells s d) -> vars (eq a) s s' -> Q tt s') ->
  wp E (if b then or_reg a (u8 mask) else and_reg a (u8 (Z.lnot mask))) Q s.
Proof.
  intros Ha Hp HQ. unfold set_pins in HQ. destruct b; by apply wp_rmw_latch.
Qed.

Lemma port_latches p k : p ∈ gpio_ports -> k = 0 \/ k = 2 \/ k = 3 \/ k = 4 ->
  latch (p + k) /\ stable (p + k) /\ in_can_page (p + k) = false.
Proof using GL.
  intros Hp Hk. destruct (gpio_latch p Hp) as (HO & HD & H1 & H2).
  assert (latch (p + k)) by (destruct Hk as [-> | [-> | [-> | ->]]]; done).
  split; [done|]. split; [by apply latch_stable|]. apply gpio_unpaged; [done|lia].
Qed.

(** The four registers of a port after [GPIO_Init]. *)
Lemma GPIO_Init_wp p pin mode (Q : unit -> machine -> Prop) s :
  p ∈ gpio_ports ->
  (forall s',
     cells s' (GPIO_ODR p) = (if mode_bit mode 0x80
                              then set_pins (mode_bit mode 0x10) pin (cells s (GPIO_ODR p))
                              else cells s (GPIO_ODR p)) ->
     cells s' (GPIO_DDR p) = set_pins (mode_bit mode 0x80) pin (cells s (GPIO_DDR p)) ->
     cells s' (GPIO_CR1 p) = set_pins (mode_bit mode 0x40) pin (cells s (GPIO_CR1 p)) ->
     cells s' (GPIO_CR2 p) =
       set_pins (mode_bit mode 0x20) pin (set_pins false pin (cells s (GPIO_CR2 p))) ->
     (forall d, stable d -> ~ gpio_reg p d -> cells s' d = cells s d) -> vars (gpio_reg p) s s' -> Q tt s') ->
  wp E (GPIO_Init p pin mode) Q s.
Proof using GL.
  intros Hp HQ.
  destruct (port_latches p 0 Hp) as (LO & SO & PO); [lia|].
  destruct (port_latches p 2 Hp) as (LD & SD & PD); [lia|].
  destruct (port_latches p 3 Hp) as (L1 & S1 & P1); [lia|].
  destruct (port_latches p 4 Hp) as (L2 & S2 & P2); [lia|].
  assert (forall k s s', 0 <= k <= 4 -> vars (eq (p + k)) s s' -> vars (gpio_reg p) s s') as HV.
  { intros k s2 s3 Hk HV. eapply vars_weaken; [exact HV|]. intros d <-. unfold gpio_reg. lia. }
  unfold GPIO_Init. fold (mode_bit mode 0x80) (mode_bit mode 0x40)
    (mode_bit mode 0x20) (mode_bit mode 0x10). unfold GPIO_ODR, GPIO_DDR, GPIO_CR1, GPIO_CR2 in *.
  apply wp_bind, (wp_set_pins false); [done..|]. intros s1 C1 K1 R1%HV; [|lia].
  apply wp_bind.
  assert (forall s3, cells s3 (p + 0) = (if mode_bit mode 0x80
              then set_pins (mode_bit mode 0x10) pin (cells s1 (p + 0)) else cells s1 (p + 0)) ->
            cells s3 (p + 2) = set_pins (mode_bit mode 0x80) pin (cells s1 (p + 2)) ->
            (forall d, stable d -> d <> p + 0 -> d <> p + 2 -> cells s3 d = cells s1 d) ->
            vars (gpio_reg p) s1 s3 ->
            wp E ((if mode_bit mode 64 then or_reg (p + 3) (u8 pin) else and_reg (p + 3) (u8 (Z.lnot pin))) ;;
                  (if mode_bit mode 32 then or_reg (p + 4) (u8 pin) else and_reg (p + 4) (u8 (Z.lnot pin)))) Q s3)
    as Htail.
  { intros s3 C3O C3D K3 R3. apply wp_bind, wp_set_pins; [done..|]. intros s4 C4 K4 R4%HV; [|lia].
    apply wp_set_pins; [done..|]. intros s5 C5 K5 R5%HV; [|lia].
    apply HQ; [..|eauto 4 using vars_trans].
    - by rewrite K5, K4, C3O, (K1 (p + 0)) by (done || lia).
    - by rewrite K5, K4, C3D, (K1 (p + 2)) by (done || lia).
    - by rewrite K5, C4, K3, K1 by (done || lia).
    - by rewrite C5, K4, K3, C1 by (done || lia).
    - intros d Hd Hn. unfold gpio_reg in Hn. by rewrite K5, K4, K3, K1 by (done || lia). }
  destruct (mode_bit mode 0x80).
  - apply wp_bind, wp_set_pins; [done..|]. intros s2 C2 K2 R2%HV; [|lia].
    apply (wp_set_pins true); [done..|]. intros s3 C3 K3 R3%HV; [|lia].
    apply Htail; [|by rewrite C3, K2 by (done || lia)| |eauto using vars_trans].
    + by rewrite K3, C2 by (done || lia).
    + intros d Hd Hn0 Hn2. by rewrite K3, K2 by (done || lia).
  - apply (wp_set_pins false); [done..|]. intros s3 C3 K3 R3%HV; [|lia].
    apply Htail; [by rewrite K3 by (done || lia)|done| |done].
    intros d Hd Hn0 Hn2. by rewrite K3 by (done || lia).
Qed.

(** The output register of a port after [GPIO_WriteHigh] and [GPIO_WriteLow]. *)
Lemma GPIO_WriteHigh_wp p pin (Q : unit -> machine -> Prop) s :
  p ∈ gpio_ports ->
  (forall s', cells s' (GPIO_ODR p) = set_pins true pin (cells s (GPIO_ODR p)) ->
     (forall d, stable d -> d <> GPIO_ODR p -> cells s' d = cells s d) ->
     vars (eq (GPIO_ODR p)) s s' -> Q tt s') ->
  wp E (GPIO_WriteHigh p pin) Q s.
Proof using GL.
  intros Hp HQ. destruct (port_latches p 0 Hp) as (LO & _ & PO); [lia|].
  by apply (wp_set_pins true).
Qed.

Lemma GPIO_WriteLow_wp p pin (Q : unit -> machine -> Prop) s :
  p ∈ gpio_ports ->
  (forall s', cells s' (GPIO_ODR p) = set_pins false pin (cells s (GPIO_ODR p)) ->
     (forall d, stable d -> d <> GPIO_ODR p -> cells s' d = cells s d) ->
     vars (eq (GPIO_ODR p)) s s' -> Q tt s') ->
  wp E (GPIO_WriteLow p pin) Q s.
Proof using GL.
  intros Hp HQ. destruct (port_latches p 0 Hp) as (LO & _ & PO); [lia|].
  by apply (wp_set_pins false).
Qed.
End Lemmas.

(** Without any law, the driver returns and only its port changes. *)
Section Safety.
Context {HW : Hardware}.

Lemma touches_gpio_reg p k v :
  p ∈ gpio_ports -> 0 <= k <= 4 -> touches (gpio_reg p) (store (p + k) v).
Proof. intros Hp Hk. apply touches_store; [by apply gpio_unpaged|unfold gpio_reg; lia]. Qed.

Lemma touches_GPIO_Init p pin mode : p ∈ gpio_ports -> touches (gpio_reg p) (GPIO_Init p pin mode).
Proof.
  intros Hp. unfold GPIO_Init, and_reg, or_reg.
  touch; (apply touches_gpio_reg; [done|lia]).
Qed.

Lemma touches_GPIO_WriteHigh p pin : p ∈ gpio_ports -> touches (gpio_reg p) (GPIO_WriteHigh p pin).
Proof. intros Hp. unfold GPIO_WriteHigh, or_reg. touch; (apply touches_gpio_reg; [done|lia]). Qed.

Lemma touches_GPIO_WriteLow p pin : p ∈ gpio_ports -> touches (gpio_reg p) (GPIO_WriteLow p pin).
Proof. intros Hp. unfold GPIO_WriteLow, and_reg. touch; (apply touches_gpio_reg; [done|lia]). Qed.
End Safety.

#[export] Hint Resolve touches_GPIO_Init touches_GPIO_WriteHigh touches_GPIO_WriteLow : touches.
