(* ===== verification/Tim4.v ===== *)
(** The TIM4 driver, [firmware/stm8/libstm8s/src/stm8s_tim4.c]. *)

From S2P Require Import Prelude Monad Machine Gpio.

(** ** Registers of [TIM4_TypeDef] *)

Definition TIM4_BaseAddress : Z := 0x5340.
Definition TIM4_CR1 : Z := TIM4_BaseAddress + 0.
Definition TIM4_IER : Z := TIM4_BaseAddress + 1.
Definition TIM4_SR1 : Z := TIM4_BaseAddress + 2.
Definition TIM4_EGR : Z := TIM4_BaseAddress + 3.
Definition TIM4_CNTR : Z := TIM4_BaseAddress + 4.
Definition TIM4_PSCR : Z := TIM4_BaseAddress + 5.
Definition TIM4_ARR : Z := TIM4_BaseAddress + 6.

Definition TIM4_CR1_RESET_VALUE : Z := 0x00.
Definition TIM4_IER_RESET_VALUE : Z := 0x00.
Definition TIM4_SR1_RESET_VALUE : Z := 0x00.
Definition TIM4_CNTR_RESET_VALUE : Z := 0x00.
Definition TIM4_PSCR_RESET_VALUE : Z := 0x00.
Definition TIM4_ARR_RESET_VALUE : Z := 0xFF.

Definition TIM4_CR1_ARPE : Z := 0x80.
Definition TIM4_CR1_OPM : Z := 0x08.
Definition TIM4_CR1_URS : Z := 0x04.
Definition TIM4_CR1_UDIS : Z := 0x02.
Definition TIM4_CR1_CEN : Z := 0x01.

Definition TIM4_PRESCALER_128 : Z := 0x07.
Definition TIM4_OPMODE_REPETITIVE : Z := 0x00.
Definition TIM4_UPDATESOURCE_GLOBAL : Z := 0x00.
Definition TIM4_FLAG_UPDATE : Z := 0x01.
Definition TIM4_IT_UPDATE : Z := 0x01.

(** ** The driver *)

Section Driver.
Context {HW : Hardware}.

Definition TIM4_DeInit : prog machine unit :=
  store TIM4_CR1 TIM4_CR1_RESET_VALUE ;;
  store TIM4_IER TIM4_IER_RESET_VALUE ;;
  store TIM4_CNTR TIM4_CNTR_RESET_VALUE ;;
  store TIM4_PSCR TIM4_PSCR_RESET_VALUE ;;
  store TIM4_ARR TIM4_ARR_RESET_VALUE ;;
  store TIM4_SR1 TIM4_SR1_RESET_VALUE.

Definition TIM4_TimeBaseInit (TIM4_Prescaler TIM4_Period : Z) : prog machine unit :=
  store TIM4_PSCR (u8 TIM4_Prescaler) ;;
  store TIM4_ARR (u8 TIM4_Period).

Definition TIM4_Cmd (NewState : FunctionalState) : prog machine unit :=
  match NewState with
  | ENABLE => or_reg TIM4_CR1 TIM4_CR1_CEN
  | DISABLE => and_reg TIM4_CR1 (u8 (Z.lnot TIM4_CR1_CEN))
  end.

Definition TIM4_ITConfig (TIM4_IT : Z) (NewState : FunctionalState) : prog machine unit :=
  match NewState with
  | ENABLE => or_reg TIM4_IER (u8 TIM4_IT)
  | DISABLE => and_reg TIM4_IER (u8 (Z.lnot TIM4_IT))
  end.

Definition TIM4_UpdateDisableConfig (NewState : FunctionalState) : prog machine unit :=
  match NewState with
  | ENABLE => or_reg TIM4_CR1 TIM4_CR1_UDIS
  | DISABLE => and_reg TIM4_CR1 (u8 (Z.lnot TIM4_CR1_UDIS))
  end.

Definition TIM4_UpdateRequestConfig (TIM4_UpdateSource : Z) : prog machine unit :=
  if negb (TIM4_UpdateSource =? TIM4_UPDATESOURCE_GLOBAL)
  then or_reg TIM4_CR1 TIM4_CR1_URS
  else and_reg TIM4_CR1 (u8 (Z.lnot TIM4_CR1_URS)).

Definition TIM4_SelectOnePulseMode (TIM4_OPMode : Z) : prog machine unit :=
  if negb (TIM4_OPMode =? TIM4_OPMODE_REPETITIVE)
  then or_reg TIM4_CR1 TIM4_CR1_OPM
  else and_reg TIM4_CR1 (u8 (Z.lnot TIM4_CR1_OPM)).

Definition TIM4_PrescalerConfig (Prescaler TIM4_PSCReloadMode : Z) : prog machine unit :=
  store TIM4_PSCR (u8 Prescaler) ;;
  store TIM4_EGR (u8 TIM4_PSCReloadMode).

Definition TIM4_ARRPreloadConfig (NewState : FunctionalState) : prog machine unit :=
  match NewState with
  | ENABLE => or_reg TIM4_CR1 TIM4_CR1_ARPE
  | DISABLE => and_reg TIM4_CR1 (u8 (Z.lnot TIM4_CR1_ARPE))
  end.

Definition TIM4_GenerateEvent (TIM4_EventSource : Z) : prog machine unit :=
  store TIM4_EGR (u8 TIM4_EventSource).

Definition TIM4_SetCounter (Counter : Z) : prog machine unit := store TIM4_CNTR (u8 Counter).

Definition TIM4_SetAutoreload (Autoreload : Z) : prog machine unit := store TIM4_ARR (u8 Autoreload).

Definition TIM4_GetCounter : prog machine Z := load TIM4_CNTR.

Definition TIM4_GetPrescaler : prog machine Z := load TIM4_PSCR.

Definition TIM4_GetFlagStatus (TIM4_FLAG : Z) : prog machine FlagStatus :=
  let! v := load TIM4_SR1 in
  ret (if negb (Z.land v (u8 TIM4_FLAG) =? 0) then SET else RESET).

(** The flags are cleared by writing 0; writing 1 has no effect. *)
Definition TIM4_ClearFlag (TIM4_FLAG : Z) : prog machine unit :=
  store TIM4_SR1 (u8 (Z.lnot TIM4_FLAG)).

Definition TIM4_GetITStatus (TIM4_IT : Z) : prog machine FlagStatus :=
  let! itstatus := (let! v := load TIM4_SR1 in ret (u8 (Z.land v (u8 TIM4_IT)))) in
  let! itenable := (let! v := load TIM4_IER in ret (u8 (Z.land v (u8 TIM4_IT)))) in
  ret (if negb (itstatus =? 0) && negb (itenable =? 0) then SET else RESET).

Definition TIM4_ClearITPendingBit (TIM4_IT : Z) : prog machine unit :=
  store TIM4_SR1 (u8 (Z.lnot TIM4_IT)).
End Driver.

(** ** Laws

    The prescaler has three bits (RM0016, "TIM4 prescaler register"); the
    auto-reload register is a latch. *)
Class Tim4Laws (HW : Hardware) : Prop := {
  tim4_pscr_stable : stable TIM4_PSCR;
  tim4_pscr_store v m h : Z.land (fst (hw_store TIM4_PSCR v (m, h)) TIM4_PSCR) 7 = Z.land v 7;
  tim4_arr_latch : latch TIM4_ARR
}.

(** ** Lemmas *)

Definition tim4_reg (a : Z) : Prop := TIM4_BaseAddress <= a <= TIM4_BaseAddress + 6.

Section Lemmas.
Context {HW : Hardware}.

Lemma touches_tim4_reg k v : 0 <= k <= 6 -> touches tim4_reg (store (TIM4_BaseAddress + k) v).
Proof.
  intros Hk. apply touches_store; unfold tim4_reg, TIM4_BaseAddress, in_can_page, CAN_Page, CAN_BaseAddress;
    [cmp; done|lia].
Qed.

Lemma touches_TIM4_TimeBaseInit p a : touches tim4_reg (TIM4_TimeBaseInit p a).
Proof. unfold TIM4_TimeBaseInit. touch; (apply touches_tim4_reg; lia). Qed.

Lemma touches_TIM4_Cmd b : touches tim4_reg (TIM4_Cmd b).
Proof. unfold TIM4_Cmd, or_reg, and_reg. touch; (apply touches_tim4_reg; lia). Qed.

Lemma touches_TIM4_GetFlagStatus f : touches tim4_reg (TIM4_GetFlagStatus f).
Proof. unfold TIM4_GetFlagStatus. touch. Qed.

Lemma touches_TIM4_ClearFlag f : touches tim4_reg (TIM4_ClearFlag f).
Proof. apply touches_tim4_reg. lia. Qed.
End Lemmas.

#[export] Hint Resolve touches_TIM4_TimeBaseInit touches_TIM4_Cmd touches_TIM4_GetFlagStatus touches_TIM4_ClearFlag : touches.
