(* ===== verification/Flash.v ===== *)
(** The flash driver, [firmware/stm8/libstm8s/src/stm8s_flash.c].

    The SDCC build reaches the memory through [write_byte_address] and
    [read_byte_address].  The laws of the data EEPROM are here; the stream over it is
    in [Eestream.v]. *)

From S2P Require Import Prelude Monad Machine Gpio.

(** ** Registers of [FLASH_TypeDef] *)

Definition FLASH_BaseAddress : Z := 0x505A.
Definition FLASH_CR1 : Z := FLASH_BaseAddress + 0.
Definition FLASH_CR2 : Z := FLASH_BaseAddress + 1.
Definition FLASH_NCR2 : Z := FLASH_BaseAddress + 2.
Definition FLASH_FPR : Z := FLASH_BaseAddress + 3.
Definition FLASH_IAPSR : Z := FLASH_BaseAddress + 5.
Definition FLASH_PUKR : Z := FLASH_BaseAddress + 8.
Definition FLASH_DUKR : Z := FLASH_BaseAddress + 10.

Definition FLASH_CR1_RESET_VALUE : Z := 0x00.
Definition FLASH_CR2_RESET_VALUE : Z := 0x00.
Definition FLASH_NCR2_RESET_VALUE : Z := 0xFF.

Definition FLASH_CR1_HALT : Z := 0x08.
Definition FLASH_CR1_AHALT : Z := 0x04.
Definition FLASH_CR1_IE : Z := 0x02.
Definition FLASH_CR1_FIX : Z := 0x01.
Definition FLASH_CR2_OPT : Z := 0x80.
Definition FLASH_CR2_WPRG : Z := 0x40.
Definition FLASH_CR2_ERASE : Z := 0x20.
Definition FLASH_CR2_FPRG : Z := 0x10.
Definition FLASH_CR2_PRG : Z := 0x01.
Definition FLASH_NCR2_NOPT : Z := 0x80.
Definition FLASH_NCR2_NWPRG : Z := 0x40.
Definition FLASH_NCR2_NERASE : Z := 0x20.
Definition FLASH_NCR2_NFPRG : Z := 0x10.
Definition FLASH_NCR2_NPRG : Z := 0x01.
Definition FLASH_IAPSR_HVOFF : Z := 0x40.
Definition FLASH_IAPSR_DUL : Z := 0x08.
Definition FLASH_IAPSR_EOP : Z := 0x04.
Definition FLASH_IAPSR_PUL : Z := 0x02.
Definition FLASH_IAPSR_WR_PG_DIS : Z := 0x01.

Definition FLASH_CLEAR_BYTE : Z := 0x00.
Definition FLASH_SET_BYTE : Z := 0xFF.
Definition OPERATION_TIMEOUT : Z := 0xFFFF.
Definition FLASH_RASS_KEY1 : Z := 0x56.
Definition FLASH_RASS_KEY2 : Z := 0xAE.
Definition FLASH_OPTIONBYTE_ERROR : Z := 0x5555.
Definition FLASH_PROG_START_PHYSICAL_ADDRESS : Z := 0x008000.
Definition FLASH_DATA_START_PHYSICAL_ADDRESS : Z := 0x004000.
Definition FLASH_DATA_END_PHYSICAL_ADDRESS : Z := 0x0047FF.
Definition FLASH_BLOCK_SIZE : Z := 128.

Inductive FLASH_MemType_TypeDef : Type := FLASH_MEMTYPE_PROG | FLASH_MEMTYPE_DATA.
Definition FLASH_MemType_value (t : FLASH_MemType_TypeDef) : Z :=
  match t with FLASH_MEMTYPE_PROG => 0xFD | FLASH_MEMTYPE_DATA => 0xF7 end.

Inductive FLASH_ProgramMode_TypeDef : Type := FLASH_PROGRAMMODE_STANDARD | FLASH_PROGRAMMODE_FAST.

Definition FLASH_STATUS_TIMEOUT : Z := 0x02.

(** ** The driver *)

Section Driver.
Context {HW : Hardware}.

(** The parameter [Address] is a [uint16_t], so the conversion of a 24-bit
    address drops its high bits. *)
Definition write_byte_address (Address Data : Z) : prog machine unit :=
  store (u16 Address) Data.

Definition read_byte_address (Address : Z) : prog machine Z := load Address.

Definition FLASH_Unlock (FLASH_MemType : FLASH_MemType_TypeDef) : prog machine unit :=
  match FLASH_MemType with
  | FLASH_MEMTYPE_PROG =>
      store FLASH_PUKR FLASH_RASS_KEY1 ;; store FLASH_PUKR FLASH_RASS_KEY2
  | FLASH_MEMTYPE_DATA =>
      store FLASH_DUKR FLASH_RASS_KEY2 ;; store FLASH_DUKR FLASH_RASS_KEY1
  end.

Definition FLASH_Lock (FLASH_MemType : FLASH_MemType_TypeDef) : prog machine unit :=
  and_reg FLASH_IAPSR (FLASH_MemType_value FLASH_MemType).

Definition FLASH_DeInit : prog machine unit :=
  store FLASH_CR1 FLASH_CR1_RESET_VALUE ;;
  store FLASH_CR2 FLASH_CR2_RESET_VALUE ;;
  store FLASH_NCR2 FLASH_NCR2_RESET_VALUE ;;
  and_reg FLASH_IAPSR (u8 (Z.lnot FLASH_IAPSR_DUL)) ;;
  and_reg FLASH_IAPSR (u8 (Z.lnot FLASH_IAPSR_PUL)) ;;
  let! _ := load FLASH_IAPSR in ret tt.

Definition FLASH_ITConfig (NewState : FunctionalState) : prog machine unit :=
  match NewState with
  | ENABLE => or_reg FLASH_CR1 FLASH_CR1_IE
  | DISABLE => and_reg FLASH_CR1 (u8 (Z.lnot FLASH_CR1_IE))
  end.

Definition FLASH_EraseByte (Address : Z) : prog machine unit :=
  write_byte_address Address FLASH_CLEAR_BYTE.

Definition FLASH_ProgramByte (Address Data : Z) : prog machine unit :=
  write_byte_address Address Data.

Definition FLASH_ReadByte (Address : Z) : prog machine Z := read_byte_address Address.

(** SDCC stores a [uint32_t] high byte first. *)
Definition FLASH_ProgramWord (Address Data : Z) : prog machine unit :=
  or_reg FLASH_CR2 FLASH_CR2_WPRG ;;
  and_reg FLASH_NCR2 (u8 (Z.lnot FLASH_NCR2_NWPRG)) ;;
  write_byte_address Address (u8 (Z.shiftr Data 24)) ;;
  write_byte_address (u32 (Address + 1)) (u8 (Z.shiftr Data 16)) ;;
  write_byte_address (u32 (Address + 2)) (u8 (Z.shiftr Data 8)) ;;
  write_byte_address (u32 (Address + 3)) (u8 Data).

(** The wait loop reads the status register until one of the bits of [mask]
    shows or [timeout] runs out; the answer is the last status and what is
    left of the timeout. *)
Fixpoint wait_status (mask : Z) (timeout : nat) (flagstatus : Z) : prog machine (Z * Z) :=
  if negb (flagstatus =? 0) then ret (flagstatus, Z.of_nat timeout) else
  match timeout with
  | O => ret (flagstatus, 0)
  | S n =>
      let! v := load FLASH_IAPSR in
      wait_status mask n (u8 (Z.land v mask))
  end.

Definition FLASH_WaitForLastOperation (FLASH_MemType : FLASH_MemType_TypeDef) : prog machine Z :=
  let mask := match FLASH_MemType with
              | FLASH_MEMTYPE_PROG => u8 (Z.lor FLASH_IAPSR_EOP FLASH_IAPSR_WR_PG_DIS)
              | FLASH_MEMTYPE_DATA => u8 (Z.lor FLASH_IAPSR_HVOFF FLASH_IAPSR_WR_PG_DIS)
              end in
  let! (flagstatus, timeout) := wait_status mask (Z.to_nat OPERATION_TIMEOUT) 0x00 in
  ret (if timeout =? 0x00 then FLASH_STATUS_TIMEOUT else flagstatus).

Definition FLASH_ProgramOptionByte (Address Data : Z) : prog machine unit :=
  or_reg FLASH_CR2 FLASH_CR2_OPT ;;
  and_reg FLASH_NCR2 (u8 (Z.lnot FLASH_NCR2_NOPT)) ;;
  (if Address =? 0x4800 then store Address Data
   else store Address Data ;; store (u16 (Address + 1)) (u8 (Z.lnot Data))) ;;
  let! _ := FLASH_WaitForLastOperation FLASH_MEMTYPE_PROG in
  and_reg FLASH_CR2 (u8 (Z.lnot FLASH_CR2_OPT)) ;;
  or_reg FLASH_NCR2 FLASH_NCR2_NOPT.

Definition FLASH_EraseOptionByte (Address : Z) : prog machine unit :=
  or_reg FLASH_CR2 FLASH_CR2_OPT ;;
  and_reg FLASH_NCR2 (u8 (Z.lnot FLASH_NCR2_NOPT)) ;;
  (if Address =? 0x4800 then store Address FLASH_CLEAR_BYTE
   else store Address FLASH_CLEAR_BYTE ;; store (u16 (Address + 1)) FLASH_SET_BYTE) ;;
  let! _ := FLASH_WaitForLastOperation FLASH_MEMTYPE_PROG in
  and_reg FLASH_CR2 (u8 (Z.lnot FLASH_CR2_OPT)) ;;
  or_reg FLASH_NCR2 FLASH_NCR2_NOPT.

Definition FLASH_ReadOptionByte (Address : Z) : prog machine Z :=
  let! value_optbyte := load Address in
  let! value_optbyte_complement := load (u16 (Address + 1)) in
  ret (if Address =? 0x4800 then value_optbyte
       else if value_optbyte =? u8 (Z.lnot value_optbyte_complement)
       then Z.lor (u16 (Z.shiftl value_optbyte 8)) value_optbyte_complement
       else FLASH_OPTIONBYTE_ERROR).

Definition FLASH_SetLowPowerMode (FLASH_LPMode : Z) : prog machine unit :=
  and_reg FLASH_CR1 (u8 (Z.lnot (Z.lor FLASH_CR1_HALT FLASH_CR1_AHALT))) ;;
  or_reg FLASH_CR1 (u8 FLASH_LPMode).

Definition FLASH_SetProgrammingTime (FLASH_ProgTime : Z) : prog machine unit :=
  and_reg FLASH_CR1 (u8 (Z.lnot FLASH_CR1_FIX)) ;;
  or_reg FLASH_CR1 (u8 FLASH_ProgTime).

Definition FLASH_GetLowPowerMode : prog machine Z :=
  let! v := load FLASH_CR1 in ret (Z.land v (u8 (Z.lor FLASH_CR1_HALT FLASH_CR1_AHALT))).

Definition FLASH_GetProgrammingTime : prog machine Z :=
  let! v := load FLASH_CR1 in ret (Z.land v FLASH_CR1_FIX).

Definition FLASH_GetBootSize : prog machine Z :=
  let! fpr := load FLASH_FPR in
  let temp := u32 (fpr * 512) in
  let! fpr' := load FLASH_FPR in
  ret (if fpr' =? 0xFF then u32 (temp + 512) else temp).

Definition FLASH_GetFlagStatus (FLASH_FLAG : Z) : prog machine FlagStatus :=
  let! v := load FLASH_IAPSR in
  ret (if negb (Z.land v (u8 FLASH_FLAG) =? 0) then SET else RESET).

Definition block_start (BlockNum : Z) (FLASH_MemType : FLASH_MemType_TypeDef) : Z :=
  let startaddress := match FLASH_MemType with
                      | FLASH_MEMTYPE_PROG => FLASH_PROG_START_PHYSICAL_ADDRESS
                      | FLASH_MEMTYPE_DATA => FLASH_DATA_START_PHYSICAL_ADDRESS
                      end in
  u32 (startaddress + u32 (BlockNum * FLASH_BLOCK_SIZE)).

(** An SDCC pointer has 16 bits. *)
Definition FLASH_EraseBlock (BlockNum : Z) (FLASH_MemType : FLASH_MemType_TypeDef) : prog machine unit :=
  let pwFlash := u16 (block_start BlockNum FLASH_MemType) in
  or_reg FLASH_CR2 FLASH_CR2_ERASE ;;
  and_reg FLASH_NCR2 (u8 (Z.lnot FLASH_NCR2_NERASE)) ;;
  store pwFlash 0.

Definition FLASH_ProgramBlock (BlockNum : Z) (FLASH_MemType : FLASH_MemType_TypeDef)
    (FLASH_ProgMode : FLASH_ProgramMode_TypeDef) (Buffer : list Z) : prog machine unit :=
  let startaddress := block_start BlockNum FLASH_MemType in
  match FLASH_ProgMode with
  | FLASH_PROGRAMMODE_STANDARD =>
      or_reg FLASH_CR2 FLASH_CR2_PRG ;;
      and_reg FLASH_NCR2 (u8 (Z.lnot FLASH_NCR2_NPRG))
  | FLASH_PROGRAMMODE_FAST =>
      or_reg FLASH_CR2 FLASH_CR2_FPRG ;;
      and_reg FLASH_NCR2 (u8 (Z.lnot FLASH_NCR2_NFPRG))
  end ;;
  for_each (range FLASH_BLOCK_SIZE) (fun Count =>
    let! b := at_index Buffer Count in
    write_byte_address (u32 (startaddress + Count)) (u8 b)).
End Driver.

(** ** Laws of the data EEPROM (RM0016, "Memory access security system") *)

Definition eeprom (a : Z) : Prop :=
  FLASH_DATA_START_PHYSICAL_ADDRESS <= a <= FLASH_DATA_END_PHYSICAL_ADDRESS.

(** The DUL bit of [FLASH->IAPSR]: the data memory accepts writes. *)
Definition unlocked (m : mem) : bool := Z.testbit (m FLASH_IAPSR) 3.

Class FlashLaws (HW : Hardware) : Prop := {
  eeprom_stable a : eeprom a -> stable a;
  eeprom_load a m h : eeprom a -> fst (hw_load a (m, h)) = m a;
  (** a store programs the byte, if the data memory is unlocked *)
  eeprom_store a v m h : eeprom a ->
    fst (hw_store a v (m, h)) a = if unlocked m then u8 v else m a;
  (** only the key and status registers change the lock *)
  dul_load a m h : unlocked (fst (snd (hw_load a (m, h)))) = unlocked m;
  dul_store a v m h : a <> FLASH_IAPSR -> a <> FLASH_DUKR ->
    unlocked (fst (hw_store a v (m, h))) = unlocked m;
  (** the two keys in this order unlock the data memory *)
  dul_unlock s : unlocked (fst (hw_store FLASH_DUKR FLASH_RASS_KEY1
                             (hw_store FLASH_DUKR FLASH_RASS_KEY2 s))) = true;
  (** the bit is cleared by writing it as 0 and never set by a store *)
  dul_lock v m h : unlocked (fst (hw_store FLASH_IAPSR v (m, h))) = unlocked m && Z.testbit v 3
}.

(** ** Lemmas *)

Definition flash_reg (a : Z) : Prop := FLASH_BaseAddress <= a <= FLASH_BaseAddress + 10.

Lemma flash_reg_unpaged a : flash_reg a -> in_can_page a = false.
Proof.
  unfold flash_reg, FLASH_BaseAddress, in_can_page, CAN_Page, CAN_BaseAddress. intros. cmp; done.
Qed.

Lemma eeprom_unpaged a : eeprom a -> in_can_page a = false.
Proof.
  unfold eeprom, FLASH_DATA_START_PHYSICAL_ADDRESS, FLASH_DATA_END_PHYSICAL_ADDRESS,
    in_can_page, CAN_Page, CAN_BaseAddress. intros. cmp; done.
Qed.

Lemma eeprom_not_flash_reg a : eeprom a -> ~ flash_reg a.
Proof.
  unfold eeprom, flash_reg, FLASH_BaseAddress, FLASH_DATA_START_PHYSICAL_ADDRESS,
    FLASH_DATA_END_PHYSICAL_ADDRESS. lia.
Qed.

Section Lemmas.
Context {HW : Hardware}.

Lemma touches_flash_store a v : flash_reg a -> touches flash_reg (store a v).
Proof. intros Ha. apply touches_store; [by apply flash_reg_unpaged|done]. Qed.

Lemma touches_FLASH_Unlock t : touches flash_reg (FLASH_Unlock t).
Proof. destruct t; unfold FLASH_Unlock; touch; apply touches_flash_store; by vm_compute. Qed.

Lemma touches_FLASH_Lock t : touches flash_reg (FLASH_Lock t).
Proof. unfold FLASH_Lock, and_reg. touch; apply touches_flash_store; by vm_compute. Qed.

Lemma touches_FLASH_DeInit : touches flash_reg FLASH_DeInit.
Proof. unfold FLASH_DeInit, and_reg. touch; apply touches_flash_store; by vm_compute. Qed.

Lemma touches_wait_status P mask n f : touches P (wait_status mask n f).
Proof.
  revert f. induction n as [|n IH]; intros f; simpl; touch; apply IH.
Qed.

(** The wait for the end of a flash operation always ends, and it reads the
    status register only. *)
Lemma touches_FLASH_WaitForLastOperation P t : touches P (FLASH_WaitForLastOperation t).
Proof.
  unfold FLASH_WaitForLastOperation. apply touches_bind; [apply touches_wait_status|].
  intros [f n]. touch.
Qed.
End Lemmas.

Section FlashRules.
Context {HW : Hardware} {FL : FlashLaws HW} {E : fault -> machine -> Prop}.

(** A byte of the unlocked data memory is programmed and nothing else changes. *)
Lemma FLASH_ProgramByte_wp a v (Q : unit -> machine -> Prop) s :
  eeprom a -> unlocked (cells s) = true ->
  (forall s', cells s' a = u8 v -> unlocked (cells s') = true -> keeps (eq a) s s' -> Q tt s') ->
  wp E (FLASH_ProgramByte a v) Q s.
Proof using FL.
  intros Ha Hu HQ. unfold FLASH_ProgramByte, write_byte_address.
  assert (u16 a = a) as ->.
  { apply u16_small. unfold eeprom, FLASH_DATA_START_PHYSICAL_ADDRESS, FLASH_DATA_END_PHYSICAL_ADDRESS in Ha.
    unfold is_u16. lia. }
  apply wp_store, HQ; simpl.
  - unfold hw. by rewrite eeprom_store, Hu, u8_u8.
  - unfold hw. rewrite dul_store; [done| |]; intros ->; by apply (eeprom_not_flash_reg _ Ha).
  - eapply keeps_weaken; [apply keeps_store|]. intros d <-. by rewrite cell_unpaged by by apply eeprom_unpaged.
Qed.

Lemma FLASH_ReadByte_wp a (Q : Z -> machine -> Prop) s :
  eeprom a ->
  (forall s', keeps (fun _ => False) s s' -> unlocked (cells s') = unlocked (cells s) ->
     Q (u8 (cells s a)) s') ->
  wp E (FLASH_ReadByte a) Q s.
Proof using FL.
  intros Ha HQ. unfold FLASH_ReadByte, read_byte_address. apply wp_load. intros v p Hl _.
  pose proof (eeprom_load a (cells s) (hid s) Ha) as Hv.
  pose proof (dul_load a (cells s) (hid s)) as Hd. apply (keeps_load (fun _ => False)) in Hl as Hk.
  unfold hw in Hl. rewrite Hl in Hv, Hd. simpl in Hv, Hd. subst v. by apply HQ.
Qed.

Lemma FLASH_Unlock_data_wp (Q : unit -> machine -> Prop) s :
  (forall s', unlocked (cells s') = true -> keeps flash_reg s s' -> Q tt s') ->
  wp E (FLASH_Unlock FLASH_MEMTYPE_DATA) Q s.
Proof using FL.
  intros HQ. pose proof (touches_FLASH_Unlock FLASH_MEMTYPE_DATA s) as Ht.
  unfold wp, FLASH_Unlock, bind, store in *. apply HQ; [|done]. unfold after_store, hw. simpl.
  assert (u8 FLASH_RASS_KEY1 = FLASH_RASS_KEY1 /\ u8 FLASH_RASS_KEY2 = FLASH_RASS_KEY2) as [-> ->] by done.
  rewrite <- surjective_pairing. apply dul_unlock.
Qed.

(** What an access to a flash register does to the lock. *)
Lemma wp_flash_store a v (Q : unit -> machine -> Prop) s :
  flash_reg a -> a <> FLASH_DUKR ->
  (forall s', unlocked (cells s') =
                (if a =? FLASH_IAPSR then unlocked (cells s) && Z.testbit (u8 v) 3 else unlocked (cells s)) ->
     keeps flash_reg s s' -> Q tt s') ->
  wp E (store a v) Q s.
Proof using FL.
  intros Ha Hne HQ. pose proof (touches_flash_store a v Ha s) as Ht. apply wp_store, HQ; [|exact Ht].
  cbn [after_store cells]. unfold hw. destruct (Z.eqb_spec a FLASH_IAPSR) as [->|]; [apply dul_lock|by apply dul_store].
Qed.

Lemma wp_flash_load a (Q : Z -> machine -> Prop) s :
  (forall v s', unlocked (cells s') = unlocked (cells s) -> keeps flash_reg s s' -> Q v s') -> wp E (load a) Q s.
Proof using FL.
  intros HQ. pose proof (touches_load flash_reg a s) as Ht. pose proof (dul_load a (cells s) (hid s)) as Hd.
  unfold wp, load, hw in *. destruct (hw_load a (cells s, hid s)) as [v p]. by apply HQ.
Qed.

(** Locking clears the lock bit, and what follows does not set it. *)
Lemma FLASH_Lock_data_wp (Q : unit -> machine -> Prop) s :
  (forall s', unlocked (cells s') = false -> keeps flash_reg s s' -> Q tt s') ->
  wp E (FLASH_Lock FLASH_MEMTYPE_DATA) Q s.
Proof using FL.
  intros HQ. apply wp_bind, wp_flash_load. intros v s1 _ K1.
  apply wp_flash_store; [by vm_compute|done|]. intros s2 H2 K2. apply HQ; [|by eapply keeps_trans].
  rewrite H2, Z.eqb_refl, testbit_u8, Z.land_spec by lia.
  change (Z.testbit (FLASH_MemType_value FLASH_MEMTYPE_DATA) 3) with false. by rewrite !andb_false_r.
Qed.

Lemma FLASH_DeInit_wp (Q : unit -> machine -> Prop) s :
  (forall s', unlocked (cells s') = false -> keeps flash_reg s s' -> Q tt s') -> wp E FLASH_DeInit Q s.
Proof using FL.
  intros HQ. unfold FLASH_DeInit.
  apply wp_bind, wp_flash_store; [by vm_compute|done|]. intros s1 _ K1.
  apply wp_bind, wp_flash_store; [by vm_compute|done|]. intros s2 _ K2.
  apply wp_bind, wp_flash_store; [by vm_compute|done|]. intros s3 _ K3.
  apply wp_bind, wp_bind, wp_flash_load. intros v4 s4 _ K4. apply wp_flash_store; [by vm_compute|done|]. intros s5 H5 K5.
  apply wp_bind, wp_bind, wp_flash_load. intros v6 s6 H6 K6. apply wp_flash_store; [by vm_compute|done|]. intros s7 H7 K7.
  apply wp_bind, wp_flash_load. intros v8 s8 H8 K8. apply wp_ret, HQ.
  - rewrite Z.eqb_refl, testbit_u8, Z.land_spec in H5 by lia.
    change (Z.testbit (u8 (Z.lnot FLASH_IAPSR_DUL)) 3) with false in H5.
    by rewrite H8, H7, H6, H5, !andb_false_r, andb_false_l, Z.eqb_refl.
  - do 7 (eapply keeps_trans; [eassumption|]). done.
Qed.
End FlashRules.

#[export] Hint Resolve touches_FLASH_Unlock touches_FLASH_Lock touches_FLASH_DeInit touches_FLASH_WaitForLastOperation : touches.
