(* ===== verification/Eestream.v ===== *)
(** The EEPROM stream, [firmware/stm8/can_node/eestream.c].

    The stream object is a local variable of the caller passed by address: an
    operation takes its value and returns the updated value.  [written] and
    [reading] are the abstract view: a stream open for writing has put a list of
    bytes on the tape, a stream open for reading has a list of bytes to come. *)

From S2P Require Import Prelude Monad Machine Gpio Flash.

Inductive CAN_Node_EEStream_OpenMode : Type := CAN_Node_EEStream_Read | CAN_Node_EEStream_Write.

#[export] Instance OpenMode_eq_dec : EqDecision CAN_Node_EEStream_OpenMode.
Proof. solve_decision. Defined.

Record CAN_Node_EEStream : Type := EEStream { open_mode : CAN_Node_EEStream_OpenMode; offset : Z }.

(** ** Operations *)

Section Operations.
Context {HW : Hardware}.

Definition CAN_Node_EEStream_open (mode : CAN_Node_EEStream_OpenMode) : prog machine CAN_Node_EEStream :=
  let stream := EEStream mode 0 in
  when (bool_decide (mode = CAN_Node_EEStream_Write)) (FLASH_Unlock FLASH_MEMTYPE_DATA) ;;
  ret stream.

Definition CAN_Node_EEStream_close (stream : CAN_Node_EEStream) : prog machine unit :=
  when (bool_decide (open_mode stream = CAN_Node_EEStream_Write)) (FLASH_Lock FLASH_MEMTYPE_DATA) ;;
  FLASH_DeInit.

(** The byte at the offset, and the stream after [offset++]. *)
Definition CAN_Node_EEStream_read_byte (stream : CAN_Node_EEStream) : prog machine (Z * CAN_Node_EEStream) :=
  let! v := FLASH_ReadByte (u32 (FLASH_DATA_START_PHYSICAL_ADDRESS + offset stream)) in
  ret (v, EEStream (open_mode stream) (u16 (offset stream + 1))).

Definition CAN_Node_EEStream_write_byte (stream : CAN_Node_EEStream) (byte : Z) : prog machine CAN_Node_EEStream :=
  FLASH_ProgramByte (u32 (FLASH_DATA_START_PHYSICAL_ADDRESS + offset stream)) byte ;;
  ret (EEStream (open_mode stream) (u16 (offset stream + 1))).
End Operations.

(** ** The tape *)

Definition tape_size : nat := 2048.

Definition tape_cell (k : nat) : Z := FLASH_DATA_START_PHYSICAL_ADDRESS + Z.of_nat k.

Lemma tape_cell_eeprom k : (k < tape_size)%nat -> eeprom (tape_cell k).
Proof.
  unfold tape_size, tape_cell, eeprom, FLASH_DATA_START_PHYSICAL_ADDRESS, FLASH_DATA_END_PHYSICAL_ADDRESS. lia.
Qed.

Lemma tape_cell_small k : (k <= tape_size)%nat ->
  u32 (FLASH_DATA_START_PHYSICAL_ADDRESS + Z.of_nat k) = tape_cell k /\ u16 (Z.of_nat k + 1) = Z.of_nat (S k).
Proof.
  unfold tape_size, tape_cell, FLASH_DATA_START_PHYSICAL_ADDRESS. intros Hk. split.
  - apply u32_small. unfold is_u32. lia.
  - rewrite u16_small by (unfold is_u16; lia). lia.
Qed.

Section Tape.
Context {HW : Hardware}.

(** The tape holds [l] from position [o] on. *)
Definition tape (o : nat) (l : list Z) (m : mem) : Prop :=
  forall k b, l !! k = Some b -> m (tape_cell (o + k)) = b.

Definition written (st : CAN_Node_EEStream) (l : list Z) (s : machine) : Prop :=
  open_mode st = CAN_Node_EEStream_Write /\ offset st = Z.of_nat (length l) /\
  unlocked (cells s) = true /\ tape 0 l (cells s).

Definition reading (st : CAN_Node_EEStream) (l : list Z) (s : machine) : Prop :=
  open_mode st = CAN_Node_EEStream_Read /\
  exists o, offset st = Z.of_nat o /\ (o + length l <= tape_size)%nat /\
            Forall is_u8 l /\ tape o l (cells s).

(** The cells of the data memory. *)
Definition eeprom_byte (d : Z) : Prop := eeprom d.
End Tape.

Section Rules.
Context {HW : Hardware} {FL : FlashLaws HW} {E : fault -> machine -> Prop}.

Lemma tape_keeps P o l s s' :
  (forall d, eeprom d -> ~ P d) -> (o + length l <= tape_size)%nat ->
  keeps P s s' -> tape o l (cells s) -> tape o l (cells s').
Proof using FL.
  intros HP Hlen [Hk _] Ht k b Hkb. apply lookup_lt_Some in Hkb as Hlt.
  assert (eeprom (tape_cell (o + k))) as He by (apply tape_cell_eeprom; lia).
  rewrite Hk; [by apply Ht|by apply eeprom_stable|by apply HP].
Qed.

(** Work elsewhere on the machine leaves a stream being read as it is. *)
Lemma reading_keeps P st l s s' :
  (forall d, eeprom d -> ~ P d) -> keeps P s s' -> reading st l s -> reading st l s'.
Proof using FL.
  intros HP Hk (Hm & o & Ho & Hlen & Hl & Ht). split; [done|]. exists o.
  split; [done|]. split; [done|]. split; [done|]. by eapply tape_keeps.
Qed.

Lemma EEStream_open_write_wp (Q : CAN_Node_EEStream -> machine -> Prop) s :
  (forall st s', written st [] s' -> keeps flash_reg s s' -> Q st s') ->
  wp E (CAN_Node_EEStream_open CAN_Node_EEStream_Write) Q s.
Proof using FL.
  intros HQ. unfold CAN_Node_EEStream_open. simpl. apply wp_bind, FLASH_Unlock_data_wp.
  intros s' Hu Hk. apply wp_ret, HQ; [|done]. by repeat split.
Qed.

Lemma EEStream_open_read_wp (Q : CAN_Node_EEStream -> machine -> Prop) l s :
  Forall is_u8 l -> (length l <= tape_size)%nat -> tape 0 l (cells s) ->
  (forall st, reading st l s -> Q st s) ->
  wp E (CAN_Node_EEStream_open CAN_Node_EEStream_Read) Q s.
Proof using FL.
  intros Hl Hlen Ht HQ. unfold CAN_Node_EEStream_open. simpl. apply wp_bind, wp_ret, wp_ret, HQ.
  split; [done|]. by exists 0%nat.
Qed.

(** Writing a byte appends it to the tape. *)
Lemma EEStream_write_wp st l b (Q : CAN_Node_EEStream -> machine -> Prop) s :
  written st l s -> (length l < tape_size)%nat -> is_u8 b ->
  (forall st' s', written st' (l ++ [b]) s' -> keeps eeprom s s' -> Q st' s') ->
  wp E (CAN_Node_EEStream_write_byte st b) Q s.
Proof using FL.
  intros (Hm & Ho & Hu & Ht) Hlen Hb HQ. unfold CAN_Node_EEStream_write_byte. rewrite Ho.
  destruct (tape_cell_small (length l)) as [-> ->]; [lia|].
  assert (eeprom (tape_cell (length l))) as He by by apply tape_cell_eeprom.
  apply wp_bind, FLASH_ProgramByte_wp; [done|done|]. intros s' Hc Hu' Hk.
  apply wp_ret, HQ.
  - split; [done|]. rewrite length_app. split; [simpl; lia|]. split; [done|].
    intros k c Hkc. apply lookup_app_Some in Hkc as [Hkc | [Hge Hkc]].
    + apply lookup_lt_Some in Hkc as Hlt. destruct Hk as [Hk _]. rewrite Hk.
      * by apply Ht.
      * apply eeprom_stable, tape_cell_eeprom. simpl. lia.
      * unfold tape_cell. lia.
    + apply list_lookup_singleton_Some in Hkc as [Hz ->].
      replace (0 + k)%nat with (length l) by lia. rewrite Hc. by apply u8_small.
  - eapply keeps_weaken; [done|]. by intros d <-.
Qed.

(** Reading takes the next byte of the tape. *)
Lemma EEStream_read_wp st b l (Q : Z * CAN_Node_EEStream -> machine -> Prop) s :
  reading st (b :: l) s ->
  (forall st' s', reading st' l s' -> keeps (fun _ => False) s s' -> Q (b, st') s') ->
  wp E (CAN_Node_EEStream_read_byte st) Q s.
Proof using FL.
  intros (Hm & o & Ho & Hlen & Hl & Ht) HQ. unfold CAN_Node_EEStream_read_byte. rewrite Ho.
  simpl in Hlen. destruct (tape_cell_small o) as [-> ->]; [lia|].
  apply Forall_cons_1 in Hl as [Hb Hl].
  apply wp_bind, FLASH_ReadByte_wp; [apply tape_cell_eeprom; lia|]. intros s' Hk _.
  pose proof (Ht 0%nat b eq_refl) as H0. rewrite Nat.add_0_r in H0. rewrite H0, u8_small by done.
  apply wp_ret, HQ; [|done]. split; [done|]. exists (S o). split; [done|]. split; [lia|].
  split; [done|]. eapply (tape_keeps (fun _ => False)); [by intros ? _ []|lia|done|].
  intros k c Hkc. specialize (Ht (S k) c Hkc). by rewrite Nat.add_succ_r in Ht.
Qed.
End Rules.

(** ** Without the laws *)

Section Safety.
Context {HW : Hardware}.

(** The stream never changes anything but the flash registers and the byte at
    its 16-bit address. *)
Definition flash_cell (d : Z) : Prop := flash_reg d \/ FLASH_DATA_START_PHYSICAL_ADDRESS <= d.

Lemma touches_EEStream_open mode : touches flash_reg (CAN_Node_EEStream_open mode).
Proof. unfold CAN_Node_EEStream_open. touch. Qed.

Lemma touches_EEStream_close st : touches flash_reg (CAN_Node_EEStream_close st).
Proof. unfold CAN_Node_EEStream_close. touch. Qed.

Lemma touches_EEStream_read st : touches flash_reg (CAN_Node_EEStream_read_byte st).
Proof. unfold CAN_Node_EEStream_read_byte, FLASH_ReadByte, read_byte_address. touch. Qed.

(** A program that returns whatever the hardware does. *)
Lemma EEStream_write_returns st b (s : machine) :
  exists st' s', CAN_Node_EEStream_write_byte st b s = Ok st' s' /\ rx s' = rx s.
Proof. unfold CAN_Node_EEStream_write_byte, bind, FLASH_ProgramByte, write_byte_address, store. simpl. eauto. Qed.
End Safety.

(** ** Taking bytes

    [reads n I]: from [I l st s], [l] being the bytes taken so far, a read takes
    one more byte, as long as [l] is shorter than [n]. *)
Section Reads.
Context {HW : Hardware}.

Definition reads (n : nat) (I : list Z -> CAN_Node_EEStream -> machine -> Prop) : Prop :=
  forall E l st (Q : Z * CAN_Node_EEStream -> machine -> Prop) s,
    (length l < n)%nat -> I l st s ->
    (forall b st' s', is_u8 b -> I (l ++ [b]) st' s' -> Q (b, st') s') ->
    wp E (CAN_Node_EEStream_read_byte st) Q s.

(** Whatever the tape holds, bytes come. *)
Definition any_bytes (s0 : machine) (l : list Z) (st : CAN_Node_EEStream) (s : machine) : Prop :=
  keeps (fun _ => False) s0 s.

Lemma reads_any n s0 : reads n (any_bytes s0).
Proof.
  intros E l st Q s _ HI HQ. unfold CAN_Node_EEStream_read_byte, FLASH_ReadByte, read_byte_address.
  apply wp_bind, wp_load_any. intros v s' Hv K R. apply wp_ret, HQ; [done|].
  apply (keeps_trans _ _ s); [done|]. by split; [intros d Hd _; apply K|].
Qed.

(** A stream with the bytes of [all] to come. *)
Definition tape_bytes (all : list Z) (s0 : machine) (l : list Z) (st : CAN_Node_EEStream) (s : machine) : Prop :=
  l = take (length l) all /\ reading st (drop (length l) all) s /\ keeps (fun _ => False) s0 s.

Lemma reads_tape {FL : FlashLaws HW} n all s0 : (n <= length all)%nat -> reads n (tape_bytes all s0).
Proof.
  intros Hn E l st Q s Hl (Heq & Hr & Hk) HQ.
  destruct (lookup_lt_is_Some_2 all (length l)) as [b Hb]; [lia|].
  rewrite (drop_S _ b) in Hr by done. eapply EEStream_read_wp; [exact Hr|]. intros st' s' Hr' Hk'.
  apply HQ.
  - destruct Hr as (_ & o & _ & _ & Hu & _). by apply Forall_cons_1 in Hu as [? _].
  - unfold tape_bytes. rewrite length_app. cbn [length]. rewrite Nat.add_1_r. split; [|split].
    + erewrite take_S_r by done. by rewrite <- Heq.
    + done.
    + by apply (keeps_trans _ _ s).
Qed.

Lemma tape_bytes_start st l s : reading st l s -> tape_bytes l s [] st s.
Proof. intros Hr. split; [done|]. split; [by rewrite drop_0|apply keeps_refl]. Qed.

Lemma any_bytes_start st s : any_bytes s [] st s.
Proof. apply keeps_refl. Qed.
End Reads.

#[export] Hint Resolve touches_EEStream_open touches_EEStream_close touches_EEStream_read : touches.
