(* ===== verification/Wwdg.v ===== *)
(** The window watchdog driver, [firmware/stm8/libstm8s/src/stm8s_wwdg.c]. *)

From S2P Require Import Prelude Monad Machine.

Definition WWDG_BaseAddress : Z := 0x50D1.
Definition WWDG_CR : Z := WWDG_BaseAddress + 0.
Definition WWDG_WR : Z := WWDG_BaseAddress + 1.
Definition WWDG_WR_RESET_VALUE : Z := 0x7F.
Definition WWDG_CR_WDGA : Z := 0x80.
Definition WWDG_CR_T6 : Z := 0x40.
Definition BIT_MASK : Z := 0x7F.

Section Driver.
Context {HW : Hardware}.

Definition WWDG_Init (Counter WindowValue : Z) : prog machine unit :=
  store WWDG_WR WWDG_WR_RESET_VALUE ;;
  store WWDG_CR (Z.lor (u8 (Z.lor WWDG_CR_WDGA WWDG_CR_T6)) (u8 Counter)) ;;
  store WWDG_WR (Z.land (u8 (Z.lnot WWDG_CR_WDGA)) (u8 (Z.lor WWDG_CR_T6 WindowValue))).

Definition WWDG_SetCounter (Counter : Z) : prog machine unit :=
  store WWDG_CR (Z.land Counter BIT_MASK).

Definition WWDG_GetCounter : prog machine Z := load WWDG_CR.

(** Activating the watchdog with T6 clear resets the device: on the board the
    program restarts here; the model lets the caller go on, so what it proves
    of the caller holds with or without the restart. *)
Definition WWDG_SWReset : prog machine unit := store WWDG_CR WWDG_CR_WDGA.

Definition WWDG_SetWindowValue (WindowValue : Z) : prog machine unit :=
  store WWDG_WR (Z.land (u8 (Z.lnot WWDG_CR_WDGA)) (u8 (Z.lor WWDG_CR_T6 WindowValue))).

Definition wwdg_reg (a : Z) : Prop := WWDG_CR <= a <= WWDG_WR.

Lemma touches_WWDG_SWReset : touches wwdg_reg WWDG_SWReset.
Proof. apply touches_store; [done|]. unfold wwdg_reg, WWDG_CR, WWDG_WR. lia. Qed.
End Driver.

#[export] Hint Resolve touches_WWDG_SWReset : touches.
