(* ===== verification/Adc2.v ===== *)
(** The ADC2 driver, [firmware/stm8/libstm8s/src/stm8s_adc2.c]. *)

From S2P Require Import Prelude Monad Machine Gpio.

(** ** Registers of [ADC2_TypeDef] *)

Definition ADC2_BaseAddress : Z := 0x5400.
Definition ADC2_CSR : Z := ADC2_BaseAddress + 0.
Definition ADC2_CR1 : Z := ADC2_BaseAddress + 1.
Definition ADC2_CR2 : Z := ADC2_BaseAddress + 2.
Definition ADC2_DRH : Z := ADC2_BaseAddress + 4.
Definition ADC2_DRL : Z := ADC2_BaseAddress + 5.
Definition ADC2_TDRH : Z := ADC2_BaseAddress + 6.
Definition ADC2_TDRL : Z := ADC2_BaseAddress + 7.

Definition ADC2_CSR_RESET_VALUE : Z := 0x00.
Definition ADC2_CR1_RESET_VALUE : Z := 0x00.
Definition ADC2_CR2_RESET_VALUE : Z := 0x00.
Definition ADC2_TDRL_RESET_VALUE : Z := 0x00.
Definition ADC2_TDRH_RESET_VALUE : Z := 0x00.

Definition ADC2_CSR_EOC : Z := 0x80.
Definition ADC2_CSR_EOCIE : Z := 0x20.
Definition ADC2_CSR_CH : Z := 0x0F.
Definition ADC2_CR1_SPSEL : Z := 0x70.
Definition ADC2_CR1_CONT : Z := 0x02.
Definition ADC2_CR1_ADON : Z := 0x01.
Definition ADC2_CR2_EXTTRIG : Z := 0x40.
Definition ADC2_CR2_EXTSEL : Z := 0x30.
Definition ADC2_CR2_ALIGN : Z := 0x08.

Definition ADC2_PRESSEL_FCPU_D2 : Z := 0x00.
Definition ADC2_EXTTRIG_TIM : Z := 0x00.
Definition ADC2_EXTTRIG_GPIO : Z := 0x01.
Definition ADC2_ALIGN_LEFT : Z := 0x00.
Definition ADC2_ALIGN_RIGHT : Z := 0x08.
Definition ADC2_SCHMITTTRIG_CHANNEL8 : Z := 0x08.
Definition ADC2_SCHMITTTRIG_ALL : Z := 0x1F.
Definition ADC2_CHANNEL_0 : Z := 0x00.
Definition ADC2_CHANNEL_1 : Z := 0x01.
Definition ADC2_CHANNEL_2 : Z := 0x02.
Definition ADC2_CHANNEL_3 : Z := 0x03.

Inductive ADC2_ConvMode_TypeDef : Type := ADC2_CONVERSIONMODE_SINGLE | ADC2_CONVERSIONMODE_CONTINUOUS.

(** ** The driver *)

Section Driver.
Context {HW : Hardware}.

Definition ADC2_DeInit : prog machine unit :=
  store ADC2_CSR ADC2_CSR_RESET_VALUE ;;
  store ADC2_CR1 ADC2_CR1_RESET_VALUE ;;
  store ADC2_CR2 ADC2_CR2_RESET_VALUE ;;
  store ADC2_TDRH ADC2_TDRH_RESET_VALUE ;;
  store ADC2_TDRL ADC2_TDRL_RESET_VALUE.

Definition ADC2_Cmd (NewState : FunctionalState) : prog machine unit :=
  match NewState with
  | ENABLE => or_reg ADC2_CR1 ADC2_CR1_ADON
  | DISABLE => and_reg ADC2_CR1 (u8 (Z.lnot ADC2_CR1_ADON))
  end.

Definition ADC2_ITConfig (NewState : FunctionalState) : prog machine unit :=
  match NewState with
  | ENABLE => or_reg ADC2_CSR (u8 ADC2_CSR_EOCIE)
  | DISABLE => and_reg ADC2_CSR (u8 (Z.lnot ADC2_CSR_EOCIE))
  end.

Definition ADC2_PrescalerConfig (ADC2_Prescaler : Z) : prog machine unit :=
  and_reg ADC2_CR1 (u8 (Z.lnot ADC2_CR1_SPSEL)) ;;
  or_reg ADC2_CR1 (u8 ADC2_Prescaler).

Definition ADC2_SchmittTriggerConfig (ADC2_SchmittTriggerChannel : Z)
    (NewState : FunctionalState) : prog machine unit :=
  if ADC2_SchmittTriggerChannel =? ADC2_SCHMITTTRIG_ALL then
    match NewState with
    | ENABLE => and_reg ADC2_TDRL 0x0 ;; and_reg ADC2_TDRH 0x0
    | DISABLE => or_reg ADC2_TDRL 0xFF ;; or_reg ADC2_TDRH 0xFF
    end
  else if ADC2_SchmittTriggerChannel <? ADC2_SCHMITTTRIG_CHANNEL8 then
    match NewState with
    | ENABLE => and_reg ADC2_TDRL (u8 (Z.lnot (u8 (Z.shiftl 1 ADC2_SchmittTriggerChannel))))
    | DISABLE => or_reg ADC2_TDRL (u8 (Z.shiftl 1 ADC2_SchmittTriggerChannel))
    end
  else
    match NewState with
    | ENABLE => and_reg ADC2_TDRH (u8 (Z.lnot (u8 (Z.shiftl 1 (ADC2_SchmittTriggerChannel - 8)))))
    | DISABLE => or_reg ADC2_TDRH (u8 (Z.shiftl 1 (ADC2_SchmittTriggerChannel - 8)))
    end.

Definition ADC2_ConversionConfig (ADC2_ConversionMode : ADC2_ConvMode_TypeDef)
    (ADC2_Channel ADC2_Align : Z) : prog machine unit :=
  and_reg ADC2_CR2 (u8 (Z.lnot ADC2_CR2_ALIGN)) ;;
  or_reg ADC2_CR2 (u8 ADC2_Align) ;;
  match ADC2_ConversionMode with
  | ADC2_CONVERSIONMODE_CONTINUOUS => or_reg ADC2_CR1 ADC2_CR1_CONT
  | ADC2_CONVERSIONMODE_SINGLE => and_reg ADC2_CR1 (u8 (Z.lnot ADC2_CR1_CONT))
  end ;;
  and_reg ADC2_CSR (u8 (Z.lnot ADC2_CSR_CH)) ;;
  or_reg ADC2_CSR (u8 ADC2_Channel).

Definition ADC2_ExternalTriggerConfig (ADC2_ExtTrigger : Z) (NewState : FunctionalState) : prog machine unit :=
  and_reg ADC2_CR2 (u8 (Z.lnot ADC2_CR2_EXTSEL)) ;;
  match NewState with
  | ENABLE => or_reg ADC2_CR2 (u8 ADC2_CR2_EXTTRIG)
  | DISABLE => and_reg ADC2_CR2 (u8 (Z.lnot ADC2_CR2_EXTTRIG))
  end ;;
  or_reg ADC2_CR2 (u8 ADC2_ExtTrigger).

Definition ADC2_Init (ADC2_ConversionMode : ADC2_ConvMode_TypeDef)
    (ADC2_Channel ADC2_PrescalerSelection ADC2_ExtTrigger : Z) (ADC2_ExtTriggerState : FunctionalState)
    (ADC2_Align ADC2_SchmittTriggerChannel : Z) (ADC2_SchmittTriggerState : FunctionalState) : prog machine unit :=
  ADC2_ConversionConfig ADC2_ConversionMode ADC2_Channel ADC2_Align ;;
  ADC2_PrescalerConfig ADC2_PrescalerSelection ;;
  ADC2_ExternalTriggerConfig ADC2_ExtTrigger ADC2_ExtTriggerState ;;
  ADC2_SchmittTriggerConfig ADC2_SchmittTriggerChannel ADC2_SchmittTriggerState ;;
  or_reg ADC2_CR1 ADC2_CR1_ADON.

Definition ADC2_StartConversion : prog machine unit := or_reg ADC2_CR1 ADC2_CR1_ADON.

Definition ADC2_GetConversionValue : prog machine Z :=
  let! cr2 := load ADC2_CR2 in
  if negb (Z.land cr2 ADC2_CR2_ALIGN =? 0) then
    let! templ := load ADC2_DRL in
    let! temph := load ADC2_DRH in
    ret (u16 (Z.lor templ (u16 (Z.shiftl temph 8))))
  else
    let! temph := load ADC2_DRH in
    let! templ := load ADC2_DRL in
    ret (u16 (Z.lor (u16 (Z.shiftl templ 6)) (u16 (Z.shiftl temph 8)))).

(** The flag as the code returns it: the masked byte. *)
Definition ADC2_GetFlagStatus : prog machine Z :=
  let! v := load ADC2_CSR in ret (Z.land v ADC2_CSR_EOC).

Definition ADC2_ClearFlag : prog machine unit := and_reg ADC2_CSR (u8 (Z.lnot ADC2_CSR_EOC)).

Definition ADC2_GetITStatus : prog machine Z :=
  let! v := load ADC2_CSR in ret (Z.land v ADC2_CSR_EOC).

Definition ADC2_ClearITPendingBit : prog machine unit :=
  and_reg ADC2_CSR (u8 (Z.lnot ADC2_CSR_EOC)).
End Driver.

(** ** Lemmas *)

Definition adc2_reg (a : Z) : Prop := ADC2_BaseAddress <= a <= ADC2_BaseAddress + 7.

Section Lemmas.
Context {HW : Hardware} {E : fault -> machine -> Prop}.

Lemma touches_adc2_store k v : 0 <= k <= 7 -> touches adc2_reg (store (ADC2_BaseAddress + k) v).
Proof.
  intros Hk. apply touches_store; unfold adc2_reg, ADC2_BaseAddress, in_can_page, CAN_Page, CAN_BaseAddress;
    [cmp; done|lia].
Qed.

Ltac adc := unfold or_reg, and_reg; touch; (apply touches_adc2_store; lia).

Lemma touches_ADC2_DeInit : touches adc2_reg ADC2_DeInit.
Proof. unfold ADC2_DeInit. adc. Qed.

Lemma touches_ADC2_Cmd b : touches adc2_reg (ADC2_Cmd b).
Proof. unfold ADC2_Cmd. adc. Qed.

Lemma touches_ADC2_PrescalerConfig p : touches adc2_reg (ADC2_PrescalerConfig p).
Proof. unfold ADC2_PrescalerConfig. adc. Qed.

Lemma touches_ADC2_SchmittTriggerConfig c b : touches adc2_reg (ADC2_SchmittTriggerConfig c b).
Proof. unfold ADC2_SchmittTriggerConfig. adc. Qed.

Lemma touches_ADC2_ConversionConfig m c a : touches adc2_reg (ADC2_ConversionConfig m c a).
Proof. unfold ADC2_ConversionConfig. adc. Qed.

Lemma touches_ADC2_ExternalTriggerConfig t b : touches adc2_reg (ADC2_ExternalTriggerConfig t b).
Proof. unfold ADC2_ExternalTriggerConfig. adc. Qed.

Lemma touches_ADC2_StartConversion : touches adc2_reg ADC2_StartConversion.
Proof. unfold ADC2_StartConversion. adc. Qed.

Lemma touches_ADC2_GetConversionValue : touches adc2_reg ADC2_GetConversionValue.
Proof. unfold ADC2_GetConversionValue. touch. Qed.

Lemma touches_ADC2_ClearFlag : touches adc2_reg ADC2_ClearFlag.
Proof. unfold ADC2_ClearFlag. adc. Qed.
End Lemmas.

#[export] Hint Resolve touches_ADC2_DeInit touches_ADC2_Cmd touches_ADC2_PrescalerConfig
  touches_ADC2_SchmittTriggerConfig touches_ADC2_ConversionConfig touches_ADC2_ExternalTriggerConfig
  touches_ADC2_StartConversion touches_ADC2_GetConversionValue touches_ADC2_ClearFlag : touches.

Section Init.
Context {HW : Hardware}.

Lemma touches_ADC2_Init m c p t ts a sc ss : touches adc2_reg (ADC2_Init m c p t ts a sc ss).
Proof. unfold ADC2_Init, or_reg. touch. Qed.
End Init.

#[export] Hint Resolve touches_ADC2_Init : touches.
