(* ===== verification/Clk.v ===== *)
(** The clock driver, [firmware/stm8/libstm8s/src/stm8s_clk.c]. *)

From S2P Require Import Prelude Monad Machine Gpio.

(** ** Registers of [CLK_TypeDef] *)

Definition CLK_BaseAddress : Z := 0x50C0.
Definition CLK_ICKR : Z := CLK_BaseAddress + 0.
Definition CLK_ECKR : Z := CLK_BaseAddress + 1.
Definition CLK_CMSR : Z := CLK_BaseAddress + 3.
Definition CLK_SWR : Z := CLK_BaseAddress + 4.
Definition CLK_SWCR : Z := CLK_BaseAddress + 5.
Definition CLK_CKDIVR : Z := CLK_BaseAddress + 6.
Definition CLK_PCKENR1 : Z := CLK_BaseAddress + 7.
Definition CLK_CSSR : Z := CLK_BaseAddress + 8.
Definition CLK_CCOR : Z := CLK_BaseAddress + 9.
Definition CLK_PCKENR2 : Z := CLK_BaseAddress + 10.
Definition CLK_HSITRIMR : Z := CLK_BaseAddress + 12.
Definition CLK_SWIMCCR : Z := CLK_BaseAddress + 13.

Definition CLK_ICKR_SWUAH : Z := 0x20.
Definition CLK_ICKR_LSIEN : Z := 0x08.
Definition CLK_ICKR_FHWU : Z := 0x04.
Definition CLK_ICKR_HSIEN : Z := 0x01.
Definition CLK_ECKR_HSEEN : Z := 0x01.
Definition CLK_SWCR_SWIF : Z := 0x08.
Definition CLK_SWCR_SWIEN : Z := 0x04.
Definition CLK_SWCR_SWEN : Z := 0x02.
Definition CLK_SWCR_SWBSY : Z := 0x01.
Definition CLK_CKDIVR_HSIDIV : Z := 0x18.
Definition CLK_CKDIVR_CPUDIV : Z := 0x07.
Definition CLK_CSSR_CSSD : Z := 0x08.
Definition CLK_CSSR_CSSDIE : Z := 0x04.
Definition CLK_CSSR_CSSEN : Z := 0x01.
Definition CLK_CCOR_CCOSEL : Z := 0x1E.
Definition CLK_CCOR_CCOEN : Z := 0x01.
Definition CLK_HSITRIMR_HSITRIM : Z := 0x07.
Definition CLK_SWIMCCR_SWIMDIV : Z := 0x01.
Definition CLK_TIMEOUT : Z := 0xFFFF.

Definition CLK_SOURCE_HSI : Z := 0xE1.
Definition CLK_SOURCE_LSI : Z := 0xD2.
Definition CLK_SOURCE_HSE : Z := 0xB4.
Definition CLK_PRESCALER_HSIDIV2 : Z := 0x08.
Definition CLK_PERIPHERAL_SPI : Z := 0x01.
Definition CLK_PERIPHERAL_UART1 : Z := 0x02.
Definition CLK_PERIPHERAL_UART2 : Z := 0x03.
Definition CLK_PERIPHERAL_UART3 : Z := 0x03.
Definition CLK_SWIMDIVIDER_2 : Z := 0x00.

Inductive CLK_SwitchMode_TypeDef : Type := CLK_SWITCHMODE_MANUAL | CLK_SWITCHMODE_AUTO.
Inductive CLK_CurrentClockState_TypeDef : Type := CLK_CURRENTCLOCKSTATE_DISABLE | CLK_CURRENTCLOCKSTATE_ENABLE.
Inductive ErrorStatus : Type := ERROR | SUCCESS.
Inductive CLK_IT_TypeDef : Type := CLK_IT_CSSD | CLK_IT_SWIF.
Definition CLK_IT_value (it : CLK_IT_TypeDef) : Z :=
  match it with CLK_IT_CSSD => 0x0C | CLK_IT_SWIF => 0x1C end.

#[export] Instance ErrorStatus_eq_dec : EqDecision ErrorStatus.
Proof. solve_decision. Defined.

Definition CLK_ICKR_RESET_VALUE : Z := 0x01.
Definition CLK_ECKR_RESET_VALUE : Z := 0x00.
Definition CLK_SWR_RESET_VALUE : Z := 0xE1.
Definition CLK_SWCR_RESET_VALUE : Z := 0x00.
Definition CLK_CKDIVR_RESET_VALUE : Z := 0x18.
Definition CLK_PCKENR1_RESET_VALUE : Z := 0xFF.
Definition CLK_PCKENR2_RESET_VALUE : Z := 0xFF.
Definition CLK_CSSR_RESET_VALUE : Z := 0x00.
Definition CLK_CCOR_RESET_VALUE : Z := 0x00.
Definition CLK_HSITRIMR_RESET_VALUE : Z := 0x00.
Definition CLK_SWIMCCR_RESET_VALUE : Z := 0x00.

(** Values given by the build: [-DHSE_VALUE=8000000]. *)
Definition HSI_VALUE : Z := 16000000.
Definition LSI_VALUE : Z := 128000.
Definition HSE_VALUE : Z := 8000000.
Definition HSIDivFactor : list Z := [1; 2; 4; 8].

(** ** The driver *)

Section Driver.
Context {HW : Hardware}.

(** A loop that counts [timeout] down while a bit of [mask] shows at [a]: the rest of the
    timeout, zero when it ran out. *)
Fixpoint wait_clear (a mask : Z) (timeout : nat) : prog machine Z :=
  let! v := load a in
  if negb (Z.land v mask =? 0)
  then match timeout with O => ret 0 | S n => wait_clear a mask n end
  else ret (Z.of_nat timeout).

(** [fuel] polls of the busy wait for the clock output to stop. *)
Definition CLK_DeInit (fuel : nat) : prog machine unit :=
  store CLK_ICKR CLK_ICKR_RESET_VALUE ;;
  store CLK_ECKR CLK_ECKR_RESET_VALUE ;;
  store CLK_SWR CLK_SWR_RESET_VALUE ;;
  store CLK_SWCR CLK_SWCR_RESET_VALUE ;;
  store CLK_CKDIVR CLK_CKDIVR_RESET_VALUE ;;
  store CLK_PCKENR1 CLK_PCKENR1_RESET_VALUE ;;
  store CLK_PCKENR2 CLK_PCKENR2_RESET_VALUE ;;
  store CLK_CSSR CLK_CSSR_RESET_VALUE ;;
  store CLK_CCOR CLK_CCOR_RESET_VALUE ;;
  while fuel (let! v := load CLK_CCOR in ret (negb (Z.land v CLK_CCOR_CCOEN =? 0))) (ret tt) ;;
  store CLK_CCOR CLK_CCOR_RESET_VALUE ;;
  store CLK_HSITRIMR CLK_HSITRIMR_RESET_VALUE ;;
  store CLK_SWIMCCR CLK_SWIMCCR_RESET_VALUE.

Definition CLK_FastHaltWakeUpCmd (NewState : FunctionalState) : prog machine unit :=
  match NewState with
  | ENABLE => or_reg CLK_ICKR CLK_ICKR_FHWU
  | DISABLE => and_reg CLK_ICKR (u8 (Z.lnot CLK_ICKR_FHWU))
  end.

Definition CLK_HSECmd (NewState : FunctionalState) : prog machine unit :=
  match NewState with
  | ENABLE => or_reg CLK_ECKR CLK_ECKR_HSEEN
  | DISABLE => and_reg CLK_ECKR (u8 (Z.lnot CLK_ECKR_HSEEN))
  end.

Definition CLK_HSICmd (NewState : FunctionalState) : prog machine unit :=
  match NewState with
  | ENABLE => or_reg CLK_ICKR CLK_ICKR_HSIEN
  | DISABLE => and_reg CLK_ICKR (u8 (Z.lnot CLK_ICKR_HSIEN))
  end.

Definition CLK_LSICmd (NewState : FunctionalState) : prog machine unit :=
  match NewState with
  | ENABLE => or_reg CLK_ICKR CLK_ICKR_LSIEN
  | DISABLE => and_reg CLK_ICKR (u8 (Z.lnot CLK_ICKR_LSIEN))
  end.

Definition CLK_CCOCmd (NewState : FunctionalState) : prog machine unit :=
  match NewState with
  | ENABLE => or_reg CLK_CCOR CLK_CCOR_CCOEN
  | DISABLE => and_reg CLK_CCOR (u8 (Z.lnot CLK_CCOR_CCOEN))
  end.

Definition CLK_ClockSwitchCmd (NewState : FunctionalState) : prog machine unit :=
  match NewState with
  | ENABLE => or_reg CLK_SWCR CLK_SWCR_SWEN
  | DISABLE => and_reg CLK_SWCR (u8 (Z.lnot CLK_SWCR_SWEN))
  end.

Definition CLK_SlowActiveHaltWakeUpCmd (NewState : FunctionalState) : prog machine unit :=
  match NewState with
  | ENABLE => or_reg CLK_ICKR CLK_ICKR_SWUAH
  | DISABLE => and_reg CLK_ICKR (u8 (Z.lnot CLK_ICKR_SWUAH))
  end.

Definition CLK_PeripheralClockConfig (CLK_Peripheral : Z) (NewState : FunctionalState) : prog machine unit :=
  let mask := u8 (Z.shiftl 1 (Z.land (u8 CLK_Peripheral) 0x0F)) in
  let reg := if Z.land (u8 CLK_Peripheral) 0x10 =? 0x00 then CLK_PCKENR1 else CLK_PCKENR2 in
  match NewState with
  | ENABLE => or_reg reg mask
  | DISABLE => and_reg reg (u8 (Z.lnot mask))
  end.

Definition CLK_ClockSwitchConfig (CLK_SwitchMode : CLK_SwitchMode_TypeDef) (CLK_NewClock : Z)
    (ITState : FunctionalState) (CLK_CurrentClockState : CLK_CurrentClockState_TypeDef) : prog machine ErrorStatus :=
  let! clock_master := load CLK_CMSR in
  let set_interrupt := match ITState with
                       | ENABLE => or_reg CLK_SWCR CLK_SWCR_SWIEN
                       | DISABLE => and_reg CLK_SWCR (u8 (Z.lnot CLK_SWCR_SWIEN))
                       end in
  let! Swif :=
    match CLK_SwitchMode with
    | CLK_SWITCHMODE_AUTO =>
        or_reg CLK_SWCR CLK_SWCR_SWEN ;;
        set_interrupt ;;
        store CLK_SWR (u8 CLK_NewClock) ;;
        let! DownCounter := wait_clear CLK_SWCR CLK_SWCR_SWBSY (Z.to_nat CLK_TIMEOUT) in
        ret (if negb (DownCounter =? 0) then SUCCESS else ERROR)
    | CLK_SWITCHMODE_MANUAL =>
        set_interrupt ;;
        store CLK_SWR (u8 CLK_NewClock) ;;
        let! DownCounter := wait_clear CLK_SWCR CLK_SWCR_SWIF (Z.to_nat CLK_TIMEOUT) in
        if negb (DownCounter =? 0)
        then or_reg CLK_SWCR CLK_SWCR_SWEN ;; ret SUCCESS
        else ret ERROR
    end in
  match Swif, CLK_CurrentClockState with
  | SUCCESS, CLK_CURRENTCLOCKSTATE_DISABLE =>
      if clock_master =? CLK_SOURCE_HSI then and_reg CLK_ICKR (u8 (Z.lnot CLK_ICKR_HSIEN))
      else if clock_master =? CLK_SOURCE_LSI then and_reg CLK_ICKR (u8 (Z.lnot CLK_ICKR_LSIEN))
      else if clock_master =? CLK_SOURCE_HSE then and_reg CLK_ECKR (u8 (Z.lnot CLK_ECKR_HSEEN))
      else ret tt
  | _, _ => ret tt
  end ;;
  ret Swif.

Definition CLK_HSIPrescalerConfig (HSIPrescaler : Z) : prog machine unit :=
  and_reg CLK_CKDIVR (u8 (Z.lnot CLK_CKDIVR_HSIDIV)) ;;
  or_reg CLK_CKDIVR (u8 HSIPrescaler).

Definition CLK_CCOConfig (CLK_CCO : Z) : prog machine unit :=
  and_reg CLK_CCOR (u8 (Z.lnot CLK_CCOR_CCOSEL)) ;;
  or_reg CLK_CCOR (u8 CLK_CCO) ;;
  or_reg CLK_CCOR CLK_CCOR_CCOEN.

Definition CLK_ITConfig (CLK_IT : CLK_IT_TypeDef) (NewState : FunctionalState) : prog machine unit :=
  match NewState, CLK_IT with
  | ENABLE, CLK_IT_SWIF => or_reg CLK_SWCR CLK_SWCR_SWIEN
  | ENABLE, CLK_IT_CSSD => or_reg CLK_CSSR CLK_CSSR_CSSDIE
  | DISABLE, CLK_IT_SWIF => and_reg CLK_SWCR (u8 (Z.lnot CLK_SWCR_SWIEN))
  | DISABLE, CLK_IT_CSSD => and_reg CLK_CSSR (u8 (Z.lnot CLK_CSSR_CSSDIE))
  end.

Definition CLK_SYSCLKConfig (CLK_Prescaler : Z) : prog machine unit :=
  if Z.land (u8 CLK_Prescaler) 0x80 =? 0x00 then
    and_reg CLK_CKDIVR (u8 (Z.lnot CLK_CKDIVR_HSIDIV)) ;;
    or_reg CLK_CKDIVR (u8 (Z.land (u8 CLK_Prescaler) CLK_CKDIVR_HSIDIV))
  else
    and_reg CLK_CKDIVR (u8 (Z.lnot CLK_CKDIVR_CPUDIV)) ;;
    or_reg CLK_CKDIVR (u8 (Z.land (u8 CLK_Prescaler) CLK_CKDIVR_CPUDIV)).

Definition CLK_SWIMConfig (CLK_SWIMDivider : Z) : prog machine unit :=
  if negb (CLK_SWIMDivider =? CLK_SWIMDIVIDER_2)
  then or_reg CLK_SWIMCCR CLK_SWIMCCR_SWIMDIV
  else and_reg CLK_SWIMCCR (u8 (Z.lnot CLK_SWIMCCR_SWIMDIV)).

Definition CLK_ClockSecuritySystemEnable : prog machine unit := or_reg CLK_CSSR CLK_CSSR_CSSEN.

Definition CLK_GetSYSCLKSource : prog machine Z := load CLK_CMSR.

Definition CLK_GetClockFreq : prog machine Z :=
  let! clocksource := load CLK_CMSR in
  if clocksource =? CLK_SOURCE_HSI then
    let! v := load CLK_CKDIVR in
    let tmp := Z.shiftr (u8 (Z.land v CLK_CKDIVR_HSIDIV)) 3 in
    let! presc := at_index HSIDivFactor tmp in
    ret (HSI_VALUE / presc)
  else if clocksource =? CLK_SOURCE_LSI then ret LSI_VALUE
  else ret HSE_VALUE.

Definition CLK_AdjustHSICalibrationValue (CLK_HSICalibrationValue : Z) : prog machine unit :=
  let! v := load CLK_HSITRIMR in
  store CLK_HSITRIMR (Z.lor (u8 (Z.land v (u8 (Z.lnot CLK_HSITRIMR_HSITRIM)))) (u8 CLK_HSICalibrationValue)).

Definition CLK_SYSCLKEmergencyClear : prog machine unit :=
  and_reg CLK_SWCR (u8 (Z.lnot CLK_SWCR_SWBSY)).

Definition CLK_GetFlagStatus (CLK_FLAG : Z) : prog machine FlagStatus :=
  let statusreg := Z.land (u16 CLK_FLAG) 0xFF00 in
  let! tmpreg :=
    (if statusreg =? 0x0100 then load CLK_ICKR
     else if statusreg =? 0x0200 then load CLK_ECKR
     else if statusreg =? 0x0300 then load CLK_SWCR
     else if statusreg =? 0x0400 then load CLK_CSSR
     else load CLK_CCOR) in
  ret (if negb (Z.land tmpreg (u8 CLK_FLAG) =? 0) then SET else RESET).

Definition CLK_GetITStatus (CLK_IT : CLK_IT_TypeDef) : prog machine FlagStatus :=
  let! v := load (match CLK_IT with CLK_IT_SWIF => CLK_SWCR | CLK_IT_CSSD => CLK_CSSR end) in
  ret (if Z.land v (CLK_IT_value CLK_IT) =? 0x0C then SET else RESET).

Definition CLK_ClearITPendingBit (CLK_IT : CLK_IT_TypeDef) : prog machine unit :=
  match CLK_IT with
  | CLK_IT_CSSD => and_reg CLK_CSSR (u8 (Z.lnot CLK_CSSR_CSSD))
  | CLK_IT_SWIF => and_reg CLK_SWCR (u8 (Z.lnot CLK_SWCR_SWIF))
  end.
End Driver.

(** ** Lemmas *)

Definition clk_reg (a : Z) : Prop := CLK_BaseAddress <= a <= CLK_BaseAddress + 13.

Section Lemmas.
Context {HW : Hardware}.

Lemma touches_clk_store k v : 0 <= k <= 13 -> touches clk_reg (store (CLK_BaseAddress + k) v).
Proof.
  intros Hk. apply touches_store; unfold clk_reg, CLK_BaseAddress, in_can_page, CAN_Page, CAN_BaseAddress;
    [cmp; done|lia].
Qed.

Lemma touches_wait_clear P a mask n : touches P (wait_clear a mask n).
Proof. induction n as [|n IH]; simpl; touch; apply IH. Qed.

Ltac clk := unfold or_reg, and_reg; touch;
  first [apply touches_clk_store; lia | apply touches_wait_clear].

Lemma touches_CLK_HSECmd b : touches clk_reg (CLK_HSECmd b).
Proof. unfold CLK_HSECmd. clk. Qed.

Lemma touches_CLK_ClockSwitchConfig m c i st : touches clk_reg (CLK_ClockSwitchConfig m c i st).
Proof. unfold CLK_ClockSwitchConfig. clk. Qed.

Lemma touches_CLK_HSIPrescalerConfig p : touches clk_reg (CLK_HSIPrescalerConfig p).
Proof. unfold CLK_HSIPrescalerConfig. clk. Qed.

Lemma touches_CLK_PeripheralClockConfig p b : touches clk_reg (CLK_PeripheralClockConfig p b).
Proof.
  unfold CLK_PeripheralClockConfig. destruct (_ =? _); clk.
Qed.
End Lemmas.

#[export] Hint Resolve touches_CLK_HSECmd touches_CLK_ClockSwitchConfig touches_CLK_HSIPrescalerConfig
  touches_CLK_PeripheralClockConfig : touches.
