(* ===== verification/CanDrv.v ===== *)
(** The CAN driver, [firmware/stm8/libstm8s/src/stm8s_can.c].

    The received frame is fetched into the variables of the file ([can_rx] of
    [Machine.v]); every function that visits a page restores the page that was
    selected.  The rules and theorems about it are in [CanRules.v]. *)

From S2P Require Import Prelude Monad Machine Gpio.

(** ** Registers inside the pages of [CAN_TypeDef] *)

(** [TxMailbox], and [RxFIFO] with [MFMI] in the place of [MCSR] *)
Definition CAN_MCSR : Z := CAN_Page + 0.
Definition CAN_MFMI : Z := CAN_Page + 0.
Definition CAN_MDLCR : Z := CAN_Page + 1.
Definition CAN_MIDR1 : Z := CAN_Page + 2.
Definition CAN_MIDR2 : Z := CAN_Page + 3.
Definition CAN_MIDR3 : Z := CAN_Page + 4.
Definition CAN_MIDR4 : Z := CAN_Page + 5.
Definition CAN_MDAR1 : Z := CAN_Page + 6.
Definition CAN_MDAR2 : Z := CAN_Page + 7.
Definition CAN_MDAR3 : Z := CAN_Page + 8.
Definition CAN_MDAR4 : Z := CAN_Page + 9.
Definition CAN_MDAR5 : Z := CAN_Page + 10.
Definition CAN_MDAR6 : Z := CAN_Page + 11.
Definition CAN_MDAR7 : Z := CAN_Page + 12.
Definition CAN_MDAR8 : Z := CAN_Page + 13.
Definition CAN_MTSRL : Z := CAN_Page + 14.
Definition CAN_MTSRH : Z := CAN_Page + 15.

(** [Filter] *)
Definition CAN_FR01 : Z := CAN_Page + 0.
Definition CAN_FR02 : Z := CAN_Page + 1.
Definition CAN_FR03 : Z := CAN_Page + 2.
Definition CAN_FR04 : Z := CAN_Page + 3.
Definition CAN_FR05 : Z := CAN_Page + 4.
Definition CAN_FR06 : Z := CAN_Page + 5.
Definition CAN_FR07 : Z := CAN_Page + 6.
Definition CAN_FR08 : Z := CAN_Page + 7.
Definition CAN_FR09 : Z := CAN_Page + 8.
Definition CAN_FR10 : Z := CAN_Page + 9.
Definition CAN_FR11 : Z := CAN_Page + 10.
Definition CAN_FR12 : Z := CAN_Page + 11.
Definition CAN_FR13 : Z := CAN_Page + 12.
Definition CAN_FR14 : Z := CAN_Page + 13.
Definition CAN_FR15 : Z := CAN_Page + 14.
Definition CAN_FR16 : Z := CAN_Page + 15.

(** [Config] *)
Definition CAN_ESR : Z := CAN_Page + 0.
Definition CAN_EIER : Z := CAN_Page + 1.
Definition CAN_BTR1 : Z := CAN_Page + 4.
Definition CAN_BTR2 : Z := CAN_Page + 5.
Definition CAN_FMR1 : Z := CAN_Page + 8.
Definition CAN_FMR2 : Z := CAN_Page + 9.
Definition CAN_FCR1 : Z := CAN_Page + 10.
Definition CAN_FCR2 : Z := CAN_Page + 11.
Definition CAN_FCR3 : Z := CAN_Page + 12.

(** ** Constants *)

Definition CAN_MCR_INRQ : Z := 0x01.
Definition CAN_MCR_SLEEP : Z := 0x02.
Definition CAN_MCR_TTCM : Z := 0x80.
Definition CAN_MSR_INAK : Z := 0x01.
Definition CAN_MSR_SLAK : Z := 0x02.
Definition CAN_MSR_ERRI : Z := 0x04.
Definition CAN_MSR_WKUI : Z := 0x08.
Definition CAN_TSR_RQCP0 : Z := 0x01.
Definition CAN_TSR_RQCP1 : Z := 0x02.
Definition CAN_TSR_RQCP2 : Z := 0x04.
Definition CAN_TSR_RQCP012 : Z := 0x07.
Definition CAN_TSR_TXOK0 : Z := 0x10.
Definition CAN_TSR_TXOK1 : Z := 0x20.
Definition CAN_TSR_TXOK2 : Z := 0x40.
Definition CAN_TPR_TME0 : Z := 0x04.
Definition CAN_TPR_TME1 : Z := 0x08.
Definition CAN_TPR_TME2 : Z := 0x10.
Definition CAN_RFR_FMP01 : Z := 0x03.
Definition CAN_RFR_FULL : Z := 0x08.
Definition CAN_RFR_FOVR : Z := 0x10.
Definition CAN_RFR_RFOM : Z := 0x20.
Definition CAN_IER_TMEIE : Z := 0x01.
Definition CAN_IER_FMPIE : Z := 0x02.
Definition CAN_IER_FFIE : Z := 0x04.
Definition CAN_IER_FOVIE : Z := 0x08.
Definition CAN_IER_WKUIE : Z := 0x80.
Definition CAN_DGR_TXM2E : Z := 0x10.
Definition CAN_MCSR_TXRQ : Z := 0x01.
Definition CAN_MCSR_ABRQ : Z := 0x02.
Definition CAN_MDLCR_TGT : Z := 0x80.
Definition CAN_ESR_EWGF : Z := 0x01.
Definition CAN_ESR_EPVF : Z := 0x02.
Definition CAN_ESR_BOFF : Z := 0x04.
Definition CAN_ESR_LEC : Z := 0x70.
Definition CAN_EIER_EWGIE : Z := 0x01.
Definition CAN_EIER_EPVIE : Z := 0x02.
Definition CAN_EIER_BOFIE : Z := 0x04.
Definition CAN_EIER_LECIE : Z := 0x10.
Definition CAN_EIER_ERRIE : Z := 0x80.
Definition CAN_FCR1_FSC00 : Z := 0x02.
Definition CAN_FCR1_FSC01 : Z := 0x04.

Definition CAN_MCR_RESET_VALUE : Z := 0x02.
Definition CAN_MSR_RESET_VALUE : Z := 0x02.
Definition CAN_TSR_RESET_VALUE : Z := 0x00.
Definition CAN_RFR_RESET_VALUE : Z := 0x00.
Definition CAN_IER_RESET_VALUE : Z := 0x00.
Definition CAN_DGR_RESET_VALUE : Z := 0x0C.
Definition CAN_PSR_RESET_VALUE : Z := 0x00.
Definition CAN_ESR_RESET_VALUE : Z := 0x00.
Definition CAN_EIER_RESET_VALUE : Z := 0x00.
Definition CAN_BTR1_RESET_VALUE : Z := 0x40.
Definition CAN_BTR2_RESET_VALUE : Z := 0x23.
Definition CAN_FMR1_RESET_VALUE : Z := 0x00.
Definition CAN_FMR2_RESET_VALUE : Z := 0x00.
Definition CAN_FCR_RESET_VALUE : Z := 0x00.
Definition CAN_MDLC_RESET_VALUE : Z := 0x00.

Definition CAN_STDID_SIZE : Z := 0x07FF.
Definition CAN_EXTID_SIZE : Z := 0x1FFFFFFF.
Definition CAN_DLC_MAX : Z := 0x08.

Definition CAN_IDLIST_IDMASK_MASK : Z := 0x55.
Definition CAN_IDMASK_IDLIST_MASK : Z := 0xAA.
Definition CAN_MODE_MASK : Z := 0x03.
Definition CAN_ACKNOWLEDGE_TIMEOUT : Z := 0xFFFF.

(** [CAN_Page_TypeDef] *)
Definition CAN_Page_TxMailBox0 : Z := 0.
Definition CAN_Page_TxMailBox1 : Z := 1.
Definition CAN_Page_TxMailBox2 : Z := 5.
Definition CAN_Page_Filter01 : Z := 2.
Definition CAN_Page_Filter23 : Z := 3.
Definition CAN_Page_Filter45 : Z := 4.
Definition CAN_Page_Config : Z := 6.
Definition CAN_Page_RxFifo : Z := 7.

Inductive CAN_InitStatus_TypeDef : Type := CAN_InitStatus_Failed | CAN_InitStatus_Success.
Inductive CAN_OperatingMode_TypeDef : Type :=
  CAN_OperatingMode_Initialization | CAN_OperatingMode_Normal | CAN_OperatingMode_Sleep.
Inductive CAN_ModeStatus_TypeDef : Type := CAN_ModeStatus_Failed | CAN_ModeStatus_Success.
Inductive CAN_Sleep_TypeDef : Type := CAN_Sleep_Failed | CAN_Sleep_Ok.
Inductive CAN_WakeUp_TypeDef : Type := CAN_WakeUp_Failed | CAN_WakeUp_Ok.

#[export] Instance CAN_InitStatus_eq_dec : EqDecision CAN_InitStatus_TypeDef.
Proof. solve_decision. Defined.
#[export] Instance CAN_ModeStatus_eq_dec : EqDecision CAN_ModeStatus_TypeDef.
Proof. solve_decision. Defined.

Definition CAN_MasterCtrl_AllDisabled : Z := 0x00.
Definition CAN_Mode_Normal : Z := 0x00.
Definition CAN_SynJumpWidth_1TimeQuantum : Z := 0x00.
Definition CAN_BitSeg1_8TimeQuantum : Z := 0x07.
Definition CAN_BitSeg2_7TimeQuantum : Z := 0x60.
Definition CAN_BitSeg2_8TimeQuantum : Z := 0x70.

Definition CAN_FilterNumber_0 : Z := 0x00.
Definition CAN_FilterNumber_1 : Z := 0x01.
Definition CAN_FilterNumber_2 : Z := 0x02.
Definition CAN_FilterNumber_3 : Z := 0x03.
Definition CAN_FilterNumber_4 : Z := 0x04.
Definition CAN_FilterMode_IdMask : Z := 0x00.
Definition CAN_FilterMode_IdMask_IdList : Z := 0x10.
Definition CAN_FilterMode_IdList_IdMask : Z := 0x11.
Definition CAN_FilterMode_IdList : Z := 0x01.
Definition CAN_FilterScale_8Bit : Z := 0x00.
Definition CAN_FilterScale_16_8Bit : Z := 0x02.
Definition CAN_FilterScale_16Bit : Z := 0x04.
Definition CAN_FilterScale_32Bit : Z := 0x06.

Inductive CAN_TransmitMailBox_TypeDef : Type :=
  CAN_TransmitMailBox_0 | CAN_TransmitMailBox_1 | CAN_TransmitMailBox_2.
Definition CAN_TransmitMailBox_value (b : CAN_TransmitMailBox_TypeDef) : Z :=
  match b with CAN_TransmitMailBox_0 => 0x00 | CAN_TransmitMailBox_1 => 0x01 | CAN_TransmitMailBox_2 => 0x05 end.

Definition CAN_Id_Standard : Z := 0x00.
Definition CAN_Id_Extended : Z := 0x40.
Definition CAN_RTR_Data : Z := 0x00.
Definition CAN_RTR_Remote : Z := 0x20.

(** [CAN_TxStatus_TypeDef] *)
Definition CAN_TxStatus_Failed : Z := 0xF0.
Definition CAN_TxStatus_Ok : Z := 0xF1.
Definition CAN_TxStatus_Pending : Z := 0xF2.
Definition CAN_TxStatus_NoMailBox : Z := 0xF4.
Definition CAN_TxStatus_MailBoxEmpty : Z := 0xF5.
Definition CAN_TxStatus_MailBox0Ok : Z := 0x00.
Definition CAN_TxStatus_MailBox1Ok : Z := 0x01.
Definition CAN_TxStatus_MailBox2Ok : Z := 0x05.

(** [CAN_FLAG_TypeDef] *)
Definition CAN_FLAG_RQCP0 : Z := 0x3401.
Definition CAN_FLAG_RQCP1 : Z := 0x3402.
Definition CAN_FLAG_RQCP2 : Z := 0x3404.
Definition CAN_FLAG_FMP : Z := 0x1203.
Definition CAN_FLAG_FF : Z := 0x3208.
Definition CAN_FLAG_FOV : Z := 0x3210.
Definition CAN_FLAG_WKU : Z := 0x3108.
Definition CAN_FLAG_EWG : Z := 0x1001.
Definition CAN_FLAG_EPV : Z := 0x1002.
Definition CAN_FLAG_BOF : Z := 0x1004.
Definition CAN_FLAG_LEC : Z := 0x3070.

(** [CAN_IT_TypeDef] *)
Definition CAN_IT_TME : Z := 0x0001.
Definition CAN_IT_FMP : Z := 0x0002.
Definition CAN_IT_FF : Z := 0x0004.
Definition CAN_IT_FOV : Z := 0x0008.
Definition CAN_IT_WKU : Z := 0x0080.
Definition CAN_IT_ERR : Z := 0x4000.
Definition CAN_IT_EWG : Z := 0x0100.
Definition CAN_IT_EPV : Z := 0x0200.
Definition CAN_IT_BOF : Z := 0x0400.
Definition CAN_IT_LEC : Z := 0x0800.

(** ** The driver *)

Section Driver.
Context {HW : Hardware}.

Definition CAN_GetSelectedPage : prog machine Z := load CAN_PSR.

Definition CAN_SelectPage (CAN_Page : Z) : prog machine unit := store CAN_PSR (u8 CAN_Page).

(** [while (waiting (CAN->MSR) && timeout != 0) timeout--] *)
Fixpoint wait_msr (waiting : Z -> bool) (timeout : nat) : prog machine unit :=
  let! msr := load CAN_MSR in
  if waiting msr
  then match timeout with O => ret tt | S n => wait_msr waiting n end
  else ret tt.

(** The tail of every mode request: wait for [MSR & CAN_MODE_MASK] to show
    [ack], then look once more. *)
Definition await_mode (ack : Z) : prog machine CAN_ModeStatus_TypeDef :=
  wait_msr (fun msr => negb (Z.land msr CAN_MODE_MASK =? ack)) (Z.to_nat CAN_ACKNOWLEDGE_TIMEOUT) ;;
  let! msr := load CAN_MSR in
  ret (if negb (Z.land msr CAN_MODE_MASK =? ack) then CAN_ModeStatus_Failed else CAN_ModeStatus_Success).

Definition CAN_OperatingModeRequest (CAN_OperatingMode : CAN_OperatingMode_TypeDef) :
    prog machine CAN_ModeStatus_TypeDef :=
  match CAN_OperatingMode with
  | CAN_OperatingMode_Initialization =>
      let! mcr := load CAN_MCR in
      store CAN_MCR (Z.lor (u8 (Z.land mcr (u8 (Z.lnot CAN_MCR_SLEEP)))) CAN_MCR_INRQ) ;;
      await_mode CAN_MSR_INAK
  | CAN_OperatingMode_Normal =>
      and_reg CAN_MCR (u8 (Z.lnot (Z.lor CAN_MCR_SLEEP CAN_MCR_INRQ))) ;;
      await_mode 0
  | CAN_OperatingMode_Sleep =>
      let! mcr := load CAN_MCR in
      store CAN_MCR (Z.lor (u8 (Z.land mcr (u8 (Z.lnot CAN_MCR_INRQ)))) CAN_MCR_SLEEP) ;;
      await_mode CAN_MSR_SLAK
  end.

Definition CAN_DeInit : prog machine unit :=
  store CAN_MCR CAN_MCR_INRQ ;;
  store CAN_PSR CAN_Page_Config ;;
  let! _ := CAN_OperatingModeRequest CAN_OperatingMode_Initialization in
  store CAN_ESR CAN_ESR_RESET_VALUE ;;
  store CAN_EIER CAN_EIER_RESET_VALUE ;;
  store CAN_BTR1 CAN_BTR1_RESET_VALUE ;;
  store CAN_BTR2 CAN_BTR2_RESET_VALUE ;;
  store CAN_FMR1 CAN_FMR1_RESET_VALUE ;;
  store CAN_FMR2 CAN_FMR2_RESET_VALUE ;;
  store CAN_FCR1 CAN_FCR_RESET_VALUE ;;
  store CAN_FCR2 CAN_FCR_RESET_VALUE ;;
  store CAN_FCR3 CAN_FCR_RESET_VALUE ;;
  let! _ := CAN_OperatingModeRequest CAN_OperatingMode_Normal in
  store CAN_PSR CAN_Page_RxFifo ;;
  store CAN_MDLCR CAN_MDLC_RESET_VALUE ;;
  store CAN_PSR CAN_Page_TxMailBox0 ;;
  store CAN_MDLCR CAN_MDLC_RESET_VALUE ;;
  store CAN_PSR CAN_Page_TxMailBox1 ;;
  store CAN_MDLCR CAN_MDLC_RESET_VALUE ;;
  store CAN_PSR CAN_Page_TxMailBox2 ;;
  store CAN_MDLCR CAN_MDLC_RESET_VALUE ;;
  store CAN_MCR CAN_MCR_RESET_VALUE ;;
  store CAN_MSR (u8 (Z.lnot CAN_MSR_RESET_VALUE)) ;;
  store CAN_TSR (u8 (Z.lnot CAN_TSR_RESET_VALUE)) ;;
  store CAN_RFR (u8 (Z.lnot CAN_RFR_RESET_VALUE)) ;;
  store CAN_IER CAN_IER_RESET_VALUE ;;
  store CAN_DGR CAN_DGR_RESET_VALUE ;;
  store CAN_PSR CAN_PSR_RESET_VALUE.

Definition CAN_Init (CAN_MasterCtrl CAN_Mode CAN_SynJumpWidth CAN_BitSeg1 CAN_BitSeg2 CAN_Prescaler : Z) :
    prog machine CAN_InitStatus_TypeDef :=
  let! can_page := CAN_GetSelectedPage in
  store CAN_MCR CAN_MCR_INRQ ;;
  wait_msr (fun msr => negb (u8 (Z.land msr CAN_MSR_INAK) =? 0x01)) (Z.to_nat CAN_ACKNOWLEDGE_TIMEOUT) ;;
  let! msr := load CAN_MSR in
  let! InitStatus :=
    if negb (Z.land msr CAN_MSR_INAK =? CAN_MSR_INAK) then ret CAN_InitStatus_Failed
    else
      or_reg CAN_MCR (u8 CAN_MasterCtrl) ;;
      or_reg CAN_DGR (u8 CAN_Mode) ;;
      store CAN_PSR CAN_Page_Config ;;
      store CAN_BTR1 (u8 (Z.lor (u8 (CAN_Prescaler - 1)) CAN_SynJumpWidth)) ;;
      store CAN_BTR2 (u8 (Z.lor CAN_BitSeg1 (u8 CAN_BitSeg2))) ;;
      and_reg CAN_MCR (u8 (Z.lnot CAN_MCR_INRQ)) ;;
      wait_msr (fun msr => u8 (Z.land msr CAN_MSR_INAK) =? 0x01) (Z.to_nat 0xFFFF) ;;
      let! msr := load CAN_MSR in
      ret (if Z.land msr CAN_MSR_INAK =? CAN_MSR_INAK
           then CAN_InitStatus_Failed else CAN_InitStatus_Success) in
  CAN_SelectPage can_page ;;
  ret InitStatus.

(** The eight bytes of a filter bank in the order of its registers; another
    scale stores none. *)
Definition filter_bank (CAN_FilterScale ID1 ID2 ID3 ID4 M1 M2 M3 M4 : Z) : list Z :=
  if CAN_FilterScale =? CAN_FilterScale_8Bit then [ID1; M1; ID2; M2; ID3; M3; ID4; M4]
  else if CAN_FilterScale =? CAN_FilterScale_16_8Bit then [ID1; ID2; M1; M2; ID3; M3; ID4; M4]
  else if CAN_FilterScale =? CAN_FilterScale_16Bit then [ID1; ID2; M1; M2; ID3; ID4; M3; M4]
  else if CAN_FilterScale =? CAN_FilterScale_32Bit then [ID1; ID2; ID3; ID4; M1; M2; M3; M4]
  else [].

(** Store bytes to consecutive registers. *)
Fixpoint store_bank (a : Z) (l : list Z) : prog machine unit :=
  match l with
  | [] => ret tt
  | v :: l' => store a v ;; store_bank (a + 1) l'
  end.

Definition CAN_FilterInit (CAN_FilterNumber : Z) (CAN_FilterActivation : FunctionalState)
    (CAN_FilterMode CAN_FilterScale : Z)
    (CAN_FilterID1 CAN_FilterID2 CAN_FilterID3 CAN_FilterID4
     CAN_FilterIDMask1 CAN_FilterIDMask2 CAN_FilterIDMask3 CAN_FilterIDMask4 : Z) : prog machine unit :=
  let! can_page := CAN_GetSelectedPage in
  let '(fact, fsc, fmhl, can_page_filter) :=
    if CAN_FilterNumber =? CAN_FilterNumber_0 then (0x01, 0x00, 0x03, CAN_Page_Filter01)
    else if CAN_FilterNumber =? CAN_FilterNumber_1 then (0x10, 0x04, 0x0C, CAN_Page_Filter01)
    else if CAN_FilterNumber =? CAN_FilterNumber_2 then (0x01, 0x00, 0x30, CAN_Page_Filter23)
    else if CAN_FilterNumber =? CAN_FilterNumber_3 then (0x10, 0x04, 0xC0, CAN_Page_Filter23)
    else if CAN_FilterNumber =? CAN_FilterNumber_4 then (0x01, 0x00, 0x03, CAN_Page_Filter45)
    else (0x10, 0x04, 0x0C, CAN_Page_Filter45) in
  let! _ := CAN_OperatingModeRequest CAN_OperatingMode_Initialization in
  store CAN_PSR CAN_Page_Config ;;
  (* filter scale *)
  let clear := u8 (Z.lnot (u8 (Z.lor fact (u8 (Z.shiftl (u8 (Z.lor CAN_FCR1_FSC00 CAN_FCR1_FSC01)) fsc))))) in
  let scale := u8 (Z.shiftl CAN_FilterScale fsc) in
  (if can_page_filter =? CAN_Page_Filter01 then and_reg CAN_FCR1 clear ;; or_reg CAN_FCR1 scale
   else if can_page_filter =? CAN_Page_Filter23 then and_reg CAN_FCR2 clear ;; or_reg CAN_FCR2 scale
   else and_reg CAN_FCR3 clear ;; or_reg CAN_FCR3 scale) ;;
  (* filter mode *)
  let fmr := if negb (can_page_filter =? CAN_Page_Filter45) then CAN_FMR1 else CAN_FMR2 in
  (if CAN_FilterMode =? CAN_FilterMode_IdMask then and_reg fmr (u8 (Z.lnot fmhl))
   else if CAN_FilterMode =? CAN_FilterMode_IdList then or_reg fmr (u8 fmhl)
   else if CAN_FilterMode =? CAN_FilterMode_IdList_IdMask
     then or_reg fmr (u8 (Z.land fmhl CAN_IDLIST_IDMASK_MASK))
   else or_reg fmr (u8 (Z.land fmhl CAN_IDMASK_IDLIST_MASK))) ;;
  (* filter identifiers *)
  store CAN_PSR (u8 can_page_filter) ;;
  store_bank (if negb (fsc =? 0) then CAN_FR09 else CAN_FR01)
    (filter_bank CAN_FilterScale CAN_FilterID1 CAN_FilterID2 CAN_FilterID3 CAN_FilterID4
       CAN_FilterIDMask1 CAN_FilterIDMask2 CAN_FilterIDMask3 CAN_FilterIDMask4) ;;
  (* filter activation *)
  store CAN_PSR CAN_Page_Config ;;
  match CAN_FilterActivation with
  | ENABLE =>
      if Z.land CAN_FilterNumber 0x06 =? 0x00 then or_reg CAN_FCR1 (u8 fact)
      else if Z.land CAN_FilterNumber 0x06 =? 0x02 then or_reg CAN_FCR2 (u8 fact)
      else or_reg CAN_FCR3 (u8 fact)
  | DISABLE => ret tt
  end ;;
  let! _ := CAN_OperatingModeRequest CAN_OperatingMode_Normal in
  CAN_SelectPage can_page.

Definition CAN_ITConfig (CAN_IT : Z) (NewState : FunctionalState) : prog machine unit :=
  let! can_page := CAN_GetSelectedPage in
  let tmperrorinterrupt := u8 (Z.shiftr (u16 CAN_IT) 7) in
  let tmperrorinterrupt := u8 (Z.lor (u8 (Z.land tmperrorinterrupt 0xF0))
                                     (u8 (Z.shiftr (u8 (Z.land tmperrorinterrupt 0x0F)) 1))) in
  store CAN_PSR CAN_Page_Config ;;
  match NewState with
  | ENABLE => or_reg CAN_IER (u8 CAN_IT) ;; or_reg CAN_EIER (u8 tmperrorinterrupt)
  | DISABLE => and_reg CAN_IER (u8 (Z.lnot (u8 (u16 CAN_IT)))) ;;
               and_reg CAN_EIER (u8 (Z.lnot tmperrorinterrupt))
  end ;;
  CAN_SelectPage can_page.

Definition CAN_ST7CompatibilityCmd (CAN_ST7Compatibility : Z) : prog machine unit :=
  and_reg CAN_DGR (u8 (Z.lnot CAN_DGR_TXM2E)) ;;
  or_reg CAN_DGR (u8 CAN_ST7Compatibility).

Definition CAN_TTComModeCmd (NewState : FunctionalState) : prog machine unit :=
  let! can_page := CAN_GetSelectedPage in
  let upd_tgt := match NewState with
                 | ENABLE => or_reg CAN_MDLCR CAN_MDLCR_TGT
                 | DISABLE => and_reg CAN_MDLCR (u8 (Z.lnot CAN_MDLCR_TGT))
                 end in
  match NewState with
  | ENABLE => or_reg CAN_MCR CAN_MCR_TTCM
  | DISABLE => and_reg CAN_MCR (u8 (Z.lnot CAN_MCR_TTCM))
  end ;;
  store CAN_PSR CAN_Page_TxMailBox0 ;; upd_tgt ;;
  store CAN_PSR CAN_Page_TxMailBox1 ;; upd_tgt ;;
  store CAN_PSR CAN_Page_TxMailBox2 ;; upd_tgt ;;
  store CAN_PSR CAN_Page_RxFifo ;; upd_tgt ;;
  CAN_SelectPage can_page.

(** The first empty mailbox, if any. *)
Definition select_mailbox : prog machine Z :=
  let! tpr := load CAN_TPR in
  if Z.land tpr CAN_TPR_TME0 =? CAN_TPR_TME0 then ret CAN_TxStatus_MailBox0Ok
  else let! tpr := load CAN_TPR in
  if Z.land tpr CAN_TPR_TME1 =? CAN_TPR_TME1 then ret CAN_TxStatus_MailBox1Ok
  else let! tpr := load CAN_TPR in
  if Z.land tpr CAN_TPR_TME2 =? CAN_TPR_TME2 then ret CAN_TxStatus_MailBox2Ok
  else ret CAN_TxStatus_NoMailBox.

(** The identifier registers of the selected mailbox. *)
Definition set_id (CAN_Id CAN_IDE CAN_RTR : Z) : prog machine unit :=
  if negb (CAN_IDE =? CAN_Id_Standard) then
    let CAN_Id := Z.land CAN_Id CAN_EXTID_SIZE in
    store CAN_MIDR4 (u8 CAN_Id) ;;
    let CAN_Id := Z.shiftr CAN_Id 8 in
    store CAN_MIDR3 (u8 CAN_Id) ;;
    let CAN_Id := Z.shiftr CAN_Id 8 in
    store CAN_MIDR2 (u8 CAN_Id) ;;
    let CAN_Id := Z.shiftr CAN_Id 8 in
    store CAN_MIDR1 (u8 (Z.lor (Z.lor CAN_Id CAN_IDE) CAN_RTR))
  else
    let CAN_Id := Z.land CAN_Id CAN_STDID_SIZE in
    store CAN_MIDR1 (u8 (Z.lor (Z.shiftr CAN_Id 6) CAN_RTR)) ;;
    store CAN_MIDR2 (u8 (Z.shiftl CAN_Id 2)).

(** The eight data registers, each from the byte of the caller's object. *)
Definition set_data (CAN_Data : list Z) : prog machine unit :=
  for_each (range 8) (fun i => let! b := at_index CAN_Data i in store (CAN_MDAR1 + i) b).

Definition CAN_Transmit (CAN_Id CAN_IDE CAN_RTR CAN_DLC : Z) (CAN_Data : list Z) : prog machine Z :=
  let! can_page := CAN_GetSelectedPage in
  let! CAN_TxStatus := select_mailbox in
  when (negb (CAN_TxStatus =? CAN_TxStatus_NoMailBox))
    (store CAN_PSR (u8 CAN_TxStatus) ;;
     set_id CAN_Id CAN_IDE CAN_RTR ;;
     and_reg CAN_MDLCR 0xF0 ;;
     or_reg CAN_MDLCR CAN_DLC ;;
     set_data CAN_Data ;;
     or_reg CAN_MCSR CAN_MCSR_TXRQ) ;;
  CAN_SelectPage can_page ;;
  ret CAN_TxStatus.

Definition CAN_TransmitStatus (CAN_TransmitMailbox : CAN_TransmitMailBox_TypeDef) : prog machine Z :=
  let status tsr_mask tme shift :=
    let! tsr := load CAN_TSR in
    let tmpstate := Z.shiftr (u8 (Z.land tsr tsr_mask)) shift in
    let! tpr := load CAN_TPR in
    ret (u8 (Z.lor tmpstate (Z.shiftr (u8 (Z.land tpr tme)) shift))) in
  let! tmpstate :=
    match CAN_TransmitMailbox with
    | CAN_TransmitMailBox_0 => status (Z.lor CAN_TSR_RQCP0 CAN_TSR_TXOK0) CAN_TPR_TME0 0
    | CAN_TransmitMailBox_1 => status (Z.lor CAN_TSR_RQCP1 CAN_TSR_TXOK1) CAN_TPR_TME1 1
    | CAN_TransmitMailBox_2 => status (Z.lor CAN_TSR_RQCP2 CAN_TSR_TXOK2) CAN_TPR_TME2 2
    end in
  ret (if tmpstate =? 0x00 then CAN_TxStatus_Pending
       else if tmpstate =? 0x05 then CAN_TxStatus_Failed
       else if tmpstate =? 0x15 then CAN_TxStatus_Ok
       else if tmpstate =? 0x04 then CAN_TxStatus_MailBoxEmpty
       else CAN_TxStatus_Failed).

Definition CAN_CancelTransmit (CAN_TransmitMailbox : CAN_TransmitMailBox_TypeDef) : prog machine unit :=
  let! can_page := CAN_GetSelectedPage in
  store CAN_PSR (CAN_TransmitMailBox_value CAN_TransmitMailbox) ;;
  or_reg CAN_MCSR CAN_MCSR_ABRQ ;;
  CAN_SelectPage can_page.

Definition CAN_FIFORelease : prog machine unit := store CAN_RFR CAN_RFR_RFOM.

Definition CAN_MessagePending : prog machine Z :=
  let! rfr := load CAN_RFR in ret (Z.land rfr CAN_RFR_FMP01).

(** The identifier of the frame at the head of the FIFO, [CAN_IDE] telling its kind. *)
Definition fetch_id (_IDE : Z) : prog machine Z :=
  if negb (_IDE =? CAN_Id_Standard) then
    let! midr3 := load CAN_MIDR3 in
    let temp1 := u32 (Z.shiftl midr3 8) in
    let! midr2 := load CAN_MIDR2 in
    let temp2 := u32 (Z.shiftl midr2 16) in
    let! midr1 := load CAN_MIDR1 in
    let temp3 := u32 (Z.shiftl (Z.land midr1 0x1F) 24) in
    let! midr4 := load CAN_MIDR4 in
    ret (Z.land CAN_EXTID_SIZE (Z.lor (Z.lor (Z.lor midr4 temp1) temp2) temp3))
  else
    let! midr1 := load CAN_MIDR1 in
    let temp1 := u16 (Z.shiftl (u16 (Z.land midr1 0x1F)) 6) in
    let! midr2 := load CAN_MIDR2 in
    let temp2 := Z.land (u16 (Z.shiftr midr2 2)) 0x3F in
    ret (Z.land CAN_STDID_SIZE (Z.lor temp1 temp2)).

Fixpoint fetch_data (a : Z) (n : nat) : prog machine (list Z) :=
  match n with
  | O => ret []
  | S n' => let! b := load a in let! l := fetch_data (a + 1) n' in ret (b :: l)
  end.

(** The variables are set one after the other; the frame is complete when the
    FIFO is released. *)
Definition CAN_Receive : prog machine unit :=
  let! can_page := CAN_GetSelectedPage in
  store CAN_PSR CAN_Page_RxFifo ;;
  let! midr1 := load CAN_MIDR1 in
  let ide := u8 (Z.land midr1 CAN_Id_Extended) in
  let! id := fetch_id ide in
  let! midr1 := load CAN_MIDR1 in
  let rtr := u8 (Z.land 0x20 midr1) in
  let! mdlcr := load CAN_MDLCR in
  let dlc := u8 (Z.land mdlcr 0x0F) in
  let! fmi := load CAN_MFMI in
  let! data := fetch_data CAN_MDAR1 8 in
  wr f_rx (CanRx id ide rtr dlc data fmi) ;;
  CAN_FIFORelease ;;
  CAN_SelectPage can_page.

Definition CAN_GetReceivedId : prog machine Z := let! r := rd f_rx in ret (_Id r).
Definition CAN_GetReceivedIDE : prog machine Z := let! r := rd f_rx in ret (_IDE r).
Definition CAN_GetReceivedRTR : prog machine Z := let! r := rd f_rx in ret (_RTR r).
Definition CAN_GetReceivedDLC : prog machine Z := let! r := rd f_rx in ret (_DLC r).
Definition CAN_GetReceivedData (CAN_DataIndex : Z) : prog machine Z :=
  let! r := rd f_rx in at_index (_Data r) CAN_DataIndex.
Definition CAN_GetReceivedFMI : prog machine Z := let! r := rd f_rx in ret (_FMI r).

Definition CAN_GetMessageTimeStamp : prog machine Z :=
  let! can_page := CAN_GetSelectedPage in
  store CAN_PSR CAN_Page_RxFifo ;;
  let! lo := load CAN_MTSRL in
  let! hi := load CAN_MTSRH in
  let timestamp := Z.lor lo (u16 (Z.shiftl hi 8)) in
  CAN_SelectPage can_page ;;
  ret timestamp.

Definition CAN_Sleep : prog machine CAN_Sleep_TypeDef :=
  let! mcr := load CAN_MCR in
  store CAN_MCR (Z.lor (u8 (Z.land mcr (u8 (Z.lnot CAN_MCR_INRQ)))) CAN_MCR_SLEEP) ;;
  let! msr := load CAN_MSR in
  ret (if Z.land msr (Z.lor CAN_MSR_SLAK CAN_MSR_INAK) =? CAN_MSR_SLAK
       then CAN_Sleep_Ok else CAN_Sleep_Failed).

Definition CAN_WakeUp : prog machine CAN_WakeUp_TypeDef :=
  and_reg CAN_MCR (u8 (Z.lnot CAN_MCR_SLEEP)) ;;
  let! msr := load CAN_MSR in
  ret (if negb (Z.land msr CAN_MSR_SLAK =? CAN_MSR_SLAK) then CAN_WakeUp_Ok else CAN_WakeUp_Failed).

Definition CAN_GetLastErrorCode : prog machine Z :=
  let! can_page := CAN_GetSelectedPage in
  store CAN_PSR CAN_Page_Config ;;
  let! esr := load CAN_ESR in
  CAN_SelectPage can_page ;;
  ret (Z.land esr CAN_ESR_LEC).

(** The register a flag is looked up in: receive, transmit, wake-up or error. *)
Inductive flag_register : Type := RFR_flag | TSR_flag | MSR_flag | ESR_flag.

Definition flag_register_of (CAN_Flag : Z) : flag_register :=
  if negb (Z.land (u16 CAN_Flag) 0x0700 =? 0) then
    if negb (Z.land (u16 CAN_Flag) 0x020B =? 0) then RFR_flag
    else if negb (Z.land (u16 CAN_Flag) 0x0403 =? 0) then TSR_flag
    else MSR_flag
  else ESR_flag.

Definition CAN_ClearFlag (CAN_Flag : Z) : prog machine unit :=
  match flag_register_of CAN_Flag with
  | RFR_flag => store CAN_RFR (u8 CAN_Flag)
  | TSR_flag => store CAN_TSR (u8 CAN_Flag)
  | MSR_flag => store CAN_MSR (u8 CAN_Flag)
  | ESR_flag =>
      let! can_page := CAN_GetSelectedPage in
      store CAN_PSR CAN_Page_Config ;;
      store CAN_ESR 0 ;;
      CAN_SelectPage can_page
  end.

Definition CAN_GetFlagStatus (CAN_Flag : Z) : prog machine FlagStatus :=
  let test v := if negb (Z.land v (u16 CAN_Flag) =? 0) then SET else RESET in
  match flag_register_of CAN_Flag with
  | RFR_flag => let! v := load CAN_RFR in ret (test v)
  | TSR_flag => let! v := load CAN_TSR in ret (test v)
  | MSR_flag => let! v := load CAN_MSR in ret (test v)
  | ESR_flag =>
      let! can_page := CAN_GetSelectedPage in
      store CAN_PSR CAN_Page_Config ;;
      let! v := load CAN_ESR in
      CAN_SelectPage can_page ;;
      ret (test v)
  end.

Definition CheckITStatus (CAN_Reg It_Bit : Z) : FlagStatus :=
  if negb (Z.land CAN_Reg It_Bit =? 0) then SET else RESET.

(** An interrupt is pending when it is enabled in [ier] and its bits show in [reg]. *)
Definition it_status (ier enable reg it_bits : Z) : prog machine FlagStatus :=
  let! e := load ier in
  if negb (Z.land e enable =? 0)
  then let! v := load reg in ret (CheckITStatus v it_bits)
  else ret RESET.

Definition CAN_GetITStatus (CAN_IT : Z) : prog machine FlagStatus :=
  let! can_page := CAN_GetSelectedPage in
  let! pendingbitstatus :=
    if CAN_IT =? CAN_IT_TME then it_status CAN_IER CAN_IER_TMEIE CAN_TSR CAN_TSR_RQCP012
    else if CAN_IT =? CAN_IT_FMP then it_status CAN_IER CAN_IER_FMPIE CAN_RFR CAN_RFR_FMP01
    else if CAN_IT =? CAN_IT_FF then it_status CAN_IER CAN_IER_FFIE CAN_RFR CAN_RFR_FULL
    else if CAN_IT =? CAN_IT_FOV then it_status CAN_IER CAN_IER_FOVIE CAN_RFR CAN_RFR_FOVR
    else if CAN_IT =? CAN_IT_WKU then it_status CAN_IER CAN_IER_WKUIE CAN_MSR CAN_MSR_WKUI
    else if CAN_IT =? CAN_IT_ERR then
      store CAN_PSR CAN_Page_Config ;;
      it_status CAN_EIER CAN_EIER_ERRIE CAN_ESR
        (Z.lor (Z.lor (Z.lor CAN_ESR_EWGF CAN_ESR_EPVF) CAN_ESR_BOFF) CAN_ESR_LEC)
    else if CAN_IT =? CAN_IT_EWG then
      store CAN_PSR CAN_Page_Config ;; it_status CAN_EIER CAN_EIER_EWGIE CAN_ESR CAN_ESR_EWGF
    else if CAN_IT =? CAN_IT_EPV then
      store CAN_PSR CAN_Page_Config ;; it_status CAN_EIER CAN_EIER_EPVIE CAN_ESR CAN_ESR_EPVF
    else if CAN_IT =? CAN_IT_BOF then
      store CAN_PSR CAN_Page_Config ;; it_status CAN_EIER CAN_EIER_BOFIE CAN_ESR CAN_ESR_BOFF
    else if CAN_IT =? CAN_IT_LEC then
      store CAN_PSR CAN_Page_Config ;; it_status CAN_EIER CAN_EIER_LECIE CAN_ESR CAN_ESR_LEC
    else ret RESET in
  CAN_SelectPage can_page ;;
  ret pendingbitstatus.

Definition CAN_ClearITPendingBit (CAN_IT : Z) : prog machine unit :=
  let! can_page := CAN_GetSelectedPage in
  (if CAN_IT =? CAN_IT_TME then store CAN_TSR CAN_TSR_RQCP012
   else if CAN_IT =? CAN_IT_FF then store CAN_RFR CAN_RFR_FULL
   else if CAN_IT =? CAN_IT_FOV then store CAN_RFR CAN_RFR_FOVR
   else if CAN_IT =? CAN_IT_WKU then store CAN_MSR CAN_MSR_WKUI
   else if CAN_IT =? CAN_IT_ERR then
     store CAN_PSR CAN_Page_Config ;; store CAN_ESR (u8 CAN_ESR_RESET_VALUE) ;;
     store CAN_MSR CAN_MSR_ERRI
   else if (CAN_IT =? CAN_IT_EWG) || (CAN_IT =? CAN_IT_EPV) || (CAN_IT =? CAN_IT_BOF) then
     store CAN_MSR CAN_MSR_ERRI
   else if CAN_IT =? CAN_IT_LEC then
     store CAN_PSR CAN_Page_Config ;; store CAN_ESR (u8 CAN_ESR_RESET_VALUE)
   else ret tt) ;;
  CAN_SelectPage can_page.
End Driver.
