(* ===== verification/CanRules.v ===== *)
(** Rules and theorems about the CAN driver of [CanDrv.v]: what it may change
    whatever the hardware does, and, under the laws of the bxCAN cell, the frames
    it sends and receives and the page it leaves selected. *)

From S2P Require Import Prelude Monad Machine Gpio CanDrv.

(** ** Without the laws *)

(** The registers and pages of the CAN cell. *)
Definition can_cell (d : Z) : Prop := CAN_BaseAddress <= d <= CAN_BaseAddress + 7 \/ 0x1000000 <= d.

Section Touches.
Context {HW : Hardware}.

Lemma touches_can_store k v : 0 <= k < 24 -> touches can_cell (store (CAN_BaseAddress + k) v).
Proof.
  intros Hk. apply touches_store_page. intros m. unfold cell, in_can_page, can_cell, page_cell, CAN_Page.
  pose proof (psr_low m). cmp; simpl; lia.
Qed.

Lemma touches_page_store k v : 0 <= k < 16 -> touches can_cell (store (CAN_Page + k) v).
Proof.
  intros Hk. replace (CAN_Page + k) with (CAN_BaseAddress + (8 + k)) by (unfold CAN_Page; lia).
  apply touches_can_store. lia.
Qed.

Lemma touches_wait_msr P w n : touches P (wait_msr w n).
Proof. induction n as [|n IH]; simpl; touch; apply IH. Qed.

Lemma touches_await_mode P ack : touches P (await_mode ack).
Proof. unfold await_mode. apply touches_bind; [apply touches_wait_msr|intros _]. touch. Qed.

Ltac can := unfold or_reg, and_reg; touch;
  first [apply touches_can_store; lia | apply touches_page_store; lia
        | apply touches_wait_msr | apply touches_await_mode].

Lemma touches_CAN_SelectPage p : touches can_cell (CAN_SelectPage p).
Proof. apply touches_can_store. lia. Qed.

Lemma touches_CAN_GetSelectedPage P : touches P CAN_GetSelectedPage.
Proof. apply touches_load. Qed.

Lemma touches_CAN_OperatingModeRequest mode : touches can_cell (CAN_OperatingModeRequest mode).
Proof. unfold CAN_OperatingModeRequest. can. Qed.

#[local] Hint Resolve touches_CAN_SelectPage touches_CAN_GetSelectedPage touches_CAN_OperatingModeRequest : touches.

Lemma touches_CAN_DeInit : touches can_cell CAN_DeInit.
Proof. unfold CAN_DeInit. can. Qed.

Lemma touches_CAN_Init mc md sjw b1 b2 pr : touches can_cell (CAN_Init mc md sjw b1 b2 pr).
Proof. unfold CAN_Init. can. Qed.

Lemma touches_store_bank k l : 0 <= k -> k + Z.of_nat (length l) <= 16 -> touches can_cell (store_bank (CAN_Page + k) l).
Proof.
  revert k. induction l as [|v l IH]; intros k Hk Hl; simpl; [apply touches_ret|].
  simpl in Hl. apply touches_bind; [apply touches_page_store; lia|]. intros _.
  replace (CAN_Page + k + 1) with (CAN_Page + (k + 1)) by lia. apply IH; lia.
Qed.

Lemma filter_bank_length sc i1 i2 i3 i4 m1 m2 m3 m4 :
  (length (filter_bank sc i1 i2 i3 i4 m1 m2 m3 m4) <= 8)%nat.
Proof. unfold filter_bank. repeat destruct (_ =? _); simpl; lia. Qed.

Lemma touches_CAN_FilterInit n act md sc i1 i2 i3 i4 m1 m2 m3 m4 :
  touches can_cell (CAN_FilterInit n act md sc i1 i2 i3 i4 m1 m2 m3 m4).
Proof.
  unfold CAN_FilterInit. apply touches_bind; [touch|intros page].
  set (t := if n =? CAN_FilterNumber_0 then _ else _). destruct t as [[[fact fsc] fmhl] pf].
  assert (touches can_cell (store_bank (if negb (fsc =? 0) then CAN_FR09 else CAN_FR01)
            (filter_bank sc i1 i2 i3 i4 m1 m2 m3 m4))) as Hb.
  { pose proof (filter_bank_length sc i1 i2 i3 i4 m1 m2 m3 m4).
    destruct (negb (fsc =? 0)); apply touches_store_bank; lia. }
  destruct (negb (pf =? CAN_Page_Filter45));
    (unfold or_reg, and_reg; touch; first [exact Hb | apply touches_can_store; lia | apply touches_page_store; lia]).
Qed.

Lemma touches_select_mailbox P : touches P select_mailbox.
Proof. unfold select_mailbox. touch. Qed.

Lemma touches_set_id i ide rtr : touches can_cell (set_id i ide rtr).
Proof. unfold set_id. can. Qed.

Lemma touches_set_data data : (8 <= length data)%nat -> touches can_cell (set_data data).
Proof.
  intros Hl s. apply (wp_for_each_inv _ _ (keeps can_cell s)); [apply keeps_refl|].
  intros i s' Hi Hs. apply range_elem in Hi.
  destruct (lookup_lt_is_Some_2 data (Z.to_nat i)) as [b Hb]; [lia|].
  apply wp_bind. rewrite (at_index_ok _ _ b) by (done || lia). apply wp_ret.
  eapply wp_mono.
  { unfold CAN_MDAR1. rewrite <- Z.add_assoc. apply touches_page_store. lia. }
  intros [] s'' H. by apply (keeps_trans _ _ s').
Qed.

(** [CAN_Transmit] reads eight bytes of the caller's object, whatever the DLC. *)
Lemma touches_CAN_Transmit i ide rtr dlc data :
  (8 <= length data)%nat -> touches can_cell (CAN_Transmit i ide rtr dlc data).
Proof.
  intros Hl. unfold CAN_Transmit.
  apply touches_bind; [touch|intros page]. apply touches_bind; [apply touches_select_mailbox|intros st].
  apply touches_bind; [|intros _; touch]. apply touches_when.
  apply touches_bind; [apply touches_can_store; lia|intros _].
  apply touches_bind; [apply touches_set_id|intros _].
  apply touches_bind; [unfold and_reg; can|intros _].
  apply touches_bind; [unfold or_reg; can|intros _].
  apply touches_bind; [by apply touches_set_data|intros _]. unfold or_reg. can.
Qed.

Lemma touches_CAN_MessagePending P : touches P CAN_MessagePending.
Proof. unfold CAN_MessagePending. touch. Qed.
End Touches.

#[export] Hint Resolve touches_CAN_SelectPage touches_CAN_GetSelectedPage touches_CAN_OperatingModeRequest
  touches_CAN_DeInit touches_CAN_Init touches_CAN_FilterInit touches_CAN_MessagePending touches_CAN_Transmit : touches.

(** ** The laws of the CAN cell (RM0016, "Controller area network") *)

Definition fifo_pending (m : mem) : bool := negb (Z.land (m CAN_RFR) CAN_RFR_FMP01 =? 0).

Class CanLaws (HW : Hardware) : Prop := {
  (** the page selector has three bits and only the program changes it *)
  psr_load m h : fst (hw_load CAN_PSR (m, h)) = Z.land (m CAN_PSR) 7;
  psr_store v m h : fst (hw_store CAN_PSR v (m, h)) CAN_PSR = Z.land v 7;
  psr_stable : stable CAN_PSR;
  (** the control, identifier and data registers of a mailbox belong to the program *)
  tx_latch p off : tx_page p -> 1 <= off <= 13 -> latch (page_cell p off);
  (** while a frame is pending, the FIFO page shows it until it is released *)
  rx_load off a m h : fifo_pending m = true -> 0 <= off < 16 -> cell m a = page_cell 7 off ->
    fst (hw_load a (m, h)) = m (page_cell 7 off);
  rx_keep_load a m h : fifo_pending m = true ->
    fifo_pending (fst (snd (hw_load a (m, h)))) = true /\
    forall off, 0 <= off < 16 -> fst (snd (hw_load a (m, h))) (page_cell 7 off) = m (page_cell 7 off);
  rx_keep_psr v m h : fifo_pending m = true ->
    fifo_pending (fst (hw_store CAN_PSR v (m, h))) = true /\
    forall off, 0 <= off < 16 -> fst (hw_store CAN_PSR v (m, h)) (page_cell 7 off) = m (page_cell 7 off)
}.

(** ** Frames *)

(** The frame a page of a mailbox or of the FIFO stands for, as [CAN_Receive]
    reads it. *)
Definition frame_of (page : Z -> Z) : can_rx :=
  let ide := Z.land (page 2) 0x40 in {|
  _Id := (if negb (ide =? 0)
          then Z.land CAN_EXTID_SIZE (Z.lor (Z.lor (Z.lor (page 5) (u32 (Z.shiftl (page 4) 8)))
                 (u32 (Z.shiftl (page 3) 16))) (u32 (Z.shiftl (Z.land (page 2) 0x1F) 24)))
          else Z.land CAN_STDID_SIZE (Z.lor (u16 (Z.shiftl (u16 (Z.land (page 2) 0x1F)) 6))
                 (Z.land (u16 (Z.shiftr (page 3) 2)) 0x3F)));
  _IDE := ide;
  _RTR := Z.land 0x20 (page 2);
  _DLC := Z.land (page 1) 0x0F;
  _Data := [page 6; page 7; page 8; page 9; page 10; page 11; page 12; page 13];
  _FMI := page 0
|}.

(** A page of the CAN cell. *)
Definition page_of (m : mem) (p off : Z) : Z := m (page_cell p off).

Section CanRules.
Context {HW : Hardware} {CL : CanLaws HW} {E : fault -> machine -> Prop}.

Definition on_page (p : Z) (s : machine) : Prop := Z.land (cells s CAN_PSR) 7 = p.

Lemma on_page_cell p s off : on_page p s -> 0 <= off < 16 -> cell (cells s) (CAN_Page + off) = page_cell p off.
Proof. intros Hp Hoff. rewrite cell_paged by done. by rewrite Hp. Qed.

Lemma on_page_keeps P p s s' : ~ P CAN_PSR -> keeps P s s' -> on_page p s -> on_page p s'.
Proof using CL. intros HP [Hk _] Hp. unfold on_page. rewrite Hk; [done|apply psr_stable|done]. Qed.

(** Only the stores to the selector change the page. *)
Lemma page_cell_not_psr p off : 0 <= p < 8 -> 0 <= off < 16 -> page_cell p off <> CAN_PSR.
Proof. unfold page_cell, CAN_PSR, CAN_BaseAddress. lia. Qed.

Lemma wp_load_psr (Q : Z -> machine -> Prop) s :
  (forall s', keeps (fun _ => False) s s' -> Q (Z.land (cells s CAN_PSR) 7) s') ->
  wp E CAN_GetSelectedPage Q s.
Proof using CL.
  intros HQ. unfold CAN_GetSelectedPage. apply wp_load. intros v p Hl _.
  pose proof (psr_load (cells s) (hid s)) as Hv. apply (keeps_load (fun _ => False)) in Hl as Hk.
  unfold hw in Hl. rewrite Hl in Hv. simpl in Hv. subst v.
  rewrite u8_small.
  2: { pose proof (psr_low (cells s)). unfold is_u8. lia. }
  by apply HQ.
Qed.

Lemma wp_store_psr v (Q : unit -> machine -> Prop) s :
  (forall s', on_page (Z.land (u8 v) 7) s' -> keeps (eq CAN_PSR) s s' -> Q tt s') ->
  wp E (store CAN_PSR v) Q s.
Proof using CL.
  intros HQ. apply wp_store, HQ.
  - unfold on_page. simpl. unfold hw. rewrite psr_store.
    rewrite <- Z.land_assoc. done.
  - apply (keeps_store CAN_PSR).
Qed.

(** A store into a mailbox page. *)
Lemma wp_store_tx p off v (Q : unit -> machine -> Prop) s :
  tx_page p -> 1 <= off <= 13 -> on_page p s ->
  (forall s', page_of (cells s') p off = u8 v -> on_page p s' ->
     keeps (eq (page_cell p off)) s s' -> Q tt s') ->
  wp E (store (CAN_Page + off) v) Q s.
Proof using CL.
  intros Htx Hoff Hp HQ.
  assert (0 <= p < 8) by (unfold tx_page in Htx; lia).
  eapply (wp_store_latch _ (page_cell p off)); [by apply tx_latch|apply on_page_cell; [done|lia]|].
  intros s' Hc Hk Hr.
  assert (keeps (eq (page_cell p off)) s s') as Hks.
  { split; [|done]. intros d Hd Hn. apply Hk; [done|congruence]. }
  apply HQ; [done| |done]. eapply (on_page_keeps (eq (page_cell p off))); [|done|done].
  apply page_cell_not_psr; lia.
Qed.

Lemma wp_load_tx p off (Q : Z -> machine -> Prop) s :
  tx_page p -> 1 <= off <= 13 -> on_page p s ->
  (forall s', on_page p s' -> keeps (fun _ => False) s s' -> Q (u8 (page_of (cells s) p off)) s') ->
  wp E (load (CAN_Page + off)) Q s.
Proof using CL.
  intros Htx Hoff Hp HQ.
  eapply (wp_load_latch _ (page_cell p off)); [by apply tx_latch|apply on_page_cell; [done|lia]|].
  intros s' _ Hk Hr.
  assert (keeps (fun _ => False) s s') as Hks by (split; [intros d Hd _; by apply Hk|done]).
  apply HQ; [|done]. apply (on_page_keeps (fun _ => False) p s); [by intros []|done|done].
Qed.

(** Registers written before keep their value. *)
Lemma page_keeps p off q (P : Z -> Prop) s s' :
  tx_page p -> 1 <= off <= 13 -> keeps P s s' -> ~ P (page_cell p off) ->
  page_of (cells s) p off = q -> page_of (cells s') p off = q.
Proof using CL.
  intros Htx Hoff [Hk _] Hn <-. unfold page_of. apply Hk; [|done]. by apply latch_stable, tx_latch.
Qed.
End CanRules.

(** ** Writing a mailbox

    [filling p img s0 s]: since [s0] the program has selected mailbox page [p] and
    written the registers where [img] is defined, and nothing else. *)
Section Filling.
Context {HW : Hardware} {CL : CanLaws HW} {E : fault -> machine -> Prop}.

Definition in_page (p d : Z) : Prop := d = CAN_PSR \/ exists off, 0 <= off < 16 /\ d = page_cell p off.

Definition filling (p : Z) (img : Z -> option Z) (s0 s : machine) : Prop :=
  on_page p s /\ keeps (in_page p) s0 s /\ requested s = requested s0 /\
  forall off v, 1 <= off <= 13 -> img off = Some v -> page_of (cells s) p off = v.

(** The registers of a mailbox but the first ask for nothing. *)
Lemma requested_keeps p off s s' :
  1 <= off <= 13 -> 0 <= p < 8 -> keeps (eq (page_cell p off)) s s' -> requested s' = requested s.
Proof. intros Hoff Hp [_ [_ HT]]. apply HT. intros q Hq Heq. unfold tx_page, page_cell in *. lia. Qed.

Definition put (off v : Z) (img : Z -> option Z) : Z -> option Z :=
  fun o => if o =? off then Some v else img o.

Lemma filling_store p img s0 off v (Q : unit -> machine -> Prop) s :
  tx_page p -> 1 <= off <= 13 -> filling p img s0 s ->
  (forall s', filling p (put off (u8 v) img) s0 s' -> Q tt s') ->
  wp E (store (CAN_Page + off) v) Q s.
Proof using CL.
  intros Htx Hoff (Hp & Hk & Hr & Hi) HQ. apply (wp_store_tx p); [done..|]. intros s' Hv Hp' Hk'.
  apply HQ. split; [done|]. split; [|split].
  - apply (keeps_trans _ _ s); [done|]. eapply keeps_weaken; [done|]. intros d <-. right. exists off.
    split; [lia|done].
  - rewrite <- Hr. apply (requested_keeps p off); [done|unfold tx_page in Htx; lia|done].
  - intros o w Ho Hw. unfold put in Hw. destruct (Z.eqb_spec o off) as [->|Hne].
    + by injection Hw as <-.
    + apply (page_keeps p o w (eq (page_cell p off)) s); [done|done|done| |by apply Hi].
      unfold page_cell. lia.
Qed.

Lemma filling_load p img s0 off (Q : Z -> machine -> Prop) s :
  tx_page p -> 1 <= off <= 13 -> filling p img s0 s ->
  (forall v s', filling p img s0 s' -> is_u8 v -> Q v s') ->
  wp E (load (CAN_Page + off)) Q s.
Proof using CL.
  intros Htx Hoff (Hp & Hk & Hr & Hi) HQ. apply (wp_load_tx p); [done..|]. intros s' Hp' Hk'.
  apply HQ; [|apply u8_range]. split; [done|]. split; [|split].
  - apply (keeps_trans _ _ s); [done|]. eapply keeps_weaken; [done|]. by intros d [].
  - rewrite <- Hr. apply Hk'. by intros ? ? [].
  - intros o w Ho Hw. apply (page_keeps p o w (fun _ => False) s); auto.
Qed.

(** The registers of an identifier, of the length code and of the data. *)
Definition put_id (id ide rtr : Z) (img : Z -> option Z) : Z -> option Z :=
  if negb (ide =? CAN_Id_Standard) then
    let id := Z.land id CAN_EXTID_SIZE in
    put 2 (u8 (u8 (Z.lor (Z.lor (Z.shiftr (Z.shiftr (Z.shiftr id 8) 8) 8) ide) rtr)))
      (put 3 (u8 (u8 (Z.shiftr (Z.shiftr id 8) 8)))
        (put 4 (u8 (u8 (Z.shiftr id 8))) (put 5 (u8 (u8 id)) img)))
  else
    let id := Z.land id CAN_STDID_SIZE in
    put 3 (u8 (u8 (Z.shiftl id 2))) (put 2 (u8 (u8 (Z.lor (Z.shiftr id 6) rtr))) img).

Lemma set_id_wp p img s0 id ide rtr (Q : unit -> machine -> Prop) s :
  tx_page p -> filling p img s0 s ->
  (forall s', filling p (put_id id ide rtr img) s0 s' -> Q tt s') ->
  wp E (set_id id ide rtr) Q s.
Proof using CL.
  intros Htx Hf HQ. unfold set_id, put_id in *. destruct (negb (ide =? CAN_Id_Standard)).
  - apply wp_bind. eapply filling_store; [done|lia|done|]. intros s1 H1.
    apply wp_bind. eapply filling_store; [done|lia|done|]. intros s2 H2.
    apply wp_bind. eapply filling_store; [done|lia|done|]. intros s3 H3.
    eapply filling_store; [done|lia|done|]. intros s4 H4. by apply HQ.
  - apply wp_bind. eapply filling_store; [done|lia|done|]. intros s1 H1.
    eapply filling_store; [done|lia|done|]. intros s2 H2. by apply HQ.
Qed.

Fixpoint put_data (off : Z) (l : list Z) (img : Z -> option Z) : Z -> option Z :=
  match l with
  | [] => img
  | v :: l' => put_data (off + 1) l' (put off (u8 v) img)
  end.

Lemma data_loop_wp p s0 data n : forall k img (Q : unit -> machine -> Prop) s,
  tx_page p -> (k + n <= 8)%nat -> (k + n <= length data)%nat -> filling p img s0 s ->
  (forall s', filling p (put_data (6 + Z.of_nat k) (take n (drop k data)) img) s0 s' -> Q tt s') ->
  wp E (for_each (Z.of_nat <$> seq k n)
          (fun i => let! b := at_index data i in store (CAN_MDAR1 + i) b)) Q s.
Proof using CL.
  induction n as [|n IH]; intros k img Q s Htx Hk Hlen Hf HQ; simpl.
  - apply wp_ret, HQ. by rewrite firstn_O.
  - destruct (lookup_lt_is_Some_2 data k) as [b Hb]; [lia|].
    erewrite drop_S in HQ by done. cbn [take put_data] in HQ.
    apply wp_bind, wp_bind. rewrite (at_index_ok _ _ b) by (rewrite ?Nat2Z.id; done || lia). apply wp_ret.
    unfold CAN_MDAR1. rewrite <- Z.add_assoc.
    eapply filling_store; [done|lia|done|]. intros s1 H1.
    eapply IH; [done|lia|lia|done|]. intros s2 H2. apply HQ.
    by replace (6 + Z.of_nat k + 1) with (6 + Z.of_nat (S k)) by lia.
Qed.

Lemma set_data_wp p img s0 data (Q : unit -> machine -> Prop) s :
  tx_page p -> (8 <= length data)%nat -> filling p img s0 s ->
  (forall s', filling p (put_data 6 (take 8 data) img) s0 s' -> Q tt s') ->
  wp E (set_data data) Q s.
Proof using CL.
  intros Htx Hlen Hf HQ. eapply (data_loop_wp p s0 data 8 0); [done|lia|lia|done|]. by rewrite drop_0.
Qed.

(** Requesting transmission asks the cell for what the mailbox shows, and touches the
    control register of the mailbox only. *)
Lemma txrq_wp p img s0 (Q : unit -> machine -> Prop) s :
  tx_page p -> filling p img s0 s ->
  (forall page s',
     requested s' = requested s0 ++ [fun off => u8 (page off)] ->
     (forall off v, 1 <= off <= 13 -> img off = Some v -> page off = v) ->
     on_page p s' -> keeps (in_page p) s0 s' -> Q tt s') ->
  wp E (or_reg CAN_MCSR CAN_MCSR_TXRQ) Q s.
Proof using CL.
  intros Htx (Hp & Hk & Hr & Hi) HQ. unfold or_reg.
  assert (0 <= p < 8) by (unfold tx_page in Htx; lia).
  apply wp_bind, wp_load_any. intros v s1 _ K1 R1.
  assert (keeps (fun _ => False) s s1) as Hk1 by (split; [intros; by apply K1|done]).
  assert (on_page p s1) as Hp1 by (by apply (on_page_keeps (fun _ => False) p s); [intros []|..]).
  assert (cell (cells s1) CAN_MCSR = page_cell p 0) as Hc by by apply (on_page_cell p s1 0).
  apply wp_store. pose proof (keeps_store CAN_MCSR (Z.lor v CAN_MCSR_TXRQ) s1) as Hk2. rewrite Hc in Hk2.
  apply (HQ (page_of (cells s1) p)).
  - cbn [requested after_store]. unfold requests. rewrite Hc, mailbox_of_page by done.
    rewrite Z.lor_spec, orb_true_r. rewrite <- Hr. f_equal. apply (proj2 R1). by intros ? ? [].
  - intros o w Ho Hw. apply (page_keeps p o w (fun _ => False) s); auto.
  - apply (on_page_keeps (eq (page_cell p 0)) p s1); [apply page_cell_not_psr; lia|done|done].
  - apply (keeps_trans _ _ s); [done|]. apply (keeps_trans _ _ s1); [by eapply keeps_weaken|].
    eapply keeps_weaken; [done|]. intros d <-. right. exists 0. split; [lia|done].
Qed.
End Filling.

(** ** Identifiers and their bytes *)

Lemma ext_id_bytes id : 0 <= id < 2 ^ 29 ->
  Z.land CAN_EXTID_SIZE
    (Z.lor (Z.lor (Z.lor (u8 id) (u32 (Z.shiftl (u8 (Z.shiftr id 8)) 8)))
       (u32 (Z.shiftl (u8 (Z.shiftr id 16)) 16))) (u32 (Z.shiftl (Z.shiftr id 24) 24))) = id.
Proof.
  intros Hid. change CAN_EXTID_SIZE with (Z.ones 29). apply (bits_eq_bounded 29); [lia| |lia|].
  { rewrite Z.land_comm, Z.land_ones by lia. apply Z.mod_pos_bound. lia. }
  intros i Hi.
  destruct (Z.lt_ge_cases i 8); [bits; cmp; btauto|].
  destruct (Z.lt_ge_cases i 16); [bits; cmp; replace (i - 8 + 8) with i by lia; btauto|].
  destruct (Z.lt_ge_cases i 24); [bits; cmp; replace (i - 16 + 16) with i by lia; btauto|].
  bits; cmp; replace (i - 24 + 24) with i by lia; btauto.
Qed.

Lemma std_id_bytes id : 0 <= id < 2 ^ 11 ->
  Z.land CAN_STDID_SIZE
    (Z.lor (u16 (Z.shiftl (Z.shiftr id 6) 6)) (Z.land (u16 (Z.shiftr (u8 (Z.shiftl id 2)) 2)) 0x3F)) = id.
Proof.
  intros Hid. change CAN_STDID_SIZE with (Z.ones 11). change 0x3F with (Z.ones 6).
  apply (bits_eq_bounded 11); [lia| |lia|].
  { rewrite Z.land_comm, Z.land_ones by lia. apply Z.mod_pos_bound. lia. }
  intros i Hi.
  destruct (Z.lt_ge_cases i 6); [bits; cmp; replace (i + 2 - 2) with i by lia; btauto|].
  bits; cmp; replace (i - 6 + 6) with i by lia; btauto.
Qed.
Lemma midr1_bits a ide rtr : 0 <= a < 32 ->
    (ide = CAN_Id_Standard \/ ide = CAN_Id_Extended) -> (rtr = CAN_RTR_Data \/ rtr = CAN_RTR_Remote) ->
  let r := u8 (Z.lor (Z.lor a ide) rtr) in
  Z.land r 0x40 = ide /\ Z.land 0x20 r = rtr /\ Z.land r 0x1F = a /\ u8 r = r.
Proof.
  intros Ha Hi Hr r. repeat split; [| | |apply u8_small, u8_range]; apply Z.eqb_eq; unfold r; clear r; revert a Ha;
  apply (below_ind (fun a => _ =? _) 32); destruct Hi as [-> | ->], Hr as [-> | ->]; vm_compute; done.
Qed.

(** ** Sending *)

Section Send.
Context {HW : Hardware} {CL : CanLaws HW} {E : fault -> machine -> Prop}.

(** What the program sends: the parts of a frame that travel. *)
Definition sent_frame (id ide rtr dlc : Z) (data : list Z) : can_rx :=
  CanRx (Z.land id (if ide =? CAN_Id_Standard then CAN_STDID_SIZE else CAN_EXTID_SIZE))
    ide rtr dlc (take 8 data) 0.

(** The frames the driver is asked to send. *)
Definition frame_ok (id ide rtr dlc : Z) (data : list Z) : Prop :=
  is_u32 id /\ (ide = CAN_Id_Standard \/ ide = CAN_Id_Extended) /\
  (rtr = CAN_RTR_Data \/ rtr = CAN_RTR_Remote) /\ 0 <= dlc < 16 /\
  Forall is_u8 data /\ (8 <= length data)%nat.

(** A page shows a frame, whatever its filter match index. *)
Definition shows (page : Z -> Z) (f : can_rx) : Prop :=
  frame_of page = CanRx (_Id f) (_IDE f) (_RTR f) (_DLC f) (_Data f) (page 0).

(** The registers [CAN_Transmit] writes. *)
Definition put_frame (id ide rtr dlc dlcr : Z) (data : list Z) : Z -> option Z :=
  put_data 6 (take 8 data) (put 1 (u8 (Z.lor (u8 (u8 (Z.land dlcr 0xF0))) dlc))
    (put 1 (u8 (Z.land dlcr 0xF0)) (put_id id ide rtr (fun _ => None)))).

Lemma shiftr_range id n k : 0 <= n -> 0 <= k -> 0 <= id < 2 ^ (n + k) -> 0 <= Z.shiftr id n < 2 ^ k.
Proof.
  intros Hn Hk Hid. rewrite Z.shiftr_div_pow2 by lia. split.
  - apply Z.div_pos; lia.
  - apply Z.div_lt_upper_bound; [lia|]. rewrite <- Z.pow_add_r by lia. lia.
Qed.

Lemma shows_frame id ide rtr dlc dlcr data (page : Z -> Z) :
  frame_ok id ide rtr dlc data -> is_u8 dlcr ->
  (forall off v, 1 <= off <= 13 -> put_frame id ide rtr dlc dlcr data off = Some v -> page off = v) ->
  shows (fun off => u8 (page off)) (sent_frame id ide rtr dlc data).
Proof.
  intros (Hid & Hide & Hrtr & Hdlc & Hdata & Hlen) Hdlcr Hp.
  destruct data as [|d0 [|d1 [|d2 [|d3 [|d4 [|d5 [|d6 [|d7 rest]]]]]]]]; simpl in Hlen; try lia.
  repeat (apply Forall_cons_1 in Hdata as [?Hb Hdata]).
  assert (Z.land (u8 (Z.lor (u8 (Z.land dlcr 0xF0)) dlc)) 0x0F = dlc) as Hd.
  { change 0x0F with (Z.ones 4). change 0xF0 with (Z.lxor (Z.ones 8) (Z.ones 4)).
    apply (bits_eq_bounded 4); [lia| |lia|].
    { rewrite Z.land_ones by lia. apply Z.mod_pos_bound. lia. }
    intros i Hi. bits. cmp. btauto. }
  unfold put_frame in Hp. rewrite !u8_u8 in Hp.
  unfold shows, frame_of, sent_frame. cbn [_Id _IDE _RTR _DLC _Data].
  rewrite (Hp 1 _ ltac:(lia) eq_refl), u8_u8, Hd.
  rewrite (Hp 6 _ ltac:(lia) eq_refl), (Hp 7 _ ltac:(lia) eq_refl), (Hp 8 _ ltac:(lia) eq_refl),
    (Hp 9 _ ltac:(lia) eq_refl), (Hp 10 _ ltac:(lia) eq_refl), (Hp 11 _ ltac:(lia) eq_refl),
    (Hp 12 _ ltac:(lia) eq_refl), (Hp 13 _ ltac:(lia) eq_refl), !u8_u8.
  rewrite (u8_small d0), (u8_small d1), (u8_small d2), (u8_small d3), (u8_small d4), (u8_small d5),
    (u8_small d6), (u8_small d7) by done.
  destruct Hide as [-> | ->].
  - set (i := Z.land id CAN_STDID_SIZE). assert (0 <= i < 2 ^ 11) as Hi.
    { unfold i. change CAN_STDID_SIZE with (Z.ones 11). rewrite Z.land_ones by lia. apply Z.mod_pos_bound. lia. }
    pose proof (Hp 2 _ ltac:(lia) eq_refl) as H2. pose proof (Hp 3 _ ltac:(lia) eq_refl) as H3.
    cbn -[Z.land Z.lor Z.shiftr Z.shiftl u8] in H2, H3. fold i in H2, H3. rewrite !u8_u8 in H2, H3.
    destruct (midr1_bits (Z.shiftr i 6) CAN_Id_Standard rtr) as (B1 & B2 & B3 & B4);
      [apply (shiftr_range i 6 5); lia|by left|done|].
    change (Z.lor (Z.shiftr i 6) CAN_Id_Standard) with (Z.lor (Z.shiftr i 6) 0) in *. rewrite Z.lor_0_r in B1, B2, B3, B4.
    rewrite H2, H3, !u8_u8, B1, B2, B3. cbn [negb Z.eqb CAN_Id_Standard].
    f_equal. rewrite (u16_small (Z.shiftr i 6)). 2: { pose proof (shiftr_range i 6 5). unfold is_u16. lia. }
    by apply std_id_bytes.
  - set (i := Z.land id CAN_EXTID_SIZE). assert (0 <= i < 2 ^ 29) as Hi.
    { unfold i. change CAN_EXTID_SIZE with (Z.ones 29). rewrite Z.land_ones by lia. apply Z.mod_pos_bound. lia. }
    pose proof (Hp 2 _ ltac:(lia) eq_refl) as H2. pose proof (Hp 3 _ ltac:(lia) eq_refl) as H3.
    pose proof (Hp 4 _ ltac:(lia) eq_refl) as H4. pose proof (Hp 5 _ ltac:(lia) eq_refl) as H5.
    cbn -[Z.land Z.lor Z.shiftr Z.shiftl u8] in H2, H3, H4, H5. fold i in H2, H3, H4, H5.
    rewrite !u8_u8 in H2, H3, H4, H5.
    replace (Z.shiftr (Z.shiftr (Z.shiftr i 8) 8) 8) with (Z.shiftr i 24) in H2
      by (rewrite !Z.shiftr_shiftr by lia; done).
    replace (Z.shiftr (Z.shiftr i 8) 8) with (Z.shiftr i 16) in H3 by (rewrite Z.shiftr_shiftr by lia; done).
    destruct (midr1_bits (Z.shiftr i 24) CAN_Id_Extended rtr) as (B1 & B2 & B3 & B4);
      [apply (shiftr_range i 24 5); lia|by right|done|].
    rewrite H2, H3, H4, H5, !u8_u8, B1, B2, B3. cbn [negb Z.eqb CAN_Id_Extended].
    f_equal. by apply ext_id_bytes.
Qed.
End Send.

Section Transmit.
Context {HW : Hardware} {CL : CanLaws HW} {E : fault -> machine -> Prop}.

(** [s'] has asked for one frame more than [s], which is [f]. *)
Definition asked_for (f : can_rx) (s s' : machine) : Prop :=
  exists page, requested s' = requested s ++ [page] /\ shows page f.

(** The first transmit mailbox that [CAN->TPR] shows empty, asked for one after the other. *)
Definition first_free (s : machine) : Z :=
  let s1 := after_load CAN_TPR s in let s2 := after_load CAN_TPR s1 in
  if Z.testbit (shown CAN_TPR s) 2 then CAN_Page_TxMailBox0
  else if Z.testbit (shown CAN_TPR s1) 3 then CAN_Page_TxMailBox1
  else if Z.testbit (shown CAN_TPR s2) 4 then CAN_Page_TxMailBox2
  else CAN_TxStatus_NoMailBox.

(** What [CAN_Transmit] answers, and what it has done: the frame was put into the first
    free mailbox and its transmission requested, or no mailbox was free and nothing was
    asked for. *)
Definition transmitted (st : Z) (f : can_rx) (s s' : machine) : Prop :=
  st = first_free (after_load CAN_PSR s) /\
  ((st = CAN_TxStatus_NoMailBox /\ keeps (eq CAN_PSR) s s') \/
   (tx_page st /\ asked_for f s s' /\ keeps (in_page st) s s')).

(** The requests after [CAN_Transmit]: one more, or none. *)
Lemma transmitted_requested st f s s' :
  transmitted st f s s' ->
  if first_free (after_load CAN_PSR s) =? CAN_TxStatus_NoMailBox then requested s' = requested s else asked_for f s s'.
Proof.
  intros [<- [[-> [_ [_ HT]]] | (Htx & Ha & _)]].
  - simpl. apply HT. by intros p [-> | [-> | ->]].
  - destruct Htx as [-> | [-> | ->]]; exact Ha.
Qed.

Lemma flag_testbit v k : 0 <= k -> (Z.land v (2 ^ k) =? 2 ^ k) = Z.testbit v k.
Proof.
  intros Hk. destruct (Z.testbit v k) eqn:Hb.
  - apply Z.eqb_eq, Z.bits_inj'. intros i Hi. rewrite Z.land_spec, Z.pow2_bits_eqb by done.
    destruct (Z.eqb_spec k i) as [<-|]; [by rewrite Hb|by rewrite andb_false_r].
  - apply Z.eqb_neq. intros H. apply (f_equal (fun z => Z.testbit z k)) in H.
    rewrite Z.land_spec, Z.pow2_bits_true, Hb in H by done. done.
Qed.

Lemma select_mailbox_wp (Q : Z -> machine -> Prop) s :
  (forall s', first_free s = CAN_TxStatus_NoMailBox \/ tx_page (first_free s) ->
     keeps (fun _ => False) s s' -> Q (first_free s) s') ->
  wp E select_mailbox Q s.
Proof.
  intros HQ. unfold select_mailbox. revert HQ. unfold first_free. intros HQ.
  set (s1 := after_load CAN_TPR s) in *. set (s2 := after_load CAN_TPR s1) in *.
  assert (keeps (fun _ => False) s s1) as K1 by apply keeps_after_load.
  assert (keeps (fun _ => False) s s2) as K2 by (eapply keeps_trans; [exact K1|apply keeps_after_load]).
  assert (keeps (fun _ => False) s (after_load CAN_TPR s2)) as K3
    by (eapply keeps_trans; [exact K2|apply keeps_after_load]).
  apply wp_bind, wp_load_shown. fold s1. rewrite (flag_testbit _ 2) by done.
  destruct (Z.testbit (shown CAN_TPR s) 2); [by apply wp_ret, HQ; [right; left|]|].
  apply wp_bind, wp_load_shown. fold s2. rewrite (flag_testbit _ 3) by done.
  destruct (Z.testbit (shown CAN_TPR s1) 3); [by apply wp_ret, HQ; [right; right; left|]|].
  apply wp_bind, wp_load_shown. rewrite (flag_testbit _ 4) by done.
  destruct (Z.testbit (shown CAN_TPR s2) 4); apply wp_ret, HQ; try done; [right; right; by right|by left].
Qed.

Lemma CAN_Transmit_wp id ide rtr dlc data (Q : Z -> machine -> Prop) s :
  frame_ok id ide rtr dlc data ->
  (forall st s', transmitted st (sent_frame id ide rtr dlc data) s s' ->
     on_page (Z.land (cells s CAN_PSR) 7) s' -> Q st s') ->
  wp E (CAN_Transmit id ide rtr dlc data) Q s.
Proof using CL.
  intros Hf HQ. unfold CAN_Transmit.
  apply wp_bind. unfold CAN_GetSelectedPage. apply wp_load_shown.
  set (s1 := after_load CAN_PSR s) in *. assert (keeps (fun _ => False) s s1) as K1 by apply keeps_after_load.
  assert (shown CAN_PSR s = Z.land (cells s CAN_PSR) 7) as ->.
  { unfold shown, hw. rewrite psr_load. apply u8_small. pose proof (psr_low (cells s)). unfold is_u8. lia. }
  apply wp_bind, select_mailbox_wp. intros s2 Hst K2.
  unfold transmitted in HQ. fold s1 in HQ. specialize (HQ (first_free s1)).
  generalize dependent (first_free s1). intros st HQ Hst.
  assert (keeps (fun _ => False) s s2) as K02 by by apply (keeps_trans _ _ s1).
  set (page := Z.land (cells s CAN_PSR) 7) in *.
  assert (Z.land (u8 (u8 page)) 7 = page) as Hpage.
  { pose proof (psr_low (cells s)). fold page in H. rewrite u8_u8, u8_small by (unfold is_u8; lia).
    change 7 with (Z.ones 3). rewrite Z.land_ones by lia. apply Z.mod_small. lia. }
  apply wp_bind. apply wp_when; intros Hmb.
  - destruct Hst as [-> | Htx]; [done|]. assert (0 <= st < 8) as Hr by (unfold tx_page in Htx; lia).
    apply wp_bind, wp_store_psr. intros s3 Hp3 K3.
    assert (filling st (fun _ => None) s s3) as F3.
    { split; [|split; [|split; [|done]]].
      - rewrite u8_u8, u8_small in Hp3 by (unfold is_u8; lia). change 7 with (Z.ones 3) in Hp3.
        rewrite Z.land_ones, Z.mod_small in Hp3 by lia. done.
      - apply (keeps_trans _ _ s2); [by eapply keeps_weaken|]. eapply keeps_weaken; [done|].
        intros d <-. by left.
      - destruct K02 as [_ [_ T2]], K3 as [_ [_ T3]]. rewrite T3, T2; [done|by intros ? ? []|].
        intros q Hq Heq. by apply (page_cell_not_psr q 0); [unfold tx_page in Hq; lia|lia|]. }
    apply wp_bind. eapply set_id_wp; [done|done|]. intros s4 F4.
    apply wp_bind. unfold and_reg.
    apply wp_bind. eapply filling_load; [done|lia|done|]. intros dlcr s5 F5 Hdlcr.
    eapply filling_store; [done|lia|done|]. intros s6 F6.
    apply wp_bind. unfold or_reg at 1.
    apply wp_bind. apply (wp_load_tx st); [done|lia|by destruct F6|]. intros s7 Hp7 K7.
    assert (page_of (cells s6) st 1 = u8 (Z.land dlcr 0xF0)) as -> by (destruct F6 as (_ & _ & _ & F6); apply F6; [lia|done]).
    assert (filling st (put 1 (u8 (Z.land dlcr 0xF0)) (put_id id ide rtr (fun _ => None))) s s7) as F7.
    { destruct F6 as (_ & Kf & Hr6 & Hi). split; [done|]. split; [|split].
      - apply (keeps_trans _ _ s6); [done|]. eapply keeps_weaken; [done|]. by intros d [].
      - rewrite <- Hr6. apply K7. by intros ? ? [].
      - intros o w Ho Hw. apply (page_keeps st o w (fun _ => False) s6); auto. }
    eapply filling_store; [done|lia|done|]. intros s8 F8.
    apply wp_bind. eapply set_data_wp; [done|by destruct Hf as (_ & _ & _ & _ & _ & ?)|done|]. intros s9 F9.
    eapply txrq_wp; [done|done|]. intros pg s10 Hr10 Hi10 Hp10 K10.
    apply wp_bind. unfold CAN_SelectPage. apply wp_store_psr. intros s11 Hp11 K11.
    apply wp_ret, HQ; [|by rewrite Hpage in Hp11].
    split; [done|]. right. split; [done|]. split.
    + exists (fun off => u8 (pg off)). split; [|by eapply shows_frame; [done|exact Hdlcr|]].
      rewrite <- Hr10. apply K11. intros q Hq Heq.
      by apply (page_cell_not_psr q 0); [unfold tx_page in Hq; lia|lia|].
    + apply (keeps_trans _ _ s10); [done|]. eapply keeps_weaken; [done|]. intros d <-. by left.
  - assert (st = CAN_TxStatus_NoMailBox) as -> by (apply negb_false_iff, Z.eqb_eq in Hmb; done).
    apply wp_bind. unfold CAN_SelectPage. apply wp_store_psr. intros s11 Hp11 K11.
    apply wp_ret, HQ; [|by rewrite Hpage in Hp11]. split; [done|]. left. split; [done|].
    apply (keeps_trans _ _ s2); [by eapply keeps_weaken|done].
Qed.
End Transmit.

(** ** Receiving *)

Section Receive.
Context {HW : Hardware} {CL : CanLaws HW} {E : fault -> machine -> Prop}.

(** [fetching pg s0 s]: since [s0], where a frame was pending with page [pg],
    the FIFO page was selected and nothing else changed. *)
Definition fetching (s0 s : machine) : Prop :=
  fifo_pending (cells s) = true /\ on_page 7 s /\ keeps (eq CAN_PSR) s0 s /\
  forall off, 0 <= off < 16 -> page_of (cells s) 7 off = page_of (cells s0) 7 off.

Lemma fetch_load s0 off (Q : Z -> machine -> Prop) s :
  0 <= off < 16 -> fetching s0 s ->
  (forall s', fetching s0 s' -> Q (u8 (page_of (cells s0) 7 off)) s') ->
  wp E (load (CAN_Page + off)) Q s.
Proof using CL.
  intros Hoff (Hf & Hp & Hk & Hpg) HQ. apply wp_load. intros v p Hl _.
  assert (cell (cells s) (CAN_Page + off) = page_cell 7 off) as Hc by by apply on_page_cell.
  pose proof (rx_load off _ (cells s) (hid s) Hf Hoff Hc) as Hv.
  destruct (rx_keep_load (CAN_Page + off) (cells s) (hid s) Hf) as [Hf' Hpg'].
  apply (keeps_load (fun _ => False)) in Hl as Hk'. unfold hw in Hl. rewrite Hl in Hv, Hf', Hpg'. simpl in *. subst v.
  fold (page_of (cells s) 7 off). rewrite Hpg by done. apply HQ.
  split; [done|]. split; [apply (on_page_keeps (fun _ => False) 7 s); [by intros []|done|done]|]. split.
  - apply (keeps_trans _ _ s); [done|]. eapply keeps_weaken; [done|]. by intros d [].
  - intros o Ho. unfold page_of at 1. simpl. rewrite Hpg' by done. by apply Hpg.
Qed.

Lemma fetch_id_wp s0 ide (Q : Z -> machine -> Prop) s :
  fetching s0 s ->
  (forall s', fetching s0 s' ->
     Q (if negb (ide =? 0)
        then Z.land CAN_EXTID_SIZE (Z.lor (Z.lor (Z.lor (u8 (page_of (cells s0) 7 5))
               (u32 (Z.shiftl (u8 (page_of (cells s0) 7 4)) 8)))
               (u32 (Z.shiftl (u8 (page_of (cells s0) 7 3)) 16)))
               (u32 (Z.shiftl (Z.land (u8 (page_of (cells s0) 7 2)) 0x1F) 24)))
        else Z.land CAN_STDID_SIZE
               (Z.lor (u16 (Z.shiftl (u16 (Z.land (u8 (page_of (cells s0) 7 2)) 0x1F)) 6))
                  (Z.land (u16 (Z.shiftr (u8 (page_of (cells s0) 7 3)) 2)) 0x3F))) s') ->
  wp E (fetch_id ide) Q s.
Proof using CL.
  intros Hf HQ. unfold fetch_id. unfold CAN_Id_Standard. destruct (negb (ide =? 0)).
  - apply wp_bind, (fetch_load s0); [lia|done|]. intros s1 F1.
    apply wp_bind, (fetch_load s0); [lia|done|]. intros s2 F2.
    apply wp_bind, (fetch_load s0); [lia|done|]. intros s3 F3.
    apply wp_bind, (fetch_load s0); [lia|done|]. intros s4 F4.
    by apply wp_ret, HQ.
  - apply wp_bind, (fetch_load s0); [lia|done|]. intros s1 F1.
    apply wp_bind, (fetch_load s0); [lia|done|]. intros s2 F2.
    by apply wp_ret, HQ.
Qed.

Lemma fetch_data_wp s0 n : forall off (Q : list Z -> machine -> Prop) s,
  0 <= off -> off + Z.of_nat n <= 16 -> fetching s0 s ->
  (forall s', fetching s0 s' ->
     Q ((fun k => u8 (page_of (cells s0) 7 (off + Z.of_nat k))) <$> seq 0 n) s') ->
  wp E (fetch_data (CAN_Page + off) n) Q s.
Proof using CL.
  induction n as [|n IH]; intros off Q s Hoff Hn Hf HQ; simpl; [by apply wp_ret, HQ|].
  apply wp_bind, (fetch_load s0); [lia|done|]. intros s1 F1.
  apply wp_bind. rewrite <- Z.add_assoc. apply IH; [lia|lia|done|]. intros s2 F2.
  apply wp_ret. specialize (HQ s2 F2). simpl in HQ. rewrite Z.add_0_r in HQ.
  rewrite <- seq_shift, <- list_fmap_compose in HQ.
  erewrite list_fmap_ext; [exact HQ|]. intros k x _. unfold compose.
  by replace (off + 1 + Z.of_nat x) with (off + Z.of_nat (S x)) by lia.
Qed.

(** The frame that was pending is fetched, the FIFO released, and the selected
    page restored. *)
Lemma CAN_Receive_wp (Q : unit -> machine -> Prop) s :
  fifo_pending (cells s) = true ->
  (forall s', rx s' = frame_of (fun off => u8 (page_of (cells s) 7 off)) ->
     on_page (Z.land (cells s CAN_PSR) 7) s' ->
     (forall d, stable d -> d <> CAN_PSR -> d <> CAN_RFR -> cells s' d = cells s d) -> Q tt s') ->
  wp E CAN_Receive Q s.
Proof using CL.
  intros Hf HQ. unfold CAN_Receive.
  set (page := Z.land (cells s CAN_PSR) 7) in *.
  assert (Z.land (u8 (u8 page)) 7 = page) as Hpage.
  { pose proof (psr_low (cells s)). fold page in H. rewrite u8_u8, u8_small by (unfold is_u8; lia).
    change 7 with (Z.ones 3). rewrite Z.land_ones by lia. apply Z.mod_small. lia. }
  apply wp_bind. unfold CAN_GetSelectedPage. apply wp_load. intros v p Hl _.
  destruct (rx_keep_load CAN_PSR (cells s) (hid s) Hf) as [Hf1 Hpg1].
  pose proof (psr_load (cells s) (hid s)) as Hv. unfold hw in Hl. rewrite Hl in Hv, Hf1, Hpg1. simpl in Hv, Hf1, Hpg1.
  fold page in Hv. subst v.
  assert (keeps (fun _ => False) s (set_hw p s)) as K1.
  { by apply (keeps_load _ CAN_PSR page). }
  set (s1 := set_hw p s) in *.
  apply wp_bind, wp_store.
  destruct (rx_keep_psr (u8 CAN_Page_RxFifo) (cells s1) (hid s1) Hf1) as [Hf2 Hpg2].
  pose proof (keeps_store CAN_PSR CAN_Page_RxFifo s1) as K2. set (s2 := after_store _ _ s1) in *.
  assert (fetching s s2) as F2.
  { split; [done|]. split; [unfold on_page, s2; simpl; unfold hw; by rewrite psr_store|]. split.
    - apply (keeps_trans _ _ s1); [eapply keeps_weaken; [done|by intros d []]|].
      exact K2.
    - intros off Hoff. unfold page_of. etransitivity; [by apply Hpg2|]. by apply Hpg1. }
  clearbody s2.
  apply wp_bind, (fetch_load s); [lia|done|]. intros s3 F3.
  apply wp_bind, (fetch_id_wp s); [done|]. intros s4 F4.
  apply wp_bind, (fetch_load s); [lia|done|]. intros s5 F5.
  apply wp_bind, (fetch_load s); [lia|done|]. intros s6 F6.
  apply wp_bind, (fetch_load s); [lia|done|]. intros s7 F7.
  apply wp_bind, (fetch_data_wp s); [lia|lia|done|]. intros s8 (_ & _ & K8 & _).
  apply wp_bind, wp_wr, wp_bind. unfold CAN_FIFORelease. apply wp_store_any. intros s9 K9 R9.
  unfold CAN_SelectPage. apply wp_store_psr. intros s10 Hp10 K10.
  apply HQ.
  - destruct K10 as [_ [-> _]]. rewrite (proj1 R9). simpl. unfold frame_of.
    rewrite (Z.land_comm 0x20), !u8_land by apply u8_range. by rewrite (Z.land_comm _ 0x20).
  - by rewrite u8_u8, Hpage in Hp10.
  - intros d Hd Hn Hr. destruct K10 as [K10 _]. rewrite K10 by (done || congruence).
    rewrite K9; [|done|by rewrite cell_unpaged]. simpl. destruct K8 as [K8 _]. apply K8; [done|congruence].
Qed.
End Receive.

(** ** Safety of receiving, whatever the hardware does *)

Definition rx_ok (r : can_rx) : Prop :=
  length (_Data r) = 8%nat /\ Forall is_u8 (_Data r) /\ 0 <= _DLC r < 16 /\ 0 <= _Id r < 2 ^ 29 /\
  is_u8 (_IDE r) /\ is_u8 (_RTR r).

Lemma land_low_range a n : 0 <= n -> 0 <= Z.land a (Z.ones n) < 2 ^ n.
Proof. intros Hn. rewrite Z.land_ones by lia. apply Z.mod_pos_bound. lia. Qed.

Section ReceiveSafe.
Context {HW : Hardware}.

(** What a step of [CAN_Receive] keeps. *)
Definition keeps_rx (s s' : machine) : Prop := forall d, stable d -> ~ can_cell d -> cells s' d = cells s d.

Lemma fetch_id_safe ide s : wp total (fetch_id ide) (fun id s' => 0 <= id < 2 ^ 29 /\ keeps can_cell s s') s.
Proof.
  assert (touches can_cell (fetch_id ide)) as Ht by (unfold fetch_id; touch).
  specialize (Ht s). unfold wp, fetch_id in *. revert Ht. unfold bind, load, ret.
  destruct (negb (ide =? CAN_Id_Standard)).
  - repeat (destruct (hw_load _ _) as [? ?]). intros H. split; [|done].
    rewrite Z.land_comm. change CAN_EXTID_SIZE with (Z.ones 29). apply land_low_range. lia.
  - repeat (destruct (hw_load _ _) as [? ?]). intros H. split; [|done].
    rewrite Z.land_comm. change CAN_STDID_SIZE with (Z.ones 11).
    match goal with |- 0 <= Z.land ?x _ < _ => pose proof (land_low_range x 11); lia end.
Qed.

Lemma fetch_data_safe n : forall a s,
  wp total (fetch_data a n) (fun l s' => length l = n /\ Forall is_u8 l /\ keeps can_cell s s') s.
Proof.
  induction n as [|n IH]; intros a s; simpl; [by apply wp_ret|].
  apply wp_bind, wp_load_any. intros v s1 Hv K1 R1.
  apply wp_bind. eapply wp_mono; [apply IH|]. intros l s2 (Hlen & Hl & K2).
  apply wp_ret. split; [simpl; lia|]. split; [by constructor|].
  apply (keeps_trans _ _ s1); [|done]. split; [intros d Hd _; by apply K1|by apply vars_none].
Qed.

Lemma CAN_Receive_safe s :
  wp total CAN_Receive (fun _ s' => rx_ok (rx s') /\ keeps_rx s s') s.
Proof.
  unfold CAN_Receive.
  apply wp_bind. eapply wp_mono; [apply (touches_CAN_GetSelectedPage can_cell)|]. intros page s1 K1.
  apply wp_bind. eapply wp_mono; [apply (touches_can_store 7); lia|]. intros [] s2 K2.
  apply wp_bind, wp_load_any. intros midr1 s3 _ K3 R3.
  apply wp_bind. eapply wp_mono; [apply fetch_id_safe|]. intros id s4 [Hid K4].
  apply wp_bind, wp_load_any. intros midr1' s5 Hm5 K5 R5.
  apply wp_bind, wp_load_any. intros mdlcr s6 Hm6 K6 R6.
  apply wp_bind, wp_load_any. intros fmi s7 _ K7 R7.
  apply wp_bind. eapply wp_mono; [apply fetch_data_safe|]. intros data s8 (Hlen & Hdata & K8).
  apply wp_bind, wp_wr, wp_bind.
  eapply wp_mono; [apply (touches_can_store 4); lia|]. intros [] s9 K9.
  eapply wp_mono; [apply touches_CAN_SelectPage|]. intros [] s10 K10.
  split.
  - destruct K10 as [_ [-> _]], K9 as [_ [-> _]]. unfold rx_ok. cbn [f_rx fset rx _Data _DLC _Id _IDE _RTR].
    split; [done|]. split; [done|]. split.
    + rewrite u8_land by done. change 0x0F with (Z.ones 4). apply land_low_range. lia.
    + split; [done|]. split; apply u8_range.
  - intros d Hd Hn. destruct K10 as [K10 _], K9 as [K9 _], K8 as [K8 _], K4 as [K4 _], K2 as [K2 _], K1 as [K1 _].
    rewrite K10, K9 by done. cbn [f_rx fset cells]. rewrite K8, K7, K6, K5, K4, K3, K2, K1 by done. done.
Qed.
End ReceiveSafe.
