(* ===== verification/Sim.v ===== *)
(** A concrete hardware that satisfies every law of the library.

    It is a memory with the few active registers the drivers rely on: the page
    selector, the EEPROM lock, the mode acknowledgement of the CAN cell, the FIFO
    release and the clear-by-zero flag of TIM4.  The witnesses of the theorems run
    the firmware on it. *)

From S2P Require Import Prelude Monad Machine Gpio Tim4 Flash CanDrv CanRules.

(** The hidden state is the last key written to [FLASH->DUKR]. *)
Definition eeprom_addr (a : Z) : bool :=
  (FLASH_DATA_START_PHYSICAL_ADDRESS <=? a) && (a <=? FLASH_DATA_END_PHYSICAL_ADDRESS).

Definition sim_load (a : Z) (s : mem * Z) : Z * (mem * Z) :=
  let '(m, h) := s in
  (if a =? CAN_PSR then Z.land (m CAN_PSR) 7 else m (cell m a), (m, h)).

Definition sim_store (a w : Z) (s : mem * Z) : mem * Z :=
  let '(m, h) := s in let v := u8 w in
  if a =? CAN_PSR then (upd m a (Z.land v 7), h)
  else if a =? FLASH_DUKR then
    (if (h =? FLASH_RASS_KEY2) && (v =? FLASH_RASS_KEY1)
     then upd m FLASH_IAPSR (Z.lor (m FLASH_IAPSR) FLASH_IAPSR_DUL) else m, v)
  else if a =? CAN_MCR then (upd (upd m a v) CAN_MSR (Z.land v 3), h)
  else if a =? CAN_RFR then
    (if Z.testbit v 5 && negb (Z.land (m a) 3 =? 0) then upd m a (m a - 1) else m, h)
  else if a =? TIM4_SR1 then (upd m a (Z.land (m a) v), h)
  else if a =? FLASH_IAPSR then (upd m a (Z.land v (Z.lor (m a) 0xF7)), h)
  else if eeprom_addr a then (if unlocked m then upd m a v else m, h)
  else (upd m (cell m a) v, h).

#[export] Instance sim : Hardware := {|
  hidden := Z;
  hw_load := sim_load;
  hw_store := sim_store;
  indet := fun _ k => 0x5A + k
|}.

(** The active cells: the ones a store elsewhere may change, or that a store sets
    to something else than the stored byte. *)
Definition active (c : Z) : bool :=
  (c =? CAN_PSR) || (c =? FLASH_IAPSR) || (c =? FLASH_DUKR) || (c =? CAN_MCR) || (c =? CAN_MSR) ||
  (c =? CAN_RFR) || (c =? TIM4_SR1) || eeprom_addr c.

Lemma active_false c :
  active c = false ->
  c <> CAN_PSR /\ c <> FLASH_IAPSR /\ c <> FLASH_DUKR /\ c <> CAN_MCR /\ c <> CAN_MSR /\
  c <> CAN_RFR /\ c <> TIM4_SR1 /\ eeprom_addr c = false.
Proof. unfold active. rewrite !orb_false_iff, !Z.eqb_neq. tauto. Qed.

Lemma cell_self m a : a = CAN_PSR \/ a = FLASH_DUKR \/ a = CAN_MCR \/ a = CAN_RFR \/ a = TIM4_SR1 \/ a = FLASH_IAPSR ->
  cell m a = a.
Proof. intros H. apply cell_unpaged. by destruct H as [-> | [-> | [-> | [-> | [-> | ->]]]]]. Qed.

Lemma eeprom_addr_spec a : eeprom_addr a = true <-> eeprom a.
Proof. unfold eeprom_addr, eeprom. by rewrite andb_true_iff, !Z.leb_le. Qed.

(** Every other cell is a latch. *)
Lemma sim_latch c : active c = false -> @latch sim c.
Proof.
  intros Hc. apply active_false in Hc as (N1 & N2 & N3 & N4 & N5 & N6 & N7 & N8).
  unfold latch. simpl. split; [|split; [|split]].
  - intros a m h Ha. destruct (Z.eqb_spec a CAN_PSR) as [->|]; simpl; [|by rewrite Ha].
    rewrite cell_self in Ha by tauto. congruence.
  - intros a w m h Ha.
    assert (a <> CAN_PSR /\ a <> FLASH_DUKR /\ a <> CAN_MCR /\ a <> CAN_RFR /\ a <> TIM4_SR1 /\ a <> FLASH_IAPSR)
      as (A1 & A2 & A3 & A4 & A5 & A6).
    { repeat split; intros ->; rewrite cell_self in Ha by tauto; congruence. }
    apply Z.eqb_neq in A1, A2, A3, A4, A5, A6. rewrite A1, A2, A3, A4, A5, A6.
    destruct (eeprom_addr a) eqn:He; simpl.
    + rewrite cell_unpaged in Ha by (by apply eeprom_unpaged, eeprom_addr_spec). congruence.
    + rewrite Ha, upd_eq. done.
  - intros a m h. simpl. done.
  - intros a w m h Ha. repeat case_match; simpl; rewrite ?upd_ne; try done.
    all: repeat match goal with H : (_ =? _) = true |- _ => apply Z.eqb_eq in H; subst end; try done.
    intros <-. congruence.
Qed.

Lemma sim_stable c : c = CAN_PSR \/ eeprom c -> @stable sim c.
Proof.
  intros Hc. assert (c <> FLASH_IAPSR /\ c <> CAN_MSR) as (N1 & N2).
  { split; intros ->; by destruct Hc as [Hc | Hc]; [|apply eeprom_addr_spec in Hc]. }
  assert (forall m, cell m c = c) as Hcell.
  { intros m. apply cell_unpaged. destruct Hc as [-> | Hc]; [done|by apply eeprom_unpaged]. }
  split; [intros a m h; done|]. intros a w m h Ha.
  assert (a <> c) as Hac by (intros ->; by rewrite Hcell in Ha).
  simpl. repeat case_match; simpl; rewrite ?upd_ne; done.
Qed.

#[export] Instance sim_gpio : GpioLaws sim.
Proof.
  constructor. intros p Hp. pose proof (gpio_port_range p Hp) as Hr.
  repeat split_and!; apply sim_latch;
    unfold active, eeprom_addr, GPIO_ODR, GPIO_DDR, GPIO_CR1, GPIO_CR2, CAN_PSR, FLASH_IAPSR, FLASH_DUKR,
      CAN_MCR, CAN_MSR, CAN_RFR, TIM4_SR1, CAN_BaseAddress, FLASH_BaseAddress, TIM4_BaseAddress,
      FLASH_DATA_START_PHYSICAL_ADDRESS, FLASH_DATA_END_PHYSICAL_ADDRESS; cmp; done.
Qed.

#[export] Instance sim_tim4 : Tim4Laws sim.
Proof.
  constructor; [by apply latch_stable, sim_latch| |by apply sim_latch].
  intros v m h. assert (hw_store TIM4_PSCR v (m, h) = (upd m TIM4_PSCR (u8 v), h)) as -> by reflexivity.
  cbn [fst]. rewrite upd_eq. apply Z.bits_inj'. intros i Hi. change 7 with (Z.ones 3). bits.
  cmp; btauto.
Qed.

#[export] Instance sim_flash : FlashLaws sim.
Proof.
  constructor.
  - intros a Ha. apply sim_stable. by right.
  - intros a m h Ha. simpl. rewrite cell_unpaged by by apply eeprom_unpaged.
    destruct (Z.eqb_spec a CAN_PSR) as [->|]; [by apply eeprom_addr_spec in Ha|done].
  - intros a v m h Ha. apply eeprom_addr_spec in Ha as Hb. simpl. rewrite Hb.
    assert (forall b, eeprom_addr b = false -> (a =? b) = false) as Hn.
    { intros b Hbb. apply Z.eqb_neq. intros ->. congruence. }
    rewrite !Hn by done. destruct (unlocked m); simpl; [by rewrite upd_eq|done].
  - done.
  - intros a v m h Ha Hd. unfold unlocked. f_equal.
    assert (forall m, FLASH_IAPSR <> cell m a) as Hcell.
    { intros m' Heq. apply Ha, (cell_eq m'); [done|congruence]. }
    simpl. apply Z.eqb_neq in Hd. rewrite Hd.
    repeat case_match; simpl; rewrite ?upd_ne; try done; try congruence.
    all: intros <-; match goal with H : eeprom_addr _ = true |- _ => by vm_compute in H end.
  - intros [m h].
    change (hw_store FLASH_DUKR FLASH_RASS_KEY1 (hw_store FLASH_DUKR FLASH_RASS_KEY2 (m, h)))
      with (sim_store FLASH_DUKR FLASH_RASS_KEY1 (sim_store FLASH_DUKR FLASH_RASS_KEY2 (m, h))).
    assert (sim_store FLASH_DUKR FLASH_RASS_KEY1 (sim_store FLASH_DUKR FLASH_RASS_KEY2 (m, h)) =
            (upd m FLASH_IAPSR (Z.lor (m FLASH_IAPSR) FLASH_IAPSR_DUL), FLASH_RASS_KEY1)) as ->.
    { unfold sim_store at 2. cbn [fst snd]. destruct (h =? FLASH_RASS_KEY2); reflexivity. }
    unfold unlocked. cbn [fst]. rewrite upd_eq, Z.lor_spec. apply orb_true_r.
  - intros v m h.
    assert (hw_store FLASH_IAPSR v (m, h) = (upd m FLASH_IAPSR (Z.land (u8 v) (Z.lor (m FLASH_IAPSR) 0xF7)), h))
      as -> by reflexivity.
    unfold unlocked. cbn [fst]. rewrite upd_eq, Z.land_spec, Z.lor_spec, testbit_u8 by lia.
    change (Z.testbit 0xF7 3) with false. rewrite orb_false_r. apply andb_comm.
Qed.

#[export] Instance sim_can : CanLaws sim.
Proof.
  constructor.
  - intros m h. reflexivity.
  - intros v m h. assert (fst (hw_store CAN_PSR v (m, h)) CAN_PSR = Z.land (u8 v) 7) as -> by reflexivity.
    apply Z.bits_inj'. intros i Hi. change 7 with (Z.ones 3). bits. cmp; btauto.
  - apply sim_stable. by left.
  - intros p off Hp Hoff. apply sim_latch. assert (0 <= p) by (unfold tx_page in Hp; lia).
    unfold active, eeprom_addr, page_cell, CAN_PSR, FLASH_IAPSR, FLASH_DUKR,
      CAN_MCR, CAN_MSR, CAN_RFR, TIM4_SR1, CAN_BaseAddress, FLASH_BaseAddress, TIM4_BaseAddress,
      FLASH_DATA_START_PHYSICAL_ADDRESS, FLASH_DATA_END_PHYSICAL_ADDRESS. cmp; done.
  - intros off a m h Hf Hoff Ha. simpl. destruct (Z.eqb_spec a CAN_PSR) as [->|]; simpl; [|by rewrite Ha].
    rewrite cell_self in Ha by tauto. unfold page_cell, CAN_PSR, CAN_BaseAddress in Ha. lia.
  - done.
  - intros v m h Hf. split.
    + assert (fst (hw_store CAN_PSR v (m, h)) = upd m CAN_PSR (Z.land (u8 v) 7)) as -> by reflexivity.
      unfold fifo_pending. by rewrite upd_ne.
    + intros off Hoff. assert (fst (hw_store CAN_PSR v (m, h)) = upd m CAN_PSR (Z.land (u8 v) 7)) as -> by reflexivity.
      apply upd_ne. unfold page_cell, CAN_PSR, CAN_BaseAddress. lia.
Qed.

(** ** A machine after reset *)

Definition reset_mem : mem := fun a =>
  if a =? FLASH_IAPSR then 0x40
  else if a =? CAN_TPR then 0x1C
  else if a =? CAN_MCR then 0x02
  else if a =? CAN_MSR then 0x02
  else if a =? FLASH_NCR2 then 0xFF
  else if eeprom_addr a then 0x00
  else 0.

Definition sim_machine : @machine sim := @Machine sim reset_mem 0 can_rx_init [].
