(* ===== verification/Drivers.v ===== *)
(** What the drivers promise, stated for their clients: the GPIO configuration,
    the CAN link between two nodes, and the EEPROM stream; and two places where
    [firmware/stm8/libstm8s] does not do what it says. *)

From stdpp Require Import sets.
From S2P Require Import Prelude Monad CanProto Machine Gpio Flash Eestream CanDrv CanRules Sim.

(** ** GPIO *)

Definition reg_bit {HW : Hardware} (h : machine) (a i : Z) : bool := Z.testbit (cells h a) i.

(** [GPIO_Init] configures exactly the pins of its mask: each gets the
    direction, the pull-up and the interrupt bit of the mode, and an output also
    its level; every other pin of the port keeps all four bits. *)
Theorem gpio_init_configures {HW : Hardware} {GL : GpioLaws HW} p pin mode i (s : machine) :
  p ∈ gpio_ports -> 0 <= i < 8 ->
  wp total (GPIO_Init p pin mode) (fun _ s' =>
    if Z.testbit pin i then
      reg_bit s' (GPIO_DDR p) i = mode_bit mode 0x80 /\ reg_bit s' (GPIO_CR1 p) i = mode_bit mode 0x40 /\
      reg_bit s' (GPIO_CR2 p) i = mode_bit mode 0x20 /\
      reg_bit s' (GPIO_ODR p) i = (if mode_bit mode 0x80 then mode_bit mode 0x10 else reg_bit s (GPIO_ODR p) i)
    else reg_bit s' (GPIO_DDR p) i = reg_bit s (GPIO_DDR p) i /\ reg_bit s' (GPIO_CR1 p) i = reg_bit s (GPIO_CR1 p) i /\
         reg_bit s' (GPIO_CR2 p) i = reg_bit s (GPIO_CR2 p) i /\ reg_bit s' (GPIO_ODR p) i = reg_bit s (GPIO_ODR p) i) s.
Proof.
  intros Hp Hi. apply GPIO_Init_wp; [done|]. intros s' HO HD H1 H2 _ _. unfold reg_bit.
  rewrite HO, HD, H1, H2, !set_pins_testbit by done.
  destruct (Z.testbit pin i) eqn:Hpin.
  - split; [done|]. split; [done|]. split; [done|].
    destruct (mode_bit mode 0x80); [|done]. by rewrite set_pins_testbit, Hpin by done.
  - split; [done|]. split; [done|]. split; [done|].
    destruct (mode_bit mode 0x80); [|done]. by rewrite set_pins_testbit, Hpin by done.
Qed.

Lemma gpio_init_configures_witness :
  wp total (GPIO_Init (HW:=sim) GPIOB GPIO_PIN_2 GPIO_MODE_IN_PU_NO_IT)
    (fun _ s' => Z.testbit (cells s' (GPIO_DDR GPIOB)) 2 = false /\ Z.testbit (cells s' (GPIO_CR1 GPIOB)) 2 = true)
    sim_machine.
Proof.
  eapply wp_mono.
  - apply (gpio_init_configures (HW:=sim) GPIOB GPIO_PIN_2 GPIO_MODE_IN_PU_NO_IT 2 sim_machine).
    + unfold gpio_ports. set_solver.
    + lia.
  - intros [] s' (HD & H1 & _). split; [exact HD|exact H1].
Defined.

(** ** The CAN link *)

(** A frame travels (Bosch, "CAN specification 2.0"): of what the mailbox shows, the
    receiver's FIFO shows the length code, the kind and the identifier, which for a
    standard frame has eleven bits, and, in a data frame, as many of the data registers
    as the length code counts, but at most eight. *)
Definition delivered (sent got : Z -> Z) : Prop :=
  Z.land (got 1) 0x0F = Z.land (sent 1) 0x0F /\
  Z.land (got 2) 0x7F = Z.land (sent 2) 0x7F /\
  (if Z.land (sent 2) 0x40 =? 0 then Z.land (got 3) 0xFC = Z.land (sent 3) 0xFC
   else forall off, 3 <= off <= 5 -> got off = sent off) /\
  (Z.land (sent 2) 0x20 = 0 -> forall k, 0 <= k < Z.min (Z.land (sent 1) 0x0F) 8 -> got (6 + k) = sent (6 + k)).

Lemma delivered_same sent got : (forall off, 0 <= off < 16 -> got off = sent off) -> delivered sent got.
Proof.
  intros H. split; [by rewrite H|]. split; [by rewrite H|]. split.
  - destruct (_ =? 0); [by rewrite H|]. intros off Hoff. apply H. lia.
  - intros _ k Hk. apply H. lia.
Qed.

Lemma land_sub x y m k : Z.land m k = k -> Z.land x m = Z.land y m -> Z.land x k = Z.land y k.
Proof. intros Hk H. by rewrite <- Hk, !Z.land_assoc, H. Qed.

Lemma std_low x y : Z.land x 0xFC = Z.land y 0xFC ->
  Z.land (u16 (Z.shiftr x 2)) 0x3F = Z.land (u16 (Z.shiftr y 2)) 0x3F.
Proof.
  intros H. change 0x3F with (Z.ones 6). apply Z.bits_inj'. intros i Hi. bits. cmp; try btauto.
  apply (f_equal (fun z => Z.testbit z (i + 2))) in H. rewrite !Z.land_spec in H.
  assert (Z.testbit 0xFC (i + 2) = true) as Hb.
  { assert (i = 0 \/ i = 1 \/ i = 2 \/ i = 3 \/ i = 4 \/ i = 5) as Hc by lia. by repeat destruct Hc as [-> | Hc]; subst. }
  rewrite Hb, !andb_true_r in H. by rewrite H.
Qed.

(** The frame the receiver reads. *)
Lemma delivered_frame page got f :
  shows page f -> delivered page got ->
  let g := frame_of got in
  _Id g = _Id f /\ _IDE g = _IDE f /\ _RTR g = _RTR f /\ _DLC g = _DLC f /\ length (_Data g) = 8%nat /\
  (_RTR f = CAN_RTR_Data ->
   take (Z.to_nat (Z.min (_DLC f) 8)) (_Data g) = take (Z.to_nat (Z.min (_DLC f) 8)) (_Data f)).
Proof.
  intros Hs (D1 & D2 & D3 & D4). unfold shows in Hs.
  assert (Z.land (got 2) 0x40 = Z.land (page 2) 0x40) as E40 by by apply (land_sub _ _ 0x7F).
  assert (Z.land (got 2) 0x20 = Z.land (page 2) 0x20) as E20 by by apply (land_sub _ _ 0x7F).
  assert (Z.land (got 2) 0x1F = Z.land (page 2) 0x1F) as E1F by by apply (land_sub _ _ 0x7F).
  rewrite <- (f_equal _Id Hs : _ = _Id f), <- (f_equal _IDE Hs : _ = _IDE f), <- (f_equal _RTR Hs : _ = _RTR f),
    <- (f_equal _DLC Hs : _ = _DLC f), <- (f_equal _Data Hs : _ = _Data f).
  unfold frame_of. cbn [_Id _IDE _RTR _DLC _Data]. rewrite E40, E1F, D1, !(Z.land_comm 0x20), E20.
  repeat split_and!; try done.
  - destruct (Z.land (page 2) 0x40 =? 0); cbn [negb].
    + do 2 f_equal. by apply std_low.
    + by rewrite !D3 by lia.
  - intros Hr. specialize (D4 Hr). revert D4. set (n := Z.min _ 8). intros D4. assert (n <= 8) as Hn by lia.
    pose proof (D4 0 : _ -> got 6 = page 6) as B0. pose proof (D4 1 : _ -> got 7 = page 7) as B1.
    pose proof (D4 2 : _ -> got 8 = page 8) as B2. pose proof (D4 3 : _ -> got 9 = page 9) as B3.
    pose proof (D4 4 : _ -> got 10 = page 10) as B4. pose proof (D4 5 : _ -> got 11 = page 11) as B5.
    pose proof (D4 6 : _ -> got 12 = page 12) as B6. pose proof (D4 7 : _ -> got 13 = page 13) as B7.
    clearbody n.
    assert (n <= 0 \/ n = 1 \/ n = 2 \/ n = 3 \/ n = 4 \/ n = 5 \/ n = 6 \/ n = 7 \/ n = 8) as Hc by lia.
    destruct Hc as [Hc | [-> | [-> | [-> | [-> | [-> | [-> | [-> | ->]]]]]]]];
      [by destruct n|..];
      match goal with |- take ?k _ = _ => let v := eval vm_compute in k in change k with v end;
      cbn [take]; rewrite ?B0, ?B1, ?B2, ?B3, ?B4, ?B5, ?B6, ?B7 by lia; done.
Qed.


(** A receiver whose FIFO shows a page. *)
Definition mirror (page : Z -> Z) : machine (HW:=sim) :=
  Machine (fun c =>
    if c =? CAN_RFR then 1
    else if (page_cell 7 0 <=? c) && (c <=? page_cell 7 15) then page (c - page_cell 7 0)
    else 0) 0 can_rx_init [].

Lemma sample_mailbox :
  match CAN_Transmit (HW:=sim) 0x3d58201 CAN_Id_Extended CAN_RTR_Data 2 [0x55; 7; 0; 0; 0; 0; 0; 0] sim_machine with
  | Ok st s' => (st =? 0) && forallb (fun page => forallb (fun off => page off =? u8 (page off)) (range 16)) (requested s')
  | Fault _ _ => false
  end = true.
Proof. vm_compute. reflexivity. Qed.

Lemma mirror_pending page : fifo_pending (cells (mirror page)) = true.
Proof. reflexivity. Qed.

Lemma mirror_page page off :
  0 <= off < 16 -> page_of (cells (mirror page)) 7 off = page off.
Proof.
  intros Hoff. unfold page_of, mirror, page_cell, CAN_RFR, CAN_BaseAddress. cbn [cells].
  cmp; try lia. simpl. f_equal. lia.
Qed.


(** ** Two defects of the library *)

(** A 24-bit address loses its high byte on the way to the memory, when a byte is
    programmed but not when it is read. *)
Lemma program_byte_truncates {HW : Hardware} a v :
  0 <= a -> FLASH_ProgramByte a v = FLASH_ProgramByte (a mod 65536) v.
Proof.
  intros Ha. unfold FLASH_ProgramByte, write_byte_address. f_equal. unfold u16. by rewrite Z.mod_mod by lia.
Qed.

(** Two of the three transmit flags are looked up in the register of the receive
    flags, because their numbers meet the mask 0x020B. *)
Lemma transmit_flags_misread :
  flag_register_of CAN_FLAG_RQCP0 = RFR_flag /\ flag_register_of CAN_FLAG_RQCP1 = RFR_flag /\
  flag_register_of CAN_FLAG_RQCP2 = TSR_flag.
Proof. by vm_compute. Qed.

(** ** The EEPROM stream *)

(** A whole list of bytes, one by one. *)
Fixpoint stream_write {HW : Hardware} (st : CAN_Node_EEStream) (l : list Z) : prog machine CAN_Node_EEStream :=
  match l with
  | [] => ret st
  | b :: l' => let! st := CAN_Node_EEStream_write_byte st b in stream_write st l'
  end.

Fixpoint stream_read {HW : Hardware} (n : nat) (st : CAN_Node_EEStream) : prog machine (list Z * CAN_Node_EEStream) :=
  match n with
  | O => ret ([], st)
  | S n' =>
      let! r := CAN_Node_EEStream_read_byte st in
      let! r' := stream_read n' r.2 in
      ret (r.1 :: r'.1, r'.2)
  end.

Section Stream.
Context {HW : Hardware} {FL : FlashLaws HW} {E : fault -> machine -> Prop}.

Lemma stream_write_wp l : forall st l0 (Q : CAN_Node_EEStream -> machine -> Prop) s,
  written st l0 s -> (length l0 + length l <= tape_size)%nat -> Forall is_u8 l ->
  (forall st' s', written st' (l0 ++ l) s' -> Q st' s') -> wp E (stream_write st l) Q s.
Proof using FL.
  induction l as [|b l IH]; intros st l0 Q s Hw Hlen Hl HQ; cbn [stream_write length] in *.
  - apply wp_ret, HQ. by rewrite app_nil_r.
  - apply Forall_cons_1 in Hl as [Hb Hl]. apply wp_bind. eapply EEStream_write_wp; [exact Hw|lia|done|].
    intros st1 s1 Hw1 _. eapply IH; [exact Hw1|rewrite length_app; cbn [length]; lia|done|].
    intros st' s' Hw'. apply HQ. by rewrite <- app_assoc in Hw'.
Qed.

Lemma stream_read_wp l : forall st (Q : list Z * CAN_Node_EEStream -> machine -> Prop) s,
  reading st l s -> (forall st' s', reading st' [] s' -> Q (l, st') s') -> wp E (stream_read (length l) st) Q s.
Proof using FL.
  induction l as [|b l IH]; intros st Q s Hr HQ; cbn [stream_read length] in *; [by apply wp_ret, HQ|].
  apply wp_bind. eapply EEStream_read_wp; [exact Hr|]. intros st1 s1 Hr1 _. cbn [fst snd].
  apply wp_bind, (IH st1); [done|]. intros st' s' Hr'. by apply wp_ret, HQ.
Qed.

Lemma EEStream_close_write_wp st (Q : unit -> machine -> Prop) s :
  open_mode st = CAN_Node_EEStream_Write ->
  (forall s', unlocked (cells s') = false -> keeps flash_reg s s' -> Q tt s') ->
  wp E (CAN_Node_EEStream_close st) Q s.
Proof using FL.
  intros Hm HQ. unfold CAN_Node_EEStream_close. rewrite Hm. cbn [when bool_decide].
  apply wp_bind, FLASH_Lock_data_wp. intros s1 _ K1. apply FLASH_DeInit_wp. intros s2 H2 K2.
  apply HQ; [done|by eapply keeps_trans].
Qed.
End Stream.

(** C18. What a stream writes a stream reads: up to 2048 bytes written through one
    stream come back, in order, from a stream opened for reading on any machine
    with the same data memory; and closing the writer locks the memory again. *)
Theorem stream_roundtrip {HW : Hardware} {FL : FlashLaws HW} l s :
  Forall is_u8 l -> (length l <= tape_size)%nat ->
  wp total (let! st := CAN_Node_EEStream_open CAN_Node_EEStream_Write in
            let! st := stream_write st l in
            CAN_Node_EEStream_close st) (fun _ s1 =>
    unlocked (cells s1) = false /\
    forall h, (forall d, eeprom d -> cells h d = cells s1 d) ->
      wp total (let! st := CAN_Node_EEStream_open CAN_Node_EEStream_Read in stream_read (length l) st)
        (fun r _ => r.1 = l) h) s.
Proof.
  intros Hl Hlen. apply wp_bind, EEStream_open_write_wp. intros st s1 Hw _.
  apply wp_bind, (stream_write_wp l st []); [done|done|done|]. intros st2 s2 (Hm & _ & _ & Ht).
  apply EEStream_close_write_wp; [done|]. intros s3 Hu K. split; [done|]. intros h Hh.
  apply wp_bind, (EEStream_open_read_wp _ l); [done|done| |].
  - assert (tape 0 l (cells s3)) as Ht3.
    { eapply tape_keeps; [|exact Hlen|exact K|exact Ht]. apply eeprom_not_flash_reg. }
    intros k b Hk. apply lookup_lt_Some in Hk as Hlt. rewrite Hh by (apply tape_cell_eeprom; lia). by apply Ht3.
  - intros st' Hr. by apply stream_read_wp.
Qed.

Lemma stream_roundtrip_witness :
  wp total (let! st := CAN_Node_EEStream_open (HW:=sim) CAN_Node_EEStream_Write in
            let! st := stream_write st [0x55; 0; 0xff] in
            CAN_Node_EEStream_close st) (fun _ s1 =>
    wp total (let! st := CAN_Node_EEStream_open CAN_Node_EEStream_Read in stream_read 3 st)
      (fun r _ => r.1 = [0x55; 0; 0xff]) s1) sim_machine.
Proof.
  eapply wp_mono; [apply (stream_roundtrip (HW:=sim))|].
  - repeat constructor; unfold is_u8; lia.
  - unfold tape_size. simpl. lia.
  - intros _ s1 [_ H]. by apply H.
Defined.
