(* ===== verification/State.v ===== *)
(** The state of the CAN node firmware, [firmware/stm8/can_node].

    One record per C file holds its static variables; [node] holds the records
    and the machine.  A static variable is a [field] of [node].  A driver of the
    machine runs inside the node through [io]. *)

From S2P Require Import Prelude Monad CanProto Machine Gpio Adc2 Flash CanDrv CanRules.

(** ** [led.c] *)

(** [CAN_Node_Led] *)
Definition CAN_Node_Led1 : Z := 0.
Definition CAN_Node_Led2 : Z := 1.
Definition CAN_Node_LedCount : Z := 2.
Definition CAN_Node_Led_Info : Z := CAN_Node_Led1.
Definition CAN_Node_Led_Error : Z := CAN_Node_Led2.

Inductive LedMode : Type := LedMode_Off | LedMode_On | LedMode_Blink | LedMode_BlinkContinuous.

#[export] Instance LedMode_eq_dec : EqDecision LedMode.
Proof. solve_decision. Defined.

Record Led : Type := MkLed {
  led_gpio : GPIO_TypeDef; led_pin : Z; led_mode : LedMode;
  on_time : Z; off_time : Z; led_counter : Z
}.

Definition MaxPeriod : Z := 3.

Record led_vars : Type := LedVars { leds : list Led; period_counter : Z }.

Definition led_init : led_vars := LedVars
  [MkLed GPIOD GPIO_PIN_2 LedMode_Off 0 0 0; MkLed GPIOD GPIO_PIN_3 LedMode_Off 0 0 0] MaxPeriod.

(** ** [clock.c]: [clock_pending] is never read or written *)

Definition Tim4Period : Z := 124.
Definition ClockPostscaler : Z := 10.

(** ** [mod_switch.c] *)

(** [module.h] *)
Definition CAN_Node_ChannelCount : Z := 4.
Definition NO_RESPONSE : Z := 255.

Inductive SwitchMode : Type := SwitchMode_Off | SwitchMode_On.

#[export] Instance SwitchMode_eq_dec : EqDecision SwitchMode.
Proof. solve_decision. Defined.

Definition SwitchMode_value (m : SwitchMode) : Z :=
  match m with SwitchMode_Off => 0 | SwitchMode_On => 1 end.

Record Switch : Type := MkSwitch {
  sw_gpio : GPIO_TypeDef; sw_pin : Z; sw_config : Z; sw_mode : SwitchMode;
  off_delay : Z; off_timer : Z
}.

Definition switches_init : list Switch :=
  [MkSwitch GPIOB GPIO_PIN_0 0 SwitchMode_Off 0 0; MkSwitch GPIOB GPIO_PIN_1 0 SwitchMode_Off 0 0;
   MkSwitch GPIOB GPIO_PIN_2 0 SwitchMode_Off 0 0; MkSwitch GPIOB GPIO_PIN_3 0 SwitchMode_Off 0 0].

(** ** [mod_button.c] *)

Inductive ButtonState : Type := ButtonState_Released | ButtonState_Pressed.

#[export] Instance ButtonState_eq_dec : EqDecision ButtonState.
Proof. solve_decision. Defined.

Definition ButtonState_value (m : ButtonState) : Z :=
  match m with ButtonState_Released => 0 | ButtonState_Pressed => 1 end.

Record Button : Type := MkButton {
  bt_gpio : GPIO_TypeDef; bt_pin : Z; bt_config : Z; bt_state : ButtonState
}.

Definition buttons_init : list Button :=
  [MkButton GPIOB GPIO_PIN_0 0 ButtonState_Released; MkButton GPIOB GPIO_PIN_1 0 ButtonState_Released;
   MkButton GPIOB GPIO_PIN_2 0 ButtonState_Released; MkButton GPIOB GPIO_PIN_3 0 ButtonState_Released].

(** ** [mod_analog.c] *)

Inductive AnalogState : Type := AnalogState_Disabled | AnalogState_Inactive | AnalogState_Active.

#[export] Instance AnalogState_eq_dec : EqDecision AnalogState.
Proof. solve_decision. Defined.

Record AnalogSensor : Type := MkAnalogSensor {
  an_gpio : GPIO_TypeDef; an_pin : Z; adc_channel : Z; an_config : Z; an_state : AnalogState;
  range_min : Z; range_max : Z; an_value : Z; an_in_range : Z
}.

Record analog_vars : Type := AnalogVars {
  analog_sensors : list AnalogSensor; sensor_count : Z; selected_sensor : Z
}.

Definition analog_vars_init : analog_vars := AnalogVars
  [MkAnalogSensor GPIOB GPIO_PIN_0 ADC2_CHANNEL_0 0 AnalogState_Disabled 0 0 0 0;
   MkAnalogSensor GPIOB GPIO_PIN_1 ADC2_CHANNEL_1 0 AnalogState_Disabled 0 0 0 0;
   MkAnalogSensor GPIOB GPIO_PIN_2 ADC2_CHANNEL_2 0 AnalogState_Disabled 0 0 0 0;
   MkAnalogSensor GPIOB GPIO_PIN_3 ADC2_CHANNEL_3 0 AnalogState_Disabled 0 0 0 0] 0 0.

(** ** [sysinfo.c] *)

Record sysinfo_vars : Type := SysinfoVars { device_id : Z; label : list Z }.

Definition sysinfo_vars_init : sysinfo_vars := SysinfoVars 0xff (replicate 8 0).

(** ** [module.c]

    A [CAN_Node_Module*] that is not null points to one of the six static module
    objects. *)
Inductive module_ptr : Type :=
  sysinfo_ptr | mod_proto_ptr | mod_switch_ptr | mod_button_ptr | mod_analog_ptr | mod_ds18b20_ptr.

#[export] Instance module_ptr_eq_dec : EqDecision module_ptr.
Proof. solve_decision. Defined.

Record module_vars : Type := ModuleVars {
  sysinfo_module : option module_ptr; proto_module : option module_ptr;
  function_modules : list (option module_ptr); channel_modules : list (option module_ptr);
  module_ids : list Z
}.

Definition module_vars_init : module_vars := ModuleVars None None (replicate 6 None) (replicate 4 None) (replicate 4 0).

(** ** [can.c] *)

Record can_vars : Type := CanVars { received_id : Z; packet_id : HA_CAN_PacketId }.

Definition can_vars_init : can_vars :=
  CanVars 0 {| priority := 0; reserved := 0; device_id_field := 0; address := 0 |}.

(** ** The node *)

Section Node.
Context {HW : Hardware}.

Record node : Type := Node {
  mach : machine;
  n_led : led_vars;
  clock_counter : Z;
  switches : list Switch;
  buttons : list Button;
  n_analog : analog_vars;
  n_sysinfo : sysinfo_vars;
  n_module : module_vars;
  n_can : can_vars
}.

(** The node as the C start-up code leaves it. *)
Definition node_init (h : machine) : node :=
  Node h led_init ClockPostscaler switches_init buttons_init analog_vars_init sysinfo_vars_init
    module_vars_init can_vars_init.

Definition set_mach v s := Node v (n_led s) (clock_counter s) (switches s) (buttons s) (n_analog s) (n_sysinfo s) (n_module s) (n_can s).
Definition set_led v s := Node (mach s) v (clock_counter s) (switches s) (buttons s) (n_analog s) (n_sysinfo s) (n_module s) (n_can s).
Definition set_clock v s := Node (mach s) (n_led s) v (switches s) (buttons s) (n_analog s) (n_sysinfo s) (n_module s) (n_can s).
Definition set_switches v s := Node (mach s) (n_led s) (clock_counter s) v (buttons s) (n_analog s) (n_sysinfo s) (n_module s) (n_can s).
Definition set_buttons v s := Node (mach s) (n_led s) (clock_counter s) (switches s) v (n_analog s) (n_sysinfo s) (n_module s) (n_can s).
Definition set_analog v s := Node (mach s) (n_led s) (clock_counter s) (switches s) (buttons s) v (n_sysinfo s) (n_module s) (n_can s).
Definition set_sysinfo v s := Node (mach s) (n_led s) (clock_counter s) (switches s) (buttons s) (n_analog s) v (n_module s) (n_can s).
Definition set_module v s := Node (mach s) (n_led s) (clock_counter s) (switches s) (buttons s) (n_analog s) (n_sysinfo s) v (n_can s).
Definition set_can v s := Node (mach s) (n_led s) (clock_counter s) (switches s) (buttons s) (n_analog s) (n_sysinfo s) (n_module s) v.

Definition f_leds : field node (list Led) :=
  Field (fun s => leds (n_led s)) (fun v s => set_led (LedVars v (period_counter (n_led s))) s).
Definition f_period_counter : field node Z :=
  Field (fun s => period_counter (n_led s)) (fun v s => set_led (LedVars (leds (n_led s)) v) s).
Definition f_clock_counter : field node Z := Field clock_counter set_clock.
Definition f_switches : field node (list Switch) := Field switches set_switches.
Definition f_buttons : field node (list Button) := Field buttons set_buttons.
Definition f_analog_sensors : field node (list AnalogSensor) :=
  Field (fun s => analog_sensors (n_analog s))
    (fun v s => set_analog (AnalogVars v (sensor_count (n_analog s)) (selected_sensor (n_analog s))) s).
Definition f_sensor_count : field node Z :=
  Field (fun s => sensor_count (n_analog s))
    (fun v s => set_analog (AnalogVars (analog_sensors (n_analog s)) v (selected_sensor (n_analog s))) s).
Definition f_selected_sensor : field node Z :=
  Field (fun s => selected_sensor (n_analog s))
    (fun v s => set_analog (AnalogVars (analog_sensors (n_analog s)) (sensor_count (n_analog s)) v) s).
Definition f_device_id : field node Z :=
  Field (fun s => device_id (n_sysinfo s)) (fun v s => set_sysinfo (SysinfoVars v (label (n_sysinfo s))) s).
Definition f_label : field node (list Z) :=
  Field (fun s => label (n_sysinfo s)) (fun v s => set_sysinfo (SysinfoVars (device_id (n_sysinfo s)) v) s).
Definition f_sysinfo_module : field node (option module_ptr) :=
  Field (fun s => sysinfo_module (n_module s))
    (fun v s => let m := n_module s in
       set_module (ModuleVars v (proto_module m) (function_modules m) (channel_modules m) (module_ids m)) s).
Definition f_proto_module : field node (option module_ptr) :=
  Field (fun s => proto_module (n_module s))
    (fun v s => let m := n_module s in
       set_module (ModuleVars (sysinfo_module m) v (function_modules m) (channel_modules m) (module_ids m)) s).
Definition f_function_modules : field node (list (option module_ptr)) :=
  Field (fun s => function_modules (n_module s))
    (fun v s => let m := n_module s in
       set_module (ModuleVars (sysinfo_module m) (proto_module m) v (channel_modules m) (module_ids m)) s).
Definition f_channel_modules : field node (list (option module_ptr)) :=
  Field (fun s => channel_modules (n_module s))
    (fun v s => let m := n_module s in
       set_module (ModuleVars (sysinfo_module m) (proto_module m) (function_modules m) v (module_ids m)) s).
Definition f_module_ids : field node (list Z) :=
  Field (fun s => module_ids (n_module s))
    (fun v s => let m := n_module s in
       set_module (ModuleVars (sysinfo_module m) (proto_module m) (function_modules m) (channel_modules m) v) s).
Definition f_received_id : field node Z :=
  Field (fun s => received_id (n_can s)) (fun v s => set_can (CanVars v (packet_id (n_can s))) s).
Definition f_packet_id : field node HA_CAN_PacketId :=
  Field (fun s => packet_id (n_can s)) (fun v s => set_can (CanVars (received_id (n_can s)) v) s).

(** A driver call. *)
Definition io {A} (m : prog machine A) : prog node A := fun s =>
  match m (mach s) with
  | Ok a h => Ok a (set_mach h s)
  | Fault f h => Fault f (set_mach h s)
  end.

Lemma wp_io {A} E (m : prog machine A) (Q : A -> node -> Prop) s :
  wp (fun f h => E f (set_mach h s)) m (fun a h => Q a (set_mach h s)) (mach s) -> wp E (io m) Q s.
Proof. unfold wp, io. by destruct (m (mach s)). Qed.

(** A harmless driver call. *)
Lemma wp_io_touches {A} E P (m : prog machine A) (Q : A -> node -> Prop) s :
  touches P m -> (forall a h, keeps P (mach s) h -> Q a (set_mach h s)) -> wp E (io m) Q s.
Proof.
  intros Ht HQ. apply wp_io. specialize (Ht (mach s)). unfold wp in *.
  destruct (m (mach s)) as [a h|f h]; [by apply HQ|done].
Qed.

(** [sysinfo.c] *)
Definition CAN_Node_Sysinfo_get_device_id : prog node Z := rd f_device_id.

(** Every cell but those of the data EEPROM. *)
Definition off_tape (d : Z) : Prop := ~ eeprom d.

(** A driver call that spares the EEPROM. *)
Lemma wp_io_off {A} E P (m : prog machine A) (Q : A -> node -> Prop) s :
  touches P m -> (forall d, P d -> off_tape d) ->
  (forall a h, keeps off_tape (mach s) h -> Q a (set_mach h s)) -> wp E (io m) Q s.
Proof.
  intros Ht HP HQ. apply (wp_io_touches E P); [done|]. intros a h Hk. apply HQ.
  by eapply keeps_weaken.
Qed.
End Node.
Arguments node {HW}.

Lemma gpio_off_tape p d : p ∈ gpio_ports -> gpio_reg p d -> off_tape d.
Proof. intros Hp Hd. pose proof (gpio_port_range p Hp). unfold gpio_reg, off_tape, eeprom in *. 
  unfold FLASH_DATA_START_PHYSICAL_ADDRESS, FLASH_DATA_END_PHYSICAL_ADDRESS. lia. Qed.

Lemma can_off_tape d : can_cell d -> off_tape d.
Proof.
  unfold can_cell, off_tape, eeprom, CAN_BaseAddress, FLASH_DATA_START_PHYSICAL_ADDRESS, FLASH_DATA_END_PHYSICAL_ADDRESS. lia.
Qed.

Lemma adc2_off_tape d : adc2_reg d -> off_tape d.
Proof.
  unfold adc2_reg, off_tape, eeprom, ADC2_BaseAddress, FLASH_DATA_START_PHYSICAL_ADDRESS, FLASH_DATA_END_PHYSICAL_ADDRESS. lia.
Qed.

Lemma flash_off_tape d : flash_reg d -> off_tape d.
Proof. intros H He. by eapply eeprom_not_flash_reg. Qed.

Create HintDb tape.
#[export] Hint Resolve gpio_off_tape can_off_tape adc2_off_tape flash_off_tape : tape.
