(* ===== verification/Led.v ===== *)
(** The LEDs, [firmware/stm8/can_node/led.c].

    The operations are followed by an abstract lamp and the refinement: on the
    board, the output pin of a LED is the lamp's light, and one call in three of
    [CAN_Node_Led_clock] ticks every lamp. *)

From stdpp Require Import sets.
From S2P Require Import Prelude Monad CanProto Machine Gpio CanRules State Sim.

Definition led_set_mode (m : LedMode) (l : Led) : Led :=
  MkLed (led_gpio l) (led_pin l) m (on_time l) (off_time l) (led_counter l).
Definition led_set_counter (c : Z) (l : Led) : Led :=
  MkLed (led_gpio l) (led_pin l) (led_mode l) (on_time l) (off_time l) c.
Definition led_set_on_time (t : Z) (l : Led) : Led :=
  MkLed (led_gpio l) (led_pin l) (led_mode l) t (off_time l) (led_counter l).
Definition led_set_off_time (t : Z) (l : Led) : Led :=
  MkLed (led_gpio l) (led_pin l) (led_mode l) (on_time l) t (led_counter l).

(** ** Operations *)

Section Operations.
Context {HW : Hardware}.

Definition CAN_Node_Led_init_all : prog node unit :=
  for_each (range CAN_Node_LedCount) (fun led =>
    let! l := idx f_leds led in
    io (GPIO_Init (led_gpio l) (led_pin l) GPIO_MODE_OUT_PP_LOW_FAST)).

Definition switch_led (led : Z) (state : FunctionalState) : prog node unit :=
  let! l := idx f_leds led in
  match state with
  | ENABLE => io (or_reg (GPIO_ODR (led_gpio l)) (led_pin l))
  | DISABLE => io (and_reg (GPIO_ODR (led_gpio l)) (Z.lnot (led_pin l)))
  end.

Definition update_led (led : Z) : prog node unit :=
  let! l := idx f_leds led in
  match led_mode l with
  | LedMode_Blink =>
      idx_upd f_leds led (fun l => led_set_counter (u8 (led_counter l + 1)) l) ;;
      let! l := idx f_leds led in
      when (off_time l <=? led_counter l)
        (switch_led led DISABLE ;;
         idx_upd f_leds led (led_set_mode LedMode_Off))
  | LedMode_BlinkContinuous =>
      idx_upd f_leds led (fun l => led_set_counter (u8 (led_counter l + 1)) l) ;;
      let! l := idx f_leds led in
      if off_time l <=? led_counter l then
        switch_led led ENABLE ;;
        idx_upd f_leds led (led_set_counter 0)
      else when (led_counter l =? on_time l) (switch_led led DISABLE)
  | LedMode_Off | LedMode_On => ret tt
  end.

Definition CAN_Node_Led_clock : prog node unit :=
  let! c := rd f_period_counter in
  let c := u8 (c - 1) in
  wr f_period_counter c ;;
  when (c =? 0)
    (wr f_period_counter MaxPeriod ;;
     for_each (range CAN_Node_LedCount) update_led).

Definition CAN_Node_Led_switch (led : Z) (state : FunctionalState) : prog node unit :=
  idx_upd f_leds led (led_set_mode (match state with ENABLE => LedMode_On | DISABLE => LedMode_Off end)) ;;
  switch_led led state.

Definition CAN_Node_Led_blink (led scale : Z) : prog node unit :=
  idx_upd f_leds led (led_set_mode LedMode_Off) ;;
  idx_upd f_leds led (led_set_off_time scale) ;;
  idx_upd f_leds led (led_set_counter 0) ;;
  switch_led led ENABLE ;;
  idx_upd f_leds led (led_set_mode LedMode_Blink).

Definition CAN_Node_Led_blink_continuous (led on_scale off_scale : Z) : prog node unit :=
  idx_upd f_leds led (led_set_mode LedMode_Off) ;;
  idx_upd f_leds led (led_set_on_time on_scale) ;;
  idx_upd f_leds led (led_set_off_time (u8 (on_scale + off_scale))) ;;
  idx_upd f_leds led (led_set_counter 0) ;;
  switch_led led ENABLE ;;
  idx_upd f_leds led (led_set_mode LedMode_BlinkContinuous).
End Operations.

(** ** Invariant *)

Definition led_ok (l : Led) : Prop := is_u8 (on_time l) /\ is_u8 (off_time l) /\ is_u8 (led_counter l).

(** Two LEDs, on pins 2 and 3 of port D. *)
Definition leds_ok (v : led_vars) : Prop :=
  (exists l1 l2, leds v = [l1; l2] /\ led_gpio l1 = GPIOD /\ led_pin l1 = GPIO_PIN_2 /\
                 led_gpio l2 = GPIOD /\ led_pin l2 = GPIO_PIN_3 /\ led_ok l1 /\ led_ok l2) /\
  1 <= period_counter v <= MaxPeriod.

(** ** The abstract lamp *)

Record lamp : Type := Lamp { mode : LedMode; on_at : Z; off_at : Z; count : Z; lit : bool }.

Definition lamp_tick (l : lamp) : lamp :=
  let c := u8 (count l + 1) in
  match mode l with
  | LedMode_Blink =>
      if off_at l <=? c then Lamp LedMode_Off (on_at l) (off_at l) c false
      else Lamp (mode l) (on_at l) (off_at l) c (lit l)
  | LedMode_BlinkContinuous =>
      if off_at l <=? c then Lamp (mode l) (on_at l) (off_at l) 0 true
      else if c =? on_at l then Lamp (mode l) (on_at l) (off_at l) c false
      else Lamp (mode l) (on_at l) (off_at l) c (lit l)
  | _ => l
  end.

Definition lamp_blink (scale : Z) (l : lamp) : lamp := Lamp LedMode_Blink (on_at l) scale 0 true.

Section Refinement.
Context {HW : Hardware}.

(** The bit of the output register of a LED. *)
Definition led_bit (led : Z) : Z := led + 2.

Definition lamp_of (s : node) (k : nat) (l : Led) : lamp :=
  Lamp (led_mode l) (on_time l) (off_time l) (led_counter l)
    (Z.testbit (cells (mach s) (GPIO_ODR GPIOD)) (Z.of_nat k + 2)).

Definition lamps (s : node) : list lamp := imap (lamp_of s) (leds (n_led s)).

(** The node but for its machine and its LEDs. *)
Definition same_but_leds (s s' : node) : Prop :=
  clock_counter s' = clock_counter s /\ switches s' = switches s /\ buttons s' = buttons s /\
  n_analog s' = n_analog s /\ n_sysinfo s' = n_sysinfo s /\ n_module s' = n_module s /\ n_can s' = n_can s.

(** What a LED operation may do. *)
Definition led_step (s s' : node) : Prop :=
  same_but_leds s s' /\ keeps (eq (GPIO_ODR GPIOD)) (mach s) (mach s').

Lemma led_step_refl s : led_step s s.
Proof. split; [done|apply keeps_refl]. Qed.

Lemma led_step_trans s1 s2 s3 : led_step s1 s2 -> led_step s2 s3 -> led_step s1 s3.
Proof.
  intros [(A1 & A2 & A3 & A4 & A5 & A6 & A7) K1] [(B1 & B2 & B3 & B4 & B5 & B6 & B7) K2].
  split; [repeat split; congruence|by apply (keeps_trans _ _ (mach s2))].
Qed.
End Refinement.

Section LampRules.
Context {HW : Hardware} {GL : GpioLaws HW} {E : fault -> node -> Prop}.

(** The node shows the lamps [v], [p] clock calls before the next tick. *)
Definition shows_lamps (v : list lamp) (p : Z) (s : node) : Prop :=
  leds_ok (n_led s) /\ lamps s = v /\ period_counter (n_led s) = p.

Definition is_led (led : Z) : Prop := led = 0 \/ led = 1.

(** An assignment to the members of a LED. *)
Lemma lamp_upd_wp led (g : Led -> Led) (gl : lamp -> lamp) v p (Q : unit -> node -> Prop) s :
  shows_lamps v p s -> is_led led ->
  (forall l, led_ok l -> led_ok (g l) /\ led_gpio (g l) = led_gpio l /\ led_pin (g l) = led_pin l) ->
  (forall k l, lamp_of s k (g l) = gl (lamp_of s k l)) ->
  (forall s', shows_lamps (alter gl (Z.to_nat led) v) p s' -> led_step s s' -> Q tt s') ->
  wp E (idx_upd f_leds led g) Q s.
Proof.
  intros (((l1 & l2 & Hl & G1 & P1 & G2 & P2 & O1 & O2) & Hp) & Hv & Hpc) Hled Hg Hgl HQ.
  destruct (Hg l1 O1) as (O1' & G1' & P1'). destruct (Hg l2 O2) as (O2' & G2' & P2').
  assert (exists x, leds (n_led s) !! Z.to_nat led = Some x) as [x Hx].
  { rewrite Hl. destruct Hled as [-> | ->]; eauto. }
  eapply wp_eq; [apply (idx_upd_ok f_leds led g x s); [destruct Hled; lia|exact Hx]|].
  apply HQ.
  - unfold shows_lamps, leds_ok, lamps in *. cbn [fset fget f_leds n_led leds set_led period_counter].
    rewrite Hl in *. split; [|split; [|done]].
    + split; [|done]. destruct Hled as [-> | ->]; injection Hx as <-; simpl; do 2 eexists;
        (split; [done|]); split_and!; first [done | congruence].
    + rewrite <- Hv. destruct Hled as [-> | ->]; injection Hx as <-; simpl; by rewrite <- Hgl.
  - split; [by repeat split|apply keeps_refl].
Qed.

(** Reading the members of a LED. *)
Lemma lamp_idx_wp led v p (Q : Led -> node -> Prop) s :
  shows_lamps v p s -> is_led led ->
  (forall l, led_gpio l = GPIOD -> led_pin l = Z.shiftl 1 (led_bit led) ->
     led_ok l -> v !! Z.to_nat led = Some (lamp_of s (Z.to_nat led) l) -> Q l s) ->
  wp E (idx f_leds led) Q s.
Proof.
  intros (((l1 & l2 & Hl & G1 & P1 & G2 & P2 & O1 & O2) & Hp) & Hv & Hpc) Hled HQ.
  rewrite <- Hv in HQ. unfold lamps in HQ. rewrite Hl in HQ.
  destruct Hled as [-> | ->].
  - eapply wp_eq; [apply (idx_ok f_leds 0 l1); [done|simpl; by rewrite Hl]|]. by apply HQ.
  - eapply wp_eq; [apply (idx_ok f_leds 1 l2); [done|simpl; by rewrite Hl]|]. by apply HQ.
Qed.

Definition set_lit (b : bool) (l : lamp) : lamp := Lamp (mode l) (on_at l) (off_at l) (count l) b.

Lemma pin_testbit led i : is_led led -> 0 <= i < 8 -> Z.testbit (Z.shiftl 1 (led_bit led)) i = (i =? led_bit led).
Proof.
  intros Hled Hi. unfold led_bit. rewrite shiftl_testbit by (destruct Hled; lia).
  destruct Hled as [-> | ->]; destruct (bit_index_cases i Hi) as [-> | [-> | [-> | [-> | [-> | [-> | [-> | ->]]]]]]]; done.
Qed.

(** Driving the pin sets the light. *)
Lemma switch_led_wp led st v p (Q : unit -> node -> Prop) s :
  shows_lamps v p s -> is_led led ->
  (forall s', shows_lamps (alter (set_lit (bool_decide (st = ENABLE))) (Z.to_nat led) v) p s' ->
     led_step s s' -> Q tt s') ->
  wp E (switch_led led st) Q s.
Proof using GL.
  intros Hs Hled HQ. unfold switch_led. apply wp_bind. eapply lamp_idx_wp; [done|done|].
  intros l Hg Hpin _ _. rewrite Hg, Hpin.
  assert (GPIOD ∈ gpio_ports) as Hport by (unfold gpio_ports; set_solver).
  destruct (port_latches GPIOD 0 Hport) as (HL & _ & HU); [lia|].
  assert (forall h, cells h (GPIO_ODR GPIOD) =
            set_pins (bool_decide (st = ENABLE)) (Z.shiftl 1 (led_bit led)) (cells (mach s) (GPIO_ODR GPIOD)) ->
            keeps (eq (GPIO_ODR GPIOD)) (mach s) h -> Q tt (set_mach h s)) as Hfin.
  { intros h Hc Hk. apply HQ; [|by split; [by repeat split|]].
    destruct Hs as (Hok & Hv & Hp). split; [done|]. split; [|done].
    rewrite <- Hv. unfold lamps. cbn [set_mach n_led].
    destruct Hok as [(l1 & l2 & -> & _) _].
    assert (forall k l, (k < 2)%nat -> lamp_of (set_mach h s) k l =
              if decide (Z.of_nat k = led) then set_lit (bool_decide (st = ENABLE)) (lamp_of s k l) else lamp_of s k l) as Hl.
    { intros k l' Hk2. unfold lamp_of, set_lit. cbn [set_mach mach]. rewrite Hc, set_pins_testbit by lia.
      rewrite pin_testbit by (done || lia). unfold led_bit.
      destruct (decide (Z.of_nat k = led)), (Z.eqb_spec (Z.of_nat k + 2) (led + 2)); try lia; done. }
    cbn [imap]. unfold compose. rewrite !Hl by lia. destruct Hled as [-> | ->]; done. }
  destruct st; apply wp_io.
  - unfold and_reg. eapply (wp_rmw_latch _ (fun x => Z.land x (Z.lnot (Z.shiftl 1 (led_bit led))))); [done|done|].
    intros h Hc Hk Hr. apply Hfin; [|split; [intros d Hd Hn; apply Hk; [done|congruence]|done]].
    rewrite Hc. unfold set_pins. simpl. bitwise; cmp; btauto.
  - unfold or_reg. eapply (wp_rmw_latch _ (fun x => Z.lor x (Z.shiftl 1 (led_bit led)))); [done|done|].
    intros h Hc Hk Hr. apply Hfin; [|split; [intros d Hd Hn; apply Hk; [done|congruence]|done]].
    rewrite Hc. unfold set_pins. simpl. bitwise; cmp; btauto.
Qed.
End LampRules.

Section LampRefinement.
Context {HW : Hardware} {GL : GpioLaws HW} {E : fault -> node -> Prop}.

Definition set_count (c : Z) (l : lamp) : lamp := Lamp (mode l) (on_at l) (off_at l) c (lit l).
Definition incr_count (l : lamp) : lamp := set_count (u8 (count l + 1)) l.
Definition set_mode (m : LedMode) (l : lamp) : lamp := Lamp m (on_at l) (off_at l) (count l) (lit l).
Definition set_off_at (t : Z) (l : lamp) : lamp := Lamp (mode l) (on_at l) t (count l) (lit l).

Lemma shows_lamps_ext i (f g : lamp -> lamp) v p s :
  (forall x, v !! i = Some x -> f x = g x) ->
  shows_lamps (alter f i v) p s -> shows_lamps (alter g i v) p s.
Proof. intros Hfg. by rewrite (list_alter_ext f g v v i Hfg). Qed.

Lemma led_set_mode_ok m l : led_ok l ->
  led_ok (led_set_mode m l) /\ led_gpio (led_set_mode m l) = led_gpio l /\ led_pin (led_set_mode m l) = led_pin l.
Proof. done. Qed.

Lemma led_set_counter_ok c l : is_u8 c -> led_ok l ->
  led_ok (led_set_counter c l) /\ led_gpio (led_set_counter c l) = led_gpio l /\ led_pin (led_set_counter c l) = led_pin l.
Proof. intros Hc (H1 & H2 & H3). done. Qed.

Lemma led_set_off_time_ok c l : is_u8 c -> led_ok l ->
  led_ok (led_set_off_time c l) /\ led_gpio (led_set_off_time c l) = led_gpio l /\ led_pin (led_set_off_time c l) = led_pin l.
Proof. intros Hc (H1 & H2 & H3). done. Qed.

Ltac lamp_eq H :=
  unfold lamp_tick, compose, incr_count, set_count, set_lit, set_mode;
  cbn [mode on_at off_at count lit]; rewrite ?H.

(** A tick of a LED is a tick of its lamp. *)
Lemma update_led_wp led v p (Q : unit -> node -> Prop) s :
  shows_lamps v p s -> is_led led ->
  (forall s', shows_lamps (alter lamp_tick (Z.to_nat led) v) p s' -> led_step s s' -> Q tt s') ->
  wp E (update_led led) Q s.
Proof using GL.
  intros Hs Hled HQ. unfold update_led. apply wp_bind. eapply lamp_idx_wp; [done|done|].
  intros l _ _ Ol Hx. set (x := lamp_of s (Z.to_nat led) l) in *.
  assert (forall f, (forall y, v !! Z.to_nat led = Some y -> y = x -> f y = lamp_tick y) -> forall s', shows_lamps (alter f (Z.to_nat led) v) p s' ->
            shows_lamps (alter lamp_tick (Z.to_nat led) v) p s') as Hend.
  { intros f Hf s'. apply shows_lamps_ext. intros y Hy. apply Hf; congruence. }
  assert (mode x = led_mode l) as Hmode by done.
  assert (forall (Q : unit -> node -> Prop), (forall s', shows_lamps (alter incr_count (Z.to_nat led) v) p s' -> led_step s s' -> Q tt s') ->
     wp E (idx_upd f_leds led (fun l => led_set_counter (u8 (led_counter l + 1)) l)) Q s) as Hinc.
  { intros Q' HQ'. eapply (lamp_upd_wp led _ incr_count); [done|done| |done|done].
    intros l' Ol'. apply led_set_counter_ok; [apply u8_range|done]. }
  destruct (led_mode l) eqn:Hm.
  - apply wp_ret, HQ; [|apply led_step_refl]. apply (Hend id); [|by rewrite list_alter_id].
    intros y Hy ->. unfold lamp_tick, id. by rewrite Hmode.
  - apply wp_ret, HQ; [|apply led_step_refl]. apply (Hend id); [|by rewrite list_alter_id].
    intros y Hy ->. unfold lamp_tick, id. by rewrite Hmode.
  - apply wp_bind, Hinc. intros s1 H1 St1. apply wp_bind. eapply lamp_idx_wp; [done|done|].
    intros l1 _ _ _ Hx1. rewrite list_lookup_alter_eq, Hx in Hx1. apply (inj Some) in Hx1.
    assert (off_time l1 = off_at x /\ led_counter l1 = u8 (count x + 1)) as [-> ->]
      by (split; [exact (eq_sym (f_equal off_at Hx1))|exact (eq_sym (f_equal count Hx1))]).
    apply wp_when; intros Hc.
    + apply wp_bind. eapply switch_led_wp; [done|done|]. intros s2 H2 St2.
      eapply (lamp_upd_wp led _ (set_mode LedMode_Off)); [done|done|apply led_set_mode_ok|done|].
      intros s3 H3 St3. apply HQ; [|by eauto using led_step_trans].
      rewrite !list_alter_alter_eq in H3. eapply Hend; [|exact H3].
      intros y Hy ->. lamp_eq Hmode. by rewrite Hc.
    + apply HQ; [|done]. eapply Hend; [|exact H1]. intros y Hy ->. lamp_eq Hmode. by rewrite Hc.
  - apply wp_bind, Hinc. intros s1 H1 St1. apply wp_bind. eapply lamp_idx_wp; [done|done|].
    intros l1 _ _ _ Hx1. rewrite list_lookup_alter_eq, Hx in Hx1. apply (inj Some) in Hx1.
    assert (off_time l1 = off_at x /\ led_counter l1 = u8 (count x + 1) /\ on_time l1 = on_at x) as (-> & -> & ->)
      by (split_and!; [exact (eq_sym (f_equal off_at Hx1))|exact (eq_sym (f_equal count Hx1))
                      |exact (eq_sym (f_equal on_at Hx1))]).
    apply wp_if; intros Hc.
    + apply wp_bind. eapply switch_led_wp; [done|done|]. intros s2 H2 St2.
      eapply (lamp_upd_wp led _ (set_count 0)); [done|done| |done|].
      { intros l' Ol'. by apply led_set_counter_ok. }
      intros s3 H3 St3. apply HQ; [|by eauto using led_step_trans].
      rewrite !list_alter_alter_eq in H3. eapply Hend; [|exact H3].
      intros y Hy ->. lamp_eq Hmode. by rewrite Hc.
    + apply wp_when; intros Hc2.
      * eapply switch_led_wp; [done|done|]. intros s2 H2 St2. apply HQ; [|by eauto using led_step_trans].
        rewrite !list_alter_alter_eq in H2. eapply Hend; [|exact H2].
        intros y Hy ->. lamp_eq Hmode. by rewrite Hc, Hc2.
      * apply HQ; [|done]. eapply Hend; [|exact H1]. intros y Hy ->. lamp_eq Hmode. by rewrite Hc, Hc2.
Qed.
End LampRefinement.

(** ** Ticks *)

(** One call of [CAN_Node_Led_clock]: the lamps and the calls before the next tick. *)
Definition lamps_clock (st : list lamp * Z) : list lamp * Z :=
  let '(v, p) := st in if p =? 1 then (lamp_tick <$> v, MaxPeriod) else (v, p - 1).

(** The ticks in [n] calls. *)
Definition ticks (p : Z) (n : nat) : nat := Z.to_nat ((Z.of_nat n + MaxPeriod - p) / MaxPeriod).

Lemma ticks_S p n : 1 <= p <= 3 ->
  ticks p (S n) = if p =? 1 then S (ticks MaxPeriod n) else ticks (p - 1) n.
Proof.
  intros Hp. unfold ticks, MaxPeriod. destruct (Z.eqb_spec p 1) as [->|].
  - replace (Z.of_nat (S n) + 3 - 1) with (Z.of_nat n + 1 * 3) by lia.
    rewrite Z.div_add by lia. replace (Z.of_nat n + 3 - 3) with (Z.of_nat n) by lia.
    assert (0 <= Z.of_nat n / 3) by (apply Z.div_pos; lia). lia.
  - do 2 f_equal. lia.
Qed.

Lemma lamps_clock_iter n : forall v p, 1 <= p <= 3 ->
  (Nat.iter n lamps_clock (v, p)).1 = Nat.iter (ticks p n) (fmap lamp_tick) v.
Proof.
  induction n as [|n IH]; intros v p Hp.
  - unfold ticks, MaxPeriod. simpl. rewrite Z.div_small by lia. done.
  - rewrite Nat.iter_succ_r, ticks_S by done. unfold lamps_clock at 2.
    destruct (p =? 1) eqn:Hp1.
    + rewrite IH by (unfold MaxPeriod; lia). by rewrite <- Nat.iter_succ_r.
    + apply IH. apply Z.eqb_neq in Hp1. lia.
Qed.

(** A blinking lamp is lit for [scale] ticks, and for one tick when [scale] is 0. *)
Lemma blink_ticks scale l k :
  is_u8 scale ->
  let b := Nat.iter k lamp_tick (lamp_blink scale l) in
  lit b = (Z.of_nat k <? Z.max 1 scale) /\
  (if Z.of_nat k <? Z.max 1 scale then b = Lamp LedMode_Blink (on_at l) scale (Z.of_nat k) true
   else mode b = LedMode_Off).
Proof.
  intros Hs. unfold is_u8 in Hs. induction k as [|k IH].
  - simpl. cmp; done.
  - rewrite Nat.iter_succ. cbv zeta in *. revert IH.
    generalize (Nat.iter k lamp_tick (lamp_blink scale l)). intros b [Hl Hb]. revert Hb Hl.
    destruct (Z.ltb_spec (Z.of_nat k) (Z.max 1 scale)) as [Hk|Hk].
    + intros -> _. unfold lamp_tick. cbn [mode count off_at on_at lit].
      rewrite u8_small by (unfold is_u8; lia). cmp; split; try done. f_equal. lia.
    + intros Hm Hl. unfold lamp_tick. rewrite Hm. cmp. done.
Qed.

Section LedTheorems.
Context {HW : Hardware} {GL : GpioLaws HW} {E : fault -> node -> Prop}.

Lemma shows_lamps_two v p s : shows_lamps v p s -> exists a b, v = [a; b].
Proof. intros (((l1 & l2 & Hl & _) & _) & <- & _). unfold lamps. rewrite Hl. simpl. eauto. Qed.

Lemma CAN_Node_Led_clock_wp v p (Q : unit -> node -> Prop) s :
  shows_lamps v p s ->
  (forall s', shows_lamps (lamps_clock (v, p)).1 (lamps_clock (v, p)).2 s' -> led_step s s' -> Q tt s') ->
  wp E CAN_Node_Led_clock Q s.
Proof using GL.
  intros Hs HQ. pose proof (shows_lamps_two _ _ _ Hs) as (a & b & ->).
  destruct Hs as ((Hl & Hp) & Hv & Hpc).
  unfold CAN_Node_Led_clock. apply wp_bind, wp_rd, wp_bind, wp_wr. cbn [fget f_period_counter].
  rewrite Hpc in *. rewrite u8_small by (unfold is_u8, MaxPeriod in *; lia).
  unfold lamps_clock in HQ.
  apply wp_when; intros Hc.
  - assert (p = 1) as -> by (apply Z.eqb_eq in Hc; lia). cbn [Z.eqb Pos.eqb fst snd] in HQ.
    apply wp_bind, wp_wr.
    set (s1 := fset f_period_counter MaxPeriod _).
    assert (shows_lamps [a; b] MaxPeriod s1) as H1.
    { split; [|split; [exact Hv|done]]. split; [exact Hl|]. change (1 <= 3 <= 3). lia. }
    assert (led_step s s1) as St1 by (split; [done|apply keeps_refl]).
    change (range CAN_Node_LedCount) with [0; 1]. cbn [for_each].
    apply wp_bind. eapply (update_led_wp 0); [done|by left|]. intros s2 H2 St2.
    apply wp_bind. eapply (update_led_wp 1); [done|by right|]. intros s3 H3 St3.
    apply wp_ret, HQ; [exact H3|eauto using led_step_trans].
  - assert ((p =? 1) = false) as Hp1 by (apply Z.eqb_neq; apply Z.eqb_neq in Hc; lia).
    rewrite Hp1 in HQ. apply HQ; [|split; [done|apply keeps_refl]].
    split; [|split; [exact Hv|done]]. split; [exact Hl|]. simpl. unfold MaxPeriod in *.
    apply Z.eqb_neq in Hp1. lia.
Qed.

Lemma CAN_Node_Led_blink_wp led scale v p (Q : unit -> node -> Prop) s :
  shows_lamps v p s -> is_led led -> is_u8 scale ->
  (forall s', shows_lamps (alter (lamp_blink scale) (Z.to_nat led) v) p s' -> led_step s s' -> Q tt s') ->
  wp E (CAN_Node_Led_blink led scale) Q s.
Proof using GL.
  intros Hs Hled Hsc HQ. unfold CAN_Node_Led_blink.
  apply wp_bind. eapply (lamp_upd_wp led _ (set_mode LedMode_Off)); [done|done|apply led_set_mode_ok|done|].
  intros s1 H1 St1.
  apply wp_bind. eapply (lamp_upd_wp led _ (set_off_at scale)); [done|done| |done|].
  { intros l. by apply led_set_off_time_ok. }
  intros s2 H2 St2.
  apply wp_bind. eapply (lamp_upd_wp led _ (set_count 0)); [done|done| |done|].
  { intros l. by apply led_set_counter_ok. }
  intros s3 H3 St3.
  apply wp_bind. eapply switch_led_wp; [done|done|]. intros s4 H4 St4.
  eapply (lamp_upd_wp led _ (set_mode LedMode_Blink)); [done|done|apply led_set_mode_ok|done|].
  intros s5 H5 St5. apply HQ; [|eauto 10 using led_step_trans].
  rewrite !list_alter_alter_eq in H5. eapply shows_lamps_ext; [|exact H5]. done.
Qed.

(** Many calls of the clock. *)
Lemma Led_clock_times n : forall v p (Q : unit -> node -> Prop) s,
  shows_lamps v p s ->
  (forall s', shows_lamps (Nat.iter n lamps_clock (v, p)).1 (Nat.iter n lamps_clock (v, p)).2 s' ->
     led_step s s' -> Q tt s') ->
  wp E (times n CAN_Node_Led_clock) Q s.
Proof using GL.
  induction n as [|n IH]; intros v p Q s Hs HQ; simpl.
  - apply wp_ret, HQ; [done|apply led_step_refl].
  - apply wp_bind. eapply CAN_Node_Led_clock_wp; [done|]. intros s1 H1 St1.
    eapply IH; [exact H1|]. intros s2 H2 St2. apply HQ; [|by eapply led_step_trans].
    rewrite <- surjective_pairing in H2. rewrite Nat.iter_succ_r. exact H2.
Qed.

(** The light of a LED: the bit of the output register. *)
Definition light (led : Z) (s : node) : bool :=
  Z.testbit (cells (mach s) (GPIO_ODR GPIOD)) (led_bit led).
End LedTheorems.

(** ** The remaining operations *)

Section LedOthers.
Context {HW : Hardware} {GL : GpioLaws HW} {E : fault -> node -> Prop}.

(** After [CAN_Node_Led_init_all] both pins are outputs driven low. *)
Lemma CAN_Node_Led_init_all_wp (Q : unit -> node -> Prop) s :
  leds_ok (n_led s) ->
  (forall h, (forall led, is_led led -> Z.testbit (cells h (GPIO_DDR GPIOD)) (led_bit led) = true) ->
     (forall led, is_led led -> Z.testbit (cells h (GPIO_ODR GPIOD)) (led_bit led) = false) ->
     keeps (gpio_reg GPIOD) (mach s) h -> Q tt (set_mach h s)) ->
  wp E CAN_Node_Led_init_all Q s.
Proof using GL.
  intros [(l1 & l2 & Hl & G1 & P1 & G2 & P2 & _) _] HQ. unfold CAN_Node_Led_init_all.
  assert (GPIOD ∈ gpio_ports) as Hport by (unfold gpio_ports; set_solver).
  change (range CAN_Node_LedCount) with [0; 1]. cbn [for_each].
  apply wp_bind, wp_bind. eapply wp_eq; [apply (idx_ok f_leds 0 l1); [done|simpl; by rewrite Hl]|].
  rewrite G1, P1. apply wp_io. apply GPIO_Init_wp; [done|]. intros h1 O1 D1 _ _ K1 R1.
  apply wp_bind, wp_bind. eapply wp_eq; [apply (idx_ok f_leds 1 l2); [done|simpl; by rewrite Hl]|].
  rewrite G2, P2. apply wp_io. apply GPIO_Init_wp; [done|]. intros h2 O2 D2 _ _ K2 R2.
  apply wp_ret. simpl in *. change (mode_bit GPIO_MODE_OUT_PP_LOW_FAST 128) with true in *.
  change (mode_bit GPIO_MODE_OUT_PP_LOW_FAST 16) with false in *. cbn [set_mach mach] in *.
  change (set_mach h2 (set_mach h1 s)) with (set_mach h2 s). apply HQ.
  - intros led Hled. unfold GPIO_DDR in *. rewrite D2, set_pins_testbit, D1, set_pins_testbit by (destruct Hled as [-> | ->]; unfold led_bit; lia).
    by destruct Hled as [-> | ->].
  - intros led Hled. unfold GPIO_ODR in *. rewrite O2, set_pins_testbit, O1, set_pins_testbit by (destruct Hled as [-> | ->]; unfold led_bit; lia).
    by destruct Hled as [-> | ->].
  - apply (keeps_trans _ _ h1); split; auto.
Qed.

Lemma CAN_Node_Led_switch_wp led st v p (Q : unit -> node -> Prop) s :
  shows_lamps v p s -> is_led led ->
  (forall s' v', shows_lamps v' p s' -> led_step s s' -> Q tt s') ->
  wp E (CAN_Node_Led_switch led st) Q s.
Proof using GL.
  intros Hs Hled HQ. unfold CAN_Node_Led_switch.
  set (m := match st with ENABLE => LedMode_On | DISABLE => LedMode_Off end).
  apply wp_bind. eapply (lamp_upd_wp led _ (set_mode m)); [done|done|apply led_set_mode_ok|done|].
  intros s1 H1 St1. eapply switch_led_wp; [done|done|]. intros s2 H2 St2.
  eapply HQ; [done|by eapply led_step_trans].
Qed.
End LedOthers.

(** ** Theorems *)

(** C37. One call in three of [CAN_Node_Led_clock] ticks both lamps: the firmware
    refines the abstract lamps, LED by LED, and touches nothing but the LED state
    and the output register of port D. *)
Theorem led_clock_refines {HW : Hardware} {GL : GpioLaws HW} v p (s : node) :
  shows_lamps v p s ->
  exists s', CAN_Node_Led_clock s = Ok tt s' /\
    shows_lamps (lamps_clock (v, p)).1 (lamps_clock (v, p)).2 s' /\ led_step s s'.
Proof.
  intros Hs.
  destruct (wp_total_inv CAN_Node_Led_clock (fun _ s' => shows_lamps (lamps_clock (v, p)).1 (lamps_clock (v, p)).2 s' /\ led_step s s') s)
    as ([] & s' & Heq & H); [|eauto].
  eapply CAN_Node_Led_clock_wp; [exact Hs|]. done.
Qed.

Definition sim_node : @node sim := node_init sim_machine.

Lemma sim_leds_ok : leds_ok (n_led sim_node).
Proof.
  split; [|change (1 <= 3 <= 3); lia]. do 2 eexists. split; [reflexivity|].
  unfold led_ok, is_u8. simpl. split_and!; done.
Qed.

Definition sim_lamps : list lamp := [Lamp LedMode_Off 0 0 0 false; Lamp LedMode_Off 0 0 0 false].

Lemma led_clock_refines_witness :
  exists s' : @node sim, CAN_Node_Led_clock sim_node = Ok tt s' /\ shows_lamps sim_lamps 2 s'.
Proof.
  destruct (led_clock_refines sim_lamps 3 sim_node) as (s' & Heq & Hs & _).
  - split; [exact sim_leds_ok|]. split; vm_compute; reflexivity.
  - exists s'. split; [exact Heq|exact Hs].
Defined.

(** A LED asked to blink is lit at once, stays lit for [scale] ticks (one
    tick when [scale] is 0), goes out and stays out: its output bit after any
    number of clock calls. *)
Theorem led_blink_lit {HW : Hardware} {GL : GpioLaws HW} led scale n (s : node) :
  leds_ok (n_led s) -> is_led led -> is_u8 scale ->
  exists s', (CAN_Node_Led_blink led scale ;; times n CAN_Node_Led_clock) s = Ok tt s' /\
    light led s' = (Z.of_nat (ticks (period_counter (n_led s)) n) <? Z.max 1 scale) /\ led_step s s'.
Proof.
  intros Hok Hled Hsc. set (p := period_counter (n_led s)).
  assert (shows_lamps (lamps s) p s) as Hs by done.
  assert (exists x, lamps s !! Z.to_nat led = Some x) as [x Hx].
  { destruct (shows_lamps_two _ _ _ Hs) as (a & b & ->). destruct Hled as [-> | ->]; eauto. }
  destruct (wp_total_inv (CAN_Node_Led_blink led scale ;; times n CAN_Node_Led_clock)
    (fun _ s' => light led s' = (Z.of_nat (ticks p n) <? Z.max 1 scale) /\ led_step s s') s)
    as ([] & s' & Heq & H); [|by exists s'].
  apply wp_bind. eapply CAN_Node_Led_blink_wp; [exact Hs|done|done|]. intros s1 H1 St1.
  eapply Led_clock_times; [exact H1|]. intros s2 H2 St2.
  split; [|by eapply led_step_trans]. clear H1.
  rewrite lamps_clock_iter in H2 by apply Hok.
  destruct (blink_ticks scale x (ticks p n) Hsc) as [Hlit _]. rewrite <- Hlit.
  destruct H2 as (Hok2 & Hv & _).
  assert (lamps s2 !! Z.to_nat led = Some (Nat.iter (ticks p n) lamp_tick (lamp_blink scale x))) as Hl.
  { rewrite Hv. generalize (ticks p n). intros k. induction k as [|k IH].
    - simpl. rewrite list_lookup_alter_eq, Hx. done.
    - rewrite !Nat.iter_succ, list_lookup_fmap, IH. done. }
  unfold lamps in Hl. rewrite list_lookup_imap in Hl.
  destruct (leds (n_led s2) !! Z.to_nat led) as [l|]; [|done]. simpl in Hl. apply (inj Some) in Hl.
  rewrite <- Hl. unfold light, lamp_of, led_bit. simpl. f_equal. destruct Hled as [-> | ->]; done.
Qed.

Lemma led_blink_lit_witness :
  exists s' : @node sim, (CAN_Node_Led_blink CAN_Node_Led_Info 10 ;; times 29 CAN_Node_Led_clock) sim_node = Ok tt s' /\
    light CAN_Node_Led_Info s' = true.
Proof.
  destruct (led_blink_lit CAN_Node_Led_Info 10 29 sim_node) as (s' & Heq & Hl & _).
  - exact sim_leds_ok.
  - by left.
  - unfold is_u8. lia.
  - exists s'. split; [exact Heq|exact Hl].
Defined.
