(* ===== verification/Clock.v ===== *)
(** The 20 ms clock, [firmware/stm8/can_node/clock.c]: one update event of TIM4 in
    ten makes [CAN_Node_Clock_check_pending] answer TRUE. *)

From S2P Require Import Prelude Monad Machine Gpio Tim4 Clk State Sim.

Section Operations.
Context {HW : Hardware}.

(** 8 MHz divided by 2^7 and 125 is 500 Hz. *)
Definition CAN_Node_Clock_init : prog node unit :=
  io (TIM4_TimeBaseInit TIM4_PRESCALER_128 Tim4Period) ;;
  io (TIM4_ClearFlag TIM4_FLAG_UPDATE) ;;
  io (TIM4_Cmd ENABLE).

Definition CAN_Node_Clock_check_pending : prog node bool :=
  let! f := io (TIM4_GetFlagStatus TIM4_FLAG_UPDATE) in
  match f with
  | RESET => ret false
  | SET =>
      io (TIM4_ClearFlag TIM4_FLAG_UPDATE) ;;
      let! c := rd f_clock_counter in
      let c := u8 (c - 1) in
      wr f_clock_counter c ;;
      if c =? 0 then wr f_clock_counter ClockPostscaler ;; ret true else ret false
  end.

(** The interrupt handler; the interrupt is never enabled. *)
Definition TIM4_UPD_OVF_IRQHandler : prog node unit := io (TIM4_ClearITPendingBit TIM4_IT_UPDATE).
End Operations.

Lemma tim4_off_tape d : tim4_reg d -> off_tape d.
Proof.
  unfold tim4_reg, off_tape, Flash.eeprom, TIM4_BaseAddress, Flash.FLASH_DATA_START_PHYSICAL_ADDRESS,
    Flash.FLASH_DATA_END_PHYSICAL_ADDRESS. lia.
Qed.

Section Rules.
Context {HW : Hardware} {E : fault -> node -> Prop}.

Definition clock_ok (c : Z) : Prop := 1 <= c <= ClockPostscaler.

(** The update flag, as a load of the status register would show it now. *)
Definition update_shown (s : node) : bool :=
  negb (Z.land (u8 (fst (hw_load TIM4_SR1 (hw (mach s))))) TIM4_FLAG_UPDATE =? 0).

(** The counter and the answer of a call. *)
Definition clock_step (flag : bool) (c : Z) : Z * bool :=
  if flag then if c =? 1 then (ClockPostscaler, true) else (c - 1, false) else (c, false).

Lemma clock_step_ok flag c : clock_ok c -> clock_ok (clock_step flag c).1.
Proof.
  unfold clock_ok, clock_step, ClockPostscaler. intros Hc. destruct flag; [|done].
  destruct (Z.eqb_spec c 1); simpl; lia.
Qed.

Lemma CAN_Node_Clock_check_pending_wp (Q : bool -> node -> Prop) s :
  clock_ok (clock_counter s) ->
  (forall h, keeps off_tape (mach s) h ->
     Q (clock_step (update_shown s) (clock_counter s)).2
       (set_mach h (set_clock (clock_step (update_shown s) (clock_counter s)).1 s))) ->
  wp E CAN_Node_Clock_check_pending Q s.
Proof.
  intros Hc HQ. unfold CAN_Node_Clock_check_pending. apply wp_bind.
  pose proof (touches_TIM4_GetFlagStatus (HW:=HW) TIM4_FLAG_UPDATE (mach s)) as Ht.
  apply wp_io. revert Ht. unfold wp, TIM4_GetFlagStatus, bind, load, ret, update_shown in *.
  destruct (hw_load TIM4_SR1 (hw (mach s))) as [v p]. cbn [fst] in *.
  change (u8 TIM4_FLAG_UPDATE) with TIM4_FLAG_UPDATE.
  intros Ht. apply (keeps_weaken _ off_tape) in Ht; [|apply tim4_off_tape].
  destruct (negb (Z.land (u8 v) TIM4_FLAG_UPDATE =? 0)); [|by apply HQ].
  apply wp_bind. eapply wp_io_off; [apply touches_TIM4_ClearFlag|apply tim4_off_tape|].
  intros [] h Hk. cbn [set_mach mach] in Hk. apply wp_bind, wp_rd, wp_bind, wp_wr.
  cbn [fget f_clock_counter fset set_clock set_mach clock_counter].
  rewrite u8_small by (unfold clock_ok, is_u8, ClockPostscaler in *; lia).
  assert (keeps off_tape (mach s) h) as Hk' by by eapply keeps_trans.
  unfold clock_step in HQ. specialize (HQ h Hk').
  replace (clock_counter s - 1 =? 0) with (clock_counter s =? 1) by (cmp; lia).
  destruct (clock_counter s =? 1); [apply wp_bind, wp_wr|]; by apply wp_ret.
Qed.

Lemma CAN_Node_Clock_init_wp (Q : unit -> node -> Prop) s :
  (forall h, keeps off_tape (mach s) h -> Q tt (set_mach h s)) -> wp E CAN_Node_Clock_init Q s.
Proof.
  intros HQ. unfold CAN_Node_Clock_init. apply wp_bind.
  eapply wp_io_off; [apply touches_TIM4_TimeBaseInit|apply tim4_off_tape|]. intros [] h1 K1.
  apply wp_bind. eapply wp_io_off; [apply touches_TIM4_ClearFlag|apply tim4_off_tape|]. intros [] h2 K2.
  eapply wp_io_off; [apply touches_TIM4_Cmd|apply tim4_off_tape|]. intros [] h3 K3.
  apply HQ. by eapply keeps_trans; [|eapply keeps_trans].
Qed.
End Rules.

(** ** The rate *)

(** TIM4 updates once in [2 ^ PSC * (ARR + 1)] cycles of its clock (RM0016,
    "TIM4 time base unit"). *)
Definition update_cycles {HW : Hardware} (h : machine) : Z :=
  2 ^ Z.land (cells h TIM4_PSCR) 7 * (cells h TIM4_ARR + 1).

(** The clock runs at 50 Hz: the time base [CAN_Node_Clock_init] leaves in
    TIM4 gives an update every 2 ms at 8 MHz, and so, with the division by ten of
    [CAN_Node_Clock_check_pending], a clock event every 20 ms. *)
Theorem clock_rate {HW : Hardware} {TL : Tim4Laws HW} (s : node) :
  wp total CAN_Node_Clock_init (fun _ s' =>
    1000 * update_cycles (mach s') = 2 * HSE_VALUE /\
    1000 * (ClockPostscaler * update_cycles (mach s')) = 20 * HSE_VALUE) s.
Proof.
  assert (stable TIM4_PSCR /\ stable TIM4_ARR) as [HP HA]
    by (split; [apply tim4_pscr_stable|apply latch_stable, tim4_arr_latch]).
  unfold CAN_Node_Clock_init. apply wp_bind, wp_io. unfold TIM4_TimeBaseInit.
  apply wp_bind, wp_store. set (h1 := after_store _ _ _).
  eapply (wp_store_latch TIM4_ARR TIM4_ARR); [apply tim4_arr_latch|done|]. intros h2 Harr Hk _.
  assert (Z.land (cells h2 TIM4_PSCR) 7 = 7) as Hpsc.
  { rewrite Hk by done. unfold h1. cbn [after_store cells]. unfold hw. by rewrite tim4_pscr_store. }
  assert (touches (eq TIM4_SR1) (TIM4_ClearFlag TIM4_FLAG_UPDATE)) as Hclear by by apply touches_store.
  assert (touches (eq TIM4_CR1) (TIM4_Cmd ENABLE)) as Hcmd.
  { apply touches_bind; [apply touches_load|]. intros v. by apply touches_store. }
  apply wp_bind, wp_io. eapply wp_mono; [apply Hclear|]. intros [] h3 [K3 _].
  apply wp_io. eapply wp_mono; [apply Hcmd|]. intros [] h4 [K4 _].
  cbn [set_mach mach] in *. unfold update_cycles. by rewrite !K4, !K3, Harr, Hpsc by done.
Qed.

Lemma clock_rate_witness :
  wp total (CAN_Node_Clock_init (HW:=sim)) (fun _ s' => 1000 * update_cycles (mach s') = 2 * HSE_VALUE)
    (node_init sim_machine).
Proof.
  eapply wp_mono; [apply (clock_rate (HW:=sim))|]. intros [] s' [H _]. exact H.
Defined.

(** ** Many calls *)

Section Trace.
Context {HW : Hardware}.

(** [n] calls: at each, the flag the hardware shows and the answer. *)
Fixpoint clock_trace (n : nat) (s : node) : list (bool * bool) :=
  match n with
  | O => []
  | S n' =>
      match CAN_Node_Clock_check_pending s with
      | Ok r s' => (update_shown s, r) :: clock_trace n' s'
      | Fault _ _ => []
      end
  end.

Definition count_true (l : list bool) : Z := Z.of_nat (length (filter (fun b => Is_true b) l)).

Lemma count_true_cons b l : count_true (b :: l) = Z.b2z b + count_true l.
Proof.
  unfold count_true. destruct b; [rewrite filter_cons_True by done|rewrite filter_cons_False by (by intros [])];
    cbn [length Z.b2z]; lia.
Qed.

(** The clock divides the timer: over any number of calls, whatever the
    hardware does, every call returns and TRUE is answered once in ten update
    flags seen, counting from the flags the counter already holds. *)
Theorem clock_divides_by_ten n (s : node) :
  clock_ok (clock_counter s) ->
  length (clock_trace n s) = n /\
  count_true (snd <$> clock_trace n s) =
    (count_true (fst <$> clock_trace n s) + (ClockPostscaler - clock_counter s)) / ClockPostscaler.
Proof.
  revert s. induction n as [|n IH]; intros s Hc.
  - split; [done|]. change (0 = (0 + (ClockPostscaler - clock_counter s)) / ClockPostscaler).
    unfold clock_ok, ClockPostscaler in *. by rewrite Z.div_small by lia.
  - cbn [clock_trace]. destruct (wp_total_inv CAN_Node_Clock_check_pending
      (fun r s' => r = (clock_step (update_shown s) (clock_counter s)).2 /\
                   clock_counter s' = (clock_step (update_shown s) (clock_counter s)).1) s)
      as (r & s' & -> & -> & Hc'); [by apply CAN_Node_Clock_check_pending_wp|].
    pose proof (clock_step_ok (update_shown s) _ Hc) as Hok. rewrite <- Hc' in Hok.
    destruct (IH s' Hok) as [Hlen Hcount]. split; [cbn [length]; by rewrite Hlen|].
    rewrite !fmap_cons, !count_true_cons, Hcount, Hc'. cbn [fst snd].
    set (k := count_true (fst <$> clock_trace n s')). unfold clock_step, ClockPostscaler, clock_ok in *.
    destruct (update_shown s); [|done]. destruct (Z.eqb_spec (clock_counter s) 1) as [->|]; cbn [fst snd Z.b2z].
    + replace (1 + k + (10 - 1)) with (k + (10 - 10) + 1 * 10) by lia. rewrite Z.div_add by done. apply Z.add_comm.
    + rewrite Z.add_0_l. f_equal. lia.
Qed.
End Trace.

Lemma clock_divides_by_ten_witness :
  length (clock_trace 30 (node_init sim_machine)) = 30%nat.
Proof.
  destruct (clock_divides_by_ten 30 (node_init sim_machine)) as [H _].
  - unfold clock_ok, ClockPostscaler. simpl. unfold ClockPostscaler. lia.
  - exact H.
Defined.
