(* ===== verification/Can.v ===== *)
(** The CAN side of the node, [firmware/stm8/can_node/can.c], but for the receive
    loop, which calls the modules and is in [Receive.v]. *)

From stdpp Require Import sets.
From S2P Require Import Prelude Monad CanProto Machine Gpio CanDrv CanRules Sim State Led.

(** ** Operations *)

(** The device bits of the two high filter bytes. *)
Definition dev_hi (device_id : Z) : Z := Z.lor (Z.land (Z.shiftr device_id 5) 0x03) 0.
Definition dev_lo (device_id : Z) : Z :=
  Z.lor (Z.lor (Z.land (Z.shiftl device_id 3) 0xe0) (Z.land (Z.shiftl device_id 1) 6)) 0.

Section Operations.
Context {HW : Hardware}.

Definition get_device_id : prog node Z := CAN_Node_Sysinfo_get_device_id.

Definition CAN_Node_CAN_init : prog node CAN_InitStatus_TypeDef :=
  let! device_id := get_device_id in
  io CAN_DeInit ;;
  let! status := io (CAN_Init CAN_MasterCtrl_AllDisabled CAN_Mode_Normal CAN_SynJumpWidth_1TimeQuantum
                       CAN_BitSeg1_8TimeQuantum CAN_BitSeg2_7TimeQuantum 10) in
  if negb (bool_decide (status = CAN_InitStatus_Success)) then ret status
  else
    io (CAN_FilterInit CAN_FilterNumber_0 ENABLE CAN_FilterMode_IdMask CAN_FilterScale_16Bit
          (dev_hi device_id) (dev_lo device_id) 0xff 0xef
          0x03 0xe6 0xff 0xef) ;;
    ret status.

Definition CAN_Node_CAN_send_reply (length : Z) (value : list Z) : prog node unit :=
  let! received_id := rd f_received_id in
  let! status := io (CAN_Transmit received_id CAN_Id_Extended CAN_RTR_Data length value) in
  when (status =? CAN_TxStatus_NoMailBox) (CAN_Node_Led_blink CAN_Node_Led_Error 4).

(** The identifier of a data frame the node sends of its own accord. *)
Definition send_packet_id (device_id channel_id index : Z) : HA_CAN_PacketId := {|
  priority := 0;
  reserved := 1;
  device_id_field := to_device_id_field device_id;
  address := u16 (Z.lor (Z.shiftl (Z.lor (u16 channel_id) 0x80) 8) index)
|}.

Definition CAN_Node_CAN_send_data (channel_id index length : Z) (value : list Z) : prog node unit :=
  let! device_id := get_device_id in
  let send_id := HA_CAN_packet_id_to_number (send_packet_id device_id channel_id index) in
  let! _ := io (CAN_Transmit send_id CAN_Id_Extended CAN_RTR_Data length value) in
  ret tt.
End Operations.

(** ** Rules *)

Section Rules.
Context {HW : Hardware} {E : fault -> node -> Prop}.

(** What sending may do to the node: the CAN cell, and the error LED. *)
Definition sends (s s' : node) : Prop :=
  same_but_leds s s' /\ leds_ok (n_led s') /\ keeps off_tape (mach s) (mach s').

Lemma led_step_sends {GL : GpioLaws HW} s s' : leds_ok (n_led s') -> led_step s s' -> sends s s'.
Proof.
  intros Hok [Hs Hk]. split; [done|]. split; [done|]. eapply keeps_weaken; [done|].
  intros d <-. apply (gpio_off_tape GPIOD); [unfold gpio_ports; set_solver|unfold gpio_reg, GPIO_ODR; lia].
Qed.

Lemma sends_trans s1 s2 s3 : sends s1 s2 -> sends s2 s3 -> sends s1 s3.
Proof.
  intros ((A1 & A2 & A3 & A4 & A5 & A6 & A7) & _ & K1) ((B1 & B2 & B3 & B4 & B5 & B6 & B7) & Hok & K2).
  split; [repeat split; congruence|]. split; [done|by eapply keeps_trans].
Qed.

Lemma sends_io s h : leds_ok (n_led s) -> keeps off_tape (mach s) h -> sends s (set_mach h s).
Proof. intros Hok Hk. split; [by repeat split|by split]. Qed.

(** A blink of a LED: its lamp starts to blink, and nothing else changes. *)
Definition blinks (led scale : Z) (s s' : node) : Prop :=
  lamps s' = alter (lamp_blink scale) (Z.to_nat led) (lamps s) /\ leds_ok (n_led s') /\ led_step s s'.

Lemma CAN_Node_Led_blink_blinks {GL : GpioLaws HW} led scale (Q : unit -> node -> Prop) s :
  leds_ok (n_led s) -> is_led led -> is_u8 scale -> (forall s', blinks led scale s s' -> Q tt s') ->
  wp E (CAN_Node_Led_blink led scale) Q s.
Proof.
  intros Hok Hled Hsc HQ. eapply CAN_Node_Led_blink_wp; [by split|done|done|].
  intros s' (Hok' & Hl & _) St. apply HQ. by split.
Qed.

Lemma blinks_sends {GL : GpioLaws HW} led scale s s' : blinks led scale s s' -> sends s s'.
Proof. intros (_ & Hok & St). by apply led_step_sends. Qed.

(** Any LED operation the other files call. *)
Lemma CAN_Node_Led_blink_sends {GL : GpioLaws HW} led scale (Q : unit -> node -> Prop) s :
  leds_ok (n_led s) -> is_led led -> is_u8 scale -> (forall s', sends s s' -> Q tt s') ->
  wp E (CAN_Node_Led_blink led scale) Q s.
Proof.
  intros Hok Hled Hsc HQ. apply CAN_Node_Led_blink_blinks; [done..|]. intros s' H. by eapply HQ, blinks_sends.
Qed.

Lemma CAN_Node_CAN_send_data_wp channel_id index len value (Q : unit -> node -> Prop) s :
  (8 <= length value)%nat ->
  (forall h, keeps off_tape (mach s) h -> Q tt (set_mach h s)) ->
  wp E (CAN_Node_CAN_send_data channel_id index len value) Q s.
Proof.
  intros Hv HQ. unfold CAN_Node_CAN_send_data. apply wp_bind, wp_rd, wp_bind.
  eapply wp_io_off; [by apply touches_CAN_Transmit|apply can_off_tape|]. intros st h Hk.
  by apply wp_ret, HQ.
Qed.

Lemma CAN_Node_CAN_send_reply_wp {GL : GpioLaws HW} len value (Q : unit -> node -> Prop) s :
  leds_ok (n_led s) -> (8 <= length value)%nat -> (forall s', sends s s' -> Q tt s') ->
  wp E (CAN_Node_CAN_send_reply len value) Q s.
Proof.
  intros Hok Hv HQ. unfold CAN_Node_CAN_send_reply. apply wp_bind, wp_rd, wp_bind.
  eapply wp_io_off; [by apply touches_CAN_Transmit|apply can_off_tape|]. intros st h Hk.
  assert (sends s (set_mach h s)) as S1 by by apply sends_io.
  apply wp_when; intros _; [|by apply HQ].
  apply CAN_Node_Led_blink_sends; [done|by right|unfold is_u8; lia|].
  intros s' S2. apply HQ. by eapply sends_trans.
Qed.

Lemma CAN_Node_CAN_init_wp (Q : CAN_InitStatus_TypeDef -> node -> Prop) s :
  (forall st h, keeps off_tape (mach s) h -> Q st (set_mach h s)) -> wp E CAN_Node_CAN_init Q s.
Proof.
  intros HQ. unfold CAN_Node_CAN_init. apply wp_bind, wp_rd, wp_bind.
  eapply wp_io_off; [apply touches_CAN_DeInit|apply can_off_tape|]. intros [] h1 K1. apply wp_bind.
  eapply wp_io_off; [apply touches_CAN_Init|apply can_off_tape|]. intros st h2 K2.
  assert (keeps off_tape (mach s) h2) as K12 by by eapply keeps_trans.
  apply wp_if; intros _; [by apply wp_ret, HQ|]. apply wp_bind.
  eapply wp_io_off; [apply touches_CAN_FilterInit|apply can_off_tape|]. intros [] h3 K3.
  apply wp_ret, HQ. by eapply keeps_trans.
Qed.
End Rules.
