(* ===== verification/CanFilter.v ===== *)
(** The acceptance filter of the node: what [CAN_Node_CAN_init] leaves in the filter banks
    of the CAN cell, and which frames the cell passes with them. *)

From S2P Require Import Prelude Monad CanProto Machine Gpio Tim4 Flash CanDrv CanRules Sim State Can.

(** ** What the cell passes

    The six filter banks as the registers of the CAN cell have them (RM0016, "Identifier
    filtering"): eight bytes each, in the pages 2 to 4; a bank is active, and has its scale,
    in [FCR1] to [FCR3]; its mode is in [FMR1] and [FMR2]. *)

Definition bank_bytes (m : mem) (n : Z) : list Z :=
  (fun k => m (page_cell (2 + n / 2) (8 * (n mod 2) + k))) <$> range 8.

Definition bank_active (m : mem) (n : Z) : bool := Z.testbit (m (page_cell 6 (10 + n / 2))) (4 * (n mod 2)).
Definition bank_scale (m : mem) (n : Z) : Z := Z.land (Z.shiftr (m (page_cell 6 (10 + n / 2))) (4 * (n mod 2) + 1)) 3.
Definition bank_mode (m : mem) (n : Z) : Z := Z.land (Z.shiftr (m (page_cell 6 (8 + n / 4))) (2 * (n mod 4))) 3.

(** A bank of scale 16 bit in mask mode compares, for each of its two identifier and mask
    pairs, the word below of an incoming frame under the mask. *)
Definition filter_word_hi (exid : Z) : Z := Z.land (Z.shiftr exid 21) 0xff.
Definition filter_word_lo (exid : Z) (rtr ide : bool) : Z :=
  Z.lor (Z.lor (Z.lor (Z.shiftl (Z.land (Z.shiftr exid 18) 7) 5) (Z.shiftl (Z.b2z rtr) 4)) (Z.shiftl (Z.b2z ide) 3))
        (Z.land (Z.shiftr exid 15) 7).

Definition masked_eq (x y m : Z) : bool := Z.land x m =? Z.land y m.

Definition bank_accepts (bank : list Z) (exid : Z) (rtr ide : bool) : bool :=
  match bank with
  | [id1; id2; m1; m2; id3; id4; m3; m4] =>
      let hi := filter_word_hi exid in let lo := filter_word_lo exid rtr ide in
      (masked_eq hi id1 m1 && masked_eq lo id2 m2) || (masked_eq hi id3 m3 && masked_eq lo id4 m4)
  | _ => false
  end.

(** What bank [n] says of a frame; the banks of another scale or mode, which the node does not
    use, are not modelled. *)
Definition bank_says (m : mem) (n exid : Z) (rtr ide : bool) : option bool :=
  if negb (bank_active m n) then Some false
  else if (bank_scale m n =? 2) && (bank_mode m n =? 0) then Some (bank_accepts (bank_bytes m n) exid rtr ide)
  else None.

(** The cell passes a frame that some bank accepts. *)
Definition cell_passes (m : mem) (exid : Z) (rtr ide : bool) : option bool :=
  foldr (fun n acc => b ← bank_says m n exid rtr ide; c ← acc; Some (b || c)) (Some false) (range 6).

(** ** What the driver relies on *)

(** The filter and filter configuration registers, with the bits they have. *)
Definition filter_reg (c : Z) : bool :=
  (page_cell 2 0 <=? c) && (c <=? page_cell 4 15) || (page_cell 6 8 <=? c) && (c <=? page_cell 6 12).
Definition reg_bits (c : Z) : Z :=
  if c =? page_cell 6 9 then 0x0f else if (page_cell 6 10 <=? c) && (c <=? page_cell 6 12) then 0x77 else 0xff.

(** [MCR] asks for the initialization mode; [MSR] shows that the cell is in it. *)
Definition asks_init (m : mem) : Prop := Z.testbit (m CAN_MCR) 0 = true.
Definition in_init (m : mem) : Prop := Z.land (m CAN_MSR) CAN_MODE_MASK = CAN_MSR_INAK.

(** The cell enters the initialization mode some time after it is asked, while [MSR] is read,
    at the latest when the frame on the bus is over, and stays there until the request is
    withdrawn; there the filter registers take what is stored, and at no time does anything
    but a store change them. *)
Class FilterLaws (HW : Hardware) : Prop := {
  msr_load m h : fst (hw_load CAN_MSR (m, h)) = m CAN_MSR;
  ask_store v m h : Z.testbit v 0 = true -> asks_init (fst (hw_store CAN_MCR v (m, h)));
  ask_keep_load a m h : asks_init m -> asks_init (fst (snd (hw_load a (m, h))));
  ask_keep_store a v m h : a <> CAN_MCR -> asks_init m -> asks_init (fst (hw_store a v (m, h)));
  init_entered v m h : Z.testbit v 0 = true -> Z.testbit v 1 = false ->
    exists n, Z.of_nat n <= CAN_ACKNOWLEDGE_TIMEOUT /\
      in_init (fst (Nat.iter n (fun p => snd (hw_load CAN_MSR p)) (hw_store CAN_MCR v (m, h))));
  init_keep_load a m h : asks_init m -> in_init m -> in_init (fst (snd (hw_load a (m, h))));
  init_keep_store a v m h : a <> CAN_MCR -> a <> CAN_MSR -> asks_init m -> in_init m -> in_init (fst (hw_store a v (m, h)));
  reg_stable c : filter_reg c = true -> stable c;
  reg_load a m h : filter_reg (cell m a) = true -> fst (hw_load a (m, h)) = m (cell m a);
  reg_store a v m h : in_init m -> filter_reg (cell m a) = true -> Z.land v (reg_bits (cell m a)) = v ->
    fst (hw_store a v (m, h)) (cell m a) = v
}.

(** ** The driver under these laws *)

Inductive stage : Type := Any | Asked | InInit.

Definition stage_ok (i : stage) (m : mem) : Prop :=
  match i with Any => True | Asked => asks_init m | InInit => asks_init m /\ in_init m end.

Section Walk.
Context {HW : Hardware} {CL : CanLaws HW} {FiL : FilterLaws HW} {E : fault -> machine -> Prop}.

(** The machine shows page [p], is at stage [i] of a request, and has [f] in the filter
    registers. *)
Definition conf (p : Z) (i : stage) (f : mem) (s : machine) : Prop :=
  on_page p s /\ stage_ok i (cells s) /\ forall c, filter_reg c = true -> cells s c = f c.

(** The cell of an address while page [p] is shown. *)
Definition target (p a : Z) : Z := if in_can_page a then page_cell p (a - CAN_Page) else a.

Lemma conf_cell p i f s a : conf p i f s -> cell (cells s) a = target p a.
Proof using. intros (Hp & _). unfold cell, target. by rewrite Hp. Qed.

Lemma conf_start s : conf (Z.land (cells s CAN_PSR) 7) Any (cells s) s.
Proof using. split; [reflexivity|]. by split; [exact I|]. Qed.

Lemma conf_any p i f s : conf p i f s -> conf p Any f s.
Proof using. intros (Hp & _ & Hf). split; [done|]. by split; [exact I|]. Qed.

Lemma conf_loaded p i f a s : conf p i f s -> conf p i f (after_load a s).
Proof using CL FiL.
  intros (Hp & Hi & Hf). pose proof (keeps_after_load (fun _ => False) a s) as K.
  split; [by apply (on_page_keeps (fun _ => False) _ s); [tauto|..]|]. split.
  - unfold after_load, set_hw, hw. cbn [cells]. destruct i; cbn in *; [done|by apply ask_keep_load|].
    destruct Hi. split; [by apply ask_keep_load|by apply init_keep_load].
  - intros c Hc. destruct K as [K _]. rewrite K; [by apply Hf|by apply reg_stable|tauto].
Qed.

Lemma conf_load p i f a (Q : Z -> machine -> Prop) s :
  conf p i f s -> (forall s', conf p i f s' -> Q (shown a s) s') -> wp E (load a) Q s.
Proof using CL FiL. intros Hc HQ. apply wp_load_shown, HQ. by apply conf_loaded. Qed.

Lemma conf_load_reg p i f a (Q : Z -> machine -> Prop) s :
  filter_reg (target p a) = true -> conf p i f s -> (forall s', conf p i f s' -> Q (u8 (f (target p a))) s') ->
  wp E (load a) Q s.
Proof using CL FiL.
  intros Ha Hc HQ. apply (conf_load p i f); [done|]. intros s' Hc'. pose proof (conf_cell p i f s a Hc) as Hcell.
  unfold shown, hw. rewrite reg_load by by rewrite Hcell. rewrite Hcell. destruct Hc as (_ & _ & Hf). rewrite Hf by done. by apply HQ.
Qed.

(** A store that the filters do not see. *)
Lemma conf_store p i f a v (Q : unit -> machine -> Prop) s :
  a <> CAN_PSR -> a <> CAN_MCR -> a <> CAN_MSR -> filter_reg (target p a) = false ->
  conf p i f s -> (forall s', conf p i f s' -> Q tt s') -> wp E (store a v) Q s.
Proof using CL FiL.
  intros N1 N2 N3 Ht Hc HQ. apply wp_store, HQ. pose proof (conf_cell p i f s a Hc) as Hcell. destruct Hc as (Hp & Hi & Hf).
  destruct (keeps_store a v s) as [K _]. rewrite Hcell in K. split; [|split].
  - unfold on_page. rewrite K; [done|apply psr_stable|]. unfold target, page_cell, in_can_page, CAN_Page, CAN_PSR, CAN_BaseAddress in *.
    destruct (_ && _) eqn:Ein; [|done]. apply andb_true_iff in Ein as [E1 E2]. apply Z.leb_le in E1. apply Z.ltb_lt in E2.
    pose proof (psr_low (cells s)) as Hlow. unfold on_page in Hp. unfold CAN_PSR, CAN_BaseAddress in Hlow, Hp. lia.
  - unfold after_store, hw. cbn [cells]. destruct i; cbn in *; [done|by apply ask_keep_store|].
    destruct Hi. split; [by apply ask_keep_store|by apply init_keep_store].
  - intros c Hc. rewrite K; [by apply Hf|by apply reg_stable|]. intros <-. congruence.
Qed.

Lemma conf_store_mode p i f a v (Q : unit -> machine -> Prop) s :
  a = CAN_MCR \/ a = CAN_MSR -> conf p i f s -> (forall s', conf p Any f s' -> Q tt s') -> wp E (store a v) Q s.
Proof using CL FiL.
  intros Ha (Hp & Hi & Hf) HQ. apply wp_store, HQ. destruct (keeps_store a v s) as [K _].
  rewrite cell_unpaged in K by by destruct Ha as [-> | ->]. split; [|split; [done|]].
  - unfold on_page. rewrite K; [done|apply psr_stable|]. by destruct Ha as [-> | ->].
  - intros c Hc. rewrite K; [by apply Hf|by apply reg_stable|]. intros <-. by destruct Ha as [-> | ->].
Qed.

Lemma conf_store_psr p i f v (Q : unit -> machine -> Prop) s :
  conf p i f s -> (forall s', conf (Z.land (u8 v) 7) i f s' -> Q tt s') -> wp E (store CAN_PSR v) Q s.
Proof using CL FiL.
  intros (Hp & Hi & Hf) HQ. apply wp_store, HQ. split; [|split].
  - unfold on_page, after_store, hw. cbn [cells]. rewrite psr_store, <- Z.land_assoc. done.
  - unfold after_store, hw. cbn [cells]. assert (CAN_PSR <> CAN_MCR /\ CAN_PSR <> CAN_MSR) as [N1 N2] by by vm_compute.
    destruct i; cbn in *; [done|by apply ask_keep_store|].
    destruct Hi. split; [by apply ask_keep_store|by apply init_keep_store].
  - intros c Hc. destruct (keeps_store CAN_PSR v s) as [K _]. rewrite K; [by apply Hf|by apply reg_stable|].
    rewrite cell_unpaged by done. intros <-. by vm_compute in Hc.
Qed.

(** A store to a filter register in initialization mode. *)
Lemma conf_store_reg p f a v (Q : unit -> machine -> Prop) s :
  in_can_page a = true -> filter_reg (target p a) = true -> Z.land (u8 v) (reg_bits (target p a)) = u8 v ->
  conf p InInit f s -> (forall s', conf p InInit (upd f (target p a) (u8 v)) s' -> Q tt s') -> wp E (store a v) Q s.
Proof using CL FiL.
  intros Hin Ht Hv Hc HQ. apply wp_store, HQ. pose proof (conf_cell p _ f s a Hc) as Hcell. destruct Hc as (Hp & [Hi1 Hi2] & Hf).
  destruct (keeps_store a v s) as [K _]. rewrite Hcell in K.
  assert (a <> CAN_MCR /\ a <> CAN_MSR) as [N1 N2] by (split; intros ->; by vm_compute in Hin).
  split; [|split].
  - unfold on_page. rewrite K; [done|apply psr_stable|]. intros E1. rewrite E1 in Ht. by vm_compute in Ht.
  - unfold after_store, hw. cbn [cells]. split; [by apply ask_keep_store|by apply init_keep_store].
  - intros c Hc. destruct (Z.eq_dec c (target p a)) as [->|Hne].
    + rewrite upd_eq. unfold after_store, hw. cbn [cells]. rewrite <- Hcell. apply reg_store; [done|by rewrite Hcell|by rewrite Hcell].
    + rewrite upd_ne by done. rewrite K; [by apply Hf|by apply reg_stable|congruence].
Qed.

Lemma conf_wait p i f w n s : conf p i f s -> wp E (wait_msr w n) (fun _ => conf p i f) s.
Proof using CL FiL.
  revert s. induction n as [|n IH]; intros s Hc; cbn [wait_msr]; apply wp_bind; (apply (conf_load p i f); [done|]);
    intros s' Hc'; destruct (w _); try (by apply wp_ret). by apply IH.
Qed.

(** Waiting for the initialization mode, which comes within [n] looks. *)
Lemma conf_wait_init p f n : forall s, conf p Asked f s ->
  (exists k, (k <= n)%nat /\ in_init (fst (Nat.iter k (fun q => snd (hw_load CAN_MSR q)) (hw s)))) ->
  wp E (wait_msr (fun msr => negb (Z.land msr CAN_MODE_MASK =? CAN_MSR_INAK)) n) (fun _ => conf p InInit f) s.
Proof using CL FiL.
  assert (forall s, shown CAN_MSR s = u8 (cells s CAN_MSR)) as Hshown by (intros s; unfold shown, hw; by rewrite msr_load).
  assert (forall x, Z.land (u8 x) CAN_MODE_MASK = Z.land x CAN_MODE_MASK) as Hu.
  { intros x. change CAN_MODE_MASK with (Z.ones 2). apply Z.bits_inj'. intros i Hi. bits. cmp; btauto. }
  induction n as [|n IH]; intros s Hc (k & Hk & Hin); cbn [wait_msr]; apply wp_bind, wp_load_shown; rewrite Hshown, Hu.
  all: destruct (Z.eqb_spec (Z.land (cells s CAN_MSR) CAN_MODE_MASK) CAN_MSR_INAK) as [Hm|Hm]; cbn [negb].
  all: try (apply wp_ret, conf_loaded; destruct Hc as (H1 & H2 & H3); by split; [|split]).
  - destruct k; [|lia]. by destruct Hm.
  - destruct k as [|k]; [by destruct Hm|]. apply IH; [by apply conf_loaded|]. exists k. split; [lia|].
    rewrite Nat.iter_succ_r in Hin. unfold hw at 1, after_load, set_hw. cbn [cells hid]. by rewrite <- surjective_pairing.
Qed.

Lemma conf_request_init p i f (Q : CAN_ModeStatus_TypeDef -> machine -> Prop) s :
  conf p i f s -> (forall st s', conf p InInit f s' -> Q st s') ->
  wp E (CAN_OperatingModeRequest CAN_OperatingMode_Initialization) Q s.
Proof using CL FiL.
  intros Hc HQ. unfold CAN_OperatingModeRequest, await_mode. apply wp_bind, (conf_load p i f); [done|]. intros s1 H1.
  apply wp_bind. set (v := Z.lor _ _).
  assert (Z.testbit (u8 v) 0 = true /\ Z.testbit (u8 v) 1 = false) as [Hv0 Hv1].
  { rewrite !testbit_u8 by lia. unfold v. rewrite !Z.lor_spec, !testbit_u8, !Z.land_spec by lia. split; [apply orb_true_r|].
    change (Z.testbit (u8 (Z.lnot CAN_MCR_SLEEP)) 1) with false. by rewrite andb_false_r. }
  apply (wp_store CAN_MCR v).
  assert (conf p Asked f (after_store CAN_MCR v s1)) as H2.
  { assert (wp (fun _ _ => False) (store CAN_MCR v) (fun _ => conf p Any f) s1) as (Hp & _ & Hf); [|split; [done|split; [|done]]].
    - assert (forall Q, (forall s', conf p Any f s' -> Q tt s') -> Q tt (after_store CAN_MCR v s1)) as Hmode.
      { intros Q0 HQ0. apply HQ0. destruct (keeps_store CAN_MCR v s1) as [K _]. destruct H1 as (Hp & _ & Hf).
        split; [|split; [done|]].
        - unfold on_page. rewrite K; [done|apply psr_stable|done].
        - intros c Hc0. rewrite K; [by apply Hf|by apply reg_stable|]. intros <-. by vm_compute in Hc0. }
      by apply (Hmode (fun _ => conf p Any f)).
    - unfold after_store, hw. cbn [cells]. by apply ask_store. }
  apply wp_bind. eapply wp_mono; [apply (conf_wait_init p f); [exact H2|]|].
  - destruct (init_entered (u8 v) (cells s1) (hid s1) Hv0 Hv1) as (k & Hk & Hin). exists k. split; [lia|].
    unfold hw at 1, after_store. cbn [cells hid]. rewrite <- surjective_pairing. exact Hin.
  - intros [] s3 H3. apply wp_bind, (conf_load p InInit f); [done|]. intros s4 H4. apply wp_ret. by apply HQ.
Qed.

Lemma conf_request_normal p i f (Q : CAN_ModeStatus_TypeDef -> machine -> Prop) s :
  conf p i f s -> (forall st s', conf p Any f s' -> Q st s') ->
  wp E (CAN_OperatingModeRequest CAN_OperatingMode_Normal) Q s.
Proof using CL FiL.
  intros Hc HQ. unfold CAN_OperatingModeRequest, await_mode, and_reg. do 2 apply wp_bind. apply (conf_load p i f); [done|]. intros s1 H1.
  eapply conf_store_mode; [by left|exact H1|]. intros s2 H2. apply wp_bind. eapply wp_mono; [by apply conf_wait|].
  intros [] s3 H3. apply wp_bind, (conf_load p Any f); [done|]. intros s4 H4. apply wp_ret. by apply HQ.
Qed.

(** One step of the driver. *)
Ltac conf_step :=
  lazymatch goal with
  | |- wp _ (bind _ _) _ _ => apply wp_bind
  | |- wp _ (ret _) _ _ => apply wp_ret
  | |- wp _ CAN_GetSelectedPage _ _ => unfold CAN_GetSelectedPage
  | |- wp _ (CAN_SelectPage _) _ _ => unfold CAN_SelectPage
  | |- wp _ (and_reg _ _) _ _ => unfold and_reg
  | |- wp _ (or_reg _ _) _ _ => unfold or_reg
  | |- wp _ (wait_msr _ _) _ _ => eapply wp_mono; [eapply conf_wait; eassumption|intros [] ? ?]
  | |- wp _ (CAN_OperatingModeRequest CAN_OperatingMode_Initialization) _ _ =>
      eapply conf_request_init; [eassumption|intros ? ? ?]
  | |- wp _ (CAN_OperatingModeRequest CAN_OperatingMode_Normal) _ _ =>
      eapply conf_request_normal; [eassumption|intros ? ? ?]
  | |- wp _ (store CAN_PSR _) _ _ => eapply conf_store_psr; [eassumption|intros ? ?]
  | |- wp _ (store CAN_MCR _) _ _ => eapply conf_store_mode; [by left|eassumption|intros ? ?]
  | |- wp _ (store CAN_MSR _) _ _ => eapply conf_store_mode; [by right|eassumption|intros ? ?]
  | Hc : conf ?p ?i ?f ?s |- wp _ (store ?a _) _ ?s =>
      let b := eval vm_compute in (filter_reg (target p a)) in
      lazymatch b with
      | true => apply (conf_store_reg p f a); [reflexivity|reflexivity|try reflexivity|exact Hc|intros ? ?]
      | false => apply (conf_store p i f a); [by vm_compute|by vm_compute|by vm_compute|reflexivity|exact Hc|intros ? ?]
      end
  | Hc : conf ?p ?i ?f ?s |- wp _ (load ?a) _ ?s =>
      let b := eval vm_compute in (filter_reg (target p a)) in
      lazymatch b with
      | true => apply (conf_load_reg p i f a); [reflexivity|exact Hc|intros ? ?]
      | _ => apply (conf_load p i f a); [exact Hc|intros ? ?]
      end
  end.

(** No bank is active, and every mode is that of masks. *)
Definition cleared (f : mem) : Prop := forall k, 8 <= k <= 12 -> f (page_cell 6 k) = 0.

Lemma CAN_DeInit_clears (Q : unit -> machine -> Prop) s :
  (forall p f s', cleared f -> conf p Any f s' -> Q tt s') -> wp E CAN_DeInit Q s.
Proof using CL FiL.
  intros HQ. pose proof (conf_start s) as H0. unfold CAN_DeInit. repeat conf_step.
  eapply HQ; [|eassumption]. intros k Hk.
  assert (k = 8 \/ k = 9 \/ k = 10 \/ k = 11 \/ k = 12) as [-> | [-> | [-> | [-> | ->]]]] by lia; reflexivity.
Qed.

Lemma CAN_Init_conf p f mc md sjw b1 b2 pr (Q : CAN_InitStatus_TypeDef -> machine -> Prop) s :
  conf p Any f s -> (forall st p' s', conf p' Any f s' -> Q st s') -> wp E (CAN_Init mc md sjw b1 b2 pr) Q s.
Proof using CL FiL.
  intros Hc HQ. unfold CAN_Init. repeat conf_step.
  apply wp_if; intros _; repeat conf_step; by eapply HQ.
Qed.
(** The registers of a cell that has one active bank, of scale 16 bit and in mask mode, with
    the bytes [l]. *)
Definition one_bank (l : list Z) (f : mem) : Prop :=
  f (page_cell 6 10) = 5 /\ (forall k, k <> 10 -> 8 <= k <= 12 -> f (page_cell 6 k) = 0) /\
  (fun k => f (page_cell 2 k)) <$> range 8 = u8 <$> l.

Definition zeroed (f : mem) : mem := fun c => if (page_cell 6 8 <=? c) && (c <=? page_cell 6 12) then 0 else f c.

Lemma conf_zeroed p i f s : cleared f -> conf p i f s -> conf p i (zeroed f) s.
Proof using.
  intros Hcl (Hp & Hi & Hf). split; [done|]. split; [done|]. intros c Hc. rewrite Hf by done. unfold zeroed.
  destruct (_ && _) eqn:E1; [|done]. apply andb_true_iff in E1 as [E1 E2]. apply Z.leb_le in E1, E2.
  unfold page_cell in *. specialize (Hcl (c - page_cell 6 0)). unfold page_cell in Hcl. rewrite <- Hcl by lia. f_equal. lia.
Qed.

Lemma low_byte v : Z.land (u8 v) 0xff = u8 v.
Proof using. change 0xff with (Z.ones 8). rewrite Z.land_ones by lia. apply u8_u8. Qed.

Lemma CAN_FilterInit_conf p f i1 i2 i3 i4 m1 m2 m3 m4 (Q : unit -> machine -> Prop) s :
  conf p Any f s -> cleared f ->
  (forall p f s', conf p Any f s' -> one_bank [i1; i2; m1; m2; i3; i4; m3; m4] f -> Q tt s') ->
  wp E (CAN_FilterInit CAN_FilterNumber_0 ENABLE CAN_FilterMode_IdMask CAN_FilterScale_16Bit i1 i2 i3 i4 m1 m2 m3 m4) Q s.
Proof using CL FiL.
  intros Hc Hcl HQ. apply (conf_zeroed _ _ _ _ Hcl) in Hc. clear Hcl. unfold CAN_FilterInit.
  change (Z.land CAN_FilterNumber_0 0x06 =? 0x00) with true.
  cbn -[CAN_OperatingModeRequest and_reg or_reg store load CAN_SelectPage CAN_GetSelectedPage u8 Z.land Z.lor Z.lnot Z.shiftl].
  repeat conf_step; try exact (low_byte _).
  eapply HQ; [eassumption|]. split; [reflexivity|]. split; [|reflexivity]. intros k Hk Hr.
  assert (k = 8 \/ k = 9 \/ k = 11 \/ k = 12) as [-> | [-> | [-> | ->]]] by lia; reflexivity.
Qed.
End Walk.

(** Compute every bit position, and the bits of constants. *)
Ltac eval_bits :=
  repeat match goal with
  | |- context [Z.testbit ?z (?a + ?b)] => let k := eval vm_compute in (a + b) in change (a + b) with k
  | |- context [Z.testbit ?z (?a - ?b)] => let k := eval vm_compute in (a - b) in change (a - b) with k
  | |- context [Z.testbit (Zpos ?p) ?k] => let v := eval vm_compute in (Z.testbit (Zpos p) k) in
      change (Z.testbit (Zpos p) k) with v
  | |- context [?a =? ?b] => let v := eval vm_compute in (a =? b) in change (a =? b) with v
  | |- context [?a <? ?b] => let v := eval vm_compute in (a <? b) in change (a <? b) with v
  | |- context [?a <=? ?b] => let v := eval vm_compute in (a <=? b) in change (a <=? b) with v
  end.

(** Under the first mask, the words of a frame are the bytes of its device. *)
Lemma filter_words_device exid rtr ide :
  Z.land (filter_word_hi exid) 0x03 = dev_hi (Z.land (Z.shiftr exid 16) 0x7f) /\
  Z.land (filter_word_lo exid rtr ide) 0xe6 = dev_lo (Z.land (Z.shiftr exid 16) 0x7f).
Proof.
  unfold filter_word_hi, filter_word_lo, dev_hi, dev_lo. rewrite !Z.lor_0_r.
  assert (forall b i, 0 <= i -> Z.testbit (Z.b2z b) i = (i =? 0) && b) as Hb.
  { intros b i Hi. destruct (Z.eqb_spec i 0) as [->|]; [by rewrite Z.b2z_bit0|].
    apply (testbit_bounded _ 1); [destruct b; simpl; lia|lia|lia]. }
  assert (forall m i, 0 <= m < 2 ^ 8 -> 8 <= i -> Z.testbit m i = false) as Hm
    by (intros; apply (testbit_bounded _ 8); lia).
  split; apply Z.bits_inj'; intros i Hi.
  - destruct (Z.lt_ge_cases i 8) as [H8|H8].
    + destruct (bit_index_cases i ltac:(lia)) as [-> | [-> | [-> | [-> | [-> | [-> | [-> | ->]]]]]]];
        bits; eval_bits; btauto.
    + bits. rewrite (Hm 0x03), (Hm 0xff) by lia. by rewrite !andb_false_r.
  - destruct (Z.lt_ge_cases i 8) as [H8|H8].
    + destruct (bit_index_cases i ltac:(lia)) as [-> | [-> | [-> | [-> | [-> | [-> | [-> | ->]]]]]]];
        bits; rewrite ?Hb by lia; eval_bits; btauto.
    + bits. rewrite (Hm 0xe6), (Hm 0xe0), (Hm 6) by lia. by rewrite !andb_false_r.
Qed.

(** The device bytes tell the 128 devices apart; the eighth bit of a number is not in them. *)
Lemma dev_bytes_inj : forall d e, 0 <= d < 128 -> is_u8 e ->
  masked_eq (dev_hi d) (dev_hi e) 0x03 && masked_eq (dev_lo d) (dev_lo e) 0xe6 = (d =? e mod 128).
Proof.
  intros d e Hd He. apply Bool.eqb_prop. revert e He.
  assert (forallb (fun e => Bool.eqb (masked_eq (dev_hi d) (dev_hi e) 0x03 && masked_eq (dev_lo d) (dev_lo e) 0xe6) (d =? e mod 128))
            (Z.of_nat <$> seq 0 256) = true) as H.
  { revert d Hd. apply (below_ind (fun d => forallb _ _) 128). vm_compute. reflexivity. }
  apply (below_ind (fun e => Bool.eqb _ _) 256). exact H.
Qed.

Lemma dev_bytes_u8 d : is_u8 d -> u8 (dev_hi d) = dev_hi d /\ u8 (dev_lo d) = dev_lo d.
Proof.
  intros Hd. split; apply Z.eqb_eq; revert d Hd;
    [apply (below_ind (fun d => u8 (dev_hi d) =? dev_hi d) 256)|apply (below_ind (fun d => u8 (dev_lo d) =? dev_lo d) 256)];
    vm_compute; reflexivity.
Qed.

(** The machine at the end has what [conf] says. *)
Lemma one_bank_cells l f m : (forall c, filter_reg c = true -> m c = f c) -> one_bank l f -> one_bank l m.
Proof.
  intros Hm (H10 & H0 & Hb). split; [by rewrite Hm|]. split; [|rewrite <- Hb].
  - intros k Hk Hr. rewrite Hm; [by apply H0|]. unfold filter_reg, page_cell. cmp; done.
  - change (range 8) with [0; 1; 2; 3; 4; 5; 6; 7]. cbn [fmap list_fmap]. by rewrite !Hm.
Qed.

(** What such a cell passes. *)
Lemma one_bank_passes f l exid rtr ide : length l = 8%nat -> one_bank l f ->
  cell_passes f exid rtr ide = Some (bank_accepts (u8 <$> l) exid rtr ide).
Proof.
  intros Hl (H10 & H0 & Hb).
  assert (forall n, 0 < n < 6 -> bank_says f n exid rtr ide = Some false) as Hoff.
  { intros n Hn. unfold bank_says, bank_active.
    assert (n = 1 \/ n = 2 \/ n = 3 \/ n = 4 \/ n = 5) as [-> | [-> | [-> | [-> | ->]]]] by lia;
      match goal with |- context [f (page_cell 6 ?x)] => let k := eval vm_compute in x in change x with k end;
      rewrite ?H10, ?(H0 11), ?(H0 12) by lia; reflexivity. }
  assert (bank_says f 0 exid rtr ide = Some (bank_accepts (u8 <$> l) exid rtr ide)) as H1.
  { unfold bank_says, bank_active, bank_scale, bank_mode, bank_bytes. change (10 + 0 / 2) with 10. change (8 + 0 / 4) with 8.
    rewrite H10, (H0 8) by lia. cbn [negb]. by rewrite <- Hb. }
  unfold cell_passes. change (range 6) with [0; 1; 2; 3; 4; 5]. cbn [foldr]. rewrite H1, !Hoff by lia. cbn. by rewrite orb_false_r.
Qed.

(** What the bank of the node passes. *)
Lemma node_bank_accepts d p rtr : is_u8 d -> packet_id_ok p ->
  let bank := [dev_hi d; dev_lo d; 0x03; 0xe6; 0xff; 0xef; 0xff; 0xef] in
  bank_accepts bank (HA_CAN_packet_id_to_number p) rtr true = (device_id_field p =? d mod 128) /\
  bank_accepts bank HA_CAN_SpecialId_Update rtr true = true.
Proof.
  intros Hd Hp bank. set (n := HA_CAN_packet_id_to_number p).
  assert (Z.land (Z.shiftr n 16) 0x7f = device_id_field p) as Hf.
  { pose proof Hp as (_ & Hf & _). change 0x7f with (Z.ones 7).
    apply (bits_eq_bounded 7); [lia|rewrite Z.land_ones by lia; apply Z.mod_pos_bound; lia|lia|].
    intros i Hi. bits. unfold n. rewrite packet_id_to_number_testbit by (done || lia).
    replace (i + 16 - 16) with i by lia. cmp. btauto. }
  destruct (filter_words_device n rtr true) as [Hhi Hlo]. rewrite Hf in Hhi, Hlo.
  assert (masked_eq (filter_word_hi n) 0xff 0xff = false) as H28.
  { unfold masked_eq. apply Z.eqb_neq. intros Heq. apply (f_equal (fun z => Z.testbit z 7)) in Heq.
    revert Heq. unfold filter_word_hi. bits. unfold n. rewrite packet_id_to_number_testbit by (done || lia). done. }
  split; unfold bank, bank_accepts; [|apply orb_true_intro; right; by destruct rtr].
  rewrite H28, andb_false_l, orb_false_r. rewrite <- dev_bytes_inj by (done || apply Hp).
  unfold masked_eq. rewrite Hhi, Hlo.
  assert (Z.land (dev_hi (device_id_field p)) 0x03 = dev_hi (device_id_field p)) as -> by (rewrite <- Hhi, <- Z.land_assoc; done).
  assert (Z.land (dev_lo (device_id_field p)) 0xe6 = dev_lo (device_id_field p)) as -> by (rewrite <- Hlo, <- Z.land_assoc; done).
  done.
Qed.

(** C19. The acceptance filter is exact.  When [CAN_Node_CAN_init] has returned with success
    on a cell that keeps what is stored in its filters and enters the initialization mode
    within the time [CAN_OperatingModeRequest] waits, whatever that time is, the cell passes
    an ordinary packet, data or remote, when and only when it is for the device of the node,
    of whose number an identifier has seven bits; and it always passes the programming
    identifier. *)
Theorem node_filter_exact {HW : Hardware} {CL : CanLaws HW} {FiL : FilterLaws HW} (s : node) p rtr :
  is_u8 (device_id (n_sysinfo s)) -> packet_id_ok p ->
  wp total CAN_Node_CAN_init (fun status s' => status = CAN_InitStatus_Success ->
    cell_passes (cells (mach s')) (HA_CAN_packet_id_to_number p) rtr true =
      Some (device_id_field p =? device_id (n_sysinfo s) mod 128) /\
    cell_passes (cells (mach s')) HA_CAN_SpecialId_Update rtr true = Some true) s.
Proof.
  intros Hd Hp. set (d := device_id (n_sysinfo s)) in *. unfold CAN_Node_CAN_init. apply wp_bind, wp_rd.
  change (fget f_device_id s) with d.
  apply wp_bind, wp_io, CAN_DeInit_clears. intros p1 f1 h1 Hcl H1.
  apply wp_bind, wp_io. cbn [mach set_mach]. eapply CAN_Init_conf; [exact H1|]. intros st p2 h2 H2.
  apply wp_if; intros Hst; [apply wp_ret; intros ->; by rewrite bool_decide_eq_true_2 in Hst|].
  apply wp_bind, wp_io. cbn [mach set_mach]. eapply CAN_FilterInit_conf; [exact H2|exact Hcl|]. intros p3 f3 h3 (_ & _ & Hf) Hone.
  apply wp_ret. intros _. cbn [mach set_mach].
  assert (forall exid b, bank_accepts [dev_hi d; dev_lo d; 0x03; 0xe6; 0xff; 0xef; 0xff; 0xef] exid rtr true = b ->
    cell_passes (cells h3) exid rtr true = Some b) as Hpass.
  { intros exid b <-. rewrite (one_bank_passes (cells h3) [dev_hi d; dev_lo d; 0x03; 0xe6; 0xff; 0xef; 0xff; 0xef] exid rtr true eq_refl (one_bank_cells _ _ _ Hf Hone)).
    destruct (dev_bytes_u8 d Hd) as [E1 E2]. cbn [fmap list_fmap]. by rewrite E1, E2. }
  destruct (node_bank_accepts d p rtr Hd Hp). by split; apply Hpass.
Qed.

(** ** The simulated hardware *)

Lemma filter_reg_active c : filter_reg c = true -> active c = false.
Proof.
  unfold filter_reg, page_cell, active, eeprom_addr, CAN_PSR, FLASH_IAPSR, FLASH_DUKR, CAN_MCR, CAN_MSR, CAN_RFR, TIM4_SR1,
    CAN_BaseAddress, FLASH_BaseAddress, TIM4_BaseAddress, FLASH_DATA_START_PHYSICAL_ADDRESS, FLASH_DATA_END_PHYSICAL_ADDRESS.
  cmp; done.
Qed.

(** Only a store to [MCR] or [MSR] changes them. *)
Lemma sim_keeps_mode c a v m h : a <> CAN_MCR -> a <> CAN_MSR -> c = CAN_MCR \/ c = CAN_MSR ->
  fst (hw_store (Hardware := sim) a v (m, h)) c = m c.
Proof.
  intros N1 N2 Hc. assert (forall m', c <> cell m' a) as Hcell.
  { intros m' E. destruct Hc as [-> | ->]; symmetry in E; apply cell_eq in E; done. }
  assert (c <> CAN_PSR /\ c <> FLASH_IAPSR /\ c <> TIM4_SR1 /\ c <> CAN_RFR /\ eeprom_addr c = false) as (M1 & M2 & M3 & M4 & M5)
    by by destruct Hc as [-> | ->].
  assert (a <> c) as M6 by (intros ->; destruct Hc; subst; done).
  simpl. repeat case_match; simpl; rewrite ?upd_ne; try done; try congruence.
  all: repeat match goal with H : (_ =? _) = true |- _ => apply Z.eqb_eq in H; subst end; done.
Qed.

#[export] Instance sim_filter : FilterLaws sim.
Proof.
  constructor.
  - done.
  - intros v m h Hv. assert (fst (hw_store CAN_MCR v (m, h)) CAN_MCR = u8 v) as E by reflexivity.
    unfold asks_init. by rewrite E, testbit_u8.
  - done.
  - intros a v m h Ha Hm. destruct (Z.eq_dec a CAN_MSR) as [->|Hn]; [exact Hm|].
    unfold asks_init in *. rewrite sim_keeps_mode; [exact Hm|done|done|by left].
  - intros v m h H0 H1. exists 0%nat. split; [done|].
    assert (fst (hw_store CAN_MCR v (m, h)) CAN_MSR = Z.land (u8 v) 3) as E by reflexivity.
    unfold in_init. cbn [Nat.iter nat_rect]. rewrite E. apply Z.bits_inj'. intros i Hi. change CAN_MODE_MASK with (Z.ones 2).
    change 3 with (Z.ones 2). bits. destruct (Z.ltb_spec i 2).
    + assert (i = 0 \/ i = 1) as [-> | ->] by lia; rewrite ?H0, ?H1; done.
    + rewrite !andb_false_r. symmetry. apply (testbit_bounded _ 1); unfold CAN_MSR_INAK; lia.
  - done.
  - intros a v m h N1 N2 _ Hm. unfold in_init in *. rewrite sim_keeps_mode; [exact Hm|done|done|by right].
  - intros c Hc. by apply latch_stable, sim_latch, filter_reg_active.
  - intros a m h Ha. by apply (sim_latch (cell m a)); [apply filter_reg_active|].
  - intros a v m h _ Ha Hv. destruct (sim_latch (cell m a)) as (_ & H2 & _ & _); [by apply filter_reg_active|].
    rewrite H2 by done. apply u8_small. rewrite <- Hv, Z.land_comm. apply land_is_u8. unfold reg_bits, is_u8. repeat case_match; lia.
Qed.

(** A node with device number 0xd5, whose low seven bits are those of the sample packet. *)
Definition filter_node : @node sim := fset f_device_id 0xd5 (node_init sim_machine).

Lemma node_filter_exact_witness :
  exists s', CAN_Node_CAN_init filter_node = Ok CAN_InitStatus_Success s' /\
    cell_passes (cells (mach s')) (HA_CAN_packet_id_to_number sample_packet_id) false true = Some true /\
    cell_passes (cells (mach s')) HA_CAN_SpecialId_Update false true = Some true.
Proof.
  assert (packet_id_ok sample_packet_id) as Hp by (unfold packet_id_ok, is_u8, is_u16; simpl; lia).
  assert (is_u8 (device_id (n_sysinfo filter_node))) as Hd by (unfold is_u8; simpl; lia).
  destruct (wp_total_inv _ _ _ (node_filter_exact filter_node sample_packet_id false Hd Hp)) as (status & s' & Hs & H).
  assert (status = CAN_InitStatus_Success) as ->.
  { assert (match CAN_Node_CAN_init filter_node with Ok CAN_InitStatus_Success _ => true | _ => false end = true) as Hok
      by (vm_compute; reflexivity).
    rewrite Hs in Hok. by destruct status. }
  exists s'. split; [exact Hs|]. exact (H eq_refl).
Defined.
