(* ===== verification/Channel.v ===== *)
(** The interface of a channel module, the part of [CAN_Node_Module] in
    [firmware/stm8/can_node/module.h] that [module.c] itself calls.

    [module_ops] holds the function pointers; [ChannelModule] states what a
    module promises to [module.c]: it keeps the invariant of the channels, works
    on its own channel only, and writes a payload to the EEPROM stream from which
    it can restore the settings it owns. *)

From S2P Require Import Prelude Monad CanProto Machine Gpio Flash Eestream State Led.

(** ** Function pointers *)

Record module_ops {HW : Hardware} : Type := ModuleOps {
  on_init : Z -> prog node unit;
  on_deinit : Z -> prog node unit;
  on_timer : option (Z -> prog node unit);
  on_save : option (Z -> CAN_Node_EEStream -> prog node CAN_Node_EEStream);
  on_load : option (Z -> CAN_Node_EEStream -> prog node CAN_Node_EEStream)
}.

Section Calls.
Context {HW : Hardware}.

(** A call through a pointer that is checked for null first. *)
Definition call_timer (m : module_ops) (ch : Z) : prog node unit :=
  match on_timer m with Some f => f ch | None => ret tt end.
Definition call_save (m : module_ops) (ch : Z) (st : CAN_Node_EEStream) : prog node CAN_Node_EEStream :=
  match on_save m with Some f => f ch st | None => ret st end.
Definition call_load (m : module_ops) (ch : Z) (st : CAN_Node_EEStream) : prog node CAN_Node_EEStream :=
  match on_load m with Some f => f ch st | None => ret st end.
End Calls.

(** ** The invariant of the channels *)

Definition is_channel (ch : Z) : Prop := 0 <= ch < CAN_Node_ChannelCount.

(** The pin of a channel, on port B. *)
Definition channel_pin (ch : Z) : Z := Z.shiftl 1 ch.

Definition switch_ok (k : nat) (sw : Switch) : Prop :=
  sw_gpio sw = GPIOB /\ sw_pin sw = channel_pin (Z.of_nat k) /\
  is_u8 (sw_config sw) /\ is_u16 (off_delay sw) /\ is_u16 (off_timer sw).

Definition button_ok (k : nat) (b : Button) : Prop :=
  bt_gpio b = GPIOB /\ bt_pin b = channel_pin (Z.of_nat k) /\ is_u8 (bt_config b).

Definition sensor_ok (k : nat) (a : AnalogSensor) : Prop :=
  an_gpio a = GPIOB /\ an_pin a = channel_pin (Z.of_nat k) /\ adc_channel a = Z.of_nat k /\
  is_u8 (an_config a) /\ is_u16 (range_min a) /\ is_u16 (range_max a) /\ is_u16 (an_value a).

(** Four channels, each satisfying [P]. *)
Definition per_channel {A} (P : nat -> A -> Prop) (l : list A) : Prop :=
  length l = 4%nat /\ forall k x, l !! k = Some x -> P k x.

(** A sensor takes part in the conversions. *)
Definition sensor_on (a : AnalogSensor) : bool := bool_decide (an_state a <> AnalogState_Disabled).

Definition enabled_at (l : list AnalogSensor) (ch : Z) : bool :=
  from_option sensor_on false (l !! Z.to_nat ch).

Definition count_on (l : list AnalogSensor) : Z := Z.of_nat (length (filter (fun a => Is_true (sensor_on a)) l)).

(** The counter counts the enabled sensors, and the selected one is enabled
    unless none is. *)
Definition analog_ok (v : analog_vars) : Prop :=
  per_channel sensor_ok (analog_sensors v) /\
  sensor_count v = count_on (analog_sensors v) /\ is_u8 (selected_sensor v) /\
  (0 < sensor_count v -> is_channel (selected_sensor v) /\ enabled_at (analog_sensors v) (selected_sensor v) = true).

(** ** Settings: what a channel keeps in the EEPROM *)

Record setting : Type := Setting { s_switch : Z * Z; s_button : Z; s_analog : Z * Z * Z }.

Section Interface.
Context {HW : Hardware}.

Definition chan_inv (s : node) : Prop :=
  leds_ok (n_led s) /\ per_channel switch_ok (switches s) /\ per_channel button_ok (buttons s) /\
  analog_ok (n_analog s).

Definition enabled (ch : Z) (s : node) : bool := enabled_at (analog_sensors (n_analog s)) ch.

Definition setting_of (ch : Z) (s : node) : setting := Setting
  (from_option (fun sw => (sw_config sw, off_delay sw)) (0, 0) (switches s !! Z.to_nat ch))
  (from_option bt_config 0 (buttons s !! Z.to_nat ch))
  (from_option (fun a => (an_config a, range_min a, range_max a)) (0, 0, 0)
     (analog_sensors (n_analog s) !! Z.to_nat ch)).

(** What no channel module changes. *)
Definition same_core (s s' : node) : Prop :=
  clock_counter s' = clock_counter s /\ n_sysinfo s' = n_sysinfo s /\ n_module s' = n_module s /\
  n_can s' = n_can s /\ keeps off_tape (mach s) (mach s').

(** What an operation of channel [ch] may do. *)
Definition chan_step (ch : Z) (s s' : node) : Prop :=
  chan_inv s' /\ same_core s s' /\
  forall c, is_channel c -> c <> ch -> enabled c s' = enabled c s /\ setting_of c s' = setting_of c s.

(** The caller accepts that an operation started in [s] never returns; while it
    runs the tables of [module.c] do not change. *)
Definition hang_ok (E : fault -> node -> Prop) (s : node) : Prop :=
  forall s', n_module s' = n_module s -> E Hang s'.

Lemma hang_ok_eq E s s' : n_module s' = n_module s -> hang_ok E s -> hang_ok E s'.
Proof. intros Hn H s'' Hn'. apply H. congruence. Qed.

Class ChannelModule (m : module_ops) : Type := {
  (** whether the module uses the analog converter *)
  uses_adc : bool;
  (** the settings of a channel agree on what the module owns *)
  agree : setting -> setting -> Prop;
  (** the payloads the module may write for a setting *)
  saved : setting -> list Z -> Prop;
  saved_small x pl : saved x pl -> (length pl <= 5)%nat /\ Forall is_u8 pl;
  init_law E ch (Q : unit -> node -> Prop) s :
    is_channel ch -> chan_inv s -> enabled ch s = false ->
    (forall s', chan_step ch s s' -> enabled ch s' = uses_adc -> setting_of ch s' = setting_of ch s -> Q tt s') ->
    wp E (on_init m ch) Q s;
  deinit_law E ch (Q : unit -> node -> Prop) s :
    (uses_adc = true -> hang_ok E s) -> is_channel ch -> chan_inv s -> enabled ch s = uses_adc ->
    (forall s', chan_step ch s s' -> enabled ch s' = false -> setting_of ch s' = setting_of ch s -> Q tt s') ->
    wp E (on_deinit m ch) Q s;
  timer_law E ch (Q : unit -> node -> Prop) s :
    (uses_adc = true -> hang_ok E s) -> is_channel ch -> chan_inv s -> enabled ch s = uses_adc ->
    (forall s', chan_step ch s s' -> enabled ch s' = enabled ch s -> setting_of ch s' = setting_of ch s -> Q tt s') ->
    wp E (call_timer m ch) Q s;
  save_law E ch st l (Q : CAN_Node_EEStream -> node -> Prop) s :
    is_channel ch -> chan_inv s -> written st l (mach s) -> (length l + 5 <= tape_size)%nat ->
    (forall st' h pl, saved (setting_of ch s) pl -> written st' (l ++ pl) h -> keeps eeprom (mach s) h ->
       Q st' (set_mach h s)) ->
    wp E (call_save m ch st) Q s;
  load_law E ch st (Q : CAN_Node_EEStream -> node -> Prop) s :
    is_channel ch -> chan_inv s -> enabled ch s = uses_adc ->
    (forall st' s', chan_step ch s s' -> enabled ch s' = enabled ch s -> Q st' s') ->
    wp E (call_load m ch st) Q s;
  restore_law E ch st x pl rest (Q : CAN_Node_EEStream -> node -> Prop) s :
    is_channel ch -> chan_inv s -> enabled ch s = uses_adc ->
    saved x pl -> reading st (pl ++ rest) (mach s) ->
    (forall st' s', chan_step ch s s' -> enabled ch s' = enabled ch s -> agree x (setting_of ch s') ->
       reading st' rest (mach s') -> Q st' s') ->
    wp E (call_load m ch st) Q s
}.

(** What the request and write handlers of a channel module promise to the
    packet dispatch: with an eight byte buffer they stay inside it, and a request
    returns unless the module [waits] for something outside the node. *)
Class ChannelHandlers (waits : bool) (request : Z -> Z -> list Z -> prog node (Z * list Z))
    (write : Z -> Z -> Z -> list Z -> prog node unit) : Prop := {
  request_law E ch address reply (Q : Z * list Z -> node -> Prop) s :
    (waits = true -> hang_ok E s) -> is_channel ch -> chan_inv s -> length reply = 8%nat -> Forall is_u8 reply ->
    (forall n reply' s', chan_step ch s s' -> enabled ch s' = enabled ch s ->
       length reply' = 8%nat -> Forall is_u8 reply' -> Q (n, reply') s') ->
    wp E (request ch address reply) Q s;
  write_law E ch address len value (Q : unit -> node -> Prop) s :
    is_channel ch -> chan_inv s -> length value = 8%nat -> Forall is_u8 value ->
    (forall s', chan_step ch s s' -> enabled ch s' = enabled ch s -> Q tt s') ->
    wp E (write ch address len value) Q s
}.
End Interface.

(** A byte put into a reply buffer. *)
Lemma reply_insert (reply : list Z) k b :
  length reply = 8%nat -> Forall is_u8 reply -> is_u8 b ->
  length (<[k := b]> reply) = 8%nat /\ Forall is_u8 (<[k := b]> reply).
Proof. intros Hl Hr Hb. split; [by rewrite length_insert|by apply Forall_insert]. Qed.

(** ** Lemmas on the channel tables *)

Lemma per_channel_lookup {A} (P : nat -> A -> Prop) l ch :
  per_channel P l -> is_channel ch -> exists x, l !! Z.to_nat ch = Some x /\ P (Z.to_nat ch) x.
Proof.
  intros [Hlen HP] Hch. unfold is_channel, CAN_Node_ChannelCount in Hch.
  destruct (lookup_lt_is_Some_2 l (Z.to_nat ch)) as [x Hx]; [lia|]. eauto.
Qed.

Lemma per_channel_insert {A} (P : nat -> A -> Prop) l k x :
  per_channel P l -> P k x -> per_channel P (<[k := x]> l).
Proof.
  intros [Hlen HP] Hx. split; [by rewrite length_insert|]. intros j y Hy.
  apply list_lookup_insert_Some in Hy as [(-> & <- & _) | (_ & Hy)]; [done|by apply HP].
Qed.

Lemma channel_nat_ne c ch : is_channel c -> is_channel ch -> c <> ch -> Z.to_nat ch <> Z.to_nat c.
Proof. unfold is_channel. lia. Qed.

Section Rules.
Context {HW : Hardware} {E : fault -> node -> Prop}.

Lemma same_core_refl s : same_core s s.
Proof. repeat split; done. Qed.

Lemma same_core_trans s1 s2 s3 : same_core s1 s2 -> same_core s2 s3 -> same_core s1 s3.
Proof.
  intros (A1 & A2 & A3 & A4 & K1) (B1 & B2 & B3 & B4 & K2).
  do 4 (split; [congruence|]). by eapply keeps_trans.
Qed.

Lemma chan_step_refl ch s : chan_inv s -> chan_step ch s s.
Proof. intros Hs. split; [done|]. split; [apply same_core_refl|done]. Qed.

Lemma chan_step_trans ch s1 s2 s3 : chan_step ch s1 s2 -> chan_step ch s2 s3 -> chan_step ch s1 s3.
Proof.
  intros (_ & C1 & F1) (I2 & C2 & F2). split; [done|]. split; [by eapply same_core_trans|].
  intros c Hc Hne. destruct (F1 c Hc Hne) as [E1 S1], (F2 c Hc Hne) as [E2 S2]. split; congruence.
Qed.

(** Work of the drivers only. *)
Lemma chan_step_mach ch s h : chan_inv s -> keeps off_tape (mach s) h -> chan_step ch s (set_mach h s).
Proof. intros Hs Hk. split; [done|]. split; [done|done]. Qed.

(** A change to the switch of channel [ch]. *)
Lemma chan_step_switch ch sw s :
  is_channel ch -> chan_inv s -> switch_ok (Z.to_nat ch) sw ->
  chan_step ch s (set_switches (<[Z.to_nat ch := sw]> (switches s)) s).
Proof.
  intros Hch (HL & HS & HB & HA) Hsw. split; [|split].
  - split; [done|]. split; [by apply per_channel_insert|done].
  - repeat split; done.
  - intros c Hc Hne. split; [done|]. unfold setting_of. cbn [set_switches switches buttons n_analog].
    by rewrite list_lookup_insert_ne by by apply channel_nat_ne.
Qed.

(** A change to the button of channel [ch]. *)
Lemma chan_step_button ch b s :
  is_channel ch -> chan_inv s -> button_ok (Z.to_nat ch) b ->
  chan_step ch s (set_buttons (<[Z.to_nat ch := b]> (buttons s)) s).
Proof.
  intros Hch (HL & HS & HB & HA) Hb. split; [|split].
  - split; [done|]. split; [done|]. split; [by apply per_channel_insert|done].
  - repeat split; done.
  - intros c Hc Hne. split; [done|]. unfold setting_of. cbn [set_buttons switches buttons n_analog].
    by rewrite list_lookup_insert_ne by by apply channel_nat_ne.
Qed.

Lemma chan_step_inv ch s s' : chan_step ch s s' -> chan_inv s'.
Proof. by intros (? & _). Qed.

Lemma chan_step_core ch s s' : chan_step ch s s' -> same_core s s'.
Proof. by intros (_ & ? & _). Qed.
End Rules.

Create HintDb chan.
#[export] Hint Resolve chan_step_refl chan_step_mach chan_step_inv chan_step_core same_core_refl : chan.

(** ** Arrays and the stream *)

Section Arrays.
Context {HW : Hardware} {FL : FlashLaws HW} {E : fault -> node -> Prop}.

(** Writing the bytes [get 0, get 1, ...] to the stream. *)
Lemma write_all_wp (get : Z -> prog node Z) data st l (Q : CAN_Node_EEStream -> node -> Prop) s :
  written st l (mach s) -> (length l + length data <= tape_size)%nat -> Forall is_u8 data ->
  (forall k b h, data !! k = Some b -> get (Z.of_nat k) (set_mach h s) = Ok b (set_mach h s)) ->
  (forall st' h, written st' (l ++ data) h -> keeps eeprom (mach s) h -> Q st' (set_mach h s)) ->
  wp E (for_acc (range (Z.of_nat (length data))) st (fun i st =>
          let! b := get i in io (CAN_Node_EEStream_write_byte st b))) Q s.
Proof using FL.
  intros Hst Hlen Hu Hget HQ.
  apply (wp_for_acc _ _ _ (fun done st' s' => exists h, s' = set_mach h s /\ keeps eeprom (mach s) h /\
           written st' (l ++ take (length done) data) h)).
  - exists (mach s). split; [by destruct s|]. split; [apply keeps_refl|]. by rewrite app_nil_r.
  - intros done x rest st' s' Heq (h & -> & Hk & Hw). apply range_split in Heq as [-> Hx].
    destruct (lookup_lt_is_Some_2 data (length done)) as [b Hb]; [lia|].
    apply wp_bind. eapply wp_eq; [by apply Hget|]. apply wp_io.
    eapply EEStream_write_wp; [exact Hw|rewrite length_app, length_take; lia| |].
    { eapply List.Forall_forall; [exact Hu|]. by apply list_elem_of_In, (list_elem_of_lookup_2 _ (length done)). }
    intros st2 h2 W2 K2. exists h2. split; [done|]. split; [by eapply keeps_trans|].
    rewrite length_app. cbn [length]. rewrite Nat.add_1_r. erewrite take_S_r by done. by rewrite app_assoc.
  - intros st' s' (h & -> & Hk & Hw). apply HQ; [|done]. unfold range in Hw.
    rewrite length_fmap, length_seq, Nat2Z.id, take_ge in Hw; done.
Qed.
End Arrays.

(** Reading [length data] bytes into a local array. *)
Lemma read_all_wp {HW : Hardware} {E : fault -> node -> Prop} I data st (Q : list Z * CAN_Node_EEStream -> node -> Prop) s :
  reads (length data) I -> I [] st (mach s) ->
  (forall bytes st' h, length bytes = length data -> Forall is_u8 bytes -> I bytes st' h -> Q (bytes, st') (set_mach h s)) ->
  wp E (for_acc (range (Z.of_nat (length data))) (data, st) (fun i acc =>
          let '(data, st) := acc in
          let! (b, st) := io (CAN_Node_EEStream_read_byte st) in
          let! data := set_index data i b in ret (data, st))) Q s.
Proof.
  intros HR HI HQ.
  apply (wp_for_acc _ _ _ (fun done acc s' => exists bytes h, s' = set_mach h s /\ length bytes = length done /\
           Forall is_u8 bytes /\ I bytes acc.2 h /\ length acc.1 = length data /\ take (length done) acc.1 = bytes)).
  - exists [], (mach s). split; [by destruct s|]. by repeat split.
  - intros done x rest [d st'] s' Heq (bytes & h & -> & Hlen & Hu & HI' & Hd & Ht). apply range_split in Heq as [-> Hx].
    cbn [fst snd] in *. apply wp_bind, wp_io. apply (HR _ bytes); [lia|done|]. intros b st2 h2 Hb HI2.
    apply wp_bind, wp_set_index; [lia|]. apply wp_ret. exists (bytes ++ [b]), h2. split; [done|]. cbn [fst snd].
    rewrite !length_app, length_insert, Nat2Z.id. cbn [length]. split_and!; try done; [lia| |].
    + apply Forall_app. split; [done|by constructor].
    + rewrite Nat.add_1_r. rewrite (take_S_r _ _ b) by (apply list_lookup_insert_eq; lia).
      by rewrite take_insert_ge by lia; rewrite Ht.
  - intros [d st'] s' (bytes & h & -> & Hlen & Hu & HI' & Hd & Ht). cbn [fst snd] in *.
    unfold range in Hlen, Ht. rewrite length_fmap, length_seq, Nat2Z.id in Hlen, Ht.
    rewrite take_ge in Ht by lia. subst d. by apply HQ.
Qed.

(** ** The node after start-up *)

Lemma per_channel_four {A} (P : nat -> A -> Prop) a b c d :
  P 0%nat a -> P 1%nat b -> P 2%nat c -> P 3%nat d -> per_channel P [a; b; c; d].
Proof. intros Ha Hb Hc Hd. split; [done|]. intros [|[|[|[|k]]]] x Hx; simplify_eq/=; done. Qed.

Lemma start_chan_inv {HW : Hardware} (h : machine) : chan_inv (node_init h).
Proof.
  split; [|split; [|split]].
  - split; [|unfold MaxPeriod; simpl; unfold MaxPeriod; lia]. do 2 eexists. split; [reflexivity|].
    unfold led_ok, is_u8. simpl. split_and!; done.
  - by apply per_channel_four.
  - by apply per_channel_four.
  - split; [by apply per_channel_four|]. split; [done|]. split; [done|]. simpl. lia.
Qed.
