(* ===== verification/Switch.v ===== *)
(** The switch module, [firmware/stm8/can_node/mod_switch.c].

    A switch drives one pin of port B: the pin is high when the switch is on, or
    when it is off and its polarity is reversed.  With a delay configured the
    switch turns itself off. *)

From stdpp Require Import sets.
From S2P Require Import Prelude Monad CanProto Machine Gpio Flash Eestream CanRules Sim State Led Channel.

Definition sw_set_config (v : Z) (w : Switch) : Switch :=
  MkSwitch (sw_gpio w) (sw_pin w) v (sw_mode w) (off_delay w) (off_timer w).
Definition sw_set_mode (m : SwitchMode) (w : Switch) : Switch :=
  MkSwitch (sw_gpio w) (sw_pin w) (sw_config w) m (off_delay w) (off_timer w).
Definition sw_set_off_delay (v : Z) (w : Switch) : Switch :=
  MkSwitch (sw_gpio w) (sw_pin w) (sw_config w) (sw_mode w) v (off_timer w).
Definition sw_set_off_timer (v : Z) (w : Switch) : Switch :=
  MkSwitch (sw_gpio w) (sw_pin w) (sw_config w) (sw_mode w) (off_delay w) v.

(** The level [switch_update] drives. *)
Definition switch_level (w : Switch) : Z :=
  Z.lxor (if bool_decide (sw_mode w = SwitchMode_On) then 1 else 0)
         (if truth (Z.land (sw_config w) HA_CAN_Node_SwitchConfig_Polarity) then 1 else 0).

(** ** Operations *)

Section Operations.
Context {HW : Hardware}.

Definition switch_init (channel_id : Z) : prog node unit :=
  let! w := idx f_switches channel_id in
  io (GPIO_Init (sw_gpio w) (sw_pin w) GPIO_MODE_OUT_PP_LOW_FAST).

Definition switch_deinit (channel_id : Z) : prog node unit :=
  let! w := idx f_switches channel_id in
  io (GPIO_Init (sw_gpio w) (sw_pin w) GPIO_MODE_IN_FL_NO_IT).

Definition switch_update (channel_id : Z) : prog node unit :=
  let! w := idx f_switches channel_id in
  if truth (switch_level w)
  then io (GPIO_WriteHigh (sw_gpio w) (sw_pin w))
  else io (GPIO_WriteLow (sw_gpio w) (sw_pin w)).

(** The length answered and the reply buffer. *)
Definition switch_request (channel_id address : Z) (reply : list Z) : prog node (Z * list Z) :=
  let! w := idx f_switches channel_id in
  if address =? HA_CAN_Node_Switch_Config then
    let! reply := set_index reply 0 (sw_config w) in ret (1, reply)
  else if address =? HA_CAN_Node_Switch_Value then
    let! reply := set_index reply 0 (SwitchMode_value (sw_mode w)) in ret (1, reply)
  else if address =? HA_CAN_Node_Switch_OffDelay then
    let! reply := set_index reply 0 (u8 (Z.shiftr (off_delay w) 8)) in
    let! reply := set_index reply 1 (Z.land (off_delay w) 0xff) in ret (2, reply)
  else ret (NO_RESPONSE, reply).

Definition switch_write (channel_id address length : Z) (value : list Z) : prog node unit :=
  (if address =? HA_CAN_Node_Switch_Config then
     when (length =? 1)
       (let! v0 := at_index value 0 in
        idx_upd f_switches channel_id (sw_set_config (Z.land v0 HA_CAN_Node_SwitchConfigMask)))
   else if address =? HA_CAN_Node_Switch_Value then
     when (length =? 1)
       (let! v0 := at_index value 0 in
        idx_upd f_switches channel_id (sw_set_mode (if truth v0 then SwitchMode_On else SwitchMode_Off)) ;;
        idx_upd f_switches channel_id (sw_set_off_timer 0))
   else if address =? HA_CAN_Node_Switch_OffDelay then
     when (length =? 2)
       (let! v0 := at_index value 0 in
        let! v1 := at_index value 1 in
        idx_upd f_switches channel_id (sw_set_off_delay (Z.lor (u16 (Z.shiftl v0 8)) v1)))
   else ret tt) ;;
  switch_update channel_id.

Definition switch_timer (channel_id : Z) : prog node unit :=
  let! w := idx f_switches channel_id in
  if bool_decide (sw_mode w = SwitchMode_Off) ||
     (Z.land (sw_config w) HA_CAN_Node_SwitchConfig_OffDelay =? 0)
  then ret tt
  else
    idx_upd f_switches channel_id (fun w => sw_set_off_timer (u16 (off_timer w + 1)) w) ;;
    let! w := idx f_switches channel_id in
    when (off_delay w <=? off_timer w)
      (idx_upd f_switches channel_id (sw_set_mode SwitchMode_Off) ;;
       idx_upd f_switches channel_id (sw_set_off_timer 0) ;;
       switch_update channel_id).

Definition switch_save (channel_id : Z) (stream : CAN_Node_EEStream) : prog node CAN_Node_EEStream :=
  let! w := idx f_switches channel_id in
  let! stream := io (CAN_Node_EEStream_write_byte stream (sw_config w)) in
  let! w := idx f_switches channel_id in
  let! stream := io (CAN_Node_EEStream_write_byte stream (u8 (Z.shiftr (off_delay w) 8))) in
  let! w := idx f_switches channel_id in
  io (CAN_Node_EEStream_write_byte stream (Z.land (off_delay w) 0xff)).

Definition switch_load (channel_id : Z) (stream : CAN_Node_EEStream) : prog node CAN_Node_EEStream :=
  let! (config, stream) := io (CAN_Node_EEStream_read_byte stream) in
  idx_upd f_switches channel_id (sw_set_config config) ;;
  let! (delay_hi, stream) := io (CAN_Node_EEStream_read_byte stream) in
  let! (delay_lo, stream) := io (CAN_Node_EEStream_read_byte stream) in
  idx_upd f_switches channel_id (sw_set_off_delay (Z.lor (u16 (Z.shiftl delay_hi 8)) delay_lo)) ;;
  idx_upd f_switches channel_id (sw_set_off_timer 0) ;;
  let! w := idx f_switches channel_id in
  (if truth (Z.land (sw_config w) HA_CAN_Node_SwitchConfig_DefaultOn)
   then idx_upd f_switches channel_id (sw_set_mode SwitchMode_On)
   else idx_upd f_switches channel_id (sw_set_mode SwitchMode_Off)) ;;
  switch_update channel_id ;;
  ret stream.

Definition mod_switch : module_ops := {|
  on_init := switch_init;
  on_deinit := switch_deinit;
  on_timer := Some switch_timer;
  on_save := Some switch_save;
  on_load := Some switch_load
|}.
End Operations.

(** ** What the operations do to a switch *)

Definition switch_written (address length : Z) (value : list Z) (w : Switch) : Switch :=
  let v := fun k => nth k value 0 in
  if address =? HA_CAN_Node_Switch_Config then
    if length =? 1 then sw_set_config (Z.land (v 0%nat) HA_CAN_Node_SwitchConfigMask) w else w
  else if address =? HA_CAN_Node_Switch_Value then
    if length =? 1 then sw_set_off_timer 0 (sw_set_mode (if truth (v 0%nat) then SwitchMode_On else SwitchMode_Off) w) else w
  else if address =? HA_CAN_Node_Switch_OffDelay then
    if length =? 2 then sw_set_off_delay (256 * v 0%nat + v 1%nat) w else w
  else w.

(** The switch counts down. *)
Definition switch_counting (w : Switch) : bool :=
  negb (bool_decide (sw_mode w = SwitchMode_Off) || (Z.land (sw_config w) HA_CAN_Node_SwitchConfig_OffDelay =? 0)).

Definition switch_ticked (w : Switch) : Switch :=
  if switch_counting w then
    let t := u16 (off_timer w + 1) in
    if off_delay w <=? t then sw_set_off_timer 0 (sw_set_mode SwitchMode_Off w) else sw_set_off_timer t w
  else w.

(** The switch restored from the bytes of a payload. *)
Definition switch_loaded (config hi lo : Z) (w : Switch) : Switch :=
  MkSwitch (sw_gpio w) (sw_pin w) config
    (if truth (Z.land config HA_CAN_Node_SwitchConfig_DefaultOn) then SwitchMode_On else SwitchMode_Off)
    (Z.lor (u16 (Z.shiftl hi 8)) lo) 0.

Lemma switch_written_ok k address length value w :
  Forall is_u8 value -> switch_ok k w -> switch_ok k (switch_written address length value w).
Proof.
  intros Hv (Hg & Hp & Hc & Hd & Ht). assert (forall j, is_u8 (nth j value 0)) as Hn.
  { intros j. destruct (nth_in_or_default j value 0) as [Hin | ->]; [|unfold is_u8; lia].
    eapply List.Forall_forall; [exact Hv|exact Hin]. }
  unfold switch_written, switch_ok.
  repeat (case_match; [|]); cbn [sw_gpio sw_pin sw_config off_delay off_timer sw_set_config sw_set_mode sw_set_off_timer sw_set_off_delay];
    split_and!; first [done | by apply land_is_u8 | by apply hi_lo_range].
Qed.

Lemma switch_ticked_ok k w : switch_ok k w -> switch_ok k (switch_ticked w).
Proof.
  intros (Hg & Hp & Hc & Hd & Ht). unfold switch_ticked, switch_ok.
  repeat case_match; cbn [sw_gpio sw_pin sw_config off_delay off_timer sw_set_mode sw_set_off_timer];
    split_and!; try done; apply u16_range.
Qed.

(** ** Rules *)

Section Rules.
Context {HW : Hardware} {GL : GpioLaws HW} {E : fault -> node -> Prop}.

Definition sw_at (ch : Z) (w : Switch) (s : node) : Prop := switches s !! Z.to_nat ch = Some w.

(** The node with another switch at a channel. *)
Definition put_switch (ch : Z) (w : Switch) (s : node) : node :=
  set_switches (<[Z.to_nat ch := w]> (switches s)) s.

Lemma sw_at_put ch w0 w s : sw_at ch w0 s -> sw_at ch w (put_switch ch w s).
Proof. intros H. unfold sw_at, put_switch. simpl. apply list_lookup_insert_eq. by eapply lookup_lt_Some. Qed.

Lemma put_put_switch ch w1 w2 s : put_switch ch w2 (put_switch ch w1 s) = put_switch ch w2 s.
Proof. unfold put_switch, set_switches. simpl. by rewrite list_insert_insert_eq. Qed.

Lemma put_switch_id ch w s : sw_at ch w s -> put_switch ch w s = s.
Proof. intros H. unfold put_switch, set_switches. rewrite list_insert_id by done. by destruct s. Qed.

Lemma put_switch_mach ch w h s : put_switch ch w (set_mach h s) = set_mach h (put_switch ch w s).
Proof. done. Qed.

Lemma sw_idx_wp ch w (Q : Switch -> node -> Prop) s :
  is_channel ch -> sw_at ch w s -> Q w s -> wp E (idx f_switches ch) Q s.
Proof. intros Hch Hw HQ. eapply wp_eq; [apply (idx_ok f_switches ch w); [apply Hch|done]|done]. Qed.

Lemma sw_upd_wp ch w g (Q : unit -> node -> Prop) s :
  is_channel ch -> sw_at ch w s -> Q tt (put_switch ch (g w) s) -> wp E (idx_upd f_switches ch g) Q s.
Proof. intros Hch Hw HQ. eapply wp_eq; [apply (idx_upd_ok f_switches ch g w); [apply Hch|done]|done]. Qed.

(** The node with the machine [h] and the switch [w] at [ch]. *)
Definition with_switch (ch : Z) (w : Switch) (h : machine) (s : node) : node := set_mach h (put_switch ch w s).

Lemma with_switch_id ch w s : sw_at ch w s -> with_switch ch w (mach s) s = s.
Proof. intros Hw. unfold with_switch. rewrite put_switch_id by done. by destruct s. Qed.

Lemma sw_at_with ch w0 w h s : sw_at ch w0 s -> sw_at ch w (with_switch ch w h s).
Proof. apply (sw_at_put ch w0 w s). Qed.

Lemma with_switch_idx ch w0 w h (Q : Switch -> node -> Prop) s :
  is_channel ch -> sw_at ch w0 s -> Q w (with_switch ch w h s) -> wp E (idx f_switches ch) Q (with_switch ch w h s).
Proof. intros Hch Hw HQ. eapply sw_idx_wp; [done|by eapply sw_at_with|done]. Qed.

Lemma with_switch_upd ch w0 w g h (Q : unit -> node -> Prop) s :
  is_channel ch -> sw_at ch w0 s -> Q tt (with_switch ch (g w) h s) ->
  wp E (idx_upd f_switches ch g) Q (with_switch ch w h s).
Proof.
  intros Hch Hw HQ. eapply sw_upd_wp; [done|by eapply sw_at_with|]. unfold with_switch in *.
  by rewrite put_switch_mach, put_put_switch.
Qed.

(** The level of a switch is on its pin, and no other cell has changed. *)
Definition drives (ch : Z) (w : Switch) (s s' : machine) : Prop :=
  cells s' (GPIO_ODR GPIOB) = set_pins (truth (switch_level w)) (channel_pin ch) (cells s (GPIO_ODR GPIOB)) /\
  keeps (eq (GPIO_ODR GPIOB)) s s'.

Lemma odr_off_tape d : GPIO_ODR GPIOB = d -> off_tape d.
Proof. intros <-. apply (gpio_off_tape GPIOB); [unfold gpio_ports; set_solver|unfold gpio_reg, GPIO_ODR; lia]. Qed.

Lemma drives_off_tape ch w s s' : drives ch w s s' -> keeps off_tape s s'.
Proof. intros [_ Hk]. eapply keeps_weaken; [done|apply odr_off_tape]. Qed.

Lemma switch_update_wp ch w (Q : unit -> node -> Prop) s :
  is_channel ch -> sw_at ch w s -> switch_ok (Z.to_nat ch) w ->
  (forall h, drives ch w (mach s) h -> Q tt (set_mach h s)) ->
  wp E (switch_update ch) Q s.
Proof using GL.
  intros Hch Hw (Hg & Hp & _) HQ. unfold switch_update. apply wp_bind. eapply sw_idx_wp; [done|done|].
  rewrite Hg, Hp. replace (Z.of_nat (Z.to_nat ch)) with ch by (unfold is_channel in Hch; lia).
  assert (GPIOB ∈ gpio_ports) as Hport by (unfold gpio_ports; set_solver).
  unfold drives in HQ. destruct (truth (switch_level w)).
  - apply wp_io, GPIO_WriteHigh_wp; [done|]. intros h Hc Hk Hr. apply HQ.
    split; [done|]. split; [|done]. intros d Hd Hn. apply Hk; [done|congruence].
  - apply wp_io, GPIO_WriteLow_wp; [done|]. intros h Hc Hk Hr. apply HQ.
    split; [done|]. split; [|done]. intros d Hd Hn. apply Hk; [done|congruence].
Qed.

(** A write updates the switch as its address says and drives the pin. *)
Lemma switch_write_wp ch w address len value (Q : unit -> node -> Prop) s :
  is_channel ch -> sw_at ch w s -> switch_ok (Z.to_nat ch) w ->
  (2 <= length value)%nat -> Forall is_u8 value ->
  (forall h, drives ch (switch_written address len value w) (mach s) h ->
     Q tt (set_mach h (put_switch ch (switch_written address len value w) s))) ->
  wp E (switch_write ch address len value) Q s.
Proof using GL.
  intros Hch Hw Hok Hlen Hv HQ. unfold switch_write.
  assert (forall w', switch_ok (Z.to_nat ch) w' -> w' = switch_written address len value w ->
            wp E (switch_update ch) Q (put_switch ch w' s)) as Hend.
  { intros w' Hok' ->. eapply switch_update_wp; [done|by eapply sw_at_put|done|]. apply HQ. }
  pose proof (switch_written_ok (Z.to_nat ch) address len value w Hv Hok) as Hwok.
  destruct value as [|v0 [|v1 value]]; simpl in Hlen; try lia.
  apply Forall_cons_1 in Hv as [Hv0 Hv]. apply Forall_cons_1 in Hv as [Hv1 Hv].
  assert (switch_written address len (v0 :: v1 :: value) w = w ->
            wp E (switch_update ch) Q s) as Hskip.
  { intros Heq. rewrite <- (put_switch_id ch w s) by done. by apply Hend. }
  unfold switch_written in *. cbn [nth] in *. apply wp_bind.
  destruct (address =? HA_CAN_Node_Switch_Config).
  { destruct (len =? 1); [|by apply wp_ret, Hskip]. cbn [when]. apply wp_bind, wp_ret.
    eapply sw_upd_wp; [done|done|]. by apply Hend. }
  destruct (address =? HA_CAN_Node_Switch_Value).
  { destruct (len =? 1); [|by apply wp_ret, Hskip]. cbn [when]. apply wp_bind, wp_ret.
    apply wp_bind. eapply sw_upd_wp; [done|done|]. eapply sw_upd_wp; [done|by eapply sw_at_put|].
    rewrite put_put_switch. by apply Hend. }
  destruct (address =? HA_CAN_Node_Switch_OffDelay); [|by apply wp_ret, Hskip].
  destruct (len =? 2); [|by apply wp_ret, Hskip]. cbn [when]. apply wp_bind, (wp_at_index _ _ v0), wp_bind, (wp_at_index _ _ v1); [done..|].
  eapply sw_upd_wp; [done|done|]. rewrite hi_lo_word by done. by apply Hend.
Qed.

(** One timer event. *)
Lemma switch_timer_wp ch w (Q : unit -> node -> Prop) s :
  is_channel ch -> sw_at ch w s -> switch_ok (Z.to_nat ch) w ->
  (forall h, (if bool_decide (sw_mode (switch_ticked w) = sw_mode w) then h = mach s
              else drives ch (switch_ticked w) (mach s) h) ->
     Q tt (set_mach h (put_switch ch (switch_ticked w) s))) ->
  wp E (switch_timer ch) Q s.
Proof using GL.
  intros Hch Hw Hok HQ. unfold switch_timer. apply wp_bind. eapply sw_idx_wp; [done|done|].
  pose proof (switch_ticked_ok _ _ Hok) as Htok. unfold switch_ticked, switch_counting in *.
  destruct (bool_decide (sw_mode w = SwitchMode_Off) || _) eqn:Hc; cbn [negb] in *.
  - apply wp_ret. rewrite bool_decide_eq_true_2 in HQ by done. specialize (HQ (mach s) eq_refl).
    rewrite put_switch_id in HQ by done. by destruct s.
  - apply orb_false_iff in Hc as [Hm _]. apply bool_decide_eq_false_1 in Hm.
    apply wp_bind. eapply sw_upd_wp; [done|done|].
    apply wp_bind. eapply sw_idx_wp; [done|by eapply sw_at_put|]. cbn [off_delay off_timer sw_set_off_timer].
    apply wp_when; intros Hd; rewrite Hd in HQ, Htok.
    + apply wp_bind. eapply sw_upd_wp; [done|by eapply sw_at_put|].
      apply wp_bind. eapply sw_upd_wp; [done|by eapply sw_at_put, sw_at_put|].
      rewrite !put_put_switch. eapply switch_update_wp; [done|by eapply sw_at_put|exact Htok|].
      intros h Hh. rewrite bool_decide_eq_false_2 in HQ by (simpl; congruence). by apply HQ.
    + rewrite bool_decide_eq_true_2 in HQ by done. by apply (HQ (mach s)).
Qed.

Lemma switch_gpio_wp ch w mode (Q : unit -> node -> Prop) s :
  is_channel ch -> sw_at ch w s -> switch_ok (Z.to_nat ch) w ->
  (forall h, keeps off_tape (mach s) h -> Q tt (set_mach h s)) ->
  wp E (let! w := idx f_switches ch in io (GPIO_Init (sw_gpio w) (sw_pin w) mode)) Q s.
Proof.
  intros Hch Hw (Hg & _) HQ. apply wp_bind. eapply sw_idx_wp; [done|done|]. rewrite Hg.
  assert (GPIOB ∈ gpio_ports) as Hport by (unfold gpio_ports; set_solver).
  eapply wp_io_off; [by apply touches_GPIO_Init|by intros d; apply gpio_off_tape|]. intros []. apply HQ.
Qed.
End Rules.

(** ** The promise to [module.c] *)

Section Module.
Context {HW : Hardware} {GL : GpioLaws HW} {FL : FlashLaws HW}.

Lemma sw_at_inv ch s : chan_inv s -> is_channel ch -> exists w, sw_at ch w s /\ switch_ok (Z.to_nat ch) w.
Proof. intros (_ & HS & _) Hch. by apply per_channel_lookup. Qed.

Lemma put_switch_step ch w h s :
  is_channel ch -> chan_inv s -> switch_ok (Z.to_nat ch) w -> keeps off_tape (mach s) h ->
  chan_step ch s (set_mach h (put_switch ch w s)).
Proof.
  intros Hch Hs Hw Hk. apply (chan_step_trans ch _ (put_switch ch w s)); [by apply chan_step_switch|].
  apply chan_step_mach; [|done]. by eapply chan_step_inv, chan_step_switch.
Qed.

(** The settings after a change to a switch. *)
Lemma put_switch_setting ch w0 w h s :
  sw_at ch w0 s -> s_switch (setting_of ch (set_mach h (put_switch ch w s))) = (sw_config w, off_delay w).
Proof. intros Hw. unfold setting_of. cbn [s_switch set_mach switches]. by rewrite (sw_at_put ch w0 w s Hw). Qed.

Lemma put_switch_same ch w0 w h s :
  sw_at ch w0 s -> sw_config w = sw_config w0 -> off_delay w = off_delay w0 ->
  setting_of ch (set_mach h (put_switch ch w s)) = setting_of ch s.
Proof.
  intros Hw Hc Hd. unfold setting_of. f_equal. cbn [set_mach switches].
  rewrite (sw_at_put ch w0 w s Hw). unfold sw_at in Hw. rewrite Hw. simpl. congruence.
Qed.

Lemma switch_ticked_setting w : sw_config (switch_ticked w) = sw_config w /\ off_delay (switch_ticked w) = off_delay w.
Proof. unfold switch_ticked. by repeat case_match. Qed.

Lemma switch_loaded_ok k config hi lo w :
  switch_ok k w -> is_u8 config -> is_u8 hi -> is_u8 lo -> switch_ok k (switch_loaded config hi lo w).
Proof.
  intros (Hg & Hp & _) Hc Hh Hl. unfold switch_ok. cbn [switch_loaded sw_gpio sw_pin sw_config off_delay off_timer].
  rewrite hi_lo_word by done. split_and!; [done|done|done|by apply hi_lo_range|unfold is_u16; lia].
Qed.

(** Loading, from the three bytes the stream gives. *)
Lemma switch_load_wp E I ch w st (Q : CAN_Node_EEStream -> node -> Prop) s :
  is_channel ch -> sw_at ch w s -> switch_ok (Z.to_nat ch) w -> reads 3 I -> I [] st (mach s) ->
  (forall c hi lo st' h h', is_u8 c -> is_u8 hi -> is_u8 lo -> I [c; hi; lo] st' h ->
     drives ch (switch_loaded c hi lo w) h h' ->
     Q st' (set_mach h' (put_switch ch (switch_loaded c hi lo w) s))) ->
  wp E (switch_load ch st) Q s.
Proof using GL.
  intros Hch Hw Hok HR HI HQ. rewrite <- (with_switch_id ch w s) by done. unfold switch_load.
  apply wp_bind, wp_io. apply (HR _ []); [simpl; lia|exact HI|]. intros c st1 h1 Hc HI1.
  apply wp_bind. eapply (with_switch_upd ch w w _ h1); [done|exact Hw|].
  apply wp_bind, wp_io. apply (HR _ [c]); [simpl; lia|exact HI1|]. intros hi st2 h2 Hhi HI2.
  apply wp_bind, wp_io. apply (HR _ [c; hi]); [simpl; lia|exact HI2|]. intros lo st3 h3 Hlo HI3.
  apply wp_bind. eapply with_switch_upd; [done|exact Hw|].
  apply wp_bind. eapply with_switch_upd; [done|exact Hw|].
  apply wp_bind. eapply with_switch_idx; [done|exact Hw|].
  cbn [sw_set_off_timer sw_set_off_delay sw_set_config sw_config].
  assert (forall w', w' = switch_loaded c hi lo w ->
            wp E (switch_update ch ;; ret st3) Q (with_switch ch w' h3 s)) as Hend.
  { intros w' ->. apply wp_bind. eapply switch_update_wp; [done|by eapply sw_at_with|by apply switch_loaded_ok|].
    intros h' Hh'. by apply wp_ret, (HQ c hi lo st3 h3 h'). }
  apply wp_bind. unfold switch_loaded in Hend. destruct (truth _); (eapply with_switch_upd; [done|exact Hw|]; by apply Hend).
Qed.

Definition switch_payload (w : Switch) : list Z :=
  [sw_config w; u8 (Z.shiftr (off_delay w) 8); Z.land (off_delay w) 0xff].

Lemma switch_save_wp E ch w st l (Q : CAN_Node_EEStream -> node -> Prop) s :
  is_channel ch -> sw_at ch w s -> switch_ok (Z.to_nat ch) w ->
  written st l (mach s) -> (length l + 5 <= tape_size)%nat ->
  (forall st' h, written st' (l ++ switch_payload w) h -> keeps eeprom (mach s) h -> Q st' (set_mach h s)) ->
  wp E (switch_save ch st) Q s.
Proof using FL.
  intros Hch Hw (_ & _ & Hc & Hd & _) Hst Hl HQ. unfold switch_save.
  destruct (word_hi_lo (off_delay w) Hd) as (Hhi & Hlo & _).
  apply wp_bind. eapply sw_idx_wp; [done|done|]. apply wp_bind, wp_io.
  eapply EEStream_write_wp; [exact Hst|lia|done|]. intros st1 h1 W1 K1.
  apply wp_bind. eapply sw_idx_wp; [done|exact Hw|]. apply wp_bind, wp_io.
  eapply EEStream_write_wp; [exact W1|rewrite length_app; simpl; lia|done|]. intros st2 h2 W2 K2.
  apply wp_bind. eapply sw_idx_wp; [done|exact Hw|]. apply wp_io.
  eapply EEStream_write_wp; [exact W2|rewrite !length_app; simpl; lia|done|]. intros st3 h3 W3 K3.
  rewrite <- !app_assoc in W3. apply HQ; [done|]. by eapply keeps_trans; [exact K1|eapply keeps_trans].
Qed.

#[local] Obligation Tactic := idtac.

#[export, program] Instance switch_module : ChannelModule mod_switch := {|
  uses_adc := false;
  agree x y := s_switch x = s_switch y;
  saved x pl := is_u8 (s_switch x).1 /\ is_u16 (s_switch x).2 /\
    pl = [(s_switch x).1; u8 (Z.shiftr (s_switch x).2 8); Z.land (s_switch x).2 0xff]
|}.
Next Obligation.
  intros x pl (Hc & Hd & ->). destruct (word_hi_lo _ Hd) as (Hhi & Hlo & _).
  split; [simpl; lia|]. constructor; [exact Hc|constructor; [exact Hhi|constructor; [exact Hlo|constructor]]].
Qed.
Next Obligation.
  intros E ch Q s Hch Hs He HQ. destruct (sw_at_inv ch s Hs Hch) as (w & Hw & Hok).
  eapply switch_gpio_wp; [done|done|done|]. intros h Hk. apply HQ; [by apply chan_step_mach|done|done].
Qed.
Next Obligation.
  intros E ch Q s _ Hch Hs He HQ. destruct (sw_at_inv ch s Hs Hch) as (w & Hw & Hok).
  eapply switch_gpio_wp; [done|done|done|]. intros h Hk. apply HQ; [by apply chan_step_mach|done|done].
Qed.
Next Obligation.
  intros E ch Q s _ Hch Hs He HQ. destruct (sw_at_inv ch s Hs Hch) as (w & Hw & Hok).
  destruct (switch_ticked_setting w) as [Hc Hd].
  eapply switch_timer_wp; [done|done|done|]. intros h Hh. apply HQ; [|done|by eapply put_switch_same].
  apply put_switch_step; [done|done|by apply switch_ticked_ok|].
  destruct (bool_decide _); [subst; apply keeps_refl|by eapply drives_off_tape].
Qed.
Next Obligation.
  intros E ch st l Q s Hch Hs Hst Hl HQ. destruct (sw_at_inv ch s Hs Hch) as (w & Hw & Hok).
  eapply switch_save_wp; [done|done|done|done|done|]. intros st' h W K.
  eapply HQ; [|exact W|done]. unfold setting_of. cbn [s_switch].
  unfold sw_at in Hw. rewrite Hw. split; [apply Hok|split; [apply Hok|done]].
Qed.
Next Obligation.
  intros E ch st Q s Hch Hs He HQ. destruct (sw_at_inv ch s Hs Hch) as (w & Hw & Hok).
  eapply (switch_load_wp E (any_bytes (mach s))); [done|done|done|apply reads_any|apply any_bytes_start|].
  intros c hi lo st' h h' Hc Hhi Hlo Hk Hd. apply HQ; [|done].
  apply put_switch_step; [done|done|by apply switch_loaded_ok|].
  apply (keeps_trans _ _ h); [eapply keeps_weaken; [done|by intros ? []]|by eapply drives_off_tape].
Qed.
Next Obligation.
  intros E ch st x pl rest Q s Hch Hs He Hpl Hr HQ. destruct (sw_at_inv ch s Hs Hch) as (w & Hw & Hok).
  destruct Hpl as (_ & Hd0 & ->).
  eapply (switch_load_wp E (tape_bytes _ (mach s))); [done|done|done|apply reads_tape|by apply tape_bytes_start|].
  { simpl. lia. }
  intros c hi lo st' h h' Hc Hhi Hlo (Heq & Hr' & Hk) Hd. simpl in Heq. injection Heq as -> -> ->.
  assert (keeps off_tape (mach s) h') as Hk'.
  { apply (keeps_trans _ _ h); [eapply keeps_weaken; [done|by intros ? []]|by eapply drives_off_tape]. }
  apply HQ; [|done| |].
  - apply put_switch_step; [done|done|by apply switch_loaded_ok|done].
  - unfold with_switch. rewrite (put_switch_setting ch w) by done. cbn [switch_loaded sw_config off_delay].
    rewrite hi_lo_word by done. destruct (word_hi_lo _ Hd0) as (_ & _ & ->). by destruct (s_switch x).
  - eapply (reading_keeps (eq (GPIO_ODR GPIOB))); [|apply Hd|exact Hr'].
    intros d Hd' <-. by apply (odr_off_tape (GPIO_ODR GPIOB)).
Qed.

#[export] Instance switch_handlers : ChannelHandlers false switch_request switch_write.
Proof.
  split.
  - intros E ch address reply Q s _ Hch Hs Hlen Hr HQ. destruct (sw_at_inv ch s Hs Hch) as (w & Hw & _ & _ & Hc & Hd & _).
    unfold switch_request. apply wp_bind. eapply sw_idx_wp; [done|done|].
    assert (chan_step ch s s) as Hst by by apply chan_step_refl.
    destruct (word_hi_lo _ Hd) as (Hhi & Hlo & _).
    repeat (apply wp_if; intros _); try (by apply wp_ret, HQ); (apply wp_bind, wp_set_index; [lia|]).
    + destruct (reply_insert reply 0 _ Hlen Hr Hc). by apply wp_ret, HQ.
    + destruct (reply_insert reply 0 (SwitchMode_value (sw_mode w)) Hlen Hr);
        [destruct (sw_mode w); unfold is_u8; simpl; lia|]. by apply wp_ret, HQ.
    + destruct (reply_insert reply 0 _ Hlen Hr Hhi) as [Hlen' Hr'].
      apply wp_bind, wp_set_index; [rewrite length_insert; lia|].
      destruct (reply_insert _ 1 _ Hlen' Hr' Hlo). by apply wp_ret, HQ.
  - intros E ch address len value Q s Hch Hs Hlen Hv HQ. destruct (sw_at_inv ch s Hs Hch) as (w & Hw & Hok).
    eapply switch_write_wp; [done|done|done|lia|done|]. intros h Hd. apply HQ; [|done].
    apply put_switch_step; [done|done|by apply switch_written_ok|by eapply drives_off_tape].
Qed.
End Module.

(** ** Theorems *)

Section Theorems.
Context {HW : Hardware} {GL : GpioLaws HW}.

(** The level of pin [i] of port B. *)
Definition pin_level (i : Z) (s : node) : bool := Z.testbit (cells (mach s) (GPIO_ODR GPIOB)) i.

(** On, or off with reversed polarity. *)
Definition wants_high (w : Switch) : bool :=
  xorb (bool_decide (sw_mode w = SwitchMode_On)) (truth (Z.land (sw_config w) HA_CAN_Node_SwitchConfig_Polarity)).

Lemma switch_level_spec w : truth (switch_level w) = wants_high w.
Proof.
  unfold switch_level, wants_high.
  by destruct (bool_decide _), (truth (Z.land (sw_config w) HA_CAN_Node_SwitchConfig_Polarity)).
Qed.

Lemma channel_pin_testbit ch i : is_channel ch -> 0 <= i < 8 -> Z.testbit (channel_pin ch) i = (i =? ch).
Proof.
  intros Hch Hi. unfold channel_pin, is_channel, CAN_Node_ChannelCount in *. rewrite Z.shiftl_mul_pow2, Z.mul_1_l by lia.
  rewrite Z.pow2_bits_eqb by lia. apply Z.eqb_sym.
Qed.

Lemma drives_pin ch w h s s' i :
  is_channel ch -> 0 <= i < 8 -> drives ch w (mach s) h -> mach s' = h ->
  pin_level i s' = if i =? ch then wants_high w else pin_level i s.
Proof.
  intros Hch Hi [Hc _] <-. unfold pin_level. rewrite Hc, set_pins_testbit, channel_pin_testbit by done.
  by rewrite switch_level_spec.
Qed.

(** A write to a switch, at any address and with any length, returns; it
    changes the switch as its address says, leaves its pin at the level of the
    new state, and touches no other pin and no other channel. *)
Theorem switch_write_pin {FL : FlashLaws HW} ch w address len value s :
  chan_inv s -> is_channel ch -> sw_at ch w s -> (2 <= length value)%nat -> Forall is_u8 value ->
  exists s', switch_write ch address len value s = Ok tt s' /\
    sw_at ch (switch_written address len value w) s' /\ chan_step ch s s' /\
    forall i, 0 <= i < 8 ->
      pin_level i s' = if i =? ch then wants_high (switch_written address len value w) else pin_level i s.
Proof.
  intros Hs Hch Hw Hlen Hv. destruct (sw_at_inv ch s Hs Hch) as (w' & Hw' & Hok).
  assert (w' = w) as -> by (unfold sw_at in *; congruence).
  destruct (wp_total_inv (switch_write ch address len value) (fun _ s' =>
      sw_at ch (switch_written address len value w) s' /\ chan_step ch s s' /\ forall i, 0 <= i < 8 ->
      pin_level i s' = if i =? ch then wants_high (switch_written address len value w) else pin_level i s) s)
    as ([] & s' & Heq & H); [|eauto].
  eapply switch_write_wp; [done..|]. intros h Hd. split; [by eapply sw_at_put|]. split.
  - apply put_switch_step; [done|done|by apply switch_written_ok|by eapply drives_off_tape].
  - intros i Hi. by eapply drives_pin.
Qed.

(** The counter of a switch that is on with a delay. *)
Lemma switch_ticked_iter w n :
  sw_mode w = SwitchMode_On -> Z.land (sw_config w) HA_CAN_Node_SwitchConfig_OffDelay <> 0 ->
  off_timer w = 0 -> is_u16 (off_delay w) ->
  let w' := Nat.iter n switch_ticked w in
  sw_config w' = sw_config w /\ off_delay w' = off_delay w /\
  if Z.of_nat n <? Z.max 1 (off_delay w) then sw_mode w' = SwitchMode_On /\ off_timer w' = Z.of_nat n
  else sw_mode w' = SwitchMode_Off.
Proof.
  intros Hm Hc Ht Hd. unfold is_u16 in Hd. induction n as [|n IH]; cbv zeta.
  - simpl. cmp. done.
  - rewrite Nat.iter_succ. cbv zeta in IH. revert IH. generalize (Nat.iter n switch_ticked w). intros x (IHc & IHd & IH).
    destruct (switch_ticked_setting x) as [-> ->].
    split; [done|]. split; [done|]. unfold switch_ticked, switch_counting. rewrite IHc, IHd.
    rewrite (proj2 (Z.eqb_neq _ _) Hc), orb_false_r.
    destruct (Z.ltb_spec (Z.of_nat n) (Z.max 1 (off_delay w))) as [Hn|Hn].
    + destruct IH as [IHm IHt]. rewrite IHm, IHt. rewrite bool_decide_eq_false_2 by done. cbn [negb].
      rewrite u16_small by (unfold is_u16; lia).
      cmp; cbn [sw_mode off_timer sw_set_mode sw_set_off_timer]; first [done | split; [done|lia]].
    + rewrite IH. rewrite bool_decide_eq_true_2 by done. cbn [negb]. cmp. done.
Qed.

(** C35. A switch turned on with a delay turns itself off: whatever the hardware
    does between the timer events, it is on, with its pin at the on level, until
    its delay has elapsed (one event if the delay is 0), and then off, with its
    pin at the off level; the other pins never change. *)
Theorem switch_off_delay {FL : FlashLaws HW} ch w n s :
  chan_inv s -> is_channel ch -> sw_at ch w s ->
  sw_mode w = SwitchMode_On -> Z.land (sw_config w) HA_CAN_Node_SwitchConfig_OffDelay <> 0 ->
  off_timer w = 0 -> pin_level ch s = wants_high w ->
  exists s' w', times n (switch_timer ch) s = Ok tt s' /\ sw_at ch w' s' /\
    sw_mode w' = (if Z.of_nat n <? Z.max 1 (off_delay w) then SwitchMode_On else SwitchMode_Off) /\
    pin_level ch s' = wants_high w' /\ chan_step ch s s' /\
    forall i, 0 <= i < 8 -> i <> ch -> pin_level i s' = pin_level i s.
Proof.
  intros Hs Hch Hw Hm Hc Ht Hpin. destruct (sw_at_inv ch s Hs Hch) as (w0 & Hw0 & Hok).
  assert (w0 = w) as -> by (unfold sw_at in *; congruence). clear Hw0.
  set (Post := fun k w0 s0 s' => sw_at ch (Nat.iter k switch_ticked w0) s' /\
      pin_level ch s' = wants_high (Nat.iter k switch_ticked w0) /\ chan_step ch s0 s' /\
      forall i, 0 <= i < 8 -> i <> ch -> pin_level i s' = pin_level i s0).
  assert (forall k w0 s0, chan_inv s0 -> sw_at ch w0 s0 -> switch_ok (Z.to_nat ch) w0 -> pin_level ch s0 = wants_high w0 ->
            wp total (times k (switch_timer ch)) (fun _ => Post k w0 s0) s0) as Hrun.
  { clear -Hch GL FL. intros k. induction k as [|k IH]; intros w0 s0 Hs Hw Hok Hpin; simpl.
    - apply wp_ret. split; [done|]. split; [done|]. split; [by apply chan_step_refl|done].
    - apply wp_bind. eapply switch_timer_wp; [done..|]. intros h Hh.
      pose proof (switch_ticked_ok _ _ Hok) as Hok'. destruct (switch_ticked_setting w0) as [Hc0 _].
      set (s1 := set_mach h _).
      assert (sw_at ch (switch_ticked w0) s1) as Hw1 by by eapply sw_at_put.
      assert (chan_step ch s0 s1 /\ forall i, 0 <= i < 8 ->
                pin_level i s1 = if i =? ch then wants_high (switch_ticked w0) else pin_level i s0) as [St Hp].
      { destruct (bool_decide _) eqn:Hb.
        - apply bool_decide_eq_true_1 in Hb. subst h. split.
          + apply put_switch_step; [done|done|done|apply keeps_refl].
          + intros i Hi. change (pin_level i s1) with (pin_level i s0). destruct (Z.eqb_spec i ch) as [->|]; [|done].
            rewrite Hpin. unfold wants_high. by rewrite Hb, Hc0.
        - split; [apply put_switch_step; [done|done|done|by eapply drives_off_tape]|].
          intros i Hi. by eapply drives_pin. }
      eapply wp_mono.
      { apply (IH (switch_ticked w0)); [by eapply chan_step_inv|done|done|].
        rewrite Hp by (unfold is_channel, CAN_Node_ChannelCount in Hch; lia). by rewrite Z.eqb_refl. }
      intros [] s' (H1 & H2 & H3 & H4). unfold Post. rewrite Nat.iter_succ_r. split; [done|]. split; [done|].
      split; [by eapply chan_step_trans|]. intros i Hi Hne. rewrite H4, Hp by done.
      by rewrite (proj2 (Z.eqb_neq _ _) Hne). }
  destruct (wp_total_inv _ _ _ (Hrun n w s Hs Hw Hok Hpin)) as ([] & s' & Heq & H1 & H2 & H3 & H4).
  exists s', (Nat.iter n switch_ticked w). split; [done|]. split; [done|]. split; [|done].
  destruct Hok as (_ & _ & _ & Hd & _).
  destruct (switch_ticked_iter w n Hm Hc Ht Hd) as (_ & _ & H).
  destruct (Z.of_nat n <? Z.max 1 (off_delay w)); [by destruct H|done].
Qed.
End Theorems.

(** A switch of reversed polarity, on with a delay of three events. *)
Definition sample_switch : Switch := MkSwitch GPIOB (channel_pin 1) 0x05 SwitchMode_On 3 0.

Lemma sample_switch_inv : chan_inv (put_switch 1 sample_switch sim_node).
Proof. eapply chan_step_inv, (chan_step_switch 1); [done|apply start_chan_inv|done]. Qed.

Lemma switch_write_pin_witness :
  exists s', switch_write 1 HA_CAN_Node_Switch_Value 1 [1; 0; 0; 0; 0; 0; 0; 0] sim_node = Ok tt s' /\
    pin_level 1 s' = true /\ pin_level 2 s' = pin_level 2 sim_node.
Proof.
  destruct (switch_write_pin 1 (MkSwitch GPIOB GPIO_PIN_1 0 SwitchMode_Off 0 0) HA_CAN_Node_Switch_Value 1
              [1; 0; 0; 0; 0; 0; 0; 0] sim_node) as (s' & Heq & _ & _ & Hpin).
  - apply start_chan_inv.
  - done.
  - done.
  - simpl. lia.
  - repeat constructor; unfold is_u8; lia.
  - exists s'. split; [exact Heq|]. split; [exact (Hpin 1 ltac:(lia))|exact (Hpin 2 ltac:(lia))].
Defined.

Lemma switch_off_delay_witness :
  exists s' w', times 3 (switch_timer 1) (put_switch 1 sample_switch sim_node) = Ok tt s' /\
    sw_at 1 w' s' /\ sw_mode w' = SwitchMode_Off /\ pin_level 1 s' = wants_high w'.
Proof.
  destruct (switch_off_delay 1 sample_switch 3 (put_switch 1 sample_switch sim_node))
    as (s' & w' & Heq & Hw & Hm & Hp & _); [exact sample_switch_inv|done|done|done|done|done|done|].
  exists s', w'. split; [exact Heq|]. split; [exact Hw|]. split; [exact Hm|exact Hp].
Defined.
