(* ===== verification/Button.v ===== *)
(** The button module, [firmware/stm8/can_node/mod_button.c].

    A button samples its pin at every timer event; a locked button stays pressed
    until it is reset over the bus, and an active button announces each change
    with a data frame. *)

From stdpp Require Import sets.
From S2P Require Import Prelude Monad CanProto Machine Gpio Flash Eestream CanDrv CanRules Sim State Led Can Channel.

Definition bt_set_config (v : Z) (b : Button) : Button := MkButton (bt_gpio b) (bt_pin b) v (bt_state b).
Definition bt_set_state (v : ButtonState) (b : Button) : Button := MkButton (bt_gpio b) (bt_pin b) (bt_config b) v.

(** ** Operations *)

Section Operations.
Context {HW : Hardware}.

(** Convert button config to GPIO mode bits *)
Definition button_gpio_mode (channel_id : Z) : prog node Z :=
  let! b := idx f_buttons channel_id in
  ret (if truth (Z.land (bt_config b) HA_CAN_Node_ButtonConfig_PullUp)
       then GPIO_MODE_IN_PU_NO_IT else GPIO_MODE_IN_FL_NO_IT).

(** Reinitialize GPIO pin according to the new configuration *)
Definition button_reinit (channel_id : Z) : prog node unit :=
  let! b := idx f_buttons channel_id in
  let! mode := button_gpio_mode channel_id in
  io (GPIO_Init (bt_gpio b) (bt_pin b) mode).

Definition button_init (channel_id : Z) : prog node unit := button_reinit channel_id.

Definition button_deinit (channel_id : Z) : prog node unit :=
  let! b := idx f_buttons channel_id in
  io (GPIO_Init (bt_gpio b) (bt_pin b) GPIO_MODE_IN_FL_NO_IT).

Definition button_request (channel_id address : Z) (reply : list Z) : prog node (Z * list Z) :=
  let! b := idx f_buttons channel_id in
  if address =? HA_CAN_Node_Button_Config then
    let! reply := set_index reply 0 (bt_config b) in ret (1, reply)
  else if address =? HA_CAN_Node_Button_Value then
    let! reply := set_index reply 0 (ButtonState_value (bt_state b)) in ret (1, reply)
  else ret (NO_RESPONSE, reply).

Definition button_set_state (channel_id : Z) : prog node unit :=
  let! b := idx f_buttons channel_id in
  let reverse := if truth (Z.land (bt_config b) HA_CAN_Node_ButtonConfig_Polarity) then 1 else 0 in
  let lock := if truth (Z.land (bt_config b) HA_CAN_Node_ButtonConfig_Lock) then 1 else 0 in
  let active := if truth (Z.land (bt_config b) HA_CAN_Node_ButtonConfig_Active) then 1 else 0 in
  let! idr := io (load (GPIO_IDR (bt_gpio b))) in
  let pin_state := if truth (Z.land idr (bt_pin b)) then 1 else 0 in
  let current_state := if truth (Z.lxor pin_state reverse) then ButtonState_Pressed else ButtonState_Released in
  let value := replicate 8 0 in
  if bool_decide (bt_state b = current_state) then ret tt
  else if truth lock && bool_decide (bt_state b = ButtonState_Pressed) then ret tt
  else
    idx_upd f_buttons channel_id (bt_set_state current_state) ;;
    when (truth active)
      (let! b := idx f_buttons channel_id in
       let! value := set_index value 0 (ButtonState_value (bt_state b)) in
       CAN_Node_CAN_send_data channel_id HA_CAN_Node_Button_Value 1 value).

Definition button_write (channel_id address length : Z) (value : list Z) : prog node unit :=
  if address =? HA_CAN_Node_Button_Config then
    let! v0 := at_index value 0 in
    let new_config := Z.land v0 HA_CAN_Node_ButtonConfigMask in
    let! b := idx f_buttons channel_id in
    when ((length =? 1) && negb (bt_config b =? new_config))
      (idx_upd f_buttons channel_id (bt_set_config new_config) ;;
       button_reinit channel_id ;;
       button_set_state channel_id)
  else if address =? HA_CAN_Node_Button_Value then
    (* Used to reset value to 0 *)
    if length =? 1 then
      let! v0 := at_index value 0 in
      when (v0 =? 0)
        (idx_upd f_buttons channel_id (bt_set_state ButtonState_Released) ;;
         button_set_state channel_id)
    else ret tt
  else ret tt.

Definition button_timer (channel_id : Z) : prog node unit := button_set_state channel_id.

Definition button_save (channel_id : Z) (stream : CAN_Node_EEStream) : prog node CAN_Node_EEStream :=
  let! b := idx f_buttons channel_id in
  io (CAN_Node_EEStream_write_byte stream (bt_config b)).

Definition button_load (channel_id : Z) (stream : CAN_Node_EEStream) : prog node CAN_Node_EEStream :=
  let! (config, stream) := io (CAN_Node_EEStream_read_byte stream) in
  idx_upd f_buttons channel_id (bt_set_config config) ;;
  idx_upd f_buttons channel_id (bt_set_state ButtonState_Released) ;;
  button_reinit channel_id ;;
  button_set_state channel_id ;;
  ret stream.

Definition mod_button : module_ops := {|
  on_init := button_init;
  on_deinit := button_deinit;
  on_timer := Some button_timer;
  on_save := Some button_save;
  on_load := Some button_load
|}.
End Operations.

(** ** What a sample does to a button *)

Definition button_current (pin : bool) (b : Button) : ButtonState :=
  if xorb pin (truth (Z.land (bt_config b) HA_CAN_Node_ButtonConfig_Polarity)) then ButtonState_Pressed else ButtonState_Released.

Definition button_locked (b : Button) : bool :=
  truth (Z.land (bt_config b) HA_CAN_Node_ButtonConfig_Lock) && bool_decide (bt_state b = ButtonState_Pressed).

Definition button_sampled (pin : bool) (b : Button) : Button :=
  if button_locked b then b else bt_set_state (button_current pin b) b.

(** Whether the sample is announced. *)
Definition button_announces (pin : bool) (b : Button) : bool :=
  bool_decide (bt_state (button_sampled pin b) <> bt_state b) &&
  truth (Z.land (bt_config b) HA_CAN_Node_ButtonConfig_Active).

(** The frame of an announcement. *)
Definition button_frame (device_id channel_id : Z) (b : Button) : can_rx :=
  sent_frame (HA_CAN_packet_id_to_number (send_packet_id device_id channel_id HA_CAN_Node_Button_Value))
    CAN_Id_Extended CAN_RTR_Data 1 (ButtonState_value (bt_state b) :: replicate 7 0).

Lemma button_sampled_ok k pin b : button_ok k b -> button_ok k (button_sampled pin b).
Proof. intros H. unfold button_sampled. by destruct (button_locked b). Qed.

Lemma button_sampled_config pin b : bt_config (button_sampled pin b) = bt_config b.
Proof. unfold button_sampled. by destruct (button_locked b). Qed.

(** ** Rules *)

Section Rules.
Context {HW : Hardware} {E : fault -> node -> Prop}.

Definition bt_at (ch : Z) (b : Button) (s : node) : Prop := buttons s !! Z.to_nat ch = Some b.

(** The node with the machine [h] and the button [b] at [ch]. *)
Definition with_button (ch : Z) (b : Button) (h : machine) (s : node) : node :=
  set_mach h (set_buttons (<[Z.to_nat ch := b]> (buttons s)) s).

Lemma with_button_id ch b s : bt_at ch b s -> with_button ch b (mach s) s = s.
Proof. intros Hb. unfold with_button, set_buttons. rewrite list_insert_id by done. by destruct s. Qed.

Lemma with_with_button ch b1 h1 b2 h2 s : with_button ch b2 h2 (with_button ch b1 h1 s) = with_button ch b2 h2 s.
Proof. unfold with_button, set_buttons, set_mach. simpl. by rewrite list_insert_insert_eq. Qed.

Lemma bt_at_with ch b0 b h s : bt_at ch b0 s -> bt_at ch b (with_button ch b h s).
Proof. intros H. unfold bt_at, with_button. simpl. apply list_lookup_insert_eq. by eapply lookup_lt_Some. Qed.

Lemma bt_idx_wp ch b (Q : Button -> node -> Prop) s :
  is_channel ch -> bt_at ch b s -> Q b s -> wp E (idx f_buttons ch) Q s.
Proof. intros Hch Hb HQ. eapply wp_eq; [apply (idx_ok f_buttons ch b); [apply Hch|done]|done]. Qed.

Lemma with_button_upd ch b0 b g h (Q : unit -> node -> Prop) s :
  is_channel ch -> bt_at ch b0 s -> Q tt (with_button ch (g b) h s) ->
  wp E (idx_upd f_buttons ch g) Q (with_button ch b h s).
Proof.
  intros Hch Hb HQ. eapply wp_eq.
  - apply (idx_upd_ok f_buttons ch g b); [apply Hch|]. by apply (bt_at_with ch b0 b h s).
  - cbn [fset fget f_buttons]. unfold with_button in *. cbn [buttons set_mach set_buttons] in *.
    unfold set_buttons, set_mach in *. cbn [mach n_led clock_counter switches buttons n_analog n_sysinfo n_module n_can] in *.
    by rewrite list_insert_insert_eq.
Qed.

Lemma portB_off_tape d : gpio_reg GPIOB d -> off_tape d.
Proof. apply gpio_off_tape. unfold gpio_ports. set_solver. Qed.

Lemma button_gpio_wp ch b (Q : unit -> node -> Prop) mode s :
  is_channel ch -> bt_gpio b = GPIOB ->
  (forall h, keeps off_tape (mach s) h -> Q tt (set_mach h s)) ->
  wp E (io (GPIO_Init (bt_gpio b) (bt_pin b) mode)) Q s.
Proof.
  intros Hch Hg HQ. rewrite Hg. assert (GPIOB ∈ gpio_ports) by (unfold gpio_ports; set_solver).
  eapply wp_io_off; [by apply touches_GPIO_Init|apply portB_off_tape|]. intros []. apply HQ.
Qed.

Lemma button_reinit_wp ch b (Q : unit -> node -> Prop) s :
  is_channel ch -> bt_at ch b s -> bt_gpio b = GPIOB ->
  (forall h, keeps off_tape (mach s) h -> Q tt (set_mach h s)) -> wp E (button_reinit ch) Q s.
Proof.
  intros Hch Hb Hg HQ. unfold button_reinit, button_gpio_mode. apply wp_bind. eapply bt_idx_wp; [done|done|].
  apply wp_bind, wp_bind. eapply bt_idx_wp; [done|done|]. apply wp_ret. by apply (button_gpio_wp ch b).
Qed.

(** The pin of a button, as a load of the input register would show it now. *)
Definition pin_shown (b : Button) (s : node) : bool :=
  truth (Z.land (shown (GPIO_IDR (bt_gpio b)) (mach s)) (bt_pin b)).
End Rules.

Section Sampling.
Context {HW : Hardware} {CL : CanLaws HW} {E : fault -> node -> Prop}.

(** Nothing but a frame: after a load of the pin, the frame was put into the first free
    mailbox and its transmission requested, or no mailbox was free. *)
Definition frame_sent (a : Z) (f : can_rx) (s s' : machine) : Prop :=
  exists st, transmitted st f (after_load a s) s'.

Lemma send_frame_ok device_id channel_id index (b : Button) :
  frame_ok (HA_CAN_packet_id_to_number (send_packet_id device_id channel_id index)) CAN_Id_Extended CAN_RTR_Data 1
    (ButtonState_value (bt_state b) :: replicate 7 0).
Proof.
  pose proof (packet_id_to_number_range (send_packet_id device_id channel_id index)) as Hr.
  split; [|split; [by right|split; [by left|split; [lia|split]]]].
  - destruct Hr as [H1 H2]; [|unfold is_u32; lia]. split; [done|]. split; [|apply u16_range].
    cbn [send_packet_id device_id_field]. unfold to_device_id_field. apply (land_low_range _ 7). lia.
  - apply Forall_cons; [destruct (bt_state b); unfold is_u8; simpl; lia|].
    apply Forall_replicate. unfold is_u8. lia.
  - simpl. lia.
Qed.

Lemma in_page_off_tape p d : tx_page p -> in_page p d -> off_tape d.
Proof.
  intros Hp [-> | (off & Hoff & ->)]; apply can_off_tape; unfold can_cell, CAN_PSR, CAN_BaseAddress, page_cell, tx_page in *; lia.
Qed.

Lemma transmitted_off_tape st f s s' : transmitted st f s s' -> keeps off_tape s s'.
Proof.
  intros [_ [[_ Hk] | (Hp & _ & Hk)]]; (eapply keeps_weaken; [exact Hk|]).
  - intros d <-. apply can_off_tape. unfold can_cell, CAN_PSR. lia.
  - intros d. by apply in_page_off_tape.
Qed.

Lemma button_state_cases pin b :
  bt_state (button_sampled pin b) =
    if bool_decide (bt_state b = button_current pin b) || button_locked b then bt_state b else button_current pin b.
Proof.
  unfold button_sampled. destruct (button_locked b); [by rewrite orb_true_r|]. rewrite orb_false_r.
  by case_bool_decide.
Qed.

(** A sample: the new state follows the pin shown, and a change of an active
    button goes out as a frame. *)
Lemma button_set_state_wp ch b (Q : unit -> node -> Prop) s :
  is_channel ch -> bt_at ch b s ->
  (forall h, keeps off_tape (mach s) h ->
     (if button_announces (pin_shown b s) b
      then frame_sent (GPIO_IDR (bt_gpio b)) (button_frame (device_id (n_sysinfo s)) ch (button_sampled (pin_shown b s) b)) (mach s) h
      else keeps (fun _ => False) (mach s) h) ->
     Q tt (with_button ch (button_sampled (pin_shown b s) b) h s)) ->
  wp E (button_set_state ch) Q s.
Proof using CL.
  intros Hch Hb HQ. unfold button_set_state. apply wp_bind. eapply bt_idx_wp; [done|done|].
  apply wp_bind, wp_io, wp_load_shown. fold (pin_shown b s). set (pin := pin_shown b s) in *.
  unfold frame_sent in HQ. set (h1 := after_load (GPIO_IDR (bt_gpio b)) (mach s)) in *.
  assert (keeps (fun _ => False) (mach s) h1) as K1 by apply keeps_after_load.
  assert (keeps off_tape (mach s) h1) as K1' by (eapply keeps_weaken; [done|by intros ? []]).
  set (cur := if truth (Z.lxor _ _) then _ else _).
  assert (cur = button_current pin b) as ->.
  { unfold cur, button_current. by destruct pin, (truth (Z.land (bt_config b) HA_CAN_Node_ButtonConfig_Polarity)). }
  unfold button_announces in HQ.
  assert (forall m : prog node unit, bt_state (button_sampled pin b) = bt_state b -> wp E (ret tt) Q (set_mach h1 s)) as Hsame.
  { intros _ Heq. apply wp_ret. rewrite Heq, bool_decide_eq_false_2 in HQ by auto.
    specialize (HQ h1 K1' K1). assert (button_sampled pin b = b) as Hid.
    { unfold button_sampled in *. destruct (button_locked b); [done|]. unfold bt_set_state in *. simpl in Heq.
      rewrite Heq. by destruct b. }
    rewrite Hid in HQ. unfold with_button, set_buttons in HQ. rewrite list_insert_id in HQ by done. exact HQ. }
  pose proof (button_state_cases pin b) as Hst.
  apply wp_if; intros Hc1; [apply Hsame; [exact (ret tt)|]; by rewrite Hst, Hc1|]. rewrite Hc1 in Hst.
  assert (truth (if truth (Z.land (bt_config b) HA_CAN_Node_ButtonConfig_Lock) then 1 else 0) &&
          bool_decide (bt_state b = ButtonState_Pressed) = button_locked b) as ->.
  { unfold button_locked. by destruct (truth (Z.land (bt_config b) HA_CAN_Node_ButtonConfig_Lock)). }
  apply wp_if; intros Hc2; [apply Hsame; [exact (ret tt)|]; by rewrite Hst, Hc2|]. rewrite Hc2 in Hst. cbn [orb] in Hst.
  clear Hsame. apply bool_decide_eq_false_1 in Hc1.
  rewrite bool_decide_eq_true_2 in HQ by (rewrite Hst; auto). rewrite andb_true_l in HQ.
  assert (button_sampled pin b = bt_set_state (button_current pin b) b) as Hsm by (unfold button_sampled; by rewrite Hc2).
  rewrite Hsm in HQ. set (b' := bt_set_state (button_current pin b) b) in *.
  replace (set_mach h1 s) with (with_button ch b h1 s)
    by (unfold with_button, set_buttons; rewrite list_insert_id by done; done).
  apply wp_bind. eapply with_button_upd; [done|exact Hb|]. fold b'.
  assert (truth (if truth (Z.land (bt_config b) HA_CAN_Node_ButtonConfig_Active) then 1 else 0) =
          truth (Z.land (bt_config b) HA_CAN_Node_ButtonConfig_Active)) as ->.
  { by destruct (truth (Z.land (bt_config b) HA_CAN_Node_ButtonConfig_Active)). }
  apply wp_when; intros Ha; rewrite Ha in HQ; [|by apply HQ].
  apply wp_bind. eapply bt_idx_wp; [done|by eapply bt_at_with|]. apply wp_bind, wp_set_index; [simpl; lia|].
  unfold CAN_Node_CAN_send_data. apply wp_bind, wp_rd, wp_bind, wp_io.
  cbn [Z.to_nat replicate]. apply CAN_Transmit_wp; [apply send_frame_ok|]. intros st h2 Ht _.
  apply wp_ret. change (Q tt (with_button ch b' h2 s)). apply HQ.
  - eapply keeps_trans; [exact K1'|by eapply transmitted_off_tape].
  - by exists st.
Qed.
End Sampling.

(** ** The promise to [module.c] *)

Section Module.
Context {HW : Hardware} {CL : CanLaws HW} {FL : FlashLaws HW}.

Lemma bt_at_inv ch s : chan_inv s -> is_channel ch -> exists b, bt_at ch b s /\ button_ok (Z.to_nat ch) b.
Proof. intros (_ & _ & HB & _) Hch. by apply per_channel_lookup. Qed.

Lemma with_button_step ch b h s :
  is_channel ch -> chan_inv s -> button_ok (Z.to_nat ch) b -> keeps off_tape (mach s) h ->
  chan_step ch s (with_button ch b h s).
Proof.
  intros Hch Hs Hb Hk. apply (chan_step_trans ch _ (set_buttons (<[Z.to_nat ch := b]> (buttons s)) s));
    [by apply chan_step_button|]. apply chan_step_mach; [|done]. by eapply chan_step_inv, chan_step_button.
Qed.

Lemma with_button_setting ch b0 b h s :
  bt_at ch b0 s -> setting_of ch (with_button ch b h s) = Setting (s_switch (setting_of ch s)) (bt_config b) (s_analog (setting_of ch s)).
Proof.
  intros Hb. unfold setting_of. f_equal. pose proof (bt_at_with ch b0 b h s Hb) as H. unfold bt_at in H.
  by rewrite H.
Qed.

Lemma with_button_same ch b0 b h s :
  bt_at ch b0 s -> bt_config b = bt_config b0 -> setting_of ch (with_button ch b h s) = setting_of ch s.
Proof.
  intros Hb Hc. rewrite (with_button_setting ch b0) by done. rewrite Hc. unfold setting_of. f_equal.
  unfold bt_at in Hb. by rewrite Hb.
Qed.

(** A sample of the button [b], seen as a step. *)
Lemma button_set_state_step E ch b h (Q : unit -> node -> Prop) s :
  is_channel ch -> chan_inv s -> bt_at ch b s -> button_ok (Z.to_nat ch) b -> keeps off_tape (mach s) h ->
  forall b', button_ok (Z.to_nat ch) b' ->
  (forall pin h', keeps off_tape h h' -> Q tt (with_button ch (button_sampled pin b') h' s)) ->
  wp E (button_set_state ch) Q (with_button ch b' h s).
Proof using CL.
  intros Hch Hs Hb Hok Hk b' Hok' HQ. eapply button_set_state_wp; [done|by eapply bt_at_with|].
  intros h' Hk' _. rewrite with_with_button. by apply HQ.
Qed.

Lemma button_load_wp E I ch b st (Q : CAN_Node_EEStream -> node -> Prop) s :
  is_channel ch -> chan_inv s -> bt_at ch b s -> button_ok (Z.to_nat ch) b -> reads 1 I -> I [] st (mach s) ->
  (forall h l st', I l st' h -> keeps off_tape (mach s) h) ->
  (forall c st' h h' b', is_u8 c -> I [c] st' h -> keeps off_tape h h' -> bt_config b' = c ->
     button_ok (Z.to_nat ch) b' -> Q st' (with_button ch b' h' s)) ->
  wp E (button_load ch st) Q s.
Proof using CL.
  intros Hch Hs Hb Hok HR HI HK HQ. rewrite <- (with_button_id ch b s) by done. unfold button_load.
  apply wp_bind, wp_io. apply (HR _ []); [simpl; lia|exact HI|]. intros c st1 h1 Hc HI1.
  apply wp_bind. eapply (with_button_upd ch b b _ h1); [done|exact Hb|].
  apply wp_bind. eapply (with_button_upd ch b _ _ h1); [done|exact Hb|].
  set (b1 := bt_set_state _ _). assert (button_ok (Z.to_nat ch) b1) as Hok1 by (destruct Hok as (? & ? & ?); done).
  apply wp_bind. eapply button_reinit_wp; [done|by eapply bt_at_with|apply Hok1|]. intros h2 K2.
  apply wp_bind. eapply (button_set_state_step E ch b h2); [done|done|done|done| |done|].
  { eapply keeps_trans; [|exact K2]. by eapply (HK h1). }
  intros pin h3 K3. apply wp_ret. apply (HQ c st1 h1); [done|done|by eapply keeps_trans| |by apply button_sampled_ok].
  by rewrite button_sampled_config.
Qed.

#[local] Obligation Tactic := idtac.

#[export, program] Instance button_module : ChannelModule mod_button := {|
  uses_adc := false;
  agree x y := s_button x = s_button y;
  saved x pl := is_u8 (s_button x) /\ pl = [s_button x]
|}.
Next Obligation. intros x pl [Hc ->]. split; [simpl; lia|by constructor]. Qed.
Next Obligation.
  intros E ch Q s Hch Hs He HQ. destruct (bt_at_inv ch s Hs Hch) as (b & Hb & Hok).
  eapply button_reinit_wp; [done|done|apply Hok|]. intros h Hk. apply HQ; [by apply chan_step_mach|done|done].
Qed.
Next Obligation.
  intros E ch Q s _ Hch Hs He HQ. destruct (bt_at_inv ch s Hs Hch) as (b & Hb & Hok).
  cbn [on_deinit mod_button]. unfold button_deinit. apply wp_bind. eapply bt_idx_wp; [done|done|].
  apply (button_gpio_wp ch b); [done|apply Hok|]. intros h Hk. apply HQ; [by apply chan_step_mach|done|done].
Qed.
Next Obligation.
  intros E ch Q s _ Hch Hs He HQ. destruct (bt_at_inv ch s Hs Hch) as (b & Hb & Hok).
  eapply button_set_state_wp; [done|done|]. intros h Hk _.
  apply HQ; [by apply with_button_step, Hk; [done|done|apply button_sampled_ok]|done|].
  eapply with_button_same; [done|by rewrite button_sampled_config].
Qed.
Next Obligation.
  intros E ch st l Q s Hch Hs Hst Hl HQ. destruct (bt_at_inv ch s Hs Hch) as (b & Hb & Hok).
  cbn [call_save on_save mod_button]. unfold button_save. apply wp_bind. eapply bt_idx_wp; [done|done|].
  apply wp_io. eapply EEStream_write_wp; [exact Hst|lia|apply Hok|]. intros st' h W K.
  eapply HQ; [|exact W|done]. unfold setting_of. cbn [s_button]. unfold bt_at in Hb. rewrite Hb.
  split; [apply Hok|done].
Qed.
Next Obligation.
  intros E ch st Q s Hch Hs He HQ. destruct (bt_at_inv ch s Hs Hch) as (b & Hb & Hok).
  eapply (button_load_wp E (any_bytes (mach s))); [done|done|done|done|apply reads_any|apply any_bytes_start| |].
  { intros h l st' Hk. eapply keeps_weaken; [exact Hk|by intros ? []]. }
  intros c st' h h' b' Hc HI Hk Hcfg Hok'. apply HQ; [|done]. apply with_button_step; [done|done|done|].
  eapply keeps_trans; [|exact Hk]. eapply keeps_weaken; [exact HI|by intros ? []].
Qed.
Next Obligation.
  intros E ch st x pl rest Q s Hch Hs He [_ ->] Hr HQ. destruct (bt_at_inv ch s Hs Hch) as (b & Hb & Hok).
  eapply (button_load_wp E (tape_bytes _ (mach s))); [done|done|done|done| |by apply tape_bytes_start| |].
  { apply reads_tape. simpl. lia. }
  { intros h l st' (_ & _ & Hk). eapply keeps_weaken; [exact Hk|by intros ? []]. }
  intros c st' h h' b' Hc (Heq & Hr' & Hk0) Hk Hcfg Hok'. simpl in Heq. injection Heq as ->.
  apply HQ; [|done| |].
  - apply with_button_step; [done|done|done|]. eapply keeps_trans; [|exact Hk].
    eapply keeps_weaken; [exact Hk0|by intros ? []].
  - by rewrite (with_button_setting ch b).
  - eapply (reading_keeps off_tape); [|exact Hk|exact Hr']. intros d Hd Hn. by apply Hn.
Qed.

#[export] Instance button_handlers {GL : GpioLaws HW} : ChannelHandlers false button_request button_write.
Proof.
  split.
  - intros E ch address reply Q s _ Hch Hs Hlen Hr HQ. destruct (bt_at_inv ch s Hs Hch) as (b & Hb & _ & _ & Hc).
    unfold button_request. apply wp_bind. eapply bt_idx_wp; [done|done|].
    assert (chan_step ch s s) as Hst by by apply chan_step_refl.
    repeat (apply wp_if; intros _); try (by apply wp_ret, HQ); (apply wp_bind, wp_set_index; [lia|]).
    + destruct (reply_insert reply 0 _ Hlen Hr Hc). by apply wp_ret, HQ.
    + destruct (reply_insert reply 0 (ButtonState_value (bt_state b)) Hlen Hr);
        [destruct (bt_state b); unfold is_u8; simpl; lia|]. by apply wp_ret, HQ.
  - intros E ch address len value Q s Hch Hs Hlen Hv HQ. destruct (bt_at_inv ch s Hs Hch) as (b & Hb & Hok).
    destruct value as [|v0 value]; [done|]. apply Forall_cons_1 in Hv as [Hv0 _].
    assert (chan_step ch s s) as Hst by by apply chan_step_refl.
    assert (forall b' h, button_ok (Z.to_nat ch) b' -> keeps off_tape (mach s) h ->
              wp E (button_set_state ch) Q (with_button ch b' h s)) as Hset.
    { intros b' h Hok' Hk. eapply (button_set_state_step E ch b h); [done..|]. intros pin h' Hk'.
      apply HQ; [|done]. apply with_button_step; [done|done|by apply button_sampled_ok|by eapply keeps_trans]. }
    unfold button_write. rewrite <- (with_button_id ch b s) by done.
    apply wp_if; intros _; [|apply wp_if; intros _; [|by rewrite (with_button_id ch b s); [apply wp_ret, HQ|]]].
    + apply wp_bind, (wp_at_index _ _ v0); [done|done|].
      apply wp_bind. eapply bt_idx_wp; [done|by eapply bt_at_with|].
      apply wp_when; intros _; [|by rewrite (with_button_id ch b s); [apply HQ|]].
      apply wp_bind. eapply (with_button_upd ch b b); [done|exact Hb|]. set (b1 := bt_set_config _ b).
      assert (button_ok (Z.to_nat ch) b1) as Hok1.
      { destruct Hok as (? & ? & ?). split; [done|]. split; [done|]. by apply land_is_u8. }
      apply wp_bind. eapply button_reinit_wp; [done|by eapply bt_at_with|apply Hok1|]. intros h K. by apply Hset.
    + apply wp_if; intros _; [|by rewrite (with_button_id ch b s); [apply wp_ret, HQ|]].
      apply wp_bind, (wp_at_index _ _ v0); [done|done|].
      apply wp_when; intros _; [|by rewrite (with_button_id ch b s); [apply HQ|]].
      apply wp_bind. eapply (with_button_upd ch b b); [done|exact Hb|]. apply Hset; [done|apply keeps_refl].
Qed.
End Module.

(** ** Theorems *)

Section Theorems.
Context {HW : Hardware} {CL : CanLaws HW} {FL : FlashLaws HW}.

(** The identifier of an announcement names the node and the field of the channel. *)
Lemma button_frame_address device_id ch b :
  is_channel ch -> 0 <= device_id < 128 ->
  let p := HA_CAN_number_to_packet_id (_Id (button_frame device_id ch b)) in
  device_id_field p = device_id /\ address p = HA_CAN_Node_field_address ch HA_CAN_Node_Button_Value.
Proof.
  intros Hch Hd. unfold button_frame, sent_frame. cbn [_Id Z.eqb CAN_Id_Extended CAN_Id_Standard].
  set (q := send_packet_id device_id ch HA_CAN_Node_Button_Value).
  assert (packet_id_ok q) as Hq.
  { split; [done|]. split; [|apply u16_range]. apply (land_low_range _ 7). lia. }
  pose proof (packet_id_to_number_range q Hq) as Hr. change CAN_EXTID_SIZE with (Z.ones 29).
  rewrite Z.land_ones, Z.mod_small by lia. cbv zeta. rewrite packet_id_decode by done.
  cbn [device_id_field address]. split.
  - unfold q, send_packet_id, to_device_id_field. cbn [device_id_field]. change 0x7f with (Z.ones 7).
    rewrite Z.land_ones by lia. by apply Z.mod_small.
  - unfold is_channel, CAN_Node_ChannelCount in Hch.
    assert (ch = 0 \/ ch = 1 \/ ch = 2 \/ ch = 3) as [-> | [-> | [-> | ->]]] by lia; done.
Qed.

(** C36. A timer event samples the button of a node with a number below 128: its state follows the pin and the
    polarity unless the button is locked.  A change of an active button, to either
    state, is announced with exactly one data frame whose transmission is requested,
    from this node and about the value field of this channel, or with none if no
    mailbox is free; otherwise nothing is sent. *)
Theorem button_timer_samples ch b s :
  chan_inv s -> is_channel ch -> bt_at ch b s -> 0 <= device_id (n_sysinfo s) < 128 ->
  exists s', let b' := button_sampled (pin_shown b s) b in
    button_timer ch s = Ok tt s' /\ bt_at ch b' s' /\ chan_step ch s s' /\
    (if button_announces (pin_shown b s) b
     then exists f, frame_sent (GPIO_IDR (bt_gpio b)) f (mach s) (mach s') /\
            (if first_free (after_load CAN_PSR (after_load (GPIO_IDR (bt_gpio b)) (mach s))) =? CAN_TxStatus_NoMailBox
             then requested (mach s') = requested (mach s) else asked_for f (mach s) (mach s')) /\
            _RTR f = CAN_RTR_Data /\ _DLC f = 1 /\
            _Data f = ButtonState_value (bt_state b') :: replicate 7 0 /\
            device_id_field (HA_CAN_number_to_packet_id (_Id f)) = device_id (n_sysinfo s) /\
            address (HA_CAN_number_to_packet_id (_Id f)) = HA_CAN_Node_field_address ch HA_CAN_Node_Button_Value
     else requested (mach s') = requested (mach s) /\ keeps (fun _ => False) (mach s) (mach s')).
Proof.
  intros Hs Hch Hb Hd. destruct (bt_at_inv ch s Hs Hch) as (b0 & Hb0 & Hok).
  assert (b0 = b) as -> by (unfold bt_at in *; congruence).
  set (b' := button_sampled (pin_shown b s) b). cbv zeta.
  destruct (wp_total_inv (button_timer ch) (fun _ s' => bt_at ch b' s' /\ chan_step ch s s' /\
      if button_announces (pin_shown b s) b
      then frame_sent (GPIO_IDR (bt_gpio b)) (button_frame (device_id (n_sysinfo s)) ch b') (mach s) (mach s')
      else keeps (fun _ => False) (mach s) (mach s')) s) as ([] & s' & Heq & H1 & H2 & H3).
  { eapply button_set_state_wp; [done|done|]. intros h Hk Hf. split; [by eapply bt_at_with|]. split; [|exact Hf].
    apply with_button_step; [done|done|by apply button_sampled_ok|done]. }
  exists s'. split; [exact Heq|]. split; [exact H1|]. split; [exact H2|].
  destruct (button_announces (pin_shown b s) b); [|by split; [apply H3; intros ? ? []|]].
  destruct (button_frame_address (device_id (n_sysinfo s)) ch b' Hch Hd) as [Hdev Haddr].
  eexists. split; [exact H3|]. split; [|by repeat split]. destruct H3 as [st H3].
  exact (transmitted_requested _ _ _ _ H3).
Qed.

(** The lock holds: however the pin moves and however many timer events pass,
    a pressed button with the lock configured stays pressed and sends nothing. *)
Theorem button_lock_holds ch b n s :
  chan_inv s -> is_channel ch -> bt_at ch b s ->
  bt_state b = ButtonState_Pressed -> Z.land (bt_config b) HA_CAN_Node_ButtonConfig_Lock <> 0 ->
  exists s', times n (button_timer ch) s = Ok tt s' /\ bt_at ch b s' /\
    keeps (fun _ => False) (mach s) (mach s').
Proof.
  intros Hs Hch Hb Hp Hl.
  assert (button_locked b = true) as Hlock.
  { unfold button_locked, truth. by rewrite (proj2 (Z.eqb_neq _ _) Hl), Hp. }
  assert (wp total (times n (button_timer ch)) (fun _ s' => bt_at ch b s' /\ keeps (fun _ => False) (mach s) (mach s')) s)
    as H; [|destruct (wp_total_inv _ _ _ H) as ([] & s' & ? & ?); eauto].
  clear Hs. revert s Hb. induction n as [|n IH]; intros s Hb; simpl; [apply wp_ret; split; [done|apply keeps_refl]|].
  apply wp_bind. eapply button_set_state_wp; [done|done|].
  unfold button_announces, button_sampled. rewrite Hlock, bool_decide_eq_false_2 by auto. cbn [andb].
  intros h _ Hk. eapply wp_mono; [apply IH; by eapply bt_at_with|]. intros [] s' [H1 H2].
  split; [done|]. by apply (keeps_trans _ _ h).
Qed.
End Theorems.

(** An active button on channel 2 that is released, seen on a low pin with reversed polarity. *)
Definition sample_button : Button := MkButton GPIOB (channel_pin 2) 0x09 ButtonState_Released.

Definition sample_button_node : node :=
  set_sysinfo (SysinfoVars 5 (replicate 8 0)) (set_buttons (<[2%nat := sample_button]> buttons_init) sim_node).

Lemma sample_button_inv : chan_inv sample_button_node.
Proof.
  change (chan_inv (set_buttons (<[2%nat := sample_button]> buttons_init) sim_node)).
  apply (chan_step_inv 2 sim_node), (chan_step_button 2); [done|apply start_chan_inv|done].
Qed.

Lemma button_timer_samples_witness :
  exists s' f, button_timer 2 sample_button_node = Ok tt s' /\ asked_for f (mach sample_button_node) (mach s') /\
    _Data f = [1; 0; 0; 0; 0; 0; 0; 0] /\ address (HA_CAN_number_to_packet_id (_Id f)) = 0x8201.
Proof.
  destruct (button_timer_samples 2 sample_button sample_button_node) as (s' & Heq & _ & _ & f & _ & Hf & _ & _ & Hdata & _ & Haddr).
  - exact sample_button_inv.
  - done.
  - done.
  - simpl. lia.
  - exists s', f. split; [exact Heq|]. split; [exact Hf|]. split; [exact Hdata|exact Haddr].
Defined.

Definition sample_locked : Button := MkButton GPIOB (channel_pin 2) 0x04 ButtonState_Pressed.

Lemma button_lock_holds_witness :
  exists s', times 7 (button_timer 2) (set_buttons (<[2%nat := sample_locked]> buttons_init) sim_node) = Ok tt s' /\
    bt_at 2 sample_locked s'.
Proof.
  destruct (button_lock_holds 2 sample_locked 7 (set_buttons (<[2%nat := sample_locked]> buttons_init) sim_node))
    as (s' & Heq & Hb & _).
  - apply (chan_step_inv 2 sim_node), (chan_step_button 2); [done|apply start_chan_inv|done].
  - done.
  - done.
  - done.
  - done.
  - exists s'. split; [exact Heq|exact Hb].
Defined.
