(* ===== verification/Analog.v ===== *)
(** The analog module, [firmware/stm8/can_node/mod_analog.c].

    The enabled sensors take turns on the one converter: the selected sensor is
    activated at one timer event and read at the next, and the selection moves on. *)

From stdpp Require Import sets.
From S2P Require Import Prelude Monad CanProto Machine Gpio Flash Eestream Adc2 CanRules Sim State Led Can Channel.

Definition an_set_config (v : Z) (a : AnalogSensor) : AnalogSensor :=
  MkAnalogSensor (an_gpio a) (an_pin a) (adc_channel a) v (an_state a) (range_min a) (range_max a) (an_value a) (an_in_range a).
Definition an_set_state (v : AnalogState) (a : AnalogSensor) : AnalogSensor :=
  MkAnalogSensor (an_gpio a) (an_pin a) (adc_channel a) (an_config a) v (range_min a) (range_max a) (an_value a) (an_in_range a).
Definition an_set_range_min (v : Z) (a : AnalogSensor) : AnalogSensor :=
  MkAnalogSensor (an_gpio a) (an_pin a) (adc_channel a) (an_config a) (an_state a) v (range_max a) (an_value a) (an_in_range a).
Definition an_set_range_max (v : Z) (a : AnalogSensor) : AnalogSensor :=
  MkAnalogSensor (an_gpio a) (an_pin a) (adc_channel a) (an_config a) (an_state a) (range_min a) v (an_value a) (an_in_range a).
Definition an_set_value (v : Z) (a : AnalogSensor) : AnalogSensor :=
  MkAnalogSensor (an_gpio a) (an_pin a) (adc_channel a) (an_config a) (an_state a) (range_min a) (range_max a) v (an_in_range a).
Definition an_set_in_range (v : Z) (a : AnalogSensor) : AnalogSensor :=
  MkAnalogSensor (an_gpio a) (an_pin a) (adc_channel a) (an_config a) (an_state a) (range_min a) (range_max a) (an_value a) v.

(** ** Operations *)

Section Operations.
Context {HW : Hardware}.

Definition analog_activate (channel_id : Z) : prog node unit :=
  let! sensor := idx f_analog_sensors channel_id in
  io (ADC2_ConversionConfig ADC2_CONVERSIONMODE_SINGLE (adc_channel sensor) ADC2_ALIGN_RIGHT) ;;
  io ADC2_StartConversion ;;
  idx_upd f_analog_sensors channel_id (an_set_state AnalogState_Active).

Definition analog_deactivate (channel_id : Z) : prog node unit :=
  let! value := io ADC2_GetConversionValue in
  idx_upd f_analog_sensors channel_id (an_set_value value) ;;
  io ADC2_ClearFlag ;;
  idx_upd f_analog_sensors channel_id (an_set_state AnalogState_Inactive).

(** [while (selected_sensor != prev_selected) ...], [fuel] rounds at most. *)
Fixpoint select_loop (fuel : nat) (prev_selected : Z) : prog node unit :=
  match fuel with
  | O => raise Hang
  | S n =>
      let! selected := rd f_selected_sensor in
      if selected =? prev_selected then ret tt
      else
        when (CAN_Node_ChannelCount <=? selected) (wr f_selected_sensor 0) ;;
        let! selected := rd f_selected_sensor in
        let! sensor := idx f_analog_sensors selected in
        if negb (bool_decide (an_state sensor = AnalogState_Disabled)) then ret tt
        else select_loop n prev_selected
  end.

Definition select_fuel : nat := 8.

Definition select_next_sensor_fuel (fuel : nat) : prog node unit :=
  let! prev_selected := rd f_selected_sensor in
  wr f_selected_sensor (u8 (prev_selected + 1)) ;;
  select_loop fuel prev_selected.

Definition select_next_sensor : prog node unit := select_next_sensor_fuel select_fuel.

Definition analog_init (channel_id : Z) : prog node unit :=
  let! sensor := idx f_analog_sensors channel_id in
  io (GPIO_Init (an_gpio sensor) (an_pin sensor) GPIO_MODE_IN_FL_NO_IT) ;;
  let! count := rd f_sensor_count in
  when (count =? 0)
    (* First channel, initialize ADC2 *)
    (io (ADC2_Init ADC2_CONVERSIONMODE_SINGLE (adc_channel sensor) ADC2_PRESSEL_FCPU_D2 ADC2_EXTTRIG_TIM
           DISABLE ADC2_ALIGN_RIGHT ADC2_SCHMITTTRIG_ALL DISABLE) ;;
     io (ADC2_Cmd ENABLE) ;;
     wr f_selected_sensor channel_id) ;;
  let! count := rd f_sensor_count in
  wr f_sensor_count (u8 (count + 1)) ;;
  idx_upd f_analog_sensors channel_id (an_set_state AnalogState_Inactive).

Definition analog_deinit (channel_id : Z) : prog node unit :=
  idx_upd f_analog_sensors channel_id (an_set_state AnalogState_Disabled) ;;
  let! selected := rd f_selected_sensor in
  let! count := rd f_sensor_count in
  when ((channel_id =? selected) && (1 <? count)) select_next_sensor ;;
  let! count := rd f_sensor_count in
  let count := u8 (count - 1) in
  wr f_sensor_count count ;;
  when (count =? 0) (io (ADC2_Cmd DISABLE) ;; io ADC2_DeInit).

(** [write_uint16(response + k, value)] and [read_uint16(request + k)]. *)
Definition write_uint16 (response : list Z) (k value : Z) : prog node (list Z) :=
  let! response := set_index response k (u8 (Z.shiftr value 8)) in
  set_index response (k + 1) (u8 (Z.land value 0xff)).

Definition read_uint16 (request : list Z) (k : Z) : prog node Z :=
  let! hi := at_index request k in
  let! lo := at_index request (k + 1) in
  ret (Z.lor (u16 (Z.shiftl hi 8)) lo).

Definition analog_request (channel_id address : Z) (response : list Z) : prog node (Z * list Z) :=
  let! sensor := idx f_analog_sensors channel_id in
  if address =? HA_CAN_Node_Analog_Config then
    let! response := set_index response 0 (an_config sensor) in ret (1, response)
  else if address =? HA_CAN_Node_Analog_Range then
    let! response := write_uint16 response 0 (range_min sensor) in
    let! response := write_uint16 response 2 (range_max sensor) in ret (4, response)
  else if address =? HA_CAN_Node_Analog_Value then
    let! response := write_uint16 response 0 (an_value sensor) in ret (2, response)
  else ret (NO_RESPONSE, response).

Definition analog_write (channel_id address length : Z) (value : list Z) : prog node unit :=
  if address =? HA_CAN_Node_Analog_Config then
    when (length =? 1)
      (let! v0 := at_index value 0 in
       idx_upd f_analog_sensors channel_id (an_set_config (Z.land v0 HA_CAN_Node_AnalogConfigMask)))
  else if address =? HA_CAN_Node_Analog_Range then
    when (length =? 4)
      (let! v := read_uint16 value 0 in
       idx_upd f_analog_sensors channel_id (an_set_range_min v) ;;
       let! v := read_uint16 value 2 in
       idx_upd f_analog_sensors channel_id (an_set_range_max v))
  else ret tt.

(** Nothing calls it. *)
Definition analog_range_check (channel_id : Z) : prog node unit :=
  let! sensor := idx f_analog_sensors channel_id in
  let value := replicate 8 0 in
  if Z.land (an_config sensor) HA_CAN_Node_AnalogConfig_RangeCheck =? 0 then ret tt
  else
    let in_range := Z.b2z ((range_min sensor <=? an_value sensor) && (an_value sensor <=? range_max sensor)) in
    let in_range :=
      if truth (Z.land (an_config sensor) HA_CAN_Node_AnalogConfig_ReverseRange) then u8 (1 - in_range) else in_range in
    when (truth in_range && (an_in_range sensor =? 0))
      (let! value := write_uint16 value 0 (an_value sensor) in
       CAN_Node_CAN_send_data channel_id HA_CAN_Node_Analog_Value 2 value) ;;
    idx_upd f_analog_sensors channel_id (an_set_in_range in_range).

Definition analog_timer (channel_id : Z) : prog node unit :=
  let! selected := rd f_selected_sensor in
  if negb (channel_id =? selected) then ret tt
  else
    let! count := rd f_sensor_count in
    let! sensor := idx f_analog_sensors channel_id in
    if (count =? 1) && negb (bool_decide (an_state sensor = AnalogState_Disabled))
    then analog_activate channel_id
    else
      match an_state sensor with
      | AnalogState_Inactive => analog_activate channel_id
      | AnalogState_Active => analog_deactivate channel_id ;; select_next_sensor
      | AnalogState_Disabled => ret tt
      end.

(** The array [data] has no initialiser. *)
Definition analog_save (channel_id : Z) (stream : CAN_Node_EEStream) : prog node CAN_Node_EEStream :=
  let! sensor := idx f_analog_sensors channel_id in
  let! data := io (uninit 5) in
  let! data := set_index data 0 (an_config sensor) in
  let! data := write_uint16 data 0 (range_min sensor) in
  let! data := write_uint16 data 0 (range_max sensor) in
  for_acc (range 5) stream (fun i stream =>
    let! b := at_index data i in
    io (CAN_Node_EEStream_write_byte stream b)).

Definition analog_load (channel_id : Z) (stream : CAN_Node_EEStream) : prog node CAN_Node_EEStream :=
  let! data := io (uninit 5) in
  let! (data, stream) := for_acc (range 5) (data, stream) (fun i acc =>
    let '(data, stream) := acc in
    let! (b, stream) := io (CAN_Node_EEStream_read_byte stream) in
    let! data := set_index data i b in
    ret (data, stream)) in
  let! config := at_index data 0 in
  idx_upd f_analog_sensors channel_id (an_set_config config) ;;
  let! v := read_uint16 data 1 in
  idx_upd f_analog_sensors channel_id (an_set_range_min v) ;;
  let! v := read_uint16 data 3 in
  idx_upd f_analog_sensors channel_id (an_set_range_max v) ;;
  ret stream.

Definition mod_analog : module_ops := {|
  on_init := analog_init;
  on_deinit := analog_deinit;
  on_timer := Some analog_timer;
  on_save := Some analog_save;
  on_load := Some analog_load
|}.
End Operations.

(** ** Counting the enabled sensors *)

Lemma count_on_insert l k a x :
  l !! k = Some a -> count_on (<[k := x]> l) = count_on l - Z.b2z (sensor_on a) + Z.b2z (sensor_on x).
Proof.
  revert k. induction l as [|y l IH]; intros k Hk; [done|].
  assert (forall z m, count_on (z :: m) = Z.b2z (sensor_on z) + count_on m) as Hc.
  { intros z m. unfold count_on. destruct (sensor_on z) eqn:Hz.
    - rewrite filter_cons_True by (by rewrite Hz). cbn [length Z.b2z]. lia.
    - rewrite filter_cons_False by (rewrite Hz; by intros []). cbn [Z.b2z]. lia. }
  destruct k as [|k]; simpl in Hk.
  - injection Hk as ->. change (<[0%nat := x]> (a :: l)) with (x :: l). rewrite !Hc. lia.
  - change (<[S k := x]> (y :: l)) with (y :: <[k := x]> l). rewrite !Hc, IH by done. lia.
Qed.

Lemma count_on_bounds l : 0 <= count_on l <= Z.of_nat (length l).
Proof. unfold count_on. pose proof (length_filter (fun a => Is_true (sensor_on a)) l). lia. Qed.

Lemma count_on_pos l k a : l !! k = Some a -> sensor_on a = true -> 0 < count_on l.
Proof.
  intros Hk Ha. pose proof (count_on_insert l k a (an_set_state AnalogState_Disabled a) Hk) as H.
  rewrite Ha in H. change (sensor_on (an_set_state AnalogState_Disabled a)) with false in H. cbn [Z.b2z] in H.
  pose proof (count_on_bounds (<[k := an_set_state AnalogState_Disabled a]> l)). lia.
Qed.

(** ** Rules *)

Section Rules.
Context {HW : Hardware} {E : fault -> node -> Prop}.

Definition an_at (ch : Z) (a : AnalogSensor) (v : analog_vars) : Prop := analog_sensors v !! Z.to_nat ch = Some a.

(** The node with the machine [h] and the analog variables [v]. *)
Definition with_analog (v : analog_vars) (h : machine) (s : node) : node := set_mach h (set_analog v s).

Definition put_sensor (ch : Z) (a : AnalogSensor) (v : analog_vars) : analog_vars :=
  AnalogVars (<[Z.to_nat ch := a]> (analog_sensors v)) (sensor_count v) (selected_sensor v).
Definition put_count (c : Z) (v : analog_vars) : analog_vars := AnalogVars (analog_sensors v) c (selected_sensor v).
Definition put_selected (c : Z) (v : analog_vars) : analog_vars := AnalogVars (analog_sensors v) (sensor_count v) c.

Lemma with_analog_id s : with_analog (n_analog s) (mach s) s = s.
Proof. by destruct s. Qed.

Lemma an_at_put ch a0 a v : an_at ch a0 v -> an_at ch a (put_sensor ch a v).
Proof. intros H. apply list_lookup_insert_eq. by eapply lookup_lt_Some. Qed.

Lemma put_put_sensor ch a1 a2 v : put_sensor ch a2 (put_sensor ch a1 v) = put_sensor ch a2 v.
Proof. unfold put_sensor. simpl. by rewrite list_insert_insert_eq. Qed.

Lemma an_idx_wp ch a v h (Q : AnalogSensor -> node -> Prop) s :
  0 <= ch -> an_at ch a v -> Q a (with_analog v h s) -> wp E (idx f_analog_sensors ch) Q (with_analog v h s).
Proof. intros Hch Ha HQ. eapply wp_eq; [by apply (idx_ok f_analog_sensors ch a)|done]. Qed.

Lemma an_upd_wp ch a v g h (Q : unit -> node -> Prop) s :
  0 <= ch -> an_at ch a v -> Q tt (with_analog (put_sensor ch (g a) v) h s) ->
  wp E (idx_upd f_analog_sensors ch g) Q (with_analog v h s).
Proof. intros Hch Ha HQ. eapply wp_eq; [by apply (idx_upd_ok f_analog_sensors ch g a)|done]. Qed.

Lemma adc_io {A} (m : prog machine A) v h (Q : A -> node -> Prop) s :
  touches adc2_reg m -> keeps off_tape (mach s) h ->
  (forall a h', keeps off_tape (mach s) h' -> Q a (with_analog v h' s)) -> wp E (io m) Q (with_analog v h s).
Proof.
  intros Hm Hk HQ. eapply wp_io_off; [exact Hm|apply adc2_off_tape|]. intros a h' Hk'. apply HQ. by eapply keeps_trans.
Qed.

Lemma analog_activate_wp ch a v h (Q : unit -> node -> Prop) s :
  0 <= ch -> an_at ch a v -> keeps off_tape (mach s) h ->
  (forall h', keeps off_tape (mach s) h' ->
     Q tt (with_analog (put_sensor ch (an_set_state AnalogState_Active a) v) h' s)) ->
  wp E (analog_activate ch) Q (with_analog v h s).
Proof.
  intros Hch Ha Hk HQ. unfold analog_activate. apply wp_bind. eapply an_idx_wp; [done|done|].
  apply wp_bind, adc_io; [apply touches_ADC2_ConversionConfig|done|]. intros [] h1 K1.
  apply wp_bind, adc_io; [apply touches_ADC2_StartConversion|done|]. intros [] h2 K2.
  eapply an_upd_wp; [done|done|]. by apply HQ.
Qed.

Lemma adc_value_wp (Q : Z -> machine -> Prop) (E' : fault -> machine -> Prop) s :
  (forall v s', is_u16 v -> keeps off_tape s s' -> Q v s') -> wp E' ADC2_GetConversionValue Q s.
Proof.
  intros HQ. assert (wp total ADC2_GetConversionValue (fun v s' => is_u16 v /\ keeps off_tape s s') s) as H.
  { pose proof (touches_ADC2_GetConversionValue s) as Ht. revert Ht.
    unfold wp, ADC2_GetConversionValue, bind, load, ret. destruct (hw_load ADC2_CR2 _) as [cr2 p].
    destruct (negb _); repeat (destruct (hw_load _ _) as [? ?]); intros Ht;
      (split; [apply u16_range|eapply keeps_weaken; [exact Ht|apply adc2_off_tape]]). }
  destruct (wp_total_inv _ _ _ H) as (v & s' & Heq & Hv & Hk). eapply wp_eq; [exact Heq|by apply HQ].
Qed.

Lemma analog_deactivate_wp ch a v h (Q : unit -> node -> Prop) s :
  0 <= ch -> an_at ch a v -> keeps off_tape (mach s) h ->
  (forall h' x, is_u16 x -> keeps off_tape (mach s) h' ->
     Q tt (with_analog (put_sensor ch (an_set_state AnalogState_Inactive (an_set_value x a)) v) h' s)) ->
  wp E (analog_deactivate ch) Q (with_analog v h s).
Proof.
  intros Hch Ha Hk HQ. unfold analog_deactivate. apply wp_bind, wp_io, adc_value_wp. intros x h1 Hx K1.
  apply wp_bind. eapply (an_upd_wp ch a v _ h1); [done|done|].
  assert (keeps off_tape (mach s) h1) as K1' by by eapply keeps_trans.
  apply wp_bind, adc_io; [apply touches_ADC2_ClearFlag|done|]. intros [] h2 K2.
  eapply an_upd_wp; [done|by eapply an_at_put|]. rewrite put_put_sensor. by apply HQ.
Qed.

(** The sensor [select_next_sensor] looks at. *)
Definition next_sensor (selected : Z) : Z := if selected =? 3 then 0 else selected + 1.

(** With the selected sensor in range, the selection moves to the next channel if
    its sensor is enabled and otherwise never ends, whatever the fuel. *)
Lemma select_next_sensor_eq fuel v h s :
  is_channel (selected_sensor v) -> length (analog_sensors v) = 4%nat ->
  select_next_sensor_fuel (S fuel) (with_analog v h s) =
    if enabled_at (analog_sensors v) (next_sensor (selected_sensor v))
    then Ok tt (with_analog (put_selected (next_sensor (selected_sensor v)) v) h s)
    else Fault Hang (with_analog (put_selected (next_sensor (selected_sensor v)) v) h s).
Proof.
  intros Hsel Hlen. unfold is_channel, CAN_Node_ChannelCount in Hsel.
  set (nx := next_sensor (selected_sensor v)).
  assert (0 <= nx < 4 /\ nx <> selected_sensor v) as [Hnx Hne].
  { unfold nx, next_sensor. destruct (Z.eqb_spec (selected_sensor v) 3); lia. }
  destruct (lookup_lt_is_Some_2 (analog_sensors v) (Z.to_nat nx)) as [x Hx]; [lia|].
  assert (enabled_at (analog_sensors v) nx = sensor_on x) as -> by (unfold enabled_at; by rewrite Hx).
  set (here := with_analog (put_selected nx v) h s).
  assert (forall m r, r <> selected_sensor v -> (if 4 <=? r then 0 else r) = nx ->
            select_loop (S m) (selected_sensor v) (with_analog (put_selected r v) h s) =
            if sensor_on x then Ok tt here else select_loop m (selected_sensor v) here) as Hround.
  { intros m r Hr Hrn. cbn [select_loop]. unfold bind at 1.
    cbn [rd fget f_selected_sensor with_analog set_mach set_analog n_analog selected_sensor put_selected].
    rewrite (proj2 (Z.eqb_neq _ _) Hr). unfold CAN_Node_ChannelCount.
    assert (when (4 <=? r) (wr f_selected_sensor 0) (with_analog (put_selected r v) h s) = Ok tt here) as Hw.
    { unfold here. rewrite <- Hrn. by destruct (4 <=? r). }
    unfold bind at 1. rewrite Hw. unfold bind at 1.
    cbn [rd fget f_selected_sensor here with_analog set_mach set_analog n_analog selected_sensor put_selected].
    unfold bind at 1. rewrite (idx_ok f_analog_sensors nx x) by (done || lia).
    unfold sensor_on. by destruct (an_state x). }
  assert (forall m, sensor_on x = false -> select_loop m (selected_sensor v) here = Fault Hang here) as Hloop.
  { intros m Hoff. induction m as [|m IH]; [done|]. pose proof (Hround m nx Hne) as H. fold here in H.
    rewrite H, Hoff; [done|]. by rewrite (proj2 (Z.leb_gt 4 nx)) by lia. }
  transitivity (select_loop (S fuel) (selected_sensor v) (with_analog (put_selected (selected_sensor v + 1) v) h s)).
  { unfold select_next_sensor_fuel, bind, rd, wr.
    cbn [fget fset f_selected_sensor with_analog set_mach set_analog n_analog selected_sensor].
    by rewrite u8_small by (unfold is_u8; lia). }
  rewrite Hround; [|lia|].
  - destruct (sensor_on x) eqn:Hon; [done|by apply Hloop].
  - unfold nx, next_sensor. destruct (Z.eqb_spec (selected_sensor v) 3) as [->|]; [done|].
    by rewrite (proj2 (Z.leb_gt 4 _)) by lia.
Qed.

Lemma select_next_sensor_wp v h (Q : unit -> node -> Prop) s :
  is_channel (selected_sensor v) -> length (analog_sensors v) = 4%nat ->
  (enabled_at (analog_sensors v) (next_sensor (selected_sensor v)) = true ->
     Q tt (with_analog (put_selected (next_sensor (selected_sensor v)) v) h s)) ->
  (enabled_at (analog_sensors v) (next_sensor (selected_sensor v)) = false ->
     E Hang (with_analog (put_selected (next_sensor (selected_sensor v)) v) h s)) ->
  wp E select_next_sensor Q (with_analog v h s).
Proof.
  intros Hs Hl HQ HE. unfold wp, select_next_sensor, select_fuel. rewrite select_next_sensor_eq by done.
  destruct (enabled_at _ _); auto.
Qed.

Lemma next_sensor_channel c : is_channel c -> is_channel (next_sensor c).
Proof. unfold is_channel, CAN_Node_ChannelCount, next_sensor. destruct (Z.eqb_spec c 3); lia. Qed.
End Rules.

(** ** The invariant *)

Section Invariant.
Context {HW : Hardware}.

Lemma an_at_inv ch v : analog_ok v -> is_channel ch -> exists a, an_at ch a v /\ sensor_ok (Z.to_nat ch) a.
Proof. intros (HP & _) Hch. by apply per_channel_lookup. Qed.

Lemma enabled_an_at ch a v : an_at ch a v -> enabled_at (analog_sensors v) ch = sensor_on a.
Proof. intros Ha. unfold enabled_at. by rewrite Ha. Qed.

Lemma enabled_put ch c a0 a v :
  an_at ch a0 v -> is_channel ch -> is_channel c ->
  enabled_at (analog_sensors (put_sensor ch a v)) c = if c =? ch then sensor_on a else enabled_at (analog_sensors v) c.
Proof.
  intros Ha Hch Hc. destruct (Z.eqb_spec c ch) as [->|Hne].
  - by apply enabled_an_at, (an_at_put ch a0).
  - unfold enabled_at. cbn [put_sensor analog_sensors]. by rewrite list_lookup_insert_ne by by apply channel_nat_ne.
Qed.

Lemma put_sensor_ok ch a0 a v :
  analog_ok v -> is_channel ch -> an_at ch a0 v -> sensor_ok (Z.to_nat ch) a -> sensor_on a = sensor_on a0 ->
  analog_ok (put_sensor ch a v).
Proof.
  intros (HP & Hc & Hu & Hsel) Hch Ha Hok Hon. split; [by apply per_channel_insert|]. split.
  - cbn [put_sensor sensor_count analog_sensors]. rewrite (count_on_insert _ _ a0) by done. rewrite Hon. lia.
  - split; [done|]. intros Hpos. destruct (Hsel Hpos) as [Hs He]. split; [done|].
    change (selected_sensor (put_sensor ch a v)) with (selected_sensor v).
    rewrite (enabled_put ch _ a0) by done. destruct (Z.eqb_spec (selected_sensor v) ch) as [Heq|]; [|done].
    rewrite Hon. rewrite Heq in He. by rewrite (enabled_an_at ch a0) in He.
Qed.

(** Enabling a disabled sensor. *)
Lemma enable_ok ch a v :
  analog_ok v -> is_channel ch -> an_at ch a v -> sensor_ok (Z.to_nat ch) a -> sensor_on a = false ->
  analog_ok (put_sensor ch (an_set_state AnalogState_Inactive a)
    (put_count (sensor_count v + 1) (put_selected (if sensor_count v =? 0 then ch else selected_sensor v) v))).
Proof.
  intros (HP & Hc & Hu & Hsel) Hch Ha Hok Hoff. set (a' := an_set_state AnalogState_Inactive a).
  assert (0 <= sensor_count v) by (rewrite Hc; apply count_on_bounds).
  split; [by apply per_channel_insert|]. split; [|split].
  - cbn [put_sensor put_count put_selected sensor_count analog_sensors]. rewrite (count_on_insert _ _ a), Hoff by done.
    change (sensor_on a') with true. rewrite Hc. cbn [Z.b2z]. lia.
  - cbn [put_sensor put_count put_selected selected_sensor]. destruct (sensor_count v =? 0); [|done].
    unfold is_channel, CAN_Node_ChannelCount, is_u8 in *. lia.
  - intros _. cbn [put_sensor put_count put_selected selected_sensor].
    assert (forall c, is_channel c -> enabled_at (<[Z.to_nat ch := a']> (analog_sensors v)) c =
              if c =? ch then true else enabled_at (analog_sensors v) c) as Hen by (intros c; by apply (enabled_put ch c a a' v)).
    destruct (Z.eqb_spec (sensor_count v) 0) as [Hz|Hnz].
    + split; [done|]. rewrite Hen, Z.eqb_refl by done. done.
    + destruct Hsel as [Hs He]; [lia|]. split; [done|]. rewrite Hen by done. by destruct (_ =? ch).
Qed.

(** Disabling an enabled sensor, the selection being moved first when it was on it
    and others remain. *)
Lemma disable_ok ch a v sel :
  analog_ok v -> is_channel ch -> an_at ch a v -> sensor_ok (Z.to_nat ch) a -> sensor_on a = true ->
  let l := <[Z.to_nat ch := an_set_state AnalogState_Disabled a]> (analog_sensors v) in
  is_u8 sel ->
  (sel = selected_sensor v /\ (ch <> sel \/ sensor_count v = 1) \/ is_channel sel /\ enabled_at l sel = true) ->
  analog_ok (AnalogVars l (sensor_count v - 1) sel).
Proof.
  intros (HP & Hc & Hu & Hsel) Hch Ha Hok Hon l Hsel8 Hcase.
  split; [by apply per_channel_insert|]. split; [|split; [done|]].
  - cbn [sensor_count analog_sensors]. unfold l. rewrite (count_on_insert _ _ a), Hon by done.
    change (sensor_on (an_set_state AnalogState_Disabled a)) with false. rewrite Hc. cbn [Z.b2z]. lia.
  - cbn [sensor_count selected_sensor analog_sensors]. intros Hpos.
    destruct Hcase as [[-> Hne] | Hcase]; [|done]. destruct Hsel as [Hs He]; [lia|]. split; [done|].
    unfold l. pose proof (enabled_put ch (selected_sensor v) a (an_set_state AnalogState_Disabled a) v Ha Hch Hs) as Hen.
    cbn [put_sensor analog_sensors] in Hen. rewrite Hen.
    destruct (Z.eqb_spec (selected_sensor v) ch); [lia|done].
Qed.

Lemma with_analog_step ch v h s :
  is_channel ch -> chan_inv s -> analog_ok v ->
  (forall c, is_channel c -> c <> ch -> analog_sensors v !! Z.to_nat c = analog_sensors (n_analog s) !! Z.to_nat c) ->
  keeps off_tape (mach s) h -> chan_step ch s (with_analog v h s).
Proof.
  intros Hch (HL & HS & HB & _) Hv Heq Hk. split; [done|]. split; [done|]. intros c Hc Hne.
  unfold enabled, enabled_at, setting_of. cbn [with_analog set_mach set_analog n_analog switches buttons].
  by rewrite Heq.
Qed.

Lemma put_sensor_other ch c a v : is_channel ch -> is_channel c -> c <> ch ->
  analog_sensors (put_sensor ch a v) !! Z.to_nat c = analog_sensors v !! Z.to_nat c.
Proof. intros. cbn [put_sensor analog_sensors]. by rewrite list_lookup_insert_ne by by apply channel_nat_ne. Qed.

Lemma with_analog_setting ch a v h s :
  an_at ch a v -> setting_of ch (with_analog v h s) =
    Setting (s_switch (setting_of ch s)) (s_button (setting_of ch s)) (an_config a, range_min a, range_max a).
Proof. intros Ha. unfold setting_of. cbn [with_analog set_mach set_analog n_analog switches buttons]. by rewrite Ha. Qed.

Lemma with_analog_same ch a0 a v h s :
  an_at ch a0 (n_analog s) -> an_at ch a v ->
  an_config a = an_config a0 -> range_min a = range_min a0 -> range_max a = range_max a0 ->
  setting_of ch (with_analog v h s) = setting_of ch s.
Proof.
  intros Ha0 Ha Hc Hm HM. rewrite (with_analog_setting ch a) by done. unfold setting_of. cbn [s_switch s_button].
  unfold an_at in Ha0. rewrite Ha0. simpl. congruence.
Qed.
End Invariant.

(** ** The operations as steps *)

Section Steps.
Context {HW : Hardware} {E : fault -> node -> Prop}.

Definition inactive (a : AnalogSensor) : AnalogSensor := an_set_state AnalogState_Inactive a.

Lemma analog_init_wp ch a (Q : unit -> node -> Prop) s :
  is_channel ch -> chan_inv s -> an_at ch a (n_analog s) -> sensor_ok (Z.to_nat ch) a -> sensor_on a = false ->
  (forall v h, analog_ok v -> an_at ch (inactive a) v -> keeps off_tape (mach s) h ->
     (forall c, is_channel c -> c <> ch -> analog_sensors v !! Z.to_nat c = analog_sensors (n_analog s) !! Z.to_nat c) ->
     Q tt (with_analog v h s)) ->
  wp E (analog_init ch) Q s.
Proof.
  intros Hch (_ & _ & _ & Hv) Ha Hok Hoff HQ. pose proof (enable_ok ch a _ Hv Hch Ha Hok Hoff) as Hen.
  set (v := n_analog s) in *. rewrite <- (with_analog_id s). fold v. unfold analog_init.
  assert (0 <= ch) as Hch0 by apply Hch. apply wp_bind. eapply an_idx_wp; [done|done|].
  destruct Hok as (Hg & _). rewrite Hg. assert (GPIOB ∈ gpio_ports) as Hport by (unfold gpio_ports; set_solver).
  apply wp_bind. eapply wp_io_off; [by apply touches_GPIO_Init|by intros d; apply gpio_off_tape|]. intros [] h1 K1.
  change (keeps off_tape (mach s) h1) in K1. change (set_mach h1 (with_analog v (mach s) s)) with (with_analog v h1 s).
  apply wp_bind, wp_rd. cbn [fget f_sensor_count with_analog set_mach set_analog n_analog].
  set (v1 := put_selected (if sensor_count v =? 0 then ch else selected_sensor v) v) in *.
  apply wp_bind.
  assert (forall h, keeps off_tape (mach s) h ->
    wp E (let! count := rd f_sensor_count in wr f_sensor_count (u8 (count + 1)) ;;
          idx_upd f_analog_sensors ch (an_set_state AnalogState_Inactive)) Q (with_analog v1 h s)) as Htail.
  { intros h Hk. apply wp_bind, wp_rd, wp_bind, wp_wr.
    cbn [fget fset f_sensor_count with_analog set_mach set_analog n_analog].
    change (sensor_count v1) with (sensor_count v).
    rewrite u8_small by (destruct Hv as ([Hlen _] & -> & _); pose proof (count_on_bounds (analog_sensors v)); unfold is_u8; lia).
    eapply (an_upd_wp ch a (put_count (sensor_count v + 1) v1) _ h); [done|exact Ha|].
    apply HQ; [exact Hen|by apply (an_at_put ch a)|done|]. intros c Hc Hne. by rewrite put_sensor_other. }
  apply wp_when; intros Hz; unfold v1 in Htail; rewrite Hz in Htail.
  - apply wp_bind, adc_io; [apply touches_ADC2_Init|done|]. intros [] h2 K2.
    apply wp_bind, adc_io; [apply touches_ADC2_Cmd|done|]. intros [] h3 K3. by apply wp_wr, Htail.
  - assert (put_selected (selected_sensor v) v = v) as Hid by by destruct v. rewrite Hid in Htail. by apply Htail.
Qed.

Lemma analog_deinit_wp ch a (Q : unit -> node -> Prop) s :
  hang_ok E s -> is_channel ch -> chan_inv s -> an_at ch a (n_analog s) -> sensor_ok (Z.to_nat ch) a -> sensor_on a = true ->
  (forall v h, analog_ok v -> an_at ch (an_set_state AnalogState_Disabled a) v -> keeps off_tape (mach s) h ->
     (forall c, is_channel c -> c <> ch -> analog_sensors v !! Z.to_nat c = analog_sensors (n_analog s) !! Z.to_nat c) ->
     Q tt (with_analog v h s)) ->
  wp E (analog_deinit ch) Q s.
Proof.
  intros HE Hch (_ & _ & _ & Hv) Ha Hok Hon HQ. set (v := n_analog s) in *. rewrite <- (with_analog_id s). fold v.
  assert (0 <= ch) as Hch0 by apply Hch. pose proof Hv as ([Hlen _] & Hc & Hu & Hsel).
  pose proof (count_on_bounds (analog_sensors v)) as Hb. pose proof (count_on_pos _ _ _ Ha Hon) as Hpos.
  unfold analog_deinit. apply wp_bind. eapply an_upd_wp; [done|exact Ha|].
  set (off := an_set_state AnalogState_Disabled a). set (v1 := put_sensor ch off v).
  apply wp_bind, wp_rd, wp_bind, wp_rd. cbn [fget f_selected_sensor f_sensor_count with_analog set_mach set_analog n_analog].
  change (selected_sensor v1) with (selected_sensor v). change (sensor_count v1) with (sensor_count v).
  apply wp_bind.
  assert (forall sel, is_u8 sel ->
    (sel = selected_sensor v /\ (ch <> sel \/ sensor_count v = 1) \/
     is_channel sel /\ enabled_at (analog_sensors v1) sel = true) ->
    wp E (let! count := rd f_sensor_count in let count := u8 (count - 1) in wr f_sensor_count count ;;
          when (count =? 0) (io (ADC2_Cmd DISABLE) ;; io ADC2_DeInit)) Q (with_analog (put_selected sel v1) (mach s) s)) as Htail.
  { intros sel Hsel8 Hcase. apply wp_bind, wp_rd, wp_bind, wp_wr.
    cbn [fget fset f_sensor_count with_analog set_mach set_analog n_analog].
    change (sensor_count (put_selected sel v1)) with (sensor_count v). rewrite u8_small by (unfold is_u8; lia).
    change (wp E (when (sensor_count v - 1 =? 0) (io (ADC2_Cmd DISABLE) ;; io ADC2_DeInit)) Q
              (with_analog (AnalogVars (analog_sensors v1) (sensor_count v - 1) sel) (mach s) s)).
    assert (analog_ok (AnalogVars (analog_sensors v1) (sensor_count v - 1) sel)) as Hfin by by apply disable_ok.
    assert (forall h, keeps off_tape (mach s) h ->
              Q tt (with_analog (AnalogVars (analog_sensors v1) (sensor_count v - 1) sel) h s)) as HQ'.
    { intros h Hk. apply HQ; [done|by apply (an_at_put ch a)|done|]. intros c Hc' Hne. by apply put_sensor_other. }
    apply wp_when; intros _; [|apply HQ', keeps_refl].
    apply wp_bind, adc_io; [apply touches_ADC2_Cmd|apply keeps_refl|]. intros [] h1 K1.
    apply adc_io; [apply touches_ADC2_DeInit|done|]. intros [] h2 K2. by apply HQ'. }
  apply wp_when; intros Hsw.
  - apply andb_true_iff in Hsw as [Heq Hgt]. apply Z.eqb_eq in Heq. apply Z.ltb_lt in Hgt.
    assert (is_channel (selected_sensor v)) as Hselc by (apply Hsel; lia).
    apply select_next_sensor_wp; [done|cbn [v1 put_sensor analog_sensors]; by rewrite length_insert| |by intros; apply HE].
    change (selected_sensor v1) with (selected_sensor v). intros Hen.
    pose proof (next_sensor_channel _ Hselc) as Hnx.
    apply Htail; [unfold is_channel, CAN_Node_ChannelCount, is_u8 in *; lia|by right].
  - assert (put_selected (selected_sensor v) v1 = v1) as Hid by done. rewrite <- Hid. apply Htail; [done|].
    left. split; [done|]. apply andb_false_iff in Hsw as [Hsw|Hsw]; [left; by apply Z.eqb_neq|right].
    apply Z.ltb_ge in Hsw. lia.
Qed.

(** What a timer event does to the sensor of the channel. *)
Lemma analog_timer_wp ch a (Q : unit -> node -> Prop) s :
  hang_ok E s -> is_channel ch -> chan_inv s -> an_at ch a (n_analog s) -> sensor_ok (Z.to_nat ch) a -> sensor_on a = true ->
  (forall v h a', analog_ok v -> an_at ch a' v -> sensor_on a' = true ->
     an_config a' = an_config a -> range_min a' = range_min a -> range_max a' = range_max a ->
     (sensor_count (n_analog s) = 1 -> an_value a' = an_value a) ->
     sensor_count v = sensor_count (n_analog s) -> keeps off_tape (mach s) h ->
     (forall c, is_channel c -> c <> ch -> analog_sensors v !! Z.to_nat c = analog_sensors (n_analog s) !! Z.to_nat c) ->
     Q tt (with_analog v h s)) ->
  wp E (analog_timer ch) Q s.
Proof.
  intros HE Hch (_ & _ & _ & Hv) Ha Hok Hon HQ. set (v := n_analog s) in *. rewrite <- (with_analog_id s). fold v.
  assert (0 <= ch) as Hch0 by apply Hch. unfold analog_timer.
  apply wp_bind, wp_rd. cbn [fget f_selected_sensor with_analog set_mach set_analog n_analog].
  apply wp_if; intros Hsel; [apply wp_ret, (HQ v (mach s) a); try done; apply keeps_refl|].
  apply negb_false_iff, Z.eqb_eq in Hsel.
  apply wp_bind, wp_rd. cbn [fget f_sensor_count with_analog set_mach set_analog n_analog].
  apply wp_bind. eapply an_idx_wp; [done|exact Ha|].
  assert (wp E (analog_activate ch) Q (with_analog v (mach s) s)) as Hact.
  { eapply analog_activate_wp; [done|exact Ha|apply keeps_refl|]. intros h K.
    apply (HQ _ h (an_set_state AnalogState_Active a)); try done; [by eapply put_sensor_ok|by apply (an_at_put ch a)|].
    intros c Hc Hne. by apply put_sensor_other. }
  apply wp_if; intros H1; [exact Hact|].
  destruct (an_state a) eqn:Hst; [|exact Hact|].
  { unfold sensor_on in Hon. rewrite Hst in Hon. done. }
  rewrite bool_decide_eq_false_2 in H1 by done. rewrite andb_true_r in H1. apply Z.eqb_neq in H1.
  apply wp_bind. eapply analog_deactivate_wp; [done|exact Ha|apply keeps_refl|]. intros h x Hx K.
  set (a' := an_set_state _ _). set (v1 := put_sensor ch a' v).
  assert (sensor_on a' = true) as Hon' by done.
  assert (analog_ok v1) as Hv1.
  { eapply put_sensor_ok; [done|done|exact Ha| |by rewrite Hon'].
    destruct Hok as (? & ? & ? & ? & ? & ? & ?). by split_and!. }
  apply select_next_sensor_wp; [change (is_channel (selected_sensor v)); by rewrite <- Hsel|apply Hv1| |by intros; apply HE].
  change (selected_sensor v1) with (selected_sensor v). rewrite <- Hsel. intros Hen.
  apply (HQ _ h a'); try done; [|by apply (an_at_put ch a)|].
  - destruct Hv1 as (H & ? & _). split; [done|]. split; [done|]. cbn [put_selected selected_sensor].
    pose proof (next_sensor_channel ch Hch) as Hn. split; [unfold is_channel, CAN_Node_ChannelCount, is_u8 in *; lia|done].
  - intros c Hc Hne. by apply put_sensor_other.
Qed.
End Steps.

(** ** Saving and loading *)

Section SaveLoad.
Context {HW : Hardware} {FL : FlashLaws HW} {E : fault -> node -> Prop}.

Lemma uninit_bytes n (Q : list Z -> node -> Prop) s :
  (forall l, length l = n -> Forall is_u8 l -> Q l s) -> wp E (io (uninit n)) Q s.
Proof.
  intros HQ. apply wp_io. unfold wp, uninit.
  assert (set_mach (mach s) s = s) as -> by by destruct s. apply HQ; [by rewrite length_fmap, length_seq|].
  apply Forall_fmap, Forall_true. intros k. apply u8_range.
Qed.

Lemma write_uint16_wp r k v (Q : list Z -> node -> Prop) s :
  0 <= k -> k + 1 < Z.of_nat (length r) -> is_u16 v ->
  Q (<[Z.to_nat (k + 1) := Z.land v 0xff]> (<[Z.to_nat k := u8 (Z.shiftr v 8)]> r)) s ->
  wp E (write_uint16 r k v) Q s.
Proof.
  intros Hk Hlen Hv HQ. destruct (word_hi_lo v Hv) as (_ & Hlo & _). unfold write_uint16.
  apply wp_bind, wp_set_index; [lia|]. apply wp_set_index; [rewrite length_insert; lia|]. by rewrite (u8_small (Z.land v 0xff)).
Qed.

Lemma read_uint16_wp r k hi lo (Q : Z -> node -> Prop) s :
  0 <= k -> r !! Z.to_nat k = Some hi -> r !! Z.to_nat (k + 1) = Some lo -> is_u8 hi -> is_u8 lo ->
  Q (256 * hi + lo) s -> wp E (read_uint16 r k) Q s.
Proof.
  intros Hk H1 H2 Hhi Hlo HQ. unfold read_uint16. apply wp_bind. eapply wp_at_index; [done|exact H1|].
  apply wp_bind. eapply wp_at_index; [lia|exact H2|]. apply wp_ret. by rewrite hi_lo_word.
Qed.

(** The bytes a save writes: the upper limit over the rest, then what was on the stack. *)
Definition analog_payload (a : AnalogSensor) (stack : list Z) : list Z :=
  u8 (Z.shiftr (range_max a) 8) :: Z.land (range_max a) 0xff :: stack.

Lemma analog_save_wp ch a st l (Q : CAN_Node_EEStream -> node -> Prop) s :
  is_channel ch -> an_at ch a (n_analog s) -> sensor_ok (Z.to_nat ch) a ->
  written st l (mach s) -> (length l + 5 <= tape_size)%nat ->
  (forall st' h stack, length stack = 3%nat -> Forall is_u8 stack ->
     written st' (l ++ analog_payload a stack) h -> keeps eeprom (mach s) h -> Q st' (set_mach h s)) ->
  wp E (analog_save ch st) Q s.
Proof using FL.
  intros Hch Ha (_ & _ & _ & _ & Hmin & Hmax & _) Hst Hl HQ. assert (0 <= ch) as Hch0 by apply Hch.
  unfold analog_save. apply wp_bind. rewrite <- (with_analog_id s).
  eapply an_idx_wp; [done|exact Ha|]. rewrite (with_analog_id s).
  apply wp_bind, uninit_bytes. intros data Hd Hu.
  destruct data as [|d0 [|d1 [|d2 [|d3 [|d4 [|]]]]]]; try done.
  do 2 (apply Forall_cons_1 in Hu as [_ Hu]).
  apply wp_bind, wp_set_index; [simpl; lia|].
  apply wp_bind, write_uint16_wp; [lia|simpl; lia|done|].
  apply wp_bind, write_uint16_wp; [lia|simpl; lia|done|].
  destruct (word_hi_lo _ Hmax) as (Hhi & Hlo & _).
  apply (write_all_wp (fun i => at_index _ i) (analog_payload a [d2; d3; d4]) st l); [done|done| | |].
  - constructor; [exact Hhi|constructor; [exact Hlo|exact Hu]].
  - intros k b h Hb. by rewrite (at_index_ok _ _ b) by (rewrite ?Nat2Z.id; done || lia).
  - intros st' h W K. apply (HQ st' h [d2; d3; d4]); [done|exact Hu|exact W|exact K].
Qed.

(** The sensor restored from five bytes. *)
Definition analog_loaded (b0 b1 b2 b3 b4 : Z) (a : AnalogSensor) : AnalogSensor :=
  an_set_range_max (256 * b3 + b4) (an_set_range_min (256 * b1 + b2) (an_set_config b0 a)).

Lemma analog_load_wp I ch a st (Q : CAN_Node_EEStream -> node -> Prop) s :
  is_channel ch -> an_at ch a (n_analog s) -> reads 5 I -> I [] st (mach s) ->
  (forall b0 b1 b2 b3 b4 st' h, Forall is_u8 [b0; b1; b2; b3; b4] -> I [b0; b1; b2; b3; b4] st' h ->
     Q st' (with_analog (put_sensor ch (analog_loaded b0 b1 b2 b3 b4 a) (n_analog s)) h s)) ->
  wp E (analog_load ch st) Q s.
Proof.
  intros Hch Ha HR HI HQ. assert (0 <= ch) as Hch0 by apply Hch.
  unfold analog_load. apply wp_bind, uninit_bytes. intros data Hd _. apply wp_bind.
  change 5 with (Z.of_nat 5). rewrite <- Hd in HR |- *. apply (read_all_wp I); [done|done|].
  intros bytes st' h Hlen Hu HI'. rewrite Hd in Hlen.
  destruct bytes as [|b0 [|b1 [|b2 [|b3 [|b4 [|]]]]]]; try done. pose proof Hu as Hu0.
  apply Forall_cons_1 in Hu as [H0 Hu]. apply Forall_cons_1 in Hu as [H1 Hu]. apply Forall_cons_1 in Hu as [H2 Hu].
  apply Forall_cons_1 in Hu as [H3 Hu]. apply Forall_cons_1 in Hu as [H4 _].
  change (set_mach h s) with (with_analog (n_analog s) h s).
  apply wp_bind, (wp_at_index _ _ b0); [done|done|].
  apply wp_bind. eapply an_upd_wp; [done|exact Ha|].
  apply wp_bind. eapply (read_uint16_wp _ 1 b1 b2); [done..|].
  apply wp_bind. eapply an_upd_wp; [done|by eapply an_at_put|]. rewrite put_put_sensor.
  apply wp_bind. eapply (read_uint16_wp _ 3 b3 b4); [done..|].
  apply wp_bind. eapply an_upd_wp; [done|by eapply an_at_put|]. rewrite put_put_sensor.
  apply wp_ret. by apply (HQ b0 b1 b2 b3 b4 st' h).
Qed.

Lemma analog_loaded_ok k b0 b1 b2 b3 b4 a :
  sensor_ok k a -> Forall is_u8 [b0; b1; b2; b3; b4] -> sensor_ok k (analog_loaded b0 b1 b2 b3 b4 a).
Proof.
  intros (? & ? & ? & _ & _ & _ & ?) Hu. repeat (apply Forall_cons_1 in Hu as [?Hb Hu]).
  split_and!; try done; by apply hi_lo_range.
Qed.
End SaveLoad.

(** ** The promise to [module.c] *)

Section Module.
Context {HW : Hardware} {FL : FlashLaws HW}.

Lemma analog_inv_at ch s : chan_inv s -> is_channel ch ->
  exists a, an_at ch a (n_analog s) /\ sensor_ok (Z.to_nat ch) a /\ enabled ch s = sensor_on a.
Proof.
  intros (_ & _ & _ & Hv) Hch. destruct (an_at_inv ch _ Hv Hch) as (a & Ha & Hok). exists a.
  split; [done|]. split; [done|]. by apply enabled_an_at.
Qed.

Lemma analog_load_step E I ch a st (Q : CAN_Node_EEStream -> node -> Prop) s :
  is_channel ch -> chan_inv s -> an_at ch a (n_analog s) -> sensor_ok (Z.to_nat ch) a -> reads 5 I -> I [] st (mach s) ->
  (forall l st' h, I l st' h -> keeps (fun _ => False) (mach s) h) ->
  (forall st' s' b0 b1 b2 b3 b4, chan_step ch s s' -> enabled ch s' = enabled ch s -> I [b0; b1; b2; b3; b4] st' (mach s') ->
     an_at ch (analog_loaded b0 b1 b2 b3 b4 a) (n_analog s') -> Q st' s') ->
  wp E (analog_load ch st) Q s.
Proof.
  intros Hch Hs Ha Hok HR HI HK HQ. eapply analog_load_wp; [done|exact Ha|exact HR|exact HI|].
  intros b0 b1 b2 b3 b4 st' h Hu HI'. pose proof Hs as (_ & _ & _ & Hv).
  eapply HQ; [| |exact HI'|].
  - apply with_analog_step; [done|done| | |].
    + eapply put_sensor_ok; [done|done|exact Ha|by apply analog_loaded_ok|done].
    + intros c Hc Hne. by apply put_sensor_other.
    + eapply keeps_weaken; [by eapply HK|by intros ? []].
  - unfold enabled. rewrite (enabled_an_at ch a (n_analog s)) by done. transitivity (sensor_on (analog_loaded b0 b1 b2 b3 b4 a)); [by apply enabled_an_at, (an_at_put ch a)|done].
  - by apply (an_at_put ch a).
Qed.

#[local] Obligation Tactic := idtac.

(** Nothing of the settings is promised back: see [analog_settings_lost]. *)
#[export, program] Instance analog_module : ChannelModule mod_analog := {|
  uses_adc := true;
  agree x y := True;
  saved x pl := length pl = 5%nat /\ Forall is_u8 pl
|}.
Next Obligation. intros x pl [-> Hu]. split; [lia|exact Hu]. Qed.
Next Obligation.
  intros E ch Q s Hch Hs He HQ. destruct (analog_inv_at ch s Hs Hch) as (a & Ha & Hok & Hen).
  eapply analog_init_wp; [done|done|done|done|congruence|]. intros v h Hv Ha' Hk Ho.
  apply HQ; [by apply with_analog_step|by apply (enabled_an_at ch (inactive a) v)|by eapply with_analog_same].
Qed.
Next Obligation.
  intros E ch Q s HE Hch Hs He HQ. destruct (analog_inv_at ch s Hs Hch) as (a & Ha & Hok & Hen).
  eapply analog_deinit_wp; [by apply HE|done|done|done|done|congruence|]. intros v h Hv Ha' Hk Ho.
  apply HQ; [by apply with_analog_step|by apply (enabled_an_at ch _ v Ha')|by eapply with_analog_same].
Qed.
Next Obligation.
  intros E ch Q s HE Hch Hs He HQ. destruct (analog_inv_at ch s Hs Hch) as (a & Ha & Hok & Hen).
  eapply analog_timer_wp; [by apply HE|done|done|done|done|congruence|].
  intros v h a' Hv Ha' Hon Hc Hm HM _ _ Hk Ho.
  apply HQ; [by apply with_analog_step| |by eapply with_analog_same].
  rewrite He. etransitivity; [by apply (enabled_an_at ch a' v)|done].
Qed.
Next Obligation.
  intros E ch st l Q s Hch Hs Hst Hl HQ. destruct (analog_inv_at ch s Hs Hch) as (a & Ha & Hok & Hen).
  eapply analog_save_wp; [done|done|done|done|done|]. intros st' h stack Hlen Hu W K.
  destruct Hok as (_ & _ & _ & _ & _ & HM & _). destruct (word_hi_lo _ HM) as (Hhi & Hlo & _).
  eapply HQ; [|exact W|done]. split; [simpl; lia|]. constructor; [exact Hhi|constructor; [exact Hlo|exact Hu]].
Qed.
Next Obligation.
  intros E ch st Q s Hch Hs He HQ. destruct (analog_inv_at ch s Hs Hch) as (a & Ha & Hok & Hen).
  eapply (analog_load_step E (any_bytes (mach s))); [done|done|done|done|apply reads_any|apply any_bytes_start|done|].
  intros. by apply HQ.
Qed.
Next Obligation.
  intros E ch st x pl rest Q s Hch Hs He Hpl Hr HQ. destruct (analog_inv_at ch s Hs Hch) as (a & Ha & Hok & Hen).
  eapply (analog_load_step E (tape_bytes (pl ++ rest) (mach s))); [done|done|done|done| |by apply tape_bytes_start| |].
  { destruct Hpl as [Hpl _]. apply reads_tape. rewrite length_app. lia. }
  { by intros l st' h (_ & _ & ?). }
  intros st' s' b0 b1 b2 b3 b4 Hst Hen' (_ & Hr' & _) _. apply HQ; [done|done|done|].
  destruct Hpl as [Hpl _]. cbn [length] in Hr'. by rewrite <- Hpl, drop_app_length in Hr'.
Qed.

#[export] Instance analog_handlers : ChannelHandlers false analog_request analog_write.
Proof.
  split.
  - intros E ch address reply Q s _ Hch Hs Hlen Hr HQ.
    destruct (analog_inv_at ch s Hs Hch) as (a & Ha & (_ & _ & _ & Hc & Hm & HM & Hv) & _).
    assert (0 <= ch) as Hch0 by apply Hch. unfold analog_request. apply wp_bind.
    rewrite <- (with_analog_id s) at 1. eapply an_idx_wp; [done|exact Ha|]. rewrite (with_analog_id s).
    assert (chan_step ch s s) as Hst by by apply chan_step_refl.
    assert (forall r k v, length r = 8%nat -> Forall is_u8 r -> is_u16 v ->
              let r' := <[Z.to_nat (k + 1) := Z.land v 0xff]> (<[Z.to_nat k := u8 (Z.shiftr v 8)]> r) in
              length r' = 8%nat /\ Forall is_u8 r') as Hw.
    { intros r k v Hl Hu Hv'. destruct (word_hi_lo v Hv') as (Hhi & Hlo & _).
      destruct (reply_insert r (Z.to_nat k) _ Hl Hu Hhi) as [Hl' Hu']. by apply reply_insert. }
    repeat (apply wp_if; intros _); try (by apply wp_ret, HQ).
    + apply wp_bind, wp_set_index; [lia|]. destruct (reply_insert reply 0 _ Hlen Hr Hc). by apply wp_ret, HQ.
    + apply wp_bind, write_uint16_wp; [lia|lia|done|]. destruct (Hw reply 0 _ Hlen Hr Hm) as [Hl1 Hu1].
      apply wp_bind, write_uint16_wp; [lia|rewrite Hl1; lia|done|]. destruct (Hw _ 2 _ Hl1 Hu1 HM). by apply wp_ret, HQ.
    + apply wp_bind, write_uint16_wp; [lia|lia|done|]. destruct (Hw reply 0 _ Hlen Hr Hv). by apply wp_ret, HQ.
  - intros E ch address len value Q s Hch Hs Hlen Hu HQ.
    destruct (analog_inv_at ch s Hs Hch) as (a & Ha & Hok & Hen). assert (0 <= ch) as Hch0 by apply Hch.
    destruct value as [|v0 [|v1 [|v2 [|v3 value]]]]; try done.
    repeat (apply Forall_cons_1 in Hu as [?Hb Hu]). pose proof Hs as (_ & _ & _ & Hv).
    assert (forall a', sensor_ok (Z.to_nat ch) a' -> sensor_on a' = sensor_on a ->
              Q tt (with_analog (put_sensor ch a' (n_analog s)) (mach s) s)) as HQ'.
    { intros a' Hok' Hon. apply HQ.
      - apply with_analog_step; [done|done|by eapply put_sensor_ok| |apply keeps_refl].
        intros c Hc Hne. by apply put_sensor_other.
      - rewrite Hen, <- Hon. by apply enabled_an_at, (an_at_put ch a). }
    assert (Q tt s) as Hskip by (apply HQ; [by apply chan_step_refl|done]).
    unfold analog_write. destruct Hok as (? & ? & ? & ? & ? & ? & ?).
    apply wp_if; intros _; [|apply wp_if; intros _; [|by apply wp_ret]]; (apply wp_when; intros _; [|done]).
    + apply wp_bind, (wp_at_index _ _ v0); [done|done|]. rewrite <- (with_analog_id s).
      eapply an_upd_wp; [done|exact Ha|]. apply HQ'; [|done]. split_and!; try done. by apply land_is_u8.
    + apply wp_bind, (read_uint16_wp _ 0 v0 v1); [done..|]. rewrite <- (with_analog_id s).
      apply wp_bind. eapply an_upd_wp; [done|exact Ha|].
      apply wp_bind, (read_uint16_wp _ 2 v2 v3); [done..|].
      eapply an_upd_wp; [done|by eapply an_at_put|]. rewrite put_put_sensor.
      apply HQ'; [|done]. split_and!; try done; by apply hi_lo_range.
Qed.
End Module.

(** ** Theorems *)

Section Theorems.
Context {HW : Hardware} {FL : FlashLaws HW}.

(** The search for the next sensor looks at one channel only.  If the sensor
    after the selected one is enabled it is selected; if not, the loop never ends,
    however many rounds it is given, even when another sensor is enabled. *)
Theorem select_next_sensor_or_hang fuel s :
  chan_inv s -> is_channel (selected_sensor (n_analog s)) ->
  let next := next_sensor (selected_sensor (n_analog s)) in
  let s' := with_analog (put_selected next (n_analog s)) (mach s) s in
  select_next_sensor_fuel (S fuel) s = if enabled next s then Ok tt s' else Fault Hang s'.
Proof.
  intros (_ & _ & _ & [Hlen _] & _) Hsel next s'. rewrite <- (with_analog_id s) at 1.
  by rewrite select_next_sensor_eq.
Qed.

(** The settings of a sensor do not survive the EEPROM.  What a save writes
    does not depend on the configuration or on the lower limit: the first two bytes
    are the upper limit, the others what was on the stack.  Restoring from them,
    on any node, makes the high byte of the upper limit the configuration and its
    low byte the high byte of the lower limit. *)
Theorem analog_settings_lost ch a st l s :
  chan_inv s -> is_channel ch -> an_at ch a (n_analog s) -> written st l (mach s) -> (length l + 5 <= tape_size)%nat ->
  exists st' s' stack, analog_save ch st s = Ok st' s' /\ length stack = 3%nat /\
    written st' (l ++ analog_payload a stack) (mach s') /\
    forall st2 s2 a2 rest, chan_inv s2 -> an_at ch a2 (n_analog s2) ->
      reading st2 (analog_payload a stack ++ rest) (mach s2) ->
      exists st3 s3 a3, analog_load ch st2 s2 = Ok st3 s3 /\ an_at ch a3 (n_analog s3) /\
        an_config a3 = range_max a / 256 /\ range_min a3 / 256 = range_max a mod 256.
Proof.
  intros Hs Hch Ha Hst Hl. destruct (analog_inv_at ch s Hs Hch) as (a' & Ha' & Hok & _).
  assert (a' = a) as -> by (unfold an_at in *; congruence).
  destruct (wp_total_inv (analog_save ch st) (fun st' s' => exists stack, length stack = 3%nat /\
     written st' (l ++ analog_payload a stack) (mach s')) s) as (st' & s' & Heq & stack & Hlen & Hw).
  { eapply analog_save_wp; [done..|]. intros st' h stack Hlen _ W K. by exists stack. }
  exists st', s', stack. split; [exact Heq|]. split; [exact Hlen|]. split; [exact Hw|].
  clear s' Heq Hw st'. intros st2 s2 a2 rest Hs2 Ha2 Hr.
  destruct (analog_inv_at ch s2 Hs2 Hch) as (a2' & Ha2' & Hok2 & _).
  assert (a2' = a2) as -> by (unfold an_at in *; congruence).
  destruct stack as [|x [|y [|z [|]]]]; try done.
  destruct Hok as (_ & _ & _ & _ & _ & Hmax & _). destruct (word_hi_lo _ Hmax) as (_ & Hlo & _).
  destruct (wp_total_inv (analog_load ch st2) (fun st3 s3 => exists a3, an_at ch a3 (n_analog s3) /\
      an_config a3 = range_max a / 256 /\ range_min a3 / 256 = range_max a mod 256) s2) as (st3 & s3 & Heq & a3 & H); [|eauto].
  eapply (analog_load_step total (tape_bytes (analog_payload a [x; y; z] ++ rest) (mach s2)));
    [done|done|exact Ha2|exact Hok2| |by apply tape_bytes_start| |].
  { apply reads_tape. rewrite length_app. simpl. lia. }
  { by intros l' st' h (_ & _ & ?). }
  intros st' s' b0 b1 b2 b3 b4 Hstep Hen (Heq & Hr' & _) Hat. eexists. split; [exact Hat|].
  assert (is_u8 x) as Hx.
  { destruct Hr as (_ & o & _ & _ & Hu & _). do 2 (apply Forall_cons_1 in Hu as [_ Hu]).
    by apply Forall_cons_1 in Hu as [? _]. }
  simpl in Heq. injection Heq as -> -> -> -> ->.
  cbn [analog_loaded an_config range_min an_set_range_max an_set_range_min an_set_config].
  change 0xff with (Z.ones 8) in *. rewrite Z.land_ones in * by lia. change (2 ^ 8) with 256 in *.
  rewrite Z.shiftr_div_pow2 by lia. change (2 ^ 8) with 256. unfold is_u16, is_u8 in *. split.
  - apply u8_small. unfold is_u8. split; [apply Z.div_pos; lia|apply Z.div_lt_upper_bound; lia].
  - replace (256 * (range_max a mod 256) + x) with (x + (range_max a mod 256) * 256) by lia.
    rewrite Z.div_add by lia. rewrite Z.div_small by lia. lia.
Qed.

(** One event of a single sensor at most starts a conversion. *)
Lemma single_timer_wp E ch a (Q : unit -> node -> Prop) s :
  is_channel ch -> an_at ch a (n_analog s) -> sensor_on a = true -> sensor_count (n_analog s) = 1 ->
  (forall s' a', an_at ch a' (n_analog s') -> sensor_on a' = true -> sensor_count (n_analog s') = 1 ->
     an_value a' = an_value a -> Q tt s') ->
  wp E (analog_timer ch) Q s.
Proof.
  intros Hch Ha Hon Hone HQ. rewrite <- (with_analog_id s). set (v := n_analog s) in *.
  assert (0 <= ch) as Hch0 by apply Hch. unfold analog_timer.
  apply wp_bind, wp_rd. cbn [fget f_selected_sensor with_analog set_mach set_analog n_analog].
  apply wp_if; intros Hsel; [by apply wp_ret, (HQ _ a)|].
  apply wp_bind, wp_rd. cbn [fget f_sensor_count with_analog set_mach set_analog n_analog]. rewrite Hone.
  apply wp_bind. eapply an_idx_wp; [done|exact Ha|]. unfold sensor_on in Hon.
  destruct (bool_decide (an_state a = AnalogState_Disabled)) eqn:Hst.
  { apply bool_decide_eq_true_1 in Hst. rewrite Hst in Hon. done. }
  cbn [negb andb Z.eqb Pos.eqb]. eapply analog_activate_wp; [done|exact Ha|apply keeps_refl|]. intros h K.
  apply (HQ _ (an_set_state AnalogState_Active a)); [by apply (an_at_put ch a)|done|done|done].
Qed.

(** A node with a single sensor never reads it: over any number of timer events
    its value stays what it was. *)
Theorem single_sensor_frozen ch a n s :
  is_channel ch -> an_at ch a (n_analog s) -> sensor_on a = true -> sensor_count (n_analog s) = 1 ->
  exists s' a', times n (analog_timer ch) s = Ok tt s' /\ an_at ch a' (n_analog s') /\ an_value a' = an_value a.
Proof.
  intros Hch Ha Hon Hone.
  assert (wp total (times n (analog_timer ch)) (fun _ s' => exists a', an_at ch a' (n_analog s') /\ an_value a' = an_value a) s)
    as H; [|destruct (wp_total_inv _ _ _ H) as ([] & s' & ? & a' & ?); eauto].
  revert s a Ha Hon Hone. induction n as [|n IH]; intros s a Ha Hon Hone; simpl; [apply wp_ret; by exists a|].
  apply wp_bind. eapply single_timer_wp; [done|exact Ha|done|done|]. intros s1 a1 Ha1 Hon1 Hone1 <-. by apply IH.
Qed.
End Theorems.

(** Sensors enabled on channels 0 and 2, the first of them selected. *)
Definition sample_sensor (ch : Z) : AnalogSensor :=
  MkAnalogSensor GPIOB (channel_pin ch) ch 1 AnalogState_Active 10 0x1234 7 0.

Definition sample_analog : analog_vars :=
  put_sensor 2 (inactive (sample_sensor 2)) (AnalogVars (<[0%nat := sample_sensor 0]> (analog_sensors analog_vars_init)) 2 0).

Lemma sample_analog_inv : chan_inv (set_analog sample_analog sim_node).
Proof.
  destruct (start_chan_inv sim_machine) as (HL & HS & HB & _). split; [done|]. split; [done|]. split; [done|].
  split; [by apply per_channel_four|]. split; [vm_compute; reflexivity|]. split; [done|]. intros _. done.
Qed.

(** Two enabled sensors that are not neighbours stop the node. *)
Lemma select_next_sensor_or_hang_witness :
  exists s', select_next_sensor_fuel 1000 (set_analog sample_analog sim_node) = Fault Hang s'.
Proof.
  eexists. exact (select_next_sensor_or_hang 999 (set_analog sample_analog sim_node) sample_analog_inv ltac:(done)).
Defined.

Definition sample_stream_machine : @machine sim :=
  match CAN_Node_EEStream_open CAN_Node_EEStream_Write sim_machine with Ok _ h => h | Fault _ h => h end.

Lemma sample_written : written (EEStream CAN_Node_EEStream_Write 0) [] sample_stream_machine.
Proof. split; [done|]. split; [done|]. split; [vm_compute; reflexivity|]. intros k b Hk. done. Qed.

Lemma analog_settings_lost_witness :
  exists st' s' stack, analog_save 0 (EEStream CAN_Node_EEStream_Write 0)
      (set_mach sample_stream_machine (set_analog sample_analog sim_node)) = Ok st' s' /\ length stack = 3%nat /\
    written st' (0x12 :: 0x34 :: stack) (mach s').
Proof.
  destruct (analog_settings_lost 0 (sample_sensor 0) (EEStream CAN_Node_EEStream_Write 0) []
    (set_mach sample_stream_machine (set_analog sample_analog sim_node))) as (st' & s' & stack & Heq & Hlen & Hw & _).
  - exact sample_analog_inv.
  - done.
  - done.
  - exact sample_written.
  - simpl. unfold tape_size. lia.
  - exists st', s', stack. split; [exact Heq|]. split; [exact Hlen|exact Hw].
Defined.

Lemma single_sensor_frozen_witness :
  exists s' a', times 100 (analog_timer 0) (set_analog (put_count 1 sample_analog) sim_node) = Ok tt s' /\
    an_at 0 a' (n_analog s') /\ an_value a' = 7.
Proof.
  exact (single_sensor_frozen 0 (sample_sensor 0) 100 (set_analog (put_count 1 sample_analog) sim_node)
           ltac:(done) ltac:(reflexivity) ltac:(reflexivity) ltac:(reflexivity)).
Defined.
