(* ===== verification/Tim1.v ===== *)
(** The TIM1 driver, [firmware/stm8/libstm8s/src/stm8s_tim1.c]: the functions the
    node calls and those that set or read one register; [Tim1Channels] has the
    configurations of channels, clocks and triggers. *)

From S2P Require Import Prelude Monad Machine Gpio Flash State.

(** ** Registers of [TIM1_TypeDef] *)

Definition TIM1_BaseAddress : Z := 0x5250.
Definition TIM1_CR1 : Z := TIM1_BaseAddress + 0.
Definition TIM1_CR2 : Z := TIM1_BaseAddress + 1.
Definition TIM1_SMCR : Z := TIM1_BaseAddress + 2.
Definition TIM1_ETR : Z := TIM1_BaseAddress + 3.
Definition TIM1_IER : Z := TIM1_BaseAddress + 4.
Definition TIM1_SR1 : Z := TIM1_BaseAddress + 5.
Definition TIM1_SR2 : Z := TIM1_BaseAddress + 6.
Definition TIM1_EGR : Z := TIM1_BaseAddress + 7.
Definition TIM1_CCMR1 : Z := TIM1_BaseAddress + 8.
Definition TIM1_CCMR2 : Z := TIM1_BaseAddress + 9.
Definition TIM1_CCMR3 : Z := TIM1_BaseAddress + 10.
Definition TIM1_CCMR4 : Z := TIM1_BaseAddress + 11.
Definition TIM1_CCER1 : Z := TIM1_BaseAddress + 12.
Definition TIM1_CCER2 : Z := TIM1_BaseAddress + 13.
Definition TIM1_CNTRH : Z := TIM1_BaseAddress + 14.
Definition TIM1_CNTRL : Z := TIM1_BaseAddress + 15.
Definition TIM1_PSCRH : Z := TIM1_BaseAddress + 16.
Definition TIM1_PSCRL : Z := TIM1_BaseAddress + 17.
Definition TIM1_ARRH : Z := TIM1_BaseAddress + 18.
Definition TIM1_ARRL : Z := TIM1_BaseAddress + 19.
Definition TIM1_RCR : Z := TIM1_BaseAddress + 20.
Definition TIM1_CCR1H : Z := TIM1_BaseAddress + 21.
Definition TIM1_CCR1L : Z := TIM1_BaseAddress + 22.
Definition TIM1_CCR2H : Z := TIM1_BaseAddress + 23.
Definition TIM1_CCR2L : Z := TIM1_BaseAddress + 24.
Definition TIM1_CCR3H : Z := TIM1_BaseAddress + 25.
Definition TIM1_CCR3L : Z := TIM1_BaseAddress + 26.
Definition TIM1_CCR4H : Z := TIM1_BaseAddress + 27.
Definition TIM1_CCR4L : Z := TIM1_BaseAddress + 28.
Definition TIM1_BKR : Z := TIM1_BaseAddress + 29.
Definition TIM1_DTR : Z := TIM1_BaseAddress + 30.
Definition TIM1_OISR : Z := TIM1_BaseAddress + 31.

Definition TIM1_CR1_RESET_VALUE : Z := 0x00.
Definition TIM1_CR2_RESET_VALUE : Z := 0x00.
Definition TIM1_SMCR_RESET_VALUE : Z := 0x00.
Definition TIM1_ETR_RESET_VALUE : Z := 0x00.
Definition TIM1_IER_RESET_VALUE : Z := 0x00.
Definition TIM1_SR1_RESET_VALUE : Z := 0x00.
Definition TIM1_SR2_RESET_VALUE : Z := 0x00.
Definition TIM1_EGR_RESET_VALUE : Z := 0x00.
Definition TIM1_CCMR1_RESET_VALUE : Z := 0x00.
Definition TIM1_CCMR2_RESET_VALUE : Z := 0x00.
Definition TIM1_CCMR3_RESET_VALUE : Z := 0x00.
Definition TIM1_CCMR4_RESET_VALUE : Z := 0x00.
Definition TIM1_CCER1_RESET_VALUE : Z := 0x00.
Definition TIM1_CCER2_RESET_VALUE : Z := 0x00.
Definition TIM1_CNTRH_RESET_VALUE : Z := 0x00.
Definition TIM1_CNTRL_RESET_VALUE : Z := 0x00.
Definition TIM1_PSCRH_RESET_VALUE : Z := 0x00.
Definition TIM1_PSCRL_RESET_VALUE : Z := 0x00.
Definition TIM1_ARRH_RESET_VALUE : Z := 0xFF.
Definition TIM1_ARRL_RESET_VALUE : Z := 0xFF.
Definition TIM1_RCR_RESET_VALUE : Z := 0x00.
Definition TIM1_CCR1H_RESET_VALUE : Z := 0x00.
Definition TIM1_CCR1L_RESET_VALUE : Z := 0x00.
Definition TIM1_CCR2H_RESET_VALUE : Z := 0x00.
Definition TIM1_CCR2L_RESET_VALUE : Z := 0x00.
Definition TIM1_CCR3H_RESET_VALUE : Z := 0x00.
Definition TIM1_CCR3L_RESET_VALUE : Z := 0x00.
Definition TIM1_CCR4H_RESET_VALUE : Z := 0x00.
Definition TIM1_CCR4L_RESET_VALUE : Z := 0x00.
Definition TIM1_BKR_RESET_VALUE : Z := 0x00.
Definition TIM1_DTR_RESET_VALUE : Z := 0x00.
Definition TIM1_OISR_RESET_VALUE : Z := 0x00.

Definition TIM1_CR1_ARPE : Z := 0x80.
Definition TIM1_CR1_CMS : Z := 0x60.
Definition TIM1_CR1_DIR : Z := 0x10.
Definition TIM1_CR1_OPM : Z := 0x08.
Definition TIM1_CR1_URS : Z := 0x04.
Definition TIM1_CR1_UDIS : Z := 0x02.
Definition TIM1_CR1_CEN : Z := 0x01.
Definition TIM1_CR2_TI1S : Z := 0x80.
Definition TIM1_BKR_MOE : Z := 0x80.

Definition TIM1_OPMODE_SINGLE : Z := 0x01.
Definition TIM1_OPMODE_REPETITIVE : Z := 0x00.
Definition TIM1_COUNTERMODE_UP : Z := 0x00.
Definition TIM1_UPDATESOURCE_GLOBAL : Z := 0x00.
Definition TIM1_FLAG_UPDATE : Z := 0x0001.

(** ** The driver *)

Section Driver.
Context {HW : Hardware}.

Definition TIM1_DeInit : prog machine unit :=
  store TIM1_CR1 TIM1_CR1_RESET_VALUE ;;
  store TIM1_CR2 TIM1_CR2_RESET_VALUE ;;
  store TIM1_SMCR TIM1_SMCR_RESET_VALUE ;;
  store TIM1_ETR TIM1_ETR_RESET_VALUE ;;
  store TIM1_IER TIM1_IER_RESET_VALUE ;;
  store TIM1_SR2 TIM1_SR2_RESET_VALUE ;;
  store TIM1_CCER1 TIM1_CCER1_RESET_VALUE ;;
  store TIM1_CCER2 TIM1_CCER2_RESET_VALUE ;;
  store TIM1_CCMR1 0x01 ;;
  store TIM1_CCMR2 0x01 ;;
  store TIM1_CCMR3 0x01 ;;
  store TIM1_CCMR4 0x01 ;;
  store TIM1_CCER1 TIM1_CCER1_RESET_VALUE ;;
  store TIM1_CCER2 TIM1_CCER2_RESET_VALUE ;;
  store TIM1_CCMR1 TIM1_CCMR1_RESET_VALUE ;;
  store TIM1_CCMR2 TIM1_CCMR2_RESET_VALUE ;;
  store TIM1_CCMR3 TIM1_CCMR3_RESET_VALUE ;;
  store TIM1_CCMR4 TIM1_CCMR4_RESET_VALUE ;;
  store TIM1_CNTRH TIM1_CNTRH_RESET_VALUE ;;
  store TIM1_CNTRL TIM1_CNTRL_RESET_VALUE ;;
  store TIM1_PSCRH TIM1_PSCRH_RESET_VALUE ;;
  store TIM1_PSCRL TIM1_PSCRL_RESET_VALUE ;;
  store TIM1_ARRH TIM1_ARRH_RESET_VALUE ;;
  store TIM1_ARRL TIM1_ARRL_RESET_VALUE ;;
  store TIM1_CCR1H TIM1_CCR1H_RESET_VALUE ;;
  store TIM1_CCR1L TIM1_CCR1L_RESET_VALUE ;;
  store TIM1_CCR2H TIM1_CCR2H_RESET_VALUE ;;
  store TIM1_CCR2L TIM1_CCR2L_RESET_VALUE ;;
  store TIM1_CCR3H TIM1_CCR3H_RESET_VALUE ;;
  store TIM1_CCR3L TIM1_CCR3L_RESET_VALUE ;;
  store TIM1_CCR4H TIM1_CCR4H_RESET_VALUE ;;
  store TIM1_CCR4L TIM1_CCR4L_RESET_VALUE ;;
  store TIM1_OISR TIM1_OISR_RESET_VALUE ;;
  store TIM1_EGR 0x01 ;;
  store TIM1_DTR TIM1_DTR_RESET_VALUE ;;
  store TIM1_BKR TIM1_BKR_RESET_VALUE ;;
  store TIM1_RCR TIM1_RCR_RESET_VALUE ;;
  store TIM1_SR1 TIM1_SR1_RESET_VALUE.

Definition TIM1_TimeBaseInit (TIM1_Prescaler TIM1_CounterMode TIM1_Period TIM1_RepetitionCounter : Z) :
    prog machine unit :=
  store TIM1_ARRH (u8 (Z.shiftr TIM1_Period 8)) ;;
  store TIM1_ARRL (u8 TIM1_Period) ;;
  store TIM1_PSCRH (u8 (Z.shiftr TIM1_Prescaler 8)) ;;
  store TIM1_PSCRL (u8 TIM1_Prescaler) ;;
  (let! cr1 := load TIM1_CR1 in
   store TIM1_CR1 (Z.lor (u8 (Z.land cr1 (u8 (Z.lnot (Z.lor TIM1_CR1_CMS TIM1_CR1_DIR))))) (u8 TIM1_CounterMode))) ;;
  store TIM1_RCR TIM1_RepetitionCounter.

Definition TIM1_Cmd (NewState : FunctionalState) : prog machine unit :=
  match NewState with
  | ENABLE => or_reg TIM1_CR1 TIM1_CR1_CEN
  | DISABLE => and_reg TIM1_CR1 (u8 (Z.lnot TIM1_CR1_CEN))
  end.

Definition TIM1_CtrlPWMOutputs (NewState : FunctionalState) : prog machine unit :=
  match NewState with
  | ENABLE => or_reg TIM1_BKR TIM1_BKR_MOE
  | DISABLE => and_reg TIM1_BKR (u8 (Z.lnot TIM1_BKR_MOE))
  end.

Definition TIM1_ITConfig (TIM1_IT : Z) (NewState : FunctionalState) : prog machine unit :=
  match NewState with
  | ENABLE => or_reg TIM1_IER (u8 TIM1_IT)
  | DISABLE => and_reg TIM1_IER (u8 (Z.lnot (u8 TIM1_IT)))
  end.

Definition TIM1_UpdateDisableConfig (NewState : FunctionalState) : prog machine unit :=
  match NewState with
  | ENABLE => or_reg TIM1_CR1 TIM1_CR1_UDIS
  | DISABLE => and_reg TIM1_CR1 (u8 (Z.lnot TIM1_CR1_UDIS))
  end.

Definition TIM1_UpdateRequestConfig (TIM1_UpdateSource : Z) : prog machine unit :=
  if negb (TIM1_UpdateSource =? TIM1_UPDATESOURCE_GLOBAL)
  then or_reg TIM1_CR1 TIM1_CR1_URS
  else and_reg TIM1_CR1 (u8 (Z.lnot TIM1_CR1_URS)).

Definition TIM1_SelectHallSensor (NewState : FunctionalState) : prog machine unit :=
  match NewState with
  | ENABLE => or_reg TIM1_CR2 TIM1_CR2_TI1S
  | DISABLE => and_reg TIM1_CR2 (u8 (Z.lnot TIM1_CR2_TI1S))
  end.

Definition TIM1_SelectOnePulseMode (TIM1_OPMode : Z) : prog machine unit :=
  if negb (TIM1_OPMode =? TIM1_OPMODE_REPETITIVE)
  then or_reg TIM1_CR1 TIM1_CR1_OPM
  else and_reg TIM1_CR1 (u8 (Z.lnot TIM1_CR1_OPM)).

Definition TIM1_PrescalerConfig (Prescaler TIM1_PSCReloadMode : Z) : prog machine unit :=
  store TIM1_PSCRH (u8 (Z.shiftr Prescaler 8)) ;;
  store TIM1_PSCRL (u8 Prescaler) ;;
  store TIM1_EGR (u8 TIM1_PSCReloadMode).

Definition TIM1_CounterModeConfig (TIM1_CounterMode : Z) : prog machine unit :=
  let! cr1 := load TIM1_CR1 in
  store TIM1_CR1 (Z.lor (u8 (Z.land cr1 (Z.land (u8 (Z.lnot TIM1_CR1_CMS)) (u8 (Z.lnot TIM1_CR1_DIR))))) (u8 TIM1_CounterMode)).

Definition TIM1_ARRPreloadConfig (NewState : FunctionalState) : prog machine unit :=
  match NewState with
  | ENABLE => or_reg TIM1_CR1 TIM1_CR1_ARPE
  | DISABLE => and_reg TIM1_CR1 (u8 (Z.lnot TIM1_CR1_ARPE))
  end.

Definition TIM1_GenerateEvent (TIM1_EventSource : Z) : prog machine unit :=
  store TIM1_EGR (u8 TIM1_EventSource).

Definition TIM1_SetCounter (Counter : Z) : prog machine unit :=
  store TIM1_CNTRH (u8 (Z.shiftr Counter 8)) ;;
  store TIM1_CNTRL (u8 Counter).

Definition TIM1_SetAutoreload (Autoreload : Z) : prog machine unit :=
  store TIM1_ARRH (u8 (Z.shiftr Autoreload 8)) ;;
  store TIM1_ARRL (u8 Autoreload).

Definition TIM1_SetCompare1 (Compare1 : Z) : prog machine unit :=
  store TIM1_CCR1H (u8 (Z.shiftr Compare1 8)) ;;
  store TIM1_CCR1L (u8 Compare1).

Definition TIM1_SetCompare2 (Compare2 : Z) : prog machine unit :=
  store TIM1_CCR2H (u8 (Z.shiftr Compare2 8)) ;;
  store TIM1_CCR2L (u8 Compare2).

Definition TIM1_SetCompare3 (Compare3 : Z) : prog machine unit :=
  store TIM1_CCR3H (u8 (Z.shiftr Compare3 8)) ;;
  store TIM1_CCR3L (u8 Compare3).

Definition TIM1_SetCompare4 (Compare4 : Z) : prog machine unit :=
  store TIM1_CCR4H (u8 (Z.shiftr Compare4 8)) ;;
  store TIM1_CCR4L (u8 Compare4).

Definition TIM1_GetCapture1 : prog machine Z :=
  let! tmpccr1h := load TIM1_CCR1H in
  let! tmpccr1l := load TIM1_CCR1L in
  ret (Z.lor tmpccr1l (u16 (Z.shiftl tmpccr1h 8))).

Definition TIM1_GetCapture2 : prog machine Z :=
  let! tmpccr2h := load TIM1_CCR2H in
  let! tmpccr2l := load TIM1_CCR2L in
  ret (Z.lor tmpccr2l (u16 (Z.shiftl tmpccr2h 8))).

Definition TIM1_GetCapture3 : prog machine Z :=
  let! tmpccr3h := load TIM1_CCR3H in
  let! tmpccr3l := load TIM1_CCR3L in
  ret (Z.lor tmpccr3l (u16 (Z.shiftl tmpccr3h 8))).

Definition TIM1_GetCapture4 : prog machine Z :=
  let! tmpccr4h := load TIM1_CCR4H in
  let! tmpccr4l := load TIM1_CCR4L in
  ret (Z.lor tmpccr4l (u16 (Z.shiftl tmpccr4h 8))).

Definition TIM1_GetCounter : prog machine Z :=
  let! hi := load TIM1_CNTRH in
  let tmp := u16 (Z.shiftl hi 8) in
  let! lo := load TIM1_CNTRL in
  ret (Z.lor tmp lo).

Definition TIM1_GetPrescaler : prog machine Z :=
  let! hi := load TIM1_PSCRH in
  let tmp := u16 (Z.shiftl hi 8) in
  let! lo := load TIM1_PSCRL in
  ret (Z.lor tmp lo).

Definition TIM1_GetFlagStatus (TIM1_FLAG : Z) : prog machine FlagStatus :=
  let! sr1 := load TIM1_SR1 in
  let tim1_flag_l := u8 (Z.land sr1 (u8 TIM1_FLAG)) in
  let tim1_flag_h := u8 (Z.shiftr (u16 TIM1_FLAG) 8) in
  let! sr2 := load TIM1_SR2 in
  ret (if negb (Z.lor tim1_flag_l (u8 (Z.land sr2 tim1_flag_h)) =? 0) then SET else RESET).

Definition TIM1_ClearFlag (TIM1_FLAG : Z) : prog machine unit :=
  store TIM1_SR1 (u8 (Z.lnot (u8 TIM1_FLAG))) ;;
  store TIM1_SR2 (Z.land (u8 (Z.lnot (u8 (Z.shiftr (u16 TIM1_FLAG) 8)))) 0x1E).

Definition TIM1_GetITStatus (TIM1_IT : Z) : prog machine FlagStatus :=
  let! sr1 := load TIM1_SR1 in
  let TIM1_itStatus := u8 (Z.land sr1 (u8 TIM1_IT)) in
  let! ier := load TIM1_IER in
  let TIM1_itEnable := u8 (Z.land ier (u8 TIM1_IT)) in
  ret (if negb (TIM1_itStatus =? 0) && negb (TIM1_itEnable =? 0) then SET else RESET).

Definition TIM1_ClearITPendingBit (TIM1_IT : Z) : prog machine unit :=
  store TIM1_SR1 (u8 (Z.lnot (u8 TIM1_IT))).
End Driver.

(** ** Lemmas *)

Definition tim1_reg (a : Z) : Prop := TIM1_BaseAddress <= a <= TIM1_BaseAddress + 31.

Lemma tim1_off_tape d : tim1_reg d -> off_tape d.
Proof.
  unfold tim1_reg, off_tape, eeprom, TIM1_BaseAddress, FLASH_DATA_START_PHYSICAL_ADDRESS,
    FLASH_DATA_END_PHYSICAL_ADDRESS. lia.
Qed.

Section Lemmas.
Context {HW : Hardware}.

Lemma touches_tim1_reg k v : 0 <= k <= 31 -> touches tim1_reg (store (TIM1_BaseAddress + k) v).
Proof.
  intros Hk. apply touches_store; unfold tim1_reg, TIM1_BaseAddress, in_can_page, CAN_Page, CAN_BaseAddress;
    [cmp; done|lia].
Qed.

Lemma touches_TIM1_DeInit : touches tim1_reg TIM1_DeInit.
Proof. unfold TIM1_DeInit. touch; (apply touches_tim1_reg; lia). Qed.

Lemma touches_TIM1_TimeBaseInit p m a r : touches tim1_reg (TIM1_TimeBaseInit p m a r).
Proof. unfold TIM1_TimeBaseInit. touch; (apply touches_tim1_reg; lia). Qed.

Lemma touches_TIM1_SelectOnePulseMode m : touches tim1_reg (TIM1_SelectOnePulseMode m).
Proof. unfold TIM1_SelectOnePulseMode, or_reg, and_reg. touch; (apply touches_tim1_reg; lia). Qed.

Lemma touches_TIM1_SetAutoreload a : touches tim1_reg (TIM1_SetAutoreload a).
Proof. unfold TIM1_SetAutoreload. touch; (apply touches_tim1_reg; lia). Qed.

Lemma touches_TIM1_ClearFlag f : touches tim1_reg (TIM1_ClearFlag f).
Proof. unfold TIM1_ClearFlag. touch; (apply touches_tim1_reg; lia). Qed.

Lemma touches_TIM1_start : touches tim1_reg (or_reg TIM1_CR1 TIM1_CR1_CEN).
Proof. unfold or_reg. touch. apply touches_tim1_reg. lia. Qed.
End Lemmas.

#[export] Hint Resolve touches_TIM1_DeInit touches_TIM1_TimeBaseInit touches_TIM1_SelectOnePulseMode
  touches_TIM1_SetAutoreload touches_TIM1_ClearFlag touches_TIM1_start : touches.
