(* ===== verification/Tim1Channels.v ===== *)
(** The TIM1 driver, continued: the output compare, input capture, clock and
    trigger configurations of [firmware/stm8/libstm8s/src/stm8s_tim1.c].  What a
    run of register updates leaves is computed by functions of the registers
    ([acts]); the theorems read the effect of a channel's configuration off them. *)

From S2P Require Import Prelude Monad Machine Gpio Flash State Tim1.

(** ** Bits of the registers *)

Definition TIM1_CR2_MMS : Z := 0x70.
Definition TIM1_CR2_COMS : Z := 0x04.
Definition TIM1_CR2_CCPC : Z := 0x01.
Definition TIM1_SMCR_MSM : Z := 0x80.
Definition TIM1_SMCR_TS : Z := 0x70.
Definition TIM1_SMCR_SMS : Z := 0x07.
Definition TIM1_ETR_ECE : Z := 0x40.
Definition TIM1_CCMR_ICxPSC : Z := 0x0C.
Definition TIM1_CCMR_ICxF : Z := 0xF0.
Definition TIM1_CCMR_OCM : Z := 0x70.
Definition TIM1_CCMR_OCxPE : Z := 0x08.
Definition TIM1_CCMR_OCxFE : Z := 0x04.
Definition TIM1_CCMR_CCxS : Z := 0x03.
Definition CCMR_TIxDirect_Set : Z := 0x01.
Definition TIM1_CCER1_CC2NP : Z := 0x80.
Definition TIM1_CCER1_CC2NE : Z := 0x40.
Definition TIM1_CCER1_CC2P : Z := 0x20.
Definition TIM1_CCER1_CC2E : Z := 0x10.
Definition TIM1_CCER1_CC1NP : Z := 0x08.
Definition TIM1_CCER1_CC1NE : Z := 0x04.
Definition TIM1_CCER1_CC1P : Z := 0x02.
Definition TIM1_CCER1_CC1E : Z := 0x01.
Definition TIM1_CCER2_CC4P : Z := 0x20.
Definition TIM1_CCER2_CC4E : Z := 0x10.
Definition TIM1_CCER2_CC3NP : Z := 0x08.
Definition TIM1_CCER2_CC3NE : Z := 0x04.
Definition TIM1_CCER2_CC3P : Z := 0x02.
Definition TIM1_CCER2_CC3E : Z := 0x01.
Definition TIM1_OISR_OIS4 : Z := 0x40.
Definition TIM1_OISR_OIS3N : Z := 0x20.
Definition TIM1_OISR_OIS3 : Z := 0x10.
Definition TIM1_OISR_OIS2N : Z := 0x08.
Definition TIM1_OISR_OIS2 : Z := 0x04.
Definition TIM1_OISR_OIS1N : Z := 0x02.
Definition TIM1_OISR_OIS1 : Z := 0x01.

Definition TIM1_CHANNEL_1 : Z := 0x00.
Definition TIM1_CHANNEL_2 : Z := 0x01.
Definition TIM1_CHANNEL_3 : Z := 0x02.
Definition TIM1_CHANNEL_4 : Z := 0x03.
Definition TIM1_OCPOLARITY_HIGH : Z := 0x00.
Definition TIM1_OCPOLARITY_LOW : Z := 0x22.
Definition TIM1_OCNPOLARITY_HIGH : Z := 0x00.
Definition TIM1_OCNPOLARITY_LOW : Z := 0x88.
Definition TIM1_OUTPUTSTATE_DISABLE : Z := 0x00.
Definition TIM1_OUTPUTSTATE_ENABLE : Z := 0x11.
Definition TIM1_OUTPUTNSTATE_DISABLE : Z := 0x00.
Definition TIM1_OUTPUTNSTATE_ENABLE : Z := 0x44.
Definition TIM1_OCIDLESTATE_SET : Z := 0x55.
Definition TIM1_OCIDLESTATE_RESET : Z := 0x00.
Definition TIM1_OCNIDLESTATE_SET : Z := 0x2A.
Definition TIM1_OCNIDLESTATE_RESET : Z := 0x00.
Definition TIM1_ICPOLARITY_RISING : Z := 0x00.
Definition TIM1_ICPOLARITY_FALLING : Z := 0x01.
Definition TIM1_ICSELECTION_DIRECTTI : Z := 0x01.
Definition TIM1_ICSELECTION_INDIRECTTI : Z := 0x02.
Definition TIM1_ICSELECTION_TRGI : Z := 0x03.
Definition TIM1_EXTTRGPSC_OFF : Z := 0x00.
Definition TIM1_EXTTRGPSC_DIV8 : Z := 0x30.
Definition TIM1_EXTTRGPOLARITY_NONINVERTED : Z := 0x00.
Definition TIM1_TS_ETRF : Z := 0x70.
Definition TIM1_TIXEXTERNALCLK1SOURCE_TI1 : Z := 0x50.
Definition TIM1_TIXEXTERNALCLK1SOURCE_TI2 : Z := 0x60.
Definition TIM1_SLAVEMODE_EXTERNAL1 : Z := 0x07.

(** ** The driver *)

Section Driver.
Context {HW : Hardware}.

(** [TIM1->R = (uint8_t)((uint8_t)(TIM1->R & (uint8_t)(~mask)) | value)]. *)
Definition put_field (a mask value : Z) : prog machine unit :=
  let! r := load a in store a (Z.lor (u8 (Z.land r (u8 (Z.lnot mask)))) value).

(** *** Input channels *)

Definition TI1_Config (TIM1_ICPolarity TIM1_ICSelection TIM1_ICFilter : Z) : prog machine unit :=
  and_reg TIM1_CCER1 (u8 (Z.lnot TIM1_CCER1_CC1E)) ;;
  put_field TIM1_CCMR1 (u8 (Z.lor TIM1_CCMR_CCxS TIM1_CCMR_ICxF))
    (u8 (Z.lor TIM1_ICSelection (u8 (Z.shiftl TIM1_ICFilter 4)))) ;;
  (if negb (TIM1_ICPolarity =? TIM1_ICPOLARITY_RISING)
   then or_reg TIM1_CCER1 TIM1_CCER1_CC1P
   else and_reg TIM1_CCER1 (u8 (Z.lnot TIM1_CCER1_CC1P))) ;;
  or_reg TIM1_CCER1 TIM1_CCER1_CC1E.

Definition TI2_Config (TIM1_ICPolarity TIM1_ICSelection TIM1_ICFilter : Z) : prog machine unit :=
  and_reg TIM1_CCER1 (u8 (Z.lnot TIM1_CCER1_CC2E)) ;;
  put_field TIM1_CCMR2 (u8 (Z.lor TIM1_CCMR_CCxS TIM1_CCMR_ICxF))
    (u8 (Z.lor TIM1_ICSelection (u8 (Z.shiftl TIM1_ICFilter 4)))) ;;
  (if negb (TIM1_ICPolarity =? TIM1_ICPOLARITY_RISING)
   then or_reg TIM1_CCER1 TIM1_CCER1_CC2P
   else and_reg TIM1_CCER1 (u8 (Z.lnot TIM1_CCER1_CC2P))) ;;
  or_reg TIM1_CCER1 TIM1_CCER1_CC2E.

Definition TI3_Config (TIM1_ICPolarity TIM1_ICSelection TIM1_ICFilter : Z) : prog machine unit :=
  and_reg TIM1_CCER2 (u8 (Z.lnot TIM1_CCER2_CC3E)) ;;
  put_field TIM1_CCMR3 (u8 (Z.lor TIM1_CCMR_CCxS TIM1_CCMR_ICxF))
    (u8 (Z.lor TIM1_ICSelection (u8 (Z.shiftl TIM1_ICFilter 4)))) ;;
  (if negb (TIM1_ICPolarity =? TIM1_ICPOLARITY_RISING)
   then or_reg TIM1_CCER2 TIM1_CCER2_CC3P
   else and_reg TIM1_CCER2 (u8 (Z.lnot TIM1_CCER2_CC3P))) ;;
  or_reg TIM1_CCER2 TIM1_CCER2_CC3E.

Definition TI4_Config (TIM1_ICPolarity TIM1_ICSelection TIM1_ICFilter : Z) : prog machine unit :=
  and_reg TIM1_CCER2 (u8 (Z.lnot TIM1_CCER2_CC4E)) ;;
  put_field TIM1_CCMR4 (u8 (Z.lor TIM1_CCMR_CCxS TIM1_CCMR_ICxF))
    (u8 (Z.lor TIM1_ICSelection (u8 (Z.shiftl TIM1_ICFilter 4)))) ;;
  (if negb (TIM1_ICPolarity =? TIM1_ICPOLARITY_RISING)
   then or_reg TIM1_CCER2 TIM1_CCER2_CC4P
   else and_reg TIM1_CCER2 (u8 (Z.lnot TIM1_CCER2_CC4P))) ;;
  or_reg TIM1_CCER2 TIM1_CCER2_CC4E.

Definition TIM1_SetIC1Prescaler (TIM1_IC1Prescaler : Z) : prog machine unit :=
  put_field TIM1_CCMR1 TIM1_CCMR_ICxPSC (u8 TIM1_IC1Prescaler).

Definition TIM1_SetIC2Prescaler (TIM1_IC2Prescaler : Z) : prog machine unit :=
  put_field TIM1_CCMR2 TIM1_CCMR_ICxPSC (u8 TIM1_IC2Prescaler).

Definition TIM1_SetIC3Prescaler (TIM1_IC3Prescaler : Z) : prog machine unit :=
  put_field TIM1_CCMR3 TIM1_CCMR_ICxPSC (u8 TIM1_IC3Prescaler).

Definition TIM1_SetIC4Prescaler (TIM1_IC4Prescaler : Z) : prog machine unit :=
  put_field TIM1_CCMR4 TIM1_CCMR_ICxPSC (u8 TIM1_IC4Prescaler).

Definition TIM1_ICInit (TIM1_Channel TIM1_ICPolarity TIM1_ICSelection TIM1_ICPrescaler TIM1_ICFilter : Z) :
    prog machine unit :=
  if TIM1_Channel =? TIM1_CHANNEL_1 then
    TI1_Config (u8 TIM1_ICPolarity) (u8 TIM1_ICSelection) (u8 TIM1_ICFilter) ;;
    TIM1_SetIC1Prescaler TIM1_ICPrescaler
  else if TIM1_Channel =? TIM1_CHANNEL_2 then
    TI2_Config (u8 TIM1_ICPolarity) (u8 TIM1_ICSelection) (u8 TIM1_ICFilter) ;;
    TIM1_SetIC2Prescaler TIM1_ICPrescaler
  else if TIM1_Channel =? TIM1_CHANNEL_3 then
    TI3_Config (u8 TIM1_ICPolarity) (u8 TIM1_ICSelection) (u8 TIM1_ICFilter) ;;
    TIM1_SetIC3Prescaler TIM1_ICPrescaler
  else
    TI4_Config (u8 TIM1_ICPolarity) (u8 TIM1_ICSelection) (u8 TIM1_ICFilter) ;;
    TIM1_SetIC4Prescaler TIM1_ICPrescaler.

Definition TIM1_PWMIConfig (TIM1_Channel TIM1_ICPolarity TIM1_ICSelection TIM1_ICPrescaler TIM1_ICFilter : Z) :
    prog machine unit :=
  let icpolarity :=
    if negb (TIM1_ICPolarity =? TIM1_ICPOLARITY_FALLING) then TIM1_ICPOLARITY_FALLING else TIM1_ICPOLARITY_RISING in
  let icselection :=
    if TIM1_ICSelection =? TIM1_ICSELECTION_DIRECTTI then TIM1_ICSELECTION_INDIRECTTI else TIM1_ICSELECTION_DIRECTTI in
  if TIM1_Channel =? TIM1_CHANNEL_1 then
    TI1_Config (u8 TIM1_ICPolarity) (u8 TIM1_ICSelection) (u8 TIM1_ICFilter) ;;
    TIM1_SetIC1Prescaler TIM1_ICPrescaler ;;
    TI2_Config icpolarity icselection TIM1_ICFilter ;;
    TIM1_SetIC2Prescaler TIM1_ICPrescaler
  else
    TI2_Config (u8 TIM1_ICPolarity) (u8 TIM1_ICSelection) (u8 TIM1_ICFilter) ;;
    TIM1_SetIC2Prescaler TIM1_ICPrescaler ;;
    TI1_Config icpolarity icselection TIM1_ICFilter ;;
    TIM1_SetIC1Prescaler TIM1_ICPrescaler.

(** *** Output channels *)

Definition TIM1_OC1Init (TIM1_OCMode TIM1_OutputState TIM1_OutputNState TIM1_Pulse TIM1_OCPolarity
    TIM1_OCNPolarity TIM1_OCIdleState TIM1_OCNIdleState : Z) : prog machine unit :=
  and_reg TIM1_CCER1 (u8 (Z.lnot (Z.lor (Z.lor (Z.lor TIM1_CCER1_CC1E TIM1_CCER1_CC1NE) TIM1_CCER1_CC1P) TIM1_CCER1_CC1NP))) ;;
  or_reg TIM1_CCER1 (u8 (Z.lor
    (u8 (Z.lor (u8 (Z.land TIM1_OutputState TIM1_CCER1_CC1E)) (u8 (Z.land TIM1_OutputNState TIM1_CCER1_CC1NE))))
    (u8 (Z.lor (u8 (Z.land TIM1_OCPolarity TIM1_CCER1_CC1P)) (u8 (Z.land TIM1_OCNPolarity TIM1_CCER1_CC1NP)))))) ;;
  put_field TIM1_CCMR1 TIM1_CCMR_OCM (u8 TIM1_OCMode) ;;
  and_reg TIM1_OISR (u8 (Z.lnot (Z.lor TIM1_OISR_OIS1 TIM1_OISR_OIS1N))) ;;
  or_reg TIM1_OISR (u8 (Z.lor (u8 (Z.land TIM1_OCIdleState TIM1_OISR_OIS1)) (u8 (Z.land TIM1_OCNIdleState TIM1_OISR_OIS1N)))) ;;
  store TIM1_CCR1H (u8 (Z.shiftr TIM1_Pulse 8)) ;;
  store TIM1_CCR1L (u8 TIM1_Pulse).

Definition TIM1_OC2Init (TIM1_OCMode TIM1_OutputState TIM1_OutputNState TIM1_Pulse TIM1_OCPolarity
    TIM1_OCNPolarity TIM1_OCIdleState TIM1_OCNIdleState : Z) : prog machine unit :=
  and_reg TIM1_CCER1 (u8 (Z.lnot (Z.lor (Z.lor (Z.lor TIM1_CCER1_CC2E TIM1_CCER1_CC2NE) TIM1_CCER1_CC2P) TIM1_CCER1_CC2NP))) ;;
  or_reg TIM1_CCER1 (u8 (Z.lor
    (u8 (Z.lor (u8 (Z.land TIM1_OutputState TIM1_CCER1_CC2E)) (u8 (Z.land TIM1_OutputNState TIM1_CCER1_CC2NE))))
    (u8 (Z.lor (u8 (Z.land TIM1_OCPolarity TIM1_CCER1_CC2P)) (u8 (Z.land TIM1_OCNPolarity TIM1_CCER1_CC2NP)))))) ;;
  put_field TIM1_CCMR2 TIM1_CCMR_OCM (u8 TIM1_OCMode) ;;
  and_reg TIM1_OISR (u8 (Z.lnot (Z.lor TIM1_OISR_OIS2 TIM1_OISR_OIS2N))) ;;
  or_reg TIM1_OISR (u8 (Z.lor (u8 (Z.land TIM1_OISR_OIS2 TIM1_OCIdleState)) (u8 (Z.land TIM1_OISR_OIS2N TIM1_OCNIdleState)))) ;;
  store TIM1_CCR2H (u8 (Z.shiftr TIM1_Pulse 8)) ;;
  store TIM1_CCR2L (u8 TIM1_Pulse).

Definition TIM1_OC3Init (TIM1_OCMode TIM1_OutputState TIM1_OutputNState TIM1_Pulse TIM1_OCPolarity
    TIM1_OCNPolarity TIM1_OCIdleState TIM1_OCNIdleState : Z) : prog machine unit :=
  and_reg TIM1_CCER2 (u8 (Z.lnot (Z.lor (Z.lor (Z.lor TIM1_CCER2_CC3E TIM1_CCER2_CC3NE) TIM1_CCER2_CC3P) TIM1_CCER2_CC3NP))) ;;
  or_reg TIM1_CCER2 (u8 (Z.lor
    (u8 (Z.lor (u8 (Z.land TIM1_OutputState TIM1_CCER2_CC3E)) (u8 (Z.land TIM1_OutputNState TIM1_CCER2_CC3NE))))
    (u8 (Z.lor (u8 (Z.land TIM1_OCPolarity TIM1_CCER2_CC3P)) (u8 (Z.land TIM1_OCNPolarity TIM1_CCER2_CC3NP)))))) ;;
  put_field TIM1_CCMR3 TIM1_CCMR_OCM (u8 TIM1_OCMode) ;;
  and_reg TIM1_OISR (u8 (Z.lnot (Z.lor TIM1_OISR_OIS3 TIM1_OISR_OIS3N))) ;;
  or_reg TIM1_OISR (u8 (Z.lor (u8 (Z.land TIM1_OISR_OIS3 TIM1_OCIdleState)) (u8 (Z.land TIM1_OISR_OIS3N TIM1_OCNIdleState)))) ;;
  store TIM1_CCR3H (u8 (Z.shiftr TIM1_Pulse 8)) ;;
  store TIM1_CCR3L (u8 TIM1_Pulse).

Definition TIM1_OC4Init (TIM1_OCMode TIM1_OutputState TIM1_Pulse TIM1_OCPolarity TIM1_OCIdleState : Z) :
    prog machine unit :=
  and_reg TIM1_CCER2 (u8 (Z.lnot (Z.lor TIM1_CCER2_CC4E TIM1_CCER2_CC4P))) ;;
  or_reg TIM1_CCER2 (u8 (Z.lor (u8 (Z.land TIM1_OutputState TIM1_CCER2_CC4E)) (u8 (Z.land TIM1_OCPolarity TIM1_CCER2_CC4P)))) ;;
  put_field TIM1_CCMR4 TIM1_CCMR_OCM TIM1_OCMode ;;
  (if negb (TIM1_OCIdleState =? TIM1_OCIDLESTATE_RESET)
   then or_reg TIM1_OISR (u8 (Z.lnot TIM1_CCER2_CC4P))
   else and_reg TIM1_OISR (u8 (Z.lnot TIM1_OISR_OIS4))) ;;
  store TIM1_CCR4H (u8 (Z.shiftr TIM1_Pulse 8)) ;;
  store TIM1_CCR4L (u8 TIM1_Pulse).

Definition TIM1_BDTRConfig (TIM1_OSSIState TIM1_LockLevel TIM1_DeadTime TIM1_Break TIM1_BreakPolarity
    TIM1_AutomaticOutput : Z) : prog machine unit :=
  store TIM1_DTR (u8 TIM1_DeadTime) ;;
  store TIM1_BKR (u8 (Z.lor (u8 (Z.lor TIM1_OSSIState (u8 TIM1_LockLevel)))
    (u8 (Z.lor (Z.lor TIM1_Break (u8 TIM1_BreakPolarity)) (u8 TIM1_AutomaticOutput))))).

Definition TIM1_ForcedOC1Config (TIM1_ForcedAction : Z) : prog machine unit :=
  put_field TIM1_CCMR1 TIM1_CCMR_OCM (u8 TIM1_ForcedAction).

Definition TIM1_ForcedOC2Config (TIM1_ForcedAction : Z) : prog machine unit :=
  put_field TIM1_CCMR2 TIM1_CCMR_OCM (u8 TIM1_ForcedAction).

Definition TIM1_ForcedOC3Config (TIM1_ForcedAction : Z) : prog machine unit :=
  put_field TIM1_CCMR3 TIM1_CCMR_OCM (u8 TIM1_ForcedAction).

Definition TIM1_ForcedOC4Config (TIM1_ForcedAction : Z) : prog machine unit :=
  put_field TIM1_CCMR4 TIM1_CCMR_OCM (u8 TIM1_ForcedAction).

Definition TIM1_SelectCOM (NewState : FunctionalState) : prog machine unit :=
  match NewState with
  | ENABLE => or_reg TIM1_CR2 TIM1_CR2_COMS
  | DISABLE => and_reg TIM1_CR2 (u8 (Z.lnot TIM1_CR2_COMS))
  end.

Definition TIM1_CCPreloadControl (NewState : FunctionalState) : prog machine unit :=
  match NewState with
  | ENABLE => or_reg TIM1_CR2 TIM1_CR2_CCPC
  | DISABLE => and_reg TIM1_CR2 (u8 (Z.lnot TIM1_CR2_CCPC))
  end.

Definition TIM1_OC1PreloadConfig (NewState : FunctionalState) : prog machine unit :=
  match NewState with
  | ENABLE => or_reg TIM1_CCMR1 TIM1_CCMR_OCxPE
  | DISABLE => and_reg TIM1_CCMR1 (u8 (Z.lnot TIM1_CCMR_OCxPE))
  end.

Definition TIM1_OC2PreloadConfig (NewState : FunctionalState) : prog machine unit :=
  match NewState with
  | ENABLE => or_reg TIM1_CCMR2 TIM1_CCMR_OCxPE
  | DISABLE => and_reg TIM1_CCMR2 (u8 (Z.lnot TIM1_CCMR_OCxPE))
  end.

Definition TIM1_OC3PreloadConfig (NewState : FunctionalState) : prog machine unit :=
  match NewState with
  | ENABLE => or_reg TIM1_CCMR3 TIM1_CCMR_OCxPE
  | DISABLE => and_reg TIM1_CCMR3 (u8 (Z.lnot TIM1_CCMR_OCxPE))
  end.

Definition TIM1_OC4PreloadConfig (NewState : FunctionalState) : prog machine unit :=
  match NewState with
  | ENABLE => or_reg TIM1_CCMR4 TIM1_CCMR_OCxPE
  | DISABLE => and_reg TIM1_CCMR4 (u8 (Z.lnot TIM1_CCMR_OCxPE))
  end.

Definition TIM1_OC1FastConfig (NewState : FunctionalState) : prog machine unit :=
  match NewState with
  | ENABLE => or_reg TIM1_CCMR1 TIM1_CCMR_OCxFE
  | DISABLE => and_reg TIM1_CCMR1 (u8 (Z.lnot TIM1_CCMR_OCxFE))
  end.

Definition TIM1_OC2FastConfig (NewState : FunctionalState) : prog machine unit :=
  match NewState with
  | ENABLE => or_reg TIM1_CCMR2 TIM1_CCMR_OCxFE
  | DISABLE => and_reg TIM1_CCMR2 (u8 (Z.lnot TIM1_CCMR_OCxFE))
  end.

Definition TIM1_OC3FastConfig (NewState : FunctionalState) : prog machine unit :=
  match NewState with
  | ENABLE => or_reg TIM1_CCMR3 TIM1_CCMR_OCxFE
  | DISABLE => and_reg TIM1_CCMR3 (u8 (Z.lnot TIM1_CCMR_OCxFE))
  end.

Definition TIM1_OC4FastConfig (NewState : FunctionalState) : prog machine unit :=
  match NewState with
  | ENABLE => or_reg TIM1_CCMR4 TIM1_CCMR_OCxFE
  | DISABLE => and_reg TIM1_CCMR4 (u8 (Z.lnot TIM1_CCMR_OCxFE))
  end.

Definition TIM1_OC1PolarityConfig (TIM1_OCPolarity : Z) : prog machine unit :=
  if negb (TIM1_OCPolarity =? TIM1_OCPOLARITY_HIGH)
  then or_reg TIM1_CCER1 TIM1_CCER1_CC1P
  else and_reg TIM1_CCER1 (u8 (Z.lnot TIM1_CCER1_CC1P)).

Definition TIM1_OC1NPolarityConfig (TIM1_OCNPolarity : Z) : prog machine unit :=
  if negb (TIM1_OCNPolarity =? TIM1_OCNPOLARITY_HIGH)
  then or_reg TIM1_CCER1 TIM1_CCER1_CC1NP
  else and_reg TIM1_CCER1 (u8 (Z.lnot TIM1_CCER1_CC1NP)).

Definition TIM1_OC2PolarityConfig (TIM1_OCPolarity : Z) : prog machine unit :=
  if negb (TIM1_OCPolarity =? TIM1_OCPOLARITY_HIGH)
  then or_reg TIM1_CCER1 TIM1_CCER1_CC2P
  else and_reg TIM1_CCER1 (u8 (Z.lnot TIM1_CCER1_CC2P)).

Definition TIM1_OC2NPolarityConfig (TIM1_OCNPolarity : Z) : prog machine unit :=
  if negb (TIM1_OCNPolarity =? TIM1_OCNPOLARITY_HIGH)
  then or_reg TIM1_CCER1 TIM1_CCER1_CC2NP
  else and_reg TIM1_CCER1 (u8 (Z.lnot TIM1_CCER1_CC2NP)).

Definition TIM1_OC3PolarityConfig (TIM1_OCPolarity : Z) : prog machine unit :=
  if negb (TIM1_OCPolarity =? TIM1_OCPOLARITY_HIGH)
  then or_reg TIM1_CCER2 TIM1_CCER2_CC3P
  else and_reg TIM1_CCER2 (u8 (Z.lnot TIM1_CCER2_CC3P)).

Definition TIM1_OC3NPolarityConfig (TIM1_OCNPolarity : Z) : prog machine unit :=
  if negb (TIM1_OCNPolarity =? TIM1_OCNPOLARITY_HIGH)
  then or_reg TIM1_CCER2 TIM1_CCER2_CC3NP
  else and_reg TIM1_CCER2 (u8 (Z.lnot TIM1_CCER2_CC3NP)).

Definition TIM1_OC4PolarityConfig (TIM1_OCPolarity : Z) : prog machine unit :=
  if negb (TIM1_OCPolarity =? TIM1_OCPOLARITY_HIGH)
  then or_reg TIM1_CCER2 TIM1_CCER2_CC4P
  else and_reg TIM1_CCER2 (u8 (Z.lnot TIM1_CCER2_CC4P)).

Definition TIM1_CCxCmd (TIM1_Channel : Z) (NewState : FunctionalState) : prog machine unit :=
  if TIM1_Channel =? TIM1_CHANNEL_1 then
    match NewState with
    | ENABLE => or_reg TIM1_CCER1 TIM1_CCER1_CC1E
    | DISABLE => and_reg TIM1_CCER1 (u8 (Z.lnot TIM1_CCER1_CC1E))
    end
  else if TIM1_Channel =? TIM1_CHANNEL_2 then
    match NewState with
    | ENABLE => or_reg TIM1_CCER1 TIM1_CCER1_CC2E
    | DISABLE => and_reg TIM1_CCER1 (u8 (Z.lnot TIM1_CCER1_CC2E))
    end
  else if TIM1_Channel =? TIM1_CHANNEL_3 then
    match NewState with
    | ENABLE => or_reg TIM1_CCER2 TIM1_CCER2_CC3E
    | DISABLE => and_reg TIM1_CCER2 (u8 (Z.lnot TIM1_CCER2_CC3E))
    end
  else
    match NewState with
    | ENABLE => or_reg TIM1_CCER2 TIM1_CCER2_CC4E
    | DISABLE => and_reg TIM1_CCER2 (u8 (Z.lnot TIM1_CCER2_CC4E))
    end.

Definition TIM1_CCxNCmd (TIM1_Channel : Z) (NewState : FunctionalState) : prog machine unit :=
  if TIM1_Channel =? TIM1_CHANNEL_1 then
    match NewState with
    | ENABLE => or_reg TIM1_CCER1 TIM1_CCER1_CC1NE
    | DISABLE => and_reg TIM1_CCER1 (u8 (Z.lnot TIM1_CCER1_CC1NE))
    end
  else if TIM1_Channel =? TIM1_CHANNEL_2 then
    match NewState with
    | ENABLE => or_reg TIM1_CCER1 TIM1_CCER1_CC2NE
    | DISABLE => and_reg TIM1_CCER1 (u8 (Z.lnot TIM1_CCER1_CC2NE))
    end
  else
    match NewState with
    | ENABLE => or_reg TIM1_CCER2 TIM1_CCER2_CC3NE
    | DISABLE => and_reg TIM1_CCER2 (u8 (Z.lnot TIM1_CCER2_CC3NE))
    end.

Definition TIM1_SelectOCxM (TIM1_Channel TIM1_OCMode : Z) : prog machine unit :=
  if TIM1_Channel =? TIM1_CHANNEL_1 then
    and_reg TIM1_CCER1 (u8 (Z.lnot TIM1_CCER1_CC1E)) ;;
    put_field TIM1_CCMR1 TIM1_CCMR_OCM (u8 TIM1_OCMode)
  else if TIM1_Channel =? TIM1_CHANNEL_2 then
    and_reg TIM1_CCER1 (u8 (Z.lnot TIM1_CCER1_CC2E)) ;;
    put_field TIM1_CCMR2 TIM1_CCMR_OCM (u8 TIM1_OCMode)
  else if TIM1_Channel =? TIM1_CHANNEL_3 then
    and_reg TIM1_CCER2 (u8 (Z.lnot TIM1_CCER2_CC3E)) ;;
    put_field TIM1_CCMR3 TIM1_CCMR_OCM (u8 TIM1_OCMode)
  else
    and_reg TIM1_CCER2 (u8 (Z.lnot TIM1_CCER2_CC4E)) ;;
    put_field TIM1_CCMR4 TIM1_CCMR_OCM (u8 TIM1_OCMode).

(** *** Clock sources and triggers *)

Definition TIM1_InternalClockConfig : prog machine unit :=
  and_reg TIM1_SMCR (u8 (Z.lnot TIM1_SMCR_SMS)).

Definition TIM1_ETRConfig (TIM1_ExtTRGPrescaler TIM1_ExtTRGPolarity ExtTRGFilter : Z) : prog machine unit :=
  or_reg TIM1_ETR (u8 (Z.lor (u8 (Z.lor TIM1_ExtTRGPrescaler (u8 TIM1_ExtTRGPolarity))) (u8 ExtTRGFilter))).

Definition TIM1_ETRClockMode1Config (TIM1_ExtTRGPrescaler TIM1_ExtTRGPolarity ExtTRGFilter : Z) : prog machine unit :=
  TIM1_ETRConfig TIM1_ExtTRGPrescaler TIM1_ExtTRGPolarity ExtTRGFilter ;;
  put_field TIM1_SMCR (u8 (Z.lor TIM1_SMCR_SMS TIM1_SMCR_TS)) (u8 (Z.lor (u8 TIM1_SLAVEMODE_EXTERNAL1) TIM1_TS_ETRF)).

Definition TIM1_ETRClockMode2Config (TIM1_ExtTRGPrescaler TIM1_ExtTRGPolarity ExtTRGFilter : Z) : prog machine unit :=
  TIM1_ETRConfig TIM1_ExtTRGPrescaler TIM1_ExtTRGPolarity ExtTRGFilter ;;
  or_reg TIM1_ETR TIM1_ETR_ECE.

Definition TIM1_SelectInputTrigger (TIM1_InputTriggerSource : Z) : prog machine unit :=
  put_field TIM1_SMCR TIM1_SMCR_TS (u8 TIM1_InputTriggerSource).

Definition TIM1_TIxExternalClockConfig (TIM1_TIxExternalCLKSource TIM1_ICPolarity ICFilter : Z) : prog machine unit :=
  (if TIM1_TIxExternalCLKSource =? TIM1_TIXEXTERNALCLK1SOURCE_TI2
   then TI2_Config (u8 TIM1_ICPolarity) (u8 TIM1_ICSELECTION_DIRECTTI) (u8 ICFilter)
   else TI1_Config (u8 TIM1_ICPolarity) (u8 TIM1_ICSELECTION_DIRECTTI) (u8 ICFilter)) ;;
  TIM1_SelectInputTrigger TIM1_TIxExternalCLKSource ;;
  or_reg TIM1_SMCR (u8 TIM1_SLAVEMODE_EXTERNAL1).

Definition TIM1_SelectOutputTrigger (TIM1_TRGOSource : Z) : prog machine unit :=
  put_field TIM1_CR2 TIM1_CR2_MMS (u8 TIM1_TRGOSource).

Definition TIM1_SelectSlaveMode (TIM1_SlaveMode : Z) : prog machine unit :=
  put_field TIM1_SMCR TIM1_SMCR_SMS (u8 TIM1_SlaveMode).

Definition TIM1_SelectMasterSlaveMode (NewState : FunctionalState) : prog machine unit :=
  match NewState with
  | ENABLE => or_reg TIM1_SMCR TIM1_SMCR_MSM
  | DISABLE => and_reg TIM1_SMCR (u8 (Z.lnot TIM1_SMCR_MSM))
  end.

Definition TIM1_EncoderInterfaceConfig (TIM1_EncoderMode TIM1_IC1Polarity TIM1_IC2Polarity : Z) : prog machine unit :=
  (if negb (TIM1_IC1Polarity =? TIM1_ICPOLARITY_RISING)
   then or_reg TIM1_CCER1 TIM1_CCER1_CC1P
   else and_reg TIM1_CCER1 (u8 (Z.lnot TIM1_CCER1_CC1P))) ;;
  (if negb (TIM1_IC2Polarity =? TIM1_ICPOLARITY_RISING)
   then or_reg TIM1_CCER1 TIM1_CCER1_CC2P
   else and_reg TIM1_CCER1 (u8 (Z.lnot TIM1_CCER1_CC2P))) ;;
  (let! smcr := load TIM1_SMCR in
   store TIM1_SMCR (Z.lor (u8 (Z.land smcr (u8 (Z.lor TIM1_SMCR_MSM TIM1_SMCR_TS)))) (u8 TIM1_EncoderMode))) ;;
  put_field TIM1_CCMR1 TIM1_CCMR_CCxS (u8 CCMR_TIxDirect_Set) ;;
  put_field TIM1_CCMR2 TIM1_CCMR_CCxS (u8 CCMR_TIxDirect_Set).
End Driver.

(** ** Channels

    Channel [n] (from 0) has its mode register, and four bits of an enable
    register: enable, polarity, complementary enable, complementary polarity. *)
Definition ccmr (n : Z) : Z := TIM1_CCMR1 + n.
Definition ccer (n : Z) : Z := TIM1_CCER1 + n / 2.
Definition ccer_bit (n : Z) : Z := 4 * (n mod 2).

Definition channels : list Z := [TIM1_CHANNEL_1; TIM1_CHANNEL_2; TIM1_CHANNEL_3; TIM1_CHANNEL_4].

(** The complementary output of a channel, which channel 4 has not, is on. *)
Definition complement_on (m : mem) (n : Z) : bool :=
  negb (n =? TIM1_CHANNEL_4) && Z.testbit (m (ccer n)) (ccer_bit n + 2).

(** What a store of [v] to the mode register of channel [n] leaves: the
    direction bits [CCxS] change only while the channel is off. *)
Definition ccmr_write (m : mem) (n v : Z) : Z :=
  if Z.testbit (m (ccer n)) (ccer_bit n) || complement_on m n
  then Z.lor (Z.land v 0xFC) (Z.land (m (ccmr n)) TIM1_CCMR_CCxS) else v.

(** ** Laws

    RM0016, "TIM1 registers", at lock level 0, the only one the program uses:
    the configuration registers are latches, but for the direction bits of a
    mode register.  The compare registers have no law: a channel that captures
    writes its own. *)
Definition tim1_config : list Z := [TIM1_CR2; TIM1_SMCR; TIM1_ETR; TIM1_CCER1; TIM1_CCER2; TIM1_OISR].

Class Tim1Laws (HW : Hardware) : Prop := {
  tim1_latch a : a ∈ tim1_config -> latch a;
  tim1_ccmr_stable n : n ∈ channels -> stable (ccmr n);
  tim1_ccmr_load n m h : n ∈ channels -> fst (hw_load (ccmr n) (m, h)) = m (ccmr n);
  tim1_ccmr_store n v m h : n ∈ channels -> fst (hw_store (ccmr n) v (m, h)) (ccmr n) = ccmr_write m n (u8 v)
}.

(** ** Programs as functions of the configuration registers *)

Section Acts.
Context {HW : Hardware} {TL : Tim1Laws HW}.

(** The addresses of the compare and capture registers. *)
Definition capture_reg (a : Z) : Prop := TIM1_CCR1H <= a <= TIM1_CCR4L.

(** Equal at every stable cell that is not a capture register. *)
Definition agree (m m' : mem) : Prop := forall d, stable d -> ~ capture_reg d -> m' d = m d.

#[export] Instance agree_equiv : Equivalence agree.
Proof.
  split.
  - by intros m d.
  - intros m m' H d Hd Hc. by rewrite H.
  - intros m1 m2 m3 H12 H23 d Hd Hc. by rewrite H23, H12.
Qed.

(** [acts m f]: whatever the hardware does, [m] returns and leaves the
    configuration registers as [f] computes them. *)
Definition acts (m : prog machine unit) (f : mem -> mem) : Prop :=
  Proper (agree ==> agree) f /\
  forall (E : fault -> machine -> Prop) (Q : unit -> machine -> Prop) s,
    (forall s', agree (f (cells s)) (cells s') -> rx s' = rx s -> Q tt s') -> wp E m Q s.

Lemma acts_bind m k f g : acts m f -> acts k g -> acts (m ;; k) (fun x => g (f x)).
Proof.
  intros [Pf Hf] [Pg Hg]. split.
  - intros x y Hxy. by apply Pg, Pf.
  - intros E Q s HQ. apply wp_bind, Hf. intros s1 A1 R1. apply Hg. intros s2 A2 R2.
    apply HQ; [|congruence]. etrans; [|exact A2]. by apply Pg.
Qed.

Lemma acts_conv m f g : acts m f -> (forall x, f x = g x) -> acts m g.
Proof.
  intros [Pf Hf] Hfg. split.
  - intros x y Hxy. rewrite <- !Hfg. by apply Pf.
  - intros E Q s HQ. apply Hf. by rewrite Hfg.
Qed.

Lemma acts_if (b : bool) m k f g : acts m f -> acts k g -> acts (if b then m else k) (fun x => if b then f x else g x).
Proof. destruct b; [by intros [? ?] _|by intros _ [? ?]]. Qed.

Lemma config_latch a : a ∈ tim1_config -> latch a /\ stable a /\ in_can_page a = false /\ ~ capture_reg a.
Proof using TL.
  intros Ha. pose proof (tim1_latch a Ha) as HL.
  split; [done|]. split; [by apply latch_stable|].
  unfold tim1_config in Ha. rewrite !elem_of_cons, elem_of_nil in Ha.
  unfold capture_reg, TIM1_CCR1H, TIM1_CCR4L.
  destruct Ha as [-> | [-> | [-> | [-> | [-> | [-> | []]]]]]];
    (split; [reflexivity|vm_compute; intros [? ?]; congruence]).
Qed.

Lemma agree_upd a v v' m m' : agree m m' -> v' = v -> agree (upd m a v) (upd m' a v').
Proof.
  intros H -> d Hd Hc. unfold upd. destruct (d =? a); [done|by apply H].
Qed.

Lemma acts_rmw a g :
  a ∈ tim1_config -> acts (let! x := load a in store a (g x)) (fun m => upd m a (u8 (g (u8 (m a))))).
Proof using TL.
  intros Ha. destruct (config_latch a Ha) as (HL & HS & Hp & Hc). split.
  - intros m m' H. apply agree_upd; [done|]. by rewrite H.
  - intros E Q s HQ. apply wp_rmw_latch; [done..|]. intros s' C' K' [R' _]. apply HQ; [|done].
    intros d Hd Hnc. unfold upd. destruct (Z.eqb_spec d a) as [->|Hne]; [done|by apply K'].
Qed.

Lemma acts_or a v : a ∈ tim1_config -> acts (or_reg a v) (fun m => upd m a (u8 (Z.lor (u8 (m a)) v))).
Proof using TL. apply (acts_rmw a (fun x => Z.lor x v)). Qed.

Lemma acts_and a v : a ∈ tim1_config -> acts (and_reg a v) (fun m => upd m a (u8 (Z.land (u8 (m a)) v))).
Proof using TL. apply (acts_rmw a (fun x => Z.land x v)). Qed.

(** A store to a capture register leaves the configuration as it is. *)
Lemma acts_capture a v : capture_reg a -> in_can_page a = false -> acts (store a v) (fun m => m).
Proof.
  intros Ha Hp. split; [by intros ? ?|]. intros E Q s HQ. apply wp_store_any. intros s' K' [R' _]. apply HQ; [|done].
  intros d Hd Hnc. rewrite cell_unpaged in K' by done. apply K'; [done|]. congruence.
Qed.

Lemma channels_range n : n ∈ channels <-> 0 <= n <= 3.
Proof.
  unfold channels, TIM1_CHANNEL_1, TIM1_CHANNEL_2, TIM1_CHANNEL_3, TIM1_CHANNEL_4.
  rewrite !elem_of_cons, elem_of_nil. lia.
Qed.

Lemma ccer_config n : n ∈ channels -> ccer n ∈ tim1_config.
Proof.
  unfold channels. rewrite !elem_of_cons, elem_of_nil. intros [-> | [-> | [-> | [-> | []]]]];
    apply list_elem_of_In; vm_compute; tauto.
Qed.

Lemma ccmr_unpaged n : n ∈ channels -> in_can_page (ccmr n) = false /\ ~ capture_reg (ccmr n).
Proof.
  rewrite channels_range. unfold in_can_page, capture_reg, ccmr, CAN_Page, CAN_BaseAddress, TIM1_CCMR1, TIM1_CCR1H,
    TIM1_CCR4L, TIM1_BaseAddress. intros. split; [cmp; done|lia].
Qed.

(** What [put_field] leaves in a mode register. *)
Definition ccmr_put (m : mem) (n mask value : Z) : Z :=
  ccmr_write m n (u8 (Z.lor (u8 (Z.land (u8 (m (ccmr n))) (u8 (Z.lnot mask)))) value)).

Lemma ccmr_write_agree n m m' v v' : n ∈ channels -> agree m m' -> v' = v -> ccmr_write m' n v' = ccmr_write m n v.
Proof using TL.
  intros Hn H ->. unfold ccmr_write, complement_on. destruct (config_latch _ (ccer_config n Hn)) as (_ & HS & _ & Hc).
  destruct (ccmr_unpaged n Hn) as [_ Hc']. rewrite !(H (ccer n)) by done.
  by rewrite (H (ccmr n)) by (done || by apply tim1_ccmr_stable).
Qed.

Lemma acts_field n mask value :
  n ∈ channels -> acts (put_field (ccmr n) mask value) (fun m => upd m (ccmr n) (ccmr_put m n mask value)).
Proof using TL.
  intros Hn. pose proof (tim1_ccmr_stable n Hn) as HS. destruct (ccmr_unpaged n Hn) as [Hp Hc]. split.
  - intros m m' H. apply agree_upd; [done|]. unfold ccmr_put.
    apply ccmr_write_agree; [done..|]. by rewrite (H (ccmr n)).
  - intros E Q s HQ. unfold put_field. apply wp_bind, wp_load. intros v p Hl _. apply wp_store.
    destruct HS as [HSl HSs].
    pose proof (tim1_ccmr_load n (cells s) (hid s) Hn) as Hv. unfold hw in Hl. rewrite Hl in Hv. simpl in Hv. subst v.
    assert (agree (cells s) (fst p)) as Hp1.
    { intros d [Hdl _] _. specialize (Hdl (ccmr n) (cells s) (hid s)). by rewrite Hl in Hdl. }
    apply HQ; [|done]. destruct p as [m1 h1]. simpl in Hp1. intros d Hd Hnc. unfold upd. unfold after_store, set_hw, hw. cbn [cells hid fst snd].
    destruct (Z.eqb_spec d (ccmr n)) as [->|Hne].
    + rewrite tim1_ccmr_store by done. rewrite u8_u8. by apply ccmr_write_agree.
    + destruct Hd as [Hdl Hds]. rewrite Hds by (rewrite cell_unpaged by done; congruence). by apply Hp1.
Qed.
End Acts.

(** ** Input capture *)

(** [TI1_Config .. TI4_Config] and [TIM1_ICInit], of any channel. *)
Section Capture.
Context {HW : Hardware}.

Definition bit_of (n k : Z) : Z := Z.shiftl 1 (ccer_bit n + k).

Definition ti_config (n TIM1_ICPolarity TIM1_ICSelection TIM1_ICFilter : Z) : prog machine unit :=
  and_reg (ccer n) (u8 (Z.lnot (bit_of n 0))) ;;
  put_field (ccmr n) (u8 (Z.lor TIM1_CCMR_CCxS TIM1_CCMR_ICxF))
    (u8 (Z.lor TIM1_ICSelection (u8 (Z.shiftl TIM1_ICFilter 4)))) ;;
  (if negb (TIM1_ICPolarity =? TIM1_ICPOLARITY_RISING)
   then or_reg (ccer n) (bit_of n 1)
   else and_reg (ccer n) (u8 (Z.lnot (bit_of n 1)))) ;;
  or_reg (ccer n) (bit_of n 0).

Lemma ti_config_eq :
  TI1_Config = ti_config TIM1_CHANNEL_1 /\ TI2_Config = ti_config TIM1_CHANNEL_2 /\
  TI3_Config = ti_config TIM1_CHANNEL_3 /\ TI4_Config = ti_config TIM1_CHANNEL_4.
Proof. repeat split. Qed.

Definition ic_init (n TIM1_ICPolarity TIM1_ICSelection TIM1_ICPrescaler TIM1_ICFilter : Z) : prog machine unit :=
  ti_config n (u8 TIM1_ICPolarity) (u8 TIM1_ICSelection) (u8 TIM1_ICFilter) ;;
  put_field (ccmr n) TIM1_CCMR_ICxPSC (u8 TIM1_ICPrescaler).

Lemma TIM1_ICInit_eq n pol sel psc flt : n ∈ channels -> TIM1_ICInit n pol sel psc flt = ic_init n pol sel psc flt.
Proof. unfold channels. rewrite !elem_of_cons, elem_of_nil. by intros [-> | [-> | [-> | [-> | []]]]]. Qed.

Lemma bind_assoc_run (a b c : prog machine unit) s : ((a ;; b) ;; c) s = (a ;; b ;; c) s.
Proof. unfold bind. by destruct (a s). Qed.

(** The two channels of a PWM input see opposite edges of one pin. *)
Lemma TIM1_PWMIConfig_eq n pol sel psc flt s : n ∈ [TIM1_CHANNEL_1; TIM1_CHANNEL_2] ->
  pol ∈ [TIM1_ICPOLARITY_RISING; TIM1_ICPOLARITY_FALLING] ->
  sel ∈ [TIM1_ICSELECTION_DIRECTTI; TIM1_ICSELECTION_INDIRECTTI] -> is_u8 flt ->
  TIM1_PWMIConfig n pol sel psc flt s = (ic_init n pol sel psc flt ;; ic_init (1 - n) (1 - pol) (3 - sel) psc flt) s.
Proof.
  rewrite !elem_of_cons, !elem_of_nil. intros [-> | [-> | []]] [-> | [-> | []]] [-> | [-> | []]] Hf;
    unfold TIM1_PWMIConfig, ic_init; rewrite (u8_small flt) by done; by rewrite bind_assoc_run.
Qed.

(** *** What the configuration of a channel leaves *)

Definition ti_effect (n pol sel flt : Z) (m : mem) : mem :=
  let m := upd m (ccer n) (u8 (Z.land (u8 (m (ccer n))) (u8 (Z.lnot (bit_of n 0))))) in
  let m := upd m (ccmr n) (ccmr_put m n (u8 (Z.lor TIM1_CCMR_CCxS TIM1_CCMR_ICxF)) (u8 (Z.lor sel (u8 (Z.shiftl flt 4))))) in
  let m := if negb (pol =? TIM1_ICPOLARITY_RISING)
           then upd m (ccer n) (u8 (Z.lor (u8 (m (ccer n))) (bit_of n 1)))
           else upd m (ccer n) (u8 (Z.land (u8 (m (ccer n))) (u8 (Z.lnot (bit_of n 1))))) in
  upd m (ccer n) (u8 (Z.lor (u8 (m (ccer n))) (bit_of n 0))).

Definition ic_effect (n pol sel psc flt : Z) (m : mem) : mem :=
  let m := ti_effect n (u8 pol) (u8 sel) (u8 flt) m in
  upd m (ccmr n) (ccmr_put m n TIM1_CCMR_ICxPSC (u8 psc)).

Lemma acts_ic_init {TL : Tim1Laws HW} n pol sel psc flt :
  n ∈ channels -> acts (ic_init n pol sel psc flt) (ic_effect n pol sel psc flt).
Proof using.
  intros Hn. pose proof (ccer_config n Hn) as Hc. eapply acts_conv.
  - apply acts_bind; [|by apply acts_field]. apply acts_bind; [by apply acts_and|].
    apply acts_bind; [by apply acts_field|]. apply acts_bind; [|by apply acts_or].
    apply acts_if; [by apply acts_or|by apply acts_and].
  - done.
Qed.

Lemma channel_regs n : n ∈ channels -> 0 <= ccer_bit n <= 4 /\ (ccmr n =? ccer n) = false /\ (ccer n =? ccmr n) = false.
Proof.
  rewrite channels_range. intros Hn. unfold ccer_bit, ccmr, ccer, TIM1_CCMR1, TIM1_CCER1.
  pose proof (Z.mod_pos_bound n 2). pose proof (Z.div_pos n 2). split; [lia|]. split; apply Z.eqb_neq; lia.
Qed.

Lemma testbit_bit_of n k i : 0 <= ccer_bit n -> 0 <= k -> Z.testbit (bit_of n k) i = (i =? ccer_bit n + k).
Proof. intros. unfold bit_of. rewrite Z.shiftl_1_l, Z.pow2_bits_eqb by lia. apply Z.eqb_sym. Qed.

(** The enable register: the channel on, its polarity set, its other bits and
    the other channel of the register as before. *)
Lemma ic_effect_ccer n pol sel psc flt m i : n ∈ channels -> 0 <= i < 8 ->
  Z.testbit (ic_effect n pol sel psc flt m (ccer n)) i =
  if i =? ccer_bit n then true else if i =? ccer_bit n + 1 then negb (u8 pol =? TIM1_ICPOLARITY_RISING)
  else Z.testbit (m (ccer n)) i.
Proof.
  intros Hn Hi. destruct (channel_regs n Hn) as (Hb & Ene & Ene').
  unfold ic_effect, ti_effect. cbn zeta. unfold upd at 1. rewrite Ene'. unfold upd at 1. rewrite Z.eqb_refl.
  destruct (negb (u8 pol =? TIM1_ICPOLARITY_RISING)); unfold upd; rewrite ?Z.eqb_refl, ?Ene, ?Ene'; bits;
    rewrite !testbit_bit_of by lia; cmp; simpl; btauto.
Qed.

(** The mode register a capture configuration leaves, from the one before. *)
Definition capture_mode (old sel psc flt : Z) : Z :=
  let v := u8 (Z.lor (u8 (Z.land old (u8 (Z.lnot (u8 (Z.lor TIM1_CCMR_CCxS TIM1_CCMR_ICxF))))))
                (u8 (Z.lor (u8 sel) (u8 (Z.shiftl (u8 flt) 4))))) in
  Z.lor (Z.land (u8 (Z.lor (u8 (Z.land (u8 v) (u8 (Z.lnot TIM1_CCMR_ICxPSC)))) (u8 psc))) 0xFC) (Z.land v TIM1_CCMR_CCxS).

Lemma capture_mode_value old sel psc flt : is_u8 old -> sel ∈ [1; 2; 3] -> psc ∈ [0; 4; 8; 12] -> 0 <= flt < 16 ->
  capture_mode old sel psc flt = sel + psc + 16 * flt.
Proof.
  rewrite !elem_of_cons, !elem_of_nil. intros Ho Hs Hp Hf. apply Z.eqb_eq.
  revert old Ho. apply (byte_ind (fun old => capture_mode old sel psc flt =? sel + psc + 16 * flt)).
  revert flt Hf. apply (below_ind (fun flt => forallb (fun old => capture_mode old sel psc flt =? sel + psc + 16 * flt) bytes) 16).
  destruct Hs as [-> | [-> | [-> | []]]], Hp as [-> | [-> | [-> | [-> | []]]]]; vm_compute; reflexivity.
Qed.

(** The direction is written while the channel is off. *)
Lemma ti_effect_ccmr n pol sel flt m : n ∈ channels -> complement_on m n = false ->
  ti_effect n pol sel flt m (ccmr n) =
  u8 (Z.lor (u8 (Z.land (u8 (m (ccmr n))) (u8 (Z.lnot (u8 (Z.lor TIM1_CCMR_CCxS TIM1_CCMR_ICxF))))))
        (u8 (Z.lor sel (u8 (Z.shiftl flt 4))))).
Proof.
  intros Hn Hc. destruct (channel_regs n Hn) as (Hb & Ene & Ene').
  set (m1 := upd m (ccer n) (u8 (Z.land (u8 (m (ccer n))) (u8 (Z.lnot (bit_of n 0)))))).
  assert (forall i, 0 <= i < 8 -> Z.testbit (m1 (ccer n)) i = negb (i =? ccer_bit n) && Z.testbit (m (ccer n)) i) as Hm1.
  { intros i Hi. unfold m1, upd. rewrite Z.eqb_refl. bits. rewrite testbit_bit_of by lia. cmp; btauto. }
  assert (ccmr_write m1 n = fun v => v) as Hw.
  { unfold ccmr_write, complement_on in *. rewrite !Hm1 by lia. rewrite Z.eqb_refl.
    apply andb_false_iff in Hc as [-> | ->]; [done|]. by rewrite !andb_false_r. }
  transitivity (ccmr_put m1 n (u8 (Z.lor TIM1_CCMR_CCxS TIM1_CCMR_ICxF)) (u8 (Z.lor sel (u8 (Z.shiftl flt 4))))).
  - unfold ti_effect. cbn zeta. fold m1. unfold upd at 1. rewrite Ene.
    destruct (negb (pol =? TIM1_ICPOLARITY_RISING)); unfold upd; by rewrite ?Ene, Z.eqb_refl.
  - unfold ccmr_put. rewrite Hw. unfold m1, upd. by rewrite Ene.
Qed.

(** The mode register holds what was asked of it, and nothing else, when the
    channel has no complementary output on. *)
Lemma ic_effect_ccmr n pol sel psc flt m :
  n ∈ channels -> complement_on m n = false -> sel ∈ [1; 2; 3] -> psc ∈ [0; 4; 8; 12] -> 0 <= flt < 16 ->
  ic_effect n pol sel psc flt m (ccmr n) = sel + psc + 16 * flt.
Proof.
  intros Hn Hc Hs Hp Hf. destruct (channel_regs n Hn) as (Hb & Ene & Ene').
  rewrite <- (capture_mode_value (u8 (m (ccmr n))) sel psc flt) by (done || apply u8_range).
  unfold ic_effect. cbn zeta. unfold upd at 1. rewrite Z.eqb_refl. unfold ccmr_put at 1, ccmr_write at 1.
  assert (Z.testbit (ti_effect n (u8 pol) (u8 sel) (u8 flt) m (ccer n)) (ccer_bit n) = true) as ->.
  { unfold ti_effect. cbn zeta. unfold upd at 1. rewrite Z.eqb_refl. bits. rewrite testbit_bit_of by lia. by cmp. }
  cbn [orb]. by rewrite ti_effect_ccmr.
Qed.

Lemma ic_effect_other n pol sel psc flt m d : d <> ccmr n -> d <> ccer n -> ic_effect n pol sel psc flt m d = m d.
Proof.
  intros Hd1 Hd2. apply Z.eqb_neq in Hd1, Hd2. unfold ic_effect, ti_effect. cbn zeta.
  destruct (negb (u8 pol =? TIM1_ICPOLARITY_RISING)); unfold upd; by rewrite !Hd1, !Hd2.
Qed.
End Capture.

(** ** Output compare *)

(** [TIM1_OC1Init .. TIM1_OC3Init], of any channel that has a complementary
    output; idle bits [OISx] and [OISxN] are two per channel. *)
Section Compare.
Context {HW : Hardware}.

Definition idle_bit (n k : Z) : Z := Z.shiftl 1 (2 * n + k).
Definition ccrh (n : Z) : Z := TIM1_CCR1H + 2 * n.

Definition oc_init (n TIM1_OCMode TIM1_OutputState TIM1_OutputNState TIM1_Pulse TIM1_OCPolarity
    TIM1_OCNPolarity TIM1_OCIdleState TIM1_OCNIdleState : Z) : prog machine unit :=
  and_reg (ccer n) (u8 (Z.lnot (Z.lor (Z.lor (Z.lor (bit_of n 0) (bit_of n 2)) (bit_of n 1)) (bit_of n 3)))) ;;
  or_reg (ccer n) (u8 (Z.lor
    (u8 (Z.lor (u8 (Z.land TIM1_OutputState (bit_of n 0))) (u8 (Z.land TIM1_OutputNState (bit_of n 2)))))
    (u8 (Z.lor (u8 (Z.land TIM1_OCPolarity (bit_of n 1))) (u8 (Z.land TIM1_OCNPolarity (bit_of n 3))))))) ;;
  put_field (ccmr n) TIM1_CCMR_OCM (u8 TIM1_OCMode) ;;
  and_reg TIM1_OISR (u8 (Z.lnot (Z.lor (idle_bit n 0) (idle_bit n 1)))) ;;
  or_reg TIM1_OISR (u8 (Z.lor (u8 (Z.land TIM1_OCIdleState (idle_bit n 0))) (u8 (Z.land TIM1_OCNIdleState (idle_bit n 1))))) ;;
  store (ccrh n) (u8 (Z.shiftr TIM1_Pulse 8)) ;;
  store (ccrh n + 1) (u8 TIM1_Pulse).

Lemma TIM1_OC1Init_eq mode out outn pulse pol npol idle nidle :
  TIM1_OC1Init mode out outn pulse pol npol idle nidle = oc_init TIM1_CHANNEL_1 mode out outn pulse pol npol idle nidle.
Proof. done. Qed.

Lemma TIM1_OC2Init_eq mode out outn pulse pol npol idle nidle :
  TIM1_OC2Init mode out outn pulse pol npol idle nidle = oc_init TIM1_CHANNEL_2 mode out outn pulse pol npol idle nidle.
Proof. unfold TIM1_OC2Init. by rewrite (Z.land_comm TIM1_OISR_OIS2 idle), (Z.land_comm TIM1_OISR_OIS2N nidle). Qed.

Lemma TIM1_OC3Init_eq mode out outn pulse pol npol idle nidle :
  TIM1_OC3Init mode out outn pulse pol npol idle nidle = oc_init TIM1_CHANNEL_3 mode out outn pulse pol npol idle nidle.
Proof. unfold TIM1_OC3Init. by rewrite (Z.land_comm TIM1_OISR_OIS3 idle), (Z.land_comm TIM1_OISR_OIS3N nidle). Qed.

Definition oc_effect (n mode out outn pol npol idle nidle : Z) (m : mem) : mem :=
  let m := upd m (ccer n) (u8 (Z.land (u8 (m (ccer n)))
    (u8 (Z.lnot (Z.lor (Z.lor (Z.lor (bit_of n 0) (bit_of n 2)) (bit_of n 1)) (bit_of n 3)))))) in
  let m := upd m (ccer n) (u8 (Z.lor (u8 (m (ccer n))) (u8 (Z.lor
    (u8 (Z.lor (u8 (Z.land out (bit_of n 0))) (u8 (Z.land outn (bit_of n 2)))))
    (u8 (Z.lor (u8 (Z.land pol (bit_of n 1))) (u8 (Z.land npol (bit_of n 3))))))))) in
  let m := upd m (ccmr n) (ccmr_put m n TIM1_CCMR_OCM (u8 mode)) in
  let m := upd m TIM1_OISR (u8 (Z.land (u8 (m TIM1_OISR)) (u8 (Z.lnot (Z.lor (idle_bit n 0) (idle_bit n 1)))))) in
  upd m TIM1_OISR (u8 (Z.lor (u8 (m TIM1_OISR))
    (u8 (Z.lor (u8 (Z.land idle (idle_bit n 0))) (u8 (Z.land nidle (idle_bit n 1))))))).

Lemma oisr_config : TIM1_OISR ∈ tim1_config.
Proof. apply list_elem_of_In. vm_compute. tauto. Qed.

Lemma ccrh_capture n : n ∈ channels ->
  (capture_reg (ccrh n) /\ in_can_page (ccrh n) = false) /\ capture_reg (ccrh n + 1) /\ in_can_page (ccrh n + 1) = false.
Proof.
  rewrite channels_range. unfold ccrh, capture_reg, in_can_page, CAN_Page, CAN_BaseAddress, TIM1_CCR1H, TIM1_CCR4L,
    TIM1_BaseAddress. intros. repeat split; try lia; cmp; done.
Qed.

Lemma acts_oc_init {TL : Tim1Laws HW} n mode out outn pulse pol npol idle nidle :
  n ∈ channels ->
  acts (oc_init n mode out outn pulse pol npol idle nidle) (oc_effect n mode out outn pol npol idle nidle).
Proof using.
  intros Hn. pose proof (ccer_config n Hn) as Hc. pose proof oisr_config as Ho.
  destruct (ccrh_capture n Hn) as [[H1 H2] [H3 H4]]. eapply acts_conv.
  - apply acts_bind; [by apply acts_and|]. apply acts_bind; [by apply acts_or|].
    apply acts_bind; [by apply acts_field|]. apply acts_bind; [by apply acts_and|].
    apply acts_bind; [by apply acts_or|]. apply acts_bind; by apply acts_capture.
  - done.
Qed.

(** The arguments of a channel with a given state of its outputs. *)
Definition output_state (b : bool) : Z := if b then TIM1_OUTPUTSTATE_ENABLE else TIM1_OUTPUTSTATE_DISABLE.
Definition output_n_state (b : bool) : Z := if b then TIM1_OUTPUTNSTATE_ENABLE else TIM1_OUTPUTNSTATE_DISABLE.
Definition polarity (low : bool) : Z := if low then TIM1_OCPOLARITY_LOW else TIM1_OCPOLARITY_HIGH.
Definition polarity_n (low : bool) : Z := if low then TIM1_OCNPOLARITY_LOW else TIM1_OCNPOLARITY_HIGH.
Definition idle_state (b : bool) : Z := if b then TIM1_OCIDLESTATE_SET else TIM1_OCIDLESTATE_RESET.
Definition idle_n_state (b : bool) : Z := if b then TIM1_OCNIDLESTATE_SET else TIM1_OCNIDLESTATE_RESET.

(** A register with the bits at [k], [k + 1], ... replaced. *)
Definition with_bits (k : Z) (l : list bool) (old i : Z) : bool :=
  if (k <=? i) && (i <? k + Z.of_nat (length l)) then default false (l !! Z.to_nat (i - k)) else Z.testbit old i.

Definition paired_channels : list Z := [TIM1_CHANNEL_1; TIM1_CHANNEL_2; TIM1_CHANNEL_3].

Lemma paired_channels_cases n : n ∈ paired_channels -> n = 0 \/ n = 1 \/ n = 2.
Proof. unfold paired_channels. rewrite !elem_of_cons, !elem_of_nil. by intros [-> | [-> | [-> | []]]]; auto. Qed.

Lemma with_bits_u8 k l old i : 0 <= i < 8 -> with_bits k l (u8 old) i = with_bits k l old i.
Proof. intros Hi. unfold with_bits. rewrite testbit_u8 by lia. by replace (i <? 8) with true by lia. Qed.

Lemma with_bits_two k a b old i : 0 <= k ->
  with_bits k [a; b] old i = if i =? k then a else if i =? k + 1 then b else Z.testbit old i.
Proof.
  intros Hk. unfold with_bits. change (Z.of_nat (length [a; b])) with 2.
  destruct (Z.eqb_spec i k) as [->|Hne]; [|destruct (Z.eqb_spec i (k + 1)) as [->|Hne1]].
  - rewrite Z.sub_diag. replace (k <=? k) with true by lia. by replace (k <? k + 2) with true by lia.
  - replace (k + 1 - k) with 1 by lia. replace (k <=? k + 1) with true by lia. by replace (k + 1 <? k + 2) with true by lia.
  - by replace ((k <=? i) && (i <? k + 2)) with false by lia.
Qed.

(** The bits of a byte, by computation. *)
Lemma byte_bits (f g : Z -> Z -> bool) :
  forallb (fun old => forallb (fun i => Bool.eqb (f old i) (g old i)) [0; 1; 2; 3; 4; 5; 6; 7]) bytes = true ->
  forall old i, is_u8 old -> 0 <= i < 8 -> f old i = g old i.
Proof.
  intros H old i Ho Hi. apply (byte_ind _ H) in Ho. rewrite forallb_forall in Ho. apply Bool.eqb_prop, Ho.
  simpl. lia.
Qed.

Lemma oc_enable_bits n e ne p np old i : n ∈ paired_channels -> is_u8 old -> 0 <= i < 8 ->
  Z.testbit (u8 (Z.lor (u8 (u8 (Z.land old
    (u8 (Z.lnot (Z.lor (Z.lor (Z.lor (bit_of n 0) (bit_of n 2)) (bit_of n 1)) (bit_of n 3))))))) (u8 (Z.lor
    (u8 (Z.lor (u8 (Z.land (output_state e) (bit_of n 0))) (u8 (Z.land (output_n_state ne) (bit_of n 2)))))
    (u8 (Z.lor (u8 (Z.land (polarity p) (bit_of n 1))) (u8 (Z.land (polarity_n np) (bit_of n 3))))))))) i =
  with_bits (ccer_bit n) [e; p; ne; np] old i.
Proof.
  intros Hn. revert old i. apply byte_bits. apply paired_channels_cases in Hn.
  destruct Hn as [-> | [-> | ->]], e, ne, p, np; vm_compute; reflexivity.
Qed.

Lemma oc_idle_bits n id nid old i : n ∈ paired_channels -> is_u8 old -> 0 <= i < 8 ->
  Z.testbit (u8 (Z.lor (u8 (u8 (Z.land old (u8 (Z.lnot (Z.lor (idle_bit n 0) (idle_bit n 1)))))))
    (u8 (Z.lor (u8 (Z.land (idle_state id) (idle_bit n 0))) (u8 (Z.land (idle_n_state nid) (idle_bit n 1))))))) i =
  with_bits (2 * n) [id; nid] old i.
Proof.
  intros Hn. revert old i. apply byte_bits. apply paired_channels_cases in Hn.
  destruct Hn as [-> | [-> | ->]], id, nid; vm_compute; reflexivity.
Qed.

(** A mode written to a mode register, whether or not its channel is on: the
    direction bits are written back as they were. *)
Lemma oc_mode_bits (on b0 b1 b2 : bool) old i : is_u8 old -> 0 <= i < 8 ->
  let v := u8 (Z.lor (u8 (Z.land old (u8 (Z.lnot TIM1_CCMR_OCM)))) (u8 (16 * lsb_first [b0; b1; b2]))) in
  Z.testbit (if on then Z.lor (Z.land v 0xFC) (Z.land old TIM1_CCMR_CCxS) else v) i = with_bits 4 [b0; b1; b2] old i.
Proof. revert old i. apply byte_bits. destruct on, b0, b1, b2; vm_compute; reflexivity. Qed.

Lemma oisr_other n : n ∈ channels ->
  (TIM1_OISR =? ccer n) = false /\ (TIM1_OISR =? ccmr n) = false /\
  (ccer n =? TIM1_OISR) = false /\ (ccmr n =? TIM1_OISR) = false.
Proof.
  rewrite channels_range. intros Hn. unfold ccmr, ccer, TIM1_CCMR1, TIM1_CCER1, TIM1_OISR.
  pose proof (Z.div_lt_upper_bound n 2 2). repeat split; apply Z.eqb_neq; lia.
Qed.

Lemma land_u8_3 x : Z.land (u8 x) TIM1_CCMR_CCxS = Z.land x TIM1_CCMR_CCxS.
Proof.
  unfold TIM1_CCMR_CCxS. change 3 with (Z.ones 2). bitwise. cmp; btauto.
Qed.

(** What an output configuration leaves, bit by bit. *)
Lemma oc_effect_ccer n mode e ne p np id nid m i : n ∈ paired_channels -> 0 <= i < 8 ->
  Z.testbit (oc_effect n mode (output_state e) (output_n_state ne) (polarity p) (polarity_n np) id nid m (ccer n)) i =
  with_bits (ccer_bit n) [e; p; ne; np] (m (ccer n)) i.
Proof.
  intros Hn Hi. assert (n ∈ channels) as Hch by (apply paired_channels_cases in Hn; rewrite channels_range; lia).
  destruct (channel_regs n Hch) as (_ & Ene & Ene'), (oisr_other n Hch) as (E1 & E2 & E3 & E4).
  unfold oc_effect. cbn zeta. unfold upd. rewrite ?E3, ?Ene', ?Z.eqb_refl.
  rewrite <- with_bits_u8 by done. apply oc_enable_bits; [done|apply u8_range|done].
Qed.

Lemma oc_effect_oisr n mode out outn pol npol id nid m i : n ∈ paired_channels -> 0 <= i < 8 ->
  Z.testbit (oc_effect n mode out outn pol npol (idle_state id) (idle_n_state nid) m TIM1_OISR) i =
  with_bits (2 * n) [id; nid] (m TIM1_OISR) i.
Proof.
  intros Hn Hi. assert (n ∈ channels) as Hch by (apply paired_channels_cases in Hn; rewrite channels_range; lia).
  destruct (oisr_other n Hch) as (E1 & E2 & E3 & E4).
  unfold oc_effect. cbn zeta. unfold upd. rewrite ?Z.eqb_refl, ?E2, ?E1.
  rewrite <- with_bits_u8 by done. apply oc_idle_bits; [done|apply u8_range|done].
Qed.

Lemma oc_effect_ccmr n b0 b1 b2 out outn pol npol id nid m i : n ∈ paired_channels -> 0 <= i < 8 ->
  Z.testbit (oc_effect n (16 * lsb_first [b0; b1; b2]) out outn pol npol id nid m (ccmr n)) i =
  with_bits 4 [b0; b1; b2] (m (ccmr n)) i.
Proof.
  intros Hn Hi. assert (n ∈ channels) as Hch by (apply paired_channels_cases in Hn; rewrite channels_range; lia).
  destruct (channel_regs n Hch) as (_ & Ene & Ene'), (oisr_other n Hch) as (E1 & E2 & E3 & E4).
  unfold oc_effect. cbn zeta. set (m1 := upd (upd m (ccer n) _) (ccer n) _).
  assert (m1 (ccmr n) = m (ccmr n)) as Hm1 by (unfold m1, upd; by rewrite Ene).
  unfold upd at 1. rewrite E4. unfold upd at 1. rewrite E4. unfold upd at 1. rewrite Z.eqb_refl.
  unfold ccmr_put. rewrite Hm1. unfold ccmr_write. rewrite Hm1, <- land_u8_3, <- (with_bits_u8 _ _ (m (ccmr n))) by done.
  apply oc_mode_bits; [apply u8_range|done].
Qed.

Lemma oc_effect_other n mode out outn pol npol id nid m d :
  d <> ccmr n -> d <> ccer n -> d <> TIM1_OISR -> oc_effect n mode out outn pol npol id nid m d = m d.
Proof.
  intros Hd1 Hd2 Hd3. apply Z.eqb_neq in Hd1, Hd2, Hd3. unfold oc_effect. cbn zeta.
  unfold upd. by rewrite !Hd1, !Hd2, !Hd3.
Qed.
End Compare.

(** ** Theorems *)

Section Theorems.
Context {HW : Hardware} {TL : Tim1Laws HW}.

(** A run of a program that acts on the configuration registers. *)
Lemma acts_run m f (Q : unit -> machine -> Prop) s :
  acts m f -> (forall s', agree (f (cells s)) (cells s') -> Q tt s') -> wp total m Q s.
Proof. intros [_ H] HQ. apply H. auto. Qed.

Lemma agree_regs m m' n : agree m m' -> n ∈ channels ->
  m' (ccmr n) = m (ccmr n) /\ m' (ccer n) = m (ccer n) /\ m' TIM1_OISR = m TIM1_OISR.
Proof using TL.
  intros H Hn. destruct (ccmr_unpaged n Hn) as [_ Hc].
  destruct (config_latch _ (ccer_config n Hn)) as (_ & HS & _ & Hc').
  destruct (config_latch _ oisr_config) as (_ & HS' & _ & Hc'').
  split; [|split]; apply H; try done. by apply tim1_ccmr_stable.
Qed.

(** [TIM1_ICInit] puts a channel into capture with just the requested
    input, prescaler and filter in its mode register, although the direction
    can be written only while the channel is off, and turns the channel on with
    the requested edge; no bit of another channel changes. *)
Theorem input_capture n pol sel psc flt s :
  n ∈ channels -> complement_on (cells s) n = false ->
  pol ∈ [TIM1_ICPOLARITY_RISING; TIM1_ICPOLARITY_FALLING] -> sel ∈ [1; 2; 3] -> psc ∈ [0; 4; 8; 12] -> 0 <= flt < 16 ->
  wp total (TIM1_ICInit n pol sel psc flt) (fun _ s' =>
    cells s' (ccmr n) = sel + psc + 16 * flt /\
    (forall i, 0 <= i < 8 -> Z.testbit (cells s' (ccer n)) i =
       with_bits (ccer_bit n) [true; bool_decide (pol = TIM1_ICPOLARITY_FALLING)] (cells s (ccer n)) i) /\
    (forall d, stable d -> ~ capture_reg d -> d <> ccmr n -> d <> ccer n -> cells s' d = cells s d)) s.
Proof.
  intros Hn Hc Hp Hs Hpsc Hf. rewrite TIM1_ICInit_eq by done. eapply acts_run; [by apply acts_ic_init|].
  intros s' A. destruct (agree_regs _ _ n A Hn) as (Am & Ae & _). split; [|split].
  - rewrite Am. by apply ic_effect_ccmr.
  - intros i Hi. destruct (channel_regs n Hn) as [Hb _].
    rewrite Ae, ic_effect_ccer, with_bits_two by (done || lia).
    rewrite !elem_of_cons, !elem_of_nil in Hp. by destruct Hp as [-> | [-> | []]].
  - intros d Hd Hnc Hd1 Hd2. rewrite (A d) by done. by apply ic_effect_other.
Qed.

(** [TIM1_OC1Init .. TIM1_OC3Init] set the four enable and polarity bits, the
    mode and the two idle bits of their channel as asked; no bit of another
    channel changes. *)
Theorem output_compare n (e p ne np b0 b1 b2 id nid : bool) pulse s :
  n ∈ paired_channels ->
  wp total (match n with 0 => TIM1_OC1Init | 1 => TIM1_OC2Init | _ => TIM1_OC3Init end
              (16 * lsb_first [b0; b1; b2]) (output_state e) (output_n_state ne) pulse
              (polarity p) (polarity_n np) (idle_state id) (idle_n_state nid)) (fun _ s' =>
    (forall i, 0 <= i < 8 ->
       Z.testbit (cells s' (ccer n)) i = with_bits (ccer_bit n) [e; p; ne; np] (cells s (ccer n)) i /\
       Z.testbit (cells s' (ccmr n)) i = with_bits 4 [b0; b1; b2] (cells s (ccmr n)) i /\
       Z.testbit (cells s' TIM1_OISR) i = with_bits (2 * n) [id; nid] (cells s TIM1_OISR) i) /\
    (forall d, stable d -> ~ capture_reg d -> d <> ccmr n -> d <> ccer n -> d <> TIM1_OISR -> cells s' d = cells s d)) s.
Proof.
  intros Hn. assert (n ∈ channels) as Hch by (apply paired_channels_cases in Hn; rewrite channels_range; lia).
  eapply acts_run.
  - pose proof (acts_oc_init n (16 * lsb_first [b0; b1; b2]) (output_state e) (output_n_state ne) pulse
      (polarity p) (polarity_n np) (idle_state id) (idle_n_state nid) Hch) as H.
    apply paired_channels_cases in Hn. destruct Hn as [-> | [-> | ->]];
      [rewrite TIM1_OC1Init_eq|rewrite TIM1_OC2Init_eq|rewrite TIM1_OC3Init_eq]; exact H.
  - intros s' A. destruct (agree_regs _ _ n A Hch) as (Am & Ae & Ao). split.
    + intros i Hi. rewrite Am, Ae, Ao. split; [by apply oc_effect_ccer|]. split; [by apply oc_effect_ccmr|by apply oc_effect_oisr].
    + intros d Hd Hnc H1 H2 H3. rewrite (A d) by done. by apply oc_effect_other.
Qed.

(** [TIM1_OC4Init] asked for an idle level of 1 sets the idle bits of the other
    channels too: it ors the complement of [TIM1_CCER2_CC4P] into the register. *)
Theorem oc4_sets_other_idle_states mode out pulse pol s i :
  0 <= i < 8 -> i <> 5 ->
  wp total (TIM1_OC4Init mode out pulse pol TIM1_OCIDLESTATE_SET)
    (fun _ s' => Z.testbit (cells s' TIM1_OISR) i = true) s.
Proof.
  intros Hi Hne. pose proof oisr_config as Ho. pose proof (ccer_config TIM1_CHANNEL_4) as Hc.
  destruct (ccrh_capture TIM1_CHANNEL_4) as [[H1 H2] [H3 H4]]; [by apply channels_range|].
  eapply acts_run.
  - unfold TIM1_OC4Init. cbn [TIM1_OCIDLESTATE_SET TIM1_OCIDLESTATE_RESET Z.eqb negb].
    apply acts_bind; [by apply acts_and, Hc, channels_range|]. apply acts_bind; [by apply acts_or, Hc, channels_range|].
    apply acts_bind; [by apply (acts_field TIM1_CHANNEL_4), channels_range|]. apply acts_bind; [by apply acts_or|].
    apply acts_bind; by apply acts_capture.
  - intros s' A. destruct (agree_regs _ _ TIM1_CHANNEL_4 A) as (_ & _ & ->); [by apply channels_range|].
    unfold upd at 1. rewrite Z.eqb_refl. bits. apply bit_index_cases in Hi.
    destruct Hi as [-> | [-> | [-> | [-> | [-> | [-> | [-> | ->]]]]]]]; try lia; apply orb_true_r.
Qed.

(** [TIM1_ETRConfig] only ever sets bits: a prescaler or a filter set before is
    not replaced. *)
Theorem etr_config_accumulates psc pol flt s i :
  0 <= i < 8 ->
  wp total (TIM1_ETRConfig psc pol flt) (fun _ s' => Z.testbit (cells s' TIM1_ETR) i =
    Z.testbit (cells s TIM1_ETR) i || Z.testbit psc i || Z.testbit pol i || Z.testbit flt i) s.
Proof.
  intros Hi. assert (TIM1_ETR ∈ tim1_config) as He by (apply list_elem_of_In; vm_compute; tauto).
  eapply acts_run; [by apply acts_or|]. intros s' A.
  destruct (config_latch _ He) as (_ & HS & _ & Hc). rewrite (A TIM1_ETR) by done.
  unfold upd. rewrite Z.eqb_refl. bits. replace (i <? 8) with true by lia. btauto.
Qed.
End Theorems.

(** ** A timer *)

(** Registers that are plain memory, but for the direction bits. *)
#[export] Instance timer : Hardware := {|
  hidden := unit;
  hw_load a p := (fst p a, p);
  hw_store a v p :=
    (upd (fst p) a (if (TIM1_CCMR1 <=? a) && (a <=? TIM1_CCMR4) then ccmr_write (fst p) (a - TIM1_CCMR1) (u8 v) else u8 v), snd p);
  indet p k := 0
|}.

Lemma timer_stable c : in_can_page c = false -> stable c.
Proof.
  intros Hc. split; [done|]. intros a v m h Hne. apply upd_ne. intros ->. apply Hne. by apply cell_unpaged.
Qed.

#[export] Instance timer_laws : Tim1Laws timer.
Proof.
  split.
  - intros a Ha. assert (in_can_page a = false /\ (TIM1_CCMR1 <=? a) && (a <=? TIM1_CCMR4) = false /\ a < 0x1000000) as (Hp & Hm & Hlt).
    { unfold tim1_config in Ha. rewrite !elem_of_cons, !elem_of_nil in Ha.
      destruct Ha as [-> | [-> | [-> | [-> | [-> | [-> | []]]]]]]; done. }
    destruct (timer_stable a Hp) as [H1 H2]. split; [|split; [|split; [exact H1|exact H2]]].
    + intros b m h Hb. by rewrite (cell_eq m b a).
    + intros b v m h Hb. rewrite (cell_eq m b a) by done. cbn [hw_store timer fst]. by rewrite upd_eq, Hm.
  - intros n Hn. by apply timer_stable, ccmr_unpaged.
  - done.
  - intros n v m h Hn. cbn [hw_store timer fst]. rewrite upd_eq. rewrite channels_range in Hn.
    replace ((TIM1_CCMR1 <=? ccmr n) && (ccmr n <=? TIM1_CCMR4)) with true
      by (unfold ccmr, TIM1_CCMR4, TIM1_CCMR1; lia).
    by replace (ccmr n - TIM1_CCMR1) with n by (unfold ccmr; lia).
Qed.

(** Every register of the timer reads 0xff, but for the enables. *)
Definition timer_start : machine := Machine (fun a => if a =? TIM1_CCER1 then 0xBB else 0xff) tt can_rx_init [].

(** What a program leaves in a register. *)
Definition reg_after {A} (m : prog machine A) (s : machine) (a : Z) : option Z :=
  match m s with Ok _ s' => Some (cells s' a) | Fault _ _ => None end.

(** Channel 2 captures falling edges of the other pin, one in four, filtered;
    its enable bits of before are 0xB, those of channel 1 keep. *)
Example capture_channel_2 :
  reg_after (TIM1_ICInit TIM1_CHANNEL_2 TIM1_ICPOLARITY_FALLING 2 8 5) timer_start (ccmr 1) = Some 0x5A /\
  reg_after (TIM1_ICInit TIM1_CHANNEL_2 TIM1_ICPOLARITY_FALLING 2 8 5) timer_start TIM1_CCER1 = Some 0xBB.
Proof. by vm_compute. Qed.

(** Had the channel not been turned off first, its direction would have stayed. *)
Example direction_needs_the_channel_off :
  reg_after (put_field (ccmr 1) 0xF3 0x52) timer_start (ccmr 1) = Some 0x5F.
Proof. by vm_compute. Qed.

Example pwm_input_channels :
  reg_after (TIM1_PWMIConfig TIM1_CHANNEL_1 TIM1_ICPOLARITY_RISING TIM1_ICSELECTION_DIRECTTI 0 3) timer_start (ccmr 0) = Some 0x31 /\
  reg_after (TIM1_PWMIConfig TIM1_CHANNEL_1 TIM1_ICPOLARITY_RISING TIM1_ICSELECTION_DIRECTTI 0 3) timer_start (ccmr 1) = Some 0x32 /\
  reg_after (TIM1_PWMIConfig TIM1_CHANNEL_1 TIM1_ICPOLARITY_RISING TIM1_ICSELECTION_DIRECTTI 0 3) timer_start TIM1_CCER1 = Some 0xB9.
Proof. by vm_compute. Qed.

Lemma input_capture_witness :
  wp total (TIM1_ICInit TIM1_CHANNEL_2 TIM1_ICPOLARITY_FALLING 2 8 5) (fun _ s' =>
    cells s' (ccmr 1) = 2 + 8 + 16 * 5 /\
    (forall i, 0 <= i < 8 -> Z.testbit (cells s' (ccer 1)) i =
       with_bits (ccer_bit 1) [true; bool_decide (TIM1_ICPOLARITY_FALLING = TIM1_ICPOLARITY_FALLING)] (cells timer_start (ccer 1)) i) /\
    (forall d, stable d -> ~ capture_reg d -> d <> ccmr 1 -> d <> ccer 1 -> cells s' d = cells timer_start d)) timer_start.
Proof.
  apply (input_capture 1 1 2 8 5 timer_start); try reflexivity; try lia; apply list_elem_of_In; vm_compute; tauto.
Defined.

Lemma output_compare_witness :
  wp total (TIM1_OC2Init 0x60 (output_state true) (output_n_state false) 500 (polarity false) (polarity_n false)
              (idle_state true) (idle_n_state false)) (fun _ s' =>
    (forall i, 0 <= i < 8 ->
       Z.testbit (cells s' (ccer 1)) i = with_bits (ccer_bit 1) [true; false; false; false] (cells timer_start (ccer 1)) i /\
       Z.testbit (cells s' (ccmr 1)) i = with_bits 4 [false; true; true] (cells timer_start (ccmr 1)) i /\
       Z.testbit (cells s' TIM1_OISR) i = with_bits 2 [true; false] (cells timer_start TIM1_OISR) i) /\
    (forall d, stable d -> ~ capture_reg d -> d <> ccmr 1 -> d <> ccer 1 -> d <> TIM1_OISR ->
       cells s' d = cells timer_start d)) timer_start.
Proof.
  apply (output_compare 1 true false false false false true true true false 500 timer_start).
  apply list_elem_of_In. vm_compute. tauto.
Defined.
