(* ===== verification/Onewire.v ===== *)
(** The 1-wire bus on TIM1, [firmware/stm8/can_node/onewire.c].

    The busy waits end when the one-pulse timer stops; [ow_fuel] polls are given to
    each wait, and more polls never change a wait that ends ([wait_idle_more]). *)

From stdpp Require Import sets.
From S2P Require Import Prelude Monad Machine Gpio Flash State Tim1 Sim.

Inductive CAN_Node_OW_Presence : Type := CAN_Node_OW_Obsent | CAN_Node_OW_Present.

#[export] Instance Presence_eq_dec : EqDecision CAN_Node_OW_Presence.
Proof. solve_decision. Defined.

Definition OW_PORT : GPIO_TypeDef := GPIOC.
Definition OW_IN : Z := GPIO_PIN_1.
Definition OW_OUT : Z := GPIO_PIN_2.

Definition RESET_TIME : Z := 100.
Definition WRITE1_TIME : Z := 5.
Definition READ_PULSE : Z := 2.
Definition READ_TIME : Z := 7.

Definition ow_fuel : nat := Z.to_nat 0x10000.
#[global] Opaque ow_fuel.

(** ** Operations *)

Section Operations.
Context {HW : Hardware}.

Definition CAN_Node_OW_init : prog machine unit :=
  GPIO_Init OW_PORT OW_IN GPIO_MODE_IN_FL_NO_IT ;;
  GPIO_Init OW_PORT OW_OUT GPIO_MODE_OUT_PP_LOW_FAST ;;
  GPIO_WriteLow OW_PORT OW_OUT ;;
  TIM1_DeInit ;;
  TIM1_TimeBaseInit 7 TIM1_COUNTERMODE_UP 60 0 ;;
  TIM1_SelectOnePulseMode TIM1_OPMODE_SINGLE.

Definition CAN_Node_OW_deinit : prog machine unit :=
  GPIO_Init OW_PORT OW_OUT GPIO_MODE_IN_FL_NO_IT ;;
  TIM1_DeInit.

(** [TIM1->CR1 & TIM1_CR1_CEN] *)
Definition timer_runs : prog machine bool :=
  let! cr1 := load TIM1_CR1 in ret (truth (Z.land cr1 TIM1_CR1_CEN)).

(** [while (TIM1->CR1 & TIM1_CR1_CEN);] *)
Definition wait_idle (fuel : nat) : prog machine unit := while fuel timer_runs (ret tt).

(** [while (TIM1->CR1 & TIM1_CR1_CEN) { tmp = TIM1->CNTRH; if (TIM1->CNTRL >= limit) { out; break; } }] *)
Fixpoint wait_count (fuel : nat) (limit : Z) (out : prog machine unit) : prog machine unit :=
  match fuel with
  | O => raise Hang
  | S n =>
      let! run := timer_runs in
      if run then
        let! _ := load TIM1_CNTRH in
        let! l := load TIM1_CNTRL in
        if limit <=? l then out else wait_count n limit out
      else ret tt
  end.

(** [for (;;) { tmp = TIM1->CNTRH; if (TIM1->CNTRL >= limit) break; }] *)
Fixpoint spin_count (fuel : nat) (limit : Z) : prog machine unit :=
  match fuel with
  | O => raise Hang
  | S n =>
      let! _ := load TIM1_CNTRH in
      let! l := load TIM1_CNTRL in
      if limit <=? l then ret tt else spin_count n limit
  end.

Definition drive : prog machine unit := or_reg (GPIO_ODR OW_PORT) OW_OUT.
Definition release : prog machine unit := and_reg (GPIO_ODR OW_PORT) (Z.lnot OW_OUT).
Definition start_timer : prog machine unit := or_reg TIM1_CR1 TIM1_CR1_CEN.

(** Reset 1-wire bus (~1 ms). *)
Definition reset : prog machine Z :=
  TIM1_SetAutoreload 485 ;;
  start_timer ;;
  drive ;;
  wait_idle ow_fuel ;;
  release ;;
  TIM1_ClearFlag TIM1_FLAG_UPDATE ;;
  (* Wait once again, sample within 100 mks *)
  start_timer ;;
  wait_count ow_fuel RESET_TIME (ret tt) ;;
  let! idr := load (GPIO_IDR OW_PORT) in
  let result := Z.b2z (Z.land idr OW_IN =? 0) in
  (* Wait for the end of reset period. *)
  wait_idle ow_fuel ;;
  TIM1_ClearFlag TIM1_FLAG_UPDATE ;;
  TIM1_SetAutoreload 60 ;;
  ret result.

Definition write_0 : prog machine unit :=
  start_timer ;;
  drive ;;
  wait_idle ow_fuel ;;
  release ;;
  TIM1_ClearFlag TIM1_FLAG_UPDATE.

Definition write_1 : prog machine unit :=
  start_timer ;;
  drive ;;
  wait_count ow_fuel WRITE1_TIME release ;;
  wait_idle ow_fuel ;;
  TIM1_ClearFlag TIM1_FLAG_UPDATE.

Definition read : prog machine Z :=
  start_timer ;;
  drive ;;
  spin_count ow_fuel READ_PULSE ;;
  release ;;
  spin_count ow_fuel READ_TIME ;;
  let! idr := load (GPIO_IDR OW_PORT) in
  let result := if truth (Z.land idr OW_IN) then 0x80 else 0 in
  wait_idle ow_fuel ;;
  TIM1_ClearFlag TIM1_FLAG_UPDATE ;;
  ret result.

Definition write_byte (byte : Z) : prog machine unit :=
  let! _ := for_acc (range 8) byte (fun _ byte =>
    (if truth (Z.land byte 1) then write_1 else write_0) ;;
    ret (Z.shiftr byte 1)) in
  ret tt.

Definition read_byte : prog machine Z :=
  for_acc (range 8) 0 (fun _ byte =>
    let byte := Z.shiftr byte 1 in
    let! r := read in
    ret (u8 (Z.lor byte r))).

Definition CAN_Node_OW_reset : prog machine CAN_Node_OW_Presence :=
  let! r := reset in ret (if truth r then CAN_Node_OW_Present else CAN_Node_OW_Obsent).

Definition CAN_Node_OW_write_byte (byte : Z) : prog machine unit := write_byte byte.

Definition CAN_Node_OW_write_bytes (count : Z) (bytes : list Z) : prog machine unit :=
  for_each (range count) (fun i => let! b := at_index bytes i in write_byte b).

Definition CAN_Node_OW_read_byte : prog machine Z := read_byte.

Definition CAN_Node_OW_read_bytes (count : Z) (bytes : list Z) : prog machine (list Z) :=
  for_acc (range count) bytes (fun i bytes => let! b := read_byte in set_index bytes i b).
End Operations.

(** ** Rules: the bus only touches its port and its timer, and may hang *)

Definition ow_reg (d : Z) : Prop := tim1_reg d \/ gpio_reg OW_PORT d.

Lemma ow_off_tape d : ow_reg d -> off_tape d.
Proof.
  intros [H|H]; [by apply tim1_off_tape|]. apply (gpio_off_tape OW_PORT); [|done].
  unfold gpio_ports, OW_PORT. set_solver.
Qed.

Section Rules.
Context {HW : Hardware}.

(** Like [touches], for programs that may wait forever. *)
Definition spares {A} (P : Z -> Prop) (m : prog machine A) : Prop :=
  forall s, wp may_hang m (fun _ s' => keeps P s s') s.

Lemma spares_touches {A} (P P' : Z -> Prop) (m : prog machine A) :
  touches P m -> (forall d, P d -> P' d) -> spares P' m.
Proof.
  intros H HP s. apply (wp_weaken total); [by intros ? ? []|]. eapply wp_mono; [apply H|].
  intros a s' K. eapply keeps_weaken; [exact K|done].
Qed.

Lemma spares_ret {A} P (a : A) : spares P (ret a).
Proof. intros s. apply wp_ret, keeps_refl. Qed.

Lemma spares_raise {A} P : spares (A:=A) P (raise Hang).
Proof. by intros s. Qed.

Lemma spares_bind {A B} P (m : prog machine A) (k : A -> prog machine B) :
  spares P m -> (forall a, spares P (k a)) -> spares P (bind m k).
Proof.
  intros Hm Hk s. apply wp_bind. eapply wp_mono; [apply Hm|]. intros a s1 H1.
  eapply wp_mono; [apply Hk|]. intros b s2 H2. by apply (keeps_trans _ _ s1).
Qed.

Lemma spares_if {A} P (b : bool) (m1 m2 : prog machine A) : spares P m1 -> spares P m2 -> spares P (if b then m1 else m2).
Proof. by destruct b. Qed.

Lemma spares_for_acc {A B} P (l : list A) (acc : B) body :
  (forall x acc, spares P (body x acc)) -> spares P (for_acc l acc body).
Proof.
  intros H. revert acc. induction l as [|x l IH]; intros acc; simpl; [apply spares_ret|].
  apply spares_bind; [apply H|]. intros acc'. apply IH.
Qed.

Lemma spares_load P a : spares P (load a).
Proof. eapply spares_touches; [apply (touches_load (fun _ => False))|by intros ? []]. Qed.

Lemma spares_while P n c b : spares P c -> spares P b -> spares P (while n c b).
Proof.
  intros Hc Hb. induction n as [|n IH]; simpl; [apply spares_raise|].
  apply spares_bind; [done|]. intros x. apply spares_if; [|apply spares_ret].
  apply spares_bind; [done|]. intros _. apply IH.
Qed.

Lemma spares_timer_runs P : spares P timer_runs.
Proof. apply spares_bind; [apply spares_load|]. intros v. apply spares_ret. Qed.

Lemma spares_wait_idle P n : spares P (wait_idle n).
Proof. apply spares_while; [apply spares_timer_runs|apply spares_ret]. Qed.

Lemma spares_wait_count P n limit out : spares P out -> spares P (wait_count n limit out).
Proof.
  intros Ho. induction n as [|n IH]; simpl; [apply spares_raise|].
  apply spares_bind; [apply spares_timer_runs|]. intros r. apply spares_if; [|apply spares_ret].
  apply spares_bind; [apply spares_load|]. intros _. apply spares_bind; [apply spares_load|]. intros l.
  by apply spares_if.
Qed.

Lemma spares_spin_count P n limit : spares P (spin_count n limit).
Proof.
  induction n as [|n IH]; simpl; [apply spares_raise|].
  apply spares_bind; [apply spares_load|]. intros _. apply spares_bind; [apply spares_load|]. intros l.
  apply spares_if; [apply spares_ret|done].
Qed.

Lemma ow_port : OW_PORT ∈ gpio_ports.
Proof. unfold gpio_ports, OW_PORT. set_solver. Qed.

Lemma spares_tim1 {A} (m : prog machine A) : touches tim1_reg m -> spares ow_reg m.
Proof. intros H. eapply spares_touches; [exact H|]. by intros d Hd; left. Qed.

Lemma spares_port {A} (m : prog machine A) : touches (gpio_reg OW_PORT) m -> spares ow_reg m.
Proof. intros H. eapply spares_touches; [exact H|]. by intros d Hd; right. Qed.

Lemma spares_drive : spares ow_reg drive.
Proof. apply spares_port. unfold drive, or_reg. touch. apply touches_gpio_reg; [apply ow_port|lia]. Qed.

Lemma spares_release : spares ow_reg release.
Proof. apply spares_port. unfold release, and_reg. touch. apply touches_gpio_reg; [apply ow_port|lia]. Qed.

Ltac ow :=
  repeat first
    [ apply spares_ret | apply spares_load | apply spares_wait_idle | apply spares_spin_count
    | apply spares_drive | apply spares_release | (apply spares_wait_count)
    | apply spares_tim1; solve [eauto 3 with touches] | apply spares_port; solve [eauto 3 using ow_port with touches]
    | apply spares_bind; [|intro] | apply spares_if | apply spares_for_acc; intros ? ? ].

Lemma spares_reset : spares ow_reg reset.
Proof. unfold reset, start_timer. ow. Qed.

Lemma spares_write_byte b : spares ow_reg (write_byte b).
Proof. unfold write_byte, write_1, write_0, start_timer. ow. Qed.

Lemma spares_read : spares ow_reg read.
Proof. unfold read, start_timer. ow. Qed.

Lemma touches_OW_init : touches ow_reg CAN_Node_OW_init.
Proof.
  assert (forall A (m : prog machine A), touches tim1_reg m -> touches ow_reg m) as Ht
    by (intros A m H; eapply touches_mono; [exact H|by intros d Hd; left]).
  assert (forall A (m : prog machine A), touches (gpio_reg OW_PORT) m -> touches ow_reg m) as Hg
    by (intros A m H; eapply touches_mono; [exact H|by intros d Hd; right]).
  pose proof ow_port. unfold CAN_Node_OW_init.
  apply touches_bind; [by apply Hg, touches_GPIO_Init|intros _].
  apply touches_bind; [by apply Hg, touches_GPIO_Init|intros _].
  apply touches_bind; [by apply Hg, touches_GPIO_WriteLow|intros _].
  apply touches_bind; [apply Ht, touches_TIM1_DeInit|intros _].
  apply touches_bind; [apply Ht, touches_TIM1_TimeBaseInit|intros _].
  apply Ht, touches_TIM1_SelectOnePulseMode.
Qed.

Lemma touches_OW_deinit : touches ow_reg CAN_Node_OW_deinit.
Proof.
  pose proof ow_port. unfold CAN_Node_OW_deinit. apply touches_bind; [|intros _].
  - eapply touches_mono; [apply touches_GPIO_Init; done|by intros d Hd; right].
  - eapply touches_mono; [apply touches_TIM1_DeInit|by intros d Hd; left].
Qed.

Lemma wp_spares {A} P (m : prog machine A) (Q : A -> machine -> Prop) s0 s :
  spares P m -> keeps P s0 s -> (forall a s', keeps P s0 s' -> Q a s') -> wp may_hang m Q s.
Proof. intros Hm Hk HQ. eapply wp_mono; [apply Hm|]. intros a s' K. apply HQ. by apply (keeps_trans _ _ s). Qed.

(** A read slot gives the bit in the high position. *)
Lemma read_wp s : wp may_hang read (fun r s' => (r = 0 \/ r = 0x80) /\ keeps ow_reg s s') s.
Proof.
  pose proof (keeps_refl ow_reg s) as K. unfold read, start_timer.
  do 6 (apply wp_bind; eapply wp_spares; [ow|exact K|]; clear K; intros ? ? K).
  set (r := if truth _ then 0x80 else 0). assert (r = 0 \/ r = 0x80) as Hr by (unfold r; destruct (truth _); auto).
  clearbody r. do 2 (apply wp_bind; eapply wp_spares; [ow|exact K|]; clear K; intros ? ? K). by apply wp_ret.
Qed.

Lemma read_byte_wp s : wp may_hang read_byte (fun r s' => is_u8 r /\ keeps ow_reg s s') s.
Proof.
  apply (wp_for_acc _ _ _ (fun _ r s' => is_u8 r /\ keeps ow_reg s s')).
  - split; [unfold is_u8; lia|apply keeps_refl].
  - intros done x rest acc s' _ [Ha Hk]. apply wp_bind. eapply wp_mono; [apply read_wp|].
    intros r s'' [_ Hk']. apply wp_ret. split; [apply u8_range|by apply (keeps_trans _ _ s')].
  - done.
Qed.

(** More polls do not change a wait that ends. *)
Lemma wait_idle_more n k s s' : wait_idle n s = Ok tt s' -> wait_idle (n + k) s = Ok tt s'.
Proof.
  revert s. induction n as [|n IH]; intros s; [done|]. unfold wait_idle in *. cbn [while Nat.add].
  unfold bind. destruct (timer_runs s) as [[] s1|]; [|done|done]. simpl. apply IH.
Qed.
End Rules.

(** ** The order of the bits *)

Section BitOrder.
Context {HW : Hardware}.

(** [n] read slots. *)
Fixpoint read_slots (n : nat) : prog machine (list Z) :=
  match n with
  | O => ret []
  | S n' => let! r := read in let! l := read_slots n' in ret (r :: l)
  end.

Lemma write_loop_bits b n : forall k s, 0 <= b ->
  for_acc (Z.of_nat <$> seq k n) (Z.shiftr b (Z.of_nat k)) (fun _ byte =>
    (if truth (Z.land byte 1) then write_1 else write_0) ;; ret (Z.shiftr byte 1)) s =
  (for_each (Z.of_nat <$> seq k n) (fun i => if Z.testbit b i then write_1 else write_0) ;;
   ret (Z.shiftr b (Z.of_nat (k + n)))) s.
Proof.
  induction n as [|n IH]; intros k s Hb.
  - simpl. unfold bind, ret. by rewrite Nat.add_0_r.
  - cbn [seq fmap list_fmap for_acc for_each].
    assert (truth (Z.land (Z.shiftr b (Z.of_nat k)) 1) = Z.testbit b (Z.of_nat k)) as ->.
    { change 1 with (Z.ones 1). rewrite Z.land_ones, <- Z.bit0_mod, Z.shiftr_spec by lia. rewrite Z.add_0_l.
      by destruct (Z.testbit b (Z.of_nat k)). }
    unfold bind, ret in *. destruct ((if Z.testbit b (Z.of_nat k) then write_1 else write_0) s) as [[] s1|f s1]; [|done].
    rewrite Z.shiftr_shiftr by lia. replace (Z.of_nat k + 1) with (Z.of_nat (S k)) by lia.
    rewrite IH by done. by rewrite Nat.add_succ_comm.
Qed.

(** What [read_byte] makes of the samples. *)
Lemma read_loop_bits n : forall k byte s,
  (forall s0 r s1, read s0 = Ok r s1 -> r = 0 \/ r = 0x80) -> 0 <= byte ->
  for_acc (Z.of_nat <$> seq k n) byte (fun _ byte => let byte := Z.shiftr byte 1 in
     let! r := read in ret (u8 (Z.lor byte r))) s =
  (let! l := read_slots n in ret (fold_left (fun byte r => u8 (Z.lor (Z.shiftr byte 1) r)) l byte)) s.
Proof.
  induction n as [|n IH]; intros k byte s Hr Hb; [done|].
  cbn [seq fmap list_fmap for_acc read_slots]. unfold bind, ret in *.
  destruct (read s) as [r s1|f s1]; [|done]. rewrite IH; [|done|apply u8_range].
  by destruct (read_slots n s1).
Qed.

Lemma samples_value (b0 b1 b2 b3 b4 b5 b6 b7 : bool) :
  fold_left (fun byte r => u8 (Z.lor (Z.shiftr byte 1) r))
    ((fun b : bool => if b then 0x80 else 0) <$> [b0; b1; b2; b3; b4; b5; b6; b7]) 0 =
  lsb_first [b0; b1; b2; b3; b4; b5; b6; b7].
Proof. by destruct b0, b1, b2, b3, b4, b5, b6, b7. Qed.

Lemma read_sample s r s' : read s = Ok r s' -> r = 0 \/ r = 0x80.
Proof. intros H. pose proof (read_wp s) as Hw. unfold wp in Hw. rewrite H in Hw. apply Hw. Qed.

Lemma read_slots_samples n s l s' : read_slots n s = Ok l s' ->
  exists bits : list bool, length bits = n /\ l = (fun b : bool => if b then 0x80 else 0) <$> bits.
Proof.
  revert s l. induction n as [|n IH]; intros s l; cbn [read_slots]; unfold bind, ret.
  - intros [= <- <-]. by exists [].
  - destruct (read s) as [r s1|] eqn:Hr; [|done]. destruct (read_slots n s1) as [l1 s2|] eqn:Hl; [|done].
    intros [= <- <-]. destruct (IH _ _ Hl) as (bits & Hlen & ->). apply read_sample in Hr.
    destruct Hr as [-> | ->]; [exists (false :: bits)|exists (true :: bits)]; (split; [simpl; lia|done]).
Qed.

(** Bytes travel least significant bit first.  Writing a byte is writing its
    bits from bit 0 to bit 7, a 1 slot for a set bit; reading one takes eight read
    slots and gives the number whose bit [i] is the sample of slot [i]. *)
Theorem bytes_lsb_first byte s :
  is_u8 byte ->
  CAN_Node_OW_write_byte byte s = for_each (range 8) (fun i => if Z.testbit byte i then write_1 else write_0) s /\
  match read_slots 8 s with
  | Ok l s' => exists bits : list bool, length bits = 8%nat /\ l = (fun b : bool => if b then 0x80 else 0) <$> bits /\
      CAN_Node_OW_read_byte s = Ok (lsb_first bits) s'
  | Fault f s' => CAN_Node_OW_read_byte s = Fault f s'
  end.
Proof.
  intros Hb. unfold is_u8 in Hb. split.
  - unfold CAN_Node_OW_write_byte, write_byte. pose proof (write_loop_bits byte 8 0 s) as H.
    change (Z.of_nat <$> seq 0 8) with (range 8) in H. change (Z.shiftr byte (Z.of_nat 0)) with (Z.shiftr byte 0) in H.
    rewrite Z.shiftr_0_r in H. unfold bind at 1. rewrite H by lia.
    unfold bind, ret. by destruct (for_each (range 8) _ s) as [[]|].
  - unfold CAN_Node_OW_read_byte, read_byte. change (range 8) with (Z.of_nat <$> seq 0 8).
    rewrite read_loop_bits; [|apply read_sample|lia]. unfold bind.
    destruct (read_slots 8 s) as [l s'|] eqn:Hl; [|done].
    destruct (read_slots_samples _ _ _ _ Hl) as (bits & Hlen & ->). exists bits. split; [done|]. split; [done|].
    destruct bits as [|b0 [|b1 [|b2 [|b3 [|b4 [|b5 [|b6 [|b7 [|]]]]]]]]]; try done. unfold ret. by rewrite samples_value.
Qed.
End BitOrder.

Lemma bytes_lsb_first_witness :
  CAN_Node_OW_write_byte 0xcc sim_machine =
    for_each (range 8) (fun i => if Z.testbit 0xcc i then write_1 else write_0) sim_machine.
Proof.
  assert (is_u8 0xcc) as Hb by (unfold is_u8; lia).
  destruct (bytes_lsb_first 0xcc sim_machine Hb) as [H _]. exact H.
Defined.
