(* ===== verification/Ds18b20.v ===== *)
(** The thermometer module, [firmware/stm8/can_node/mod_ds18b20.c]: a request
    runs a whole conversion on the 1-wire bus. *)

From stdpp Require Import sets.
From S2P Require Import Prelude Monad CanProto Machine Gpio Flash Eestream CanRules Sim State Led Channel Tim1 Onewire.

Definition Cmd_SKIP_ROM : Z := 0xcc.
Definition Cmd_CONVERT_T : Z := 0x44.
Definition Cmd_READ_SCRATCHPAD : Z := 0xBE.

(** ** Operations *)

Section Operations.
Context {HW : Hardware}.

Definition ds18b20_init (channel_id : Z) : prog node unit := io CAN_Node_OW_init.
Definition ds18b20_deinit (channel_id : Z) : prog node unit := io CAN_Node_OW_deinit.

(** [while (wait_count > 0) ...]: at most [wait_count] bytes are read. *)
Fixpoint wait_conversion (wait_count : nat) : prog machine Z :=
  match wait_count with
  | O => ret 0
  | S n =>
      let! b := CAN_Node_OW_read_byte in
      if negb (b =? 0) then ret 1 else wait_conversion n
  end.

Definition conversion_reads : nat := Z.to_nat 1565.

Definition read_temp (temp : list Z) : prog machine (Z * list Z) :=
  let! p := CAN_Node_OW_reset in
  if negb (bool_decide (p = CAN_Node_OW_Present)) then ret (0, temp)
  else
    CAN_Node_OW_write_byte Cmd_SKIP_ROM ;;
    CAN_Node_OW_write_byte Cmd_CONVERT_T ;;
    let! found := wait_conversion conversion_reads in
    if found =? 0 then ret (0, temp)
    else
      let! p := CAN_Node_OW_reset in
      if negb (bool_decide (p = CAN_Node_OW_Present)) then ret (0, temp)
      else
        CAN_Node_OW_write_byte Cmd_SKIP_ROM ;;
        CAN_Node_OW_write_byte Cmd_READ_SCRATCHPAD ;;
        let! temp := CAN_Node_OW_read_bytes 2 temp in
        ret (1, temp).

Definition ds18b20_request (channel_id address : Z) (reply : list Z) : prog node (Z * list Z) :=
  if negb (address =? HA_CAN_Node_DS18B20_Temperature) then ret (NO_RESPONSE, reply)
  else
    let! (found, reply) := io (read_temp reply) in
    if found =? 0 then
      let! reply := set_index reply 0 0xff in
      let! reply := set_index reply 1 0xff in
      ret (2, reply)
    else ret (2, reply).

Definition ds18b20_write (channel_id address length : Z) (value : list Z) : prog node unit := ret tt.

Definition mod_ds18b20 : module_ops := {|
  on_init := ds18b20_init;
  on_deinit := ds18b20_deinit;
  on_timer := None;
  on_save := None;
  on_load := None
|}.
End Operations.
#[global] Opaque conversion_reads.

(** ** Rules *)

Section Rules.
Context {HW : Hardware}.

Lemma spares_OW_reset : spares ow_reg CAN_Node_OW_reset.
Proof. apply spares_bind; [apply spares_reset|]. intros r. apply spares_ret. Qed.

Lemma spares_read_byte : spares ow_reg CAN_Node_OW_read_byte.
Proof. intros s. eapply wp_mono; [apply read_byte_wp|]. by intros r s' [_ K]. Qed.

Lemma spares_wait_conversion n : spares ow_reg (wait_conversion n).
Proof.
  induction n as [|n IH]; simpl; [apply spares_ret|]. apply spares_bind; [apply spares_read_byte|].
  intros b. apply spares_if; [apply spares_ret|done].
Qed.

(** The first two bytes of the buffer are the answer, the rest is untouched. *)
Definition answer_in (temp temp' : list Z) : Prop :=
  temp' = temp \/ exists t0 t1, is_u8 t0 /\ is_u8 t1 /\ temp' = <[1%nat := t1]> (<[0%nat := t0]> temp).

Lemma read_bytes_wp temp s :
  (2 <= length temp)%nat ->
  wp may_hang (CAN_Node_OW_read_bytes 2 temp) (fun temp' s' => keeps ow_reg s s' /\
    exists t0 t1, is_u8 t0 /\ is_u8 t1 /\ temp' = <[1%nat := t1]> (<[0%nat := t0]> temp)) s.
Proof.
  intros Hlen. unfold CAN_Node_OW_read_bytes. change (range 2) with [0; 1]. cbn [for_acc].
  apply wp_bind, wp_bind. eapply wp_mono; [apply read_byte_wp|]. intros t0 s1 [H0 K1]. apply wp_set_index; [lia|].
  apply wp_bind, wp_bind. eapply wp_mono; [apply read_byte_wp|]. intros t1 s2 [H1 K2].
  apply wp_set_index; [rewrite length_insert; lia|].
  apply wp_ret. split; [by apply (keeps_trans _ _ s1)|]. by exists t0, t1.
Qed.

Lemma read_temp_wp temp s :
  (2 <= length temp)%nat ->
  wp may_hang (read_temp temp) (fun r s' => keeps ow_reg s s' /\
    (r = (0, temp) \/ exists t0 t1, is_u8 t0 /\ is_u8 t1 /\ r = (1, <[1%nat := t1]> (<[0%nat := t0]> temp)))) s.
Proof.
  intros Hlen. pose proof (keeps_refl ow_reg s) as K. unfold read_temp.
  apply wp_bind. eapply wp_spares; [apply spares_OW_reset|exact K|]. clear K. intros p s1 K.
  apply wp_if; intros _; [apply wp_ret; auto|].
  apply wp_bind. eapply wp_spares; [apply spares_write_byte|exact K|]. clear K. intros [] s2 K.
  apply wp_bind. eapply wp_spares; [apply spares_write_byte|exact K|]. clear K. intros [] s3 K.
  apply wp_bind. eapply wp_spares; [apply spares_wait_conversion|exact K|]. clear K. intros found s4 K.
  apply wp_if; intros _; [apply wp_ret; auto|].
  apply wp_bind. eapply wp_spares; [apply spares_OW_reset|exact K|]. clear K. intros p' s5 K.
  apply wp_if; intros _; [apply wp_ret; auto|].
  apply wp_bind. eapply wp_spares; [apply spares_write_byte|exact K|]. clear K. intros [] s6 K.
  apply wp_bind. eapply wp_spares; [apply spares_write_byte|exact K|]. clear K. intros [] s7 K.
  apply wp_bind. eapply wp_mono; [by apply read_bytes_wp|]. intros temp' s8 (K' & t0 & t1 & H0 & H1 & ->).
  apply wp_ret. split; [by apply (keeps_trans _ _ s7)|]. right. by exists t0, t1.
Qed.

Lemma ds18b20_request_wp E ch address reply (Q : Z * list Z -> node -> Prop) s :
  hang_ok E s -> length reply = 8%nat ->
  (address <> HA_CAN_Node_DS18B20_Temperature -> Q (NO_RESPONSE, reply) s) ->
  (address = HA_CAN_Node_DS18B20_Temperature -> forall h t0 t1, is_u8 t0 -> is_u8 t1 -> keeps off_tape (mach s) h ->
     Q (2, <[1%nat := t1]> (<[0%nat := t0]> reply)) (set_mach h s)) ->
  wp E (ds18b20_request ch address reply) Q s.
Proof.
  intros HE Hlen HQ0 HQ. unfold ds18b20_request.
  apply wp_if; intros Ha; [apply wp_ret, HQ0; by apply Z.eqb_neq, negb_true_iff|].
  apply negb_false_iff, Z.eqb_eq in Ha. specialize (HQ Ha).
  apply wp_bind, wp_io. apply (wp_weaken may_hang); [intros f h ->; by apply HE|].
  eapply wp_mono; [apply read_temp_wp; lia|]. intros r h [K Hr].
  assert (keeps off_tape (mach s) h) as K' by (eapply keeps_weaken; [exact K|apply ow_off_tape]).
  destruct Hr as [-> | (t0 & t1 & H0 & H1 & ->)].
  - cbn [Z.eqb]. apply wp_bind, wp_set_index; [lia|]. apply wp_bind, wp_set_index; [rewrite length_insert; lia|].
    apply wp_ret, HQ; [unfold is_u8; lia|unfold is_u8; lia|done].
  - cbn [Z.eqb]. by apply wp_ret, HQ.
Qed.
End Rules.

(** ** The promise to [module.c] *)

Section Module.
Context {HW : Hardware}.

#[local] Obligation Tactic := idtac.

#[export, program] Instance ds18b20_module : ChannelModule mod_ds18b20 := {|
  uses_adc := false;
  agree x y := True;
  saved x pl := pl = []
|}.
Next Obligation. intros x pl ->. split; [simpl; lia|constructor]. Qed.
Next Obligation.
  intros E ch Q s Hch Hs He HQ. eapply wp_io_off; [apply touches_OW_init|apply ow_off_tape|]. intros [] h Hk.
  apply HQ; [by apply chan_step_mach|done|done].
Qed.
Next Obligation.
  intros E ch Q s _ Hch Hs He HQ. eapply wp_io_off; [apply touches_OW_deinit|apply ow_off_tape|]. intros [] h Hk.
  apply HQ; [by apply chan_step_mach|done|done].
Qed.
Next Obligation. intros E ch Q s _ Hch Hs He HQ. apply wp_ret, HQ; [by apply chan_step_refl|done|done]. Qed.
Next Obligation.
  intros E ch st l Q s Hch Hs Hst Hl HQ. apply wp_ret. rewrite <- (app_nil_r l) in Hst.
  specialize (HQ st (mach s) [] eq_refl Hst (keeps_refl _ _)). by destruct s.
Qed.
Next Obligation. intros E ch st Q s Hch Hs He HQ. apply wp_ret, HQ; [by apply chan_step_refl|done]. Qed.
Next Obligation.
  intros E ch st x pl rest Q s Hch Hs He -> Hr HQ. by apply wp_ret, HQ; [apply chan_step_refl| | |].
Qed.

#[export] Instance ds18b20_handlers : ChannelHandlers true ds18b20_request ds18b20_write.
Proof.
  split.
  - intros E ch address reply Q s HE Hch Hs Hlen Hr HQ. apply ds18b20_request_wp; [by apply HE|done| |].
    + intros _. apply HQ; [by apply chan_step_refl|done|done|done].
    + intros _ h t0 t1 H0 H1 Hk. destruct (reply_insert reply 0 t0 Hlen Hr H0) as [Hl' Hr'].
      destruct (reply_insert _ 1 t1 Hl' Hr' H1). apply HQ; [by apply chan_step_mach|done|done|done].
  - intros E ch address len value Q s Hch Hs Hlen Hu HQ. apply wp_ret, HQ; [by apply chan_step_refl|done].
Qed.
End Module.

(** ** Theorems *)

(** A thermometer that does not answer the reset pulse is reported as 0xffff,
    and nothing else of the reply is touched. *)
Theorem ds18b20_absent {HW : Hardware} ch (s : node) h reply :
  length reply = 8%nat -> CAN_Node_OW_reset (mach s) = Ok CAN_Node_OW_Obsent h ->
  ds18b20_request ch HA_CAN_Node_DS18B20_Temperature reply s = Ok (2, 0xff :: 0xff :: drop 2 reply) (set_mach h s).
Proof.
  intros Hlen Hr. destruct reply as [|r0 [|r1 reply]]; try done.
  unfold ds18b20_request. cbn [negb Z.eqb HA_CAN_Node_DS18B20_Temperature].
  unfold bind at 1, io, read_temp, bind at 1. rewrite Hr. rewrite bool_decide_eq_false_2 by done. cbn [negb ret Z.eqb].
  simpl in Hlen. rewrite (set_index_ok (r0 :: r1 :: reply)) by (simpl; lia).
  unfold bind, ret. rewrite set_index_ok by (simpl; lia). done.
Qed.

(** A bus with nothing on it: the line reads high and the timer has always stopped. *)
Definition idle_bus : Hardware := {|
  hidden := unit;
  hw_load a p := (if a =? TIM1_CR1 then 0 else 0xff, p);
  hw_store a v p := p;
  indet p k := 0
|}.

Definition idle_machine : @machine idle_bus := @Machine idle_bus (fun _ => 0) tt can_rx_init [].

(** The value a program returns, if it does. *)
Definition value_of {St A} (r : res St A) : option A := match r with Ok a _ => Some a | Fault _ _ => None end.

Lemma ds18b20_absent_witness :
  exists h : @machine idle_bus, CAN_Node_OW_reset idle_machine = Ok CAN_Node_OW_Obsent h /\
    ds18b20_request 0 0 (replicate 8 0) (node_init idle_machine) =
      Ok (2, [0xff; 0xff; 0; 0; 0; 0; 0; 0]) (set_mach h (node_init idle_machine)).
Proof.
  assert (value_of (CAN_Node_OW_reset idle_machine) = Some CAN_Node_OW_Obsent) as Hv by (vm_compute; reflexivity).
  assert (exists h, CAN_Node_OW_reset idle_machine = Ok CAN_Node_OW_Obsent h) as [h Hr].
  { revert Hv. generalize (CAN_Node_OW_reset idle_machine). intros [p h|f h]; [|intros H; discriminate H].
    intros H. injection H as ->. exists h. reflexivity. }
  exists h. split; [exact Hr|].
  exact (ds18b20_absent 0 (node_init idle_machine) h (replicate 8 0) eq_refl Hr).
Defined.
