(* ===== verification/Sysinfo.v ===== *)
(** The system modules, [firmware/stm8/can_node/sysinfo.c] and the part of
    [mod_proto.c] that [module.c] calls.  Their write handlers call back into
    [module.c] and are in [Handlers.v]. *)

From stdpp Require Import sets.
From S2P Require Import Prelude Monad CanProto Machine Gpio Flash Eestream CanDrv CanRules Sim State Led Can Channel.

Definition SERIAL_NO : Z := 0x48CD.

(** ** Operations *)

Section Operations.
Context {HW : Hardware}.

(** The position of the first zero, [sizeof(label)] if there is none. *)
Fixpoint label_length_from (label : list Z) (i : Z) : Z :=
  match label with
  | [] => i
  | b :: label' => if b =? 0 then i else label_length_from label' (i + 1)
  end.

Definition label_length : prog node Z := let! l := rd f_label in ret (label_length_from l 0).

Definition sysinfo_init (channel_id : Z) : prog node unit := ret tt.
Definition sysinfo_deinit (channel_id : Z) : prog node unit := ret tt.

(** [reply[k] = *(SERIAL_NO + n)] for the pairs [(k, n)], in order. *)
Fixpoint put_serial (reply : list Z) (pairs : list (Z * Z)) : prog node (list Z) :=
  match pairs with
  | [] => ret reply
  | (k, n) :: pairs' =>
      let! b := io (load (SERIAL_NO + n)) in
      let! reply := set_index reply k b in
      put_serial reply pairs'
  end.

(** [reply[k] = v] for the pairs [(k, v)], in order. *)
Fixpoint put_bytes (reply : list Z) (pairs : list (Z * Z)) : prog node (list Z) :=
  match pairs with
  | [] => ret reply
  | (k, v) :: pairs' => let! reply := set_index reply k v in put_bytes reply pairs'
  end.

Definition sysinfo_request (channel_id address : Z) (reply : list Z) : prog node (Z * list Z) :=
  if address =? HA_CAN_Common_DeviceType then
    let! reply := put_bytes reply
      [(0, Z.shiftr HA_CAN_NodeInfo_DeviceType 24); (1, Z.land (Z.shiftr HA_CAN_NodeInfo_DeviceType 16) 0xff);
       (2, Z.land (Z.shiftr HA_CAN_NodeInfo_DeviceType 8) 0xff); (3, Z.land HA_CAN_NodeInfo_DeviceType 0xff)] in
    ret (4, reply)
  else if address =? HA_CAN_Common_FirmwareVersion then
    let! reply := put_bytes reply [(0, 0); (1, HA_CAN_Node_Version_Current)] in
    ret (2, reply)
  else if address =? HA_CAN_Common_SerialHi then
    let! reply := put_bytes reply [(3, 0); (2, 0); (1, 0); (0, 0)] in
    let! reply := put_serial reply [(4, 11); (5, 10); (6, 9); (7, 8)] in
    ret (8, reply)
  else if address =? HA_CAN_Common_SerialLo then
    let! reply := put_serial reply [(0, 7); (1, 6); (2, 5); (3, 4); (4, 3); (5, 2); (6, 1); (7, 0)] in
    ret (8, reply)
  else if address =? HA_CAN_Common_DeviceLabel then
    let! len := label_length in
    let! label := rd f_label in
    CAN_Node_CAN_send_reply len label ;;
    (* fall through *)
    ret (NO_RESPONSE, reply)
  else ret (NO_RESPONSE, reply).

Definition sysinfo_save (channel_id : Z) (stream : CAN_Node_EEStream) : prog node CAN_Node_EEStream :=
  let! device_id := rd f_device_id in
  let! stream := io (CAN_Node_EEStream_write_byte stream device_id) in
  for_acc (range 8) stream (fun i stream =>
    let! b := idx f_label i in
    io (CAN_Node_EEStream_write_byte stream b)).

Definition sysinfo_load (channel_id : Z) (stream : CAN_Node_EEStream) : prog node CAN_Node_EEStream :=
  let! (b, stream) := io (CAN_Node_EEStream_read_byte stream) in
  wr f_device_id b ;;
  for_acc (range 8) stream (fun i stream =>
    let! (b, stream) := io (CAN_Node_EEStream_read_byte stream) in
    idx_set f_label i b ;;
    ret stream).

Definition mod_sysinfo : module_ops := {|
  on_init := sysinfo_init;
  on_deinit := sysinfo_deinit;
  on_timer := None;
  on_save := Some sysinfo_save;
  on_load := Some sysinfo_load
|}.

(** *** [mod_proto.c] *)

Definition proto_init (channel_id : Z) : prog node unit := ret tt.
Definition proto_deinit (channel_id : Z) : prog node unit := ret tt.
Definition proto_save (channel_id : Z) (stream : CAN_Node_EEStream) : prog node CAN_Node_EEStream := ret stream.
Definition proto_load (channel_id : Z) (stream : CAN_Node_EEStream) : prog node CAN_Node_EEStream := ret stream.

Definition mod_proto : module_ops := {|
  on_init := proto_init;
  on_deinit := proto_deinit;
  on_timer := None;
  on_save := Some proto_save;
  on_load := Some proto_load
|}.
End Operations.

(** ** Rules *)

Definition sysinfo_ok (v : sysinfo_vars) : Prop :=
  is_u8 (device_id v) /\ length (label v) = 8%nat /\ Forall is_u8 (label v).

Section Rules.
Context {HW : Hardware} {E : fault -> node -> Prop}.

(** What the system modules save. *)
Definition sysinfo_payload (v : sysinfo_vars) : list Z := device_id v :: label v.

Lemma sysinfo_save_wp {FL : FlashLaws HW} ch st l (Q : CAN_Node_EEStream -> node -> Prop) s :
  sysinfo_ok (n_sysinfo s) -> written st l (mach s) -> (length l + 9 <= tape_size)%nat ->
  (forall st' h, written st' (l ++ sysinfo_payload (n_sysinfo s)) h -> keeps eeprom (mach s) h -> Q st' (set_mach h s)) ->
  wp E (sysinfo_save ch st) Q s.
Proof.
  intros (Hd & Hlen & Hl) Hst Hsz HQ. unfold sysinfo_save. apply wp_bind, wp_rd, wp_bind, wp_io.
  eapply EEStream_write_wp; [exact Hst|lia|done|]. intros st1 h1 W1 K1.
  change 8 with (Z.of_nat 8). rewrite <- Hlen.
  apply (write_all_wp (fun i => idx f_label i) (label (n_sysinfo s)) st1 (l ++ [device_id (n_sysinfo s)])); [done| |done| |].
  - rewrite length_app. simpl. lia.
  - intros k b h Hb. apply idx_ok; [lia|]. by rewrite Nat2Z.id.
  - intros st' h W K. rewrite <- app_assoc in W. apply HQ; [exact W|]. by apply (keeps_trans _ _ h1).
Qed.

(** Loading reads nine bytes: the device and the label. *)
Lemma sysinfo_load_wp I ch st (Q : CAN_Node_EEStream -> node -> Prop) s :
  length (label (n_sysinfo s)) = 8%nat -> reads 9 I -> I [] st (mach s) ->
  (forall v st' h, sysinfo_ok v -> I (sysinfo_payload v) st' h -> Q st' (set_mach h (set_sysinfo v s))) ->
  wp E (sysinfo_load ch st) Q s.
Proof.
  intros Hlen HR HI HQ. unfold sysinfo_load.
  apply wp_bind, wp_io. apply (HR _ []); [simpl; lia|done|]. intros d st1 h1 Hd HI1.
  apply wp_bind, wp_wr. cbn [fset f_device_id].
  set (s1 := set_sysinfo (SysinfoVars d (label (n_sysinfo (set_mach h1 s)))) (set_mach h1 s)).
  apply (wp_for_acc _ _ _ (fun done st' s' => exists l h, s' = set_mach h (set_sysinfo (SysinfoVars d l) s) /\
           length l = 8%nat /\ Forall is_u8 (take (length done) l) /\ I (d :: take (length done) l) st' h)).
  - exists (label (n_sysinfo s)), h1. split; [done|]. split; [done|]. split; [constructor|done].
  - intros done x rest st' s' Heq (l & h & -> & Hl & Hu & HI'). apply range_split in Heq as [-> Hx].
    apply wp_bind, wp_io. apply (HR _ (d :: take (length done) l)); [simpl; rewrite length_take; lia|done|].
    intros b st2 h2 Hb HI2. apply wp_bind. eapply wp_eq; [apply idx_set_ok; simpl; lia|]. apply wp_ret.
    exists (<[length done := b]> l), h2. cbn [fset fget f_label]. rewrite Nat2Z.id.
    rewrite length_app, length_insert. cbn [length]. rewrite Nat.add_1_r.
    rewrite (take_S_r _ _ b) by (apply list_lookup_insert_eq; lia). rewrite take_insert_ge by lia.
    split; [done|]. split; [done|]. split; [|done]. apply Forall_app. split; [done|by constructor].
  - intros st' s' (l & h & -> & Hl & Hu & HI'). change (length (range 8)) with 8%nat in *. rewrite take_ge in Hu, HI' by lia.
    by apply HQ.
Qed.

(** What a system request may do: send a reply of its own. *)
Lemma sysinfo_request_wp {GL : GpioLaws HW} ch address reply (Q : Z * list Z -> node -> Prop) s :
  leds_ok (n_led s) -> sysinfo_ok (n_sysinfo s) -> length reply = 8%nat -> Forall is_u8 reply ->
  (forall n reply' s', sends s s' -> length reply' = 8%nat -> Forall is_u8 reply' -> Q (n, reply') s') ->
  wp E (sysinfo_request ch address reply) Q s.
Proof.
  intros Hl (Hd & Hlab & Hu) Hlen Hr HQ.
  assert (sends s s) as Hrefl by (split; [done|split; [done|apply keeps_refl]]).
  assert (forall pairs r (Q' : list Z -> node -> Prop) s', length r = 8%nat -> Forall is_u8 r ->
            Forall (fun p => 0 <= p.1 < 8 /\ is_u8 p.2) pairs ->
            (forall r', length r' = 8%nat -> Forall is_u8 r' -> Q' r' s') -> wp E (put_bytes r pairs) Q' s') as Hbytes.
  { intros pairs. induction pairs as [|[k v] pairs IH]; intros r Q' s' Hlr Hur Hp HQ'; [by apply wp_ret, HQ'|].
    apply Forall_cons_1 in Hp as [[Hk Hv] Hp]. apply wp_bind, wp_set_index; [simpl in *; lia|].
    destruct (reply_insert r (Z.to_nat k) v Hlr Hur Hv). by apply IH. }
  assert (forall pairs r (Q' : list Z -> node -> Prop) s', sends s s' -> length r = 8%nat -> Forall is_u8 r ->
            Forall (fun p => 0 <= p.1 < 8) pairs ->
            (forall r' s'', sends s s'' -> length r' = 8%nat -> Forall is_u8 r' -> Q' r' s'') ->
            wp E (put_serial r pairs) Q' s') as Hserial.
  { intros pairs. induction pairs as [|[k n] pairs IH]; intros r Q' s' Hs Hlr Hur Hp HQ'; [by apply wp_ret, HQ'|].
    apply Forall_cons_1 in Hp as [Hk Hp]. apply wp_bind, wp_io, wp_load_any. intros v h Hv K R.
    apply wp_bind, wp_set_index; [simpl in *; lia|]. destruct (reply_insert r (Z.to_nat k) v Hlr Hur Hv).
    apply IH; [|done..]. eapply sends_trans; [exact Hs|]. apply sends_io; [by destruct Hs as (_ & ? & _)|].
    split; [intros d Hd' _; by apply K|by apply vars_none]. }
  unfold sysinfo_request.
  apply wp_if; intros _; [|apply wp_if; intros _; [|apply wp_if; intros _; [|apply wp_if; intros _; [|apply wp_if; intros _]]]].
  - apply wp_bind, Hbytes; [done|done| |by intros r' H1 H2; apply wp_ret, HQ].
    repeat (constructor; [split; [simpl; lia|by vm_compute]|]). constructor.
  - apply wp_bind, Hbytes; [done|done| |by intros r' H1 H2; apply wp_ret, HQ].
    repeat (constructor; [split; [simpl; lia|by vm_compute]|]). constructor.
  - apply wp_bind, Hbytes; [done|done| |].
    + repeat (constructor; [split; [simpl; lia|by vm_compute]|]). constructor.
    + intros r H1 H2. apply wp_bind, Hserial; [done|done|done| |by intros r' s' H3 H4 H5; apply wp_ret, HQ].
      repeat (constructor; [simpl; lia|]). constructor.
  - apply wp_bind, Hserial; [done|done|done| |by intros r' s' H3 H4 H5; apply wp_ret, HQ].
    repeat (constructor; [simpl; lia|]). constructor.
  - apply wp_bind. unfold label_length. apply wp_bind, wp_rd, wp_ret, wp_bind, wp_rd, wp_bind.
    apply CAN_Node_CAN_send_reply_wp; [done|cbn [fget f_label]; lia|]. intros s' Hs. by apply wp_ret, HQ.
  - by apply wp_ret, HQ.
Qed.
End Rules.
