(* ===== verification/Module.v ===== *)
(** The module manager, [firmware/stm8/can_node/module.c], but for the packet
    dispatch, which is in [Handlers.v]: the tables, the channel assignment, the
    timer, and saving and loading the configuration.

    The theorems about channels are proved against the interface of [Channel.v];
    [channel_law] is where the four channel modules discharge it. *)

From stdpp Require Import sets.
From S2P Require Import Prelude Monad CanProto Machine Gpio Flash Eestream CanDrv CanRules Sim State Led Can.
From S2P Require Import Channel Switch Button Analog Tim1 Onewire Ds18b20 Sysinfo.

(** ** Operations *)

Section Operations.
Context {HW : Hardware}.

(** The module object a pointer points to. *)
Definition ops_of (p : module_ptr) : module_ops :=
  match p with
  | sysinfo_ptr => mod_sysinfo
  | mod_proto_ptr => mod_proto
  | mod_switch_ptr => mod_switch
  | mod_button_ptr => mod_button
  | mod_analog_ptr => mod_analog
  | mod_ds18b20_ptr => mod_ds18b20
  end.

Definition CAN_Node_register_sysinfo_module (module : option module_ptr) : prog node unit :=
  wr f_sysinfo_module module.

Definition CAN_Node_register_proto_module (module : option module_ptr) : prog node unit :=
  wr f_proto_module module.

Definition CAN_Node_register_function_module (function_id : Z) (module : option module_ptr) : prog node unit :=
  idx_set f_function_modules function_id module.

Definition CAN_Node_set_channel (channel_id function_id : Z) : prog node unit :=
  let! m := idx f_channel_modules channel_id in
  match m with
  | Some p => on_deinit (ops_of p) channel_id ;; idx_set f_channel_modules channel_id None
  | None => ret tt
  end ;;
  let! f := idx f_function_modules function_id in
  idx_set f_channel_modules channel_id f ;;
  idx_set f_module_ids channel_id function_id ;;
  let! m := idx f_channel_modules channel_id in
  match m with
  | Some p => on_init (ops_of p) channel_id
  | None => ret tt
  end.

Definition CAN_Node_get_channel (channel_id : Z) : prog node Z := idx f_module_ids channel_id.

Definition CAN_Node_handle_timer : prog node unit :=
  for_each (range CAN_Node_ChannelCount) (fun i =>
    let! m := idx f_channel_modules i in
    match m with
    | Some p => call_timer (ops_of p) i
    | None => ret tt
    end).

Definition Header : Z := 0x53.

Definition CAN_Node_save_modules : prog node unit :=
  let! sysinfo := rd f_sysinfo_module in
  let! proto := rd f_proto_module in
  match sysinfo, proto with
  | Some sysinfo, Some proto =>
      let! stream := io (CAN_Node_EEStream_open CAN_Node_EEStream_Write) in
      let! stream := io (CAN_Node_EEStream_write_byte stream Header) in
      let! stream := call_save (ops_of sysinfo) 0 stream in
      let! stream := call_save (ops_of proto) 0 stream in
      let! stream := for_acc (range CAN_Node_ChannelCount) stream (fun i stream =>
        let! id := idx f_module_ids i in
        io (CAN_Node_EEStream_write_byte stream id)) in
      let! stream := for_acc (range CAN_Node_ChannelCount) stream (fun i stream =>
        let! m := idx f_channel_modules i in
        match m with
        | Some p => call_save (ops_of p) i stream
        | None => ret stream
        end) in
      io (CAN_Node_EEStream_close stream)
  | _, _ => ret tt
  end.

Definition CAN_Node_load_modules : prog node unit :=
  let! sysinfo := rd f_sysinfo_module in
  let! proto := rd f_proto_module in
  match sysinfo, proto with
  | Some sysinfo, Some proto =>
      let! stream := io (CAN_Node_EEStream_open CAN_Node_EEStream_Read) in
      let! (i, stream) := io (CAN_Node_EEStream_read_byte stream) in
      if negb (i =? Header) then ret tt
      else
        let! stream := call_load (ops_of sysinfo) 0 stream in
        let! stream := call_load (ops_of proto) 0 stream in
        let! stream := for_acc (range CAN_Node_ChannelCount) stream (fun i stream =>
          let! (function_id, stream) := io (CAN_Node_EEStream_read_byte stream) in
          CAN_Node_set_channel i
            (if function_id <? HA_CAN_Node_FunctionCount then function_id else HA_CAN_Node_Function_None) ;;
          ret stream) in
        let! stream := for_acc (range CAN_Node_ChannelCount) stream (fun i stream =>
          let! m := idx f_channel_modules i in
          match m with
          | Some p => call_load (ops_of p) i stream
          | None => ret stream
          end) in
        io (CAN_Node_EEStream_close stream)
  | _, _ => ret tt
  end.
End Operations.

(** ** The invariant of the tables *)

(** The tables as [register_modules] of [main.c] fills them. *)
Definition function_table : list (option module_ptr) :=
  [None; Some mod_switch_ptr; Some mod_button_ptr; Some mod_analog_ptr; None; Some mod_ds18b20_ptr].

Definition is_function (f : Z) : Prop := 0 <= f < HA_CAN_Node_FunctionCount.

(** The module of a function. *)
Definition module_of (f : Z) : option module_ptr := default None (function_table !! Z.to_nat f).

(** Whether a module uses the analog converter. *)
Definition adc_of (m : option module_ptr) : bool := bool_decide (m = Some mod_analog_ptr).

(** Whether a module can wait for something outside the node without a bound:
    the analog module for the next sensor, the thermometer for its bus. *)
Definition waits_of (m : option module_ptr) : bool :=
  match m with Some mod_analog_ptr | Some mod_ds18b20_ptr => true | _ => false end.

Definition tables_ok (v : module_vars) : Prop :=
  sysinfo_module v = Some sysinfo_ptr /\ proto_module v = Some mod_proto_ptr /\ function_modules v = function_table /\
  length (module_ids v) = 4%nat /\ Forall is_function (module_ids v) /\
  channel_modules v = module_of <$> module_ids v.

Section Tables.
Context {HW : Hardware} {GL : GpioLaws HW} {CL : CanLaws HW} {FL : FlashLaws HW}.

(** A pointer to a module that a channel can have. *)
Definition channel_ptr (p : module_ptr) : bool :=
  match p with sysinfo_ptr | mod_proto_ptr => false | _ => true end.

(** The four implementations of the interface. *)
Definition channel_law (p : module_ptr) : channel_ptr p = true -> ChannelModule (ops_of p) :=
  match p return channel_ptr p = true -> ChannelModule (ops_of p) with
  | mod_switch_ptr => fun _ => switch_module
  | mod_button_ptr => fun _ => button_module
  | mod_analog_ptr => fun _ => analog_module
  | mod_ds18b20_ptr => fun _ => ds18b20_module
  | sysinfo_ptr | mod_proto_ptr => fun H => match Bool.diff_false_true H with end
  end.

Lemma channel_law_adc p (H : channel_ptr p = true) : uses_adc (ChannelModule:=channel_law p H) = adc_of (Some p).
Proof. by destruct p. Qed.

Lemma module_of_channel f p : module_of f = Some p -> channel_ptr p = true.
Proof.
  unfold module_of, function_table. intros H. destruct (Z.to_nat f) as [|[|[|[|[|[|k]]]]]]; simpl in H; by simplify_eq/=.
Qed.

(** The payloads and the agreement of the module at a channel. *)
Definition saved_of (m : option module_ptr) (x : setting) (pl : list Z) : Prop :=
  match m with
  | Some p => exists H : channel_ptr p = true, saved (ChannelModule:=channel_law p H) x pl
  | None => pl = []
  end.

Definition agree_of (m : option module_ptr) (x y : setting) : Prop :=
  match m with
  | Some p => exists H : channel_ptr p = true, agree (ChannelModule:=channel_law p H) x y
  | None => True
  end.

(** The function of a channel. *)
Definition function_at (ch : Z) (s : node) : Z := nth (Z.to_nat ch) (module_ids (n_module s)) 0.
Definition module_at (ch : Z) (s : node) : option module_ptr := module_of (function_at ch s).

(** The enabled sensors are those of the analog channels. *)
Definition linked (s : node) : Prop := forall ch, is_channel ch -> enabled ch s = adc_of (module_at ch s).

Lemma ids_lookup ch s :
  tables_ok (n_module s) -> is_channel ch ->
  module_ids (n_module s) !! Z.to_nat ch = Some (function_at ch s) /\
  channel_modules (n_module s) !! Z.to_nat ch = Some (module_at ch s) /\ is_function (function_at ch s).
Proof.
  intros (_ & _ & _ & Hlen & Hf & Hc) Hch. unfold is_channel, CAN_Node_ChannelCount in Hch.
  destruct (lookup_lt_is_Some_2 (module_ids (n_module s)) (Z.to_nat ch)) as [f Hf']; [lia|].
  assert (function_at ch s = f) as ->.
  { unfold function_at. rewrite (nth_lookup_Some _ _ _ f); done. }
  split; [done|]. rewrite Hc, list_lookup_fmap, Hf'. unfold module_at, function_at.
  rewrite (nth_lookup_Some _ _ _ f) by done. split; [done|].
  eapply List.Forall_forall; [exact Hf|]. by eapply list_elem_of_In, list_elem_of_lookup_2.
Qed.

Lemma wp_channel_module E ch (Q : option module_ptr -> node -> Prop) s :
  tables_ok (n_module s) -> is_channel ch -> Q (module_at ch s) s -> wp E (idx f_channel_modules ch) Q s.
Proof.
  intros Ht Hch HQ. destruct (ids_lookup ch s Ht Hch) as (_ & Hm & _).
  eapply wp_eq; [apply (idx_ok f_channel_modules ch (module_at ch s)); [apply Hch|exact Hm]|done].
Qed.

Lemma wp_module_id E ch (Q : Z -> node -> Prop) s :
  tables_ok (n_module s) -> is_channel ch -> Q (function_at ch s) s -> wp E (idx f_module_ids ch) Q s.
Proof.
  intros Ht Hch HQ. destruct (ids_lookup ch s Ht Hch) as (Hm & _ & _).
  eapply wp_eq; [apply (idx_ok f_module_ids ch (function_at ch s)); [apply Hch|exact Hm]|done].
Qed.

(** The tables after channel [ch] got function [f]. *)
Definition put_channel (ch f : Z) (v : module_vars) : module_vars :=
  ModuleVars (sysinfo_module v) (proto_module v) (function_modules v)
    (<[Z.to_nat ch := module_of f]> (channel_modules v)) (<[Z.to_nat ch := f]> (module_ids v)).

Lemma tables_ok_put ch f v : tables_ok v -> is_function f -> tables_ok (put_channel ch f v).
Proof.
  intros (Hs & Hp & Hfm & Hlen & Hf & Hc) H. repeat split; try done; cbn [put_channel module_ids channel_modules].
  - by rewrite length_insert.
  - by apply Forall_insert.
  - by rewrite list_fmap_insert, Hc.
Qed.

Lemma function_lookup f v :
  tables_ok v -> is_function f -> function_modules v !! Z.to_nat f = Some (module_of f).
Proof.
  intros (_ & _ & -> & _) Hf. unfold is_function, HA_CAN_Node_FunctionCount in Hf. unfold module_of.
  destruct (lookup_lt_is_Some_2 function_table (Z.to_nat f)) as [m Hm]; [simpl; lia|]. by rewrite Hm.
Qed.

(** What giving channel [ch] function [f] does to the node. *)
Definition set_channel_step (ch f : Z) (s s' : node) : Prop :=
  chan_inv s' /\ n_module s' = put_channel ch f (n_module s) /\
  clock_counter s' = clock_counter s /\ n_sysinfo s' = n_sysinfo s /\ n_can s' = n_can s /\
  keeps off_tape (mach s) (mach s') /\
  enabled ch s' = adc_of (module_of f) /\ setting_of ch s' = setting_of ch s /\
  forall c, is_channel c -> c <> ch -> enabled c s' = enabled c s /\ setting_of c s' = setting_of c s.

(** Reaching the second half of [CAN_Node_set_channel]: the channel has no
    module that is running. *)
Lemma set_channel_init_wp E ch f v (Q : unit -> node -> Prop) s :
  tables_ok v -> is_channel ch -> is_function f -> chan_inv s -> enabled ch s = false ->
  (exists m, n_module s = ModuleVars (sysinfo_module v) (proto_module v) (function_modules v)
                            (<[Z.to_nat ch := m]> (channel_modules v)) (module_ids v)) ->
  (forall s', chan_inv s' -> n_module s' = put_channel ch f v -> chan_step ch (set_module (n_module s') s) s' ->
     enabled ch s' = adc_of (module_of f) -> setting_of ch s' = setting_of ch s -> Q tt s') ->
  wp E (let! g := idx f_function_modules f in
        idx_set f_channel_modules ch g ;;
        idx_set f_module_ids ch f ;;
        let! m := idx f_channel_modules ch in
        match m with Some p => on_init (ops_of p) ch | None => ret tt end) Q s.
Proof.
  intros Hv Hch Hf Hs Hen (m0 & Hm0) HQ.
  pose proof (function_lookup f v Hv Hf) as Hfun. destruct Hv as (_ & _ & Hfm & Hlen & _ & Hcm).
  assert (length (channel_modules v) = 4%nat) as Hclen by (rewrite Hcm, length_fmap; done).
  assert (0 <= ch < 4) as Hch4 by exact Hch. assert (0 <= f) as Hf0 by apply Hf.
  apply wp_bind. eapply wp_eq; [apply (idx_ok f_function_modules f (module_of f)); [done|]|].
  { cbn [fget f_function_modules]. by rewrite Hm0. }
  apply wp_bind. eapply wp_eq; [apply idx_set_ok; cbn [fget f_channel_modules]; rewrite Hm0; cbn [channel_modules]; rewrite length_insert; lia|].
  apply wp_bind. eapply wp_eq; [apply idx_set_ok; cbn; rewrite Hm0; cbn [module_ids]; lia|].
  match goal with |- wp _ _ _ ?t => set (s2 := t) end.
  assert (s2 = set_module (put_channel ch f v) s) as Hs2.
  { subst s2. unfold put_channel. cbn. rewrite Hm0. cbn. by rewrite list_insert_insert_eq. }
  clearbody s2. subst s2.
  assert (chan_inv (set_module (put_channel ch f v) s)) as Hs' by exact Hs.
  apply wp_bind. eapply wp_eq; [apply (idx_ok f_channel_modules ch (module_of f)); [lia|]|].
  { cbn. apply list_lookup_insert_eq. lia. }
  destruct (module_of f) as [p|] eqn:Hp.
  - pose proof (module_of_channel f p Hp) as Hcp.
    apply (init_law (ChannelModule:=channel_law p Hcp)); [done|done|done|].
    intros s' Hst Hen' Hset. rewrite channel_law_adc in Hen'.
    assert (n_module s' = put_channel ch f v) as Hn by by destruct Hst as (_ & (_ & _ & ? & _) & _).
    apply HQ; [by eapply chan_step_inv|done|by rewrite Hn|done|done].
  - apply wp_ret, HQ; [done|done|by apply chan_step_refl|done|done].
Qed.

Lemma CAN_Node_set_channel_wp E ch f (Q : unit -> node -> Prop) s :
  (adc_of (module_at ch s) = true -> hang_ok E s) ->
  tables_ok (n_module s) -> is_channel ch -> is_function f -> chan_inv s ->
  enabled ch s = adc_of (module_at ch s) ->
  (forall s', set_channel_step ch f s s' -> Q tt s') ->
  wp E (CAN_Node_set_channel ch f) Q s.
Proof.
  intros HE Ht Hch Hf Hs Hen HQ. pose proof Ht as (_ & _ & _ & Hlen & _ & Hcm).
  assert (length (channel_modules (n_module s)) = 4%nat) as Hclen by (rewrite Hcm, length_fmap; done).
  assert (0 <= ch < 4) as Hch4 by exact Hch. destruct (ids_lookup ch s Ht Hch) as (_ & Hm & _).
  unfold CAN_Node_set_channel. apply wp_bind, wp_channel_module; [done|done|]. apply wp_bind.
  destruct (module_at ch s) as [p|] eqn:Hp.
  - pose proof (module_of_channel _ p Hp) as Hcp.
    apply wp_bind, (deinit_law (ChannelModule:=channel_law p Hcp)); [by rewrite channel_law_adc|done|done|by rewrite channel_law_adc|].
    intros s1 Hst Hen1 Hset1. pose proof Hst as (Hs1 & (C1 & C2 & C3 & C4 & C5) & Hoth).
    eapply wp_eq; [apply idx_set_ok; cbn [fget f_channel_modules]; rewrite C3; lia|].
    apply (set_channel_init_wp E ch f (n_module s)); [done|done|done|exact Hs1|exact Hen1| |].
    { exists None. cbn. by rewrite C3. }
    intros s' Hs' Hn' (_ & (D1 & D2 & D3 & D4 & D5) & Hoth') Hen' Hset'. apply HQ.
    split; [done|]. split; [done|]. split; [by rewrite D1|]. split; [by rewrite D2|]. split; [by rewrite D4|].
    split; [by eapply keeps_trans|]. split; [done|]. split; [by rewrite Hset'|].
    intros c Hc Hne. destruct (Hoth c Hc Hne), (Hoth' c Hc Hne) as [-> ->]. by split.
  - apply wp_ret, (set_channel_init_wp E ch f (n_module s)); [done|done|done|done|by rewrite Hen| |].
    { exists None. rewrite (list_insert_id _ _ _ Hm). by destruct (n_module s). }
    intros s' Hs' Hn' (_ & (D1 & D2 & D3 & D4 & D5) & Hoth') Hen' Hset'. apply HQ.
    split; [done|]. split; [done|]. split; [by rewrite D1|]. split; [by rewrite D2|]. split; [by rewrite D4|].
    split; [done|]. split; [done|]. split; [by rewrite Hset'|].
    intros c Hc Hne. destruct (Hoth' c Hc Hne) as [-> ->]. by split.
Qed.

(** *** The invariant of the module manager *)

Definition node_inv (s : node) : Prop :=
  chan_inv s /\ tables_ok (n_module s) /\ linked s /\ sysinfo_ok (n_sysinfo s).

Lemma node_inv_set_channel ch f s s' :
  node_inv s -> is_channel ch -> is_function f -> set_channel_step ch f s s' -> node_inv s'.
Proof.
  intros (Hs & Ht & Hl & Hi) Hch Hf (Hs' & Hn & _ & Hsys & _ & _ & Hen & _ & Hoth).
  split; [done|]. split; [rewrite Hn; by apply tables_ok_put|]. split; [|by rewrite Hsys].
  assert (0 <= ch < 4) as Hch4 by exact Hch. destruct Ht as (_ & _ & _ & Hlen & _).
  intros c Hc. unfold module_at, function_at. rewrite Hn. cbn [put_channel module_ids].
  destruct (Z.eq_dec c ch) as [->|Hne].
  - rewrite (nth_lookup_Some _ _ _ f); [done|]. apply list_lookup_insert_eq. lia.
  - destruct (Hoth c Hc Hne) as [-> _]. rewrite (Hl c Hc). unfold module_at, function_at.
    rewrite !nth_lookup, list_lookup_insert_ne by (by apply channel_nat_ne). done.
Qed.

Lemma node_inv_load ch s s' :
  node_inv s -> is_channel ch -> chan_step ch s s' -> enabled ch s' = enabled ch s -> node_inv s'.
Proof.
  intros (Hs & Ht & Hl & Hi) Hch (Hs' & (_ & Hsys & Hn & _) & F) He. split; [done|]. split; [by rewrite Hn|].
  split; [|by rewrite Hsys]. intros c Hc. unfold module_at, function_at. rewrite Hn.
  destruct (Z.eq_dec c ch) as [->|Hne]; [rewrite He|destruct (F c Hc Hne) as [-> _]]; by apply Hl.
Qed.

(** What a round of the timer may do. *)
Definition channels_step (s s' : node) : Prop :=
  chan_inv s' /\ same_core s s' /\
  forall c, is_channel c -> enabled c s' = enabled c s /\ setting_of c s' = setting_of c s.

Lemma channels_step_refl s : chan_inv s -> channels_step s s.
Proof. intros Hs. split; [done|]. split; [apply same_core_refl|done]. Qed.

Lemma channels_step_chan ch s0 s s' :
  channels_step s0 s -> chan_step ch s s' -> enabled ch s' = enabled ch s -> setting_of ch s' = setting_of ch s ->
  channels_step s0 s'.
Proof.
  intros (_ & C0 & F0) (Hs' & C1 & F1) He Hset. split; [done|]. split; [by eapply same_core_trans|].
  intros c Hc. destruct (F0 c Hc) as [<- <-]. destruct (Z.eq_dec c ch) as [->|Hne]; [done|by apply F1].
Qed.

(** The modules are where they were: the tables did not change. *)
Lemma module_at_core c s s' : n_module s' = n_module s -> module_at c s' = module_at c s.
Proof. unfold module_at, function_at. by intros ->. Qed.

Lemma node_inv_channels s s' : node_inv s -> channels_step s s' -> node_inv s'.
Proof.
  intros (Hs & Ht & Hl & Hi) (Hs' & (_ & Hsys & Hn & _) & F). split; [done|]. split; [by rewrite Hn|].
  split; [|by rewrite Hsys]. intros c Hc. destruct (F c Hc) as [-> _]. rewrite (module_at_core c s s' Hn). by apply Hl.
Qed.

(** Some channel has a module that waits; the caller accepts that it does. *)
Definition can_wait (s : node) : Prop := exists c, is_channel c /\ waits_of (module_at c s) = true.

Definition wait_ok (E : fault -> node -> Prop) (s : node) : Prop := can_wait s -> hang_ok E s.

Lemma can_wait_core s s' : n_module s' = n_module s -> can_wait s -> can_wait s'.
Proof. intros Hn (c & Hc & Hw). exists c. by rewrite (module_at_core c s s'). Qed.

Lemma wait_ok_core E s s' : n_module s' = n_module s -> wait_ok E s -> wait_ok E s'.
Proof. intros Hn H Hc. apply (hang_ok_eq _ s); [done|]. apply H. by apply (can_wait_core s'). Qed.

Lemma wait_ok_at E ch s : is_channel ch -> wait_ok E s -> waits_of (module_at ch s) = true -> hang_ok E s.
Proof. intros Hch H Hw. apply H. by exists ch. Qed.

Lemma adc_waits m : adc_of m = true -> waits_of m = true.
Proof. unfold adc_of. intros H. by apply bool_decide_eq_true in H as ->. Qed.

Lemma CAN_Node_handle_timer_wp E (Q : unit -> node -> Prop) s :
  (forall c, is_channel c -> adc_of (module_at c s) = true -> hang_ok E s) -> node_inv s -> (forall s', channels_step s s' -> Q tt s') -> wp E CAN_Node_handle_timer Q s.
Proof.
  intros HE Hs HQ. unfold CAN_Node_handle_timer. apply (wp_mono _ (fun _ => channels_step s)); [|by intros [] s' H; apply HQ].
  apply (wp_for_each_inv _ _ (channels_step s)); [apply channels_step_refl, Hs|].
  intros i s' Hi St. apply range_elem in Hi as Hch. change (is_channel i) in Hch.
  pose proof (node_inv_channels s s' Hs St) as (Hs' & Ht' & Hl' & _).
  apply wp_bind, wp_channel_module; [done|done|]. destruct (module_at i s') as [p|] eqn:Hp; [|by apply wp_ret].
  pose proof (module_of_channel _ p Hp) as Hcp.
  pose proof St as (_ & (_ & _ & Hn & _) & _).
  apply (timer_law (ChannelModule:=channel_law p Hcp)); [|done|done| |].
  { rewrite channel_law_adc, <- Hp, (module_at_core i s s' Hn). intros Hadc. apply (hang_ok_eq _ s); [done|by apply (HE i)]. }
  { rewrite channel_law_adc, <- Hp. by apply Hl'. }
  intros s'' St' He Hset. by apply (channels_step_chan i s s').
Qed.

(** *** Saving *)

(** What the tape holds after the configuration was saved. *)
Definition payloads_of (n : nat) (s : node) (pls : list (list Z)) : Prop :=
  length pls = n /\ forall k pl, pls !! k = Some pl -> saved_of (module_at (Z.of_nat k) s) (setting_of (Z.of_nat k) s) pl.

Definition image (s : node) (pls : list (list Z)) : list Z :=
  Header :: sysinfo_payload (n_sysinfo s) ++ module_ids (n_module s) ++ concat pls.

Lemma saved_of_bytes m x pl : saved_of m x pl -> (length pl <= 5)%nat /\ Forall is_u8 pl.
Proof.
  destruct m as [p|]; [intros [Hp H]; by apply (saved_small (ChannelModule:=channel_law p Hp) x)|].
  intros ->. split; [simpl; lia|constructor].
Qed.

Lemma payloads_bytes n s pls : payloads_of n s pls -> (length (concat pls) <= 5 * n)%nat /\ Forall is_u8 (concat pls).
Proof.
  intros [<- H]. assert (forall pl, pl ∈ pls -> (length pl <= 5)%nat /\ Forall is_u8 pl) as Hall.
  { intros pl Hin. apply list_elem_of_lookup in Hin as [k Hk]. by eapply saved_of_bytes, H. }
  clear H. induction pls as [|pl pls IH]; [split; [simpl; lia|constructor]|].
  destruct IH as [IH1 IH2]; [intros; apply Hall; by right|]. destruct (Hall pl) as [H1 H2]; [by left|].
  cbn [concat length]. rewrite length_app. split; [lia|by apply Forall_app].
Qed.

Lemma payloads_snoc n s pls pl :
  payloads_of n s pls -> saved_of (module_at (Z.of_nat n) s) (setting_of (Z.of_nat n) s) pl ->
  payloads_of (S n) s (pls ++ [pl]).
Proof.
  intros [<- H] Hpl. split; [rewrite length_app; simpl; lia|]. intros k x Hk.
  apply lookup_app_Some in Hk as [Hk | [Hge Hk]]; [by apply H|].
  apply list_lookup_singleton_Some in Hk as [Hz ->]. by replace k with (length pls) by lia.
Qed.

Lemma image_size s pls : node_inv s -> payloads_of 4 s pls -> (0 + length (image s pls) <= tape_size)%nat.
Proof.
  intros (_ & (_ & _ & _ & Hlen & _) & _ & (_ & Hlab & _)) Hp. pose proof (payloads_bytes _ _ _ Hp) as [Hpl _].
  unfold image, sysinfo_payload. cbn [app length]. rewrite !length_app, Hlab, Hlen. unfold tape_size. lia.
Qed.

(** The loop that saves the channels. *)
Lemma save_channels_wp E st l (Q : CAN_Node_EEStream -> node -> Prop) s :
  node_inv s -> written st l (mach s) -> (length l + 20 <= tape_size)%nat ->
  (forall st' pls h, payloads_of 4 s pls -> written st' (l ++ concat pls) h -> keeps eeprom (mach s) h ->
     Q st' (set_mach h s)) ->
  wp E (for_acc (range CAN_Node_ChannelCount) st (fun i stream =>
          let! m := idx f_channel_modules i in
          match m with Some p => call_save (ops_of p) i stream | None => ret stream end)) Q s.
Proof.
  intros (Hs & Ht & Hl & _) Hst Hlen HQ.
  apply (wp_for_acc _ _ _ (fun done st' s' => exists pls h, s' = set_mach h s /\ payloads_of (length done) s pls /\
           written st' (l ++ concat pls) h /\ keeps eeprom (mach s) h)).
  - exists [], (mach s). split; [by destruct s|]. split; [by split|]. rewrite app_nil_r. split; [done|apply keeps_refl].
  - intros done x rest st' s' Heq (pls & h & -> & Hp & W & K). apply range_split in Heq as [-> Hx].
    pose proof (payloads_bytes _ _ _ Hp) as [Hpl _]. unfold CAN_Node_ChannelCount in Hx.
    rewrite length_app. cbn [length]. rewrite Nat.add_1_r.
    apply wp_bind, wp_channel_module; [exact Ht|exact Hx|].
    assert (module_at (Z.of_nat (length done)) (set_mach h s) = module_at (Z.of_nat (length done)) s) as -> by done.
    destruct (module_at (Z.of_nat (length done)) s) as [p|] eqn:Hm.
    + pose proof (module_of_channel _ p Hm) as Hcp.
      apply (save_law (ChannelModule:=channel_law p Hcp) E _ st' (l ++ concat pls)); [exact Hx|exact Hs|exact W| |].
      { rewrite length_app. lia. }
      intros st2 h2 pl Hpl2 W2 K2. exists (pls ++ [pl]), h2. split; [done|]. split.
      { apply payloads_snoc; [done|]. rewrite Hm. by exists Hcp. }
      rewrite concat_app. cbn [concat]. rewrite app_nil_r, app_assoc. split; [done|by eapply keeps_trans].
    + apply wp_ret. exists (pls ++ [[]]), h. split; [done|]. split.
      { apply payloads_snoc; [done|]. by rewrite Hm. }
      rewrite concat_app. cbn [concat]. by rewrite !app_nil_r.
  - intros st' s' (pls & h & -> & Hp & W & K). by apply (HQ st' pls).
Qed.

(** Saving writes the image of the node to the tape and changes nothing else. *)
Lemma CAN_Node_save_modules_wp E (Q : unit -> node -> Prop) s :
  node_inv s ->
  (forall pls h, payloads_of 4 s pls -> tape 0 (image s pls) (cells h) ->
     keeps (fun d => eeprom d \/ flash_reg d) (mach s) h -> Q tt (set_mach h s)) ->
  wp E CAN_Node_save_modules Q s.
Proof.
  intros Hs HQ. pose proof Hs as (Hc & Ht & Hl & Hi). pose proof Ht as (Hsys & Hpro & _ & Hlen & Hf & _).
  unfold CAN_Node_save_modules. apply wp_bind, wp_rd, wp_bind, wp_rd. cbn [fget f_sysinfo_module f_proto_module].
  rewrite Hsys, Hpro. apply wp_bind, wp_io, EEStream_open_write_wp. intros st0 h0 W0 K0.
  apply wp_bind, wp_io. eapply EEStream_write_wp; [exact W0|simpl; unfold tape_size; lia|by vm_compute|]. intros st1 h1 W1 K1.
  pose proof Hi as (_ & Hlab & _).
  apply wp_bind. eapply (sysinfo_save_wp 0 st1 [Header]); [exact Hi|exact W1|unfold tape_size; simpl; lia|].
  intros st2 h2 W2 K2. apply wp_bind, wp_ret, wp_bind.
  change (range CAN_Node_ChannelCount) with (range (Z.of_nat 4)). rewrite <- Hlen.
  set (l2 := [Header] ++ sysinfo_payload (n_sysinfo s)).
  assert (length l2 = 10%nat) as Hl2 by (subst l2; cbn [sysinfo_payload app length]; by rewrite Hlab).
  eapply (write_all_wp (fun i => idx f_module_ids i) (module_ids (n_module s)) st2 l2); [exact W2| | | |].
  { rewrite Hl2, Hlen. unfold tape_size. lia. }
  { eapply Forall_impl; [|exact Hf]. intros f. unfold is_function, HA_CAN_Node_FunctionCount, is_u8. lia. }
  { intros k b h Hb. apply idx_ok; [lia|]. by rewrite Nat2Z.id. }
  intros st3 h3 W3 K3. rewrite Hlen. change (range (Z.of_nat 4)) with (range CAN_Node_ChannelCount).
  apply wp_bind. eapply (save_channels_wp E st3); [exact Hs|exact W3| |].
  { rewrite length_app, Hl2, Hlen. unfold tape_size. lia. }
  intros st4 pls h4 Hp W4 K4. pose proof (payloads_bytes _ _ _ Hp) as [Hpl _].
  apply (wp_io_touches E flash_reg); [apply touches_EEStream_close|]. intros [] h5 K5.
  apply (HQ pls); [exact Hp| |].
  - eapply (tape_keeps flash_reg); [by intros d Hd Hr; apply (eeprom_not_flash_reg d)|by apply image_size|exact K5|].
    destruct W4 as (_ & _ & _ & T4). subst l2. unfold image. rewrite <- !app_assoc in T4. exact T4.
  - assert (forall h h', keeps eeprom h h' -> keeps (fun d => eeprom d \/ flash_reg d) h h') as Kl
      by (intros; eapply keeps_weaken; [done|auto]).
    assert (forall h h', keeps flash_reg h h' -> keeps (fun d => eeprom d \/ flash_reg d) h h') as Kr
      by (intros; eapply keeps_weaken; [done|auto]).
    eapply keeps_trans; [by apply Kr|]. eapply keeps_trans; [by apply Kl, K1|]. eapply keeps_trans; [by apply Kl, K2|].
    eapply keeps_trans; [by apply Kl, K3|]. eapply keeps_trans; [by apply Kl, K4|by apply Kr].
Qed.

(** *** Loading *)

(** A function number of the EEPROM, replaced when there is no such function. *)
Definition clamp_function (f : Z) : Z := if f <? HA_CAN_Node_FunctionCount then f else HA_CAN_Node_Function_None.

Lemma clamp_is_function f : is_u8 f -> is_function (clamp_function f).
Proof.
  unfold clamp_function, is_function, is_u8, HA_CAN_Node_FunctionCount, HA_CAN_Node_Function_None. intros Hf.
  destruct (Z.ltb_spec f 6); lia.
Qed.

Lemma clamp_id f : is_function f -> clamp_function f = f.
Proof. unfold clamp_function, is_function. intros Hf. destruct (Z.ltb_spec f HA_CAN_Node_FunctionCount); [done|lia]. Qed.

(** What is not restored from the EEPROM: the clock and the CAN state. *)
Definition load_frame (s s' : node) : Prop :=
  clock_counter s' = clock_counter s /\ n_can s' = n_can s.

(** No channel has a module, as after start-up. *)
Definition no_channels (s : node) : Prop := forall c, is_channel c -> module_at c s = None.

(** The source of the bytes does not mind work on other cells. *)
Definition off_tape_stable (I : list Z -> CAN_Node_EEStream -> machine -> Prop) : Prop :=
  forall l st h h', I l st h -> keeps off_tape h h' -> I l st h'.

Lemma insert_next (fs ids : list Z) f :
  (length fs < length ids)%nat ->
  <[length fs := f]> (fs ++ drop (length fs) ids) = (fs ++ [f]) ++ drop (S (length fs)) ids.
Proof.
  intros Hlt. destruct (lookup_lt_is_Some_2 ids (length fs) Hlt) as [y Hy].
  rewrite (drop_S _ y) by done. rewrite insert_app_r_alt by lia. rewrite Nat.sub_diag. cbn. by rewrite <- app_assoc.
Qed.

(** The loop that assigns the channels. *)
Lemma load_ids_wp E I n l0 st (Q : CAN_Node_EEStream -> node -> Prop) s :
  reads n I -> off_tape_stable I -> (length l0 + 4 <= n)%nat -> I l0 st (mach s) -> node_inv s -> no_channels s ->
  (forall fs st' s', length fs = 4%nat -> I (l0 ++ fs) st' (mach s') -> node_inv s' ->
     module_ids (n_module s') = clamp_function <$> fs -> n_sysinfo s' = n_sysinfo s -> load_frame s s' -> Q st' s') ->
  wp E (for_acc (range CAN_Node_ChannelCount) st (fun i stream =>
          let! (function_id, stream) := io (CAN_Node_EEStream_read_byte stream) in
          CAN_Node_set_channel i
            (if function_id <? HA_CAN_Node_FunctionCount then function_id else HA_CAN_Node_Function_None) ;;
          ret stream)) Q s.
Proof.
  intros HR HS Hn HI Hs Hno HQ. pose proof Hs as (_ & (_ & _ & _ & Hlen & _) & _).
  apply (wp_for_acc _ _ _ (fun done st' s' => exists fs, length fs = length done /\ I (l0 ++ fs) st' (mach s') /\ node_inv s' /\
           module_ids (n_module s') = (clamp_function <$> fs) ++ drop (length fs) (module_ids (n_module s)) /\
           n_sysinfo s' = n_sysinfo s /\ load_frame s s')).
  - exists []. rewrite app_nil_r. split; [done|]. split; [done|]. split; [done|]. split; [done|]. split; [done|].
    by split.
  - intros done x rest st' s' Heq (fs & Hfl & HI' & Hs' & Hids & Hsys & Hfr). apply range_split in Heq as [-> Hx].
    unfold CAN_Node_ChannelCount in Hx. rewrite <- Hfl in *.
    assert (is_channel (Z.of_nat (length fs))) as Hch by exact Hx.
    apply wp_bind, wp_io. apply (HR _ (l0 ++ fs)); [rewrite length_app; lia|exact HI'|]. intros f st2 h2 Hf HI2.
    fold (clamp_function f). pose proof Hs' as (Hc' & Ht' & Hl' & Hi').
    assert (module_at (Z.of_nat (length fs)) s' = None) as Hnone.
    { rewrite <- (Hno (Z.of_nat (length fs)) Hch). unfold module_at, function_at. rewrite Hids, Nat2Z.id.
      rewrite !nth_lookup, lookup_app_r, lookup_drop by (rewrite length_fmap; lia).
      by rewrite length_fmap, Nat.sub_diag, Nat.add_0_r. }
    apply wp_bind, CAN_Node_set_channel_wp; [|exact Ht'|exact Hch|by apply clamp_is_function|exact Hc'| |].
    { change (adc_of (module_at (Z.of_nat (length fs)) s') = true -> hang_ok E s'). by rewrite Hnone. }
    { change (enabled (Z.of_nat (length fs)) s' = adc_of (module_at (Z.of_nat (length fs)) s')). by apply Hl'. }
    intros s3 Hst. apply wp_ret. exists (fs ++ [f]). pose proof Hst as (_ & Hn3 & Hc3 & Hs3 & Hcan3 & Hk3 & _).
    rewrite !length_app, Hfl. cbn [length]. split; [done|]. split.
    { rewrite app_assoc. by apply (HS _ _ h2). }
    split; [by apply (node_inv_set_channel (Z.of_nat (length fs)) (clamp_function f) (set_mach h2 s'));
            [|done|apply clamp_is_function|] |].
    split.
    { rewrite Hn3. cbn [put_channel module_ids]. change (n_module (set_mach h2 s')) with (n_module s').
      rewrite Hids, Nat2Z.id, fmap_app. rewrite <- (length_fmap clamp_function fs) at 1 2.
      rewrite insert_next by (rewrite length_fmap; lia). rewrite length_fmap, Hfl, Nat.add_1_r. done. }
    split; [rewrite Hs3; exact Hsys|]. destruct Hfr as [F1 F2].
    split; [by rewrite Hc3|by rewrite Hcan3].
  - intros st' s' (fs & Hfl & HI' & Hs' & Hids & Hsys & Hfr). change (length (range CAN_Node_ChannelCount)) with 4%nat in Hfl.
    apply (HQ fs); try done. rewrite Hids, Hfl, <- Hlen, drop_all. by rewrite app_nil_r.
Qed.

(** The loop that loads the channels, from any bytes. *)
Lemma load_channels_wp E st (Q : CAN_Node_EEStream -> node -> Prop) s :
  node_inv s ->
  (forall st' s', node_inv s' -> same_core s s' -> Q st' s') ->
  wp E (for_acc (range CAN_Node_ChannelCount) st (fun i stream =>
          let! m := idx f_channel_modules i in
          match m with Some p => call_load (ops_of p) i stream | None => ret stream end)) Q s.
Proof.
  intros Hs HQ.
  apply (wp_for_acc _ _ _ (fun _ _ s' => node_inv s' /\ same_core s s')); [by split; [|apply same_core_refl]| |].
  2: { intros st' s' [H1 H2]. by apply HQ. }
  intros done x rest st' s' Heq [Hs' Hc]. apply range_split in Heq as [-> Hch].
  change (is_channel (Z.of_nat (length done))) in Hch. pose proof Hs' as (Hc' & Ht' & Hl' & Hi').
  apply wp_bind, wp_channel_module; [done|done|].
  destruct (module_at (Z.of_nat (length done)) s') as [p|] eqn:Hp; [|by apply wp_ret].
  pose proof (module_of_channel _ p Hp) as Hcp.
  apply (load_law (ChannelModule:=channel_law p Hcp)); [done|done|rewrite channel_law_adc, <- Hp; by apply Hl'|].
  intros st2 s2 Hst Hen. split; [by apply (node_inv_load (Z.of_nat (length done)) s')|].
  eapply same_core_trans; [exact Hc|by apply Hst].
Qed.

(** The loop that loads the channels, from the payloads of a node [s0]. *)
Lemma restore_channels_wp E st pls s0 (Q : CAN_Node_EEStream -> node -> Prop) s :
  node_inv s -> module_ids (n_module s) = module_ids (n_module s0) ->
  payloads_of 4 s0 pls -> reading st (concat pls) (mach s) ->
  (forall st' s', node_inv s' -> same_core s s' ->
     (forall c, is_channel c -> agree_of (module_at c s0) (setting_of c s0) (setting_of c s')) -> Q st' s') ->
  wp E (for_acc (range CAN_Node_ChannelCount) st (fun i stream =>
          let! m := idx f_channel_modules i in
          match m with Some p => call_load (ops_of p) i stream | None => ret stream end)) Q s.
Proof.
  intros Hs Hids [Hpl Hpls] Hr HQ.
  assert (forall c, module_at c s = module_at c s0) as Hmod by (intros c; unfold module_at, function_at; by rewrite Hids).
  apply (wp_for_acc _ _ _ (fun done st' s' => node_inv s' /\ same_core s s' /\
           reading st' (concat (drop (length done) pls)) (mach s') /\
           forall c, is_channel c -> c < Z.of_nat (length done) ->
             agree_of (module_at c s0) (setting_of c s0) (setting_of c s'))).
  - split; [done|]. split; [apply same_core_refl|]. split; [done|]. unfold is_channel. intros c Hc Hlt. simpl in Hlt. lia.
  - intros done x rest st' s' Heq (Hs' & Hc & Hr' & Hag). apply range_split in Heq as [-> Hch].
    change (is_channel (Z.of_nat (length done))) in Hch. pose proof Hs' as (Hc' & Ht' & Hl' & Hi').
    destruct (lookup_lt_is_Some_2 pls (length done)) as [pl Hpld].
    { rewrite Hpl. unfold is_channel, CAN_Node_ChannelCount in Hch. lia. }
    pose proof (Hpls _ _ Hpld) as Hsv. rewrite (drop_S _ pl) in Hr' by done. cbn [concat] in Hr'.
    rewrite length_app. cbn [length]. rewrite Nat.add_1_r.
    assert (module_at (Z.of_nat (length done)) s' = module_at (Z.of_nat (length done)) s0) as Hm.
    { destruct Hc as (_ & _ & Hn & _). by rewrite (module_at_core _ s s' Hn). }
    apply wp_bind, wp_channel_module; [done|done|]. rewrite <- Hm in Hsv.
    destruct (module_at (Z.of_nat (length done)) s') as [p|] eqn:Hp.
    + destruct Hsv as [Hcp Hsv].
      eapply (restore_law (ChannelModule:=channel_law p Hcp) E _ st' _ pl); [done|done| |exact Hsv|exact Hr'|].
      { rewrite channel_law_adc, <- Hp. by apply Hl'. }
      intros st2 s2 Hst Hen Hagree Hr2.
      split; [by apply (node_inv_load (Z.of_nat (length done)) s')|]. split; [eapply same_core_trans; [exact Hc|by apply Hst]|].
      split; [done|]. intros c Hcc Hlt. destruct (Z.eq_dec c (Z.of_nat (length done))) as [->|Hne].
      * rewrite <- Hm. by exists Hcp.
      * destruct Hst as (_ & _ & F). destruct (F c Hcc Hne) as [_ ->]. apply Hag; [done|lia].
    + rewrite Hsv in Hr'. apply wp_ret. split; [done|]. split; [done|]. split; [done|].
      intros c Hcc Hlt. destruct (Z.eq_dec c (Z.of_nat (length done))) as [->|Hne]; [by rewrite <- Hm|].
      apply Hag; [done|lia].
  - intros st' s' (Hs' & Hc & _ & Hag). apply HQ; [done|done|]. intros c Hcc. apply Hag; [done|exact (proj2 Hcc)].
Qed.

(** Loading whatever the EEPROM holds, at start-up. *)
Lemma CAN_Node_load_modules_wp E (Q : unit -> node -> Prop) s :
  node_inv s -> no_channels s ->
  (forall s', node_inv s' -> load_frame s s' -> keeps off_tape (mach s) (mach s') -> Q tt s') ->
  wp E CAN_Node_load_modules Q s.
Proof.
  intros Hs Hno HQ. pose proof Hs as (Hc & Ht & Hl & Hi). pose proof Ht as (Hsys & Hpro & _).
  unfold CAN_Node_load_modules. apply wp_bind, wp_rd, wp_bind, wp_rd. cbn [fget f_sysinfo_module f_proto_module].
  rewrite Hsys, Hpro. apply wp_bind, (wp_io_off E flash_reg); [apply touches_EEStream_open|apply flash_off_tape|].
  intros st0 h0 K0. set (I := fun (l : list Z) (st : CAN_Node_EEStream) h => keeps off_tape (mach s) h).
  assert (forall n, reads n I) as HR.
  { intros n E' l st Q' h _ HI HQ'. apply (reads_any 1 h E' [] st); [simpl; lia|apply any_bytes_start|].
    intros b st' h' Hb HI'. apply HQ'; [done|]. apply (keeps_trans _ _ h); [done|].
    eapply keeps_weaken; [exact HI'|by intros ? []]. }
  assert (off_tape_stable I) as HS by (intros l st h h' H1 H2; by apply (keeps_trans _ _ h)).
  apply wp_bind, wp_io, (HR 1%nat _ [] st0 _ h0); [simpl; lia|exact K0|]. intros b st1 h1 Hb HI1.
  apply wp_if; intros _; [by apply wp_ret, HQ|].
  apply wp_bind. eapply (sysinfo_load_wp I); [apply Hi|apply HR|exact HI1|].
  intros v st2 h2 Hv HI2. apply wp_bind, wp_ret, wp_bind.
  eapply (load_ids_wp E I 4 []); [apply HR|exact HS|simpl; lia|exact HI2|by split; [|split; [|split]]|exact Hno|].
  intros fs st3 s3 Hfs HI3 Hs3 Hids Hsys3 Hfr. apply wp_bind, load_channels_wp; [done|].
  intros st4 s4 Hs4 (C1 & C2 & C3 & C4 & C5).
  eapply wp_io_off; [apply touches_EEStream_close|apply flash_off_tape|]. intros [] h5 K5. destruct Hfr as [F1 F2].
  apply HQ; [exact Hs4|split; [exact (eq_trans C1 F1)|exact (eq_trans C4 F2)]|]. eapply keeps_trans; [|exact K5]. by apply (keeps_trans _ _ (mach s3)).
Qed.

(** Loading what node [s0] saved. *)
Lemma CAN_Node_load_modules_restore_wp E (Q : unit -> node -> Prop) s s0 pls :
  node_inv s -> no_channels s -> node_inv s0 -> payloads_of 4 s0 pls -> tape 0 (image s0 pls) (cells (mach s)) ->
  (forall s', node_inv s' -> load_frame s s' -> n_sysinfo s' = n_sysinfo s0 -> n_module s' = n_module s0 ->
     (forall c, is_channel c -> agree_of (module_at c s0) (setting_of c s0) (setting_of c s')) -> Q tt s') ->
  wp E CAN_Node_load_modules Q s.
Proof.
  intros Hs Hno Hs0 Hp Htape HQ. pose proof Hs as (Hc & Ht & Hl & Hi). pose proof Ht as (Hsys & Hpro & _).
  pose proof Hs0 as (_ & (Hsys0 & Hpro0 & Hfm0 & Hlen0 & Hf0 & Hcm0) & _ & (Hd0 & Hlab0 & Hu0)).
  pose proof (payloads_bytes _ _ _ Hp) as [Hpl Hup].
  assert (length (image s0 pls) <= tape_size)%nat as Hsz.
  { by apply image_size. }
  assert (Forall is_u8 (image s0 pls)) as Hui.
  { constructor; [by vm_compute|]. constructor; [done|]. apply Forall_app. split; [done|]. apply Forall_app. split; [|done].
    eapply Forall_impl; [|exact Hf0]. intros f. unfold is_function, HA_CAN_Node_FunctionCount, is_u8. lia. }
  unfold CAN_Node_load_modules. apply wp_bind, wp_rd, wp_bind, wp_rd. cbn [fget f_sysinfo_module f_proto_module].
  rewrite Hsys, Hpro. apply wp_bind, wp_io. eapply EEStream_open_read_wp; [exact Hui|exact Hsz|exact Htape|].
  intros st0 Hr0. apply wp_bind, wp_io. eapply EEStream_read_wp; [exact Hr0|]. intros st1 h1 Hr1 K1.
  rewrite Z.eqb_refl. cbn [negb].
  set (all := sysinfo_payload (n_sysinfo s0) ++ module_ids (n_module s0) ++ concat pls) in *.
  assert (length all = 13 + length (concat pls))%nat as Hall.
  { subst all. rewrite !length_app. cbn [sysinfo_payload length]. rewrite Hlab0, Hlen0. lia. }
  set (I := fun (l : list Z) st h => l = take (length l) all /\ reading st (drop (length l) all) h).
  assert (forall n, (n <= length all)%nat -> reads n I) as HR.
  { intros n Hn E' l st Q' h Hlt [Heq Hr] HQ'.
    apply (reads_tape n all h Hn E' l st); [done|by split; [|split; [|apply keeps_refl]]|].
    intros b st' h' Hb (H1 & H2 & _). by apply HQ'. }
  assert (off_tape_stable I) as HS.
  { intros l st h h' [H1 H2] H. split; [done|]. eapply reading_keeps; [|exact H|exact H2]. intros d Hd Hn. by apply Hn. }
  apply wp_bind. eapply (sysinfo_load_wp I); [apply Hi|apply HR; lia|split; [done|exact Hr1]|].
  intros v st2 h2 (Hv1 & Hv2 & Hv3) HI2. apply wp_bind, wp_ret, wp_bind.
  assert (v = n_sysinfo s0) as ->.
  { destruct HI2 as [HI2 _]. cbn [sysinfo_payload length] in HI2. rewrite Hv2 in HI2. subst all.
    rewrite take_app_le, take_ge in HI2 by (cbn [sysinfo_payload length]; lia).
    destruct v as [d l], (n_sysinfo s0) as [d0 l0]. unfold sysinfo_payload in HI2. cbn in HI2. by injection HI2 as -> ->. }
  eapply (load_ids_wp E I 13 (sysinfo_payload (n_sysinfo s0)));
    [apply HR; lia|exact HS|cbn [sysinfo_payload length]; lia|exact HI2|by split; [|split; [|split]]|exact Hno|].
  intros fs st3 s3 Hfs [HI3 Hr3] Hs3 Hids Hsys3 Hfr. rewrite length_app, Hfs in HI3, Hr3.
  cbn [sysinfo_payload length] in HI3, Hr3. rewrite Hlab0 in HI3, Hr3. cbn [Nat.add] in HI3, Hr3.
  assert (fs = module_ids (n_module s0)) as ->.
  { subst all. rewrite app_assoc, take_app_le, take_ge in HI3
      by (rewrite length_app; cbn [sysinfo_payload length]; lia). by apply app_inv_head in HI3. }
  assert (drop 13 all = concat pls) as Hdrop.
  { subst all. rewrite app_assoc. apply drop_app_length'. rewrite length_app. cbn [sysinfo_payload length]. lia. }
  rewrite Hdrop in Hr3.
  assert (clamp_function <$> module_ids (n_module s0) = module_ids (n_module s0)) as Hcl.
  { rewrite <- (list_fmap_id (module_ids (n_module s0))) at 2. apply Forall_fmap_ext_1.
    eapply Forall_impl; [|exact Hf0]. intros f Hf. by rewrite clamp_id. }
  rewrite Hcl in Hids.
  apply wp_bind. eapply (restore_channels_wp E st3 pls s0); [done|done|done|exact Hr3|].
  intros st4 s4 Hs4 (C1 & C2 & C3 & C4 & C5) Hag.
  eapply wp_io_off; [apply touches_EEStream_close|apply flash_off_tape|]. intros [] h5 K5. destruct Hfr as [F1 F2].
  apply HQ; [exact Hs4|split; [exact (eq_trans C1 F1)|exact (eq_trans C4 F2)]|exact (eq_trans C2 Hsys3)| |exact Hag].
  cbn. destruct Hs4 as (_ & (A1 & A2 & A3 & A4 & A5 & A6) & _). rewrite C3 in *.
  destruct (n_module s3), (n_module s0). cbn in *. congruence.
Qed.
End Tables.

(** ** Channel assignment *)

(** The node after start-up, with the tables filled. *)
Definition booted {HW : Hardware} (h : machine) : node :=
  set_module (ModuleVars (Some sysinfo_ptr) (Some mod_proto_ptr) function_table (replicate 4 None) (replicate 4 0))
    (node_init h).

Lemma booted_inv {HW : Hardware} (h : machine) : node_inv (booted h) /\ no_channels (booted h).
Proof.
  assert (forall c, is_channel c -> module_at c (booted h) = None) as Hno.
  { intros c Hc. unfold is_channel, CAN_Node_ChannelCount in Hc. unfold module_at, function_at.
    assert (c = 0 \/ c = 1 \/ c = 2 \/ c = 3) as [-> | [-> | [-> | ->]]] by lia; done. }
  split; [|done]. split; [exact (start_chan_inv h)|]. split; [|split].
  - unfold tables_ok. cbn. split_and!; try done. unfold is_function, HA_CAN_Node_FunctionCount. repeat constructor; lia.
  - intros c Hc. rewrite Hno by done. unfold is_channel, CAN_Node_ChannelCount in Hc.
    assert (c = 0 \/ c = 1 \/ c = 2 \/ c = 3) as [-> | [-> | [-> | ->]]] by lia; done.
  - split; [done|]. split; [done|]. repeat constructor; unfold is_u8; lia.
Qed.

(** C21. Giving a channel a function stops the module that ran there, starts the
    one of the function and records it: the node keeps its invariant (the tables
    agree, the analog converter is enabled for exactly the analog channels), no
    setting of any channel and nothing of the system data changes, and the
    function reads back.  Only stopping an analog channel may fail to return. *)
Theorem set_channel_sound {HW : Hardware} {GL : GpioLaws HW} {CL : CanLaws HW} {FL : FlashLaws HW} ch f s :
  node_inv s -> is_channel ch -> is_function f ->
  wp (fun e _ => e = Hang /\ module_at ch s = Some mod_analog_ptr) (CAN_Node_set_channel ch f;; CAN_Node_get_channel ch)
    (fun g s' => g = f /\ node_inv s' /\ n_module s' = put_channel ch f (n_module s) /\ n_sysinfo s' = n_sysinfo s /\
       forall c, is_channel c -> setting_of c s' = setting_of c s) s.
Proof.
  intros Hs Hch Hf. pose proof Hs as (Hc & Ht & Hl & _). apply wp_bind, CAN_Node_set_channel_wp; [|done..|by apply Hl|].
  { intros Hadc s2 _. split; [done|]. by apply bool_decide_eq_true in Hadc. }
  intros s' St. pose proof (node_inv_set_channel _ _ _ _ Hs Hch Hf St) as Hs'.
  destruct St as (_ & Hn & _ & Hsys & _ & _ & _ & Hset & Hoth).
  apply wp_module_id; [apply Hs'|done|]. destruct Ht as (_ & _ & _ & Hlen & _). assert (0 <= ch < 4) as Hch4 by exact Hch.
  split; [|split; [done|split; [done|split; [done|]]]].
  - unfold function_at. rewrite Hn. apply nth_lookup_Some, list_lookup_insert_eq. lia.
  - intros c Hcc. destruct (Z.eq_dec c ch) as [->|Hne]; [done|by apply Hoth].
Qed.

Lemma set_channel_sound_witness :
  wp total (CAN_Node_set_channel (HW:=sim) 2 HA_CAN_Node_Function_Switch;; CAN_Node_get_channel 2)
    (fun g s' => g = HA_CAN_Node_Function_Switch) (booted sim_machine).
Proof.
  eapply wp_weaken; [|eapply wp_mono; [apply (set_channel_sound 2 HA_CAN_Node_Function_Switch (booted sim_machine))|]].
  - intros e s [_ H]. vm_compute in H. discriminate H.
  - apply booted_inv.
  - unfold is_channel, CAN_Node_ChannelCount. lia.
  - unfold is_function, HA_CAN_Node_FunctionCount, HA_CAN_Node_Function_Switch. lia.
  - intros g s' (Hg & _). exact Hg.
Defined.

(** *** The clock event *)

Section Timer.
Context {HW : Hardware} {GL : GpioLaws HW} {CL : CanLaws HW} {FL : FlashLaws HW}.

(** The event of channel [c], which has the module [m]: a switch counts down, and when its
    time is over it drives its pin; a button samples its pin, and an active one that
    changes sends a frame; nothing happens on any other channel. *)
Definition event_effect (m : option module_ptr) (c : Z) (s s' : node) : Prop :=
  match m with
  | Some mod_switch_ptr => exists w h, sw_at c w s /\ s' = set_mach h (put_switch c (switch_ticked w) s) /\
      if bool_decide (sw_mode (switch_ticked w) = sw_mode w) then h = mach s else drives c (switch_ticked w) (mach s) h
  | Some mod_button_ptr => exists b h, let b' := button_sampled (pin_shown b s) b in
      bt_at c b s /\ s' = with_button c b' h s /\
      if button_announces (pin_shown b s) b
      then frame_sent (GPIO_IDR (bt_gpio b)) (button_frame (device_id (n_sysinfo s)) c b') (mach s) h
      else keeps (fun _ => False) (mach s) h
  | Some mod_analog_ptr => False
  | _ => s' = s
  end.

(** The events of the channels [l], one after the other. *)
Fixpoint events_in_turn (table : Z -> option module_ptr) (l : list Z) (s s' : node) : Prop :=
  match l with
  | [] => s' = s
  | c :: l => exists s1, event_effect (table c) c s s1 /\ events_in_turn table l s1 s'
  end.

Lemma wp_both {A} (m : prog node A) (Q1 Q2 : A -> node -> Prop) s :
  wp total m Q1 s -> wp total m Q2 s -> wp total m (fun a s' => Q1 a s' /\ Q2 a s') s.
Proof. unfold wp. destruct (m s); [by split|done]. Qed.

Lemma channel_timer_wp p c s : node_inv s -> is_channel c -> channel_ptr p = true -> p <> mod_analog_ptr ->
  wp total (call_timer (ops_of p) c) (fun _ s' => event_effect (Some p) c s s') s.
Proof.
  intros (Hs & _) Hc Hp Ha. destruct p; try done.
  - destruct (sw_at_inv c s Hs Hc) as (w & Hw & Hok). eapply switch_timer_wp; [done..|]. intros h Hh. by exists w, h.
  - destruct (bt_at_inv c s Hs Hc) as (b & Hb & Hok). eapply button_set_state_wp; [done..|]. intros h _ Hh. by exists b, h.
Qed.

Lemma handle_timer_in_turn s : node_inv s -> (forall c, is_channel c -> module_at c s <> Some mod_analog_ptr) ->
  wp total CAN_Node_handle_timer (fun _ s' => events_in_turn (fun c => module_at c s) (range CAN_Node_ChannelCount) s s') s.
Proof.
  intros Hs Hno. unfold CAN_Node_handle_timer.
  assert (forall l s1, (forall c, c ∈ l -> is_channel c) -> channels_step s s1 ->
    wp total (for_each l (fun i => let! m := idx f_channel_modules i in
        match m with Some p => call_timer (ops_of p) i | None => ret tt end))
      (fun _ s' => events_in_turn (fun c => module_at c s) l s1 s') s1) as Hrun.
  { induction l as [|c l IH]; intros s1 Hl St; [by apply wp_ret|]. cbn [for_each].
    assert (is_channel c) as Hc by (apply Hl, list_elem_of_here). pose proof (node_inv_channels s s1 Hs St) as Hs1.
    pose proof St as (_ & (_ & _ & Hn & _) & _). pose proof Hs1 as (_ & Ht1 & Hl1 & _).
    apply wp_bind, wp_bind, wp_channel_module; [done|done|].
    destruct (module_at c s1) as [p|] eqn:Hp; pose proof (module_at_core c s s1 Hn) as Hcore; rewrite Hp in Hcore.
    - pose proof (module_of_channel _ p Hp) as Hcp. assert (p <> mod_analog_ptr) as Hpa by (intros ->; by apply (Hno c)).
      assert (wp total (call_timer (ops_of p) c) (fun _ s2 => channels_step s s2) s1) as Hstep.
      { apply (timer_law (ChannelModule:=channel_law p Hcp)); [|done|apply Hs1| |].
        - rewrite channel_law_adc. intros Hadc. apply bool_decide_eq_true in Hadc. by injection Hadc as ->.
        - rewrite channel_law_adc, <- Hp. by apply Hl1.
        - intros s2 St' He Hset. by apply (channels_step_chan c s s1). }
      eapply wp_mono; [apply wp_both; [exact Hstep|by apply channel_timer_wp]|].
      intros [] s2 [St2 He]. eapply wp_mono; [apply IH; [|exact St2]; intros d Hd; by apply Hl, list_elem_of_further|].
      intros [] s3 H3. exists s2. by rewrite <- Hcore.
    - apply wp_ret. eapply wp_mono; [apply IH; [|exact St]; intros d Hd; by apply Hl, list_elem_of_further|].
      intros [] s3 H3. exists s1. by rewrite <- Hcore. }
  apply Hrun; [|apply channels_step_refl, Hs]. by intros c Hc%range_elem.
Qed.

(** What the events leave of the switches and the buttons. *)
Definition switch_after (m : option module_ptr) (w : Switch) : Switch :=
  match m with Some mod_switch_ptr => switch_ticked w | _ => w end.
Definition button_after (m : option module_ptr) (b b' : Button) : Prop :=
  match m with Some mod_button_ptr => exists pin, b' = button_sampled pin b | _ => b' = b end.

Lemma event_switch m c d w s s' : is_channel c -> is_channel d -> event_effect m c s s' -> sw_at d w s ->
  sw_at d (if decide (c = d) then switch_after m w else w) s'.
Proof.
  intros Hc Hd He Hw. assert (m <> Some mod_switch_ptr -> switches s' = switches s) as Hother.
  { intros Hm. destruct m as [[]|]; cbn in He; try done; try (by subst). by destruct He as (b & h & _ & -> & _). }
  unfold switch_after. destruct m as [[]|]; try (unfold sw_at in *; rewrite Hother by done; by destruct (decide (c = d))).
  destruct He as (w' & h & Hw' & -> & _). unfold sw_at in *. cbn.
  destruct (decide (c = d)) as [<-|Hn]; [rewrite list_lookup_insert_eq by (by eapply lookup_lt_Some); congruence|].
  rewrite list_lookup_insert_ne; [done|]. unfold is_channel in *. lia.
Qed.

Lemma event_button m c d b s s' : is_channel c -> is_channel d -> event_effect m c s s' -> bt_at d b s ->
  exists b', bt_at d b' s' /\ if decide (c = d) then button_after m b b' else b' = b.
Proof.
  intros Hc Hd He Hb. assert (m <> Some mod_button_ptr -> buttons s' = buttons s) as Hother.
  { intros Hm. destruct m as [[]|]; cbn in He; try done; try (by subst). by destruct He as (w & h & _ & -> & _). }
  unfold button_after. destruct m as [[]|]; try (exists b; unfold bt_at in *; rewrite Hother by done; by destruct (decide (c = d))).
  destruct He as (b0 & h & Hb0 & -> & _). unfold bt_at in *. cbn.
  destruct (decide (c = d)) as [<-|Hn].
  - rewrite list_lookup_insert_eq by (by eapply lookup_lt_Some). eexists. split; [done|]. exists (pin_shown b0 s). unfold bt_at in Hb0. congruence.
  - rewrite list_lookup_insert_ne; [by exists b|]. unfold is_channel in *. lia.
Qed.

Lemma channels_nodup : NoDup (range CAN_Node_ChannelCount).
Proof. apply NoDup_fmap_2; [apply _|apply NoDup_seq]. Qed.

Lemma events_channel table l s s' d : NoDup l -> (forall c, c ∈ l -> is_channel c) -> is_channel d -> events_in_turn table l s s' ->
  (forall w, sw_at d w s -> sw_at d (if decide (d ∈ l) then switch_after (table d) w else w) s') /\
  (forall b, bt_at d b s -> exists b', bt_at d b' s' /\ if decide (d ∈ l) then button_after (table d) b b' else b' = b).
Proof.
  intros Hnd Hl Hd. revert s. induction Hnd as [|c l Hc Hnd IH]; intros s He.
  { cbn in He. subst. destruct (decide (d ∈ [])) as [H|]; [by apply elem_of_nil in H|]. split; [done|]. intros b Hb. by exists b. }
  destruct He as (s1 & He & Hrest). destruct (IH ltac:(intros; apply Hl; by apply list_elem_of_further) s1 Hrest) as [IHw IHb].
  assert (is_channel c) as Hcc by (apply Hl, list_elem_of_here).
  split.
  - intros w Hw. pose proof (event_switch _ _ d w _ _ Hcc Hd He Hw) as Hw1. specialize (IHw _ Hw1).
    destruct (decide (c = d)) as [<-|Hn].
    + rewrite (decide_True (P := c ∈ c :: l)) by apply list_elem_of_here. by rewrite (decide_False (P := c ∈ l)) in IHw by done.
    + destruct (decide (d ∈ l)), (decide (d ∈ c :: l)) as [Hin|Hout]; try done.
      * by destruct Hout; apply list_elem_of_further.
      * by apply elem_of_cons in Hin as [->|].
  - intros b Hb. destruct (event_button _ _ d b _ _ Hcc Hd He Hb) as (b1 & Hb1 & E1). destruct (IHb b1 Hb1) as (b2 & Hb2 & E2).
    exists b2. split; [done|]. destruct (decide (c = d)) as [<-|Hn].
    + rewrite (decide_True (P := c ∈ c :: l)) by apply list_elem_of_here. rewrite (decide_False (P := c ∈ l)) in E2 by done. by subst.
    + subst b1. destruct (decide (d ∈ l)), (decide (d ∈ c :: l)) as [Hin|Hout]; try done.
      * by destruct Hout; apply list_elem_of_further.
      * by apply elem_of_cons in Hin as [->|].
Qed.

(** C34. A clock event returns on every node without analog channels, whatever the
    hardware does.  Each channel gets its event, once and in order: a switch that counts
    counts one down and drives its pin when its time is over, a button samples its pin and
    announces its change if it is active, a channel of another kind does nothing.  So
    afterwards every switch is what one event makes of it, every button what a sample makes
    of it, and what belongs to no such channel is as it was; the tables and the system
    data stay, and no event changes the settings of a channel. *)
Theorem timer_returns s :
  node_inv s -> (forall c, is_channel c -> module_at c s <> Some mod_analog_ptr) ->
  wp total CAN_Node_handle_timer (fun _ s' =>
    events_in_turn (fun c => module_at c s) [0; 1; 2; 3] s s' /\
    (forall c, is_channel c ->
      (forall w, sw_at c w s -> sw_at c (switch_after (module_at c s) w) s') /\
      (forall b, bt_at c b s -> exists b', bt_at c b' s' /\ button_after (module_at c s) b b') /\
      setting_of c s' = setting_of c s) /\
    node_inv s' /\ n_module s' = n_module s /\ n_sysinfo s' = n_sysinfo s) s.
Proof.
  intros Hs Hno. assert (wp total CAN_Node_handle_timer (fun _ => channels_step s) s) as Hstep.
  { apply CAN_Node_handle_timer_wp; [|done|done]. intros c Hc Hadc. apply bool_decide_eq_true in Hadc. by destruct (Hno c Hc). }
  eapply wp_mono; [apply wp_both; [exact Hstep|by apply handle_timer_in_turn]|]. intros [] s' [St He].
  split; [exact He|]. split; [|split; [by apply (node_inv_channels s)|by destruct St as (_ & (_ & Hsys & Hn & _) & _)]].
  intros c Hc. assert (c ∈ range CAN_Node_ChannelCount) as Hin by by apply range_elem.
  pose proof (events_channel _ (range CAN_Node_ChannelCount) s s' c channels_nodup ltac:(by intros d Hd%range_elem) Hc He) as Hch.
  destruct (decide (c ∈ range CAN_Node_ChannelCount)) as [_|Hout]; [|done]. destruct Hch as [Hw Hb].
  split; [exact Hw|]. split; [exact Hb|by apply St].
Qed.
End Timer.

Lemma timer_returns_witness :
  wp total (CAN_Node_handle_timer (HW:=sim)) (fun _ s' => n_module s' = n_module (booted sim_machine)) (booted sim_machine).
Proof.
  eapply wp_mono; [apply (timer_returns (HW:=sim) (booted sim_machine))|].
  - apply booted_inv.
  - intros c Hc. rewrite (proj2 (booted_inv (HW:=sim) sim_machine) c Hc). discriminate.
  - intros [] s' (_ & _ & _ & H & _). exact H.
Defined.
