(* ===== verification/Handlers.v ===== *)
(** The packet handlers: the write handlers of [sysinfo.c], the handlers of
    [mod_proto.c], the module objects with all their pointers, and
    [CAN_Node_handle_packet] of [module.c]. *)

From stdpp Require Import sets.
From S2P Require Import Prelude Monad CanProto Machine Gpio Flash Eestream Wwdg CanDrv CanRules Sim State Led.
From S2P Require Import Can Channel Switch Button Analog Ds18b20 Sysinfo Module.

(** ** Operations *)

Section Operations.
Context {HW : Hardware}.

(** *** [sysinfo.c] *)

Definition sysinfo_write (channel_id address length : Z) (value : list Z) : prog node unit :=
  when (address =? HA_CAN_Common_DeviceLabel)
    (for_each (range 8) (fun i =>
       let! b := (if i <? length then at_index value i else ret 0) in
       idx_set f_label i b) ;;
     CAN_Node_save_modules).

Definition CAN_Node_Sysinfo_set_device_id (value : Z) : prog node unit :=
  wr f_device_id value ;;
  CAN_Node_save_modules ;;
  io WWDG_SWReset.

(** *** [mod_proto.c] *)

Definition proto_request (channel_id address : Z) (reply : list Z) : prog node (Z * list Z) :=
  if address =? HA_CAN_Node_ChannelCount then
    let! reply := set_index reply 0 CAN_Node_ChannelCount in ret (1, reply)
  else if (HA_CAN_Node_ChannelFunction0 <=? address) && (address <? HA_CAN_Node_ChannelFunction0 + CAN_Node_ChannelCount) then
    let! f := CAN_Node_get_channel (address - HA_CAN_Node_ChannelFunction0) in
    let! reply := set_index reply 0 f in ret (1, reply)
  else ret (NO_RESPONSE, reply).

Definition proto_write (channel_id address length : Z) (value : list Z) : prog node unit :=
  if address =? HA_CAN_Node_ChannelSaveConfig then CAN_Node_save_modules
  else if (address <? HA_CAN_Node_ChannelFunction0) ||
          (HA_CAN_Node_ChannelFunction0 + CAN_Node_ChannelCount <=? address) || negb (length =? 1) then ret tt
  else
    let! function_id := at_index value 0 in
    if HA_CAN_Node_FunctionCount <=? function_id then ret tt
    else CAN_Node_set_channel (address - HA_CAN_Node_ChannelFunction0) function_id.

(** *** [module.h]: a module object with all its pointers *)

Record CAN_Node_Module : Type := {
  base :> module_ops;
  on_request : Z -> Z -> list Z -> prog node (Z * list Z);
  on_write : Z -> Z -> Z -> list Z -> prog node unit
}.

Definition deref (p : module_ptr) : CAN_Node_Module :=
  match p with
  | sysinfo_ptr => {| base := mod_sysinfo; on_request := sysinfo_request; on_write := sysinfo_write |}
  | mod_proto_ptr => {| base := mod_proto; on_request := proto_request; on_write := proto_write |}
  | mod_switch_ptr => {| base := mod_switch; on_request := switch_request; on_write := switch_write |}
  | mod_button_ptr => {| base := mod_button; on_request := button_request; on_write := button_write |}
  | mod_analog_ptr => {| base := mod_analog; on_request := analog_request; on_write := analog_write |}
  | mod_ds18b20_ptr => {| base := mod_ds18b20; on_request := ds18b20_request; on_write := ds18b20_write |}
  end.

(** *** [module.c] *)

(** The module an address selects, and the index passed to it. *)
Definition select_module (module_index : Z) : prog node (option module_ptr * Z) :=
  if module_index =? 0 then
    let! m := rd f_sysinfo_module in ret (m, module_index)
  else if module_index =? 1 then
    let! m := rd f_proto_module in ret (m, module_index)
  else if 0x80 <=? module_index then
    let module_index := Z.land module_index 0x7f in
    if module_index <? CAN_Node_ChannelCount then
      let! m := idx f_channel_modules module_index in ret (m, module_index)
    else ret (None, module_index)
  else ret (None, module_index).

Definition CAN_Node_handle_packet (rtr : Z) (packet_id : HA_CAN_PacketId) (length : Z) (data : list Z) : prog node unit :=
  let module_index := Z.land (Z.shiftr (address packet_id) 8) 0xff in
  let address_lo := Z.land (address packet_id) 0xff in
  let! (module, module_index) := select_module module_index in
  match module with
  | None => ret tt
  | Some p =>
      if rtr =? CAN_RTR_Data then on_write (deref p) module_index address_lo length data
      else
        let! response := io (uninit 8) in
        let! (size, response) := on_request (deref p) module_index address_lo response in
        when (size <=? 8) (CAN_Node_CAN_send_reply size response)
  end.
End Operations.

(** ** Rules *)

Section Rules.
Context {HW : Hardware} {GL : GpioLaws HW} {CL : CanLaws HW} {FL : FlashLaws HW}.

(** What handling a packet may do. *)
Definition packet_step (s s' : node) : Prop :=
  node_inv s' /\ clock_counter s' = clock_counter s /\ n_can s' = n_can s /\ rx (mach s') = rx (mach s).

Lemma packet_step_refl s : node_inv s -> packet_step s s.
Proof. intros Hs. split; [done|by split]. Qed.

Lemma packet_step_trans s1 s2 s3 : packet_step s1 s2 -> packet_step s2 s3 -> packet_step s1 s3.
Proof. intros (_ & A1 & A2 & A3) (Hs & B1 & B2 & B3). split; [done|]. split; [congruence|]. split; congruence. Qed.

Lemma packet_step_sends s s' : node_inv s -> sends s s' -> packet_step s s'.
Proof.
  intros ((_ & HS & HB & HA) & Ht & Hl & Hi) ((E1 & E2 & E3 & E4 & E5 & E6 & E7) & Hled & [_ [Hrx _]]).
  split; [|by split]. split; [|split; [|split]].
  - split; [done|]. split; [by rewrite E2|]. split; [by rewrite E3|by rewrite E4].
  - by rewrite E6.
  - intros c Hc. unfold enabled. rewrite E4. rewrite (module_at_core c s s' E6). by apply Hl.
  - by rewrite E5.
Qed.

Lemma packet_step_chan ch s s' :
  node_inv s -> is_channel ch -> chan_step ch s s' -> enabled ch s' = enabled ch s -> packet_step s s'.
Proof.
  intros Hs Hch Hst He. split; [by apply (node_inv_load ch s)|].
  destruct Hst as (_ & (C1 & _ & _ & C4 & [_ [C5 _]]) & _). by split.
Qed.

Lemma node_inv_mach h s : node_inv s -> node_inv (set_mach h s).
Proof. by intros (H1 & H2 & H3 & H4). Qed.

Lemma packet_step_mach h s : node_inv s -> rx h = rx (mach s) -> packet_step s (set_mach h s).
Proof. intros Hs Hr. split; [by apply node_inv_mach|by split]. Qed.

(** The label a write leaves: the bytes given, then zeros. *)
Definition label_bytes (len : Z) (value : list Z) : list Z :=
  (fun k => if Z.of_nat k <? len then nth k value 0 else 0) <$> seq 0 8.

Lemma write_label_wp E len value (Q : unit -> node -> Prop) s :
  length (label (n_sysinfo s)) = 8%nat -> length value = 8%nat ->
  Q tt (set_sysinfo (SysinfoVars (device_id (n_sysinfo s)) (label_bytes len value)) s) ->
  wp E (for_each (range 8) (fun i =>
          let! b := (if i <? len then at_index value i else ret 0) in idx_set f_label i b)) Q s.
Proof.
  intros Hlab Hval HQ.
  apply (wp_for_each _ _ (fun done s' => exists l, s' = set_sysinfo (SysinfoVars (device_id (n_sysinfo s)) l) s /\
           length l = 8%nat /\ take (length done) l = take (length done) (label_bytes len value))).
  - exists (label (n_sysinfo s)). split; [by destruct s as [? ? ? ? ? ? []]|done].
  - intros done x rest s' Heq (l & -> & Hl & Ht). apply range_split in Heq as [-> Hx].
    set (b := if Z.of_nat (length done) <? len then nth (length done) value 0 else 0).
    apply wp_bind. apply (wp_eq _ _ _ b (set_sysinfo (SysinfoVars (device_id (n_sysinfo s)) l) s)).
    { subst b. destruct (Z.of_nat (length done) <? len); [|done].
      destruct (lookup_lt_is_Some_2 value (length done)) as [v Hv]; [lia|].
      rewrite (at_index_ok _ _ v) by (rewrite ?Nat2Z.id; done || lia). by rewrite (nth_lookup_Some _ _ _ v). }
    eapply wp_eq; [apply idx_set_ok; simpl; lia|]. exists (<[length done := b]> l). cbn [fset fget f_label].
    rewrite Nat2Z.id, length_app, length_insert. cbn [length]. rewrite Nat.add_1_r.
    split; [done|]. split; [done|].
    rewrite (take_S_r _ _ b) by (apply list_lookup_insert_eq; lia). rewrite take_insert_ge by lia. rewrite Ht.
    symmetry. apply take_S_r. unfold label_bytes. rewrite list_lookup_fmap, lookup_seq_lt by lia. done.
  - intros s' (l & -> & Hl & Ht). change (length (range 8)) with 8%nat in Ht. rewrite !take_ge in Ht; [by subst|done|lia].
Qed.

Lemma label_bytes_ok len value : Forall is_u8 value -> length (label_bytes len value) = 8%nat /\ Forall is_u8 (label_bytes len value).
Proof.
  intros Hv. split; [done|]. apply Forall_fmap, List.Forall_forall. intros k _. unfold compose.
  destruct (Z.of_nat k <? len); [|unfold is_u8; lia].
  destruct (nth_in_or_default k value 0) as [Hin | ->]; [|unfold is_u8; lia]. by eapply List.Forall_forall in Hv.
Qed.

(** After a save the node is as it was, and the tape holds its image. *)
Definition saved_image (s : node) : Prop := exists pls, payloads_of 4 s pls /\ tape 0 (image s pls) (cells (mach s)).

Lemma save_modules_saves E (Q : unit -> node -> Prop) s :
  node_inv s ->
  (forall h, rx h = rx (mach s) -> saved_image (set_mach h s) -> Q tt (set_mach h s)) ->
  wp E CAN_Node_save_modules Q s.
Proof.
  intros Hs HQ. apply CAN_Node_save_modules_wp; [done|]. intros pls h Hp Ht [_ [Hk _]].
  apply HQ; [done|]. by exists pls.
Qed.

Lemma sysinfo_write_wp E ch address len value (Q : unit -> node -> Prop) s :
  node_inv s -> length value = 8%nat -> Forall is_u8 value ->
  (forall s', packet_step s s' -> Q tt s') -> wp E (sysinfo_write ch address len value) Q s.
Proof.
  intros Hs Hlen Hv HQ. unfold sysinfo_write. apply wp_when; intros _; [|by apply HQ, packet_step_refl].
  apply wp_bind. pose proof Hs as (Hc & Ht & Hl & (Hd & Hlab & _)). apply write_label_wp; [done|done|].
  destruct (label_bytes_ok len value Hv). apply save_modules_saves; [by split; [|split; [|split]]|].
  intros h Hrx _. apply HQ. split; [by split; [|split; [|split]]|by split].
Qed.

Lemma set_device_id_wp E v (Q : unit -> node -> Prop) s :
  node_inv s -> is_u8 v -> (forall s', packet_step s s' -> Q tt s') -> wp E (CAN_Node_Sysinfo_set_device_id v) Q s.
Proof.
  intros Hs Hv HQ. pose proof Hs as (Hc & Ht & Hl & (Hd & Hlab & Hu)). unfold CAN_Node_Sysinfo_set_device_id.
  apply wp_bind, wp_wr, wp_bind, save_modules_saves; [by split; [|split; [|split]]|]. intros h Hrx _.
  apply (wp_io_touches E wwdg_reg); [apply touches_WWDG_SWReset|]. intros [] h' [_ [Hk _]]. apply HQ.
  split; [by split; [|split; [|split]]|]. split; [done|]. split; [done|]. cbn in *. congruence.
Qed.

Lemma proto_request_wp E ch address reply (Q : Z * list Z -> node -> Prop) s :
  node_inv s -> length reply = 8%nat -> Forall is_u8 reply ->
  (forall n reply', length reply' = 8%nat -> Forall is_u8 reply' -> Q (n, reply') s) ->
  wp E (proto_request ch address reply) Q s.
Proof.
  intros (_ & Ht & _) Hlen Hr HQ. unfold proto_request. apply wp_if; intros _; [|apply wp_if; intros Ha].
  - apply wp_bind, wp_set_index; [lia|]. destruct (reply_insert reply 0 CAN_Node_ChannelCount Hlen Hr); [by vm_compute|].
    by apply wp_ret, HQ.
  - apply andb_prop in Ha as [H1 H2]. apply Z.leb_le in H1. apply Z.ltb_lt in H2.
    assert (is_channel (address - HA_CAN_Node_ChannelFunction0)) as Hch by (unfold is_channel; lia).
    apply wp_bind, wp_module_id; [done|done|]. destruct (ids_lookup _ s Ht Hch) as (_ & _ & Hf).
    apply wp_bind, wp_set_index; [lia|]. destruct (reply_insert reply 0 (function_at (address - HA_CAN_Node_ChannelFunction0) s) Hlen Hr).
    { unfold is_function, HA_CAN_Node_FunctionCount in Hf. unfold is_u8. lia. }
    by apply wp_ret, HQ.
  - by apply wp_ret, HQ.
Qed.

Lemma proto_write_wp E ch address len value (Q : unit -> node -> Prop) s :
  wait_ok E s -> node_inv s -> length value = 8%nat -> Forall is_u8 value ->
  (forall s', packet_step s s' -> Q tt s') -> wp E (proto_write ch address len value) Q s.
Proof.
  intros HE Hs Hlen Hv HQ. unfold proto_write. apply wp_if; intros _.
  { apply save_modules_saves; [done|]. intros h Hrx _. by apply HQ, packet_step_mach. }
  apply wp_if; intros Ha; [by apply wp_ret, HQ, packet_step_refl|].
  apply orb_false_iff in Ha as [Ha _]. apply orb_false_iff in Ha as [H1 H2]. apply Z.ltb_ge in H1. apply Z.leb_gt in H2.
  destruct (lookup_lt_is_Some_2 value 0) as [f Hf]; [lia|]. apply wp_bind, (wp_at_index _ _ f); [done|done|].
  assert (is_u8 f) as Hfu by (eapply List.Forall_forall; [exact Hv|]; by apply list_elem_of_In, (list_elem_of_lookup_2 _ 0)).
  apply wp_if; intros Hfc; [by apply wp_ret, HQ, packet_step_refl|]. apply Z.leb_gt in Hfc.
  assert (is_channel (address - HA_CAN_Node_ChannelFunction0)) as Hch by (unfold is_channel; lia).
  assert (is_function f) as Hff by (unfold is_function; unfold is_u8 in Hfu; lia).
  pose proof Hs as (Hc & Ht & Hl & Hi). apply CAN_Node_set_channel_wp; [|done..|by apply Hl|].
  { intros Hadc. eapply wait_ok_at; [exact Hch|done|by apply adc_waits]. }
  intros s' St. apply HQ. split; [by eapply node_inv_set_channel|].
  destruct St as (_ & _ & C1 & _ & C3 & [_ [C4 _]] & _). by split.
Qed.

(** Only the thermometer asks its bus when it is asked. *)
Definition bus_of (p : module_ptr) : bool := match p with mod_ds18b20_ptr => true | _ => false end.

(** The handlers of the four channel modules keep their promise. *)
Lemma channel_handlers p : channel_ptr p = true -> ChannelHandlers (bus_of p) (on_request (deref p)) (on_write (deref p)).
Proof.
  destruct p; intros H; try done; cbn [bus_of on_request on_write deref];
    [exact switch_handlers|exact button_handlers|exact analog_handlers|exact ds18b20_handlers].
Qed.

(** The index a packet passes to the module it selects. *)
Definition routes (p : module_ptr) (i : Z) (s : node) : Prop :=
  channel_ptr p = false \/ is_channel i /\ module_at i s = Some p.

Lemma select_module_wp E i (Q : option module_ptr * Z -> node -> Prop) s :
  node_inv s -> 0 <= i -> (forall k, Q (None, k) s) -> (forall p k, routes p k s -> Q (Some p, k) s) ->
  wp E (select_module i) Q s.
Proof.
  intros (_ & Ht & _) Hi HN HS. unfold select_module. pose proof Ht as (Hsys & Hpro & _).
  apply wp_if; intros _.
  { apply wp_bind, wp_rd, wp_ret. cbn [fget f_sysinfo_module]. rewrite Hsys. apply HS. by left. }
  apply wp_if; intros _.
  { apply wp_bind, wp_rd, wp_ret. cbn [fget f_proto_module]. rewrite Hpro. apply HS. by left. }
  apply wp_if; intros _; [|by apply wp_ret]. apply wp_if; intros Hlt; [|by apply wp_ret].
  apply Z.ltb_lt in Hlt. assert (0 <= Z.land i 0x7f) by (apply Z.land_nonneg; by left).
  assert (is_channel (Z.land i 0x7f)) as Hch by by split.
  apply wp_bind, wp_channel_module; [done|done|]. apply wp_ret.
  destruct (module_at (Z.land i 0x7f) s) as [p|] eqn:Hm; [|by apply HN]. apply HS. by right.
Qed.

Lemma on_write_wp E p i a len value (Q : unit -> node -> Prop) s :
  wait_ok E s -> node_inv s -> routes p i s -> length value = 8%nat -> Forall is_u8 value ->
  (forall s', packet_step s s' -> Q tt s') -> wp E (on_write (deref p) i a len value) Q s.
Proof.
  intros HE Hs Hr Hlen Hv HQ. destruct (channel_ptr p) eqn:Hp.
  - destruct Hr as [? | [Hch Hm]]; [congruence|]. pose proof (channel_handlers p Hp) as CH.
    apply (write_law (request:=on_request (deref p))); [done|apply Hs|done|done|].
    intros s' Hst He. by apply HQ, (packet_step_chan i).
  - destruct p; try done; [by apply sysinfo_write_wp|by apply proto_write_wp].
Qed.

Lemma on_request_wp E p i a reply (Q : Z * list Z -> node -> Prop) s :
  wait_ok E s -> node_inv s -> routes p i s -> length reply = 8%nat -> Forall is_u8 reply ->
  (forall n reply' s', packet_step s s' -> length reply' = 8%nat -> Q (n, reply') s') ->
  wp E (on_request (deref p) i a reply) Q s.
Proof.
  intros HE Hs Hr Hlen Hv HQ. destruct (channel_ptr p) eqn:Hp.
  - destruct Hr as [? | [Hch Hm]]; [congruence|]. pose proof (channel_handlers p Hp) as CH.
    apply (request_law (write:=on_write (deref p))); [intros Hb; apply (wait_ok_at E i); [done..|rewrite Hm; by destruct p]|done|apply Hs|done|done|].
    intros n reply' s' Hst He Hlen' _. by apply HQ; [apply (packet_step_chan i)|].
  - destruct p; try done.
    + apply sysinfo_request_wp; [apply Hs|apply Hs|done|done|]. intros n reply' s' Hst Hl' _.
      by apply HQ; [apply packet_step_sends|].
    + apply proto_request_wp; [done|done|done|]. intros n reply' Hl' _. by apply HQ; [apply packet_step_refl|].
Qed.

Lemma CAN_Node_handle_packet_wp E rtr p len data (Q : unit -> node -> Prop) s :
  wait_ok E s -> node_inv s -> length data = 8%nat -> Forall is_u8 data ->
  (forall s', packet_step s s' -> Q tt s') -> wp E (CAN_Node_handle_packet rtr p len data) Q s.
Proof.
  intros HE Hs Hlen Hu HQ. unfold CAN_Node_handle_packet.
  apply wp_bind, select_module_wp; [done|by apply Z.land_nonneg; right|intros k; by apply HQ, packet_step_refl|].
  intros m k Hr. apply wp_if; intros _; [by apply on_write_wp|].
  apply wp_bind, wp_io. apply (wp_eq _ _ _ ((fun j => u8 (indet (hw (mach s)) (Z.of_nat j))) <$> seq 0 8) (mach s)); [done|].
  assert (set_mach (mach s) s = s) as -> by by destruct s.
  apply wp_bind, on_request_wp; [done|done|done|by rewrite length_fmap, length_seq| |].
  { apply Forall_fmap, List.Forall_forall. intros j _. apply u8_range. }
  intros n reply' s' Hst Hl'. apply wp_when; intros _; [|by apply HQ].
  apply CAN_Node_CAN_send_reply_wp; [apply Hst|lia|]. intros s2 Hs2.
  apply HQ. eapply packet_step_trans; [exact Hst|]. apply packet_step_sends; [apply Hst|done].
Qed.
End Rules.

(** ** Routing *)

(** The module an address selects. *)
Definition routed {HW : Hardware} (i : Z) (s : node) : option module_ptr :=
  if i =? 0 then Some sysinfo_ptr
  else if i =? 1 then Some mod_proto_ptr
  else if (0x80 <=? i) && (i <? 0x80 + CAN_Node_ChannelCount) then module_at (i - 0x80) s
  else None.

Lemma land_7f i : 0x80 <= i < 0x100 -> Z.land i 0x7f = i - 0x80.
Proof.
  intros Hi. change 0x7f with (Z.ones 7). rewrite Z.land_ones by lia. symmetry. apply (Z.mod_unique _ _ 1); lia.
Qed.

(** A channel's address selects its module and passes the channel. *)
Lemma select_channel {HW : Hardware} ch (s : node) :
  node_inv s -> is_channel ch -> select_module (0x80 + ch) s = Ok (module_at ch s, ch) s.
Proof.
  intros (_ & Ht & _) Hch. pose proof Hch as [H0 H4]. unfold CAN_Node_ChannelCount in H4. unfold select_module.
  assert ((0x80 + ch =? 0) = false) as -> by (apply Z.eqb_neq; lia).
  assert ((0x80 + ch =? 1) = false) as -> by (apply Z.eqb_neq; lia).
  assert ((0x80 <=? 0x80 + ch) = true) as -> by (apply Z.leb_le; lia).
  rewrite land_7f by lia. replace (0x80 + ch - 0x80) with ch by lia.
  assert ((ch <? CAN_Node_ChannelCount) = true) as -> by (apply Z.ltb_lt; unfold CAN_Node_ChannelCount; lia).
  destruct (ids_lookup ch s Ht Hch) as (_ & Hm & _).
  by rewrite (bind_ok _ _ s _ _ (idx_ok f_channel_modules ch (module_at ch s) s H0 Hm)).
Qed.

Lemma select_module_spec {HW : Hardware} i (s : node) :
  node_inv s -> is_u8 i -> exists k, select_module i s = Ok (routed i s, k) s.
Proof.
  intros (_ & Ht & _) Hi. unfold is_u8 in Hi. unfold select_module, routed. pose proof Ht as (Hsys & Hpro & _).
  destruct (i =? 0) eqn:H0; [exists i; unfold bind, rd, ret; cbn; by rewrite Hsys|].
  destruct (i =? 1) eqn:H1; [exists i; unfold bind, rd, ret; cbn; by rewrite Hpro|].
  destruct (Z.leb_spec 0x80 i) as [H80|H80]; [|by exists i]. rewrite land_7f by lia. cbn [andb].
  destruct (Z.ltb_spec (i - 0x80) CAN_Node_ChannelCount) as [Hc|Hc].
  - assert (is_channel (i - 0x80)) as Hch by (unfold is_channel; lia).
    destruct (ids_lookup (i - 0x80) s Ht Hch) as (_ & Hm & _). exists (i - 0x80).
    rewrite (bind_ok _ _ s _ _ (idx_ok f_channel_modules (i - 0x80) (module_at (i - 0x80) s) s ltac:(lia) Hm)).
    destruct (Z.ltb_spec i (0x80 + CAN_Node_ChannelCount)); [done|lia].
  - destruct (Z.ltb_spec i (0x80 + CAN_Node_ChannelCount)); [lia|by exists (i - 0x80)].
Qed.

(** A packet whose address selects no module (an index from 2 to 0x7f, a
    channel the board does not have, or a channel without a function) is ignored:
    the node is unchanged and sends nothing. *)
Theorem unrouted_packet_ignored {HW : Hardware} rtr p len data (s : node) :
  node_inv s -> routed (Z.land (Z.shiftr (address p) 8) 0xff) s = None ->
  CAN_Node_handle_packet rtr p len data s = Ok tt s.
Proof.
  intros Hs Hr. assert (is_u8 (Z.land (Z.shiftr (address p) 8) 0xff)) as Hi.
  { change 0xff with (Z.ones 8). unfold is_u8. pose proof (land_low_range (Z.shiftr (address p) 8) 8). lia. }
  destruct (select_module_spec _ s Hs Hi) as (k & Hk). unfold CAN_Node_handle_packet.
  rewrite (bind_ok _ _ _ _ _ Hk), Hr. done.
Qed.

Lemma unrouted_packet_ignored_witness :
  CAN_Node_handle_packet (HW:=sim) CAN_RTR_Data sample_packet_id 2 (replicate 8 1) (booted sim_machine) =
    Ok tt (booted sim_machine).
Proof. apply unrouted_packet_ignored; [apply booted_inv|vm_compute; reflexivity]. Defined.

(** ** The label *)

(** The bytes before the first zero. *)
Fixpoint until_zero (l : list Z) : list Z :=
  match l with
  | [] => []
  | b :: l' => if b =? 0 then [] else b :: until_zero l'
  end.

Lemma label_length_until l i : label_length_from l i = i + Z.of_nat (length (until_zero l)).
Proof.
  revert i. induction l as [|b l IH]; intros i; simpl; [lia|].
  destruct (b =? 0); simpl; [lia|]. rewrite IH. lia.
Qed.

Lemma until_zero_take l : until_zero l = take (length (until_zero l)) l.
Proof. induction l as [|b l IH]; simpl; [done|]. destruct (b =? 0); simpl; [done|by rewrite <- IH]. Qed.

Lemma until_zero_app l r :
  Forall (fun b => b <> 0) l -> until_zero (l ++ 0 :: r) = l.
Proof.
  induction 1 as [|b l Hb Hl IH]; simpl; [done|]. apply Z.eqb_neq in Hb. by rewrite Hb, IH.
Qed.

Lemma until_zero_full l : Forall (fun b => b <> 0) l -> until_zero l = l.
Proof.
  induction 1 as [|b l Hb Hl IH]; simpl; [done|]. apply Z.eqb_neq in Hb. by rewrite Hb, IH.
Qed.

Lemma label_bytes_app l : (length l <= 8)%nat ->
  label_bytes (Z.of_nat (length l)) (l ++ replicate (8 - length l) 0) = l ++ replicate (8 - length l) 0.
Proof.
  intros Hl. apply list_eq. intros k. unfold label_bytes. rewrite list_lookup_fmap.
  destruct (Nat.lt_ge_cases k 8) as [Hk|Hk].
  - rewrite lookup_seq_lt by lia. cbn [fmap option_fmap option_map Nat.add]. rewrite nth_lookup.
    destruct (Z.ltb_spec (Z.of_nat k) (Z.of_nat (length l))) as [H|H].
    + destruct (lookup_lt_is_Some_2 l k) as [b Hb]; [lia|]. by rewrite !(lookup_app_l_Some _ _ _ b) by done.
    + rewrite lookup_app_r by lia. by rewrite lookup_replicate_2 by lia.
  - rewrite lookup_seq_ge by lia. symmetry. apply lookup_ge_None_2. rewrite length_app, length_replicate. lia.
Qed.

(** A label of at most eight non-zero bytes written to the node is stored as
    written: the label read back is exactly those bytes, the length the node
    replies with is theirs, everything else is unchanged, and the EEPROM holds
    the image of the node with the new label. *)
Theorem label_write_persists {HW : Hardware} {GL : GpioLaws HW} {CL : CanLaws HW} {FL : FlashLaws HW} ch l s :
  node_inv s -> (length l <= 8)%nat -> Forall is_u8 l -> Forall (fun b => b <> 0) l ->
  wp total (sysinfo_write ch HA_CAN_Common_DeviceLabel (Z.of_nat (length l)) (l ++ replicate (8 - length l) 0);; label_length)
    (fun n s' => n = Z.of_nat (length l) /\ take (Z.to_nat n) (label (n_sysinfo s')) = l /\ saved_image s' /\
       exists h, s' = set_mach h (set_sysinfo (SysinfoVars (device_id (n_sysinfo s)) (l ++ replicate (8 - length l) 0)) s)) s.
Proof.
  intros Hs Hl Hu Hnz. pose proof Hs as (Hc & Ht & Hk & (Hd & Hlab & _)).
  set (value := l ++ replicate (8 - length l) 0).
  assert (length value = 8%nat) as Hval by (subst value; rewrite length_app, length_replicate; lia).
  assert (Forall is_u8 value) as Huv.
  { subst value. apply Forall_app. split; [done|]. apply Forall_replicate. unfold is_u8. lia. }
  unfold sysinfo_write. rewrite Z.eqb_refl. cbn [when]. apply wp_bind, wp_bind, write_label_wp; [done|done|].
  subst value. rewrite label_bytes_app by done.
  apply save_modules_saves; [by split; [|split; [|split]]|]. intros h Hrx Himg.
  apply wp_bind, wp_rd, wp_ret. cbn [fget f_label]. rewrite label_length_until.
  change (label (n_sysinfo (set_mach h _))) with (l ++ replicate (8 - length l) 0).
  assert (until_zero (l ++ replicate (8 - length l) 0) = l) as ->.
  { destruct (8 - length l)%nat; simpl; [by rewrite app_nil_r, until_zero_full|by apply until_zero_app]. }
  split; [lia|]. split; [|split; [done|by exists h]].
  cbn [set_mach set_sysinfo n_sysinfo label]. rewrite Z.add_0_l, Nat2Z.id. apply take_app_length.
Qed.

Lemma label_write_persists_witness :
  wp total (sysinfo_write (HW:=sim) 0 HA_CAN_Common_DeviceLabel 3 ([0x66; 0x6f; 0x6f] ++ replicate 5 0);; label_length)
    (fun n s' => n = 3 /\ take (Z.to_nat n) (label (n_sysinfo s')) = [0x66; 0x6f; 0x6f]) (booted sim_machine).
Proof.
  eapply wp_mono.
  - apply (label_write_persists 0 [0x66; 0x6f; 0x6f] (booted sim_machine)).
    + apply booted_inv.
    + simpl. lia.
    + repeat (constructor; [unfold is_u8; lia|]). constructor.
    + repeat (constructor; [lia|]). constructor.
  - intros n s' (Hn & Ht & _). split; [exact Hn|exact Ht].
Defined.

(** ** Reconfiguration by packets *)

(** A write to the protocol module that is not well formed (not the save
    command, and an address that is no channel, a length other than one, or a
    function the board does not know) leaves the node as it is. *)
Theorem malformed_reconfiguration_ignored {HW : Hardware} ch address len value (s : node) :
  address <> HA_CAN_Node_ChannelSaveConfig -> length value = 8%nat ->
  address < HA_CAN_Node_ChannelFunction0 \/ HA_CAN_Node_ChannelFunction0 + CAN_Node_ChannelCount <= address \/
    len <> 1 \/ HA_CAN_Node_FunctionCount <= nth 0 value 0 ->
  proto_write ch address len value s = Ok tt s.
Proof.
  intros Hsave Hlen Hbad. unfold proto_write. apply Z.eqb_neq in Hsave. rewrite Hsave.
  destruct (_ || _ || _) eqn:Hor; [done|].
  apply orb_false_iff in Hor as [Hor Hl1]. apply orb_false_iff in Hor as [H1 H2].
  apply negb_false_iff, Z.eqb_eq in Hl1. apply Z.ltb_ge in H1. apply Z.leb_gt in H2.
  destruct value as [|f value]; [done|]. cbn [nth] in Hbad.
  rewrite (at_index_ok (f :: value) 0 f) by done. unfold bind, ret.
  destruct (Z.leb_spec HA_CAN_Node_FunctionCount f); [done|lia].
Qed.

Lemma malformed_reconfiguration_ignored_witness :
  proto_write (HW:=sim) 1 0x81 1 [7; 0; 0; 0; 0; 0; 0; 0] (booted sim_machine) = Ok tt (booted sim_machine).
Proof.
  apply malformed_reconfiguration_ignored; [by vm_compute|reflexivity|].
  right. right. right. unfold HA_CAN_Node_FunctionCount. simpl. lia.
Defined.
