(* ===== verification/Receive.v ===== *)
(** Receiving: [handle_received_data] and [CAN_Node_CAN_handle_packets] of
    [firmware/stm8/can_node/can.c]. *)

From stdpp Require Import sets.
From S2P Require Import Prelude Monad CanProto Machine Gpio Flash Eestream Wwdg CanDrv CanRules Sim State Led.
From S2P Require Import Can Channel Sysinfo Module Handlers.

(** ** Operations *)

Section Operations.
Context {HW : Hardware}.

Definition handle_received_data : prog node unit :=
  let! device_id := CAN_Node_Sysinfo_get_device_id in
  let data := replicate 8 0 in
  let! ide := io CAN_GetReceivedIDE in
  if negb (ide =? CAN_Id_Extended) then ret tt
  else
    let! id := io CAN_GetReceivedId in
    wr f_received_id id ;;
    let! received_id := rd f_received_id in
    wr f_packet_id (HA_CAN_number_to_packet_id received_id) ;;
    let! rtr := io CAN_GetReceivedRTR in
    let! len := io CAN_GetReceivedDLC in
    if negb (truth rtr) && (8 <? len) then ret tt
    else
      let! data :=
        (if negb (truth rtr) then
           for_acc (range len) data (fun i data => let! b := io (CAN_GetReceivedData i) in set_index data i b)
         else ret data) in
      let! received_id := rd f_received_id in
      if received_id =? HA_CAN_SpecialId_Update then
        if truth rtr then CAN_Node_CAN_send_reply 1 [device_id]
        else
          let! d0 := at_index data 0 in
          let! d1 := at_index data 1 in
          when ((len =? 2) && (d0 =? device_id)) (CAN_Node_Sysinfo_set_device_id d1)
      else
        let! packet_id := rd f_packet_id in
        if negb (device_id =? device_id_field packet_id) then ret tt
        else CAN_Node_handle_packet rtr packet_id len data.

(** At most [fuel] looks at the FIFO. *)
Definition CAN_Node_CAN_handle_packets (fuel : nat) : prog node unit :=
  while fuel (let! n := io CAN_MessagePending in ret (0 <? n))
    (CAN_Node_Led_blink CAN_Node_Led_Info 1 ;;
     io CAN_Receive ;;
     handle_received_data).
End Operations.

(** ** Rules *)

Section Rules.
Context {HW : Hardware} {GL : GpioLaws HW} {CL : CanLaws HW} {FL : FlashLaws HW}.

Lemma wp_touches {A} E P (m : prog machine A) (Q : A -> machine -> Prop) s :
  touches P m -> (forall a s', keeps P s s' -> Q a s') -> wp E m Q s.
Proof.
  intros Ht HQ. eapply wp_mono; [eapply wp_weaken; [|apply Ht]; by intros f s' []|]. intros a s' Hk. by apply HQ.
Qed.

(** Sending from an object of one byte reads past its end, unless no mailbox
    was free. *)
Definition past_the_end (s : machine) (f : fault) (s' : machine) : Prop := f = OutOfBounds /\ rx s' = rx s.

Lemma set_data_short d s : wp (past_the_end s) (set_data [d]) (fun _ _ => False) s.
Proof.
  unfold set_data. change (range 8) with (0 :: (Z.of_nat <$> seq 1 7)). cbn [for_each].
  apply wp_bind, wp_bind. apply (wp_at_index _ _ d); [done|done|].
  apply (wp_touches _ can_cell); [apply (touches_page_store 6); lia|]. intros [] s' [_ [Hrx _]].
  cbn [fmap list_fmap seq for_each]. apply wp_bind, wp_bind. by apply wp_raise.
Qed.

Lemma CAN_Transmit_short i ide rtr dlc d s :
  wp (past_the_end s) (CAN_Transmit i ide rtr dlc [d])
    (fun st s' => st = CAN_TxStatus_NoMailBox /\ keeps can_cell s s') s.
Proof.
  unfold CAN_Transmit. apply wp_bind, (wp_touches _ can_cell); [apply touches_CAN_GetSelectedPage|]. intros page s1 K1.
  apply wp_bind, (wp_touches _ can_cell); [apply touches_select_mailbox|]. intros st s2 K2.
  assert (keeps can_cell s s2) as K12 by by apply (keeps_trans _ _ s1).
  apply wp_bind, wp_when; intros Hst.
  - apply wp_bind, (wp_touches _ can_cell); [apply (touches_can_store 7); lia|]. intros [] s3 K3.
    apply wp_bind, (wp_touches _ can_cell); [apply touches_set_id|]. intros [] s4 K4.
    apply wp_bind, (wp_touches _ can_cell); [unfold and_reg; touch; apply (touches_page_store 1); lia|]. intros [] s5 K5.
    apply wp_bind, (wp_touches _ can_cell); [unfold or_reg; touch; apply (touches_page_store 1); lia|]. intros [] s6 K6.
    apply wp_bind. eapply wp_mono; [eapply wp_weaken; [|apply set_data_short]|by intros ? ? []].
    intros f s7 [-> Hrx]. split; [done|]. rewrite Hrx.
    destruct K6 as [_ [-> _]], K5 as [_ [-> _]], K4 as [_ [-> _]], K3 as [_ [-> _]], K12 as [_ [-> _]]. done.
  - apply negb_false_iff, Z.eqb_eq in Hst. apply wp_bind, (wp_touches _ can_cell); [apply touches_CAN_SelectPage|].
    intros [] s3 K3. apply wp_ret. split; [done|by apply (keeps_trans _ _ s2)].
Qed.

(** The frame asks for the device identifier of the node. *)
Definition update_request (r : can_rx) : Prop :=
  _Id r = HA_CAN_SpecialId_Update /\ _IDE r = CAN_Id_Extended /\ _RTR r <> 0.

(** What receiving may do to the node. *)
Definition receive_step (s s' : node) : Prop :=
  node_inv s' /\ clock_counter s' = clock_counter s /\ rx (mach s') = rx (mach s).

Lemma receive_step_packet s0 s s' : receive_step s0 s -> packet_step s s' -> receive_step s0 s'.
Proof. intros (_ & A1 & A2) (Hs & B1 & _ & B2). split; [done|]. split; congruence. Qed.

(** The bytes of the frame, padded with zeros. *)
Definition frame_bytes (r : can_rx) : list Z :=
  if truth (_RTR r) then replicate 8 0
  else take (Z.to_nat (_DLC r)) (_Data r) ++ replicate (8 - Z.to_nat (_DLC r)) 0.

Lemma frame_bytes_ok r : rx_ok r -> truth (_RTR r) = true \/ _DLC r <= 8 ->
  length (frame_bytes r) = 8%nat /\ Forall is_u8 (frame_bytes r).
Proof.
  intros (Hlen & Hu & Hd & _) Hok. unfold frame_bytes. destruct (truth (_RTR r)).
  - split; [done|]. apply Forall_replicate. unfold is_u8. lia.
  - destruct Hok as [?|Hok]; [done|]. split.
    + rewrite length_app, length_take, length_replicate. lia.
    + apply Forall_app. split; [by apply Forall_take|]. apply Forall_replicate. unfold is_u8. lia.
Qed.

(** The loop that copies the bytes of a data frame. *)
Lemma copy_bytes_ok len (s : node) :
  length (_Data (rx (mach s))) = 8%nat -> 0 <= len <= 8 ->
  for_acc (range len) (replicate 8 0) (fun i data => let! b := io (CAN_GetReceivedData i) in set_index data i b) s =
    Ok (take (Z.to_nat len) (_Data (rx (mach s))) ++ replicate (8 - Z.to_nat len) 0) s.
Proof.
  intros Hlen Hl. set (bytes := _Data (rx (mach s))). assert (length bytes = 8%nat) as Hb8 by exact Hlen.
  assert (wp total (for_acc (range len) (replicate 8 0)
            (fun i data => let! b := io (CAN_GetReceivedData i) in set_index data i b))
            (fun l s' => l = take (Z.to_nat len) bytes ++ replicate (8 - Z.to_nat len) 0 /\ s' = s) s) as H.
  { apply (wp_for_acc _ _ _ (fun done l s' => s' = s /\ (length done <= 8)%nat /\
             l = take (length done) bytes ++ replicate (8 - length done) 0)).
    - split; [done|]. split; [simpl; lia|done].
    - intros done x rest l s' Heq (-> & Hd & ->). apply range_split in Heq as [-> Hx].
      destruct (lookup_lt_is_Some_2 bytes (length done)) as [b Hb]; [lia|].
      apply wp_bind, wp_io. unfold CAN_GetReceivedData. apply wp_bind, wp_rd.
      apply (wp_at_index _ _ b); [lia|rewrite Nat2Z.id; exact Hb|].
      assert (set_mach (mach s) s = s) as -> by by destruct s.
      apply wp_set_index; [rewrite length_app, length_take, length_replicate; lia|].
      rewrite length_app, Nat2Z.id. cbn [length]. split; [done|]. split; [lia|].
      rewrite Nat.add_1_r, (take_S_r _ _ b) by done.
      rewrite insert_app_r_alt by (rewrite length_take; lia). rewrite length_take_le by lia.
      rewrite Nat.sub_diag, <- app_assoc. f_equal. replace (8 - length done)%nat with (S (8 - S (length done))) by lia. done.
    - intros l s' (-> & Hd & ->). unfold range. by rewrite length_fmap, length_seq. }
  unfold wp in H. destruct (for_acc _ _ _ _) as [l s'|]; [by destruct H as [-> ->]|done].
Qed.

(** The node after the identifier of a frame was stored. *)
Definition with_received (s : node) : node :=
  let id := _Id (rx (mach s)) in set_can (CanVars id (HA_CAN_number_to_packet_id id)) s.

(** [handle_received_data], its local variables evaluated. *)
Lemma handle_received_data_eq s :
  rx_ok (rx (mach s)) ->
  (let r := rx (mach s) in let d := device_id (n_sysinfo s) in
  handle_received_data s =
    if negb (_IDE r =? CAN_Id_Extended) then Ok tt s
    else if negb (truth (_RTR r)) && (8 <? _DLC r) then Ok tt (with_received s)
    else if _Id r =? HA_CAN_SpecialId_Update then
      (if truth (_RTR r) then CAN_Node_CAN_send_reply 1 [d]
       else when ((_DLC r =? 2) && (nth 0 (frame_bytes r) 0 =? d))
              (CAN_Node_Sysinfo_set_device_id (nth 1 (frame_bytes r) 0))) (with_received s)
    else if negb (d =? device_id_field (HA_CAN_number_to_packet_id (_Id r))) then Ok tt (with_received s)
    else CAN_Node_handle_packet (_RTR r) (HA_CAN_number_to_packet_id (_Id r)) (_DLC r) (frame_bytes r) (with_received s)).
Proof.
  intros Hr r d. pose proof Hr as (Hlen & _ & Hdlc & _). fold r in Hlen, Hdlc.
  assert (set_mach (mach s) s = s) as Hid by by destruct s.
  unfold handle_received_data, CAN_Node_Sysinfo_get_device_id, io, CAN_GetReceivedIDE, CAN_GetReceivedId,
    CAN_GetReceivedRTR, CAN_GetReceivedDLC.
  unfold bind at 1, rd at 1. cbn [fget f_device_id]. fold d.
  unfold bind at 1 2, rd at 1, ret at 1. cbn [fget f_rx]. rewrite Hid. fold r.
  destruct (negb (_IDE r =? CAN_Id_Extended)) eqn:Hide; [done|].
  unfold bind at 1 2, rd at 1, ret at 1. cbn [fget f_rx]. rewrite Hid. fold r.
  unfold bind at 1, wr at 1. unfold bind at 1, rd at 1. unfold bind at 1, wr at 1.
  cbn [fget fset f_received_id f_packet_id set_can n_can received_id mach n_led clock_counter switches buttons n_analog n_sysinfo n_module].
  fold (set_can (CanVars (_Id r) (HA_CAN_number_to_packet_id (_Id r))) s). fold (with_received s).
  unfold bind at 1 2, rd at 1, ret at 1. cbn [fget f_rx with_received set_can mach]. fold r.
  unfold bind at 1 2, rd at 1, ret at 1. cbn [fget f_rx with_received set_can set_mach mach]. fold r.
  fold (set_can (CanVars (_Id r) (HA_CAN_number_to_packet_id (_Id r))) s). fold (with_received s).
  destruct (negb (truth (_RTR r)) && (8 <? _DLC r)) eqn:Hbig; [done|].
  assert (exists l, l = frame_bytes r /\
    (if negb (truth (_RTR r)) then
       for_acc (range (_DLC r)) (replicate 8 0) (fun i data => let! b := io (CAN_GetReceivedData i) in set_index data i b)
     else ret (replicate 8 0)) (with_received s) = Ok l (with_received s)) as (l & Hl & Hcopy).
  { eexists; split; [done|]. unfold frame_bytes. destruct (truth (_RTR r)); [done|]. cbn [negb andb] in *.
    apply Z.ltb_ge in Hbig. apply (copy_bytes_ok (_DLC r) (with_received s)); [done|]. lia. }
  rewrite (bind_ok _ _ _ _ _ Hcopy). subst l.
  assert (length (frame_bytes r) = 8%nat) as Hl8.
  { apply frame_bytes_ok; [done|]. destruct (truth (_RTR r)); [by left|right]. cbn [negb andb] in Hbig. by apply Z.ltb_ge in Hbig. }
  unfold bind at 1, rd at 1. cbn [fget f_received_id with_received set_can n_can received_id]. fold r.
  destruct (_Id r =? HA_CAN_SpecialId_Update); [destruct (truth (_RTR r)); [done|]|].
  - destruct (frame_bytes r) as [|d0 [|d1 bytes]]; [done|done|].
    rewrite (at_index_ok (d0 :: d1 :: bytes) 0 d0) by done. rewrite (at_index_ok (d0 :: d1 :: bytes) 1 d1) by done. done.
  - unfold bind at 1, rd at 1. cbn [fget f_packet_id].
    change (packet_id (n_can (with_received s))) with (HA_CAN_number_to_packet_id (_Id r)).
    by destruct (d =? device_id_field (HA_CAN_number_to_packet_id (_Id r))).
Qed.

(** What may go wrong while a frame is handled: a module waits for something
    outside the node, or the node is asked for its number. *)
Definition receive_fault (f : fault) (s : node) : Prop :=
  f = Hang /\ can_wait s \/ f = OutOfBounds /\ update_request (rx (mach s)).

Lemma receive_wait_ok s : wait_ok receive_fault s.
Proof. intros Hw s' Hn. left. split; [done|]. by apply (can_wait_core s). Qed.

Lemma handle_received_data_wp (Q : unit -> node -> Prop) s :
  node_inv s -> rx_ok (rx (mach s)) -> (forall s', receive_step s s' -> Q tt s') ->
  wp receive_fault handle_received_data Q s.
Proof.
  intros Hs Hr HQ. unfold wp. rewrite handle_received_data_eq by done. cbv zeta.
  set (r := rx (mach s)) in *. set (d := device_id (n_sysinfo s)).
  assert (receive_step s (with_received s)) as Hst by (by split).
  assert (node_inv (with_received s)) as Hs' by apply Hst.
  assert (forall s', packet_step (with_received s) s' -> Q tt s') as HQ'.
  { intros s' Hp. apply HQ. by eapply receive_step_packet. }
  destruct (negb (_IDE r =? CAN_Id_Extended)) eqn:Hide; [by apply HQ|].
  destruct (negb (truth (_RTR r)) && (8 <? _DLC r)) eqn:Hbig; [by apply HQ|].
  destruct (frame_bytes_ok r Hr) as [Hl8 Hu8].
  { destruct (truth (_RTR r)); [by left|right]. cbn [negb andb] in Hbig. by apply Z.ltb_ge in Hbig. }
  destruct (_Id r =? HA_CAN_SpecialId_Update) eqn:Hup; [destruct (truth (_RTR r)) eqn:Hrtr|].
  - change (wp receive_fault (CAN_Node_CAN_send_reply 1 [d]) Q (with_received s)).
    unfold CAN_Node_CAN_send_reply. apply wp_bind, wp_rd, wp_bind, wp_io.
    eapply wp_mono; [eapply wp_weaken; [|apply CAN_Transmit_short]|].
    + intros f h [-> Hrx]. right. split; [done|]. cbn [set_mach mach]. rewrite Hrx.
      change (rx (mach (with_received s))) with r. split; [by apply Z.eqb_eq|].
      split; [by apply Z.eqb_eq, negb_false_iff|]. unfold truth in Hrtr. by apply negb_true_iff, Z.eqb_neq in Hrtr.
    + intros st h [-> Hk]. rewrite Z.eqb_refl. cbn [when].
      assert (sends (with_received s) (set_mach h (with_received s))) as S1.
      { apply sends_io; [apply Hs'|]. eapply keeps_weaken; [exact Hk|apply can_off_tape]. }
      apply CAN_Node_Led_blink_sends; [apply Hs'|by right|unfold is_u8; lia|].
      intros s' S2. apply HQ', packet_step_sends; [done|]. by eapply sends_trans.
  - change (wp receive_fault (when ((_DLC r =? 2) && (nth 0 (frame_bytes r) 0 =? d))
              (CAN_Node_Sysinfo_set_device_id (nth 1 (frame_bytes r) 0))) Q (with_received s)).
    apply wp_when; intros _; [|by apply HQ', packet_step_refl]. apply set_device_id_wp; [done| |done].
    destruct (lookup_lt_is_Some_2 (frame_bytes r) 1) as [b Hb]; [lia|]. rewrite (nth_lookup_Some _ _ _ b) by done.
    eapply List.Forall_forall; [exact Hu8|]. by apply list_elem_of_In, (list_elem_of_lookup_2 _ 1).
  - destruct (negb (d =? device_id_field (HA_CAN_number_to_packet_id (_Id r)))); [by apply HQ|].
    change (wp receive_fault (CAN_Node_handle_packet (_RTR r) (HA_CAN_number_to_packet_id (_Id r)) (_DLC r) (frame_bytes r))
              Q (with_received s)).
    by apply CAN_Node_handle_packet_wp; [apply receive_wait_ok|..].
Qed.

(** The invariant of the main loop. *)
Definition loop_inv (s : node) : Prop := node_inv s /\ 1 <= clock_counter s <= ClockPostscaler /\ rx_ok (rx (mach s)).

(** What may go wrong in a round of the main loop: handling a frame, or the loop over the
    frames that have come uses up the fuel of the round, with the node in order. *)
Definition round_fault (f : fault) (s : node) : Prop := receive_fault f s \/ f = Hang /\ loop_inv s.

Lemma loop_inv_sends s s' : loop_inv s -> sends s s' -> loop_inv s'.
Proof.
  intros (Hs & Hc & Hr) Hst. destruct (packet_step_sends s s' Hs Hst) as (Hs' & Hcl & _ & Hrx).
  split; [done|]. split; [by rewrite Hcl|by rewrite Hrx].
Qed.

Lemma CAN_Node_CAN_handle_packets_wp fuel s :
  loop_inv s -> wp round_fault (CAN_Node_CAN_handle_packets fuel) (fun _ => loop_inv) s.
Proof.
  intros Hs. apply wp_while; [by right|done|]. clear s Hs. intros s Hs.
  apply wp_bind, (wp_io_touches _ can_cell); [apply touches_CAN_MessagePending|]. intros n h Hk. apply wp_ret.
  assert (loop_inv (set_mach h s)) as Hs'.
  { apply (loop_inv_sends s); [done|]. apply sends_io; [apply Hs|]. eapply keeps_weaken; [exact Hk|apply can_off_tape]. }
  split; [done|]. intros _. apply wp_bind, CAN_Node_Led_blink_sends; [apply Hs'|by left|unfold is_u8; lia|].
  intros s1 S1. destruct (loop_inv_sends _ _ Hs' S1) as (Hn1 & Hc1 & _).
  apply wp_bind, wp_io. eapply wp_mono; [eapply wp_weaken; [|apply CAN_Receive_safe]; by intros f h' []|].
  intros [] h2 [Hr2 _]. apply (wp_weaken receive_fault); [by left|]. apply handle_received_data_wp; [by apply node_inv_mach|done|].
  intros s' (Hs'' & Hcl & Hrx). split; [done|]. split; [by rewrite Hcl|by rewrite Hrx].
Qed.
End Rules.

(** ** What a frame does *)

Lemma eeprom_not_wwdg d : eeprom d -> ~ wwdg_reg d.
Proof.
  unfold eeprom, wwdg_reg, WWDG_CR, WWDG_WR, WWDG_BaseAddress, FLASH_DATA_START_PHYSICAL_ADDRESS,
    FLASH_DATA_END_PHYSICAL_ADDRESS. lia.
Qed.

(** A node that has just fetched [r]. *)
Definition fetched {HW : Hardware} (r : can_rx) (s : node) : node :=
  set_mach (Machine (cells (mach s)) (hid (mach s)) r (requested (mach s))) s.

Lemma fetched_inv {HW : Hardware} r (s : node) : node_inv s -> node_inv (fetched r s).
Proof. apply node_inv_mach. Qed.

(** A frame for another device only changes the two variables that remember
    the last identifier.  A node whose device number needs eight bits, such as the
    0xff of a fresh board, has no frames of its own: it ignores every frame but
    the programming one. *)
Theorem foreign_frame_ignored {HW : Hardware} s :
  rx_ok (rx (mach s)) -> _IDE (rx (mach s)) = CAN_Id_Extended -> _Id (rx (mach s)) <> HA_CAN_SpecialId_Update ->
  device_id (n_sysinfo s) <> Z.land (Z.shiftr (_Id (rx (mach s))) 16) 0x7f \/ 128 <= device_id (n_sysinfo s) ->
  handle_received_data s = Ok tt (with_received s).
Proof.
  intros Hr Hide Hup Hdev. rewrite handle_received_data_eq by done. cbv zeta. rewrite Hide, Z.eqb_refl. cbn [negb].
  destruct (_ && _); [done|]. apply Z.eqb_neq in Hup. rewrite Hup.
  assert (device_id (n_sysinfo s) <> device_id_field (HA_CAN_number_to_packet_id (_Id (rx (mach s))))) as Hne.
  { destruct Hdev as [Hdev|Hdev]; [done|]. pose proof (number_to_packet_id_ok (_Id (rx (mach s)))) as (_ & Hf & _). lia. }
  apply Z.eqb_neq in Hne. by rewrite Hne.
Qed.

(** A data frame of two bytes for device 0x55. *)
Definition sample_frame : can_rx :=
  CanRx (HA_CAN_packet_id_to_number sample_packet_id) CAN_Id_Extended CAN_RTR_Data 2 [0x55; 7; 0; 0; 0; 0; 0; 0] 0.

Lemma sample_frame_ok : rx_ok sample_frame.
Proof.
  unfold rx_ok. change (_Id sample_frame) with 0x3d58201. cbn [sample_frame _Data _DLC _IDE _RTR].
  split; [done|]. split; [repeat (constructor; [unfold is_u8; lia|]); constructor|].
  unfold is_u8, CAN_Id_Extended, CAN_RTR_Data. lia.
Qed.

Lemma foreign_frame_ignored_witness :
  handle_received_data (fetched (HW:=sim) sample_frame (booted sim_machine)) =
    Ok tt (with_received (fetched sample_frame (booted sim_machine))).
Proof.
  apply foreign_frame_ignored; [exact sample_frame_ok|reflexivity|vm_compute; discriminate|].
  right. vm_compute. discriminate.
Defined.

(** Any frame with the identifier of a packet for this device reaches the modules. *)
Lemma own_frame_eq {HW : Hardware} s p rtr dlc bytes fmi :
  packet_id_ok p -> device_id_field p = device_id (n_sysinfo s) -> is_u8 rtr ->
  0 <= dlc <= 8 -> length bytes = 8%nat -> Forall is_u8 bytes ->
  rx (mach s) = CanRx (HA_CAN_packet_id_to_number p) CAN_Id_Extended rtr dlc bytes fmi ->
  handle_received_data s =
    CAN_Node_handle_packet rtr
      {| priority := priority p mod 16; reserved := 1; device_id_field := device_id_field p; address := address p |}
      dlc (frame_bytes (rx (mach s))) (with_received s).
Proof.
  intros Hp Hdev Hrtr Hd Hlen Hu Hrx. pose proof (packet_id_to_number_range p Hp) as Hrange.
  assert (rx_ok (rx (mach s))) as Hr.
  { rewrite Hrx. split; [done|]. split; [done|]. cbn [_DLC _Id _IDE _RTR]. split; [lia|]. split; [lia|].
    split; [unfold is_u8, CAN_Id_Extended; lia|done]. }
  rewrite handle_received_data_eq by done. cbv zeta. rewrite !Hrx. cbn [_IDE _RTR _DLC _Id].
  assert ((8 <? dlc) = false) as -> by (apply Z.ltb_ge; lia). rewrite Z.eqb_refl, andb_false_r. cbn [negb].
  pose proof (packet_id_not_update p Hp) as Hup. apply Z.eqb_neq in Hup. rewrite Hup.
  rewrite packet_id_decode by done. cbn [device_id_field]. by rewrite Hdev, Z.eqb_refl.
Qed.

(** Receiving decodes what the other side encoded: a data frame of at most
    eight bytes with the identifier of packet [p] for this device reaches the
    modules as [p] (with the four priority bits that travel), its length, and its
    bytes padded with zeros. *)
Theorem own_frame_dispatched {HW : Hardware} s p dlc bytes fmi :
  packet_id_ok p -> device_id_field p = device_id (n_sysinfo s) ->
  0 <= dlc <= 8 -> length bytes = 8%nat -> Forall is_u8 bytes ->
  rx (mach s) = CanRx (HA_CAN_packet_id_to_number p) CAN_Id_Extended CAN_RTR_Data dlc bytes fmi ->
  handle_received_data s =
    CAN_Node_handle_packet CAN_RTR_Data
      {| priority := priority p mod 16; reserved := 1; device_id_field := device_id_field p; address := address p |}
      dlc (take (Z.to_nat dlc) bytes ++ replicate (8 - Z.to_nat dlc) 0) (with_received s).
Proof.
  intros Hp Hdev Hd Hlen Hu Hrx. rewrite (own_frame_eq s p CAN_RTR_Data dlc bytes fmi) by done. by rewrite Hrx.
Qed.

(** The node with device number 0x55. *)
Definition node55 : node (HW:=sim) :=
  fetched sample_frame (set_sysinfo (SysinfoVars 0x55 (replicate 8 0)) (booted sim_machine)).

Lemma own_frame_dispatched_witness :
  handle_received_data node55 =
    CAN_Node_handle_packet CAN_RTR_Data
      {| priority := 3; reserved := 1; device_id_field := 0x55; address := 0x8201 |} 2 [0x55; 7; 0; 0; 0; 0; 0; 0]
      (with_received node55).
Proof.
  assert (packet_id_ok sample_packet_id) as H by (unfold packet_id_ok, is_u8, is_u16; simpl; lia).
  exact (own_frame_dispatched node55 sample_packet_id 2 [0x55; 7; 0; 0; 0; 0; 0; 0] 0 H eq_refl ltac:(lia) eq_refl
           (proj1 (proj2 sample_frame_ok)) eq_refl).
Defined.

(** C20. The programming frame: two bytes under the special identifier, the first
    the present device number, give the node the second as its new number and
    save it; with any other length, of at most eight, or first byte nothing but the last identifier
    changes.  The frame is obeyed in every state of the node and of its hardware:
    the check of a jumper or a button that section 4 of can_proto.h asks of a device
    that implements this command is not made. *)
Theorem device_id_update {HW : Hardware} {GL : GpioLaws HW} {CL : CanLaws HW} {FL : FlashLaws HW} s r :
  node_inv s -> rx (mach s) = r -> rx_ok r ->
  _IDE r = CAN_Id_Extended -> _Id r = HA_CAN_SpecialId_Update -> _RTR r = CAN_RTR_Data -> _DLC r <= 8 ->
  wp total handle_received_data (fun _ s' =>
    if (_DLC r =? 2) && (nth 0 (_Data r) 0 =? device_id (n_sysinfo s))
    then device_id (n_sysinfo s') = nth 1 (_Data r) 0 /\ label (n_sysinfo s') = label (n_sysinfo s) /\
         node_inv s' /\ n_module s' = n_module s /\ saved_image s'
    else s' = with_received s) s.
Proof.
  intros Hs Hrx0 Hr Hide Hid Hrtr Hdlc. pose proof Hr as (Hlen & Hu & Hd & _).
  unfold wp. rewrite handle_received_data_eq by by rewrite Hrx0. cbv zeta. rewrite !Hrx0.
  rewrite Hide, Hid, Hrtr, !Z.eqb_refl. assert ((8 <? _DLC r) = false) as -> by (apply Z.ltb_ge; lia).
  cbn [truth CAN_RTR_Data Z.eqb negb andb].
  assert (frame_bytes r = take (Z.to_nat (_DLC r)) (_Data r) ++ replicate (8 - Z.to_nat (_DLC r)) 0) as Hfb
    by (unfold frame_bytes; rewrite Hrtr; done).
  destruct (Z.eqb_spec (_DLC r) 2) as [H2|H2]; [|done]. cbn [andb].
  assert (forall k, (k < 2)%nat -> nth k (frame_bytes r) 0 = nth k (_Data r) 0) as Hnth.
  { intros k Hk. rewrite Hfb, H2, !nth_lookup, lookup_app_l by (rewrite length_take; lia).
    by rewrite lookup_take_lt by lia. }
  rewrite !Hnth by lia. destruct (nth 0 (_Data r) 0 =? device_id (n_sysinfo s)); [|done]. cbn [when].
  set (v := nth 1 (_Data r) 0).
  assert (is_u8 v) as Hv.
  { subst v. destruct (lookup_lt_is_Some_2 (_Data r) 1) as [b Hb]; [lia|]. rewrite (nth_lookup_Some _ _ _ b) by done.
    eapply List.Forall_forall; [exact Hu|]. by apply list_elem_of_In, (list_elem_of_lookup_2 _ 1). }
  pose proof Hs as (Hc & Ht & Hl & (_ & Hlab & Hul)).
  match goal with |- match ?m with Ok a0 s0 => @?Q a0 s0 | Fault f1 s1 => _ end => change (wp total (CAN_Node_Sysinfo_set_device_id v) Q (with_received s)) end.
  apply wp_bind, wp_wr, wp_bind, save_modules_saves; [by split; [|split; [|split]]|]. intros h Hrx Himg.
  apply (wp_io_touches _ wwdg_reg); [apply touches_WWDG_SWReset|]. intros [] h' Hk.
  split; [done|]. split; [done|]. split; [by split; [|split; [|split]]|]. split; [done|].
  destruct Himg as (pls & Hp & Htape). exists pls. split; [exact Hp|].
  eapply (tape_keeps wwdg_reg); [apply eeprom_not_wwdg| |exact Hk|exact Htape].
  by apply image_size; [split; [|split; [|split]]|].
Qed.

(** The programming frame that turns device 0x55 into device 7. *)
Definition update_node (rtr : Z) : node (HW:=sim) :=
  fetched (CanRx HA_CAN_SpecialId_Update CAN_Id_Extended rtr 2 [0x55; 7; 0; 0; 0; 0; 0; 0] 0) node55.

Lemma update_node_ok : node_inv (update_node CAN_RTR_Data) /\ rx_ok (rx (mach (update_node CAN_RTR_Data))).
Proof.
  pose proof sample_frame_ok as (H1 & H2 & H3 & H4 & H5 & H6). split.
  - destruct (booted_inv sim_machine) as [(A & B & C & D1 & D2) _]. unfold update_node, node55. do 2 apply fetched_inv.
    split; [exact A|]. split; [exact B|]. split; [exact C|]. split; [unfold is_u8; simpl; lia|exact D2].
  - split; [exact H1|]. split; [exact H2|]. split; [exact H3|]. split; [|split; [exact H5|exact H6]]. simpl.
    unfold HA_CAN_SpecialId_Update. lia.
Qed.

Lemma device_id_update_witness :
  wp total handle_received_data (fun _ s' => device_id (n_sysinfo s') = 7) (update_node CAN_RTR_Data).
Proof.
  eapply wp_mono.
  - apply (device_id_update (update_node CAN_RTR_Data) _ (proj1 update_node_ok) eq_refl (proj2 update_node_ok) eq_refl eq_refl eq_refl).
    simpl. lia.
  - intros a s' H. exact (proj1 H).
Defined.

(** Asking a node for its number, by a remote frame under the special
    identifier, makes [CAN_Transmit] read eight bytes from the one-byte variable
    it is given: whenever a mailbox is free the call reads past the end of it. *)
Theorem update_request_reads_past_end {HW : Hardware} s page h1 st h2 :
  rx_ok (rx (mach s)) -> update_request (rx (mach s)) ->
  CAN_GetSelectedPage (mach s) = Ok page h1 -> select_mailbox h1 = Ok st h2 -> st <> CAN_TxStatus_NoMailBox ->
  exists s', handle_received_data s = Fault OutOfBounds s'.
Proof.
  intros Hr (Hid & Hide & Hrtr) Hpage Hsel Hst. rewrite handle_received_data_eq by done. cbv zeta.
  apply Z.eqb_neq in Hrtr, Hst. unfold truth. rewrite Hide, Hid, Hrtr, !Z.eqb_refl. cbn [negb andb].
  unfold CAN_Node_CAN_send_reply. unfold bind at 1, rd at 1. unfold bind at 1, io at 1.
  change (mach (with_received s)) with (mach s). pose proof (CAN_Transmit_short (received_id (n_can (with_received s)))
    CAN_Id_Extended CAN_RTR_Data 1 (device_id (n_sysinfo s)) (mach s)) as H.
  cbn [fget f_received_id]. unfold wp in H. destruct (CAN_Transmit _ _ _ _ _ _) as [st' h'|f h'] eqn:Ht.
  - exfalso. destruct H as [-> _]. revert Ht. unfold CAN_Transmit. rewrite (bind_ok _ _ _ _ _ Hpage), (bind_ok _ _ _ _ _ Hsel).
    rewrite Hst. cbn [negb when]. unfold bind at 1.
    match goal with |- match ?m with Ok _ _ => _ | Fault _ _ => _ end = _ -> _ => destruct m as [[] h3|]; [|done] end.
    unfold bind, ret. destruct (CAN_SelectPage page h3); [|done]. intros [= -> _]. by rewrite Z.eqb_refl in Hst.
  - destruct H as [-> _]. by eexists.
Qed.

Lemma update_request_reads_past_end_witness :
  exists s', handle_received_data (update_node CAN_RTR_Remote) = Fault OutOfBounds s'.
Proof.
  assert (rx_ok (rx (mach (update_node CAN_RTR_Remote)))) as Hr.
  { destruct update_node_ok as [_ (H1 & H2 & H3 & H4 & H5 & H6)].
    split; [exact H1|]. split; [exact H2|]. split; [exact H3|]. split; [exact H4|]. split; [exact H5|].
    unfold is_u8, CAN_RTR_Remote. simpl. lia. }
  refine (update_request_reads_past_end (update_node CAN_RTR_Remote) _ _ _ _ Hr _ eq_refl eq_refl _).
  - split; [reflexivity|]. split; [reflexivity|]. discriminate.
  - vm_compute. discriminate.
Defined.
