(* ===== verification/Commands.v ===== *)
(** Commands from the bus, end to end: from the frame in the receive variables of
    the CAN driver, through [can.c], [module.c] and [mod_switch.c], to the pin of
    a switch, and back to the reply in a mailbox. *)

From stdpp Require Import sets.
From S2P Require Import Prelude Monad CanProto Machine Gpio Flash Eestream CanDrv CanRules Sim State Led Can.
From S2P Require Import Channel Switch Sysinfo Module Handlers Receive.

(** The identifier of a packet for field [field] of channel [ch] of device [d]. *)
Definition channel_packet (d ch field : Z) : HA_CAN_PacketId :=
  {| priority := 0; reserved := 1; device_id_field := d; address := HA_CAN_Node_field_address ch field |}.

Lemma channel_packet_ok d ch field : 0 <= d < 128 -> packet_id_ok (channel_packet d ch field).
Proof. intros Hd. split; [unfold is_u8; simpl; lia|]. split; [done|apply u16_range]. Qed.

Section Commands.
Context {HW : Hardware} {GL : GpioLaws HW} {CL : CanLaws HW} {FL : FlashLaws HW}.

(** A packet for a field of a channel reaches the module of the channel. *)
Lemma channel_packet_eq rtr pr r d ch field len data s :
  node_inv s -> is_channel ch -> is_u8 field ->
  CAN_Node_handle_packet rtr {| priority := pr; reserved := r; device_id_field := d;
                                address := HA_CAN_Node_field_address ch field |} len data s =
  match module_at ch s with
  | None => Ok tt s
  | Some p =>
      (if rtr =? CAN_RTR_Data then on_write (deref p) ch field len data
       else
         let! response := io (uninit 8) in
         let! (size, response) := on_request (deref p) ch field response in
         when (size <=? 8) (CAN_Node_CAN_send_reply size response)) s
  end.
Proof.
  intros Hs Hch Hf. pose proof Hch as [H0 H4]. unfold CAN_Node_ChannelCount in H4.
  destruct (field_address_high ch field) as [Hhi Hlo]; [lia|done|].
  unfold CAN_Node_handle_packet. cbn [address]. rewrite Hhi, Hlo.
  rewrite (bind_ok _ _ _ _ _ (select_channel ch s Hs Hch)). by destruct (module_at ch s).
Qed.

(** C8. A command reaches the pin: a data frame with one byte [v], addressed to
    the value of a channel that is a switch, sets the output pin of that channel
    to the level the polarity of the switch gives [v], and leaves the other
    seven pins of the port, the other channels and the system data alone. *)
Theorem switch_command_drives_pin ch w d v bytes fmi s :
  node_inv s -> is_channel ch -> module_at ch s = Some mod_switch_ptr -> sw_at ch w s ->
  device_id (n_sysinfo s) = d -> 0 <= d < 128 -> length bytes = 7%nat -> Forall is_u8 (v :: bytes) ->
  rx (mach s) = CanRx (HA_CAN_packet_id_to_number (channel_packet d ch HA_CAN_Node_Switch_Value))
                  CAN_Id_Extended CAN_RTR_Data 1 (v :: bytes) fmi ->
  wp total handle_received_data (fun _ s' =>
    node_inv s' /\ n_sysinfo s' = n_sysinfo s /\ n_module s' = n_module s /\
    (forall i, 0 <= i < 8 ->
      pin_level i s' = if i =? ch then xorb (truth v) (truth (Z.land (sw_config w) HA_CAN_Node_SwitchConfig_Polarity))
                       else pin_level i s) /\
    forall c, is_channel c -> c <> ch -> setting_of c s' = setting_of c s) s.
Proof.
  intros Hs Hch Hm Hw Hdev Hd Hlen Hu Hrx. assert (is_u8 CAN_RTR_Data) as H0 by by vm_compute.
  unfold wp. rewrite (own_frame_eq s (channel_packet d ch HA_CAN_Node_Switch_Value) CAN_RTR_Data 1 (v :: bytes) fmi);
    [|by apply channel_packet_ok|done|done|lia|simpl; lia|done|done].
  assert (node_inv (with_received s)) as Hs' by exact Hs. cbn [channel_packet priority device_id_field address].
  rewrite channel_packet_eq by (done || by vm_compute).
  change (module_at ch (with_received s)) with (module_at ch s). rewrite Hm, Z.eqb_refl.
  rewrite Hrx. change (frame_bytes _) with (v :: replicate 7 0). cbn [deref on_write].
  set (data := v :: replicate 7 0).
  assert (Forall is_u8 data) as Hdata.
  { apply Forall_cons_1 in Hu as [Hv _]. constructor; [done|]. apply Forall_replicate. unfold is_u8. lia. }
  destruct (sw_at_inv ch s (proj1 Hs) Hch) as (w' & Hw' & Hok). assert (w' = w) as -> by (unfold sw_at in *; congruence).
  set (w1 := switch_written HA_CAN_Node_Switch_Value 1 data w).
  assert (wants_high w1 = xorb (truth v) (truth (Z.land (sw_config w) HA_CAN_Node_SwitchConfig_Polarity))) as Hwants.
  { subst w1 data. unfold switch_written, wants_high. cbn. by destruct (truth v). }
  change (wp total (switch_write ch HA_CAN_Node_Switch_Value 1 data) (fun _ s' =>
    node_inv s' /\ n_sysinfo s' = n_sysinfo s /\ n_module s' = n_module s /\
    (forall i, 0 <= i < 8 ->
      pin_level i s' = if i =? ch then xorb (truth v) (truth (Z.land (sw_config w) HA_CAN_Node_SwitchConfig_Polarity))
                       else pin_level i s) /\
    forall c, is_channel c -> c <> ch -> setting_of c s' = setting_of c s) (with_received s)).
  eapply switch_write_wp; [done|exact Hw|done|simpl; lia|done|]. intros h Hdrive. fold w1 in Hdrive. fold w1.
  assert (chan_step ch (with_received s) (set_mach h (put_switch ch w1 (with_received s)))) as Hst.
  { apply put_switch_step; [done|apply Hs'|by apply switch_written_ok|by eapply drives_off_tape]. }
  split; [by apply (node_inv_load ch (with_received s))|]. split; [done|]. split; [done|]. split.
  - intros i Hi. rewrite <- Hwants. by apply (drives_pin ch w1 h (with_received s)).
  - intros c Hc Hne. destruct Hst as (_ & _ & F). by apply F.
Qed.

(** The answer [f] to the frame fetched in [s]: the frame is put into the first free mailbox
    and its transmission requested, and nothing else changes; or, when no mailbox is free,
    nothing is requested and the error LED starts to blink. *)
Definition answered (f : can_rx) (s s' : node) : Prop :=
  if first_free (after_load CAN_PSR (mach s)) =? CAN_TxStatus_NoMailBox
  then requested (mach s') = requested (mach s) /\
       exists h, keeps (eq CAN_PSR) (mach s) h /\ blinks CAN_Node_Led_Error 4 (set_mach h (with_received s)) s'
  else exists p h, tx_page p /\ asked_for f (mach s) h /\ keeps (in_page p) (mach s) h /\
       s' = set_mach h (with_received s).

Lemma blinks_requested led scale (s s' : node) : blinks led scale s s' -> requested (mach s') = requested (mach s).
Proof.
  intros (_ & _ & _ & _ & _ & HT). apply HT. intros p Hp Heq.
  unfold tx_page, page_cell, GPIO_ODR, GPIOD in *. lia.
Qed.

Lemma switch_query_answer ch w d rtr dlc bytes fmi s :
  node_inv s -> is_channel ch -> module_at ch s = Some mod_switch_ptr -> sw_at ch w s ->
  device_id (n_sysinfo s) = d -> 0 <= d < 128 -> is_u8 rtr -> rtr <> CAN_RTR_Data -> 0 <= dlc <= 8 ->
  length bytes = 8%nat -> Forall is_u8 bytes ->
  rx (mach s) = CanRx (HA_CAN_packet_id_to_number (channel_packet d ch HA_CAN_Node_Switch_Value))
                  CAN_Id_Extended rtr dlc bytes fmi ->
  wp total handle_received_data (fun _ s' =>
    exists rest, length rest = 7%nat /\
      answered (sent_frame (_Id (rx (mach s))) CAN_Id_Extended CAN_RTR_Data 1 (SwitchMode_value (sw_mode w) :: rest)) s s') s.
Proof.
  intros Hs Hch Hm Hw Hdev Hd Hrtr Hne Hdlc Hlen Hu Hrx.
  set (id := HA_CAN_packet_id_to_number (channel_packet d ch HA_CAN_Node_Switch_Value)) in *.
  pose proof (channel_packet_ok d ch HA_CAN_Node_Switch_Value Hd) as Hp.
  match goal with |- wp _ _ ?Q _ => set (Post := Q) end.
  unfold wp. rewrite (own_frame_eq s (channel_packet d ch HA_CAN_Node_Switch_Value) rtr dlc bytes fmi) by done.
  assert (node_inv (with_received s)) as Hs' by exact Hs. cbn [channel_packet priority device_id_field address].
  rewrite channel_packet_eq by (done || by vm_compute).
  change (module_at ch (with_received s)) with (module_at ch s). rewrite Hm. apply Z.eqb_neq in Hne. rewrite Hne.
  match goal with |- match ?m (with_received s) with _ => _ end => change (wp total m Post (with_received s)) end.
  apply wp_bind, wp_io.
  apply (wp_eq _ _ _ ((fun j => u8 (indet (hw (mach s)) (Z.of_nat j))) <$> seq 0 8) (mach s)); [done|].
  change (set_mach (mach s) (with_received s)) with (with_received s).
  cbn [seq fmap list_fmap deref on_request].
  match goal with |- wp _ (let! _ := switch_request _ _ (_ :: ?l) in _) _ _ => set (rest := l) end.
  assert (length rest = 7%nat) as Hrest by done.
  assert (Forall is_u8 rest) as Hru by (subst rest; repeat (constructor; [apply u8_range|]); constructor).
  clearbody rest. unfold switch_request. apply wp_bind, wp_bind.
  eapply wp_eq; [apply (idx_ok f_switches ch w); [apply Hch|exact Hw]|].
  apply wp_bind, wp_set_index; [simpl; lia|]. apply wp_ret. cbn [Z.to_nat insert list_insert].
  apply wp_when; [intros _|done]. unfold CAN_Node_CAN_send_reply. apply wp_bind, wp_rd, wp_bind, wp_io.
  change (fget f_received_id (with_received s)) with (_Id (rx (mach s))).
  assert (_Id (rx (mach s)) = id) as Hid by by rewrite Hrx.
  pose proof (packet_id_to_number_range _ Hp) as Hrange. fold id in Hrange.
  apply CAN_Transmit_wp.
  { rewrite Hid. split; [unfold is_u32; lia|]. split; [by right|]. split; [by left|]. split; [lia|]. split; [|simpl; lia].
    constructor; [|done]. destruct (sw_mode w); unfold is_u8; simpl; lia. }
  intros st h [Hst Ht] _. change (mach (with_received s)) with (mach s) in Hst, Ht.
  unfold Post, answered. rewrite <- Hst.
  destruct Ht as [[-> Hk] | (Htx & Ha & Hk)].
  - apply wp_when; [intros _|done]. apply CAN_Node_Led_blink_blinks; [apply Hs'|by right|unfold is_u8; lia|].
    intros s' Hb. exists rest. split; [done|]. simpl. split; [|by exists h].
    rewrite (blinks_requested _ _ _ _ Hb). apply Hk. by intros p [-> | [-> | ->]].
  - assert ((st =? CAN_TxStatus_NoMailBox) = false) as Hno by by destruct Htx as [-> | [-> | ->]].
    rewrite Hno. apply wp_ret. exists rest. split; [done|]. by exists st, h.
Qed.

End Commands.

(** ** A node with a switch *)

(** Device 0x55 with a switch on channel 1, having fetched a frame for its value. *)
Definition switch_node (rtr v : Z) : node (HW:=sim) :=
  fetched (CanRx (HA_CAN_packet_id_to_number (channel_packet 0x55 1 HA_CAN_Node_Switch_Value)) CAN_Id_Extended rtr 1
             [v; 0; 0; 0; 0; 0; 0; 0] 0)
    (set_module (put_channel 1 HA_CAN_Node_Function_Switch (n_module node55)) node55).

Lemma switch_node_inv rtr v : node_inv (switch_node rtr v).
Proof.
  destruct update_node_ok as [(A & B & C & D) _]. apply fetched_inv. split; [exact A|]. split; [|split; [|exact D]].
  - apply (tables_ok_put 1 HA_CAN_Node_Function_Switch (n_module node55)); [exact B|].
    unfold is_function, HA_CAN_Node_FunctionCount, HA_CAN_Node_Function_Switch. lia.
  - intros c Hc. unfold is_channel, CAN_Node_ChannelCount in Hc.
    assert (c = 0 \/ c = 1 \/ c = 2 \/ c = 3) as [-> | [-> | [-> | ->]]] by lia; reflexivity.
Qed.

Definition plain_switch : Switch := MkSwitch GPIOB GPIO_PIN_1 0 SwitchMode_Off 0 0.

Lemma switch_command_drives_pin_witness :
  wp total handle_received_data (fun _ s' => pin_level 1 s' = true) (switch_node CAN_RTR_Data 1).
Proof.
  eapply wp_mono.
  - apply (switch_command_drives_pin 1 plain_switch 0x55 1 [0; 0; 0; 0; 0; 0; 0] 0 (switch_node CAN_RTR_Data 1)).
    + apply switch_node_inv.
    + unfold is_channel, CAN_Node_ChannelCount. lia.
    + reflexivity.
    + reflexivity.
    + reflexivity.
    + lia.
    + reflexivity.
    + repeat (constructor; [unfold is_u8; lia|]). constructor.
    + reflexivity.
  - intros [] s' (_ & _ & _ & Hpin & _). exact (Hpin 1 ltac:(lia)).
Defined.

