(* ===== verification/Client.v ===== *)
(** The client library, [deephome/common/source/client/] and [include/client/]: the
    serializers of values, the commands, the dispatcher of answers, and the addresses
    and values the classes of devices and channels send. *)

From Stdlib Require Import String.
From S2P Require Import Prelude Monad Text Message MessageRules.
From S2P Require Import SocketConnection CanProto.

(** ** Serializers *)

Definition Body : Type := list Z.

Definition serialize_uint8 (value : Z) : Body := [value].
Definition deserialize_uint8 (data : Body) : option Z := match data with [a] => Some a | _ => None end.

Definition serialize_uint16 (value : Z) : Body := [u8 (Z.shiftr value 8); u8 (Z.land value 0xff)].
Definition deserialize_uint16 (data : Body) : option Z :=
  match data with [a; b] => Some (u16 (Z.lor (Z.shiftl a 8) b)) | _ => None end.

Definition serialize_uint32 (value : Z) : Body :=
  [u8 (Z.shiftr value 24); u8 (Z.land (Z.shiftr value 16) 0xff); u8 (Z.land (Z.shiftr value 8) 0xff); u8 (Z.land value 0xff)].
Definition deserialize_uint32 (data : Body) : option Z :=
  match data with
  | [a; b; c; d] => Some (Z.lor (Z.lor (Z.lor (u32 (Z.shiftl a 24)) (u32 (Z.shiftl b 16))) (u32 (Z.shiftl c 8))) d)
  | _ => None
  end.

Definition byte_of (c : ascii) : Z := code c.

Definition serialize_string {St} (value : text) : prog St Body := verify (length value <=? 8)%nat ;; ret (byte_of <$> value).
Definition deserialize_string {St} (data : Body) : prog St (option text) :=
  verify (length data <=? 8)%nat ;; ret (Some ((fun b => ascii_of_N (Z.to_N b)) <$> data)).

(** [HA_CAN_Node_AnalogRange] *)
Record AnalogRange : Type := MkRange { range_min : Z; range_max : Z }.

Definition serialize_range (value : AnalogRange) : Body :=
  [u8 (Z.shiftr (range_min value) 8); u8 (Z.land (range_min value) 0xff);
   u8 (Z.shiftr (range_max value) 8); u8 (Z.land (range_max value) 0xff)].
Definition deserialize_range (data : Body) : option AnalogRange :=
  match data with
  | [a; b; c; d] => Some (MkRange (u16 (Z.lor (Z.shiftl a 8) b)) (u16 (Z.lor (Z.shiftl c 8) d)))
  | _ => None
  end.

(** A [Temperature] is an optional [double]; all values here are sixteenths, which a
    [double] holds exactly, so it is an optional number of sixteenths.  [~value + 1] is
    computed in [int]. *)
Definition deserialize_temperature (data : Body) : option (option Z) :=
  match data with
  | [a; b] =>
      let value := u16 (Z.lor a (u16 (Z.shiftl b 8))) in
      Some (if value =? 0xffff then None
            else if negb (Z.land value 0x8000 =? 0) then Some (Z.lnot value + 1)
            else Some value)
  | _ => None
  end.

(** ** [DeviceCommand], [Filter] *)

Inductive CommandType : Type := Type_Send | Type_Query | Type_Reply.

#[export] Instance CommandType_eq_dec : EqDecision CommandType.
Proof. solve_decision. Defined.

Record DeviceCommand : Type := MkCommand { device_ : text; command_type : CommandType; command_address : Z; command_body : Body }.

Definition DeviceCommand_default : DeviceCommand := MkCommand [] Type_Send 0 [].

(** The function ends without a [return]. *)
Definition service_command {St} (c : DeviceCommand) : prog St ServiceCommand :=
  on_object (MkServiceCommand [] []) (
    set_action (match command_type c with Type_Send => txt "send" | Type_Query => txt "query" | Type_Reply => txt "reply" end) ;;
    add_argument (txt "device") (device_ c) ;;
    add_uint_argument (txt "address") (command_address c) ;;
    if decide (command_type c = Type_Query) then verify (bool_decide (command_body c = []))
    else add_raw_argument (txt "data") (command_body c)) ;;
  raise Undefined.

(** [DeviceCommand(service_command)] *)
Definition set_from_service_command {St} (s : ServiceCommand) : prog St DeviceCommand :=
  let! type := (if bool_decide (action_ s = txt "send") then ret Type_Send
                else if bool_decide (action_ s = txt "query") then ret Type_Query
                else if bool_decide (action_ s = txt "reply") then ret Type_Reply
                else raise Abort) in
  let device := get_argument s (txt "device") [] in
  verify (negb (bool_decide (device = []))) ;;
  let raw_address := get_uint_argument s (txt "address") uint_max in
  verify (negb (raw_address =? uint_max)) ;;
  verify (raw_address <=? 0xffff) ;;
  let! body := (if decide (type = Type_Query) then ret [] else
    let! data := get_raw_argument s (txt "data") in
    let body := default [] data in
    verify (length body <=? 8)%nat ;; ret body) in
  ret (MkCommand device type raw_address body).

Definition set_body (body : Body) : prog DeviceCommand unit := fun c =>
  (verify (length body <=? 8)%nat ;; fun c => Ok tt (MkCommand (device_ c) (command_type c) (command_address c) body)) c.

Definition Option_OneTime : Z := 0x01.

Record Filter : Type := MkClientFilter { filter_device_ : text; filter_address_ : Z; filter_mask_ : Z; filter_options_ : Z }.

Definition filter_service_command {St} (f : Filter) : prog St ServiceCommand :=
  on_object (MkServiceCommand (txt "filter") []) (
    when (negb (bool_decide (filter_device_ f = []))) (add_argument (txt "device") (filter_device_ f)) ;;
    add_uint_argument (txt "address") (filter_address_ f) ;;
    add_uint_argument (txt "mask") (filter_mask_ f) ;;
    when (negb (Z.land (filter_options_ f) Option_OneTime =? 0)) (add_argument (txt "options") (txt "one-time"))).

(** ** [Dispatcher]

    The handlers are values of a type [H]; [calls_] lists the calls made of them, with the
    query or filter they belong to.  What they do in turn is not part of the model.
    [enqueued_]: the calls of the event handler that wait in the event loop, under the
    scope of the dispatcher, which nothing but its destructor invalidates. *)

Section Dispatcher.
Context {H : Type}.

Inductive Event : Type := Event_CommandFailed | Event_ConnectionClosed | Event_UnknownCommand.

Inductive called : Type := OfQuery (unique_id : Z) (handler : H) | OfFilter (handler : H) | OfUnknown (handler : H) | OfEvent (handler : H) (e : Event).

Record FilterRecord : Type := MkFilterRecord { record_filter : Filter; filter_handler : H }.

(** [timeout]: the query has a running [Timeout]. *)
Record QueryRecord : Type := MkQuery { query : DeviceCommand; query_handler : H; unique_id : Z; timeout : bool }.

Record dispatcher : Type := MkDispatcher {
  connection_ : option (sock unit);
  event_handler_ : option H;
  unknown_handler_ : option H;
  filters_ : list FilterRecord;
  queries_ : list QueryRecord;
  last_query_id_ : Z;
  calls_ : list (called * option DeviceCommand);
  enqueued_ : list (H * Event)
}.

Definition f_connection : field dispatcher (option (sock unit)) :=
  Field connection_ (fun v d => MkDispatcher v (event_handler_ d) (unknown_handler_ d) (filters_ d) (queries_ d) (last_query_id_ d) (calls_ d) (enqueued_ d)).
Definition f_event_handler : field dispatcher (option H) :=
  Field event_handler_ (fun v d => MkDispatcher (connection_ d) v (unknown_handler_ d) (filters_ d) (queries_ d) (last_query_id_ d) (calls_ d) (enqueued_ d)).
Definition f_unknown_handler : field dispatcher (option H) :=
  Field unknown_handler_ (fun v d => MkDispatcher (connection_ d) (event_handler_ d) v (filters_ d) (queries_ d) (last_query_id_ d) (calls_ d) (enqueued_ d)).
Definition f_client_filters : field dispatcher (list FilterRecord) :=
  Field filters_ (fun v d => MkDispatcher (connection_ d) (event_handler_ d) (unknown_handler_ d) v (queries_ d) (last_query_id_ d) (calls_ d) (enqueued_ d)).
Definition f_queries : field dispatcher (list QueryRecord) :=
  Field queries_ (fun v d => MkDispatcher (connection_ d) (event_handler_ d) (unknown_handler_ d) (filters_ d) v (last_query_id_ d) (calls_ d) (enqueued_ d)).
Definition f_last_query_id : field dispatcher Z :=
  Field last_query_id_ (fun v d => MkDispatcher (connection_ d) (event_handler_ d) (unknown_handler_ d) (filters_ d) (queries_ d) v (calls_ d) (enqueued_ d)).
Definition f_calls : field dispatcher (list (called * option DeviceCommand)) :=
  Field calls_ (fun v d => MkDispatcher (connection_ d) (event_handler_ d) (unknown_handler_ d) (filters_ d) (queries_ d) (last_query_id_ d) v (enqueued_ d)).
Definition f_enqueued : field dispatcher (list (H * Event)) :=
  Field enqueued_ (fun v d => MkDispatcher (connection_ d) (event_handler_ d) (unknown_handler_ d) (filters_ d) (queries_ d) (last_query_id_ d) (calls_ d) v).

Definition call_handler (h : called) (c : option DeviceCommand) : prog dispatcher unit :=
  let! l := rd f_calls in wr f_calls (l ++ [(h, c)]).

(** [connection_->m()] *)
Definition on_connection (m : prog (sock unit) unit) : prog dispatcher unit := fun d =>
  match connection_ d with
  | None => Fault NullCall d
  | Some o => match m o with
              | Ok a o' => Ok a (fset f_connection (Some o') d)
              | Fault f o' => Fault f (fset f_connection (Some o') d)
              end
  end.

Definition has_connection : prog dispatcher bool := let! c := rd f_connection in ret (bool_decide (is_Some c)).

(** The destructor of a [Timeout] verifies that it is not running. *)
Definition Dispatcher_stop : prog dispatcher unit :=
  let! b := has_connection in
  if negb b then ret tt
  else
    on_connection unsubscribe ;;
    wr f_connection None ;;
    wr f_client_filters [] ;;
    let! l := rd f_queries in
    verify (forallb (fun q => negb (timeout q)) l) ;;
    wr f_queries [].

Definition start_internal : prog dispatcher unit :=
  let! b := has_connection in
  when b Dispatcher_stop ;;
  wr f_connection (Some sock_init) ;;
  on_connection (subscribe tt).

Definition set_event_handler (handler : option H) : prog dispatcher unit := wr f_event_handler handler.
Definition set_unknown_handler (handler : option H) : prog dispatcher unit := wr f_unknown_handler handler.

(** The handler given is not null. *)
Definition add_filter (filter : Filter) (handler : H) : prog dispatcher unit :=
  let! b := has_connection in
  verify b ;;
  let! packet := filter_service_command filter in
  on_connection (impl_send (PServiceCommand packet)) ;;
  let! l := rd f_client_filters in
  wr f_client_filters (l ++ [MkFilterRecord filter handler]).

Definition send (command : DeviceCommand) : prog dispatcher unit :=
  let! b := has_connection in
  verify b ;;
  verify (negb (bool_decide (command_type command = Type_Reply))) ;;
  let! packet := service_command command in
  on_connection (impl_send (PServiceCommand packet)).

Definition infinite_timeout : Z := 2 ^ 32 - 1.

Definition send_query (q : DeviceCommand) (handler : H) (timeout_ms : Z) : prog dispatcher unit :=
  let! b := has_connection in
  verify b ;;
  verify (bool_decide (command_type q = Type_Query)) ;;
  send q ;;
  let! k := rd f_last_query_id in
  let id := u32 (k + 1) in
  wr f_last_query_id id ;;
  let! l := rd f_queries in
  wr f_queries (l ++ [MkQuery q handler id (negb (timeout_ms =? infinite_timeout))]).

(** [close_query(it, response)], the iterator at position [i]. *)
Definition close_query (i : nat) (response : option DeviceCommand) : prog dispatcher unit :=
  let! l := rd f_queries in
  match l !! i with
  | None => raise OutOfBounds
  | Some q =>
      wr f_queries (delete i l) ;;
      call_handler (OfQuery (unique_id q) (query_handler q)) response
  end.

Definition report_event (e : Event) : prog dispatcher unit :=
  let! h := rd f_event_handler in
  match h with
  | Some h => let! l := rd f_enqueued in wr f_enqueued (l ++ [(h, e)])
  | None => raise Abort
  end.

(** The turn of the event loop for the first call of the event handler that waits. *)
Definition run_enqueued : prog dispatcher unit :=
  let! l := rd f_enqueued in
  match l with
  | [] => ret tt
  | (h, e) :: l => wr f_enqueued l ;; call_handler (OfEvent h e) None
  end.

Definition call_unknown (c : DeviceCommand) : prog dispatcher unit :=
  let! h := rd f_unknown_handler in
  match h with Some h => call_handler (OfUnknown h) (Some c) | None => ret tt end.

Definition answers (c : DeviceCommand) (q : QueryRecord) : Prop :=
  device_ (query q) = device_ c /\ command_address (query q) = command_address c.

Definition filter_matches (c : DeviceCommand) (r : FilterRecord) : Prop :=
  let f := record_filter r in
  (filter_device_ f = [] \/ filter_device_ f = device_ c) /\
  Z.land (filter_address_ f) (filter_mask_ f) = Z.land (command_address c) (filter_mask_ f).

#[export] Instance answers_dec c q : Decision (answers c q).
Proof. unfold answers. apply _. Defined.
#[export] Instance filter_matches_dec c r : Decision (filter_matches c r).
Proof. unfold filter_matches. apply _. Defined.

Definition handle_device_command (c : DeviceCommand) : prog dispatcher unit :=
  if decide (command_type c = Type_Reply) then
    let! l := rd f_queries in
    match list_find (answers c) l with
    | None => call_unknown c
    | Some (i, _) => close_query i (Some c)
    end
  else
    let! l := rd f_client_filters in
    match list_find (filter_matches c) l with
    | None => call_unknown c
    | Some (i, r) =>
        when (negb (Z.land (filter_options_ (record_filter r)) Option_OneTime =? 0)) (wr f_client_filters (delete i l)) ;;
        call_handler (OfFilter (filter_handler r)) (Some c)
    end.

Definition on_query_timeout (id : Z) : prog dispatcher unit :=
  let! l := rd f_queries in
  match list_find (fun q => unique_id q = id) l with
  | None => ret tt
  | Some (i, _) => close_query i None
  end.

Definition on_packet (packet : option Packet) : prog dispatcher unit :=
  match packet with
  | None => report_event Event_ConnectionClosed
  | Some (PServiceCommand s) =>
      if bool_decide (action_ s = txt "ok") then ret tt
      else if bool_decide (action_ s = txt "fail") then report_event Event_CommandFailed
      else if bool_decide (action_ s = txt "send") || bool_decide (action_ s = txt "reply") then
        let! c := set_from_service_command s in handle_device_command c
      else report_event Event_UnknownCommand
  | Some _ => raise Abort
  end.

(** ** [Device] and [CanNode]

    [name]: the name of the device; [timeout]: its timeout. *)

Definition Device_query (name : text) (timeout address : Z) (result : H) : prog dispatcher unit :=
  send_query (MkCommand name Type_Query address []) result timeout.
Definition Device_send (name : text) (address : Z) (body : Body) : prog dispatcher unit :=
  send (MkCommand name Type_Send address body).
Definition Device_subscribe (name : text) (address : Z) (handler : H) (filter_options : Z) : prog dispatcher unit :=
  add_filter (MkClientFilter name address 0xffff filter_options) handler.

Section Device.
Variables (name : text) (timeout_ : Z).

Definition query_type (result : H) : prog dispatcher unit := Device_query name timeout_ HA_CAN_Common_DeviceType result.
Definition query_firmware_version (result : H) : prog dispatcher unit := Device_query name timeout_ HA_CAN_Common_FirmwareVersion result.
Definition query_label (result : H) : prog dispatcher unit := Device_query name timeout_ HA_CAN_Common_DeviceLabel result.
Definition assign_label (label : text) : prog dispatcher unit :=
  let! body := serialize_string label in Device_send name HA_CAN_Common_DeviceLabel body.

Definition CanNode_save : prog dispatcher unit := Device_send name HA_CAN_Node_ChannelSaveConfig [].
Definition query_channel_count (result : H) : prog dispatcher unit := Device_query name timeout_ HA_CAN_Node_ChannelCount result.
Definition query_channel_type (channel_id : Z) (result : H) : prog dispatcher unit :=
  Device_query name timeout_ (HA_CAN_Node_function_address channel_id) result.
Definition assign_channel_type (channel_id type : Z) : prog dispatcher unit :=
  Device_send name (HA_CAN_Node_function_address channel_id) (serialize_uint8 (u8 type)).

Definition Switch_query_config (id : Z) (result : H) := Device_query name timeout_ (HA_CAN_Node_field_address id HA_CAN_Node_Switch_Config) result.
Definition Switch_assign_config (id config : Z) := Device_send name (HA_CAN_Node_field_address id HA_CAN_Node_Switch_Config) (serialize_uint8 config).
Definition Switch_query_value (id : Z) (result : H) := Device_query name timeout_ (HA_CAN_Node_field_address id HA_CAN_Node_Switch_Value) result.
Definition Switch_assign_value (id value : Z) := Device_send name (HA_CAN_Node_field_address id HA_CAN_Node_Switch_Value) (serialize_uint8 value).
Definition Switch_query_off_delay (id : Z) (result : H) := Device_query name timeout_ (HA_CAN_Node_field_address id HA_CAN_Node_Switch_OffDelay) result.
Definition Switch_assign_off_delay (id value : Z) := Device_send name (HA_CAN_Node_field_address id HA_CAN_Node_Switch_OffDelay) (serialize_uint16 value).

Definition Button_query_config (id : Z) (result : H) := Device_query name timeout_ (HA_CAN_Node_field_address id HA_CAN_Node_Button_Config) result.
Definition Button_assign_config (id config : Z) := Device_send name (HA_CAN_Node_field_address id HA_CAN_Node_Button_Config) (serialize_uint8 config).
Definition Button_query_value (id : Z) (result : H) := Device_query name timeout_ (HA_CAN_Node_field_address id HA_CAN_Node_Button_Value) result.
Definition Button_assign_value (id value : Z) := Device_send name (HA_CAN_Node_field_address id HA_CAN_Node_Button_Value) (serialize_uint8 value).
Definition Button_subscribe (id : Z) (handler : H) (filter_options : Z) :=
  Device_subscribe name (HA_CAN_Node_field_address id HA_CAN_Node_Switch_Value) handler filter_options.

Definition Analog_query_config (id : Z) (result : H) := Device_query name timeout_ (HA_CAN_Node_field_address id HA_CAN_Node_Analog_Config) result.
Definition Analog_assign_config (id config : Z) := Device_send name (HA_CAN_Node_field_address id HA_CAN_Node_Analog_Config) (serialize_uint8 config).
Definition Analog_query_range (id : Z) (result : H) := Device_query name timeout_ (HA_CAN_Node_field_address id HA_CAN_Node_Analog_Range) result.
Definition Analog_assign_range (id : Z) (range : AnalogRange) := Device_send name (HA_CAN_Node_field_address id HA_CAN_Node_Analog_Range) (serialize_range range).
Definition Analog_query_value (id : Z) (result : H) := Device_query name timeout_ (HA_CAN_Node_field_address id HA_CAN_Node_Analog_Value) result.
Definition Analog_subscribe (id : Z) (handler : H) (filter_options : Z) :=
  Device_subscribe name (HA_CAN_Node_field_address id HA_CAN_Node_Analog_Value) handler filter_options.

Definition Ds18b20_query_value (id : Z) (result : H) := Device_query name timeout_ (HA_CAN_Node_field_address id HA_CAN_Node_DS18B20_Temperature) result.
End Device.
End Dispatcher.
Arguments dispatcher H : clear implicits.
