(* ===== verification/ClientRules.v ===== *)
(** What holds of the client library: its serializers against the firmware of the node,
    the bookkeeping of its dispatcher, the commands it cannot send, and the addresses it
    configures a node with. *)

From Stdlib Require Import String.
From S2P Require Import Prelude Monad CanProto Machine Gpio Flash CanDrv Sim State Led Channel Switch Sysinfo Module Handlers.
From S2P Require Import Text Message MessageRules SocketConnection Client.

(** ** Serializers *)

Lemma shiftl_hi hi : is_u8 hi -> u16 (Z.shiftl hi 8) = Z.shiftl hi 8.
Proof. intros Hh. apply u16_small. unfold is_u8, is_u16 in *. rewrite Z.shiftl_mul_pow2 by lia. lia. Qed.

Lemma deserialize_uint16_eq hi lo : is_u8 hi -> is_u8 lo -> deserialize_uint16 [hi; lo] = Some (256 * hi + lo).
Proof.
  intros Hh Hl. unfold deserialize_uint16. f_equal. rewrite <- (shiftl_hi hi Hh), hi_lo_word by done.
  by apply u16_small, hi_lo_range.
Qed.

Lemma uint16_roundtrip v : is_u16 v -> deserialize_uint16 (serialize_uint16 v) = Some v.
Proof.
  intros Hv. destruct (word_hi_lo v Hv) as (H1 & H2 & H3). unfold serialize_uint16.
  rewrite u8_small with (z := Z.land v 0xff) by done. rewrite deserialize_uint16_eq by done. by rewrite H3.
Qed.

Lemma uint32_roundtrip v : is_u32 v -> deserialize_uint32 (serialize_uint32 v) = Some v.
Proof.
  intros Hv. unfold serialize_uint32, deserialize_uint32. f_equal. change 0xff with (Z.ones 8).
  apply (bits_eq_bounded 32); [lia| |exact Hv|].
  - split; [rewrite !Z.lor_nonneg; repeat apply conj; apply Z.mod_pos_bound; lia|].
    change (2 ^ 32) with 4294967296. match goal with |- ?x < _ => assert (x = u32 x) as ->; [|apply u32_range] end.
    apply Z.bits_inj'. intros i Hi. bits. destruct (Z.ltb_spec i 32); [done|]. cmp; try btauto.
  - intros i Hi. bits. cmp; bits; cmp; rewrite ?andb_true_l, ?andb_true_r, ?andb_false_l, ?orb_false_r, ?orb_false_l; try (f_equal; lia).
Qed.

Lemma string_roundtrip {St} (t : text) (s : St) : (length t <= 8)%nat ->
  bind (serialize_string t) deserialize_string s = Ok (Some t) s.
Proof.
  intros Ht. apply Nat.leb_le in Ht. unfold serialize_string, deserialize_string, bind, verify, ret. rewrite Ht. cbn.
  rewrite length_fmap, Ht. f_equal. f_equal. rewrite <- list_fmap_compose.
  rewrite <- (list_fmap_id t) at 2. apply list_fmap_ext. intros _ c _. unfold compose, byte_of, code.
  by rewrite N2Z.id, ascii_N_embedding.
Qed.

Lemma range_roundtrip r : is_u16 (range_min r) -> is_u16 (range_max r) -> deserialize_range (serialize_range r) = Some r.
Proof.
  intros H1 H2. pose proof (uint16_roundtrip _ H1) as E1. pose proof (uint16_roundtrip _ H2) as E2.
  unfold serialize_uint16, deserialize_uint16 in E1, E2. unfold serialize_range, deserialize_range.
  apply Some_inj in E1, E2. rewrite E1, E2. by destruct r.
Qed.

(** ** The dispatcher *)

Section Dispatcher.
Context {H : Type}.
Implicit Types d : dispatcher H.

Definition query_ids d : list Z := unique_id <$> queries_ d.

(** The queries answered so far. *)
Definition closed_ids d : list Z :=
  omap (fun p => match p.1 with OfQuery id _ => Some id | _ => None end) (calls_ d).

(** No query appears or disappears without its handler being called once. *)
Definition accounted d d' : Prop := closed_ids d' ++ query_ids d' ≡ₚ closed_ids d ++ query_ids d.

Definition answers_or_faults d : fault -> dispatcher H -> Prop := fun _ d' => accounted d d'.

Lemma close_query_accounted i r d0 d :
  accounted d0 d -> wp (answers_or_faults d0) (close_query i r) (fun _ => accounted d0) d.
Proof.
  intros Hd. unfold close_query. apply wp_bind, wp_rd. cbn [fget f_queries].
  destruct (queries_ d !! i) as [q|] eqn:Hq; [|by apply wp_raise].
  apply wp_bind, wp_wr. unfold call_handler. apply wp_bind, wp_rd, wp_wr.
  unfold accounted in *. etransitivity; [|exact Hd]. unfold closed_ids, query_ids.
  cbn [fget fset f_queries f_calls calls_ queries_]. rewrite omap_app. cbn [omap list_omap fst].
  assert (queries_ d ≡ₚ q :: delete i (queries_ d)) as Hp by by apply delete_Permutation.
  rewrite <- app_assoc. apply Permutation_app_head. rewrite Hp at 2. done.
Qed.
Lemma other_call_accounted h c d0 d :
  match h with OfQuery _ _ => False | _ => True end ->
  accounted d0 d -> wp (answers_or_faults d0) (call_handler h c) (fun _ => accounted d0) d.
Proof.
  intros Hh Hd. unfold call_handler. apply wp_bind, wp_rd, wp_wr. unfold accounted in *. etransitivity; [|exact Hd].
  unfold closed_ids, query_ids. cbn [fget fset f_calls calls_ queries_]. rewrite omap_app.
  destruct h; [done| | |]; cbn [omap list_omap fst]; by rewrite app_nil_r.
Qed.

Lemma report_event_accounted e d0 d :
  accounted d0 d -> wp (answers_or_faults d0) (report_event e) (fun _ => accounted d0) d.
Proof.
  intros Hd. unfold report_event. apply wp_bind, wp_rd. destruct (fget f_event_handler d); [|by apply wp_raise].
  by apply wp_bind, wp_rd, wp_wr.
Qed.

Lemma run_enqueued_accounted d0 d :
  accounted d0 d -> wp (answers_or_faults d0) run_enqueued (fun _ => accounted d0) d.
Proof.
  intros Hd. unfold run_enqueued. apply wp_bind, wp_rd. destruct (fget f_enqueued d) as [|[h e] l]; [by apply wp_ret|].
  apply wp_bind, wp_wr. by apply other_call_accounted.
Qed.

Lemma call_unknown_accounted c d0 d :
  accounted d0 d -> wp (answers_or_faults d0) (call_unknown c) (fun _ => accounted d0) d.
Proof.
  intros Hd. unfold call_unknown. apply wp_bind, wp_rd. destruct (fget f_unknown_handler d); [|by apply wp_ret].
  by apply other_call_accounted.
Qed.
End Dispatcher.

Section Dispatcher.
Context {H : Type}.
Implicit Types d : dispatcher H.

Lemma handle_device_command_accounted c d0 d :
  accounted d0 d -> wp (answers_or_faults d0) (handle_device_command c) (fun _ => accounted d0) d.
Proof.
  intros Hd. unfold handle_device_command. destruct (decide (command_type c = Type_Reply)).
  - apply wp_bind, wp_rd. destruct (list_find _ _) as [[i q]|]; [by apply close_query_accounted|by apply call_unknown_accounted].
  - apply wp_bind, wp_rd. destruct (list_find _ _) as [[i r]|]; [|by apply call_unknown_accounted].
    apply wp_bind, wp_when; intros _; [apply wp_wr|]; by apply other_call_accounted.
Qed.

(** Reading the arguments of a command leaves the dispatcher alone. *)
Lemma set_from_service_command_wp s (E : fault -> dispatcher H -> Prop) Q d :
  (forall f, E f d) -> (forall c, Q c d) -> wp E (set_from_service_command s) Q d.
Proof.
  intros HE HQ. unfold set_from_service_command, verify.
  assert (forall (b : bool) (m : prog (dispatcher H) DeviceCommand),
            wp E m Q d -> wp E ((if b then ret tt else raise Abort) ;; m) Q d) as Hv.
  { intros b m Hm. apply wp_bind. destruct b; [by apply wp_ret|by apply wp_raise]. }
  apply wp_bind.
  assert (forall type, wp E
    (verify (negb (bool_decide (get_argument s (txt "device") [] = []))) ;;
     verify (negb (get_uint_argument s (txt "address") uint_max =? uint_max)) ;;
     verify (get_uint_argument s (txt "address") uint_max <=? 0xffff) ;;
     (let! body := (if decide (type = Type_Query) then ret [] else
        let! data := get_raw_argument s (txt "data") in
        let body := default [] data in verify (length body <=? 8)%nat ;; ret body) in
      ret (MkCommand (get_argument s (txt "device") []) type (get_uint_argument s (txt "address") uint_max) body))) Q d) as Hrest.
  { intros type. do 3 apply Hv. apply wp_bind. destruct (decide _); [by do 2 apply wp_ret|].
    apply wp_bind. eapply wp_mono; [apply get_raw_argument_wp|]. intros l d' ->. apply wp_bind. unfold verify. case_match; [by do 3 apply wp_ret|by apply wp_raise]. }
  repeat (destruct (bool_decide (action_ s = _)); [apply wp_ret, Hrest|]). by apply wp_raise.
Qed.

Lemma on_packet_accounted p d0 d : accounted d0 d -> wp (answers_or_faults d0) (on_packet p) (fun _ => accounted d0) d.
Proof.
  intros Hd. unfold on_packet. destruct p as [[m|i|s]|]; [by apply wp_raise..| |by apply report_event_accounted].
  destruct (bool_decide _); [by apply wp_ret|]. destruct (bool_decide _); [by apply report_event_accounted|].
  destruct (_ || _); [|by apply report_event_accounted].
  apply wp_bind, set_from_service_command_wp; [done|]. intros c. by apply handle_device_command_accounted.
Qed.

Lemma on_query_timeout_accounted id d0 d :
  accounted d0 d -> wp (answers_or_faults d0) (on_query_timeout id) (fun _ => accounted d0) d.
Proof.
  intros Hd. unfold on_query_timeout. apply wp_bind, wp_rd.
  destruct (list_find _ _) as [[i q]|]; [by apply close_query_accounted|by apply wp_ret].
Qed.
End Dispatcher.

(** ** What the dispatcher is told *)

Inductive told : Type := ToldPacket (p : option Packet) | ToldTimeout (unique_id : Z) | ToldTurn.

Definition tell {H} (e : told) : prog (dispatcher H) unit :=
  match e with ToldPacket p => on_packet p | ToldTimeout id => on_query_timeout id | ToldTurn => run_enqueued end.

(** C26. Whatever packets, timeouts and turns of the event loop the dispatcher is told, in
    whatever order, and also when it stops on the way: the identifiers of the queries whose handler has been
    called, with those of the queries that still wait, are a permutation of what they
    were.  A handler of a query is called once, when the query is closed, and a query
    without an answer is still there. *)
Theorem queries_closed_once {H} (events : list told) (d : dispatcher H) :
  wp (fun _ d' => closed_ids d' ++ query_ids d' ≡ₚ closed_ids d ++ query_ids d) (for_each events tell)
     (fun _ d' => closed_ids d' ++ query_ids d' ≡ₚ closed_ids d ++ query_ids d) d.
Proof.
  apply (wp_for_each_inv events tell (accounted d)); [unfold accounted; reflexivity|]. intros e d' _ Hd. destruct e as [p|id|].
  - by apply on_packet_accounted.
  - by apply on_query_timeout_accounted.
  - by apply run_enqueued_accounted.
Qed.

Definition aborts {St} : fault -> St -> Prop := fun f _ => f = Abort.

Lemma verify_wp {St} b (Q : unit -> St -> Prop) s : (b = true -> Q tt s) -> wp aborts (verify b) Q s.
Proof. destruct b; intros HQ; [by apply wp_ret, HQ|by apply wp_raise]. Qed.

Lemma add_argument_wp key value (c : ServiceCommand) : wp aborts (add_argument key value) (fun _ _ => True) c.
Proof.
  unfold add_argument. do 3 (apply wp_bind, verify_wp; intros _). apply wp_bind, wp_rd. by apply wp_wr.
Qed.

(** No command leaves the client: [DeviceCommand::service_command] has no [return], so
    every [send] and every [send_query] ends in undefined behaviour, or earlier in an
    assertion, and has put nothing in the buffer of the connection. *)
Theorem client_cannot_send {H} (c : DeviceCommand) (h : H) (timeout_ms : Z) (d : dispatcher H) :
  (exists f, send c d = Fault f d /\ (f = Undefined \/ f = Abort)) /\
  (exists f, send_query c h timeout_ms d = Fault f d /\ (f = Undefined \/ f = Abort)).
Proof.
  assert (forall (m : prog ServiceCommand unit) o, wp aborts m (fun _ _ => True) o ->
    exists f, bind (on_object o m) (fun _ => raise Undefined) d = Fault (A := ServiceCommand) f d /\ (f = Undefined \/ f = Abort)) as Hob.
  { intros m o Hm. unfold wp in Hm. unfold bind, on_object, raise. destruct (m o) as [[] o'|f o']; [eauto|].
    exists f. split; [done|]. by right. }
  assert (exists f, service_command c d = Fault f d /\ (f = Undefined \/ f = Abort)) as (f & Hf & Hor).
  { apply Hob. apply wp_bind. unfold set_action. apply wp_bind, verify_wp. intros _. apply wp_wr.
    apply wp_bind. eapply wp_mono; [apply add_argument_wp|]. intros _ o1 _.
    apply wp_bind. eapply wp_mono; [apply add_argument_wp|]. intros _ o2 _.
    destruct (decide _); [by apply verify_wp|apply add_argument_wp]. }
  assert (exists f, send c d = Fault f d /\ (f = Undefined \/ f = Abort)) as (f' & Hs & Hor').
  { unfold send, has_connection, verify. cbv [bind rd ret raise].
    destruct (bool_decide (is_Some _)); [|eauto]. destruct (negb _); [|eauto]. rewrite Hf. eauto. }
  split; [eauto|]. unfold send_query, has_connection, verify. cbv [bind rd ret raise].
  destruct (bool_decide (is_Some _)); [|eauto]. destruct (bool_decide _); [|eauto]. rewrite Hs. eauto.
Qed.

(** ** The serializers and the node *)

(** What the node answers when it is asked for the delay of a switch is what the client reads. *)
Lemma delay_answered {HW : Hardware} ch (w : Switch) reply (s : node) :
  0 <= ch -> sw_at ch w s -> is_u16 (off_delay w) -> (2 <= length reply)%nat ->
  exists reply', switch_request ch HA_CAN_Node_Switch_OffDelay reply s = Ok (2, reply') s /\
    deserialize_uint16 (take 2 reply') = Some (off_delay w).
Proof.
  intros Hch Hw Hd Hl. destruct reply as [|a [|b reply]]; [simpl in Hl; lia..|].
  unfold switch_request. rewrite (bind_ok _ _ _ _ _ (idx_ok f_switches ch w s Hch Hw)).
  cbn [HA_CAN_Node_Switch_OffDelay Z.eqb HA_CAN_Node_Switch_Config HA_CAN_Node_Switch_Value Pos.eqb].
  rewrite set_index_ok by (simpl; lia). unfold bind, ret at 1. rewrite set_index_ok by (rewrite length_insert; simpl; lia).
  eexists. split; [reflexivity|].
  change (deserialize_uint16 [u8 (Z.shiftr (off_delay w) 8); Z.land (off_delay w) 0xff] = Some (off_delay w)).
  destruct (word_hi_lo _ Hd) as (H1 & H2 & H3). rewrite deserialize_uint16_eq by done. by f_equal.
Qed.

(** The delay the client assigns is the delay the node stores. *)
Lemma delay_stored {HW : Hardware} {GL : GpioLaws HW} {FL : FlashLaws HW} ch (w : Switch) v rest (s : node) :
  chan_inv s -> is_channel ch -> sw_at ch w s -> is_u16 v -> Forall is_u8 rest ->
  exists s', switch_write ch HA_CAN_Node_Switch_OffDelay 2 (serialize_uint16 v ++ rest) s = Ok tt s' /\
    sw_at ch (sw_set_off_delay v w) s'.
Proof.
  intros Hs Hch Hw Hv Hrest. destruct (sw_at_inv ch s Hs Hch) as (w' & Hw' & Hok).
  assert (w' = w) as -> by (unfold sw_at in *; congruence). destruct (word_hi_lo v Hv) as (H1 & H2 & H3).
  assert (switch_written HA_CAN_Node_Switch_OffDelay 2 (serialize_uint16 v ++ rest) w = sw_set_off_delay v w) as E.
  { unfold switch_written, serialize_uint16. cbn. rewrite (u8_small (Z.land v 255)) by done. by rewrite H3. }
  destruct (wp_total_inv (switch_write ch HA_CAN_Node_Switch_OffDelay 2 (serialize_uint16 v ++ rest))
    (fun _ s' => sw_at ch (sw_set_off_delay v w) s') s) as ([] & s' & Heq & H); [|eauto].
  eapply switch_write_wp; [done..|simpl; lia| |].
  - unfold serialize_uint16. cbn. rewrite (u8_small (Z.land v 255)) by done.
    do 2 (apply Forall_cons_2; [done|]). done.
  - intros h Hd. rewrite E. by eapply sw_at_put.
Qed.

(** C27. The client reads back what it writes: bytes, words, strings of up to eight
    characters, ranges.  The delay it assigns to a switch is stored by the node, the other
    fields of the switch left as they are, and when the client asks for it, before or
    after, the delay it reads is the one the node has. *)
Theorem client_and_node_agree {HW : Hardware} {GL : GpioLaws HW} {FL : FlashLaws HW}
    ch (w : Switch) reply rest (s : node) b v v32 t r :
  is_u8 b -> is_u16 v -> is_u32 v32 -> (length t <= 8)%nat -> is_u16 (range_min r) -> is_u16 (range_max r) ->
  chan_inv s -> is_channel ch -> sw_at ch w s -> (2 <= length reply)%nat -> Forall is_u8 rest ->
  deserialize_uint8 (serialize_uint8 b) = Some b /\
  deserialize_uint16 (serialize_uint16 v) = Some v /\
  deserialize_uint32 (serialize_uint32 v32) = Some v32 /\
  bind (serialize_string t) deserialize_string s = Ok (Some t) s /\
  deserialize_range (serialize_range r) = Some r /\
  (exists reply', switch_request ch HA_CAN_Node_Switch_OffDelay reply s = Ok (2, reply') s /\
    deserialize_uint16 (take 2 reply') = Some (off_delay w)) /\
  exists s', switch_write ch HA_CAN_Node_Switch_OffDelay 2 (serialize_uint16 v ++ rest) s = Ok tt s' /\
    sw_at ch (MkSwitch (sw_gpio w) (sw_pin w) (sw_config w) (sw_mode w) v (off_timer w)) s' /\
    exists reply', switch_request ch HA_CAN_Node_Switch_OffDelay reply s' = Ok (2, reply') s' /\
      deserialize_uint16 (take 2 reply') = Some v.
Proof.
  intros _ Hv H32 Ht Hmin Hmax Hs Hch Hw Hl Hrest.
  split; [done|]. split; [by apply uint16_roundtrip|]. split; [by apply uint32_roundtrip|].
  split; [by apply string_roundtrip|]. split; [by apply range_roundtrip|].
  destruct (sw_at_inv ch s Hs Hch) as (w' & Hw' & Hok). assert (w' = w) as -> by (unfold sw_at in *; congruence).
  split; [apply delay_answered; [apply Hch|done|apply Hok|done]|].
  destruct (delay_stored ch w v rest s) as (s' & Heq & Hat); [done..|]. exists s'. split; [done|]. split; [done|].
  by apply (delay_answered ch (sw_set_off_delay v w)); [apply Hch|..].
Qed.

Lemma client_and_node_agree_witness :
  deserialize_uint16 (serialize_uint16 0x1234) = Some 0x1234 /\
  (exists reply', switch_request 1 HA_CAN_Node_Switch_OffDelay [0; 0] (put_switch 1 sample_switch sim_node) =
    Ok (2, reply') (put_switch 1 sample_switch sim_node) /\ deserialize_uint16 (take 2 reply') = Some 3) /\
  exists s' reply', switch_write 1 HA_CAN_Node_Switch_OffDelay 2 [0x12; 0x34; 7; 7; 7; 7; 7; 7] (put_switch 1 sample_switch sim_node) = Ok tt s' /\
    switch_request 1 HA_CAN_Node_Switch_OffDelay [0; 0] s' = Ok (2, reply') s' /\ deserialize_uint16 (take 2 reply') = Some 0x1234.
Proof.
  assert (is_u16 0x1234 /\ is_u16 1 /\ is_u16 0xffff /\ is_u32 0x12345678 /\ is_u8 7) as (A1 & A2 & A3 & A4 & A5)
    by (unfold is_u8, is_u16, is_u32; lia).
  assert (Forall is_u8 [7; 7; 7; 7; 7; 7]) as A6 by (repeat (apply Forall_cons_2; [exact A5|]); constructor).
  assert (is_channel 1) as A7 by (unfold is_channel, CAN_Node_ChannelCount; lia).
  pose proof (client_and_node_agree 1 sample_switch [0; 0] [7; 7; 7; 7; 7; 7] (put_switch 1 sample_switch sim_node) 7 0x1234 0x12345678
    (txt "label") (MkRange 1 0xffff) A5 A1 A4 ltac:(simpl; lia) A2 A3 sample_switch_inv A7 eq_refl ltac:(simpl; lia) A6) as H.
  destruct H as (_ & H1 & _ & _ & _ & H2 & s' & Heq & _ & reply' & Hreq & Hd).
  split; [exact H1|]. split; [exact H2|]. exists s', reply'. split; [exact Heq|]. by split.
Defined.

(** A temperature, in sixteenths of a degree as the sensor has it, least significant byte
    first as the node sends it: the client reads it right when it is not negative.  A
    negative one comes out as [-65536 - v] sixteenths, so that half a degree below zero is
    read as 4095.5 degrees below; and one sixteenth below zero is no temperature. *)
Theorem temperature_decoding v :
  - 32768 <= v < 32768 ->
  deserialize_temperature [u8 v; u8 (Z.shiftr v 8)] =
    Some (if v =? -1 then None else if 0 <=? v then Some v else Some (-65536 - v)).
Proof.
  intros Hv. unfold deserialize_temperature.
  assert (u16 (Z.lor (u8 v) (u16 (Z.shiftl (u8 (Z.shiftr v 8)) 8))) = u16 v) as ->.
  { apply Z.bits_inj'. intros i Hi. bits. destruct (Z.ltb_spec i 16); [|done].
    destruct (Z.leb_spec 8 i); bits; cmp; try (replace (i - 8 + 8) with i by lia); btauto. }
  assert (u16 v = if 0 <=? v then v else v + 65536) as ->.
  { unfold u16. destruct (Z.leb_spec 0 v); [apply Z.mod_small; lia|]. symmetry. apply (Z.mod_unique _ _ (-1)); lia. }
  assert (forall x, 0 <= x < 65536 -> (Z.land x 0x8000 =? 0) = (x <? 32768)) as Hbit.
  { intros x Hx. destruct (Z.ltb_spec x 32768) as [Hlt|Hge]; change 0x8000 with (2 ^ 15).
    - apply Z.eqb_eq, Z.bits_inj'. intros i Hi. rewrite Z.bits_0, Z.land_spec, Z.pow2_bits_eqb by lia.
      destruct (Z.eqb_spec 15 i) as [<-|]; [|btauto]. rewrite (testbit_bounded x 15) by lia. done.
    - apply Z.eqb_neq. intros E. assert (Z.testbit (Z.land x (2 ^ 15)) 15 = false) as Hf by (rewrite E; apply Z.bits_0).
      rewrite Z.land_spec, Z.pow2_bits_true, andb_true_r in Hf by lia.
      assert (Z.testbit x 15 = true); [|congruence]. apply Z.testbit_true; [lia|].
      assert (x / 2 ^ 15 = 1) as -> by (symmetry; apply (Z.div_unique _ _ _ (x - 32768)); lia). done. }
  rewrite Hbit by (destruct (0 <=? v) eqn:E; [apply Z.leb_le in E|apply Z.leb_gt in E]; lia).
  destruct (Z.leb_spec 0 v); cmp; cbn [negb]; try done. f_equal. f_equal. unfold Z.lnot. lia.
Qed.

(** Half a degree below zero. *)
Lemma temperature_decoding_witness : deserialize_temperature [0xf8; 0xff] = Some (Some (-65528)).
Proof. exact (temperature_decoding (-8) ltac:(lia)). Defined.

(** ** Configuration *)

(** The packet a command for an address of device [d] becomes. *)
Definition command_packet (d addr : Z) : HA_CAN_PacketId :=
  {| priority := 0; reserved := 1; device_id_field := d; address := addr |}.

(** The client saves the configuration of a node and assigns the function of a channel at
    addresses of the page 0x00, where the system data are, and the node ignores both
    writes: it is unchanged.  Its question for the number of channels is answered with
    the firmware version.  The same writes in the page 0x01 reach the module that saves
    and assigns. *)
Theorem client_configuration_misrouted {HW : Hardware} {GL : GpioLaws HW} ch d len data (s : node) :
  node_inv s -> is_channel ch ->
  CAN_Node_handle_packet CAN_RTR_Data (command_packet d HA_CAN_Node_ChannelSaveConfig) len data s = Ok tt s /\
  CAN_Node_handle_packet CAN_RTR_Data (command_packet d (HA_CAN_Node_function_address ch)) len data s = Ok tt s /\
  (forall reply, (2 <= length reply)%nat -> sysinfo_request 0 HA_CAN_Node_ChannelCount reply s =
     Ok (2, <[1%nat := HA_CAN_Node_Version_Current]> (<[0%nat := 0]> reply)) s) /\
  CAN_Node_handle_packet CAN_RTR_Data (command_packet d (0x100 + HA_CAN_Node_ChannelSaveConfig)) len data s =
    CAN_Node_save_modules s /\
  CAN_Node_handle_packet CAN_RTR_Data (command_packet d (0x100 + HA_CAN_Node_function_address ch)) len data s =
    proto_write 1 (HA_CAN_Node_ChannelFunction0 + ch) len data s.
Proof.
  intros (_ & (Hsys & Hpro & _) & _) [H0 H4]. unfold CAN_Node_ChannelCount in H4.
  assert (forall page a, 0 <= a < 256 -> page = 0 \/ page = 1 ->
    Z.land (Z.shiftr (256 * page + a) 8) 0xff = page /\ Z.land (256 * page + a) 0xff = a) as Hsplit.
  { intros page a Ha Hp. change 0xff with (Z.ones 8). rewrite !Z.land_ones, Z.shiftr_div_pow2 by lia. change (2 ^ 8) with 256.
    assert ((256 * page + a) / 256 = page) as -> by (symmetry; apply (Z.div_unique _ _ _ a); lia).
    split; [apply Z.mod_small; lia|symmetry; apply (Z.mod_unique _ _ page); lia]. }
  assert (forall addr page a, addr = 256 * page + a -> 0 <= a < 256 -> page = 0 \/ page = 1 ->
    CAN_Node_handle_packet CAN_RTR_Data (command_packet d addr) len data s =
    (if page =? 0 then sysinfo_write 0 a len data s else proto_write 1 a len data s)) as Hroute.
  { intros addr page a -> Ha Hp. unfold CAN_Node_handle_packet, command_packet. cbn [address].
    destruct (Hsplit page a Ha Hp) as [-> ->]. destruct Hp as [-> | ->]; unfold select_module, bind, rd, ret; cbn;
      rewrite ?Hsys, ?Hpro; done. }
  assert (HA_CAN_Node_function_address ch = 0x80 + ch) as Hfn by (apply u16_small; unfold is_u16, HA_CAN_Node_ChannelFunction0; lia).
  assert (forall a, a <> 4 -> sysinfo_write 0 a len data s = Ok tt s) as Hignored.
  { intros a Ha. unfold sysinfo_write, HA_CAN_Common_DeviceLabel. apply Z.eqb_neq in Ha. by rewrite Ha. }
  rewrite Hfn. unfold HA_CAN_Node_ChannelSaveConfig, HA_CAN_Node_ChannelFunction0.
  split; [rewrite (Hroute _ 0 0) by (auto; lia); by apply Hignored|].
  split; [rewrite (Hroute _ 0 (0x80 + ch)) by (auto; lia); apply Hignored; lia|]. split; [|split].
  - intros reply Hl. unfold sysinfo_request, put_bytes, bind. cbn. rewrite set_index_ok by lia. unfold ret.
    rewrite set_index_ok by (rewrite length_insert; lia). done.
  - rewrite (Hroute _ 1 0) by (auto; lia). done.
  - rewrite (Hroute _ 1 (0x80 + ch)) by (auto; lia). done.
Qed.

Lemma client_configuration_misrouted_witness :
  CAN_Node_handle_packet (HW:=sim) CAN_RTR_Data (command_packet 5 (HA_CAN_Node_function_address 2)) 1 (replicate 8 1)
    (booted sim_machine) = Ok tt (booted sim_machine).
Proof.
  assert (is_channel 2) as Hch by by vm_compute.
  destruct (client_configuration_misrouted 2 5 1 (replicate 8 1) (booted sim_machine) (proj1 (booted_inv sim_machine)) Hch)
    as (_ & H & _).
  exact H.
Defined.
