(* ===== verification/Results.v ===== *)
(** The results of queries, [deephome/common/include/client/Result.h], the serial numbers
    and synchronous calls of [include/client/Device.h] and [source/client/Device.cpp],
    and the channels of a node, [source/client/CanNode.cpp].

    A [BlockingResult] is shared by two threads, the one in [wait] and the one of the event
    loop in [set]; [exec] takes one of them one instruction further.  [sync::get] keeps the
    object on its stack: when [wait] has returned, the object is destroyed. *)

From S2P Require Import Prelude Monad CanProto Client.

(** ** [BlockingResult] *)

Section BlockingResult.
Context {T : Type}.

(** The thread in [sync::get]: in [wait] before it locks, before the test of the loop, asleep,
    woken, before it copies the result, before it unlocks, before the object is destroyed. *)
Inductive waiter_at : Type :=
| W_Lock | W_Test | W_Wait | W_Woken | W_Read | W_Unlock (v : option T) | W_Destroy (v : option T) | W_Done (v : option T).

(** The thread in [set]. *)
Inductive setter_at : Type :=
| S_None | S_Lock (v : option T) | S_Flag (v : option T) | S_Result (v : option T) | S_Unlock | S_Notify | S_Done.

Inductive party : Type := Waiter | Setter.

(** [given] records the value [set] was called with. *)
Record blocking : Type := MkBlocking {
  guard_ : option party;
  notified_ : bool;
  result_ : option T;
  alive : bool;
  waiter : waiter_at;
  setter : setter_at;
  crash : option fault;
  given : option (option T)
}.

Definition BlockingResult_new : blocking := MkBlocking None false None true W_Lock S_None None None.

Definition set_waiter v s := MkBlocking (guard_ s) (notified_ s) (result_ s) (alive s) v (setter s) (crash s) (given s).
Definition set_setter v s := MkBlocking (guard_ s) (notified_ s) (result_ s) (alive s) (waiter s) v (crash s) (given s).
Definition set_guard v s := MkBlocking v (notified_ s) (result_ s) (alive s) (waiter s) (setter s) (crash s) (given s).
Definition set_notified v s := MkBlocking (guard_ s) v (result_ s) (alive s) (waiter s) (setter s) (crash s) (given s).
Definition set_result v s := MkBlocking (guard_ s) (notified_ s) v (alive s) (waiter s) (setter s) (crash s) (given s).
Definition destroy s := MkBlocking (guard_ s) (notified_ s) (result_ s) false (waiter s) (setter s) (crash s) (given s).
Definition set_crash v s := MkBlocking (guard_ s) (notified_ s) (result_ s) (alive s) (waiter s) (setter s) v (given s).
Definition set_given v s := MkBlocking (guard_ s) (notified_ s) (result_ s) (alive s) (waiter s) (setter s) (crash s) (Some v).

Definition lock (p : party) (s : blocking) : option blocking :=
  match guard_ s with None => Some (set_guard (Some p) s) | Some _ => None end.
Definition unlock (s : blocking) : blocking := set_guard None s.

(** [wait], and the end of [get]. *)
Definition wait_step (s : blocking) : option blocking :=
  match waiter s with
  | W_Lock | W_Woken => s ← lock Waiter s; Some (set_waiter W_Test s)
  | W_Test => Some (if notified_ s then set_waiter W_Read s else set_waiter W_Wait (unlock s))
  | W_Wait => None
  | W_Read => Some (set_waiter (W_Unlock (result_ s)) s)
  | W_Unlock v => Some (set_waiter (W_Destroy v) (unlock s))
  | W_Destroy v => Some (set_waiter (W_Done v) (destroy s))
  | W_Done _ => None
  end.

(** [set]; each of its instructions uses the object. *)
Definition set_step (s : blocking) : option blocking :=
  match setter s with
  | S_None | S_Done => None
  | _ =>
      if negb (alive s) then Some (set_crash (Some Undefined) s)
      else
        match setter s with
        | S_Lock v => s ← lock Setter s; Some (set_setter (S_Flag v) s)
        | S_Flag v => Some (set_setter (S_Result v) (set_notified true s))
        | S_Result v => Some (set_setter S_Unlock (set_result v s))
        | S_Unlock => Some (set_setter S_Notify (unlock s))
        | S_Notify =>
            Some (set_setter S_Done (match waiter s with W_Wait => set_waiter W_Woken s | _ => s end))
        | _ => None
        end
  end.

Inductive label : Type := Set_ (v : option T) | WaiterStep | SetterStep | SpuriousWakeup.

Definition exec (l : label) (s : blocking) : option blocking :=
  match crash s with
  | Some _ => None
  | None =>
      match l with
      | Set_ v => match setter s with S_None => Some (set_setter (S_Lock v) (set_given v s)) | _ => None end
      | WaiterStep => wait_step s
      | SetterStep => set_step s
      | SpuriousWakeup => match waiter s with W_Wait => Some (set_waiter W_Woken s) | _ => None end
      end
  end.

Fixpoint execs (ls : list label) (s : blocking) : option blocking :=
  match ls with
  | [] => Some s
  | l :: ls => s ← exec l s; execs ls s
  end.
End BlockingResult.
Arguments blocking T : clear implicits.
Arguments label T : clear implicits.

(** [CallbackResult::set] *)
Definition CallbackResult_set {St T} (handler : option T -> prog St unit) (value : option T) : prog St unit := handler value.

(** The end of [sync::get]: the value, or the exception [Timeout], a [runtime_error]. *)
Definition get_value_or_throw {St T} (value : option T) : prog St T :=
  match value with Some v => ret v | None => raise (Throw runtime_error) end.

(** The handler [Dispatcher::send_query] makes of a result: what it passes to [set]. *)
Definition result_of {T} (get_value : Body -> option T) (command : option DeviceCommand) : option T :=
  match command with Some c => get_value (command_body c) | None => None end.

(** ** [SerialBuilder] *)

Inductive Part : Type := Part_Hi | Part_Lo.

#[export] Instance Part_eq_dec : EqDecision Part.
Proof. solve_decision. Defined.

(** [reported]: the calls of [result_.set]. *)
Record SerialBuilder : Type := MkBuilder {
  serial_ : list Z; hi_ : bool; lo_ : bool; complete_ : bool; reported : list (option (list Z))
}.

Definition SerialBuilder_new : SerialBuilder := MkBuilder (replicate 16 0) false false false [].

Definition f_serial : field SerialBuilder (list Z) := Field serial_ (fun v b => MkBuilder v (hi_ b) (lo_ b) (complete_ b) (reported b)).
Definition f_hi : field SerialBuilder bool := Field hi_ (fun v b => MkBuilder (serial_ b) v (lo_ b) (complete_ b) (reported b)).
Definition f_lo : field SerialBuilder bool := Field lo_ (fun v b => MkBuilder (serial_ b) (hi_ b) v (complete_ b) (reported b)).
Definition f_complete : field SerialBuilder bool := Field complete_ (fun v b => MkBuilder (serial_ b) (hi_ b) (lo_ b) v (reported b)).
Definition f_reported : field SerialBuilder (list (option (list Z))) := Field reported (fun v b => MkBuilder (serial_ b) (hi_ b) (lo_ b) (complete_ b) v).

Definition report (v : option (list Z)) : prog SerialBuilder unit :=
  let! l := rd f_reported in wr f_reported (l ++ [v]).

(** [std::copy(value->begin(), value->end(), serial_.begin() + at)] *)
Definition copy_to (at_ : Z) (value : Body) : prog SerialBuilder unit :=
  for_each (combine (range (Z.of_nat (length value))) value) (fun p => idx_set f_serial (at_ + p.1) p.2).

Definition handle_result (part : Part) (value : option Body) : prog SerialBuilder unit :=
  let! complete := rd f_complete in
  if (complete : bool) then ret tt
  else
    match value with
    | Some value =>
        if negb (Z.of_nat (length value) =? 8) then report None ;; wr f_complete true
        else
          let! hi := rd f_hi in
          let! lo := rd f_lo in
          (if bool_decide (part = Part_Hi) && negb hi then copy_to 0 value ;; wr f_hi true
           else if bool_decide (part = Part_Lo) && negb lo then copy_to 8 value ;; wr f_lo true
           else ret tt) ;;
          let! hi := rd f_hi in
          let! lo := rd f_lo in
          when (hi && lo) (let! serial := rd f_serial in report (Some serial) ;; wr f_complete true)
    | None => report None ;; wr f_complete true
    end.

(** [Device::query_serial], with the queries it leaves to the dispatcher.

    [results]: the [CallbackResult]s by their address, [None] for one that is destroyed; each
    holds its part and the builder.  [asked]: the queries that wait, with the address of
    the result their handler refers to. *)
Record serial_call : Type := MkCall { builder : SerialBuilder; results : list (option Part); asked : list (Z * nat) }.

Definition serial_call_init : serial_call := MkCall SerialBuilder_new [] [].

Definition CallbackResult_new (part : Part) : prog serial_call nat := fun c =>
  Ok (length (results c)) (MkCall (builder c) (results c ++ [Some part]) (asked c)).
Definition CallbackResult_delete (result : nat) : prog serial_call unit := fun c =>
  Ok tt (MkCall (builder c) (<[result := None]> (results c)) (asked c)).

(** [Device::query] and [Dispatcher::send_query]: the handler captures the result by reference. *)
Definition query (address : Z) (result : nat) : prog serial_call unit := fun c =>
  Ok tt (MkCall (builder c) (results c) (asked c ++ [(address, result)])).

Definition query_serial : prog serial_call unit :=
  let! hi_result := CallbackResult_new Part_Hi in
  let! lo_result := CallbackResult_new Part_Lo in
  query HA_CAN_Common_SerialHi hi_result ;;
  query HA_CAN_Common_SerialLo lo_result ;;
  CallbackResult_delete lo_result ;;
  CallbackResult_delete hi_result.

(** The handler of the [i]-th query is called with what the dispatcher has for it. *)
Definition query_closed (i : nat) (command : option DeviceCommand) : prog serial_call unit := fun c =>
  match asked c !! i with
  | None => Ok tt c
  | Some (_, r) =>
      match results c !! r with
      | Some (Some part) =>
          match handle_result part (result_of Some command) (builder c) with
          | Ok _ b => Ok tt (MkCall b (results c) (delete i (asked c)))
          | Fault f b => Fault f (MkCall b (results c) (delete i (asked c)))
          end
      | _ => Fault Undefined c
      end
  end.

(** ** The channels of a node *)

(** [HA_CAN_Node_Function_...]; the classes of channels there are. *)
Inductive ChannelClass : Type := SwitchChannel | ButtonChannel | AnalogChannel | Ds18b20Channel.

#[export] Instance ChannelClass_eq_dec : EqDecision ChannelClass.
Proof. solve_decision. Defined.

(** [std::map<uint8_t, ChannelPtr>] by the key; an object is its class. *)
Record channel_map : Type := MkChannels { channels_ : list (Z * ChannelClass) }.

Definition channel_find (id : Z) (m : list (Z * ChannelClass)) : option ChannelClass := snd <$> List.find (fun p => p.1 =? id) m.

(** [CanNode::get_channel<T>]: a channel of another class is a null reference, which is
    [NullCall] when it is used. *)
Definition get_channel (T : ChannelClass) (channel_id : Z) : prog channel_map ChannelClass := fun n =>
  match channel_find channel_id (channels_ n) with
  | None => Ok T (MkChannels (channels_ n ++ [(channel_id, T)]))
  | Some c => if bool_decide (c = T) then Ok c n else Fault NullCall n
  end.

Definition get_switch (channel_id : Z) : prog channel_map ChannelClass := get_channel SwitchChannel channel_id.
Definition get_button (channel_id : Z) : prog channel_map ChannelClass := get_channel ButtonChannel channel_id.
Definition get_analog (channel_id : Z) : prog channel_map ChannelClass := get_channel AnalogChannel channel_id.
Definition get_ds18b20 (channel_id : Z) : prog channel_map ChannelClass := get_channel Ds18b20Channel channel_id.

(** ** What a [BlockingResult] does *)

Section BlockingRules.
Context {T : Type}.
Implicit Types s : blocking T.

Definition waiter_holds (w : waiter_at (T:=T)) : bool := match w with W_Test | W_Read | W_Unlock _ => true | _ => false end.
Definition setter_holds (t : setter_at (T:=T)) : bool := match t with S_Flag _ | S_Result _ | S_Unlock => true | _ => false end.

(** Where the two can be at the same time. *)
Definition places (w : waiter_at (T:=T)) (t : setter_at (T:=T)) : bool :=
  match w with
  | W_Wait => match t with S_Done => false | _ => true end
  | W_Read | W_Unlock _ | W_Destroy _ | W_Done _ => match t with S_Notify | S_Done => true | _ => false end
  | _ => true
  end.

Record blocking_inv s : Prop := {
  inv_guard : guard_ s = if waiter_holds (waiter s) then Some Waiter else if setter_holds (setter s) then Some Setter else None;
  inv_excl : waiter_holds (waiter s) && setter_holds (setter s) = false;
  inv_alive : alive s = match waiter s with W_Done _ => false | _ => true end;
  inv_places : places (waiter s) (setter s) = true;
  inv_notified : notified_ s = match setter s with S_None | S_Lock _ | S_Flag _ => false | _ => true end;
  inv_given : match setter s with
              | S_None => given s = None
              | S_Lock v | S_Flag v | S_Result v => given s = Some v
              | _ => given s = Some (result_ s)
              end;
  inv_value : match waiter s with W_Unlock v | W_Destroy v | W_Done v => given s = Some v | _ => True end;
  inv_crash : match crash s with
              | Some f => f = Undefined /\ setter s = S_Notify /\ exists v, waiter s = W_Done v
              | None => True
              end
}.

Lemma blocking_inv_new : blocking_inv BlockingResult_new.
Proof. by split. Qed.

Lemma blocking_inv_step l s s' : blocking_inv s -> exec l s = Some s' -> blocking_inv s'.
Proof.
  intros [G X A P N V W C] Hx. destruct s as [g n r a w t c gv]. unfold exec in Hx. cbn in *.
  destruct c; [done|]. destruct l as [v| | |]; unfold wait_step, set_step, lock in Hx; cbn in Hx.
  - destruct t; simplify_eq. destruct w; try done; split; cbn in *; by subst.
  - destruct w; cbn in *; repeat case_match; simplify_eq/=; split; cbn in *; try done; try (by destruct t); try (by subst).
  - destruct a; destruct t; cbn in *; repeat case_match; simplify_eq/=; split; cbn in *; try done; try (by destruct w); eauto.
  - destruct w; simplify_eq/=. by split.
Qed.

Lemma blocking_inv_execs ls s s' : blocking_inv s -> execs ls s = Some s' -> blocking_inv s'.
Proof.
  revert s. induction ls as [|l ls IH]; intros s Hs Hx; simplify_eq/=; [done|].
  destruct (exec l s) as [s1|] eqn:E; [|done]. eauto using blocking_inv_step.
Qed.
End BlockingRules.

Section BlockingProperties.
Context {T : Type}.
Implicit Types s : blocking T.

(** Neither thread can go on. *)
Definition both_rest s : Prop := exec WaiterStep s = None /\ exec SetterStep s = None.

Lemma rest_returned s v : blocking_inv s -> crash s = None -> given s = Some v -> both_rest s ->
  waiter s = W_Done v /\ setter s = S_Done.
Proof.
  intros [G X A P N V W C] Hc Hv [R1 R2]. unfold exec, wait_step, set_step, lock in *. rewrite Hc in *.
  destruct (waiter s) as [| | | | |v'|v'|v'] eqn:Ew, (setter s) eqn:Es; cbn in *; rewrite ?G, ?A in *; cbn in *;
    repeat case_match; simplify_eq/=; try done; congruence.
Qed.

(** C28. A blocking result, for every interleaving of the thread that waits and the one that
    sets: what [get] returns is the value [set] was called with; once [set] has been called
    the two cannot both be stuck before they are through (no wake-up is lost); and there is
    one way to go wrong: [notify_all] on the object after [get], having seen the flag, has
    returned and destroyed it. *)
Theorem blocking_result_delivers ls s v : execs ls (@BlockingResult_new T) = Some s -> given s = Some v ->
  (forall v', waiter s = W_Done v' -> v' = v) /\
  (crash s = None -> both_rest s -> waiter s = W_Done v /\ setter s = S_Done) /\
  (crash s <> None -> crash s = Some Undefined /\ setter s = S_Notify /\ waiter s = W_Done v).
Proof.
  intros Hx Hv. pose proof (blocking_inv_execs _ _ _ blocking_inv_new Hx) as I.
  assert (forall v', waiter s = W_Done v' -> v' = v) as Hd.
  { intros v' Hw. pose proof (inv_value _ I) as W. rewrite Hw, Hv in W. congruence. }
  split; [done|]. split; [intros; by apply rest_returned|]. intros Hc. pose proof (inv_crash _ I) as C.
  destruct (crash s); [|done]. destruct C as (-> & -> & v' & Hw). by rewrite <- (Hd v').
Qed.
End BlockingProperties.

Definition late_notify : list (label nat) :=
  [Set_ (Some 5%nat); SetterStep; SetterStep; SetterStep; SetterStep;
   WaiterStep; WaiterStep; WaiterStep; WaiterStep; WaiterStep; SetterStep].
Definition late_state : blocking nat := match execs late_notify BlockingResult_new with Some s => s | None => BlockingResult_new end.

Lemma blocking_result_delivers_witness :
  crash late_state = Some Undefined /\ setter late_state = S_Notify /\ waiter late_state = W_Done (Some 5%nat).
Proof.
  apply (blocking_result_delivers late_notify late_state (Some 5%nat)); [vm_compute; reflexivity..|vm_compute; done].
Defined.

(** ** What a [SerialBuilder] reports *)

(** The serial number of the answers: both halves, each the first of its kind; nothing while one
    is missing; no number at the first answer that is none or has another length. *)
Fixpoint outcome (hi lo : option Body) (answers : list (Part * option Body)) : option (option (list Z)) :=
  match answers with
  | [] => None
  | (part, value) :: answers =>
      match value with
      | Some v =>
          if negb (Z.of_nat (length v) =? 8) then Some None
          else
            let hi := if bool_decide (part = Part_Hi) then Some (default v hi) else hi in
            let lo := if bool_decide (part = Part_Lo) then Some (default v lo) else lo in
            match hi, lo with Some h, Some l => Some (Some (h ++ l)) | _, _ => outcome hi lo answers end
      | None => Some None
      end
  end.

Definition zeros : Body := replicate 8 0.

(** The builder that has got [hi] and [lo]. *)
Definition builds (hi lo : option Body) : SerialBuilder :=
  MkBuilder (default zeros hi ++ default zeros lo) (bool_decide (is_Some hi)) (bool_decide (is_Some lo)) false [].

(** The builder that had got them when it failed. *)
Definition failed (hi lo : option Body) : SerialBuilder :=
  MkBuilder (default zeros hi ++ default zeros lo) (bool_decide (is_Some hi)) (bool_decide (is_Some lo)) true [None].

Definition half (v : option Body) : Prop := match v with Some v => length v = 8%nat | None => True end.

Lemma copy_to_hi a v l h c r : length a = 8%nat -> length v = 8%nat -> length l = 8%nat ->
  copy_to 0 v (MkBuilder (a ++ l) h c false r) = Ok tt (MkBuilder (v ++ l) h c false r).
Proof.
  intros Ha Hv Hl. do 9 (destruct a as [|? a]; try done). do 9 (destruct v as [|? v]; try done).
  do 9 (destruct l as [|? l]; try done).
Qed.

Lemma copy_to_lo a v l h c r : length a = 8%nat -> length v = 8%nat -> length l = 8%nat ->
  copy_to 8 v (MkBuilder (a ++ l) h c false r) = Ok tt (MkBuilder (a ++ v) h c false r).
Proof.
  intros Ha Hv Hl. do 9 (destruct a as [|? a]; try done). do 9 (destruct v as [|? v]; try done).
  do 9 (destruct l as [|? l]; try done).
Qed.

Lemma half_length v : half v -> length (default zeros v) = 8%nat.
Proof. by destruct v. Qed.

(** A complete builder ignores what comes. *)
Lemma complete_ignores answers b : complete_ b = true -> for_each answers (fun p => handle_result p.1 p.2) b = Ok tt b.
Proof.
  intros Hc. induction answers as [|p answers IH]; [done|]. cbn [for_each]. unfold bind, handle_result, bind, rd at 1.
  cbn [fget f_complete]. by rewrite Hc.
Qed.

Definition first_half (part : Part) (v : Body) (hi : option Body) : option Body :=
  if bool_decide (part = Part_Hi) then Some (default v hi) else hi.
Definition second_half (part : Part) (v : Body) (lo : option Body) : option Body :=
  if bool_decide (part = Part_Lo) then Some (default v lo) else lo.

(** One answer of the right length. *)
Lemma handle_half part v hi lo : half hi -> half lo -> hi = None \/ lo = None -> length v = 8%nat ->
  handle_result part (Some v) (builds hi lo) =
    Ok tt (let b := builds (first_half part v hi) (second_half part v lo) in
           match first_half part v hi, second_half part v lo with
           | Some h, Some l => MkBuilder (h ++ l) true true true [Some (h ++ l)]
           | _, _ => b
           end).
Proof.
  intros Hh Hl Hn Hv. unfold handle_result. cbn [bind rd fget f_complete builds complete_]. unfold bind at 1, rd at 1. cbn [fget f_complete builds complete_].
  rewrite Hv. change (negb (Z.of_nat 8 =? 8)) with false. cbv iota.
  unfold first_half, second_half, builds.
  destruct part, hi as [h|], lo as [l|]; cbn in Hh, Hl; try (by destruct Hn);
    unfold bind, rd, ret, wr, when, report; cbn -[copy_to zeros bool_decide];
    change (bool_decide (Part_Hi = Part_Hi)) with true; change (bool_decide (Part_Lo = Part_Lo)) with true;
    change (bool_decide (Part_Hi = Part_Lo)) with false; change (bool_decide (Part_Lo = Part_Hi)) with false;
    cbn -[copy_to zeros];
    rewrite ?copy_to_hi, ?copy_to_lo by done; done.
Qed.

Lemma builder_outcome answers : forall hi lo, half hi -> half lo -> hi = None \/ lo = None ->
  exists b, for_each answers (fun p => handle_result p.1 p.2) (builds hi lo) = Ok tt b /\ reported b = option_list (outcome hi lo answers).
Proof.
  induction answers as [|[part [v|]] answers IH]; intros hi lo Hh Hl Hn.
  - by exists (builds hi lo).
  - cbn [for_each outcome fst snd]. destruct (decide (length v = 8%nat)) as [Hv|Hv].
    + unfold bind. rewrite handle_half by done. rewrite Hv. change (negb (Z.of_nat 8 =? 8)) with false. cbv iota.
      fold (first_half part v hi) (second_half part v lo).
      assert (half (first_half part v hi)) by (unfold first_half; case_match; [by destruct hi|done]).
      assert (half (second_half part v lo)) by (unfold second_half; case_match; [by destruct lo|done]).
      destruct (first_half part v hi) as [h|] eqn:E1, (second_half part v lo) as [l|] eqn:E2; try (apply IH; auto).
      rewrite complete_ignores by done. by eexists.
    + assert (negb (Z.of_nat (length v) =? 8) = true) as -> by (apply negb_true_iff, Z.eqb_neq; lia).
      exists (failed hi lo). split; [|reflexivity]. unfold bind at 1.
      assert (handle_result part (Some v) (builds hi lo) = Ok tt (failed hi lo)) as ->.
      { unfold handle_result, bind, rd, wr, report. cbn. by assert (negb (Z.of_nat (length v) =? 8) = true) as -> by (apply negb_true_iff, Z.eqb_neq; lia). }
      by apply complete_ignores.
  - exists (failed hi lo). split; [|reflexivity]. cbn [for_each fst snd]. unfold bind at 1.
    assert (handle_result part None (builds hi lo) = Ok tt (failed hi lo)) as -> by done.
    by apply complete_ignores.
Qed.

(** C29. The serial number of a device, from the answers to the two queries in whatever order
    and number they come: the builder reports nothing until it has both halves, then
    once, the high half followed by the low half, each the first that came; at the first
    answer that is missing or not 8 bytes long it reports that there is none.  Whatever
    comes later changes nothing, and no byte is written outside the number. *)
Theorem serial_number_reported_once (answers : list (Part * option Body)) :
  exists b, for_each answers (fun p => handle_result p.1 p.2) SerialBuilder_new = Ok tt b /\
    reported b = option_list (outcome None None answers).
Proof. apply (builder_outcome answers None None); auto; done. Qed.

Example serial_halves :
  outcome None None [(Part_Lo, Some (replicate 8 1)); (Part_Lo, Some (replicate 8 2)); (Part_Hi, Some (replicate 8 3)); (Part_Hi, None)]
  = Some (Some (replicate 8 3 ++ replicate 8 1)).
Proof. reflexivity. Qed.

(** The results of the two queries are objects of [query_serial] itself: when it has returned, as
    it does before an answer can come, they are gone, and the first answer or timeout, of
    whichever query, goes through a reference to nothing. *)
Theorem serial_query_dangles (i : nat) (command : option DeviceCommand) : (i < 2)%nat ->
  exists c, query_serial serial_call_init = Ok tt c /\
    asked c = [(HA_CAN_Common_SerialHi, 0%nat); (HA_CAN_Common_SerialLo, 1%nat)] /\ query_closed i command c = Fault Undefined c.
Proof. intros Hi. eexists. split; [reflexivity|]. split; [reflexivity|]. by destruct i as [|[|i]]; [..|lia]. Qed.

Lemma serial_query_dangles_witness :
  exists c, query_serial serial_call_init = Ok tt c /\ query_closed 1 None c = Fault Undefined c.
Proof. destruct (serial_query_dangles 1 None) as (c & H1 & _ & H2); [lia|]. by exists c. Defined.

(** ** Channels *)

(** A channel has the class it was first asked for: asking for it again as that class gives
    it and changes nothing; asking for it as another gives a null reference. *)
Theorem channel_class_is_first (T T' : ChannelClass) id n :
  wp total (get_channel T id) (fun c n' =>
    c = T /\ get_channel T id n' = Ok T n' /\ (T' <> T -> get_channel T' id n' = Fault NullCall n')) n \/
  (exists c, channel_find id (channels_ n) = Some c /\ c <> T /\ get_channel T id n = Fault NullCall n).
Proof.
  unfold wp, get_channel. destruct (channel_find id (channels_ n)) as [c|] eqn:E.
  - destruct (decide (c = T)) as [->|Hc].
    + left. rewrite !bool_decide_eq_true_2 by done. rewrite E. split; [done|]. rewrite bool_decide_eq_true_2 by done.
      split; [done|]. intros HT. by rewrite bool_decide_eq_false_2 by congruence.
    + right. exists c. rewrite bool_decide_eq_false_2 by done. done.
  - left. split; [done|]. cbn [channels_].
    assert (channel_find id (channels_ n ++ [(id, T)]) = Some T) as ->.
    { clear - E. unfold channel_find in *. induction (channels_ n) as [|[k c] m IH]; cbn in *; [by rewrite Z.eqb_refl|].
      destruct (k =? id); [done|auto]. }
    rewrite bool_decide_eq_true_2 by done. split; [done|]. intros HT. by rewrite bool_decide_eq_false_2 by congruence.
Qed.
