(* ===== verification/Controller.v ===== *)
(** The HTTP front end of the controller, [deephome/controller/HttpServer.cpp] and
    [Request.cpp]: the requests from the callback of libmicrohttpd through the event loop
    to the handler of the program, and the responses.

    libmicrohttpd is not part of the repository.  A daemon calls [access_handler_cb] with
    connections of its own, which are gone when it is stopped: to use one of them after
    that is [Undefined].  The responses handed to it are recorded.  The controller is not in
    the build of the repository and does not compile as it is: [access_handler_cb], a static
    function, logs with [this] (the calls of the log are left out here as everywhere), and
    [make_shared] uses a private constructor. *)

From Stdlib Require Import String.
From S2P Require Import Prelude Monad Text Config.

(** ** Requests *)

(** [MHD_Connection*]: the daemon that made it, and a number. *)
Record connection : Type := MkConn { of_daemon : nat; number : nat }.

#[export] Instance connection_eq_dec : EqDecision connection.
Proof. solve_decision. Defined.

Inductive Request_Type : Type := Type_Get | Type_Update | Type_Create | Type_Delete.

Inductive Request_Result : Type := Result_OK | Result_NotFound | Result_InternalServerError.

#[export] Instance Request_Result_eq_dec : EqDecision Request_Result.
Proof. solve_decision. Defined.

Definition Result_value (r : Request_Result) : Z :=
  match r with Result_OK => 200 | Result_NotFound => 404 | Result_InternalServerError => 500 end.

Definition MHD_HTTP_MOVED_PERMANENTLY : Z := 301.

Record request : Type := MkRequest {
  connection_ : connection;
  url_ : text;
  type_ : Request_Type;
  completed_ : bool;
  reply_strings_ : list (text * text)
}.

(** What [MHD_queue_response] was called with. *)
Record response : Type := MkResponse { resp_connection : connection; resp_code : Z; resp_headers : list (text * text); resp_body : text }.

(** An event of the loop: [access_handler] or [request_handler_] with its arguments. *)
Inductive event : Type :=
| Access (c : connection) (url : text) (t : Request_Type)
| Handle (r : request).

(** [queue]: the events of the server in the loop, each with the value of the scope;
    [held]: the requests the program keeps after its handler has returned;
    [accepted], [responses]: what the daemons were answered. *)
Record server : Type := MkServer {
  scope_ : Z;
  port_ : Z;
  mhd_daemon_ : option nat;
  daemons : nat;
  queue : list (event * Z);
  held : list request;
  accepted : list connection;
  responses : list response
}.

Definition f_scope : field server Z := Field scope_ (fun v s => MkServer v (port_ s) (mhd_daemon_ s) (daemons s) (queue s) (held s) (accepted s) (responses s)).
Definition f_daemon : field server (option nat) := Field mhd_daemon_ (fun v s => MkServer (scope_ s) (port_ s) v (daemons s) (queue s) (held s) (accepted s) (responses s)).
Definition f_daemons : field server nat := Field daemons (fun v s => MkServer (scope_ s) (port_ s) (mhd_daemon_ s) v (queue s) (held s) (accepted s) (responses s)).
Definition f_queue : field server (list (event * Z)) := Field queue (fun v s => MkServer (scope_ s) (port_ s) (mhd_daemon_ s) (daemons s) v (held s) (accepted s) (responses s)).
Definition f_held : field server (list request) := Field held (fun v s => MkServer (scope_ s) (port_ s) (mhd_daemon_ s) (daemons s) (queue s) v (accepted s) (responses s)).
Definition f_accepted : field server (list connection) := Field accepted (fun v s => MkServer (scope_ s) (port_ s) (mhd_daemon_ s) (daemons s) (queue s) (held s) v (responses s)).
Definition f_responses : field server (list response) := Field responses (fun v s => MkServer (scope_ s) (port_ s) (mhd_daemon_ s) (daemons s) (queue s) (held s) (accepted s) v).

Definition is_started (s : server) : bool := match mhd_daemon_ s with Some _ => true | None => false end.

(** A member function of a request, with its [owner_]. *)
Record scene : Type := MkScene { owner_ : server; this : request }.

Definition f_owner : field scene server := Field owner_ (fun v s => MkScene v (this s)).
Definition f_this : field scene request := Field this (fun v s => MkScene (owner_ s) v).

Definition Request_new (c : connection) (url : text) (t : Request_Type) : request := MkRequest c url t false [].

(** The connection of the request is still there. *)
Definition alive (s : scene) : bool := bool_decide (mhd_daemon_ (owner_ s) = Some (of_daemon (connection_ (this s)))).
Definition use_connection : prog scene unit := fun s => if alive s then Ok tt s else Fault Undefined s.

Definition completed (r : request) : request := MkRequest (connection_ r) (url_ r) (type_ r) true (reply_strings_ r).

Definition init_response : prog scene unit := ret tt.

Definition send_response (headers : list (text * text)) (body : text) (code : Z) : prog scene unit :=
  use_connection ;;
  let! r := rd f_this in
  let! s := rd f_owner in
  wr f_owner (fset f_responses (responses s ++ [MkResponse (connection_ r) code headers body]) s) ;;
  wr f_this (completed r).

Definition newline : text := ["010"%char].

(** The loop over the reply strings. *)
Fixpoint reply_body (l : list (text * text)) (response_body : text) : text :=
  match l with [] => response_body | (k, v) :: l => reply_body l (response_body ++ k ++ txt ": " ++ v ++ newline) end.

Definition complete (result : Request_Result) : prog scene unit :=
  let! r := rd f_this in
  let response_body := if bool_decide (result = Result_OK) then reply_body (reply_strings_ r) [] else [] in
  init_response ;;
  send_response [(txt "Content-Type", txt "text/plain; charset=utf-8")] response_body (Result_value result).

Definition redirect (uri : text) : prog scene unit :=
  init_response ;;
  send_response [(txt "Location", uri)] [] MHD_HTTP_MOVED_PERMANENTLY.

Definition add_reply_string (key value : text) : prog scene unit :=
  let! r := rd f_this in
  wr f_this (MkRequest (connection_ r) (url_ r) (type_ r) (completed_ r) (reply_strings_ r ++ [(key, value)])).

(** [~Request()] *)
Definition Request_delete : prog scene unit :=
  let! r := rd f_this in
  let! s := rd f_owner in
  when (negb (completed_ r) && is_started s) (complete Result_InternalServerError).

Section Arguments.
Inductive ValueKind : Type := MHD_GET_ARGUMENT_KIND | MHD_POST_DATA_KIND.
Variable MHD_lookup_connection_value : connection -> ValueKind -> text -> option text.

Definition argument (key : text) : prog scene text :=
  use_connection ;;
  let! r := rd f_this in
  match MHD_lookup_connection_value (connection_ r) MHD_GET_ARGUMENT_KIND key with
  | Some get_arg => ret get_arg
  | None => ret (default [] (MHD_lookup_connection_value (connection_ r) MHD_POST_DATA_KIND key))
  end.

(** [get_argument<T>], for a type whose [operator >>] is [extract]: the variable of value
    [T()] afterwards.  The stream of a string never sets [badbit]. *)
Definition get_argument {T} (extract : T -> text -> T) (zero : T) (key : text) : prog scene T :=
  let! value := argument key in
  let result := extract zero value in
  let bad := false in
  if bad then raise (Throw runtime_error) else ret result.
End Arguments.

(** ** The server *)

(** Extraction of an unsigned number in decimal, as [hex_extract]. *)
Definition dec_extract_unsigned (max old : Z) (s : text) : Z :=
  match skip_space s with
  | [] => old
  | s =>
      let '(neg, s) := sign s in
      if starts_number dec_value s then
        let v := digits 10 dec_value 0 s in
        if max <? v then max else if neg then (- v) mod (max + 1) else v
      else 0
  end.

(** [config.get<uint16_t>(key, default_value)] *)
Definition get_uint16 (c : values) (key : text) (default_value : Z) : Z :=
  match try_get c key with None => default_value | Some value => dec_extract_unsigned ushort_max default_value value end.

Definition HttpServer_new (config : values) : server :=
  MkServer 0 (get_uint16 config (txt "http.port") 8080) None 0 [] [] [] [].

Definition HttpServer_delete : prog server unit := fun s => verify (negb (is_started s)) s.

(** [ok]: whether [MHD_start_daemon] gives a daemon. *)
Definition start (ok : bool) : prog server unit := fun s =>
  if is_started s then Ok tt s
  else
    (wr f_daemon (if ok then Some (daemons s) else None) ;;
     wr f_daemons (S (daemons s)) ;;
     verify ok) s.

Definition stop : prog server unit := fun s =>
  if negb (is_started s) then Ok tt s
  else
    (wr f_daemon None ;;
     wr f_scope (scope_ s + 1)) s.

(** [event_loop_.enqueue], of the [ScopedEventLoop]. *)
Definition enqueue (e : event) : prog server unit := fun s => Ok tt (fset f_queue (queue s ++ [(e, scope_ s)]) s).

Definition request_type (method : text) : option Request_Type :=
  if bool_decide (method = txt "GET") then Some Type_Get
  else if bool_decide (method = txt "POST") then Some Type_Create
  else if bool_decide (method = txt "PUT") then Some Type_Update
  else if bool_decide (method = txt "DELETE") then Some Type_Delete
  else None.

(** The result is whether the request is taken, [MHD_YES]. *)
Definition access_handler_cb (c : connection) (url method : text) : prog server bool :=
  match request_type method with
  | None => ret false
  | Some t => enqueue (Access c url t) ;; ret true
  end.

Definition access_handler (c : connection) (url : text) (t : Request_Type) : prog server unit := fun s =>
  if negb (is_started s) then Ok tt s else enqueue (Handle (Request_new c url t)) s.

(** ** What the program does with a request

    Its handler is not written yet: what it calls is an argument. *)
Inductive call : Type := AddReply (key value : text) | Redirect (uri : text) | Complete (r : Request_Result).

Definition do_call (c : call) : prog scene unit :=
  match c with AddReply k v => add_reply_string k v | Redirect uri => redirect uri | Complete r => complete r end.

(** The calls on a request; then it is kept, or its last holder lets it go. *)
Definition with_request (r : request) (calls : list call) (keep : bool) : prog server unit := fun s =>
  match (for_each calls do_call ;; if keep then ret tt else Request_delete) (MkScene s r) with
  | Ok _ s' => Ok tt (if keep then fset f_held (held (owner_ s') ++ [this s']) (owner_ s') else owner_ s')
  | Fault f s' => Fault f (owner_ s')
  end.

(** The loop takes the next event, as [handle_events] does: an event of another scope is
    dropped, and its request with it. *)
Definition handle_event (calls : list call) (keep : bool) : prog server unit :=
  let! q := rd f_queue in
  match q with
  | [] => ret tt
  | (e, sc) :: q =>
      wr f_queue q ;;
      let! scope := rd f_scope in
      match e with
      | Access c url t => when (scope =? sc) (access_handler c url t)
      | Handle r => if scope =? sc then with_request r calls keep else with_request r [] false
      end
  end.

(** What may happen: calls of the program, a request a daemon reports, a turn of the loop,
    calls on a request the program has kept. *)
Inductive input : Type :=
| Start (ok : bool)
| Stop
| Reported (url method : text)
| Turn (calls : list call) (keep : bool)
| Resume (i : nat) (calls : list call) (keep : bool).

Definition http_step (i : input) : prog server unit :=
  match i with
  | Start ok => start ok
  | Stop => stop
  | Reported url method => fun s =>
      match mhd_daemon_ s with
      | None => Ok tt s
      | Some d =>
          (let c := MkConn d (length (accepted s)) in
           let! yes := access_handler_cb c url method in
           when yes (wr f_accepted (accepted s ++ [c]))) s
      end
  | Turn calls keep => handle_event calls keep
  | Resume i calls keep => fun s =>
      match held s !! i with
      | None => Ok tt s
      | Some r => with_request r calls keep (fset f_held (delete i (held s)) s)
      end
  end.

(** ** One request *)

Definition add_reply (k v : text) (r : request) : request :=
  MkRequest (connection_ r) (url_ r) (type_ r) (completed_ r) (reply_strings_ r ++ [(k, v)]).

(** The responses that calls on a request give, and the request after them. *)
Definition reply_of (result : Request_Result) (r : request) : response :=
  MkResponse (connection_ r) (Result_value result) [(txt "Content-Type", txt "text/plain; charset=utf-8")]
    (if bool_decide (result = Result_OK) then reply_body (reply_strings_ r) [] else []).

Fixpoint answers (r : request) (calls : list call) : list response * request :=
  match calls with
  | [] => ([], r)
  | AddReply k v :: calls => answers (add_reply k v r) calls
  | Redirect uri :: calls =>
      let '(l, r') := answers (completed r) calls in
      (MkResponse (connection_ r) MHD_HTTP_MOVED_PERMANENTLY [(txt "Location", uri)] [] :: l, r')
  | Complete result :: calls => let '(l, r') := answers (completed r) calls in (reply_of result r :: l, r')
  end.

(** The response of the destructor. *)
Definition last_answer (r : request) : list response := if completed_ r then [] else [reply_of Result_InternalServerError r].

Lemma answers_request calls : forall r, connection_ (answers r calls).2 = connection_ r /\
  Forall (fun a => resp_connection a = connection_ r) (answers r calls).1 /\
  completed_ (answers r calls).2 = completed_ r || negb (bool_decide ((answers r calls).1 = [])).
Proof.
  induction calls as [|[k v|uri|x] calls IH]; intros r; cbn.
  - split; [done|]. split; [constructor|]. by rewrite orb_false_r.
  - exact (IH (add_reply k v r)).
  - specialize (IH (completed r)). destruct (answers (completed r) calls) as [l r']. cbn in *.
    destruct IH as (H1 & H2 & H3). rewrite H3, orb_true_r. by repeat constructor.
  - specialize (IH (completed r)). destruct (answers (completed r) calls) as [l r']. cbn in *.
    destruct IH as (H1 & H2 & H3). rewrite H3, orb_true_r. by repeat constructor.
Qed.

Lemma add_responses_nil s : fset f_responses (responses s ++ []) s = s.
Proof. rewrite app_nil_r. by destruct s. Qed.

(** While the daemon of the connection runs, the calls do what [answers] says. *)
Lemma do_calls_eq d calls : forall s r, mhd_daemon_ s = Some d -> of_daemon (connection_ r) = d ->
  for_each calls do_call (MkScene s r) = Ok tt (MkScene (fset f_responses (responses s ++ (answers r calls).1) s) (answers r calls).2).
Proof.
  assert (forall h b code s r, mhd_daemon_ s = Some d -> of_daemon (connection_ r) = d ->
    send_response h b code (MkScene s r) = Ok tt (MkScene (fset f_responses (responses s ++ [MkResponse (connection_ r) code h b]) s) (completed r))) as Hsend.
  { intros h b code s r Hs Hr. unfold send_response, bind at 1, use_connection, alive. cbn [owner_ this]. rewrite Hs, Hr.
    by rewrite bool_decide_eq_true_2. }
  induction calls as [|[k v|uri|x] calls IH]; intros s r Hs Hr; cbn [for_each answers].
  - cbn [fst snd]. by rewrite add_responses_nil.
  - exact (IH s (add_reply k v r) Hs Hr).
  - unfold bind at 1. cbn [do_call]. unfold redirect, bind at 1, init_response, ret at 1. rewrite Hsend by done.
    rewrite IH by done. destruct (answers (completed r) calls) as [l r']. cbn. by rewrite <- app_assoc.
  - unfold bind at 1. cbn [do_call]. unfold complete, bind at 1, rd at 1, bind at 1, init_response, ret at 1. rewrite Hsend by done.
    rewrite IH by done. destruct (answers (completed r) calls) as [l r']. cbn. by rewrite <- app_assoc.
Qed.

Lemma complete_eq d x s r : mhd_daemon_ s = Some d -> of_daemon (connection_ r) = d ->
  complete x (MkScene s r) = Ok tt (MkScene (fset f_responses (responses s ++ [reply_of x r]) s) (completed r)).
Proof.
  intros Hs Hr. pose proof (do_calls_eq d [Complete x] s r Hs Hr) as H. cbn [for_each do_call answers fst snd] in H. unfold bind at 1 in H.
  destruct (complete x (MkScene s r)) as [[] s'|f s']; [|done]. unfold ret in H. by injection H as ->.
Qed.

Lemma with_request_eq d r calls keep s : mhd_daemon_ s = Some d -> of_daemon (connection_ r) = d ->
  let '(l, r') := answers r calls in
  with_request r calls keep s =
    Ok tt (fset f_held (held s ++ if keep then [r'] else []) (fset f_responses (responses s ++ l ++ if keep then [] else last_answer r') s)).
Proof.
  intros Hs Hr. pose proof (do_calls_eq d calls s r Hs Hr) as Hc. destruct (answers_request calls r) as (Hr' & _ & _).
  destruct (answers r calls) as [l r'] eqn:Ha. cbn [fst snd] in *. unfold with_request, bind at 1. rewrite Hc. destruct keep.
  - cbn. by rewrite app_nil_r.
  - rewrite app_nil_r. unfold Request_delete, bind at 1, rd at 1, bind at 1, rd at 1. cbn [fget f_this f_owner owner_ this].
    change (is_started _) with (is_started s). unfold is_started, last_answer. rewrite Hs, andb_true_r.
    destruct (completed_ r') eqn:Hcr; cbn [negb when].
    + rewrite app_nil_r. by destruct s.
    + rewrite (complete_eq d) by (done || congruence). cbn. rewrite <- app_assoc. by destruct s.
Qed.

(** When no server runs, a request that is let go is not answered. *)
Lemma dropped_eq r s : mhd_daemon_ s = None -> with_request r [] false s = Ok tt s.
Proof.
  intros Hs. unfold with_request, Request_delete. cbn. unfold bind, rd. cbn. unfold is_started. rewrite Hs, andb_false_r. done.
Qed.

(** ** The answers of a server *)

Definition answered (s : server) : list connection := resp_connection <$> responses s.

Definition open_request (r : request) : option connection := if completed_ r then None else Some (connection_ r).
Definition open_event (e : event * Z) : option connection := match e.1 with Access c _ _ => Some c | Handle r => open_request r end.

(** The connections that wait. *)
Definition waiting (s : server) : list connection := omap open_event (queue s) ++ omap open_request (held s).

Record shared (accepted waiting answered : list connection) : Prop := Shared {
  shared_all : forall c, c ∈ accepted <-> c ∈ waiting \/ c ∈ answered;
  shared_once : NoDup waiting;
  shared_apart : forall c, c ∈ waiting -> c ∉ answered
}.

Lemma shared_perm a w w' r : w ≡ₚ w' -> shared a w r -> shared a w' r.
Proof. intros Hw [H1 H2 H3]. constructor; setoid_rewrite <- Hw; done. Qed.

Lemma shared_accept a w r c : c ∉ a -> shared a w r -> shared (a ++ [c]) (c :: w) r.
Proof.
  intros Hc [H1 H2 H3]. constructor.
  - intros x. rewrite elem_of_app, list_elem_of_singleton, elem_of_cons, H1. tauto.
  - apply list.NoDup_cons. split; [|done]. intros Hw. apply Hc, H1. by left.
  - intros x Hx Hr. apply elem_of_cons in Hx as [->|Hx]; [|by apply (H3 x)]. apply Hc, H1. by right.
Qed.

Lemma shared_answer a w r c l : l <> [] -> Forall (fun x => x = c) l -> shared a (c :: w) r -> shared a w (r ++ l).
Proof.
  intros Hne Hl [H1 H2 H3]. apply list.NoDup_cons in H2 as [Hc Hw]. rewrite list.Forall_forall in Hl.
  assert (forall x, x ∈ l <-> x = c) as Hin.
  { intros x. split; [apply Hl|]. intros ->. destruct l as [|y l]; [done|]. rewrite (Hl y) by by left. by left. }
  constructor; [|done|].
  - intros x. rewrite H1, elem_of_cons, elem_of_app, Hin. tauto.
  - intros x Hx. rewrite elem_of_app, Hin. intros [Hr| ->]; [|done]. apply (H3 x); [by right|done].
Qed.

Lemma shared_again a w r c l : c ∈ r -> Forall (fun x => x = c) l -> shared a w r -> shared a w (r ++ l).
Proof.
  intros Hc Hl [H1 H2 H3]. rewrite list.Forall_forall in Hl. constructor; [|done|].
  - intros x. rewrite H1, elem_of_app. split; [tauto|]. intros [H|[H|H]]; try tauto. rewrite (Hl x H). tauto.
  - intros x Hx. rewrite elem_of_app. intros [Hr|Hr]; [by apply (H3 x)|]. rewrite (Hl x Hr) in Hx. by apply (H3 c).
Qed.

(** The server runs with its first daemon. *)
Record sound (s : server) : Prop := Sound {
  inv_daemon : mhd_daemon_ s = Some 0%nat;
  inv_scope : Forall (fun e => e.2 = scope_ s) (queue s);
  inv_accepted : accepted s = MkConn 0 <$> seq 0 (length (accepted s));
  inv_events : Forall (fun e => match e.1 with Access c _ _ => of_daemon c = 0%nat | Handle r => of_daemon (connection_ r) = 0%nat end) (queue s);
  inv_held : Forall (fun r => of_daemon (connection_ r) = 0%nat /\ (completed_ r = true -> connection_ r ∈ answered s)) (held s)
}.

Definition http_inv (s : server) : Prop :=
  sound s /\ Forall (fun e => match e.1 with Access _ _ _ => True | Handle r => completed_ r = false end) (queue s) /\
  shared (accepted s) (waiting s) (answered s).

(** The connections that wait besides that of [r]. *)
Definition shared_with (s : server) (r : request) : Prop :=
  match open_request r with
  | Some c => shared (accepted s) (c :: waiting s) (answered s)
  | None => shared (accepted s) (waiting s) (answered s) /\ connection_ r ∈ answered s
  end.

Lemma with_request_inv s r calls keep :
  sound s -> Forall (fun e => match e.1 with Access _ _ _ => True | Handle r => completed_ r = false end) (queue s) ->
  of_daemon (connection_ r) = 0%nat -> shared_with s r ->
  wp total (with_request r calls keep) (fun _ s' => http_inv s' /\ queue s' = queue s /\ accepted s' = accepted s /\
    (keep = false -> held s' = held s)) s.
Proof.
  intros [Hd Hsc Hacc Hev Hheld] Hfresh Hr Hw.
 pose proof (with_request_eq 0 r calls keep s Hd Hr) as Heq.
  destruct (answers_request calls r) as (Hc & Hl & Hcomp). destruct (answers r calls) as [l r']. cbn [fst snd] in *.
  unfold wp. rewrite Heq. set (l2 := l ++ if keep then [] else last_answer r').
  assert (Forall (fun x => x = connection_ r) (resp_connection <$> l2)) as Hall.
  { apply Forall_fmap. unfold l2. apply Forall_app. split; [done|]. destruct keep; [constructor|].
    unfold last_answer. destruct (completed_ r'); repeat constructor. done. }
  assert (answered (fset f_held (held s ++ if keep then [r'] else []) (fset f_responses (responses s ++ l2) s)) =
          answered s ++ (resp_connection <$> l2)) as Hans by (unfold answered; cbn; apply fmap_app).
  split; [|split; [done|split; [done|intros ->; apply app_nil_r]]].
  split; [constructor; try done|split; [done|]].
  - cbn. apply Forall_app. split.
    + eapply Forall_impl; [|exact Hheld]. intros x [H1 H2]. split; [done|]. intros Hx. rewrite fmap_app. apply elem_of_app. left. by apply H2.
    + destruct keep; [|constructor]. repeat constructor; [congruence|]. rewrite Hcomp, fmap_app, Hc. intros H.
      apply elem_of_app. unfold shared_with, open_request in Hw. destruct (completed_ r); [left; by apply Hw|].
      cbn in H. apply negb_true_iff, bool_decide_eq_false in H. right. unfold l2. destruct l as [|x l]; [done|].
      cbn. apply Forall_cons_1 in Hl as [<- _]. by left.
  - rewrite Hans. unfold waiting. cbn. rewrite omap_app, app_assoc. fold (waiting s). unfold shared_with, open_request in Hw.
    destruct (completed_ r) eqn:Hcr.
    + destruct Hw as [Hw Hin]. replace (omap open_request _) with (@nil connection).
      2: { destruct keep; [|done]. cbn. unfold open_request. rewrite Hcomp. done. }
      rewrite app_nil_r. by apply (shared_again _ _ _ (connection_ r)).
    + cbn in Hcomp. destruct (decide (l2 = [])) as [Hnil|Hne].
      * apply app_eq_nil in Hnil as [-> Hk]. unfold l2. destruct keep.
        -- cbn. unfold open_request. rewrite Hcomp. cbn. rewrite app_nil_r, Hc. eapply shared_perm; [|exact Hw]. apply Permutation_cons_append.
        -- unfold last_answer in Hk. by rewrite Hcomp in Hk.
      * replace (omap open_request _) with (@nil connection).
        2: { destruct keep; [|done]. unfold l2 in Hne. rewrite app_nil_r in Hne. cbn. unfold open_request.
             rewrite Hcomp, bool_decide_eq_false_2 by done. done. }
        rewrite app_nil_r. apply (shared_answer _ _ _ (connection_ r)); [|done|done]. by destruct l2.
Qed.

(** The turns the events of the queue still need. *)
Definition work (q : list (event * Z)) : nat := sum_list_with (fun e => match e.1 with Access _ _ _ => 2%nat | Handle _ => 1%nat end) q.

Lemma http_event_inv s calls keep : http_inv s ->
  wp total (handle_event calls keep) (fun _ s' => http_inv s' /\ accepted s' = accepted s /\ work (queue s') = pred (work (queue s)) /\
    (keep = false -> held s' = held s)) s.
Proof.
  intros ([Hd Hsc Hacc Hev Hheld] & Hfresh & Hshared). unfold handle_event. apply wp_bind, wp_rd. cbn [fget f_queue].
  destruct (queue s) as [|[e sc] q] eqn:Hq.
  { apply wp_ret. rewrite Hq. split; [|done]. split; [|by rewrite Hq]. constructor; by rewrite ?Hq. }
  apply Forall_cons_1 in Hsc as [Hs1 Hsc], Hev as [He Hev], Hfresh as [Hf Hfresh]. cbn in Hs1, He, Hf. subst sc.
  set (s1 := fset f_queue q s). assert (sound s1) as Hs1 by by constructor.
  apply wp_bind, wp_wr, wp_bind, wp_rd. cbn [fget f_scope]. change (scope_ _) with (scope_ s). rewrite Z.eqb_refl.
  assert (waiting s = omap open_event [(e, scope_ s)] ++ waiting s1) as Hw.
  { unfold waiting. rewrite Hq. change ((e, scope_ s) :: q) with ([(e, scope_ s)] ++ q). by rewrite omap_app, <- app_assoc. }
  destruct e as [c url t|r].
  - cbn [when]. unfold wp, access_handler, is_started, enqueue. change (mhd_daemon_ _) with (mhd_daemon_ s). rewrite Hd. cbn.
    split; [split; [constructor; try done|split]|].
    + cbn. apply Forall_app. by repeat constructor.
    + cbn. apply Forall_app. by repeat constructor.
    + cbn. apply Forall_app. by repeat constructor.
    + eapply shared_perm; [|exact Hshared]. rewrite Hw. unfold waiting. cbn. rewrite omap_app. cbn.
      rewrite <- app_assoc. cbn. apply Permutation_middle.
    + split; [done|]. split; [|done]. unfold work. rewrite sum_list_with_app. cbn. lia.
  - rewrite (decide_True _ _) || idtac. eapply wp_mono; [apply (with_request_inv s1 r calls keep)|]; try done.
    + unfold shared_with, open_request. rewrite Hf. eapply shared_perm; [|exact Hshared]. rewrite Hw. cbn. unfold open_event, open_request. cbn. by rewrite Hf.
    + intros [] s' (Hinv & Hq' & Ha & Hh). split; [done|]. split; [by rewrite Ha|]. split; [by rewrite Hq'|done].
Qed.

Lemma http_step_inv s i : i <> Stop -> http_inv s -> wp total (http_step i) (fun _ s' => http_inv s') s.
Proof.
  intros Hi Hs. destruct i as [ok| |url method|calls keep|i calls keep]; [|done|..]; cbn [http_step].
  - destruct Hs as [Hs ?]. unfold wp, start, is_started. by rewrite (inv_daemon _ Hs).
  - destruct Hs as ([Hd Hsc Hacc Hev Hheld] & Hfresh & Hshared). unfold wp. rewrite Hd. unfold bind at 1, access_handler_cb.
    destruct (request_type method) as [t|]; [|done]. cbn. set (c := MkConn 0 (length (accepted s))).
    split; [constructor; try done|split].
    + cbn. apply Forall_app. by repeat constructor.
    + cbn. rewrite length_app, seq_app, fmap_app, <- Hacc. done.
    + cbn. apply Forall_app. by repeat constructor.
    + cbn. apply Forall_app. by repeat constructor.
    + cbn. eapply shared_perm; [|apply (shared_accept _ (waiting s) _ c); [|exact Hshared]].
      * unfold waiting. cbn. rewrite omap_app, <- app_assoc. cbn. apply Permutation_middle.
      * rewrite Hacc. intros Hc. apply list_elem_of_fmap in Hc as (n & Hn & Hin). injection Hn as Hn. apply elem_of_seq in Hin. lia.
  - eapply wp_mono; [by apply http_event_inv|]. by intros [] s' [H _].
  - unfold wp. destruct (held s !! i) as [r|] eqn:Hr; [|done]. destruct Hs as ([Hd Hsc Hacc Hev Hheld] & Hfresh & Hshared).
    destruct (Forall_lookup_1 _ _ _ _ Hheld Hr) as [Hof Hcompl]. set (s1 := fset f_held (delete i (held s)) s).
    assert (waiting s ≡ₚ omap open_request [r] ++ waiting s1) as Hw.
    { unfold waiting. cbn [fset f_held queue held s1]. rewrite (delete_Permutation (held s) i r Hr) at 1. change (r :: ?l) with ([r] ++ l).
      rewrite omap_app. apply Permutation_app_swap_app. }
    fold (wp total (with_request r calls keep) (fun _ s' => http_inv s') s1).
    eapply wp_mono; [apply (with_request_inv s1 r calls keep)|].
    + constructor; try done. by apply Forall_delete.
    + done.
    + done.
    + unfold shared_with, open_request. cbn in Hw. unfold open_request in Hw at 1. destruct (completed_ r); cbn in Hw.
      * split; [by eapply shared_perm|by apply Hcompl].
      * by eapply shared_perm.
    + by intros [] s' [H _].
Qed.

(** ** Properties *)

Definition turn (calls : list call) : input := Turn calls false.

Lemma turns_inv turns : forall s, http_inv s -> Forall (fun i => exists calls, i = turn calls) turns ->
  exists s', for_each turns http_step s = Ok tt s' /\ http_inv s' /\ accepted s' = accepted s /\ held s' = held s /\
    work (queue s') = (work (queue s) - length turns)%nat.
Proof.
  induction turns as [|i turns IH]; intros s Hs Ht.
  - exists s. split; [done|]. repeat (split; [done|]). cbn. lia.
  - apply Forall_cons_1 in Ht as [(calls & ->) Ht]. pose proof (http_event_inv s calls false Hs) as H.
    apply wp_total_inv in H as ([] & s1 & H1 & Hs1 & Ha & Hw & Hh). destruct (IH s1 Hs1 Ht) as (s' & H' & Hs' & Ha' & Hh' & Hw').
    exists s'. split; [|split; [done|split; [congruence|split; [rewrite Hh'; by apply Hh|rewrite Hw', Hw; cbn; lia]]]].
    cbn [for_each]. unfold bind. cbn [http_step turn]. by rewrite H1.
Qed.

Lemma no_work q : work q = 0%nat -> q = [].
Proof. destruct q as [|[[] sc] q]; [done|..]; unfold work; cbn; lia. Qed.

Lemma work_le q : (work q <= 2 * length q)%nat.
Proof. unfold work. induction q as [|[[] sc] q IH]; cbn in *; lia. Qed.

(** C31. Every request is answered.  Once the server is started, and as long as it is not
    stopped, whatever the program does in its handler or later with the requests it keeps,
    nothing fails; every connection the daemon was told is taken either has an answer, for which
    [MHD_queue_response] was called (the code does not look at its result), or still
    waits, never both, and it waits once; and connections that were refused get none.
    When the program has let its requests go, as many turns of the loop as there are
    events, two for a request that has not reached the handler, answer all that wait. *)
Theorem requests_answered (config : values) (inputs : list input) (turns : list input) :
  Forall (fun i => i <> Stop) inputs ->
  exists s, (start true ;; for_each inputs http_step) (HttpServer_new config) = Ok tt s /\
    shared (accepted s) (waiting s) (answered s) /\
    (held s = [] -> Forall (fun i => exists calls, i = turn calls) turns -> (2 * length (queue s) <= length turns)%nat ->
       exists s', for_each turns http_step s = Ok tt s' /\ accepted s' = accepted s /\ (forall c, c ∈ accepted s <-> c ∈ answered s')).
Proof.
  intros Hi. assert (wp total (start true ;; for_each inputs http_step) (fun _ s => http_inv s) (HttpServer_new config)) as H.
  { apply wp_bind. unfold wp at 1. cbn. eapply wp_for_each with (I := fun _ s => http_inv s).
    - split; [by constructor|]. split; [by constructor|]. constructor; [|by constructor|].
      + intros c. split; [by left|by intros [H|H]].
      + intros c H. by apply not_elem_of_nil in H.
    - intros done i rest s Heq Hs. apply http_step_inv; [|done]. rewrite list.Forall_forall in Hi. apply Hi. rewrite Heq.
      apply elem_of_app. right. by left.
    - done. }
  apply wp_total_inv in H as ([] & s & Hrun & Hs). exists s. split; [done|]. split; [apply Hs|].
  intros Hh Ht Hlen. destruct (turns_inv turns s Hs Ht) as (s' & H' & Hs' & Ha & Hh' & Hw). exists s'. split; [done|]. split; [done|].
  pose proof (work_le (queue s)) as Hmax.
  assert (waiting s' = []) as Hnone. { unfold waiting. rewrite Hh', Hh, (no_work (queue s')) by lia. done. }
  destruct Hs' as (_ & _ & [Hall _ _]). intros c. rewrite <- Ha, Hall, Hnone. split; [|by right].
  intros [H|H]; [by apply not_elem_of_nil in H|done].
Qed.

(** Two requests: one is answered by its handler, the other kept for later; a third, with another
    method, is refused. *)
Definition sample_inputs : list input :=
  [Reported (txt "/light") (txt "GET"); Reported (txt "/door") (txt "PUT"); Reported (txt "/x") (txt "PATCH");
   Turn [] false; Turn [] false; Turn [AddReply (txt "state") (txt "on"); Complete Result_OK] false; Turn [] true].

Lemma requests_answered_witness :
  exists s, (start true ;; for_each sample_inputs http_step) (HttpServer_new []) = Ok tt s /\
    shared (accepted s) (waiting s) (answered s) /\ waiting s = [MkConn 0 1] /\
    responses s = [MkResponse (MkConn 0 0) 200 [(txt "Content-Type", txt "text/plain; charset=utf-8")] (txt "state: on" ++ newline)].
Proof.
  destruct (requests_answered [] sample_inputs []) as (s & H & Hs & _).
  - by repeat constructor.
  - exists s. split; [exact H|]. split; [exact Hs|]. vm_compute in H. by injection H as <-.
Defined.

(** The reply of a request.  A handler that adds reply strings and completes the request
    with success gives one response with status 200 and a line for each string, in order; with
    another result one response with its status and no body; one that does neither
    gives status 500 when the request is let go. *)
Theorem request_reply (d : nat) (r : request) (strings : list (text * text)) (result : Request_Result) (s : server) :
  mhd_daemon_ s = Some d -> of_daemon (connection_ r) = d -> completed_ r = false -> reply_strings_ r = [] ->
  let replies := (fun p => AddReply p.1 p.2) <$> strings in
  let line := fun p : text * text => p.1 ++ txt ": " ++ p.2 ++ newline in
  let reply := fun code body => MkResponse (connection_ r) code [(txt "Content-Type", txt "text/plain; charset=utf-8")] body in
  with_request r (replies ++ [Complete result]) false s =
    Ok tt (fset f_responses (responses s ++ [reply (Result_value result) (if bool_decide (result = Result_OK) then concat (line <$> strings) else [])]) s) /\
  with_request r replies false s = Ok tt (fset f_responses (responses s ++ [reply 500 []]) s).
Proof.
  intros Hs Hr Hc Hl replies line reply.
  assert (forall l r, answers r (((fun p => AddReply p.1 p.2) <$> strings) ++ l) =
            answers (MkRequest (connection_ r) (url_ r) (type_ r) (completed_ r) (reply_strings_ r ++ strings)) l) as Hadd.
  { clear. induction strings as [|[k v] strings IH]; intros l r; cbn.
    - rewrite app_nil_r. by destruct r.
    - rewrite IH. cbn. by rewrite <- app_assoc. }
  assert (forall l b, reply_body l b = b ++ concat (line <$> l)) as Hbody.
  { clear. induction l as [|[k v] l IH]; intros b; cbn; [by rewrite app_nil_r|]. by rewrite IH, <- app_assoc. }
  split.
  - pose proof (with_request_eq d r (replies ++ [Complete result]) false s Hs Hr) as H. unfold replies in H at 1. rewrite Hadd in H. cbn in H.
    rewrite H. rewrite !app_nil_r. unfold reply_of. cbn. rewrite Hl, Hbody. by destruct s.
  - pose proof (with_request_eq d r replies false s Hs Hr) as H. pose proof (Hadd [] r) as Ha. rewrite app_nil_r in Ha.
    fold replies in Ha. rewrite Ha in H. cbn in H. rewrite H. unfold last_answer. cbn. rewrite Hc, app_nil_r. by destruct s.
Qed.

Definition sample_request : request := Request_new (MkConn 0 7) (txt "/light") Type_Get.
Definition sample_server : server := MkServer 2 8080 (Some 0%nat) 1 [(Handle sample_request, 2)] [sample_request] [MkConn 0 7] [].

Lemma request_reply_witness :
  with_request sample_request [AddReply (txt "a") (txt "1"); AddReply (txt "b") (txt "2"); Complete Result_OK] false sample_server =
    Ok tt (fset f_responses [MkResponse (MkConn 0 7) 200 [(txt "Content-Type", txt "text/plain; charset=utf-8")]
      (txt "a: 1" ++ newline ++ txt "b: 2" ++ newline)] sample_server).
Proof. exact (proj1 (request_reply 0 sample_request [(txt "a", txt "1"); (txt "b", txt "2")] Result_OK sample_server eq_refl eq_refl eq_refl eq_refl)). Defined.

(** Nothing keeps a request from being completed twice; nor does an argument that is no
    number make [get_argument] throw. *)
Example completed_twice : (fun r => match r with Ok _ s => length (responses s) | Fault _ _ => 0%nat end)
  (with_request sample_request [Complete Result_OK; Complete Result_NotFound] false sample_server) = 2%nat.
Proof. reflexivity. Qed.

Example argument_not_a_number : get_argument (fun _ _ _ => Some (txt "on")) (dec_extract_unsigned uint_max) 0 (txt "level") (MkScene sample_server sample_request) =
  Ok 0 (MkScene sample_server sample_request).
Proof. reflexivity. Qed.

(** Stopped, with a request of the daemon waiting in the program. *)
Lemma stop_eq s d : mhd_daemon_ s = Some d -> stop s = Ok tt (fset f_scope (scope_ s + 1) (fset f_daemon None s)).
Proof. intros Hd. unfold stop, is_started. by rewrite Hd. Qed.

Definition restarted (s : server) : server :=
  fset f_daemons (S (daemons s)) (fset f_daemon (Some (daemons s)) (fset f_scope (scope_ s + 1) (fset f_daemon None s))).

Lemma restart_eq s : start true (fset f_scope (scope_ s + 1) (fset f_daemon None s)) = Ok tt (restarted s).
Proof. done. Qed.

(** A request that is let go while another daemon runs. *)
Lemma dead_eq r d s : mhd_daemon_ s = Some d -> of_daemon (connection_ r) <> d -> completed_ r = false ->
  exists s', with_request r [] false s = Fault Undefined s'.
Proof.
  intros Hs Hr Hc. eexists. unfold with_request, Request_delete. cbn [for_each]. unfold bind at 1, ret at 1, bind at 1, rd at 1, bind at 1, rd at 1.
  cbn [fget f_this f_owner owner_ this]. unfold is_started. rewrite Hs, Hc. cbn [negb andb when].
  unfold complete, bind at 1, rd at 1, bind at 1, init_response, ret at 1, send_response, bind at 1, use_connection, alive. cbn [fget f_this owner_ this].
  rewrite Hs, bool_decide_eq_false_2 by congruence. reflexivity.
Qed.

(** Stopping.  [stop] leaves the requests it was told of unanswered: their events are
    dropped by the loop without the handler, and nothing is sent for them or for a request
    the program lets go.  But if the server is started again before that, the destructor of
    a request finds it running, and answers a connection of the daemon that is gone. *)
Theorem stopped_requests (s : server) (d : nat) (r : request) (sc : Z) (q : list (event * Z)) (calls : list call) (keep : bool) :
  mhd_daemon_ s = Some d -> Forall (fun e => e.2 = scope_ s) (queue s) -> (d < daemons s)%nat ->
  (forall turns, Forall (fun i => exists calls keep, i = Turn calls keep) turns -> length turns = length (queue s) ->
     exists s', for_each (Stop :: turns) http_step s = Ok tt s' /\ queue s' = [] /\ held s' = held s /\ responses s' = responses s) /\
  (held s = [r] -> of_daemon (connection_ r) = d -> completed_ r = false ->
     (exists s', for_each [Stop; Resume 0 [] false] http_step s = Ok tt s' /\ held s' = [] /\ responses s' = responses s) /\
     exists s', for_each [Stop; Start true; Resume 0 [] false] http_step s = Fault Undefined s') /\
  (queue s = (Handle r, sc) :: q -> of_daemon (connection_ r) = d -> completed_ r = false ->
     exists s', for_each [Stop; Start true; Turn calls keep] http_step s = Fault Undefined s').
Proof.
  intros Hd Hsc Hlt. split; [|split].
  - intros turns Ht Hlen. cbn [for_each]. unfold bind at 1. cbn [http_step]. rewrite (stop_eq s d Hd).
    set (s1 := fset f_scope _ _). assert (forall turns s2, Forall (fun i => exists calls keep, i = Turn calls keep) turns ->
      mhd_daemon_ s2 = None -> Forall (fun e => e.2 <> scope_ s2) (queue s2) -> length turns = length (queue s2) ->
      exists s', for_each turns http_step s2 = Ok tt s' /\ queue s' = [] /\ held s' = held s2 /\ responses s' = responses s2) as Hturns.
    { clear. induction turns as [|i turns IH]; intros s Ht Hd Hsc Hlen.
      - exists s. cbn in Hlen. by destruct (queue s).
      - apply Forall_cons_1 in Ht as [(calls & keep & ->) Ht]. destruct (queue s) as [|[e sc] q] eqn:Hq; [done|].
        apply Forall_cons_1 in Hsc as [Hne Hsc]. cbn in Hne.
        assert (http_step (Turn calls keep) s = Ok tt (fset f_queue q s)) as Hstep.
        { cbn [http_step]. unfold handle_event, bind at 1, rd at 1. cbn [fget f_queue]. rewrite Hq. unfold bind at 1, wr at 1, bind at 1, rd at 1.
          cbn [fget f_scope]. change (scope_ (fset f_queue q s)) with (scope_ s). rewrite (proj2 (Z.eqb_neq _ _)) by congruence.
          destruct e; [done|]. by apply dropped_eq. }
        destruct (IH (fset f_queue q s) Ht Hd Hsc ltac:(cbn in *; lia)) as (s' & H' & H). exists s'. split; [|exact H].
        cbn [for_each]. unfold bind at 1. by rewrite Hstep. }
    refine (Hturns turns s1 Ht eq_refl _ Hlen). eapply Forall_impl; [|exact Hsc]. intros x Hx. change (x.2 <> scope_ s + 1). rewrite Hx. lia.
  - intros Hh Hof Hc. split.
    + eexists. cbn [for_each]. unfold bind at 1. cbn [http_step]. rewrite (stop_eq s d Hd). unfold bind at 1.
      cbn [http_step]. change (held (fset _ _ _)) with (held s). rewrite Hh. cbn [lookup list_lookup]. rewrite dropped_eq by done. done.
    + cbn [for_each]. unfold bind at 1. cbn [http_step]. rewrite (stop_eq s d Hd). unfold bind at 1. rewrite restart_eq.
      unfold bind at 1. cbn [http_step]. change (held (restarted s)) with (held s). rewrite Hh. cbn [lookup list_lookup].
      destruct (dead_eq r (daemons s) (fset f_held (delete 0%nat [r]) (restarted s))) as (s' & ->); [done|lia|done|]. by eexists.
  - intros Hq Hof Hc. cbn [for_each]. unfold bind at 1. cbn [http_step]. rewrite (stop_eq s d Hd). unfold bind at 1. rewrite restart_eq.
    unfold bind at 1. cbn [http_step]. unfold handle_event, bind at 1, rd at 1. cbn [fget f_queue]. change (queue (restarted s)) with (queue s).
    rewrite Hq in Hsc |- *. apply Forall_cons_1 in Hsc as [Hsc _]. cbn in Hsc. unfold bind at 1, wr at 1, bind at 1, rd at 1. cbn [fget f_scope].
    change (scope_ (fset f_queue q (restarted s))) with (scope_ s + 1). rewrite (proj2 (Z.eqb_neq _ _)) by lia.
    destruct (dead_eq r (daemons s) (fset f_queue q (restarted s))) as (s' & ->); [done|lia|done|]. by eexists.
Qed.

Lemma stopped_requests_witness :
  (exists s', for_each [Stop; Resume 0 [] false] http_step sample_server = Ok tt s' /\ held s' = [] /\ responses s' = []) /\
  (exists s', for_each [Stop; Start true; Resume 0 [] false] http_step sample_server = Fault Undefined s').
Proof.
  destruct (stopped_requests sample_server 0 sample_request 2 [] [] false eq_refl) as (_ & H & _).
  - by repeat constructor.
  - unfold sample_server. cbn. lia.
  - exact (H eq_refl eq_refl eq_refl).
Defined.
