(* ===== verification/Heater.v ===== *)
(** The server of the heater, [firmware/ti/heater/tcp_server.cpp]: it tells each client that
    connects the identifier of the device on the 1-wire bus.

    The sockets of the network stack are the class [Net], with the laws [NetLaws]; the bus
    is that of TiOnewire.  The function goes on after the [return] that follows the
    identifier, with the measurement of a temperature; that part is never reached and not
    modelled. *)

From Stdlib Require Import String.
From stdpp Require Import gmap.
From S2P Require Import Prelude Monad Text Crc TiOnewire.

(** ** The network stack *)

(** A result of -1 is an error; [net_setsockopt] has any negative result as one. *)
Class Net (K : Type) : Type := {
  net_socket : prog K Z;
  net_bind : Z -> Z -> prog K Z;
  net_listen : Z -> Z -> prog K Z;
  net_setsockopt : Z -> prog K Z;
  net_accept : Z -> prog K Z;
  net_send : Z -> text -> prog K unit;
  net_close : Z -> prog K unit
}.

Definition TELNET_PORT : Z := 23.
Definition ONEWIRE_RX : Z := 2.
Definition ONEWIRE_TX : Z := 3.

Section Server.
Context {W : Type} {RW : Rtos W} {K : Type} {NK : Net K}.

(** The hardware of the board: the bus, and the network. *)
Record board : Type := MkBoard { bus : W; net : K }.
Definition f_bus : field board W := Field bus (fun v b => MkBoard v (net b)).
Definition f_net : field board K := Field net (fun v b => MkBoard (bus b) v).

Record server : Type := MkServer { server_fd_ : Z; started_ : bool }.

(** [CanServer::CanServer()] *)
Definition CanServer_new : prog K server :=
  let! server_fd := net_socket in
  if server_fd =? -1 then ret (MkServer server_fd false)
  else
    let! bound := net_bind server_fd TELNET_PORT in
    if bound =? -1 then ret (MkServer server_fd false)
    else
      let! listening := net_listen server_fd 1 in
      if listening =? -1 then ret (MkServer server_fd false)
      else
        let! set := net_setsockopt server_fd in
        if set <? 0 then ret (MkServer server_fd false)
        else ret (MkServer server_fd true).

Definition CanServer_delete (s : server) : prog K unit := when (negb (server_fd_ s =? -1)) (net_close (server_fd_ s)).

Definition send_str (fd : Z) (str : text) : prog board unit := on_part f_net (net_send fd str).

Definition newline : text := ["010"%char].

(** [sprintf(tmp, "uid = 0x%llx\n", id)]; [tmp] has 64 characters, one of them for the end
    of the string. *)
Definition uid_line (id : Z) : prog board text :=
  let tmp := txt "uid = 0x" ++ hex_out 0 id ++ newline in
  if (length tmp <? 64)%nat then ret tmp else raise OutOfBounds.

Definition handle_session (client_fd : Z) (master : Master) : prog board unit :=
  send_str client_fd (txt "Issue RESET..." ++ newline) ;;
  let! found := on_part f_bus (Session_reset master) in
  if negb found then send_str client_fd (txt "No PD pulse :(" ++ newline)
  else
    let! id := on_part f_bus (Session_read_rom master) in
    let! tmp := uid_line id in
    send_str client_fd tmp.

Definition handle_connection (client_fd : Z) : prog board unit :=
  send_str client_fd (txt "Measuring temperature..." ++ newline) ;;
  let! master := on_part f_bus (Master_new ONEWIRE_RX ONEWIRE_TX Timer_ANY) in
  handle_session client_fd master ;;
  on_part f_bus (Master_delete master).

(** The loop of [run], [clients] turns of it: whether it has ended. *)
Fixpoint accept_loop (s : server) (clients : nat) : prog board bool :=
  match clients with
  | O => ret false
  | S n =>
      let! client_fd := on_part f_net (net_accept (server_fd_ s)) in
      if client_fd =? -1 then ret true
      else
        handle_connection client_fd ;;
        on_part f_net (net_close client_fd) ;;
        accept_loop s n
  end.

Definition run (s : server) (clients : nat) : prog board bool :=
  if negb (started_ s) then ret true else accept_loop s clients.

(** [tcp_server]: [CanServer().run()]; the server is destroyed when [run] has returned. *)
Definition tcp_server (clients : nat) : prog board bool :=
  let! s := on_part f_net CanServer_new in
  let! ended := run s clients in
  when ended (on_part f_net (CanServer_delete s)) ;;
  ret ended.
End Server.
Arguments board W K : clear implicits.

(** ** What the network stack says

    [opened]: the descriptors in use; [sent]: what was sent on a descriptor, oldest first. *)
Class NetLaws {K} (N : Net K) : Type := {
  opened : K -> gset Z;
  sent : K -> list (Z * text);
  socket_law k : wp total net_socket (fun fd k' => sent k' = sent k /\
    if fd =? -1 then opened k' = opened k else (fd ∉ opened k) /\ opened k' = ({[fd]} ∪ opened k)) k;
  bind_law fd port k : wp total (net_bind fd port) (fun _ k' => sent k' = sent k /\ opened k' = opened k) k;
  listen_law fd n k : wp total (net_listen fd n) (fun _ k' => sent k' = sent k /\ opened k' = opened k) k;
  setsockopt_law fd k : wp total (net_setsockopt fd) (fun _ k' => sent k' = sent k /\ opened k' = opened k) k;
  accept_law fd k : wp total (net_accept fd) (fun c k' => sent k' = sent k /\
    if c =? -1 then opened k' = opened k else (c ∉ opened k) /\ opened k' = ({[c]} ∪ opened k)) k;
  send_law fd s k : wp total (net_send fd s) (fun _ k' => sent k' = sent k ++ [(fd, s)] /\ opened k' = opened k) k;
  close_law fd k : wp total (net_close fd) (fun _ k' => sent k' = sent k /\ opened k' = opened k ∖ {[fd]}) k
}.

(** ** The bus *)

Section Bus.
Variable m : Master.
Implicit Types w : Wire.

(** A device answers when the pin reads low. *)
Definition presence (l : list bool) : bool := match l with [] => false | p :: _ => negb p end.

Lemma Session_reset_wp w : wp total (Session_reset m) (fun f w' => f = presence (answers w) /\
  exists es, w' = MkWire (events w ++ es) (tail (answers w)) 500) w.
Proof. unfold wp, Session_reset. destruct w as [es [|[] l] n]; cbn; (split; [done|]); rewrite <- !app_assoc; by eexists. Qed.

Lemma Master_new_wp i o t w : wp total (Master_new i o t) (fun a w' => a = MkMaster i o 0 0 /\ w' = w) w.
Proof. by split. Qed.

Lemma Master_delete_wp w : wp total (Master_delete m) (fun _ w' => w' = w) w.
Proof. reflexivity. Qed.

(** A read of any bus gives a number of so many bits: an idle bus reads as ones. *)
Lemma Session_read_any bits w : 0 <= bits <= 32 -> wp total (Session_read m bits) (fun v _ => 0 <= v < 2 ^ bits) w.
Proof.
  intros Hbits. unfold Session_read, HwiLock. apply wp_bind, wp_ret, wp_bind.
  apply (wp_for_acc _ _ _ (fun done v _ => exists l, v = lsb_first l /\ length l = length done)).
  - by exists [].
  - intros done bit rest v w' Heq (l & -> & Hl). apply range_split in Heq as [-> Hx].
    enough (exists b, wp total (Session_low m 5 ;; Session_wait m 10 ;; let! p := Pin_read (input_pin_ m) in
        let! result := (if p then let! b := bit32 (Z.of_nat (length done)) in ret (Z.lor (lsb_first l) b) else ret (lsb_first l)) in
        Session_wait m (45 + 2) ;; ret result)
      (fun v' _ => v' = Z.lor (lsb_first l) (if b : bool then Z.shiftl 1 (Z.of_nat (length l)) else 0)) w') as (b & H).
    { eapply wp_mono; [exact H|]. intros v' w'' ->. exists (l ++ [b]). by rewrite lsb_first_snoc, !length_app, Hl. }
    exists (match answers w' with b :: _ => b | [] => true end). rewrite Hl. unfold wp, bit32. destruct w' as [es [|[] a] n]; cbn;
      rewrite ?(proj2 (Z.ltb_lt _ 32)) by lia; cbn; rewrite ?Z.lor_0_r; done.
  - intros v w' (l & -> & Hl). apply wp_bind, wp_ret. pose proof (lsb_first_range l) as H. rewrite Hl in H. unfold range in H.
    rewrite length_fmap, length_seq, Z2Nat.id in H by lia. exact H.
Qed.

Lemma read_rom_any w : wp total (Session_read_rom m) (fun id _ => 0 <= id < 2 ^ 64) w.
Proof.
  unfold Session_read_rom. apply wp_bind. eapply wp_mono; [apply Session_write_wp; lia|]. intros [] w1 _.
  apply wp_bind. eapply wp_mono; [apply Session_read_any; lia|]. intros lo w2 Hlo.
  apply wp_bind. eapply wp_mono; [apply Session_read_any; lia|]. intros hi w3 Hhi. apply wp_ret. cbn beta in Hlo.
  assert (Z.lor (u64 (Z.shiftl hi 32)) lo = Z.lor (u64 (Z.shiftl hi 32)) lo mod 2 ^ 64) as ->; [|by apply Z.mod_pos_bound].
  apply Z.bits_inj'. intros i Hi. destruct (decide (i < 64)).
  - by rewrite (Z.mod_pow2_bits_low (Z.lor _ _)) by lia.
  - rewrite (Z.mod_pow2_bits_high (Z.lor _ _)), Z.lor_spec by lia. unfold u64. rewrite Z.mod_pow2_bits_high by lia.
    apply (testbit_bounded lo 32); lia.
Qed.

(** The line fits its buffer. *)
Lemma uid_line_eq {K} id (s : board Wire K) : 0 <= id < 2 ^ 64 -> uid_line id s = Ok (txt "uid = 0x" ++ hex_out 0 id ++ newline) s.
Proof.
  intros Hid. unfold uid_line. replace (_ <? 64)%nat with true; [done|]. symmetry. apply Nat.ltb_lt.
  rewrite !length_app. unfold hex_out. rewrite length_app, length_replicate, hex_digits_length. unfold hex_length.
  assert (Z.log2 id / 4 <= 15) as Hlog.
  { destruct (decide (id = 0)) as [->|Hne]; [done|]. assert (Z.log2 id < 64) by (apply Z.log2_lt_pow2; lia).
    change 15 with (63 / 4). apply Z.div_le_mono; lia. }
  change (length (txt "uid = 0x")) with 8%nat. change (length newline) with 1%nat. lia.
Qed.
End Bus.

(** ** Properties *)

Section Properties.
Context {K : Type} {N : Net K} {L : NetLaws N}.
Implicit Types b : board Wire K.

Lemma wp_send fd s b (Q : unit -> board Wire K -> Prop) :
  (forall k', sent k' = sent (net b) ++ [(fd, s)] -> opened k' = opened (net b) -> Q tt (MkBoard (bus b) k')) -> wp total (send_str fd s) Q b.
Proof.
  intros HQ. pose proof (send_law fd s (net b)) as H. apply wp_total_inv in H as ([] & k' & Hk & H1 & H2).
  unfold wp, send_str, on_part. cbn [fget f_net]. rewrite Hk. by apply HQ.
Qed.

Lemma wp_on_bus {A} (m : prog Wire A) (P : A -> Wire -> Prop) b (Q : A -> board Wire K -> Prop) :
  wp total m P (bus b) -> (forall a w, P a w -> Q a (MkBoard w (net b))) -> wp total (on_part f_bus m) Q b.
Proof.
  intros Hm HQ. apply wp_total_inv in Hm as (a & w & Hw & H). unfold wp, on_part. cbn [fget f_bus]. rewrite Hw. by apply HQ.
Qed.

(** What a connection is sent, when the bus reads [found] and then [id]. *)
Definition told (fd : Z) (found : bool) (id : Z) : list (Z * text) :=
  [(fd, txt "Measuring temperature..." ++ newline); (fd, txt "Issue RESET..." ++ newline);
   (fd, if found then txt "uid = 0x" ++ hex_out 0 id ++ newline else txt "No PD pulse :(" ++ newline)].

(** One connection: whatever the bus answers, it ends, and three lines are sent. *)
Lemma handle_connection_wp fd b (P : Z -> Wire -> Prop) :
  (forall m es, presence (answers (bus b)) = true ->
     wp total (Session_read_rom m) (fun id w => 0 <= id < 2 ^ 64 /\ P id w) (MkWire (events (bus b) ++ es) (tail (answers (bus b))) 500)) ->
  wp total (handle_connection fd) (fun _ b' => opened (net b') = opened (net b) /\
    exists id, sent (net b') = sent (net b) ++ told fd (presence (answers (bus b))) id /\
      (presence (answers (bus b)) = true -> P id (bus b'))) b.
Proof.
  intros Hread. unfold handle_connection. apply wp_bind, wp_send. intros k1 Hs1 Ho1. cbn [net bus] in *.
  apply wp_bind. eapply wp_on_bus; [apply Master_new_wp|]. intros m w [-> ->]. cbn [net].
  apply wp_bind. eapply (wp_mono _ (fun _ b' => opened (net b') = opened (net b) /\
    exists id, sent (net b') = sent (net b) ++ told fd (presence (answers (bus b))) id /\ (presence (answers (bus b)) = true -> P id (bus b')))).
  2: { intros [] b' H. eapply wp_on_bus; [apply Master_delete_wp|]. intros [] w ->. by destruct b'. }
  unfold handle_session. apply wp_bind, wp_send. intros k2 Hs2 Ho2. cbn [net bus] in *.
  apply wp_bind. eapply wp_on_bus; [apply Session_reset_wp|]. intros f w (-> & es & ->). cbn [net bus].
  unfold told. destruct (presence (answers (bus b))) eqn:Hp; cbn [negb].
  - apply wp_bind. eapply wp_on_bus; [cbn [bus]; apply Hread; done|]. intros id w [Hid HP]. cbn [net].
    apply wp_bind. eapply wp_eq; [by apply uid_line_eq|]. apply wp_send. intros k3 Hs3 Ho3. cbn [fset fget f_bus bus net] in Hs3, Ho3 |- *.
    split; [by rewrite Ho3, Ho2, Ho1|]. exists id. split; [|by intros _]. rewrite Hs3, Hs2, Hs1, <- !app_assoc. reflexivity.
  - apply wp_send. intros k3 Hs3 Ho3. cbn [fset fget f_bus bus net] in Hs3, Ho3 |- *. split; [by rewrite Ho3, Ho2, Ho1|]. exists 0. split; [|by intros].
    rewrite Hs3, Hs2, Hs1, <- !app_assoc. reflexivity.
Qed.

(** C33. What a client of the heater learns.  If a device answers the reset of the bus and sends its
    64 bits, low bit first, the client is sent that identifier in hexadecimal; if none
    answers, it is told so.  Nothing else is sent, and the line always fits the buffer
    it is printed to. *)
Theorem heater_reports_identifier fd b rom rest : 0 <= rom < 2 ^ 64 ->
  (answers (bus b) = false :: low_bits 64 rom ++ rest ->
     wp total (handle_connection fd) (fun _ b' => sent (net b') = sent (net b) ++ told fd true rom /\ answers (bus b') = rest) b) /\
  (presence (answers (bus b)) = false ->
     wp total (handle_connection fd) (fun _ b' => sent (net b') = sent (net b) ++ told fd false 0) b).
Proof.
  intros Hrom. split; intros Ha.
  - eapply wp_mono; [apply (handle_connection_wp fd b (fun id w => id = rom /\ answers w = rest))|].
    + intros m es _. rewrite Ha. eapply wp_mono; [apply (read_rom_answered m rom rest); done|]. intros id w (-> & H & _).
      split; [exact Hrom|]. split; [reflexivity|exact H].
    + rewrite Ha. intros [] b' (_ & id & H1 & H2). destruct (H2 eq_refl) as [-> H3]. split; [exact H1|exact H3].
  - eapply wp_mono; [apply (handle_connection_wp fd b (fun _ _ => True)); rewrite Ha; intros m es H; discriminate H|].
    rewrite Ha. intros [] b' (_ & id & H & _). exact H.
Qed.

(** The loop keeps the descriptors it found. *)
Lemma accept_loop_wp s n : forall b, wp total (accept_loop s n) (fun _ b' => opened (net b') = opened (net b)) b.
Proof.
  induction n as [|n IH]; intros b; [by apply wp_ret|]. cbn [accept_loop]. apply wp_bind.
  pose proof (accept_law (server_fd_ s) (net b)) as H. apply wp_total_inv in H as (c & k1 & Hk1 & _ & Ho1).
  unfold wp at 1, on_part. cbn [fget f_net]. rewrite Hk1. destruct (c =? -1); [by apply wp_ret|]. destruct Ho1 as [Hnew Ho1].
  apply wp_bind. eapply wp_mono; [apply (handle_connection_wp c _ (fun _ _ => True))|].
  { intros m es _. eapply wp_mono; [apply read_rom_any|]. by intros id w H. }
  intros [] b2 [Ho2 _]. apply wp_bind. pose proof (close_law c (net b2)) as H. apply wp_total_inv in H as ([] & k3 & Hk3 & _ & Ho3).
  unfold wp at 1, on_part. cbn [fget f_net]. rewrite Hk3. eapply wp_mono; [apply IH|]. intros e b4 Ho4. cbn in Ho4, Ho2.
  rewrite Ho4, Ho3, Ho2, Ho1. set_solver.
Qed.

(** Descriptors.  However many clients come and whatever the bus and the network do, the
    server ends with the descriptors it was started with: each connection is closed after
    its identifier is told, and the listening socket when [accept] fails, or when it could
    not be bound; and while it still serves, only the listening socket is open besides. *)
Theorem heater_closes_descriptors n b :
  wp total (tcp_server n) (fun ended b' =>
    if ended : bool then opened (net b') = opened (net b)
    else exists fd, (fd ∉ opened (net b)) /\ opened (net b') = ({[fd]} ∪ opened (net b))) b.
Proof.
  unfold tcp_server. apply wp_bind.
  assert (wp total CanServer_new (fun s k => if server_fd_ s =? -1 then started_ s = false /\ opened k = opened (net b)
    else (server_fd_ s ∉ opened (net b)) /\ opened k = ({[server_fd_ s]} ∪ opened (net b))) (net b)) as Hnew.
  { unfold CanServer_new. apply wp_bind. eapply wp_mono; [apply socket_law|]. intros fd k1 [_ H1]. destruct (fd =? -1) eqn:Hfd.
    { apply wp_ret. cbn. by rewrite Hfd. }
    apply wp_bind. eapply wp_mono; [apply bind_law|]. intros r2 k2 [_ H2]. destruct (r2 =? -1); [apply wp_ret; cbn; by rewrite Hfd, H2|].
    apply wp_bind. eapply wp_mono; [apply listen_law|]. intros r3 k3 [_ H3]. destruct (r3 =? -1); [apply wp_ret; cbn; by rewrite Hfd, H3, H2|].
    apply wp_bind. eapply wp_mono; [apply setsockopt_law|]. intros r4 k4 [_ H4].
    destruct (r4 <? 0); apply wp_ret; cbn; by rewrite Hfd, H4, H3, H2. }
  apply wp_total_inv in Hnew as (s & k & Hk & Hs). unfold wp at 1, on_part at 1. cbn [fget f_net]. rewrite Hk.
  apply wp_bind. eapply (wp_mono _ (fun ended b' => opened (net b') = opened k /\ (server_fd_ s = -1 -> ended = true))).
  { unfold run. destruct (started_ s) eqn:Hst; cbn [negb].
    - eapply wp_mono; [apply accept_loop_wp|]. intros e b' H. split; [exact H|]. intros Hfd. rewrite Hfd in Hs. by destruct Hs.
    - by apply wp_ret. }
  intros ended b2 [Ho Hend]. apply wp_bind. destruct ended; cbn [when].
  - unfold CanServer_delete. destruct (server_fd_ s =? -1) eqn:Hfd; cbn [negb when].
    + unfold wp, on_part, bind, ret. cbn. destruct Hs as [_ Hs]. congruence.
    + pose proof (close_law (server_fd_ s) (net b2)) as H. apply wp_total_inv in H as ([] & k3 & Hk3 & _ & Ho3).
      unfold wp at 1, on_part. cbn [fget f_net]. rewrite Hk3. apply wp_ret. cbn. rewrite Ho3, Ho. destruct Hs as [Hn ->]. set_solver.
  - apply wp_ret. apply wp_ret. exists (server_fd_ s). rewrite Ho. destruct (server_fd_ s =? -1) eqn:Hfd; [|exact Hs].
    apply Z.eqb_eq in Hfd. by specialize (Hend Hfd).
Qed.
End Properties.

(** ** A network *)

(** The next descriptor is a number, taken if it is not in use; [sim_clients]: how many still come. *)
Record sim_net : Type := MkSim { sim_opened : gset Z; sim_next : Z; sim_sent : list (Z * text); sim_clients : nat }.

Definition sim_take : prog sim_net Z := fun k =>
  if decide (sim_next k = -1 \/ sim_next k ∈ sim_opened k) then Ok (-1) k
  else Ok (sim_next k) (MkSim ({[sim_next k]} ∪ sim_opened k) (sim_next k + 1) (sim_sent k) (pred (sim_clients k))).

#[export] Instance sim_Net : Net sim_net := {
  net_socket := sim_take;
  net_bind _ _ := ret 0;
  net_listen _ _ := ret 0;
  net_setsockopt _ := ret 0;
  net_accept _ := fun k => match sim_clients k with O => Ok (-1) k | S _ => sim_take k end;
  net_send fd s := fun k => Ok tt (MkSim (sim_opened k) (sim_next k) (sim_sent k ++ [(fd, s)]) (sim_clients k));
  net_close fd := fun k => Ok tt (MkSim (sim_opened k ∖ {[fd]}) (sim_next k) (sim_sent k) (sim_clients k))
}.

Lemma sim_take_wp k : wp total sim_take (fun fd k' => sim_sent k' = sim_sent k /\
  if fd =? -1 then sim_opened k' = sim_opened k else (fd ∉ sim_opened k) /\ sim_opened k' = ({[fd]} ∪ sim_opened k)) k.
Proof.
  unfold wp, sim_take. destruct (decide _) as [H|H]; [done|]. split; [done|]. 
  rewrite (proj2 (Z.eqb_neq _ _)) by tauto. split; [tauto|done].
Qed.

#[export] Instance sim_net_laws : NetLaws sim_Net.
Proof.
  refine {| opened := sim_opened; sent := sim_sent |}.
  - apply sim_take_wp.
  - by intros.
  - by intros.
  - by intros.
  - intros fd k. unfold wp. cbn [net_accept sim_Net]. destruct (sim_clients k); [done|]. apply sim_take_wp.
  - by intros.
  - by intros.
Defined.

Definition sample_board (l : list bool) (clients : nat) : board Wire sim_net := MkBoard (MkWire [] l 0) (MkSim ∅ 3 [] clients).

Lemma heater_reports_identifier_witness :
  wp total (handle_connection 4) (fun _ b => sent (net b) =
      [(4, txt "Measuring temperature..." ++ newline); (4, txt "Issue RESET..." ++ newline); (4, txt "uid = 0xa2000801b81c02" ++ newline)])
    (sample_board (false :: low_bits 64 0xA2000801B81C02) 0).
Proof.
  assert (0 <= 0xA2000801B81C02 < 2 ^ 64) as Hr by lia.
  destruct (heater_reports_identifier 4 (sample_board (false :: low_bits 64 0xA2000801B81C02) 0) _ [] Hr) as [H _].
  eapply wp_mono; [apply H; cbn [sample_board bus answers]; by rewrite app_nil_r|]. intros [] b [-> _]. reflexivity.
Defined.

(** Two clients, the second after the device is gone; then [accept] fails. *)
Example two_clients :
  match tcp_server 5 (sample_board (false :: low_bits 64 0x1f) 3) with
  | Ok ended b => ended = true /\ elements (sim_opened (net b)) = [] /\
      (snd <$> sim_sent (net b)) = (snd <$> told 4 true 0x1f ++ told 5 false 0)
  | Fault _ _ => False
  end.
Proof. by vm_compute. Qed.

Lemma heater_closes_descriptors_witness :
  wp total (tcp_server 2) (fun ended b =>
      if ended : bool then sim_opened (net b) = ∅ else exists fd, (fd ∉ (∅ : gset Z)) /\ sim_opened (net b) = ({[fd]} ∪ ∅))
    (sample_board (false :: low_bits 64 0x1f) 3).
Proof.
  eapply wp_mono; [apply (heater_closes_descriptors 2 (sample_board (false :: low_bits 64 0x1f) 3))|].
  intros [] b H; exact H.
Defined.
