(* ===== verification/CanServer.v ===== *)
(** The bridge between the CAN bus and TCP clients, [firmware/ti/can_master/can.cpp],
    [can_server.cpp] and their headers.

    The CAN driver, the sockets, the pins and the scheduler are the vendor's and are not
    in the repository: they are the members of the class [Board].  The buffer [message_]
    is filled before each use and is passed as a [text]; what is printed into it must fit
    with its final NUL. *)

From Stdlib Require Import String.
From S2P Require Import Prelude Monad CanProto Text.

(** ** What the vendor's libraries provide *)

Inductive tCANStsReg : Type := CAN_STS_TXREQUEST | CAN_STS_NEWDAT.
Inductive tMsgObjType : Type := MSG_OBJ_TYPE_TX | MSG_OBJ_TYPE_TX_REMOTE | MSG_OBJ_TYPE_RX.

Record tCANMsgObject : Type := MkObject {
  ui32MsgID : Z;
  ui32MsgIDMask : Z;
  ui32Flags : Z;
  ui32MsgLen : Z;
  pui8MsgData : list Z
}.

Definition object_zero : tCANMsgObject := MkObject 0 0 0 0 [].

(** [CANMessageGet] gives the object after the call: its fields and the bytes of its
    buffer.  [fdSelect] gives the sockets that are ready, or nothing on an error. *)
Class Board (B : Type) : Type := {
  MSG_OBJ_EXTENDED_ID : Z;
  MSG_OBJ_USE_EXT_FILTER : Z;
  MSG_OBJ_USE_DIR_FILTER : Z;
  MSG_OBJ_RX_INT_ENABLE : Z;
  MSG_OBJ_FIFO : Z;
  MSG_OBJ_NEW_DATA : Z;
  CANStatusGet : tCANStsReg -> prog B Z;
  CANMessageSet : Z -> tCANMsgObject -> tMsgObjType -> prog B unit;
  CANMessageGet : Z -> tCANMsgObject -> prog B tCANMsgObject;
  CANMessageClear : Z -> prog B unit;
  CANIntStatus : prog B Z;
  CANIntClear : Z -> prog B unit;
  INVALID_SOCKET : Z;
  SOCKET_ERROR : Z;
  NDK_socket : prog B Z;
  NDK_bind : Z -> Z -> prog B Z;
  NDK_listen : Z -> Z -> prog B Z;
  NDK_setsockopt : Z -> prog B Z;
  NDK_accept : Z -> prog B Z;
  NDK_send : Z -> text -> prog B Z;
  NDK_recv : Z -> Z -> prog B (Z * text);
  fdClose : Z -> prog B unit;
  fdSelect : list Z -> prog B (option (list Z));
  fdSelect_timeout : prog B unit;
  fdSelectAbort : prog B unit;
  GPIO_toggle : Z -> prog B unit
}.

(** The calls that switch the controller on and off, with the vendor's constants. *)
Class CanControl (B : Type) : Type := {
  SYSCTL_PERIPH_GPIOA : Z;
  SYSCTL_PERIPH_CAN0 : Z;
  GPIO_PA0_CAN0RX : Z;
  GPIO_PA1_CAN0TX : Z;
  GPIO_PIN_0 : Z;
  GPIO_PIN_1 : Z;
  INT_CAN0 : Z;
  CAN_INT_MASTER : Z;
  get_system_clock_freqency : prog B Z;
  SysCtlPeripheralEnable : Z -> prog B unit;
  SysCtlPeripheralDisable : Z -> prog B unit;
  GPIOPinConfigure : Z -> prog B unit;
  GPIOPinTypeCAN : Z -> prog B unit;
  CANInit : prog B unit;
  CANBitRateSet : Z -> Z -> prog B unit;
  CANRetrySet : bool -> prog B unit;
  CANEnable : prog B unit;
  CANDisable : prog B unit;
  CANIntEnable : Z -> prog B unit;
  CANIntDisable : Z -> prog B unit;
  Hwi_create : Z -> prog B Z;
  Hwi_delete : Z -> prog B unit
}.

(** ** [CanMaster] *)

Record CanPacket : Type := MkPacket { id : Z; data : list Z; packet_length : Z }.

Definition CanPacket_default : CanPacket := MkPacket 0 (replicate 8 0) 0.

Definition TxBegin : Z := 0.
Definition TxEnd : Z := 15.
Definition TxRxRemote : Z := 15.
Definition RxBegin : Z := 16.
Definition RxEnd : Z := 32.
Definition RxMask : Z := Z.lnot (Z.shiftl 1 RxBegin - 1).
Definition MsgLen : Z := 8.

(** The indices [begin <= i < end] in order. *)
Definition from_to (b e : Z) : list Z := (fun k => b + k) <$> range (e - b).

(** The loop that looks for an object whose bit is [set]: its number, or 0. *)
Definition find_object (set : bool) (bits b e : Z) : Z :=
  match list_find (fun i => negb (Z.land bits (Z.shiftl 1 i) =? 0) = set) (from_to b e) with
  | Some (_, i) => i + 1
  | None => 0
  end.

Section CanMaster.
Context {B : Type} {BD : Board B}.

Definition setup_rx : prog B unit :=
  let object := MkObject HA_CAN_ReservedBits HA_CAN_ReservedMask
    (Z.lor (Z.lor (Z.lor (Z.lor MSG_OBJ_EXTENDED_ID MSG_OBJ_USE_EXT_FILTER) MSG_OBJ_USE_DIR_FILTER) MSG_OBJ_RX_INT_ENABLE) MSG_OBJ_FIFO) 0 [] in
  let! _ := for_acc (from_to RxBegin RxEnd) object (fun i object =>
    let object := if i =? RxEnd - 1
      then MkObject (ui32MsgID object) (ui32MsgIDMask object) (Z.land (ui32Flags object) (Z.lnot MSG_OBJ_FIFO)) (ui32MsgLen object) (pui8MsgData object)
      else object in
    CANMessageSet (i + 1) object MSG_OBJ_TYPE_RX ;; ret object) in
  ret tt.

(** [CanMaster::CanMaster] and its destructor: the handle [hwi_], whose handler is
    [interrupt_handler]. *)
Definition CanMaster_new {CC : CanControl B} : prog B Z :=
  SysCtlPeripheralEnable SYSCTL_PERIPH_GPIOA ;;
  GPIOPinConfigure GPIO_PA0_CAN0RX ;;
  GPIOPinConfigure GPIO_PA1_CAN0TX ;;
  GPIOPinTypeCAN (Z.lor GPIO_PIN_0 GPIO_PIN_1) ;;
  SysCtlPeripheralEnable SYSCTL_PERIPH_CAN0 ;;
  CANInit ;;
  let! freqency := get_system_clock_freqency in
  CANBitRateSet freqency 50000 ;;
  CANRetrySet true ;;
  CANEnable ;;
  let! hwi := Hwi_create INT_CAN0 in
  setup_rx ;;
  CANIntEnable CAN_INT_MASTER ;;
  ret hwi.

Definition CanMaster_delete {CC : CanControl B} (hwi : Z) : prog B unit :=
  CANIntDisable CAN_INT_MASTER ;;
  Hwi_delete hwi ;;
  CANDisable ;;
  SysCtlPeripheralDisable SYSCTL_PERIPH_CAN0.

(** [data] is [None] for a null pointer. *)
Definition do_send (msg_id : Z) (data : option (list Z)) (length : Z) (request : bool) : prog B bool :=
  if negb request && bool_decide (data = None) then ret false
  else
    let! busy_objects := CANStatusGet CAN_STS_TXREQUEST in
    if request && negb (Z.land busy_objects (Z.shiftl 1 TxRxRemote) =? 0) then ret false
    else
      let object_id := if request then TxRxRemote + 1 else find_object false busy_objects TxBegin TxEnd in
      if object_id =? 0 then ret false
      else
        let object := if request then MkObject msg_id 0 MSG_OBJ_EXTENDED_ID 0 []
                      else MkObject msg_id 0 MSG_OBJ_EXTENDED_ID length (default [] data) in
        CANMessageSet object_id object (if request then MSG_OBJ_TYPE_TX_REMOTE else MSG_OBJ_TYPE_TX) ;;
        ret true.

Definition CanMaster_send (packet : CanPacket) : prog B bool := do_send (id packet) (Some (data packet)) (packet_length packet) false.
Definition send_request (packet_id : Z) : prog B bool := do_send packet_id None 0 true.

(** Both give the packet as the call leaves it. *)
Definition receive (packet : CanPacket) : prog B (bool * CanPacket) :=
  let! new_data := CANStatusGet CAN_STS_NEWDAT in
  if Z.land new_data RxMask =? 0 then ret (false, packet)
  else
    let object_id := find_object true new_data RxBegin RxEnd in
    if object_id =? 0 then ret (false, packet)
    else
      let! object := CANMessageGet object_id (MkObject 0 0 0 MsgLen (data packet)) in
      let packet := MkPacket (id packet) (pui8MsgData object) (packet_length packet) in
      if (Z.land (ui32Flags object) MSG_OBJ_NEW_DATA =? 0) || (MsgLen <? ui32MsgLen object) then ret (false, packet)
      else ret (true, MkPacket (ui32MsgID object) (data packet) (ui32MsgLen object)).

Definition receive_response (packet : CanPacket) : prog B (bool * CanPacket) :=
  let! object := CANMessageGet (TxRxRemote + 1) (MkObject 0 0 0 MsgLen (data packet)) in
  let packet := MkPacket (id packet) (pui8MsgData object) (packet_length packet) in
  if Z.land (ui32Flags object) MSG_OBJ_NEW_DATA =? 0 then ret (false, packet)
  else
    CANMessageClear (TxRxRemote + 1) ;;
    if MsgLen <? ui32MsgLen object then ret (false, packet)
    else ret (true, MkPacket (ui32MsgID object) (data packet) (ui32MsgLen object)).

Definition clear_request : prog B unit := CANMessageClear (TxRxRemote + 1).
End CanMaster.

(** ** Parsing *)

(** [sscanf(s, "%x", &v)]: the number, or nothing when the call does not return 1.  A number
    that does not fit is undefined. *)
Definition scan_hex {St} (s : text) : prog St (option Z) :=
  match skip_space s with
  | [] => ret None
  | s =>
      let '(neg, s) := sign s in
      let s := base_16 s in
      if starts_number hex_value s then
        let v := digits 16 hex_value 0 s in
        if uint_max <? v then raise Undefined else ret (Some (if neg then (- v) mod (uint_max + 1) else v))
      else ret None
  end.

(** [sscanf(s, "<prefix>%x", &v)] *)
Definition scan_after {St} (prefix s : text) : prog St (option Z) :=
  if prefixb prefix s then scan_hex (drop (length prefix) s) else ret None.

(** [strstr], [strchr]: the rest of the string from the place found. *)
Definition strstr (s pat : text) : option text := (fun i => drop i s) <$> index pat s.
Definition strchr (s : text) (c : ascii) : option text := (fun i => drop i s) <$> index_if (Ascii.eqb c) s.

(** The characters of a buffer before the first NUL. *)
Fixpoint c_string (s : text) : text :=
  match s with
  | [] => []
  | c :: s' => if Ascii.eqb c "000"%char then [] else c :: c_string s'
  end.

(** [while (packet.length < 8 && *ptr != 0 && *(ptr + 1) != 0)] *)
Fixpoint parse_bytes {St} (ptr : text) (packet : CanPacket) : prog St CanPacket :=
  match ptr with
  | a :: b :: ptr' =>
      if packet_length packet <? 8 then
        let! byte := scan_hex [a; b] in
        match byte with
        | None => ret packet
        | Some byte =>
            let! d := set_index (data packet) (packet_length packet) (u8 byte) in
            parse_bytes ptr' (MkPacket (id packet) d (packet_length packet + 1))
        end
      else ret packet
  | _ => ret packet
  end.

(** The packet and [request], or nothing when the function returns false. *)
Definition parse_dev_id_packet {St} (message : text) (packet : CanPacket) (request : bool) : prog St (option (CanPacket * bool)) :=
  if prefixb (txt "dev-q?") message then ret (Some (MkPacket HA_CAN_SpecialId_Update (data packet) (packet_length packet), true))
  else
    let! value := scan_after (txt "dev-q!") message in
    match value with
    | None => ret None
    | Some value =>
        if (value <=? 0xffff) && (Z.land value 0xff <=? 0x7f) then
          let! d := set_index (data packet) 0 (Z.land (Z.shiftr value 8) 0xff) in
          let! d := set_index d 1 (Z.land value 0xff) in
          ret (Some (MkPacket HA_CAN_SpecialId_Update d 2, request))
        else ret None
    end.

Definition parse_packet {St} (message : text) (packet : CanPacket) (request : bool) : prog St (option (CanPacket * bool)) :=
  if prefixb (txt "dev-q") message then parse_dev_id_packet message packet request
  else
    let! dev_id := scan_after (txt "dev:") message in
    match dev_id with
    | None => ret None
    | Some dev_id =>
        if 0xff <? dev_id then ret None
        else
          match strstr message (txt "addr:") with
          | None => ret None
          | Some ptr =>
              let! address := scan_after (txt "addr:") ptr in
              match address with
              | None => ret None
              | Some address =>
                  if 0xffff <? address then ret None
                  else
                    let packet_id := {| priority := 0; reserved := 0; device_id_field := to_device_id_field dev_id; address := u16 address |} in
                    let packet := MkPacket (HA_CAN_packet_id_to_number packet_id) (data packet) (packet_length packet) in
                    match strchr ptr "?"%char with
                    | Some _ => ret (Some (packet, true))
                    | None =>
                        match strchr ptr "="%char with
                        | None => ret None
                        | Some ptr =>
                            let! packet := parse_bytes (drop 1 ptr) packet in
                            ret (Some (packet, false))
                        end
                    end
              end
          end
    end.

(** ** Printing *)

Definition max_message_size : Z := 128.

(** [sprintf] or [strcpy] to [message_], after [message], with a final NUL. *)
Definition put_message {St} (message s : text) : prog St text :=
  if Z.of_nat (length message) + Z.of_nat (length s) + 1 <=? max_message_size then ret (message ++ s) else raise OutOfBounds.

(** The loop that prints the bytes after [message], with the indices it has to go through. *)
Fixpoint print_bytes {St} (message : text) (bytes : list Z) (l : list Z) : prog St text :=
  match l with
  | [] => ret message
  | i :: l' =>
      if max_message_size - 4 <=? Z.of_nat (length message) then ret message
      else
        let! b := at_index bytes i in
        let! message := put_message message (hex_out 2 b) in
        print_bytes message bytes l'
  end.

(** The line [handle_can_packet] builds, without its end. *)
Definition packet_text {St} (packet : CanPacket) : prog St text :=
  let packet_id := HA_CAN_number_to_packet_id (id packet) in
  let! message := put_message [] (if id packet =? HA_CAN_SpecialId_Update then txt "="
    else txt "dev:" ++ hex_out 2 (device_id_field packet_id) ++ txt "  addr:" ++ hex_out 4 (address packet_id) ++ txt "  =") in
  print_bytes message (data packet) (range (packet_length packet)).

Definition crlf : text := ["013"%char; "010"%char].
Definition packet_line {St} (packet : CanPacket) : prog St text :=
  let! message := packet_text packet in put_message message crlf.

(** ** [CanServer] *)

Record CanClient : Type := MkClient { client_fd : Z; interactive : bool }.

Definition MaxClients : Z := 4.
Definition ServerCount : Z := 2.
Definition Server_Interactive : Z := 0.

Section Server.
Context {B : Type} {BD : Board B}.

Record can_server : Type := MkServer {
  server_fd_ : list Z;
  clients_ : list CanClient;
  started_ : bool;
  task_handle_ : bool;
  board : B
}.

Definition f_server_fd : field can_server (list Z) := Field server_fd_ (fun v s => MkServer v (clients_ s) (started_ s) (task_handle_ s) (board s)).
Definition f_clients : field can_server (list CanClient) := Field clients_ (fun v s => MkServer (server_fd_ s) v (started_ s) (task_handle_ s) (board s)).
Definition f_started : field can_server bool := Field started_ (fun v s => MkServer (server_fd_ s) (clients_ s) v (task_handle_ s) (board s)).
Definition f_task_handle : field can_server bool := Field task_handle_ (fun v s => MkServer (server_fd_ s) (clients_ s) (started_ s) v (board s)).
Definition f_board : field can_server B := Field board (fun v s => MkServer (server_fd_ s) (clients_ s) (started_ s) (task_handle_ s) v).

(** A call of the vendor's libraries. *)
Definition on_board {A} (m : prog B A) : prog can_server A := fun s =>
  match m (board s) with
  | Ok a b => Ok a (fset f_board b s)
  | Fault f b => Fault f (fset f_board b s)
  end.

Definition valid (c : CanClient) : bool := negb (client_fd c =? INVALID_SOCKET).

(** The initialiser [= { INVALID_SOCKET }] sets the first element only. *)
Definition can_server_init (b : B) : can_server :=
  MkServer [INVALID_SOCKET; 0] (replicate (Z.to_nat MaxClients) (MkClient INVALID_SOCKET false)) false false b.

Definition TELNET_PORT : Z := 23.
Definition RAW_PORT : Z := 2323.

(** [CanServer::CanServer()]: true when all its sockets listen. *)
Fixpoint start_servers (l : list (Z * Z)) : prog can_server bool :=
  match l with
  | [] => ret true
  | (i, port) :: l' =>
      let! fd := on_board NDK_socket in
      idx_set f_server_fd i fd ;;
      if fd =? INVALID_SOCKET then ret false
      else
        let! r := on_board (NDK_bind fd port) in
        if r =? SOCKET_ERROR then ret false
        else
          let! r := on_board (NDK_listen fd MaxClients) in
          if r =? SOCKET_ERROR then ret false
          else
            let! r := on_board (NDK_setsockopt fd) in
            if r =? SOCKET_ERROR then ret false else start_servers l'
  end.

Definition CanServer_new : prog can_server unit :=
  let! b := start_servers [(0, TELNET_PORT); (1, RAW_PORT)] in
  when b (wr f_started true).

Definition send_to_client (client_index : Z) (message : text) : prog can_server Z :=
  let! c := idx f_clients client_index in on_board (NDK_send (client_fd c) message).

(** [Client::clear] *)
Definition Client_clear (i : Z) : prog can_server unit :=
  let! c := idx f_clients i in
  when (valid c)
    (on_board (fdClose (client_fd c)) ;;
     idx_set f_clients i (MkClient INVALID_SOCKET (interactive c))).

Definition handle_can_packet (packet : CanPacket) : prog can_server unit :=
  let! line := packet_line packet in
  for_each (range MaxClients) (fun i =>
    let! c := idx f_clients i in
    when (valid c)
      (when (interactive c) (let! _ := send_to_client i ["013"%char] in ret tt) ;;
       let! sent := send_to_client i line in
       if (sent <? 0) || negb (sent =? Z.of_nat (length line)) then Client_clear i
       else when (interactive c) (let! _ := send_to_client i (txt "> ") in ret tt))).

(** [while (receive(packet)) handle_can_packet(packet)], at most [fuel] packets. *)
Fixpoint drain (fuel : nat) (packet : CanPacket) : prog can_server unit :=
  match fuel with
  | O => raise Hang
  | S n =>
      let! (b, packet) := on_board (receive packet) in
      if b : bool then handle_can_packet packet ;; drain n packet else ret tt
  end.

Definition handle_signal (pin : Z) (fuel : nat) : prog can_server unit :=
  on_board (GPIO_toggle pin) ;; drain fuel CanPacket_default.

Definition greeting (client_index : Z) : prog can_server unit :=
  let! c := idx f_clients client_index in
  when (interactive c)
    (let! _ := send_to_client client_index
       (txt "Welcome to the HA Master Board!" ++ crlf ++ txt "Type 'help' for command list." ++ crlf ++ crlf ++ txt "> ") in
     ret tt).

Definition handle_connect (server_index : Z) : prog can_server unit :=
  let! fd := idx f_server_fd server_index in
  let! client_fd := on_board (NDK_accept fd) in
  if client_fd =? INVALID_SOCKET then ret tt
  else
    let! l := rd f_clients in
    match list_find (fun c => valid c = false) l with
    | Some (i, _) =>
        idx_set f_clients (Z.of_nat i) (MkClient client_fd (server_index =? Server_Interactive)) ;;
        greeting (Z.of_nat i)
    | None =>
        let! _ := on_board (NDK_send client_fd (txt "Busy." ++ crlf)) in
        on_board (fdClose client_fd)
    end.

Definition reply_to (client_index : Z) (message : text) : prog can_server unit :=
  let! c := idx f_clients client_index in
  when (interactive c) (let! _ := send_to_client client_index message in ret tt).

(** The loop that waits for the answer, [n] more rounds. *)
Fixpoint wait_response (n : nat) (packet : CanPacket) : prog can_server (bool * CanPacket) :=
  match n with
  | O => ret (false, packet)
  | S n =>
      on_board fdSelect_timeout ;;
      let! (b, packet) := on_board (receive_response packet) in
      if b : bool then ret (true, packet) else wait_response n packet
  end.

Definition tab : text := ["009"%char].

Definition handle_client (client_index : Z) : prog can_server unit :=
  let! c := idx f_clients client_index in
  let! (received, message) := on_board (NDK_recv (client_fd c) max_message_size) in
  if received <? 0 then Client_clear client_index
  else if (received =? 0) || (max_message_size <=? received) then ret tt
  else
    let! parsed := parse_packet (c_string (take (Z.to_nat received) message)) CanPacket_default false in
    match parsed with
    | None =>
        reply_to client_index (txt "COMMAND SYNTAX:" ++ crlf ++ tab ++ txt "dev:XX  addr:XXXX  =XXXX..." ++ crlf ++
          tab ++ txt "dev:XX  addr:XXXX  ?" ++ crlf ++ txt "> ")
    | Some (packet, request) =>
        let! result := on_board (if request : bool then send_request (id packet) else CanMaster_send packet) in
        if request && result then
          let! (got_packet, packet) := wait_response 100 packet in
          if got_packet : bool then handle_can_packet packet
          else
            on_board clear_request ;;
            reply_to client_index (txt "Timeout while waiting reply." ++ crlf ++ txt "> ")
        else
          reply_to client_index (if result : bool then txt "The packet was sent." ++ crlf ++ txt "> "
                                 else txt "Busy, try again." ++ crlf ++ txt "> ")
    end.

(** One round of the loop of [run]: false when it ends. *)
Definition server_round (pin : Z) (fuel : nat) : prog can_server bool :=
  let! fds := rd f_server_fd in
  let! l := rd f_clients in
  let! ready := on_board (fdSelect (fds ++ (client_fd <$> filter (fun c => valid c = true) l))) in
  match ready with
  | None => ret false
  | Some rdset =>
      handle_signal pin fuel ;;
      for_each (range ServerCount) (fun i =>
        let! fd := idx f_server_fd i in
        when (bool_decide (fd ∈ rdset)) (handle_connect i)) ;;
      for_each (range MaxClients) (fun i =>
        let! c := idx f_clients i in
        when (valid c && bool_decide (client_fd c ∈ rdset)) (handle_client i)) ;;
      handle_signal pin fuel ;;
      ret true
  end.

(** The loop of [CanServer::run()], for [n] rounds: true when it has ended. *)
Fixpoint rounds (n : nat) (pin : Z) (fuel : nat) : prog can_server bool :=
  match n with
  | O => ret false
  | S n => let! go := server_round pin fuel in if go : bool then rounds n pin fuel else ret true
  end.

(** [CanServer::run()], followed for [n] rounds: true when it has returned; [pin1] and [pin2]
    are the LEDs. *)
Definition CanServer_run (n : nat) (pin1 pin2 : Z) (fuel : nat) : prog can_server bool :=
  let! b := rd f_started in
  if negb b then ret true
  else
    wr f_task_handle true ;;
    let! ended := rounds n pin1 fuel in
    when ended (wr f_task_handle false ;; on_board (GPIO_toggle pin2)) ;;
    ret ended.

Definition send_signal : prog can_server unit :=
  let! b := rd f_task_handle in when b (on_board fdSelectAbort).

Definition interrupt_handler : prog can_server unit :=
  let! cause := on_board CANIntStatus in
  on_board (CANIntClear cause) ;;
  send_signal.
End Server.
Arguments can_server B : clear implicits.
