(* ===== verification/CanServerRules.v ===== *)
(** What holds of the CAN bridge: the lines it prints and reads, against the packet
    identifiers of the bus and the text protocol of the router; its choice of message
    objects; and that its rounds are safe. *)

From Stdlib Require Import String.
From S2P Require Import Prelude Monad CanProto Text Message MessageRules.
From S2P Require Import CanServer.

(** ** Numbers *)

Definition ends_number (s : text) : Prop := starts_number hex_value s = false.

Lemma digits_end acc s : ends_number s -> digits 16 hex_value acc s = acc.
Proof.
  destruct s as [|c s]; [done|]. unfold ends_number, starts_number. rewrite bool_decide_eq_false. cbn [digits].
  destruct (hex_value c) as [v|]; [|done]. intros []. by exists v.
Qed.

Lemma scan_hex_digits {St} k z rest (s : St) :
  0 <= z < 16 ^ Z.of_nat (S (S k)) -> z <= uint_max -> ends_number rest ->
  scan_hex (hex_digits (S (S k)) z ++ rest) s = Ok (Some z) s.
Proof.
  intros Hz Hmax Hrest. unfold scan_hex.
  pose proof (hex_digits_plain (S (S k)) z) as Hp. pose proof (hex_digits_length (S (S k)) z) as Hl.
  pose proof (digits_hex (S (S k)) z 0 rest) as Hd. rewrite (digits_end _ rest), Z.mod_small in Hd by done.
  destruct (hex_digits (S (S k)) z) as [|c [|x l]]; [done..|]. cbn [forallb app] in *.
  apply andb_prop in Hp as [Hc Hp]. apply andb_prop in Hp as [Hx _].
  destruct (plain_digit_spec c Hc) as (H1 & H2 & H3 & _ & _ & H6 & _).
  destruct (plain_digit_spec x Hx) as (_ & _ & _ & H4 & H5 & _).
  cbn [skip_space]. rewrite H1. cbn [sign]. rewrite H2, H3. cbn [base_16]. rewrite H4, H5, andb_false_r.
  cbn [starts_number]. rewrite bool_decide_eq_true_2 by done. rewrite Hd.
  assert ((uint_max <? 16 ^ Z.of_nat (S (S k)) * 0 + z) = false) as -> by (apply Z.ltb_ge; lia).
  unfold ret. f_equal. f_equal. lia.
Qed.

Lemma scan_byte {St} b (s : St) : is_u8 b -> scan_hex (hex_digits 2 b) s = Ok (Some b) s.
Proof.
  intros Hb. pose proof (scan_hex_digits 0 b [] s) as H. rewrite app_nil_r in H.
  apply H; [exact Hb|unfold is_u8, uint_max in *; lia|done].
Qed.

Lemma scan_after_app {St} p x : scan_after (St:=St) p (p ++ x) = scan_hex x.
Proof.
  unfold scan_after. rewrite drop_app_length. assert (prefixb p (p ++ x) = true) as ->; [|done].
  induction p as [|c p IH]; [done|]. cbn [app prefixb]. by rewrite Ascii.eqb_refl.
Qed.

(** ** Lines *)

(** A line for address [a] of device [d], with [tail] after the address. *)
Definition line (d a : Z) (tail : text) : text :=
  txt "dev:" ++ hex_out 2 d ++ txt "  addr:" ++ hex_out 4 a ++ txt "  " ++ tail.

(** The identifier a line stands for. *)
Definition line_id (d a : Z) : Z :=
  HA_CAN_packet_id_to_number {| priority := 0; reserved := 0; device_id_field := Z.land d 0x7f; address := a |}.

Lemma index_if_skip p c s : p c = false -> index_if p (c :: s) = S <$> index_if p s.
Proof. intros H. cbn. by rewrite H. Qed.

Lemma strchr_skip c x s : Ascii.eqb c x = false -> strchr (x :: s) c = strchr s c.
Proof. intros H. unfold strchr. rewrite index_if_skip by done. by destruct (index_if _ s). Qed.

Lemma strchr_address c a tail : is_u16 a -> Ascii.eqb c "?" || Ascii.eqb c "=" = true ->
  strchr (txt "addr:" ++ hex_digits 4 a ++ txt "  " ++ tail) c = strchr tail c.
Proof.
  intros Ha Hc. pose proof (hex_digits_plain 4 a) as Hp. pose proof (hex_digits_length 4 a) as Hl.
  destruct (hex_digits 4 a) as [|a1 [|a2 [|a3 [|a4 [|]]]]]; try done. cbn [forallb] in Hp. rewrite !andb_true_iff in Hp.
  assert (forall x, plain_digit x = true -> Ascii.eqb c x = false) as Hx.
  { intros x Hx. apply plain_digit_spec in Hx as (_ & _ & _ & _ & _ & _ & _ & _ & H1 & H2).
    apply orb_prop in Hc as [Hc|Hc]; apply Ascii.eqb_eq in Hc as ->; by rewrite Ascii.eqb_sym. }
  assert (forall x, char_in (txt "addr: ") x = true -> Ascii.eqb c x = false) as Hy.
  { intros x Hin. destruct (Ascii.eqb c x) eqn:E; [|done]. apply Ascii.eqb_eq in E as <-.
    apply orb_prop in Hc as [Hc|Hc]; by apply Ascii.eqb_eq in Hc as ->. }
  destruct Hp as (P1 & P2 & P3 & P4 & _). cbn [app txt list_ascii_of_string].
  by rewrite !strchr_skip by (first [by apply Hx|by apply Hy]).
Qed.

(** What is read of a line. *)
Lemma parse_line {St} d a tail packet request (s : St) : is_u8 d -> is_u16 a ->
  parse_packet (line d a tail) packet request s =
  (let packet := MkPacket (line_id d a) (data packet) (packet_length packet) in
   match strchr tail "?"%char with
   | Some _ => ret (Some (packet, true))
   | None =>
       match strchr tail "="%char with
       | None => ret None
       | Some ptr =>
           let! packet := parse_bytes (drop 1 ptr) packet in ret (Some (packet, false))
       end
   end) s.
Proof.
  intros Hd Ha. unfold line. rewrite (hex_out_digits 1), (hex_out_digits 3) by done.
  pose proof (scan_hex_digits (St:=St) 0 d (txt "  addr:" ++ hex_digits 4 a ++ txt "  " ++ tail) s Hd
                ltac:(unfold is_u8, uint_max in *; lia) ltac:(done)) as Hsd.
  pose proof (scan_hex_digits (St:=St) 2 a (txt "  " ++ tail) s Ha ltac:(unfold is_u16, uint_max in *; lia) ltac:(done)) as Hsa.
  pose proof (strchr_address "?" a tail Ha ltac:(done)) as Hq. pose proof (strchr_address "=" a tail Ha ltac:(done)) as He.
  unfold parse_packet.
  assert (prefixb (txt "dev-q") (txt "dev:" ++ hex_digits 2 d ++ txt "  addr:" ++ hex_digits 4 a ++ txt "  " ++ tail) = false) as -> by done.
  rewrite scan_after_app. unfold bind at 1. rewrite Hsd.
  assert ((0xff <? d) = false) as -> by (apply Z.ltb_ge; unfold is_u8 in Hd; lia).
  assert (strstr (txt "dev:" ++ hex_digits 2 d ++ txt "  addr:" ++ hex_digits 4 a ++ txt "  " ++ tail) (txt "addr:") =
          Some (txt "addr:" ++ hex_digits 4 a ++ txt "  " ++ tail)) as ->.
  { pose proof (hex_digits_length 2 d) as Hl. destruct (hex_digits 2 d) as [|c1 [|c2 [|]]]; try done.
    unfold strstr. cbn. by rewrite !andb_false_r. }
  rewrite scan_after_app. unfold bind at 1. rewrite Hsa.
  assert ((0xffff <? a) = false) as -> by (apply Z.ltb_ge; unfold is_u16 in Ha; lia).
  rewrite Hq, He. unfold line_id, to_device_id_field. rewrite u16_small by done. done.
Qed.

(** The bytes after the equality sign. *)
Lemma parse_bytes_put {St} l : forall dat k i (s : St),
  Forall is_u8 l -> length dat = 8%nat -> (k + length l <= 8)%nat ->
  parse_bytes (put_hex l ++ crlf) (MkPacket i dat (Z.of_nat k)) s =
    Ok (MkPacket i (take k dat ++ l ++ drop (k + length l) dat) (Z.of_nat (k + length l))) s.
Proof.
  induction l as [|b l IH]; intros dat k i s Hl Hdat Hk.
  - cbn [put_hex length app]. rewrite Nat.add_0_r, take_drop. unfold crlf. cbn [parse_bytes packet_length].
    by destruct (_ <? 8).
  - apply Forall_cons_1 in Hl as [Hb Hl]. cbn [length] in Hk.
    cbn [put_hex]. rewrite hex_out_digits by (exact Hb).
    pose proof (scan_byte b s Hb) as Hscan. pose proof (hex_digits_length 2 b) as Hlen.
    destruct (hex_digits 2 b) as [|c1 [|c2 [|]]]; try done. cbn [app parse_bytes data packet_length id].
    rewrite (proj2 (Z.ltb_lt _ _)) by lia. unfold bind at 1. rewrite Hscan. unfold bind. rewrite set_index_ok by lia. unfold ret. rewrite Nat2Z.id, u8_small by done.
    replace (Z.of_nat k + 1) with (Z.of_nat (S k)) by lia.
    rewrite IH; [|done|by rewrite length_insert|lia]. f_equal. f_equal; [|cbn [length]; lia].
    rewrite (take_S_r _ _ b) by (apply list_lookup_insert_eq; lia).
    rewrite take_insert_ge by lia. rewrite <- app_assoc. cbn [app length].
    rewrite drop_insert_lt by lia. by replace (S k + length l)%nat with (k + S (length l))%nat by lia.
Qed.

Lemma put_message_ok {St} m x (s : St) : (length m + length x < 128)%nat -> put_message m x s = Ok (m ++ x) s.
Proof. intros Hl. unfold put_message, max_message_size. by rewrite (proj2 (Z.leb_le _ _)) by lia. Qed.

Lemma print_bytes_eq {St} l : forall pre dat m (s : St), Forall is_u8 l -> (length m + length l * 2 <= 100)%nat ->
  print_bytes m (pre ++ l ++ dat) (Z.of_nat <$> seq (length pre) (length l)) s = Ok (m ++ put_hex l) s.
Proof.
  induction l as [|b l IH]; intros pre dat m s Hl Hm; [cbn; by rewrite app_nil_r|].
  cbn [seq length] in *. rewrite fmap_cons. cbn [print_bytes put_hex].
  apply Forall_cons_1 in Hl as [Hb Hl]. rewrite (proj2 (Z.leb_gt _ _)) by (unfold max_message_size; lia).
  assert (length (hex_out 2 b) = 2%nat) as H2 by (rewrite hex_out_digits by exact Hb; apply hex_digits_length).
  unfold bind at 1. rewrite (at_index_ok _ _ b) by (rewrite ?Nat2Z.id, ?lookup_app_r, ?Nat.sub_diag by lia; done || lia).
  unfold ret at 1, bind at 1. rewrite put_message_ok by lia.
  specialize (IH (pre ++ [b]) dat (m ++ hex_out 2 b) s Hl). rewrite !length_app, <- !app_assoc, H2 in IH. cbn [length app] in IH.
  rewrite Nat.add_1_r in IH. cbn [app]. rewrite IH by lia. done.
Qed.

(** What the bridge prints for a packet with identifier [p] and bytes [l]. *)
Lemma packet_text_line {St} p l dat (s : St) : packet_id_ok p -> Forall is_u8 l -> (length l <= 8)%nat ->
  packet_text (MkPacket (HA_CAN_packet_id_to_number p) (l ++ dat) (Z.of_nat (length l))) s =
    Ok (line (device_id_field p) (address p) (txt "=" ++ put_hex l)) s.
Proof.
  intros Hp Hl Hlen. unfold packet_text. cbn [id data packet_length]. rewrite packet_id_decode by done.
  cbn [device_id_field address].
  destruct (HA_CAN_packet_id_to_number p =? HA_CAN_SpecialId_Update) eqn:E.
  { apply Z.eqb_eq in E. pose proof (packet_id_to_number_range p Hp) as Hr. rewrite E in Hr. unfold HA_CAN_SpecialId_Update in Hr. lia. }
  destruct Hp as (_ & Hd & Ha). assert (is_u8 (device_id_field p)) as Hd8 by (unfold is_u8; lia).
  set (head := txt "dev:" ++ _). assert (length head = 20%nat) as Hh.
  { subst head. rewrite !length_app, (hex_out_digits 1), (hex_out_digits 3), !hex_digits_length by done. done. }
  unfold bind. rewrite put_message_ok by (rewrite Hh; simpl; lia). unfold range. rewrite Nat2Z.id.
  rewrite (print_bytes_eq l [] dat) by (done || (cbn [app]; rewrite Hh; lia)).
  unfold line, head. cbn [app]. by rewrite <- !app_assoc.
Qed.

Lemma line_length d a l : is_u8 d -> is_u16 a -> Forall is_u8 l ->
  length (line d a (txt "=" ++ put_hex l)) = (20 + 2 * length l)%nat.
Proof.
  intros Hd Ha Hl. unfold line. rewrite !length_app, (hex_out_digits 1), (hex_out_digits 3), !hex_digits_length by done.
  assert (length (put_hex l) = (2 * length l)%nat) as ->; [|cbn; lia].
  induction Hl as [|b l Hb _ IH]; [done|]. cbn [put_hex]. rewrite length_app, hex_out_digits, hex_digits_length, IH by exact Hb. cbn. lia.
Qed.

Lemma packet_line_line {St} p l dat (s : St) : packet_id_ok p -> Forall is_u8 l -> (length l <= 8)%nat ->
  packet_line (MkPacket (HA_CAN_packet_id_to_number p) (l ++ dat) (Z.of_nat (length l))) s =
    Ok (line (device_id_field p) (address p) (txt "=" ++ put_hex l) ++ crlf) s.
Proof.
  intros Hp Hl Hlen. unfold packet_line, bind. rewrite packet_text_line by done. destruct Hp as (_ & Hd & Ha).
  rewrite put_message_ok; [done|]. rewrite line_length by (done || (unfold is_u8; lia)). cbn. lia.
Qed.

Lemma line_app d a tail e : line d a tail ++ e = line d a (tail ++ e).
Proof. unfold line. by rewrite <- !app_assoc. Qed.

Lemma strchr_none c s : forallb (fun x => negb (Ascii.eqb c x)) s = true -> strchr s c = None.
Proof. intros H. unfold strchr. by rewrite index_if_none. Qed.

Lemma hex_no_mark c l : Forall is_u8 l -> c = "?"%char \/ c = "="%char ->
  forallb (fun x => negb (Ascii.eqb c x)) (put_hex l ++ crlf) = true.
Proof.
  intros Hl Hc. rewrite forallb_app. apply andb_true_iff. split; [|by destruct Hc as [-> | ->]].
  eapply forallb_weaken; [|apply put_hex_chars, Hl]. intros x Hx.
  apply plain_digit_spec in Hx as (_ & _ & _ & _ & _ & _ & _ & _ & H1 & H2).
  apply negb_true_iff. rewrite Ascii.eqb_sym. by destruct Hc as [-> | ->].
Qed.

(** The packet of bytes [l]. *)
Definition packet_of (i : Z) (l : list Z) : CanPacket :=
  MkPacket i (l ++ replicate (8 - length l) 0) (Z.of_nat (length l)).

Lemma parse_data_line {St} d a l (s : St) : is_u8 d -> is_u16 a -> Forall is_u8 l -> (length l <= 8)%nat ->
  parse_packet (line d a (txt "=" ++ put_hex l) ++ crlf) CanPacket_default false s =
    Ok (Some (packet_of (line_id d a) l, false)) s.
Proof.
  intros Hd Ha Hl Hlen. rewrite line_app, parse_line by done. cbv zeta.
  assert (strchr ((txt "=" ++ put_hex l) ++ crlf) "?" = None) as ->.
  { rewrite <- app_assoc. cbn [app txt list_ascii_of_string]. rewrite strchr_skip by done.
    apply strchr_none, hex_no_mark; auto. }
  assert (strchr ((txt "=" ++ put_hex l) ++ crlf) "=" = Some (txt "=" ++ put_hex l ++ crlf)) as -> by by rewrite <- app_assoc.
  change (drop 1 (txt "=" ++ put_hex l ++ crlf)) with (put_hex l ++ crlf).
  unfold bind. cbn [CanPacket_default data packet_length].
  change (Z.to_nat (8 - 0)) with (8 - 0)%nat. change 0 with (Z.of_nat 0) at 2.
  rewrite (parse_bytes_put l _ 0) by (done || lia). unfold packet_of, ret. do 4 f_equal.
  cbn [take app Nat.add]. by rewrite take_0, drop_replicate.
Qed.

Lemma parse_request_line {St} d a (s : St) : is_u8 d -> is_u16 a ->
  parse_packet (line d a (txt "?") ++ crlf) CanPacket_default false s = Ok (Some (packet_of (line_id d a) [], true)) s.
Proof. intros Hd Ha. by rewrite line_app, parse_line. Qed.

(** C23. The lines of the bridge and the frames of the bus.  A line with a device, an address
    and up to eight bytes becomes the data frame with that address and those bytes, for the
    device modulo 128: the bridge checks that the number has two digits, and the
    identifier has seven bits for it.  Printed, the frame gives the line of that device back.
    A line with a question mark becomes a request. *)
Theorem bridge_lines_roundtrip {St} d a l (s : St) :
  is_u8 d -> is_u16 a -> Forall is_u8 l -> (length l <= 8)%nat ->
  exists packet,
    parse_packet (line d a (txt "=" ++ put_hex l) ++ crlf) CanPacket_default false s = Ok (Some (packet, false)) s /\
    HA_CAN_number_to_packet_id (id packet) =
      {| priority := 0; reserved := 1; device_id_field := d mod 128; address := a |} /\
    take (Z.to_nat (packet_length packet)) (data packet) = l /\
    packet_line packet s = Ok (line (d mod 128) a (txt "=" ++ put_hex l) ++ crlf) s /\
    parse_packet (line d a (txt "?") ++ crlf) CanPacket_default false s =
      Ok (Some (packet_of (id packet) [], true)) s.
Proof.
  intros Hd Ha Hl Hlen. exists (packet_of (line_id d a) l).
  assert (Z.land d 0x7f = d mod 128) as Hmod by (change 0x7f with (Z.ones 7); by rewrite Z.land_ones).
  set (p := {| priority := 0; reserved := 0; device_id_field := Z.land d 0x7f; address := a |}).
  assert (packet_id_ok p) as Hp.
  { split; [unfold is_u8; simpl; lia|]. split; [|done]. cbn [p device_id_field]. rewrite Hmod. apply Z.mod_pos_bound. lia. }
  split; [by apply parse_data_line|]. split; [|split; [|split]].
  - change (id (packet_of (line_id d a) l)) with (HA_CAN_packet_id_to_number p). rewrite packet_id_decode by done.
    cbn [p priority device_id_field address]. by rewrite Hmod.
  - unfold packet_of. cbn [data packet_length]. by rewrite Nat2Z.id, take_app_length.
  - unfold packet_of. change (line_id d a) with (HA_CAN_packet_id_to_number p). rewrite packet_line_line by done.
    cbn [p device_id_field address]. by rewrite Hmod.
  - by apply parse_request_line.
Qed.

Lemma bridge_lines_roundtrip_witness :
  exists packet, parse_packet (txt "dev:85  addr:8101  =01" ++ crlf) CanPacket_default false tt = Ok (Some (packet, false)) tt /\
    packet_line packet tt = Ok (txt "dev:05  addr:8101  =01" ++ crlf) tt.
Proof.
  destruct (bridge_lines_roundtrip 0x85 0x8101 [1] tt) as (packet & H1 & _ & _ & H2 & _);
    [unfold is_u8; lia|unfold is_u16; lia|repeat constructor; unfold is_u8; lia|simpl; lia|].
  exists packet. split; [exact H1|exact H2].
Defined.

Lemma find_not_0 s pat : prefixb pat s = false -> find s pat 0 <> Some 0%nat.
Proof.
  intros Hp. unfold find. rewrite drop_0. destruct s as [|c s]; cbn [index]; rewrite Hp; [done|]. by destruct (index pat s).
Qed.

(** The bridge and the router do not speak the same language: the router writes data after a
    colon, which the bridge refuses, and the bridge writes data after an equality sign, which
    is no packet for the router.  Only the requests of the router are understood. *)
Theorem bridge_and_router_disagree {St} m p l (s : St) :
  message_wf m -> packet_id_ok p -> Forall is_u8 l -> (length l <= 8)%nat ->
  parse_packet (Message_serialize m ++ crlf) CanPacket_default false s =
    Ok (match type_ m with
        | Type_Data => None
        | Type_Request => Some (packet_of (line_id (device_id_ m) (address_ m)) [], true)
        end) s /\
  exists t, packet_text (packet_of (HA_CAN_packet_id_to_number p) l) s = Ok t s /\ Packet_create t s = Fault (Throw invalid_argument) s.
Proof.
  intros (Hd & Ha & _ & Hbody & _) Hp Hl Hlen. split.
  - destruct m as [[] d a body]; cbn [type_ device_id_ address_ body_] in *; unfold Message_serialize; cbn [type_ device_id_ address_ body_].
    + by apply parse_request_line.
    + change (parse_packet (line d a (txt ":" ++ put_hex body) ++ crlf) CanPacket_default false s = Ok None s).
      rewrite line_app, parse_line by done. cbv zeta. rewrite <- app_assoc. cbn [txt list_ascii_of_string app].
      rewrite !strchr_skip by done. rewrite !strchr_none by (apply hex_no_mark; auto). done.
  - unfold packet_of. rewrite packet_text_line by done. eexists. split; [done|]. destruct Hp as (_ & Hpd & Hpa).
    assert (is_u8 (device_id_field p)) as Hpd8 by (unfold is_u8; lia).
    set (d := device_id_field p) in *. set (a := address p) in *. unfold line.
    rewrite (hex_out_digits 1), (hex_out_digits 3) by done.
    pose proof (hex_digits_length 2 d) as Hld. pose proof (hex_digits_length 4 a) as Hla.
    destruct (hex_digits 2 d) as [|c1 [|c2 [|]]]; try done. destruct (hex_digits 4 a) as [|a1 [|a2 [|a3 [|a4 [|]]]]]; try done.
    set (data := txt "dev:" ++ _).
    assert (find data (txt "dev:") 0 = Some 0%nat) as H1 by done.
    assert (find data (txt "addr:") 4 = Some 8%nat) as H2 by (unfold find, data; cbn; by rewrite !andb_false_r).
    assert (find_first_of data (txt "?:") 17 = None) as H3.
    { unfold find_first_of. change (drop 17 data) with (txt "  =" ++ put_hex l). rewrite index_if_none; [done|].
      rewrite forallb_app. apply andb_true_iff. split; [done|]. eapply forallb_weaken; [|apply put_hex_chars, Hl].
      intros x Hx. apply plain_digit_spec in Hx as (_ & _ & _ & _ & _ & _ & _ & E1 & E2 & _).
      unfold char_in. cbn. by rewrite E1, E2. }
    unfold Packet_create.
    assert (find data (txt "dev-q:") 0 <> Some 0%nat) as H4 by by apply find_not_0.
    assert (find data (txt "cmd:") 0 <> Some 0%nat) as H5 by by apply find_not_0.
    rewrite !bool_decide_eq_false_2 by done. unfold bind at 1, on_object, Message_deserialize. rewrite H1. unfold bind at 1.
    change (substr data (0 + 4) 2 Message_default) with (Ok (St:=Message) [c1; c2] Message_default).
    unfold bind at 1, wr. change (0 + 4)%nat with 4%nat. rewrite H2. unfold bind at 1.
    match goal with |- context [substr data (8 + 5) 4 ?m] => change (substr data (8 + 5) 4 m) with (Ok (St:=Message) [a1; a2; a3; a4] m) end.
    unfold bind at 1, rd, bind, wr, Message_deserialize_body. change (8 + 5 + 4)%nat with 17%nat. by rewrite H3.
Qed.

Lemma bridge_and_router_disagree_witness :
  parse_packet (txt "dev:05  addr:8101  :01" ++ crlf) CanPacket_default false tt = Ok None tt /\
  Packet_create (txt "dev:05  addr:8101  =01") tt = Fault (Throw invalid_argument) tt.
Proof.
  pose proof (bridge_and_router_disagree (MkMessage Type_Data 5 0x8101 [1])
    {| priority := 0; reserved := 1; device_id_field := 5; address := 0x8101 |} [1] tt) as [H1 H2].
  - unfold message_wf, is_u8, is_u16. simpl. repeat (split; [lia|]). split; [|done]. repeat constructor; lia.
  - unfold packet_id_ok, is_u8, is_u16. simpl. lia.
  - repeat constructor; lia.
  - simpl. lia.
  - split; [exact H1|]. destruct H2 as (t & Ht & H2). vm_compute in Ht. injection Ht as <-. exact H2.
Defined.

(** ** Message objects *)

Lemma bit_set bits i : 0 <= i -> negb (Z.land bits (Z.shiftl 1 i) =? 0) = Z.testbit bits i.
Proof.
  intros Hi. rewrite Z.shiftl_1_l. destruct (Z.testbit bits i) eqn:Hb.
  - apply negb_true_iff, Z.eqb_neq. intros E. assert (Z.testbit (Z.land bits (2 ^ i)) i = false) as Hf by (rewrite E; apply Z.bits_0).
    by rewrite Z.land_spec, Hb, Z.pow2_bits_true in Hf by done.
  - apply negb_false_iff, Z.eqb_eq, Z.bits_inj'. intros j Hj. rewrite Z.bits_0, Z.land_spec, Z.pow2_bits_eqb by done.
    destruct (Z.eqb_spec i j) as [<-|]; [by rewrite Hb|apply andb_false_r].
Qed.

Lemma from_to_lookup b e k : from_to b e !! k = if decide (Z.of_nat k < e - b) then Some (b + Z.of_nat k) else None.
Proof.
  unfold from_to, range. rewrite !list_lookup_fmap. destruct (decide _) as [Hk|Hk].
  - rewrite lookup_seq_lt by lia. done.
  - rewrite lookup_seq_ge by lia. done.
Qed.

Lemma find_object_least set bits b e i : 0 <= b <= i -> i < e -> Z.testbit bits i = set ->
  (forall j, b <= j < i -> Z.testbit bits j = negb set) -> find_object set bits b e = i + 1.
Proof.
  intros Hb He Hi Hj. unfold find_object.
  assert (list_find (fun i => negb (Z.land bits (Z.shiftl 1 i) =? 0) = set) (from_to b e) = Some (Z.to_nat (i - b), i)) as ->; [|done].
  apply list_find_Some. rewrite from_to_lookup. split; [|split].
  - rewrite decide_True by lia. f_equal. lia.
  - by rewrite bit_set by lia.
  - intros j y. rewrite from_to_lookup. destruct (decide _) as [Hk|]; [|done]. intros [= <-] Hlt.
    rewrite bit_set by lia. rewrite Hj by lia. by destruct set.
Qed.

Lemma find_object_none set bits b e : 0 <= b -> (forall j, b <= j < e -> Z.testbit bits j = negb set) ->
  find_object set bits b e = 0.
Proof.
  intros Hb Hj. unfold find_object.
  assert (list_find (fun i => negb (Z.land bits (Z.shiftl 1 i) =? 0) = set) (from_to b e) = None) as ->; [|done].
  apply list_find_None, Forall_lookup. intros k x. rewrite from_to_lookup. destruct (decide _) as [Hk|]; [|done]. intros [= <-].
  rewrite bit_set by lia. rewrite Hj by lia. by destruct set.
Qed.

Section Objects.
Context {B : Type} {BD : Board B}.

(** The message objects of the controller.  A packet goes into the first of the objects 1 to 15
    that has nothing to send, and is refused when all have; a request goes into object 16 only,
    and is refused while one is there; so neither ever touches an object that receives.  What is
    received is read from the first of the objects 17 to 32 that has something. *)
Theorem bridge_message_objects (b b' : B) busy new_data packet :
  CANStatusGet CAN_STS_TXREQUEST b = Ok busy b' -> CANStatusGet CAN_STS_NEWDAT b = Ok new_data b' -> 0 <= new_data < 2 ^ 32 ->
  (forall i, 0 <= i < 15 -> Z.testbit busy i = false -> (forall j, 0 <= j < i -> Z.testbit busy j = true) ->
    CanMaster_send packet b =
      (CANMessageSet (i + 1) (MkObject (id packet) 0 MSG_OBJ_EXTENDED_ID (packet_length packet) (data packet)) MSG_OBJ_TYPE_TX ;; ret true) b') /\
  ((forall i, 0 <= i < 15 -> Z.testbit busy i = true) -> CanMaster_send packet b = Ok false b') /\
  send_request (id packet) b =
    (if Z.testbit busy 15 then ret false
     else CANMessageSet 16 (MkObject (id packet) 0 MSG_OBJ_EXTENDED_ID 0 []) MSG_OBJ_TYPE_TX_REMOTE ;; ret true) b' /\
  (forall i, 16 <= i < 32 -> Z.testbit new_data i = true -> (forall j, 16 <= j < i -> Z.testbit new_data j = false) ->
    receive packet b =
      (let! object := CANMessageGet (i + 1) (MkObject 0 0 0 8 (data packet)) in
       if (Z.land (ui32Flags object) MSG_OBJ_NEW_DATA =? 0) || (8 <? ui32MsgLen object)
       then ret (false, MkPacket (id packet) (pui8MsgData object) (packet_length packet))
       else ret (true, MkPacket (ui32MsgID object) (pui8MsgData object) (ui32MsgLen object))) b') /\
  ((forall i, 16 <= i < 32 -> Z.testbit new_data i = false) -> receive packet b = Ok (false, packet) b').
Proof.
  intros Hbusy Hnew Hrange. unfold CanMaster_send, send_request, do_send, receive. cbn [negb andb].
  rewrite bool_decide_eq_false_2 by done. cbn [andb].
  assert (forall i, 0 <= i < 32 -> Z.testbit RxMask i = (16 <=? i)) as Hmask.
  { intros i Hi. change RxMask with (Z.lnot (Z.ones 16)). rewrite Z.lnot_spec by lia. rewrite ones_testbit by lia. cmp; done. }
  split; [|split; [|split; [|split]]].
  - intros i Hi Hf Hj. unfold bind at 1. rewrite Hbusy. unfold TxBegin, TxEnd. rewrite (find_object_least _ _ _ _ i) by (done || lia).
    assert ((i + 1 =? 0) = false) as -> by (apply Z.eqb_neq; lia). done.
  - intros Hall. unfold bind at 1. rewrite Hbusy. unfold TxBegin, TxEnd. by rewrite find_object_none by (done || lia).
  - unfold bind at 1. rewrite Hbusy. change TxRxRemote with 15. rewrite bit_set by lia. by destruct (Z.testbit busy 15).
  - intros i Hi Ht Hj. unfold bind at 1. rewrite Hnew. assert ((Z.land new_data RxMask =? 0) = false) as ->.
    { apply Z.eqb_neq. intros E. assert (Z.testbit (Z.land new_data RxMask) i = false) as Hf by (rewrite E; apply Z.bits_0).
      rewrite Z.land_spec, Ht, Hmask in Hf by lia. destruct (Z.leb_spec 16 i); [done|lia]. }
    unfold RxBegin, RxEnd. rewrite (find_object_least _ _ _ _ i) by (done || lia).
    assert ((i + 1 =? 0) = false) as -> by (apply Z.eqb_neq; lia). done.
  - intros Hall. unfold bind at 1. rewrite Hnew. assert ((Z.land new_data RxMask =? 0) = true) as ->; [|done].
    apply Z.eqb_eq, Z.bits_inj'. intros i Hi. rewrite Z.bits_0, Z.land_spec.
    destruct (Z.ltb_spec i 32); [|by rewrite (testbit_bounded new_data 32) by lia].
    rewrite Hmask by lia. destruct (Z.leb_spec 16 i); [by rewrite Hall by lia|apply andb_false_r].
Qed.
End Objects.

(** A board with three packets waiting to be sent and a request in progress; its state is the
    list of the objects that were set.  Nobody connects. *)
#[local] Instance sample_board : Board (list Z) := {|
  MSG_OBJ_EXTENDED_ID := 0x200; MSG_OBJ_USE_EXT_FILTER := 0x28; MSG_OBJ_USE_DIR_FILTER := 0x18;
  MSG_OBJ_RX_INT_ENABLE := 0x02; MSG_OBJ_FIFO := 0x200; MSG_OBJ_NEW_DATA := 0x80;
  CANStatusGet r := ret (match r with CAN_STS_TXREQUEST => 0x8007 | CAN_STS_NEWDAT => 0 end);
  CANMessageSet i _ _ := fun l => Ok tt (l ++ [i]);
  CANMessageGet _ o := ret o;
  CANMessageClear _ := ret tt;
  CANIntStatus := ret 0;
  CANIntClear _ := ret tt;
  INVALID_SOCKET := -1;
  SOCKET_ERROR := -1;
  NDK_socket := ret 3;
  NDK_bind _ _ := ret 0;
  NDK_listen _ _ := ret 0;
  NDK_setsockopt _ := ret 0;
  NDK_accept _ := ret (-1);
  NDK_send _ m := ret (Z.of_nat (length m));
  NDK_recv _ _ := ret (0, []);
  fdClose _ := ret tt;
  fdSelect _ := ret None;
  fdSelect_timeout := ret tt;
  fdSelectAbort := ret tt;
  GPIO_toggle _ := ret tt
|}.

Lemma bridge_message_objects_witness :
  CanMaster_send CanPacket_default [] = Ok true [4] /\ send_request 5 [] = Ok false ([] : list Z).
Proof.
  destruct (bridge_message_objects (BD := sample_board) [] [] 0x8007 0 (MkPacket 5 (replicate 8 0) 0) eq_refl eq_refl ltac:(lia)) as (_ & _ & Hreq & _).
  destruct (bridge_message_objects (BD := sample_board) [] [] 0x8007 0 CanPacket_default eq_refl eq_refl ltac:(lia)) as (Hsend & _).
  split; [|exact Hreq].
  rewrite (Hsend 3 ltac:(lia) eq_refl); [reflexivity|].
  intros j Hj. assert (j = 0 \/ j = 1 \/ j = 2) as [-> | [-> | ->]] by lia; reflexivity.
Defined.

(** ** What the bridge hears *)

(** The receive object with number [n]. *)
Definition receive_object {B} {BD : Board B} (n : Z) : tCANMsgObject :=
  let flags := Z.lor (Z.lor (Z.lor (Z.lor MSG_OBJ_EXTENDED_ID MSG_OBJ_USE_EXT_FILTER) MSG_OBJ_USE_DIR_FILTER) MSG_OBJ_RX_INT_ENABLE) MSG_OBJ_FIFO in
  MkObject HA_CAN_ReservedBits HA_CAN_ReservedMask (if n =? 32 then Z.land flags (Z.lnot MSG_OBJ_FIFO) else flags) 0 [].

Lemma setup_rx_eq {B} {BD : Board B} b :
  setup_rx b = for_each (from_to 17 33) (fun n => CANMessageSet n (receive_object n) MSG_OBJ_TYPE_RX) b.
Proof.
  unfold setup_rx, bind. change (from_to RxBegin RxEnd) with ([16; 17; 18; 19; 20; 21; 22; 23; 24; 25; 26; 27; 28; 29; 30; 31]).
  change (from_to 17 33) with ([17; 18; 19; 20; 21; 22; 23; 24; 25; 26; 27; 28; 29; 30; 31; 32]).
  cbv -[Z.lor Z.land Z.lnot HA_CAN_ReservedBits HA_CAN_ReservedMask CANMessageSet MSG_OBJ_EXTENDED_ID MSG_OBJ_USE_EXT_FILTER
    MSG_OBJ_USE_DIR_FILTER MSG_OBJ_RX_INT_ENABLE MSG_OBJ_FIFO].
  repeat match goal with |- context [CANMessageSet ?n ?o ?t ?s] => destruct (CANMessageSet n o t s) as [[] ?|]; [|reflexivity] end.
  reflexivity.
Qed.

(** C32. What comes to the bridge of itself are the packets of the system and nothing else.
    Each of its 16 receive objects, 17 to 32, is set up with one filter, as one queue that
    ends at the last of them; and an identifier of 29 bits passes that filter exactly when
    it is the number of a packet of a node.  So these objects never hear a programming
    frame.  Frames under its identifier are heard by object 16 alone, after [dev-q?] has set
    it, unless it still waits to be sent, to ask for the number of a node: then the answer. *)
Theorem bridge_hears_packets {B} {BD : Board B} (b : B) z : 0 <= z < 2 ^ 29 ->
  setup_rx b = for_each (from_to 17 33) (fun n => CANMessageSet n (receive_object n) MSG_OBJ_TYPE_RX) b /\
  (forall n, let o := receive_object n in
     Z.land z (ui32MsgIDMask o) = Z.land (ui32MsgID o) (ui32MsgIDMask o) <-> exists p, packet_id_ok p /\ z = HA_CAN_packet_id_to_number p) /\
  Z.land HA_CAN_SpecialId_Update HA_CAN_ReservedMask <> Z.land HA_CAN_ReservedBits HA_CAN_ReservedMask /\
  (forall rest, parse_packet (txt "dev-q?" ++ rest) CanPacket_default false b =
     Ok (Some (packet_of HA_CAN_SpecialId_Update [], true)) b) /\
  (forall busy b', CANStatusGet CAN_STS_TXREQUEST b = Ok busy b' -> Z.testbit busy 15 = false ->
     send_request HA_CAN_SpecialId_Update b =
       (CANMessageSet 16 (MkObject HA_CAN_SpecialId_Update 0 MSG_OBJ_EXTENDED_ID 0 []) MSG_OBJ_TYPE_TX_REMOTE ;; ret true) b').
Proof.
  intros Hz. split; [apply setup_rx_eq|]. split; [|split; [vm_compute; congruence|split; [done|]]].
  2: { intros busy b' Hb H15. unfold send_request, do_send. cbn [negb andb]. unfold bind at 1. rewrite Hb.
       change TxRxRemote with 15. rewrite bit_set by lia. by rewrite H15. }
  intros n o. change (ui32MsgIDMask o) with HA_CAN_ReservedMask. change (ui32MsgID o) with HA_CAN_ReservedBits.
  assert (forall i, 0 <= i -> Z.testbit HA_CAN_ReservedMask i = (i =? 23) || (i =? 28)) as Hmask.
  { intros i Hi. unfold HA_CAN_ReservedMask. rewrite Z.lor_spec, !Z.shiftl_1_l, !Z.pow2_bits_eqb by lia. cmp; done. }
  assert (forall i, 0 <= i -> Z.testbit HA_CAN_ReservedBits i = (i =? 23)) as Hbits.
  { intros i Hi. unfold HA_CAN_ReservedBits. rewrite !Z.shiftl_1_l, !Z.pow2_bits_eqb by lia. cmp; done. }
  split.
  - intros Heq. assert (forall i, 0 <= i -> Z.testbit z i && Z.testbit HA_CAN_ReservedMask i = Z.testbit HA_CAN_ReservedBits i && Z.testbit HA_CAN_ReservedMask i) as H.
    { intros i Hi. by rewrite <- !Z.land_spec, Heq. }
    pose proof (H 23 ltac:(lia)) as H23. pose proof (H 28 ltac:(lia)) as H28. rewrite !Hmask, !Hbits in H23, H28 by lia. cbn in H23, H28.
    rewrite andb_true_r in H23, H28. exists (HA_CAN_number_to_packet_id z). split; [apply number_to_packet_id_ok|].
    apply Z.bits_inj'. intros i Hi. rewrite packet_id_to_number_testbit by (done || apply number_to_packet_id_ok).
    unfold HA_CAN_number_to_packet_id. cbn [address device_id_field priority].
    destruct (Z.ltb_spec i 16); [|destruct (Z.ltb_spec i 23); [|destruct (Z.eqb_spec i 23); [|destruct (Z.ltb_spec i 28)]]].
    + unfold u16. rewrite testbit_mod_pow2 by lia. change 0xffff with (Z.ones 16). rewrite land_bits_low by lia. cmp; btauto.
    + change 0x7f with (Z.ones 7). rewrite land_bits_low, Z.shiftr_spec by lia. replace (i - 16 + 16) with i by lia. cmp; btauto.
    + subst. done.
    + unfold u8. rewrite testbit_mod_pow2 by lia. change 0x0f with (Z.ones 4). rewrite land_bits_low, Z.shiftr_spec by lia.
      replace (i - 24 + 24) with i by lia. cmp; btauto.
    + destruct (Z.eqb_spec i 28) as [->|]; [done|]. apply (testbit_bounded z 29); lia.
  - intros (p & Hp & ->). apply Z.bits_inj'. intros i Hi. rewrite !Z.land_spec, Hmask, Hbits, packet_id_to_number_testbit by done. cmp; btauto.
Qed.

Lemma bridge_hears_packets_witness :
  Z.land 0x03d58201 HA_CAN_ReservedMask = Z.land HA_CAN_ReservedBits HA_CAN_ReservedMask /\
  exists p, packet_id_ok p /\ 0x03d58201 = HA_CAN_packet_id_to_number p.
Proof.
  destruct (bridge_hears_packets (BD := sample_board) [] 0x03d58201 ltac:(lia)) as (_ & H & _). specialize (H 17) as [H _].
  split; [reflexivity|]. apply H. reflexivity.
Defined.


(** ** The buffers *)

(** The bytes of a buffer: the eight of a packet, and those a call of the driver leaves there. *)
Definition buffer_ok (l : list Z) : Prop := length l = 8%nat /\ Forall is_u8 l.

(** A packet of eight bytes. *)
Definition packet_ok (p : CanPacket) : Prop := buffer_ok (data p) /\ packet_length p <= 8.

(** The number [sscanf] reads at [s], and the one after [u]. *)
Definition hex_number (s : text) : Z := digits 16 hex_value 0 (base_16 (sign (skip_space s)).2).
Definition number_after (u s : text) : Z :=
  match strstr s u with Some v => hex_number (drop (length u) v) | None => 0 end.

(** A line has a number of more than 32 bits, for which [sscanf] is undefined, where the bridge
    looks for one. *)
Definition too_big (message : text) : Prop :=
  exists u, u ∈ [txt "dev:"; txt "addr:"; txt "dev-q!"] /\ uint_max < number_after u message.

Section Buffers.
Context {St : Type} (E : fault -> St -> Prop).

(** The printed bytes stop where the end of the line and the final NUL still fit. *)
Lemma print_bytes_wp l bytes : forall m (Q : text -> St -> Prop) s, Forall is_u8 bytes -> Forall (fun i => 0 <= i) l ->
  (length m <= 125)%nat -> (forall i, i ∈ l -> Z.of_nat (length bytes) <= i -> E OutOfBounds s) ->
  (forall m, (length m <= 125)%nat -> Q m s) -> wp E (print_bytes m bytes l) Q s.
Proof.
  induction l as [|i l IH]; intros m Q s Hb Hl Hm HE HQ; cbn [print_bytes]; [by apply wp_ret, HQ|].
  destruct (Z.leb_spec (max_message_size - 4) (Z.of_nat (length m))) as [?|Hlt]; [by apply wp_ret, HQ|].
  unfold max_message_size in Hlt. apply Forall_cons_1 in Hl as [Hi Hl]. apply wp_bind.
  destruct (bytes !! Z.to_nat i) as [b|] eqn:Hbi.
  - eapply wp_at_index; [done|exact Hbi|]. assert (is_u8 b) as Hb8 by (rewrite Forall_lookup in Hb; by eapply Hb).
    assert (length (hex_out 2 b) = 2%nat) as H2 by (rewrite hex_out_digits by exact Hb8; apply hex_digits_length).
    apply wp_bind. eapply wp_eq; [apply put_message_ok; lia|]. apply IH; [done|done|rewrite length_app; lia| |done].
    intros j Hj. apply HE. by apply list_elem_of_further.
  - assert (E OutOfBounds s) as Hs by (apply lookup_ge_None in Hbi; apply (HE i); [apply list_elem_of_here|lia]).
    unfold at_index. rewrite Hbi. by destruct (in_range i (length bytes)); apply wp_raise.
Qed.

Lemma packet_line_wp packet (Q : text -> St -> Prop) s : Forall is_u8 (data packet) ->
  (forall l, Z.of_nat (length l) + 1 <= max_message_size -> Q l s) ->
  (Z.of_nat (length (data packet)) < packet_length packet -> E OutOfBounds s) -> wp E (packet_line packet) Q s.
Proof.
  intros Hd HQ HE. unfold packet_line, packet_text. set (p := HA_CAN_number_to_packet_id (id packet)).
  assert (is_u8 (device_id_field p) /\ is_u16 (address p)) as [H1 H2].
  { unfold p, HA_CAN_number_to_packet_id, is_u8. cbn [device_id_field address]. change 0x7f with (Z.ones 7).
    rewrite Z.land_ones by lia. pose proof (Z.mod_pos_bound (Z.shiftr (id packet) 16) (2 ^ 7) eq_refl).
    change (2 ^ 7) with 128 in *. split; [lia|apply u16_range]. }
  set (head := if id packet =? _ then _ else _). assert (length head <= 20)%nat as Hh.
  { subst head. destruct (_ =? _); [simpl; lia|].
    rewrite !length_app, (hex_out_digits 1), (hex_out_digits 3), !hex_digits_length by done. cbn. lia. }
  do 2 apply wp_bind. eapply wp_eq; [apply put_message_ok; cbn; lia|]. apply print_bytes_wp; [done| |cbn; lia| |].
  - apply Forall_forall. intros i Hi%list_elem_of_In%range_elem. lia.
  - intros i Hi%range_elem Hle. apply HE. lia.
  - intros m Hm. eapply wp_eq; [apply put_message_ok; cbn; lia|]. apply HQ. rewrite length_app. cbn. unfold max_message_size. lia.
Qed.

(** A number of at most [k] digits. *)
Lemma digits_bound s : forall acc, 0 <= acc -> digits 16 hex_value acc s < 16 ^ Z.of_nat (length s) * (acc + 1).
Proof.
  induction s as [|c s IH]; intros acc Ha; cbn [digits length]; [rewrite Z.pow_0_r; lia|].
  assert (0 < 16 ^ Z.of_nat (length s)) as Hp by (apply Z.pow_pos_nonneg; lia).
  rewrite Nat2Z.inj_succ, Z.pow_succ_r by lia.
  destruct (hex_value c) as [d|] eqn:Hd; [|nia]. apply hex_value_range in Hd.
  eapply Z.lt_le_trans; [apply IH; lia|]. nia.
Qed.

Lemma skip_space_length s : (length (skip_space s) <= length s)%nat.
Proof. induction s as [|c s IH]; [done|]. cbn [skip_space length]. destruct (is_space c); cbn [length]; lia. Qed.

Lemma hex_number_short s : (length s <= 2)%nat -> hex_number s <= 255.
Proof.
  intros Hs. unfold hex_number. pose proof (skip_space_length s) as H1. set (t := skip_space s) in *.
  assert (length (sign t).2 <= length t)%nat as H2 by (destruct t as [|c t]; [done|]; cbn; repeat case_match; cbn; lia).
  assert (length (base_16 (sign t).2) <= length (sign t).2)%nat as H3
    by (destruct (sign t).2 as [|c1 [|c2 u]]; cbn; [lia..|]; destruct (_ && _); cbn; lia).
  pose proof (digits_bound (base_16 (sign t).2) 0 ltac:(lia)) as H4.
  assert (16 ^ Z.of_nat (length (base_16 (sign t).2)) <= 16 ^ 2) by (apply Z.pow_le_mono_r; lia). lia.
Qed.

Lemma scan_hex_wp t (Q : option Z -> St -> Prop) s :
  (forall v, Q v s) -> (uint_max < hex_number t -> E Undefined s) -> wp E (scan_hex t) Q s.
Proof.
  intros HQ HE. unfold scan_hex, hex_number in *. destruct (skip_space t) as [|c t']; [by apply wp_ret|].
  destruct (sign (c :: t')) as [neg r]. cbn [snd] in HE. destruct (starts_number _ _); [|by apply wp_ret].
  destruct (Z.ltb_spec uint_max (digits 16 hex_value 0 (base_16 r))); [apply wp_raise; auto|by apply wp_ret].
Qed.

Lemma strstr_prefix u t : prefixb u t = true -> strstr t u = Some t.
Proof. intros Hp. unfold strstr. destruct t as [|c t]; cbn [index]; rewrite Hp; done. Qed.

(** [ptr] is where [strstr] finds [u] in the line. *)
Lemma scan_after_wp u t ptr (Q : option Z -> St -> Prop) s :
  u ∈ [txt "dev:"; txt "addr:"; txt "dev-q!"] -> (prefixb u ptr = true -> strstr t u = Some ptr) ->
  (forall v, Q v s) -> (too_big t -> E Undefined s) -> wp E (scan_after u ptr) Q s.
Proof.
  intros Hu Hptr HQ HE. unfold scan_after. destruct (prefixb u ptr) eqn:Hp; [|by apply wp_ret].
  apply scan_hex_wp; [done|]. intros Hbig. apply HE. exists u. split; [done|]. unfold number_after. by rewrite Hptr.
Qed.

Lemma parse_bytes_wp k : forall ptr p (Q : CanPacket -> St -> Prop) s, (length ptr <= k)%nat ->
  packet_ok p -> 0 <= packet_length p -> (forall p', packet_ok p' -> Q p' s) -> wp E (parse_bytes ptr p) Q s.
Proof.
  induction k as [|k IH]; intros [|a [|b ptr]] p Q s Hk Hp Hl HQ; cbn [length] in Hk; cbn [parse_bytes];
    try (by apply wp_ret, HQ); try lia.
  destruct (Z.ltb_spec (packet_length p) 8) as [Hlt|]; [|by apply wp_ret, HQ]. destruct Hp as [[H8 Hu] Hp].
  apply wp_bind, scan_hex_wp.
  - intros [v|]; [|by apply wp_ret, HQ]. apply wp_bind, wp_set_index; [lia|]. apply IH; [lia| |cbn; lia|done].
    split; [split|cbn; lia]; cbn [data]; [by rewrite length_insert|]. apply Forall_insert; [done|apply u8_range].
  - intros Hbig. pose proof (hex_number_short [a; b] ltac:(cbn; lia)). unfold uint_max in Hbig. lia.
Qed.

Local Ltac named := rewrite !elem_of_cons; tauto.

Lemma parse_packet_wp t (Q : option (CanPacket * bool) -> St -> Prop) s :
  (forall r, match r with Some (p, _) => packet_ok p | None => True end -> Q r s) -> (too_big t -> E Undefined s) ->
  wp E (parse_packet t CanPacket_default false) Q s.
Proof.
  intros HQ HE. assert (buffer_ok (replicate 8 0)) as Hz by (split; [done|apply Forall_replicate; unfold is_u8; lia]).
  assert (forall k v (l : list Z), is_u8 v -> buffer_ok l -> buffer_ok (<[k := v]> l)) as Hput.
  { intros k v l Hv [H8 Hu]. split; [by rewrite length_insert|by apply Forall_insert]. }
  unfold parse_packet. destruct (prefixb _ t).
  - unfold parse_dev_id_packet. destruct (prefixb _ t); [apply wp_ret, HQ; by split|]. apply wp_bind.
    apply (scan_after_wp _ t t); [named|apply strstr_prefix| |done].
    intros [v|]; [|by apply wp_ret, HQ]. destruct (_ && _); [|by apply wp_ret, HQ].
    apply wp_bind, wp_set_index; [by vm_compute|]. apply wp_bind, wp_set_index; [by vm_compute|]. apply wp_ret, HQ. split; [|cbn; lia].
    change 0xff with (Z.ones 8). rewrite !Z.land_ones by lia. apply Hput, Hput; [apply u8_range..|done].
  - apply wp_bind, (scan_after_wp _ t t); [named|apply strstr_prefix| |done].
    intros [d|]; [|by apply wp_ret, HQ]. destruct (_ <? _); [by apply wp_ret, HQ|].
    destruct (strstr t _) as [ptr|] eqn:Hptr; [|by apply wp_ret, HQ]. apply wp_bind.
    apply (scan_after_wp _ t ptr); [named|done| |done].
    intros [a|]; [|by apply wp_ret, HQ]. destruct (_ <? _); [by apply wp_ret, HQ|]. cbv zeta.
    destruct (strchr ptr _); [apply wp_ret, HQ; by split|]. destruct (strchr ptr _) as [q|]; [|by apply wp_ret, HQ].
    apply wp_bind. eapply parse_bytes_wp; [reflexivity|by split|done|]. intros p Hp. by apply wp_ret, HQ.
Qed.
End Buffers.

(** ** Rounds *)

(** The vendor's calls return, and [CANMessageGet] keeps to the buffer it is given. *)
Class BoardLaws {B} (BD : Board B) : Prop := {
  status_returns r b : wp total (CANStatusGet r) (fun _ _ => True) b;
  set_returns i o t b : wp total (CANMessageSet i o t) (fun _ _ => True) b;
  get_returns i o b : buffer_ok (pui8MsgData o) -> wp total (CANMessageGet i o) (fun o' _ => buffer_ok (pui8MsgData o')) b;
  clear_returns i b : wp total (CANMessageClear i) (fun _ _ => True) b;
  accept_returns fd b : wp total (NDK_accept fd) (fun _ _ => True) b;
  send_returns fd m b : wp total (NDK_send fd m) (fun _ _ => True) b;
  recv_returns fd n b : wp total (NDK_recv fd n) (fun _ _ => True) b;
  close_returns fd b : wp total (fdClose fd) (fun _ _ => True) b;
  select_returns fds b : wp total (fdSelect fds) (fun _ _ => True) b;
  timeout_returns b : wp total fdSelect_timeout (fun _ _ => True) b;
  toggle_returns pin b : wp total (GPIO_toggle pin) (fun _ _ => True) b
}.

Section Rounds.
Context {B : Type} {BD : Board B} {BL : BoardLaws BD}.

(** Four places for clients, two listening sockets. *)
Definition server_ok (s : can_server B) : Prop := length (clients_ s) = 4%nat /\ length (server_fd_ s) = 2%nat.

(** [n] packets came from the bus one after the other, and each was handled. *)
Inductive busy : nat -> CanPacket -> can_server B -> can_server B -> Prop :=
| busy_O p s : busy 0 p s s
| busy_S n p p' s b s1 s2 :
    receive p (board s) = Ok (true, p') b -> handle_can_packet p' (fset f_board b s) = Ok tt s1 ->
    busy n p' s1 s2 -> busy (S n) p s s2.

Variable fuel : nat.

(** What may end a round: the bus has sent [fuel] packets without a pause, or a line that was
    received has a number that does not fit its variable. *)
Definition round_fault (f : fault) (s : can_server B) : Prop :=
  (f = Hang /\ exists s0 p, server_ok s0 /\ packet_ok p /\ busy fuel p s0 s) \/
  (f = Undefined /\ exists b fd n m, NDK_recv fd max_message_size b = Ok (n, m) (board s) /\
     too_big (c_string (take (Z.to_nat n) m))).

(** The state keeps its shape. *)
Definition keeps_shape {A} (m : prog (can_server B) A) : Prop :=
  forall s, server_ok s -> wp round_fault m (fun _ => server_ok) s.

Lemma shape_bind {A C} (m : prog (can_server B) A) (k : A -> prog (can_server B) C) :
  keeps_shape m -> (forall a, keeps_shape (k a)) -> keeps_shape (bind m k).
Proof. intros Hm Hk s Hs. apply wp_bind. eapply wp_mono; [by apply Hm|]. intros a s' Hs'. by apply Hk. Qed.
Lemma shape_ret {A} (a : A) : keeps_shape (ret a).
Proof. intros s Hs. by apply wp_ret. Qed.
Lemma shape_when b (m : prog (can_server B) unit) : keeps_shape m -> keeps_shape (when b m).
Proof. intros Hm s Hs. apply wp_when; intros _; [by apply Hm|done]. Qed.
Lemma shape_on_board {A} (m : prog B A) : (forall b, wp total m (fun _ _ => True) b) -> keeps_shape (on_board m).
Proof. intros Hm s Hs. specialize (Hm (board s)). unfold wp, on_board in *. destruct (m (board s)); [exact Hs|done]. Qed.
Lemma shape_client i : 0 <= i < 4 -> keeps_shape (idx f_clients i).
Proof.
  intros Hi s Hs. destruct (lookup_lt_is_Some_2 (clients_ s) (Z.to_nat i)) as [c Hc]; [destruct Hs; lia|].
  unfold wp. by rewrite (idx_ok f_clients i c) by (done || lia).
Qed.
Lemma shape_server i : 0 <= i < 2 -> keeps_shape (idx f_server_fd i).
Proof.
  intros Hi s Hs. destruct (lookup_lt_is_Some_2 (server_fd_ s) (Z.to_nat i)) as [c Hc]; [destruct Hs; lia|].
  unfold wp. by rewrite (idx_ok f_server_fd i c) by (done || lia).
Qed.
Lemma shape_set_client i c : 0 <= i < 4 -> keeps_shape (idx_set f_clients i c).
Proof.
  intros Hi s [H1 H2]. unfold wp. rewrite idx_set_ok by (cbn; lia). split; [|done]. cbn. by rewrite length_insert.
Qed.
Lemma shape_for n (body : Z -> prog (can_server B) unit) :
  (forall i, 0 <= i < n -> keeps_shape (body i)) -> keeps_shape (for_each (range n) body).
Proof.
  intros Hb s Hs. apply wp_for_each_inv; [done|]. intros i s' Hi Hs'. apply Hb; [|done].
  unfold range in Hi. apply list_elem_of_fmap in Hi as (k & -> & Hk). apply elem_of_seq in Hk. lia.
Qed.

Ltac returns :=
  repeat match goal with
  | |- wp _ (bind _ _) _ _ => apply wp_bind
  | |- wp _ (ret _) _ _ => by apply wp_ret
  | |- wp _ (if ?b then _ else _) _ _ => destruct b
  | |- wp total (CANStatusGet _) _ _ => eapply wp_mono; [apply status_returns|intros ?a ?b _]
  | |- wp total (CANMessageSet _ _ _) _ _ => eapply wp_mono; [apply set_returns|intros ?a ?b _]
  end.

Lemma receive_returns p b : packet_ok p -> wp total (receive p) (fun r _ => packet_ok r.2) b.
Proof.
  intros [Hp Hl]. unfold receive. apply wp_bind. eapply wp_mono; [apply status_returns|]. intros bits b1 _.
  destruct (_ =? 0); [by apply wp_ret|]. destruct (_ =? 0); [by apply wp_ret|].
  apply wp_bind. eapply wp_mono; [by apply get_returns|]. intros o b2 Ho.
  destruct (Z.ltb_spec MsgLen (ui32MsgLen o)); rewrite ?orb_true_r, ?orb_false_r; [by apply wp_ret|].
  destruct (_ =? 0); by apply wp_ret.
Qed.

Lemma receive_response_returns p b : packet_ok p -> wp total (receive_response p) (fun r _ => packet_ok r.2) b.
Proof.
  intros [Hp Hl]. unfold receive_response. apply wp_bind. eapply wp_mono; [by apply get_returns|]. intros o b1 Ho.
  destruct (_ =? 0); [by apply wp_ret|]. apply wp_bind. eapply wp_mono; [apply clear_returns|]. intros [] b2 _.
  destruct (Z.ltb_spec MsgLen (ui32MsgLen o)); by apply wp_ret.
Qed.
Lemma do_send_returns i d n r b : wp total (do_send i d n r) (fun _ _ => True) b.
Proof. unfold do_send. returns. Qed.

Lemma shape_send_to i m : 0 <= i < 4 -> keeps_shape (send_to_client i m).
Proof. intros Hi. apply shape_bind; [by apply shape_client|]. intros c. apply shape_on_board. intros b. apply send_returns. Qed.

Lemma shape_say i m : 0 <= i < 4 -> keeps_shape (let! _ := send_to_client i m in ret tt).
Proof. intros Hi. apply shape_bind; [by apply shape_send_to|]. intros _. apply shape_ret. Qed.

Lemma shape_clear i : 0 <= i < 4 -> keeps_shape (Client_clear i).
Proof.
  intros Hi. apply shape_bind; [by apply shape_client|]. intros c. apply shape_when, shape_bind; [|intros _; by apply shape_set_client].
  apply shape_on_board. intros b. apply close_returns.
Qed.

Lemma shape_handle_can_packet p : packet_ok p -> keeps_shape (handle_can_packet p).
Proof.
  intros [[Hlen Hu] Hl] s Hs. unfold handle_can_packet. apply wp_bind. apply packet_line_wp; [done| |lia].
  intros line _. revert s Hs. match goal with |- forall s, _ -> wp _ ?m _ _ => change (keeps_shape m) end.
  apply shape_for. intros i Hi. apply shape_bind; [by apply shape_client|]. intros c. apply shape_when, shape_bind.
  - by apply shape_when, shape_say.
  - intros _. apply shape_bind; [by apply shape_send_to|]. intros sent.
    destruct (_ || _); [by apply shape_clear|by apply shape_when, shape_say].
Qed.

(** Draining stops, or all its packets came. *)
Lemma drain_busy n : forall p s, server_ok s -> packet_ok p ->
  wp (fun f s' => round_fault f s' \/ f = Hang /\ busy n p s s') (drain n p) (fun _ => server_ok) s.
Proof.
  induction n as [|n IH]; intros p s Hs Hp; [apply wp_raise; right; split; [done|constructor]|]. cbn [drain]. apply wp_bind.
  pose proof (receive_returns p (board s) Hp) as Hrec. unfold wp in Hrec. unfold wp at 1, on_board.
  destruct (receive p (board s)) as [[got p'] b|] eqn:Er; [|done]. cbn [snd] in Hrec.
  destruct got; [|by apply wp_ret]. pose proof (shape_handle_can_packet p' Hrec (fset f_board b s) Hs) as Hh.
  apply wp_bind. unfold wp in Hh. unfold wp at 1. destruct (handle_can_packet p' (fset f_board b s)) as [[] s1|f s1] eqn:Eh; [|by left].
  eapply wp_weaken; [|by apply IH]. intros f s2 [Hf|[-> Hb]]; [by left|]. right. split; [done|]. by eapply busy_S.
Qed.

Lemma shape_drain p : packet_ok p -> keeps_shape (drain fuel p).
Proof.
  intros Hp s Hs. eapply wp_weaken; [|by apply drain_busy]. intros f s' [Hf|[-> Hb]]; [done|]. left. split; [done|]. by exists s, p.
Qed.

Lemma shape_reply i m : 0 <= i < 4 -> keeps_shape (reply_to i m).
Proof. intros Hi. apply shape_bind; [by apply shape_client|]. intros c. by apply shape_when, shape_say. Qed.

Lemma wait_wp n : forall p s, server_ok s -> packet_ok p ->
  wp round_fault (wait_response n p) (fun r s' => server_ok s' /\ packet_ok r.2) s.
Proof.
  induction n as [|n IH]; intros p s Hs Hp; cbn [wait_response]; [by apply wp_ret|].
  apply wp_bind. eapply wp_mono; [apply shape_on_board, Hs; apply timeout_returns|]. intros [] s1 Hs1.
  apply wp_bind. pose proof (receive_response_returns p (board s1) Hp) as Hrec. unfold wp in Hrec. unfold wp at 1, on_board.
  destruct (receive_response p (board s1)) as [[[] p'] b|]; [| |done]; [by apply wp_ret|by apply IH].
Qed.

Lemma shape_handle_client i : 0 <= i < 4 -> keeps_shape (handle_client i).
Proof.
  intros Hi s Hs. unfold handle_client. apply wp_bind. eapply wp_mono; [by apply shape_client|]. intros c s1 Hs1.
  apply wp_bind. pose proof (recv_returns (client_fd c) max_message_size (board s1)) as Hrec. unfold wp in Hrec. unfold wp at 1, on_board.
  destruct (NDK_recv (client_fd c) max_message_size (board s1)) as [[n m] b|] eqn:Er; [|done].
  assert (server_ok (fset f_board b s1)) as Hs2 by done.
  destruct (n <? 0); [by apply shape_clear|]. destruct (_ || _); [by apply shape_ret|].
  apply wp_bind, parse_packet_wp.
  2: { intros Hbig. right. split; [done|]. by exists (board s1), (client_fd c), n, m. }
  intros [[p r]|] Hp; [|by apply shape_reply]. revert Hs2. generalize (fset f_board b s1). intros s4 Hs4.
  apply wp_bind. eapply wp_mono; [apply shape_on_board, Hs4; intros b'; destruct r; apply do_send_returns|]. intros ok s5 Hs5.
  destruct (r && ok); [|by apply shape_reply]. apply wp_bind. eapply wp_mono; [by apply wait_wp|].
  intros [[] p'] s6 [Hs6 Hp']; [by apply shape_handle_can_packet|]. revert s6 Hs6.
  apply shape_bind; [apply shape_on_board; intros b'; apply clear_returns|]. intros _. by apply shape_reply.
Qed.

Lemma shape_handle_connect i : 0 <= i < 2 -> keeps_shape (handle_connect i).
Proof.
  intros Hi. unfold handle_connect. apply shape_bind; [by apply shape_server|]. intros fd.
  apply shape_bind; [apply shape_on_board; intros b; apply accept_returns|]. intros c.
  destruct (c =? _); [apply shape_ret|]. intros s Hs. apply wp_bind, wp_rd.
  destruct (list_find _ _) as [[k c']|] eqn:Hk.
  - apply list_find_Some in Hk as [Hk _]. apply lookup_lt_Some in Hk. cbn [fget f_clients] in Hk.
    assert (0 <= Z.of_nat k < 4) as Hk4 by (destruct Hs; lia).
    revert s Hs Hk. intros s Hs _. revert s Hs.
    change (keeps_shape (idx_set f_clients (Z.of_nat k) (MkClient c (i =? Server_Interactive)) ;; greeting (Z.of_nat k))).
    apply shape_bind; [by apply shape_set_client|]. intros _. apply shape_bind; [by apply shape_client|]. intros cl.
    by apply shape_when, shape_say.
  - revert s Hs Hk. intros s Hs _. revert s Hs.
    match goal with |- forall s, _ -> wp _ ?m _ _ => change (keeps_shape m) end.
    apply shape_bind; [apply shape_on_board; intros b; apply send_returns|]. intros _.
    apply shape_on_board. intros b. apply close_returns.
Qed.

Lemma shape_handle_signal pin : keeps_shape (handle_signal pin fuel).
Proof.
  apply shape_bind; [apply shape_on_board; intros b; apply toggle_returns|]. intros _. apply shape_drain.
  split; [split; [done|apply Forall_replicate; unfold is_u8; lia]|cbn; lia].
Qed.

Lemma shape_round pin : keeps_shape (server_round pin fuel).
Proof.
  intros s Hs. unfold server_round. apply wp_bind, wp_rd, wp_bind, wp_rd. revert s Hs.
  intros s Hs. set (fds := _ ++ _). clearbody fds. revert s Hs.
  match goal with |- forall s, _ -> wp _ ?m _ _ => change (keeps_shape m) end.
  apply shape_bind; [apply shape_on_board; intros b; apply select_returns|]. intros [rdset|]; [|apply shape_ret].
  apply shape_bind; [apply shape_handle_signal|]. intros _.
  apply shape_bind.
  { apply shape_for. intros i Hi. apply shape_bind; [by apply shape_server|]. intros fd. by apply shape_when, shape_handle_connect. }
  intros _. apply shape_bind.
  { apply shape_for. intros i Hi. apply shape_bind; [by apply shape_client|]. intros c. by apply shape_when, shape_handle_client. }
  intros _. apply shape_bind; [apply shape_handle_signal|]. intros _. apply shape_ret.
Qed.

Lemma shape_rounds n pin : keeps_shape (rounds n pin fuel).
Proof.
  induction n as [|n IH]; [apply shape_ret|].
  apply shape_bind; [apply shape_round|]. intros []; [done|apply shape_ret].
Qed.
End Rounds.


(** C40. The line the bridge prints for a packet, whatever its identifier and its length field say,
    fits the buffer of 128 characters together with its final NUL; what can be read out of
    bounds is only the array of the packet's bytes, by a length field greater than it. *)
Theorem printed_line_fits {St} packet (s : St) :
  Forall is_u8 (data packet) ->
  match packet_line packet s with
  | Ok l s' => s' = s /\ Z.of_nat (length l) + 1 <= max_message_size
  | Fault f s' => f = OutOfBounds /\ Z.of_nat (length (data packet)) < packet_length packet
  end.
Proof.
  intros Hd. apply (packet_line_wp (fun f _ => f = OutOfBounds /\ Z.of_nat (length (data packet)) < packet_length packet) packet
    (fun l s' => s' = s /\ Z.of_nat (length l) + 1 <= max_message_size)); [done|by intros|done].
Qed.

Lemma printed_line_fits_witness :
  match packet_line (MkPacket 0x01058101 (replicate 90 0xff) 90) tt with
  | Ok l _ => Z.of_nat (length l) + 1 <= 128
  | Fault _ _ => False
  end.
Proof.
  pose proof (printed_line_fits (MkPacket 0x01058101 (replicate 90 0xff) 90) tt) as H.
  destruct (packet_line (MkPacket 0x01058101 (replicate 90 0xff) 90) tt).
  - apply H, Forall_replicate. unfold is_u8. lia.
  - destruct H as [_ H]; [apply Forall_replicate; unfold is_u8; lia|]. vm_compute in H. discriminate H.
Defined.

#[local] Instance sample_board_laws : BoardLaws sample_board.
Proof. by split. Qed.

