(* ===== verification/System.v ===== *)
(** The whole way: what the router, the bridge and the node make of one another's messages,
    and what the client library makes of the router's.

    Each part is the model of its own file; here the bytes one of them writes are the
    bytes the next one reads, and the frame one of them puts on the bus is the frame the
    other receives. *)

From Stdlib Require Import String.
From S2P Require Import Prelude Monad CanProto Machine Gpio Flash CanDrv CanRules Sim State Can.
From S2P Require Import Channel Switch Module Handlers Receive Commands.
From S2P Require Import Text Message MessageRules SocketConnection Config Router RouterRules RouterProps Client.
From S2P Require Import CanServer CanServerRules.

(** ** Lines *)

Lemma plain_no_crlf s : forallb plain_digit s = true -> forallb (fun c => negb (is_crlf c)) s = true.
Proof.
  apply forallb_weaken. intros [[] [] [] [] [] [] [] []]; done.
Qed.

Lemma name_no_crlf s : check_string s = true -> forallb (fun c => negb (is_crlf c)) s = true.
Proof.
  rewrite check_string_forallb. apply forallb_weaken. intros [[] [] [] [] [] [] [] []]; done.
Qed.

(** One line and its end, from the beginning of a line. *)
Lemma scan_one_line t : forallb (fun c => negb (is_crlf c)) t = true -> is_blank t = false ->
  scan [] (t ++ SocketConnection.crlf) = ([t], []).
Proof.
  intros Ht Hb. rewrite scan_app, (scan_line t []) by done.
  unfold SocketConnection.crlf. cbn [fst snd app scan is_crlf char_in SocketConnection.crlf existsb Ascii.eqb Bool.eqb orb].
  by rewrite Hb.
Qed.

(** A connection with nothing begun reads one line, in whatever chunks it comes. *)
Lemma read_one_line {H} (o : sock H) chunks t :
  read_buffer_ o = [] -> forallb (fun c => negb (is_crlf c)) t = true -> is_blank t = false ->
  concat chunks = t ++ SocketConnection.crlf ->
  for_each (Received <$> chunks) on_read_ready o = Ok tt (after_lines [t] [] o).
Proof. intros Ho Ht Hb Hc. rewrite read_chunks by (by rewrite Ho). by rewrite Ho, Hc, scan_one_line. Qed.

(** ** The router and a client *)

Lemma get_uint_argument_put c key k z : get_argument c key [] = hex_digits (S k) z ->
  0 <= z < 16 ^ Z.of_nat (S k) -> z <= uint_max -> get_uint_argument c key uint_max = z.
Proof.
  intros Hc Hz Hmax. unfold get_uint_argument. rewrite Hc. pose proof (hex_digits_length (S k) z) as Hl.
  rewrite bool_decide_eq_false_2 by (intros E; by rewrite E in Hl). by rewrite hex_extract_digits.
Qed.

Lemma get_raw_argument_put {St} c key l (s : St) : get_argument c key [] = put_hex l -> Forall is_u8 l ->
  get_raw_argument c key s = Ok (match l with [] => None | _ => Some l end) s.
Proof.
  intros Hc Hl. unfold get_raw_argument. rewrite Hc. pose proof (put_hex_length l Hl) as Hlen.
  destruct l as [|b l]; [done|]. set (l' := b :: l) in *.
  rewrite bool_decide_eq_false_2 by (intros E; rewrite E in Hlen; cbn in Hlen; lia).
  rewrite Hlen, Nat.Div0.mod_mul, Nat.div_mul by lia.
  assert (find_first_not_of (put_hex l') hex_chars 0 = None) as ->.
  { unfold find_first_not_of. rewrite drop_0, index_if_none; [done|]. by apply plain_hex, put_hex_chars. }
  pose proof (get_hex_put [] l' [] s Hl) as Hg. rewrite app_nil_r in Hg. change ([] ++ put_hex l') with (put_hex l') in Hg.
  change (length (A:=ascii) []) with 0%nat in Hg. change (bind (get_hex (put_hex l') 0 (length l')) (fun l => ret (Some l)) s = Ok (Some l') s).
  by rewrite (bind_ok _ _ _ _ _ Hg).
Qed.

(** The command of a device as the client has it. *)
Definition command_of (m : Message) (d : Device) (reply : bool) : DeviceCommand :=
  MkCommand (device_name d) (if reply then Type_Reply else Type_Send) (address_ m) (body_ m).

Definition device_names_ok (d : Device) : Prop :=
  device_name d <> [] /\ check_string (device_name d) = true /\ check_string (network_name d) = true.

Lemma routed_command_read {St} m d reply (s : St) : message_wf m -> device_names_ok d ->
  set_from_service_command (routed_command m d reply) s = Ok (command_of m d reply) s.
Proof.
  intros (_ & Ha & Hlen & Hbody & _) (Hd & _). unfold set_from_service_command.
  set (c := routed_command m d reply).
  assert (get_argument c (txt "device") [] = device_name d) as -> by (by destruct reply).
  assert (get_uint_argument c (txt "address") uint_max = address_ m) as ->.
  { unfold is_u16 in Ha. destruct (address_ m <? 256) eqn:E.
    - apply (get_uint_argument_put c (txt "address") 1).
      + unfold c, routed_command. rewrite E. cbn -[hex_out hex_digits]. apply hex_out_digits. simpl. lia.
      + simpl. lia.
      + unfold uint_max. lia.
    - assert ((address_ m <? 256 * 256) = true) as E2 by (apply Z.ltb_lt; lia).
      apply (get_uint_argument_put c (txt "address") 3).
      + unfold c, routed_command. rewrite E, E2. cbn -[hex_out hex_digits]. apply hex_out_digits. simpl. lia.
      + simpl. lia.
      + unfold uint_max. lia. }
  assert (get_raw_argument c (txt "data") s = Ok (match body_ m with [] => None | _ => Some (body_ m) end) s) as Hraw
    by (apply get_raw_argument_put; done).
  set (type := if reply then Type_Reply else Type_Send).
  erewrite (bind_ok _ _ _ type); [|by destruct reply].
  rewrite (bool_decide_eq_false_2 (device_name d = [])) by done.
  assert ((address_ m =? uint_max) = false) as -> by (apply Z.eqb_neq; unfold is_u16, uint_max in *; lia).
  assert ((address_ m <=? 0xffff) = true) as -> by (apply Z.leb_le; unfold is_u16 in *; lia).
  assert ((length (default [] (match body_ m with [] => None | _ => Some (body_ m) end)) <=? 8)%nat = true) as Hl8
    by (apply Nat.leb_le; destruct (body_ m); done).
  rewrite decide_False by (by destruct reply). cbn [negb verify].
  do 3 (erewrite (bind_ok _ _ _ tt); [|reflexivity]). rewrite (bind_ok _ _ _ (body_ m) s); [done|].
  rewrite (bind_ok _ _ _ _ _ Hraw), Hl8. by destruct (body_ m).
Qed.

Lemma routed_command_wf m d reply : message_wf m -> device_names_ok d -> command_wf (routed_command m d reply).
Proof.
  intros _ (Hd0 & Hd & Hn). split; [by destruct reply|]. split; [by destruct reply|]. cbn [routed_command arguments_]. split.
  - repeat constructor; cbn [fst snd]; try done; apply hex_check_string; [apply hex_out_plain|apply put_hex_plain].
  - repeat constructor.
Qed.

Lemma put_arguments_no_crlf l : Forall argument_wf l -> forallb (fun c => negb (is_crlf c)) (put_arguments l) = true.
Proof.
  induction 1 as [|[k v] l (_ & Hk & Hv) _ IH]; [done|]. cbn [put_arguments]. rewrite !forallb_app. cbn [fst snd] in *.
  by rewrite (name_no_crlf _ Hk), (name_no_crlf _ Hv), IH.
Qed.

(** The line of a command is one line, and is read back. *)
Lemma command_line c : command_wf c -> exists t, line_of (PServiceCommand c) = t ++ SocketConnection.crlf /\
  forallb (fun c => negb (is_crlf c)) t = true /\ is_blank t = false /\ parse t = Some (PServiceCommand c).
Proof.
  intros Hc. destruct (packet_roundtrip_at (PServiceCommand c) tt) as (t & Ht & Hp); [by split|].
  exists t. unfold line_of, parse. rewrite Ht, Hp. split; [done|]. cbn [convert_to_string] in Ht.
  destruct Hc as (Ha0 & Ha & Hl & _). unfold ServiceCommand_serialize in Ht. rewrite (bool_decide_eq_false_2 _ Ha0) in Ht.
  cbn in Ht. injection Ht as <-. split; [|done]. cbn [forallb]. change (negb (is_crlf "c")) with true.
  change (forallb (fun c => negb (is_crlf c)) (txt "cmd:" ++ action_ c ++ put_arguments (arguments_ c)) = true).
  by rewrite !forallb_app, (name_no_crlf _ Ha), put_arguments_no_crlf.
Qed.

(** C7. An answer that the router sends to a client closes the query that waits for it.  The
    line of the reply the router makes of a device's message, cut by the network into any
    chunks, is read by the client's connection as one command, posted to its handler; and
    the dispatcher, given that command, closes the first of its queries for the
    device's name and the message's address, and calls its handler once with the body of
    the message; the other queries still wait.  Without such a query nothing but the
    unknown handler is called. *)
Theorem reply_reaches_query {Hd : Type} (m : Message) (d : Device) (o : sock unit) chunks (dp : dispatcher Hd) :
  message_wf m -> device_names_ok d -> packet_handler_ o = Some tt -> read_buffer_ o = [] ->
  concat chunks = line_of (PServiceCommand (routed_command m d true)) ->
  for_each (Received <$> chunks) on_read_ready o =
    Ok tt (fset f_posted (posted_ o ++ [(tt, Some (PServiceCommand (routed_command m d true)), scope_ o)]) o) /\
  (forall before q after, queries_ dp = before ++ q :: after ->
     device_ (query q) = device_name d -> command_address (query q) = address_ m ->
     Forall (fun q => ~ answers (command_of m d true) q) before ->
     on_packet (Some (PServiceCommand (routed_command m d true))) dp =
       Ok tt (fset f_calls (calls_ dp ++ [(OfQuery (unique_id q) (query_handler q), Some (command_of m d true))])
               (fset f_queries (before ++ after) dp))) /\
  (Forall (fun q => ~ answers (command_of m d true) q) (queries_ dp) ->
     on_packet (Some (PServiceCommand (routed_command m d true))) dp = call_unknown (command_of m d true) dp).
Proof.
  intros Hm Hnames Ho Hb Hchunks. pose proof (routed_command_wf m d true Hm Hnames) as Hwf. split.
  - destruct (command_line _ Hwf) as (t & Ht & Hplain & Hblank & Hparse). rewrite Ht in Hchunks.
    rewrite (read_one_line o chunks t) by done. unfold after_lines. rewrite Ho. cbn [omap list_omap]. rewrite Hparse.
    destruct o. cbn in Hb. by subst.
  - assert (forall dp : dispatcher Hd, on_packet (Some (PServiceCommand (routed_command m d true))) dp =
              handle_device_command (command_of m d true) dp) as Hon.
    { intros dp'. unfold on_packet. change (action_ (routed_command m d true)) with (txt "reply").
      rewrite !bool_decide_eq_false_2, bool_decide_eq_true_2 by done. cbn [orb].
      by rewrite (bind_ok _ _ _ _ _ (routed_command_read m d true dp' Hm Hnames)). }
    split.
    + intros before q after Hq Hdev Haddr Hbefore. rewrite Hon. unfold handle_device_command.
      rewrite decide_True by done. unfold bind at 1, rd at 1. cbn [fget f_queries].
      assert (list_find (answers (command_of m d true)) (queries_ dp) = Some (length before, q)) as ->.
      { apply list_find_Some. rewrite Hq. split; [by apply list_lookup_middle|]. split; [by split|].
        intros j y Hj Hlt. rewrite lookup_app_l in Hj by done. by apply (Forall_lookup_1 _ _ _ _ Hbefore Hj). }
      unfold close_query, call_handler, bind, rd, wr. cbn [fget f_queries]. rewrite Hq, list_lookup_middle by done.
      cbn. by rewrite delete_middle.
    + intros Hnone. rewrite Hon. unfold handle_device_command. rewrite decide_True by done.
      unfold bind at 1, rd at 1. cbn [fget f_queries].
      by assert (list_find (answers (command_of m d true)) (queries_ dp) = None) as -> by by apply list_find_None.
Qed.

(** Two queries wait for the state of the same channel; the first is answered. *)
Lemma reply_reaches_query_witness :
  let m := MkMessage Type_Data 0x1f 0x0203 [1] in
  let q := fun id => MkQuery (MkCommand (txt "hall") Type_Query 0x0203 []) 7%nat id true in
  let dp := MkDispatcher None None None [] [q 1; q 2] 2 [] [] in
  on_packet (Some (PServiceCommand (routed_command m sample_device true))) dp =
    Ok tt (MkDispatcher None None None [] [q 2] 2 [(OfQuery 1 7%nat, Some (MkCommand (txt "hall") Type_Reply 0x0203 [1]))] []).
Proof.
  intros m q dp. destruct (reply_reaches_query m sample_device
    (MkSock (Some tt) 0 true false [] [] false [] []) [line_of (PServiceCommand (routed_command m sample_device true))] dp)
    as (_ & H & _).
  - unfold message_wf, is_u8, is_u16. cbn. repeat (split; [lia|]). split; [repeat constructor; unfold is_u8; lia|done].
  - by split.
  - reflexivity.
  - reflexivity.
  - cbn [concat]. apply app_nil_r.
  - exact (H [] (q 1) [q 2] eq_refl eq_refl eq_refl ltac:(constructor)).
Defined.

(** ** The router, the bridge and a node *)

(** What the bridge prints is one line, and no packet. *)
Lemma bridge_line_lost {St H} (b : St) (o : sock H) p l :
  packet_id_ok p -> Forall is_u8 l -> (length l <= 8)%nat -> read_buffer_ o = [] ->
  exists t, packet_line (packet_of (HA_CAN_packet_id_to_number p) l) b = Ok t b /\ on_read_ready (Received t) o = Ok tt o.
Proof.
  intros Hp Hl Hlen Ho. unfold packet_of. rewrite packet_line_line by done. eexists. split; [done|].
  destruct (bridge_and_router_disagree (MkMessage Type_Request 0 0 []) p l tt) as [_ (t & Ht & Hfault)]; [|done..|].
  { unfold message_wf, is_u8, is_u16. cbn. repeat (split; [lia|]). by split. }
  unfold packet_of in Ht. rewrite packet_text_line in Ht by done. injection Ht as <-.
  change (line _ _ _) with (line (device_id_field p) (address p) (txt "=" ++ put_hex l)) in *.
  set (t := line _ _ _) in *. assert (forallb (fun c => negb (is_crlf c)) t = true) as Hplain.
  { unfold t, line. rewrite !forallb_app, !(plain_no_crlf (hex_out _ _)) by apply hex_out_plain.
    by rewrite (plain_no_crlf (put_hex l)) by apply put_hex_plain. }
  assert (is_blank t = false) as Hblank by done.
  rewrite on_read_ready_eq by (by rewrite Ho). rewrite Ho. change (t ++ CanServer.crlf) with (t ++ SocketConnection.crlf).
  rewrite scan_one_line by done. cbn [fst snd]. unfold after_lines. cbn [omap list_omap]. unfold parse. rewrite Hfault.
  destruct o as [[h|]]; cbn in *; subst; [by rewrite app_nil_r|done].
Qed.

Section Bus.
Context {HW : Hardware} {GL : GpioLaws HW} {CL : CanLaws HW} {FL : FlashLaws HW}.

(** C6. A query for the state of a switch, from the router to a node with a number below 128
    and back, on a connection with nothing half read.  The line
    the router writes is read by the bridge as a request with the identifier of that
    address; the node that receives the remote frame of that identifier puts a data frame
    with the state of the switch into a mailbox and requests its transmission, or, when no
    mailbox is free, blinks its error LED; and the line the bridge prints for that
    frame is dropped by the router's connection: nothing is posted, so nobody is told.
    A command with data does not even come as far: the bridge refuses its line. *)
Theorem query_answered_but_lost {St H} ch w d dlc bytes fmi (s : node) (o : sock H) (b : St) body :
  node_inv s -> is_channel ch -> module_at ch s = Some mod_switch_ptr -> sw_at ch w s ->
  device_id (n_sysinfo s) = d -> 0 <= d < 128 -> 0 <= dlc <= 8 -> length bytes = 8%nat -> Forall is_u8 bytes ->
  rx (mach s) = CanRx (HA_CAN_packet_id_to_number (channel_packet d ch HA_CAN_Node_Switch_Value))
                  CAN_Id_Extended CAN_RTR_Remote dlc bytes fmi ->
  read_buffer_ o = [] -> Forall is_u8 body -> (length body <= 8)%nat ->
  let address := HA_CAN_Node_field_address ch HA_CAN_Node_Switch_Value in
  let ask := line_of (PMessage (MkMessage Type_Request d address [])) in
  let answer := packet_of (_Id (rx (mach s))) [SwitchMode_value (sw_mode w)] in
  parse_packet ask CanPacket_default false b = Ok (Some (packet_of (_Id (rx (mach s))) [], true)) b /\
  wp total handle_received_data (fun _ s' =>
    exists rest, length rest = 7%nat /\
      answered (sent_frame (_Id (rx (mach s))) CAN_Id_Extended CAN_RTR_Data 1 (SwitchMode_value (sw_mode w) :: rest)) s s') s /\
  (exists t, packet_line answer b = Ok t b /\ on_read_ready (Received t) o = Ok tt o) /\
  parse_packet (line_of (PMessage (MkMessage Type_Data d address body))) CanPacket_default false b = Ok None b.
Proof.
  intros Hs Hch Hm Hw Hdev Hd Hdlc Hlen Hu Hrx Ho Hbody Hblen address ask answer.
  set (p := channel_packet d ch HA_CAN_Node_Switch_Value) in *. assert (packet_id_ok p) as Hp by by apply channel_packet_ok.
  assert (_Id (rx (mach s)) = HA_CAN_packet_id_to_number p) as Hid by by rewrite Hrx.
  assert (forall t l, Forall is_u8 l -> (length l <= 8)%nat -> (t = Type_Request -> l = []) ->
            message_wf (MkMessage t d address l)) as Hwf.
  { intros t l Hl Hn Ht. unfold message_wf. cbn. split; [unfold is_u8; lia|]. split; [apply u16_range|]. done. }
  assert (line_id d address = HA_CAN_packet_id_to_number p) as Hline.
  { unfold line_id. change 0x7f with (Z.ones 7). rewrite Z.land_ones, Z.mod_small by lia. done. }
  split; [|split; [|split]].
  - destruct (bridge_and_router_disagree (MkMessage Type_Request d address []) p [] b) as [H1 _]; [|done|done|simpl; lia|].
    + apply Hwf; [done|simpl; lia|done].
    + cbn [type_ device_id_ address_] in H1. rewrite Hline in H1. by rewrite Hid.
  - by apply (switch_query_answer ch w d CAN_RTR_Remote dlc bytes fmi).
  - unfold answer. rewrite Hid. apply bridge_line_lost; [done| |simpl; lia|done].
    constructor; [|done]. destruct (sw_mode w); unfold is_u8; simpl; lia.
  - destruct (bridge_and_router_disagree (MkMessage Type_Data d address body) p [] b) as [H1 _]; [|done|done|simpl; lia|].
    + by apply Hwf.
    + exact H1.
Qed.
End Bus.

(** Channel 1 of the device 0x55, and its answer 00. *)
Lemma query_answered_but_lost_witness :
  let o : sock unit := MkSock (Some tt) 0 true false [] [] false [] [] in
  parse_packet (txt "dev:55  addr:8101  ?" ++ CanServer.crlf) CanPacket_default false tt =
    Ok (Some (packet_of 0x00d58101 [], true)) tt /\
  on_read_ready (Received (txt "dev:55  addr:8101  =00" ++ CanServer.crlf)) o = Ok tt o.
Proof.
  intros o. destruct (query_answered_but_lost 1 plain_switch 0x55 1 [0; 0; 0; 0; 0; 0; 0; 0] 0 (switch_node CAN_RTR_Remote 0) o tt [])
    as (H1 & _ & H2 & _).
  - apply switch_node_inv.
  - unfold is_channel, CAN_Node_ChannelCount. lia.
  - reflexivity.
  - reflexivity.
  - reflexivity.
  - lia.
  - lia.
  - reflexivity.
  - repeat (constructor; [unfold is_u8; lia|]). constructor.
  - reflexivity.
  - reflexivity.
  - constructor.
  - simpl. lia.
  - split; [exact H1|]. destruct H2 as (t & Ht & H2). vm_compute in Ht. injection Ht as <-. exact H2.
Defined.
