(* ===== verification/Main.v ===== *)
(** The program, [firmware/stm8/can_node/main.c]: start-up, the main loop, and the
    theorems about the whole node. *)

From stdpp Require Import sets.
From S2P Require Import Prelude Monad CanProto Machine Gpio Tim4 Flash Eestream Clk CanDrv CanRules Sim State.
From S2P Require Import Led Clock Can Channel Switch Button Analog Ds18b20 Sysinfo Module Handlers Receive.

(** ** Operations *)

Section Operations.
Context {HW : Hardware}.

Definition configure_clock : prog node unit :=
  io (CLK_HSECmd ENABLE) ;;
  let! st := io (CLK_ClockSwitchConfig CLK_SWITCHMODE_AUTO CLK_SOURCE_HSE DISABLE CLK_CURRENTCLOCKSTATE_DISABLE) in
  when (bool_decide (st = ERROR))
    (io (CLK_HSECmd DISABLE) ;;
     io (CLK_HSIPrescalerConfig CLK_PRESCALER_HSIDIV2)) ;;
  io (CLK_PeripheralClockConfig CLK_PERIPHERAL_SPI DISABLE) ;;
  io (CLK_PeripheralClockConfig CLK_PERIPHERAL_UART1 DISABLE) ;;
  io (CLK_PeripheralClockConfig CLK_PERIPHERAL_UART2 DISABLE) ;;
  io (CLK_PeripheralClockConfig CLK_PERIPHERAL_UART3 DISABLE).

(** The two tables of [configure_unused_gpio], side by side. *)
Definition unused_pins : list (GPIO_TypeDef * Z) :=
  [(GPIOA, Z.lor (Z.lor GPIO_PIN_4 GPIO_PIN_5) GPIO_PIN_6);
   (GPIOB, Z.lor (Z.lor (Z.lor GPIO_PIN_4 GPIO_PIN_5) GPIO_PIN_6) GPIO_PIN_7);
   (GPIOC, Z.lor GPIO_PIN_5 GPIO_PIN_6);
   (GPIOD, Z.lor (Z.lor (Z.lor GPIO_PIN_0 GPIO_PIN_4) GPIO_PIN_5) GPIO_PIN_6);
   (GPIOE, Z.lor (Z.lor GPIO_PIN_0 GPIO_PIN_5) GPIO_PIN_6)].

Definition configure_unused_gpio : prog node unit :=
  for_each unused_pins (fun p => io (GPIO_Init p.1 p.2 GPIO_MODE_IN_PU_NO_IT)).

(** [&sysinfo_module], [&mod_proto], ...: the functions by which the files give
    out their module objects. *)
Definition CAN_Node_Sysinfo_get_module : option module_ptr := Some sysinfo_ptr.
Definition CAN_Node_mod_proto : option module_ptr := Some mod_proto_ptr.
Definition CAN_Node_mod_switch : option module_ptr := Some mod_switch_ptr.
Definition CAN_Node_mod_button : option module_ptr := Some mod_button_ptr.
Definition CAN_Node_mod_analog : option module_ptr := Some mod_analog_ptr.
Definition CAN_Node_mod_ds18b20 : option module_ptr := Some mod_ds18b20_ptr.

Definition register_modules : prog node unit :=
  CAN_Node_register_sysinfo_module CAN_Node_Sysinfo_get_module ;;
  CAN_Node_register_proto_module CAN_Node_mod_proto ;;
  CAN_Node_register_function_module HA_CAN_Node_Function_Switch CAN_Node_mod_switch ;;
  CAN_Node_register_function_module HA_CAN_Node_Function_Button CAN_Node_mod_button ;;
  CAN_Node_register_function_module HA_CAN_Node_Function_Analog CAN_Node_mod_analog ;;
  CAN_Node_register_function_module HA_CAN_Node_Function_DS18B20 CAN_Node_mod_ds18b20.

(** [main] up to the loop; interrupts stay disabled for good. *)
Definition main_init : prog node unit :=
  configure_clock ;;
  configure_unused_gpio ;;
  register_modules ;;
  CAN_Node_load_modules ;;
  CAN_Node_Led_init_all ;;
  let! status := CAN_Node_CAN_init in
  when (negb (bool_decide (status = CAN_InitStatus_Success))) (CAN_Node_Led_switch CAN_Node_Led_Error ENABLE) ;;
  CAN_Node_Clock_init ;;
  CAN_Node_Led_blink CAN_Node_Led_Info 10.

(** One round of [while (1)]. *)
Definition main_loop (fuel : nat) : prog node unit :=
  let! pending := CAN_Node_Clock_check_pending in
  when pending (CAN_Node_Led_clock ;; CAN_Node_handle_timer) ;;
  CAN_Node_CAN_handle_packets fuel.
End Operations.

(** ** Rules *)

Lemma clk_off_tape d : clk_reg d -> off_tape d.
Proof.
  unfold clk_reg, off_tape, eeprom, CLK_BaseAddress, FLASH_DATA_START_PHYSICAL_ADDRESS, FLASH_DATA_END_PHYSICAL_ADDRESS. lia.
Qed.

Section Rules.
Context {HW : Hardware} {GL : GpioLaws HW} {CL : CanLaws HW} {FL : FlashLaws HW}.

Lemma wp_clk {A} E h0 (m : prog machine A) (Q : A -> node -> Prop) s :
  touches clk_reg m -> keeps off_tape h0 (mach s) ->
  (forall a h, keeps off_tape h0 h -> Q a (set_mach h s)) -> wp E (io m) Q s.
Proof.
  intros Ht Hk HQ. eapply wp_io_off; [exact Ht|apply clk_off_tape|]. intros a h Hk'. by apply HQ, (keeps_trans _ _ (mach s)).
Qed.

Lemma configure_clock_wp E (Q : unit -> node -> Prop) s :
  (forall h, keeps off_tape (mach s) h -> Q tt (set_mach h s)) -> wp E configure_clock Q s.
Proof.
  intros HQ. unfold configure_clock.
  apply wp_bind, (wp_clk E (mach s)); [apply touches_CLK_HSECmd|apply keeps_refl|]. intros [] h1 K1.
  apply wp_bind, (wp_clk E (mach s)); [apply touches_CLK_ClockSwitchConfig|exact K1|]. intros st h2 K2.
  apply wp_bind. apply (wp_mono _ (fun _ s' => exists h, s' = set_mach h s /\ keeps off_tape (mach s) h)).
  - apply wp_when; intros _; [|by exists h2].
    apply wp_bind, (wp_clk E (mach s)); [apply touches_CLK_HSECmd|exact K2|]. intros [] h3 K3.
    apply (wp_clk E (mach s)); [apply touches_CLK_HSIPrescalerConfig|exact K3|]. intros [] h4 K4. by exists h4.
  - intros [] s' (h3 & -> & K3).
    apply wp_bind, (wp_clk E (mach s)); [apply touches_CLK_PeripheralClockConfig|exact K3|]. intros [] h4 K4.
    apply wp_bind, (wp_clk E (mach s)); [apply touches_CLK_PeripheralClockConfig|exact K4|]. intros [] h5 K5.
    apply wp_bind, (wp_clk E (mach s)); [apply touches_CLK_PeripheralClockConfig|exact K5|]. intros [] h6 K6.
    apply (wp_clk E (mach s)); [apply touches_CLK_PeripheralClockConfig|exact K6|]. intros [] h7 K7. by apply HQ.
Qed.

Lemma configure_unused_gpio_wp E (Q : unit -> node -> Prop) s :
  (forall h, keeps off_tape (mach s) h -> Q tt (set_mach h s)) -> wp E configure_unused_gpio Q s.
Proof.
  intros HQ. apply (wp_mono _ (fun _ s' => exists h, s' = set_mach h s /\ keeps off_tape (mach s) h)).
  2: { intros [] s' (h & -> & Hk). by apply HQ. }
  apply wp_for_each_inv; [exists (mach s); split; [by destruct s|apply keeps_refl]|].
  intros [p pins] s' Hin (h & -> & Hk). cbn [fst snd].
  assert (p ∈ gpio_ports) as Hp.
  { unfold unused_pins in Hin. unfold gpio_ports. rewrite !elem_of_cons in Hin. set_solver. }
  eapply wp_io_off; [by apply touches_GPIO_Init|by intros d; apply gpio_off_tape|]. intros [] h' Hk'.
  exists h'. split; [done|]. by apply (keeps_trans _ _ h).
Qed.

Lemma register_modules_eq h : register_modules (node_init h) = Ok tt (booted h).
Proof. reflexivity. Qed.

Lemma main_init_wp E (Q : unit -> node -> Prop) h :
  (forall h1, keeps off_tape h h1 ->
     wp E CAN_Node_load_modules (fun _ s1 => leds_ok (n_led s1) /\ forall s2, sends s1 s2 -> Q tt s2) (booted h1)) ->
  wp E main_init Q (node_init h).
Proof.
  intros Hload. unfold main_init.
  apply wp_bind, configure_clock_wp. intros h1 K1. apply wp_bind, configure_unused_gpio_wp. intros h2 K2.
  apply wp_bind. eapply wp_eq; [apply (register_modules_eq h2)|].
  apply wp_bind. eapply wp_mono; [apply Hload; by apply (keeps_trans _ _ h1)|]. intros [] s1 [Hl1 HQ].
  apply wp_bind, CAN_Node_Led_init_all_wp; [done|]. intros h3 _ _ K3.
  assert (sends s1 (set_mach h3 s1)) as S1.
  { apply sends_io; [done|]. eapply keeps_weaken; [exact K3|]. intros d. apply gpio_off_tape. unfold gpio_ports. set_solver. }
  apply wp_bind, CAN_Node_CAN_init_wp. intros status h4 K4.
  assert (sends s1 (set_mach h4 (set_mach h3 s1))) as S2 by (eapply sends_trans; [exact S1|by apply sends_io]).
  apply wp_bind. apply (wp_mono _ (fun _ s2 => sends s1 s2)).
  - apply wp_when; intros _; [|done]. eapply CAN_Node_Led_switch_wp; [by split|by right|].
    intros s2 v [Hl2 _] St. eapply sends_trans; [exact S2|]. by apply led_step_sends.
  - intros [] s2 S3. apply wp_bind, CAN_Node_Clock_init_wp. intros h5 K5.
    assert (sends s1 (set_mach h5 s2)) as S4 by (eapply sends_trans; [exact S3|by apply sends_io; [apply S3|]]).
    apply CAN_Node_Led_blink_sends; [apply S4|by left|unfold is_u8; lia|]. intros s3 S5.
    apply HQ. by eapply sends_trans.
Qed.

Lemma main_loop_wp fuel s : loop_inv s -> wp round_fault (main_loop fuel) (fun _ => loop_inv) s.
Proof.
  intros (Hs & Hc & Hr). unfold main_loop. apply wp_bind, CAN_Node_Clock_check_pending_wp; [done|].
  intros h Hk. set (s1 := set_mach h _).
  assert (loop_inv s1) as Hs1.
  { split; [exact Hs|]. split; [by apply clock_step_ok|]. destruct Hk as [_ [Hrx _]]. subst s1. cbn [set_mach mach]. by rewrite Hrx. }
  clearbody s1. apply wp_bind. apply (wp_mono _ (fun _ => loop_inv)); [|by intros [] s2; apply CAN_Node_CAN_handle_packets_wp].
  apply wp_when; intros _; [|done]. apply wp_bind. eapply CAN_Node_Led_clock_wp; [by split; [apply Hs1|]|].
  intros s2 [Hl2 _] St. pose proof (loop_inv_sends _ _ Hs1 (led_step_sends _ _ Hl2 St)) as (Hs2 & Hc2 & Hr2).
  apply CAN_Node_handle_timer_wp; [|done|].
  { intros c Hch Hadc s' Hn. left. left. split; [done|]. apply (can_wait_core s2); [done|].
    exists c. split; [done|]. by apply adc_waits. } intros s3 Hst.
  split; [by apply (node_inv_channels s2)|]. destruct Hst as (_ & (C1 & _ & _ & _ & [_ [C5 _]]) & _).
  split; [by rewrite C1|by rewrite C5].
Qed.
(** Start-up completes, whatever the EEPROM holds. *)
Lemma main_init_inv E h : rx h = can_rx_init -> wp E main_init (fun _ => loop_inv) (node_init h).
Proof.
  intros Hrx. apply main_init_wp. intros h1 K1. destruct (booted_inv h1) as [Hs Hno].
  apply CAN_Node_load_modules_wp; [done|done|]. intros s1 Hs1 [C1 C2] Hk. split; [apply Hs1|].
  intros s2 St. apply (loop_inv_sends s1); [|done]. split; [done|]. split; [by rewrite C1|].
  destruct Hk as [_ [-> _]], K1 as [_ [K1 _]]. cbn [booted set_module node_init mach]. rewrite K1, Hrx.
  unfold rx_ok, can_rx_init, is_u8. cbn [_Data _DLC _Id _IDE _RTR]. split; [done|].
  split; [apply Forall_replicate; unfold is_u8; lia|lia].
Qed.
End Rules.

(** ** The running program *)

(** The states of the node between two rounds of the main loop. *)
Inductive running {HW : Hardware} (h : machine) : node -> Prop :=
| running_start s : main_init (node_init h) = Ok tt s -> running h s
| running_round fuel s s' : running h s -> main_loop fuel s = Ok tt s' -> running h s'.

(** Start-up always completes and leaves the node well formed, whatever the
    EEPROM holds: a corrupt function number becomes no function, and no loop
    waits for the hardware without a bound. *)
Theorem boot_returns {HW : Hardware} {GL : GpioLaws HW} {CL : CanLaws HW} {FL : FlashLaws HW} h :
  rx h = can_rx_init -> wp total main_init (fun _ s => loop_inv s) (node_init h).
Proof. intros Hrx. by apply main_init_inv. Qed.

Lemma boot_returns_witness : wp total main_init (fun _ s => loop_inv s) (node_init sim_machine).
Proof. apply (boot_returns (HW:=sim) sim_machine). reflexivity. Defined.

(** C1. The node is safe: in every state of the running program the tables of
    channels and functions agree, every variable has its C range, and the LEDs,
    the clock and the last frame are well formed; and the next round
    of the main loop reaches such a state again, or stops for one of three reasons:
    a node with an analog channel or a thermometer waits for it without end, the
    reply to a request for the device number reads past its buffer, or the fuel given to
    the round is used up by the frames that keep coming, and then the node is still in
    order. *)
Theorem node_safe {HW : Hardware} {GL : GpioLaws HW} {CL : CanLaws HW} {FL : FlashLaws HW} h s fuel :
  rx h = can_rx_init -> running h s ->
  loop_inv s /\ wp round_fault (main_loop fuel) (fun _ s' => loop_inv s') s.
Proof.
  intros Hrx Hrun. assert (loop_inv s) as Hs.
  { induction Hrun as [s Hinit | fuel' s s' _ IH Hround].
    - pose proof (main_init_inv total h Hrx) as H.
      unfold wp in H. by rewrite Hinit in H.
    - pose proof (main_loop_wp fuel' s IH) as H. unfold wp in H. by rewrite Hround in H. }
  split; [done|]. by apply main_loop_wp.
Qed.

(** The node of the simulated machine after start-up. *)
Definition after_boot : node (HW:=sim) :=
  match main_init (node_init sim_machine) with Ok _ s => s | Fault _ s => s end.

Lemma after_boot_running : running sim_machine after_boot.
Proof.
  apply running_start. unfold after_boot.
  destruct (wp_total_inv _ _ _ (main_init_inv (HW:=sim) total sim_machine eq_refl)) as ([] & s & -> & _). reflexivity.
Qed.

Lemma node_safe_witness : loop_inv after_boot /\ wp round_fault (main_loop 4) (fun _ s' => loop_inv s') after_boot.
Proof. exact (node_safe (HW:=sim) sim_machine after_boot 4 eq_refl after_boot_running). Defined.

(** ** Power cycles *)

(** What a power cycle restores of a channel: the settings of a switch and of a button. *)
Definition setting_restored (m : option module_ptr) (before after : setting) : Prop :=
  match m with
  | Some mod_switch_ptr => s_switch after = s_switch before
  | Some mod_button_ptr => s_button after = s_button before
  | _ => True
  end.

Lemma agree_restored {HW : Hardware} {GL : GpioLaws HW} {CL : CanLaws HW} {FL : FlashLaws HW} m x y :
  agree_of m x y -> setting_restored m x y.
Proof. destruct m as [[]|]; try done; intros [Hp H]; done. Qed.

(** C2. The configuration survives a power cycle: after a save, a restart on any
    machine with the same EEPROM contents returns to the main loop with the same
    device number and label, the same function for every channel, and the same
    settings of every switch and every button.  (The settings of analog channels
    are the exception, [analog_settings_lost].) *)
Theorem configuration_survives_restart {HW : Hardware} {GL : GpioLaws HW} {CL : CanLaws HW} {FL : FlashLaws HW} s :
  node_inv s ->
  wp total CAN_Node_save_modules (fun _ s1 =>
    forall h, (forall d, eeprom d -> cells h d = cells (mach s1) d) ->
      wp total main_init (fun _ s2 =>
        n_sysinfo s2 = n_sysinfo s /\ n_module s2 = n_module s /\
        forall c, is_channel c -> setting_restored (module_at c s) (setting_of c s) (setting_of c s2)) (node_init h)) s.
Proof.
  intros Hs. apply save_modules_saves; [done|]. intros h1 _ (pls & Hp & Ht) h Hcells.
  apply main_init_wp. intros h2 K2. destruct (booted_inv h2) as [Hb Hno].
  change (image (set_mach h1 s) pls) with (image s pls) in Ht. cbn [set_mach mach] in Ht, Hcells.
  pose proof (image_size s pls Hs Hp) as Hsz.
  apply (CAN_Node_load_modules_restore_wp total _ _ s pls); [done|done|done|exact Hp| |].
  - eapply (tape_keeps off_tape); [by intros d Hd Hn; apply Hn|exact Hsz|exact K2|].
    intros k b Hk. rewrite Hcells; [by apply Ht|]. apply tape_cell_eeprom. apply lookup_lt_Some in Hk. lia.
  - intros s1 Hs1 _ Hsys Hmod Hag. split; [apply Hs1|].
    intros s2 ((E1 & E2 & E3 & E4 & E5 & E6 & _) & _). split; [congruence|]. split; [congruence|].
    intros c Hc. apply agree_restored. assert (setting_of c s2 = setting_of c s1) as ->; [|by apply Hag].
    unfold setting_of. by rewrite E2, E3, E4.
Qed.

Lemma configuration_survives_restart_witness :
  wp total (CAN_Node_save_modules (HW:=sim)) (fun _ s1 =>
    wp total main_init (fun _ s2 => device_id (n_sysinfo s2) = 0x55) (node_init (mach s1))) node55.
Proof.
  eapply wp_mono.
  - apply (configuration_survives_restart (HW:=sim) node55). exact (proj1 update_node_ok).
  - intros [] s1 H. eapply wp_mono; [exact (H (mach s1) (fun d _ => eq_refl))|].
    intros [] s2 (Hsys & _). rewrite Hsys. reflexivity.
Defined.
